(* ===== verification/_CoqProject ===== *)
-Q . S2P
Prelude.v
RingBuffer.v
IpcPipe.v
IpcMsgq.v
IpcStdin.v
FrameAlloc.v
PageTable.v
AddressSpace.v
AddressOps.v
AddressFork.v
AddressFree.v
VirtualMemory.v
RamFs.v
FdTable.v
FdPipes.v
Shm.v
Env.v
ElfLoader.v
Task.v
Argv.v
Sched.v
SchedSpec.v
ProcCalls.v
SchedInv.v
ProcSpec.v
Mbr.v
Fat.v
FatNames.v
FatOps.v
FatTable.v
FatFile.v
FatSpec.v
DiskStore.v
StoreFs.v
Ext2.v
Ext2Ops.v
Ext2Block.v
Ext2Alloc.v
Ext2Sample.v
Ext2Spec.v
Ext2Inode.v
Ext2File.v
Ext2FileSpec.v
Ext2Dir.v
Ext2DirSpec.v
Vfs.v
VfsSpec.v
Tty.v
Dispatch.v
DispatchSpec.v
FileCalls.v
Runtime.v
RuntimeInv.v
RuntimeSpec.v
WindowManager.v
WmSpec.v
Graphics.v
GraphicsSpec.v
GuiProc.v
GuiSpec.v
Menu.v
Notepad.v
NotepadText.v
NotepadEdit.v
NotepadSpec.v
NotepadFiles.v
Dns.v
DnsSpec.v
