(* ===== verification/Prelude.v ===== *)
(** * OxideOS: a verification library for the kernel

    OxideOS is a small x86-64 operating system written in Rust.  This library
    translates its kernel's own logic (under src/kernel/src/kernel/) into
    executable definitions and proves what makes each part correct.

    ** How the parts work together

    Programs run as tasks.  The scheduler keeps eight task slots; each task has a
    page table, a descriptor table, signal state and attachments to shared
    segments.  Page tables are built by the paging allocator, which counts
    references to physical frames and shares frames copy-on-write across fork.
    Descriptors lead to the in-memory filesystem, to pipes, to disk filesystems
    or to devices.  Tasks communicate through pipes, message queues and shared
    segments; the keyboard interrupt feeds the input queue.

    ** Files

    - Prelude: outcomes (a value, or the abort that an overflow or an index out
      of range causes), fallible stateful programs with their triples, machine
      integers, arrays, zero-initialised memory, byte strings, sums and counts,
      tactics ([bool_simpl], [len_lia]) and the hint databases [oxide] and
      [oxide_len].
    - RingBuffer: the ring of a producer and a consumer index that pipes, message
      queues and the input queue use.
    - IpcPipe (ipc/pipe.rs), IpcMsgq (ipc/ipc.rs), IpcStdin (ipc/stdin.rs):
      modules [pipe], [ipc], [stdin] translate the code; [pipe_spec] and
      [ipc_spec] are the abstract queues they refine; [stdin_isr] interleaves the
      keyboard interrupt with the statements of [pop].
    - FrameAlloc (mem/paging_allocator.rs, PhysicalFrameAllocator): module
      [frames]; [frames_spec] relates stored counts to references held.
    - PageTable (the rest of mem/paging_allocator.rs): modules [pte] and
      [paging], over physical memory as 64-bit words.
    - AddressSpace, AddressOps, AddressFork, AddressFree: the four-level tables as
      a finite tree of tables and mappings, and the effect of each operation on
      it; VirtualMemory (module [vm]) states the results about [walk], the
      translation the processor performs.
    - RamFs (fs/ramfs.rs, fs/mod.rs): module [ramfs]; [ramfs_spec] is a map from
      paths to nodes.
    - FdTable, FdPipes (fs/ramfs.rs, sys/syscall.rs): modules [fdtable] and
      [fd_pipes]; disk filesystems enter through the class [RawFile].
    - Shm (ipc/shm.rs): modules [shm] and [shm_spec].
    - Env (proc/env.rs): modules [env] and [env_spec].
    - ElfLoader (proc/elf_loader.rs): module [elf] over the class [UserSpace];
      [elf_spec] defines the image of a program byte by byte.
    - Task, Argv, Sched (proc/scheduler.rs, proc/user_mode.rs): the task record,
      the initial stack, and the scheduler over the classes [UserSpace] and
      [ProcMemory]; SchedSpec and SchedInv hold their properties and the invariant of
      the task table.
    - ProcCalls (sys/syscall.rs): the system calls that work on the running task;
      ProcSpec holds their properties.
    - Mbr (fs/mbr.rs): the class [BlockDevice] of disks with its laws, and the
      partition table in module [mbr].
    - Fat, FatOps (fs/fat.rs): module [fat] is the allocation table, directories
      and paths of the FAT16 driver, module [fatfs] its state and calls; the
      instance [fat_raw] makes it a [RawFile]. FatNames, FatTable, FatFile and
      FatSpec hold the properties of names, of the table, of chains as files and
      of the calls.
    - DiskStore (drivers/disk_store.rs): module [disk_store], the store of numbered
      records on a disk; [store_spec] is the map it refines.
    - StoreFs (fs/diskfs.rs, fs/procfs.rs): modules [diskfs] and [procfs], the files
      of the in-memory filesystem that show records, disks and kernel state.
    - Ext2, Ext2Ops (fs/ext2.rs): module [ext2] is block I/O, bitmaps and inodes of
      the ext2 driver, module [ext2fs] its directories, paths and calls; the
      instance [ext2_raw] makes it a [RawFile]. Ext2Block, Ext2Alloc, Ext2Inode,
      Ext2File and Ext2Dir describe the volume as blocks, used blocks, inode
      fields, file bytes and directory entries; Ext2Sample is a small volume;
      Ext2Spec, Ext2FileSpec and Ext2DirSpec hold the properties of the allocator,
      of files and of directories.
    - Vfs (fs/vfs.rs): module [vfs] dispatches paths over the in-memory filesystem,
      FAT16, ext2, devices and the record store, all on one set of disks; VfsSpec
      holds its properties.
    - Tty (proc/tty.rs): modules [tty] and [tty_spec], the terminal's settings.
    - Dispatch (sys/syscall_core.rs): module [syscall_core], the system call numbers,
      the checks of arguments and the forwarding to a runtime, the class
      [SyscallRuntime]; DispatchSpec proves what holds for every runtime.
    - FileCalls, Runtime (sys/syscall.rs): modules [file_calls] and
      [kernel_runtime] are the calls on files and the remaining ones, and the
      instance of [SyscallRuntime] that is the kernel; sockets, windows and the
      installer are asked through the class [Services]. RuntimeInv shows that every
      system call keeps the invariant of the task table, RuntimeSpec proves what a
      program sees of the calls.
    - WindowManager (kernel/src/gui/window_manager.rs, widgets.rs): module
      [window_manager], windows, stacking order, focus, dragging and menus; WmSpec
      holds its invariant and properties.
    - Graphics (kernel/src/gui/graphics.rs, colors.rs): module [graphics], drawing on
      the back buffer and presenting it; a drawing step is a function from screen to
      screen.  GraphicsSpec holds its properties.
    - GuiProc (kernel/gui/gui_proc.rs): module [gui_proc], the windows of processes
      on the two components above; module [gui_event] is the decoding of events in
      the user runtime (userspace/oxide-rt).  GuiSpec holds their properties.
    - Menu (kernel/src/gui/menu.rs), Notepad (kernel/src/gui/notepad.rs): modules
      [menu] and [notepad], menu bars and the text editor.  NotepadText shows the
      buffer as a list of lines, NotepadEdit the document and its undo history,
      NotepadSpec the abstract editor that the keys implement, NotepadFiles search,
      loading and saving.
    - Dns (drivers/net/dns.rs): module [dns], the name resolver, over the class
      [UdpNet] of datagram sockets; DnsSpec holds its properties.

    A comment of the form "@src file lines symbol" before a definition names the
    code it translates.

    ** How code is modelled

    The kernel is built with overflow checks and [panic = "abort"]: a function
    that can overflow or index out of range returns an [outcome], whose
    [Panic] is the abort.  Functions that return [Result] are [prog]s: an error
    keeps the changes made before it, as in the code.  Integers are [Z] with the
    bounds of their type written out; bytes are [Z] values; arrays are lists;
    large zeroed arrays and memory are finite maps.  Global variables are fields
    of a state that the operations take and return.  A call that never returns
    to its caller (leaving user mode) is the state it leaves and the code the
    scheduler receives.  Output to the serial port is left out.

    ** What the theorems show

    - Refinement: pipes, message queues, the in-memory filesystem (as long as no
      rename puts a file below a regular file) and the environment answer every
      sequence of calls as a simple abstract object does, errors included, and
      never panic.
    - Memory: over any history of page-table operations, writable frames are
      mapped once, fork shares or copies every page (and passes attached segments on), a
      write fault gives a private copy, unmapping and teardown touch only what they should, and the reference
      counts are exact.
    - Descriptors: pipe reference counts equal the descriptors that name the end;
      unlinking keeps other descriptors; write, seek and read round-trip.
    - Processes: whatever programs do, numbers name slots; a ready task is dispatched within eight
      ticks, signals are delivered lowest first, a waiting parent gets its child's
      exit code, fork copies the parent, the ELF image and the initial stack read
      back as they should.
    - Disk files: on a disk without errors, writing a table entry keeps the copies
      in step, allocation takes the lowest free cluster, freeing a chain ends and
      frees exactly the chain, reading and writing a file follow its chain and
      leave every other file alone, and short names round-trip.  On ext2, the block
      allocator hands out free blocks and keeps bitmaps and counts in step and on
      the disk, reading and writing follow the block list, and a directory is a
      map from names to inodes.  The record store is a map that survives restarts.
    - System calls: the slices handed to the runtime lie in user space; through all
      layers, positioned writes and reads round-trip, [poll] reports what is ready,
      the records of [getdents64] parse back to the listing, and the terminal gives its
      settings back as they were set.
    - Windows and drawing: no sequence of window operations and mouse events makes
      the window manager abort, its order is a list of the open windows and clicks
      go to the topmost; drawing never leaves the screen's memory, lines are within
      half a pixel of the ideal ones, the cursor leaves no trace; a process draws in
      its own windows only, the desktop shows what it presented and its events
      arrive in order and as they were sent.
    - Text editor: its keys are those of an abstract editor on a list of lines, undo
      and redo take recorded edits back and repeat them, a saved text opens again,
      and searching goes to the next occurrence.
    - Name resolver: no datagram aborts the kernel or is read outside its bounds, the
      query is the encoding of the name and a reply gives its first address, dotted
      addresses are read as written, and whatever the network does a lookup ends within
      300 calls.
    - Bounds and errors: several theorems state inputs for which the code does
      not do what it is meant to (overflows that abort the kernel, lost signals,
      retargeted descriptors, frames that are shared by mistake, overwritten
      clusters, paths that carry their terminator).

    ** Bounds and fuel

    Loops over fixed tables are recursions over their indices.  The loop of
    [deliver_pending_signals] has 32 turns, one per bit of the mask;
    [SchedSpec.sched_spec.deliver_loop_ref] shows they suffice.  Loops over a chain of
    clusters have 65537 turns, more than the table has entries;
    [FatTable.fat_table.fat_free_chain_terminates] shows that freeing needs no
    more, and directories with cyclic chains, on which the code would not end,
    give [Panic].  Reading and writing a file have a turn for each byte
    (in the text editor too).  Loops over
    the entries of an ext2 directory block have a turn more than the block has
    bytes, since an entry that does not advance ends the loop.  Measuring an ext2
    file has a turn more than its blocks have bytes, reading a program from the FAT16
    disk one more than the file has bytes
    ([RuntimeSpec.runtime_spec.read_whole_turns] shows that more change nothing),
    and the length of a string is looked for in 4096 bytes, as in the code.  A line
    has a turn for each pixel of its bounding box's half circumference
    ([GraphicsSpec.graphics_spec.line_loop_ok] shows they suffice), a circle one more than
    its radius.  Walking over a name in a datagram has a turn more than the datagram has
    bytes ([DnsSpec.dns_spec.skip_loop_safe] shows they suffice).  Other loops recurse on the data they consume.

    ** Not modelled

    Device drivers, interrupt entry code and the network stack below the name resolver
    are port I/O, assembly or calls of a library.  Text rendering, the drawing of window frames
    and the other programs of the desktop (compositor, terminal, panels) are outside
    the model.  User programs are arbitrary sequences of stores and system calls; of their
    runtime only the decoding of window events is modelled.

    Theorems about the memory of programs (loading, the initial stack, system calls that
    read or write a program's buffer) are proved against the class [UserSpaceLaws], the
    behaviour of mapped memory as bytes; its instances here are flat memories.  The paging
    code itself is verified on physical memory in VirtualMemory and is not connected to
    the class. *)

From stdpp Require Import base list gmap strings numbers.
From Stdlib Require Import ZArith Lia Ascii.

Local Open Scope Z_scope.

(** ** Outcomes

    The kernel is built with the [dev] profile and [panic = "abort"]: an
    out-of-range index, an out-of-range slice and an arithmetic overflow abort
    the kernel.  [Panic] is that abort; a function whose source can reach one of
    them returns an [outcome]. *)

Inductive outcome (A : Type) : Type :=
| Ret (a : A)
| Panic.
Arguments Ret {A} a.
Arguments Panic {A}.

#[export] Instance outcome_mret : MRet outcome := @Ret.
#[export] Instance outcome_mbind : MBind outcome := fun A B f m =>
  match m with Ret a => f a | Panic => Panic end.
#[export] Instance outcome_fmap : FMap outcome := fun A B f m =>
  match m with Ret a => Ret (f a) | Panic => Panic end.

#[export] Instance outcome_eq_dec {A} `{EqDecision A} : EqDecision (outcome A).
Proof. solve_decision. Defined.

(** Rust's [Result<T, E>]. *)
Inductive result (A E : Type) : Type :=
| Ok (a : A)
| Err (e : E).
Arguments Ok {A E} a.
Arguments Err {A E} e.

#[export] Instance result_eq_dec {A E} `{EqDecision A} `{EqDecision E} :
  EqDecision (result A E).
Proof. solve_decision. Defined.

Declare Scope rust_scope.
Delimit Scope rust_scope with rust.

(** [let! x := m in k] sequences outcomes. *)
Notation "'let!' x := m 'in' k" :=
  (mbind (M := outcome) (fun x => k) m)
  (at level 10, x pattern, m at level 100, k at level 200)
  : rust_scope.
Open Scope rust_scope.

Lemma bind_Ret {A B} (m : outcome A) (f : A -> outcome B) b :
  (let! x := m in f x) = Ret b <-> exists a, m = Ret a /\ f a = Ret b.
Proof. destruct m as [x|]; cbn; [|by split; [|intros (? & ? & ?)]].
  split; [by exists x|by intros (? & [= ->] & ?)]. Qed.

Definition returns {A} (o : outcome A) : bool := match o with Ret _ => true | Panic => false end.

Lemma returns_Ret {A} (o : outcome A) : returns o = true -> exists a, o = Ret a.
Proof. destruct o as [a|]; [eauto|done]. Qed.

(** ** Fallible stateful code

    [prog W E A]: code that works on a state [W] and returns [Ok] or [Err], as
    the functions that return [Result<A, E>] and use [?] do.  An error keeps the
    changes made before it. *)

Definition prog (W E A : Type) : Type := W -> outcome (result A E * W).

Definition ok {W E A} (a : A) : prog W E A := fun w => Ret (Ok a, w).
Definition err {W E A} (e : E) : prog W E A := fun w => Ret (Err e, w).
Definition pbind {W E A B} (m : prog W E A) (k : A -> prog W E B) : prog W E B := fun w =>
  match m w with
  | Ret (Ok a, w') => k a w'
  | Ret (Err e, w') => Ret (Err e, w')
  | Panic => Panic
  end.
Definition get {W E} : prog W E W := fun w => Ret (Ok w, w).
Definition put {W E} (w : W) : prog W E unit := fun _ => Ret (Ok tt, w).
Definition modify {W E} (f : W -> W) : prog W E unit := fun w => Ret (Ok tt, f w).
Definition checked {W E A} (o : outcome A) : prog W E A := fun w =>
  match o with Ret a => Ret (Ok a, w) | Panic => Panic end.
(** [m.ok()], or [let _ = m]: the error is dropped, the changes stay. *)
Definition catch {W E E' A} (m : prog W E A) : prog W E' (result A E) := fun w =>
  match m w with Ret (r, w') => Ret (Ok r, w') | Panic => Panic end.

Notation "'let?' x := m 'in' k" := (pbind m (fun x => k))
  (at level 10, x pattern, m at level 100, k at level 200) : rust_scope.

(** [o.ok_or(e)?] *)
Definition ok_or {W E A} (o : option A) (e : E) : prog W E A :=
  match o with Some a => ok a | None => err e end.

(** [for x in xs { body }], the body leaving the loop by an error. *)
Fixpoint for_each {W E X} (xs : list X) (body : X -> prog W E unit) : prog W E unit :=
  match xs with
  | [] => ok tt
  | x :: xs' => let? _ := body x in for_each xs' body
  end.

Lemma for_each_ext {W E X} (xs : list X) (f g : X -> prog W E unit) w :
  (forall x w, f x w = g x w) -> for_each xs f w = for_each xs g w.
Proof.
  intros H. revert w. induction xs as [|x xs IH]; intros w; cbn; [done|].
  unfold pbind. rewrite H. destruct (g x w) as [[[]?]|]; [apply IH|done..].
Qed.

(** Hoare-style rule: from a state satisfying [P], no panic, and the result and
    final state are related by [Q]. *)
Definition triple {W E A} (P : W -> Prop) (m : prog W E A) (Q : result A E -> W -> Prop) : Prop :=
  forall w, P w -> exists r w', m w = Ret (r, w') /\ Q r w'.

Lemma triple_bind {W E A B} P (m : prog W E A) R (k : A -> prog W E B) Q :
  triple P m R ->
  (forall a, triple (R (Ok a)) (k a) Q) -> (forall e w, R (Err e) w -> Q (Err e) w) ->
  triple P (pbind m k) Q.
Proof.
  intros Hm Hk He w Hw. destruct (Hm w Hw) as ([a|e] & w' & E1 & HR); unfold pbind; rewrite E1.
  - by apply Hk.
  - eauto.
Qed.

Lemma triple_conseq {W E A} (P P' : W -> Prop) (m : prog W E A) (Q Q' : result A E -> W -> Prop) :
  triple P m Q -> (forall w, P' w -> P w) -> (forall r w, Q r w -> Q' r w) -> triple P' m Q'.
Proof. intros H HP HQ w Hw. destruct (H w (HP w Hw)) as (r & w' & ? & ?); eauto. Qed.

Lemma triple_for_each {W E X} (I : list X -> W -> Prop) (F : E -> W -> Prop)
    (xs : list X) (body : X -> prog W E unit) :
  (forall done x rest, xs = done ++ x :: rest ->
     triple (I done) (body x) (fun r w => match r with Ok _ => I (done ++ [x]) w | Err e => F e w end)) ->
  triple (I []) (for_each xs body) (fun r w => match r with Ok _ => I xs w | Err e => F e w end).
Proof.
  intros Hb.
  assert (forall rest done, xs = done ++ rest ->
    triple (I done) (for_each rest body)
      (fun r w => match r with Ok _ => I xs w | Err e => F e w end)) as H.
  { induction rest as [|x rest IH]; intros done Hx; cbn [for_each].
    - intros w Hw. exists (Ok tt), w. split; [done|]. by rewrite Hx, app_nil_r.
    - eapply triple_bind; [by eapply Hb| |done].
      intros []. apply IH. by rewrite <- app_assoc. }
  by apply H.
Qed.

(** ** Machine integers *)

Definition u8_max : Z := 255.
Definition u16_max : Z := 65535.
Definition u32_max : Z := 4294967295.
Definition u64_max : Z := 18446744073709551615.

(** [as uN] on an integer: keep the low [w] bits. *)
Definition wrap (w x : Z) : Z := x mod 2 ^ w.

(** [as i32] / [as i64] on an integer. *)
Definition swrap (w x : Z) : Z :=
  let r := x mod 2 ^ w in if r <? 2 ^ (w - 1) then r else r - 2 ^ w.

Lemma swrap_id (v x : Z) : 0 < v -> - 2 ^ (v - 1) <= x < 2 ^ (v - 1) -> swrap v x = x.
Proof.
  intros Hw Hx. unfold swrap. assert (2 ^ v = 2 * 2 ^ (v - 1)) as E by (rewrite <- Z.pow_succ_r by lia; f_equal; lia).
  rewrite E. destruct (Z.ltb_spec x 0).
  - rewrite <- (Z.mod_unique_pos x (2 * 2 ^ (v - 1)) (-1) (x + 2 * 2 ^ (v - 1))) by lia. destruct (Z.ltb_spec (x + 2 * 2 ^ (v - 1)) (2 ^ (v - 1))); lia.
  - rewrite Z.mod_small by lia. destruct (Z.ltb_spec x (2 ^ (v - 1))); lia.
Qed.

(** [a + b] on an unsigned type with maximum [mx], overflow checked. *)
Definition cadd (mx a b : Z) : outcome Z :=
  if a + b <=? mx then Ret (a + b) else Panic.
Definition cmul (mx a b : Z) : outcome Z :=
  if a * b <=? mx then Ret (a * b) else Panic.
Definition csub (a b : Z) : outcome Z :=
  if b <=? a then Ret (a - b) else Panic.

Lemma cadd_le mx a b : a + b <= mx -> cadd mx a b = Ret (a + b).
Proof. intros H. unfold cadd. by apply Z.leb_le in H as ->. Qed.
Lemma cadd_gt mx a b : mx < a + b -> cadd mx a b = Panic.
Proof. intros H. unfold cadd. by apply Z.leb_gt in H as ->. Qed.
Lemma cmul_le mx a b : a * b <= mx -> cmul mx a b = Ret (a * b).
Proof. intros H. unfold cmul. by apply Z.leb_le in H as ->. Qed.
Lemma csub_le a b : b <= a -> csub a b = Ret (a - b).
Proof. intros H. unfold csub. by apply Z.leb_le in H as ->. Qed.

Definition isize_max : Z := 9223372036854775807.

Definition sat_add (mx a b : Z) : Z := Z.min mx (a + b).
Definition sat_sub (a b : Z) : Z := Z.max 0 (a - b).

(** ** Arrays and slices *)

Section Arrays.
Context {A : Type}.
Implicit Types (l src : list A) (i n : nat).

(** [l[i]] *)
Definition idx l i : outcome A :=
  match l !! i with Some x => Ret x | None => Panic end.

(** [l[i] = x] *)
Definition set_idx l i (x : A) : outcome (list A) :=
  if (i <? length l)%nat then Ret (<[i := x]> l) else Panic.

(** [&l[a..b]] *)
Definition slice l (a b : nat) : outcome (list A) :=
  if ((a <=? b) && (b <=? length l))%nat then Ret (take (b - a) (drop a l)) else Panic.

(** The list [l] with [src] written from offset [i] on; the length of [l] does
    not change when [src] fits. *)
Definition splice l i src : list A := take i l ++ src ++ drop (i + length src) l.

(** [l[i..i + src.len()].copy_from_slice(src)] *)
Definition copy_at l i src : outcome (list A) :=
  if (i + length src <=? length l)%nat then Ret (splice l i src) else Panic.

(** Index of the first element satisfying [f] ([Iterator::position], and the
    [for i in 0..N] scans that stop at the first match). *)
Fixpoint position (f : A -> bool) l : option nat :=
  match l with
  | [] => None
  | x :: l' => if f x then Some 0%nat else S <$> position f l'
  end.

(** [Vec::resize(n, x)] *)
Definition resize_vec l n (x : A) : list A := take n l ++ replicate (n - length l) x.

Lemma idx_Ret l i x : idx l i = Ret x <-> l !! i = Some x.
Proof. unfold idx. destruct (l !! i); naive_solver. Qed.

Lemma idx_lt l i : (i < length l)%nat -> exists x, idx l i = Ret x /\ l !! i = Some x.
Proof.
  intros Hi. destruct (lookup_lt_is_Some_2 l i Hi) as [x Hx].
  exists x. by rewrite idx_Ret.
Qed.

Lemma set_idx_lt l i x : (i < length l)%nat -> set_idx l i x = Ret (<[i := x]> l).
Proof. intros Hi. unfold set_idx. by apply Nat.ltb_lt in Hi as ->. Qed.

Lemma set_idx_Ret l i x l' :
  set_idx l i x = Ret l' <-> (i < length l)%nat /\ l' = <[i := x]> l.
Proof. unfold set_idx. destruct (Nat.ltb_spec i (length l)); naive_solver lia. Qed.

Lemma slice_le l (a b : nat) :
  (a <= b <= length l)%nat -> slice l a b = Ret (take (b - a) (drop a l)).
Proof.
  intros [H1 H2]. unfold slice.
  apply Nat.leb_le in H1 as ->. by apply Nat.leb_le in H2 as ->.
Qed.

Lemma copy_at_le l i src :
  (i + length src <= length l)%nat -> copy_at l i src = Ret (splice l i src).
Proof. intros H. unfold copy_at. by apply Nat.leb_le in H as ->. Qed.

Lemma length_splice l i src :
  (i + length src <= length l)%nat -> length (splice l i src) = length l.
Proof.
  intros H. unfold splice. rewrite !length_app, length_take, length_drop. lia.
Qed.

Lemma lookup_splice_in l i src (k : nat) :
  (i <= length l)%nat -> (i <= k < i + length src)%nat ->
  splice l i src !! k = src !! (k - i)%nat.
Proof.
  intros H1 H2. unfold splice.
  rewrite lookup_app_r by (rewrite length_take; lia).
  rewrite lookup_app_l by (rewrite length_take; lia).
  f_equal. rewrite length_take. lia.
Qed.

Lemma lookup_splice_out l i src (k : nat) :
  (i + length src <= length l)%nat -> (k < i \/ i + length src <= k)%nat ->
  splice l i src !! k = l !! k.
Proof.
  intros H1 [H2|H2]; unfold splice.
  - rewrite lookup_app_l by (rewrite length_take; lia). by rewrite lookup_take_lt.
  - rewrite lookup_app_r by (rewrite length_take; lia).
    rewrite lookup_app_r by (rewrite length_take; lia).
    rewrite lookup_drop. f_equal. rewrite length_take. lia.
Qed.

Lemma splice_nil l i : splice l i [] = l.
Proof. unfold splice. cbn. by rewrite Nat.add_0_r, take_drop. Qed.

Lemma splice_insert_cons l i x src :
  (i < length l)%nat -> splice (<[i := x]> l) (i + 1) src = splice l i (x :: src).
Proof.
  intros Hi. unfold splice. rewrite Nat.add_1_r.
  rewrite (take_S_r _ _ x) by (by apply list_lookup_insert_eq).
  rewrite take_insert_ge, drop_insert_lt by lia.
  rewrite <- app_assoc. cbn. do 4 f_equal. lia.
Qed.

Lemma insert_splice l i x : (i < length l)%nat -> <[i := x]> l = splice l i [x].
Proof.
  intros Hi. rewrite <- (splice_nil (<[i := x]> l) (i + 1)). by apply splice_insert_cons.
Qed.

Lemma splice_app l i s t :
  (i + length s <= length l)%nat -> splice (splice l i s) (i + length s) t = splice l i (s ++ t).
Proof.
  intros H. unfold splice. rewrite length_app.
  rewrite (app_assoc (take i l) s), take_app_length' by (rewrite length_app, length_take; lia).
  rewrite drop_app_ge by (rewrite length_app, length_take; lia).
  rewrite drop_drop, <- !app_assoc. do 4 f_equal.
  rewrite length_app, length_take. lia.
Qed.

Lemma position_Some f l i :
  position f l = Some i <->
  exists x, l !! i = Some x /\ f x = true /\
            forall j y, (j < i)%nat -> l !! j = Some y -> f y = false.
Proof.
  revert i. induction l as [|a l IH]; intros i; cbn.
  { split; [done|]. intros (x & Hx & _). done. }
  destruct (f a) eqn:Ha.
  - split.
    + intros [= <-]. exists a. split_and!; auto. intros; lia.
    + intros (x & Hx & Hf & Hmin). destruct i as [|i]; [done|].
      specialize (Hmin 0%nat a ltac:(lia) eq_refl). congruence.
  - rewrite fmap_Some. split.
    + intros (k & Hk & ->). apply IH in Hk as (x & Hx & Hf & Hmin).
      exists x. split_and!; auto. intros [|j] y Hj Hy; cbn in *; [congruence|].
      apply (Hmin j y); [lia|done].
    + intros (x & Hx & Hf & Hmin). destruct i as [|i]; cbn in *; [congruence|].
      exists i. split; [|done]. apply IH. exists x. split_and!; auto.
      intros j y Hj Hy. apply (Hmin (S j) y); [lia|done].
Qed.

Lemma position_None f l :
  position f l = None <-> forall i x, l !! i = Some x -> f x = false.
Proof.
  induction l as [|a l IH]; cbn; [naive_solver|].
  destruct (f a) eqn:Ha.
  - split; [done|]. intros H. specialize (H 0%nat a eq_refl). congruence.
  - rewrite fmap_None, IH. split.
    + intros H [|i] x Hx; cbn in *; [congruence|eauto].
    + intros H i x Hx. apply (H (S i) x Hx).
Qed.

Lemma position_lt f l i : position f l = Some i -> (i < length l)%nat.
Proof. intros (x & Hx & _)%position_Some. by apply lookup_lt_Some in Hx. Qed.

Lemma length_resize_vec l n x : length (resize_vec l n x) = n.
Proof. unfold resize_vec. rewrite length_app, length_take, length_replicate. lia. Qed.

Lemma alter_insert (f : A -> A) l i x : l !! i = Some x -> alter f i l = <[i := f x]> l.
Proof.
  revert i. induction l as [|a l IH]; intros [|i] H; cbn in *; [done|done| |].
  - by injection H as ->.
  - f_equal. by apply IH.
Qed.

End Arrays.

Lemma position_ext {A} (f g : A -> bool) l :
  (forall i x, l !! i = Some x -> f x = g x) -> position f l = position g l.
Proof.
  induction l as [|a l IH]; intros H; cbn; [done|].
  rewrite (H 0%nat a eq_refl). destruct (g a); [done|].
  by rewrite IH; [|intros i x Hx; apply (H (S i) x Hx)].
Qed.

(** ** Large zero-initialised arrays and memory

    A word array as a finite map, absent entries reading as zero: the frame
    bitmap, the reference counts, physical memory. *)

Definition rd (m : gmap Z Z) (i : Z) : Z := default 0 (m !! i).
Definition wr (m : gmap Z Z) (i v : Z) : gmap Z Z := <[i := v]> m.

Lemma rd_wr m i j v : rd (wr m i v) j = if decide (i = j) then v else rd m j.
Proof. unfold rd, wr. rewrite lookup_insert. by case_decide. Qed.

Lemma rd_wr_eq m i v : rd (wr m i v) i = v.
Proof. rewrite rd_wr. by rewrite decide_True. Qed.

Lemma rd_wr_ne m i j v : i <> j -> rd (wr m i v) j = rd m j.
Proof. intros. rewrite rd_wr. by rewrite decide_False. Qed.

Lemma rd_empty i : rd ∅ i = 0.
Proof. done. Qed.

Lemma bool_decide_Zeqb (n k : Z) : bool_decide (n = k) = (n =? k).
Proof.
  destruct (Z.eqb_spec n k); [by apply bool_decide_eq_true|by apply bool_decide_eq_false].
Qed.

(** ** Single bits *)

(** [1 << k] as a mask. *)
Definition bit (k : Z) : Z := Z.shiftl 1 k.

Lemma bit_testbit k n : 0 <= k -> 0 <= n -> Z.testbit (bit k) n = bool_decide (n = k).
Proof.
  intros Hk Hn. unfold bit. rewrite Z.shiftl_1_l.
  destruct (decide (n = k)) as [->|Hne].
  - rewrite Z.pow2_bits_true by lia. by rewrite bool_decide_true.
  - rewrite Z.pow2_bits_false by lia. by rewrite bool_decide_false.
Qed.

(** [w & (1 << k) == 0] *)
Lemma land_bit_zero w k : 0 <= k -> (Z.land w (bit k) =? 0) = negb (Z.testbit w k).
Proof.
  intros Hk. destruct (Z.testbit w k) eqn:Hb; cbn.
  - apply Z.eqb_neq. intros H0. apply (f_equal (fun x => Z.testbit x k)) in H0.
    rewrite Z.land_spec, Hb, bit_testbit, bool_decide_true, Z.bits_0 in H0 by done. done.
  - apply Z.eqb_eq. apply Z.bits_inj'. intros n Hn.
    rewrite Z.land_spec, bit_testbit, Z.bits_0 by done.
    destruct (decide (n = k)) as [->|]; [by rewrite Hb|].
    rewrite bool_decide_false by done. by rewrite andb_false_r.
Qed.

(** [w | (1 << k)] and [w & !(1 << k)] *)
Lemma lor_bit_testbit w k n :
  0 <= k -> 0 <= n -> Z.testbit (Z.lor w (bit k)) n = Z.testbit w n || bool_decide (n = k).
Proof. intros. by rewrite Z.lor_spec, bit_testbit. Qed.

Lemma ldiff_bit_testbit w k n :
  0 <= k -> 0 <= n ->
  Z.testbit (Z.ldiff w (bit k)) n = Z.testbit w n && negb (bool_decide (n = k)).
Proof. intros. by rewrite Z.ldiff_spec, bit_testbit. Qed.

(** ** Byte strings *)

(** A [&str] or [&[u8]] literal as its bytes. *)
Definition str (s : string) : list Z :=
  (fun a => Z.of_nat (nat_of_ascii a)) <$> String.list_ascii_of_string s.

(** [str::split(c)] *)
Fixpoint split (c : Z) (s : list Z) : list (list Z) :=
  match s with
  | [] => [[]]
  | b :: s' =>
      if b =? c then [] :: split c s'
      else match split c s' with p :: ps => (b :: p) :: ps | [] => [[b]] end
  end.

(** [str::trim_end_matches(c)] *)
Fixpoint trim_end (c : Z) (s : list Z) : list Z :=
  match s with
  | [] => []
  | b :: s' =>
      match trim_end c s' with
      | [] => if b =? c then [] else [b]
      | t => b :: t
      end
  end.

(** [str::rfind(c)] *)
Fixpoint rfind (c : Z) (s : list Z) : option nat :=
  match s with
  | [] => None
  | b :: s' =>
      match rfind c s' with
      | Some i => Some (S i)
      | None => if b =? c then Some 0%nat else None
      end
  end.

(** [str::starts_with] *)
Fixpoint starts_with (s pre : list Z) : bool :=
  match pre, s with
  | [], _ => true
  | c :: pre', b :: s' => (b =? c) && starts_with s' pre'
  | _ :: _, [] => false
  end.

Lemma split_nonempty c s : split c s <> [].
Proof. destruct s as [|b s]; cbn; [done|]. destruct (b =? c); [done|]. by destruct (split c s). Qed.

Lemma split_sep c s t : split c (s ++ c :: t) = split c s ++ split c t.
Proof.
  induction s as [|b s IH]; cbn; [by rewrite Z.eqb_refl|].
  rewrite IH. destruct (b =? c); [done|].
  pose proof (split_nonempty c s). by destruct (split c s).
Qed.

Lemma split_no_sep c s : c ∉ s -> split c s = [s].
Proof.
  induction s as [|b s IH]; intros H; cbn; [done|].
  apply not_elem_of_cons in H as [? ?]. rewrite IH by done.
  by destruct (Z.eqb_spec b c); [congruence|].
Qed.

Lemma trim_end_spec c s :
  exists k, s = trim_end c s ++ replicate k c /\ forall t, trim_end c s <> t ++ [c].
Proof.
  induction s as [|b s (k & Hs & Hn)]; cbn.
  { exists 0%nat. split; [done|]. by intros []. }
  destruct (trim_end c s) as [|a t] eqn:Ht.
  - destruct (Z.eqb_spec b c) as [->|].
    + exists (S k). split; [by rewrite Hs at 1|]. by intros [].
    + exists k. split; [by rewrite Hs at 1|]. intros [|? [|]] E; by simplify_eq/=.
  - exists k. split; [by rewrite Hs at 1|].
    intros [|x u]; [done|]. intros [= -> E]. by apply (Hn u).
Qed.

Lemma rfind_Some c s i : rfind c s = Some i ->
  exists a b, s = a ++ c :: b /\ length a = i /\ c ∉ b.
Proof.
  revert i. induction s as [|x s IH]; intros i; cbn; [done|].
  destruct (rfind c s) as [j|] eqn:E.
  - intros [= <-]. destruct (IH j eq_refl) as (a & b & -> & <- & ?). by exists (x :: a), b.
  - destruct (Z.eqb_spec x c) as [->|]; [|done]. intros [= <-]. exists [], s. split_and!; [done..|].
    clear IH. revert E. induction s as [|y s IH]; cbn; [by intros _ ?%elem_of_nil|].
    destruct (rfind c s); [done|]. destruct (Z.eqb_spec y c); [done|].
    intros _. apply not_elem_of_cons. auto.
Qed.

Lemma rfind_None c s : rfind c s = None -> c ∉ s.
Proof.
  induction s as [|y s IH]; cbn; [by intros _ ?%elem_of_nil|].
  destruct (rfind c s); [done|]. destruct (Z.eqb_spec y c); [done|].
  intros _. apply not_elem_of_cons. auto.
Qed.

(** [u16::from_le_bytes], [u32::from_le_bytes], [u64::to_le_bytes], ... *)
Fixpoint le_decode (bs : list Z) : Z :=
  match bs with
  | [] => 0
  | b :: bs' => b + 256 * le_decode bs'
  end.

Fixpoint le_encode (n : nat) (x : Z) : list Z :=
  match n with
  | O => []
  | S n' => x mod 256 :: le_encode n' (x / 256)
  end.

Definition is_byte (b : Z) : Prop := 0 <= b < 256.

Lemma length_le_encode n x : length (le_encode n x) = n.
Proof. revert x. induction n; intros; cbn; auto. Qed.

Lemma le_decode_encode n x :
  0 <= x < 2 ^ (8 * Z.of_nat n) -> le_decode (le_encode n x) = x.
Proof.
  revert x. induction n as [|n IH]; intros x Hx; cbn [le_encode le_decode].
  { change (2 ^ (8 * Z.of_nat 0)) with 1 in Hx. lia. }
  rewrite IH.
  - pose proof (Z.div_mod x 256). lia.
  - replace (8 * Z.of_nat (S n)) with (8 + 8 * Z.of_nat n) in Hx by lia.
    rewrite Z.pow_add_r in Hx by lia. change (2 ^ 8) with 256 in Hx.
    split; [apply Z.div_pos; lia|apply Z.div_lt_upper_bound; lia].
Qed.

Lemma le_encode_bytes n x : Forall is_byte (le_encode n x).
Proof.
  revert x. induction n as [|n IH]; intros x; cbn; constructor; [|done].
  apply Z.mod_pos_bound. lia.
Qed.

Lemma le_encode_decode bs : Forall is_byte bs -> le_encode (length bs) (le_decode bs) = bs.
Proof.
  induction 1 as [|b bs Hb Hbs IH]; [done|]. cbn [length le_encode le_decode]. unfold is_byte in Hb.
  replace ((b + 256 * le_decode bs) mod 256) with b by (rewrite Z.mul_comm, Z.mod_add, Z.mod_small; lia).
  replace ((b + 256 * le_decode bs) / 256) with (le_decode bs) by (rewrite Z.mul_comm, Z.div_add, (Z.div_small b); lia).
  by rewrite IH.
Qed.

(** [x & (1 << n) != 0] *)
Lemma flag_bit (x n : Z) : 0 <= n -> negb (Z.land x (2 ^ n) =? 0) = Z.testbit x n.
Proof.
  intros Hn. assert (Z.land x (2 ^ n) = if Z.testbit x n then 2 ^ n else 0) as ->.
  { apply Z.bits_inj'. intros i Hi. rewrite Z.land_spec, Z.pow2_bits_eqb by done. destruct (Z.eqb_spec n i) as [<-|Hne].
    - destruct (Z.testbit x n); [by rewrite Z.pow2_bits_true|by rewrite Z.bits_0].
    - rewrite andb_false_r. destruct (Z.testbit x n); [by rewrite Z.pow2_bits_false|by rewrite Z.bits_0]. }
  destruct (Z.testbit x n); [|done]. pose proof (Z.pow_pos_nonneg 2 n ltac:(lia) Hn). by destruct (Z.eqb_spec (2 ^ n) 0); [lia|].
Qed.

Lemma le_decode_bound bs : Forall is_byte bs -> 0 <= le_decode bs < 256 ^ Z.of_nat (length bs).
Proof.
  induction 1 as [|b bs Hb Hbs IH]; [done|]. cbn [length le_decode]. unfold is_byte in Hb.
  rewrite Nat2Z.inj_succ, Z.pow_succ_r by lia. lia.
Qed.

(** A piece of a list and the next one. *)
Lemma take_drop_app {A} (l : list A) i n m j p : j = (i + n)%nat -> p = (n + m)%nat ->
  take n (drop i l) ++ take m (drop j l) = take p (drop i l).
Proof. intros -> ->. by rewrite <- drop_drop, take_take_drop. Qed.

(** ** Automation *)

Create HintDb oxide.

(** Boolean hypotheses to propositions. *)
Ltac bool_simpl :=
  repeat match goal with
  | H : (_ && _)%bool = true |- _ => apply andb_true_iff in H as [? ?]
  | H : (_ || _)%bool = false |- _ => apply orb_false_iff in H as [? ?]
  | H : (_ && _)%bool = false |- _ => apply andb_false_iff in H
  | H : (_ || _)%bool = true |- _ => apply orb_true_iff in H
  | H : negb _ = true |- _ => apply negb_true_iff in H
  | H : negb _ = false |- _ => apply negb_false_iff in H
  | H : (_ =? _)%nat = true |- _ => apply Nat.eqb_eq in H
  | H : (_ =? _)%nat = false |- _ => apply Nat.eqb_neq in H
  | H : (_ <? _)%nat = true |- _ => apply Nat.ltb_lt in H
  | H : (_ <? _)%nat = false |- _ => apply Nat.ltb_ge in H
  | H : (_ <=? _)%nat = true |- _ => apply Nat.leb_le in H
  | H : (_ <=? _)%nat = false |- _ => apply Nat.leb_gt in H
  | H : (_ =? _)%Z = true |- _ => apply Z.eqb_eq in H
  | H : (_ =? _)%Z = false |- _ => apply Z.eqb_neq in H
  | H : (_ <? _)%Z = true |- _ => apply Z.ltb_lt in H
  | H : (_ <? _)%Z = false |- _ => apply Z.ltb_ge in H
  | H : (_ <=? _)%Z = true |- _ => apply Z.leb_le in H
  | H : (_ <=? _)%Z = false |- _ => apply Z.leb_gt in H
  end.

Create Rewrite HintDb oxide_len.
#[export] Hint Rewrite @length_insert @length_take @length_drop @length_app
  @length_replicate @length_fmap length_le_encode @length_resize_vec
  : oxide_len.

(** Arithmetic over lengths of lists. *)
Ltac len_lia := autorewrite with oxide_len; cbn [length]; lia.

(** ** Sums over tables *)

Section Zsum.
Context {A : Type} (f : A -> Z).
Implicit Types (l : list A).

Definition zsum l : Z := foldr (fun x s => f x + s) 0 l.

Lemma zsum_cons x l : zsum (x :: l) = f x + zsum l.
Proof. done. Qed.

Lemma zsum_app l k : zsum (l ++ k) = zsum l + zsum k.
Proof. induction l as [|x l IH]; [done|]. rewrite <- app_comm_cons, !zsum_cons. lia. Qed.

Lemma zsum_insert l i x y : l !! i = Some x -> zsum (<[i := y]> l) = zsum l - f x + f y.
Proof.
  revert i. induction l as [|a l IH]; intros [|i] H; [done|done| |].
  - injection H as ->. change (zsum (y :: l) = zsum (x :: l) - f x + f y). rewrite !zsum_cons. lia.
  - change (zsum (a :: <[i := y]> l) = zsum (a :: l) - f x + f y).
    specialize (IH i H). rewrite !zsum_cons. lia.
Qed.

Lemma zsum_nonneg l : (forall x, 0 <= f x) -> 0 <= zsum l.
Proof. intros H. induction l as [|x l IH]; [done|]. specialize (H x). rewrite zsum_cons. lia. Qed.

Lemma zsum_ge l i x : (forall x, 0 <= f x) -> l !! i = Some x -> f x <= zsum l.
Proof.
  intros H. revert i. induction l as [|a l IH]; intros [|i] Hx; [done|done| |]; rewrite zsum_cons.
  - injection Hx as ->. pose proof (zsum_nonneg l H). lia.
  - specialize (IH i Hx). specialize (H a). lia.
Qed.

Lemma zsum_zero l : (forall i x, l !! i = Some x -> f x = 0) -> zsum l = 0.
Proof.
  induction l as [|a l IH]; intros H; [done|]. rewrite zsum_cons.
  rewrite (H 0%nat a eq_refl), IH; [done|]. intros i x Hx. by apply (H (S i)).
Qed.
End Zsum.

(** ** Tables scanned for the first match *)

Section Scan.
Context {A : Type}.
Implicit Types (l : list A).

(** An update that does not change what the test says of the slot does not
    change what a scan finds. *)
Lemma position_insert_same (f : A -> bool) l k x y :
  l !! k = Some x -> f y = f x -> position f (<[k := y]> l) = position f l.
Proof.
  revert k. induction l as [|a l IH]; intros k Hk Hf; [done|].
  destruct k as [|k]; cbn in *.
  - injection Hk as ->. by rewrite Hf.
  - by rewrite IH.
Qed.

(** Writing the only match. *)
Lemma position_insert_new (f : A -> bool) l k y :
  (k < length l)%nat -> position f l = None -> f y = true ->
  position f (<[k := y]> l) = Some k.
Proof.
  intros Hk Hn Hy. apply position_Some. exists y. split_and!; [|done|].
  - by apply list_lookup_insert_eq.
  - intros j z Hj. rewrite list_lookup_insert_ne by lia.
    intros Hz. eapply position_None in Hn; eauto.
Qed.

(** Erasing the only match. *)
Lemma position_insert_gone (f : A -> bool) l k y :
  (forall j x, l !! j = Some x -> f x = true -> j = k) -> f y = false ->
  position f (<[k := y]> l) = None.
Proof.
  intros Hu Hy. apply position_None. intros j x Hx.
  apply list_lookup_insert_Some in Hx as [(-> & -> & _)|(Hne & Hx)]; [done|].
  destruct (f x) eqn:Hf; [|done]. by apply Hu in Hx.
Qed.
End Scan.

(** ** Counting in finite maps *)

Section Count.
Context `{Countable K} {A : Type} (P : K * A -> Prop) `{!forall x, Decision (P x)}.
Implicit Types (m : gmap K A).

(** How many entries of [m] satisfy [P]. *)
Definition count m : Z := Z.of_nat (size (filter P m)).
Definition one (kv : K * A) : Z := if decide (P kv) then 1 else 0.

Lemma count_nonneg m : 0 <= count m.
Proof. unfold count. lia. Qed.

Lemma count_empty : count ∅ = 0.
Proof. unfold count. by rewrite map_filter_empty, map_size_empty. Qed.

Lemma count_insert m k v : m !! k = None -> count (<[k := v]> m) = count m + one (k, v).
Proof.
  intros Hk. unfold count, one. rewrite map_filter_insert. case_decide.
  - rewrite map_size_insert_None; [lia|]. rewrite map_lookup_filter, Hk. done.
  - rewrite delete_id by done. lia.
Qed.

Lemma count_delete m k v : m !! k = Some v -> count (delete k m) = count m - one (k, v).
Proof.
  intros Hk. rewrite <- (insert_delete_id m k v) at 2 by done.
  rewrite count_insert by apply lookup_delete_eq. lia.
Qed.

Lemma count_update m k v v' :
  m !! k = Some v -> count (<[k := v']> m) = count m - one (k, v) + one (k, v').
Proof.
  intros Hk. rewrite <- insert_delete_eq, count_insert by apply lookup_delete_eq.
  rewrite (count_delete m k v) by done. lia.
Qed.

Lemma count_ge1 m k v : m !! k = Some v -> P (k, v) -> 1 <= count m.
Proof.
  intros Hk HP. pose proof (count_delete m k v Hk). pose proof (count_nonneg (delete k m)).
  unfold one in *. rewrite decide_True in * by done. lia.
Qed.

Lemma count_ge2 m k1 k2 v1 v2 :
  k1 <> k2 -> m !! k1 = Some v1 -> m !! k2 = Some v2 -> P (k1, v1) -> P (k2, v2) ->
  2 <= count m.
Proof.
  intros Hne H1 H2 HP1 HP2. pose proof (count_delete m k1 v1 H1) as Hd.
  unfold one in Hd. rewrite decide_True in Hd by done.
  pose proof (count_ge1 (delete k1 m) k2 v2). rewrite lookup_delete_ne in * by done.
  naive_solver lia.
Qed.

Lemma count_mono m m' : m ⊆ m' -> count m <= count m'.
Proof.
  intros Hs. unfold count. apply inj_le, map_subseteq_size. by apply map_filter_subseteq_mono.
Qed.
End Count.

(** Entries of [m] mapped injectively to entries of [m']. *)
Lemma count_inj `{Countable K} {A} (P Q : K * A -> Prop)
    `{!forall x, Decision (P x)} `{!forall x, Decision (Q x)} (g : K -> K) (m m' : gmap K A) :
  (forall k1 k2, g k1 = g k2 -> k1 = k2) ->
  (forall k v, m !! k = Some v -> P (k, v) -> exists v', m' !! g k = Some v' /\ Q (g k, v')) ->
  count P m <= count Q m'.
Proof.
  intros Hg. revert m'. induction m as [|k v m Hk IH] using map_ind; intros m' Hm.
  { rewrite count_empty. apply count_nonneg. }
  rewrite count_insert by done. unfold one. case_decide as HP.
  - destruct (Hm k v) as (v' & Hv' & HQ); [apply lookup_insert_eq|done|].
    pose proof (count_delete Q m' (g k) v' Hv') as Hd. unfold one in Hd.
    rewrite decide_True in Hd by done.
    assert (count P m <= count Q (delete (g k) m')); [|lia]. apply IH.
    intros k2 v2 H2 HP2. assert (k <> k2) by congruence.
    destruct (Hm k2 v2) as (v2' & H2' & HQ2); [by rewrite lookup_insert_ne|done|].
    exists v2'. split; [|done]. rewrite lookup_delete_ne; [done|]. intros E. by apply Hg in E.
  - assert (count P m <= count Q m'); [|lia]. apply IH. intros k2 v2 H2 HP2.
    apply (Hm k2 v2); [|done]. rewrite lookup_insert_ne by congruence. done.
Qed.

(** ** Lists of lists of one length *)

Lemma lookup_mjoin {A} n (ls : list (list A)) j l i : Forall (fun l => length l = n) ls ->
  ls !! j = Some l -> (i < n)%nat -> mjoin ls !! (j * n + i)%nat = l !! i.
Proof.
  intros Hn Hj Hi. assert (length l = n) as Hl by exact (Forall_lookup_1 _ _ _ _ Hn Hj).
  destruct (lookup_lt_is_Some_2 l i) as [x Hx]; [lia|]. rewrite Hx.
  apply join_lookup_Some_same_length'; eauto.
Qed.

Lemma length_mjoin {A} n (ls : list (list A)) : Forall (fun l => length l = n) ls ->
  length (mjoin ls) = (length ls * n)%nat.
Proof.
  induction ls as [|l ls IH]; intros Hn; [done|]. apply Forall_cons_1 in Hn as [Hl Hn].
  change (mjoin (l :: ls)) with (l ++ mjoin ls). rewrite length_app, IH by done. cbn [length]. lia.
Qed.
