(* ===== verification/RingBuffer.v ===== *)
(** * Ring buffers

    Three parts of the kernel keep a bounded FIFO in a fixed array with a read
    index [head] and a write index [tail], one slot left free so that
    [head = tail] means empty: the pipes (ipc/pipe.rs), the message queues
    (ipc/ipc.rs) and the keyboard buffer (ipc/stdin.rs).  This file holds the
    index arithmetic they share, the interface [Fifo] that states what such a
    buffer promises, and the bulk loops that are proved against the interface. *)

From stdpp Require Import base list.
From Stdlib Require Import Lia.
From S2P Require Import Prelude.

(** ** Index arithmetic *)

(** [(tail + N - head) % N] *)
Definition ring_len (n h t : nat) : nat := (t + n - h) mod n.

(** [(i + 1) % N] *)
Definition ring_succ (n i : nat) : nat := (i + 1) mod n.

Section Arith.
Context (n : nat).

Lemma ring_len_cases h t :
  h < n -> t < n ->
  ring_len n h t = if decide (h <= t) then t - h else t + n - h.
Proof.
  intros Hh Ht. unfold ring_len. case_decide.
  - replace (t + n - h) with ((t - h) + 1 * n) by lia.
    rewrite Nat.Div0.mod_add, Nat.mod_small by lia. done.
  - apply Nat.mod_small. lia.
Qed.

Lemma ring_succ_cases i :
  i < n -> ring_succ n i = if decide (i + 1 = n) then 0 else i + 1.
Proof.
  intros Hi. unfold ring_succ. case_decide as Hd.
  - rewrite Hd. apply Nat.Div0.mod_same.
  - apply Nat.mod_small. lia.
Qed.

Lemma ring_succ_lt i : i < n -> ring_succ n i < n.
Proof. intros. apply Nat.mod_upper_bound. lia. Qed.

Lemma ring_len_lt h t : h < n -> ring_len n h t < n.
Proof. intros. apply Nat.mod_upper_bound. lia. Qed.

Lemma ring_len_empty h t : h < n -> t < n -> ring_len n h t = 0 <-> h = t.
Proof. intros. rewrite ring_len_cases by done. case_decide; lia. Qed.

Lemma ring_len_push h t :
  h < n -> t < n -> ring_len n h t < n - 1 ->
  ring_len n h (ring_succ n t) = S (ring_len n h t).
Proof.
  intros Hh Ht. pose proof (ring_succ_lt t Ht).
  rewrite (ring_len_cases h t), (ring_len_cases h (ring_succ n t)) by done.
  rewrite ring_succ_cases by done. repeat case_decide; lia.
Qed.

Lemma ring_len_pop h t :
  h < n -> t < n -> h <> t ->
  ring_len n h t = S (ring_len n (ring_succ n h) t).
Proof.
  intros Hh Ht Hne. pose proof (ring_succ_lt h Hh).
  rewrite (ring_len_cases h t), (ring_len_cases (ring_succ n h) t) by done.
  rewrite ring_succ_cases by done. repeat case_decide; lia.
Qed.

Lemma ring_tail_pos h t :
  h < n -> t < n -> t = (h + ring_len n h t) mod n.
Proof.
  intros Hh Ht. rewrite ring_len_cases by done. case_decide.
  - rewrite Nat.mod_small by lia. lia.
  - replace (h + (t + n - h)) with (t + 1 * n) by lia.
    by rewrite Nat.Div0.mod_add, Nat.mod_small.
Qed.

(** The "full" test of the message queue and of the keyboard buffer, against
    the "no space" test of the pipe. *)
Lemma ring_full_iff h t :
  h < n -> t < n -> ring_succ n t = h <-> ring_len n h t = n - 1.
Proof.
  intros Hh Ht. rewrite ring_len_cases, ring_succ_cases by done.
  repeat case_decide; lia.
Qed.
End Arith.

(** ** Contents *)

(** The [len] elements of [b] from index [h] on, wrapping around. *)
Fixpoint ring_list {A} (b : list A) (h len : nat) : list A :=
  match len with
  | O => []
  | S len' =>
      match b !! h with
      | Some x => x :: ring_list b (ring_succ (length b) h) len'
      | None => []
      end
  end.

Section Contents.
Context {A : Type}.
Implicit Types (b : list A).

Lemma length_ring_list b h len :
  h < length b -> length (ring_list b h len) = len.
Proof.
  revert h. induction len as [|len IH]; intros h Hh; cbn; [done|].
  destruct (lookup_lt_is_Some_2 b h Hh) as [x ->]. cbn.
  by rewrite IH by (by apply ring_succ_lt).
Qed.

Lemma ring_list_snoc b h len x :
  h < length b -> len < length b ->
  ring_list (<[(h + len) mod length b := x]> b) h (S len) = ring_list b h len ++ [x].
Proof.
  revert h. induction len as [|len IH]; intros h Hh Hlen.
  - cbn. rewrite Nat.add_0_r, Nat.mod_small by done.
    by rewrite list_lookup_insert_eq.
  - change (ring_list ?b' h (S (S len))) with
      (match b' !! h with
       | Some y => y :: ring_list b' (ring_succ (length b') h) (S len)
       | None => [] end).
    rewrite list_lookup_insert_ne.
    2: { intros Heq. pose proof (Nat.div_mod (h + S len) (length b) ltac:(lia)) as Hd.
         rewrite Heq in Hd.
         assert ((h + S len) / length b = 0 \/ (h + S len) / length b = 1 \/
                 2 <= (h + S len) / length b) as [E|[E|E]] by lia;
           [rewrite E in Hd; lia|rewrite E in Hd; lia|nia]. }
    destruct (lookup_lt_is_Some_2 b h Hh) as [y Hy]. rewrite Hy, length_insert.
    cbn [ring_list]. rewrite Hy. cbn. f_equal.
    pose proof (ring_succ_lt _ h Hh) as Hs.
    rewrite <- (IH (ring_succ (length b) h) Hs ltac:(lia)).
    replace ((ring_succ (length b) h + len) mod length b)
      with ((h + S len) mod length b); [done|].
    unfold ring_succ. rewrite Nat.Div0.add_mod_idemp_l. f_equal. lia.
Qed.

(** Writing [x] at [tail] appends it; reading at [head] takes the oldest. *)
Lemma ring_list_push b h t x :
  h < length b -> t < length b -> ring_len (length b) h t < length b - 1 ->
  ring_list (<[t := x]> b) h (ring_len (length b) h (ring_succ (length b) t)) =
  ring_list b h (ring_len (length b) h t) ++ [x].
Proof.
  intros Hh Ht Hlen. rewrite ring_len_push by done.
  rewrite (ring_tail_pos (length b) h t) at 1 by done.
  apply ring_list_snoc; [done|lia].
Qed.

Lemma ring_list_pop b h t :
  h < length b -> t < length b -> h <> t ->
  exists x, b !! h = Some x /\
    ring_list b h (ring_len (length b) h t) =
    x :: ring_list b (ring_succ (length b) h)
           (ring_len (length b) (ring_succ (length b) h) t).
Proof.
  intros Hh Ht Hne. destruct (lookup_lt_is_Some_2 b h Hh) as [x Hx].
  exists x. split; [done|]. rewrite ring_len_pop by done. cbn. by rewrite Hx.
Qed.
End Contents.

(** ** The interface *)

(** What a bounded FIFO component offers to its clients: a well-formedness
    invariant, an abstract list of queued elements, one-element operations. *)
Class Fifo (S E : Type) := {
  fifo_wf : S -> Prop;
  fifo_cap : nat;
  fifo_list : S -> list E;
  fifo_elem : E -> Prop;                     (* elements it accepts *)
  fifo_enq : E -> S -> outcome (option S);   (* [None]: full *)
  fifo_deq : S -> outcome (option (E * S));  (* [None]: empty *)
}.
Arguments fifo_cap S E {_}.

(** What it promises. *)
Class FifoLaws (S E : Type) `{!Fifo S E} : Prop := {
  fifo_bound s : fifo_wf s -> length (fifo_list s) <= fifo_cap S E;
  fifo_enq_ok s e :
    fifo_wf s -> fifo_elem e -> length (fifo_list s) < fifo_cap S E ->
    exists s', fifo_enq e s = Ret (Some s') /\ fifo_wf s' /\
               fifo_list s' = fifo_list s ++ [e];
  fifo_enq_full s e :
    fifo_wf s -> length (fifo_list s) = fifo_cap S E -> fifo_enq e s = Ret None;
  fifo_deq_ok s e l :
    fifo_wf s -> fifo_list s = e :: l ->
    exists s', fifo_deq s = Ret (Some (e, s')) /\ fifo_wf s' /\ fifo_list s' = l;
  fifo_deq_empty s : fifo_wf s -> fifo_list s = [] -> fifo_deq s = Ret None;
}.

(** ** Bulk transfers over the interface *)

Section Bulk.
Context {S E : Type} `{!Fifo S E}.

(** Enqueue until the data runs out or the buffer is full. *)
Fixpoint enq_all (data : list E) (s : S) : outcome (nat * S) :=
  match data with
  | [] => Ret (0, s)
  | e :: data' =>
      let! r := fifo_enq e s in
      match r with
      | None => Ret (0, s)
      | Some s' => let! (k, s'') := enq_all data' s' in Ret (Datatypes.S k, s'')
      end
  end.

(** Dequeue at most [n] elements. *)
Fixpoint deq_upto (n : nat) (s : S) : outcome (list E * S) :=
  match n with
  | O => Ret ([], s)
  | Datatypes.S n' =>
      let! r := fifo_deq s in
      match r with
      | None => Ret ([], s)
      | Some (e, s') => let! (es, s'') := deq_upto n' s' in Ret (e :: es, s'')
      end
  end.

Context `{!FifoLaws S E}.

Lemma enq_all_spec data s :
  fifo_wf s -> Forall fifo_elem data ->
  exists s', let k := Nat.min (length data) (fifo_cap S E - length (fifo_list s)) in
    enq_all data s = Ret (k, s') /\ fifo_wf s' /\
    fifo_list s' = fifo_list s ++ take k data.
Proof.
  revert s. induction data as [|e data IH]; intros s Hwf Hel; cbn.
  { exists s. by rewrite app_nil_r. }
  apply Forall_cons in Hel as [He Hel].
  pose proof (fifo_bound s Hwf) as Hb.
  destruct (decide (length (fifo_list s) = fifo_cap S E)) as [Hfull|Hroom].
  - exists s. rewrite (fifo_enq_full s e Hwf Hfull). cbn.
    rewrite Hfull, Nat.sub_diag. cbn. by rewrite app_nil_r.
  - destruct (fifo_enq_ok s e Hwf He ltac:(lia)) as (s1 & -> & Hwf1 & Hl1). cbn.
    destruct (IH s1 Hwf1 Hel) as (s2 & -> & Hwf2 & Hl2). cbn. exists s2.
    rewrite Hl1, length_app in *. cbn in *.
    destruct (fifo_cap S E - length (fifo_list s)) as [|c] eqn:Hc; [lia|].
    replace (fifo_cap S E - (length (fifo_list s) + 1)) with c in * by lia.
    split_and!; [done|done|]. rewrite Hl2, <- app_assoc. done.
Qed.

Lemma deq_upto_spec n s :
  fifo_wf s ->
  exists s', deq_upto n s = Ret (take n (fifo_list s), s') /\ fifo_wf s' /\
             fifo_list s' = drop n (fifo_list s).
Proof.
  revert s. induction n as [|n IH]; intros s Hwf; cbn.
  { exists s. by rewrite take_0, drop_0. }
  destruct (fifo_list s) as [|e l] eqn:Hl.
  - rewrite (fifo_deq_empty s Hwf Hl). cbn. exists s. by rewrite Hl.
  - destruct (fifo_deq_ok s e l Hwf Hl) as (s1 & -> & Hwf1 & Hl1). cbn.
    destruct (IH s1 Hwf1) as (s2 & -> & Hwf2 & Hl2). cbn. exists s2.
    by rewrite Hl1 in *.
Qed.

(** A projection that one step preserves, the bulk loops preserve. *)
Lemma enq_all_frame {X} (g : S -> X) data s k s' :
  (forall e s1 s2, fifo_enq e s1 = Ret (Some s2) -> g s2 = g s1) ->
  enq_all data s = Ret (k, s') -> g s' = g s.
Proof.
  intros Hg. revert s k. induction data as [|e data IH]; intros s k; cbn.
  { by intros [= <- <-]. }
  destruct (fifo_enq e s) as [[s1|]|] eqn:He; cbn; [|by intros [= <- <-]|done].
  destruct (enq_all data s1) as [[k1 s2]|] eqn:Ha; cbn; [|done].
  intros [= <- <-]. rewrite (IH _ _ Ha). by apply Hg with e.
Qed.

Lemma deq_upto_frame {X} (g : S -> X) n s l s' :
  (forall e s1 s2, fifo_deq s1 = Ret (Some (e, s2)) -> g s2 = g s1) ->
  deq_upto n s = Ret (l, s') -> g s' = g s.
Proof.
  intros Hg. revert s l. induction n as [|n IH]; intros s l; cbn.
  { by intros [= <- <-]. }
  destruct (fifo_deq s) as [[[e s1]|]|] eqn:He; cbn; [|by intros [= <- <-]|done].
  destruct (deq_upto n s1) as [[l1 s2]|] eqn:Ha; cbn; [|done].
  intros [= <- <-]. rewrite (IH _ _ Ha). by apply Hg with e.
Qed.
End Bulk.
