(* ===== verification/IpcPipe.v ===== *)
(** * Anonymous pipes (kernel/src/kernel/ipc/pipe.rs)

    Module [pipe] is the driver: the eight static [Pipe] slots, descriptor
    arithmetic, [alloc], [addref], [write], [read], [close] and [read_ready].
    Module [pipe_spec] is what the driver promises: a table of byte queues with
    reference counts, no ring, no indices.  The theorems say that every call
    refines the specification and never panics, and that a pipe is a lossless
    stream over any interleaving of calls. *)

From stdpp Require Import base list.
From Stdlib Require Import ZArith Lia.
From S2P Require Import Prelude RingBuffer.

Local Open Scope Z_scope.

Module pipe.

(* @src ipc/pipe.rs 9-9 PIPE_FD_BASE *)
Definition PIPE_FD_BASE : Z := 80.
(* @src ipc/pipe.rs 10-10 PIPE_COUNT *)
Definition PIPE_COUNT : nat := 8.
(* @src ipc/pipe.rs 11-11 PIPE_BUF *)
Definition PIPE_BUF : nat := Z.to_nat 4096.

Lemma PIPE_BUF_val : PIPE_BUF = Z.to_nat 4096.
Proof. reflexivity. Qed.
Lemma PIPE_BUF_pos : (0 < PIPE_BUF)%nat.
Proof. rewrite PIPE_BUF_val. lia. Qed.
#[global] Opaque PIPE_BUF.

(* @src ipc/pipe.rs 13-22 Pipe *)
Record Pipe := mkPipe {
  buf : list Z;
  head : nat;
  tail : nat;
  read_open : bool;
  write_open : bool;
  write_refs : Z;
  read_refs : Z;
}.

(* @src ipc/pipe.rs 24-35 Pipe::new *)
Definition new : Pipe :=
  {| buf := replicate PIPE_BUF 0; head := 0; tail := 0;
     read_open := false; write_open := false; write_refs := 0; read_refs := 0 |}.

(* @src ipc/pipe.rs 37-37 Pipe::is_empty *)
Definition is_empty (p : Pipe) : bool := (head p =? tail p)%nat.
(* @src ipc/pipe.rs 39-39 Pipe::len *)
Definition len (p : Pipe) : nat := ((tail p + PIPE_BUF - head p) mod PIPE_BUF)%nat.
(* @src ipc/pipe.rs 41-41 Pipe::available_write *)
Definition available_write (p : Pipe) : nat := (PIPE_BUF - 1 - len p)%nat.

(* @src ipc/pipe.rs 44-44 PIPES *)
Definition PIPES : list Pipe := replicate PIPE_COUNT new.

(* @src ipc/pipe.rs 48-51 is_pipe_fd *)
Definition is_pipe_fd (fd : Z) : bool :=
  (PIPE_FD_BASE <=? fd) && (fd <? PIPE_FD_BASE + Z.of_nat PIPE_COUNT * 2).
(* @src ipc/pipe.rs 53-53 pipe_index *)
Definition pipe_index (fd : Z) : nat := Z.to_nat ((fd - PIPE_FD_BASE) ÷ 2).
(* @src ipc/pipe.rs 54-54 is_read_fd *)
Definition is_read_fd (fd : Z) : bool := Z.rem (fd - PIPE_FD_BASE) 2 =? 0.

(* @src ipc/pipe.rs 58-63 read_ready *)
Definition read_ready (pipes : list Pipe) (raw_fd : Z) : outcome bool :=
  if negb (is_pipe_fd raw_fd) || negb (is_read_fd raw_fd) then Ret false
  else let! p := idx pipes (pipe_index raw_fd) in Ret (negb (is_empty p)).

(* @src ipc/pipe.rs 65-83 alloc *)
Definition alloc (pipes : list Pipe) : option (Z * Z) * list Pipe :=
  match position (fun p => negb (read_open p) && negb (write_open p)) pipes with
  | None => (None, pipes)
  | Some i =>
      let read_fd := PIPE_FD_BASE + Z.of_nat i * 2 in
      (Some (read_fd, read_fd + 1),
       alter (fun p => {| buf := buf p; head := 0; tail := 0;
                          read_open := true; write_open := true;
                          write_refs := 1; read_refs := 1 |}) i pipes)
  end.

(* @src ipc/pipe.rs 85-95 addref *)
Definition addref (pipes : list Pipe) (fd : Z) : outcome (list Pipe) :=
  if negb (is_pipe_fd fd) then Ret pipes
  else
    let! p := idx pipes (pipe_index fd) in
    set_idx pipes (pipe_index fd)
      (if is_read_fd fd
       then mkPipe (buf p) (head p) (tail p) (read_open p) (write_open p)
                   (write_refs p) (sat_add u8_max (read_refs p) 1)
       else mkPipe (buf p) (head p) (tail p) (read_open p) (write_open p)
                   (sat_add u8_max (write_refs p) 1) (read_refs p)).

(** The body of the [for &byte in data] loop: [None] is the [break]. *)
(* @src ipc/pipe.rs 106-109 write (loop body) *)
Definition push_byte (byte : Z) (p : Pipe) : outcome (option Pipe) :=
  if (available_write p =? 0)%nat then Ret None
  else
    let next := ((tail p + 1) mod PIPE_BUF)%nat in
    let! b := set_idx (buf p) (tail p) byte in
    Ret (Some (mkPipe b (head p) next (read_open p) (write_open p)
                      (write_refs p) (read_refs p))).

(* @src ipc/pipe.rs 104-111 write (loop) *)
Fixpoint write_loop (data : list Z) (p : Pipe) (written : nat) : outcome (nat * Pipe) :=
  match data with
  | [] => Ret (written, p)
  | byte :: data' =>
      let! r := push_byte byte p in
      match r with
      | None => Ret (written, p)
      | Some p' => write_loop data' p' (written + 1)
      end
  end.

(* @src ipc/pipe.rs 97-113 write *)
Definition write (pipes : list Pipe) (fd : Z) (data : list Z) : outcome (Z * list Pipe) :=
  if negb (is_pipe_fd fd) || is_read_fd fd then Ret (-5, pipes)
  else
    let! p := idx pipes (pipe_index fd) in
    if negb (write_open p) then Ret (-5, pipes)
    else
      let! (written, p') := write_loop data p 0 in
      let! pipes' := set_idx pipes (pipe_index fd) p' in
      Ret (Z.of_nat written, pipes').

(** The two statements of the [while] body that move the ring: the byte at
    [head] and the pipe after it; [None] when the pipe is empty. *)
(* @src ipc/pipe.rs 128-130 read (loop body) *)
Definition pop_byte (p : Pipe) : outcome (option (Z * Pipe)) :=
  if is_empty p then Ret None
  else
    let! b := idx (buf p) (head p) in
    Ret (Some (b, mkPipe (buf p) ((head p + 1) mod PIPE_BUF)%nat (tail p)
                         (read_open p) (write_open p) (write_refs p) (read_refs p))).

(** [remaining] is [buf.len() - read]: the loop stops when it is 0. *)
(* @src ipc/pipe.rs 127-132 read (loop) *)
Fixpoint read_loop (remaining : nat) (out : list Z) (read : nat) (p : Pipe)
    : outcome (nat * list Z * Pipe) :=
  match remaining with
  | O => Ret (read, out, p)
  | S remaining' =>
      let! r := pop_byte p in
      match r with
      | None => Ret (read, out, p)
      | Some (b, p') =>
          let! out' := set_idx out read b in
          read_loop remaining' out' (read + 1) p'
      end
  end.

(** [out] is the caller's buffer; it is returned as the call leaves it. *)
(* @src ipc/pipe.rs 115-134 read *)
Definition read (pipes : list Pipe) (fd : Z) (out : list Z)
    : outcome (Z * list Z * list Pipe) :=
  if negb (is_pipe_fd fd) || negb (is_read_fd fd) then Ret (-5, out, pipes)
  else
    let! p := idx pipes (pipe_index fd) in
    if negb (read_open p) then Ret (-5, out, pipes)
    else if is_empty p then
      if write_refs p =? 0 then Ret (0, out, pipes) else Ret (-6, out, pipes)
    else
      let! (n, out', p') := read_loop (length out) out 0 p in
      let! pipes' := set_idx pipes (pipe_index fd) p' in
      Ret (Z.of_nat n, out', pipes').

(* @src ipc/pipe.rs 136-149 close *)
Definition close (pipes : list Pipe) (fd : Z) : outcome (Z * list Pipe) :=
  if negb (is_pipe_fd fd) then Ret (-5, pipes)
  else
    let! p := idx pipes (pipe_index fd) in
    let! pipes' := set_idx pipes (pipe_index fd)
      (if is_read_fd fd
       then let r := if 0 <? read_refs p then read_refs p - 1 else read_refs p in
            mkPipe (buf p) (head p) (tail p)
                   (if r =? 0 then false else read_open p) (write_open p)
                   (write_refs p) r
       else let w := if 0 <? write_refs p then write_refs p - 1 else write_refs p in
            mkPipe (buf p) (head p) (tail p)
                   (read_open p) (if w =? 0 then false else write_open p)
                   w (read_refs p)) in
    Ret (0, pipes').

(** ** Invariant *)

Record wf (p : Pipe) : Prop := {
  wf_buf : length (buf p) = PIPE_BUF;
  wf_head : (head p < PIPE_BUF)%nat;
  wf_tail : (tail p < PIPE_BUF)%nat;
  wf_rrefs : 0 <= read_refs p <= u8_max;
  wf_wrefs : 0 <= write_refs p <= u8_max;
  wf_ropen : read_open p = true -> 0 < read_refs p;
  wf_wopen : write_open p = true -> 0 < write_refs p;
}.

Definition wf_table (pipes : list Pipe) : Prop :=
  length pipes = PIPE_COUNT /\ Forall wf pipes.

(** The bytes queued in a pipe, oldest first. *)
Definition contents (p : Pipe) : list Z := ring_list (buf p) (head p) (len p).

Lemma len_ring p : len p = ring_len PIPE_BUF (head p) (tail p).
Proof. done. Qed.

(** *** The pipe ring implements the FIFO interface *)

#[global] Instance pipe_fifo : Fifo Pipe Z := {|
  fifo_wf := wf;
  fifo_cap := (PIPE_BUF - 1)%nat;
  fifo_list := contents;
  fifo_elem := fun _ => True;
  fifo_enq := push_byte;
  fifo_deq := pop_byte;
|}.

Lemma length_contents p : wf p -> length (contents p) = len p.
Proof.
  intros W. unfold contents. apply length_ring_list.
  rewrite (wf_buf _ W). apply W.
Qed.

Lemma contents_empty p : wf p -> contents p = [] <-> is_empty p = true.
Proof.
  intros W. unfold is_empty. rewrite Nat.eqb_eq.
  rewrite <- (ring_len_empty PIPE_BUF (head p) (tail p)) by apply W.
  rewrite <- len_ring, <- length_contents by done.
  split; [by intros ->|]. apply length_zero_iff_nil.
Qed.

#[global] Instance pipe_fifo_laws : FifoLaws Pipe Z.
Proof.
  assert (PIPE_BUF <> 0%nat) as Hnz by (pose proof PIPE_BUF_pos; lia).
  split; cbn; unfold fifo_cap; cbn.
  - intros p W. rewrite length_contents, len_ring by done.
    pose proof (ring_len_lt PIPE_BUF (head p) (tail p) (wf_head _ W)). lia.
  - intros p e W _ Hlt. rewrite length_contents in Hlt by done.
    unfold push_byte, available_write.
    destruct (Nat.eqb_spec (PIPE_BUF - 1 - len p) 0); [lia|].
    rewrite set_idx_lt by (rewrite (wf_buf _ W); apply W). cbn.
    eexists; split; [done|]. split.
    + destruct W. split; cbn; auto.
      * by rewrite length_insert.
      * by apply Nat.mod_upper_bound.
    + unfold contents. cbn. rewrite !len_ring in *. cbn.
      pose proof (ring_list_push (buf p) (head p) (tail p) e) as Hp.
      rewrite (wf_buf _ W) in Hp. apply Hp; try apply W. done.
  - intros p e W Heq. rewrite length_contents in Heq by done.
    unfold push_byte, available_write. by rewrite Heq, Nat.sub_diag.
  - intros p e l W Hl. unfold pop_byte.
    destruct (is_empty p) eqn:He.
    { apply (contents_empty _ W) in He. congruence. }
    unfold is_empty in He. apply Nat.eqb_neq in He.
    pose proof (ring_list_pop (buf p) (head p) (tail p)) as Hp.
    rewrite (wf_buf _ W) in Hp.
    destruct Hp as (x & Hx & Heq); [apply W|apply W|done|].
    unfold contents in Hl. rewrite len_ring, Heq in Hl. injection Hl as <- <-.
    apply idx_Ret in Hx as ->. cbn. eexists; split; [done|].
    split; [|done]. destruct W. split; cbn; auto. by apply Nat.mod_upper_bound.
  - intros p W He. unfold pop_byte. by apply (contents_empty _ W) in He as ->.
Qed.

(** The two loops are the bulk transfers of the interface. *)
Lemma write_loop_enq_all data p w :
  write_loop data p w = let! (k, p') := enq_all data p in Ret ((w + k)%nat, p').
Proof.
  revert p w. induction data as [|b data IH]; intros p w; cbn; [by rewrite Nat.add_0_r|].
  destruct (push_byte b p) as [[p1|]|]; cbn; [|by rewrite Nat.add_0_r|done].
  rewrite IH. destruct (enq_all data p1) as [[k p2]|]; cbn; [|done].
  by rewrite <- Nat.add_assoc.
Qed.

Lemma read_loop_deq_upto n out r p :
  (r + n = length out)%nat ->
  read_loop n out r p =
  let! (bs, p') := deq_upto n p in
  Ret ((r + length bs)%nat, splice out r bs, p').
Proof.
  revert out r p. induction n as [|n IH]; intros out r p Hr; cbn.
  { by rewrite Nat.add_0_r, splice_nil. }
  destruct (pop_byte p) as [[[b p1]|]|]; cbn; [| |done].
  2: { by rewrite Nat.add_0_r, splice_nil. }
  rewrite set_idx_lt by lia. cbn.
  rewrite IH by (rewrite length_insert; lia).
  destruct (deq_upto n p1) as [[bs p2]|]; cbn; [|done].
  rewrite splice_insert_cons by lia. do 3 f_equal. lia.
Qed.

(** The rings' loops leave the descriptors' side of the record alone. *)
Definition ends (p : Pipe) := (read_open p, write_open p, write_refs p, read_refs p).

Lemma push_byte_ends b p p' : push_byte b p = Ret (Some p') -> ends p' = ends p.
Proof.
  unfold push_byte. destruct (_ =? _)%nat; [done|].
  rewrite bind_Ret. intros (bb & _ & [= <-]). done.
Qed.

Lemma pop_byte_ends b p p' : pop_byte p = Ret (Some (b, p')) -> ends p' = ends p.
Proof.
  unfold pop_byte. destruct (is_empty p); [done|].
  rewrite bind_Ret. intros (bb & _ & [= <- <-]). done.
Qed.

End pipe.

(** ** Specification *)

Module pipe_spec.

(** A pipe as its users see it: a byte queue and the two ends' state. *)
Record apipe := mkAPipe {
  data : list Z;
  ropen : bool;
  wopen : bool;
  wrefs : Z;
  rrefs : Z;
}.

(** Bytes a pipe can hold. *)
Definition capacity : nat := Z.to_nat 4095.

Lemma capacity_cap : capacity = (pipe.PIPE_BUF - 1)%nat.
Proof. unfold capacity. rewrite pipe.PIPE_BUF_val. lia. Qed.
#[global] Opaque capacity.

Inductive pend := ReadEnd | WriteEnd.

(** Descriptors 80, 82, ... are read ends and 81, 83, ... write ends. *)
Definition decode (fd : Z) : option (nat * pend) :=
  if (80 <=? fd) && (fd <? 96)
  then Some (Z.to_nat ((fd - 80) / 2), if Z.even fd then ReadEnd else WriteEnd)
  else None.

Definition encode (i : nat) : Z * Z := (80 + 2 * Z.of_nat i, 81 + 2 * Z.of_nat i).

Inductive call :=
| Alloc
| Addref (fd : Z)
| Write (fd : Z) (bytes : list Z)
| Read (fd : Z) (out : list Z)
| Close (fd : Z)
| ReadReady (fd : Z).

Inductive reply :=
| Fds (r : option (Z * Z))
| Code (r : Z)
| Bytes (r : Z) (out : list Z)
| Flag (b : bool)
| Unit.

Definition on_end (t : list apipe) (fd : Z) (k : nat -> pend -> apipe -> reply * list apipe)
    (bad : reply) : reply * list apipe :=
  match decode fd with
  | Some (i, e) => match t !! i with Some a => k i e a | None => (bad, t) end
  | None => (bad, t)
  end.

(** Dropping a reference closes the end when it was the last one. *)
Definition drop_ref (n : Z) (opened : bool) : Z * bool :=
  (Z.max 0 (n - 1), if n <=? 1 then false else opened).

Definition step (c : call) (t : list apipe) : reply * list apipe :=
  match c with
  | Alloc =>
      match position (fun a => negb (ropen a) && negb (wopen a)) t with
      | None => (Fds None, t)
      | Some i => (Fds (Some (encode i)), <[i := mkAPipe [] true true 1 1]> t)
      end
  | Addref fd =>
      on_end t fd (fun i e a =>
        (Unit, <[i := match e with
                      | ReadEnd => mkAPipe (data a) (ropen a) (wopen a) (wrefs a)
                                           (Z.min 255 (rrefs a + 1))
                      | WriteEnd => mkAPipe (data a) (ropen a) (wopen a)
                                            (Z.min 255 (wrefs a + 1)) (rrefs a)
                      end]> t)) Unit
  | Write fd bytes =>
      on_end t fd (fun i e a =>
        match e, wopen a with
        | WriteEnd, true =>
            let n := Nat.min (length bytes) (capacity - length (data a)) in
            (Code (Z.of_nat n),
             <[i := mkAPipe (data a ++ take n bytes) (ropen a) (wopen a) (wrefs a) (rrefs a)]> t)
        | _, _ => (Code (-5), t)
        end) (Code (-5))
  | Read fd out =>
      on_end t fd (fun i e a =>
        match e, ropen a with
        | ReadEnd, true =>
            match data a with
            | [] => (Bytes (if wrefs a =? 0 then 0 else -6) out, t)
            | _ =>
                let n := Nat.min (length out) (length (data a)) in
                (Bytes (Z.of_nat n) (take n (data a) ++ drop n out),
                 <[i := mkAPipe (drop n (data a)) (ropen a) (wopen a) (wrefs a) (rrefs a)]> t)
            end
        | _, _ => (Bytes (-5) out, t)
        end) (Bytes (-5) out)
  | Close fd =>
      on_end t fd (fun i e a =>
        (Code 0,
         <[i := match e with
                | ReadEnd => mkAPipe (data a) (drop_ref (rrefs a) (ropen a)).2 (wopen a)
                                     (wrefs a) (drop_ref (rrefs a) (ropen a)).1
                | WriteEnd => mkAPipe (data a) (ropen a) (drop_ref (wrefs a) (wopen a)).2
                                      (drop_ref (wrefs a) (wopen a)).1 (rrefs a)
                end]> t)) (Code (-5))
  | ReadReady fd =>
      on_end t fd (fun _ e a =>
        (Flag (match e with
               | ReadEnd => negb (length (data a) =? 0)%nat
               | WriteEnd => false end), t)) (Flag false)
  end.

(** The driver behind the same calls. *)
Definition run (c : call) (ps : list pipe.Pipe) : outcome (reply * list pipe.Pipe) :=
  match c with
  | Alloc => let '(r, ps') := pipe.alloc ps in Ret (Fds r, ps')
  | Addref fd => let! ps' := pipe.addref ps fd in Ret (Unit, ps')
  | Write fd bytes => let! (r, ps') := pipe.write ps fd bytes in Ret (Code r, ps')
  | Read fd out => let! (r, out', ps') := pipe.read ps fd out in Ret (Bytes r out', ps')
  | Close fd => let! (r, ps') := pipe.close ps fd in Ret (Code r, ps')
  | ReadReady fd => let! b := pipe.read_ready ps fd in Ret (Flag b, ps)
  end.

Definition abs (p : pipe.Pipe) : apipe :=
  mkAPipe (pipe.contents p) (pipe.read_open p) (pipe.write_open p)
          (pipe.write_refs p) (pipe.read_refs p).

(** *** Descriptor arithmetic *)

Lemma decode_None fd : decode fd = None -> pipe.is_pipe_fd fd = false.
Proof.
  unfold decode, pipe.is_pipe_fd. change (pipe.PIPE_FD_BASE) with 80.
  change (80 + Z.of_nat pipe.PIPE_COUNT * 2) with 96. by case_match.
Qed.

Lemma decode_Some fd i e :
  decode fd = Some (i, e) ->
  pipe.is_pipe_fd fd = true /\ pipe.pipe_index fd = i /\ (i < pipe.PIPE_COUNT)%nat /\
  pipe.is_read_fd fd = match e with ReadEnd => true | WriteEnd => false end.
Proof.
  unfold decode, pipe.is_pipe_fd, pipe.pipe_index, pipe.is_read_fd.
  change (pipe.PIPE_FD_BASE) with 80. change (80 + Z.of_nat pipe.PIPE_COUNT * 2) with 96.
  destruct ((80 <=? fd) && (fd <? 96)) eqn:Hb; [|done]. intros [= <- <-]. bool_simpl.
  rewrite Z.quot_div_nonneg, Z.rem_mod_nonneg by lia.
  assert ((fd - 80) / 2 < 8) by (apply Z.div_lt_upper_bound; lia).
  assert (0 <= (fd - 80) / 2) by (apply Z.div_pos; lia).
  split_and!; [done|done|unfold pipe.PIPE_COUNT; lia|].
  replace fd with ((fd - 80) + 80) at 2 by lia. rewrite Z.even_add. cbn.
  rewrite Zmod_even. by destruct (Z.even (fd - 80)).
Qed.

(** *** Simulation, one call at a time *)

Section Simulation.
Context (ps : list pipe.Pipe) (Hps : pipe.wf_table ps).

Lemma table_lookup i :
  (i < pipe.PIPE_COUNT)%nat -> exists p, ps !! i = Some p /\ pipe.wf p.
Proof.
  intros Hi. destruct Hps as [Hl Hf].
  destruct (lookup_lt_is_Some_2 ps i ltac:(lia)) as [p Hp].
  exists p. split; [done|]. by eapply Forall_lookup_1.
Qed.

Lemma table_insert i p : pipe.wf p -> pipe.wf_table (<[i := p]> ps).
Proof.
  intros W. destruct Hps as [Hl Hf]. split; [by rewrite length_insert|].
  by apply Forall_insert.
Qed.

(** What "call [c] refines the specification" means in one state. *)
Definition refines (c : call) : Prop :=
  exists ps', run c ps = Ret ((step c (abs <$> ps)).1, ps') /\ pipe.wf_table ps' /\
              abs <$> ps' = (step c (abs <$> ps)).2.

Lemma refines_alloc : refines Alloc.
Proof.
  unfold refines. cbn -[encode]. unfold pipe.alloc.
  assert (position (fun a => negb (ropen a) && negb (wopen a)) (abs <$> ps) =
          position (fun p => negb (pipe.read_open p) && negb (pipe.write_open p)) ps) as ->.
  { clear. induction ps as [|p l IH]; cbn; [done|]. by rewrite IH. }
  destruct (position _ ps) as [i|] eqn:Hpos; [|by exists ps].
  pose proof (position_lt _ _ _ Hpos) as Hi. destruct Hps as [Hl Hf].
  destruct (table_lookup i ltac:(lia)) as (p & Hp & W).
  eexists. split_and!.
  - cbn -[encode]. do 4 f_equal. unfold encode, pipe.PIPE_FD_BASE. f_equal; lia.
  - split; [by rewrite length_alter|]. apply Forall_alter; [done|].
    intros q Hq _. destruct (Forall_lookup_1 _ _ _ _ Hf Hq). split; cbn; auto; try (split; done).
    all: apply pipe.PIPE_BUF_pos.
  - cbn. erewrite (list_fmap_alter _ _ (fun _ => mkAPipe [] true true 1 1)).
    + by rewrite <- list_insert_alter.
    + apply Forall_true. intros q. unfold abs. cbn. done.
Qed.

Lemma refines_addref fd : refines (Addref fd).
Proof.
  unfold refines. cbn. unfold pipe.addref, on_end.
  destruct (decode fd) as [[i e]|] eqn:Hd.
  2: { apply decode_None in Hd as ->. cbn. by exists ps. }
  apply decode_Some in Hd as (-> & -> & Hi & ->). cbn.
  destruct (table_lookup i Hi) as (p & Hp & W).
  rewrite list_lookup_fmap. unfold idx. rewrite Hp. cbn.
  rewrite set_idx_lt by (by apply lookup_lt_Some in Hp). cbn. eexists; split; [done|].
  rewrite list_fmap_insert. split; [|by destruct e].
  apply table_insert. destruct W, e; split; cbn; unfold sat_add, u8_max in *; auto; lia.
Qed.

Lemma refines_write fd bytes : refines (Write fd bytes).
Proof.
  unfold refines. cbn -[capacity]. unfold pipe.write, on_end.
  destruct (decode fd) as [[i e]|] eqn:Hd.
  2: { apply decode_None in Hd as ->. cbn. by exists ps. }
  apply decode_Some in Hd as (-> & -> & Hi & ->). cbn -[capacity].
  destruct (table_lookup i Hi) as (p & Hp & W).
  rewrite list_lookup_fmap, Hp. cbn -[capacity].
  destruct e; cbn -[capacity]; [by exists ps|].
  unfold idx. rewrite Hp. cbn -[capacity].
  destruct (pipe.write_open p) eqn:Ho; cbn -[capacity]; [|by exists ps].
  rewrite pipe.write_loop_enq_all.
  destruct (enq_all_spec bytes p) as (p' & He & W' & Hc);
    [exact W|by apply Forall_true|].
  pose proof (enq_all_frame pipe.ends bytes p _ p'
    ltac:(intros; eapply pipe.push_byte_ends; done) He) as Hends.
  rewrite He. rewrite capacity_cap. cbn -[Nat.min].
  rewrite set_idx_lt by (by apply lookup_lt_Some in Hp). cbn -[Nat.min].
  eexists; split; [done|]. split; [by apply table_insert|].
  rewrite list_fmap_insert. f_equal. unfold abs. unfold pipe.ends in Hends.
  injection Hends as -> -> -> ->. rewrite Ho. f_equal. exact Hc.
Qed.

Lemma refines_read fd out : refines (Read fd out).
Proof.
  unfold refines. cbn. unfold pipe.read, on_end.
  destruct (decode fd) as [[i e]|] eqn:Hd.
  2: { apply decode_None in Hd as ->. cbn. by exists ps. }
  apply decode_Some in Hd as (-> & -> & Hi & ->). cbn.
  destruct (table_lookup i Hi) as (p & Hp & W).
  rewrite list_lookup_fmap, Hp. cbn.
  destruct e; cbn; [|by exists ps].
  unfold idx. rewrite Hp. cbn.
  destruct (pipe.read_open p) eqn:Ho; cbn; [|by exists ps].
  destruct (pipe.contents p) as [|b l] eqn:Hcp.
  { apply (pipe.contents_empty _ W) in Hcp as ->.
    destruct (pipe.write_refs p =? 0); cbn; by exists ps. }
  destruct (pipe.is_empty p) eqn:Hem; [apply (pipe.contents_empty _ W) in Hem; congruence|].
  rewrite pipe.read_loop_deq_upto by lia.
  destruct (deq_upto_spec (length out) p) as (p' & He & W' & Hc); [exact W|].
  pose proof (deq_upto_frame pipe.ends (length out) p _ p'
    ltac:(intros; eapply pipe.pop_byte_ends; done) He) as Hends.
  rewrite He. cbn -[Nat.min].
  rewrite set_idx_lt by (by apply lookup_lt_Some in Hp). cbn -[Nat.min].
  change (fifo_list p) with (pipe.contents p) in *. rewrite Hcp in *.
  change (S (length l)) with (length (b :: l)).
  eexists; split; [|split; [by apply table_insert|]].
  - rewrite length_take. unfold splice. cbn [take app]. rewrite take_0. cbn [app].
    do 3 f_equal. rewrite length_take. by rewrite <- (take_take (b :: l)), firstn_all.
  - rewrite list_fmap_insert. f_equal. unfold abs. unfold pipe.ends in Hends.
    injection Hends as -> -> -> ->. cbn [data ropen wopen wrefs rrefs]. rewrite Ho.
    f_equal. change (pipe.contents p') with (fifo_list p'). rewrite Hc.
    destruct (Nat.min_spec (length out) (length (b :: l))) as [[? ->]|[? ->]]; [done|].
    by rewrite !drop_ge by lia.
Qed.

Lemma refines_close fd : refines (Close fd).
Proof.
  unfold refines. cbn. unfold pipe.close, on_end.
  destruct (decode fd) as [[i e]|] eqn:Hd.
  2: { apply decode_None in Hd as ->. cbn. by exists ps. }
  apply decode_Some in Hd as (-> & -> & Hi & ->). cbn.
  destruct (table_lookup i Hi) as (p & Hp & W).
  rewrite list_lookup_fmap. unfold idx. rewrite Hp. cbn.
  rewrite set_idx_lt by (by apply lookup_lt_Some in Hp). cbn. eexists; split; [done|].
  rewrite list_fmap_insert. destruct W. split.
  - apply table_insert. destruct e; split; cbn; auto; unfold u8_max in *;
      repeat case_match; bool_simpl; try done; try lia.
    all: intros; lia.
  - f_equal. unfold abs, drop_ref. destruct e; cbn; f_equal;
      repeat case_match; bool_simpl; try done; try lia.
Qed.

Lemma refines_ready fd : refines (ReadReady fd).
Proof.
  unfold refines. cbn. unfold pipe.read_ready, on_end.
  destruct (decode fd) as [[i e]|] eqn:Hd.
  2: { apply decode_None in Hd as ->. cbn. by exists ps. }
  apply decode_Some in Hd as (-> & -> & Hi & ->). cbn.
  destruct (table_lookup i Hi) as (p & Hp & W).
  rewrite list_lookup_fmap. unfold idx. rewrite Hp. cbn.
  destruct e; cbn; [|by exists ps]. exists ps. split; [|done].
  do 3 f_equal. pose proof (pipe.contents_empty p W) as Hc.
  destruct (pipe.contents p) as [|b l]; cbn; destruct (pipe.is_empty p); naive_solver.
Qed.
End Simulation.

Lemma refines_all ps c : pipe.wf_table ps -> refines ps c.
Proof.
  intros W. destruct c; eauto using refines_alloc, refines_addref, refines_write,
    refines_read, refines_close, refines_ready.
Qed.

Lemma wf_PIPES : pipe.wf_table pipe.PIPES.
Proof.
  split; [done|]. apply Forall_replicate. split; cbn; try done;
    try apply pipe.PIPE_BUF_pos; try (unfold u8_max; lia).
Qed.

(** *** Traces of calls *)

Fixpoint run_all (cs : list call) (ps : list pipe.Pipe)
    : outcome (list reply * list pipe.Pipe) :=
  match cs with
  | [] => Ret ([], ps)
  | c :: cs' =>
      let! (r, ps1) := run c ps in
      let! (rs, ps2) := run_all cs' ps1 in
      Ret (r :: rs, ps2)
  end.

#[global] Instance pend_eq_dec : EqDecision pend.
Proof. solve_decision. Defined.

(** The bytes pipe [i] accepted, respectively delivered, in one call. *)
Definition sent (i : nat) (c : call) (r : reply) : list Z :=
  match c, r with
  | Write fd bytes, Code n => if decide (decode fd = Some (i, WriteEnd))
                              then take (Z.to_nat n) bytes else []
  | _, _ => []
  end.

Definition received (i : nat) (c : call) (r : reply) : list Z :=
  match c, r with
  | Read fd _, Bytes n out => if decide (decode fd = Some (i, ReadEnd))
                              then take (Z.to_nat n) out else []
  | _, _ => []
  end.

(** One call moves bytes of pipe [i] only from the caller to the queue's end or
    from the queue's front to the caller. *)
Lemma step_stream i c t a :
  t !! i = Some a -> (step c t).1 <> Fds (Some (encode i)) ->
  exists a', (step c t).2 !! i = Some a' /\
    data a ++ sent i c (step c t).1 = received i c (step c t).1 ++ data a'.
Proof.
  intros Ha Hne.
  destruct c as [|fd|fd bytes|fd out|fd|fd]; cbn -[encode capacity] in *;
    [|unfold on_end in *; destruct (decode fd) as [[j e]|] eqn:Hd; cbn -[capacity];
      [destruct (t !! j) as [b|] eqn:Hb; cbn -[capacity]|] ..];
    try (exists a; repeat case_decide; by rewrite ?app_nil_r).
  - destruct (position _ t) as [j|] eqn:Hpos; cbn -[encode] in *.
    + destruct (decide (j = i)) as [->|Hji]; [done|].
      exists a. rewrite list_lookup_insert_ne by done. by rewrite app_nil_r.
    + exists a. by rewrite app_nil_r.
  - destruct (decide (j = i)) as [->|Hji];
      [rewrite list_lookup_insert_eq by (by apply lookup_lt_Some in Ha)
      |rewrite list_lookup_insert_ne by done]; eexists; (split; [done|]).
    + simplify_eq. destruct e; by rewrite app_nil_r.
    + by rewrite app_nil_r.
  - destruct e, (wopen b) eqn:Ho; cbn -[capacity Nat.min];
      try (exists a; case_decide; cbn; by rewrite ?app_nil_r).
    destruct (decide (j = i)) as [->|Hji];
      [rewrite list_lookup_insert_eq by (by apply lookup_lt_Some in Ha)
      |rewrite list_lookup_insert_ne by done]; eexists; (split; [done|]).
    + simplify_eq. rewrite decide_True by done. by rewrite Nat2Z.id.
    + rewrite decide_False by congruence. by rewrite app_nil_r.
  - destruct e, (ropen b) eqn:Ho; cbn; try (exists a; case_decide; cbn; by rewrite app_nil_r).
    destruct (data b) as [|x l] eqn:Hl; cbn -[Nat.min].
    { exists a. split; [done|]. destruct (wrefs b =? 0); case_decide; cbn;
        by rewrite app_nil_r. }
    destruct (decide (j = i)) as [->|Hji];
      [rewrite list_lookup_insert_eq by (by apply lookup_lt_Some in Ha)
      |rewrite list_lookup_insert_ne by done]; eexists; (split; [done|]);
      rewrite app_nil_r.
    + simplify_eq. rewrite decide_True by done. rewrite Nat2Z.id.
      change (S (length l)) with (length (x :: l)).
      rewrite take_app_length' by (rewrite length_take; lia).
      cbn [data]. by rewrite take_drop.
    + by rewrite decide_False by congruence.
  - destruct (decide (j = i)) as [->|Hji];
      [rewrite list_lookup_insert_eq by (by apply lookup_lt_Some in Ha)
      |rewrite list_lookup_insert_ne by done]; eexists; (split; [done|]).
    + simplify_eq. destruct e; by rewrite app_nil_r.
    + by rewrite app_nil_r.
Qed.

(** The sequence versions of [sent] and [received]. *)
Fixpoint sent_all (i : nat) (cs : list call) (rs : list reply) : list Z :=
  match cs, rs with
  | c :: cs', r :: rs' => sent i c r ++ sent_all i cs' rs'
  | _, _ => []
  end.

Fixpoint received_all (i : nat) (cs : list call) (rs : list reply) : list Z :=
  match cs, rs with
  | c :: cs', r :: rs' => received i c r ++ received_all i cs' rs'
  | _, _ => []
  end.

Lemma run_all_stream i cs ps p :
  pipe.wf_table ps -> ps !! i = Some p ->
  exists rs ps', run_all cs ps = Ret (rs, ps') /\ pipe.wf_table ps' /\
    (Forall (fun r => r <> Fds (Some (encode i))) rs ->
     exists p', ps' !! i = Some p' /\
       pipe.contents p ++ sent_all i cs rs = received_all i cs rs ++ pipe.contents p').
Proof.
  revert ps p. induction cs as [|c cs IH]; intros ps p W Hp.
  { exists [], ps. split_and!; [done|done|]. intros _. exists p.
    by rewrite app_nil_r. }
  destruct (refines_all ps c W) as (ps1 & Hr & W1 & Habs).
  assert (exists p1, ps1 !! i = Some p1) as [p1 Hp1].
  { apply lookup_lt_Some in Hp. destruct W as [Hl _], W1 as [Hl1 _].
    apply lookup_lt_is_Some_2. lia. }
  destruct (IH ps1 p1 W1 Hp1) as (rs & ps2 & Hrs & W2 & Hstream).
  exists ((step c (abs <$> ps)).1 :: rs), ps2. cbn. rewrite Hr. cbn. rewrite Hrs. cbn.
  split_and!; [done|done|]. intros [Hne Hfr]%Forall_cons.
  destruct (Hstream Hfr) as (p2 & Hp2 & Heq2). exists p2. split; [done|].
  destruct (step_stream i c (abs <$> ps) (abs p)) as (a' & Ha' & Heq1);
    [by rewrite list_lookup_fmap, Hp|done|].
  rewrite <- Habs, list_lookup_fmap, Hp1 in Ha'. injection Ha' as <-.
  cbn in Heq1. rewrite app_assoc, Heq1, <- app_assoc, Heq2, app_assoc. done.
Qed.

(** The specification over a sequence of calls. *)
Fixpoint step_all (cs : list call) (t : list apipe) : list reply * list apipe :=
  match cs with
  | [] => ([], t)
  | c :: cs' => let '(rs, t') := step_all cs' (step c t).2 in ((step c t).1 :: rs, t')
  end.

Lemma run_all_refines cs ps :
  pipe.wf_table ps ->
  exists ps', run_all cs ps = Ret ((step_all cs (abs <$> ps)).1, ps') /\
    pipe.wf_table ps' /\ abs <$> ps' = (step_all cs (abs <$> ps)).2.
Proof.
  revert ps. induction cs as [|c cs IH]; intros ps W; cbn; [by exists ps|].
  destruct (refines_all ps c W) as (ps1 & -> & W1 & Habs). cbn. rewrite <- Habs.
  destruct (IH ps1 W1) as (ps2 & -> & W2 & Habs2). cbn.
  destruct (step_all cs (abs <$> ps1)). by exists ps2.
Qed.

(** C2: from boot, any sequence of pipe calls (allocations, writes, reads,
    closes, reference counting and polls, on any descriptors, valid or not)
    runs without a panic, gives exactly the replies of the specification, and
    leaves the eight ring buffers well-formed and holding exactly the queues of
    the specification. *)
Theorem pipe_calls_refine_spec (cs : list call) :
  exists ps', run_all cs pipe.PIPES = Ret ((step_all cs (abs <$> pipe.PIPES)).1, ps') /\
    pipe.wf_table ps' /\ abs <$> ps' = (step_all cs (abs <$> pipe.PIPES)).2.
Proof. apply run_all_refines, wf_PIPES. Qed.

(** a pipe is a lossless FIFO stream.  Over any interleaving of calls on
    all pipes, as long as pipe [i] is not handed out anew, the bytes it held
    followed by the bytes its writers got accepted are the bytes its readers
    received followed by the bytes it still holds. *)
Theorem pipe_is_lossless_stream (i : nat) (cs : list call) ps p
    (Hwf : pipe.wf_table ps) (Hp : ps !! i = Some p) :
  exists rs ps', run_all cs ps = Ret (rs, ps') /\
    (Forall (fun r => r <> Fds (Some (encode i))) rs ->
     exists p', ps' !! i = Some p' /\
       pipe.contents p ++ sent_all i cs rs = received_all i cs rs ++ pipe.contents p').
Proof. destruct (run_all_stream i cs ps p Hwf Hp) as (rs & ps' & ? & _ & ?); eauto. Qed.

Lemma wf_one_alloc : pipe.wf_table (pipe.alloc pipe.PIPES).2.
Proof.
  destruct (refines_all pipe.PIPES Alloc wf_PIPES) as (ps' & Hr & W & _).
  unfold run in Hr. destruct (pipe.alloc pipe.PIPES) as [r q]. by replace q with ps' by congruence.
Qed.

Lemma pipe_is_lossless_stream_witness :
  let calls := [Write 81 [104; 105; 33]; Read 80 [0; 0]; Close 81] in
  exists rs ps', run_all calls (pipe.alloc pipe.PIPES).2 = Ret (rs, ps') /\
    (Forall (fun r => r <> Fds (Some (encode 0))) rs ->
     exists p', ps' !! 0%nat = Some p' /\
       [] ++ sent_all 0 calls rs = received_all 0 calls rs ++ pipe.contents p').
Proof.
  intros calls.
  exact (pipe_is_lossless_stream 0 calls (pipe.alloc pipe.PIPES).2 _
           wf_one_alloc eq_refl).
Defined.

End pipe_spec.
