(* ===== verification/IpcMsgq.v ===== *)
(** * Message queues (kernel/src/kernel/ipc/ipc.rs)

    Module [ipc] is the driver: sixteen static queues of 64 fixed-size messages,
    found by a linear scan for their id.  Module [ipc_spec] is what it promises:
    a finite map from queue ids to bounded lists of (type, payload) pairs.  The
    refinement theorem covers every sequence of calls from boot. *)

From stdpp Require Import base list gmap.
From Stdlib Require Import ZArith Lia.
From S2P Require Import Prelude RingBuffer.

Local Open Scope Z_scope.

Module ipc.

(* @src ipc/ipc.rs 7-7 MAX_QUEUES *)
Definition MAX_QUEUES : nat := 16.
(* @src ipc/ipc.rs 8-8 MAX_MSG_SIZE *)
Definition MAX_MSG_SIZE : nat := 256.
(* @src ipc/ipc.rs 9-9 MSG_QUEUE_DEPTH *)
Definition MSG_QUEUE_DEPTH : nat := 64.

(* @src ipc/ipc.rs 11-16 Message *)
Record Message := mkMessage { type_id : Z; size : Z; data : list Z }.

(* @src ipc/ipc.rs 18-22 Message::empty *)
Definition empty : Message := mkMessage 0 0 (replicate MAX_MSG_SIZE 0).

(* @src ipc/ipc.rs 24-30 MessageQueue *)
Record MessageQueue := mkQueue {
  id : Z;
  in_use : bool;
  messages : list Message;
  head : nat;
  tail : nat;
}.

(* @src ipc/ipc.rs 32-41 MessageQueue::new *)
Definition new : MessageQueue :=
  mkQueue 0 false (replicate MSG_QUEUE_DEPTH empty) 0 0.

(* @src ipc/ipc.rs 43-43 MessageQueue::is_empty *)
Definition is_empty (q : MessageQueue) : bool := (head q =? tail q)%nat.
(* @src ipc/ipc.rs 44-44 MessageQueue::is_full *)
Definition is_full (q : MessageQueue) : bool :=
  ((tail q + 1) mod MSG_QUEUE_DEPTH =? head q)%nat.

(* @src ipc/ipc.rs 47-47 QUEUES *)
Definition QUEUES : list MessageQueue := replicate MAX_QUEUES new.

(** [queues[i].in_use && queues[i].id == id], the test of every scan. *)
Definition is_queue (i : Z) (q : MessageQueue) : bool := in_use q && (id q =? i).

(* @src ipc/ipc.rs 49-69 msgq_create *)
Definition msgq_create (qs : list MessageQueue) (i : Z) : Z * list MessageQueue :=
  match position (is_queue i) qs with
  | Some _ => (i, qs)
  | None =>
      match position (fun q => negb (in_use q)) qs with
      | Some k => (i, alter (fun q => mkQueue i true (messages q) 0 0) k qs)
      | None => (-4, qs)
      end
  end.

(** The part of [msgsnd] that works on the queue found: [None] when it is full.
    The payload overwrites the first bytes of the slot's array, the bytes after
    it keep what an earlier message left there. *)
(* @src ipc/ipc.rs 78-85 msgsnd (on the queue) *)
Definition enqueue (m : Z * list Z) (q : MessageQueue) : outcome (option MessageQueue) :=
  if is_full q then Ret None
  else
    let tl := tail q in
    let! slot := idx (messages q) tl in
    let! d := copy_at (data slot) 0 m.2 in
    let! ms := set_idx (messages q) tl
                 (mkMessage m.1 (wrap 32 (Z.of_nat (length m.2))) d) in
    Ret (Some (mkQueue (id q) (in_use q) ms (head q) ((tl + 1) mod MSG_QUEUE_DEPTH)%nat)).

(* @src ipc/ipc.rs 71-90 msgsnd *)
Definition msgsnd (qs : list MessageQueue) (i ty : Z) (payload : list Z)
    : outcome (Z * list MessageQueue) :=
  if (MAX_MSG_SIZE <? length payload)%nat then Ret (-22, qs)
  else
    match position (is_queue i) qs with
    | None => Ret (-2, qs)
    | Some k =>
        let! q := idx qs k in
        let! r := enqueue (ty, payload) q in
        match r with
        | None => Ret (-6, qs)
        | Some q' => Ret (0, <[k := q']> qs)
        end
    end.

(* @src ipc/ipc.rs 98-104 msgrcv (on the queue) *)
Definition dequeue (q : MessageQueue) : outcome (option (Message * MessageQueue)) :=
  if is_empty q then Ret None
  else
    let hd := head q in
    let! m := idx (messages q) hd in
    Ret (Some (m, mkQueue (id q) (in_use q) (messages q)
                          ((hd + 1) mod MSG_QUEUE_DEPTH)%nat (tail q))).

(** [msg_out] is the caller's message; it is returned as the call leaves it. *)
(* @src ipc/ipc.rs 92-108 msgrcv *)
Definition msgrcv (qs : list MessageQueue) (i : Z) (msg_out : Message)
    : outcome (Z * Message * list MessageQueue) :=
  match position (is_queue i) qs with
  | None => Ret (-2, msg_out, qs)
  | Some k =>
      let! q := idx qs k in
      let! r := dequeue q in
      match r with
      | None => Ret (-6, msg_out, qs)
      | Some (m, q') => Ret (0, m, <[k := q']> qs)
      end
  end.

(* @src ipc/ipc.rs 110-122 msgq_destroy *)
Definition msgq_destroy (qs : list MessageQueue) (i : Z) : Z * list MessageQueue :=
  match position (is_queue i) qs with
  | None => (-2, qs)
  | Some k => (0, alter (fun q => mkQueue (id q) false (messages q) 0 0) k qs)
  end.

(* @src ipc/ipc.rs 124-135 msgq_len *)
Definition msgq_len (qs : list MessageQueue) (i : Z) : outcome Z :=
  match position (is_queue i) qs with
  | None => Ret (-2)
  | Some k =>
      let! q := idx qs k in
      Ret (Z.of_nat ((tail q + MSG_QUEUE_DEPTH - head q) mod MSG_QUEUE_DEPTH))
  end.

(** ** Invariant *)

Record wf (q : MessageQueue) : Prop := {
  wf_len : length (messages q) = MSG_QUEUE_DEPTH;
  wf_head : (head q < MSG_QUEUE_DEPTH)%nat;
  wf_tail : (tail q < MSG_QUEUE_DEPTH)%nat;
  wf_data : Forall (fun m => length (data m) = MAX_MSG_SIZE) (messages q);
}.

(** Two queues in use never share an id, so a scan finds the only one. *)
Definition wf_table (qs : list MessageQueue) : Prop :=
  length qs = MAX_QUEUES /\ Forall wf qs /\
  forall k1 k2 q1 q2, qs !! k1 = Some q1 -> qs !! k2 = Some q2 ->
    in_use q1 = true -> in_use q2 = true -> id q1 = id q2 -> k1 = k2.

(** What a received message means: its type and the first [size] bytes. *)
Definition view (m : Message) : Z * list Z := (type_id m, take (Z.to_nat (size m)) (data m)).

Definition len (q : MessageQueue) : nat := ring_len MSG_QUEUE_DEPTH (head q) (tail q).
Definition contents (q : MessageQueue) : list (Z * list Z) :=
  view <$> ring_list (messages q) (head q) (len q).

(** *** The queue implements the FIFO interface *)

#[global] Instance msgq_fifo : Fifo MessageQueue (Z * list Z) := {|
  fifo_wf := wf;
  fifo_cap := (MSG_QUEUE_DEPTH - 1)%nat;
  fifo_list := contents;
  fifo_elem := fun m => (length m.2 <= MAX_MSG_SIZE)%nat;
  fifo_enq := enqueue;
  fifo_deq := fun q =>
    let! r := dequeue q in
    Ret (match r with Some (m, q') => Some (view m, q') | None => None end);
|}.

Lemma msgq_length_contents q : wf q -> length (contents q) = len q.
Proof.
  intros W. unfold contents. rewrite length_fmap. apply length_ring_list.
  rewrite (wf_len _ W). apply W.
Qed.

Lemma view_stored ty payload d :
  length d = MAX_MSG_SIZE -> (length payload <= MAX_MSG_SIZE)%nat ->
  view (mkMessage ty (wrap 32 (Z.of_nat (length payload))) (splice d 0 payload)) =
  (ty, payload).
Proof.
  intros Hd Hp. unfold view, wrap, splice. cbn -[MAX_MSG_SIZE].
  assert (Z.of_nat MAX_MSG_SIZE = 256) by reflexivity.
  rewrite Z.mod_small, Nat2Z.id by (change (2 ^ 32) with 4294967296; lia).
  rewrite take_0. cbn. by rewrite take_app_length.
Qed.

Lemma msgq_contents_nil q : wf q -> contents q = [] <-> head q = tail q.
Proof.
  intros W. rewrite <- (ring_len_empty MSG_QUEUE_DEPTH (head q) (tail q)) by apply W.
  change (ring_len _ _ _) with (len q). rewrite <- msgq_length_contents by done.
  split; [by intros ->|]. apply length_zero_iff_nil.
Qed.

(** Overwriting the slot at [tail] and advancing appends to the contents. *)
Lemma contents_push q m :
  wf q -> (len q < MSG_QUEUE_DEPTH - 1)%nat ->
  contents (mkQueue (id q) (in_use q) (<[tail q := m]> (messages q)) (head q)
              ((tail q + 1) mod MSG_QUEUE_DEPTH)%nat) = contents q ++ [view m].
Proof.
  intros W Hl. unfold contents. cbn -[MSG_QUEUE_DEPTH].
  pose proof (ring_list_push (messages q) (head q) (tail q) m) as Hp.
  rewrite (wf_len _ W) in Hp. unfold ring_succ in Hp. unfold len in *.
  cbn -[MSG_QUEUE_DEPTH]. rewrite Hp by (try apply W; done).
  by rewrite fmap_app.
Qed.

#[global] Instance msgq_fifo_laws : FifoLaws MessageQueue (Z * list Z).
Proof.
  split; unfold fifo_cap; cbn -[MSG_QUEUE_DEPTH MAX_MSG_SIZE].
  - intros q W. rewrite msgq_length_contents by done.
    pose proof (ring_len_lt MSG_QUEUE_DEPTH (head q) (tail q) (wf_head _ W)).
    unfold len. lia.
  - intros q e W He Hlt. rewrite msgq_length_contents in Hlt by done.
    unfold enqueue, is_full.
    destruct (Nat.eqb_spec ((tail q + 1) mod MSG_QUEUE_DEPTH) (head q)) as [Hf|_].
    { apply (ring_full_iff MSG_QUEUE_DEPTH (head q) (tail q)) in Hf; try apply W.
      unfold len in Hlt. lia. }
    destruct (idx_lt (messages q) (tail q)) as (slot & -> & Hslot);
      [rewrite (wf_len _ W); apply W|].
    assert (length (data slot) = MAX_MSG_SIZE) as Hds
      by (by eapply (Forall_lookup_1 _ _ _ _ (wf_data _ W))).
    cbn -[MSG_QUEUE_DEPTH]. rewrite copy_at_le by (cbn; lia).
    cbn -[MSG_QUEUE_DEPTH]. rewrite set_idx_lt by (rewrite (wf_len _ W); apply W).
    cbn -[MSG_QUEUE_DEPTH]. eexists; split; [done|]. split.
    + destruct W as [W1 W2 W3 W4]. split; cbn -[MSG_QUEUE_DEPTH MAX_MSG_SIZE].
      * by rewrite length_insert.
      * done.
      * by apply Nat.mod_upper_bound.
      * apply Forall_insert; [done|]. cbn -[MAX_MSG_SIZE]. rewrite length_splice; [done|].
        cbn. lia.
    + rewrite contents_push by done. rewrite view_stored by done. by destruct e.
  - intros q e W Heq. rewrite msgq_length_contents in Heq by done. unfold enqueue, is_full.
    apply ring_full_iff in Heq; try apply W. unfold ring_succ in Heq.
    by rewrite Heq, Nat.eqb_refl.
  - intros q e l W Hl. unfold dequeue, is_empty.
    destruct (Nat.eqb_spec (head q) (tail q)) as [He|Hne].
    { apply msgq_contents_nil in He; [congruence|done]. }
    pose proof (ring_list_pop (messages q) (head q) (tail q)) as Hp.
    rewrite (wf_len _ W) in Hp.
    destruct Hp as (x & Hx & Heq); [apply W|apply W|done|].
    unfold contents, len in Hl. rewrite Heq in Hl. injection Hl as <- <-.
    apply idx_Ret in Hx as ->. cbn -[MSG_QUEUE_DEPTH]. eexists; split; [done|].
    split; [|done]. destruct W. split; cbn -[MSG_QUEUE_DEPTH]; auto.
    by apply Nat.mod_upper_bound.
  - intros q W He. unfold dequeue, is_empty.
    apply msgq_contents_nil in He as ->; [|done]. by rewrite Nat.eqb_refl.
Qed.

Lemma enqueue_key e q q' :
  enqueue e q = Ret (Some q') -> id q' = id q /\ in_use q' = in_use q.
Proof.
  unfold enqueue. destruct (is_full q); [done|].
  rewrite bind_Ret. intros (s & _ & H). rewrite bind_Ret in H.
  destruct H as (d & _ & H). rewrite bind_Ret in H. by destruct H as (ms & _ & [= <-]).
Qed.

Lemma dequeue_key m q q' :
  dequeue q = Ret (Some (m, q')) -> id q' = id q /\ in_use q' = in_use q.
Proof.
  unfold dequeue. destruct (is_empty q); [done|].
  rewrite bind_Ret. by intros (x & _ & [= <- <-]).
Qed.

#[global] Arguments contents : simpl never.

End ipc.

(** ** Specification *)

Module ipc_spec.

Definition max_queues : nat := 16.
Definition max_depth : nat := 63.
Definition max_payload : nat := 256.

(** The kernel's queues as their users see them. *)
Abbreviation queues := (gmap Z (list (Z * list Z))).

Inductive call :=
| Create (i : Z)
| Send (i ty : Z) (payload : list Z)
| Receive (i : Z)
| Destroy (i : Z)
| Length (i : Z).

(** A code, and the message when one was received. *)
Definition reply : Type := Z * option (Z * list Z).

Definition step (c : call) (m : queues) : reply * queues :=
  match c with
  | Create i =>
      match m !! i with
      | Some _ => ((i, None), m)
      | None => if (size m <? max_queues)%nat then ((i, None), <[i := []]> m)
                else ((-4, None), m)
      end
  | Send i ty payload =>
      if (max_payload <? length payload)%nat then ((-22, None), m)
      else
        match m !! i with
        | None => ((-2, None), m)
        | Some q => if (length q <? max_depth)%nat
                    then ((0, None), <[i := q ++ [(ty, payload)]]> m)
                    else ((-6, None), m)
        end
  | Receive i =>
      match m !! i with
      | None => ((-2, None), m)
      | Some [] => ((-6, None), m)
      | Some (x :: q) => ((0, Some x), <[i := q]> m)
      end
  | Destroy i =>
      match m !! i with
      | None => ((-2, None), m)
      | Some _ => ((0, None), delete i m)
      end
  | Length i =>
      match m !! i with
      | None => ((-2, None), m)
      | Some q => ((Z.of_nat (length q), None), m)
      end
  end.

Definition run (c : call) (qs : list ipc.MessageQueue)
    : outcome (reply * list ipc.MessageQueue) :=
  match c with
  | Create i => let '(r, qs') := ipc.msgq_create qs i in Ret ((r, None), qs')
  | Send i ty p => let! (r, qs') := ipc.msgsnd qs i ty p in Ret ((r, None), qs')
  | Receive i =>
      let! (r, m, qs') := ipc.msgrcv qs i ipc.empty in
      Ret ((r, if r =? 0 then Some (ipc.view m) else None), qs')
  | Destroy i => let '(r, qs') := ipc.msgq_destroy qs i in Ret ((r, None), qs')
  | Length i => let! r := ipc.msgq_len qs i in Ret ((r, None), qs)
  end.

(** The map a table stands for. *)
Definition entries (qs : list ipc.MessageQueue) : list (Z * list (Z * list Z)) :=
  (fun q => (ipc.id q, ipc.contents q)) <$> filter (fun q => ipc.in_use q = true) qs.
Definition abs (qs : list ipc.MessageQueue) : queues := list_to_map (entries qs).

Lemma lookup_abs qs i :
  abs qs !! i = k ← position (ipc.is_queue i) qs; ipc.contents <$> qs !! k.
Proof.
  unfold abs, entries. induction qs as [|q qs IH]; [done|].
  rewrite filter_cons. cbn [position].
  change (ipc.is_queue i q) with (ipc.in_use q && (ipc.id q =? i)).
  destruct (ipc.in_use q) eqn:Hu; cbn [andb].
  - rewrite decide_True by done. rewrite fmap_cons. cbn beta. rewrite list_to_map_cons.
    destruct (Z.eqb_spec (ipc.id q) i) as [->|Hne].
    + by rewrite lookup_insert_eq.
    + rewrite lookup_insert_ne by done. rewrite IH.
      by destruct (position _ qs).
  - rewrite decide_False by done. rewrite IH. by destruct (position _ qs).
Qed.

Lemma lookup_abs_Some qs i k q :
  position (ipc.is_queue i) qs = Some k -> qs !! k = Some q ->
  abs qs !! i = Some (ipc.contents q).
Proof. intros Hp Hq. rewrite lookup_abs, Hp. cbn. by rewrite Hq. Qed.

Lemma lookup_abs_None qs i :
  position (ipc.is_queue i) qs = None -> abs qs !! i = None.
Proof. intros Hp. by rewrite lookup_abs, Hp. Qed.

Lemma abs_update qs i k q q' :
  position (ipc.is_queue i) qs = Some k -> qs !! k = Some q ->
  ipc.id q' = ipc.id q -> ipc.in_use q' = ipc.in_use q ->
  abs (<[k := q']> qs) = <[i := ipc.contents q']> (abs qs).
Proof.
  intros Hp Hq Hid Hin. apply map_eq. intros j.
  assert (ipc.id q = i) as <-.
  { apply position_Some in Hp as (x & Hx & Hf & _). simplify_eq.
    unfold ipc.is_queue in Hf. bool_simpl. done. }
  rewrite lookup_abs, lookup_insert.
  erewrite position_insert_same by (done || unfold ipc.is_queue; by rewrite Hid, Hin).
  case_decide as Hj.
  - subst j. rewrite Hp. cbn. rewrite list_lookup_insert_eq; [done|].
    by apply lookup_lt_Some in Hq.
  - rewrite lookup_abs. destruct (position (ipc.is_queue j) qs) as [k'|] eqn:Hk'; [|done].
    cbn. rewrite list_lookup_insert_ne; [done|]. intros ->.
    apply position_Some in Hk' as (x & Hx & Hf & _). simplify_eq.
    unfold ipc.is_queue in Hf. bool_simpl. congruence.
Qed.

Lemma all_in_use_filter (qs : list ipc.MessageQueue) :
  (forall k q, qs !! k = Some q -> ipc.in_use q = true) ->
  filter (fun q => ipc.in_use q = true) qs = qs.
Proof.
  induction qs as [|q qs IH]; intros H; [done|].
  rewrite filter_cons, decide_True by (by apply (H 0%nat)).
  f_equal. apply IH. intros k. apply (H (S k)).
Qed.

(** *** Simulation *)

Section Simulation.
Context (qs : list ipc.MessageQueue) (Hqs : ipc.wf_table qs).

Lemma scan_found i k :
  position (ipc.is_queue i) qs = Some k ->
  exists q, qs !! k = Some q /\ ipc.wf q /\ ipc.in_use q = true /\ ipc.id q = i.
Proof.
  intros (q & Hq & Hf & _)%position_Some. exists q.
  unfold ipc.is_queue in Hf. bool_simpl. destruct Hqs as (_ & Hall & _).
  split_and!; [done| |done|done]. by eapply Forall_lookup_1.
Qed.

Lemma wf_update k q q' :
  qs !! k = Some q -> ipc.wf q' -> ipc.id q' = ipc.id q -> ipc.in_use q' = ipc.in_use q ->
  ipc.wf_table (<[k := q']> qs).
Proof.
  intros Hq W Hid Hin. destruct Hqs as (Hl & Hall & Hu). split_and!.
  - by rewrite length_insert.
  - by apply Forall_insert.
  - intros k1 k2 q1 q2 H1 H2 Hi1 Hi2 Heq.
    apply list_lookup_insert_Some in H1 as [(<- & <- & _)|(? & H1)];
    apply list_lookup_insert_Some in H2 as [(<- & <- & _)|(? & H2)]; try done.
    + eapply (Hu _ _ q q2); [done|done| | |]; congruence.
    + eapply (Hu _ _ q1 q); [done|done| | |]; congruence.
    + by eapply Hu.
Qed.

Lemma NoDup_ids : NoDup (entries qs).*1.
Proof.
  destruct Hqs as (_ & _ & Hu). clear Hqs. unfold entries. rewrite <- list_fmap_compose.
  induction qs as [|q l IH]; [constructor|]. rewrite filter_cons.
  assert (NoDup ((fst ∘ (fun q => (ipc.id q, ipc.contents q))) <$>
                 filter (fun q => ipc.in_use q = true) l)) as IH'.
  { apply IH. intros k1 k2 q1 q2 H1 H2 H3 H4 H5.
    specialize (Hu (S k1) (S k2) q1 q2 H1 H2 H3 H4 H5). lia. }
  case_decide as Hin; [|done]. cbn. constructor; [|done].
  intros (q2 & Hid & (Hin2 & Hq2)%list_elem_of_filter)%list_elem_of_fmap.
  apply list_elem_of_lookup in Hq2 as [k Hk].
  specialize (Hu 0%nat (S k) q q2 eq_refl Hk Hin Hin2 Hid). lia.
Qed.

Lemma size_abs :
  size (abs qs) = length (filter (fun q => ipc.in_use q = true) qs).
Proof.
  unfold abs. rewrite map_size_list_to_map by apply NoDup_ids.
  unfold entries. by rewrite length_fmap.
Qed.

Lemma free_slot_iff :
  (size (abs qs) <? max_queues)%nat =
  match position (fun q => negb (ipc.in_use q)) qs with Some _ => true | None => false end.
Proof.
  rewrite size_abs. destruct Hqs as (Hl & _ & _).
  destruct (position _ qs) as [k|] eqn:Hp.
  - apply Nat.ltb_lt. change max_queues with ipc.MAX_QUEUES. rewrite <- Hl.
    apply position_Some in Hp as (q & Hq & Hf & _). bool_simpl.
    apply length_filter_lt with q; [by apply list_elem_of_lookup_2 in Hq|congruence].
  - apply Nat.ltb_ge. change max_queues with ipc.MAX_QUEUES. rewrite <- Hl.
    rewrite all_in_use_filter; [done|]. intros k q Hk.
    eapply position_None in Hp; [|done]. by bool_simpl.
Qed.

Definition refines (c : call) : Prop :=
  exists qs', run c qs = Ret ((step c (abs qs)).1, qs') /\ ipc.wf_table qs' /\
              abs qs' = (step c (abs qs)).2.

(** A call that does not touch the table. *)
Lemma refines_same c r :
  run c qs = Ret (r, qs) -> step c (abs qs) = (r, abs qs) -> refines c.
Proof. intros H1 H2. exists qs. by rewrite H1, H2. Qed.

(** The queue that a scan for a free slot returns, initialised. *)
Lemma wf_table_create i k q :
  position (ipc.is_queue i) qs = None -> qs !! k = Some q -> ipc.wf q ->
  let q' := ipc.mkQueue i true (ipc.messages q) 0 0 in
  ipc.wf_table (<[k := q']> qs).
Proof.
  intros Hn Hq W q'. destruct Hqs as (Hl & Hall & Hu). split_and!.
  - by rewrite length_insert.
  - apply Forall_insert; [done|]. destruct W. split; cbn; auto; unfold ipc.MSG_QUEUE_DEPTH; lia.
  - assert (forall j x, qs !! j = Some x -> ipc.in_use x = true -> ipc.id x <> i) as Hne.
    { intros j x Hx Hin Hid. eapply position_None in Hn; [|done].
      unfold ipc.is_queue in Hn. rewrite Hin, Hid, Z.eqb_refl in Hn. done. }
    intros k1 k2 q1 q2 H1 H2 Hi1 Hi2 Heq.
    apply list_lookup_insert_Some in H1 as [(<- & <- & _)|(? & H1)];
    apply list_lookup_insert_Some in H2 as [(<- & <- & _)|(? & H2)]; try done.
    + exfalso. by eapply Hne.
    + exfalso. by eapply Hne.
    + by eapply Hu.
Qed.

Lemma refines_create i : refines (Create i).
Proof.
  destruct (position (ipc.is_queue i) qs) as [k|] eqn:Hp.
  - destruct (scan_found i k Hp) as (q & Hq & _).
    apply (refines_same _ (i, None)); cbn; unfold ipc.msgq_create.
    + by rewrite Hp.
    + by rewrite (lookup_abs_Some _ _ _ _ Hp Hq).
  - unfold refines. cbn [run step]. unfold ipc.msgq_create.
    rewrite Hp, (lookup_abs_None _ _ Hp), free_slot_iff.
    destruct (position (fun q => negb (ipc.in_use q)) qs) as [k|] eqn:Hf; cbn; [|by exists qs].
    pose proof Hf as (q & Hq & Hfree & _)%position_Some. bool_simpl.
    rewrite (alter_insert _ qs k q) by done.
    eexists; split; [done|]. split.
    + apply wf_table_create; [done|done|].
      destruct Hqs as (_ & Hall & _). by eapply Forall_lookup_1.
    + apply map_eq. intros j. rewrite lookup_insert, lookup_abs. case_decide as Hj.
      * subst j. rewrite position_insert_new.
        -- cbn. rewrite list_lookup_insert_eq by (by eapply lookup_lt_Some). done.
        -- by eapply lookup_lt_Some.
        -- done.
        -- unfold ipc.is_queue. cbn. apply Z.eqb_refl.
      * erewrite position_insert_same; [|done|].
        -- rewrite lookup_abs. destruct (position (ipc.is_queue j) qs) as [k'|] eqn:Hk'; [|done].
           cbn. rewrite list_lookup_insert_ne; [done|]. intros ->.
           apply position_Some in Hk' as (x & Hx & Hfx & _). simplify_eq.
           unfold ipc.is_queue in Hfx. by rewrite Hfree in Hfx.
        -- unfold ipc.is_queue. cbn. rewrite Hfree. cbn. by apply Z.eqb_neq.
Qed.

Lemma refines_send i ty payload : refines (Send i ty payload).
Proof.
  unfold refines. cbn [run step]. unfold ipc.msgsnd.
  change ipc.MAX_MSG_SIZE with max_payload.
  destruct (Nat.ltb_spec max_payload (length payload)) as [Hbig|Hfit]; [by exists qs|].
  destruct (position (ipc.is_queue i) qs) as [k|] eqn:Hp.
  2: { rewrite (lookup_abs_None _ _ Hp). by exists qs. }
  destruct (scan_found i k Hp) as (q & Hq & W & Hin & Hid).
  rewrite (lookup_abs_Some _ _ _ _ Hp Hq).
  pose proof Hq as Hq'. apply idx_Ret in Hq' as ->. cbn [mbind outcome_mbind].
  destruct (Nat.ltb_spec (length (ipc.contents q)) max_depth) as [Hlt|Hge].
  - destruct (fifo_enq_ok (S := ipc.MessageQueue) (E := Z * list Z) q (ty, payload))
      as (q' & He & W' & Hc); [exact W|exact Hfit|exact Hlt|].
    cbn in He, W', Hc. rewrite He. cbn.
    apply ipc.enqueue_key in He as [Hid' Hin']. eexists; split; [done|]. split.
    + by eapply wf_update.
    + rewrite (abs_update _ i k q q') by done. by rewrite Hc.
  - pose proof (fifo_bound (S := ipc.MessageQueue) (E := Z * list Z) q) as Hb.
    specialize (Hb W).
    change (fifo_list q) with (ipc.contents q) in Hb.
    change (fifo_cap ipc.MessageQueue (Z * list Z)) with max_depth in Hb.
    pose proof (fifo_enq_full (S := ipc.MessageQueue) (E := Z * list Z) q (ty, payload)) as He.
    cbn [fifo_enq ipc.msgq_fifo] in He. rewrite He; [by exists qs|exact W|].
    change (fifo_list q) with (ipc.contents q).
    change (fifo_cap ipc.MessageQueue (Z * list Z)) with max_depth. lia.
Qed.

Lemma refines_receive i : refines (Receive i).
Proof.
  unfold refines. cbn [run step]. unfold ipc.msgrcv.
  destruct (position (ipc.is_queue i) qs) as [k|] eqn:Hp.
  2: { rewrite (lookup_abs_None _ _ Hp). by exists qs. }
  destruct (scan_found i k Hp) as (q & Hq & W & Hin & Hid).
  rewrite (lookup_abs_Some _ _ _ _ Hp Hq).
  pose proof Hq as Hq'. apply idx_Ret in Hq' as ->. cbn [mbind outcome_mbind].
  destruct (ipc.contents q) as [|x l] eqn:Hc.
  - apply ipc.msgq_contents_nil in Hc; [|done]. unfold ipc.dequeue, ipc.is_empty.
    rewrite Hc, Nat.eqb_refl. by exists qs.
  - destruct (fifo_deq_ok (S := ipc.MessageQueue) (E := Z * list Z) q x l)
      as (q' & He & W' & Hc'); [exact W|exact Hc|].
    cbn [fifo_deq ipc.msgq_fifo] in He.
    destruct (ipc.dequeue q) as [[[m q1]|]|] eqn:Hd; cbn in He; try done.
    injection He as <- ->. cbn. apply ipc.dequeue_key in Hd as [Hid' Hin'].
    eexists; split; [done|]. split.
    + by eapply wf_update.
    + rewrite (abs_update _ i k q q') by done. cbn in Hc'. by rewrite Hc'.
Qed.

Lemma refines_destroy i : refines (Destroy i).
Proof.
  unfold refines. cbn [run step]. unfold ipc.msgq_destroy.
  destruct (position (ipc.is_queue i) qs) as [k|] eqn:Hp.
  2: { rewrite (lookup_abs_None _ _ Hp). by exists qs. }
  destruct (scan_found i k Hp) as (q & Hq & W & Hin & Hid).
  rewrite (lookup_abs_Some _ _ _ _ Hp Hq), (alter_insert _ qs k q) by done.
  destruct Hqs as (Hl & Hall & Hu). cbn. eexists; split; [done|]. split_and!.
  - split_and!.
    + by rewrite length_insert.
    + apply Forall_insert; [done|]. destruct W. split; cbn; auto; unfold ipc.MSG_QUEUE_DEPTH; lia.
    + intros k1 k2 q1 q2 H1 H2 Hi1 Hi2 Heq.
      apply list_lookup_insert_Some in H1 as [(<- & <- & _)|(? & H1)];
      apply list_lookup_insert_Some in H2 as [(<- & <- & _)|(? & H2)]; try done.
      by eapply Hu.
  - apply map_eq. intros j. rewrite lookup_delete, lookup_abs. case_decide as Hj.
    + subst j. rewrite position_insert_gone; [done| |done].
      intros j x Hx Hf. unfold ipc.is_queue in Hf. bool_simpl.
      eapply (Hu j k x q); [done..|congruence].
    + erewrite position_insert_same; [|done|].
      * rewrite lookup_abs. destruct (position (ipc.is_queue j) qs) as [k'|] eqn:Hk'; [|done].
        cbn. rewrite list_lookup_insert_ne; [done|]. intros ->.
        apply position_Some in Hk' as (x & Hx & Hfx & _). simplify_eq.
        unfold ipc.is_queue in Hfx. bool_simpl. congruence.
      * unfold ipc.is_queue. cbn. rewrite Hin. cbn. symmetry. apply Z.eqb_neq. congruence.
Qed.

Lemma refines_length i : refines (Length i).
Proof.
  destruct (position (ipc.is_queue i) qs) as [k|] eqn:Hp.
  - destruct (scan_found i k Hp) as (q & Hq & W & _).
    apply (refines_same _ (Z.of_nat (length (ipc.contents q)), None)); cbn [run step];
      unfold ipc.msgq_len.
    + rewrite Hp. pose proof Hq as Hq'. apply idx_Ret in Hq' as ->. cbn [mbind outcome_mbind].
      by rewrite ipc.msgq_length_contents.
    + by rewrite (lookup_abs_Some _ _ _ _ Hp Hq).
  - apply (refines_same _ (-2, None)); cbn [run step]; unfold ipc.msgq_len.
    + by rewrite Hp.
    + by rewrite (lookup_abs_None _ _ Hp).
Qed.

Lemma refines_call c : refines c.
Proof.
  destruct c; [apply refines_create|apply refines_send|apply refines_receive
              |apply refines_destroy|apply refines_length].
Qed.
End Simulation.

Fixpoint step_all (cs : list call) (m : queues) : list reply * queues :=
  match cs with
  | [] => ([], m)
  | c :: cs' =>
      let '(r, m1) := step c m in
      let '(rs, m2) := step_all cs' m1 in (r :: rs, m2)
  end.

Fixpoint run_all (cs : list call) (qs : list ipc.MessageQueue)
    : outcome (list reply * list ipc.MessageQueue) :=
  match cs with
  | [] => Ret ([], qs)
  | c :: cs' =>
      let! (r, qs1) := run c qs in
      let! (rs, qs2) := run_all cs' qs1 in Ret (r :: rs, qs2)
  end.

Lemma wf_QUEUES : ipc.wf_table ipc.QUEUES.
Proof.
  assert (forall k q, ipc.QUEUES !! k = Some q -> q = ipc.new) as Hnew.
  { intros k q Hk. by apply lookup_replicate in Hk as [-> _]. }
  split_and!; [done| |].
  - apply Forall_forall. intros q [k Hk]%list_elem_of_lookup. apply Hnew in Hk as ->.
    split; [done|unfold ipc.MSG_QUEUE_DEPTH; cbn; lia..|]. cbn -[ipc.empty].
    repeat constructor.
  - intros k1 k2 q1 q2 H1 H2 Hi. apply Hnew in H1 as ->. done.
Qed.

Lemma msgq_run_all_refines cs qs :
  ipc.wf_table qs ->
  exists qs', run_all cs qs = Ret ((step_all cs (abs qs)).1, qs') /\ ipc.wf_table qs' /\
              abs qs' = (step_all cs (abs qs)).2.
Proof.
  revert qs. induction cs as [|c cs IH]; intros qs W; cbn; [by exists qs|].
  destruct (refines_call qs W c) as (qs1 & -> & W1 & Ha1). cbn.
  destruct (IH qs1 W1) as (qs2 & -> & W2 & Ha).
  destruct (step c (abs qs)) as [r m1]. cbn in *. rewrite Ha1 in *.
  destruct (step_all cs m1) as [rs m2]. cbn in *. by exists qs2.
Qed.

(** C31: Over any sequence of message-queue system calls from boot, [ipc.rs]
    never panics and answers as a map from ids to bounded FIFO lists does: a
    message arrives once, with the type and exactly the bytes sent, in the order
    sent; at most 16 queues of at most 63 messages exist; the error codes are -2
    (no such queue), -4 (table full), -6 (full or empty) and -22 (too long). *)
Theorem msgq_calls_refine_spec (cs : list call) :
  exists qs', run_all cs ipc.QUEUES = Ret ((step_all cs ∅).1, qs') /\
              ipc.wf_table qs' /\ abs qs' = (step_all cs ∅).2.
Proof. exact (msgq_run_all_refines cs ipc.QUEUES wf_QUEUES). Qed.

End ipc_spec.
