(* ===== verification/IpcStdin.v ===== *)
(** * The keyboard buffer (kernel/src/kernel/ipc/stdin.rs)

    Module [stdin] is the driver.  Its comment says that no lock is needed
    because the producer is an interrupt handler on a single core: [push] runs
    to completion, but it may run between any two statements of [pop].  Module
    [stdin_isr] models exactly that interleaving as a step relation and proves
    that no byte is lost, duplicated or reordered by it. *)

From stdpp Require Import base list relations.
From Stdlib Require Import ZArith Lia.
From S2P Require Import Prelude RingBuffer.

Local Open Scope Z_scope.

Module stdin.

(* @src ipc/stdin.rs 6-6 BUF_SIZE *)
Definition BUF_SIZE : nat := 256.

(* @src ipc/stdin.rs 8-10 BUF, HEAD, TAIL *)
Record state := mkState { BUF : list Z; HEAD : nat; TAIL : nat }.

Definition boot : state := mkState (replicate BUF_SIZE 0) 0 0.

(* @src ipc/stdin.rs 12-22 push *)
Definition push (ch : Z) (s : state) : outcome state :=
  let next := ((TAIL s + 1) mod BUF_SIZE)%nat in
  if negb (next =? HEAD s)%nat then
    let! b := set_idx (BUF s) (TAIL s) ch in
    Ret (mkState b (HEAD s) next)
  else Ret s.

(* @src ipc/stdin.rs 24-32 pop *)
Definition pop (s : state) : outcome (option Z * state) :=
  if (HEAD s =? TAIL s)%nat then Ret (None, s)
  else
    let! ch := idx (BUF s) (HEAD s) in
    Ret (Some ch, mkState (BUF s) ((HEAD s + 1) mod BUF_SIZE)%nat (TAIL s)).

(* @src ipc/stdin.rs 34-37 available *)
Definition available (s : state) : nat :=
  ((TAIL s + BUF_SIZE - HEAD s) mod BUF_SIZE)%nat.

(** ** Invariant and contents *)

Record wf (s : state) : Prop := {
  wf_len : length (BUF s) = BUF_SIZE;
  wf_head : (HEAD s < BUF_SIZE)%nat;
  wf_tail : (TAIL s < BUF_SIZE)%nat;
}.

Definition contents (s : state) : list Z := ring_list (BUF s) (HEAD s) (available s).

Lemma wf_boot : wf boot.
Proof. split; [done|unfold BUF_SIZE; cbn; lia..]. Qed.

Section Ops.
Context (s : state) (W : wf s).

Lemma stdin_length_contents : length (contents s) = available s.
Proof. apply length_ring_list. rewrite (wf_len _ W). apply W. Qed.

Lemma available_bound : (available s <= BUF_SIZE - 1)%nat.
Proof.
  pose proof (ring_len_lt BUF_SIZE (HEAD s) (TAIL s) (wf_head _ W)) as H.
  unfold ring_len in H. unfold available. lia.
Qed.

Lemma push_spec ch :
  exists s', push ch s = Ret s' /\ wf s' /\ HEAD s' = HEAD s /\
    contents s' = contents s ++
      (if (available s =? BUF_SIZE - 1)%nat then [] else [ch]).
Proof.
  pose proof W as [W1 W2 W3]. unfold push.
  pose proof (ring_full_iff BUF_SIZE (HEAD s) (TAIL s) W2 W3) as Hfull.
  unfold ring_succ in Hfull. change (ring_len _ _ _) with (available s) in Hfull.
  destruct (Nat.eqb_spec ((TAIL s + 1) mod BUF_SIZE) (HEAD s)) as [Hf|Hf]; cbn [negb].
  - exists s. apply Hfull in Hf. rewrite Hf, Nat.eqb_refl, app_nil_r.
    split_and!; [done|by split|done|done].
  - rewrite set_idx_lt by (rewrite W1; lia). cbn [mbind outcome_mbind].
    eexists; split; [done|]. split_and!; [|done|].
    + split; cbn [BUF HEAD TAIL]; [by rewrite length_insert|done|by apply ring_succ_lt].
    + destruct (Nat.eqb_spec (available s) (BUF_SIZE - 1)) as [Ha|Ha]; [tauto|].
      pose proof available_bound. unfold contents, available in *. cbn [BUF HEAD TAIL].
      pose proof (ring_list_push (BUF s) (HEAD s) (TAIL s) ch) as Hp.
      rewrite W1 in Hp. unfold ring_succ, ring_len in Hp. apply Hp; lia.
Qed.

Lemma stdin_contents_nil : contents s = [] <-> HEAD s = TAIL s.
Proof.
  rewrite <- (ring_len_empty BUF_SIZE (HEAD s) (TAIL s)) by apply W.
  change (ring_len _ _ _) with (available s). rewrite <- stdin_length_contents.
  split; [by intros ->|]. apply length_zero_iff_nil.
Qed.

(** The oldest byte is at [HEAD]; advancing [HEAD] removes it. *)
Lemma contents_head :
  HEAD s <> TAIL s ->
  exists ch, idx (BUF s) (HEAD s) = Ret ch /\
    let s' := mkState (BUF s) ((HEAD s + 1) mod BUF_SIZE)%nat (TAIL s) in
    wf s' /\ contents s = ch :: contents s'.
Proof.
  intros Hne. pose proof W as [W1 W2 W3].
  pose proof (ring_list_pop (BUF s) (HEAD s) (TAIL s)) as Hp. rewrite W1 in Hp.
  destruct Hp as (ch & Hch & Heq); [done..|]. exists ch.
  rewrite idx_Ret. split; [done|]. split; [|exact Heq].
  split; cbn [BUF HEAD TAIL]; [done|by apply ring_succ_lt|done].
Qed.
End Ops.

#[global] Arguments contents : simpl never.

End stdin.

(** ** Interrupts between the statements of [pop] *)

Module stdin_isr.

(** Where a caller of [pop] is: outside, past the emptiness test, past the load
    of [BUF[HEAD]]. *)
Inductive pc := Idle | Tested | Loaded (ch : Z).

(** The machine: the buffer, the program point of the consumer, and two traces:
    the bytes [push] stored and the bytes [pop] returned, in order. *)
Record machine := mkM {
  st : stdin.state;
  at_ : pc;
  accepted : list Z;
  delivered : list Z;
}.

Inductive step : machine -> machine -> Prop :=
| isr_push ch s s' p acc del :
    stdin.push ch s = Ret s' ->
    step (mkM s p acc del)
         (mkM s' p (acc ++ if (stdin.TAIL s' =? stdin.TAIL s)%nat then [] else [ch]) del)
| pop_empty s acc del :
    stdin.HEAD s = stdin.TAIL s ->
    step (mkM s Idle acc del) (mkM s Idle acc del)
| pop_test s acc del :
    stdin.HEAD s <> stdin.TAIL s ->
    step (mkM s Idle acc del) (mkM s Tested acc del)
| pop_load s ch acc del :
    idx (stdin.BUF s) (stdin.HEAD s) = Ret ch ->
    step (mkM s Tested acc del) (mkM s (Loaded ch) acc del)
| pop_advance s ch acc del :
    step (mkM s (Loaded ch) acc del)
         (mkM (stdin.mkState (stdin.BUF s)
                 ((stdin.HEAD s + 1) mod stdin.BUF_SIZE)%nat (stdin.TAIL s))
              Idle acc (del ++ [ch])).

Definition start : machine := mkM stdin.boot Idle [] [].

(** What each program point of [pop] knows of the buffer: an interrupt between
    two statements can only append. *)
Definition pc_ok (m : machine) : Prop :=
  match at_ m with
  | Idle => True
  | Tested => stdin.contents (st m) <> []
  | Loaded ch => head (stdin.contents (st m)) = Some ch
  end.

Definition inv (m : machine) : Prop :=
  stdin.wf (st m) /\ pc_ok m /\ accepted m = delivered m ++ stdin.contents (st m).

(** [push] leaves [TAIL] where it was exactly when the buffer is full. *)
Lemma push_moves_tail ch s s' :
  stdin.wf s -> stdin.push ch s = Ret s' ->
  stdin.wf s' /\
  stdin.contents s' = stdin.contents s ++
    (if (stdin.TAIL s' =? stdin.TAIL s)%nat then [] else [ch]).
Proof.
  intros W Hp. destruct (stdin.push_spec s W ch) as (s1 & Hp1 & W1 & Hh & Hc).
  rewrite Hp in Hp1. injection Hp1 as <-. split; [done|]. rewrite Hc. f_equal.
  destruct (Nat.eqb_spec (stdin.available s) (stdin.BUF_SIZE - 1)) as [Ha|Ha];
  destruct (Nat.eqb_spec (stdin.TAIL s') (stdin.TAIL s)) as [Ht|Ht]; try done; exfalso.
  - apply Ht. unfold stdin.push in Hp.
    pose proof (ring_full_iff stdin.BUF_SIZE (stdin.HEAD s) (stdin.TAIL s)
                  (stdin.wf_head _ W) (stdin.wf_tail _ W)) as [_ Hfull].
    unfold ring_succ in Hfull. rewrite Hfull in Hp by exact Ha.
    rewrite Nat.eqb_refl in Hp. cbn in Hp. by injection Hp as <-.
  - assert (stdin.available s' = stdin.available s) as He
      by (unfold stdin.available; by rewrite Ht, Hh).
    apply (f_equal length) in Hc.
    rewrite length_app, !stdin.stdin_length_contents, He in Hc by done. cbn in Hc. lia.
Qed.

Lemma step_inv m m' : inv m -> step m m' -> inv m'.
Proof.
  intros (W & Hpc & Htr) Hs. destruct Hs as
    [ch s s' p acc del Hp|s acc del He|s acc del Hne|s ch acc del Hl|s ch acc del];
    cbn in W, Hpc, Htr; unfold inv; cbn.
  - destruct (push_moves_tail ch s s' W Hp) as [W' Hc]. split_and!; [done| |].
    + unfold pc_ok in *. cbn in *. destruct p; [done| |]; rewrite Hc;
        destruct (stdin.contents s); cbn in *; try done; congruence.
    + by rewrite Hc, Htr, app_assoc.
  - done.
  - split_and!; [done| |done]. unfold pc_ok. cbn.
    intros Hn. apply stdin.stdin_contents_nil in Hn; done.
  - split_and!; [done| |done]. unfold pc_ok in *. cbn in *.
    destruct (stdin.contents_head s W) as (ch' & Hl' & W' & Hc).
    { intros Heq. apply Hpc. by apply stdin.stdin_contents_nil. }
    rewrite Hl in Hl'. injection Hl' as <-. by rewrite Hc.
  - unfold pc_ok in Hpc. cbn in Hpc.
    destruct (stdin.contents_head s W) as (ch' & Hl' & W' & Hc).
    { intros Heq. apply stdin.stdin_contents_nil in Heq; [|done]. by rewrite Heq in Hpc. }
    rewrite Hc in Hpc. injection Hpc as ->.
    split_and!; [done|done|]. by rewrite Htr, Hc, <- app_assoc.
Qed.

Lemma inv_reachable m : rtc step start m -> inv m.
Proof.
  assert (inv start) as H0.
  { split_and!; [apply stdin.wf_boot|done|done]. }
  intros Hr. revert H0. generalize start, m, Hr. clear m Hr.
  intros m1 m2 Hr. induction Hr; eauto using step_inv.
Qed.

(** The statements of an uninterrupted [pop] compute what [stdin.pop] does. *)
Lemma pop_is_its_steps s ch s' acc del :
  stdin.pop s = Ret (Some ch, s') ->
  rtc step (mkM s Idle acc del) (mkM s' Idle acc (del ++ [ch])).
Proof.
  unfold stdin.pop. destruct (Nat.eqb_spec (stdin.HEAD s) (stdin.TAIL s)); [done|].
  rewrite bind_Ret. intros (c & Hl & [= -> <-]).
  eapply rtc_l; [by constructor|]. eapply rtc_l; [by constructor|].
  apply rtc_once. constructor.
Qed.

(** C36: The keyboard buffer needs no lock.  Whatever the interleaving of
    keyboard interrupts with the individual statements of [pop], from boot on
    the bytes delivered to programs followed by the bytes still buffered are
    exactly the bytes the handler stored, in order; the buffer never holds more
    than 255 bytes; and the handler itself never panics. *)
Theorem stdin_is_lossless_under_interrupts (m : machine) (Hr : rtc step start m) :
  accepted m = delivered m ++ stdin.contents (st m) /\
  length (stdin.contents (st m)) = stdin.available (st m) /\
  (stdin.available (st m) <= 255)%nat /\
  forall ch, exists s', stdin.push ch (st m) = Ret s'.
Proof.
  destruct (inv_reachable m Hr) as (W & _ & Htr). split_and!; [done|..].
  - by apply stdin.stdin_length_contents.
  - by apply (stdin.available_bound (st m)).
  - intros ch. destruct (stdin.push_spec (st m) W ch) as (s' & H & _). eauto.
Qed.

(** A key pressed after the emptiness test of a [pop] in progress. *)
Lemma stdin_is_lossless_under_interrupts_witness :
  exists m, rtc step start m /\ accepted m = [65; 66] /\ delivered m = [65] /\
            accepted m = delivered m ++ stdin.contents (st m).
Proof.
  assert (exists m, rtc step start m /\ accepted m = [65; 66] /\ delivered m = [65])
    as (m & Hr & Ha & Hd).
  { eexists. split.
    - eapply rtc_l; [by apply (isr_push 65)|]. eapply rtc_l; [by apply pop_test|].
      eapply rtc_l; [by apply (isr_push 66)|]. eapply rtc_l; [by eapply pop_load|].
      apply rtc_once. apply pop_advance.
    - split; reflexivity. }
  exists m. split_and!; [exact Hr|exact Ha|exact Hd|].
  exact (proj1 (stdin_is_lossless_under_interrupts m Hr)).
Defined.

End stdin_isr.
