(* ===== verification/FrameAlloc.v ===== *)
(** * The physical frame allocator (kernel/src/kernel/mem/paging_allocator.rs)

    Module [frames] models [PhysicalFrameAllocator]: a bitmap of 65,536 frames
    of 4 KiB, a reference count per frame and a rotating search position.
    Module [frames_spec] is the contract its users rely on: frames carry
    references, a frame that somebody references is never handed out again. *)

From stdpp Require Import base list gmap list_numbers fin_maps.
From Stdlib Require Import ZArith Lia.
From S2P Require Import Prelude.

Local Open Scope Z_scope.

Module frames.

(** The bitmap words and the reference counts are zero-initialised arrays; every
    access is behind the test [frame < 65536]. *)
(* @src mem/paging_allocator.rs 92-100 PhysicalFrameAllocator *)
Record PhysicalFrameAllocator := mkFA {
  bitmap : gmap Z Z;
  refcount : gmap Z Z;
  next_frame : Z;
  total_frames : Z;
  allocated_frames : Z;
}.

(* @src mem/paging_allocator.rs 103-111 PhysicalFrameAllocator::new *)
Definition new : PhysicalFrameAllocator := mkFA ∅ ∅ 0 0 0.

Definition with_bitmap (fa : PhysicalFrameAllocator) (b : gmap Z Z) :=
  mkFA b (refcount fa) (next_frame fa) (total_frames fa) (allocated_frames fa).
Definition with_total (fa : PhysicalFrameAllocator) (t : Z) :=
  mkFA (bitmap fa) (refcount fa) (next_frame fa) t (allocated_frames fa).

(* @src mem/paging_allocator.rs 207-209 mark_free *)
Definition mark_free (fa : PhysicalFrameAllocator) (frame : Z) : PhysicalFrameAllocator :=
  if frame <? 65536 then
    with_bitmap fa (wr (bitmap fa) (frame / 64)
      (Z.ldiff (rd (bitmap fa) (frame / 64)) (bit (frame mod 64))))
  else fa.

(* @src mem/paging_allocator.rs 210-212 mark_used *)
Definition mark_used (fa : PhysicalFrameAllocator) (frame : Z) : PhysicalFrameAllocator :=
  if frame <? 65536 then
    with_bitmap fa (wr (bitmap fa) (frame / 64)
      (Z.lor (rd (bitmap fa) (frame / 64)) (bit (frame mod 64))))
  else fa.

(* @src mem/paging_allocator.rs 213-215 is_free *)
Definition is_free (fa : PhysicalFrameAllocator) (frame : Z) : bool :=
  (frame <? 65536) && (Z.land (rd (bitmap fa) (frame / 64)) (bit (frame mod 64)) =? 0).

(* @src mem/paging_allocator.rs 196-205 mark_frame_used *)
Definition mark_frame_used (fa : PhysicalFrameAllocator) (phys : Z) : PhysicalFrameAllocator :=
  let frame := phys / 4096 in
  if frame <? 65536 then
    let fa1 := if is_free fa frame then with_total fa (sat_sub (total_frames fa) 1) else fa in
    mark_used fa1 frame
  else fa.

(** The loop of [allocate_frame] from offset [off] on, [n] iterations left. *)
(* @src mem/paging_allocator.rs 219-228 allocate_frame (loop) *)
Fixpoint find_free (fa : PhysicalFrameAllocator) (start off : Z) (n : nat) : option Z :=
  match n with
  | O => None
  | S n' =>
      let frame := (start + off) mod 65536 in
      if is_free fa frame then Some frame else find_free fa start (off + 1) n'
  end.

(* @src mem/paging_allocator.rs 217-230 allocate_frame *)
Definition allocate_frame (fa : PhysicalFrameAllocator) : option Z * PhysicalFrameAllocator :=
  let start := next_frame fa in
  match find_free fa start 0 (Z.to_nat (total_frames fa)) with
  | Some frame =>
      let fa1 := mark_used fa frame in
      (Some (frame * 4096),
       mkFA (bitmap fa1) (wr (refcount fa1) frame 1) ((frame + 1) mod 65536)
            (total_frames fa1) (wrap 64 (allocated_frames fa1 + 1)))
  | None => (None, fa)
  end.

(* @src mem/paging_allocator.rs 232-244 free_frame *)
Definition free_frame (fa : PhysicalFrameAllocator) (addr : Z) : PhysicalFrameAllocator :=
  let frame := addr / 4096 in
  if frame <? 65536 then
    let fa1 := mkFA (bitmap fa) (wr (refcount fa) frame (sat_sub (rd (refcount fa) frame) 1))
                    (next_frame fa) (total_frames fa) (allocated_frames fa) in
    if rd (refcount fa1) frame =? 0 then
      let fa2 := mark_free fa1 frame in
      mkFA (bitmap fa2) (refcount fa2) (next_frame fa2) (total_frames fa2)
           (wrap 64 (allocated_frames fa2 - 1))
    else fa1
  else fa.

(* @src mem/paging_allocator.rs 246-253 inc_refcount *)
Definition inc_refcount (fa : PhysicalFrameAllocator) (addr : Z) : PhysicalFrameAllocator :=
  let frame := addr / 4096 in
  if frame <? 65536 then
    mkFA (bitmap fa) (wr (refcount fa) frame (sat_add u16_max (rd (refcount fa) frame) 1))
         (next_frame fa) (total_frames fa) (allocated_frames fa)
  else fa.

(* @src mem/paging_allocator.rs 255-258 get_refcount *)
Definition get_refcount (fa : PhysicalFrameAllocator) (addr : Z) : Z :=
  let frame := addr / 4096 in
  if frame <? 65536 then rd (refcount fa) frame else 0.

(** ** Initialisation *)

(** A memory-map entry of the boot protocol. *)
Record MemEntry := mkEntry { usable : bool; base : Z; length_ : Z }.

(* @src mem/paging_allocator.rs 119-143 init (per entry) *)
Definition init_entry (fa : PhysicalFrameAllocator) (e : MemEntry) : PhysicalFrameAllocator :=
  if usable e then
    let start := base e / 4096 in
    let count := length_ e / 4096 in
    let safe := Z.max start 8192 in
    if safe <? 65536 then
      let end_ := Z.min (start + count) 65536 in
      fold_left (fun fa frame => with_total (mark_free fa frame) (total_frames fa + 1))
                (seqZ safe (end_ - safe)) fa
    else fa
  else fa.

Definition HUGE : Z := bit 7.
Definition PRESENT_BIT : Z := 1.
Definition PT_ADDR_MASK : Z := 0x000FFFFFFFFFF000.

(** The entries of the table at [phys] that point to another table. *)
Definition subtables (mem : gmap Z Z) (phys : Z) : list Z :=
  (fun e => Z.land e PT_ADDR_MASK) <$>
  filter (fun e => Z.land e PRESENT_BIT <> 0 /\ Z.land e HUGE = 0)
         ((fun i => rd mem (phys + 8 * i)) <$> seqZ 0 512).

(** [mem] is physical memory seen through the higher-half window, [cr3] the
    register. *)
(* @src mem/paging_allocator.rs 161-194 protect_page_table_frames *)
Definition protect_page_table_frames (mem : gmap Z Z) (cr3 : Z) (fa : PhysicalFrameAllocator)
    : PhysicalFrameAllocator :=
  let l4_phys := Z.land cr3 PT_ADDR_MASK in
  let fa := mark_frame_used fa l4_phys in
  fold_left (fun fa l3_phys =>
    let fa := mark_frame_used fa l3_phys in
    fold_left (fun fa l2_phys =>
      let fa := mark_frame_used fa l2_phys in
      fold_left mark_frame_used (subtables mem l2_phys) fa)
      (subtables mem l3_phys) fa)
    (subtables mem l4_phys) fa.

(* @src mem/paging_allocator.rs 113-159 init *)
Definition init (mem : gmap Z Z) (cr3 : Z) (memory_map : option (list MemEntry))
    (fa : PhysicalFrameAllocator) : PhysicalFrameAllocator :=
  match memory_map with
  | Some entries =>
      let fa := with_bitmap fa (fold_left (fun b i => wr b i u64_max) (seqZ 0 1024) ∅) in
      let fa := fold_left init_entry entries fa in
      protect_page_table_frames mem cr3 fa
  | None => fa
  end.

(** ** The bitmap as a set of free frames *)

Lemma is_free_testbit fa f :
  is_free fa f = (f <? 65536) && negb (Z.testbit (rd (bitmap fa) (f / 64)) (f mod 64)).
Proof.
  unfold is_free. rewrite land_bit_zero; [done|]. apply Z.mod_pos_bound. lia.
Qed.

Lemma same_word_bit f g : f / 64 = g / 64 -> f mod 64 = g mod 64 -> f = g.
Proof. intros H1 H2. rewrite (Z.div_mod f 64), (Z.div_mod g 64) by lia. lia. Qed.

Lemma mod64_nonneg f : 0 <= f mod 64.
Proof. apply Z.mod_pos_bound. lia. Qed.
Hint Resolve mod64_nonneg : oxide.

Lemma is_free_mark_used fa f g :
  f < 65536 -> is_free (mark_used fa f) g = is_free fa g && negb (bool_decide (g = f)).
Proof.
  intros Hf. rewrite !is_free_testbit. unfold mark_used.
  apply Z.ltb_lt in Hf as ->. cbn [bitmap with_bitmap]. rewrite rd_wr.
  destruct (g <? 65536); [|done]. cbn [andb].
  destruct (decide (f / 64 = g / 64)) as [E|E].
  - rewrite lor_bit_testbit by auto with oxide. rewrite E, negb_orb. f_equal. f_equal.
    apply bool_decide_ext. split; [|by intros ->]. intros; by apply same_word_bit.
  - rewrite (bool_decide_false (g = f)) by congruence. by rewrite andb_true_r.
Qed.

Lemma is_free_mark_free fa f g :
  f < 65536 -> is_free (mark_free fa f) g = is_free fa g || bool_decide (g = f).
Proof.
  intros Hf. rewrite !is_free_testbit. unfold mark_free.
  rewrite (proj2 (Z.ltb_lt _ _) Hf). cbn [bitmap with_bitmap]. rewrite rd_wr.
  destruct (Z.ltb_spec g 65536); cbn [andb].
  2: { by rewrite bool_decide_false by lia. }
  destruct (decide (f / 64 = g / 64)) as [E|E].
  - rewrite ldiff_bit_testbit by auto with oxide. rewrite E, negb_andb, negb_involutive.
    f_equal. apply bool_decide_ext. split; [|by intros ->]. intros; by apply same_word_bit.
  - rewrite (bool_decide_false (g = f)) by congruence. by rewrite orb_false_r.
Qed.

(** ** The search *)

Lemma find_free_Some fa start off n f :
  find_free fa start off n = Some f ->
  exists k, (k < n)%nat /\ f = (start + off + Z.of_nat k) mod 65536 /\ is_free fa f = true /\
    forall j, (j < k)%nat -> is_free fa ((start + off + Z.of_nat j) mod 65536) = false.
Proof.
  revert off. induction n as [|n IH]; intros off; cbn; [done|].
  destruct (is_free fa ((start + off) mod 65536)) eqn:Hf.
  - intros [= <-]. exists 0%nat. rewrite Z.add_0_r. split_and!; [lia|done|done|]. intros; lia.
  - intros (k & Hk & -> & Hfr & Hmin)%IH. exists (S k).
    replace (start + off + Z.of_nat (S k)) with (start + (off + 1) + Z.of_nat k) by lia.
    split_and!; [lia|done|done|]. intros [|j] Hj.
    + by rewrite Z.add_0_r.
    + replace (start + off + Z.of_nat (S j)) with (start + (off + 1) + Z.of_nat j) by lia.
      apply Hmin. lia.
Qed.

Lemma find_free_None fa start off n :
  find_free fa start off n = None <->
  forall j, (j < n)%nat -> is_free fa ((start + off + Z.of_nat j) mod 65536) = false.
Proof.
  revert off. induction n as [|n IH]; intros off; cbn.
  { split; [intros; lia|done]. }
  destruct (is_free fa ((start + off) mod 65536)) eqn:Hf.
  - split; [done|]. intros H. specialize (H 0%nat ltac:(lia)).
    rewrite Z.add_0_r in H. congruence.
  - rewrite IH. split.
    + intros H [|j] Hj; [by rewrite Z.add_0_r|].
      replace (start + off + Z.of_nat (S j)) with (start + (off + 1) + Z.of_nat j) by lia.
      apply H. lia.
    + intros H j Hj.
      replace (start + (off + 1) + Z.of_nat j) with (start + off + Z.of_nat (S j)) by lia.
      apply H. lia.
Qed.

(** ** Invariant *)

Abbreviation live m := (filter (fun kv : Z * Z => kv.2 <> 0) m).

Record wf (fa : PhysicalFrameAllocator) : Prop := {
  wf_next : 0 <= next_frame fa < 65536;
  wf_range f : 0 <= rd (refcount fa) f <= u16_max;
  wf_dom f : rd (refcount fa) f <> 0 -> 0 <= f < 65536;
  wf_used f : rd (refcount fa) f <> 0 -> is_free fa f = false;
  wf_count : allocated_frames fa = Z.of_nat (size (live (refcount fa)));
}.

(** How the number of referenced frames moves with one count. *)
Lemma size_live_wr m f v :
  Z.of_nat (size (live (wr m f v))) =
  Z.of_nat (size (live m)) + (if v =? 0 then 0 else 1) - (if rd m f =? 0 then 0 else 1).
Proof.
  assert (forall m' : gmap Z Z, live m' !! f = match m' !! f with
            | Some x => if decide (x <> 0) then Some x else None | None => None end) as Hl.
  { intros m'. rewrite map_lookup_filter. destruct (m' !! f); simpl; [|done].
    repeat case_guard; repeat case_decide; naive_solver. }
  assert (size (live m) = (size (delete f (live m)) +
            if (rd m f =? 0)%Z then 0 else 1)%nat) as Hm.
  { rewrite map_size_delete, Hl. unfold rd. destruct (m !! f) as [x|] eqn:Hx; cbn; [|lia].
    destruct (Z.eqb_spec x 0); case_decide; try done; try lia.
    destruct (size (live m)) eqn:Hs; [|lia].
    apply map_size_empty_inv in Hs. specialize (Hl m). rewrite Hs, Hx in Hl.
    rewrite lookup_empty in Hl. by case_decide. }
  unfold wr. rewrite map_filter_insert. cbn [snd].
  destruct (Z.eqb_spec v 0) as [->|Hv]; case_decide; try done.
  - rewrite map_filter_delete. destruct (rd m f =? 0)%Z; lia.
  - rewrite <- insert_delete_eq, map_size_insert_None by apply lookup_delete_eq.
    destruct (rd m f =? 0)%Z; lia.
Qed.

Lemma size_live_bound m n :
  (forall f, rd m f <> 0 -> 0 <= f < n) -> Z.of_nat (size (live m)) <= Z.max 0 n.
Proof.
  intros H. rewrite <- (size_dom (D := gset Z)).
  assert (dom (live m) ⊆@{gset Z} list_to_set (seqZ 0 n)) as Hsub.
  { intros f Hf. apply elem_of_dom in Hf as [x Hx].
    apply map_lookup_filter_Some in Hx as [Hx Hnz]. cbn in Hnz.
    apply elem_of_list_to_set, elem_of_seqZ.
    assert (rd m f = x) as <- by (unfold rd; by rewrite Hx).
    specialize (H f Hnz). lia. }
  apply subseteq_size in Hsub. rewrite size_list_to_set in Hsub by apply NoDup_seqZ.
  rewrite length_seqZ in Hsub. lia.
Qed.

Lemma allocated_bound fa : wf fa -> 0 <= allocated_frames fa <= 65536.
Proof.
  intros W. rewrite (wf_count _ W). split; [lia|].
  apply (size_live_bound (refcount fa) 65536). apply W.
Qed.

Lemma wrap64_small x : 0 <= x < 2 ^ 64 -> wrap 64 x = x.
Proof. apply Z.mod_small. Qed.

(** ** Functional behaviour of the operations *)

(** What a successful allocation does: the frame was free and unreferenced, it
    becomes used with one reference, nothing else changes. *)
Record allocated (fa fa' : PhysicalFrameAllocator) (f : Z) : Prop := {
  al_range : 0 <= f < 65536;
  al_free : is_free fa f = true;
  al_bits g : is_free fa' g = is_free fa g && negb (bool_decide (g = f));
  al_refs : refcount fa' = wr (refcount fa) f 1;
  al_total : total_frames fa' = total_frames fa;
}.

Lemma allocate_frame_Some fa a fa' :
  allocate_frame fa = (Some a, fa') ->
  exists f, a = f * 4096 /\ allocated fa fa' f.
Proof.
  unfold allocate_frame. destruct (find_free _ _ _ _) as [f|] eqn:Hf; [|done].
  intros [= <- <-]. apply find_free_Some in Hf as (k & _ & Hk & Hfree & _).
  assert (0 <= f < 65536) as Hr by (rewrite Hk; apply Z.mod_pos_bound; lia).
  exists f. split; [done|]. split; try done.
  - intros g. unfold is_free at 1. cbn [bitmap].
    rewrite <- is_free_mark_used by lia. done.
  - cbn [refcount]. unfold mark_used. by destruct (f <? 65536).
  - cbn [total_frames]. unfold mark_used. by destruct (f <? 65536).
Qed.

Lemma allocate_frame_None fa fa' :
  allocate_frame fa = (None, fa') ->
  fa' = fa /\
  forall j, 0 <= j < total_frames fa -> is_free fa ((next_frame fa + j) mod 65536) = false.
Proof.
  unfold allocate_frame. destruct (find_free _ _ _ _) as [f|] eqn:Hf; [done|].
  intros [= <-]. split; [done|]. intros j Hj.
  pose proof (proj1 (find_free_None _ _ _ _) Hf (Z.to_nat j) ltac:(lia)) as H.
  by rewrite Z.add_0_r, Z2Nat.id in H by lia.
Qed.

Lemma allocates_in_window fa j :
  0 <= j < total_frames fa -> is_free fa ((next_frame fa + j) mod 65536) = true ->
  exists a fa', allocate_frame fa = (Some a, fa').
Proof.
  intros Hj Hf. destruct (allocate_frame fa) as [[a|] fa'] eqn:Ha; [eauto|].
  apply allocate_frame_None in Ha as [_ Hn]. rewrite Hn in Hf by done. done.
Qed.

Lemma allocated_unreferenced fa fa' f : wf fa -> allocated fa fa' f -> rd (refcount fa) f = 0.
Proof.
  intros W A. destruct (decide (rd (refcount fa) f = 0)) as [|Hn]; [done|].
  apply (wf_used _ W) in Hn. rewrite (al_free _ _ _ A) in Hn. done.
Qed.

Lemma wf_allocate fa a fa' : wf fa -> allocate_frame fa = (Some a, fa') -> wf fa'.
Proof.
  intros W Ha. pose proof Ha as (f & -> & A)%allocate_frame_Some.
  pose proof (allocated_unreferenced _ _ _ W A) as H0.
  pose proof A as [Hr _ Hbits Hrefs _].
  assert (0 <= next_frame fa' < 65536 /\
          allocated_frames fa' = wrap 64 (allocated_frames fa + 1)) as [Hn Hc].
  { revert Ha. unfold allocate_frame. destruct (find_free _ _ _ _); [|done].
    intros [= _ <-]. cbn. split; [apply Z.mod_pos_bound; lia|].
    unfold mark_used. by case_match. }
  pose proof (allocated_bound fa W). split; [done|..].
  - intros g. rewrite Hrefs, rd_wr. case_decide; [unfold u16_max; lia|apply W].
  - intros g. rewrite Hrefs, rd_wr. case_decide; [intros; subst; lia|apply W].
  - intros g. rewrite Hrefs, rd_wr, Hbits. case_decide as E.
    + intros _. subst. rewrite bool_decide_true by done. apply andb_false_r.
    + intros Hg. by rewrite (wf_used _ W g Hg).
  - rewrite Hc, Hrefs, size_live_wr, H0, wrap64_small by lia.
    rewrite (wf_count _ W). cbn. lia.
Qed.

(** Freeing drops one reference; the frame becomes free with its last one. *)
Lemma free_frame_spec fa f a :
  wf fa -> a / 4096 = f -> rd (refcount fa) f <> 0 ->
  let fa' := free_frame fa a in
  wf fa' /\ refcount fa' = wr (refcount fa) f (rd (refcount fa) f - 1) /\
  total_frames fa' = total_frames fa /\
  forall g, is_free fa' g =
    is_free fa g || (bool_decide (g = f) && (rd (refcount fa) f =? 1)).
Proof.
  intros W Hf Hn. pose proof (wf_dom _ W f Hn) as Hr. pose proof (wf_range _ W f) as Hrg.
  unfold free_frame. rewrite Hf, (proj2 (Z.ltb_lt f 65536)) by lia.
  cbn [refcount]. rewrite rd_wr_eq. unfold sat_sub. rewrite Z.max_r by lia.
  set (n := rd (refcount fa) f) in *. set (rc' := wr (refcount fa) f (n - 1)).
  pose proof (size_live_wr (refcount fa) f (n - 1)) as Hsz. fold rc' n in Hsz.
  assert (forall g, 0 <= rd rc' g <= u16_max) as Hrange.
  { intros g. unfold rc'. rewrite rd_wr. case_decide; [lia|apply W]. }
  assert (forall g, rd rc' g <> 0 -> rd (refcount fa) g <> 0) as Hsub.
  { intros g. unfold rc'. rewrite rd_wr. case_decide; [by subst|done]. }
  pose proof (allocated_bound fa W). pose proof (wf_count _ W) as Hc.
  destruct (Z.eqb_spec n 0) as [|_]; [done|].
  destruct (Z.eqb_spec (n - 1) 0) as [E|E].
  - assert (n = 1) as -> by lia. rewrite Z.eqb_refl.
    set (fa1 := mkFA _ rc' _ _ _).
    assert (forall g, is_free (mark_free fa1 f) g = is_free fa g || bool_decide (g = f))
      as Hb by (intros g; rewrite is_free_mark_free by lia; done).
    assert (refcount (mark_free fa1 f) = rc' /\ next_frame (mark_free fa1 f) = next_frame fa /\
            total_frames (mark_free fa1 f) = total_frames fa /\
            allocated_frames (mark_free fa1 f) = allocated_frames fa) as (E1 & E2 & E3 & E4).
    { unfold mark_free. by destruct (f <? 65536). }
    cbn zeta. rewrite E1, E2, E3, E4. split_and!; try done.
    + split; cbn -[Z.lt].
      * apply W.
      * done.
      * intros g Hg. by apply (wf_dom _ W), Hsub.
      * intros g Hg. change (is_free (mark_free fa1 f) g = false). rewrite Hb.
        rewrite (wf_used _ W g) by auto. cbn. apply bool_decide_false. intros ->.
        apply Hg. unfold rc'. by rewrite rd_wr_eq.
      * rewrite wrap64_small by lia. lia.
    + intros g. rewrite andb_true_r. apply Hb.
  - destruct (Z.eqb_spec n 1) as [|_]; [lia|]. cbn zeta. split_and!; try done.
    + split; cbn -[Z.lt]; try apply W; try done.
      * intros g Hg. by apply (wf_dom _ W), Hsub.
      * intros g Hg. apply (wf_used _ W g); auto.
      * lia.
    + intros g. by rewrite andb_false_r, orb_false_r.
Qed.

Lemma inc_refcount_spec fa f a :
  wf fa -> a / 4096 = f -> 0 < rd (refcount fa) f < u16_max ->
  let fa' := inc_refcount fa a in
  wf fa' /\ refcount fa' = wr (refcount fa) f (rd (refcount fa) f + 1) /\
  total_frames fa' = total_frames fa /\ forall g, is_free fa' g = is_free fa g.
Proof.
  intros W Hf Hn. assert (rd (refcount fa) f <> 0) as Hn0 by lia.
  pose proof (wf_dom _ W f Hn0) as Hr.
  unfold inc_refcount. rewrite Hf, (proj2 (Z.ltb_lt f 65536)) by lia.
  unfold sat_add. rewrite Z.min_r by lia. cbn zeta. split_and!; try done.
  split; cbn -[Z.lt]; try apply W.
  - intros g. rewrite rd_wr. case_decide; [lia|apply W].
  - intros g. rewrite rd_wr. case_decide; [by subst|apply W].
  - intros g. rewrite rd_wr. case_decide; [subst; intros _; by apply (wf_used _ W)|apply (wf_used _ W)].
  - rewrite size_live_wr, (wf_count _ W).
    destruct (Z.eqb_spec (rd (refcount fa) f + 1) 0), (Z.eqb_spec (rd (refcount fa) f) 0); lia.
Qed.

End frames.

(** ** The contract *)

Module frames_spec.
Import frames.

(** [reach fa L]: from boot, the allocator can be in state [fa] while its
    clients hold [L f] references to each frame [f], provided they share and
    drop only references they hold (and at most 65,535 of one frame). *)
Inductive reach : PhysicalFrameAllocator -> gmap Z Z -> Prop :=
| reach_boot mem cr3 map :
    reach (init mem cr3 map new) ∅
| reach_alloc fa L a fa' :
    reach fa L -> allocate_frame fa = (Some a, fa') ->
    reach fa' (wr L (a / 4096) 1)
| reach_share fa L a :
    reach fa L -> 0 < rd L (a / 4096) < u16_max ->
    reach (inc_refcount fa a) (wr L (a / 4096) (rd L (a / 4096) + 1))
| reach_drop fa L a :
    reach fa L -> 0 < rd L (a / 4096) ->
    reach (free_frame fa a) (wr L (a / 4096) (rd L (a / 4096) - 1)).

(** Initialisation touches the bitmap and the number of frames only. *)
Definition fresh (fa : PhysicalFrameAllocator) : Prop :=
  refcount fa = ∅ /\ next_frame fa = 0 /\ allocated_frames fa = 0.

Lemma fresh_fold {A} (f : PhysicalFrameAllocator -> A -> PhysicalFrameAllocator) l fa :
  (forall fa x, fresh fa -> fresh (f fa x)) -> fresh fa -> fresh (fold_left f l fa).
Proof. intros Hf. revert fa. induction l; cbn; auto. Qed.

Lemma fresh_mark_frame_used fa a : fresh fa -> fresh (mark_frame_used fa a).
Proof. intros H. unfold mark_frame_used, mark_used. by repeat case_match. Qed.

Lemma fresh_init mem cr3 map : fresh (init mem cr3 map new).
Proof.
  unfold init. destruct map as [entries|]; [|done].
  unfold protect_page_table_frames. apply fresh_fold.
  { intros. apply fresh_fold; [|by apply fresh_mark_frame_used].
    intros. apply fresh_fold; [|by apply fresh_mark_frame_used].
    intros. by apply fresh_mark_frame_used. }
  apply fresh_mark_frame_used, fresh_fold; [|done].
  intros fa e H. unfold init_entry. repeat case_match; try done.
  apply fresh_fold; [|done]. intros fa' x H'. unfold mark_free. by case_match.
Qed.

Lemma next_frame_init mem cr3 map : next_frame (init mem cr3 map new) = 0.
Proof. apply fresh_init. Qed.

Lemma wf_fresh fa : fresh fa -> wf fa.
Proof.
  intros (H1 & H2 & H3). split; rewrite ?H1, ?H2, ?H3; try done;
    intros f; rewrite rd_empty; unfold u16_max; lia || done.
Qed.

(** The counts are the clients' references. *)
Lemma reach_refcount fa L : reach fa L -> wf fa /\ refcount fa = L.
Proof.
  induction 1 as [mem cr3 map|fa L a fa' _ [W <-] Ha|fa L a _ [W <-] Hr|fa L a _ [W <-] Hr].
  - pose proof (fresh_init mem cr3 map) as Hf. split; [by apply wf_fresh|apply Hf].
  - split; [by eapply wf_allocate|].
    apply allocate_frame_Some in Ha as (f & -> & A).
    rewrite Z.div_mul by lia. apply A.
  - by destruct (inc_refcount_spec fa _ a W eq_refl Hr) as (W' & -> & _).
  - by destruct (free_frame_spec fa _ a W eq_refl ltac:(lia)) as (W' & -> & _).
Qed.

(** *** The search window *)

(** A frame below 32 MiB is never marked free. *)
Definition low_used (fa : PhysicalFrameAllocator) : Prop :=
  forall f, 0 <= f < 8192 -> is_free fa f = false.

Lemma low_used_fold {A} (f : PhysicalFrameAllocator -> A -> PhysicalFrameAllocator) l fa :
  (forall fa x, x ∈ l -> low_used fa -> low_used (f fa x)) -> low_used fa ->
  low_used (fold_left f l fa).
Proof.
  revert fa. induction l as [|x l IH]; intros fa Hf H; cbn; [done|].
  apply IH; [|apply Hf; [left|done]]. intros fa' y Hy. apply Hf. by right.
Qed.

Lemma low_used_mark fa a : low_used fa -> low_used (mark_frame_used fa a).
Proof.
  intros H f Hf. unfold mark_frame_used. destruct (Z.ltb_spec (a / 4096) 65536); [|auto].
  rewrite is_free_mark_used by lia.
  replace (is_free _ f) with (is_free fa f) by (by destruct (is_free fa (a / 4096))).
  by rewrite H.
Qed.

Lemma rd_ones l b i :
  rd (fold_left (fun b i => wr b i u64_max) l b) i = if decide (i ∈ l) then u64_max else rd b i.
Proof.
  revert b. induction l as [|j l IH]; intros b; cbn [fold_left].
  { by rewrite decide_False by set_solver. }
  rewrite IH, rd_wr. repeat case_decide; set_solver.
Qed.

Lemma low_used_ones fa :
  low_used (with_bitmap fa (fold_left (fun b i => wr b i u64_max) (seqZ 0 1024) ∅)).
Proof.
  intros f Hf. rewrite is_free_testbit. cbn [bitmap with_bitmap]. rewrite rd_ones, decide_True.
  - change u64_max with (Z.ones 64). rewrite Z.ones_spec_low; [by rewrite andb_false_r|].
    apply Z.mod_pos_bound. lia.
  - apply elem_of_seqZ. split; [apply Z.div_pos; lia|apply Z.div_lt_upper_bound; lia].
Qed.

Lemma low_used_init mem cr3 entries fa : low_used (init mem cr3 (Some entries) fa).
Proof.
  unfold init, protect_page_table_frames.
  apply low_used_fold.
  { intros. apply low_used_fold; [|by apply low_used_mark].
    intros. apply low_used_fold; [|by apply low_used_mark].
    intros. by apply low_used_mark. }
  apply low_used_mark, low_used_fold; [|apply low_used_ones].
  intros fa' e _ H. unfold init_entry.
  destruct (usable e); [|done]. destruct (Z.max (base e / 4096) 8192 <? 65536); [|done].
  apply low_used_fold; [|done]. intros fa1 x Hx H1 f Hf.
  change (is_free (mark_free fa1 x) f = false). apply elem_of_seqZ in Hx.
  rewrite is_free_mark_free, H1 by lia. apply bool_decide_false. lia.
Qed.

(** C8: A physical frame that anybody references is never handed out again.
    Whatever the history of allocations, COW sharings and frees from boot, a
    successful [allocate_frame] returns a page-aligned address below 256 MiB of
    a frame to which no reference exists and leaves exactly one reference to
    it, every referenced frame is marked used, its stored count is the number
    of references held, and [allocated_frames] counts the referenced frames. *)
Theorem allocator_respects_references (fa : PhysicalFrameAllocator) (L : gmap Z Z)
    (Hr : reach fa L) :
  (forall f, 0 <= f < 65536 -> get_refcount fa (f * 4096) = rd L f) /\
  (forall f, 0 < rd L f -> is_free fa f = false) /\
  allocated_frames fa = Z.of_nat (size (live L)) /\
  (forall a fa', allocate_frame fa = (Some a, fa') ->
     a mod 4096 = 0 /\ 0 <= a < 268435456 /\ rd L (a / 4096) = 0 /\
     get_refcount fa' a = 1 /\ is_free fa' (a / 4096) = false).
Proof.
  apply reach_refcount in Hr as [W <-]. split_and!.
  - intros f Hf. unfold get_refcount. rewrite Z.div_mul by lia.
    by rewrite (proj2 (Z.ltb_lt f 65536)) by lia.
  - intros f Hf. apply (wf_used _ W). lia.
  - apply W.
  - intros a fa' Ha. pose proof (wf_allocate _ _ _ W Ha) as W'.
    apply allocate_frame_Some in Ha as (f & -> & A).
    pose proof (al_range _ _ _ A). rewrite Z.div_mul, Z.mod_mul by lia.
    split_and!; try lia.
    + by eapply allocated_unreferenced.
    + unfold get_refcount. rewrite Z.div_mul by lia.
      rewrite (proj2 (Z.ltb_lt f 65536)), (al_refs _ _ _ A), rd_wr_eq by lia. done.
    + apply (wf_used _ W'). by rewrite (al_refs _ _ _ A), rd_wr_eq.
Qed.

(** What the loop over the frames of a usable entry does. *)
Lemma mark_range_spec l fa :
  Forall (fun f => f < 65536) l ->
  let fa' := fold_left (fun fa frame => with_total (mark_free fa frame) (total_frames fa + 1)) l fa in
  total_frames fa' = total_frames fa + Z.of_nat (List.length l) /\
  forall g, is_free fa' g = is_free fa g || bool_decide (g ∈ l).
Proof.
  revert fa. induction l as [|x l IH]; intros fa Hl; cbn [fold_left List.length].
  { split; [lia|]. intros g. by rewrite bool_decide_false, orb_false_r by set_solver. }
  apply Forall_cons in Hl as [Hx Hl].
  destruct (IH (with_total (mark_free fa x) (total_frames fa + 1)) Hl) as [H1 H2].
  cbn zeta in *. rewrite H1. split; [cbn [total_frames with_total]; lia|].
  intros g. rewrite H2.
  change (is_free (with_total (mark_free fa x) (total_frames fa + 1)) g)
    with (is_free (mark_free fa x) g).
  rewrite is_free_mark_free, <- orb_assoc by done. f_equal.
  rewrite <- bool_decide_or. apply bool_decide_ext. set_solver.
Qed.

Lemma init_entry_spec fa e lo hi :
  usable e = true -> lo = Z.max (base e / 4096) 8192 ->
  hi = Z.min (base e / 4096 + length_ e / 4096) 65536 -> lo < 65536 -> lo <= hi ->
  total_frames (init_entry fa e) = total_frames fa + (hi - lo) /\
  forall g, is_free (init_entry fa e) g = is_free fa g || bool_decide (lo <= g < hi).
Proof.
  intros Hu Hlo Hhi H1 H2. unfold init_entry. rewrite Hu, <- Hlo, <- Hhi.
  rewrite (proj2 (Z.ltb_lt lo 65536)) by done.
  destruct (mark_range_spec (seqZ lo (hi - lo)) fa) as [Ht Hf];
    [apply Forall_seqZ; lia|].
  cbn zeta in *. rewrite length_seqZ in Ht. split; [lia|].
  intros g. rewrite Hf. f_equal. apply bool_decide_ext. rewrite elem_of_seqZ. lia.
Qed.

(** A machine with one usable region and an empty boot page table. *)
Lemma init_single mem e lo hi :
  subtables mem 0 = [] -> usable e = true -> lo = Z.max (base e / 4096) 8192 ->
  hi = Z.min (base e / 4096 + length_ e / 4096) 65536 -> lo < hi ->
  let fa := init mem 0 (Some [e]) new in
  total_frames fa = hi - lo /\ is_free fa lo = true.
Proof.
  intros Hs Hu Hlo Hhi Hlt. unfold init, protect_page_table_frames.
  change (Z.land 0 PT_ADDR_MASK) with 0. rewrite Hs. cbn [fold_left].
  set (fa0 := with_bitmap new _).
  assert (is_free fa0 0 = false) as H0 by (apply low_used_ones; lia).
  destruct (init_entry_spec fa0 e lo hi Hu Hlo Hhi ltac:(lia) ltac:(lia)) as [Ht Hf].
  assert (is_free (init_entry fa0 e) 0 = false) as H0'.
  { rewrite Hf, H0. apply bool_decide_false. lia. }
  unfold mark_frame_used. change (0 / 4096) with 0. rewrite H0'.
  rewrite (proj2 (Z.ltb_lt 0 65536)) by lia. cbn zeta. split.
  - unfold mark_used. rewrite (proj2 (Z.ltb_lt 0 65536)) by lia.
    cbn [total_frames with_bitmap]. rewrite Ht. done.
  - rewrite is_free_mark_used, Hf by lia. rewrite (bool_decide_true (_ <= _ < _)) by lia.
    rewrite bool_decide_false by lia. by rewrite orb_true_r.
Qed.

Lemma subtables_blank : subtables ∅ 0 = [].
Proof. vm_compute. reflexivity. Qed.

#[local] Opaque init.

(** A machine with 64 MiB of usable memory from 32 MiB on. *)
Definition demo_boot : PhysicalFrameAllocator :=
  init ∅ 0 (Some [mkEntry true 33554432 67108864]) new.

Lemma demo_boot_free : total_frames demo_boot = 16384 /\ is_free demo_boot 8192 = true.
Proof.
  exact (init_single ∅ (mkEntry true 33554432 67108864) 8192 24576 subtables_blank
           eq_refl eq_refl eq_refl eq_refl).
Qed.

Lemma demo_allocates : exists a fa, allocate_frame demo_boot = (Some a, fa).
Proof.
  destruct demo_boot_free as [Ht Hf]. apply (allocates_in_window _ 8192).
  - rewrite Ht. lia.
  - unfold demo_boot at 2. rewrite next_frame_init, Z.mod_small by lia. exact Hf.
Qed.

Lemma allocator_respects_references_witness :
  exists a fa, allocate_frame demo_boot = (Some a, fa) /\
    is_free (inc_refcount fa a) (a / 4096) = false.
Proof.
  destruct demo_allocates as (a & fa & Ha). exists a, fa. split; [exact Ha|].
  assert (reach fa (wr ∅ (a / 4096) 1)) as H1
    by (eapply reach_alloc; [apply reach_boot|exact Ha]).
  assert (rd (wr ∅ (a / 4096) 1) (a / 4096) = 1) as E by apply rd_wr_eq.
  apply (reach_share _ _ a) in H1; [|rewrite E; unfold u16_max; lia].
  apply (proj1 (proj2 (allocator_respects_references _ _ H1))). rewrite rd_wr_eq, E. lia.
Defined.

(** [allocate_frame] scans only [total_frames] candidates from its position
    although frames are numbered over the whole 256 MiB range.  On a machine
    with at most 8,192 usable frames (32 MiB) above the 32 MiB line, whatever
    the memory map, the first allocation after boot fails although, as the
    example machine shows, usable frames are free. *)
Theorem small_machine_cannot_allocate (mem : gmap Z Z) (cr3 : Z) (entries : list MemEntry)
    (Hsmall : total_frames (init mem cr3 (Some entries) new) <= 8192) :
  (allocate_frame (init mem cr3 (Some entries) new)).1 = None.
Proof.
  set (fa := init mem cr3 (Some entries) new) in *.
  assert (next_frame fa = 0) as Hn by apply fresh_init.
  assert (find_free fa (next_frame fa) 0 (Z.to_nat (total_frames fa)) = None) as Hf.
  { apply find_free_None. intros j Hj. rewrite Hn. cbn [Z.add].
    rewrite Z.mod_small by lia. apply low_used_init. lia. }
  unfold allocate_frame. by rewrite Hf.
Qed.

Lemma small_machine_cannot_allocate_witness :
  let fa := init ∅ 0 (Some [mkEntry true 33554432 33554432]) new in
  total_frames fa = 8192 /\ is_free fa 8192 = true /\ (allocate_frame fa).1 = None.
Proof.
  destruct (init_single ∅ (mkEntry true 33554432 33554432) 8192 16384 subtables_blank
              eq_refl eq_refl eq_refl eq_refl) as [Ht Hf].
  split; [exact Ht|]. split; [exact Hf|].
  apply small_machine_cannot_allocate. rewrite Ht. discriminate.
Defined.

End frames_spec.
