(* ===== verification/PageTable.v ===== *)
(** * Page tables (kernel/src/kernel/mem/paging_allocator.rs)

    Module [pte]: page-table entries and their flag bits.  Module [paging]: the
    four-level tables in physical memory and every operation on them.

    Memory is modelled at the granularity the tables use: [mem] maps a physical
    address that is a multiple of 8 to a 64-bit word.  The kernel reaches it
    through the higher-half direct map, at a fixed offset from the physical
    address, so a table at physical address [t] has its entry [i] at [t + 8 * i].
    Translation caches ([invlpg]) are not part of the model. *)

From stdpp Require Import base list gmap strings list_numbers.
From Stdlib Require Import ZArith Lia.
From S2P Require Import Prelude FrameAlloc.

Local Open Scope Z_scope.

Module pte.

(* @src mem/paging_allocator.rs 22-34 PageTableFlags *)
Definition PRESENT : Z := bit 0.
Definition WRITABLE : Z := bit 1.
Definition USER : Z := bit 2.
Definition COW : Z := bit 9.
Definition NO_EXECUTE : Z := bit 63.

(* @src mem/paging_allocator.rs 36-36 kernel_flags *)
Definition kernel_flags : Z := Z.lor PRESENT WRITABLE.

(* @src mem/paging_allocator.rs 38-43 user_flags *)
Definition user_flags (writable executable : bool) : Z :=
  let f := Z.lor PRESENT USER in
  let f := if writable then Z.lor f WRITABLE else f in
  if negb executable then Z.lor f NO_EXECUTE else f.

(* @src mem/paging_allocator.rs 45-49 parent_table_flags *)
Definition parent_table_flags (fl : Z) : Z :=
  let f := Z.lor PRESENT WRITABLE in
  if negb (Z.land fl USER =? 0) then Z.lor f USER else f.

(* @src mem/paging_allocator.rs 51-51 merge *)
Definition merge (fl other : Z) : Z := Z.lor fl other.

(* @src mem/paging_allocator.rs 53-53 is_writable *)
Definition is_writable (fl : Z) : bool := negb (Z.land fl WRITABLE =? 0).
(* @src mem/paging_allocator.rs 54-54 is_cow *)
Definition is_cow (fl : Z) : bool := negb (Z.land fl COW =? 0).

(* @src mem/paging_allocator.rs 56-58 as_cow *)
Definition as_cow (fl : Z) : Z := Z.lor (Z.ldiff fl WRITABLE) COW.
(* @src mem/paging_allocator.rs 60-62 as_writable_no_cow *)
Definition as_writable_no_cow (fl : Z) : Z := Z.ldiff (Z.lor fl WRITABLE) COW.

Definition ADDR_MASK : Z := 0x000FFFFFFFFFF000.

(* @src mem/paging_allocator.rs 71-71 is_present *)
Definition is_present (e : Z) : bool := negb (Z.land e PRESENT =? 0).
(* @src mem/paging_allocator.rs 72-72 flags *)
Definition flags (e : Z) : Z := Z.land e 0xFFF.
(* @src mem/paging_allocator.rs 73-73 addr *)
Definition addr (e : Z) : Z := Z.land e ADDR_MASK.
(* @src mem/paging_allocator.rs 74-76 set *)
Definition set (a fl : Z) : Z := Z.lor (Z.land a ADDR_MASK) (Z.land fl 0xFFF).

(** ** Bits *)

Lemma is_present_testbit e : is_present e = Z.testbit e 0.
Proof. unfold is_present, PRESENT. by rewrite (land_bit_zero e 0), negb_involutive by lia. Qed.
Lemma is_writable_testbit e : is_writable e = Z.testbit e 1.
Proof. unfold is_writable, WRITABLE. by rewrite (land_bit_zero e 1), negb_involutive by lia. Qed.
Lemma is_cow_testbit e : is_cow e = Z.testbit e 9.
Proof. unfold is_cow, COW. by rewrite (land_bit_zero e 9), negb_involutive by lia. Qed.

Lemma mask12_testbit n : 0 <= n -> Z.testbit 0xFFF n = (n <? 12).
Proof.
  intros Hn. change 0xFFF with (Z.ones 12).
  destruct (Z.ltb_spec n 12); [apply Z.ones_spec_low|apply Z.ones_spec_high]; lia.
Qed.

Lemma addr_mask_testbit n : 0 <= n -> Z.testbit ADDR_MASK n = (12 <=? n) && (n <? 52).
Proof.
  intros Hn. change ADDR_MASK with (Z.shiftl (Z.ones 40) 12).
  rewrite Z.shiftl_spec by lia. destruct (Z.leb_spec 12 n); cbn [andb].
  - destruct (Z.ltb_spec n 52); [apply Z.ones_spec_low|apply Z.ones_spec_high]; lia.
  - apply Z.testbit_neg_r. lia.
Qed.

Lemma addr_testbit e n : 0 <= n -> Z.testbit (addr e) n = Z.testbit e n && ((12 <=? n) && (n <? 52)).
Proof. intros. unfold addr. by rewrite Z.land_spec, addr_mask_testbit. Qed.

Lemma set_testbit a fl n :
  0 <= n ->
  Z.testbit (set a fl) n =
  Z.testbit a n && ((12 <=? n) && (n <? 52)) || Z.testbit fl n && (n <? 12).
Proof. intros. unfold set. by rewrite Z.lor_spec, !Z.land_spec, addr_mask_testbit, mask12_testbit. Qed.

Ltac bits n Hn := apply Z.bits_inj'; intros n Hn.

Lemma addr_set a fl : addr (set a fl) = addr a.
Proof.
  bits n Hn. rewrite !addr_testbit, set_testbit by done.
  destruct (Z.ltb_spec n 12), (Z.leb_spec 12 n), (Z.ltb_spec n 52), (Z.testbit a n),
    (Z.testbit fl n); done || lia.
Qed.

Lemma addr_idem a : addr (addr a) = addr a.
Proof. unfold addr. by rewrite <- Z.land_assoc, Z.land_diag. Qed.

Lemma is_present_set a fl : is_present (set a fl) = Z.testbit fl 0.
Proof.
  rewrite is_present_testbit, set_testbit by lia. cbn.
  by rewrite andb_false_r, andb_true_r.
Qed.

Lemma set_addr_testbit_low a fl n :
  0 <= n < 12 -> Z.testbit (set a fl) n = Z.testbit fl n.
Proof.
  intros Hn. rewrite set_testbit by lia.
  rewrite (proj2 (Z.leb_gt 12 n)), (proj2 (Z.ltb_lt n 12)) by lia.
  by rewrite andb_false_r, andb_true_r.
Qed.

(** A frame address. *)
Definition aligned (a : Z) : Prop := 0 <= a < 2 ^ 52 /\ a mod 4096 = 0.

Lemma addr_aligned a : aligned a -> addr a = a.
Proof.
  intros [Hr Hm]. bits n Hn. rewrite addr_testbit by done.
  destruct (Z.leb_spec 12 n) as [|Hlt]; cbn [andb].
  - destruct (Z.ltb_spec n 52); [by rewrite andb_true_r|].
    rewrite andb_false_r. symmetry. apply Z.bits_above_log2; [lia|].
    destruct (decide (a = 0)) as [->|]; [cbn; lia|].
    apply Z.log2_lt_pow2; [lia|]. pose proof (Z.pow_le_mono_r 2 52 n). lia.
  - rewrite andb_false_r. symmetry. rewrite <- (Z.mod_pow2_bits_low a 12 n) by lia.
    change (2 ^ 12) with 4096. rewrite Hm. apply Z.bits_0.
Qed.

Lemma aligned_addr e : aligned (addr e).
Proof.
  assert (0 <= addr e) as H0 by (apply Z.land_nonneg; right; unfold ADDR_MASK; lia).
  split; [split; [done|]|].
  - destruct (decide (addr e = 0)) as [->|]; [lia|]. apply Z.log2_lt_pow2; [lia|].
    destruct (Z.lt_ge_cases (Z.log2 (addr e)) 52) as [|Hge]; [done|].
    pose proof (Z.bit_log2 (addr e) ltac:(lia)) as Hb.
    rewrite addr_testbit in Hb by apply Z.log2_nonneg.
    rewrite (proj2 (Z.ltb_ge _ 52)), !andb_false_r in Hb by done. done.
  - change 4096 with (2 ^ 12). bits n Hn. rewrite Z.bits_0.
    destruct (Z.lt_ge_cases n 12).
    + rewrite Z.mod_pow2_bits_low, addr_testbit by lia.
      by rewrite (proj2 (Z.leb_gt 12 n)), andb_false_r by lia.
    + by rewrite Z.mod_pow2_bits_high by lia.
Qed.
End pte.

Module paging.
Import pte frames.

(* @src mem/paging_allocator.rs 265-268 PageTableManager *)
Record PageTableManager := mkPTM { l4_table_phys : Z; higher_half_offset : Z }.

(* @src mem/paging_allocator.rs 382-382 FREE_LIST_CAPACITY *)
Definition FREE_LIST_CAPACITY : Z := 256.
(* @src mem/paging_allocator.rs 383-384 SLAB_PAGES *)
Definition SLAB_PAGES : Z := 4096.

(** The allocator's state and physical memory.  The small-object heap is the
    [linked_list_allocator] crate; it is a parameter of the operations that use
    it (section [Slab] below). *)
(* @src mem/paging_allocator.rs 386-399 PagingAllocatorInner *)
Record kernel := mkK {
  mem : gmap Z Z;
  frame_allocator : PhysicalFrameAllocator;
  page_table_manager : option PageTableManager;
  next_virt_addr : Z;
  heap_start : Z;
  heap_end : Z;
  initialized : bool;
  free_list : list (Z * Z);
  free_list_len : Z;
  slab_end : Z;
}.

(* @src mem/paging_allocator.rs 408-423 PagingAllocator::new *)
Definition boot_kernel (m : gmap Z Z) : kernel :=
  mkK m new None 0 0 0 false (replicate (Z.to_nat FREE_LIST_CAPACITY) (0, 0)) 0 0.

Definition with_mem (k : kernel) m :=
  mkK m (frame_allocator k) (page_table_manager k) (next_virt_addr k) (heap_start k)
      (heap_end k) (initialized k) (free_list k) (free_list_len k) (slab_end k).
Definition with_fa (k : kernel) fa :=
  mkK (mem k) fa (page_table_manager k) (next_virt_addr k) (heap_start k)
      (heap_end k) (initialized k) (free_list k) (free_list_len k) (slab_end k).
Definition with_ptm (k : kernel) p :=
  mkK (mem k) (frame_allocator k) p (next_virt_addr k) (heap_start k)
      (heap_end k) (initialized k) (free_list k) (free_list_len k) (slab_end k).
Definition with_next (k : kernel) n :=
  mkK (mem k) (frame_allocator k) (page_table_manager k) n (heap_start k)
      (heap_end k) (initialized k) (free_list k) (free_list_len k) (slab_end k).
Definition with_list (k : kernel) l n :=
  mkK (mem k) (frame_allocator k) (page_table_manager k) (next_virt_addr k) (heap_start k)
      (heap_end k) (initialized k) l n (slab_end k).

Section Prims.
Context {E : Type}.

(** [*p], [*p = v] for a word of physical memory. *)
Definition load (a : Z) : prog kernel E Z := fun k => Ret (Ok (rd (mem k) a), k).
Definition store (a v : Z) : prog kernel E unit := modify (fun k => with_mem k (wr (mem k) a v)).

Definition zero_words (m : gmap Z Z) (t : Z) : gmap Z Z :=
  fold_left (fun m i => wr m (t + 8 * i) 0) (seqZ 0 512) m.
Definition copy_words (m : gmap Z Z) (src dst : Z) : gmap Z Z :=
  fold_left (fun m' i => wr m' (dst + 8 * i) (rd m (src + 8 * i))) (seqZ 0 512) m.

(** [write_bytes(t, 0, 4096)], [copy_nonoverlapping(src, dst, 4096)] *)
(* @src mem/paging_allocator.rs 83-86 PageTable::zero *)
Definition zero_page (t : Z) : prog kernel E unit := modify (fun k => with_mem k (zero_words (mem k) t)).
Definition copy_page (src dst : Z) : prog kernel E unit :=
  modify (fun k => with_mem k (copy_words (mem k) src dst)).

Definition alloc_frame : prog kernel E (option Z) := fun k =>
  let '(r, fa) := allocate_frame (frame_allocator k) in Ret (Ok r, with_fa k fa).
Definition drop_frame (a : Z) : prog kernel E unit :=
  modify (fun k => with_fa k (free_frame (frame_allocator k) a)).
Definition share_frame (a : Z) : prog kernel E unit :=
  modify (fun k => with_fa k (inc_refcount (frame_allocator k) a)).

(** [allocate_frame().ok_or(e)?] *)
Definition alloc_or (e : E) : prog kernel E Z :=
  let? r := alloc_frame in match r with Some t => ok t | None => err e end.
End Prims.

(** ** Walking the tables *)

(* @src mem/paging_allocator.rs 294-297 table indices *)
Definition l4i (virt : Z) : Z := Z.land (Z.shiftr virt 39) 0x1FF.
Definition l3i (virt : Z) : Z := Z.land (Z.shiftr virt 30) 0x1FF.
Definition l2i (virt : Z) : Z := Z.land (Z.shiftr virt 21) 0x1FF.
Definition l1i (virt : Z) : Z := Z.land (Z.shiftr virt 12) 0x1FF.

(** The block that [map] repeats at L4, L3 and L2: follow the entry, widening
    its flags, or install a fresh zeroed table. *)
(* @src mem/paging_allocator.rs 300-310 map (one level) *)
Definition descend (tbl i pf : Z) (e : string) : prog kernel string Z :=
  let p := tbl + 8 * i in
  let? ent := load p in
  if is_present ent then
    let? _ := store p (set (addr ent) (merge (flags ent) pf)) in
    let? ent' := load p in
    ok (addr ent')
  else
    let? t := alloc_or e in
    let? _ := store p (set t pf) in
    let? _ := zero_page t in
    ok t.

(* @src mem/paging_allocator.rs 285-343 PageTableManager::map *)
Definition map (l4 virt phys fl : Z) : prog kernel string unit :=
  let pf := parent_table_flags fl in
  let? l3_phys := descend l4 (l4i virt) pf "OOM: L3 table" in
  let? l2_phys := descend l3_phys (l3i virt) pf "OOM: L2 table" in
  let? l1_phys := descend l2_phys (l2i virt) pf "OOM: L1 table" in
  let p := l1_phys + 8 * l1i virt in
  let? ent := load p in
  if is_present ent then err "Page already mapped"
  else store p (set phys fl).

(* @src mem/paging_allocator.rs 345-375 PageTableManager::unmap *)
Definition unmap (l4 virt : Z) : prog kernel string Z :=
  let? e4 := load (l4 + 8 * l4i virt) in
  if negb (is_present e4) then err "Not mapped (L4)" else
  let? e3 := load (addr e4 + 8 * l3i virt) in
  if negb (is_present e3) then err "Not mapped (L3)" else
  let? e2 := load (addr e3 + 8 * l2i virt) in
  if negb (is_present e2) then err "Not mapped (L2)" else
  let p := addr e2 + 8 * l1i virt in
  let? e1 := load p in
  if negb (is_present e1) then err "Not mapped (L1)" else
  let phys := addr e1 in
  let? _ := store p 0 in
  let? _ := drop_frame phys in
  ok phys.

(** One level of [map_phys_leaf]: as [descend], but the flags of an existing
    entry stay as they are. *)
(* @src mem/paging_allocator.rs 1062-1070 map_phys_leaf (one level) *)
Definition descend_plain (tbl i pf : Z) (e : string) : prog kernel string Z :=
  let p := tbl + 8 * i in
  let? ent := load p in
  if is_present ent then ok (addr ent)
  else
    let? t := alloc_or e in
    let? _ := store p (set t pf) in
    let? _ := zero_page t in
    ok t.

(* @src mem/paging_allocator.rs 1046-1093 map_phys_leaf *)
Definition map_phys_leaf (l4 virt phys fl : Z) : prog kernel string unit :=
  let pf := parent_table_flags fl in
  let? l3_phys := descend_plain l4 (l4i virt) pf "OOM: L3" in
  let? l2_phys := descend_plain l3_phys (l3i virt) pf "OOM: L2" in
  let? l1_phys := descend_plain l2_phys (l2i virt) pf "OOM: L1" in
  store (l1_phys + 8 * l1i virt) (set phys fl).

(** The manager, when the allocator is initialised. *)
Definition ready {E} (e_init e_ptm : E) : prog kernel E PageTableManager :=
  let? k := get in
  if negb (initialized k) then err e_init else
  match page_table_manager k with Some p => ok p | None => err e_ptm end.

(** [base + (i * 4096) as u64], overflow checked. *)
Definition page_at {E} (base i : Z) : prog kernel E Z := checked (cadd u64_max base (i * 4096)).

(* @src mem/paging_allocator.rs 599-635 map_kernel_region *)
Definition map_kernel_region (phys_addr virt_addr num_pages : Z) (writable executable : bool)
    : prog kernel string unit :=
  let? ptm := ready "Paging allocator not initialized"%string "PTM unavailable"%string in
  let fl := user_flags writable executable in
  for_each (seqZ 0 num_pages) (fun i =>
    let? page_phys := page_at phys_addr i in
    let? page_virt := page_at virt_addr i in
    let? _ := catch (unmap (l4_table_phys ptm) page_virt) in
    map (l4_table_phys ptm) page_virt page_phys fl).

(* @src mem/paging_allocator.rs 641-649 get_hhdm_offset *)
Definition get_hhdm_offset (k : kernel) : Z :=
  match page_table_manager k with Some ptm => higher_half_offset ptm | None => 0 end.

(* @src mem/paging_allocator.rs 651-657 frame_stats *)
Definition frame_stats (k : kernel) : Z * Z :=
  (allocated_frames (frame_allocator k), total_frames (frame_allocator k)).

(** [write_bytes] at [page_virt] reaches the frame just mapped there: this entry
    point serves the tables of the current address space. *)
(* @src mem/paging_allocator.rs 661-683 map_user_region *)
Definition map_user_region (virt_addr num_pages : Z) (writable executable : bool)
    : prog kernel string unit :=
  let? ptm := ready "Paging allocator not initialized"%string "PTM unavailable"%string in
  let fl := user_flags writable executable in
  for_each (seqZ 0 num_pages) (fun page =>
    let? page_virt := page_at virt_addr page in
    let? phys := alloc_or "Out of frames"%string in
    let? _ := map (l4_table_phys ptm) page_virt phys fl in
    zero_page phys).

(** [None] is the error. *)
(* @src mem/paging_allocator.rs 691-718 create_user_page_table *)
Definition create_user_page_table : prog kernel unit Z :=
  let? ptm := ready tt tt in
  let? new_l4_pa := alloc_or tt in
  let? _ := for_each (seqZ 0 256) (fun i => store (new_l4_pa + 8 * i) 0) in
  let? _ := for_each (seqZ 256 256) (fun i =>
    let? e := load (l4_table_phys ptm + 8 * i) in store (new_l4_pa + 8 * i) e) in
  ok new_l4_pa.

(** The saved and restored [l4_table_phys] of the manager is the parameter [l4]
    of [map] and [unmap]; the manager itself is unchanged afterwards. *)
(* @src mem/paging_allocator.rs 720-763 map_user_region_in *)
Definition map_user_region_in (cr3_phys virt_addr num_pages : Z) (writable executable : bool)
    : prog kernel string unit :=
  let? _ := ready "Paging allocator not initialized"%string "PTM unavailable"%string in
  let fl := user_flags writable executable in
  for_each (seqZ 0 num_pages) (fun page =>
    let? page_virt := page_at virt_addr page in
    let? phys := alloc_or "Out of frames"%string in
    let? _ := zero_page phys in
    map cr3_phys page_virt phys fl).

(* @src mem/paging_allocator.rs 765-782 unmap_user_region_in *)
Definition unmap_user_region_in (cr3_phys virt_addr num_pages : Z) : prog kernel unit unit :=
  let? k := get in
  if negb (initialized k) then ok tt else
  match page_table_manager k with None => ok tt | Some _ =>
  for_each (seqZ 0 num_pages) (fun page =>
    let? virt := page_at virt_addr page in
    let? _ := catch (unmap cr3_phys virt) in
    ok tt)
  end.

(** [continue] unless the present bit is set. *)
Definition when_present {E} (e : Z) (m : prog kernel E unit) : prog kernel E unit :=
  if Z.land e 1 =? 0 then ok tt else m.

(** The nested loops of [free_user_page_table], from the inside out; each frees
    the frames below a table and then the table's own frame. *)
(* @src mem/paging_allocator.rs 821-827 free_user_page_table (L1 loop) *)
Definition free_l1 (l1_phys : Z) : prog kernel unit unit :=
  let? _ := for_each (seqZ 0 512) (fun i1 =>
    let? l1e := load (l1_phys + 8 * i1) in
    when_present l1e (drop_frame (Z.land l1e ADDR_MASK))) in
  drop_frame l1_phys.

(* @src mem/paging_allocator.rs 815-829 free_user_page_table (L2 loop) *)
Definition free_l2 (l2_phys : Z) : prog kernel unit unit :=
  let? _ := for_each (seqZ 0 512) (fun i2 =>
    let? l2e := load (l2_phys + 8 * i2) in
    when_present l2e (free_l1 (Z.land l2e ADDR_MASK))) in
  drop_frame l2_phys.

(* @src mem/paging_allocator.rs 809-831 free_user_page_table (L3 loop) *)
Definition free_l3 (l3_phys : Z) : prog kernel unit unit :=
  let? _ := for_each (seqZ 0 512) (fun i3 =>
    let? l3e := load (l3_phys + 8 * i3) in
    when_present l3e (free_l2 (Z.land l3e ADDR_MASK))) in
  drop_frame l3_phys.

(** Not initialised: nothing is done. *)
(* @src mem/paging_allocator.rs 784-834 free_user_page_table *)
Definition free_user_page_table (cr3_phys : Z) : prog kernel unit unit :=
  let? k := get in
  if negb (initialized k) then ok tt else
  match page_table_manager k with
  | None => ok tt
  | Some _ =>
      let? _ := for_each (seqZ 0 256) (fun i4 =>
        let? l4e := load (cr3_phys + 8 * i4) in
        when_present l4e (free_l3 (Z.land l4e ADDR_MASK))) in
      drop_frame cr3_phys
  end.

Definition in_range (virt : Z) (r : Z * Z) : bool := (r.1 <=? virt) && (virt <? r.2).

(** The classification of one present leaf by [cow_fork_user_page_table]. *)
(* @src mem/paging_allocator.rs 911-952 cow_fork_user_page_table (leaf) *)
Definition fork_leaf (stack_range : Z * Z) (shm_ranges : list (Z * Z))
    (virt src_slot dst_slot l1e : Z) : prog kernel unit unit :=
  let src_frame := Z.land l1e ADDR_MASK in
  let fl := Z.land l1e 0xFFF in
  if existsb (in_range virt) shm_ranges then store dst_slot l1e
  else if in_range virt stack_range then
    let? dst_frame_pa := alloc_or tt in
    let? _ := copy_page src_frame dst_frame_pa in
    store dst_slot (Z.lor dst_frame_pa (Z.land l1e 0xFFF))
  else
    let? _ := share_frame src_frame in
    let new_flags := if is_writable fl then as_cow fl else fl in
    let? _ := store dst_slot (Z.lor src_frame (Z.land new_flags 0xFFF)) in
    if negb (new_flags =? fl) then store src_slot (Z.lor src_frame (Z.land new_flags 0xFFF))
    else ok tt.

(** A fresh zeroed table hung below [dst_slot] with the flags of [e]. *)
(* @src mem/paging_allocator.rs 881-887 cow_fork_user_page_table (one level) *)
Definition fork_table (dst_slot e : Z) : prog kernel unit Z :=
  let? t := alloc_or tt in
  let? _ := zero_page t in
  let? _ := store dst_slot (Z.lor t (Z.land e 0xFFF)) in
  ok t.

(** The four nested loops, from the inside out. *)
Section ForkLoops.
Context (stack_range : Z * Z) (shm_ranges : list (Z * Z)).

(* @src mem/paging_allocator.rs 911-918 cow_fork_user_page_table (L1 loop) *)
Definition fork_l1 (i4 i3 i2 src_l1 dst_l1 : Z) : prog kernel unit unit :=
  for_each (seqZ 0 512) (fun i1 =>
    let? l1e := load (src_l1 + 8 * i1) in
    when_present l1e (
      let virt := Z.lor (Z.lor (Z.lor (Z.shiftl i4 39) (Z.shiftl i3 30)) (Z.shiftl i2 21))
                        (Z.shiftl i1 12) in
      fork_leaf stack_range shm_ranges virt (src_l1 + 8 * i1) (dst_l1 + 8 * i1) l1e)).

(* @src mem/paging_allocator.rs 900-953 cow_fork_user_page_table (L2 loop) *)
Definition fork_l2 (i4 i3 src_l2 dst_l2 : Z) : prog kernel unit unit :=
  for_each (seqZ 0 512) (fun i2 =>
    let? l2e := load (src_l2 + 8 * i2) in
    when_present l2e (
      let? dst_l1 := fork_table (dst_l2 + 8 * i2) l2e in
      fork_l1 i4 i3 i2 (Z.land l2e ADDR_MASK) dst_l1)).

(* @src mem/paging_allocator.rs 889-954 cow_fork_user_page_table (L3 loop) *)
Definition fork_l3 (i4 src_l3 dst_l3 : Z) : prog kernel unit unit :=
  for_each (seqZ 0 512) (fun i3 =>
    let? l3e := load (src_l3 + 8 * i3) in
    when_present l3e (
      let? dst_l2 := fork_table (dst_l3 + 8 * i3) l3e in
      fork_l2 i4 i3 (Z.land l3e ADDR_MASK) dst_l2)).

(* @src mem/paging_allocator.rs 878-955 cow_fork_user_page_table (L4 loop) *)
Definition fork_l4 (src_l4 dst_l4 : Z) : prog kernel unit unit :=
  for_each (seqZ 0 256) (fun i4 =>
    let? l4e := load (src_l4 + 8 * i4) in
    when_present l4e (
      let? dst_l3 := fork_table (dst_l4 + 8 * i4) l4e in
      fork_l3 i4 (Z.land l4e ADDR_MASK) dst_l3)).

(* @src mem/paging_allocator.rs 836-957 cow_fork_user_page_table *)
Definition cow_fork_user_page_table (src_cr3 : Z) : prog kernel unit Z :=
  let? ptm := ready tt tt in
  let? dst_l4 := alloc_or tt in
  let? _ := for_each (seqZ 0 256) (fun i => store (dst_l4 + 8 * i) 0) in
  let? _ := for_each (seqZ 256 256) (fun i =>
    let? e := load (l4_table_phys ptm + 8 * i) in store (dst_l4 + 8 * i) e) in
  let? _ := fork_l4 src_cr3 dst_l4 in
  ok dst_l4.
End ForkLoops.

(** The loop over the frames after the first returns [0] at the first failure. *)
(* @src mem/paging_allocator.rs 974-1010 alloc_phys_frames *)
Definition alloc_phys_frames (num_pages : Z) : prog kernel unit Z :=
  let? k := get in
  if negb (initialized k) then ok 0 else
  let? r := catch (
    let? first := alloc_or tt in
    let? _ := zero_page first in
    let? _ := for_each (seqZ 1 (num_pages - 1)) (fun _ =>
      let? next := alloc_or tt in zero_page next) in
    ok first) in
  ok (match r with Ok first => first | Err _ => 0 end).

(* @src mem/paging_allocator.rs 1012-1044 map_phys_pages_in *)
Definition map_phys_pages_in (cr3_phys virt_base phys_base num_pages : Z) (writable : bool)
    : prog kernel string unit :=
  let? _ := ready "not init"%string "PTM None"%string in
  let fl := user_flags writable false in
  for_each (seqZ 0 num_pages) (fun i =>
    let? virt := page_at virt_base i in
    let? phys := page_at phys_base i in
    map_phys_leaf cr3_phys virt phys fl).

(* @src mem/paging_allocator.rs 1095-1127 is_page_mapped_current *)
Definition is_page_mapped_current (cr3 : Z) (m : gmap Z Z) (virt : Z) : bool :=
  let l4_phys := Z.land cr3 ADDR_MASK in
  let l4e := rd m (l4_phys + 8 * l4i virt) in
  if Z.land l4e 1 =? 0 then false else
  let l3e := rd m (Z.land l4e ADDR_MASK + 8 * l3i virt) in
  if Z.land l3e 1 =? 0 then false else
  if negb (Z.land l3e (bit 7) =? 0) then true else
  let l2e := rd m (Z.land l3e ADDR_MASK + 8 * l2i virt) in
  if Z.land l2e 1 =? 0 then false else
  if negb (Z.land l2e (bit 7) =? 0) then true else
  let l1e := rd m (Z.land l2e ADDR_MASK + 8 * l1i virt) in
  negb (Z.land l1e 1 =? 0).

(** The leaf slot [p] of the faulting page.  The source of the copy is the page
    itself, which the current tables map to [frame]. *)
(* @src mem/paging_allocator.rs 1163-1193 try_resolve_cow_fault (leaf) *)
Definition resolve_leaf (p : Z) : prog kernel unit bool :=
  let? l1e := load p in
  if Z.land l1e 1 =? 0 then ok false else
  let fl := Z.land l1e 0xFFF in
  if negb (is_cow fl) then ok false else
  let frame := Z.land l1e ADDR_MASK in
  let new_flags := as_writable_no_cow fl in
  let? k := get in
  if get_refcount (frame_allocator k) frame <=? 1 then
    let? _ := store p (Z.lor frame (Z.land new_flags 0xFFF)) in ok true
  else
    let? r := alloc_frame in
    match r with
    | None => ok false
    | Some new_frame =>
        let? _ := copy_page frame new_frame in
        let? _ := store p (Z.lor new_frame (Z.land new_flags 0xFFF)) in
        let? _ := drop_frame frame in
        ok true
    end.

(* @src mem/paging_allocator.rs 1129-1194 try_resolve_cow_fault *)
Definition try_resolve_cow_fault (cr3 fault_addr : Z) : prog kernel unit bool :=
  let l4_phys := Z.land cr3 ADDR_MASK in
  let? l4e := load (l4_phys + 8 * l4i fault_addr) in
  if Z.land l4e 1 =? 0 then ok false else
  let? l3e := load (Z.land l4e ADDR_MASK + 8 * l3i fault_addr) in
  if (Z.land l3e 1 =? 0) || negb (Z.land l3e (bit 7) =? 0) then ok false else
  let? l2e := load (Z.land l3e ADDR_MASK + 8 * l2i fault_addr) in
  if (Z.land l2e 1 =? 0) || negb (Z.land l2e (bit 7) =? 0) then ok false else
  resolve_leaf (Z.land l2e ADDR_MASK + 8 * l1i fault_addr).

(** ** The kernel heap's page-granular path *)

(** [base + i * 4096] for a [usize]. *)
Definition map_fresh (l4 base i : Z) : prog kernel unit unit :=
  let? virt := page_at base i in
  let? phys := alloc_or tt in
  let? r := catch (map l4 virt phys kernel_flags) in
  match r with Ok _ => ok tt | Err _ => err tt end.

(** [NonNull::new] *)
Definition non_null {E} (e : E) (p : Z) : prog kernel E Z := if p =? 0 then err e else ok p.

(* @src mem/paging_allocator.rs 475-532 allocate_pages *)
Definition allocate_pages (num_pages : Z) : prog kernel unit Z :=
  let? k := get in
  if negb (initialized k) then err tt else
  match position (fun e => e.2 =? num_pages) (take (Z.to_nat (free_list_len k)) (free_list k)) with
  | Some i =>
      let? e := checked (idx (free_list k) i) in
      let fl_virt := e.1 in
      let? last := checked (idx (free_list k) (Z.to_nat (free_list_len k - 1))) in
      let? fl := checked (set_idx (free_list k) i last) in
      let? _ := put (with_list k fl (free_list_len k - 1)) in
      match page_table_manager k with
      | None => err tt
      | Some ptm =>
          let? _ := for_each (seqZ 0 num_pages) (fun j => map_fresh (l4_table_phys ptm) fl_virt j) in
          non_null tt fl_virt
      end
  | None =>
      match page_table_manager k with
      | None => err tt
      | Some ptm =>
          let? size := checked (cmul u64_max num_pages 4096) in
          let virt_start := next_virt_addr k in
          let? _ := put (with_next k (wrap 64 (virt_start + size))) in
          let? top := checked (cadd u64_max virt_start size) in
          if heap_end k <? top then err tt else
          let? _ := for_each (seqZ 0 num_pages) (fun i => map_fresh (l4_table_phys ptm) virt_start i) in
          non_null tt virt_start
      end
  end.

(** The part of [dealloc] for a range outside the slab. *)
(* @src mem/paging_allocator.rs 574-588 dealloc (pages) *)
Definition release_pages (virt_start num_pages : Z) : prog kernel unit unit :=
  let? k := get in
  match page_table_manager k with
  | None => ok tt
  | Some ptm =>
      let? _ := for_each (seqZ 0 num_pages) (fun i =>
        let? virt := page_at virt_start i in
        let? _ := catch (unmap (l4_table_phys ptm) virt) in ok tt) in
      let? k := get in
      if free_list_len k <? FREE_LIST_CAPACITY then
        let? fl := checked (set_idx (free_list k) (Z.to_nat (free_list_len k)) (virt_start, num_pages)) in
        put (with_list k fl (free_list_len k + 1))
      else ok tt
  end.

Definition SLAB_START : Z := 0xFFFFFF0000000000.
Definition SLAB_SIZE : Z := SLAB_PAGES * 4096.

(** [None] from [allocate_frame] and an error from [map] are [expect]ed away. *)
Definition expect {E A} (m : prog kernel string A) : prog kernel E A :=
  let? r := catch m in match r with Ok a => ok a | Err _ => checked Panic end.

Section Slab.
(** [linked_list_allocator::Heap]: [init], [allocate_first_fit] and
    [deallocate]; a layout is a size and an alignment. *)
Context {Heap : Type}.
Context (heap_init : Z -> Z -> Heap -> Heap).
Context (allocate_first_fit : Z * Z -> Heap -> option Z * Heap).
Context (deallocate : Z -> Z * Z -> Heap -> Heap).

(** [cr3] is the register, [map] the boot protocol's memory map. *)
(* @src mem/paging_allocator.rs 425-473 PagingAllocator::init *)
Definition allocator_init (cr3 : Z) (memory_map : option (list MemEntry)) (slab : Heap)
    : prog kernel string Heap :=
  let? _ := modify (fun k => with_fa k (init (mem k) cr3 memory_map (frame_allocator k))) in
  let ptm := mkPTM (Z.land cr3 ADDR_MASK) 0xFFFF800000000000 in
  let? _ := modify (fun k => with_ptm k (Some ptm)) in
  let? _ := for_each (seqZ 0 SLAB_PAGES) (fun i =>
    let virt := SLAB_START + i * 4096 in
    let? phys := expect (alloc_or "OOM during slab init"%string) in
    expect (map (l4_table_phys ptm) virt phys kernel_flags)) in
  let slab := heap_init SLAB_START SLAB_SIZE slab in
  let? _ := modify (fun k =>
    mkK (mem k) (frame_allocator k) (page_table_manager k) (SLAB_START + SLAB_SIZE)
        SLAB_START (SLAB_START + 64 * 1024 * 1024) true (free_list k) (free_list_len k)
        (SLAB_START + SLAB_SIZE)) in
  ok slab.

(** A null pointer is [0]. *)
(* @src mem/paging_allocator.rs 536-558 GlobalAlloc::alloc *)
Definition alloc (layout : Z * Z) (slab : Heap) : prog kernel unit (Z * Heap) :=
  let? k := get in
  if negb (initialized k) then ok (0, slab) else
  let '(r, slab') := allocate_first_fit layout slab in
  match r with
  | Some p => ok (p, slab')
  | None =>
      let? n := checked (cadd u64_max layout.1 4095) in
      let? p := catch (allocate_pages (n / 4096)) in
      ok (match p with Ok v => v | Err _ => 0 end, slab')
  end.

(* @src mem/paging_allocator.rs 560-589 GlobalAlloc::dealloc *)
Definition dealloc (ptr : Z) (layout : Z * Z) (slab : Heap) : prog kernel unit Heap :=
  let? k := get in
  if negb (initialized k) then ok slab else
  if (heap_start k <=? ptr) && (ptr <? slab_end k) then
    ok (if ptr =? 0 then slab else deallocate ptr layout slab)
  else
    let? n := checked (cadd u64_max layout.1 4095) in
    let? _ := release_pages ptr (n / 4096) in
    ok slab.
End Slab.

(** ** The executable flag *)

Lemma user_flags_low w : Z.land (user_flags w true) 0xFFF = Z.land (user_flags w false) 0xFFF.
Proof. by destruct w. Qed.

Lemma map_ignores_nx l4 virt phys w k :
  map l4 virt phys (user_flags w true) k = map l4 virt phys (user_flags w false) k.
Proof.
  unfold map, set. rewrite user_flags_low.
  replace (parent_table_flags (user_flags w true)) with (parent_table_flags (user_flags w false));
    [done|by destruct w].
Qed.

(** The [executable] argument of [map_user_region_in] has no effect:
    [user_flags] sets the no-execute bit 63, but [PageTableEntry::set] keeps only
    the low twelve flag bits, so every user page is executable. *)
Theorem executable_flag_has_no_effect (k : kernel) (cr3 virt n : Z) (w : bool) :
  map_user_region_in cr3 virt n w true k = map_user_region_in cr3 virt n w false k.
Proof.
  unfold map_user_region_in, pbind at 1. symmetry. unfold pbind at 1. symmetry.
  destruct (ready _ _ k) as [[[ptm|e] k1]|]; [|done..].
  apply for_each_ext. intros j k2. unfold pbind.
  destruct (page_at virt j k2) as [[[v|e] k3]|]; [|done..].
  destruct (alloc_or _ k3) as [[[f|e] k4]|]; [|done..].
  destruct (zero_page f k4) as [[[u|e] k5]|]; [|done..].
  apply map_ignores_nx.
Qed.

End paging.
