(* ===== verification/AddressSpace.v ===== *)
(** * Address spaces

    The page-table operations of PageTable.v against an abstract state: a finite
    map [T] from (root, path) to the table found there, and a finite map [M]
    from (root, four indices) to the leaf entry installed there, for the user
    half of every live address space.  The frames' reference counts bound the
    number of uses of each frame, tables are never shared, and [X] lists the
    frames whose reference is held by code in progress. *)

From stdpp Require Import base list gmap strings list_numbers.
From Stdlib Require Import ZArith Lia.
From S2P Require Import Prelude FrameAlloc PageTable.

Local Open Scope Z_scope.

Module aspace.
Import pte frames paging.

Abbreviation key := (Z * list Z)%type.
Abbreviation tmap := (gmap (Z * list Z) Z).

(** The four table indices of a virtual address. *)
Definition path (virt : Z) : list Z := [l4i virt; l3i virt; l2i virt; l1i virt].

(** Indices below the table at path [p]; the user half of the root only. *)
Definition idx_ok (p : list Z) (i : Z) : Prop := 0 <= i < 512 /\ (p = [] -> i < 256).

Definition sub_table (e : Z) : option Z := if is_present e then Some (addr e) else None.
Definition leaf (e : Z) : option Z := if is_present e then Some e else None.

(** [m] holds the tables [T] and the leaves [M]. *)
Record tree (m : gmap Z Z) (T M : tmap) : Prop := {
  tr_root r t : T !! (r, []) = Some t -> t = r;
  tr_table r p t i :
    T !! (r, p) = Some t -> (length p < 3)%nat -> idx_ok p i ->
    T !! (r, p ++ [i]) = sub_table (rd m (t + 8 * i));
  tr_leaf r p t i :
    T !! (r, p) = Some t -> length p = 3%nat -> idx_ok p i ->
    M !! (r, p ++ [i]) = leaf (rd m (t + 8 * i));
  tr_tclosed r p i t' :
    T !! (r, p ++ [i]) = Some t' ->
    exists t, T !! (r, p) = Some t /\ (length p < 3)%nat /\ idx_ok p i;
  tr_mclosed r q e :
    M !! (r, q) = Some e ->
    exists p i t, q = p ++ [i] /\ T !! (r, p) = Some t /\ length p = 3%nat /\ idx_ok p i;
  tr_small r p t i :                      (* no huge pages *)
    T !! (r, p) = Some t -> (length p < 3)%nat -> idx_ok p i ->
    Z.testbit (rd m (t + 8 * i)) 7 = false;
}.

(** An entry without bits outside the address and the twelve flag bits. *)
Definition canon (e : Z) : Prop := e = Z.lor (addr e) (Z.land e 0xFFF) /\ is_present e = true.

Definition t_uses (T : tmap) (f : Z) : Z := count (fun kv => kv.2 / 4096 = f) T.
Definition m_uses (M : tmap) (f : Z) : Z := count (fun kv => addr kv.2 / 4096 = f) M.
Definition x_uses (X : list Z) (f : Z) : Z :=
  Z.of_nat (length (filter (fun a => a / 4096 = f) X)).

(** The reference counts cover the uses; a table frame has one reference. *)
Record counts (fa : PhysicalFrameAllocator) (T M : tmap) (X : list Z) : Prop := {
  ct_wf : wf fa;
  ct_le f : 0 <= f < 65536 -> t_uses T f + m_uses M f + x_uses X f <= rd (refcount fa) f;
  ct_table k t :
    T !! k = Some t -> aligned t /\ t / 4096 < 65536 /\ rd (refcount fa) (t / 4096) = 1;
  ct_canon k e : M !! k = Some e -> canon e;
  ct_x a : a ∈ X -> aligned a;
}.

(** ** Slots *)

Lemma aligned_frame a : aligned a -> a = 4096 * (a / 4096) /\ 0 <= a / 4096.
Proof. intros [H1 H2]. pose proof (Z.div_mod a 4096). split; [lia|]. apply Z.div_pos; lia. Qed.

Lemma slot_frame t i : aligned t -> 0 <= i < 512 -> (t + 8 * i) / 4096 = t / 4096.
Proof.
  intros Ha Hi. destruct (aligned_frame t Ha) as [E _]. rewrite E at 1.
  replace (4096 * (t / 4096) + 8 * i) with (8 * i + (t / 4096) * 4096) by lia.
  rewrite Z.div_add by lia. rewrite Z.div_small by lia. lia.
Qed.

Lemma slot_inj t1 i1 t2 i2 :
  aligned t1 -> aligned t2 -> 0 <= i1 < 512 -> 0 <= i2 < 512 ->
  t1 + 8 * i1 = t2 + 8 * i2 -> t1 = t2 /\ i1 = i2.
Proof.
  intros A1 A2 H1 H2 E.
  assert (t1 / 4096 = t2 / 4096) as Ef.
  { rewrite <- (slot_frame t1 i1), <- (slot_frame t2 i2) by done. by rewrite E. }
  destruct (aligned_frame t1 A1), (aligned_frame t2 A2). lia.
Qed.

Lemma aligned_eq a b : aligned a -> aligned b -> a / 4096 = b / 4096 -> a = b.
Proof. intros A B E. destruct (aligned_frame a A), (aligned_frame b B). lia. Qed.

(** ** Consequences of the counts *)

Section Counts.
Context {fa : PhysicalFrameAllocator} {T M : tmap} {X : list Z}.
Context (C : counts fa T M X).

Lemma x_uses_cons a X' f :
  x_uses (a :: X') f = x_uses X' f + (if decide (a / 4096 = f) then 1 else 0).
Proof. unfold x_uses. rewrite filter_cons. case_decide; cbn [length]; lia. Qed.

Lemma x_uses_nonneg X' f : 0 <= x_uses X' f.
Proof. unfold x_uses. lia. Qed.

Lemma x_uses_in X' a : a ∈ X' -> 1 <= x_uses X' (a / 4096).
Proof.
  intros Ha. unfold x_uses. destruct (filter _ X') eqn:E; cbn [length]; [|lia].
  assert (a ∈ filter (fun b => b / 4096 = a / 4096) X') as H by (by apply list_elem_of_filter).
  rewrite E in H. by apply elem_of_nil in H.
Qed.

Lemma t_uses_nonneg f : 0 <= t_uses T f.
Proof. apply count_nonneg. Qed.
Lemma m_uses_nonneg f : 0 <= m_uses M f.
Proof. apply count_nonneg. Qed.

Lemma t_uses_in k t : T !! k = Some t -> 1 <= t_uses T (t / 4096).
Proof. intros Hk. by eapply count_ge1. Qed.
Lemma m_uses_in k e : M !! k = Some e -> 1 <= m_uses M (addr e / 4096).
Proof. intros Hk. by eapply count_ge1. Qed.

Lemma table_range k t : T !! k = Some t -> 0 <= t / 4096 < 65536.
Proof.
  intros Hk. destruct (ct_table _ _ _ _ C k t Hk) as (Ha & ? & _).
  destruct (aligned_frame t Ha). lia.
Qed.

(** A table is referenced from one place, and only as a table. *)
Lemma table_inj k1 k2 t1 t2 :
  T !! k1 = Some t1 -> T !! k2 = Some t2 -> t1 / 4096 = t2 / 4096 -> k1 = k2.
Proof.
  intros H1 H2 E. destruct (decide (k1 = k2)) as [|Hne]; [done|].
  assert (2 <= t_uses T (t1 / 4096)) by (eapply count_ge2; eauto).
  pose proof (ct_le _ _ _ _ C (t1 / 4096) (table_range k1 t1 H1)).
  destruct (ct_table _ _ _ _ C k1 t1 H1) as (_ & _ & Hrc).
  pose proof (m_uses_nonneg (t1 / 4096)). pose proof (x_uses_nonneg X (t1 / 4096)). lia.
Qed.

Lemma table_private k t :
  T !! k = Some t -> m_uses M (t / 4096) = 0 /\ x_uses X (t / 4096) = 0.
Proof.
  intros Hk. pose proof (ct_le _ _ _ _ C (t / 4096) (table_range k t Hk)).
  destruct (ct_table _ _ _ _ C k t Hk) as (_ & _ & Hrc).
  pose proof (t_uses_in k t Hk).
  pose proof (m_uses_nonneg (t / 4096)). pose proof (x_uses_nonneg X (t / 4096)). lia.
Qed.

Lemma referenced_not_free f :
  0 <= f < 65536 -> 1 <= t_uses T f + m_uses M f + x_uses X f ->
  rd (refcount fa) f <> 0 /\ is_free fa f = false.
Proof.
  intros Hf Hu. pose proof (ct_le _ _ _ _ C f Hf).
  assert (rd (refcount fa) f <> 0) as Hn by lia. split; [done|].
  by apply (wf_used _ (ct_wf _ _ _ _ C)).
Qed.
End Counts.

(** ** Moving references *)

Section Moves.
Implicit Types (fa : PhysicalFrameAllocator) (T M : tmap) (X : list Z).

Lemma counts_alloc fa T M X a fa' :
  counts fa T M X -> allocate_frame fa = (Some a, fa') ->
  counts fa' T M (a :: X) /\ aligned a /\ 0 <= a / 4096 < 65536 /\
  t_uses T (a / 4096) + m_uses M (a / 4096) + x_uses X (a / 4096) = 0 /\
  rd (refcount fa') (a / 4096) = 1.
Proof.
  intros C Ha. pose proof (wf_allocate _ _ _ (ct_wf _ _ _ _ C) Ha) as W'.
  apply allocate_frame_Some in Ha as (f & -> & A).
  pose proof (al_range _ _ _ A) as Hf. rewrite Z.div_mul by lia.
  pose proof (allocated_unreferenced _ _ _ (ct_wf _ _ _ _ C) A) as H0.
  assert (aligned (f * 4096)) as Hal.
  { split; [change (2 ^ 52) with (1099511627776 * 4096); lia|]. by rewrite Z.mod_mul. }
  pose proof (ct_le _ _ _ _ C f Hf) as Hle.
  pose proof (count_nonneg (fun kv : key * Z => kv.2 / 4096 = f) T).
  pose proof (count_nonneg (fun kv : key * Z => addr kv.2 / 4096 = f) M).
  pose proof (x_uses_nonneg X f). unfold t_uses, m_uses in *.
  split_and!; try done; try lia; [|by rewrite (al_refs _ _ _ A), rd_wr_eq]. split; [done|..].
  - intros g Hg. rewrite x_uses_cons, Z.div_mul, (al_refs _ _ _ A), rd_wr by lia.
    pose proof (ct_le _ _ _ _ C g Hg). unfold t_uses, m_uses in *.
    repeat case_decide; subst; lia.
  - intros k t Hk. destruct (ct_table _ _ _ _ C k t Hk) as (? & ? & Hrc).
    split_and!; [done|done|]. rewrite (al_refs _ _ _ A), rd_wr. case_decide; [|done].
    subst. lia.
  - apply (ct_canon _ _ _ _ C).
  - intros b [->|Hb]%elem_of_cons; [done|]. by apply (ct_x _ _ _ _ C).
Qed.

Lemma counts_drop fa T M X a :
  counts fa T M (a :: X) -> counts (free_frame fa a) T M X.
Proof.
  intros C. pose proof C as [W Hle Ht Hc Hx].
  assert (forall g, 0 <= g < 65536 -> t_uses T g + m_uses M g + x_uses X g +
            (if decide (a / 4096 = g) then 1 else 0) <= rd (refcount fa) g) as Hle'.
  { intros g Hg. specialize (Hle g Hg). rewrite x_uses_cons in Hle. lia. }
  destruct (aligned_frame a (Hx a ltac:(left))) as [_ Ha0].
  destruct (Z.ltb_spec (a / 4096) 65536) as [Hlt|Hge].
  - assert (rd (refcount fa) (a / 4096) <> 0) as Hn.
    { apply (referenced_not_free C); [lia|].
      pose proof (count_nonneg (fun kv : key * Z => kv.2 / 4096 = a / 4096) T).
      pose proof (count_nonneg (fun kv : key * Z => addr kv.2 / 4096 = a / 4096) M).
      pose proof (x_uses_in (a :: X) a ltac:(left)). unfold t_uses, m_uses. lia. }
    destruct (free_frame_spec fa _ a W eq_refl Hn) as (W' & Hr & _ & _).
    split; [done|..].
    + intros g Hg. specialize (Hle' g Hg). rewrite Hr, rd_wr. case_decide; subst; lia.
    + intros k t Hk. destruct (Ht k t Hk) as (? & ? & Hrc). split_and!; [done|done|].
      rewrite Hr, rd_wr. case_decide as E; [|done]. exfalso.
      destruct (table_private C k t Hk) as [_ Hp].
      rewrite x_uses_cons, decide_True in Hp by done. pose proof (x_uses_nonneg X (t / 4096)). lia.
    + done.
    + intros b Hb. apply Hx. by right.
  - unfold free_frame. rewrite (proj2 (Z.ltb_ge _ _)) by done. split; try done.
    + intros g Hg. specialize (Hle' g Hg). case_decide; lia.
    + intros b Hb. apply Hx. by right.
Qed.

Lemma counts_share fa T M X k e :
  counts fa T M X -> M !! k = Some e ->
  (addr e / 4096 < 65536 -> rd (refcount fa) (addr e / 4096) < u16_max) ->
  counts (inc_refcount fa (addr e)) T M (addr e :: X).
Proof.
  intros C Hk Hrc. pose proof C as [W Hle Ht Hc Hx].
  pose proof (aligned_addr e) as Ha. destruct (aligned_frame _ Ha) as [_ Ha0].
  assert (forall b, b ∈ addr e :: X -> aligned b) as Hx'
    by (intros b [->|Hb]%elem_of_cons; [done|by apply Hx]).
  destruct (Z.ltb_spec (addr e / 4096) 65536) as [Hlt|Hge].
  2: { unfold inc_refcount. rewrite (proj2 (Z.ltb_ge _ _)) by done. split; try done.
       intros g Hg. specialize (Hle g Hg). rewrite x_uses_cons, decide_False by lia. lia. }
  specialize (Hrc Hlt). pose proof (m_uses_in k e Hk) as Hm.
  assert (rd (refcount fa) (addr e / 4096) <> 0) as Hn.
  { apply (referenced_not_free C); [lia|].
    pose proof (t_uses_nonneg (T := T) (addr e / 4096)).
    pose proof (x_uses_nonneg X (addr e / 4096)). lia. }
  pose proof (wf_range _ W (addr e / 4096)).
  destruct (inc_refcount_spec fa _ (addr e) W eq_refl ltac:(lia)) as (W' & Hr & _ & _).
  split; [done|..|done|done].
  - intros g Hg. specialize (Hle g Hg). rewrite x_uses_cons, Hr, rd_wr. case_decide; subst; lia.
  - intros k' t Hk'. destruct (Ht k' t Hk') as (? & ? & Hrct). split_and!; [done|done|].
    rewrite Hr, rd_wr. case_decide as E; [|done]. exfalso.
    destruct (table_private C k' t Hk') as [Hp _]. rewrite <- E in Hp. lia.
Qed.

(** A held reference becomes a leaf, and back. *)
Lemma counts_leaf fa T M X k a e :
  counts fa T M (a :: X) -> M !! k = None -> canon e -> addr e = a ->
  counts fa T (<[k := e]> M) X.
Proof.
  intros C Hk He Ha. pose proof C as [W Hle Ht Hc Hx]. split; [done| |done| |].
  - intros g Hg. specialize (Hle g Hg). unfold m_uses.
    rewrite count_insert by done. unfold one. cbn [snd]. rewrite Ha.
    rewrite x_uses_cons in Hle. unfold m_uses in Hle. lia.
  - intros k' e' [[<- <-]|[_ Hk']]%lookup_insert_Some; [done|eauto].
  - intros b Hb. apply Hx. by right.
Qed.

Lemma counts_unleaf fa T M X k e :
  counts fa T M X -> M !! k = Some e -> counts fa T (delete k M) (addr e :: X).
Proof.
  intros C Hk. pose proof C as [W Hle Ht Hc Hx]. split; [done| |done| |].
  - intros g Hg. specialize (Hle g Hg). unfold m_uses in *.
    rewrite (count_delete _ M k e) by done. unfold one. cbn [snd].
    rewrite x_uses_cons. lia.
  - intros k' e' [_ Hk']%lookup_delete_Some. eauto.
  - intros b [->|Hb]%elem_of_cons; [apply aligned_addr|by apply Hx].
Qed.

(** Flags may change under the same frame. *)
Lemma counts_reflag fa T M X k e e' :
  counts fa T M X -> M !! k = Some e -> canon e' -> addr e' = addr e ->
  counts fa T (<[k := e']> M) X.
Proof.
  intros C Hk He Ha. apply (counts_unleaf _ _ _ _ k e) in C; [|done].
  rewrite <- insert_delete_eq. eapply counts_leaf; [done|apply lookup_delete_eq|done|done].
Qed.

(** A held reference to a fresh frame becomes a table. *)
Lemma counts_table fa T M X k t :
  counts fa T M (t :: X) -> T !! k = None -> t / 4096 < 65536 ->
  rd (refcount fa) (t / 4096) = 1 -> counts fa (<[k := t]> T) M X.
Proof.
  intros C Hk Hlt Hrc. pose proof C as [W Hle Ht Hc Hx]. split; [done|..|done|].
  - intros g Hg. specialize (Hle g Hg). unfold t_uses in *.
    rewrite count_insert by done. unfold one. cbn [snd]. rewrite x_uses_cons in Hle. lia.
  - intros k' t' [[<- <-]|[_ Hk']]%lookup_insert_Some; [|eauto].
    split_and!; [apply Hx; left|done|done].
  - intros b Hb. apply Hx. by right.
Qed.
End Moves.

(** ** Memory *)

(** Words of the page at [t]. *)
Definition page_slots (t : Z) : list Z := (fun i => t + 8 * i) <$> seqZ 0 512.

Lemma rd_fold_store (m : gmap Z Z) (l : list Z) (dst : Z -> Z) (v : Z -> Z) a :
  (forall i j, i ∈ l -> j ∈ l -> dst i = dst j -> i = j) ->
  rd (fold_left (fun m i => wr m (dst i) (v i)) l m) a =
  match list_find (fun i => dst i = a) l with Some (_, i) => v i | None => rd m a end.
Proof.
  revert m. induction l as [|i l IH]; intros m Hinj; cbn [fold_left list_find]; [done|].
  rewrite IH by (intros; apply Hinj; set_solver). rewrite rd_wr.
  destruct (list_find (fun i => dst i = a) l) as [[n j]|] eqn:Hf; cbn.
  - pose proof Hf as (Hj & Hd & _)%list_find_Some. case_decide as E; [|done]. cbn.
    rewrite (Hinj i j); [done|left|right; by eapply list_elem_of_lookup_2|congruence].
  - by case_decide.
Qed.

(** [a] is one of the words [lo], ..., [lo + n - 1] of the page at [t]. *)
Definition in_words (t lo n a : Z) : bool :=
  (t + 8 * lo <=? a) && (a <? t + 8 * (lo + n)) && ((a - t) mod 8 =? 0).

Lemma in_words_true t lo n a :
  in_words t lo n a = true <-> exists i, lo <= i < lo + n /\ a = t + 8 * i.
Proof.
  unfold in_words. rewrite !andb_true_iff, Z.leb_le, Z.ltb_lt, Z.eqb_eq. split.
  - intros [[H1 H2] H3]. pose proof (Z.div_mod (a - t) 8 ltac:(lia)).
    exists ((a - t) / 8). lia.
  - intros (i & Hi & ->). split; [lia|]. replace (t + 8 * i - t) with (i * 8) by lia.
    by rewrite Z.mod_mul.
Qed.

Lemma in_words_false t lo n a :
  ~ (exists i, lo <= i < lo + n /\ a = t + 8 * i) -> in_words t lo n a = false.
Proof. rewrite <- in_words_true. by destruct (in_words t lo n a). Qed.

Lemma rd_page_write (m : gmap Z Z) (t a : Z) (v : Z -> Z) lo n :
  rd (fold_left (fun m i => wr m (t + 8 * i) (v i)) (seqZ lo n) m) a =
  if in_words t lo n a then v ((a - t) / 8) else rd m a.
Proof.
  rewrite rd_fold_store by (intros; lia).
  destruct (list_find _ _) as [[j i]|] eqn:Hf.
  - apply list_find_Some in Hf as (Hj & <- & _).
    apply list_elem_of_lookup_2, elem_of_seqZ in Hj.
    rewrite (proj2 (in_words_true _ _ _ _)) by (exists i; lia).
    f_equal. replace (t + 8 * i - t) with (i * 8) by lia. by rewrite Z.div_mul.
  - rewrite in_words_false; [done|]. intros (i & Hi & ->).
    apply list_find_None in Hf. rewrite Forall_forall in Hf.
    by apply (Hf i); [apply elem_of_seqZ|].
Qed.

Lemma zero_words_in m t i : 0 <= i < 512 -> rd (zero_words m t) (t + 8 * i) = 0.
Proof.
  intros Hi. unfold zero_words. rewrite (rd_page_write m t _ (fun _ => 0)).
  by rewrite (proj2 (in_words_true _ _ _ _)) by (exists i; lia).
Qed.

Lemma zero_words_out m t a :
  aligned t -> a / 4096 <> t / 4096 -> rd (zero_words m t) a = rd m a.
Proof.
  intros Ht Ha. unfold zero_words. rewrite (rd_page_write m t _ (fun _ => 0)).
  rewrite in_words_false; [done|]. intros (i & Hi & ->). apply Ha. apply slot_frame; [done|lia].
Qed.

Lemma copy_words_in m src dst i :
  0 <= i < 512 -> rd (copy_words m src dst) (dst + 8 * i) = rd m (src + 8 * i).
Proof.
  intros Hi. unfold copy_words. rewrite (rd_page_write m dst _ (fun i => rd m (src + 8 * i))).
  rewrite (proj2 (in_words_true _ _ _ _)) by (exists i; lia).
  replace (dst + 8 * i - dst) with (i * 8) by lia. by rewrite Z.div_mul.
Qed.

Lemma copy_words_out m src dst a :
  aligned dst -> a / 4096 <> dst / 4096 -> rd (copy_words m src dst) a = rd m a.
Proof.
  intros Ht Ha. unfold copy_words. rewrite (rd_page_write m dst _ (fun i => rd m (src + 8 * i))).
  rewrite in_words_false; [done|]. intros (i & Hi & ->). apply Ha. apply slot_frame; [done|lia].
Qed.

(** ** Updates of the tree *)

Section Tree.
Context {fa : PhysicalFrameAllocator} {T M : tmap} {X : list Z} {m : gmap Z Z}.
Context (C : counts fa T M X) (Tr : tree m T M).

Lemma table_aligned k t : T !! k = Some t -> aligned t.
Proof. intros Hk. by destruct (ct_table _ _ _ _ C k t Hk). Qed.

Lemma slot_ne r1 p1 t1 i1 r2 p2 t2 i2 :
  T !! (r1, p1) = Some t1 -> T !! (r2, p2) = Some t2 -> 0 <= i1 < 512 -> 0 <= i2 < 512 ->
  t1 + 8 * i1 = t2 + 8 * i2 -> (r1, p1 ++ [i1]) = (r2, p2 ++ [i2]).
Proof.
  intros H1 H2 Hi1 Hi2 E.
  destruct (slot_inj t1 i1 t2 i2) as [-> ->]; eauto using table_aligned.
  assert ((r1, p1) = (r2, p2)) as [= -> ->] by (by eapply (table_inj C)). done.
Qed.

(** What the tables do not contain may change. *)
Lemma tree_frame m' :
  (forall k t a, T !! k = Some t -> a / 4096 = t / 4096 -> rd m' a = rd m a) -> tree m' T M.
Proof.
  intros Heq. destruct Tr as [R1 R2 R3 R4 R5 R6]. split; try done.
  - intros r p t i Ht Hl [Hi ?]. rewrite (Heq (r, p) t); [apply R2; done|done|].
    apply slot_frame; [by eapply table_aligned|done].
  - intros r p t i Ht Hl [Hi ?]. rewrite (Heq (r, p) t); [apply R3; done|done|].
    apply slot_frame; [by eapply table_aligned|done].
  - intros r p t i Ht Hl [Hi ?]. rewrite (Heq (r, p) t); [by eapply R6|done|].
    apply slot_frame; [by eapply table_aligned|done].
Qed.

(** One leaf slot is written. *)
Lemma tree_leaf_write r p t i e :
  T !! (r, p) = Some t -> length p = 3%nat -> idx_ok p i ->
  tree (wr m (t + 8 * i) e) T
    (match leaf e with Some _ => <[(r, p ++ [i]) := e]> M | None => delete (r, p ++ [i]) M end).
Proof.
  intros Ht Hl Hi. destruct Tr as [R1 R2 R3 R4 R5 R6].
  assert (forall r' p' t' i', T !! (r', p') = Some t' -> idx_ok p' i' ->
    (r', p' ++ [i']) <> (r, p ++ [i]) -> rd (wr m (t + 8 * i) e) (t' + 8 * i') = rd m (t' + 8 * i'))
    as Hne.
  { intros r' p' t' i' Ht' Hi' Hk. apply rd_wr_ne. intros E. apply Hk.
    symmetry. eapply slot_ne; [exact Ht|exact Ht'|apply Hi|apply Hi'|done]. }
  split; try done.
  - intros r' p' t' i' Ht' Hl' Hi'. rewrite (Hne r' p'); [by apply R2|done|done|].
    intros [= -> E]. apply (f_equal length) in E. rewrite !length_app in E. cbn in E. lia.
  - intros r' p' t' i' Ht' Hl' Hi'.
    destruct (decide ((r', p' ++ [i']) = (r, p ++ [i]))) as [E|E].
    + injection E as -> E. apply app_inj_tail in E as [-> ->]. rewrite Ht in Ht'. injection Ht' as <-.
      rewrite rd_wr_eq. unfold leaf. destruct (is_present e) eqn:He.
      * by rewrite lookup_insert_eq.
      * by rewrite lookup_delete_eq.
    + rewrite (Hne r' p') by done. rewrite <- (R3 r' p' t' i') by done.
      unfold leaf. destruct (is_present e); [by rewrite lookup_insert_ne|by rewrite lookup_delete_ne].
  - intros r' q e'. unfold leaf. destruct (is_present e).
    + intros [[[= <- <-] _]|[_ H]]%lookup_insert_Some; eauto 10.
    + intros [_ H]%lookup_delete_Some. eauto.
  - intros r' p' t' i' Ht' Hl' Hi'. rewrite (Hne r' p'); [by eapply R6|done|done|].
    intros [= -> E]. apply (f_equal length) in E. rewrite !length_app in E. cbn in E. lia.
Qed.

(** A table entry is rewritten to point to the same table. *)
Lemma tree_reflag r p t i e :
  T !! (r, p) = Some t -> (length p < 3)%nat -> idx_ok p i ->
  sub_table e = sub_table (rd m (t + 8 * i)) -> Z.testbit e 7 = false ->
  tree (wr m (t + 8 * i) e) T M.
Proof.
  intros Ht Hl Hi He He7. destruct Tr as [R1 R2 R3 R4 R5 R6].
  split; try done.
  - intros r' p' t' i' Ht' Hl' Hi'. rewrite (R2 r' p' t' i') by done. rewrite rd_wr.
    case_decide as E; [|done]. by rewrite He, E.
  - intros r' p' t' i' Ht' Hl' Hi'. rewrite (R3 r' p' t' i') by done. rewrite rd_wr_ne; [done|].
    intros E. assert ((r, p ++ [i]) = (r', p' ++ [i'])) as [= -> E'].
    { eapply slot_ne; [exact Ht|exact Ht'|apply Hi|apply Hi'|done]. }
    apply (f_equal length) in E'. rewrite !length_app in E'. cbn in E'. lia.
  - intros r' p' t' i' Ht' Hl' Hi'. rewrite rd_wr. case_decide; [done|by eapply R6].
Qed.

(** A fresh zeroed page [t'] is hung below an empty slot. *)
Lemma tree_table r p t i t' m' :
  T !! (r, p) = Some t -> (length p < 3)%nat -> idx_ok p i -> T !! (r, p ++ [i]) = None ->
  aligned t' -> (forall k u, T !! k = Some u -> u / 4096 <> t' / 4096) ->
  sub_table (rd m' (t + 8 * i)) = Some t' -> Z.testbit (rd m' (t + 8 * i)) 7 = false ->
  (forall j, 0 <= j < 512 -> rd m' (t' + 8 * j) = 0) ->
  (forall k u a, T !! k = Some u -> a / 4096 = u / 4096 -> a <> t + 8 * i -> rd m' a = rd m a) ->
  tree m' (<[(r, p ++ [i]) := t']> T) M.
Proof.
  intros Ht Hl Hi Hnone Ha' Hfresh Hslot H7 Hzero Hsame. pose proof Tr as [R1 R2 R3 R4 R5 R6].
  assert (forall r' p' u i', T !! (r', p') = Some u -> idx_ok p' i' ->
     (r', p' ++ [i']) <> (r, p ++ [i]) -> rd m' (u + 8 * i') = rd m (u + 8 * i')) as Hne.
  { intros r' p' u i' Hu [Hi' ?] Hk. eapply Hsame; [exact Hu| |].
    - apply slot_frame; [by eapply table_aligned|done].
    - intros E. apply Hk. symmetry in E. symmetry.
      eapply slot_ne; [exact Ht|exact Hu|apply Hi|done|done]. }
  assert (forall j, T !! (r, (p ++ [i]) ++ [j]) = None) as Hchild.
  { intros j. destruct (T !! (r, (p ++ [i]) ++ [j])) eqn:E; [|done].
    apply R4 in E as (? & E & _). congruence. }
  assert (forall q, M !! (r, (p ++ [i]) ++ [q]) = None) as Hmchild.
  { intros j. destruct (M !! (r, (p ++ [i]) ++ [j])) eqn:E; [|done].
    apply R5 in E as (p' & i' & u & E & Hu & _). apply app_inj_tail in E as [<- _]. congruence. }
  assert (forall j, is_present (rd m' (t' + 8 * j)) = false \/ ~ 0 <= j < 512) as Hz.
  { intros j. destruct (decide (0 <= j < 512)); [left; by rewrite Hzero|by right]. }
  split.
  - intros r' u [[[= <- E] _]|[_ H]]%lookup_insert_Some; [by destruct p|by apply R1].
  - intros r' p' u i' [[[= <- <-] <-]|[Hk Hu]]%lookup_insert_Some Hl' Hi'.
    + rewrite lookup_insert_ne by (intros [= E]; apply (f_equal length) in E;
        rewrite !length_app in E; cbn in E; lia).
      rewrite Hchild. unfold sub_table. destruct (Hz i') as [->|Hn]; [done|]. by destruct Hi'.
    + destruct (decide ((r', p' ++ [i']) = (r, p ++ [i]))) as [E|E].
      * injection E as -> E. apply app_inj_tail in E as [-> ->].
        rewrite lookup_insert_eq. rewrite Ht in Hu. injection Hu as <-. done.
      * rewrite lookup_insert_ne by done. rewrite (Hne r' p') by done. by apply R2.
  - intros r' p' u i' [[[= <- <-] <-]|[Hk Hu]]%lookup_insert_Some Hl' Hi'.
    + rewrite Hmchild. unfold leaf. destruct (Hz i') as [->|Hn]; [done|]. by destruct Hi'.
    + rewrite (Hne r' p'); [by apply R3|done|done|]. intros [= -> E].
      apply (f_equal length) in E. rewrite !length_app in E. cbn in E. lia.
  - intros r' p' i' u [[[= <- E] <-]|[Hk Hu]]%lookup_insert_Some.
    + apply app_inj_tail in E as [<- <-]. exists t. split_and!; try done.
      rewrite lookup_insert_ne; [done|]. intros [= E].
      apply (f_equal length) in E. rewrite length_app in E. cbn in E. lia.
    + apply R4 in Hu as (v & Hv & ? & ?). exists v. split_and!; try done.
      rewrite lookup_insert_ne; [done|]. intros E. rewrite <- E in Hv. congruence.
  - intros r' q e (p' & i' & u & -> & Hu & ? & ?)%R5. exists p', i', u. split_and!; try done.
    rewrite lookup_insert_ne; [done|]. intros E. rewrite <- E in Hu. congruence.
  - intros r' p' u i' [[[= <- <-] <-]|[Hk Hu]]%lookup_insert_Some Hl' Hi'.
    + rewrite Hzero by apply Hi'. done.
    + destruct (decide ((r', p' ++ [i']) = (r, p ++ [i]))) as [E|E].
      * injection E as -> E. apply app_inj_tail in E as [-> ->].
        rewrite Ht in Hu. by injection Hu as <-.
      * rewrite (Hne r' p') by done. by eapply R6.
Qed.
End Tree.

(** ** Program states *)

(** Everything but memory and the frame allocator. *)
Definition conf_of (k : kernel) : kernel := with_mem (with_fa k new) ∅.

(** A frame in use that nobody counts references to. *)
Definition reserved (fa : PhysicalFrameAllocator) (f : Z) : Prop :=
  is_free fa f = false /\ rd (refcount fa) f = 0.

(** The kernel's own root table is such a frame. *)
Definition kernel_root_kept (c : kernel) (fa : PhysicalFrameAllocator) : Prop :=
  match page_table_manager c with
  | Some ptm => reserved fa (l4_table_phys ptm / 4096)
  | None => True
  end.

Lemma reserved_alloc fa a fa' f :
  wf fa -> allocate_frame fa = (Some a, fa') -> reserved fa f -> reserved fa' f.
Proof.
  intros W Ha [H1 H2]. apply allocate_frame_Some in Ha as (g & -> & A).
  assert (g <> f) as Hne by (intros ->; pose proof (al_free _ _ _ A); congruence).
  split.
  - by rewrite (al_bits _ _ _ A), H1.
  - by rewrite (al_refs _ _ _ A), rd_wr_ne.
Qed.

Lemma reserved_drop fa T M X a f :
  counts fa T M (a :: X) -> reserved fa f -> reserved (free_frame fa a) f.
Proof.
  intros C [H1 H2]. destruct (Z.ltb_spec (a / 4096) 65536) as [Hlt|Hge].
  - assert (rd (refcount fa) (a / 4096) <> 0) as Hn.
    { apply (referenced_not_free C).
      - destruct (aligned_frame a (ct_x _ _ _ _ C a ltac:(left))). lia.
      - pose proof (t_uses_nonneg (T := T) (a / 4096)). pose proof (m_uses_nonneg (M := M) (a / 4096)).
        pose proof (x_uses_in (a :: X) a ltac:(left)). lia. }
    assert (a / 4096 <> f) as Hne by congruence.
    destruct (free_frame_spec fa _ a (ct_wf _ _ _ _ C) eq_refl Hn) as (_ & Hr & _ & Hb).
    split; [rewrite Hb, H1|by rewrite Hr, rd_wr_ne].
    by rewrite bool_decide_false by congruence.
  - unfold free_frame. by rewrite (proj2 (Z.ltb_ge _ _)).
Qed.

Lemma reserved_share fa T M X k e f :
  counts fa T M X -> M !! k = Some e -> reserved fa f -> reserved (inc_refcount fa (addr e)) f.
Proof.
  intros C Hk [H1 H2]. unfold inc_refcount. destruct (Z.ltb_spec (addr e / 4096) 65536) as [Hlt|Hge]; [|done].
  split; [done|]. cbn. rewrite rd_wr_ne; [done|]. intros <-.
  assert (rd (refcount fa) (addr e / 4096) <> 0); [|done].
  apply (referenced_not_free C).
  - destruct (aligned_frame _ (aligned_addr e)). lia.
  - pose proof (t_uses_nonneg (T := T) (addr e / 4096)). pose proof (m_uses_in k e Hk).
    pose proof (x_uses_nonneg X (addr e / 4096)). lia.
Qed.

Lemma kernel_root_alloc c fa a fa' :
  wf fa -> allocate_frame fa = (Some a, fa') -> kernel_root_kept c fa -> kernel_root_kept c fa'.
Proof. unfold kernel_root_kept. case_match; [apply reserved_alloc|done]. Qed.
Lemma kernel_root_drop c fa T M X a :
  counts fa T M (a :: X) -> kernel_root_kept c fa -> kernel_root_kept c (free_frame fa a).
Proof. unfold kernel_root_kept. case_match; [apply reserved_drop|done]. Qed.
Lemma kernel_root_share c fa T M X k e :
  counts fa T M X -> M !! k = Some e -> kernel_root_kept c fa ->
  kernel_root_kept c (inc_refcount fa (addr e)).
Proof. unfold kernel_root_kept. case_match; [apply reserved_share|done]. Qed.

(** The kernel state [k] represents [T], [M] and [X]; the frames in [D] are
    referenced data frames whose words are given by [v]. *)
Record st (c : kernel) (T M : tmap) (X : list Z) (D : Z -> Prop) (v : Z -> Z) (k : kernel) : Prop := {
  st_conf : conf_of k = c;
  st_tree : tree (mem k) T M;
  st_counts : counts (frame_allocator k) T M X;
  st_prot f : D f -> 0 <= f < 65536 /\ 1 <= m_uses M f + x_uses X f;
  st_data a : D (a / 4096) -> rd (mem k) a = v a;
  st_root : kernel_root_kept c (frame_allocator k);
}.

(** More tables, the same roots. *)
Definition ext (T T' : tmap) : Prop := T ⊆ T' /\ forall r, T' !! (r, []) = T !! (r, []).

Lemma ext_refl T : ext T T.
Proof. done. Qed.
Lemma ext_trans T1 T2 T3 : ext T1 T2 -> ext T2 T3 -> ext T1 T3.
Proof. intros [H1 H2] [H3 H4]. split; [by transitivity T2|]. intros r. by rewrite H4, H2. Qed.
Lemma ext_insert T r p i t : T !! (r, p ++ [i]) = None -> ext T (<[(r, p ++ [i]) := t]> T).
Proof.
  intros Hn. split; [by apply insert_subseteq|]. intros r'. rewrite lookup_insert_ne; [done|].
  intros [= _ E]. by destruct p.
Qed.
Lemma ext_lookup T T' k t : ext T T' -> T !! k = Some t -> T' !! k = Some t.
Proof. intros [H _] Hk. by eapply lookup_weaken. Qed.

Section States.
Context {c : kernel} {T M : tmap} {X : list Z} {D : Z -> Prop} {v : Z -> Z}.
Implicit Types (k : kernel).

Lemma table_not_data k key t : st c T M X D v k -> T !! key = Some t -> ~ D (t / 4096).
Proof.
  intros S Ht HD. destruct (table_private (st_counts _ _ _ _ _ _ _ S) key t Ht).
  apply (st_prot _ _ _ _ _ _ _ S) in HD. lia.
Qed.

Lemma st_leaf_slot k r p t i :
  st c T M X D v k -> T !! (r, p) = Some t -> idx_ok p i -> ~ D ((t + 8 * i) / 4096).
Proof.
  intros S Ht [Hi _]. rewrite slot_frame; [by eapply table_not_data| |done].
  by eapply (table_aligned (st_counts _ _ _ _ _ _ _ S)).
Qed.

(** A write into a table slot leaves the data as it was. *)
Lemma data_store k r p t i e a :
  st c T M X D v k -> T !! (r, p) = Some t -> idx_ok p i -> D (a / 4096) ->
  rd (wr (mem k) (t + 8 * i) e) a = v a.
Proof.
  intros S Ht Hi HD. rewrite rd_wr_ne; [by apply (st_data _ _ _ _ _ _ _ S)|].
  intros <-. by eapply st_leaf_slot.
Qed.

(** The allocated frame is new to everybody. *)
Lemma alloc_frame_spec k :
  st c T M X D v k ->
  (exists a k', alloc_frame (E := unit) k = Ret (Ok (Some a), k') /\
     (forall E, alloc_frame (E := E) k = Ret (Ok (Some a), k')) /\ mem k' = mem k /\
     st c T M (a :: X) D v k' /\ aligned a /\ 0 <= a / 4096 < 65536 /\
     t_uses T (a / 4096) + m_uses M (a / 4096) + x_uses X (a / 4096) = 0 /\
     rd (refcount (frame_allocator k')) (a / 4096) = 1) \/
  (forall E, alloc_frame (E := E) k = Ret (Ok None, k)).
Proof.
  intros S. destruct (allocate_frame (frame_allocator k)) as [[a|] fa'] eqn:Ha.
  - left. exists a, (with_fa k fa').
    destruct (counts_alloc _ _ _ _ _ _ (st_counts _ _ _ _ _ _ _ S) Ha) as (C' & Hal & Hr & Hz & H1).
    split; [unfold alloc_frame; by rewrite Ha|].
    split; [intros E; unfold alloc_frame; by rewrite Ha|].
    split; [done|]. split; [|done]. destruct S as [S1 S2 S3 S4 S5 S6]. split; cbn; try done.
    + intros f Hf. rewrite x_uses_cons. apply S4 in Hf. case_decide; lia.
    + by eapply kernel_root_alloc; [apply (ct_wf _ _ _ _ S3)|..].
  - right. intros E. unfold alloc_frame. rewrite Ha.
    apply allocate_frame_None in Ha as [-> _]. by destruct k.
Qed.

Lemma fresh_facts k a :
  st c T M X D v k -> t_uses T (a / 4096) + m_uses M (a / 4096) + x_uses X (a / 4096) = 0 ->
  ~ D (a / 4096) /\ (forall key u, T !! key = Some u -> u / 4096 <> a / 4096).
Proof.
  intros S Hz. pose proof (t_uses_nonneg (T := T) (a / 4096)).
  pose proof (m_uses_nonneg (M := M) (a / 4096)). pose proof (x_uses_nonneg X (a / 4096)).
  split.
  - intros HD. apply (st_prot _ _ _ _ _ _ _ S) in HD. lia.
  - intros key u Hu E. pose proof (t_uses_in key u Hu) as H'. rewrite E in H'. lia.
Qed.

(** Hanging the fresh page [t'], whatever the order of the two writes. *)
Lemma st_hang k k1 r p t i t' m' :
  st c T M X D v k -> st c T M (t' :: X) D v k1 -> mem k1 = mem k ->
  aligned t' -> 0 <= t' / 4096 < 65536 ->
  t_uses T (t' / 4096) + m_uses M (t' / 4096) + x_uses X (t' / 4096) = 0 ->
  rd (refcount (frame_allocator k1)) (t' / 4096) = 1 ->
  T !! (r, p) = Some t -> (length p < 3)%nat -> idx_ok p i -> T !! (r, p ++ [i]) = None ->
  sub_table (rd m' (t + 8 * i)) = Some t' -> Z.testbit (rd m' (t + 8 * i)) 7 = false ->
  (forall j, 0 <= j < 512 -> rd m' (t' + 8 * j) = 0) ->
  (forall a, a / 4096 <> t' / 4096 -> a <> t + 8 * i -> rd m' a = rd (mem k) a) ->
  let T' := <[(r, p ++ [i]) := t']> T in
  ext T T' /\ T' !! (r, p ++ [i]) = Some t' /\ st c T' M X D v (with_mem k1 m').
Proof.
  intros S S1 Hm Hal Hr Hz H1 Ht Hl Hi Hn Hslot H7 Hzero Hsame T'.
  destruct (fresh_facts k t' S Hz) as [HnD HnT].
  split; [by apply ext_insert|]. split; [apply lookup_insert_eq|].
  pose proof S1 as [C1 C2 C3 C4 C5 C6]. split; cbn.
  - done.
  - rewrite <- Hm in Hsame. eapply (tree_table C3 C2); try done.
    intros key u a Hu Ha Hne. apply Hsame; [|done]. rewrite Ha. by eapply HnT.
  - apply counts_table; try done. lia.
  - intros f Hf. apply (st_prot _ _ _ _ _ _ _ S) in Hf. done.
  - intros a HD. rewrite Hsame.
    + by apply (st_data _ _ _ _ _ _ _ S).
    + intros E. apply HnD. by rewrite <- E.
    + intros ->. revert HD. by eapply st_leaf_slot.
  - done.
Qed.

(** A leaf slot receives a present entry. *)
Lemma st_leaf_write X' k r p t i e M' :
  st c T M X' D v k -> T !! (r, p) = Some t -> length p = 3%nat -> idx_ok p i ->
  is_present e = true -> M' = <[(r, p ++ [i]) := e]> M ->
  counts (frame_allocator k) T M' X ->
  (forall f, D f -> m_uses M f + x_uses X' f <= m_uses M' f + x_uses X f) ->
  st c T M' X D v (with_mem k (wr (mem k) (t + 8 * i) e)).
Proof.
  intros S Ht Hl Hi He -> C HD. pose proof S as [S1 S2 S3 S4 S5 S6]. split; cbn; try done.
  - pose proof (tree_leaf_write S3 S2 r p t i e Ht Hl Hi) as H. unfold leaf in H.
    by rewrite He in H.
  - intros f Hf. specialize (HD f Hf). specialize (S4 f Hf). lia.
  - intros a Ha. rewrite rd_wr_ne; [by apply S5|]. intros <-. revert Ha.
    rewrite slot_frame; [|by eapply (table_aligned S3)|apply Hi].
    intros Ha. apply S4 in Ha. destruct (table_private S3 _ _ Ht). lia.
Qed.

(** *** One level down *)

(** What both variants of the walk promise. *)
Definition descends (m : prog kernel string Z) (r : Z) (p : list Z) (i : Z) : Prop :=
  triple (st c T M X D v) m (fun res k' =>
    match res with
    | Ok t' => exists T', ext T T' /\ T' !! (r, p ++ [i]) = Some t' /\ st c T' M X D v k'
    | Err _ => st c T M X D v k'
    end).

Section Level.
Context (r : Z) (p : list Z) (t i pf : Z) (e : string).
Context (Ht : T !! (r, p) = Some t) (Hl : (length p < 3)%nat) (Hi : idx_ok p i).
Context (Hpf : Z.testbit pf 0 = true) (Hpf7 : Z.testbit pf 7 = false).

Lemma sub_table_set a : aligned a -> sub_table (set a pf) = Some a.
Proof.
  intros Ha. unfold sub_table. by rewrite is_present_set, Hpf, addr_set, addr_aligned.
Qed.

(** The branch that installs a fresh table. *)
Lemma hang_spec k :
  st c T M X D v k -> T !! (r, p ++ [i]) = None ->
  exists res k',
    (let? t' := alloc_or e in
     let? _ := store (t + 8 * i) (set t' pf) in
     let? _ := zero_page t' in
     ok t') k = Ret (res, k') /\
    match res with
    | Ok t' => exists T', ext T T' /\ T' !! (r, p ++ [i]) = Some t' /\ st c T' M X D v k'
    | Err _ => st c T M X D v k'
    end.
Proof.
  intros S Hn. unfold pbind, alloc_or, store, zero_page, modify, pbind.
  destruct (alloc_frame_spec k S) as [(a & k1 & _ & Ea & Hm & S1 & Hal & Hr & Hz & H1)|Ea];
    rewrite Ea; cbn.
  2: { eauto. }
  exists (Ok a). eexists. split; [reflexivity|].
  assert (rd (zero_words (wr (mem k) (t + 8 * i) (set a pf)) a) (t + 8 * i) = set a pf) as Hslot.
  { rewrite zero_words_out, rd_wr_eq; [done|done|].
    rewrite slot_frame; [|by eapply (table_aligned (st_counts _ _ _ _ _ _ _ S))|apply Hi].
    by eapply (fresh_facts k a S Hz). }
  eexists. eapply (st_hang k k1); try done; cbn -[Z.testbit]; rewrite Hm.
  - rewrite Hslot. by apply sub_table_set.
  - rewrite Hslot. by rewrite set_addr_testbit_low by lia.
  - intros j Hj. by apply zero_words_in.
  - intros b Hb Hne. rewrite zero_words_out, rd_wr_ne by done. done.
Qed.

Lemma descend_spec : descends (descend t i pf e) r p i.
Proof.
  intros k S. unfold descend. unfold pbind at 1, load at 1.
  pose proof (tr_table _ _ _ (st_tree _ _ _ _ _ _ _ S) r p t i Ht Hl Hi) as Hsub.
  destruct (is_present (rd (mem k) (t + 8 * i))) eqn:Hp.
  - unfold pbind, store, modify, load, ok. cbn. rewrite rd_wr_eq, addr_set, addr_idem.
    exists (Ok (addr (rd (mem k) (t + 8 * i)))). eexists. split; [reflexivity|].
    unfold sub_table in Hsub. rewrite Hp in Hsub.
    exists T. split; [apply ext_refl|]. split; [done|].
    pose proof S as [S1 S2 S3 S4 S5 S6]. split; cbn; try done.
    + apply (tree_reflag S3 S2 r p); try done.
      * unfold sub_table. rewrite is_present_set, addr_set, addr_idem, Hp. unfold merge.
        by rewrite Z.lor_spec, Hpf, orb_true_r.
      * rewrite set_addr_testbit_low by lia. unfold merge, flags.
        by rewrite Z.lor_spec, Z.land_spec, Hpf7, (tr_small _ _ _ S2 r p t i Ht Hl Hi).
    + intros a HD. by eapply data_store.
  - apply hang_spec; [done|]. rewrite Hsub. unfold sub_table. by rewrite Hp.
Qed.

Lemma descend_plain_spec : descends (descend_plain t i pf e) r p i.
Proof.
  intros k S. unfold descend_plain. unfold pbind at 1, load at 1.
  pose proof (tr_table _ _ _ (st_tree _ _ _ _ _ _ _ S) r p t i Ht Hl Hi) as Hsub.
  destruct (is_present (rd (mem k) (t + 8 * i))) eqn:Hp.
  - exists (Ok (addr (rd (mem k) (t + 8 * i)))), k. split; [done|].
    unfold sub_table in Hsub. rewrite Hp in Hsub. exists T. split_and!; done || apply ext_refl.
  - apply hang_spec; [done|]. rewrite Hsub. unfold sub_table. by rewrite Hp.
Qed.
End Level.
End States.
#[global] Arguments descends : clear implicits.

(** ** Virtual addresses *)

Definition user_addr (virt : Z) : Prop := 0 <= virt < 2 ^ 47.

Lemma land511 x : Z.land x 0x1FF = x mod 512.
Proof. change 0x1FF with (Z.ones 9). by rewrite Z.land_ones by lia. Qed.

Lemma idx9 x : 0 <= Z.land x 0x1FF < 512.
Proof. rewrite land511. apply Z.mod_pos_bound. lia. Qed.

Lemma l4i_user virt : user_addr virt -> idx_ok [] (l4i virt).
Proof.
  intros [H1 H2]. split; [apply idx9|]. intros _. unfold l4i. rewrite land511.
  rewrite Z.shiftr_div_pow2 by lia.
  assert (0 <= virt / 2 ^ 39 < 256) by (split; [apply Z.div_pos|apply Z.div_lt_upper_bound]; lia).
  rewrite Z.mod_small; lia.
Qed.

Lemma idx_ok_deep x p i : idx_ok (x :: p) (Z.land i 0x1FF).
Proof. split; [apply idx9|done]. Qed.

(** Pages and paths correspond. *)
Lemma path_page v1 v2 :
  user_addr v1 -> user_addr v2 -> path v1 = path v2 -> v1 / 4096 = v2 / 4096.
Proof.
  unfold user_addr, path, l4i, l3i, l2i, l1i. intros H1 H2 E.
  rewrite !land511, !Z.shiftr_div_pow2 in E by lia.
  injection E as E4 E3 E2 E1.
  assert (forall x, 0 <= x < 2 ^ 47 -> x / 4096 =
    ((x / 2 ^ 39) mod 512) * 2 ^ 27 + ((x / 2 ^ 30) mod 512) * 2 ^ 18 +
    ((x / 2 ^ 21) mod 512) * 2 ^ 9 + (x / 2 ^ 12) mod 512) as Hx.
  { intros x Hx. change (2 ^ 39) with (2 ^ 30 * 512). change (2 ^ 30) with (2 ^ 21 * 512).
    change (2 ^ 21) with (2 ^ 12 * 512). change (2 ^ 12) with 4096.
    rewrite <- !Z.div_div by lia. set (q := x / 4096).
    pose proof (Z.div_mod q 512 ltac:(lia)). pose proof (Z.div_mod (q / 512) 512 ltac:(lia)).
    pose proof (Z.div_mod (q / 512 / 512) 512 ltac:(lia)).
    assert (0 <= q / 512 / 512 / 512 < 512) as Hs.
    { split; [repeat apply Z.div_pos; lia|].
      repeat (apply Z.div_lt_upper_bound; [lia|]). change (2 ^ 47) with 140737488355328 in Hx. lia. }
    rewrite (Z.mod_small (q / 512 / 512 / 512)) by done.
    change (2 ^ 27) with (512 * 512 * 512). change (2 ^ 18) with (512 * 512).
    change (2 ^ 9) with 512. lia. }
  rewrite (Hx v1), (Hx v2) by done. by rewrite E4, E3, E2, E1.
Qed.

Lemma page_path v1 v2 : v1 / 4096 = v2 / 4096 -> path v1 = path v2.
Proof.
  intros E. unfold path, l4i, l3i, l2i, l1i. rewrite !Z.shiftr_div_pow2 by lia.
  change (2 ^ 39) with (4096 * 2 ^ 27). change (2 ^ 30) with (4096 * 2 ^ 18).
  change (2 ^ 21) with (4096 * 2 ^ 9). change (2 ^ 12) with 4096.
  rewrite <- !Z.div_div by lia. by rewrite E.
Qed.

(** The leaf entry the hardware walk finds for [virt] below [root]. *)
Definition walk (m : gmap Z Z) (root virt : Z) : option Z :=
  t3 ← sub_table (rd m (root + 8 * l4i virt));
  t2 ← sub_table (rd m (t3 + 8 * l3i virt));
  t1 ← sub_table (rd m (t2 + 8 * l2i virt));
  leaf (rd m (t1 + 8 * l1i virt)).

Lemma tree_walk m T M r virt :
  tree m T M -> T !! (r, []) = Some r -> user_addr virt -> walk m r virt = M !! (r, path virt).
Proof.
  intros Tr Hr Hv. unfold walk, path.
  pose proof (tr_table _ _ _ Tr r [] r (l4i virt) Hr ltac:(cbn; lia) (l4i_user virt Hv)) as H3.
  cbn [app] in H3. destruct (sub_table (rd m (r + 8 * l4i virt))) as [t3|] eqn:E3; cbn.
  2: { destruct (M !! _) eqn:E; [|done].
       apply (tr_mclosed _ _ _ Tr) in E as (p & i & t & E & Ht & Hl & _).
       apply (app_inj_tail [_; _; _]) in E as [<- _].
       apply (tr_tclosed _ _ _ Tr r [_; _]) in Ht as (? & Ht & _).
       apply (tr_tclosed _ _ _ Tr r [_]) in Ht as (? & Ht & _). congruence. }
  pose proof (tr_table _ _ _ Tr r [_] t3 (l3i virt) H3 ltac:(cbn; lia) (idx_ok_deep _ _ _)) as H2.
  cbn [app] in H2. destruct (sub_table (rd m (t3 + 8 * l3i virt))) as [t2|] eqn:E2; cbn.
  2: { destruct (M !! _) eqn:E; [|done].
       apply (tr_mclosed _ _ _ Tr) in E as (p & i & t & E & Ht & Hl & _).
       apply (app_inj_tail [_; _; _]) in E as [<- _].
       apply (tr_tclosed _ _ _ Tr r [_; _]) in Ht as (? & Ht & _). congruence. }
  pose proof (tr_table _ _ _ Tr r [_; _] t2 (l2i virt) H2 ltac:(cbn; lia) (idx_ok_deep _ _ _)) as H1.
  cbn [app] in H1. destruct (sub_table (rd m (t2 + 8 * l2i virt))) as [t1|] eqn:E1; cbn.
  2: { destruct (M !! _) eqn:E; [|done].
       apply (tr_mclosed _ _ _ Tr) in E as (p & i & t & E & Ht & Hl & _).
       apply (app_inj_tail [_; _; _]) in E as [<- _]. congruence. }
  symmetry. apply (tr_leaf _ _ _ Tr r [_; _; _] t1 (l1i virt) H1 eq_refl (idx_ok_deep _ _ _)).
Qed.

End aspace.
