(* ===== verification/AddressOps.v ===== *)
(** * The page-table operations, specified

    Each operation of PageTable.v against the abstract address spaces of
    AddressSpace.v: mapping and unmapping one page or a region, creating an
    address space, resolving a copy-on-write fault, forking. *)

From stdpp Require Import base list gmap strings list_numbers.
From Stdlib Require Import ZArith Lia.
From S2P Require Import Prelude FrameAlloc PageTable AddressSpace.

Local Open Scope Z_scope.

Module aspace_ops.
Import pte frames paging aspace.

(** ** Entries *)

Lemma canon_set a fl : Z.testbit fl 0 = true -> canon (set a fl).
Proof.
  intros Hp. split; [|by rewrite is_present_set].
  rewrite addr_set. unfold set at 1, addr. f_equal. bits n Hn.
  rewrite !Z.land_spec, set_testbit, mask12_testbit by done.
  destruct (Z.ltb_spec n 12), (Z.leb_spec 12 n), (Z.testbit a n), (Z.testbit fl n);
    try done; try lia; by rewrite ?andb_false_r, ?andb_true_r.
Qed.

(** [frame | (flags & 0xFFF)] is [set frame flags] for a frame address. *)
Lemma lor_is_set a fl : aligned a -> Z.lor a (Z.land fl 0xFFF) = set a fl.
Proof. intros Ha. unfold set. change (Z.land a ADDR_MASK) with (addr a). by rewrite addr_aligned. Qed.

Lemma set_flags a fl : set a (Z.land fl 0xFFF) = set a fl.
Proof. unfold set. by rewrite <- Z.land_assoc, Z.land_diag. Qed.

Lemma canon_is_set e : canon e -> e = set (addr e) e.
Proof. intros [E _]. rewrite E at 1. apply lor_is_set, aligned_addr. Qed.

Lemma parent_flags_present fl : Z.testbit (parent_table_flags fl) 0 = true.
Proof. unfold parent_table_flags. by case_match. Qed.

Lemma parent_flags_small fl : Z.testbit (parent_table_flags fl) 7 = false.
Proof. unfold parent_table_flags. by case_match. Qed.

Lemma user_flags_present w x : Z.testbit (user_flags w x) 0 = true.
Proof. by destruct w, x. Qed.

(** ** One page *)

Section Map.
Context {c : kernel} {M : tmap} {X : list Z} {D : Z -> Prop} {v : Z -> Z}.

(** The three levels above the leaf table, for either walk. *)
Lemma descend3 (dsc : Z -> Z -> Z -> string -> prog kernel string Z) T X' r virt pf e4 e3 e2 :
  (forall T r p t i e, T !! (r, p) = Some t -> (length p < 3)%nat -> idx_ok p i ->
     descends c T M X' D v (dsc t i pf e) r p i) ->
  T !! (r, []) = Some r -> user_addr virt ->
  triple (st c T M X' D v)
    (let? l3 := dsc r (l4i virt) pf e4 in
     let? l2 := dsc l3 (l3i virt) pf e3 in
     dsc l2 (l2i virt) pf e2)
    (fun res k' => exists T', ext T T' /\ st c T' M X' D v k' /\
       match res with Ok t => T' !! (r, [l4i virt; l3i virt; l2i virt]) = Some t | Err _ => True end).
Proof.
  intros Hd Hr Hv k S. unfold pbind.
  destruct (Hd T r [] r (l4i virt) e4 Hr ltac:(cbn; lia) (l4i_user virt Hv) k S)
    as ([l3|?] & k1 & -> & H1); [|eexists _, _; split; [done|exists T; split_and!; done || apply ext_refl]].
  destruct H1 as (T1 & X1 & L1 & S1).
  destruct (Hd T1 r [_] l3 (l3i virt) e3 L1 ltac:(cbn; lia) (idx_ok_deep _ _ _) k1 S1)
    as ([l2|?] & k2 & -> & H2); [|eexists _, _; split; [done|exists T1; by split_and!]].
  destruct H2 as (T2 & X2 & L2 & S2).
  destruct (Hd T2 r [_; _] l2 (l2i virt) e2 L2 ltac:(cbn; lia) (idx_ok_deep _ _ _) k2 S2)
    as ([l1|?] & k3 & -> & H3); eexists _, _; (split; [done|]).
  - destruct H3 as (T3 & X3 & L3 & S3). exists T3.
    split; [by eapply ext_trans; [|eapply ext_trans]|]. done.
  - exists T2. split; [by eapply ext_trans|]. done.
Qed.

(** Writing the leaf slot of [virt]. *)
Lemma st_leaf_store T r virt t k e X' M' :
  st c T M X' D v k -> T !! (r, [l4i virt; l3i virt; l2i virt]) = Some t ->
  M' = match leaf e with
       | Some _ => <[(r, path virt) := e]> M | None => delete (r, path virt) M end ->
  counts (frame_allocator k) T M' X ->
  (forall f, D f -> m_uses M f + x_uses X' f <= m_uses M' f + x_uses X f) ->
  st c T M' X D v (with_mem k (wr (mem k) (t + 8 * l1i virt) e)).
Proof.
  intros S Ht -> C HD. pose proof S as [S1 S2 S3 S4 S5 S6]. split; cbn; try done.
  - by apply (tree_leaf_write S3 S2 r [_; _; _] t (l1i virt) e Ht eq_refl (idx_ok_deep _ _ _)).
  - intros f Hf. specialize (HD f Hf). specialize (S4 f Hf). lia.
  - intros a Ha. eapply data_store; [done|exact Ht|apply idx_ok_deep|done].
Qed.

Lemma lookup_leaf T X' r virt t k :
  st c T M X' D v k -> T !! (r, [l4i virt; l3i virt; l2i virt]) = Some t ->
  M !! (r, path virt) = leaf (rd (mem k) (t + 8 * l1i virt)).
Proof.
  intros S Ht. apply (tr_leaf _ _ _ (st_tree _ _ _ _ _ _ _ S) r [_; _; _] t); [done|done|apply idx_ok_deep].
Qed.

(** [map] installs exactly one leaf, or fails and changes no translation. *)
Lemma map_spec T r virt phys fl :
  T !! (r, []) = Some r -> user_addr virt -> aligned phys -> Z.testbit fl 0 = true ->
  triple (st c T M (phys :: X) D v) (map r virt phys fl) (fun res k' =>
    exists T', ext T T' /\
    match res with
    | Ok _ => M !! (r, path virt) = None /\ st c T' (<[(r, path virt) := set phys fl]> M) X D v k'
    | Err _ => st c T' M (phys :: X) D v k'
    end).
Proof.
  intros Hr Hv Hp Hfl k S.
  assert (map r virt phys fl k =
    (let? l1 := (let? l3 := descend r (l4i virt) (parent_table_flags fl) "OOM: L3 table" in
                 let? l2 := descend l3 (l3i virt) (parent_table_flags fl) "OOM: L2 table" in
                 descend l2 (l2i virt) (parent_table_flags fl) "OOM: L1 table") in
     let? ent := load (l1 + 8 * l1i virt) in
     if is_present ent then err "Page already mapped"%string
     else store (l1 + 8 * l1i virt) (set phys fl)) k) as ->.
  { unfold map, pbind. repeat case_match; simplify_eq; done. }
  destruct (descend3 descend T (phys :: X) r virt (parent_table_flags fl)
    "OOM: L3 table" "OOM: L2 table" "OOM: L1 table" ltac:(intros; apply descend_spec; auto using parent_flags_present, parent_flags_small)
    Hr Hv k S) as ([t|] & k1 & E & T1 & X1 & S1 & Ht); unfold pbind at 1; rewrite E.
  2: { eexists _, _. split; [done|]. by exists T1. }
  unfold pbind, load. pose proof (lookup_leaf _ _ _ _ _ _ S1 Ht) as Hleaf. unfold leaf in Hleaf.
  destruct (is_present (rd (mem k1) (t + 8 * l1i virt))) eqn:Hpres.
  { eexists _, _. split; [done|]. by exists T1. }
  exists (Ok tt). eexists. split; [reflexivity|]. exists T1. split; [done|]. split; [done|].
  eapply (st_leaf_store T1); [exact S1|done|unfold leaf; by rewrite is_present_set, Hfl|..].
  - eapply counts_leaf; [apply S1|done|by apply canon_set|by rewrite addr_set, addr_aligned].
  - intros f _. unfold m_uses. rewrite count_insert by done. unfold one. cbn [snd].
    rewrite x_uses_cons, addr_set, addr_aligned by done. lia.
Qed.

(** [unmap] removes exactly one leaf and drops its frame's reference. *)
Lemma unmap_spec T r virt :
  T !! (r, []) = Some r -> user_addr virt ->
  triple (fun k => st c T M X D v k /\ forall e, M !! (r, path virt) = Some e -> ~ D (addr e / 4096))
    (unmap r virt) (fun res k' =>
    match res with
    | Ok a => exists e, M !! (r, path virt) = Some e /\ a = addr e /\
                        st c T (delete (r, path virt) M) X D v k'
    | Err _ => M !! (r, path virt) = None /\ st c T M X D v k'
    end).
Proof.
  intros Hr Hv k [S HnD]. pose proof (st_tree _ _ _ _ _ _ _ S) as Tr.
  pose proof (tree_walk _ _ _ _ _ Tr Hr Hv) as Hw. unfold walk, sub_table in Hw.
  unfold unmap, pbind, load.
  pose proof (tr_table _ _ _ Tr r [] r (l4i virt) Hr ltac:(cbn; lia) (l4i_user virt Hv)) as H3.
  unfold sub_table in H3. cbn [app] in H3.
  destruct (is_present (rd (mem k) (r + 8 * l4i virt))); cbn [negb];
    [|by eexists _, _; split; [done|]].
  cbn in Hw.
  pose proof (tr_table _ _ _ Tr r [_] _ (l3i virt) H3 ltac:(cbn; lia) (idx_ok_deep _ _ _)) as H2.
  unfold sub_table in H2. cbn [app] in H2.
  destruct (is_present (rd (mem k) (addr (rd (mem k) (r + 8 * l4i virt)) + 8 * l3i virt)));
    cbn [negb]; [|by eexists _, _; split; [done|]].
  cbn in Hw.
  pose proof (tr_table _ _ _ Tr r [_; _] _ (l2i virt) H2 ltac:(cbn; lia) (idx_ok_deep _ _ _)) as H1.
  unfold sub_table in H1. cbn [app] in H1.
  set (t2 := addr (rd (mem k) (addr (rd (mem k) (r + 8 * l4i virt)) + 8 * l3i virt))) in *.
  destruct (is_present (rd (mem k) (t2 + 8 * l2i virt))); cbn [negb];
    [|by eexists _, _; split; [done|]].
  cbn in Hw. set (t1 := addr (rd (mem k) (t2 + 8 * l2i virt))) in *.
  unfold leaf in Hw. destruct (is_present (rd (mem k) (t1 + 8 * l1i virt))) eqn:Hp; cbn [negb];
    [|by eexists _, _; split; [done|]].
  symmetry in Hw. set (e1 := rd (mem k) (t1 + 8 * l1i virt)) in *.
  exists (Ok (addr e1)). eexists. split; [reflexivity|]. exists e1. split_and!; [done|done|].
  pose proof (counts_unleaf _ _ _ _ _ _ (st_counts _ _ _ _ _ _ _ S) Hw) as C1.
  assert (st c T (delete (r, path virt) M) (addr e1 :: X) D v
            (with_mem k (wr (mem k) (t1 + 8 * l1i virt) 0))) as S1.
  { pose proof S as [S1 S2 S3 S4 S5 S6]. split; cbn; try done.
    - apply (tree_leaf_write S3 S2 r [_; _; _] t1 (l1i virt) 0 H1 eq_refl (idx_ok_deep _ _ _)).
    - intros f Hf. destruct (S4 f Hf). split; [done|]. unfold m_uses in *.
      rewrite (count_delete _ M _ e1) by done. unfold one. cbn [snd]. rewrite x_uses_cons. lia.
    - intros a Ha. eapply data_store; [done|exact H1|apply idx_ok_deep|done]. }
  destruct S1 as [Q1 Q2 Q3 Q4 Q5 Q6]. split; cbn in *; try done.
  - by apply counts_drop.
  - intros f Hf. destruct (Q4 f Hf) as [? Q]. split; [done|]. rewrite x_uses_cons in Q.
    rewrite decide_False in Q; [lia|]. intros <-. by apply (HnD e1).
  - by eapply kernel_root_drop.
Qed.
End Map.

(** ** Exclusive writability *)

(** No frame of the managed range that one page can write is visible through
    another page. *)
Definition excl (M : tmap) : Prop :=
  forall k1 k2 e1 e2, k1 <> k2 -> M !! k1 = Some e1 -> M !! k2 = Some e2 ->
    addr e1 = addr e2 -> addr e1 / 4096 < 65536 ->
    is_writable e1 = false /\ is_writable e2 = false.

Lemma unused_addr M f k e : m_uses M (f / 4096) = 0 -> M !! k = Some e -> addr e <> f.
Proof. intros H0 Hk <-. pose proof (m_uses_in k e Hk). lia. Qed.

Lemma excl_insert_fresh M k e :
  excl M -> m_uses M (addr e / 4096) = 0 -> excl (<[k := e]> M).
Proof.
  intros H H0 k1 k2 e1 e2 Hne H1 H2 E Hlt.
  apply lookup_insert_Some in H1 as [[<- <-]|[_ H1]];
  apply lookup_insert_Some in H2 as [[<- <-]|[_ H2]].
  - done.
  - by destruct (unused_addr _ _ _ _ H0 H2).
  - by destruct (unused_addr _ _ _ _ H0 H1).
  - by eapply (H k1 k2).
Qed.

Lemma excl_delete M k : excl M -> excl (delete k M).
Proof. intros H k1 k2 e1 e2 Hne [_ H1]%lookup_delete_Some [_ H2]%lookup_delete_Some. by eapply (H k1 k2). Qed.

(** Forgetting a held reference is a leak, not an error. *)
Lemma counts_leak fa T M X a : counts fa T M (a :: X) -> counts fa T M X.
Proof.
  intros [W Hle Ht Hc Hx]. split; try done.
  - intros f Hf. specialize (Hle f Hf). rewrite x_uses_cons in Hle. case_decide; lia.
  - intros b Hb. apply Hx. by right.
Qed.

(** ** Regions of fresh pages *)

(** [k] extends the state by fresh zeroed frames at the pages [js] of the region
    at [virt] in [r], and by nothing else. *)
Definition grown (r virt fl : Z) (js : list Z) (c : kernel) (T M : tmap) (X : list Z)
    (D : Z -> Prop) (v : Z -> Z) (k : kernel) : Prop :=
  exists T' M' D' v', ext T T' /\ M ⊆ M' /\ (excl M -> excl M') /\
    (forall f, D f -> D' f) /\ (forall a, D (a / 4096) -> v' a = v a) /\
    (forall key, M !! key = None -> M' !! key <> None ->
       exists j, j ∈ js /\ key = (r, path (virt + j * 4096))) /\
    (forall j, j ∈ js -> exists f, aligned f /\ D' (f / 4096) /\ m_uses M (f / 4096) = 0 /\
       M !! (r, path (virt + j * 4096)) = None /\
       M' !! (r, path (virt + j * 4096)) = Some (set f fl) /\
       forall w, 0 <= w < 512 -> v' (f + 8 * w) = 0) /\
    st c T' M' X D' v' k.

Lemma grown_nil r virt fl c T M X D v k :
  st c T M X D v k -> grown r virt fl [] c T M X D v k.
Proof.
  intros S. exists T, M, D, v. split_and!; try done.
  intros j Hj. by apply elem_of_nil in Hj.
Qed.

Section Region.
Context {c : kernel} {T M : tmap} {X : list Z} {D : Z -> Prop} {v : Z -> Z}.
Context (r virt : Z) (w x : bool) (n : Z).
Context (Hr : T !! (r, []) = Some r) (Hv : 0 <= virt) (Hn : virt + n * 4096 <= 2 ^ 47).
Let fl : Z := user_flags w x.

Lemma region_page j : 0 <= j < n -> user_addr (virt + j * 4096).
Proof. unfold user_addr. lia. Qed.

Lemma page_at_region {E} j k :
  0 <= j < n -> page_at (E := E) virt j k = Ret (Ok (virt + j * 4096), k).
Proof.
  intros Hj. unfold page_at, checked, cadd.
  rewrite (proj2 (Z.leb_le _ _)); [done|]. pose proof (region_page j Hj) as [_ H].
  unfold u64_max. change (2 ^ 47) with 140737488355328 in H. lia.
Qed.

(** One iteration of the loop of [map_user_region_in]. *)
Lemma grow_one done j :
  0 <= j < n ->
  triple (grown r virt fl done c T M X D v)
    (let? page_virt := page_at virt j in
     let? phys := alloc_or "Out of frames"%string in
     let? _ := zero_page phys in
     map r page_virt phys fl)
    (fun res k' => match res with
     | Ok _ => grown r virt fl (done ++ [j]) c T M X D v k'
     | Err _ => grown r virt fl done c T M X D v k'
     end).
Proof.
  intros Hj k (T1 & M1 & D1 & v1 & X1 & Hsub & Hex & HD & Hv1 & Hnew & Hdone & S).
  unfold pbind at 1. rewrite page_at_region by done.
  unfold pbind at 1, alloc_or, pbind at 1.
  destruct (alloc_frame_spec k S) as [(f & k1 & _ & Ea & Hm & S1 & Hal & Hrg & Hz & H1)|Ea];
    rewrite Ea; cbn -[map].
  2: { exists (Err "Out of frames"%string), k. split; [done|].
       exists T1, M1, D1, v1. by split_and!. }
  unfold pbind, zero_page, modify. set (k2 := with_mem k1 (zero_words (mem k1) f)).
  destruct (fresh_facts k f S Hz) as [HnD HnT].
  set (D2 := fun g => D1 g \/ g = f / 4096).
  set (v2 := fun a => if decide (a / 4096 = f / 4096) then rd (mem k2) a else v1 a).
  assert (forall a, D1 (a / 4096) -> v2 a = v1 a) as Hv2.
  { intros a Ha. unfold v2. rewrite decide_False; [done|]. intros E. by rewrite E in Ha. }
  assert (st c T1 M1 (f :: X) D2 v2 k2) as S2.
  { pose proof S1 as [A1 A2 A3 A4 A5 A6]. split; cbn; try done.
    - apply (tree_frame A3 A2). intros key t a Ht Ha. apply zero_words_out; [done|].
      rewrite Ha. by eapply HnT.
    - intros g [Hg| ->]; [by apply A4|]. split; [done|].
      pose proof (m_uses_nonneg (M := M1) (f / 4096)). pose proof (x_uses_in (f :: X) f ltac:(left)). lia.
    - intros a Ha. unfold v2. case_decide as E; [done|].
      destruct Ha as [Ha|Ha]; [|done]. rewrite zero_words_out by done. by apply A5. }
  assert (T1 !! (r, []) = Some r) as Hr1 by (destruct X1 as [_ ->]; done).
  destruct (map_spec T1 r (virt + j * 4096) f fl Hr1 (region_page j Hj) Hal
              (user_flags_present w x) k2 S2) as ([[]|e] & k3 & E3 & T3 & X3 & H3); rewrite E3.
  - exists (Ok tt), k3. split; [done|]. destruct H3 as [Hnone S3].
    exists T3, (<[(r, path (virt + j * 4096)) := set f fl]> M1), D2, v2.
    assert (m_uses M1 (f / 4096) = 0) as Hm0.
    { pose proof (t_uses_nonneg (T := T1) (f / 4096)). pose proof (x_uses_nonneg X (f / 4096)).
      pose proof (m_uses_nonneg (M := M1) (f / 4096)). lia. }
    split_and!; [by eapply ext_trans|..|done].
    + transitivity M1; [done|]. by apply insert_subseteq.
    + intros Hx. apply excl_insert_fresh; [by apply Hex|]. by rewrite addr_set, addr_aligned.
    + intros g Hg. left. by apply HD.
    + intros a Ha. rewrite Hv2 by (by apply HD). by apply Hv1.
    + intros key Hk Hk'. destruct (decide (key = (r, path (virt + j * 4096)))) as [->|Hne].
      * exists j. split; [apply elem_of_app; right; left|reflexivity].
      * rewrite lookup_insert_ne in Hk' by done. destruct (Hnew key Hk Hk') as (j' & ? & ?).
        exists j'. split; [by apply elem_of_app; left|assumption].
    + intros j' Hj'. apply elem_of_app in Hj' as [Hj'|Hj'].
      * destruct (Hdone j' Hj') as (g & Hg & HDg & Hg0 & Hg1 & Hg2 & Hg3). exists g.
        split_and!; [done|by left|done|done| |].
        -- rewrite lookup_insert_ne; [done|]. intros E. rewrite <- E in Hg2. congruence.
        -- intros i Hi. rewrite Hv2; [by apply Hg3|]. by rewrite slot_frame.
      * apply list_elem_of_singleton in Hj' as ->. exists f.
        split_and!; [done|by right| | |by apply lookup_insert_eq|].
        -- pose proof (m_uses_nonneg (M := M) (f / 4096)).
           pose proof (count_mono (fun kv : key * Z => addr kv.2 / 4096 = f / 4096) M M1 Hsub).
           unfold m_uses in *. lia.
        -- eapply lookup_weaken_None; [exact Hnone|done].
        -- intros i Hi. unfold v2. rewrite slot_frame, decide_True by done. cbn. by apply zero_words_in.
  - exists (Err e), k3. split; [done|].
    exists T3, M1, D1, v1.
    do 7 (split; [try assumption; by eapply ext_trans|]).
    destruct H3 as [Q1 Q2 Q3 Q4 Q5 Q6]. split.
    + exact Q1.
    + exact Q2.
    + by eapply counts_leak.
    + exact (st_prot _ _ _ _ _ _ _ S).
    + intros a Ha. rewrite <- Hv2 by assumption. apply Q5. by left.
    + exact Q6.
Qed.

(** [map_user_region_in] on an initialised allocator: all pages or an error, in
    which case a prefix of them is mapped. *)
Lemma map_region_spec :
  initialized c = true -> page_table_manager c <> None ->
  triple (st c T M X D v) (map_user_region_in r virt n w x) (fun res k' =>
    match res with
    | Ok _ => grown r virt fl (seqZ 0 n) c T M X D v k'
    | Err _ => exists js, (forall j, j ∈ js -> 0 <= j < n) /\ grown r virt fl js c T M X D v k'
    end).
Proof.
  intros Hini Hptm k S.
  assert (exists ptm, ready (E := string) "Paging allocator not initialized" "PTM unavailable" k = Ret (Ok ptm, k))
    as [ptm Hrdy].
  { unfold ready, pbind, get. rewrite <- (st_conf _ _ _ _ _ _ _ S) in Hini, Hptm. cbn in Hini, Hptm.
    rewrite Hini. cbn. destruct (page_table_manager k); [by eexists|done]. }
  unfold map_user_region_in, pbind at 1. rewrite Hrdy.
  pose proof (triple_for_each (fun done => grown r virt fl done c T M X D v)
    (fun _ k' => exists js, (forall j, j ∈ js -> 0 <= j < n) /\ grown r virt fl js c T M X D v k')
    (seqZ 0 n)
    (fun page => let? page_virt := page_at virt page in
       let? phys := alloc_or "Out of frames"%string in
       let? _ := zero_page phys in
       map r page_virt phys fl)) as Hloop.
  apply Hloop; [|by apply grown_nil].
  intros done j rest Hs.
  assert (forall i, i ∈ done ++ j :: rest -> 0 <= i < n) as Hin. 
  { intros i. rewrite <- Hs, elem_of_seqZ. lia. }
  eapply triple_conseq; [apply (grow_one done j)|done|].
  - apply Hin. set_solver.
  - intros [u|e] k' H; [done|]. exists done. split; [|done]. intros i Hi. apply Hin. set_solver.
Qed.

(** [unmap_user_region_in] removes the pages of the region and nothing else. *)
Definition unmapped (js : list Z) : tmap :=
  fold_left (fun M j => delete (r, path (virt + j * 4096)) M) js M.

Lemma lookup_unmapped js key :
  (exists j, j ∈ js /\ key = (r, path (virt + j * 4096))) /\ unmapped js !! key = None \/
  (forall j, j ∈ js -> key <> (r, path (virt + j * 4096))) /\ unmapped js !! key = M !! key.
Proof.
  unfold unmapped. induction js as [|j js IH] using rev_ind.
  { right. split; [|done]. intros j Hj. by apply elem_of_nil in Hj. }
  rewrite fold_left_app. cbn [fold_left].
  destruct (decide (key = (r, path (virt + j * 4096)))) as [->|Hne].
  - left. split; [|apply lookup_delete_eq]. exists j. split; [|done].
    apply elem_of_app; right; left.
  - rewrite lookup_delete_ne by done. destruct IH as [[(j' & Hj' & ->) IH]|[H IH]].
    + left. split; [|done]. exists j'. split; [by apply elem_of_app; left|done].
    + right. split; [|done]. intros j' [Hj'|Hj']%elem_of_app; [by apply H|].
      apply list_elem_of_singleton in Hj' as ->. done.
Qed.

Lemma excl_unmapped js : excl M -> excl (unmapped js).
Proof.
  intros H. unfold unmapped. induction js as [|j js IH] using rev_ind; [done|].
  rewrite fold_left_app. by apply excl_delete.
Qed.

Lemma unmap_region_spec :
  initialized c = true -> page_table_manager c <> None ->
  (forall j e, 0 <= j < n -> M !! (r, path (virt + j * 4096)) = Some e -> ~ D (addr e / 4096)) ->
  triple (st c T M X D v) (unmap_user_region_in r virt n) (fun res k' =>
    res = Ok tt /\ st c T (unmapped (seqZ 0 n)) X D v k').
Proof.
  intros Hini Hptm HnD k S.
  assert (initialized k = true /\ page_table_manager k <> None) as [Hini' Hptm'].
  { by rewrite <- (st_conf _ _ _ _ _ _ _ S) in Hini, Hptm. }
  unfold unmap_user_region_in, pbind at 1, get at 1. rewrite Hini'. cbn [negb].
  destruct (page_table_manager k); [clear Hini' Hptm'|done].
  pose proof (triple_for_each (E := unit) (fun done => st c T (unmapped done) X D v) (fun _ _ => False)
    (seqZ 0 n)
    (fun page => let? vv := page_at virt page in
       let? _ := catch (E := string) (unmap r vv) in ok tt)) as Hloop.
  destruct (Hloop) with (w := k) as ([[]|e] & k' & E & H); [|exact S|by eexists _, _|done].
  clear k S. intros js j rest Hs k S.
  assert (0 <= j < n) as Hj.
  { assert (j ∈ seqZ 0 n) as Hin by (rewrite Hs; apply elem_of_app; right; left).
    apply elem_of_seqZ in Hin. lia. }
  unfold pbind at 1. rewrite page_at_region by done.
  destruct (unmap_spec (c := c) (M := unmapped js) (X := X) (D := D) (v := v) T r
              (virt + j * 4096) Hr (region_page j Hj) k) as (res & k1 & E & H).
  { split; [done|]. intros e He. destruct (lookup_unmapped js (r, path (virt + j * 4096)))
      as [[_ H]|[_ H]]; [congruence|]. apply (HnD j e Hj). congruence. }
  unfold pbind, catch. rewrite E. exists (Ok tt), k1. split; [done|].
  unfold unmapped. rewrite fold_left_app. cbn [fold_left]. fold (unmapped js).
  destruct res as [a|e]; [by destruct H as (? & _ & _ & ?)|].
  destruct H as [Hn0 H]. by rewrite delete_id.
Qed.

End Region.

(** ** New address spaces *)

Lemma for_each_store {E} (l : list Z) (dst val : Z -> Z) k :
  for_each (E := E) l (fun i => store (dst i) (val i)) k =
  Ret (Ok tt, with_mem k (fold_left (fun m i => wr m (dst i) (val i)) l (mem k))).
Proof.
  revert k. induction l as [|i l IH]; intros k; cbn [for_each fold_left].
  - by destruct k.
  - unfold pbind, store, modify at 1. by rewrite IH.
Qed.

(** Copying words of one page to another, when the source is not written. *)
Lemma for_each_copy {E} (l : list Z) (src dst : Z) k :
  (forall i j, i ∈ l -> j ∈ l -> src + 8 * i <> dst + 8 * j) ->
  for_each (E := E) l (fun i => let? e := load (src + 8 * i) in store (dst + 8 * i) e) k =
  Ret (Ok tt, with_mem k (fold_left (fun m i => wr m (dst + 8 * i) (rd (mem k) (src + 8 * i)))
                                    l (mem k))).
Proof.
  assert (forall k', (forall i, i ∈ l -> rd (mem k') (src + 8 * i) = rd (mem k) (src + 8 * i)) ->
    (forall i j, i ∈ l -> j ∈ l -> src + 8 * i <> dst + 8 * j) ->
    for_each (E := E) l (fun i => let? e := load (src + 8 * i) in store (dst + 8 * i) e) k' =
    Ret (Ok tt, with_mem k' (fold_left (fun m i => wr m (dst + 8 * i) (rd (mem k) (src + 8 * i)))
                                       l (mem k')))) as H; [|by intros; apply H].
  induction l as [|i l IH]; intros k' Hk' Hne; cbn [for_each fold_left]; [by destruct k'|].
  unfold pbind at 1, load at 1, pbind at 1, store at 1, modify.
  rewrite IH.
  - rewrite Hk' by left. done.
  - intros j Hj. cbn. rewrite rd_wr_ne; [apply Hk'; by right|].
    intros Eq. apply (Hne j i); [by right|left|done].
  - intros j j' Hj Hj'. apply Hne; by right.
Qed.

(** A root whose user half is empty. *)
Lemma tree_new_root fa T M X m r m' :
  counts fa T M X -> tree m T M -> aligned r ->
  (forall key u, T !! key = Some u -> u / 4096 <> r / 4096) ->
  (forall i, 0 <= i < 256 -> rd m' (r + 8 * i) = 0) ->
  (forall a, a / 4096 <> r / 4096 -> rd m' a = rd m a) ->
  T !! (r, []) = None /\ tree m' (<[(r, []) := r]> T) M.
Proof.
  intros C Tr Ha Hfresh Hz Hsame. pose proof Tr as [R1 R2 R3 R4 R5 R6].
  assert (T !! (r, []) = None) as Hn.
  { destruct (T !! (r, [])) as [t|] eqn:E; [|done]. exfalso.
    apply (Hfresh _ _ E). by rewrite (R1 _ _ E). }
  split; [done|].
  assert (forall key u i, T !! key = Some u -> 0 <= i < 512 ->
            rd m' (u + 8 * i) = rd m (u + 8 * i)) as Hm.
  { intros key u i Hu Hi. apply Hsame.
    rewrite slot_frame; [by eapply Hfresh|by eapply (table_aligned C)|done]. }
  assert (forall i, T !! (r, [i]) = None) as Hchild.
  { intros i. destruct (T !! (r, [i])) eqn:E; [|done].
    apply (R4 r []) in E as (? & E & _). congruence. }
  split.
  - intros r' t [[[= <-] <-]|[_ H]]%lookup_insert_Some; [done|by apply R1].
  - intros r' p t i [[[= <- <-] <-]|[Hk Hu]]%lookup_insert_Some Hl Hi.
    + cbn [app]. rewrite lookup_insert_ne, Hchild by done. rewrite Hz; [done|].
      destruct Hi as [? Hi]. specialize (Hi eq_refl). lia.
    + rewrite lookup_insert_ne by (intros [= _ E]; by destruct p).
      rewrite (Hm (r', p)); [by apply R2|done|apply Hi].
  - intros r' p t i [[[= <- <-] <-]|[Hk Hu]]%lookup_insert_Some Hl Hi; [done|].
    rewrite (Hm (r', p)); [by apply R3|done|apply Hi].
  - intros r' p i t [[[= <- E] <-]|[Hk Hu]]%lookup_insert_Some; [by destruct p|].
    apply R4 in Hu as (u & Hu & ? & ?). exists u. split_and!; try done.
    rewrite lookup_insert_ne; [done|]. intros [= <- <-]. congruence.
  - intros r' q e (p & i & t & -> & Ht & ? & ?)%R5. exists p, i, t. split_and!; try done.
    rewrite lookup_insert_ne; [done|]. intros [= <- <-]. done.
  - intros r' p t i [[[= <- <-] <-]|[Hk Hu]]%lookup_insert_Some Hl Hi.
    + rewrite Hz; [done|]. destruct Hi as [? Hi]. specialize (Hi eq_refl). lia.
    + rewrite (Hm (r', p)); [by eapply R6|done|apply Hi].
Qed.

Lemma no_root m T M r :
  tree m T M -> T !! (r, []) = None ->
  (forall p, T !! (r, p) = None) /\ (forall q, M !! (r, q) = None).
Proof.
  intros Tr Hn.
  assert (forall p, T !! (r, p) = None) as HT.
  { induction p as [|i p IH] using rev_ind; [done|].
    destruct (T !! (r, p ++ [i])) eqn:E; [|done].
    apply (tr_tclosed _ _ _ Tr) in E as (? & E & _). congruence. }
  split; [done|]. intros q. destruct (M !! (r, q)) eqn:E; [|done].
  apply (tr_mclosed _ _ _ Tr) in E as (p & i & t & -> & E & _). by rewrite HT in E.
Qed.

(** An allocation changes the count of the allocated frame only. *)
Lemma alloc_rc k (a : Z) k1 f :
  (forall E, alloc_frame (E := E) k = Ret (Ok (Some a), k1)) -> f <> a / 4096 ->
  rd (refcount (frame_allocator k1)) f = rd (refcount (frame_allocator k)) f.
Proof.
  intros Ea Hf. specialize (Ea unit). unfold alloc_frame in Ea.
  destruct (allocate_frame (frame_allocator k)) as [o fa'] eqn:Hal'. injection Ea as -> <-.
  cbn. apply allocate_frame_Some in Hal' as (g & -> & Ag). rewrite Z.div_mul in Hf by lia.
  by rewrite (al_refs _ _ _ Ag), rd_wr_ne.
Qed.

(** The common start of [create_user_page_table] and
    [cow_fork_user_page_table]. *)
Definition new_root (l4 : Z) : prog kernel unit Z :=
  let? a := alloc_or tt in
  let? _ := for_each (seqZ 0 256) (fun i => store (a + 8 * i) 0) in
  let? _ := for_each (seqZ 256 256) (fun i =>
    let? e := load (l4 + 8 * i) in store (a + 8 * i) e) in
  ok a.

Section Create.
Context {c : kernel} {T M : tmap} {X : list Z} {D : Z -> Prop} {v : Z -> Z}.

Lemma new_root_spec l4 k :
  st c T M X D v k -> aligned l4 -> is_free (frame_allocator k) (l4 / 4096) = false ->
  exists res k', new_root l4 k = Ret (res, k') /\
    match res with
    | Ok r => T !! (r, []) = None /\ st c (<[(r, []) := r]> T) M X D v k' /\
              (forall i, 256 <= i < 512 -> rd (mem k') (r + 8 * i) = rd (mem k) (l4 + 8 * i)) /\
              (forall f, 1 <= m_uses M f ->
                 rd (refcount (frame_allocator k')) f = rd (refcount (frame_allocator k)) f)
    | Err _ => st c T M X D v k'
    end.
Proof.
  intros S Hl4 Hused. unfold new_root. unfold pbind at 1, alloc_or, pbind at 1.
  destruct (alloc_frame_spec k S) as [(a & k1 & _ & Ea & Hm & S1 & Hal & Hr & Hz & H1)|Ea];
    rewrite Ea; cbn -[for_each seqZ].
  2: { by eexists _, _. }
  assert (is_free (frame_allocator k) (a / 4096) = true) as Hfree.
  { specialize (Ea unit). unfold alloc_frame in Ea.
    destruct (allocate_frame (frame_allocator k)) as [o fa'] eqn:Hal'. injection Ea as -> _.
    apply allocate_frame_Some in Hal' as (f & -> & A). rewrite Z.div_mul by lia. apply A. }
  assert (a / 4096 <> l4 / 4096) as Hne by congruence.
  unfold pbind at 1. rewrite (for_each_store (seqZ 0 256) (fun i => a + 8 * i) (fun _ => 0)).
  unfold pbind at 1. rewrite for_each_copy.
  2: { intros i j Hi%elem_of_seqZ Hj%elem_of_seqZ E. apply Hne.
       rewrite <- (slot_frame a j), <- (slot_frame l4 i) by (done || lia). by rewrite E. }
  exists (Ok a). eexists. split; [reflexivity|]. cbn. rewrite Hm.
  set (m1 := fold_left _ (seqZ 0 256) (mem k)). set (m2 := fold_left _ (seqZ 256 256) m1).
  assert (forall b, rd m2 b = if in_words a 256 256 b then rd m1 (l4 + 8 * ((b - a) / 8)) else rd m1 b)
    as Hm2 by (intros b; exact (rd_page_write m1 a b (fun i => rd m1 (l4 + 8 * i)) 256 256)).
  assert (forall b, rd m1 b = if in_words a 0 256 b then 0 else rd (mem k) b)
    as Hm1 by (intros b; exact (rd_page_write (mem k) a b (fun _ => 0) 0 256)).
  assert (forall b, b / 4096 <> a / 4096 -> forall lo n, 0 <= lo -> lo + n <= 512 -> in_words a lo n b = false)
    as Hout.
  { intros b Hb lo n Hlo Hn. apply in_words_false. intros (i & Hi & ->). apply Hb.
    apply slot_frame; [done|lia]. }
  assert (forall b, b / 4096 <> a / 4096 -> rd m2 b = rd (mem k) b) as Hsame.
  { intros b Hb. rewrite Hm2, Hout by (done || lia). by rewrite Hm1, Hout by (done || lia). }
  destruct (fresh_facts k a S Hz) as [HnD HnT].
  destruct (tree_new_root _ _ _ _ _ a m2 (st_counts _ _ _ _ _ _ _ S) (st_tree _ _ _ _ _ _ _ S) Hal HnT)
    as [Hnone Tr'].
  { intros i Hi. rewrite Hm2, in_words_false by (intros (j & Hj & E); lia).
    rewrite Hm1, (proj2 (in_words_true _ _ _ _)) by (exists i; lia). done. }
  { done. }
  split; [done|]. split; [|split].
  3: { intros f Hf. apply (alloc_rc k a); [done|]. intros ->.
       pose proof (t_uses_nonneg (T := T) (a / 4096)). pose proof (x_uses_nonneg X (a / 4096)). lia. }
  - destruct S1 as [Q1 Q2 Q3 Q4 Q5 Q6]. split; cbn; try done.
    + apply counts_table; [done|done|lia|done].
    + exact (st_prot _ _ _ _ _ _ _ S).
    + intros b Hb. rewrite Hsame; [by apply (st_data _ _ _ _ _ _ _ S)|].
      intros E. apply HnD. by rewrite <- E.
  - intros i Hi. rewrite Hm2, (proj2 (in_words_true _ _ _ _)) by (exists i; lia).
    replace (a + 8 * i - a) with (i * 8) by lia. rewrite Z.div_mul by lia.
    rewrite Hm1, Hout; [done| |lia|lia]. rewrite slot_frame by (done || lia). congruence.
Qed.

(** [create_user_page_table]: a root with an empty user half and the kernel's
    upper half; no other address space is touched. *)
Lemma create_spec k ptm :
  st c T M X D v k -> initialized k = true -> page_table_manager k = Some ptm ->
  aligned (l4_table_phys ptm) -> is_free (frame_allocator k) (l4_table_phys ptm / 4096) = false ->
  exists res k', create_user_page_table k = Ret (res, k') /\
    match res with
    | Ok r => T !! (r, []) = None /\ st c (<[(r, []) := r]> T) M X D v k' /\
              (forall i, 256 <= i < 512 ->
                 rd (mem k') (r + 8 * i) = rd (mem k) (l4_table_phys ptm + 8 * i))
    | Err _ => st c T M X D v k'
    end.
Proof.
  intros S Hi Hp Ha Hf. unfold create_user_page_table, pbind at 1, ready, pbind at 1, get.
  rewrite Hi, Hp. cbn [negb ok].
  destruct (new_root_spec (l4_table_phys ptm) k S Ha Hf) as (res & k' & E & H).
  exists res, k'. split; [exact E|]. destruct res; [|done]. by destruct H as (? & ? & ? & _).
Qed.
End Create.

(** ** Copy-on-write faults *)

Lemma as_writable_bits e n :
  0 <= n < 12 ->
  Z.testbit (set (addr e) (as_writable_no_cow (Z.land e 0xFFF))) n =
  (Z.testbit e n || (n =? 1)) && negb (n =? 9).
Proof.
  intros Hn. rewrite set_addr_testbit_low by done. unfold as_writable_no_cow, COW, WRITABLE.
  rewrite ldiff_bit_testbit, lor_bit_testbit, Z.land_spec, mask12_testbit by lia.
  rewrite (proj2 (Z.ltb_lt n 12)) by lia. rewrite andb_true_r.
  f_equal; f_equal; apply bool_decide_Zeqb.
Qed.

Lemma land1_present e : (Z.land e 1 =? 0) = negb (is_present e).
Proof. unfold is_present. by rewrite negb_involutive. Qed.

Lemma small_entry e : Z.testbit e 7 = false -> negb (Z.land e (bit 7) =? 0) = false.
Proof. intros H. by rewrite land_bit_zero, H by lia. Qed.

(** The private writable entry that replaces a copy-on-write entry [e]. *)
Definition resolved (e f : Z) : Z := set f (as_writable_no_cow (Z.land e 0xFFF)).

Lemma canon_resolved e f : is_present e = true -> canon (resolved e f).
Proof.
  intros He. apply canon_set. unfold as_writable_no_cow, COW, WRITABLE.
  rewrite ldiff_bit_testbit, lor_bit_testbit, Z.land_spec, mask12_testbit by lia.
  rewrite is_present_testbit in He. by rewrite He.
Qed.

Section CowFault.
Context {c : kernel} {T M : tmap} {X : list Z} {D : Z -> Prop} {v : Z -> Z}.
Context (r fault : Z) (Hr : T !! (r, []) = Some r) (Hv : user_addr fault).

(** The walk of [try_resolve_cow_fault] reaches the leaf slot of the page. *)
Lemma cow_walk k (rest : Z -> prog kernel unit bool) :
  st c T M X D v k ->
  (let? l4e := load (Z.land r ADDR_MASK + 8 * l4i fault) in
   if Z.land l4e 1 =? 0 then ok false else
   let? l3e := load (Z.land l4e ADDR_MASK + 8 * l3i fault) in
   if (Z.land l3e 1 =? 0) || negb (Z.land l3e (bit 7) =? 0) then ok false else
   let? l2e := load (Z.land l3e ADDR_MASK + 8 * l2i fault) in
   if (Z.land l2e 1 =? 0) || negb (Z.land l2e (bit 7) =? 0) then ok false else
   rest (Z.land l2e ADDR_MASK + 8 * l1i fault)) k =
  match T !! (r, [l4i fault; l3i fault; l2i fault]) with
  | Some t => rest (t + 8 * l1i fault) k
  | None => Ret (Ok false, k)
  end.
Proof.
  intros S. pose proof (st_tree _ _ _ _ _ _ _ S) as Tr.
  assert (Z.land r ADDR_MASK = r) as ->.
  { apply (addr_aligned r). by eapply (table_aligned (st_counts _ _ _ _ _ _ _ S)). }
  pose proof (tr_table _ _ _ Tr r [] r (l4i fault) Hr ltac:(cbn; lia) (l4i_user fault Hv)) as H3.
  unfold sub_table in H3. cbn [app] in H3.
  unfold pbind, load. rewrite land1_present.
  destruct (is_present (rd (mem k) (r + 8 * l4i fault))); cbn [negb].
  2: { destruct (T !! (r, [_; _; _])) eqn:E; [|done].
       apply (tr_tclosed _ _ _ Tr r [_; _]) in E as (? & E & _).
       apply (tr_tclosed _ _ _ Tr r [_]) in E as (? & E & _). congruence. }
  change (Z.land (rd (mem k) (r + 8 * l4i fault)) ADDR_MASK)
    with (addr (rd (mem k) (r + 8 * l4i fault))).
  set (t3 := addr (rd (mem k) (r + 8 * l4i fault))) in *.
  pose proof (tr_table _ _ _ Tr r [_] t3 (l3i fault) H3 ltac:(cbn; lia) (idx_ok_deep _ _ _)) as H2.
  pose proof (tr_small _ _ _ Tr r [_] t3 (l3i fault) H3 ltac:(cbn; lia) (idx_ok_deep _ _ _)) as Hs2.
  unfold sub_table in H2. cbn [app] in H2. rewrite land1_present, (small_entry _ Hs2), orb_false_r.
  destruct (is_present (rd (mem k) (t3 + 8 * l3i fault))); cbn [negb].
  2: { destruct (T !! (r, [_; _; _])) eqn:E; [|done].
       apply (tr_tclosed _ _ _ Tr r [_; _]) in E as (? & E & _). congruence. }
  change (Z.land (rd (mem k) (t3 + 8 * l3i fault)) ADDR_MASK)
    with (addr (rd (mem k) (t3 + 8 * l3i fault))).
  set (t2 := addr (rd (mem k) (t3 + 8 * l3i fault))) in *.
  pose proof (tr_table _ _ _ Tr r [_; _] t2 (l2i fault) H2 ltac:(cbn; lia) (idx_ok_deep _ _ _)) as H1.
  pose proof (tr_small _ _ _ Tr r [_; _] t2 (l2i fault) H2 ltac:(cbn; lia) (idx_ok_deep _ _ _)) as Hs1.
  unfold sub_table in H1. cbn [app] in H1. rewrite land1_present, (small_entry _ Hs1), orb_false_r.
  destruct (is_present (rd (mem k) (t2 + 8 * l2i fault))); cbn [negb]; by rewrite H1.
Qed.

Lemma x_uses_swap a b Y f : x_uses (a :: b :: Y) f = x_uses (b :: a :: Y) f.
Proof. rewrite !x_uses_cons. lia. Qed.

Lemma counts_swap fa T0 M0 a b Y : counts fa T0 M0 (a :: b :: Y) -> counts fa T0 M0 (b :: a :: Y).
Proof.
  intros [W Hle Ht Hc Hx]. split; try done.
  - intros f Hf. rewrite x_uses_swap. by apply Hle.
  - intros d Hd. apply Hx. rewrite !elem_of_cons in *. tauto.
Qed.

Lemma is_cow_low e : is_cow (Z.land e 0xFFF) = is_cow e.
Proof. rewrite !is_cow_testbit, Z.land_spec, mask12_testbit by lia. apply andb_true_r. Qed.

(** A table slot is not a word of a mapped frame. *)
Lemma slot_not_data k t key e i w :
  st c T M X D v k -> T !! (r, [l4i fault; l3i fault; l2i fault]) = Some t ->
  M !! key = Some e -> 0 <= i < 512 -> 0 <= w < 512 -> t + 8 * i <> addr e + 8 * w.
Proof.
  intros S Ht He Hi Hw E. pose proof (st_counts _ _ _ _ _ _ _ S) as C.
  destruct (slot_inj t i (addr e) w) as [E' _]; try done;
    [by eapply (table_aligned C)|apply aligned_addr|].
  destruct (table_private C _ _ Ht) as [Hp _]. pose proof (m_uses_in key e He) as H1.
  rewrite <- E' in H1. lia.
Qed.

(** Sole owner: the entry becomes writable in place. *)
Lemma cow_in_place k t e :
  st c T M X D v k -> T !! (r, [l4i fault; l3i fault; l2i fault]) = Some t ->
  M !! (r, path fault) = Some e -> get_refcount (frame_allocator k) (addr e) <= 1 ->
  let M' := <[(r, path fault) := resolved e (addr e)]> M in
  let k' := with_mem k (wr (mem k) (t + 8 * l1i fault) (resolved e (addr e))) in
  st c T M' X D v k' /\ (excl M -> excl M') /\
  forall w, 0 <= w < 512 -> rd (mem k') (addr e + 8 * w) = rd (mem k) (addr e + 8 * w).
Proof.
  intros S Ht He Hrc M' k'. pose proof S as [S1 S2 S3 S4 S5 S6].
  destruct (ct_canon _ _ _ _ S3 _ _ He) as [_ Hpres].
  destruct (canon_resolved e (addr e) Hpres) as [Hcan Hpres'].
  assert (addr (resolved e (addr e)) = addr e) as Ha.
  { unfold resolved. by rewrite addr_set, addr_idem. }
  split_and!.
  - eapply (st_leaf_store T); [exact S|exact Ht| |..].
    + unfold leaf. by rewrite Hpres'.
    + eapply counts_reflag; [done|done|by apply canon_resolved|done].
    + intros f _. unfold m_uses, M'. rewrite (count_update _ M _ e) by done. unfold one. cbn [snd].
      rewrite Ha. lia.
  - intros Hex k1 k2 e1 e2 Hne H1 H2 E Hlt. unfold M' in *.
    assert (forall k3 e3, k3 <> (r, path fault) -> M !! k3 = Some e3 -> addr e3 = addr e ->
              ~ addr e / 4096 < 65536) as Hno.
    { intros k3 e3 Hk3 H3 E3 Hr3. assert (2 <= m_uses M (addr e / 4096)) as H2u.
      { eapply (count_ge2 _ M (r, path fault) k3 e e3); try done. by cbn; rewrite E3. }
      destruct (aligned_frame _ (aligned_addr e)) as [_ H0].
      pose proof (ct_le _ _ _ _ S3 (addr e / 4096) ltac:(lia)).
      unfold get_refcount in Hrc. rewrite (proj2 (Z.ltb_lt _ _)) in Hrc by done.
      pose proof (t_uses_nonneg (T := T) (addr e / 4096)). pose proof (x_uses_nonneg X (addr e / 4096)). lia. }
    apply lookup_insert_Some in H1 as [[<- <-]|[Hk1 H1]];
    apply lookup_insert_Some in H2 as [[<- <-]|[Hk2 H2]]; [done|..|by eapply (Hex k1 k2)].
    + exfalso. apply (Hno k2 e2); [done|done|congruence|congruence].
    + exfalso. apply (Hno k1 e1); [done|done|congruence|congruence].
  - intros w Hw. apply rd_wr_ne. eapply slot_not_data; [done|done|done|apply idx9|done].
Qed.

(** Shared: the page moves to a private copy, the old frame loses a reference. *)
Lemma cow_copy k t e f k1 :
  st c T M X D v k -> T !! (r, [l4i fault; l3i fault; l2i fault]) = Some t ->
  M !! (r, path fault) = Some e ->
  (forall g, D g -> 1 <= m_uses (delete (r, path fault) M) g + x_uses X g) ->
  mem k1 = mem k -> st c T M (f :: X) D v k1 -> aligned f -> 0 <= f / 4096 < 65536 ->
  t_uses T (f / 4096) + m_uses M (f / 4096) + x_uses X (f / 4096) = 0 ->
  let M' := <[(r, path fault) := resolved e f]> M in
  let m' := wr (copy_words (mem k) (addr e) f) (t + 8 * l1i fault) (resolved e f) in
  let k' := with_fa (with_mem k1 m') (free_frame (frame_allocator k1) (addr e)) in
  st c T M' X D v k' /\ (excl M -> excl M') /\
  forall w, 0 <= w < 512 -> rd (mem k') (f + 8 * w) = rd (mem k) (addr e + 8 * w).
Proof.
  intros S Ht He HD Hm S1 Hal Hrg Hz M' m' k'. destruct (fresh_facts k f S Hz) as [HnD HnT].
  pose proof (ct_canon _ _ _ _ (st_counts _ _ _ _ _ _ _ S) _ _ He) as [_ Hpres].
  assert (addr (resolved e f) = f) as Ha by (unfold resolved; by rewrite addr_set, addr_aligned).
  assert (m_uses M (f / 4096) = 0) as Hm0.
  { pose proof (t_uses_nonneg (T := T) (f / 4096)). pose proof (x_uses_nonneg X (f / 4096)).
    pose proof (m_uses_nonneg (M := M) (f / 4096)). lia. }
  assert (T !! (r, [l4i fault; l3i fault; l2i fault]) = Some t -> (t + 8 * l1i fault) / 4096 <> f / 4096) as Hslot.
  { intros _. rewrite slot_frame; [by eapply HnT| |apply idx9].
    by eapply (table_aligned (st_counts _ _ _ _ _ _ _ S)). }
  specialize (Hslot Ht). split_and!.
  - destruct S1 as [Q1 Q2 Q3 Q4 Q5 Q6]. split; cbn.
    + exact Q1.
    + assert (tree (copy_words (mem k) (addr e) f) T M) as Tr1.
      { apply (tree_frame (st_counts _ _ _ _ _ _ _ S) (st_tree _ _ _ _ _ _ _ S)).
        intros key u a Hu E. apply copy_words_out; [done|]. rewrite E. by eapply HnT. }
      pose proof (tree_leaf_write (st_counts _ _ _ _ _ _ _ S) Tr1 r [_; _; _] t (l1i fault)
                    (resolved e f) Ht eq_refl (idx_ok_deep _ _ _)) as H.
      unfold leaf in H. destruct (canon_resolved e f Hpres) as [_ Hp']. by rewrite Hp' in H.
    + apply counts_drop. unfold M'. rewrite <- insert_delete_eq.
      eapply (counts_leaf _ _ _ _ _ f); [|apply lookup_delete_eq|by apply canon_resolved|done].
      apply counts_swap. by apply counts_unleaf.
    + intros g Hg. split; [by apply Q4|]. specialize (HD g Hg). unfold M', m_uses in *.
      rewrite <- insert_delete_eq, count_insert by apply lookup_delete_eq.
      unfold one. case_decide; lia.
    + intros a Hda. unfold m'. rewrite rd_wr_ne.
      * rewrite copy_words_out; [by apply (st_data _ _ _ _ _ _ _ S)|done|].
        intros E. apply HnD. by rewrite <- E.
      * intros <-. revert Hda. eapply st_leaf_slot; [exact S|exact Ht|apply idx_ok_deep].
    + by eapply kernel_root_drop; [apply counts_unleaf|].
  - intros Hex. apply excl_insert_fresh; [done|]. by rewrite Ha.
  - intros w Hw. cbn. unfold m'. rewrite rd_wr_ne; [by apply copy_words_in|].
    intros E. apply Hslot. rewrite E. by apply slot_frame.
Qed.

(** A write fault on a copy-on-write page is resolved unless memory is
    exhausted; any other fault changes nothing. *)
Lemma cow_fault_spec k :
  st c T M X D v k ->
  (forall g, D g -> 1 <= m_uses (delete (r, path fault) M) g + x_uses X g) ->
  exists b k', try_resolve_cow_fault r fault k = Ret (Ok b, k') /\
    if b then exists e f, M !! (r, path fault) = Some e /\ is_cow e = true /\ aligned f /\
      st c T (<[(r, path fault) := resolved e f]> M) X D v k' /\
      (excl M -> excl (<[(r, path fault) := resolved e f]> M)) /\
      (forall w, 0 <= w < 512 -> rd (mem k') (f + 8 * w) = rd (mem k) (addr e + 8 * w))
    else k' = k /\ forall e, M !! (r, path fault) = Some e -> is_cow e = true ->
      (allocate_frame (frame_allocator k)).1 = None.
Proof.
  intros S HD. unfold try_resolve_cow_fault.
  rewrite (cow_walk k resolve_leaf S).
  destruct (T !! (r, [l4i fault; l3i fault; l2i fault])) as [t|] eqn:Ht.
  2: { exists false, k. split; [done|]. split; [done|]. intros e He. exfalso.
       apply (tr_mclosed _ _ _ (st_tree _ _ _ _ _ _ _ S)) in He as (p & i & t & E & Hp & _).
       apply (app_inj_tail [_; _; _]) in E as [<- _]. congruence. }
  pose proof (lookup_leaf _ _ _ _ _ _ S Ht) as Hleaf. unfold leaf in Hleaf.
  unfold resolve_leaf, pbind at 1, load at 1. rewrite land1_present.
  destruct (is_present (rd (mem k) (t + 8 * l1i fault))) eqn:Hp; cbn [negb].
  2: { exists false, k. split; [done|]. split; [done|]. intros e He. congruence. }
  set (e := rd (mem k) (t + 8 * l1i fault)) in *. rewrite is_cow_low.
  destruct (is_cow e) eqn:Hcow; cbn [negb].
  2: { exists false, k. split; [done|]. split; [done|]. intros e' He. congruence. }
  change (Z.land e ADDR_MASK) with (addr e). unfold pbind at 1, get at 1.
  rewrite lor_is_set by apply aligned_addr. fold (resolved e (addr e)).
  destruct (Z.leb_spec (get_refcount (frame_allocator k) (addr e)) 1) as [Hrc|Hrc].
  - destruct (cow_in_place k t e S Ht Hleaf Hrc) as (S' & Hex & Hdata).
    exists true. eexists. split; [reflexivity|]. exists e, (addr e).
    split_and!; try done. apply aligned_addr.
  - unfold pbind at 1.
    destruct (alloc_frame_spec k S) as [(f & k1 & _ & Ea & Hm & S1 & Hal & Hr' & Hz & H1)|Ea]; rewrite Ea.
    + destruct (cow_copy k t e f k1 S Ht Hleaf HD Hm S1 Hal Hr' Hz) as (S' & Hex & Hdata).
      exists true. unfold pbind, copy_page, store, drop_frame, modify. cbn.
      rewrite lor_is_set, Hm by done. eexists. split; [reflexivity|]. exists e, f.
      split_and!; try done.
    + exists false, k. split; [done|]. split; [done|]. intros _ _ _.
      specialize (Ea unit). unfold alloc_frame in Ea.
      destruct (allocate_frame (frame_allocator k)) as [o fa']. by injection Ea as -> _.
Qed.
End CowFault.

End aspace_ops.
