(* ===== verification/AddressFork.v ===== *)
(** * Copy-on-write fork

    [cow_fork_user_page_table] copies the table tree of a process and shares its
    data frames.  The proof follows the four nested loops with one invariant:
    the subtrees in the list [S] are done, the tables in the list [A] are the
    child's tables above the loops' current position. *)

From stdpp Require Import base list gmap strings list_numbers.
From Stdlib Require Import ZArith Lia.
From S2P Require Import Prelude FrameAlloc PageTable AddressSpace AddressOps.

Local Open Scope Z_scope.

Module aspace_fork.
Import pte frames paging aspace aspace_ops.

(** The address the loops compute from the four indices. *)
Definition virt_of (q : list Z) : Z :=
  match q with
  | [a; b; c; d] =>
      Z.lor (Z.lor (Z.lor (Z.shiftl a 39) (Z.shiftl b 30)) (Z.shiftl c 21)) (Z.shiftl d 12)
  | _ => 0
  end.

(** The entry under which parent and child share a page. *)
Definition shared (e : Z) : Z :=
  if is_writable e then set (addr e) (as_cow (Z.land e 0xFFF)) else e.

Lemma is_writable_low e : is_writable (Z.land e 0xFFF) = is_writable e.
Proof. rewrite !is_writable_testbit, Z.land_spec, mask12_testbit by lia. apply andb_true_r. Qed.

Lemma addr_shared e : addr (shared e) = addr e.
Proof. unfold shared. destruct (is_writable e); [|done]. by rewrite addr_set, addr_idem. Qed.

Lemma as_cow_testbit e n :
  0 <= n < 12 ->
  Z.testbit (as_cow (Z.land e 0xFFF)) n = Z.testbit e n && negb (n =? 1) || (n =? 9).
Proof.
  intros Hn. unfold as_cow, COW, WRITABLE.
  rewrite lor_bit_testbit, ldiff_bit_testbit, Z.land_spec, mask12_testbit by lia.
  rewrite (proj2 (Z.ltb_lt n 12)), andb_true_r, !bool_decide_Zeqb by lia. done.
Qed.

Lemma shared_not_writable e : is_writable (shared e) = false.
Proof.
  unfold shared. destruct (is_writable e) eqn:E; [|done].
  rewrite is_writable_testbit, set_addr_testbit_low, as_cow_testbit by lia.
  cbn. by rewrite andb_false_r.
Qed.

Lemma canon_shared e : canon e -> canon (shared e).
Proof.
  intros He. unfold shared. destruct (is_writable e); [|done]. apply canon_set.
  rewrite as_cow_testbit by lia. destruct He as [_ He]. rewrite is_present_testbit in He.
  by rewrite He.
Qed.

(** ** Subtrees *)

Definition covered (S : list (list Z)) (q : list Z) : Prop := Exists (fun s => s `prefix_of` q) S.
#[export] Instance covered_dec S q : Decision (covered S q).
Proof. unfold covered. apply _. Defined.

Lemma covered_app S1 S2 q : covered (S1 ++ S2) q <-> covered S1 q \/ covered S2 q.
Proof. unfold covered. apply Exists_app. Qed.

Lemma covered_one s q : covered [s] q <-> s `prefix_of` q.
Proof.
  unfold covered. rewrite Exists_cons, Exists_nil. tauto.
Qed.

Lemma covered_children (p : list Z) js q :
  covered ((fun i => p ++ [i]) <$> js) q <-> exists i s, i ∈ js /\ q = p ++ i :: s.
Proof.
  unfold covered. rewrite Exists_exists. split.
  - intros (? & (i & -> & Hi)%list_elem_of_fmap & (s & ->)). exists i, s.
    split; [done|]. by rewrite <- app_assoc.
  - intros (i & s & Hi & ->). exists (p ++ [i]). split; [by apply list_elem_of_fmap; exists i|].
    exists s. by rewrite <- app_assoc.
Qed.

Section TreeFacts.
Context {m : gmap Z Z} {T M : tmap} (Tr : tree m T M).

Lemma leaf_shape r q e :
  M !! (r, q) = Some e ->
  exists a b c d, q = [a; b; c; d] /\ idx_ok [] a /\ idx_ok [a] b /\ idx_ok [a; b] c /\
    idx_ok [a; b; c] d /\ T !! (r, [a; b; c]) <> None /\ T !! (r, [a; b]) <> None /\
    T !! (r, [a]) <> None.
Proof.
  intros (p & d & t & -> & Ht & Hl & Hd)%(tr_mclosed _ _ _ Tr).
  destruct p as [|a [|b [|c [|? ?]]]]; try done.
  pose proof Ht as (t2 & H2 & _ & Hc)%(tr_tclosed _ _ _ Tr r [a; b] c).
  pose proof H2 as (t3 & H3 & _ & Hb)%(tr_tclosed _ _ _ Tr r [a] b).
  pose proof H3 as (t4 & H4 & _ & Ha)%(tr_tclosed _ _ _ Tr r [] a).
  exists a, b, c, d. split_and!; try done; congruence.
Qed.

(** Nothing is mapped below a missing table. *)
Lemma no_subtree r p s e :
  p <> [] -> (length p <= 3)%nat -> T !! (r, p) = None -> M !! (r, p ++ s) = Some e -> False.
Proof.
  intros Hne Hl Hn He. apply leaf_shape in He as (a & b & c & d & E & _ & _ & _ & _ & H3 & H2 & H1).
  destruct p as [|x [|y [|z [|? ?]]]]; cbn in *; try done; try lia; injection E; intros; subst; done.
Qed.
End TreeFacts.

(** ** The invariant of the loops *)

Lemma excl_share M k1 k2 e :
  M !! k1 = Some e -> M !! k2 = None -> excl M ->
  excl (<[k1 := shared e]> (<[k2 := shared e]> M)).
Proof.
  intros H1 H2 Hex.
  assert (forall k e', <[k1 := shared e]> (<[k2 := shared e]> M) !! k = Some e' ->
    e' = shared e \/ M !! k = Some e' /\ k <> k1) as Hl.
  { intros k e' [[<- <-]|[Hk1 [[<- <-]|[Hk2 Hk]]%lookup_insert_Some]]%lookup_insert_Some; auto. }
  assert (forall k e', M !! k = Some e' -> k <> k1 -> addr e' = addr e -> addr e / 4096 < 65536 ->
    is_writable e' = false) as Hother.
  { intros k e' Hk Hne E Hlt. by eapply (Hex k k1 e' e); try congruence. }
  intros ka kb ea eb Hne Ha Hb E Hlt.
  destruct (Hl _ _ Ha) as [->|[Ha' Hka]], (Hl _ _ Hb) as [->|[Hb' Hkb]];
    rewrite ?shared_not_writable, ?addr_shared in *.
  - done.
  - split; [done|]. by apply (Hother kb).
  - split; [|done]. apply (Hother ka); congruence.
  - by apply (Hex ka kb).
Qed.

(** ** Fork with every reference counted

    The code does not count the child's references to the pages of shared segments.  [counted]
    programs do; they are what the proof follows, and [lent] below relates the two. *)

Definition counted_leaf (stack : Z * Z) (shm : list (Z * Z)) (virt src_slot dst_slot l1e : Z) : prog kernel unit unit :=
  if existsb (in_range virt) shm then let? _ := share_frame (addr l1e) in store dst_slot l1e
  else fork_leaf stack [] virt src_slot dst_slot l1e.

Section CountedLoops.
Context (stack : Z * Z) (shm : list (Z * Z)).
Definition counted_l1 (i4 i3 i2 src_l1 dst_l1 : Z) : prog kernel unit unit :=
  for_each (seqZ 0 512) (fun i1 =>
    let? l1e := load (src_l1 + 8 * i1) in
    when_present l1e (counted_leaf stack shm (virt_of [i4; i3; i2; i1]) (src_l1 + 8 * i1) (dst_l1 + 8 * i1) l1e)).
Definition counted_l2 (i4 i3 src_l2 dst_l2 : Z) : prog kernel unit unit :=
  for_each (seqZ 0 512) (fun i2 =>
    let? l2e := load (src_l2 + 8 * i2) in
    when_present l2e (
      let? dst_l1 := fork_table (dst_l2 + 8 * i2) l2e in
      counted_l1 i4 i3 i2 (Z.land l2e ADDR_MASK) dst_l1)).
Definition counted_l3 (i4 src_l3 dst_l3 : Z) : prog kernel unit unit :=
  for_each (seqZ 0 512) (fun i3 =>
    let? l3e := load (src_l3 + 8 * i3) in
    when_present l3e (
      let? dst_l2 := fork_table (dst_l3 + 8 * i3) l3e in
      counted_l2 i4 i3 (Z.land l3e ADDR_MASK) dst_l2)).
Definition counted_l4 (src_l4 dst_l4 : Z) : prog kernel unit unit :=
  for_each (seqZ 0 256) (fun i4 =>
    let? l4e := load (src_l4 + 8 * i4) in
    when_present l4e (
      let? dst_l3 := fork_table (dst_l4 + 8 * i4) l4e in
      counted_l3 i4 (Z.land l4e ADDR_MASK) dst_l3)).
End CountedLoops.

Section Fork.
Context {c : kernel} {T M : tmap} {X : list Z} (src dst : Z) (stack : Z * Z) (shm : list (Z * Z)).
Context (m0 rc0 : gmap Z Z).
Context (Tr0 : tree m0 T M) (Hsrc : T !! (src, []) = Some src) (Hdst : T !! (dst, []) = Some dst).
Context (Hne : src <> dst).
Context (Hdst_leaf : forall q, M !! (dst, q) = None).
Context (Hdst_tab : forall p, p <> [] -> T !! (dst, p) = None).
Context (Hcap : forall f, 0 <= f < 65536 -> rd rc0 f + m_uses M f <= u16_max).

(** Data frames of all processes, with their contents before the fork. *)
Definition D0 (f : Z) : Prop := 0 <= f < 65536 /\ 1 <= m_uses M f.

Definition on_stack (q : list Z) : bool := in_range (virt_of q) stack.
Definition on_shm (q : list Z) : bool := existsb (in_range (virt_of q)) shm.

(** What becomes of the source leaf [oe] at path [q]: the parent's and the
    child's leaf. *)
Definition leaf_rel (D' : Z -> Prop) (v' : Z -> Z) (q : list Z) (oe os od : option Z) : Prop :=
  match oe with
  | None => os = None /\ od = None
  | Some e =>
      if on_shm q then os = Some e /\ od = Some e
      else if on_stack q then
        os = Some e /\ exists f, aligned f /\ od = Some (set f e) /\ m_uses M (f / 4096) = 0 /\
          D' (f / 4096) /\
          (addr e / 4096 < 65536 ->
           forall w, 0 <= w < 512 -> v' (f + 8 * w) = rd m0 (addr e + 8 * w))
      else os = Some (shared e) /\ od = Some (shared e)
  end.

Definition dst_uses (M' : tmap) (f : Z) : Z :=
  count (fun kv => kv.1.1 = dst /\ addr kv.2 / 4096 = f) M'.

Record fork_state (S : list (list Z)) (A : list (list Z * Z)) (T' M' : tmap) (D' : Z -> Prop)
    (v' : Z -> Z) (k : kernel) : Prop := {
  fs_T r p : r <> dst -> T' !! (r, p) = T !! (r, p);
  fs_A p t : (p, t) ∈ A -> T' !! (dst, p) = Some t;
  fs_dom p t : T' !! (dst, p) = Some t -> covered S p \/ p ∈ A.*1;
  fs_cov q : covered S q -> leaf_rel D' v' q (M !! (src, q)) (M' !! (src, q)) (M' !! (dst, q));
  fs_unc q : ~ covered S q -> M' !! (src, q) = M !! (src, q) /\ M' !! (dst, q) = None;
  fs_other r q : r <> src -> r <> dst -> M' !! (r, q) = M !! (r, q);
  fs_excl : shm = [] -> excl M -> excl M';
  fs_mono f : m_uses M f <= m_uses M' f;
  fs_rc f : 1 <= m_uses M f ->
    rd (refcount (frame_allocator k)) f <= rd rc0 f + dst_uses M' f;
  fs_D f : D0 f -> D' f;
  fs_v a : D0 (a / 4096) -> v' a = rd m0 a;
  fs_root : T' !! (dst, []) = Some dst;
  fs_st : st c T' M' X D' v' k;
}.

Definition inv S A k : Prop := exists T' M' D' v', fork_state S A T' M' D' v' k.

(** The child maps each frame at most as often as the parent does. *)
Lemma dst_uses_bound S A T' M' D' v' k q e :
  fork_state S A T' M' D' v' k -> ~ covered S q -> M !! (src, q) = Some e ->
  dst_uses M' (addr e / 4096) + 1 <= m_uses M (addr e / 4096).
Proof.
  intros F Hq He. set (f := addr e / 4096).
  assert (M' !! (dst, q) = None) as Hn by (by apply (fs_unc _ _ _ _ _ _ _ F)).
  assert (dst_uses M' f + 1 = dst_uses (<[(dst, q) := e]> M') f) as ->.
  { unfold dst_uses. rewrite count_insert by done. unfold one. by rewrite decide_True. }
  set (g := fun k : key => ((if decide (k.1 = dst) then src else if decide (k.1 = src) then dst else k.1), k.2)).
  apply (count_inj _ _ g).
  { intros [r1 q1] [r2 q2]. unfold g. cbn. intros [= E1 E2]. f_equal; [|done].
    repeat case_decide; congruence. }
  intros [r q'] e' Hk [E Ha]. cbn in E, Ha. subst r. unfold g. cbn. rewrite decide_True by done.
  apply lookup_insert_Some in Hk as [[[= <-] <-]|[Hk Hk']]; [by exists e|].
  destruct (decide (covered S q')) as [Hc|Hc].
  2: { apply (fs_unc _ _ _ _ _ _ _ F) in Hc as [_ Hc]. congruence. }
  pose proof (fs_cov _ _ _ _ _ _ _ F q' Hc) as Hrel. unfold leaf_rel in Hrel.
  destruct (M !! (src, q')) as [e0|] eqn:He0; [|destruct Hrel; congruence].
  exists e0. split; [done|]. cbn. destruct (on_shm q').
  { destruct Hrel as [_ E]. rewrite Hk' in E. by injection E as ->. }
  destruct (on_stack q').
  - destruct Hrel as (_ & f' & Hal & E & H0 & _). exfalso.
    rewrite Hk' in E. injection E as ->. rewrite addr_set, addr_aligned in Ha by done.
    pose proof (m_uses_in (M := M) _ _ He) as H1. fold f in H1. rewrite Ha in H0. lia.
  - destruct Hrel as [_ E]. rewrite Hk' in E. injection E as ->. by rewrite addr_shared in Ha.
Qed.

(** A subtree without source leaves is done. *)
Lemma inv_cover_empty S A k s :
  (forall q, s `prefix_of` q -> covered S q \/ M !! (src, q) = None) ->
  inv S A k -> inv (S ++ [s]) A k.
Proof.
  intros Hs (T' & M' & D' & v' & F). exists T', M', D', v'.
  destruct F as [F1 F2 F3 F4 F5 F6 F7 F8 F9 F10 F11 F12 F13]. split; try done.
  - intros p t Hp. rewrite covered_app. destruct (F3 p t Hp); auto.
  - intros q Hq. destruct (decide (covered S q)) as [|Hn]; [auto|].
    apply covered_app in Hq as [|Hq]; [done|]. apply covered_one in Hq.
    destruct (Hs q Hq) as [|E]; [done|]. destruct (F5 q Hn) as [E1 E2].
    unfold leaf_rel. rewrite E. split; congruence.
  - intros q Hq. apply F5. intros H. apply Hq, covered_app. by left.
Qed.

(** When all children of [p] are done, so is [p]. *)
Lemma inv_collapse S A k p t js :
  (length p <= 3)%nat -> (forall i, idx_ok p i -> i ∈ js) ->
  inv (S ++ ((fun i => p ++ [i]) <$> js)) ((p, t) :: A) k -> inv (S ++ [p]) A k.
Proof.
  intros Hl Hjs (T' & M' & D' & v' & F). exists T', M', D', v'.
  destruct F as [F1 F2 F3 F4 F5 F6 F7 F8 F9 F10 F11 F12 F13].
  assert (forall q, covered (S ++ ((fun i => p ++ [i]) <$> js)) q -> covered (S ++ [p]) q) as Hup.
  { intros q. rewrite !covered_app, covered_children, covered_one.
    intros [|(i & s & _ & ->)]; [by left|right]. by exists (i :: s). }
  split; try done.
  - intros p' t' Hp'. apply F2. by right.
  - intros p' t' Hp'. destruct (F3 p' t' Hp') as [H|H]; [left; by apply Hup|].
    cbn in H. apply elem_of_cons in H as [->|]; [|by right]. left.
    apply covered_app. right. by apply covered_one.
  - intros q Hq. destruct (decide (covered (S ++ ((fun i => p ++ [i]) <$> js)) q)) as [|Hn]; [auto|].
    destruct (F5 q Hn) as [E1 E2]. unfold leaf_rel.
    destruct (M !! (src, q)) as [e|] eqn:E; [exfalso|by split].
    rewrite covered_app, covered_children in Hn.
    apply covered_app in Hq as [|Hq%covered_one]; [tauto|]. destruct Hq as [s ->].
    apply (leaf_shape Tr0) in E as (a & b & cc & d & E & Ha & Hb & Hc & Hd & _).
    destruct s as [|i s].
    { rewrite app_nil_r in E. subst p. cbn in Hl. lia. }
    apply Hn. right. exists i, s. split; [|done]. apply Hjs.
    destruct p as [|x [|y [|z [|? ?]]]]; cbn in E, Hl; try lia;
      injection E as; subst; done.
  - intros q Hq. apply F5. intros H. by apply Hq, Hup.
Qed.

(** *** A table of the child *)

Lemma src_table S A T' M' D' v' k p t :
  fork_state S A T' M' D' v' k -> T !! (src, p) = Some t -> T' !! (src, p) = Some t.
Proof. intros F Ht. by rewrite (fs_T _ _ _ _ _ _ _ F) by done. Qed.

Lemma fork_table_step S A k p td i e :
  inv S A k -> (p, td) ∈ A -> (length p < 3)%nat -> idx_ok p i ->
  ~ covered S (p ++ [i]) -> p ++ [i] ∉ A.*1 ->
  is_present e = true -> Z.testbit e 7 = false ->
  exists res k', fork_table (td + 8 * i) e k = Ret (res, k') /\
    match res with Ok t => inv S ((p ++ [i], t) :: A) k' | Err _ => inv S A k' end.
Proof.
  intros (T' & M' & D' & v' & F) HA Hl Hi Hnc HnA He H7.
  pose proof (fs_st _ _ _ _ _ _ _ F) as S0. pose proof (fs_A _ _ _ _ _ _ _ F _ _ HA) as Hp.
  assert (T' !! (dst, p ++ [i]) = None) as Hnone.
  { destruct (T' !! (dst, p ++ [i])) eqn:E; [|done].
    by destruct (fs_dom _ _ _ _ _ _ _ F _ _ E). }
  unfold fork_table, pbind at 1, alloc_or, pbind at 1.
  destruct (alloc_frame_spec k S0) as [(a & k1 & _ & Ea & Hm & S1 & Hal & Hr & Hz & H1)|Ea];
    rewrite Ea; cbn -[zero_words].
  2: { eexists _, _. split; [reflexivity|]. by exists T', M', D', v'. }
  unfold pbind, zero_page, store, modify. cbn -[zero_words].
  exists (Ok a). eexists. split; [reflexivity|]. rewrite lor_is_set by done. rewrite Hm.
  rewrite is_present_testbit in He.
  destruct (st_hang k k1 dst p td i a (wr (zero_words (mem k) a) (td + 8 * i) (set a e))
    S0 S1 Hm Hal Hr Hz H1 Hp Hl Hi Hnone) as (Hext & Hlook & S2).
  - rewrite rd_wr_eq. unfold sub_table. by rewrite is_present_set, He, addr_set, addr_aligned.
  - rewrite rd_wr_eq. by rewrite set_addr_testbit_low by lia.
  - intros j Hj. rewrite rd_wr_ne; [by apply zero_words_in|]. intros E.
    apply (proj2 (fresh_facts k a S0 Hz) _ _ Hp).
    destruct (slot_inj td i a j) as [-> _]; try done; [|apply Hi].
    by eapply (table_aligned (st_counts _ _ _ _ _ _ _ S0)).
  - intros b Hb Hbne. rewrite rd_wr_ne by done. by apply zero_words_out.
  - exists (<[(dst, p ++ [i]) := a]> T'), M', D', v'.
    destruct F as [F1 F2 F3 F4 F5 F6 F7 F8 F9 F10 F11 F12 F13].
    split; try assumption.
    + intros r p' Hr'. rewrite lookup_insert_ne by congruence. by apply F1.
    + intros p' t' [[= -> ->]|Hin]%elem_of_cons; [done|].
      rewrite lookup_insert_ne; [by apply F2|]. intros [= E]. apply HnA. rewrite E.
      apply list_elem_of_fmap. by exists (p', t').
    + intros p' t' [[[= <-] <-]|[_ Hk]]%lookup_insert_Some.
      * right. left.
      * destruct (F3 _ _ Hk); [by left|]. right. by right.
    + intros f Hf. cbn [frame_allocator with_mem]. specialize (F9 f Hf). specialize (F8 f).
      rewrite (alloc_rc k a k1 f Ea); [done|]. intros ->.
      pose proof (t_uses_nonneg (T := T') (a / 4096)). pose proof (x_uses_nonneg X (a / 4096)). lia.
    + rewrite lookup_insert_ne; [done|]. intros [= E]. by destruct p.
Qed.

(** *** A leaf *)

(** The refcounts of the frames in use before the fork do not move with an
    allocation. *)
Lemma alloc_keeps_rc k (a : Z) k1 M' T' f :
  (forall E, alloc_frame (E := E) k = Ret (Ok (Some a), k1)) ->
  t_uses T' (a / 4096) + m_uses M' (a / 4096) + x_uses X (a / 4096) = 0 ->
  m_uses M f <= m_uses M' f -> 1 <= m_uses M f ->
  rd (refcount (frame_allocator k1)) f = rd (refcount (frame_allocator k)) f.
Proof.
  intros Ea Hz Hmono Hf. apply (alloc_rc k a); [done|]. intros ->.
  pose proof (t_uses_nonneg (T := T') (a / 4096)). pose proof (x_uses_nonneg X (a / 4096)). lia.
Qed.

(** Adding one leaf to each of parent and child keeps the other facts. *)
Lemma covered_snoc_other S q q' : q' <> q -> length q = 4%nat -> (forall s, M !! (src, q ++ s) <> None -> s = []) ->
  covered (S ++ [q]) q' -> ~ covered S q' -> M !! (src, q') = None.
Proof.
  intros Hqq Hl Hs [H|H%covered_one]%covered_app Hn; [done|]. destruct H as [s ->].
  destruct (M !! (src, q ++ s)) eqn:E; [|done]. exfalso. apply Hqq.
  rewrite (Hs s); [by rewrite app_nil_r|congruence].
Qed.

Lemma leaf_ext q s : length q = 4%nat -> M !! (src, q ++ s) <> None -> s = [].
Proof.
  intros Hl H. destruct (M !! (src, q ++ s)) as [e|] eqn:E; [|done].
  apply (leaf_shape Tr0) in E as (a & b & cc & d & E & _). apply (f_equal length) in E.
  rewrite length_app in E. cbn in E. destruct s; [done|cbn in E; lia].
Qed.

(** The state after the leaves at [q] became [es] and [ed]. *)
Lemma fork_leaf_done S A T' M' D' v' D'' v'' k k' q e es ed :
  fork_state S A T' M' D' v' k -> length q = 4%nat -> ~ covered S q -> M !! (src, q) = Some e ->
  let M'' := <[(src, q) := es]> (<[(dst, q) := ed]> M') in
  addr es = addr e -> leaf_rel D'' v'' q (Some e) (Some es) (Some ed) ->
  (shm = [] -> excl M' -> excl M'') ->
  (forall f, D' f -> D'' f) -> (forall a, D' (a / 4096) -> v'' a = v' a) ->
  (forall f, 1 <= m_uses M f -> rd (refcount (frame_allocator k')) f <= rd rc0 f + dst_uses M'' f) ->
  st c T' M'' X D'' v'' k' ->
  inv (S ++ [q]) A k'.
Proof.
  intros F Hl Hnc He M'' Hes Hrel Hex HD Hv Hrc S'. exists T', M'', D'', v''.
  pose proof F as [F1 F2 F3 F4 F5 F6 F7 F8 F9 F10 F11 F12 F13].
  destruct (F5 q Hnc) as [Hsq Hdq]. rewrite He in Hsq.
  assert (M'' !! (src, q) = Some es) as L1 by apply lookup_insert_eq.
  assert (M'' !! (dst, q) = Some ed) as L2.
  { unfold M''. rewrite lookup_insert_ne by congruence. apply lookup_insert_eq. }
  assert (forall r q', q' <> q -> M'' !! (r, q') = M' !! (r, q')) as L3.
  { intros r q' Hqq. unfold M''. by rewrite !lookup_insert_ne by congruence. }
  split; try done.
  - intros p t Hp. rewrite covered_app. destruct (F3 _ _ Hp); auto.
  - intros q' Hq'. destruct (decide (q' = q)) as [->|Hqq]; [by rewrite He, L1, L2|].
    rewrite !L3 by done. destruct (decide (covered S q')) as [Hc|Hc].
    + specialize (F4 q' Hc). unfold leaf_rel in *. destruct (M !! (src, q')) as [e0|]; [|done].
      destruct (on_shm q'); [done|]. destruct (on_stack q'); [|done]. destruct F4 as (? & f & Hal & ? & ? & HDf & Hw).
      split; [done|]. exists f. split_and!; auto. intros Hlt w Hw'.
      rewrite Hv; [by apply Hw|]. by rewrite slot_frame.
    + rewrite (covered_snoc_other S q q') by (done || intros s; by apply leaf_ext).
      destruct (F5 q' Hc) as [E1 E2]. split; [|done]. rewrite E1.
      by rewrite (covered_snoc_other S q q') by (done || intros s; by apply leaf_ext).
  - intros q' Hq'. assert (q' <> q) as Hqq.
    { intros ->. apply Hq', covered_app. right. by apply covered_one. }
    rewrite !L3 by done. apply F5. intros H. apply Hq', covered_app. by left.
  - intros r q' Hr1 Hr2. unfold M''. rewrite !lookup_insert_ne by congruence. by apply F6.
  - intros H0 H. by apply Hex, F7.
  - intros f. specialize (F8 f). unfold m_uses, M'' in *.
    rewrite (count_update _ _ _ e) by (rewrite lookup_insert_ne by congruence; done).
    rewrite count_insert by done. unfold one. cbn [snd]. rewrite Hes. repeat case_decide; lia.
  - intros f Hf. by apply HD, F10.
  - intros a Ha. rewrite Hv by (by apply F10). by apply F11.
Qed.

Section Leaf.
Context (S : list (list Z)) (A : list (list Z * Z)) (T' M' : tmap) (D' : Z -> Prop) (v' : Z -> Z).
Context (k : kernel) (p : list Z) (ts td i e : Z).
Context (F : fork_state S A T' M' D' v' k).
Context (Hl : length p = 3%nat) (Hi : idx_ok p i) (HA : (p, td) ∈ A) (Hts : T !! (src, p) = Some ts).
Context (Hnc : ~ covered S (p ++ [i])) (He : M !! (src, p ++ [i]) = Some e).
Let q := p ++ [i].

Lemma leaf_here : M' !! (src, q) = Some e /\ M' !! (dst, q) = None /\ canon e.
Proof.
  destruct (fs_unc _ _ _ _ _ _ _ F q Hnc) as [E1 E2]. unfold q in *. rewrite He in E1.
  split_and!; [done|done|]. by eapply (ct_canon _ _ _ _ (st_counts _ _ _ _ _ _ _ (fs_st _ _ _ _ _ _ _ F))).
Qed.

Lemma length_q : length q = 4%nat.
Proof. unfold q. rewrite length_app, Hl. done. Qed.

Lemma slots_distinct : ts + 8 * i <> td + 8 * i.
Proof.
  intros E. assert (ts = td) as Ets by lia. apply Hne.
  pose proof (fs_A _ _ _ _ _ _ _ F _ _ HA) as Hd.
  pose proof (src_table _ _ _ _ _ _ _ _ _ F Hts) as Hs.
  pose proof (table_inj (st_counts _ _ _ _ _ _ _ (fs_st _ _ _ _ _ _ _ F)) _ _ _ _ Hs Hd
    ltac:(by rewrite Ets)) as Eq. by injection Eq.
Qed.

(** A stack page is copied. *)
Lemma fork_stack_step :
  on_shm q = false -> on_stack q = true ->
  exists res k',
    (let? f := alloc_or tt in
     let? _ := copy_page (addr e) f in
     store (td + 8 * i) (Z.lor f (Z.land e 0xFFF))) k = Ret (res, k') /\
    match res with Ok _ => inv (S ++ [q]) A k' | Err _ => inv S A k' end.
Proof.
  intros Hsh Hst. pose proof (fs_st _ _ _ _ _ _ _ F) as S0. destruct leaf_here as (Hs & Hd & [Hce Hpe]).
  pose proof (fs_A _ _ _ _ _ _ _ F _ _ HA) as Htd.
  unfold pbind at 1, alloc_or, pbind at 1.
  destruct (alloc_frame_spec k S0) as [(f & k1 & _ & Ea & Hm & S1 & Hal & Hr & Hz & H1)|Ea];
    rewrite Ea; cbn -[copy_words].
  2: { eexists _, _. split; [reflexivity|]. by exists T', M', D', v'. }
  unfold pbind, copy_page, store, modify. cbn -[copy_words].
  exists (Ok tt). eexists. split; [reflexivity|]. rewrite lor_is_set by done.
  destruct (fresh_facts k f S0 Hz) as [HnD HnT].
  assert (m_uses M' (f / 4096) = 0 /\ x_uses X (f / 4096) = 0) as [Hm0 Hx0].
  { pose proof (t_uses_nonneg (T := T') (f / 4096)). pose proof (x_uses_nonneg X (f / 4096)).
    pose proof (m_uses_nonneg (M := M') (f / 4096)). lia. }
  set (k2 := with_mem k1 (copy_words (mem k1) (addr e) f)).
  set (D2 := fun g => D' g \/ g = f / 4096).
  set (v2 := fun a => if decide (a / 4096 = f / 4096) then rd (mem k2) a else v' a).
  assert (forall a, D' (a / 4096) -> v2 a = v' a) as Hv2.
  { intros a Ha. unfold v2. rewrite decide_False; [done|]. intros E. by rewrite E in Ha. }
  assert (st c T' M' (f :: X) D2 v2 k2) as S2.
  { pose proof S1 as [A1 A2 A3 A4 A5 A6]. split; cbn -[copy_words]; [done| |done| | |done].
    - apply (tree_frame A3 A2). intros key t a Ht Ha. apply copy_words_out; [done|].
      rewrite Ha. by eapply HnT.
    - intros g [Hg| ->]; [by apply A4|]. split; [done|].
      pose proof (m_uses_nonneg (M := M') (f / 4096)). pose proof (x_uses_in (f :: X) f ltac:(left)). lia.
    - intros a Ha. unfold v2. case_decide as E; [done|]. destruct Ha as [Ha|Ha]; [|done].
      rewrite copy_words_out by done. by apply A5. }
  assert (canon (set f e)) as Hcf by (apply canon_set; by rewrite <- is_present_testbit).
  assert (addr (set f e) = f) as Haf by (by rewrite addr_set, addr_aligned).
  assert (<[(src, q) := e]> (<[(dst, q) := set f e]> M') = <[(dst, q) := set f e]> M') as Hid.
  { apply insert_id. rewrite lookup_insert_ne by congruence. done. }
  eapply (fork_leaf_done S A T' M' D' v' D2 v2 k _ q e e (set f e)); try done.
  - apply length_q.
  - unfold leaf_rel. rewrite Hsh, Hst. split; [done|]. exists f. split_and!; [done|done| |by right|].
    + pose proof (fs_mono _ _ _ _ _ _ _ F (f / 4096)). pose proof (m_uses_nonneg (M := M) (f / 4096)). lia.
    + intros Hlt w Hw. unfold v2. rewrite slot_frame, decide_True by done. cbn -[copy_words].
      rewrite copy_words_in, Hm by done.
      assert (D0 (addr e / 4096)) as HD0.
      { split; [|by eapply m_uses_in].
        destruct (aligned_frame _ (aligned_addr e)). lia. }
      rewrite (st_data _ _ _ _ _ _ _ S0).
      * apply (fs_v _ _ _ _ _ _ _ F). rewrite slot_frame; [done|apply aligned_addr|done].
      * apply (fs_D _ _ _ _ _ _ _ F). rewrite slot_frame; [done|apply aligned_addr|done].
  - rewrite Hid. intros _ Hex. apply excl_insert_fresh; [done|]. by rewrite Haf.
  - intros g Hg. by left.
  - intros g Hg. cbn [frame_allocator with_mem k2].
    change (frame_allocator k2) with (frame_allocator k1).
    rewrite (alloc_keeps_rc k f k1 M' T' g Ea Hz (fs_mono _ _ _ _ _ _ _ F g) Hg).
    pose proof (fs_rc _ _ _ _ _ _ _ F g Hg). rewrite Hid. unfold dst_uses in *.
    rewrite count_insert by done. unfold one. case_decide; lia.
  - rewrite Hid. eapply (st_leaf_write (f :: X) k2 dst p td i); try done.
    + by destruct Hcf.
    + eapply counts_leaf; [apply S2|done|done|done].
    + intros g _. unfold m_uses. rewrite count_insert by done. unfold one. cbn [snd].
      rewrite x_uses_cons, Haf. lia.
Qed.

(** One more reference to the frame of the page. *)
Lemma share_counts : st c T' M' (addr e :: X) D' v' (with_fa k (inc_refcount (frame_allocator k) (addr e))).
Proof.
  pose proof (fs_st _ _ _ _ _ _ _ F) as S0. destruct leaf_here as (Hs & _ & _).
  assert (addr e / 4096 < 65536 -> rd (refcount (frame_allocator k)) (addr e / 4096) < u16_max) as Hlt.
  { intros Hlt. pose proof (m_uses_in (M := M) _ _ He) as Hu.
    destruct (aligned_frame _ (aligned_addr e)) as [_ H0].
    pose proof (fs_rc _ _ _ _ _ _ _ F _ Hu). pose proof (Hcap (addr e / 4096) ltac:(lia)).
    pose proof (dst_uses_bound _ _ _ _ _ _ _ _ _ F Hnc He). lia. }
  destruct S0 as [Q1 Q2 Q3 Q4 Q5 Q6].
  split; try done; [by eapply counts_share| |by eapply kernel_root_share].
  intros f Hf. rewrite x_uses_cons. specialize (Q4 f Hf). case_decide; lia.
Qed.

(** Any other page is shared. *)
Lemma fork_share_step :
  on_shm q = false -> on_stack q = false ->
  exists res k',
    (let? _ := share_frame (E := unit) (addr e) in
     let new_flags := if is_writable (Z.land e 0xFFF) then as_cow (Z.land e 0xFFF) else Z.land e 0xFFF in
     let? _ := store (td + 8 * i) (Z.lor (addr e) (Z.land new_flags 0xFFF)) in
     if negb (new_flags =? Z.land e 0xFFF)
     then store (ts + 8 * i) (Z.lor (addr e) (Z.land new_flags 0xFFF))
     else ok tt) k = Ret (res, k') /\
    match res with Ok _ => inv (S ++ [q]) A k' | Err _ => inv S A k' end.
Proof.
  intros Hsh Hst. pose proof (fs_st _ _ _ _ _ _ _ F) as S0. destruct leaf_here as (Hs & Hd & Hce).
  pose proof (fs_A _ _ _ _ _ _ _ F _ _ HA) as Htd.
  pose proof (src_table _ _ _ _ _ _ _ _ _ F Hts) as Hts'.
  rewrite is_writable_low.
  assert (Z.lor (addr e) (Z.land (if is_writable e then as_cow (Z.land e 0xFFF) else Z.land e 0xFFF) 0xFFF)
          = shared e) as Eval.
  { rewrite lor_is_set by apply aligned_addr. unfold shared. destruct (is_writable e); [done|].
    rewrite set_flags. symmetry. by apply canon_is_set. }
  assert (negb ((if is_writable e then as_cow (Z.land e 0xFFF) else Z.land e 0xFFF) =? Z.land e 0xFFF)
          = is_writable e) as Echg.
  { destruct (is_writable e) eqn:Hw; [|by rewrite Z.eqb_refl]. apply negb_true_iff, Z.eqb_neq.
    intros Eq. apply (f_equal (fun x => Z.testbit x 1)) in Eq.
    rewrite as_cow_testbit, Z.land_spec, mask12_testbit in Eq by lia.
    rewrite is_writable_testbit in Hw. by rewrite Hw in Eq. }
  cbv zeta. rewrite Eval, Echg.
  set (k1 := with_fa k (inc_refcount (frame_allocator k) (addr e))).
  set (k2 := with_mem k1 (wr (mem k1) (td + 8 * i) (shared e))).
  set (k3 := with_mem k2 (wr (mem k2) (ts + 8 * i) (shared e))).
  set (M1 := <[(dst, q) := shared e]> M'). set (M2 := <[(src, q) := shared e]> M1).
  pose proof share_counts as S1. fold k1 in S1.
  destruct (canon_shared e Hce) as [Hcs Hps].
  assert (st c T' M1 X D' v' k2) as S2.
  { eapply (st_leaf_write (addr e :: X) k1 dst p td i); try done.
    - eapply counts_leaf; [apply S1|done|by apply canon_shared|apply addr_shared].
    - intros f _. unfold m_uses, M1. rewrite count_insert by done. unfold one. cbn [snd].
      rewrite x_uses_cons, addr_shared. lia. }
  assert (M1 !! (src, q) = Some e) as HM1.
  { unfold M1. rewrite lookup_insert_ne by congruence. done. }
  assert (st c T' M2 X D' v' k3) as S3.
  { eapply (st_leaf_write X k2 src p ts i); try done.
    - eapply counts_reflag; [apply S2|exact HM1|by apply canon_shared|apply addr_shared].
    - intros f _. unfold m_uses, M2. rewrite (count_update _ M1 _ e) by done. unfold one. cbn [snd].
      rewrite addr_shared. lia. }
  assert (forall k', frame_allocator k' = frame_allocator k1 -> st c T' M2 X D' v' k' ->
            inv (S ++ [q]) A k') as Hdone.
  { intros k' Hfa S'. eapply (fork_leaf_done S A T' M' D' v' D' v' k k' q e (shared e) (shared e)); try done.
    - apply length_q.
    - apply addr_shared.
    - unfold leaf_rel. by rewrite Hsh, Hst.
    - intros _ Hex. by apply excl_share.
    - intros g Hg. rewrite Hfa. pose proof (fs_rc _ _ _ _ _ _ _ F g Hg) as Hrc.
      assert (dst_uses M2 g = dst_uses M' g + (if decide (addr e / 4096 = g) then 1 else 0)) as Hdu.
      { unfold dst_uses, M2. rewrite (count_update _ M1 _ e) by done. unfold M1.
        rewrite count_insert by done. unfold one. cbn [fst snd].
        rewrite !(decide_False (P := src = dst /\ _)) by tauto. rewrite addr_shared.
        repeat case_decide; naive_solver lia. }
      change (dst_uses (<[_ := _]> _) g) with (dst_uses M2 g). rewrite Hdu.
      cbn. unfold inc_refcount. destruct (Z.ltb_spec (addr e / 4096) 65536).
      + cbn. rewrite rd_wr. unfold sat_add. case_decide; subst; lia.
      + case_decide; lia. }
  unfold pbind, share_frame, store, modify. fold k1. fold k2.
  destruct (is_writable e) eqn:Hw.
  - exists (Ok tt), k3. split; [done|]. by apply Hdone.
  - exists (Ok tt), k2. split; [done|]. apply Hdone; [done|].
    assert (M2 = M1) as ->; [|done]. apply insert_id. rewrite HM1. unfold shared. by rewrite Hw.
Qed.

(** A page of a segment is shared as it is. *)
Lemma fork_shm_step :
  on_shm q = true ->
  exists res k',
    (let? _ := share_frame (E := unit) (addr e) in store (td + 8 * i) e) k = Ret (res, k') /\
    match res with Ok _ => inv (S ++ [q]) A k' | Err _ => inv S A k' end.
Proof.
  intros Hsh. destruct leaf_here as (Hs & Hd & Hce). pose proof (fs_A _ _ _ _ _ _ _ F _ _ HA) as Htd.
  pose proof share_counts as S1. set (k1 := with_fa k (inc_refcount (frame_allocator k) (addr e))) in *.
  exists (Ok tt), (with_mem k1 (wr (mem k1) (td + 8 * i) e)). split; [done|].
  assert (<[(src, q) := e]> (<[(dst, q) := e]> M') = <[(dst, q) := e]> M') as Hid.
  { apply insert_id. rewrite lookup_insert_ne by congruence. done. }
  eapply (fork_leaf_done S A T' M' D' v' D' v' k _ q e e e); try done.
  - apply length_q.
  - unfold leaf_rel. by rewrite Hsh.
  - intros Hnil. exfalso. unfold on_shm in Hsh. by rewrite Hnil in Hsh.
  - intros g Hg. rewrite Hid. pose proof (fs_rc _ _ _ _ _ _ _ F g Hg) as Hrc.
    assert (dst_uses (<[(dst, q) := e]> M') g = dst_uses M' g + (if decide (addr e / 4096 = g) then 1 else 0)) as ->.
    { unfold dst_uses. rewrite count_insert by done. unfold one. cbn [fst snd]. repeat case_decide; naive_solver lia. }
    cbn. unfold inc_refcount. destruct (Z.ltb_spec (addr e / 4096) 65536).
    + cbn. rewrite rd_wr. unfold sat_add. case_decide; subst; lia.
    + case_decide; lia.
  - rewrite Hid. destruct Hce as [Hc Hp]. eapply (st_leaf_write (addr e :: X) k1 dst p td i); try done.
    + eapply counts_leaf; [apply S1|done|done|done].
    + intros f _. unfold m_uses. rewrite count_insert by done. unfold one. cbn [snd]. rewrite x_uses_cons. lia.
Qed.

Lemma fork_leaf_step :
  exists res k', counted_leaf stack shm (virt_of q) (ts + 8 * i) (td + 8 * i) e k = Ret (res, k') /\
    match res with Ok _ => inv (S ++ [q]) A k' | Err _ => inv S A k' end.
Proof.
  unfold counted_leaf. fold (on_shm q). destruct (on_shm q) eqn:Hsh; [by apply fork_shm_step|].
  unfold fork_leaf. cbn [existsb]. fold (on_stack q).
  destruct (on_stack q) eqn:Hst; [by apply fork_stack_step|by apply fork_share_step].
Qed.
End Leaf.

(** *** One loop *)

Definition aborted (k : kernel) : Prop := exists S A, inv S A k.
Definition disjoint_from (S : list (list Z)) (p : list Z) : Prop := forall t, ~ covered S (p ++ t).
Definition children (p : list Z) (js : list Z) : list (list Z) := (fun i => p ++ [i]) <$> js.

Lemma disjoint_child S p done i :
  disjoint_from S p -> i ∉ done -> disjoint_from (S ++ children p done) (p ++ [i]).
Proof.
  intros HS Hi t [H|H]%covered_app.
  - apply (HS (i :: t)). by rewrite <- app_assoc in H.
  - apply covered_children in H as (j & s & Hj & E). rewrite <- app_assoc in E.
    apply app_inv_head in E. injection E as -> _. done.
Qed.

(** What the loop reads at index [i] of the source table. *)
Lemma source_entry S A k p ts i :
  inv S A k -> T !! (src, p) = Some ts -> (length p <= 3)%nat -> idx_ok p i -> ~ covered S (p ++ [i]) ->
  let e := rd (mem k) (ts + 8 * i) in
  if is_present e then
    ((length p < 3)%nat -> T !! (src, p ++ [i]) = Some (addr e) /\ Z.testbit e 7 = false) /\
    (length p = 3%nat -> M !! (src, p ++ [i]) = Some e)
  else forall q, (p ++ [i]) `prefix_of` q -> M !! (src, q) = None.
Proof.
  intros (T' & M' & D' & v' & F) Ht Hl Hi Hnc e.
  pose proof (st_tree _ _ _ _ _ _ _ (fs_st _ _ _ _ _ _ _ F)) as Tr.
  pose proof (src_table _ _ _ _ _ _ _ _ _ F Ht) as Ht'.
  assert ((length p < 3)%nat -> T !! (src, p ++ [i]) = sub_table e) as HT.
  { intros Hl'. rewrite <- (fs_T _ _ _ _ _ _ _ F) by done. by apply (tr_table _ _ _ Tr). }
  assert (length p = 3%nat -> M !! (src, p ++ [i]) = leaf e) as HM.
  { intros Hl'. destruct (fs_unc _ _ _ _ _ _ _ F _ Hnc) as [<- _]. by apply (tr_leaf _ _ _ Tr). }
  unfold sub_table, leaf in *. destruct (is_present e) eqn:He.
  - split; [|done]. intros Hl'. split; [by apply HT|]. by apply (tr_small _ _ _ Tr src p).
  - intros q [s ->]. destruct (decide (length p = 3%nat)) as [Hl3|Hl3].
    + specialize (HM Hl3). destruct (M !! (src, (p ++ [i]) ++ s)) eqn:E; [|done].
      rewrite (leaf_ext (p ++ [i]) s), app_nil_r in E; [congruence|rewrite length_app; cbn; lia|congruence].
    + destruct (M !! (src, (p ++ [i]) ++ s)) eqn:E; [exfalso|done].
      eapply (no_subtree Tr0 src (p ++ [i]) s); [by destruct p|rewrite length_app; cbn; lia| |done].
      apply HT. lia.
Qed.

Lemma fork_level S A p ts td js (sub : Z -> Z -> prog kernel unit unit) :
  T !! (src, p) = Some ts -> (length p <= 3)%nat -> (forall i, idx_ok p i <-> i ∈ js) -> NoDup js ->
  disjoint_from S p ->
  (forall done i k, i ∈ js -> i ∉ done ->
     let e := rd (mem k) (ts + 8 * i) in
     inv (S ++ children p done) ((p, td) :: A) k -> is_present e = true ->
     ((length p < 3)%nat -> T !! (src, p ++ [i]) = Some (addr e) /\ Z.testbit e 7 = false) ->
     (length p = 3%nat -> M !! (src, p ++ [i]) = Some e) ->
     exists res k', sub i e k = Ret (res, k') /\
       match res with
       | Ok _ => inv ((S ++ children p done) ++ [p ++ [i]]) ((p, td) :: A) k'
       | Err _ => aborted k'
       end) ->
  forall k, inv S ((p, td) :: A) k ->
  exists res k',
    for_each js (fun i => let? e := load (ts + 8 * i) in when_present e (sub i e)) k = Ret (res, k') /\
    match res with Ok _ => inv (S ++ [p]) A k' | Err _ => aborted k' end.
Proof.
  intros Ht Hl Hjs Hnd Hdis Hsub k HI.
  pose proof (triple_for_each (fun done => inv (S ++ children p done) ((p, td) :: A))
    (fun _ => aborted) js (fun i => let? e := load (ts + 8 * i) in when_present e (sub i e))) as Hloop.
  destruct Hloop with (w := k) as (res & k' & E & H).
  - intros done i rest Ejs k1 HI1. rewrite Ejs in Hnd.
    apply NoDup_app in Hnd as (_ & Hnin & _).
    assert (i ∉ done) as Hi by (intros Hin; apply (Hnin i Hin); left).
    assert (i ∈ js) as Hijs by (rewrite Ejs; apply elem_of_app; right; left).
    pose proof (proj2 (Hjs i) Hijs) as Hok.
    assert (~ covered (S ++ children p done) (p ++ [i])) as Hnc.
    { intros Hc. apply (disjoint_child S p done i Hdis Hi []). by rewrite app_nil_r. }
    pose proof (source_entry _ _ _ _ _ _ HI1 Ht Hl Hok Hnc) as Hsrce. cbn zeta in Hsrce.
    unfold pbind, load, when_present. rewrite land1_present.
    assert (S ++ children p (done ++ [i]) = (S ++ children p done) ++ [p ++ [i]]) as ->.
    { unfold children. rewrite fmap_app, app_assoc. done. }
    destruct (is_present (rd (mem k1) (ts + 8 * i))) eqn:Hp; cbn [negb].
    + destruct Hsrce as [H1 H2].
      destruct (Hsub done i k1 Hijs Hi HI1 Hp H1 H2) as (res & k' & E & H).
      exists res, k'. split; [done|]. by destruct res.
    + exists (Ok tt), k1. split; [done|]. apply inv_cover_empty; [|done].
      intros q Hq. right. by apply Hsrce.
  - unfold children. by rewrite app_nil_r.
  - exists res, k'. split; [done|]. destruct res; [|done].
    eapply inv_collapse; [done| |exact H]. intros i. by rewrite Hjs.
Qed.

Lemma seqZ_idx x p i : idx_ok (x :: p) i <-> i ∈ seqZ 0 512.
Proof. rewrite elem_of_seqZ. unfold idx_ok. split; [lia|]. intros; split; [lia|done]. Qed.
Lemma seqZ_idx0 i : idx_ok [] i <-> i ∈ seqZ 0 256.
Proof. rewrite elem_of_seqZ. unfold idx_ok. split; [intros [? H]; specialize (H eq_refl); lia|]. intros; split; lia. Qed.

(** One loop with a table below: [inner] handles the loop over the child table. *)
Lemma fork_table_level S A p ts td js (inner : Z -> Z -> Z -> prog kernel unit unit) :
  T !! (src, p) = Some ts -> (length p < 3)%nat -> (forall i, idx_ok p i <-> i ∈ js) -> NoDup js ->
  disjoint_from S p -> (forall a, a ∈ A.*1 -> (length a <= length p)%nat) ->
  (forall S' i t' td' k, disjoint_from S' (p ++ [i]) -> T !! (src, p ++ [i]) = Some t' ->
     inv S' ((p ++ [i], td') :: (p, td) :: A) k ->
     exists res k', inner i t' td' k = Ret (res, k') /\
       match res with Ok _ => inv (S' ++ [p ++ [i]]) ((p, td) :: A) k' | Err _ => aborted k' end) ->
  forall k, inv S ((p, td) :: A) k ->
  exists res k',
    for_each js (fun i => let? e := load (ts + 8 * i) in
      when_present e (let? d := fork_table (td + 8 * i) e in inner i (addr e) d)) k = Ret (res, k') /\
    match res with Ok _ => inv (S ++ [p]) A k' | Err _ => aborted k' end.
Proof.
  intros Ht Hl Hjs Hnd Hdis HA Hin. apply fork_level; try done; [lia|].
  intros done i k Hijs Hi e HI Hp H1 _. destruct (H1 Hl) as [Hsub H7].
  pose proof (disjoint_child S p done i Hdis Hi) as Hdis'.
  destruct (fork_table_step _ _ k p td i e HI) as (res & k1 & E & H); try done.
  - left.
  - by apply Hjs.
  - intros Hc. apply (Hdis' []). by rewrite app_nil_r.
  - cbn. intros [E|Hin']%elem_of_cons.
    + apply (f_equal length) in E. rewrite length_app in E. cbn in E. lia.
    + apply HA in Hin'. rewrite length_app in Hin'. cbn in Hin'. lia.
  - unfold pbind. rewrite E. destruct res as [d|u].
    + destruct (Hin (S ++ children p done) i (addr e) d k1 Hdis' Hsub H) as (res & k' & E' & H').
      exists res, k'. split; [done|]. done.
    + exists (Err u), k1. split; [done|]. by eexists _, _.
Qed.

(** *** The four loops *)

Lemma fork_loops k :
  inv [] [([], dst)] k ->
  exists res k', counted_l4 stack shm src dst k = Ret (res, k') /\
    match res with Ok _ => inv ([] ++ [[]]) [] k' | Err _ => aborted k' end.
Proof.
  intros HI.
  apply (fork_table_level [] [] [] src dst (seqZ 0 256) (counted_l3 stack shm));
    [done|cbn; lia|apply seqZ_idx0|apply NoDup_seqZ| |intros a Ha; by apply elem_of_nil in Ha| |exact HI].
  { intros t H. by apply Exists_nil in H. }
  intros S3 i4 src_l3 dst_l3 k3 Hd3 Ht3 HI3.
  apply (fork_table_level S3 [([], dst)] [i4] src_l3 dst_l3 (seqZ 0 512) (counted_l2 stack shm i4));
    [done|cbn; lia|apply seqZ_idx|apply NoDup_seqZ|done| | |exact HI3].
  { intros a Ha. cbn in Ha. apply list_elem_of_singleton in Ha as ->. cbn. lia. }
  intros S2 i3 src_l2 dst_l2 k2 Hd2 Ht2 HI2.
  apply (fork_table_level S2 [([i4], dst_l3); ([], dst)] [i4; i3] src_l2 dst_l2 (seqZ 0 512)
           (counted_l1 stack shm i4 i3));
    [done|cbn; lia|apply seqZ_idx|apply NoDup_seqZ|done| | |exact HI2].
  { intros a Ha. cbn in Ha. rewrite !elem_of_cons in Ha. cbn.
    destruct Ha as [->|[->|Ha%elem_of_nil]]; cbn; [lia|lia|done]. }
  intros S1 i2 src_l1 dst_l1 k1 Hd1 Ht1 HI1.
  apply (fork_level S1 _ [i4; i3; i2] src_l1 dst_l1 (seqZ 0 512) (fun i1 l1e =>
    counted_leaf stack shm (virt_of [i4; i3; i2; i1]) (src_l1 + 8 * i1) (dst_l1 + 8 * i1) l1e));
    [done|cbn; lia|apply seqZ_idx|apply NoDup_seqZ|done| |exact HI1].
  intros done i1 k0 Hijs Hi e HI0 Hp _ Hleaf.
  pose proof HI0 as (T' & M' & D' & v' & F).
  destruct (fork_leaf_step _ _ T' M' D' v' k0 [i4; i3; i2] src_l1 dst_l1 i1 e F)
    as (res & k' & E & H); try done.
  - by apply seqZ_idx.
  - left.
  - intros Hc. apply (disjoint_child S1 [i4; i3; i2] done i1 Hd1 Hi []). done.
  - by apply Hleaf.
  - exists res, k'. split; [exact E|]. destruct res; [done|]. by eexists _, _.
Qed.
End Fork.


(** ** The whole operation *)

Section CowFork.
Context {c : kernel} {T M : tmap} {X : list Z} (src : Z) (stack : Z * Z) (shm : list (Z * Z)).

(** What a successful fork makes of [T] and [M], and what a failed one. *)
Definition fork_done (k k' : kernel) (dst : Z) : Prop :=
  T !! (dst, []) = None /\ dst <> src /\
  exists T' M' D' v',
    (forall r p, r <> dst -> T' !! (r, p) = T !! (r, p)) /\ T' !! (dst, []) = Some dst /\
    (forall q, leaf_rel (M := M) stack shm (mem k) D' v' q (M !! (src, q)) (M' !! (src, q)) (M' !! (dst, q))) /\
    (forall r q, r <> src -> r <> dst -> M' !! (r, q) = M !! (r, q)) /\
    (shm = [] -> excl M -> excl M') /\
    (forall f, D0 (M := M) f -> D' f) /\ (forall a, D0 (M := M) (a / 4096) -> v' a = rd (mem k) a) /\
    st c T' M' X D' v' k'.

Definition fork_failed (k k' : kernel) : Prop :=
  exists T' M',
    (forall r, T !! (r, []) = Some r -> T' !! (r, []) = Some r) /\
    (forall r q, r <> src -> T !! (r, []) = Some r -> M' !! (r, q) = M !! (r, q)) /\
    (forall q, M' !! (src, q) = M !! (src, q) \/ M' !! (src, q) = shared <$> M !! (src, q)) /\
    (shm = [] -> excl M -> excl M') /\ st c T' M' X (D0 (M := M)) (rd (mem k)) k'.

Lemma st_weaken_D T' M' D' v' k k' :
  (forall f, D0 (M := M) f -> D' f) -> (forall a, D0 (M := M) (a / 4096) -> v' a = rd (mem k) a) ->
  st c T' M' X D' v' k' -> st c T' M' X (D0 (M := M)) (rd (mem k)) k'.
Proof.
  intros HD Hv [S1 S2 S3 S4 S5 S6]. split; try done.
  - intros f Hf. by apply S4, HD.
  - intros a Ha. rewrite <- Hv by done. by apply S5, HD.
Qed.

(** The whole fork, every reference counted. *)
Definition counted_fork (kernel_l4 : Z) : prog kernel unit Z :=
  let? dst := new_root kernel_l4 in
  let? _ := counted_l4 stack shm src dst in ok dst.

Lemma counted_fork_spec k ptm :
  st c T M X (D0 (M := M)) (rd (mem k)) k -> T !! (src, []) = Some src ->
  aligned (l4_table_phys ptm) -> is_free (frame_allocator k) (l4_table_phys ptm / 4096) = false ->
  (forall f, 0 <= f < 65536 -> rd (refcount (frame_allocator k)) f + m_uses M f <= u16_max) ->
  exists res k', counted_fork (l4_table_phys ptm) k = Ret (res, k') /\
    match res with Ok dst => fork_done k k' dst | Err _ => fork_failed k k' end.
Proof.
  intros S Hsrc Hal Hused Hcap. unfold counted_fork.
  destruct (new_root_spec _ k S Hal Hused) as ([dst|u] & k1 & E1 & H1);
    unfold pbind at 1; rewrite E1.
  2: { exists (Err u), k1. split; [done|]. exists T, M. split_and!; auto. }
  destruct H1 as (Hn & S1 & _ & Hrc1). set (T1 := <[(dst, []) := dst]> T) in *.
  assert (src <> dst) as Hne by congruence.
  destruct (no_root _ _ _ _ (st_tree _ _ _ _ _ _ _ S) Hn) as [HnT HnM].
  assert (T1 !! (src, []) = Some src) as Hsrc1
    by (unfold T1; by rewrite lookup_insert_ne by congruence).
  assert (T1 !! (dst, []) = Some dst) as Hdst1 by apply lookup_insert_eq.
  assert (forall f, 0 <= f < 65536 ->
            rd (refcount (frame_allocator k1)) f + m_uses M f <= u16_max) as Hcap1.
  { intros f Hf. destruct (decide (m_uses M f = 0)) as [E0|E0].
    { rewrite E0. pose proof (wf_range _ (ct_wf _ _ _ _ (st_counts _ _ _ _ _ _ _ S1)) f). lia. }
    pose proof (m_uses_nonneg (M := M) f). specialize (Hcap f Hf).
    rewrite Hrc1; lia. }
  assert (inv (c := c) (T := T1) (M := M) (X := X) src dst stack shm (mem k1)
            (refcount (frame_allocator k1)) [] [([], dst)] k1) as HI.
  { exists T1, M, (D0 (M := M)), (rd (mem k1)). split; try done.
    - intros p t Hp. apply list_elem_of_singleton in Hp as [= -> ->]. done.
    - intros p t Hp. right. unfold T1 in Hp.
      apply lookup_insert_Some in Hp as [[[= <-] _]|[_ Hp]]; [left|by rewrite HnT in Hp].
    - intros q Hq. by apply Exists_nil in Hq.
    - intros f Hf. pose proof (count_nonneg (fun kv : key * Z => kv.1.1 = dst /\ addr kv.2 / 4096 = f) M).
      unfold dst_uses. lia.
    - destruct S1 as [Q1 Q2 Q3 Q4 Q5 Q6]. by split. }
  destruct (fork_loops (c := c) (T := T1) (M := M) (X := X) src dst stack shm (mem k1)
    (refcount (frame_allocator k1)) (st_tree _ _ _ _ _ _ _ S1) Hsrc1 Hne Hcap1 k1 HI)
    as ([[]|u] & k' & E' & H'); unfold pbind; rewrite E'.
  - destruct H' as (T' & M' & D' & v' & F). exists (Ok dst), k'. split; [done|].
    assert (forall q, covered ([] ++ [[]]) q) as Hcov
      by (intros q; apply covered_one; apply prefix_nil).
    destruct F as [F1 F2 F3 F4 F5 F6 F7 F8 F9 F10 F11 F12 F13].
    split; [done|]. split; [done|]. exists T', M', D', v'.
    split; [|split; [done|split; [|split; [done|split; [done|split; [done|split; [|done]]]]]]].
    + intros r p Hr. rewrite F1 by done. unfold T1. by rewrite lookup_insert_ne by congruence.
    + intros q. specialize (F4 q (Hcov q)). unfold leaf_rel in *.
      destruct (M !! (src, q)) as [e|] eqn:He; [|done]. destruct (on_shm shm q); [done|]. destruct (on_stack stack q); [|done].
      destruct F4 as (? & f & ? & ? & ? & ? & Hw). split; [done|]. exists f. split_and!; try done.
      intros Hlt w Hw'. rewrite Hw by done. apply (st_data _ _ _ _ _ _ _ S1).
      rewrite slot_frame; [|apply aligned_addr|done]. split; [|by eapply m_uses_in].
      destruct (aligned_frame _ (aligned_addr e)). lia.
    + intros a Ha. rewrite F11 by done. by apply (st_data _ _ _ _ _ _ _ S1).
  - exists (Err u), k'. split; [done|]. destruct H' as (S' & A' & T' & M' & D' & v' & F).
    destruct F as [F1 F2 F3 F4 F5 F6 F7 F8 F9 F10 F11 F12 F13]. exists T', M'.
    assert (forall r, T !! (r, []) = Some r -> r <> dst) as Hrd by (intros r Hr ->; congruence).
    split; [|split; [|split; [|split; [done|]]]].
    + intros r Hr. rewrite F1 by auto. unfold T1. rewrite lookup_insert_ne; [done|].
      intros [= <-]. by apply (Hrd dst).
    + intros r q Hr1 Hr. apply F6; auto.
    + intros q. destruct (decide (covered S' q)) as [Hc|Hc].
      * specialize (F4 q Hc). unfold leaf_rel in F4. destruct (M !! (src, q)) as [e|]; [|by left; destruct F4].
        destruct (on_shm shm q); [left; by destruct F4|]. destruct (on_stack stack q); [left; by destruct F4|right; by destruct F4].
      * left. by apply F5.
    + eapply st_weaken_D; [exact F10| |exact F13].
      intros a Ha. rewrite F11 by done. by apply (st_data _ _ _ _ _ _ _ S1).
Qed.
End CowFork.

(** ** The code and the counted programs

    [lend rc k] is [k] with other reference counts.  Forking never looks at a count, so that the
    code, which counts less, does in [lend rc k] what the counted program does in [k]. *)

Definition lend (rc : gmap Z Z) (k : kernel) : kernel :=
  let fa := frame_allocator k in
  with_fa k (mkFA (bitmap fa) rc (next_frame fa) (total_frames fa) (allocated_frames fa)).

Lemma lend_same k : lend (refcount (frame_allocator k)) k = k.
Proof. by destruct k as [m []]. Qed.

Definition sim {E A} (p pg : prog kernel E A) : Prop :=
  forall rc k r k', pg k = Ret (r, k') -> exists rc', p (lend rc k) = Ret (r, lend rc' k').

Lemma sim_ok {E A} (a : A) : sim (E := E) (ok a) (ok a).
Proof. intros rc k r k' [= <- <-]. by exists rc. Qed.
Lemma sim_err {E A} (e : E) : sim (A := A) (err e) (err e).
Proof. intros rc k r k' [= <- <-]. by exists rc. Qed.
Lemma sim_bind {E A B} (p pg : prog kernel E A) (f fg : A -> prog kernel E B) :
  sim p pg -> (forall a, sim (f a) (fg a)) -> sim (let? x := p in f x) (let? x := pg in fg x).
Proof.
  intros Hp Hf rc k r k' E1. unfold pbind in *. destruct (pg k) as [[[a|e] k1]|] eqn:Ep; [| |done];
    destruct (Hp rc k _ _ Ep) as [rc1 ->]; [by eapply Hf|]. injection E1 as <- <-. by exists rc1.
Qed.
Lemma sim_for_each {E X} (xs : list X) (f fg : X -> prog kernel E unit) :
  (forall x, sim (f x) (fg x)) -> sim (for_each xs f) (for_each xs fg).
Proof. intros Hf. induction xs as [|x xs IH]; cbn [for_each]; [apply sim_ok|]. by apply sim_bind. Qed.
Lemma sim_present e (p pg : prog kernel unit unit) : sim p pg -> sim (when_present e p) (when_present e pg).
Proof. intros Hp. unfold when_present. destruct (_ =? _); [apply sim_ok|done]. Qed.

Lemma sim_load {E} a : sim (E := E) (load a) (load a).
Proof. intros rc k r k' [= <- <-]. by exists rc. Qed.
Lemma sim_store {E} a v : sim (E := E) (store a v) (store a v).
Proof. intros rc k r k' [= <- <-]. by exists rc. Qed.
Lemma sim_zero {E} a : sim (E := E) (zero_page a) (zero_page a).
Proof. intros rc k r k' [= <- <-]. by exists rc. Qed.
Lemma sim_copy {E} a b : sim (E := E) (copy_page a b) (copy_page a b).
Proof. intros rc k r k' [= <- <-]. by exists rc. Qed.
Lemma sim_share {E} a : sim (E := E) (share_frame a) (share_frame a).
Proof.
  intros rc k r k' [= <- <-]. unfold share_frame, modify, inc_refcount. cbn [frame_allocator lend with_fa].
  destruct (_ <? _); [|by exists rc]. eexists. done.
Qed.
(** A count the code leaves out. *)
Lemma sim_uncounted {E A} a (p pg : prog kernel E A) : sim p pg -> sim p (let? _ := share_frame a in pg).
Proof.
  intros Hp rc k r k' E1. unfold pbind, share_frame, modify in E1.
  destruct (Hp rc _ _ _ E1) as [rc' E2]. exists rc'. rewrite <- E2. f_equal. unfold lend, inc_refcount. cbn. by destruct (_ <? _).
Qed.
Lemma find_free_lend fa rc start i n :
  find_free (mkFA (bitmap fa) rc (next_frame fa) (total_frames fa) (allocated_frames fa)) start i n = find_free fa start i n.
Proof. revert i. induction n as [|n IH]; intros i; [done|]. cbn [find_free]. cbv zeta. rewrite IH. reflexivity. Qed.
Lemma sim_alloc {E} : sim (E := E) alloc_frame alloc_frame.
Proof.
  intros rc k r k' E1. unfold alloc_frame, allocate_frame in *. cbn [frame_allocator lend with_fa next_frame total_frames].
  rewrite find_free_lend. destruct (find_free _ _ _ _) as [f|]; injection E1 as <- <-; [|by exists rc].
  unfold mark_used. destruct (f <? 65536); eexists; reflexivity.
Qed.

Ltac sims := repeat match goal with
  | |- sim (for_each _ _) _ => apply sim_for_each; intros ?
  | |- sim (pbind _ _) _ => apply sim_bind; [|intros ?]
  | |- sim (when_present _ _) _ => apply sim_present
  | |- sim (match ?x with _ => _ end) _ => destruct x
  | |- sim (ok _) _ => apply sim_ok
  | |- sim (err _) _ => apply sim_err
  | |- sim (load _) _ => apply sim_load
  | |- sim (store _ _) _ => apply sim_store
  | |- sim (zero_page _) _ => apply sim_zero
  | |- sim (copy_page _ _) _ => apply sim_copy
  | |- sim (share_frame _) _ => apply sim_share
  | |- sim alloc_frame _ => apply sim_alloc
  end.

Lemma sim_leaf stack shm virt s d e : sim (fork_leaf stack shm virt s d e) (counted_leaf stack shm virt s d e).
Proof.
  unfold counted_leaf, fork_leaf at 1. destruct (existsb (in_range virt) shm); [apply sim_uncounted, sim_store|].
  unfold fork_leaf. cbn [existsb]. cbv zeta. unfold alloc_or. sims.
Qed.

Lemma sim_loops stack shm s d : sim (fork_l4 stack shm s d) (counted_l4 stack shm s d).
Proof. unfold fork_l4, counted_l4, fork_l3, counted_l3, fork_l2, counted_l2, fork_l1, counted_l1, fork_table, alloc_or. sims; apply sim_leaf. Qed.

(** The code, in terms of the root it makes and the loops. *)
Lemma cow_fork_unfold stack shm src k ptm : initialized k = true -> page_table_manager k = Some ptm ->
  cow_fork_user_page_table stack shm src k =
    (let? dst := new_root (l4_table_phys ptm) in
     let? _ := fork_l4 stack shm src dst in ok dst) k.
Proof.
  intros Hini Hptm. unfold cow_fork_user_page_table, new_root. unfold pbind at 1, ready at 1, pbind at 1, get at 1.
  rewrite Hini, Hptm. cbn [negb ok]. unfold pbind.
  destruct (alloc_or tt k) as [[[a|u] k2]|]; [|done..].
  destruct (for_each (seqZ 0 256) _ k2) as [[[[]|u] k3]|]; [|done..].
  by destruct (for_each (seqZ 256 256) _ k3) as [[[[]|u] k4]|].
Qed.

Lemma cow_fork_counted stack shm src k ptm res k' : initialized k = true -> page_table_manager k = Some ptm ->
  counted_fork src stack shm (l4_table_phys ptm) k = Ret (res, k') ->
  exists rc, cow_fork_user_page_table stack shm src k = Ret (res, lend rc k').
Proof.
  intros Hini Hptm Ec. rewrite (cow_fork_unfold stack shm src k ptm) by done.
  assert (sim (let? dst := new_root (l4_table_phys ptm) in let? _ := fork_l4 stack shm src dst in ok dst) (counted_fork src stack shm (l4_table_phys ptm))) as Hs.
  { unfold counted_fork, new_root, alloc_or. apply sim_bind; [sims|]. intros d. apply sim_bind; [apply sim_loops|]. intros []. apply sim_ok. }
  destruct (Hs (refcount (frame_allocator k)) k res k' Ec) as [rc E1]. rewrite lend_same in E1. by exists rc.
Qed.

(** Without segments the code is the counted program. *)
Lemma counted_none stack : counted_l4 stack [] = fork_l4 stack [].
Proof.
  unfold counted_l4, fork_l4, counted_l3, fork_l3, counted_l2, fork_l2, counted_l1, fork_l1, counted_leaf, virt_of.
  cbv zeta. cbn [existsb]. reflexivity.
Qed.

Lemma cow_fork_spec {c : kernel} {T M : tmap} {X : list Z} src stack k ptm :
  st c T M X (D0 (M := M)) (rd (mem k)) k -> T !! (src, []) = Some src ->
  initialized k = true -> page_table_manager k = Some ptm ->
  aligned (l4_table_phys ptm) -> is_free (frame_allocator k) (l4_table_phys ptm / 4096) = false ->
  (forall f, 0 <= f < 65536 -> rd (refcount (frame_allocator k)) f + m_uses M f <= u16_max) ->
  exists res k', cow_fork_user_page_table stack [] src k = Ret (res, k') /\
    match res with
    | Ok dst => fork_done (c := c) (T := T) (M := M) (X := X) src stack [] k k' dst
    | Err _ => fork_failed (c := c) (T := T) (M := M) (X := X) src [] k k'
    end.
Proof.
  intros S Hsrc Hini Hptm Hal Hused Hcap. rewrite (cow_fork_unfold stack [] src k ptm) by done.
  destruct (counted_fork_spec src stack [] k ptm S Hsrc Hal Hused Hcap) as (res & k' & E & H).
  exists res, k'. split; [|exact H]. unfold counted_fork in E. by rewrite counted_none in E.
Qed.

End aspace_fork.
