(* ===== verification/AddressFree.v ===== *)
(** * Tearing an address space down

    [free_user_page_table] walks the tables of a dying process and drops one
    reference per leaf and per table.  Memory does not change; the proof removes
    the finished subtrees from the abstract state as the loops go. *)

From stdpp Require Import base list gmap strings list_numbers.
From Stdlib Require Import ZArith Lia.
From S2P Require Import Prelude FrameAlloc PageTable AddressSpace AddressOps AddressFork.

Local Open Scope Z_scope.

Module aspace_free.
Import pte frames paging aspace aspace_ops aspace_fork.

(** A table's reference goes back to the code that is about to drop it. *)
Lemma counts_untable fa T M X key t :
  counts fa T M X -> T !! key = Some t -> counts fa (delete key T) M (t :: X).
Proof.
  intros C Hk. pose proof C as [W Hle Ht Hc Hx]. split; [done|..|done|].
  - intros g Hg. specialize (Hle g Hg). unfold t_uses in *.
    rewrite (count_delete _ T key t) by done. unfold one. cbn [snd]. rewrite x_uses_cons. lia.
  - intros k' t' [_ Hk']%lookup_delete_Some. eauto.
  - intros b [->|Hb]%elem_of_cons; [by destruct (Ht _ _ Hk)|by apply Hx].
Qed.

Section Free.
Context {c : kernel} {T M : tmap} {X : list Z} (m : gmap Z Z) (r : Z).
Context (Tr : tree m T M) (Hr : T !! (r, []) = Some r).

Implicit Types (S : list (list Z)).

(** What is left of [m'] without the subtrees [S] of root [r]. *)
Definition cut (S : list (list Z)) (m' : tmap) : tmap :=
  filter (fun kv => ~ (kv.1.1 = r /\ covered S kv.1.2)) m'.

Lemma lookup_cut S m' r' q :
  cut S m' !! (r', q) = if decide (r' = r /\ covered S q) then None else m' !! (r', q).
Proof.
  unfold cut. rewrite map_lookup_filter. destruct (m' !! (r', q)); simpl; repeat case_guard;
    repeat case_decide; naive_solver.
Qed.

Definition finv (S : list (list Z)) (k : kernel) : Prop :=
  mem k = m /\ conf_of k = c /\ kernel_root_kept c (frame_allocator k) /\
  counts (frame_allocator k) (cut S T) (cut S M) X.

(** Paths of tables and leaves have valid indices. *)
Lemma table_shape (p : list Z) i s t :
  T !! (r, p ++ i :: s) = Some t -> idx_ok p i /\ (length (p ++ i :: s) <= 3)%nat.
Proof.
  revert t. induction s as [|j s IH] using rev_ind; intros t H.
  - apply (tr_tclosed _ _ _ Tr) in H as (? & _ & Hl & Hi). split; [done|]. rewrite length_app. cbn. lia.
  - replace (p ++ i :: s ++ [j]) with ((p ++ i :: s) ++ [j]) in * by (by rewrite <- app_assoc).
    apply (tr_tclosed _ _ _ Tr) in H as (t' & H & Hl & _). split; [by apply (IH t')|].
    rewrite length_app. cbn. lia.
Qed.

Lemma leaf_index (p : list Z) i s e : (length p <= 3)%nat -> M !! (r, p ++ i :: s) = Some e -> idx_ok p i.
Proof.
  intros Hl H. apply (leaf_shape Tr) in H as (a & b & cc & d & E & Ha & Hb & Hc & Hd & _).
  destruct p as [|x [|y [|z [|? ?]]]]; cbn in E, Hl; try lia; injection E as; subst; done.
Qed.

(** Adding a subtree with nothing in it. *)
Lemma cut_empty S (s : list Z) (m' : tmap) :
  (forall q, s `prefix_of` q -> m' !! (r, q) = None) -> cut (S ++ [s]) m' = cut S m'.
Proof.
  intros Hs. apply map_eq. intros [r' q]. rewrite !lookup_cut.
  destruct (decide (r' = r /\ covered S q)) as [[-> Hc]|Hn].
  - rewrite decide_True; [done|]. split; [done|]. apply covered_app. by left.
  - case_decide as H; [|done]. destruct H as [-> [H|H%covered_one]%covered_app]; [tauto|].
    symmetry. by apply Hs.
Qed.

(** All children gone, only [p] itself is left of its subtree. *)
Lemma cut_collapse S (p js : list Z) (m' : tmap) :
  (forall i s, m' !! (r, p ++ i :: s) <> None -> i ∈ js) ->
  cut (S ++ [p]) m' = delete (r, p) (cut (S ++ children p js) m').
Proof.
  intros Hjs. apply map_eq. intros [r' q].
  destruct (decide ((r', q) = (r, p))) as [[= -> ->]|Hne].
  - rewrite lookup_delete_eq, lookup_cut, decide_True; [done|]. split; [done|].
    apply covered_app. right. by apply covered_one.
  - rewrite lookup_delete_ne by congruence. rewrite !lookup_cut.
    destruct (decide (r' = r)) as [->|Hr']; [|by rewrite !decide_False by tauto].
    destruct (decide (covered (S ++ children p js) q)) as [Hc|Hc].
    + rewrite (decide_True (P := r = r /\ covered (S ++ children p js) q)) by done.
      rewrite decide_True; [done|]. split; [done|]. apply covered_app.
      apply covered_app in Hc as [?|Hc]; [by left|right].
      apply covered_children in Hc as (i & s & _ & ->). apply covered_one. by exists (i :: s).
    + rewrite (decide_False (P := r = r /\ covered (S ++ children p js) q)) by tauto.
      case_decide as H; [|done]. destruct H as [_ [H|H%covered_one]%covered_app].
      { exfalso. apply Hc, covered_app. by left. }
      destruct H as [[|i s] ->]; [rewrite app_nil_r in Hne; done|].
      destruct (m' !! (r, p ++ i :: s)) eqn:E; [exfalso|done].
      apply Hc, covered_app. right. apply covered_children. exists i, s. split; [|done].
      apply (Hjs i s). congruence.
Qed.

Lemma finv_drop_held S k a :
  mem k = m -> conf_of k = c -> kernel_root_kept c (frame_allocator k) ->
  counts (frame_allocator k) (cut S T) (cut S M) (a :: X) ->
  finv S (with_fa k (free_frame (frame_allocator k) a)).
Proof.
  intros Hm Hc Hk C. split; [done|]. split; [done|].
  split; [by eapply kernel_root_drop|by apply counts_drop].
Qed.

Lemma finv_drop S k p t js :
  finv (S ++ children p js) k -> T !! (r, p) = Some t -> (length p <= 3)%nat ->
  (forall i, idx_ok p i -> i ∈ js) -> disjoint_from S p ->
  finv (S ++ [p]) (with_fa k (free_frame (frame_allocator k) t)).
Proof.
  intros (Hm & Hc & Hk & C) Ht Hl Hjs Hdis. apply finv_drop_held; try done.
  rewrite (cut_collapse S p js T), (cut_collapse S p js M).
  - assert (cut (S ++ children p js) M !! (r, p) = None) as HM.
    { rewrite lookup_cut. case_decide; [done|]. destruct (M !! (r, p)) eqn:E; [|done].
      apply (leaf_shape Tr) in E as (a & b & cc & d & -> & _). cbn in Hl. lia. }
    rewrite (delete_id _ (r, p) HM). apply counts_untable; [done|].
    rewrite lookup_cut, decide_False; [done|]. intros [_ [H|H]%covered_app].
    + apply (Hdis []). by rewrite app_nil_r.
    + apply covered_children in H as (i & s & _ & E). apply (f_equal length) in E.
      rewrite length_app in E. cbn in E. lia.
  - intros i s H. apply Hjs. destruct (M !! (r, p ++ i :: s)) eqn:E; [|done]. by eapply leaf_index.
  - intros i s H. apply Hjs. destruct (T !! (r, p ++ i :: s)) eqn:E; [|done]. by eapply table_shape.
Qed.

(** One loop and the table's own frame. *)
Lemma free_level S p t js (sub : Z -> Z -> prog kernel unit unit) :
  T !! (r, p) = Some t -> (length p <= 3)%nat -> (forall i, idx_ok p i <-> i ∈ js) -> NoDup js ->
  disjoint_from S p ->
  (forall done i k, i ∈ js -> i ∉ done -> finv (S ++ children p done) k ->
     let e := rd m (t + 8 * i) in is_present e = true ->
     exists k', sub i e k = Ret (Ok tt, k') /\ finv ((S ++ children p done) ++ [p ++ [i]]) k') ->
  forall k, finv S k ->
  exists k',
    (let? _ := for_each js (fun i => let? e := load (t + 8 * i) in when_present e (sub i e)) in
     drop_frame t) k = Ret (Ok tt, k') /\ finv (S ++ [p]) k'.
Proof.
  intros Ht Hl Hjs Hnd Hdis Hsub k HI.
  pose proof (triple_for_each (fun done => finv (S ++ children p done)) (fun _ _ => False) js
    (fun i => let? e := load (t + 8 * i) in when_present e (sub i e))) as Hloop.
  destruct Hloop with (w := k) as (res & k1 & E & H).
  - intros done i rest Ejs k1 HI1. rewrite Ejs in Hnd.
    apply NoDup_app in Hnd as (_ & Hnin & _).
    assert (i ∉ done) as Hi by (intros Hin; apply (Hnin i Hin); left).
    assert (i ∈ js) as Hijs by (rewrite Ejs; apply elem_of_app; right; left).
    pose proof (proj2 (Hjs i) Hijs) as Hok.
    assert (S ++ children p (done ++ [i]) = (S ++ children p done) ++ [p ++ [i]]) as ->.
    { unfold children. rewrite fmap_app, app_assoc. done. }
    unfold pbind, load, when_present. rewrite (proj1 HI1), land1_present.
    destruct (is_present (rd m (t + 8 * i))) eqn:Hp; cbn [negb].
    + destruct (Hsub done i k1 Hijs Hi HI1 Hp) as (k' & E & H). exists (Ok tt), k'. done.
    + exists (Ok tt), k1. split; [done|]. destruct HI1 as (H1 & H2 & H3 & C). split; [done|]. split; [done|]. split; [done|].
      assert (forall q, (p ++ [i]) `prefix_of` q -> T !! (r, q) = None /\ M !! (r, q) = None) as Hempty.
      { intros q [s ->]. destruct (decide (length p = 3%nat)) as [Hl3|Hl3].
        - pose proof (tr_leaf _ _ _ Tr r p t i Ht Hl3 Hok) as Hlf. unfold leaf in Hlf. rewrite Hp in Hlf.
          split.
          + destruct (T !! (r, (p ++ [i]) ++ s)) eqn:E; [exfalso|done]. rewrite <- app_assoc in E. cbn in E.
            apply table_shape in E as [_ E]. rewrite length_app in E. cbn in E. lia.
          + destruct (M !! (r, (p ++ [i]) ++ s)) as [e|] eqn:E; [exfalso|done].
            pose proof E as (a & b & cc & d & E4 & _)%(leaf_shape Tr).
            apply (f_equal length) in E4. rewrite !length_app in E4. cbn in E4.
            assert (s = []) as -> by (apply nil_length_inv; lia). rewrite app_nil_r in E. congruence.
        - pose proof (tr_table _ _ _ Tr r p t i Ht ltac:(lia) Hok) as Htb. unfold sub_table in Htb.
          rewrite Hp in Htb. split.
          + clear -Htb Tr. induction s as [|j s IH] using rev_ind; [by rewrite app_nil_r|].
            rewrite app_assoc. destruct (T !! (r, _ ++ [j])) eqn:E; [|done].
            apply (tr_tclosed _ _ _ Tr) in E as (? & E & _). congruence.
          + destruct (M !! (r, (p ++ [i]) ++ s)) as [e|] eqn:E; [exfalso|done].
            eapply (no_subtree Tr r (p ++ [i]) s); [by destruct p|rewrite length_app; cbn; lia|done|done]. }
      rewrite !cut_empty; [done|intros q Hq; by apply Hempty..].
  - unfold children. by rewrite app_nil_r.
  - destruct res as [[]|]; [|done]. unfold pbind at 1. rewrite E. eexists. split; [reflexivity|].
    eapply finv_drop; try done. intros i. by rewrite Hjs.
Qed.

Lemma free_l1_spec S i4 i3 i2 t k :
  T !! (r, [i4; i3; i2]) = Some t -> disjoint_from S [i4; i3; i2] -> finv S k ->
  exists k', free_l1 t k = Ret (Ok tt, k') /\ finv (S ++ [[i4; i3; i2]]) k'.
Proof.
  intros Ht Hdis HI.
  apply (free_level S [i4; i3; i2] t (seqZ 0 512) (fun i1 l1e => drop_frame (Z.land l1e ADDR_MASK)));
    [done|cbn; lia|apply seqZ_idx|apply NoDup_seqZ|done| |done].
  clear k HI. intros done i1 k Hi Hnd (Hm & Hc & Hk & C) e Hp. eexists. split; [reflexivity|].
  change (Z.land e ADDR_MASK) with (addr e). apply finv_drop_held; try done.
  set (q := [i4; i3; i2] ++ [i1]).
  assert (M !! (r, q) = Some e) as He.
  { pose proof (tr_leaf _ _ _ Tr r [i4; i3; i2] t i1 Ht eq_refl (proj2 (seqZ_idx _ _ _) Hi)) as H.
    unfold leaf in H. fold e in H. by rewrite Hp in H. }
  rewrite (cut_empty _ q T).
  2: { intros q' [s ->]. destruct (T !! (r, q ++ s)) eqn:E; [exfalso|done]. unfold q in E. cbn in E.
       apply (table_shape [] i4) in E as [_ E]. cbn in E. lia. }
  rewrite (cut_collapse _ q [] M).
  2: { intros i s H. exfalso. destruct (M !! (r, q ++ i :: s)) eqn:E; [|done].
       apply (leaf_shape Tr) in E as (? & ? & ? & ? & E & _). unfold q in E. cbn in E. by injection E. }
  change (children q []) with (@nil (list Z)). rewrite app_nil_r.
  apply counts_unleaf; [done|]. rewrite lookup_cut, decide_False; [done|].
  intros [_ H]. by apply (disjoint_child S [i4; i3; i2] done i1 Hdis Hnd []).
Qed.

(** The levels above, by the same lemma. *)
Lemma free_table_level S p t js (inner : Z -> prog kernel unit unit) k :
  T !! (r, p) = Some t -> (length p < 3)%nat -> (forall i, idx_ok p i <-> i ∈ js) -> NoDup js ->
  disjoint_from S p ->
  (forall S' i t' k, T !! (r, p ++ [i]) = Some t' -> disjoint_from S' (p ++ [i]) -> finv S' k ->
     exists k', inner t' k = Ret (Ok tt, k') /\ finv (S' ++ [p ++ [i]]) k') ->
  finv S k ->
  exists k',
    (let? _ := for_each js (fun i => let? e := load (t + 8 * i) in
       when_present e (inner (Z.land e ADDR_MASK))) in
     drop_frame t) k = Ret (Ok tt, k') /\ finv (S ++ [p]) k'.
Proof.
  intros Ht Hl Hjs Hnd Hdis Hin HI.
  apply (free_level S p t js (fun _ e => inner (Z.land e ADDR_MASK))); try done; [lia|].
  clear k HI. intros done i k Hi Hnin HI e Hp. apply Hin; [|by apply disjoint_child|done].
  pose proof (tr_table _ _ _ Tr r p t i Ht Hl (proj2 (Hjs i) Hi)) as H.
  unfold sub_table in H. fold e in H. by rewrite Hp in H.
Qed.

Lemma free_l2_spec S i4 i3 t k :
  T !! (r, [i4; i3]) = Some t -> disjoint_from S [i4; i3] -> finv S k ->
  exists k', free_l2 t k = Ret (Ok tt, k') /\ finv (S ++ [[i4; i3]]) k'.
Proof.
  intros Ht Hdis HI. apply free_table_level; try done;
    [cbn; lia|apply seqZ_idx|apply NoDup_seqZ|].
  intros S' i2 t' k' Ht' Hd' HI'. by apply (free_l1_spec S' i4 i3 i2).
Qed.

Lemma free_l3_spec S i4 t k :
  T !! (r, [i4]) = Some t -> disjoint_from S [i4] -> finv S k ->
  exists k', free_l3 t k = Ret (Ok tt, k') /\ finv (S ++ [[i4]]) k'.
Proof.
  intros Ht Hdis HI. apply free_table_level; try done;
    [cbn; lia|apply seqZ_idx|apply NoDup_seqZ|].
  intros S' i3 t' k' Ht' Hd' HI'. by apply (free_l2_spec S' i4 i3).
Qed.
End Free.

(** The abstract state without the address space [r]. *)
Definition without (r : Z) (m' : tmap) : tmap := filter (fun kv => kv.1.1 <> r) m'.

Lemma lookup_without r m' r' q :
  without r m' !! (r', q) = if decide (r' = r) then None else m' !! (r', q).
Proof.
  unfold without. rewrite map_lookup_filter. destruct (m' !! (r', q)); simpl; repeat case_guard;
    repeat case_decide; naive_solver.
Qed.

Lemma cut_all r m' : cut r ([] ++ [[]]) m' = without r m'.
Proof.
  apply map_eq. intros [r' q]. rewrite lookup_cut, lookup_without.
  assert (covered ([] ++ [[]]) q) by (apply covered_one; apply prefix_nil).
  repeat case_decide; naive_solver.
Qed.

Lemma tree_without m T M r : tree m T M -> tree m (without r T) (without r M).
Proof.
  intros [R1 R2 R3 R4 R5 R6].
  assert (forall r' p t, without r T !! (r', p) = Some t -> T !! (r', p) = Some t /\ r' <> r) as HT.
  { intros r' p t. rewrite lookup_without. by case_decide. }
  split.
  - intros r' t [H _]%HT. by apply R1.
  - intros r' p t i [H Hne]%HT Hl Hi. rewrite lookup_without, decide_False by done. by apply R2.
  - intros r' p t i [H Hne]%HT Hl Hi. rewrite lookup_without, decide_False by done. by apply R3.
  - intros r' p i t' [H Hne]%HT. apply R4 in H as (t & H' & ?). exists t.
    rewrite lookup_without, decide_False by done. done.
  - intros r' q e. rewrite lookup_without. case_decide; [done|]. intros Hq.
    apply R5 in Hq as (p & i & t & ? & H' & ?). exists p, i, t.
    rewrite lookup_without, decide_False by done. done.
  - intros r' p t i [H Hne]%HT Hl Hi. by eapply R6.
Qed.

(** [free_user_page_table] removes the address space and gives back every
    reference it held. *)
Lemma free_spec c T M X D v r k :
  st c T M X D v k -> T !! (r, []) = Some r -> initialized k = true -> page_table_manager k <> None ->
  (forall f, D f -> 1 <= m_uses (without r M) f + x_uses X f) ->
  exists k', free_user_page_table r k = Ret (Ok tt, k') /\ mem k' = mem k /\
    st c (without r T) (without r M) X D v k'.
Proof.
  intros S Hr Hi Hp HD. unfold free_user_page_table, pbind at 1, get. rewrite Hi. cbn [negb].
  destruct (page_table_manager k) as [ptm|] eqn:Eptm; [|done].
  pose proof S as [S1 S2 S3 S4 S5 S6].
  destruct (free_table_level (c := c) (X := X) (mem k) r S2 [] [] r (seqZ 0 256) free_l3 k)
    as (k' & E & Hm & Hc & Hk & C).
  - done.
  - cbn; lia.
  - apply seqZ_idx0.
  - apply NoDup_seqZ.
  - intros t H. by apply Exists_nil in H.
  - intros S' i4 t' k' Ht' Hd' HI'. by apply (free_l3_spec (mem k) r S2 S' i4).
  - split; [done|]. split; [done|]. split; [done|].
    assert (forall m', cut r [] m' = m') as Hcut.
    { intros m'. apply map_eq. intros [r' q]. rewrite lookup_cut, decide_False; [done|].
      intros [_ H]. by apply Exists_nil in H. }
    by rewrite !Hcut.
  - exists k'. split; [exact E|]. split; [done|]. rewrite !cut_all in C. split; try done.
    + rewrite Hm. by apply tree_without.
    + intros f Hf. split; [by apply S4|by apply HD].
    + intros a Ha. rewrite Hm. by apply S5.
Qed.

Lemma excl_without M r : excl M -> excl (without r M).
Proof.
  intros H [r1 q1] [r2 q2] e1 e2 Hne. rewrite !lookup_without. repeat case_decide; try done.
  by apply H.
Qed.
End aspace_free.
