(* ===== verification/VirtualMemory.v ===== *)
(** * Virtual memory: what processes can rely on

    The reachable states of the paging code under any sequence of creations,
    mappings, unmappings, forks, write faults and teardowns of user address spaces,
    and the theorems about them.  Attaching a shared segment, which maps its frames
    into several address spaces on purpose, is not one of these calls; a fork may
    find segments attached.  They speak of [walk], the translation the processor computes from the
    tables in memory, and of the words of memory; the abstract state of
    AddressSpace.v appears only in the proofs. *)

From stdpp Require Import base list gmap strings list_numbers.
From Stdlib Require Import ZArith Lia.
From S2P Require Import Prelude FrameAlloc PageTable AddressSpace AddressOps AddressFork AddressFree.

Local Open Scope Z_scope.

Module vm.
Import pte frames paging aspace aspace_ops aspace_fork aspace_free.

(** The allocator is initialised and the kernel's root table is in use. *)
Definition booted (k : kernel) : Prop :=
  initialized k = true /\ wf (frame_allocator k) /\
  exists ptm, page_table_manager k = Some ptm /\ aligned (l4_table_phys ptm) /\
              reserved (frame_allocator k) (l4_table_phys ptm / 4096).

(** [reach k R]: the calls so far left the kernel in [k] with the user address
    spaces [R].  Forks assume that no frame has more than 32,767 references and
    no shared-memory segment is attached. *)
Inductive reach : kernel -> gset Z -> Prop :=
| reach_boot k : booted k -> reach k ∅
| reach_create k R r k' :
    reach k R -> create_user_page_table k = Ret (Ok r, k') -> reach k' ({[r]} ∪ R)
| reach_create_none k R k' :
    reach k R -> create_user_page_table k = Ret (Err tt, k') -> reach k' R
| reach_map k R r virt n w x res k' :
    reach k R -> r ∈ R -> 0 <= virt -> virt + n * 4096 <= 2 ^ 47 ->
    map_user_region_in r virt n w x k = Ret (res, k') -> reach k' R
| reach_unmap k R r virt n res k' :
    reach k R -> r ∈ R -> 0 <= virt -> virt + n * 4096 <= 2 ^ 47 ->
    unmap_user_region_in r virt n k = Ret (res, k') -> reach k' R
| reach_fault k R r fault res k' :
    reach k R -> r ∈ R -> user_addr fault ->
    try_resolve_cow_fault r fault k = Ret (res, k') -> reach k' R
| reach_fork k R r stack d k' :
    reach k R -> r ∈ R -> (forall f, rd (refcount (frame_allocator k)) f <= 32767) ->
    cow_fork_user_page_table stack [] r k = Ret (Ok d, k') -> reach k' ({[d]} ∪ R)
| reach_fork_none k R r stack k' :
    reach k R -> r ∈ R -> (forall f, rd (refcount (frame_allocator k)) f <= 32767) ->
    cow_fork_user_page_table stack [] r k = Ret (Err tt, k') -> reach k' R
| reach_free k R r res k' :
    reach k R -> r ∈ R -> free_user_page_table r k = Ret (res, k') -> reach k' (R ∖ {[r]}).

(** ** The invariant *)

Definition nodata : Z -> Prop := fun _ => False.

Record good (k : kernel) (R : gset Z) (T M : tmap) : Prop := {
  g_st : st (conf_of k) T M [] nodata (fun _ => 0) k;
  g_excl : excl M;
  g_roots r : r ∈ R -> T !! (r, []) = Some r;
  g_init : initialized k = true;
  g_ptm : exists ptm, page_table_manager k = Some ptm /\ aligned (l4_table_phys ptm);
}.

Lemma st_forget c T M X D v k : st c T M X D v k -> st c T M X nodata (fun _ => 0) k.
Proof. intros [S1 S2 S3 S4 S5 S6]. split; done. Qed.

(** Any referenced frames can be watched, with their current contents. *)
Lemma st_watch c T M D k :
  st c T M [] nodata (fun _ => 0) k ->
  (forall f, D f -> 0 <= f < 65536 /\ 1 <= m_uses M f) -> st c T M [] D (rd (mem k)) k.
Proof.
  intros [S1 S2 S3 S4 S5 S6] HD. split; try done.
  intros f Hf. apply HD in Hf as [? ?]. split; [done|]. unfold x_uses. cbn. lia.
Qed.

Lemma good_next k k' R T M T' M' D v :
  good k R T M -> st (conf_of k) T' M' [] D v k' -> excl M' ->
  (forall r, r ∈ R -> T' !! (r, []) = Some r) -> good k' R T' M'.
Proof.
  intros G S Hex Hr. pose proof (st_conf _ _ _ _ _ _ _ S) as Hc.
  assert (initialized k' = initialized k /\ page_table_manager k' = page_table_manager k) as [E1 E2].
  { split; [exact (f_equal initialized Hc)|exact (f_equal page_table_manager Hc)]. }
  split; try done.
  - rewrite Hc. by eapply st_forget.
  - rewrite E1. apply G.
  - rewrite E2. apply G.
Qed.

Section Good.
Context (k : kernel) (R : gset Z) (T M : tmap) (G : good k R T M).

Lemma good_conf : initialized (conf_of k) = true /\ page_table_manager (conf_of k) <> None.
Proof. split; [apply G|]. destruct (g_ptm _ _ _ _ G) as (ptm & E & _). cbn. congruence. Qed.

Lemma good_root ptm :
  page_table_manager k = Some ptm -> is_free (frame_allocator k) (l4_table_phys ptm / 4096) = false.
Proof.
  intros E. pose proof (st_root _ _ _ _ _ _ _ (g_st _ _ _ _ G)) as H.
  unfold kernel_root_kept in H. cbn in H. rewrite E in H. apply H.
Qed.

Lemma good_walk r v : r ∈ R -> user_addr v -> walk (mem k) r v = M !! (r, path v).
Proof.
  intros Hr Hv. eapply tree_walk; [apply (g_st _ _ _ _ G)|by apply (g_roots _ _ _ _ G)|done].
Qed.

(** A page of another address space, or another page of this one. *)
Lemma other_key (r1 v1 r2 v2 : Z) :
  user_addr v1 -> user_addr v2 -> (r1, v1 / 4096) <> (r2, v2 / 4096) ->
  (r1, path v1) <> (r2, path v2).
Proof.
  intros H1 H2 Hne E. apply Hne. injection E as -> E3 E2 E1 E0.
  rewrite (path_page v1 v2); [done..|]. unfold path. congruence.
Qed.

Lemma good_uses_cap f :
  rd (refcount (frame_allocator k)) f <= 32767 -> 0 <= f < 65536 ->
  rd (refcount (frame_allocator k)) f + m_uses M f <= u16_max.
Proof.
  intros H Hf. pose proof (st_counts _ _ _ _ _ _ _ (g_st _ _ _ _ G)) as C.
  pose proof (ct_le _ _ _ _ C f Hf). pose proof (t_uses_nonneg (T := T) f).
  pose proof (x_uses_nonneg [] f). unfold u16_max. lia.
Qed.

(** *** The calls, against the invariant *)

Lemma good_create :
  exists res k', create_user_page_table k = Ret (res, k') /\
    match res with
    | Ok r => (r ∉ R) /\ good k' ({[r]} ∪ R) (<[(r, []) := r]> T) M /\ (forall q, M !! (r, q) = None) /\
        forall ptm i, page_table_manager k = Some ptm -> 256 <= i < 512 ->
          rd (mem k') (r + 8 * i) = rd (mem k) (l4_table_phys ptm + 8 * i)
    | Err _ => good k' R T M
    end.
Proof.
  destruct (g_ptm _ _ _ _ G) as (ptm & Hp & Ha).
  destruct (create_spec k ptm (g_st _ _ _ _ G) (g_init _ _ _ _ G) Hp Ha (good_root ptm Hp))
    as ([r|u] & k' & E & H); eexists _, k'; (split; [exact E|]).
  - destruct H as (Hn & S & Hk). split; [|split; [|split]].
    + intros Hr. rewrite (g_roots _ _ _ _ G r Hr) in Hn. done.
    + pose proof (st_conf _ _ _ _ _ _ _ S) as Hc.
      pose proof (good_next k k' R T M _ _ _ _ G S (g_excl _ _ _ _ G)) as G'.
      destruct G' as [G1 G2 G3 G4 G5].
      { intros r' Hr'. rewrite lookup_insert_ne; [by apply (g_roots _ _ _ _ G)|].
        intros [= <-]. rewrite (g_roots _ _ _ _ G r Hr') in Hn. done. }
      split; try done. intros r' [->%elem_of_singleton|Hr']%elem_of_union; [|by apply G3].
      apply lookup_insert_eq.
    + by apply (no_root _ _ _ _ (st_tree _ _ _ _ _ _ _ (g_st _ _ _ _ G)) Hn).
    + intros ptm' i Hp' Hi. assert (ptm' = ptm) as -> by congruence. by apply Hk.
  - eapply good_next; [done|exact H|apply G|apply G].
Qed.

Lemma good_map r virt n w x :
  r ∈ R -> 0 <= virt -> virt + n * 4096 <= 2 ^ 47 ->
  exists res k', map_user_region_in r virt n w x k = Ret (res, k') /\
    (exists js T' M' D' v', (forall j, j ∈ js -> 0 <= j < n) /\
       (res = Ok tt -> js = seqZ 0 n) /\ good k' R T' M' /\ M ⊆ M' /\
       (forall f, D0 (M := M) f -> D' f) /\ (forall a, D0 (M := M) (a / 4096) -> v' a = rd (mem k) a) /\
       (forall key, M !! key = None -> M' !! key <> None ->
          exists j, j ∈ js /\ key = (r, path (virt + j * 4096))) /\
       (forall j, j ∈ js -> exists f, aligned f /\ D' (f / 4096) /\ m_uses M (f / 4096) = 0 /\
          M !! (r, path (virt + j * 4096)) = None /\
          M' !! (r, path (virt + j * 4096)) = Some (set f (user_flags w x)) /\
          forall i, 0 <= i < 512 -> v' (f + 8 * i) = 0) /\
       (forall a, D' (a / 4096) -> rd (mem k') a = v' a)).
Proof.
  intros Hr Hv Hn. destruct good_conf as [Hi Hp].
  pose proof (st_watch _ _ _ (D0 (M := M)) k (g_st _ _ _ _ G) (fun f H => H)) as S.
  destruct (map_region_spec r virt w x n (g_roots _ _ _ _ G r Hr) Hv Hn Hi Hp k S)
    as (res & k' & E & H). exists res, k'. split; [done|].
  assert (exists js, (forall j, j ∈ js -> 0 <= j < n) /\ (res = Ok tt -> js = seqZ 0 n) /\
    grown r virt (user_flags w x) js (conf_of k) T M [] (D0 (M := M)) (rd (mem k)) k')
    as (js & Hjs & Hres & T' & M' & D' & v' & Hext & Hsub & Hex & HD & Hvv & Hnew & Hdone & S').
  { destruct res as [[]|]; [|by destruct H as (js & ? & ?); exists js].
    exists (seqZ 0 n). split; [|done]. intros j Hj%elem_of_seqZ. lia. }
  exists js, T', M', D', v'.
  split; [done|]. split; [done|]. split.
  { eapply good_next; [done|exact S'|by apply Hex, G|].
    intros r' Hr'. eapply ext_lookup; [done|by apply (g_roots _ _ _ _ G)]. }
  do 5 (split; [done|]). exact (st_data _ _ _ _ _ _ _ S').
Qed.

Lemma good_unmap r virt n :
  r ∈ R -> 0 <= virt -> virt + n * 4096 <= 2 ^ 47 ->
  exists k', unmap_user_region_in r virt n k = Ret (Ok tt, k') /\
    good k' R T (unmapped (M := M) r virt (seqZ 0 n)).
Proof.
  intros Hr Hv Hn. destruct good_conf as [Hi Hp].
  destruct (unmap_region_spec r virt true true n (g_roots _ _ _ _ G r Hr) Hv Hn Hi Hp
              (fun _ _ _ _ H => H) k (g_st _ _ _ _ G)) as (res & k' & E & -> & S).
  exists k'. split; [done|].
  eapply good_next; [done|exact S|apply excl_unmapped, G|apply G].
Qed.

(** Frames that stay referenced when the page at [key] moves elsewhere. *)
Definition others (key : key) (f : Z) : Prop := 0 <= f < 65536 /\ 1 <= m_uses (delete key M) f.

Lemma m_uses_delete key f : m_uses (delete key M) f <= m_uses M f.
Proof. apply count_mono. apply delete_subseteq. Qed.

Lemma good_fault r fault :
  r ∈ R -> user_addr fault ->
  exists b k', try_resolve_cow_fault r fault k = Ret (Ok b, k') /\
    if b then exists e f, M !! (r, path fault) = Some e /\ is_cow e = true /\ aligned f /\
      good k' R T (<[(r, path fault) := resolved e f]> M) /\
      (forall a, others (r, path fault) (a / 4096) -> rd (mem k') a = rd (mem k) a) /\
      (forall w, 0 <= w < 512 -> rd (mem k') (f + 8 * w) = rd (mem k) (addr e + 8 * w))
    else k' = k /\ forall e, M !! (r, path fault) = Some e -> is_cow e = true ->
      (allocate_frame (frame_allocator k)).1 = None.
Proof.
  intros Hr Hv.
  pose proof (st_watch _ _ _ (others (r, path fault)) k (g_st _ _ _ _ G)) as S.
  destruct (cow_fault_spec r fault (g_roots _ _ _ _ G r Hr) Hv k (S ltac:(intros f [H1 H2];
    pose proof (m_uses_delete (r, path fault) f); split; [done|lia]))) as (b & k' & E & H).
  { intros f [_ Hf]. unfold x_uses. cbn. lia. }
  exists b, k'. split; [done|]. destruct b; [|done].
  destruct H as (e & f & He & Hcow & Ha & S' & Hex & Hdata). exists e, f.
  split_and!; try done.
  - eapply good_next; [done|exact S'|apply Hex, G|apply G].
  - exact (st_data _ _ _ _ _ _ _ S').
Qed.

Lemma good_fork r stack :
  r ∈ R -> (forall f, rd (refcount (frame_allocator k)) f <= 32767) ->
  exists res k', cow_fork_user_page_table stack [] r k = Ret (res, k') /\
    match res with
    | Ok d => (d ∉ R) /\ d <> r /\ exists T' M' D' v',
        good k' ({[d]} ∪ R) T' M' /\
        (forall q, leaf_rel (M := M) stack [] (mem k) D' v' q (M !! (r, q)) (M' !! (r, q)) (M' !! (d, q))) /\
        (forall r' q, r' <> r -> r' <> d -> M' !! (r', q) = M !! (r', q)) /\
        (forall f, D0 (M := M) f -> D' f) /\ (forall a, D0 (M := M) (a / 4096) -> v' a = rd (mem k) a) /\
        (forall a, D' (a / 4096) -> rd (mem k') a = v' a)
    | Err _ => exists T' M', good k' R T' M' /\
        (forall r' q, r' ∈ R -> r' <> r -> M' !! (r', q) = M !! (r', q)) /\
        (forall q, M' !! (r, q) = M !! (r, q) \/ M' !! (r, q) = shared <$> M !! (r, q)) /\
        (forall a, D0 (M := M) (a / 4096) -> rd (mem k') a = rd (mem k) a)
    end.
Proof.
  intros Hr Hrc. destruct (g_ptm _ _ _ _ G) as (ptm & Hp & Ha).
  pose proof (st_watch _ _ _ (D0 (M := M)) k (g_st _ _ _ _ G) (fun f H => H)) as S.
  destruct (cow_fork_spec r stack k ptm S (g_roots _ _ _ _ G r Hr) (g_init _ _ _ _ G) Hp Ha
              (good_root ptm Hp)) as (res & k' & E & H).
  { intros f Hf. by apply good_uses_cap. }
  exists res, k'. split; [done|]. destruct res as [d|u].
  - destruct H as (Hn & Hdr & T' & M' & D' & v' & HT & Hd & Hrel & Hoth & Hex & HD & Hv & S').
    assert (d ∉ R) as HdR by (intros Hin; rewrite (g_roots _ _ _ _ G d Hin) in Hn; done).
    split; [done|]. split; [done|]. exists T', M', D', v'.
    split; [|do 4 (split; [done|]); exact (st_data _ _ _ _ _ _ _ S')].
    assert (good k' R T' M') as [G1 G2 G3 G4 G5].
    { eapply good_next; [done|exact S'|by apply Hex; [|apply G]|].
      intros r' Hr'. rewrite HT by congruence. by apply (g_roots _ _ _ _ G). }
    split; try done. intros r' [->%elem_of_singleton|Hr']%elem_of_union; [done|by apply G3].
  - destruct H as (T' & M' & HT & Hoth & Hsrc & Hex & S'). exists T', M'. split_and!.
    + eapply good_next; [done|exact S'|by apply Hex; [|apply G]|].
      intros r' Hr'. by apply HT, (g_roots _ _ _ _ G).
    + intros r' q Hr' Hne. apply Hoth; [done|]. by apply (g_roots _ _ _ _ G).
    + done.
    + exact (st_data _ _ _ _ _ _ _ S').
Qed.

(** With attached segments: the page tables and the bytes, whatever the counts. *)
Lemma fork_tables r stack shm :
  r ∈ R -> (forall f, rd (refcount (frame_allocator k)) f <= 32767) ->
  exists res k' T' M', cow_fork_user_page_table stack shm r k = Ret (res, k') /\
    tree (mem k') T' M' /\ (forall r', r' ∈ R -> T' !! (r', []) = Some r') /\
    (forall r' q, r' ∈ R -> r' <> r -> M' !! (r', q) = M !! (r', q)) /\
    (forall a, D0 (M := M) (a / 4096) -> rd (mem k') a = rd (mem k) a) /\
    forall d, res = Ok d -> (d ∉ R) /\ T' !! (d, []) = Some d /\ exists D' v',
      (forall q, leaf_rel (M := M) stack shm (mem k) D' v' q (M !! (r, q)) (M' !! (r, q)) (M' !! (d, q))) /\
      (forall a, D' (a / 4096) -> rd (mem k') a = v' a).
Proof.
  intros Hr Hrc. destruct (g_ptm _ _ _ _ G) as (ptm & Hp & Ha).
  pose proof (st_watch _ _ _ (D0 (M := M)) k (g_st _ _ _ _ G) (fun f H => H)) as S.
  destruct (counted_fork_spec r stack shm k ptm S (g_roots _ _ _ _ G r Hr) Ha (good_root ptm Hp)) as (res & kg & E & H).
  { intros f Hf. by apply good_uses_cap. }
  destruct (cow_fork_counted stack shm r k ptm res kg (g_init _ _ _ _ G) Hp E) as [rc E'].
  destruct res as [d|u].
  - destruct H as (Hn & Hdr & T' & M' & D' & v' & HT & Hd & Hrel & Hoth & _ & HD & Hv & S').
    assert (d ∉ R) as HdR by (intros Hin; rewrite (g_roots _ _ _ _ G d Hin) in Hn; done).
    exists (Ok d), (lend rc kg), T', M'. split; [done|]. split; [exact (st_tree _ _ _ _ _ _ _ S')|]. split_and!.
    + intros r' Hr'. rewrite HT by congruence. by apply (g_roots _ _ _ _ G).
    + intros r' q Hr' Hne. apply Hoth; [done|]. congruence.
    + intros a Ha0. change (mem (lend rc kg)) with (mem kg). rewrite (st_data _ _ _ _ _ _ _ S') by (by apply HD). by apply Hv.
    + intros d' [= <-]. split; [done|]. split; [done|]. exists D', v'. split; [done|]. exact (st_data _ _ _ _ _ _ _ S').
  - destruct H as (T' & M' & HT & Hoth & _ & _ & S'). exists (Err u), (lend rc kg), T', M'. split; [done|]. split; [exact (st_tree _ _ _ _ _ _ _ S')|]. split_and!; [| | |done].
    + intros r' Hr'. by apply HT, (g_roots _ _ _ _ G).
    + intros r' q Hr' Hne. apply Hoth; [done|]. by apply (g_roots _ _ _ _ G).
    + exact (st_data _ _ _ _ _ _ _ S').
Qed.

Lemma good_free r :
  r ∈ R -> exists k', free_user_page_table r k = Ret (Ok tt, k') /\ mem k' = mem k /\
    good k' (R ∖ {[r]}) (without r T) (without r M).
Proof.
  intros Hr. destruct (g_ptm _ _ _ _ G) as (ptm & Hp & Ha).
  destruct (free_spec _ _ _ _ _ _ r k (g_st _ _ _ _ G) (g_roots _ _ _ _ G r Hr)
              (g_init _ _ _ _ G) ltac:(congruence)) as (k' & E & Hm & S); [done|].
  exists k'. split; [done|]. split; [done|].
  pose proof (st_conf _ _ _ _ _ _ _ S) as Hc. split.
  - rewrite Hc. by eapply st_forget.
  - apply excl_without, G.
  - intros r' [Hr' Hne]%elem_of_difference. rewrite lookup_without, decide_False by set_solver.
    by apply (g_roots _ _ _ _ G).
  - pose proof (f_equal initialized Hc) as E1. cbn in E1. rewrite E1. apply G.
  - pose proof (f_equal page_table_manager Hc) as E2. cbn in E2. rewrite E2. by exists ptm.
Qed.
End Good.

Ltac no_entry :=
  match goal with H : _ !! _ = Some _ |- _ => by apply lookup_empty_Some in H end.

Lemma good_boot k : booted k -> good k ∅ ∅ ∅.
Proof.
  intros (Hi & W & ptm & Hp & Ha & Hres).
  assert (tree (mem k) ∅ ∅) as Tr by (split; intros; no_entry).
  assert (counts (frame_allocator k) ∅ ∅ []) as C.
  { split; [done| |intros; no_entry|intros; no_entry|].
    - intros f Hf. pose proof (wf_range _ W f). unfold t_uses, m_uses, x_uses.
      rewrite !count_empty. cbn. lia.
    - intros a Ha'. by apply elem_of_nil in Ha'. }
  split; [split; try done| | |done|by exists ptm].
  - unfold kernel_root_kept. cbn. by rewrite Hp.
  - intros k1 k2 e1 e2 _ H1. by apply lookup_empty_Some in H1.
  - intros r Hr. by apply elem_of_empty in Hr.
Qed.

(** Every reachable state is good. *)
Lemma reach_good k R : reach k R -> exists T M, good k R T M.
Proof.
  induction 1 as [k Hb|k R r k' _ [T [M G]] E|k R k' _ [T [M G]] E
    |k R r virt n w x res k' _ [T [M G]] Hr Hv Hn E|k R r virt n res k' _ [T [M G]] Hr Hv Hn E
    |k R r fault res k' _ [T [M G]] Hr Hv E|k R r stack d k' _ [T [M G]] Hr Hc E
    |k R r stack k' _ [T [M G]] Hr Hc E|k R r res k' _ [T [M G]] Hr E].
  - exists ∅, ∅. by apply good_boot.
  - destruct (good_create k R T M G) as (res1 & k1 & E1 & H). rewrite E in E1.
    injection E1 as <- <-. destruct H as (_ & H & _). eauto.
  - destruct (good_create k R T M G) as (res1 & k1 & E1 & H). rewrite E in E1.
    injection E1 as <- <-. eauto.
  - destruct (good_map k R T M G r virt n w x Hr Hv Hn) as (res1 & k1 & E1 & H). rewrite E in E1.
    injection E1 as <- <-. destruct H as (js & T' & M' & _ & _ & _ & _ & G' & _). eauto.
  - destruct (good_unmap k R T M G r virt n Hr Hv Hn) as (k1 & E1 & H). rewrite E in E1.
    injection E1 as -> <-. eauto.
  - destruct (good_fault k R T M G r fault Hr Hv) as (b & k1 & E1 & H). rewrite E in E1.
    injection E1 as -> <-. destruct b; [destruct H as (e & f & _ & _ & _ & G' & _); eauto|].
    destruct H as [-> _]. eauto.
  - destruct (good_fork k R T M G r stack Hr Hc) as (res1 & k1 & E1 & H). rewrite E in E1.
    injection E1 as <- <-. destruct H as (_ & _ & T' & M' & _ & _ & G' & _). eauto.
  - destruct (good_fork k R T M G r stack Hr Hc) as (res1 & k1 & E1 & H). rewrite E in E1.
    injection E1 as <- <-. destruct H as (T' & M' & G' & _). eauto.
  - destruct (good_free k R T M G r Hr) as (k1 & E1 & _ & G'). rewrite E in E1.
    injection E1 as -> <-. eauto.
Qed.
(** ** Isolation *)

(** The tables the processor reads to translate [virt]. *)
Definition walk_tables (m : gmap Z Z) (root virt : Z) : list Z :=
  root ::
  match sub_table (rd m (root + 8 * l4i virt)) with
  | None => []
  | Some t3 => t3 ::
    match sub_table (rd m (t3 + 8 * l3i virt)) with
    | None => []
    | Some t2 => t2 ::
      match sub_table (rd m (t2 + 8 * l2i virt)) with None => [] | Some t1 => [t1] end
    end
  end.

Lemma walk_tables_in m T M r virt t :
  tree m T M -> T !! (r, []) = Some r -> user_addr virt -> t ∈ walk_tables m r virt ->
  exists p, T !! (r, p) = Some t.
Proof.
  intros Tr Hr Hv. unfold walk_tables.
  pose proof (tr_table _ _ _ Tr r [] r (l4i virt) Hr ltac:(cbn; lia) (l4i_user virt Hv)) as H3.
  intros [->|Ht]%elem_of_cons; [by exists []|]. revert Ht.
  destruct (sub_table (rd m (r + 8 * l4i virt))) as [t3|]; [|by intros H%elem_of_nil].
  intros [->|Ht]%elem_of_cons; [by exists [l4i virt]|]. revert Ht.
  pose proof (tr_table _ _ _ Tr r [_] t3 (l3i virt) H3 ltac:(cbn; lia) (idx_ok_deep _ _ _)) as H2.
  destruct (sub_table (rd m (t3 + 8 * l3i virt))) as [t2|]; [|by intros H%elem_of_nil].
  intros [->|Ht]%elem_of_cons; [by exists [l4i virt; l3i virt]|]. revert Ht.
  pose proof (tr_table _ _ _ Tr r [_; _] t2 (l2i virt) H2 ltac:(cbn; lia) (idx_ok_deep _ _ _)) as H1.
  destruct (sub_table (rd m (t2 + 8 * l2i virt))) as [t1|]; [|by intros H%elem_of_nil].
  intros ->%list_elem_of_singleton. by exists [l4i virt; l3i virt; l2i virt].
Qed.

(** C1: Whatever sequence of page-table creations, region mappings and
    unmappings, copy-on-write forks and faults, and teardowns the kernel runs,
    a frame that a user page can write is mapped by no other user page of any
    process, no user page maps a frame that holds a page table of a live
    process, and no mapped frame is on the free list. *)
Theorem user_pages_are_isolated (k : kernel) (R : gset Z) (r1 r2 v1 v2 e1 : Z)
    (Hreach : reach k R) (Hr1 : r1 ∈ R) (Hr2 : r2 ∈ R)
    (Hv1 : user_addr v1) (Hv2 : user_addr v2) (Hw : walk (mem k) r1 v1 = Some e1)
    (Hram : addr e1 / 4096 < 65536) :
  (forall e2, (r1, v1 / 4096) <> (r2, v2 / 4096) -> walk (mem k) r2 v2 = Some e2 ->
     addr e1 = addr e2 -> is_writable e1 = false /\ is_writable e2 = false) /\
  (addr e1 ∉ walk_tables (mem k) r2 v2) /\
  is_free (frame_allocator k) (addr e1 / 4096) = false.
Proof.
  destruct (reach_good k R Hreach) as (T & M & G).
  rewrite (good_walk k R T M G) in Hw by done.
  pose proof (g_st _ _ _ _ G) as S. pose proof (st_counts _ _ _ _ _ _ _ S) as C.
  split_and!.
  - intros e2 Hne Hw2. rewrite (good_walk k R T M G) in Hw2 by done.
    intros E. eapply (g_excl _ _ _ _ G); [|exact Hw|exact Hw2|done|done]. by apply other_key.
  - intros Hin. eapply walk_tables_in in Hin as [p Hp];
      [|apply S|by apply (g_roots _ _ _ _ G)|done].
    destruct (table_private C _ _ Hp) as [H0 _]. pose proof (m_uses_in _ _ Hw). lia.
  - apply (referenced_not_free C).
    + destruct (aligned_frame _ (aligned_addr e1)). lia.
    + pose proof (m_uses_in _ _ Hw). pose proof (t_uses_nonneg (T := T) (addr e1 / 4096)).
      pose proof (x_uses_nonneg [] (addr e1 / 4096)). lia.
Qed.

(** ** Mapping *)

(** [v] is a page of the region. *)
Definition in_region (r virt n r' v : Z) : Prop :=
  exists j, 0 <= j < n /\ (r', v / 4096) = (r, (virt + j * 4096) / 4096).

Lemma region_key r virt n r' v (j : Z) :
  user_addr v -> 0 <= virt -> virt + n * 4096 <= 2 ^ 47 -> 0 <= j < n ->
  (r', path v) = (r, path (virt + j * 4096)) -> in_region r virt n r' v.
Proof.
  intros Hv H0 Hn Hj E. exists j. split; [done|].
  assert (r' = r) as -> by congruence. assert (path v = path (virt + j * 4096)) as E' by congruence.
  f_equal. apply path_page; [done| |done]. unfold user_addr. lia.
Qed.

(** [map_user_region_in] always returns; on success every page of the region
    was unmapped and now maps, with the requested flags, a distinct zeroed frame
    that no live process mapped before; on success or failure no other page of
    any process changes its translation, and no mapped byte changes. *)
Theorem map_region_is_fresh_and_frames_others (k : kernel) (R : gset Z) (r virt n : Z) (w x : bool)
    (Hreach : reach k R) (Hr : r ∈ R) (H0 : 0 <= virt) (Hn : virt + n * 4096 <= 2 ^ 47) :
  exists res k', map_user_region_in r virt n w x k = Ret (res, k') /\
    (res = Ok tt -> forall j, 0 <= j < n ->
       walk (mem k) r (virt + j * 4096) = None /\
       exists f, walk (mem k') r (virt + j * 4096) = Some (set f (user_flags w x)) /\
         (forall i, 0 <= i < 512 -> rd (mem k') (f + 8 * i) = 0) /\
         (forall r' v e, r' ∈ R -> user_addr v -> walk (mem k) r' v = Some e -> addr e <> f)) /\
    (forall r' v, r' ∈ R -> user_addr v -> ~ in_region r virt n r' v ->
       walk (mem k') r' v = walk (mem k) r' v) /\
    (forall r' v e, r' ∈ R -> user_addr v -> walk (mem k) r' v = Some e ->
       walk (mem k') r' v = Some e /\
       (addr e / 4096 < 65536 -> forall i, 0 <= i < 512 ->
          rd (mem k') (addr e + 8 * i) = rd (mem k) (addr e + 8 * i))).
Proof.
  destruct (reach_good k R Hreach) as (T & M & G).
  destruct (good_map k R T M G r virt n w x Hr H0 Hn) as (res & k' & E & js & T' & M' & D' & v' &
    Hjs & Hres & G' & Hsub & HD & Hv & Hnew & Hdone & Hdata).
  exists res, k'. split; [done|]. split_and!.
  - intros Hok j Hj. assert (user_addr (virt + j * 4096)) as Hu by (unfold user_addr; lia).
    destruct (Hdone j) as (f & Ha & HDf & Hm0 & Hn0 & Hs & Hz).
    { rewrite (Hres Hok). apply elem_of_seqZ. lia. }
    rewrite (good_walk k R T M G) by done. split; [done|]. exists f.
    rewrite (good_walk k' R T' M' G') by done. split_and!; [done|..].
    + intros i Hi. rewrite Hdata; [by apply Hz|]. by rewrite slot_frame.
    + intros r' v e Hr' Hv' He. rewrite (good_walk k R T M G) in He by done. by eapply unused_addr.
  - intros r' v Hr' Hv' Hnin. rewrite (good_walk k R T M G), (good_walk k' R T' M' G') by done.
    destruct (M !! (r', path v)) as [e|] eqn:He; [by eapply lookup_weaken|].
    destruct (M' !! (r', path v)) as [e'|] eqn:He'; [exfalso|done].
    destruct (Hnew (r', path v) He ltac:(congruence)) as (j & Hj & Ek).
    by apply Hnin, (region_key r virt n r' v j Hv' H0 Hn (Hjs j Hj)).
  - intros r' v e Hr' Hv' He. rewrite (good_walk k R T M G) in He by done.
    rewrite (good_walk k' R T' M' G') by done. split; [by eapply lookup_weaken|].
    intros Hlt i Hi. assert (D0 (M := M) ((addr e + 8 * i) / 4096)) as HD0.
    { rewrite slot_frame; [|apply aligned_addr|done]. split; [|by eapply m_uses_in].
      destruct (aligned_frame _ (aligned_addr e)). lia. }
    rewrite Hdata by (by apply HD). by apply Hv.
Qed.

(** [unmap_user_region_in] always returns, leaves every page of the region
    unmapped and every other page of every process as it was. *)
Theorem unmap_region_is_exact (k : kernel) (R : gset Z) (r virt n : Z)
    (Hreach : reach k R) (Hr : r ∈ R) (H0 : 0 <= virt) (Hn : virt + n * 4096 <= 2 ^ 47) :
  exists k', unmap_user_region_in r virt n k = Ret (Ok tt, k') /\
    (forall j, 0 <= j < n -> walk (mem k') r (virt + j * 4096) = None) /\
    (forall r' v, r' ∈ R -> user_addr v -> ~ in_region r virt n r' v ->
       walk (mem k') r' v = walk (mem k) r' v).
Proof.
  destruct (reach_good k R Hreach) as (T & M & G).
  destruct (good_unmap k R T M G r virt n Hr H0 Hn) as (k' & E & G'). exists k'. split; [done|].
  split.
  - intros j Hj. assert (user_addr (virt + j * 4096)) as Hu by (unfold user_addr; lia).
    rewrite (good_walk k' R _ _ G') by done.
    destruct (lookup_unmapped (M := M) r virt (seqZ 0 n) (r, path (virt + j * 4096)))
      as [[_ H]|[H _]]; [done|]. exfalso. apply (H j); [apply elem_of_seqZ; lia|done].
  - intros r' v Hr' Hv Hnin. rewrite (good_walk k R T M G), (good_walk k' R _ _ G') by done.
    destruct (lookup_unmapped (M := M) r virt (seqZ 0 n) (r', path v)) as [[(j & Hj & Ek) _]|[_ H]]; [|done].
    exfalso. apply Hnin, (region_key r virt n r' v j Hv H0 Hn); [|done]. apply elem_of_seqZ in Hj. lia.
Qed.
(** ** Copy-on-write *)


(** The address the fork loops test against the stack range is the page's. *)
Lemma virt_of_path v : user_addr v -> virt_of (path v) = v / 4096 * 4096.
Proof.
  intros Hv. unfold virt_of, path, l4i, l3i, l2i, l1i.
  bits n Hn. rewrite !Z.lor_spec.
  assert (forall a, 0 <= a -> Z.testbit (Z.shiftl (Z.land (Z.shiftr v a) 0x1FF) a) n =
            (a <=? n) && (n <? a + 9) && Z.testbit v n) as Hf.
  { intros a Ha. rewrite Z.shiftl_spec by done. destruct (Z.leb_spec a n); cbn [andb].
    - rewrite Z.land_spec, Z.shiftr_spec by lia. replace (n - a + a) with n by lia.
      change 0x1FF with (Z.ones 9). destruct (Z.ltb_spec n (a + 9)).
      + rewrite Z.ones_spec_low by lia. by rewrite andb_true_r.
      + rewrite Z.ones_spec_high by lia. by rewrite andb_false_r.
    - apply Z.testbit_neg_r. lia. }
  rewrite !Hf by lia.
  assert (Z.testbit (v / 4096 * 4096) n = (12 <=? n) && Z.testbit v n) as ->.
  { change 4096 with (2 ^ 12). rewrite <- Z.shiftr_div_pow2, <- Z.shiftl_mul_pow2 by lia.
    rewrite Z.shiftl_spec by done. destruct (Z.leb_spec 12 n); cbn [andb].
    - rewrite Z.shiftr_spec by lia. f_equal. lia.
    - apply Z.testbit_neg_r. lia. }
  destruct (Z.testbit v n) eqn:Hb; [|by rewrite !andb_false_r].
  assert (n < 47 + 1) as Hn47.
  { destruct (Z.lt_ge_cases n 48); [done|]. exfalso. destruct Hv as [H1 H2].
    assert (v = 0 \/ 0 < v) as [->|Hpos] by lia; [by rewrite Z.bits_0 in Hb|].
    rewrite Z.bits_above_log2 in Hb; [done|lia|].
    assert (Z.log2 v < 47) by (apply Z.log2_lt_pow2; lia). lia. }
  rewrite !andb_true_r.
  destruct (Z.leb_spec 39 n), (Z.leb_spec 30 n), (Z.leb_spec 21 n), (Z.leb_spec 12 n),
    (Z.ltb_spec n (39 + 9)), (Z.ltb_spec n (30 + 9)), (Z.ltb_spec n (21 + 9)), (Z.ltb_spec n (12 + 9));
    cbn; done || lia.
Qed.


(** ** A small machine *)

(** Frame 0 holds the kernel's root table; everything else is free. *)
Definition demo : kernel :=
  mkK ∅ (mkFA (wr ∅ 0 1) ∅ 0 65536 0) (Some (mkPTM 0 0xFFFF800000000000)) 0 0 0 true [] 0 0.

Definition outcome_of {A} (d : A) (o : outcome (A * kernel)) : A * kernel :=
  match o with Ret x => x | Panic => (d, demo) end.

Lemma returns_eq {A} d (o : outcome (A * kernel)) a :
  returns o = true -> (outcome_of d o).1 = a -> o = Ret (a, (outcome_of d o).2).
Proof. destruct o as [[]|]; cbn; [by intros _ ->|done]. Qed.

(** One process with one page of memory at 4 MiB. *)
Definition demo1 : kernel := (outcome_of (Err tt) (create_user_page_table demo)).2.
Definition demo2 : kernel :=
  (outcome_of (Err EmptyString) (map_user_region_in 4096 0x400000 1 true true demo1)).2.

Lemma reach_demo : reach demo ∅.
Proof.
  constructor. split; [done|]. split.
  - split; cbn; done || lia || (intros f; unfold rd; rewrite lookup_empty; unfold u16_max; cbn; lia).
  - exists (mkPTM 0 0xFFFF800000000000). split; [done|]. split; [done|].
    split; [vm_compute; reflexivity|done].
Qed.

Lemma create_demo : create_user_page_table demo = Ret (Ok 4096, demo1).
Proof.
  assert (returns (create_user_page_table demo) = true) as H1 by (vm_compute; reflexivity).
  assert ((outcome_of (Err tt) (create_user_page_table demo)).1 = Ok 4096) as H2
    by (vm_compute; reflexivity).
  unfold demo1. exact (returns_eq _ _ _ H1 H2).
Qed.
Lemma reach_demo1 : reach demo1 ({[4096]} ∪ ∅).
Proof. exact (reach_create _ _ _ _ reach_demo create_demo). Qed.

Lemma map_demo : map_user_region_in 4096 0x400000 1 true true demo1 = Ret (Ok tt, demo2).
Proof.
  assert (returns (map_user_region_in 4096 0x400000 1 true true demo1) = true) as H1
    by (vm_compute; reflexivity).
  assert ((outcome_of (Err EmptyString) (map_user_region_in 4096 0x400000 1 true true demo1)).1 = Ok tt)
    as H2 by (vm_compute; reflexivity).
  unfold demo2. exact (returns_eq _ _ _ H1 H2).
Qed.
Lemma in_live : (4096 : Z) ∈ ({[4096]} ∪ ∅ : gset Z).
Proof. set_solver. Qed.
Lemma reach_demo2 : reach demo2 ({[4096]} ∪ ∅).
Proof.
  exact (reach_map _ _ 4096 0x400000 1 true true _ _ reach_demo1 in_live ltac:(lia) ltac:(lia) map_demo).
Qed.

Lemma demo2_page : walk (mem demo2) 4096 0x400000 = Some 8199.
Proof. vm_compute. reflexivity. Qed.

Lemma demo2_counts f : rd (refcount (frame_allocator demo2)) f <= 32767.
Proof.
  assert (map_Forall (fun _ c => c <= 32767) (refcount (frame_allocator demo2))) as H.
  { apply (bool_decide_eq_true_1 _). vm_compute. reflexivity. }
  unfold rd. destruct (refcount (frame_allocator demo2) !! f) as [x|] eqn:E; cbn; [|lia].
  exact (H f x E).
Qed.

(** The process forks: parent and child share the page copy-on-write. *)
Definition demo3 : kernel := (outcome_of (Err tt) (cow_fork_user_page_table (0, 0) [] 4096 demo2)).2.
Lemma fork_demo : cow_fork_user_page_table (0, 0) [] 4096 demo2 = Ret (Ok 24576, demo3).
Proof.
  assert (returns (cow_fork_user_page_table (0, 0) [] 4096 demo2) = true) as H1 by (vm_compute; reflexivity).
  assert ((outcome_of (Err tt) (cow_fork_user_page_table (0, 0) [] 4096 demo2)).1 = Ok 24576) as H2 by (vm_compute; reflexivity).
  unfold demo3. exact (returns_eq _ _ _ H1 H2).
Qed.
Lemma reach_demo3 : reach demo3 ({[24576]} ∪ ({[4096]} ∪ ∅)).
Proof. exact (reach_fork _ _ 4096 (0, 0) _ _ reach_demo2 in_live demo2_counts fork_demo). Qed.
Lemma demo3_page : walk (mem demo3) 4096 0x400000 = Some 8709 /\ walk (mem demo3) 24576 0x400000 = Some 8709.
Proof. vm_compute. split; reflexivity. Qed.
Lemma demo3_fault : returns (try_resolve_cow_fault 4096 0x400000 demo3) = true /\ (outcome_of (Ok false) (try_resolve_cow_fault 4096 0x400000 demo3)).1 = Ok true.
Proof. vm_compute. split; reflexivity. Qed.
(** The same fork while the page belongs to a segment. *)
Lemma fork_demo_shm : returns (cow_fork_user_page_table (0, 0) [(0x400000, 0x401000)] 4096 demo2) = true /\
  (outcome_of (Err tt) (cow_fork_user_page_table (0, 0) [(0x400000, 0x401000)] 4096 demo2)).1 = Ok 24576.
Proof. vm_compute. split; reflexivity. Qed.
#[local] Opaque demo1 demo2 demo3.

Lemma demo_user : user_addr 0x400000.
Proof. unfold user_addr. lia. Qed.

Lemma user_pages_are_isolated_witness :
  walk (mem demo2) 4096 0x400000 = Some 8199 /\
  is_free (frame_allocator demo2) (addr 8199 / 4096) = false.
Proof.
  split; [exact demo2_page|].
  destruct (user_pages_are_isolated demo2 _ 4096 4096 0x400000 0x400000 8199 reach_demo2
    in_live in_live demo_user demo_user demo2_page ltac:(vm_compute; reflexivity)) as (_ & _ & H).
  exact H.
Defined.

Lemma map_region_is_fresh_and_frames_others_witness :
  exists res k', map_user_region_in 4096 0x800000 2 true false demo2 = Ret (res, k') /\
    walk (mem k') 4096 0x400000 = Some 8199.
Proof.
  destruct (map_region_is_fresh_and_frames_others demo2 _ 4096 0x800000 2 true false reach_demo2
    in_live ltac:(lia) ltac:(lia)) as (res & k' & E & _ & _ & H).
  exists res, k'. split; [exact E|]. exact (proj1 (H _ _ _ in_live demo_user demo2_page)).
Defined.

Lemma unmap_region_is_exact_witness :
  exists k', unmap_user_region_in 4096 0x400000 1 demo2 = Ret (Ok tt, k') /\
    walk (mem k') 4096 (0x400000 + 0 * 4096) = None.
Proof.
  destruct (unmap_region_is_exact demo2 _ 4096 0x400000 1 reach_demo2
    in_live ltac:(lia) ltac:(lia)) as (k' & E & H & _).
  exists k'. split; [exact E|]. apply H. lia.
Defined.



End vm.
