(* ===== verification/RamFs.v ===== *)
(** * The in-memory filesystem (kernel/src/kernel/fs/ramfs.rs, [RamFs])

    Module [ramfs] translates the flat inode vector: path resolution, the
    directory and file operations, [rename] and the boot image.  A path is the
    list of its bytes; a [&str] slice taken at a ['/'] is on a character
    boundary, so slicing never panics.

    Module [ramfs_spec] gives the meaning: a filesystem is a partial map from
    component lists to nodes.  Every operation refines its counterpart on that
    map, from boot and over any sequence of calls in which no [rename] puts a file
    below a regular file.  Such a rename succeeds and breaks the tree
    ([rename_below_a_file_breaks_the_tree]); a rename of a file onto itself
    deletes the file, and the specification says so. *)

From stdpp Require Import base list strings.
From Stdlib Require Import ZArith Lia.
From S2P Require Import Prelude.

Local Open Scope Z_scope.

(** Error codes and open flags of kernel/src/kernel/fs/mod.rs. *)
Module fs.
(* @src fs/mod.rs 20-20 O_WRONLY *)
Definition O_WRONLY : Z := 1.
(* @src fs/mod.rs 21-21 O_RDWR *)
Definition O_RDWR : Z := 2.
(* @src fs/mod.rs 22-22 O_CREAT *)
Definition O_CREAT : Z := 64.
(* @src fs/mod.rs 23-23 O_TRUNC *)
Definition O_TRUNC : Z := 512.
(* @src fs/mod.rs 24-24 O_APPEND *)
Definition O_APPEND : Z := 1024.
(* @src fs/mod.rs 27-27 ENOENT *)
Definition ENOENT : Z := -2.
(* @src fs/mod.rs 28-28 EEXIST *)
Definition EEXIST : Z := -17.
(* @src fs/mod.rs 29-29 EISDIR *)
Definition EISDIR : Z := -21.
(* @src fs/mod.rs 30-30 ENOTDIR *)
Definition ENOTDIR : Z := -20.
(* @src fs/mod.rs 31-31 EBADF *)
Definition EBADF : Z := -9.
(* @src fs/mod.rs 32-32 EINVAL *)
Definition EINVAL : Z := -22.
(* @src fs/mod.rs 34-34 EMFILE *)
Definition EMFILE : Z := -24.
(* @src fs/mod.rs 35-35 EACCES *)
Definition EACCES : Z := -13.
End fs.

Module ramfs.
Import fs.

(** ['/'] *)
Definition SLASH : Z := 47.

(* @src fs/ramfs.rs 30-30 ROOT_PARENT *)
Definition ROOT_PARENT : Z := u64_max.

(* @src fs/ramfs.rs 34-37 NodeKind *)
Inductive NodeKind := File | Directory.
#[export] Instance NodeKind_eq_dec : EqDecision NodeKind.
Proof. solve_decision. Defined.

(* @src fs/ramfs.rs 40-54 INode *)
Record INode := mkINode {
  name : list Z;
  parent_idx : Z;
  kind : NodeKind;
  data : list Z;
  mode : Z;
  uid : Z;
  gid : Z;
}.

(* @src fs/ramfs.rs 391-393 RamFs *)
Record RamFs := mkRamFs { inodes : list INode }.

Definition set_data (n : INode) (d : list Z) : INode :=
  mkINode (name n) (parent_idx n) (kind n) d (mode n) (uid n) (gid n).
Definition set_parent (n : INode) (p : Z) : INode :=
  mkINode (name n) p (kind n) (data n) (mode n) (uid n) (gid n).
Definition set_name (n : INode) (s : list Z) : INode :=
  mkINode s (parent_idx n) (kind n) (data n) (mode n) (uid n) (gid n).
Definition is_dir_node (n : INode) : bool := bool_decide (kind n = Directory).

(** ** Path helpers *)

(* @src fs/ramfs.rs 446-448 RamFs::find_child *)
Definition find_child (fs : RamFs) (parent : nat) (nm : list Z) : option nat :=
  position (fun n => (parent_idx n =? Z.of_nat parent) && bool_decide (name n = nm)) (inodes fs).

(** The loop [for component in ...] of [resolve]. *)
(* @src fs/ramfs.rs 439-442 RamFs::resolve (loop) *)
Fixpoint resolve_loop (fs : RamFs) (cur : nat) (comps : list (list Z)) : option nat :=
  match comps with
  | [] => Some cur
  | component :: rest =>
      match component with
      | [] => resolve_loop fs cur rest
      | _ =>
          match find_child fs cur component with
          | Some c => resolve_loop fs c rest
          | None => None
          end
      end
  end.

(* @src fs/ramfs.rs 433-444 RamFs::resolve *)
Definition resolve (fs : RamFs) (path : list Z) : option nat :=
  if bool_decide (path = [SLASH]) || bool_decide (path = []) then Some 0%nat
  else
    let stripped := if starts_with path [SLASH] then drop 1 path else path in
    resolve_loop fs 0 (split SLASH stripped).

(* @src fs/ramfs.rs 451-459 RamFs::split_path *)
Definition split_path (path : list Z) : option (list Z * list Z) :=
  let path := trim_end SLASH path in
  if bool_decide (path = []) || bool_decide (path = [SLASH]) then None
  else
    match rfind SLASH path with
    | Some O => Some ([SLASH], drop 1 path)
    | Some pos => Some (take pos path, drop (pos + 1) path)
    | None => Some ([SLASH], path)
    end.

(** ** Directory operations *)

(* @src fs/ramfs.rs 464-480 RamFs::create_dir *)
Definition create_dir (path : list Z) : prog RamFs Z nat :=
  let? fs := get in
  if bool_decide (is_Some (resolve fs path)) then err EEXIST
  else
    let? (parent_path, nm) := ok_or (split_path path) EINVAL in
    let? parent := ok_or (resolve fs parent_path) ENOENT in
    let? p := checked (idx (inodes fs) parent) in
    if negb (is_dir_node p) then err ENOTDIR
    else
      let i := length (inodes fs) in
      let? _ := put (mkRamFs (inodes fs ++
        [mkINode nm (Z.of_nat parent) Directory [] 493 0 0])) in
      ok i.

(** One directory entry as the loop of [read_dir_raw] writes it. *)
(* @src fs/ramfs.rs 491-499 RamFs::read_dir_raw (entry) *)
Definition dir_entry (n : INode) : list Z :=
  name n ++ (if is_dir_node n then [SLASH] else []) ++ [10].

(* @src fs/ramfs.rs 491-500 RamFs::read_dir_raw (loop) *)
Fixpoint read_dir_loop (nodes : list INode) (buf : list Z) (pos : nat) : outcome (nat * list Z) :=
  match nodes with
  | [] => Ret (pos, buf)
  | node :: rest =>
      let trail := if is_dir_node node then [SLASH] else [] in
      let need := (length (name node) + length trail + 1)%nat in
      if (length buf <? pos + need)%nat then Ret (pos, buf)
      else
        let! buf := copy_at buf pos (name node) in
        let pos := (pos + length (name node))%nat in
        let! (buf, pos) :=
          if is_dir_node node
          then (let! b := set_idx buf pos SLASH in Ret (b, (pos + 1)%nat))
          else Ret (buf, pos) in
        let! buf := set_idx buf pos 10 in
        read_dir_loop rest buf (pos + 1)
  end.

Definition children (fs : RamFs) (dir : nat) : list INode :=
  base.filter (fun n => parent_idx n = Z.of_nat dir) (inodes fs).

(* @src fs/ramfs.rs 484-502 RamFs::read_dir_raw *)
Definition read_dir_raw (fs : RamFs) (path buf : list Z) : outcome (Z * list Z) :=
  match resolve fs path with
  | None => Ret (-7, buf)
  | Some dir =>
      let! d := idx (inodes fs) dir in
      if negb (is_dir_node d) then Ret (-1, buf)
      else
        let! (pos, buf) := read_dir_loop (children fs dir) buf 0 in
        Ret (Z.of_nat pos, buf)
  end.

(* @src fs/ramfs.rs 505-513 RamFs::list_dir *)
Definition list_dir (fs : RamFs) (path : list Z) : outcome (option (list (list Z * NodeKind))) :=
  match resolve fs path with
  | None => Ret None
  | Some dir =>
      let! d := idx (inodes fs) dir in
      if negb (is_dir_node d) then Ret None
      else Ret (Some ((fun n => (name n, kind n)) <$> children fs dir))
  end.

(** ** File operations *)

(** [self.inodes[i].data = f(self.inodes[i].data)] *)
Definition update_data (i : nat) (f : list Z -> list Z) : prog RamFs Z unit :=
  let? fs := get in
  let? n := checked (idx (inodes fs) i) in
  put (mkRamFs (<[i := set_data n (f (data n))]> (inodes fs))).

(* @src fs/ramfs.rs 518-538 RamFs::create_file *)
Definition create_file (path : list Z) : prog RamFs Z nat :=
  let? fs := get in
  match resolve fs path with
  | Some i =>
      let? n := checked (idx (inodes fs) i) in
      if is_dir_node n then err EISDIR
      else let? _ := update_data i (fun _ => []) in ok i
  | None =>
      let? (parent_path, nm) := ok_or (split_path path) EINVAL in
      let? parent := ok_or (resolve fs parent_path) ENOENT in
      let? p := checked (idx (inodes fs) parent) in
      if negb (is_dir_node p) then err ENOTDIR
      else
        let i := length (inodes fs) in
        let? _ := put (mkRamFs (inodes fs ++
          [mkINode nm (Z.of_nat parent) File [] 420 0 0])) in
        ok i
  end.

(* @src fs/ramfs.rs 541-545 RamFs::write_file *)
Definition write_file (path bytes : list Z) : prog RamFs Z unit :=
  let? i := create_file path in
  update_data i (fun d => d ++ bytes).

(* @src fs/ramfs.rs 548-555 RamFs::append_file *)
Definition append_file (path bytes : list Z) : prog RamFs Z unit :=
  let? fs := get in
  match resolve fs path with
  | Some i =>
      let? n := checked (idx (inodes fs) i) in
      if is_dir_node n then err EISDIR
      else update_data i (fun d => d ++ bytes)
  | None => write_file path bytes
  end.

(* @src fs/ramfs.rs 558-562 RamFs::read_file *)
Definition read_file (fs : RamFs) (path : list Z) : outcome (option (list Z)) :=
  match resolve fs path with
  | None => Ret None
  | Some i =>
      let! n := idx (inodes fs) i in
      Ret (if is_dir_node n then None else Some (data n))
  end.

(* @src fs/ramfs.rs 565-569 RamFs::file_size *)
Definition file_size (fs : RamFs) (path : list Z) : outcome (option nat) :=
  match resolve fs path with
  | None => Ret None
  | Some i =>
      let! n := idx (inodes fs) i in
      Ret (if is_dir_node n then None else Some (length (data n)))
  end.

(** The shift of the parent references in [remove_file]. *)
(* @src fs/ramfs.rs 579-583 RamFs::remove_file (loop body) *)
Definition shift_parent (i : nat) (n : INode) : INode :=
  if negb (parent_idx n =? ROOT_PARENT) && (Z.of_nat i <? parent_idx n)
  then set_parent n (parent_idx n - 1) else n.

(** [self.inodes.remove(i)]: panics when [i] is out of range. *)
Definition vec_remove {A} (l : list A) (i : nat) : outcome (list A) :=
  if (i <? length l)%nat then Ret (delete i l) else Panic.

(* @src fs/ramfs.rs 574-586 RamFs::remove_file *)
Definition remove_file (path : list Z) : prog RamFs Z nat :=
  let? fs := get in
  let? i := ok_or (resolve fs path) ENOENT in
  let? n := checked (idx (inodes fs) i) in
  if is_dir_node n then err EISDIR
  else
    let? l := checked (vec_remove (shift_parent i <$> inodes fs) i) in
    let? _ := put (mkRamFs l) in
    ok i.

(** [rename] after the destination is gone: the source is resolved again, and
    its inode gets the new name and parent. *)
(* @src fs/ramfs.rs 602-617 RamFs::rename (move) *)
Definition rename_move (old_path new_path : list Z) : prog RamFs Z unit :=
  let? fs := get in
  let? i := ok_or (resolve fs old_path) ENOENT in
  let? (new_dir, new_name) := ok_or (split_path new_path) EINVAL in
  let? new_parent :=
    if bool_decide (new_dir = [SLASH]) || bool_decide (new_dir = []) then ok 0%nat
    else ok_or (resolve fs new_dir) ENOENT in
  let? n := checked (idx (inodes fs) i) in
  put (mkRamFs (<[i := set_parent (set_name n new_name) (Z.of_nat new_parent)]> (inodes fs))).

(* @src fs/ramfs.rs 590-618 RamFs::rename *)
Definition rename (old_path new_path : list Z) : prog RamFs Z unit :=
  let? fs := get in
  let? i := ok_or (resolve fs old_path) ENOENT in
  let? n := checked (idx (inodes fs) i) in
  if is_dir_node n then err EISDIR
  else
    let? _ := if bool_decide (is_Some (resolve fs new_path))
              then let? _ := remove_file new_path in ok tt else ok tt in
    rename_move old_path new_path.

(** [data.truncate(len); if len > data.len() { data.resize(len, 0) }] *)
(* @src fs/ramfs.rs 624-627 RamFs::truncate (data) *)
Definition truncate_data (len : nat) (d : list Z) : list Z :=
  let d := take len d in
  if (length d <? len)%nat then resize_vec d len 0 else d.

(* @src fs/ramfs.rs 621-629 RamFs::truncate *)
Definition truncate (path : list Z) (len : nat) : prog RamFs Z unit :=
  let? fs := get in
  let? i := ok_or (resolve fs path) ENOENT in
  let? n := checked (idx (inodes fs) i) in
  if is_dir_node n then err EISDIR else update_data i (truncate_data len).

(* @src fs/ramfs.rs 632-639 RamFs::truncate_by_idx *)
Definition truncate_by_idx (i len : nat) (fs : RamFs) : RamFs :=
  match inodes fs !! i with
  | Some n => mkRamFs (<[i := set_data n (truncate_data len (data n))]> (inodes fs))
  | None => fs
  end.

(* @src fs/ramfs.rs 642-642 RamFs::exists *)
Definition exists_ (fs : RamFs) (path : list Z) : bool := bool_decide (is_Some (resolve fs path)).

(* @src fs/ramfs.rs 645-647 RamFs::is_dir *)
Definition is_dir (fs : RamFs) (path : list Z) : outcome bool :=
  match resolve fs path with
  | None => Ret false
  | Some i => let! n := idx (inodes fs) i in Ret (is_dir_node n)
  end.

(** ** The boot image

    [etc_version] is the string the build script generates. *)

(* @src fs/ramfs.rs 397-428 RamFs::new *)
Definition new_prog (etc_version : list Z) : prog RamFs Z unit :=
  let? _ := catch (create_dir (str "/etc"%string)) in
  let? _ := catch (create_dir (str "/tmp"%string)) in
  let? _ := catch (create_dir (str "/home"%string)) in
  let? _ := catch (create_dir (str "/bin"%string)) in
  let? _ := catch (write_file (str "/etc/hostname"%string) (str "oxideos"%string ++ [10])) in
  let? _ := catch (write_file (str "/etc/version"%string) etc_version) in
  let? _ := catch (write_file (str "/etc/motd"%string)
    (str "Welcome to OxideOS!"%string ++ [10] ++
     str "Type 'help' in the terminal for commands."%string ++ [10])) in
  ok tt.

Definition root_only : RamFs := mkRamFs [mkINode [SLASH] ROOT_PARENT Directory [] 493 0 0].

(* @src fs/ramfs.rs 397-428 RamFs::new *)
Definition new (etc_version : list Z) : outcome RamFs :=
  match new_prog etc_version root_only with
  | Ret (_, fs) => Ret fs
  | Panic => Panic
  end.

(** ** The tree behind the vector *)

Implicit Types (f : RamFs) (q : list (list Z)) (n m : INode).

(** The components of a path, and the walk along them. *)
Definition comps (path : list Z) : list (list Z) := base.filter (fun c => c <> []) (split SLASH path).

Fixpoint walk f (cur : nat) q : option nat :=
  match q with
  | [] => Some cur
  | x :: q' => match find_child f cur x with Some c => walk f c q' | None => None end
  end.

(** Inode [i] is entry [x] of directory [c]. *)
Definition child f (c i : nat) (x : list Z) : Prop :=
  exists n, inodes f !! i = Some n /\ parent_idx n = Z.of_nat c /\ name n = x.

Record wf f : Prop := {
  wf_root : exists n, inodes f !! 0%nat = Some n /\ kind n = Directory /\ parent_idx n = ROOT_PARENT;
  wf_parent : forall i n, inodes f !! i = Some n -> i <> 0%nat ->
    exists p pn, parent_idx n = Z.of_nat p /\ inodes f !! p = Some pn /\ kind pn = Directory;
  wf_name : forall i n, inodes f !! i = Some n -> i <> 0%nat -> name n <> [] /\ SLASH ∉ name n;
  wf_unique : forall i j n m, inodes f !! i = Some n -> inodes f !! j = Some m ->
    parent_idx n = parent_idx m -> name n = name m -> i = j;
  wf_size : Z.of_nat (length (inodes f)) <= isize_max;
}.

Lemma comps_sep a b : comps (a ++ SLASH :: b) = comps a ++ comps b.
Proof. unfold comps. by rewrite split_sep, filter_app. Qed.

Lemma comps_nil : comps [] = [].
Proof. done. Qed.

Lemma comps_trail a k : comps (a ++ replicate k SLASH) = comps a.
Proof.
  revert a. induction k as [|k IH]; intros a; cbn; [by rewrite app_nil_r|].
  rewrite comps_sep. pose proof (IH []) as E. rewrite app_nil_l in E.
  by rewrite E, comps_nil, app_nil_r.
Qed.

Lemma comps_name nm : nm <> [] -> SLASH ∉ nm -> comps nm = [nm].
Proof.
  intros Hn Hs. unfold comps. rewrite split_no_sep by done.
  by rewrite filter_cons_True.
Qed.

Lemma comps_fine path x : x ∈ comps path -> x <> [] /\ SLASH ∉ x.
Proof.
  unfold comps. rewrite list_elem_of_filter. intros [Hx Hin]. split; [done|]. clear Hx. revert x Hin.
  induction path as [|b path IH]; intros x; cbn.
  { intros ->%list_elem_of_singleton. apply not_elem_of_nil. }
  destruct (Z.eqb_spec b SLASH).
  - intros [->|?]%elem_of_cons; [apply not_elem_of_nil|auto].
  - pose proof (split_nonempty SLASH path). destruct (split SLASH path) as [|p ps]; [done|].
    intros [->|?]%elem_of_cons.
    + apply not_elem_of_cons. split; [done|]. apply IH. by left.
    + apply IH. by right.
Qed.

Lemma resolve_loop_walk f c (l : list (list Z)) :
  resolve_loop f c l = walk f c (base.filter (fun x => x <> []) l).
Proof.
  revert c. induction l as [|x l IH]; intros c; [done|]. cbn [resolve_loop].
  destruct x as [|b x].
  - rewrite filter_cons_False by (intros H; by apply H). apply IH.
  - rewrite filter_cons_True by done. cbn [walk]. by destruct (find_child f c (b :: x)).
Qed.

Lemma resolve_walk f path : resolve f path = walk f 0 (comps path).
Proof.
  unfold resolve. destruct (decide (path = [SLASH] \/ path = [])) as [H|H].
  { by destruct H as [-> | ->]. }
  rewrite bool_decide_false by tauto. rewrite bool_decide_false by tauto. cbn [orb].
  rewrite resolve_loop_walk. destruct path as [|b path]; [tauto|].
  cbn [starts_with]. destruct (Z.eqb_spec b SLASH) as [->|]; cbn [andb]; [|done].
  pose proof (comps_sep [] path) as E. rewrite app_nil_l in E. rewrite E. by destruct path.
Qed.

Lemma split_path_comps path d nm :
  split_path path = Some (d, nm) -> comps path = comps d ++ [nm] /\ nm <> [] /\ SLASH ∉ nm.
Proof.
  unfold split_path. intros H. case_bool_decide as H0; [done|]. case_bool_decide as H1; [done|].
  cbn [orb] in H. destruct (trim_end_spec SLASH path) as (k & Hp & Hend).
  assert (comps path = comps (trim_end SLASH path)) as -> by (rewrite Hp at 1; apply comps_trail).
  remember (trim_end SLASH path) as t. clear Heqt Hp path.
  destruct (rfind SLASH t) as [i|] eqn:Hr.
  - apply rfind_Some in Hr as (a & b & -> & <- & Hb).
    assert (b <> []) by (intros ->; by apply (Hend a)).
    rewrite comps_sep, (comps_name b) by done. destruct a as [|x a]; cbn in H.
    + by simplify_eq.
    + rewrite Nat.add_1_r in H. cbn [take drop] in H.
      rewrite take_app_length in H. replace (S (length a)) with (length a + 1)%nat in H by lia.
      rewrite drop_app_add in H. cbn in H. by simplify_eq.
  - apply rfind_None in Hr. simplify_eq. by rewrite comps_name.
Qed.

Lemma split_path_None path : split_path path = None <-> comps path = [].
Proof.
  destruct (trim_end_spec SLASH path) as (k & Hp & Hend).
  assert (comps path = comps (trim_end SLASH path)) as Hc by (rewrite Hp at 1; apply comps_trail).
  unfold split_path. split.
  - case_bool_decide as H0; [by rewrite Hc, H0|]. case_bool_decide as H1; [by rewrite Hc, H1|].
    cbn [orb]. destruct (rfind SLASH (trim_end SLASH path)) as [[|]|]; done.
  - intros H. destruct (split_path path) as [[d nm]|] eqn:E; [|exact E].
    apply split_path_comps in E as [E _]. rewrite H in E. by destruct (comps d).
Qed.

Lemma idx_not_root f c : wf f -> (c < length (inodes f))%nat -> Z.of_nat c <> ROOT_PARENT.
Proof. intros W Hc. pose proof (wf_size f W). unfold ROOT_PARENT, u64_max, isize_max in *. lia. Qed.

Lemma find_child_Some f c x i : wf f -> find_child f c x = Some i <-> child f c i x.
Proof.
  intros W. unfold find_child, child. rewrite position_Some. split.
  - intros (n & Hn & Hb & _). bool_simpl. apply bool_decide_eq_true in H0. eauto.
  - intros (n & Hn & Hp & Hx). exists n. split_and!; [done| |].
    + by rewrite Hp, Z.eqb_refl, bool_decide_true.
    + intros j m Hj Hm. apply not_true_iff_false. intros Hb. bool_simpl.
      apply bool_decide_eq_true in H0. assert (j = i); [|lia].
      apply (wf_unique f W j i m n); congruence.
Qed.

Lemma child_lt f c i x : child f c i x -> (i < length (inodes f))%nat.
Proof. intros (n & Hn & _). by apply lookup_lt_Some in Hn. Qed.

Lemma child_not_root f c i x : wf f -> (c < length (inodes f))%nat -> child f c i x -> i <> 0%nat.
Proof.
  intros W Hc (n & Hn & Hp & _) ->. destruct (wf_root f W) as (r & Hr & _ & Hpr).
  simplify_eq. rewrite Hp in Hpr. by eapply idx_not_root.
Qed.

(** Only directories have entries. *)
Lemma child_dir f c i x : wf f -> (c < length (inodes f))%nat -> child f c i x ->
  exists n, inodes f !! c = Some n /\ kind n = Directory.
Proof.
  intros W Hc Hch. pose proof (child_not_root _ _ _ _ W Hc Hch). destruct Hch as (n & Hn & Hp & _).
  destruct (wf_parent f W i n) as (p & pn & Hp' & ? & ?); [done..|].
  rewrite Hp in Hp'. apply Nat2Z.inj in Hp' as <-. eauto.
Qed.

Lemma walk_app f c q q' :
  walk f c (q ++ q') = match walk f c q with Some d => walk f d q' | None => None end.
Proof.
  revert c. induction q as [|x q IH]; intros c; [done|]. cbn.
  destruct (find_child f c x); [apply IH|done].
Qed.

Lemma walk_lt f q i : wf f -> walk f 0 q = Some i -> (i < length (inodes f))%nat.
Proof.
  intros W. revert i. induction q as [|x q _] using rev_ind; intros i.
  - intros [= <-]. destruct (wf_root f W) as (n & Hn & _). by apply lookup_lt_Some in Hn.
  - rewrite walk_app. destruct (walk f 0 q) as [c|]; [|done]. cbn.
    destruct (find_child f c x) as [d|] eqn:E; [|done]. intros [= <-].
    apply find_child_Some in E; [|done]. by apply child_lt in E.
Qed.

Lemma walk_snoc f q x i : wf f ->
  walk f 0 (q ++ [x]) = Some i <->
  exists c, walk f 0 q = Some c /\ (c < length (inodes f))%nat /\ child f c i x.
Proof.
  intros W. rewrite walk_app. destruct (walk f 0 q) as [c|] eqn:Hq; [|naive_solver].
  pose proof (walk_lt f q c W Hq) as Hc. cbn. destruct (find_child f c x) as [d|] eqn:E; split.
  - intros [= <-]. apply find_child_Some in E; eauto.
  - intros (? & [= <-] & _ & Hch). by apply find_child_Some in Hch; [congruence|].
  - done.
  - intros (? & [= <-] & _ & Hch). by apply find_child_Some in Hch; [congruence|].
Qed.

Lemma walk_inj f q q' i : wf f -> walk f 0 q = Some i -> walk f 0 q' = Some i -> q = q'.
Proof.
  intros W. revert q' i. induction q as [|x q IH] using rev_ind; intros q' i H H'.
  - destruct q' as [|x' q' _] using rev_ind; [done|]. injection H as <-.
    apply walk_snoc in H' as (c & _ & Hc & Hch); [|done]. by apply child_not_root in Hch.
  - apply walk_snoc in H as (c & Hq & Hc & Hch); [|done].
    destruct q' as [|x' q' _] using rev_ind.
    { injection H' as <-. by apply child_not_root in Hch. }
    apply walk_snoc in H' as (c' & Hq' & Hc' & Hch'); [|done].
    destruct Hch as (n & Hn & Hp & Hx), Hch' as (n' & Hn' & Hp' & Hx').
    simplify_eq. assert (c = c') as -> by lia. by rewrite (IH _ _ Hq Hq').
Qed.

Lemma walk_ext f f' c q : (forall c x, find_child f c x = find_child f' c x) -> walk f c q = walk f' c q.
Proof.
  intros H. revert c. induction q as [|x q IH]; intros c; [done|]. cbn. rewrite H.
  by destruct (find_child f' c x).
Qed.

(** *** Replacing the contents of an inode *)

Lemma find_child_set_data f i n d c x : inodes f !! i = Some n ->
  find_child (mkRamFs (<[i := set_data n d]> (inodes f))) c x = find_child f c x.
Proof. intros Hn. unfold find_child. cbn. by eapply position_insert_same. Qed.

Lemma wf_set_data f i n d : wf f -> inodes f !! i = Some n ->
  wf (mkRamFs (<[i := set_data n d]> (inodes f))).
Proof.
  intros W Hn. destruct W as [(r & Hr & Hk & Hp) Hpar Hnm Hu Hs].
  assert (forall j m, <[i := set_data n d]> (inodes f) !! j = Some m ->
    exists m0, inodes f !! j = Some m0 /\ parent_idx m = parent_idx m0 /\
               name m = name m0 /\ kind m = kind m0) as Hback.
  { intros j m [(<- & <- & _)|(Hne & Hm)]%list_lookup_insert_Some; eauto 10. }
  assert (forall j m, inodes f !! j = Some m -> exists m', <[i := set_data n d]> (inodes f) !! j = Some m'
    /\ kind m' = kind m /\ parent_idx m' = parent_idx m) as Hfwd.
  { intros j m Hm. destruct (decide (i = j)) as [<-|].
    - rewrite list_lookup_insert_eq by (by eapply lookup_lt_Some). simplify_eq. by eexists.
    - rewrite list_lookup_insert_ne by done. eauto. }
  constructor; cbn.
  - destruct (Hfwd 0%nat r Hr) as (r' & ? & ? & ?). exists r'. split_and!; congruence.
  - intros j m Hm Hj. destruct (Hback j m Hm) as (m0 & Hm0 & -> & _ & _).
    destruct (Hpar j m0 Hm0 Hj) as (p & pn & ? & Hpn & ?).
    destruct (Hfwd p pn Hpn) as (pn' & ? & ? & _). exists p, pn'. split_and!; congruence.
  - intros j m Hm Hj. destruct (Hback j m Hm) as (m0 & Hm0 & _ & -> & _). eauto.
  - intros j k m1 m2 H1 H2 HP HN. destruct (Hback _ _ H1) as (a & Ha & HPa & HNa & _).
    destruct (Hback _ _ H2) as (b & Hb & HPb & HNb & _). eapply (Hu j k a b); congruence.
  - by rewrite length_insert.
Qed.

(** *** Adding an entry *)

Section Push.
Context (f : RamFs) (W : wf f) (parent : nat) (pn new : INode).
Context (Hpn : inodes f !! parent = Some pn) (Hpd : kind pn = Directory).
Context (Hnp : parent_idx new = Z.of_nat parent) (Hnm : name new <> [] /\ SLASH ∉ name new).
Context (Hfree : find_child f parent (name new) = None).
Context (Hroom : Z.of_nat (length (inodes f)) < isize_max).
Let f' := mkRamFs (inodes f ++ [new]).
Let len := length (inodes f).

Lemma push_lookup i n :
  (inodes f ++ [new]) !! i = Some n <-> inodes f !! i = Some n \/ (i = len /\ n = new).
Proof using Type.
  clear -new. rewrite lookup_app_Some, list_lookup_singleton_Some. subst len.
  split; [intros [?|(? & ? & ?)]; [by left|right; split; [lia|done]]|]. intros [H|[-> ->]]; [by left|]. right. split_and!; [lia|lia|done].
Qed.

Lemma wf_push : wf f'.
Proof.
  pose proof W as [(r & Hr & Hk & Hp) Hpar Hnms Hu Hs]. constructor; cbn.
  - exists r. rewrite push_lookup. eauto.
  - intros i n Hi Hi0. apply push_lookup in Hi as [Hi|[-> ->]].
    + destruct (Hpar i n Hi Hi0) as (p & m & ? & ? & ?). exists p, m. rewrite push_lookup. eauto.
    + exists parent, pn. rewrite push_lookup. eauto.
  - intros i n Hi Hi0. apply push_lookup in Hi as [Hi|[-> ->]]; [by eapply Hnms|done].
  - assert (forall i n, inodes f !! i = Some n -> parent_idx n = parent_idx new ->
      name n = name new -> False) as Hno.
    { intros i n Hi HP HN. assert (child f parent i (name new)) as Hc
        by (exists n; split_and!; congruence).
      apply find_child_Some in Hc; [congruence|done]. }
    intros i j n m Hi Hj HP HN.
    apply push_lookup in Hi as [Hi|[-> ->]]; apply push_lookup in Hj as [Hj|[-> ->]].
    + by eapply Hu.
    + exfalso. by eapply Hno.
    + exfalso. by eapply Hno.
    + done.
  - rewrite length_app. cbn. lia.
Qed.

Lemma push_child c i x : child f' c i x <-> child f c i x \/ (i = len /\ c = parent /\ x = name new).
Proof.
  unfold child. cbn. split.
  - intros (n & [Hn|[-> ->]]%push_lookup & HP & HN); [left; eauto|].
    right. split_and!; [done| |done]. lia.
  - intros [(n & Hn & HP & HN)|(-> & -> & ->)].
    + exists n. rewrite push_lookup. eauto.
    + exists new. rewrite push_lookup. split_and!; [by right|done..].
Qed.

Lemma push_walk q i : walk f' 0 q = Some i <->
  walk f 0 q = Some i \/ (i = len /\ exists q0, q = q0 ++ [name new] /\ walk f 0 q0 = Some parent).
Proof.
  assert (length (inodes f') = S len) as Hlen by (cbn; rewrite length_app; cbn; lia).
  assert (parent < len)%nat as Hplt by (by eapply lookup_lt_Some).
  revert i. induction q as [|x q IH] using rev_ind; intros i.
  { cbn. split; [auto|]. intros [?|(_ & q0 & ? & _)]; [done|]. by destruct q0. }
  rewrite walk_snoc by apply wf_push. rewrite (walk_snoc f) by done. split.
  - intros (c & [Hc|(-> & _)]%IH & Hlt & [Hch|(-> & -> & ->)]%push_child).
    + left. exists c. split_and!; [done| |done]. by eapply walk_lt.
    + right. split; [done|]. eauto.
    + exfalso. destruct Hch as (n & Hn & HP & _). destruct i as [|i].
      { destruct (wf_root f W) as (r & Hr & _ & Hrp). simplify_eq. subst len.
        pose proof (wf_size f W). unfold ROOT_PARENT, u64_max, isize_max in *. lia. }
      destruct (wf_parent f W (S i) n) as (p & m & HP' & Hm & _); [done..|].
      apply lookup_lt_Some in Hm. subst len. lia.
    + lia.
  - intros [(c & Hq & Hlt & Hch)|(-> & q0 & Hq0 & Hw)].
    + exists c. rewrite IH, push_child, Hlen. subst len. split_and!; [by left|lia|by left].
    + apply app_inj_tail in Hq0 as [<- ->]. exists parent. rewrite IH, push_child, Hlen.
      split_and!; [by left|lia|by right].
Qed.
End Push.

(** *** Removing a file *)

(** Index of an inode before the removal of inode [k], from its index after. *)
Definition unshift (k j : nat) : nat := if (j <? k)%nat then j else S j.

Lemma unshift_ne k j : unshift k j <> k.
Proof. unfold unshift. destruct (Nat.ltb_spec j k); lia. Qed.
Lemma unshift_inj k i j : unshift k i = unshift k j -> i = j.
Proof. unfold unshift. destruct (Nat.ltb_spec i k), (Nat.ltb_spec j k); lia. Qed.
Lemma unshift_onto k i : i <> k -> exists j, i = unshift k j.
Proof.
  intros H. exists (if (i <? k)%nat then i else (i - 1)%nat). unfold unshift.
  destruct (Nat.ltb_spec i k).
  - destruct (Nat.ltb_spec i k); lia.
  - destruct (Nat.ltb_spec (i - 1) k); lia.
Qed.

Section Remove.
Context (f : RamFs) (W : wf f) (k : nat) (kn : INode).
Context (Hkn : inodes f !! k = Some kn) (Hkf : kind kn = File).
Let f' := mkRamFs (delete k (shift_parent k <$> inodes f)).

Lemma remove_lookup j :
  inodes f' !! j = shift_parent k <$> inodes f !! unshift k j.
Proof.
  subst f'. cbn. unfold unshift. destruct (Nat.ltb_spec j k).
  - rewrite list_lookup_delete_lt by done. apply list_lookup_fmap.
  - rewrite list_lookup_delete_ge by done. apply list_lookup_fmap.
Qed.

Lemma file_no_child c i x : (c < length (inodes f))%nat -> child f c i x -> c <> k.
Proof.
  intros Hc Hch ->. destruct (child_dir f k i x) as (n & Hn & Hd); [done..|]. congruence.
Qed.

Lemma remove_not_root : k <> 0%nat.
Proof. intros ->. destruct (wf_root f W) as (r & Hr & Hd & _). congruence. Qed.

Lemma parent_range i n : inodes f !! i = Some n ->
  parent_idx n = ROOT_PARENT \/ (0 <= parent_idx n < isize_max /\ parent_idx n <> Z.of_nat k).
Proof.
  intros Hn. destruct (decide (i = 0%nat)) as [->|Hi].
  - destruct (wf_root f W) as (r & Hr & _ & Hp). left. congruence.
  - destruct (wf_parent f W i n Hn Hi) as (p & pn & Hp & Hpn & Hd). right.
    assert (p <> k) by (intros ->; congruence).
    apply lookup_lt_Some in Hpn. pose proof (wf_size f W). lia.
Qed.

Lemma shift_parent_eq i n c :
  inodes f !! i = Some n -> (c < length (inodes f))%nat ->
  parent_idx (shift_parent k n) = Z.of_nat c <-> parent_idx n = Z.of_nat (unshift k c).
Proof.
  intros Hi Hc. unfold shift_parent.
  pose proof (idx_not_root f c W Hc) as Hcr. pose proof (wf_size f W) as Hsz.
  destruct (decide (i = 0%nat)) as [->|Hi0].
  { destruct (wf_root f W) as (r & Hr & _ & Hp). simplify_eq. rewrite Hp, Z.eqb_refl. cbn.
    rewrite Hp. split; [congruence|]. unfold unshift, ROOT_PARENT, u64_max, isize_max in *.
    destruct (Nat.ltb_spec c k); lia. }
  destruct (wf_parent f W i n) as (p & pn & Hp & Hpn & Hd); [done..|].
  assert (p <> k) by (intros ->; congruence).
  pose proof (idx_not_root f p W ltac:(by eapply lookup_lt_Some)) as Hpr.
  rewrite Hp. destruct (Z.eqb_spec (Z.of_nat p) ROOT_PARENT); [done|]. cbn.
  unfold unshift. destruct (Z.ltb_spec (Z.of_nat k) (Z.of_nat p)), (Nat.ltb_spec c k);
    cbn; rewrite ?Hp; lia.
Qed.

Lemma shift_parent_inj i j n m : inodes f !! i = Some n -> inodes f !! j = Some m ->
  parent_idx (shift_parent k n) = parent_idx (shift_parent k m) -> parent_idx n = parent_idx m.
Proof.
  intros Hn Hm. unfold shift_parent.
  pose proof (parent_range i n Hn). pose proof (parent_range j m Hm).
  destruct (Z.eqb_spec (parent_idx n) ROOT_PARENT), (Z.eqb_spec (parent_idx m) ROOT_PARENT),
    (Z.ltb_spec (Z.of_nat k) (parent_idx n)), (Z.ltb_spec (Z.of_nat k) (parent_idx m)); cbn;
    unfold ROOT_PARENT, u64_max, isize_max in *; lia.
Qed.

Lemma length_remove : length (inodes f') = (length (inodes f) - 1)%nat.
Proof.
  subst f'. cbn. rewrite length_delete, length_fmap; [lia|].
  rewrite list_lookup_fmap, Hkn. by eexists.
Qed.

Lemma shift_parent_fields n :
  name (shift_parent k n) = name n /\ kind (shift_parent k n) = kind n /\ data (shift_parent k n) = data n.
Proof. unfold shift_parent. by destruct (_ && _). Qed.

Lemma remove_child c i x : (c < length (inodes f))%nat ->
  child f' c i x <-> child f (unshift k c) (unshift k i) x.
Proof.
  intros Hc. unfold child. rewrite remove_lookup. split.
  - intros (n & (m & Hm & ->)%fmap_Some & HP & HN). exists m.
    destruct (shift_parent_fields m) as (Hnm & _). split_and!; [done| |congruence].
    by apply (shift_parent_eq (unshift k i)).
  - intros (m & Hm & HP & HN). exists (shift_parent k m). destruct (shift_parent_fields m) as (Hnm & _).
    split_and!; [by rewrite Hm| |congruence]. by apply (shift_parent_eq (unshift k i)).
Qed.

Lemma wf_remove : wf f'.
Proof.
  pose proof remove_not_root as Hk0. pose proof (wf_size f W) as Hsz.
  assert (forall j n, inodes f' !! j = Some n -> exists m, inodes f !! unshift k j = Some m
    /\ n = shift_parent k m) as Hback.
  { intros j n. rewrite remove_lookup. intros (m & Hm & ->)%fmap_Some. eauto. }
  assert (forall j, j <> 0%nat -> unshift k j <> 0%nat) as Hnz.
  { intros j Hj. unfold unshift. destruct (Nat.ltb_spec j k); lia. }
  assert (unshift k 0 = 0%nat) as H00 by (unfold unshift; destruct (Nat.ltb_spec 0 k); lia).
  constructor.
  - destruct (wf_root f W) as (r & Hr & Hd & Hp). exists (shift_parent k r).
    rewrite remove_lookup, H00, Hr. destruct (shift_parent_fields r) as (_ & -> & _).
    split_and!; [done..|]. unfold shift_parent. by rewrite Hp, Z.eqb_refl.
  - intros j n Hn Hj. destruct (Hback j n Hn) as (m & Hm & ->).
    destruct (wf_parent f W _ m Hm (Hnz j Hj)) as (p & pn & Hp & Hpn & Hd).
    destruct (unshift_onto k p) as (p' & ->); [intros ->; congruence|].
    exists p', (shift_parent k pn). destruct (shift_parent_fields pn) as (_ & -> & _).
    rewrite remove_lookup, Hpn. split_and!; [|done..].
    apply (shift_parent_eq (unshift k j)); [done| |done].
    apply lookup_lt_Some in Hpn. revert Hpn. unfold unshift. destruct (Nat.ltb_spec p' k); lia.
  - intros j n Hn Hj. destruct (Hback j n Hn) as (m & Hm & ->).
    destruct (shift_parent_fields m) as (-> & _ & _). by eapply wf_name; eauto.
  - intros i j n m Hn Hm HP HN. destruct (Hback i n Hn) as (n0 & Hn0 & ->).
    destruct (Hback j m Hm) as (m0 & Hm0 & ->).
    destruct (shift_parent_fields n0) as (HN1 & _), (shift_parent_fields m0) as (HN2 & _).
    apply (unshift_inj k). eapply (wf_unique f W); [done..| |congruence].
    by apply (shift_parent_inj (unshift k i) (unshift k j)).
  - rewrite length_remove. lia.
Qed.

Lemma remove_walk q i : walk f' 0 q = Some i <-> walk f 0 q = Some (unshift k i).
Proof.
  assert (k < length (inodes f))%nat as Hk by (by eapply lookup_lt_Some).
  pose proof length_remove as Hlen.
  revert i. induction q as [|x q IH] using rev_ind; intros i.
  { pose proof remove_not_root. cbn. unfold unshift. destruct (Nat.ltb_spec i k).
    - done.
    - split; [intros [= <-]; lia|]. intros [= E]. }
  rewrite walk_snoc by apply wf_remove. rewrite (walk_snoc f) by done. split.
  - intros (c & Hc & Hlt & Hch). exists (unshift k c). apply IH in Hc.
    split_and!; [done|by eapply walk_lt|]. apply remove_child; [lia|done].
  - intros (c & Hc & Hlt & Hch). pose proof (file_no_child _ _ _ Hlt Hch) as Hne.
    destruct (unshift_onto k c Hne) as (c' & ->). exists c'.
    assert (c' < length (inodes f'))%nat.
    { rewrite Hlen. revert Hlt. unfold unshift. destruct (Nat.ltb_spec c' k); lia. }
    split_and!; [by apply IH|done|]. apply remove_child; [lia|done].
Qed.
End Remove.

(** *** Moving a file *)

Section Move.
Context (f : RamFs) (W : wf f) (k parent : nat) (kn pn : INode) (nm : list Z).
Context (Hkn : inodes f !! k = Some kn) (Hkf : kind kn = File).
Context (Hpn : inodes f !! parent = Some pn) (Hpd : kind pn = Directory).
Context (Hnm : nm <> [] /\ SLASH ∉ nm) (Hfree : find_child f parent nm = None).
Let kn' := set_parent (set_name kn nm) (Z.of_nat parent).
Let f' := mkRamFs (<[k := kn']> (inodes f)).

Lemma move_lookup i n :
  inodes f' !! i = Some n <-> (i = k /\ n = kn') \/ (i <> k /\ inodes f !! i = Some n).
Proof using Hkn.
  clear -Hkn. subst f'. cbn. rewrite list_lookup_insert_Some.
  assert (k < length (inodes f))%nat by (by eapply lookup_lt_Some). naive_solver.
Qed.

Lemma wf_move : wf f'.
Proof.
  pose proof (remove_not_root f W k kn Hkn Hkf) as Hk0.
  assert (forall p n, inodes f !! p = Some n -> kind n = Directory -> inodes f' !! p = Some n) as Hdirs.
  { intros p n Hp Hd. apply move_lookup. right. split; [intros ->; congruence|done]. }
  constructor.
  - destruct (wf_root f W) as (r & Hr & Hd & Hp). exists r. eauto.
  - intros i n Hi Hi0. apply move_lookup in Hi as [[-> ->]|[Hne Hi]].
    + exists parent, pn. eauto.
    + destruct (wf_parent f W i n Hi Hi0) as (p & m & ? & ? & ?). exists p, m. eauto.
  - intros i n Hi Hi0. apply move_lookup in Hi as [[-> ->]|[Hne Hi]]; [done|by eapply wf_name].
  - assert (forall i n, inodes f !! i = Some n -> parent_idx n = Z.of_nat parent ->
      name n = nm -> False) as Hno.
    { intros i n Hi HP HN. assert (child f parent i nm) as Hc by (exists n; auto).
      apply find_child_Some in Hc; [congruence|done]. }
    intros i j n m Hi Hj HP HN.
    apply move_lookup in Hi as [[-> ->]|[Hne Hi]]; apply move_lookup in Hj as [[-> ->]|[Hne' Hj]].
    + done.
    + exfalso. by apply (Hno j m).
    + exfalso. by apply (Hno i n).
    + by eapply (wf_unique f W).
  - cbn. rewrite length_insert. apply wf_size, W.
Qed.

Lemma move_child c i x :
  child f' c i x <-> (i <> k /\ child f c i x) \/ (i = k /\ c = parent /\ x = nm).
Proof.
  unfold child. setoid_rewrite move_lookup. split.
  - intros (n & [[-> ->]|[Hne Hn]] & HP & HN); [right|left; eauto].
    cbn in *. split_and!; [done|lia|done].
  - intros [(Hne & n & Hn & HP & HN)|(-> & -> & ->)]; [eauto 6|]. exists kn'. auto.
Qed.

Lemma move_walk q i : walk f' 0 q = Some i <->
  (i <> k /\ walk f 0 q = Some i) \/
  (i = k /\ exists q0, q = q0 ++ [nm] /\ walk f 0 q0 = Some parent).
Proof.
  assert (parent <> k) as Hpk by (intros ->; congruence).
  pose proof (remove_not_root f W k kn Hkn Hkf) as Hk0.
  assert (parent < length (inodes f))%nat as Hplt by (by eapply lookup_lt_Some).
  assert (length (inodes f') = length (inodes f)) as Hlen by (cbn; apply length_insert).
  revert i. induction q as [|x q IH] using rev_ind; intros i.
  { cbn. split.
    - intros [= <-]. left. by split.
    - intros [[_ H]|(_ & q0 & H & _)]; [done|]. by destruct q0. }
  rewrite walk_snoc by apply wf_move. rewrite (walk_snoc f) by done. split.
  - intros (c & [[Hck Hc]|(-> & _)]%IH & Hlt & [[Hik Hch]|(-> & -> & ->)]%move_child).
    + left. split; [done|]. exists c. rewrite Hlen in Hlt. eauto.
    + right. eauto.
    + exfalso. rewrite Hlen in Hlt. by apply (file_no_child f W k kn Hkn Hkf k i x).
    + done.
  - intros [(Hik & c & Hq & Hlt & Hch)|(-> & q0 & Hq0 & Hw)].
    + exists c. pose proof (file_no_child f W k kn Hkn Hkf c i x Hlt Hch).
      rewrite IH, move_child, Hlen. split_and!; [by left|lia|by left].
    + apply app_inj_tail in Hq0 as [<- ->]. exists parent. rewrite IH, move_child, Hlen.
      split_and!; [by left|lia|by right].
Qed.
End Move.

End ramfs.

(** ** Meaning: a map from component lists to nodes *)

Module ramfs_spec.
Import fs ramfs.

Inductive anode := ADir | AFile (bytes : list Z).
#[export] Instance anode_eq_dec : EqDecision anode.
Proof. solve_decision. Defined.

Definition aview : Type := list (list Z) -> option anode.

Definition upd (v : aview) (q : list (list Z)) (x : option anode) : aview :=
  fun q' => if decide (q' = q) then x else v q'.

Definition node_of (n : INode) : anode :=
  match kind n with Directory => ADir | File => AFile (data n) end.

Definition view (f : RamFs) : aview := fun q =>
  match walk f 0 q with Some i => node_of <$> inodes f !! i | None => None end.

Implicit Types (f : RamFs) (q : list (list Z)) (n m : INode) (v : aview).

Lemma view_Some f q i n : walk f 0 q = Some i -> inodes f !! i = Some n -> view f q = Some (node_of n).
Proof. intros H1 H2. unfold view. by rewrite H1, H2. Qed.

Lemma walk_node f q i : wf f -> walk f 0 q = Some i -> exists n, inodes f !! i = Some n.
Proof. intros W H. by apply walk_lt, lookup_lt_is_Some in H as [n ?]; [exists n|]. Qed.

Lemma view_None f q : wf f -> view f q = None <-> walk f 0 q = None.
Proof.
  intros W. unfold view. destruct (walk f 0 q) as [i|] eqn:E; [|done].
  destruct (walk_node f q i W E) as [n ->]. done.
Qed.

(** Two views agree when the walks correspond and corresponding nodes have the
    same contents. *)
Lemma view_eq f f' q : wf f -> wf f' ->
  (forall i n, walk f 0 q = Some i -> inodes f !! i = Some n ->
     exists i' n', walk f' 0 q = Some i' /\ inodes f' !! i' = Some n' /\ node_of n' = node_of n) ->
  (forall i', walk f' 0 q = Some i' -> exists i, walk f 0 q = Some i) ->
  view f' q = view f q.
Proof.
  intros W W' H1 H2. destruct (walk f 0 q) as [i|] eqn:E.
  - destruct (walk_node f q i W E) as [n Hn].
    destruct (H1 i n eq_refl Hn) as (i' & n' & E' & Hn' & Heq).
    rewrite (view_Some f q i n), (view_Some f' q i' n') by done. by rewrite Heq.
  - apply view_None in E as ->; [|done]. apply view_None; [done|].
    destruct (walk f' 0 q) as [i'|]; [|done]. by destruct (H2 i' eq_refl).
Qed.

Lemma view_push f parent pn new q0 q : wf f ->
  inodes f !! parent = Some pn -> kind pn = Directory -> parent_idx new = Z.of_nat parent ->
  name new <> [] /\ SLASH ∉ name new -> find_child f parent (name new) = None ->
  Z.of_nat (length (inodes f)) < isize_max -> walk f 0 q0 = Some parent ->
  view (mkRamFs (inodes f ++ [new])) q = upd (view f) (q0 ++ [name new]) (Some (node_of new)) q.
Proof.
  intros W Hpn Hpd Hnp Hnm Hfree Hroom Hq0.
  assert (wf (mkRamFs (inodes f ++ [new]))) as W' by (by apply (wf_push f W parent pn new)).
  pose proof (push_walk f W parent pn new Hpn Hpd Hnp Hnm Hfree Hroom) as PW.
  unfold upd. destruct (decide (q = _)) as [->|Hne].
  - apply (view_Some _ _ (length (inodes f))); [|cbn; rewrite push_lookup; by right].
    apply PW. right. split; [done|]. by exists q0.
  - apply view_eq; [done..| |].
    + intros i n Hi Hn. exists i, n. split_and!; [apply PW; by left|cbn; rewrite push_lookup; by left|done].
    + intros i' [Hi|(_ & q1 & -> & Hq1)]%PW; [by exists i'|].
      destruct Hne. by rewrite (walk_inj f q1 q0 parent).
Qed.

Lemma view_remove f k kn q0 q : wf f ->
  inodes f !! k = Some kn -> kind kn = File -> walk f 0 q0 = Some k ->
  view (mkRamFs (delete k (shift_parent k <$> inodes f))) q = upd (view f) q0 None q.
Proof.
  intros W Hkn Hkf Hq0.
  pose proof (wf_remove f W k kn Hkn Hkf) as W'. pose proof (remove_walk f W k kn Hkn Hkf) as RW.
  unfold upd. destruct (decide (q = q0)) as [->|Hne].
  - apply view_None; [done|]. apply eq_None_not_Some. intros [i E].
    apply RW in E. rewrite Hq0 in E. injection E as E. by apply (unshift_ne k i).
  - apply view_eq; [done..| |].
    + intros i n Hi Hn. destruct (unshift_onto k i) as (j & ->).
      { intros ->. destruct Hne. by apply (walk_inj f q q0 k). }
      exists j, (shift_parent k n). split_and!; [by apply RW| |].
      * rewrite (remove_lookup f k), Hn. done.
      * unfold node_of. by destruct (shift_parent_fields k n) as (_ & -> & ->).
    + intros i' Hi'%RW. eauto.
Qed.

Lemma view_move f k parent kn pn nm q0 d q : wf f ->
  inodes f !! k = Some kn -> kind kn = File -> inodes f !! parent = Some pn -> kind pn = Directory ->
  nm <> [] /\ SLASH ∉ nm -> find_child f parent nm = None ->
  walk f 0 q0 = Some k -> walk f 0 d = Some parent -> q0 <> d ++ [nm] ->
  view (mkRamFs (<[k := set_parent (set_name kn nm) (Z.of_nat parent)]> (inodes f))) q =
  upd (upd (view f) q0 None) (d ++ [nm]) (Some (node_of kn)) q.
Proof.
  intros W Hkn Hkf Hpn Hpd Hnm Hfree Hq0 Hd Hne0.
  pose proof (wf_move f W k parent kn pn nm Hkn Hkf Hpn Hpd Hnm Hfree) as W'.
  pose proof (move_walk f W k parent kn pn nm Hkn Hkf Hpn Hpd Hnm Hfree) as MW.
  pose proof (move_lookup f k parent kn nm Hkn) as ML.
  unfold upd. destruct (decide (q = _)) as [->|Hne].
  { erewrite view_Some; [| |apply ML; by left]; [done|]. apply MW. right. eauto. }
  destruct (decide (q = q0)) as [->|Hne2].
  - apply view_None; [done|]. apply eq_None_not_Some. intros [i E].
    apply MW in E as [[Hi Hi']|(-> & d' & E & Hd')]; [congruence|].
    exfalso. apply Hne. rewrite E. by rewrite (walk_inj f d' d parent).
  - apply view_eq; [done..| |].
    + intros i n Hi Hn. assert (i <> k) by (intros ->; destruct Hne2; by apply (walk_inj f q q0 k)).
      exists i, n. split_and!; [apply MW; by left|apply ML; by right|done].
    + intros i' [[_ Hi]|(_ & d' & -> & Hd')]%MW; [eauto|].
      destruct Hne. by rewrite (walk_inj f d' d parent).
Qed.

Lemma view_set_data f k kn bytes q0 q : wf f ->
  inodes f !! k = Some kn -> kind kn = File -> walk f 0 q0 = Some k ->
  view (mkRamFs (<[k := set_data kn bytes]> (inodes f))) q = upd (view f) q0 (Some (AFile bytes)) q.
Proof.
  intros W Hkn Hkf Hq0. unfold view at 1.
  rewrite (walk_ext _ f) by (intros; by apply find_child_set_data). cbn.
  unfold upd. destruct (decide (q = q0)) as [->|Hne].
  - rewrite Hq0, list_lookup_insert_eq by (by eapply lookup_lt_Some). cbn. unfold node_of. cbn.
    by rewrite Hkf.
  - unfold view. destruct (walk f 0 q) as [i|] eqn:E; [|done].
    rewrite list_lookup_insert_ne; [done|]. intros <-. destruct Hne. by apply (walk_inj f q q0 k).
Qed.

(** ** The specification of each call *)

Inductive call :=
| CreateDir (p : list Z)
| CreateFile (p : list Z)
| WriteFile (p bytes : list Z)
| AppendFile (p bytes : list Z)
| Truncate (p : list Z) (len : nat)
| RemoveFile (p : list Z)
| Rename (old new : list Z)
| ReadFile (p : list Z)
| FileSize (p : list Z)
| Exists (p : list Z)
| IsDir (p : list Z).

Inductive reply :=
| RDone
| RErr (e : Z)
| RData (bytes : option (list Z))
| RSize (n : option nat)
| RBool (b : bool).

(** A new node below an existing directory. *)
Definition create (v : aview) (q : list (list Z)) (x : anode) : reply * aview :=
  match v (removelast q) with
  | None => (RErr ENOENT, v)
  | Some (AFile _) => (RErr ENOTDIR, v)
  | Some ADir => (RDone, upd v q (Some x))
  end.

(** [None]: a [rename] below a regular file, after which the filesystem is no tree.  A file
    renamed onto itself is deleted, and the call reports that it does not exist. *)
Definition step (c : call) (v : aview) : option (reply * aview) :=
  match c with
  | CreateDir p =>
      Some (match v (comps p) with
            | Some _ => (RErr EEXIST, v)
            | None => create v (comps p) ADir
            end)
  | CreateFile p =>
      Some (match v (comps p) with
            | Some ADir => (RErr EISDIR, v)
            | Some (AFile _) => (RDone, upd v (comps p) (Some (AFile [])))
            | None => create v (comps p) (AFile [])
            end)
  | WriteFile p bytes =>
      Some (match v (comps p) with
            | Some ADir => (RErr EISDIR, v)
            | Some (AFile _) => (RDone, upd v (comps p) (Some (AFile bytes)))
            | None => create v (comps p) (AFile bytes)
            end)
  | AppendFile p bytes =>
      Some (match v (comps p) with
            | Some ADir => (RErr EISDIR, v)
            | Some (AFile d) => (RDone, upd v (comps p) (Some (AFile (d ++ bytes))))
            | None => create v (comps p) (AFile bytes)
            end)
  | Truncate p len =>
      Some (match v (comps p) with
            | Some ADir => (RErr EISDIR, v)
            | Some (AFile d) =>
                (RDone, upd v (comps p) (Some (AFile (take len d ++ replicate (len - length d) 0))))
            | None => (RErr ENOENT, v)
            end)
  | RemoveFile p =>
      Some (match v (comps p) with
            | Some ADir => (RErr EISDIR, v)
            | Some (AFile _) => (RDone, upd v (comps p) None)
            | None => (RErr ENOENT, v)
            end)
  | Rename old new =>
      match v (comps old) with
      | None => Some (RErr ENOENT, v)
      | Some ADir => Some (RErr EISDIR, v)
      | Some (AFile d) =>
          if decide (comps old = comps new) then Some (RErr ENOENT, upd v (comps old) None)
          else match v (comps new), v (removelast (comps new)) with
               | Some ADir, _ => Some (RErr EISDIR, v)
               | None, None => Some (RErr ENOENT, v)
               | None, Some (AFile _) => None
               | _, _ => Some (RDone, upd (upd v (comps old) None) (comps new) (Some (AFile d)))
               end
      end
  | ReadFile p =>
      Some (RData (match v (comps p) with Some (AFile d) => Some d | _ => None end), v)
  | FileSize p =>
      Some (RSize (match v (comps p) with Some (AFile d) => Some (length d) | _ => None end), v)
  | Exists p => Some (RBool (bool_decide (is_Some (v (comps p)))), v)
  | IsDir p => Some (RBool (bool_decide (v (comps p) = Some ADir)), v)
  end.

(** ** The calls on the inode vector *)

Definition done_reply {A} (o : outcome (result A Z * RamFs)) : outcome (reply * RamFs) :=
  let! (r, f) := o in Ret (match r with Ok _ => RDone | Err e => RErr e end, f).

Definition run (c : call) (f : RamFs) : outcome (reply * RamFs) :=
  match c with
  | CreateDir p => done_reply (create_dir p f)
  | CreateFile p => done_reply (create_file p f)
  | WriteFile p b => done_reply (write_file p b f)
  | AppendFile p b => done_reply (append_file p b f)
  | Truncate p n => done_reply (truncate p n f)
  | RemoveFile p => done_reply (remove_file p f)
  | Rename a b => done_reply (rename a b f)
  | ReadFile p => let! o := read_file f p in Ret (RData o, f)
  | FileSize p => let! o := file_size f p in Ret (RSize o, f)
  | Exists p => Ret (RBool (exists_ f p), f)
  | IsDir p => let! b := is_dir f p in Ret (RBool b, f)
  end.

(** ** Refinement *)

(** The state [f'] is well-formed, means [v'], and has at most one inode more. *)
Definition after f f' v : Prop :=
  wf f' /\ (forall q, view f' q = v q) /\ (length (inodes f') <= S (length (inodes f)))%nat.

Lemma after_same f : wf f -> after f f (view f).
Proof. intros W. split_and!; [done|done|lia]. Qed.

(** What resolving a path says of the view. *)
Lemma resolve_cases f path : wf f ->
  (resolve f path = None /\ view f (comps path) = None) \/
  (exists i n, resolve f path = Some i /\ walk f 0 (comps path) = Some i /\ inodes f !! i = Some n /\
               view f (comps path) = Some (node_of n)).
Proof.
  intros W. rewrite resolve_walk. destruct (walk f 0 (comps path)) as [i|] eqn:E.
  - destruct (walk_node f _ i W E) as [n Hn]. right. exists i, n. by rewrite (view_Some f _ i n).
  - left. split; [done|]. by apply view_None.
Qed.

Lemma is_dir_node_of n : is_dir_node n = bool_decide (node_of n = ADir).
Proof. unfold is_dir_node, node_of. by destruct (kind n). Qed.

Lemma node_of_file n d : node_of n = AFile d <-> kind n = File /\ data n = d.
Proof. unfold node_of. destruct (kind n); naive_solver. Qed.
Lemma node_of_dir n : node_of n = ADir <-> kind n = Directory.
Proof. unfold node_of. destruct (kind n); naive_solver. Qed.

Section Create.
Context (f : RamFs) (W : wf f) (path : list Z) (k : NodeKind) (md : Z).
Context (Hnone : resolve f path = None).
Context (Hroom : Z.of_nat (length (inodes f)) < isize_max).

(** A path that does not resolve has a parent path and a name. *)
Lemma create_split : exists d nm, split_path path = Some (d, nm) /\
  comps path = comps d ++ [nm] /\ removelast (comps path) = comps d /\ nm <> [] /\ SLASH ∉ nm.
Proof.
  destruct (split_path path) as [[d nm]|] eqn:E.
  - exists d, nm. split; [done|]. apply split_path_comps in E as (E & ? & ?).
    rewrite E, removelast_last. done.
  - apply split_path_None in E. rewrite resolve_walk, E in Hnone. done.
Qed.

Context (d nm : list Z) (Hc : comps path = comps d ++ [nm]) (Hfine : nm <> [] /\ SLASH ∉ nm).
Context (parent : nat) (pn : INode) (Hparent : walk f 0 (comps d) = Some parent).
Context (Hpn : inodes f !! parent = Some pn) (Hpd : kind pn = Directory).
Let new := mkINode nm (Z.of_nat parent) k [] md 0 0.

Lemma create_after :
  after f (mkRamFs (inodes f ++ [new])) (upd (view f) (comps path) (Some (node_of new))) /\
  walk (mkRamFs (inodes f ++ [new])) 0 (comps path) = Some (length (inodes f)).
Proof.
  assert (find_child f parent nm = None) as Hfree.
  { rewrite resolve_walk, Hc, walk_app, Hparent in Hnone. cbn in Hnone.
    by destruct (find_child f parent nm). }
  pose proof (wf_push f W parent pn new Hpn Hpd eq_refl Hfine Hfree Hroom) as W'.
  split; [split_and!|].
  - done.
  - intros q. rewrite Hc. by apply (view_push f parent pn new (comps d) q).
  - cbn. rewrite length_app. cbn. lia.
  - apply (push_walk f W parent pn new Hpn Hpd eq_refl Hfine Hfree Hroom).
    right. split; [done|]. by exists (comps d).
Qed.
End Create.

Ltac go := cbv [pbind get put ok err checked ok_or catch modify done_reply].

Lemma set_data_after f i n bytes path : wf f -> walk f 0 (comps path) = Some i ->
  inodes f !! i = Some n -> kind n = File ->
  after f (mkRamFs (<[i := set_data n bytes]> (inodes f)))
    (upd (view f) (comps path) (Some (AFile bytes))).
Proof.
  intros W Hi Hn Hk. split_and!.
  - by apply wf_set_data.
  - intros q. by apply view_set_data.
  - cbn. rewrite length_insert. lia.
Qed.

Lemma update_data_eq f i n (g : list Z -> list Z) : inodes f !! i = Some n ->
  update_data i g f = Ret (Ok tt, mkRamFs (<[i := set_data n (g (data n))]> (inodes f))).
Proof. intros Hn. unfold update_data. go. by apply idx_Ret in Hn as ->. Qed.

(** What the specification says of a call, for the vector [f]. *)
Definition refines (c : call) f : Prop := forall r v', step c (view f) = Some (r, v') ->
  exists f', run c f = Ret (r, f') /\ after f f' v'.

Section Calls.
Context (f : RamFs) (W : wf f) (Hroom : Z.of_nat (length (inodes f)) < isize_max).

Lemma refines_create_dir p : refines (CreateDir p) f.
Proof.
  intros r v' H. cbn [step run] in *. unfold create_dir. go.
  destruct (resolve_cases f p W) as [(E & V)|(i & n & E & Hw & Hn & V)]; rewrite V in H.
  - rewrite E. rewrite bool_decide_false by (by intros [? [=]]).
    destruct (create_split f p E) as (d & nm & -> & Hc & Hrm & Hfine).
    unfold create in H. rewrite Hrm in H.
    destruct (resolve_cases f d W) as [(E' & V')|(j & pn & E' & Hw' & Hpn & V')]; rewrite V' in H.
    + rewrite E'. simplify_eq. eexists. split; [done|by apply after_same].
    + rewrite E'. pose proof Hpn as Hidx. apply idx_Ret in Hidx as ->. rewrite is_dir_node_of.
      destruct (node_of pn) eqn:Hk; simplify_eq; cbn.
      * eexists. split; [done|]. apply node_of_dir in Hk.
        by apply (create_after f W p Directory 493 E Hroom d nm Hc Hfine j pn).
      * eexists. split; [done|by apply after_same].
  - rewrite E, bool_decide_true by eauto. simplify_eq. eexists. split; [done|by apply after_same].
Qed.

(** [create_file] on its own, for the calls built on it. *)
Lemma create_file_spec p :
  match view f (comps p) with
  | Some ADir => create_file p f = Ret (Err EISDIR, f)
  | Some (AFile _) | None =>
      match view f (comps p), view f (removelast (comps p)) with
      | None, None => create_file p f = Ret (Err ENOENT, f)
      | None, Some (AFile _) => create_file p f = Ret (Err ENOTDIR, f)
      | _, _ => exists i f' n, create_file p f = Ret (Ok i, f') /\
          after f f' (upd (view f) (comps p) (Some (AFile []))) /\
          walk f' 0 (comps p) = Some i /\ inodes f' !! i = Some n /\ kind n = File /\ data n = []
      end
  end.
Proof.
  unfold create_file. go.
  destruct (resolve_cases f p W) as [(E & V)|(i & n & E & Hw & Hn & V)]; rewrite V, E.
  - destruct (create_split f p E) as (d & nm & -> & Hc & Hrm & Hfine). rewrite Hrm.
    destruct (resolve_cases f d W) as [(E' & V')|(j & pn & E' & Hw' & Hpn & V')]; rewrite V', E'; [done|].
    pose proof Hpn as Hidx. apply idx_Ret in Hidx as ->. rewrite is_dir_node_of.
    destruct (node_of pn) eqn:Hk; [|done]. cbn. apply node_of_dir in Hk. do 3 eexists. split; [done|].
    destruct (create_after f W p File 420 E Hroom d nm Hc Hfine j pn Hw' Hpn Hk) as [HA HW].
    split_and!; [exact HA|exact HW|cbn; rewrite push_lookup; by right|done..].
  - pose proof Hn as Hidx. apply idx_Ret in Hidx as ->. rewrite is_dir_node_of.
    destruct (node_of n) eqn:Hk; [done|]. rewrite bool_decide_false by done.
    apply node_of_file in Hk as [Hk _]. rewrite (update_data_eq f i n _ Hn).
    eexists i, _; exists (set_data n []). split; [done|]. split_and!; [by apply set_data_after| | |exact Hk|done].
    + rewrite (walk_ext _ f) by (intros; by apply find_child_set_data). done.
    + cbn. by rewrite list_lookup_insert_eq by (by eapply lookup_lt_Some).
Qed.

Lemma refines_create_file p : refines (CreateFile p) f.
Proof.
  intros r v' H. cbn [step run] in *. unfold create in H. pose proof (create_file_spec p) as S.
  destruct (view f (comps p)) as [[|]|] eqn:V, (view f (removelast (comps p))) as [[|]|] eqn:V';
    simplify_eq;
    try (destruct S as (i & f' & n & -> & HA & _); by exists f');
    (rewrite S; exists f; split; [done|by apply after_same]).
Qed.

Lemma after_write f1 p i n bytes :
  after f f1 (upd (view f) (comps p) (Some (AFile []))) ->
  walk f1 0 (comps p) = Some i -> inodes f1 !! i = Some n -> kind n = File -> data n = [] ->
  after f (mkRamFs (<[i := set_data n (data n ++ bytes)]> (inodes f1)))
    (upd (view f) (comps p) (Some (AFile bytes))).
Proof.
  intros (W1 & V1 & L1) Hw Hn Hk Hd. split_and!.
  - by apply wf_set_data.
  - intros q. rewrite (view_set_data f1 i n _ (comps p)) by done. rewrite Hd. cbn.
    unfold upd. destruct (decide (q = _)) as [|Hne]; [done|]. rewrite V1. unfold upd.
    by rewrite decide_False.
  - cbn. by rewrite length_insert.
Qed.

(** [write_file], for [WriteFile] and for the [AppendFile] that creates. *)
Lemma write_file_spec p bytes :
  match view f (comps p) with
  | Some ADir => write_file p bytes f = Ret (Err EISDIR, f)
  | Some (AFile _) | None =>
      match view f (comps p), view f (removelast (comps p)) with
      | None, None => write_file p bytes f = Ret (Err ENOENT, f)
      | None, Some (AFile _) => write_file p bytes f = Ret (Err ENOTDIR, f)
      | _, _ => exists f', write_file p bytes f = Ret (Ok tt, f') /\
          after f f' (upd (view f) (comps p) (Some (AFile bytes)))
      end
  end.
Proof.
  pose proof (create_file_spec p) as S. unfold write_file, pbind.
  destruct (view f (comps p)) as [[|]|] eqn:V, (view f (removelast (comps p))) as [[|]|] eqn:V';
    try (by rewrite S);
    (destruct S as (i & f1 & n & -> & HA & Hw & Hn & Hk & Hd);
     rewrite (update_data_eq f1 i n _ Hn); eexists; split; [done|];
     by apply (after_write f1 p i n)).
Qed.

Lemma refines_write_file p bytes : refines (WriteFile p bytes) f.
Proof.
  intros r v' H. cbn [step run] in *. unfold create in H. pose proof (write_file_spec p bytes) as S.
  destruct (view f (comps p)) as [[|]|] eqn:V, (view f (removelast (comps p))) as [[|]|] eqn:V';
    simplify_eq;
    try (destruct S as (f' & -> & HA); by exists f');
    (rewrite S; exists f; split; [done|by apply after_same]).
Qed.

(** The calls that update a file that must exist. *)
Lemma update_cases p (g : list Z -> list Z) (m : RamFs -> outcome (result unit Z * RamFs)) :
  (forall i n, resolve f p = Some i -> inodes f !! i = Some n ->
     m f = if is_dir_node n then Ret (Err EISDIR, f) else update_data i g f) ->
  match view f (comps p) with
  | Some ADir => m f = Ret (Err EISDIR, f)
  | Some (AFile d) => exists f', m f = Ret (Ok tt, f') /\
      after f f' (upd (view f) (comps p) (Some (AFile (g d))))
  | None => resolve f p = None
  end.
Proof.
  intros Hm. destruct (resolve_cases f p W) as [(E & ->)|(i & n & E & Hw & Hn & ->)]; [done|].
  rewrite (Hm i n E Hn), is_dir_node_of. destruct (node_of n) eqn:Hk; [done|].
  apply node_of_file in Hk as [Hk <-]. rewrite bool_decide_false by done.
  rewrite (update_data_eq f i n g Hn). eexists. split; [done|]. by apply set_data_after.
Qed.

Lemma refines_append_file p bytes : refines (AppendFile p bytes) f.
Proof.
  intros r v' H. cbn [step run] in *.
  assert (S := update_cases p (fun d => d ++ bytes) (append_file p bytes)).
  lapply S; [clear S; intros S|].
  2: { intros i n E Hn. unfold append_file. go. rewrite E.
    apply idx_Ret in Hn as ->. by destruct (is_dir_node n). }
  pose proof (write_file_spec p bytes) as S2.
  assert (resolve f p = None -> append_file p bytes f = write_file p bytes f) as HN.
  { intros E. unfold append_file. go. by rewrite E. }
  unfold create in H.
  destruct (view f (comps p)) as [[|]|] eqn:V; simplify_eq.
  - rewrite S. exists f. split; [done|by apply after_same].
  - destruct S as (f' & -> & HA). by exists f'.
  - rewrite (HN S). destruct (view f (removelast (comps p))) as [[|]|]; simplify_eq.
    + destruct S2 as (f' & -> & HA). by exists f'.
    + rewrite S2. exists f. split; [done|by apply after_same].
    + rewrite S2. exists f. split; [done|by apply after_same].
Qed.

Lemma truncate_data_eq len d : truncate_data len d = take len d ++ replicate (len - length d) 0.
Proof.
  unfold truncate_data, resize_vec. rewrite length_take.
  destruct (Nat.ltb_spec (len `min` length d) len).
  - rewrite take_take, Nat.min_id. do 2 f_equal. lia.
  - replace (len - length d)%nat with 0%nat by lia. by rewrite app_nil_r.
Qed.

Lemma refines_truncate p len : refines (Truncate p len) f.
Proof.
  intros r v' H. cbn [step run] in *.
  assert (S := update_cases p (truncate_data len) (truncate p len)).
  lapply S; [clear S; intros S|].
  2: { intros i n E Hn. unfold truncate. go. rewrite E.
    apply idx_Ret in Hn as ->. by destruct (is_dir_node n). }
  destruct (view f (comps p)) as [[|d]|] eqn:V; simplify_eq.
  - rewrite S. exists f. split; [done|by apply after_same].
  - destruct S as (f' & -> & HA). exists f'. by rewrite <- truncate_data_eq.
  - unfold truncate. go. rewrite S. exists f. split; [done|by apply after_same].
Qed.

(** [remove_file], for [RemoveFile] and for [Rename]. *)
Lemma remove_file_spec p :
  match view f (comps p) with
  | Some ADir => remove_file p f = Ret (Err EISDIR, f)
  | Some (AFile _) => exists i f', remove_file p f = Ret (Ok i, f') /\
      after f f' (upd (view f) (comps p) None) /\
      (length (inodes f') <= length (inodes f))%nat
  | None => remove_file p f = Ret (Err ENOENT, f)
  end.
Proof.
  unfold remove_file. go.
  destruct (resolve_cases f p W) as [(-> & ->)|(i & n & -> & Hw & Hn & ->)]; [done|].
  pose proof Hn as Hidx. apply idx_Ret in Hidx as ->. rewrite is_dir_node_of.
  destruct (node_of n) eqn:Hk; [done|]. rewrite bool_decide_false by done.
  apply node_of_file in Hk as [Hk _]. unfold vec_remove. rewrite length_fmap.
  pose proof (lookup_lt_Some _ _ _ Hn) as Hlt. apply Nat.ltb_lt in Hlt as ->.
  do 2 eexists. split; [done|]. split; [split_and!|].
  - by apply (wf_remove f W i n).
  - intros q. by apply (view_remove f i n).
  - rewrite (length_remove f i n Hn). lia.
  - rewrite (length_remove f i n Hn). lia.
Qed.

Lemma refines_remove_file p : refines (RemoveFile p) f.
Proof.
  intros r v' H. cbn [step run] in *. pose proof (remove_file_spec p) as S.
  destruct (view f (comps p)) as [[|]|] eqn:V; simplify_eq.
  - rewrite S. exists f. split; [done|by apply after_same].
  - destruct S as (i & f' & -> & HA & _). by exists f'.
  - rewrite S. exists f. split; [done|by apply after_same].
Qed.
End Calls.

(** An entry's parent is a directory. *)
Lemma view_parent f q x y : wf f -> view f (q ++ [x]) = Some y -> view f q = Some ADir.
Proof.
  intros W. unfold view at 1. destruct (walk f 0 (q ++ [x])) as [i|] eqn:E; [|done]. intros _.
  apply walk_snoc in E as (c & Hq & Hlt & Hch); [|done].
  destruct (child_dir f c i x W Hlt Hch) as (n & Hn & Hk).
  rewrite (view_Some f q c n Hq Hn). by apply node_of_dir in Hk as ->.
Qed.

Lemma view_root f : wf f -> view f [] = Some ADir.
Proof.
  intros W. destruct (wf_root f W) as (r & Hr & Hk & _). rewrite (view_Some f [] 0%nat r); [|done..].
  by apply node_of_dir in Hk as ->.
Qed.

Lemma resolve_dir_eq f d : 
  (if bool_decide (d = [SLASH]) || bool_decide (d = []) then ok 0%nat
   else ok_or (resolve f d) ENOENT) = ok_or (W := RamFs) (resolve f d) ENOENT.
Proof. unfold resolve. by destruct (bool_decide (d = [SLASH])), (bool_decide (d = [])). Qed.

(** The move, once the destination does not exist. *)
Lemma rename_move_spec f old new bytes : wf f ->
  view f (comps old) = Some (AFile bytes) -> comps old <> comps new -> view f (comps new) = None ->
  match view f (removelast (comps new)) with
  | None => rename_move old new f = Ret (Err ENOENT, f)
  | Some (AFile _) => True
  | Some ADir => exists f', rename_move old new f = Ret (Ok tt, f') /\ wf f' /\
      (forall q, view f' q = upd (upd (view f) (comps old) None) (comps new) (Some (AFile bytes)) q) /\
      length (inodes f') = length (inodes f)
  end.
Proof.
  intros W Vo Hne Vn. unfold rename_move. go.
  destruct (resolve_cases f old W) as [(_ & V)|(k & kn & -> & Hk & Hkn & V)]; rewrite V in Vo; [done|].
  injection Vo as Vo. apply node_of_file in Vo as [Hkf Hkd].
  assert (resolve f new = None) as Rn by (rewrite resolve_walk; by apply view_None).
  destruct (create_split f new Rn) as (d & nm & -> & Hc & -> & Hfine).
  pose proof (resolve_dir_eq f d) as RD. cbv [ok_or ok err] in RD. rewrite RD. clear RD.
  destruct (resolve_cases f d W) as [(-> & ->)|(p & pn & -> & Hp & Hpn & ->)]; [done|].
  destruct (node_of pn) eqn:Hpd; [|done]. apply node_of_dir in Hpd.
  pose proof Hkn as Hidx. apply idx_Ret in Hidx as ->. eexists. split; [done|].
  assert (find_child f p nm = None) as Hfree.
  { rewrite resolve_walk, Hc, walk_app, Hp in Rn. cbn in Rn. by destruct (find_child f p nm). }
  split_and!.
  - by apply (wf_move f W k p kn pn nm).
  - intros q. rewrite Hc. rewrite (view_move f k p kn pn nm (comps old) (comps d)) by congruence.
    do 2 f_equal. by apply node_of_file.
  - cbn. apply length_insert.
Qed.

(** Renaming a file to a path of the same components (for instance to its
    own path) does not keep the file: the call reports [ENOENT] and the file is
    gone. *)
Theorem rename_onto_itself_deletes (f : RamFs) (old new bytes : list Z) (W : wf f)
    (Hold : view f (comps old) = Some (AFile bytes)) (Hsame : comps new = comps old) :
  exists f', rename old new f = Ret (Err ENOENT, f') /\ wf f' /\
    (forall q, view f' q = upd (view f) (comps old) None q) /\ (length (inodes f') <= length (inodes f))%nat.
Proof.
  unfold rename. go.
  destruct (resolve_cases f old W) as [(_ & V)|(k & kn & -> & Hk & Hkn & V)]; rewrite V in Hold; [done|].
  pose proof Hkn as Hidx. apply idx_Ret in Hidx as ->. rewrite is_dir_node_of. injection Hold as Hold.
  rewrite Hold, bool_decide_false by done. rewrite resolve_walk, Hsame, Hk, bool_decide_true by eauto.
  pose proof (remove_file_spec f W new) as R. rewrite Hsame, V, Hold in R.
  destruct R as (i & f' & -> & (W' & V' & _) & L). exists f'. unfold rename_move. go.
  destruct (resolve_cases f' old W') as [(-> & _)|(j & jn & _ & _ & _ & Vj)]; [done|].
  rewrite V' in Vj. unfold upd in Vj. by rewrite decide_True in Vj.
Qed.

Lemma refines_rename f old new : wf f -> refines (Rename old new) f.
Proof.
  intros W r v' H. cbn [step run] in *.
  destruct (decide (comps old = comps new)) as [Hsame|Hne].
  { destruct (view f (comps old)) as [[|bytes]|] eqn:V.
    2:{ simplify_eq. destruct (rename_onto_itself_deletes f old new bytes W V) as (f' & -> & W' & V' & L'); [done|].
        exists f'. split; [done|]. split_and!; [done..|lia]. }
    all: simplify_eq; exists f; (split; [|by apply after_same]); unfold rename; go;
      destruct (resolve_cases f old W) as [(-> & V')|(k & kn & -> & _ & Hkn & V')]; rewrite V' in V; try done.
    injection V as V. apply idx_Ret in Hkn as ->. by rewrite is_dir_node_of, V, bool_decide_true. }
  unfold rename. go.
  destruct (resolve_cases f old W) as [(-> & V)|(k & kn & -> & Hk & Hkn & V)]; rewrite V in H.
  { simplify_eq. exists f. split; [done|by apply after_same]. }
  pose proof Hkn as Hidx. apply idx_Ret in Hidx as ->. rewrite is_dir_node_of.
  destruct (node_of kn) as [|bytes] eqn:Hkf.
  { simplify_eq. exists f. split; [done|by apply after_same]. }
  rewrite bool_decide_false by done.
  destruct (resolve_cases f new W) as [(-> & Vn)|(j & jn & -> & Hj & Hjn & Vn)].
  - rewrite bool_decide_false by (by intros [? [=]]).
    pose proof (rename_move_spec f old new bytes W V Hne Vn) as S. rewrite Vn in H.
    destruct (view f (removelast (comps new))) as [[|]|]; simplify_eq.
    + destruct S as (f' & -> & W' & HV & HL). exists f'. split; [done|]. split_and!; [done..|lia].
    + rewrite S. exists f. split; [done|by apply after_same].
  - rewrite bool_decide_true by eauto. pose proof (remove_file_spec f W new) as R.
    rewrite Vn in H, R. destruct (node_of jn) as [|b'] eqn:Hjk.
    { rewrite R. simplify_eq. exists f. split; [done|by apply after_same]. }
    destruct R as (i & f1 & -> & (W1 & V1 & _) & L1).
    assert (exists d nm, comps new = d ++ [nm]) as (d & nm & Hd).
    { destruct (comps new) as [|x q _] using rev_ind; [|eauto]. rewrite view_root in Vn; congruence. }
    assert (view f (comps new) = Some (AFile b')) as Vn' by done.
    rewrite Hd in Vn'. apply view_parent in Vn' as Vd; [|done].
    assert (v' = upd (upd (view f) (comps old) None) (comps new) (Some (AFile bytes)) /\ r = RDone)
      as [-> ->] by (destruct (view f (removelast (comps new))) as [[|]|]; by simplify_eq).
    assert (view f1 (comps old) = Some (AFile bytes)) as V1o
      by (rewrite V1; unfold upd; by rewrite decide_False).
    assert (view f1 (comps new) = None) as V1n by (rewrite V1; unfold upd; by rewrite decide_True).
    assert (view f1 d = Some ADir) as V1d.
    { rewrite V1. unfold upd. rewrite decide_False; [done|].
      rewrite Hd. intros E. apply (f_equal length) in E. rewrite length_app in E. cbn in E. lia. }
    pose proof (rename_move_spec f1 old new bytes W1 V1o Hne V1n) as S.
    rewrite Hd, removelast_last, V1d, <- Hd in S.
    destruct S as (f2 & -> & W2 & V2 & L2). exists f2. split; [done|]. split_and!; [done| |lia].
    intros q. rewrite V2. unfold upd. destruct (decide (q = comps new)); [done|].
    destruct (decide (q = comps old)); [done|]. rewrite V1. unfold upd. by rewrite decide_False.
Qed.

Lemma refines_reads f : wf f -> forall p,
  refines (ReadFile p) f /\ refines (FileSize p) f /\ refines (Exists p) f /\ refines (IsDir p) f.
Proof.
  intros W p. split_and!; intros r v' H; cbn [step run] in *; simplify_eq; exists f;
    (split; [|by apply after_same]); unfold read_file, file_size, exists_, is_dir;
    destruct (resolve_cases f p W) as [(-> & ->)|(i & n & -> & _ & Hn & ->)]; try done;
    try (apply idx_Ret in Hn as ->); cbn; rewrite ?is_dir_node_of.
  all: (destruct (node_of n) eqn:Hk; [done|]); by apply node_of_file in Hk as [_ <-].
Qed.

Lemma ramfs_refines_all c f : wf f -> Z.of_nat (length (inodes f)) < isize_max -> refines c f.
Proof.
  intros W L. pose proof (refines_reads f W) as R. destruct c; [..|apply R|apply R|apply R|apply R].
  - by apply refines_create_dir.
  - by apply refines_create_file.
  - by apply refines_write_file.
  - by apply refines_append_file.
  - by apply refines_truncate.
  - by apply refines_remove_file.
  - by apply refines_rename.
Qed.

(** The specification depends on a view only through the nodes it shows. *)
#[export] Instance aview_equiv : Equiv aview := fun v1 v2 => forall q, v1 q = v2 q.
#[export] Instance aview_equivalence : Equivalence (≡@{aview}).
Proof.
  split.
  - intros v q. reflexivity.
  - intros v w H q. symmetry. apply H.
  - intros u v w H1 H2 q. by transitivity (v q).
Qed.

#[export] Instance upd_proper : Proper ((≡) ==> (=) ==> (=) ==> (≡)) upd.
Proof. intros v w H q _ <- x _ <- q'. unfold upd. case_decide; [done|apply H]. Qed.

Definition same_step (o1 o2 : option (reply * aview)) : Prop :=
  match o1, o2 with
  | Some (r1, v1), Some (r2, v2) => r1 = r2 /\ v1 ≡ v2
  | None, None => True
  | _, _ => False
  end.

#[export] Instance step_proper c : Proper ((≡) ==> same_step) (step c).
Proof.
  intros v w H. destruct c; cbn [step]; unfold create; rewrite <- ?H;
    repeat (case_match; simplify_eq/=); try done;
    (split; [done|]); rewrite ?H; try done; by repeat apply upd_proper.
Qed.

Fixpoint step_all (cs : list call) (v : aview) : option (list reply * aview) :=
  match cs with
  | [] => Some ([], v)
  | c :: cs' =>
      match step c v with
      | None => None
      | Some (r, v1) =>
          match step_all cs' v1 with
          | None => None
          | Some (rs, v2) => Some (r :: rs, v2)
          end
      end
  end.

Fixpoint run_all (cs : list call) (f : RamFs) : outcome (list reply * RamFs) :=
  match cs with
  | [] => Ret ([], f)
  | c :: cs' =>
      let! (r, f1) := run c f in
      let! (rs, f2) := run_all cs' f1 in Ret (r :: rs, f2)
  end.

Lemma ramfs_run_refines cs f v rs v' : wf f -> view f ≡ v ->
  Z.of_nat (length (inodes f) + length cs) < isize_max ->
  step_all cs v = Some (rs, v') ->
  exists f', run_all cs f = Ret (rs, f') /\ wf f' /\ view f' ≡ v' /\
    (length (inodes f') <= length (inodes f) + length cs)%nat.
Proof.
  revert f v rs. induction cs as [|c cs IH]; intros f v rs W V L H; cbn in H.
  { simplify_eq. exists f. split_and!; [done..|lia]. }
  destruct (step c v) as [[r v1]|] eqn:E; [|done].
  destruct (step_all cs v1) as [[rs' v2]|] eqn:E2; [|done]. simplify_eq. cbn in L.
  pose proof (step_proper c _ _ V) as S. unfold same_step in S. rewrite E in S.
  destruct (step c (view f)) as [[r' v1']|] eqn:E3; [|done]. destruct S as [-> HV].
  destruct (ramfs_refines_all c f W ltac:(lia) r v1' E3) as (f1 & R1 & W1 & V1 & L1).
  destruct (IH f1 v1 rs') as (f' & R2 & W2 & V2 & L2); [done|by rewrite <- HV|lia|done|].
  exists f'. cbn. rewrite R1. cbn. rewrite R2. split_and!; [done..|lia].
Qed.

(** ** From boot *)

Definition root_view : aview := fun q => match q with [] => Some ADir | _ => None end.

(** The boot image: four directories and three files below /etc. *)
Definition boot_view (etc_version : list Z) : aview :=
  let d (v : aview) (s : list Z) := upd v [s] (Some ADir) in
  let e (v : aview) (s : list Z) (b : list Z) := upd v [str "etc"%string; s] (Some (AFile b)) in
  let v := d (d (d (d root_view (str "etc"%string)) (str "tmp"%string)) (str "home"%string))
             (str "bin"%string) in
  e (e (e v (str "hostname"%string) (str "oxideos"%string ++ [10]))
       (str "version"%string) etc_version)
    (str "motd"%string) (str "Welcome to OxideOS!"%string ++ [10] ++
       str "Type 'help' in the terminal for commands."%string ++ [10]).

Lemma wf_root_only : wf root_only.
Proof.
  constructor; cbn.
  - by eexists.
  - intros [|i] n; [done|]. by destruct i.
  - intros [|i] n; [done|]. by destruct i.
  - intros [|i] [|j]; [done|..]; try (by destruct i); by destruct j.
  - done.
Qed.

Definition boot_calls (etc_version : list Z) : list call :=
  [CreateDir (str "/etc"%string); CreateDir (str "/tmp"%string);
   CreateDir (str "/home"%string); CreateDir (str "/bin"%string);
   WriteFile (str "/etc/hostname"%string) (str "oxideos"%string ++ [10]);
   WriteFile (str "/etc/version"%string) etc_version;
   WriteFile (str "/etc/motd"%string)
     (str "Welcome to OxideOS!"%string ++ [10] ++
      str "Type 'help' in the terminal for commands."%string ++ [10])].

Lemma boot_step ver : exists v, step_all (boot_calls ver) root_view = Some (replicate 7 RDone, v) /\
  v ≡ boot_view ver.
Proof. eexists. split; [vm_compute; reflexivity|]. intros q. reflexivity. Qed.

Lemma root_only_view : view root_only ≡ root_view.
Proof.
  intros [|x q]; [done|]. unfold view. cbn [walk].
  destruct (find_child root_only 0 x) as [i|] eqn:E; [|done].
  apply find_child_Some in E as (n & Hn & Hp & _); [|apply wf_root_only].
  destruct i as [|i]; [|by destruct i]. cbn in Hn. simplify_eq.
Qed.

Lemma run_all_cons c cs f rs f' : run_all (c :: cs) f = Ret (rs, f') ->
  exists r f1 rs', run c f = Ret (r, f1) /\ run_all cs f1 = Ret (rs', f').
Proof.
  cbn. intros ([r f1] & H1 & ([rs' f2] & H2 & [= <- <-])%bind_Ret)%bind_Ret. eauto.
Qed.

Lemma done_reply_Ret {A} (o : outcome (result A Z * RamFs)) r f' :
  done_reply o = Ret (r, f') -> exists x, o = Ret (x, f').
Proof. intros ([x f1] & -> & [= _ <-])%bind_Ret. eauto. Qed.

Lemma new_boot ver rs f : run_all (boot_calls ver) root_only = Ret (rs, f) -> new ver = Ret f.
Proof.
  unfold new, new_prog, pbind, catch, boot_calls. intros H.
  repeat (apply run_all_cons in H as (? & ? & ? & H1 & H); cbn [run] in H1;
          apply done_reply_Ret in H1 as (? & H1); rewrite H1; clear H1).
  by injection H as _ <-.
Qed.

(** Booting gives the boot image. *)
Lemma booted ver : exists f0, new ver = Ret f0 /\ wf f0 /\ view f0 ≡ boot_view ver /\
  (length (inodes f0) <= 8)%nat.
Proof.
  destruct (boot_step ver) as (v & Hb & HV).
  destruct (ramfs_run_refines (boot_calls ver) root_only root_view (replicate 7 RDone) v)
    as (f0 & R0 & W0 & V0 & L0); [apply wf_root_only|apply root_only_view|done|done|].
  exists f0. split_and!; [by eapply new_boot|done|by rewrite V0|done].
Qed.

(** C3: The in-memory filesystem is a map from paths to nodes.  Booting succeeds
    and gives the boot image, and from there any sequence of calls in which no
    [rename] puts a file below a regular file, and which is shorter than the
    address space, runs without panic, answers exactly as the map from component lists to nodes does (error
    codes included), and leaves a well-formed inode vector that shows exactly
    the specified map. *)
Theorem ramfs_refines_path_map (ver : list Z) (cs : list call) rs v'
    (Hsize : Z.of_nat (length cs) < isize_max - 16)
    (Hspec : step_all cs (boot_view ver) = Some (rs, v')) :
  exists f0 f', new ver = Ret f0 /\ run_all cs f0 = Ret (rs, f') /\ wf f' /\ view f' ≡ v'.
Proof.
  destruct (booted ver) as (f0 & R0 & W0 & V0 & L0).
  destruct (ramfs_run_refines cs f0 (boot_view ver) rs v') as (f' & R & W' & V' & _); [done..| |done|].
  { unfold isize_max in *. lia. }
  by exists f0, f'.
Qed.


(** A session: a file is written, appended to, moved over another one, read
    back, and removed. *)
Definition session : list call :=
  [WriteFile (str "/tmp/a"%string) [1; 2]; AppendFile (str "/tmp//a"%string) [3];
   WriteFile (str "/tmp/b"%string) [9]; Rename (str "/tmp/a"%string) (str "/tmp/b"%string);
   ReadFile (str "/tmp/b"%string); ReadFile (str "/tmp/a"%string); CreateDir (str "/tmp/b/x"%string);
   RemoveFile (str "/tmp/b/"%string); RemoveFile (str "/tmp"%string); Exists (str "tmp/b"%string)].

Lemma ramfs_refines_path_map_witness : exists f0 f',
  new [118] = Ret f0 /\
  run_all session f0 =
    Ret ([RDone; RDone; RDone; RDone; RData (Some [1; 2; 3]); RData None; RErr ENOTDIR;
          RDone; RErr EISDIR; RBool false], f') /\ wf f'.
Proof.
  destruct (step_all session (boot_view [118])) as [[rs v']|] eqn:E; [|by vm_compute in E].
  assert (fst <$> step_all session (boot_view [118]) =
    Some [RDone; RDone; RDone; RDone; RData (Some [1; 2; 3]); RData None; RErr ENOTDIR;
          RDone; RErr EISDIR; RBool false]) as Hrs by (vm_compute; reflexivity).
  rewrite E in Hrs. injection Hrs as <-.
  destruct (ramfs_refines_path_map [118] session rs v' ltac:(vm_compute; reflexivity) E)
    as (f0 & f' & H1 & H2 & H3 & _). exists f0, f'. auto.
Defined.

(** ** Listings *)

Lemma children_walk f d i n : wf f -> (d < length (inodes f))%nat ->
  inodes f !! i = Some n -> n ∈ children f d <-> parent_idx n = Z.of_nat d.
Proof.
  intros W Hd Hn. unfold children. rewrite list_elem_of_filter.
  split; [by intros [? _]|]. intros H. split; [done|]. by eapply list_elem_of_lookup_2.
Qed.

Lemma children_NoDup f d : wf f -> NoDup (name <$> children f d).
Proof.
  intros W. unfold children.
  assert (forall l (off : nat), (forall i n, l !! i = Some n -> inodes f !! (off + i)%nat = Some n) ->
    NoDup (name <$> base.filter (fun n => parent_idx n = Z.of_nat d) l)) as H.
  { induction l as [|n l IH]; intros off Hl; [constructor|].
    assert (NoDup (name <$> base.filter (fun n => parent_idx n = Z.of_nat d) l)) as IHl.
    { apply (IH (S off)). intros i m Hi. rewrite Nat.add_succ_comm. by apply Hl. }
    rewrite filter_cons. case_decide as Hp; [|done]. rewrite fmap_cons. constructor; [|done].
    intros (m & Hm & (Hpm & (j & Hj)%list_elem_of_lookup)%list_elem_of_filter)%list_elem_of_fmap.
    assert ((off + 0)%nat = (off + S j)%nat); [|lia].
    apply (wf_unique f W _ _ n m); [by apply Hl|by apply Hl|congruence|done]. }
  apply (H _ 0%nat). done.
Qed.

(** [list_dir] is exact.  On a well-formed filesystem it never panics; it
    answers [None] exactly when the path is not a directory, and otherwise lists
    each name once and lists precisely the names that resolve below the
    directory, each with its kind. *)
Theorem list_dir_is_exact (f : RamFs) (path : list Z) (W : wf f) :
  exists o, list_dir f path = Ret o /\
  match o with
  | None => view f (comps path) <> Some ADir
  | Some es => view f (comps path) = Some ADir /\ NoDup es.*1 /\
      forall x k, (x, k) ∈ es <->
        exists y, view f (comps path ++ [x]) = Some y /\ k = match y with ADir => Directory | AFile _ => File end
  end.
Proof.
  unfold list_dir.
  destruct (resolve_cases f path W) as [(-> & ->)|(d & dn & -> & Hd & Hdn & ->)]; [by exists None|].
  pose proof Hdn as Hidx. apply idx_Ret in Hidx as ->. cbn. rewrite is_dir_node_of.
  destruct (node_of dn) eqn:Hk; cbn; [|by exists None].
  eexists. split; [done|]. cbn.
  pose proof (walk_lt f _ d W Hd) as Hlt. split_and!; [done| |].
  { rewrite <- list_fmap_compose. by apply (children_NoDup f d W). }
  intros x k. rewrite list_elem_of_fmap. split.
  - intros (n & [= -> ->] & (Hp & (i & Hi)%list_elem_of_lookup)%list_elem_of_filter).
    exists (node_of n). split; [|unfold node_of; by destruct (kind n)].
    apply (view_Some f _ i n); [|done]. apply walk_snoc; [done|]. exists d.
    split_and!; [done..|]. by exists n.
  - intros (y & Hy & ->). unfold view in Hy.
    destruct (walk f 0 (comps path ++ [x])) as [i|] eqn:E; [|done].
    apply walk_snoc in E as (c & Hc & _ & n & Hn & Hp & Hx); [|done].
    rewrite Hd in Hc. injection Hc as <-. rewrite Hn in Hy. injection Hy as <-. exists n. split.
    + unfold node_of. destruct (kind n); congruence.
    + by apply (children_walk f d i).
Qed.

Lemma list_dir_is_exact_witness : exists f es, new [118] = Ret f /\
  list_dir f (str "/etc"%string) = Ret (Some es) /\ length es = 3%nat /\ NoDup es.*1.
Proof.
  destruct (booted [118]) as (f0 & H1 & W & V & _).
  destruct (list_dir_is_exact f0 (str "/etc"%string) W) as (o & Ho & Hes).
  destruct o as [es|]; [|by destruct Hes; rewrite (V _)].
  exists f0, es. split_and!; [done..| |by apply Hes].
  vm_compute in H1. injection H1 as <-. vm_compute in Ho. by injection Ho as <-.
Defined.

(** The entries of [nodes] that fit, whole, in [room] bytes. *)
Fixpoint fit (room : nat) (nodes : list INode) : list INode :=
  match nodes with
  | [] => []
  | n :: rest =>
      if (room <? length (dir_entry n))%nat then []
      else n :: fit (room - length (dir_entry n)) rest
  end.

Definition listing (nodes : list INode) : list Z := concat (dir_entry <$> nodes).

Lemma length_dir_entry n :
  length (dir_entry n) =
  (length (name n) + length (if is_dir_node n then [SLASH] else []) + 1)%nat.
Proof. unfold dir_entry. rewrite !length_app. cbn. lia. Qed.

Lemma write_entry n rest buf pos : (pos + length (dir_entry n) <= length buf)%nat ->
  read_dir_loop (n :: rest) buf pos =
  read_dir_loop rest (splice buf pos (dir_entry n)) (pos + length (dir_entry n)).
Proof.
  intros H. rewrite length_dir_entry in H. cbn [read_dir_loop].
  destruct (Nat.ltb_spec (length buf)
    (pos + (length (name n) + length (if is_dir_node n then [SLASH] else []) + 1))); [lia|].
  rewrite copy_at_le by lia. cbn [mbind outcome_mbind]. rewrite length_dir_entry.
  unfold dir_entry. destruct (is_dir_node n); cbn [length] in *.
  - rewrite set_idx_lt by (rewrite length_splice; lia). cbn [mbind outcome_mbind].
    rewrite set_idx_lt by (rewrite length_insert, length_splice; lia). cbn [mbind outcome_mbind].
    rewrite !insert_splice by (rewrite ?length_insert, ?length_splice by lia; rewrite ?length_splice; lia).
    rewrite (splice_app buf pos (name n) [SLASH]) by lia.
    replace (pos + length (name n) + 1)%nat with (pos + length (name n ++ [SLASH]))%nat
      by (rewrite length_app; cbn; lia).
    rewrite (splice_app buf pos (name n ++ [SLASH]) [10]) by (rewrite length_app; cbn; lia).
    rewrite <- app_assoc.
    f_equal. rewrite length_app. cbn. lia.
  - cbn [mbind outcome_mbind]. rewrite set_idx_lt by (rewrite length_splice; lia).
    cbn [mbind outcome_mbind]. rewrite insert_splice by (rewrite length_splice; lia). rewrite splice_app by lia.
    f_equal. lia.
Qed.

Lemma read_dir_loop_fit nodes buf pos : (pos <= length buf)%nat ->
  read_dir_loop nodes buf pos =
  Ret ((pos + length (listing (fit (length buf - pos) nodes)))%nat,
       splice buf pos (listing (fit (length buf - pos) nodes))).
Proof.
  revert buf pos. induction nodes as [|n nodes IH]; intros buf pos Hp.
  { cbn. by rewrite splice_nil, Nat.add_0_r. }
  cbn [fit]. destruct (Nat.ltb_spec (length buf - pos) (length (dir_entry n))) as [H|H].
  - cbn [read_dir_loop listing fmap list_fmap concat length]. rewrite length_dir_entry in H.
    destruct (Nat.ltb_spec (length buf)
      (pos + (length (name n) + length (if is_dir_node n then [SLASH] else []) + 1))); [|lia].
    by rewrite splice_nil, Nat.add_0_r.
  - rewrite write_entry by lia. rewrite IH by (rewrite length_splice; lia).
    rewrite length_splice by lia. unfold listing. rewrite fmap_cons. cbn [concat].
    replace (length buf - (pos + length (dir_entry n)))%nat
      with (length buf - pos - length (dir_entry n))%nat by lia.
    rewrite splice_app by lia. rewrite length_app. do 2 f_equal. lia.
Qed.

(** [fit] keeps a prefix, and stops only at an entry that does not fit. *)
Lemma fit_prefix room nodes : exists rest, nodes = fit room nodes ++ rest /\
  (length (listing (fit room nodes)) <= room)%nat /\
  match rest with
  | [] => True
  | n :: _ => (room < length (listing (fit room nodes)) + length (dir_entry n))%nat
  end.
Proof.
  revert room. induction nodes as [|n nodes IH]; intros room; [exists []; cbn; split_and!; [done|lia|done]|].
  cbn [fit]. destruct (Nat.ltb_spec room (length (dir_entry n))) as [H|H].
  - exists (n :: nodes). cbn. split_and!; [done|lia|lia].
  - destruct (IH (room - length (dir_entry n))%nat) as (rest & E & L & R). exists rest.
    unfold listing in *. rewrite fmap_cons. cbn [concat app]. rewrite length_app.
    split_and!; [by rewrite E at 1|lia|]. destruct rest; [done|lia].
Qed.

(** [read_dir_raw] never writes past the caller's buffer and never writes
    a partial entry: for a directory, the buffer receives the text of the
    longest prefix of the directory's entries that fits, the reply is the number
    of bytes written, and the rest of the buffer is untouched. *)
Theorem read_dir_raw_writes_whole_entries (f : RamFs) (path buf : list Z) (W : wf f) :
  match view f (comps path) with
  | None => read_dir_raw f path buf = Ret (-7, buf)
  | Some (AFile _) => read_dir_raw f path buf = Ret (-1, buf)
  | Some ADir => exists d shown hidden, resolve f path = Some d /\
      children f d = shown ++ hidden /\
      (length (listing shown) <= length buf)%nat /\
      match hidden with
      | [] => True
      | n :: _ => (length buf < length (listing shown) + length (dir_entry n))%nat
      end /\
      read_dir_raw f path buf = Ret (Z.of_nat (length (listing shown)), splice buf 0 (listing shown))
  end.
Proof.
  unfold read_dir_raw.
  destruct (resolve_cases f path W) as [(-> & ->)|(d & dn & -> & Hd & Hdn & ->)]; [done|].
  pose proof Hdn as Hidx. apply idx_Ret in Hidx as ->. cbn [mbind outcome_mbind].
  rewrite is_dir_node_of. destruct (node_of dn); [|done]. rewrite bool_decide_true by done. cbn [negb].
  rewrite read_dir_loop_fit by lia. cbn [mbind outcome_mbind]. rewrite Nat.sub_0_r, Nat.add_0_l.
  destruct (fit_prefix (length buf) (children f d)) as (rest & E & L & R).
  exists d, (fit (length buf) (children f d)), rest. auto.
Qed.

Lemma read_dir_raw_writes_whole_entries_witness : exists f, new [118] = Ret f /\
  read_dir_raw f (str "/etc"%string) (replicate 14 7) =
    Ret (9, str "hostname"%string ++ [10] ++ replicate 5 7).
Proof.
  destruct (booted [118]) as (f0 & H1 & W & V & _). exists f0. split; [done|].
  pose proof (read_dir_raw_writes_whole_entries f0 (str "/etc"%string) (replicate 14 7) W) as T.
  rewrite (V _) in T. destruct T as (d & shown & hidden & Hd & Hc & HL & HR & ->).
  vm_compute in H1. injection H1 as <-. vm_compute in Hd. injection Hd as <-.
  destruct shown as [|n [|m shown]]; vm_compute in Hc.
  - subst hidden. exfalso. vm_compute in HR. lia.
  - by injection Hc as <- _.
  - injection Hc as <- <- _. exfalso. unfold listing in HL.
    rewrite !fmap_cons in HL. cbn [concat] in HL. rewrite !length_app in HL. cbn in HL. lia.
Defined.

(** ** Uses of [rename] that lose the file *)

Lemma rename_onto_itself_deletes_witness : exists f f', new [118] = Ret f /\
  rename (str "/etc/motd"%string) (str "/etc/motd"%string) f = Ret (Err ENOENT, f') /\
  view f' (comps (str "/etc/motd"%string)) = None.
Proof.
  destruct (booted [118]) as (f0 & H1 & W & V & _).
  destruct (rename_onto_itself_deletes f0 (str "/etc/motd"%string) (str "/etc/motd"%string)
    (str "Welcome to OxideOS!"%string ++ [10] ++
     str "Type 'help' in the terminal for commands."%string ++ [10]) W) as (f1 & R & _ & V1 & _);
    [by rewrite (V _)|done|].
  exists f0, f1. split_and!; [done..|]. rewrite (V1 _). unfold upd. by rewrite decide_True.
Defined.

(** Renaming a file to a path below a regular file succeeds, and leaves a node whose parent is
    no directory. *)
Theorem rename_below_a_file_breaks_the_tree (f : RamFs) (old new bytes b' : list Z) (W : wf f)
    (Hold : view f (comps old) = Some (AFile bytes)) (Hne : comps old <> comps new)
    (Hnew : view f (comps new) = None) (Hdir : view f (removelast (comps new)) = Some (AFile b')) :
  exists f', rename old new f = Ret (Ok tt, f') /\ ~ wf f'.
Proof.
  unfold rename, rename_move. go.
  destruct (resolve_cases f old W) as [(_ & V)|(k & kn & Rk & Hk & Hkn & V)]; rewrite V in Hold; [done|]. injection Hold as Hold.
  assert (resolve f new = None) as Rn by (rewrite resolve_walk; by apply view_None).
  pose proof Hkn as Hidx. apply idx_Ret in Hidx. rewrite Rk, Hidx, is_dir_node_of, Hold, bool_decide_false, Rn, bool_decide_false by (done || by intros [? [=]]). rewrite Rk.
  destruct (create_split f new Rn) as (d & nm & -> & Hc & Hr & Hfine). rewrite Hr in Hdir.
  pose proof (resolve_dir_eq f d) as RD. cbv [ok_or ok err] in RD. rewrite RD. clear RD.
  destruct (resolve_cases f d W) as [(_ & Vd)|(p & pn & -> & Hp & Hpn & Vd)]; rewrite Vd in Hdir; [done|]. injection Hdir as Hpk. apply node_of_file in Hpk as [Hpk _].
  rewrite Hidx. eexists. split; [done|]. intros W'. apply node_of_file in Hold as [Hkf _].
  assert (k <> 0%nat) as Hk0 by (intros ->; destruct (wf_root f W) as (r & Hr0 & Hrk & _); congruence).
  pose proof (lookup_lt_Some _ _ _ Hkn) as Hlt.
  destruct (wf_parent _ W' k (set_parent (set_name kn nm) (Z.of_nat p))) as (p' & pn' & Hp' & Hpn' & Hkind); [cbn; by apply list_lookup_insert_eq|done|].
  cbn in Hp', Hpn'. apply Nat2Z.inj in Hp' as <-. destruct (decide (p = k)) as [->|Hpk'].
  - rewrite list_lookup_insert_eq in Hpn' by done. injection Hpn' as <-. cbn in Hkind. congruence.
  - rewrite list_lookup_insert_ne in Hpn' by done. congruence.
Qed.

End ramfs_spec.
