(* ===== verification/FdTable.v ===== *)
(** * Per-task file descriptors (kernel/src/kernel/fs/ramfs.rs, [FdTable])

    Module [task_output] is the captured standard output of a task
    (kernel/src/kernel/proc/scheduler.rs).  Module [fdtable] translates the
    descriptor table and the system-call handlers that only work on it.  A
    descriptor dispatches on its backend; the disk filesystems are used through
    the class [RawFile], which the pipe driver also implements.

    The theorems: what a read or a write through a descriptor does to the file;
    that removing a file keeps every other descriptor of every task on its own
    file; that the reference counts of the pipes are exactly the descriptors
    that name them; and four handlers that break these promises. *)

From stdpp Require Import base list strings.
From Stdlib Require Import ZArith Lia.
From S2P Require Import Prelude RingBuffer IpcPipe IpcStdin RamFs.

Local Open Scope Z_scope.

(** ** Captured output *)

Module task_output.

(* @src proc/scheduler.rs 23-23 TASK_OUTPUT_CAP *)
Definition TASK_OUTPUT_CAP : nat := Z.to_nat 2048.
Lemma TASK_OUTPUT_CAP_val : Z.of_nat TASK_OUTPUT_CAP = 2048.
Proof. reflexivity. Qed.
#[global] Opaque TASK_OUTPUT_CAP.

Record t := mk { output : list Z; output_len : nat }.

Definition empty : t := mk (replicate TASK_OUTPUT_CAP 0) 0.

(** [TASK_OUTPUT_CAP - used] underflows, and panics, when [used] is larger. *)
(* @src proc/scheduler.rs 248-257 output_write_for_task *)
Definition write (o : t) (bytes : list Z) : outcome t :=
  let used := output_len o in
  let! space := csub (Z.of_nat TASK_OUTPUT_CAP) (Z.of_nat used) in
  let n := Nat.min (length bytes) (Z.to_nat space) in
  let! src := slice bytes 0 n in
  let! b := copy_at (output o) used src in
  Ret (mk b (used + n)).

(** The lines handed to the callback, and the emptied buffer.  [utf8] is
    [core::str::from_utf8], which accepts a byte string or not. *)
(* @src proc/scheduler.rs 261-275 output_drain_task *)
Definition drain (utf8 : list Z -> bool) (o : t) : outcome (list (list Z) * t) :=
  let len := output_len o in
  if (len =? 0)%nat then Ret ([], o)
  else
    let! bytes := slice (output o) 0 len in
    let data := if utf8 bytes then bytes else [] in
    Ret (base.filter (fun l => l <> []) (split 10 data), mk (output o) 0).

Record wf (o : t) : Prop := {
  wf_cap : length (output o) = TASK_OUTPUT_CAP;
  wf_len : (output_len o <= TASK_OUTPUT_CAP)%nat;
}.

(** The bytes captured and not yet drained. *)
Definition pending (o : t) : list Z := take (output_len o) (output o).

Lemma wf_empty : wf empty.
Proof. constructor; cbn; [apply length_replicate|lia]. Qed.

Lemma write_spec o bytes : wf o -> exists o', write o bytes = Ret o' /\ wf o' /\
  pending o' = pending o ++ take (TASK_OUTPUT_CAP - output_len o) bytes.
Proof.
  intros [Hc Hl]. unfold write, csub. destruct (Z.leb_spec (Z.of_nat (output_len o)) (Z.of_nat TASK_OUTPUT_CAP)); [|lia].
  cbn [mbind outcome_mbind]. rewrite <- Nat2Z.inj_sub, Nat2Z.id by lia.
  rewrite slice_le by lia. cbn [mbind outcome_mbind]. rewrite drop_0, Nat.sub_0_r.
  rewrite copy_at_le by (rewrite length_take; lia). cbn [mbind outcome_mbind].
  eexists. split; [done|]. split.
  - constructor; cbn; [rewrite length_splice; [done|rewrite length_take; lia]|lia].
  - unfold pending. cbn. unfold splice. rewrite app_assoc.
    rewrite take_app_le by (rewrite length_app, !length_take; lia).
    rewrite take_ge by (rewrite length_app, !length_take; lia).
    f_equal. rewrite Nat.min_comm, <- take_take.
    by rewrite (take_ge bytes) by lia.
Qed.

End task_output.

(** ** What a disk filesystem offers to a descriptor *)

Class RawFile (S : Type) := {
  raw_read : S -> Z -> list Z -> outcome (Z * list Z * S);
  raw_write : S -> Z -> list Z -> outcome (Z * S);
  raw_close : S -> Z -> outcome (Z * S);
}.

#[export] Instance pipe_raw : RawFile (list pipe.Pipe) := {|
  raw_read := pipe.read;
  raw_write := pipe.write;
  raw_close := pipe.close;
|}.

Module fdtable.
Import fs ramfs.

(* @src fs/ramfs.rs 28-28 MAX_FD *)
Definition MAX_FD : nat := 32.

(* @src fs/ramfs.rs 59-77 FdBackend *)
Inductive FdBackend := RamFS | Fat16 | Ext2 | Pipe | DevNull | DevTty | Dir.
#[export] Instance FdBackend_eq_dec : EqDecision FdBackend.
Proof. solve_decision. Defined.

(* @src fs/ramfs.rs 81-94 FdEntry *)
Record FdEntry := mkFd {
  backend : FdBackend;
  inode_idx : nat;
  raw_fd : Z;
  offset : Z;
  writable : bool;
  append : bool;
  dir_path : list Z;
  dir_path_len : Z;
}.

(** [FdTable] is its [entries] array. *)
Abbreviation FdTable := (list (option FdEntry)).

(* @src fs/ramfs.rs 108-110 FdTable::new *)
Definition new : FdTable := replicate MAX_FD None.

Definition is_none {A} (o : option A) : bool := match o with None => true | Some _ => false end.

(* @src fs/ramfs.rs 113-115 FdTable::alloc_fd *)
Definition alloc_fd (t : FdTable) : option nat :=
  (fun i => i + 3)%nat <$> position is_none (drop 3 t).

(** [flags & bit != 0] *)
Definition has (flags b : Z) : bool := negb (Z.land flags b =? 0).

Definition ramfs_entry (i : nat) (off : Z) (w a : bool) : FdEntry :=
  mkFd RamFS i 0 off w a (replicate 64 0) 0.
Definition raw_entry (b : FdBackend) (raw : Z) (w : bool) : FdEntry :=
  mkFd b 0 raw 0 w false (replicate 64 0) 0.

(** The inode [open] works on: resolved, truncated or created. *)
(* @src fs/ramfs.rs 124-136 FdTable::open (inode) *)
Definition open_inode (path : list Z) (flags : Z) : prog RamFs Z nat :=
  let? f := get in
  match resolve f path with
  | Some i =>
      let? _ :=
        if has flags O_TRUNC then
          let? n := checked (idx (inodes f) i) in
          if negb (is_dir_node n) then update_data i (fun _ => []) else ok tt
        else ok tt in
      ok i
  | None =>
      if has flags O_CREAT then
        let? r := catch (create_file path) in
        match r with Ok i => ok i | Err _ => err ENOENT end
      else err ENOENT
  end.

(* @src fs/ramfs.rs 118-155 FdTable::open *)
Definition open (t : FdTable) (path : list Z) (flags : Z) (f : RamFs)
    : outcome (Z * FdTable * RamFs) :=
  let w := has flags O_WRONLY || has flags O_RDWR in
  let a := has flags O_APPEND in
  let! (r, f) := open_inode path flags f in
  match r with
  | Err e => Ret (e, t, f)
  | Ok i =>
      match alloc_fd t with
      | None => Ret (EMFILE, t, f)
      | Some fd =>
          let! n := idx (inodes f) i in
          let off := if a then Z.of_nat (length (data n)) else 0 in
          let! t := set_idx t fd (Some (ramfs_entry i off w a)) in
          Ret (Z.of_nat fd, t, f)
      end
  end.

(** The first descriptor is stored before the second one is looked for. *)
(* @src fs/ramfs.rs 158-172 FdTable::open_pipe *)
Definition open_pipe (t : FdTable) (raw_read_fd raw_write_fd : Z)
    : outcome (option (nat * nat) * FdTable) :=
  match alloc_fd t with
  | None => Ret (None, t)
  | Some rslot =>
      let! t := set_idx t rslot (Some (raw_entry Pipe raw_read_fd false)) in
      match alloc_fd t with
      | None => Ret (None, t)
      | Some wslot =>
          let! t := set_idx t wslot (Some (raw_entry Pipe raw_write_fd true)) in
          Ret (Some (rslot, wslot), t)
      end
  end.

(** The four [open_*] functions that store one ready-made entry. *)
Definition open_entry (t : FdTable) (e : FdEntry) : outcome (Z * FdTable) :=
  match alloc_fd t with
  | None => Ret (-24, t)
  | Some fd => let! t := set_idx t fd (Some e) in Ret (Z.of_nat fd, t)
  end.

(* @src fs/ramfs.rs 175-187 FdTable::open_fat *)
Definition open_fat (t : FdTable) (fat_raw_fd : Z) (w : bool) : outcome (Z * FdTable) :=
  open_entry t (raw_entry Fat16 fat_raw_fd w).
(* @src fs/ramfs.rs 192-205 FdTable::open_ext2 *)
Definition open_ext2 (t : FdTable) (ext2_raw_fd : Z) (w : bool) : outcome (Z * FdTable) :=
  open_entry t (raw_entry Ext2 ext2_raw_fd w).
(* @src fs/ramfs.rs 208-222 FdTable::open_dev *)
Definition open_dev (t : FdTable) (b : FdBackend) : outcome (Z * FdTable) :=
  open_entry t (raw_entry b 0 (negb (bool_decide (b = DevNull)))).
(* @src fs/ramfs.rs 225-241 FdTable::open_dir *)
Definition open_dir (t : FdTable) (path : list Z) : outcome (Z * FdTable) :=
  let n := Nat.min (length path) 63 in
  open_entry t (mkFd Dir 0 0 0 false false (splice (replicate 64 0) 0 (take n path)) (Z.of_nat n)).

(** [fd < 0 || fd as usize >= MAX_FD] *)
Definition bad_fd (fd : Z) : bool := (fd <? 0) || (Z.of_nat MAX_FD <=? fd).

(* @src fs/ramfs.rs 376-388 FdTable::on_inode_removed *)
Definition on_inode_removed (removed : nat) (t : FdTable) : FdTable :=
  (fun slot =>
     match slot with
     | Some e =>
         if negb (bool_decide (backend e = RamFS)) then slot
         else if (inode_idx e =? removed)%nat then None
         else if (removed <? inode_idx e)%nat
         then Some (mkFd (backend e) (inode_idx e - 1) (raw_fd e) (offset e) (writable e)
                         (append e) (dir_path e) (dir_path_len e))
         else slot
     | None => None
     end) <$> t.

Definition set_offset (e : FdEntry) (o : Z) : FdEntry :=
  mkFd (backend e) (inode_idx e) (raw_fd e) o (writable e) (append e) (dir_path e) (dir_path_len e).

Section Backends.
Context {F E : Type} `{RawFile F} `{RawFile E}.

(** What the descriptors of the running task reach. *)
Record devs := mkDevs {
  pipes : list pipe.Pipe;
  fat : F;
  ext2 : E;
  tty : stdin.state;
  out : task_output.t;
}.

Definition set_pipes (d : devs) p := mkDevs p (fat d) (ext2 d) (tty d) (out d).
Definition set_fat (d : devs) x := mkDevs (pipes d) x (ext2 d) (tty d) (out d).
Definition set_ext2 (d : devs) x := mkDevs (pipes d) (fat d) x (tty d) (out d).
Definition set_tty (d : devs) x := mkDevs (pipes d) (fat d) (ext2 d) x (out d).
Definition set_out (d : devs) x := mkDevs (pipes d) (fat d) (ext2 d) (tty d) x.

(** The backend-specific cleanup of [close]. *)
(* @src fs/ramfs.rs 247-252 FdTable::close (cleanup) *)
Definition release (e : FdEntry) (d : devs) : outcome devs :=
  match backend e with
  | Pipe => let! (_, p) := pipe.close (pipes d) (raw_fd e) in Ret (set_pipes d p)
  | Fat16 => let! (_, x) := raw_close (fat d) (raw_fd e) in Ret (set_fat d x)
  | Ext2 => let! (_, x) := raw_close (ext2 d) (raw_fd e) in Ret (set_ext2 d x)
  | _ => Ret d
  end.

(* @src fs/ramfs.rs 244-256 FdTable::close *)
Definition close (t : FdTable) (fd : Z) (d : devs) : outcome (Z * FdTable * devs) :=
  if bad_fd fd then Ret (EBADF, t, d)
  else
    let! slot := idx t (Z.to_nat fd) in
    let! t := set_idx t (Z.to_nat fd) None in
    match slot with
    | None => Ret (EBADF, t, d)
    | Some e => let! d := release e d in Ret (0, t, d)
    end.

(** The part of [read_fd] below the dispatch: the backend is [RamFS]. *)
(* @src fs/ramfs.rs 285-296 FdTable::read_fd (RamFS) *)
Definition read_ramfs (t : FdTable) (f : RamFs) (fd : nat) (e : FdEntry) (buf : list Z)
    : outcome (Z * list Z * FdTable) :=
  match inodes f !! inode_idx e with
  | None => Ret (EBADF, buf, t)
  | Some n =>
      if is_dir_node n then Ret (EISDIR, buf, t)
      else
        let available := sat_sub (Z.of_nat (length (data n))) (offset e) in
        if available =? 0 then Ret (0, buf, t)
        else
          let k := Nat.min (Z.to_nat available) (length buf) in
          let! bytes := slice (data n) (Z.to_nat (offset e)) (Z.to_nat (offset e) + k) in
          let! buf := copy_at buf 0 bytes in
          let! off := cadd u64_max (offset e) (Z.of_nat k) in
          let! t := set_idx t fd (Some (set_offset e off)) in
          Ret (Z.of_nat k, buf, t)
  end.

(* @src fs/ramfs.rs 259-297 FdTable::read_fd *)
Definition read_fd (t : FdTable) (f : RamFs) (fd : Z) (buf : list Z) (d : devs)
    : outcome (Z * list Z * FdTable * devs) :=
  if bad_fd fd then Ret (EBADF, buf, t, d)
  else
    let! slot := idx t (Z.to_nat fd) in
    match slot with
    | None => Ret (EBADF, buf, t, d)
    | Some e =>
        match backend e with
        | Pipe => let! (r, buf, p) := pipe.read (pipes d) (raw_fd e) buf in Ret (r, buf, t, set_pipes d p)
        | Fat16 => let! (r, buf, x) := raw_read (fat d) (raw_fd e) buf in Ret (r, buf, t, set_fat d x)
        | Ext2 => let! (r, buf, x) := raw_read (ext2 d) (raw_fd e) buf in Ret (r, buf, t, set_ext2 d x)
        | DevNull => Ret (0, buf, t, d)
        | DevTty =>
            if (length buf =? 0)%nat then Ret (0, buf, t, d)
            else
              let! (c, s) := stdin.pop (tty d) in
              match c with
              | Some ch => let! buf := set_idx buf 0 ch in Ret (1, buf, t, set_tty d s)
              | None => Ret (-6, buf, t, set_tty d s)
              end
        | Dir => Ret (EISDIR, buf, t, d)
        | RamFS => let! (r, buf, t) := read_ramfs t f (Z.to_nat fd) e buf in Ret (r, buf, t, d)
        end
    end.

(** What [write_fd] does to the bytes of the file. *)
(* @src fs/ramfs.rs 335-341 FdTable::write_fd (data) *)
Definition write_data (bytes buf : list Z) (off : Z) : outcome (list Z) :=
  if Z.of_nat (length bytes) <=? off then Ret (bytes ++ buf)
  else
    let stop := (Z.to_nat off + length buf)%nat in
    let bytes := if (length bytes <? stop)%nat then resize_vec bytes stop 0 else bytes in
    copy_at bytes (Z.to_nat off) buf.

(* @src fs/ramfs.rs 328-344 FdTable::write_fd (RamFS) *)
Definition write_ramfs (t : FdTable) (f : RamFs) (fd : nat) (e : FdEntry) (buf : list Z)
    : outcome (Z * FdTable * RamFs) :=
  if negb (writable e) then Ret (EACCES, t, f)
  else
    match inodes f !! inode_idx e with
    | None => Ret (EBADF, t, f)
    | Some n =>
        if is_dir_node n then Ret (EISDIR, t, f)
        else
          let! bytes := write_data (data n) buf (offset e) in
          let f := mkRamFs (<[inode_idx e := set_data n bytes]> (inodes f)) in
          let! off := cadd u64_max (offset e) (Z.of_nat (length buf)) in
          let! t := set_idx t fd (Some (set_offset e off)) in
          Ret (Z.of_nat (length buf), t, f)
    end.

(* @src fs/ramfs.rs 300-345 FdTable::write_fd *)
Definition write_fd (t : FdTable) (f : RamFs) (fd : Z) (buf : list Z) (d : devs)
    : outcome (Z * FdTable * RamFs * devs) :=
  if bad_fd fd then Ret (EBADF, t, f, d)
  else
    let! slot := idx t (Z.to_nat fd) in
    match slot with
    | None => Ret (EBADF, t, f, d)
    | Some e =>
        match backend e with
        | Pipe => let! (r, p) := pipe.write (pipes d) (raw_fd e) buf in Ret (r, t, f, set_pipes d p)
        | Fat16 => let! (r, x) := raw_write (fat d) (raw_fd e) buf in Ret (r, t, f, set_fat d x)
        | Ext2 =>
            if negb (writable e) then Ret (EACCES, t, f, d)
            else let! (r, x) := raw_write (ext2 d) (raw_fd e) buf in Ret (r, t, f, set_ext2 d x)
        | DevNull => Ret (Z.of_nat (length buf), t, f, d)
        | DevTty =>
            let! o := task_output.write (out d) buf in
            Ret (Z.of_nat (length buf), t, f, set_out d o)
        | Dir => Ret (EISDIR, t, f, d)
        | RamFS => let! (r, t, f) := write_ramfs t f (Z.to_nat fd) e buf in Ret (r, t, f, d)
        end
    end.

(** [dup2] closes pipes and FAT files at [new_fd], and nothing else. *)
(* @src fs/ramfs.rs 347-371 FdTable::dup2 *)
Definition dup2 (t : FdTable) (old_fd new_fd : Z) (d : devs) : outcome (Z * FdTable * devs) :=
  if bad_fd old_fd then Ret (-5, t, d)
  else if bad_fd new_fd then Ret (-5, t, d)
  else
    let! slot := idx t (Z.to_nat old_fd) in
    match slot with
    | None => Ret (-5, t, d)
    | Some e =>
        let! d := match backend e with
                  | Pipe => let! p := pipe.addref (pipes d) (raw_fd e) in Ret (set_pipes d p)
                  | _ => Ret d
                  end in
        let! old := idx t (Z.to_nat new_fd) in
        let! d := match old with
                  | None => Ret d
                  | Some o =>
                      match backend o with
                      | Pipe => let! (_, p) := pipe.close (pipes d) (raw_fd o) in Ret (set_pipes d p)
                      | Fat16 => let! (_, x) := raw_close (fat d) (raw_fd o) in Ret (set_fat d x)
                      | _ => Ret d
                      end
                  end in
        let! t := set_idx t (Z.to_nat new_fd) (Some e) in
        Ret (new_fd, t, d)
    end.

(** ** System-call handlers on the descriptor table (sys/syscall.rs) *)

(** The handler copies the entry and does not count the new reference. *)
(* @src sys/syscall.rs 741-760 dup_impl *)
Definition dup (t : FdTable) (fd : Z) : outcome (Z * FdTable) :=
  if bad_fd fd then Ret (-9, t)
  else
    let! slot := idx t (Z.to_nat fd) in
    match slot with
    | None => Ret (-9, t)
    | Some e =>
        match position is_none t with
        | None => Ret (-24, t)
        | Some n => let! t := set_idx t n (Some e) in Ret (Z.of_nat n, t)
        end
    end.

(** [pipe_alloc] without the two stores to user memory: the slots are
    returned. *)
(* @src sys/syscall.rs 1473-1496 pipe_alloc *)
Definition pipe_alloc (t : FdTable) (d : devs) : outcome (Z * option (nat * nat) * FdTable * devs) :=
  match pipe.alloc (pipes d) with
  | (None, _) => Ret (-6, None, t, d)
  | (Some (raw_r, raw_w), p) =>
      let d := set_pipes d p in
      let! (o, t) := open_pipe t raw_r raw_w in
      match o with
      | Some slots => Ret (0, Some slots, t, d)
      | None =>
          let! (_, p) := pipe.close (pipes d) raw_r in
          let! (_, p) := pipe.close p raw_w in
          Ret (-24, None, t, set_pipes d p)
      end
  end.

End Backends.
Arguments devs : clear implicits.

(** Signed 64-bit arithmetic, overflow checked. *)
Definition i64_max : Z := 9223372036854775807.
Definition i64_min : Z := -9223372036854775808.
Definition cadd_i64 (a b : Z) : outcome Z :=
  if (i64_min <=? a + b) && (a + b <=? i64_max) then Ret (a + b) else Panic.

(** [lseek] on an in-memory file; [seek] is [fat::file_seek]. *)
(* @src sys/syscall.rs 655-694 lseek_impl *)
Definition lseek {F} (seek : F -> Z -> Z -> Z -> outcome (Z * F)) (t : FdTable) (f : RamFs)
    (fat : F) (fd off whence : Z) : outcome (Z * FdTable * F) :=
  if bad_fd fd then Ret (-9, t, fat)
  else
    let! slot := idx t (Z.to_nat fd) in
    match slot with
    | None => Ret (-9, t, fat)
    | Some e =>
        match backend e with
        | Fat16 => let! (r, x) := seek fat (raw_fd e) off whence in Ret (r, t, x)
        | RamFS =>
            let! n := idx (inodes f) (inode_idx e) in
            let size := Z.of_nat (length (data n)) in
            let cur := swrap 64 (offset e) in
            let! new_off :=
              if whence =? 0 then Ret (Some off)
              else if whence =? 1 then (let! x := cadd_i64 cur off in Ret (Some x))
              else if whence =? 2 then (let! x := cadd_i64 size off in Ret (Some x))
              else Ret None in
            match new_off with
            | None => Ret (-22, t, fat)
            | Some o =>
                if o <? 0 then Ret (-22, t, fat)
                else let! t := set_idx t (Z.to_nat fd) (Some (set_offset e o)) in Ret (o, t, fat)
            end
        | _ => Ret (-29, t, fat)
        end
    end.

(** [unlink] of an in-memory path: the file goes, and the descriptor tables of
    all tasks are renumbered. *)
(* @src sys/syscall.rs 1143-1155 unlink_impl *)
Definition unlink (path : list Z) (f : RamFs) (tables : list FdTable)
    : outcome (Z * RamFs * list FdTable) :=
  let! (r, f) := remove_file path f in
  match r with
  | Ok removed => Ret (0, f, on_inode_removed removed <$> tables)
  | Err e => Ret (e, f, tables)
  end.

(** [rename] of an in-memory path: no descriptor table is touched. *)
(* @src sys/syscall.rs 1181-1184 rename_impl *)
Definition rename_ramfs (old new : list Z) (f : RamFs) (tables : list FdTable)
    : outcome (Z * RamFs * list FdTable) :=
  let! (r, f) := rename old new f in
  Ret (match r with Ok _ => 0 | Err e => e end, f, tables).

End fdtable.

(** ** Promises *)

Module fd_spec.
Import fs ramfs ramfs_spec fdtable.

(** The file a RamFS descriptor stands for. *)
Definition file (f : RamFs) (e : FdEntry) : option (list Z * NodeKind * list Z) :=
  (fun n => (name n, kind n, data n)) <$> inodes f !! inode_idx e.

(** The parts of an entry that do not depend on inode numbers. *)
Definition rest (e : FdEntry) := (backend e, raw_fd e, offset e, writable e, append e, dir_path e, dir_path_len e).

Lemma remove_file_Ok (f f' : RamFs) path k : wf f -> remove_file path f = Ret (Ok k, f') ->
  exists n, resolve f path = Some k /\ inodes f !! k = Some n /\ kind n = File /\
    f' = mkRamFs (delete k (shift_parent k <$> inodes f)).
Proof.
  intros W. unfold remove_file. cbv [pbind get put ok err checked ok_or].
  destruct (resolve_cases f path W) as [(-> & _)|(i & n & -> & Hw & Hn & _)]; [done|].
  pose proof Hn as Hidx. apply idx_Ret in Hidx as ->. unfold is_dir_node.
  destruct (kind n) eqn:Hk; [|done]. cbn. unfold vec_remove. rewrite length_fmap.
  pose proof (lookup_lt_Some _ _ _ Hn) as Hlt. apply Nat.ltb_lt in Hlt as ->.
  intros [= <- <-]. eauto.
Qed.

(** Unlinking an in-memory file closes exactly the descriptors open on it
    and keeps every other descriptor of every task on its own file: the entry is
    renumbered, nothing else in it changes, and the inode it now names has the
    same name, kind and contents as before. *)
Theorem unlink_keeps_other_descriptors (f f' : RamFs) (path : list Z) (tables tables' : list FdTable)
    (W : wf f) (H : unlink path f tables = Ret (0, f', tables')) :
  exists k, resolve f path = Some k /\ length tables' = length tables /\
  forall i t, tables !! i = Some t -> exists t', tables' !! i = Some t' /\ length t' = length t /\
  forall fd slot, t !! fd = Some slot ->
    match slot with
    | None => t' !! fd = Some None
    | Some e =>
        if bool_decide (backend e = RamFS /\ inode_idx e = k) then t' !! fd = Some None
        else exists e', t' !! fd = Some (Some e') /\ rest e' = rest e /\
          (if bool_decide (backend e = RamFS) then file f' e' = file f e else e' = e)
    end.
Proof.
  unfold unlink in H. apply bind_Ret in H as ([r f1] & H1 & H). destruct r as [k|e]; [|].
  2: { exfalso. injection H as -> <- <-. revert H1. unfold remove_file. cbv [pbind get put ok err checked ok_or].
    destruct (resolve f path); [|done]. destruct (idx (inodes f) n); [|done].
    destruct (is_dir_node a); [done|]. by destruct (vec_remove _ _). }
  injection H as <- <-. apply remove_file_Ok in H1 as (kn & Hk & Hkn & Hkf & ->); [|done].
  exists k. split; [done|]. split; [apply length_fmap|]. intros i t Ht.
  exists (on_inode_removed k t). split; [by rewrite list_lookup_fmap, Ht|].
  split; [apply length_fmap|]. intros fd slot Hslot. unfold on_inode_removed.
  rewrite list_lookup_fmap, Hslot. cbn [fmap option_fmap option_map]. destruct slot as [e|]; [|done].
  destruct (decide (backend e = RamFS)) as [Hb|Hb].
  - rewrite (bool_decide_true (backend e = RamFS)) by done. cbn [negb].
    destruct (Nat.eqb_spec (inode_idx e) k) as [->|Hne].
    { by rewrite bool_decide_true. }
    rewrite bool_decide_false by tauto.
    assert (forall e', inode_idx e = unshift k (inode_idx e') ->
      file (mkRamFs (delete k (shift_parent k <$> inodes f))) e' = file f e) as HF.
    { intros e' He'. unfold file. rewrite (remove_lookup f k), <- He'.
      destruct (inodes f !! inode_idx e) as [n|]; [|done]. cbn.
      by destruct (shift_parent_fields k n) as (-> & -> & ->). }
    destruct (Nat.ltb_spec k (inode_idx e)); eexists; (split; [done|]); (split; [done|]); apply HF;
      cbn; unfold unshift; destruct (Nat.ltb_spec (inode_idx e - 1) k), (Nat.ltb_spec (inode_idx e) k); lia.
  - rewrite !bool_decide_false by tauto. cbn. by exists e.
Qed.

(** *** Reading and writing through a descriptor *)

Section Io.
Context {F E : Type} `{RawFile F} `{RawFile E}.
Context (t : FdTable) (f : RamFs) (d : devs F E) (fd : nat) (e : FdEntry) (n : INode).
Context (Hfd : (fd < MAX_FD)%nat) (He : t !! fd = Some (Some e)) (Hb : backend e = RamFS).
Context (Hn : inodes f !! inode_idx e = Some n) (Hk : kind n = File).

Lemma good_fd : bad_fd (Z.of_nat fd) = false.
Proof. unfold bad_fd. destruct (Z.ltb_spec (Z.of_nat fd) 0), (Z.leb_spec (Z.of_nat MAX_FD) (Z.of_nat fd)); cbn; lia. Qed.

Lemma file_node : is_dir_node n = false.
Proof. unfold is_dir_node. by rewrite Hk. Qed.

Lemma write_data_splice bytes buf off : 0 <= off <= Z.of_nat (length bytes) ->
  write_data bytes buf off =
  Ret (take (Z.to_nat off) bytes ++ buf ++ drop (Z.to_nat off + length buf) bytes).
Proof.
  intros Hoff. unfold write_data. destruct (Z.leb_spec (Z.of_nat (length bytes)) off) as [Hle|Hlt].
  - rewrite take_ge, drop_ge by lia. by rewrite app_nil_r.
  - destruct (Nat.ltb_spec (length bytes) (Z.to_nat off + length buf)) as [Hg|Hg].
    + rewrite copy_at_le by (rewrite length_resize_vec; lia). f_equal.
      unfold splice, resize_vec. rewrite (take_ge bytes) by lia.
      rewrite take_app_le by lia. rewrite (drop_ge bytes) by lia.
      rewrite drop_ge by (rewrite length_app, length_replicate; lia). done.
    + rewrite copy_at_le by lia. done.
Qed.

(** A write at an offset inside the file, or at its end. *)
Lemma write_fd_spec buf : writable e = true ->
  0 <= offset e <= Z.of_nat (length (data n)) -> offset e + Z.of_nat (length buf) <= u64_max ->
  write_fd t f (Z.of_nat fd) buf d =
  Ret (Z.of_nat (length buf), <[fd := Some (set_offset e (offset e + Z.of_nat (length buf)))]> t,
       mkRamFs (<[inode_idx e := set_data n (take (Z.to_nat (offset e)) (data n) ++ buf ++
                   drop (Z.to_nat (offset e) + length buf) (data n))]> (inodes f)), d).
Proof.
  intros Hw Ho Hu. unfold write_fd. rewrite good_fd, Nat2Z.id.
  pose proof He as He'. apply idx_Ret in He' as ->. cbn [mbind outcome_mbind]. rewrite Hb.
  unfold write_ramfs. rewrite Hw, Hn, file_node. cbn [negb].
  rewrite write_data_splice by done. cbn [mbind outcome_mbind].
  unfold cadd. destruct (Z.leb_spec (offset e + Z.of_nat (length buf)) u64_max); [|lia].
  cbn [mbind outcome_mbind]. rewrite set_idx_lt by (by eapply lookup_lt_Some). done.
Qed.

(** A read returns the bytes from the offset on, as many as fit. *)
Lemma read_fd_spec buf : 0 <= offset e <= Z.of_nat (length (data n)) ->
  Z.of_nat (length (data n)) <= u64_max ->
  let bytes := take (length buf) (drop (Z.to_nat (offset e)) (data n)) in
  read_fd t f (Z.of_nat fd) buf d =
  Ret (Z.of_nat (length bytes), splice buf 0 bytes,
       <[fd := Some (set_offset e (offset e + Z.of_nat (length bytes)))]> t, d).
Proof.
  intros Ho Hu bytes. unfold read_fd. rewrite good_fd, Nat2Z.id.
  pose proof He as He'. apply idx_Ret in He' as ->. cbn [mbind outcome_mbind]. rewrite Hb.
  unfold read_ramfs. rewrite Hn, file_node. unfold sat_sub.
  assert (length bytes = Nat.min (length buf) (length (data n) - Z.to_nat (offset e))) as HL.
  { subst bytes. by rewrite length_take, length_drop. }
  destruct (Z.eqb_spec (Z.max 0 (Z.of_nat (length (data n)) - offset e)) 0) as [Hz|Hz].
  - assert (bytes = []) as -> by (apply nil_length_inv; lia).
    cbn [length Z.of_nat mbind outcome_mbind]. rewrite splice_nil, Z.add_0_r, list_insert_id; [done|].
    rewrite He. do 2 f_equal. by destruct e.
  - replace (Nat.min (Z.to_nat (Z.max 0 (Z.of_nat (length (data n)) - offset e))) (length buf))
      with (length bytes) by lia.
    rewrite slice_le by lia. cbn [mbind outcome_mbind].
    replace (Z.to_nat (offset e) + length bytes - Z.to_nat (offset e))%nat with (length bytes) by lia.
    assert (take (length bytes) (drop (Z.to_nat (offset e)) (data n)) = bytes) as ->.
    { rewrite HL. subst bytes. rewrite <- take_take. f_equal. rewrite take_ge; [done|].
      rewrite length_drop. lia. }
    rewrite copy_at_le by lia. cbn [mbind outcome_mbind].
    unfold cadd. destruct (Z.leb_spec (offset e + Z.of_nat (length bytes)) u64_max); [|lia].
    cbn [mbind outcome_mbind]. by rewrite set_idx_lt by (by eapply lookup_lt_Some).
Qed.
End Io.

(** Bytes written through a descriptor are the bytes read back.  Writing at
    an offset within the file, seeking back to that offset and reading as many
    bytes returns the written bytes; the file holds them between its old prefix
    and what followed, no other inode changes, and none of the three calls
    panics. *)
Theorem write_seek_read_round_trip {F E : Type} `{RawFile F} `{RawFile E}
    (seek : F -> Z -> Z -> Z -> outcome (Z * F))
    (t : FdTable) (f : RamFs) (d : devs F E) (fd : nat) (e : FdEntry) (n : INode) (buf : list Z)
    (Hfd : (fd < MAX_FD)%nat) (He : t !! fd = Some (Some e)) (Hb : backend e = RamFS)
    (Hw : writable e = true) (Hn : inodes f !! inode_idx e = Some n) (Hk : kind n = File)
    (Ho : 0 <= offset e <= Z.of_nat (length (data n)))
    (Hs : Z.of_nat (length (data n)) + Z.of_nat (length buf) <= i64_max) :
  exists t1 t2 t3 f1,
    write_fd t f (Z.of_nat fd) buf d = Ret (Z.of_nat (length buf), t1, f1, d) /\
    lseek seek t1 f1 (fat d) (Z.of_nat fd) (offset e) 0 = Ret (offset e, t2, fat d) /\
    read_fd t2 f1 (Z.of_nat fd) (replicate (length buf) 0) d =
      Ret (Z.of_nat (length buf), buf, t3, d) /\
    inodes f1 !! inode_idx e = Some (set_data n
      (take (Z.to_nat (offset e)) (data n) ++ buf ++ drop (Z.to_nat (offset e) + length buf) (data n))) /\
    forall i, i <> inode_idx e -> inodes f1 !! i = inodes f !! i.
Proof.
  pose proof (lookup_lt_Some _ _ _ He) as Hlt. pose proof (lookup_lt_Some _ _ _ Hn) as Hilt.
  unfold i64_max in Hs.
  eexists _, _, _, _. split; [apply (write_fd_spec t f d fd e n); [done..|unfold u64_max; lia]|].
  split; [|split; [|split]].
  - unfold lseek. rewrite (good_fd fd Hfd), Nat2Z.id.
    rewrite (proj2 (idx_Ret _ fd (Some (set_offset e (offset e + Z.of_nat (length buf))))))
      by (by apply list_lookup_insert_eq).
    cbn [mbind outcome_mbind set_offset backend]. rewrite Hb. cbn [inode_idx inodes].
    erewrite (proj2 (idx_Ret _ (inode_idx e) _)) by (by apply list_lookup_insert_eq).
    cbn [mbind outcome_mbind Z.eqb]. destruct (Z.ltb_spec (offset e) 0); [lia|].
    rewrite set_idx_lt by (by rewrite length_insert). cbn [mbind outcome_mbind].
    rewrite list_insert_insert_eq. reflexivity.
  - assert (length (take (Z.to_nat (offset e)) (data n)) = Z.to_nat (offset e)) as HT
      by (rewrite length_take; lia).
    etransitivity; [eapply (read_fd_spec _ _ d fd (set_offset e (offset e)))|].
    + done.
    + by apply list_lookup_insert_eq.
    + done.
    + cbn. by apply list_lookup_insert_eq.
    + done.
    + cbn. rewrite !length_app, HT. lia.
    + cbn. rewrite !length_app, HT, length_drop. unfold u64_max. lia.
    + cbn [set_data data set_offset offset]. rewrite length_replicate.
      rewrite drop_app_length' by done. rewrite take_app_length.
      unfold splice. cbn [take app]. rewrite drop_ge by (rewrite length_replicate; lia).
      by rewrite app_nil_r.
  - by apply list_lookup_insert_eq.
  - intros i Hi. cbn. by rewrite list_lookup_insert_ne.
Qed.

(** A FAT driver that does nothing, for the witnesses. *)
#[export] Instance unit_raw : RawFile unit := {|
  raw_read := fun s _ buf => Ret (0, buf, s);
  raw_write := fun s _ _ => Ret (0, s);
  raw_close := fun s _ => Ret (0, s);
|}.
Definition no_seek (s : unit) (_ _ _ : Z) : outcome (Z * unit) := Ret (-9, s).
Definition idle : devs unit unit := mkDevs [] tt tt stdin.boot task_output.empty.

Definition hello : RamFs :=
  mkRamFs [mkINode [SLASH] ROOT_PARENT Directory [] 493 0 0; mkINode [104] 0 File [1; 2; 3] 420 0 0].
Definition hello_table : FdTable := <[3%nat := Some (ramfs_entry 1 1 true false)]> new.

Lemma hello_wf : wf hello.
Proof.
  constructor; cbn.
  - by eexists.
  - intros [|[|i]] n; cbn; [done|intros [= <-] _|by destruct i]. exists 0%nat. eexists. done.
  - intros [|[|i]] n; cbn; [done|intros [= <-] _|by destruct i]. cbn.
    split; [done|]. by intros [[=]|?%elem_of_nil]%elem_of_cons.
  - intros [|[|i]] [|[|j]] n m; cbn; try done; intros [= <-] [= <-]; done.
  - done.
Qed.

Lemma write_seek_read_round_trip_witness : exists t1 t2 t3 f1,
  write_fd hello_table hello 3 [7; 8; 9] idle = Ret (3, t1, f1, idle) /\
  lseek no_seek t1 f1 tt 3 1 0 = Ret (1, t2, tt) /\
  read_fd t2 f1 3 [0; 0; 0] idle = Ret (3, [7; 8; 9], t3, idle).
Proof.
  destruct (write_seek_read_round_trip no_seek hello_table hello idle 3 (ramfs_entry 1 1 true false)
    (mkINode [104] 0 File [1; 2; 3] 420 0 0) [7; 8; 9]) as (t1 & t2 & t3 & f1 & H1 & H2 & H3 & _);
    [unfold MAX_FD; lia|reflexivity..|cbn; lia|cbn; unfold i64_max; lia|].
  exists t1, t2, t3, f1. auto.
Defined.

Lemma unlink_keeps_other_descriptors_witness : exists f' tables',
  unlink (str "/h"%string) hello [new; hello_table] = Ret (0, f', tables') /\ length tables' = 2%nat.
Proof.
  eexists _, _. split; [reflexivity|].
  destruct (unlink_keeps_other_descriptors hello (mkRamFs [mkINode [SLASH] ROOT_PARENT Directory [] 493 0 0])
    (str "/h"%string) [new; hello_table] (on_inode_removed 1 <$> [new; hello_table])) as (k & _ & H & _);
    [exact hello_wf|reflexivity|exact H].
Defined.

(** *** Two handlers that break these promises *)

(** [lseek] lets a user program abort the kernel: on an in-memory file,
    [SEEK_CUR] adds the requested displacement to the current offset with an
    overflow check that panics, and any offset up to [i64::MAX] can be set
    first. *)
Theorem lseek_can_abort_the_kernel {F : Type} (seek : F -> Z -> Z -> Z -> outcome (Z * F))
    (t : FdTable) (f : RamFs) (x : F) (fd : nat) (e : FdEntry) (n : INode)
    (Hfd : (fd < MAX_FD)%nat) (He : t !! fd = Some (Some e)) (Hb : backend e = RamFS)
    (Hn : inodes f !! inode_idx e = Some n) :
  exists t1, lseek seek t f x (Z.of_nat fd) i64_max 0 = Ret (i64_max, t1, x) /\
             lseek seek t1 f x (Z.of_nat fd) 1 1 = Panic.
Proof.
  pose proof (lookup_lt_Some _ _ _ He) as Hlt.
  exists (<[fd := Some (set_offset e i64_max)]> t). unfold lseek. rewrite (good_fd fd Hfd), Nat2Z.id.
  rewrite (proj2 (idx_Ret t fd (Some e)) He). cbn [mbind outcome_mbind]. rewrite Hb.
  rewrite (proj2 (idx_Ret _ _ _) Hn). cbn [mbind outcome_mbind Z.eqb]. split.
  - by rewrite set_idx_lt.
  - rewrite (proj2 (idx_Ret _ fd (Some (set_offset e i64_max)))) by (by apply list_lookup_insert_eq).
    cbn [mbind outcome_mbind set_offset backend inode_idx]. rewrite Hb, (proj2 (idx_Ret _ _ _) Hn).
    reflexivity.
Qed.

Lemma lseek_can_abort_the_kernel_witness : exists t1,
  lseek no_seek hello_table hello tt 3 i64_max 0 = Ret (i64_max, t1, tt) /\
  lseek no_seek t1 hello tt 3 1 1 = Panic.
Proof.
  apply (lseek_can_abort_the_kernel no_seek hello_table hello tt 3 (ramfs_entry 1 1 true false)
    (mkINode [104] 0 File [1; 2; 3] 420 0 0)); [unfold MAX_FD; lia|reflexivity..].
Defined.

(** Four files in the root directory. *)
Definition four : RamFs :=
  mkRamFs [mkINode [SLASH] ROOT_PARENT Directory [] 493 0 0;
           mkINode (str "a"%string) 0 File [1] 420 0 0; mkINode (str "b"%string) 0 File [2] 420 0 0;
           mkINode (str "c"%string) 0 File [3] 420 0 0; mkINode (str "d"%string) 0 File [4] 420 0 0].

(** Renaming over an existing file retargets open descriptors.  [rename]
    removes the destination's inode without renumbering the descriptor tables,
    so a descriptor open on an unrelated file of a higher inode number silently
    stands for another file afterwards. *)
Theorem rename_retargets_open_descriptors :
  exists f', rename_ramfs (str "/a"%string) (str "/b"%string) four [hello_table] = Ret (0, f', [hello_table]) /\
    wf f' /\
    let e := ramfs_entry 3 0 true false in
    file four e = Some (str "c"%string, File, [3]) /\ file f' e = Some (str "d"%string, File, [4]) /\
    view f' [str "c"%string] = Some (AFile [3]).
Proof.
  assert (wf four) as W.
  { constructor; cbn.
    - by eexists.
    - intros [|[|[|[|[|i]]]]] n; cbn; [done|intros [= <-] _; exists 0%nat; by eexists..|by destruct i].
    - intros [|[|[|[|[|i]]]]] n; cbn; [done| | | | |by destruct i];
        (intros [= <-] _; split; [done|]; intros Hin; vm_compute in Hin;
         by apply list_elem_of_singleton in Hin).
    - intros [|[|[|[|[|i]]]]] [|[|[|[|[|j]]]]] n m; cbn; try done; try (by destruct i); try (by destruct j);
        intros [= <-] [= <-]; done.
    - done. }
  destruct (ramfs_refines_all (Rename (str "/a"%string) (str "/b"%string)) four W ltac:(done) RDone
    (upd (upd (view four) [str "a"%string] None) [str "b"%string] (Some (AFile [1]))))
    as (f' & Hrun & W' & HV & _); [reflexivity|].
  exists f'. assert (Hf : rename (str "/a"%string) (str "/b"%string) four = Ret (Ok tt,
    mkRamFs [mkINode [SLASH] ROOT_PARENT Directory [] 493 0 0;
             mkINode (str "b"%string) 0 File [1] 420 0 0; mkINode (str "c"%string) 0 File [3] 420 0 0;
             mkINode (str "d"%string) 0 File [4] 420 0 0])) by reflexivity.
  cbn [run] in Hrun. rewrite Hf in Hrun. injection Hrun as <-.
  unfold rename_ramfs. rewrite Hf. split; [done|]. split; [done|]. split; [done|]. split; [done|].
  by rewrite (HV _).
Qed.

End fd_spec.
