(* ===== verification/FdPipes.v ===== *)
(** * Descriptors and pipe reference counts

    The descriptor tables of all tasks beside the pipe driver: Module
    [fd_pipes] steps them by the calls that create, copy, use and close pipe
    descriptors and proves that the driver's counts are exactly the descriptors
    that name each pipe end.  Three handlers are then shown to break the
    balance. *)

From stdpp Require Import base list relations.
From Stdlib Require Import ZArith Lia.
From S2P Require Import Prelude RingBuffer IpcPipe IpcStdin RamFs FdTable.

Local Open Scope Z_scope.

Module fd_pipes.
Import fdtable.

(** The loop of [fork_task] that counts the descriptors a child inherits. *)
(* @src proc/scheduler.rs 868-875 fork_task (pipes) *)
Fixpoint inherit (t : FdTable) (ps : list pipe.Pipe) : outcome (list pipe.Pipe) :=
  match t with
  | [] => Ret ps
  | slot :: t' =>
      match slot with
      | Some e =>
          if bool_decide (backend e = Pipe)
          then let! ps := pipe.addref ps (raw_fd e) in inherit t' ps
          else inherit t' ps
      | None => inherit t' ps
      end
  end.

(** ** Descriptors that name a pipe end *)

Definition names (raw : Z) (slot : option FdEntry) : Z :=
  match slot with
  | Some e => if bool_decide (backend e = Pipe) && (raw_fd e =? raw) then 1 else 0
  | None => 0
  end.
Definition held1 (raw : Z) (t : FdTable) : Z := zsum (names raw) t.
Definition held (raw : Z) (ts : list FdTable) : Z := zsum (held1 raw) ts.

(** State of the pipe end behind a raw descriptor: open, and its count. *)
Definition pend_of (raw : Z) (a : list pipe_spec.apipe) : option (bool * Z) :=
  match pipe_spec.decode raw with
  | Some (i, e) =>
      (fun x => match e with
                | pipe_spec.ReadEnd => (pipe_spec.ropen x, pipe_spec.rrefs x)
                | pipe_spec.WriteEnd => (pipe_spec.wopen x, pipe_spec.wrefs x)
                end) <$> a !! i
  | None => None
  end.

Lemma pipe_names_range raw s : 0 <= names raw s <= 1.
Proof. unfold names. destruct s; [|lia]. destruct (_ && _); lia. Qed.
Lemma held1_nonneg raw t : 0 <= held1 raw t.
Proof. apply zsum_nonneg. intros s. apply (pipe_names_range raw s). Qed.
Lemma held_nonneg raw ts : 0 <= held raw ts.
Proof. apply zsum_nonneg. intros t. apply held1_nonneg. Qed.

Lemma held_slot raw ts i t fd s : ts !! i = Some t -> t !! fd = Some s -> names raw s <= held raw ts.
Proof.
  intros Ht Hs. pose proof (zsum_ge (held1 raw) ts i t (held1_nonneg raw) Ht).
  pose proof (zsum_ge (names raw) t fd s (fun s => proj1 (pipe_names_range raw s)) Hs).
  unfold held, held1 in *. lia.
Qed.

Lemma held_insert raw ts i t fd s s' : ts !! i = Some t -> t !! fd = Some s ->
  held raw (<[i := <[fd := s']> t]> ts) = held raw ts - names raw s + names raw s'.
Proof.
  intros Ht Hs. unfold held. rewrite (zsum_insert _ ts i t) by done.
  unfold held1. rewrite (zsum_insert _ t fd s) by done. lia.
Qed.

Lemma decode_inj r1 r2 x : pipe_spec.decode r1 = Some x -> pipe_spec.decode r2 = Some x -> r1 = r2.
Proof.
  unfold pipe_spec.decode. intros H1 H2.
  destruct ((80 <=? r1) && (r1 <? 96)) eqn:B1; [|done].
  destruct ((80 <=? r2) && (r2 <? 96)) eqn:B2; [|done]. simplify_eq. bool_simpl.
  assert ((r1 - 80) / 2 = (r2 - 80) / 2) as Hd.
  { apply (f_equal Z.of_nat) in H. rewrite !Z2Nat.id in H by (apply Z.div_pos; lia). done. }
  assert (Z.even r1 = Z.even r2) as He by (destruct (Z.even r1), (Z.even r2); done).
  pose proof (Z.div_mod (r1 - 80) 2). pose proof (Z.div_mod (r2 - 80) 2).
  assert ((r1 - 80) mod 2 = (r2 - 80) mod 2); [|lia].
  rewrite !Zmod_even, !Z.even_sub, He. done.
Qed.

(** Every pipe descriptor of a table names a pipe end. *)
Definition pipe_slot (s : option FdEntry) : Prop :=
  match s with
  | Some e => backend e = Pipe -> is_Some (pipe_spec.decode (raw_fd e))
  | None => True
  end.

(** ** Effect of the driver's calls on the ends *)

Lemma pend_insert raw r i e x a b : pipe_spec.decode raw = Some (i, e) -> a !! i = Some b ->
  (forall e', e' <> e ->
     match e' with
     | pipe_spec.ReadEnd => (pipe_spec.ropen x, pipe_spec.rrefs x) = (pipe_spec.ropen b, pipe_spec.rrefs b)
     | pipe_spec.WriteEnd => (pipe_spec.wopen x, pipe_spec.wrefs x) = (pipe_spec.wopen b, pipe_spec.wrefs b)
     end) ->
  pend_of r (<[i := x]> a) =
  if decide (r = raw) then
    Some match e with
         | pipe_spec.ReadEnd => (pipe_spec.ropen x, pipe_spec.rrefs x)
         | pipe_spec.WriteEnd => (pipe_spec.wopen x, pipe_spec.wrefs x)
         end
  else pend_of r a.
Proof.
  intros Hd Hb Hsame. unfold pend_of. case_decide as Hr.
  - subst r. rewrite Hd. rewrite list_lookup_insert_eq by (by eapply lookup_lt_Some). done.
  - destruct (pipe_spec.decode r) as [[i' e']|] eqn:Hd'; [|done].
    destruct (decide (i' = i)) as [->|Hi]; [|by rewrite list_lookup_insert_ne].
    rewrite list_lookup_insert_eq by (by eapply lookup_lt_Some). rewrite Hb. cbn.
    assert (e' <> e) as He by (intros ->; apply Hr; by eapply decode_inj).
    specialize (Hsame e' He). by destruct e'; rewrite Hsame.
Qed.

Section Driver.
Context (ps : list pipe.Pipe) (W : pipe.wf_table ps).
Let a := pipe_spec.abs <$> ps.

Lemma abs_lookup raw i e : pipe_spec.decode raw = Some (i, e) -> exists b, a !! i = Some b.
Proof.
  intros Hd. apply pipe_spec.decode_Some in Hd as (_ & _ & Hi & _).
  destruct (pipe_spec.table_lookup ps W i Hi) as (p & Hp & _).
  exists (pipe_spec.abs p). subst a. by rewrite list_lookup_fmap, Hp.
Qed.

Lemma addref_pend raw x : pipe_spec.decode raw = Some x ->
  exists ps' o n, pipe.addref ps raw = Ret ps' /\ pipe.wf_table ps' /\ pend_of raw a = Some (o, n) /\
    forall r, pend_of r (pipe_spec.abs <$> ps') =
      if decide (r = raw) then Some (o, Z.min 255 (n + 1)) else pend_of r a.
Proof.
  destruct x as [i e]. intros Hd. destruct (abs_lookup raw i e Hd) as [b Hb].
  destruct (pipe_spec.refines_all ps (pipe_spec.Addref raw) W) as (ps' & Hrun & W' & Habs).
  cbn [pipe_spec.run] in Hrun. apply bind_Ret in Hrun as (ps1 & Hadd & [= _ ->]).
  unfold pipe_spec.step, pipe_spec.on_end in Habs. fold a in Habs. rewrite Hd, Hb in Habs.
  cbn [snd] in Habs.
  destruct (match e with pipe_spec.ReadEnd => (pipe_spec.ropen b, pipe_spec.rrefs b)
            | pipe_spec.WriteEnd => (pipe_spec.wopen b, pipe_spec.wrefs b) end) as [o n] eqn:Hon.
  exists ps', o, n. split; [done|]. split; [done|]. split.
  { unfold pend_of. rewrite Hd, Hb. cbn. by rewrite Hon. }
  intros r. rewrite Habs, (pend_insert raw r i e _ a b Hd Hb).
  - case_decide; [|done]. by destruct e; injection Hon as <- <-.
  - intros [] He; destruct e; done.
Qed.

Lemma close_pend raw x : pipe_spec.decode raw = Some x ->
  exists ps' o n, pipe.close ps raw = Ret (0, ps') /\ pipe.wf_table ps' /\ pend_of raw a = Some (o, n) /\
    forall r, pend_of r (pipe_spec.abs <$> ps') =
      if decide (r = raw) then Some (if n <=? 1 then false else o, Z.max 0 (n - 1)) else pend_of r a.
Proof.
  destruct x as [i e]. intros Hd. destruct (abs_lookup raw i e Hd) as [b Hb].
  destruct (pipe_spec.refines_all ps (pipe_spec.Close raw) W) as (ps' & Hrun & W' & Habs).
  cbn [pipe_spec.run] in Hrun. apply bind_Ret in Hrun as ([r0 ps1] & Hcl & [= Hr ->]).
  unfold pipe_spec.step, pipe_spec.on_end in Habs, Hr. fold a in Habs, Hr. rewrite Hd, Hb in Habs, Hr.
  cbn [fst] in Hr. injection Hr as ->.
  cbn [snd] in Habs.
  destruct (match e with pipe_spec.ReadEnd => (pipe_spec.ropen b, pipe_spec.rrefs b)
            | pipe_spec.WriteEnd => (pipe_spec.wopen b, pipe_spec.wrefs b) end) as [o n] eqn:Hon.
  exists ps', o, n. split; [done|]. split; [done|]. split.
  { unfold pend_of. rewrite Hd, Hb. cbn. by rewrite Hon. }
  intros r. rewrite Habs, (pend_insert raw r i e _ a b Hd Hb).
  - case_decide; [|done]. by destruct e; injection Hon as <- <-.
  - intros [] He; destruct e; done.
Qed.
End Driver.

(** ** Balance, for a count of references [h] *)

Definition counts (h : Z -> Z) (ps : list pipe.Pipe) : Prop :=
  pipe.wf_table ps /\ forall raw x, pipe_spec.decode raw = Some x ->
    0 <= h raw /\ pend_of raw (pipe_spec.abs <$> ps) = Some (0 <? h raw, h raw).

Definition bump (raw k : Z) (h : Z -> Z) : Z -> Z := fun r => h r + (if decide (r = raw) then k else 0).

Lemma counts_ext h h' ps : counts h ps -> (forall raw, h' raw = h raw) -> counts h' ps.
Proof. intros [W C] E. split; [done|]. intros raw x Hx. rewrite E. by eapply C. Qed.

Lemma counts_addref h ps raw x : counts h ps -> pipe_spec.decode raw = Some x -> 0 < h raw < 255 ->
  exists ps', pipe.addref ps raw = Ret ps' /\ counts (bump raw 1 h) ps'.
Proof.
  intros [W C] Hx Hh. destruct (addref_pend ps W raw x Hx) as (ps' & o & n & E & W' & P & Q).
  exists ps'. split; [done|]. split; [done|]. intros r y Hy. rewrite Q. unfold bump.
  destruct (C raw x Hx) as [_ Cx]. destruct (C r y Hy) as [? Cy]. rewrite Cx in P. injection P as <- <-.
  case_decide.
  - subst r. split; [lia|]. do 2 f_equal.
    + by rewrite !(proj2 (Z.ltb_lt _ _)) by lia.
    + lia.
  - rewrite Z.add_0_r. done.
Qed.

Lemma counts_close h ps raw x : counts h ps -> pipe_spec.decode raw = Some x -> 0 < h raw ->
  exists ps', pipe.close ps raw = Ret (0, ps') /\ counts (bump raw (-1) h) ps'.
Proof.
  intros [W C] Hx Hh. destruct (close_pend ps W raw x Hx) as (ps' & o & n & E & W' & P & Q).
  exists ps'. split; [done|]. split; [done|]. intros r y Hy. rewrite Q. unfold bump.
  destruct (C raw x Hx) as [_ Cx]. destruct (C r y Hy) as [? Cy]. rewrite Cx in P. injection P as <- <-.
  case_decide.
  - subst r. split; [lia|]. do 2 f_equal; [|lia].
    destruct (Z.leb_spec (h raw) 1), (Z.ltb_spec 0 (h raw)), (Z.ltb_spec 0 (h raw + -1)); lia || done.
  - rewrite Z.add_0_r. done.
Qed.

(** A new pipe comes with one reference to each end. *)
Lemma ends_alloc h ps r w ps' : counts h ps -> pipe.alloc ps = (Some (r, w), ps') ->
  is_Some (pipe_spec.decode r) /\ is_Some (pipe_spec.decode w) /\ r <> w /\
  h r = 0 /\ h w = 0 /\ counts (bump r 1 (bump w 1 h)) ps'.
Proof.
  intros [W C] E. destruct (pipe_spec.refines_all ps pipe_spec.Alloc W) as (ps1 & Hrun & W' & Habs).
  cbn [pipe_spec.run] in Hrun. rewrite E in Hrun. injection Hrun as Hr ->.
  cbn [pipe_spec.step] in Hr, Habs.
  destruct (position _ (pipe_spec.abs <$> ps)) as [i|] eqn:Hi; [|done]. cbn in Hr. injection Hr as -> ->.
  cbn [snd] in Habs. apply position_Some in Hi as (b & Hb & Hcl & _). bool_simpl.
  assert (i < 8)%nat as Hi8.
  { apply lookup_lt_Some in Hb. rewrite length_fmap in Hb. destruct W as [HL _].
    unfold pipe.PIPE_COUNT in HL. lia. }
  assert (forall k, (k = 0 \/ k = 1) -> pipe_spec.decode (80 + 2 * Z.of_nat i + k) =
    Some (i, if k =? 0 then pipe_spec.ReadEnd else pipe_spec.WriteEnd)) as Hdec.
  { intros k Hk. unfold pipe_spec.decode.
    destruct (Z.leb_spec 80 (80 + 2 * Z.of_nat i + k)), (Z.ltb_spec (80 + 2 * Z.of_nat i + k) 96); [|lia..].
    cbn [andb]. replace (80 + 2 * Z.of_nat i + k - 80) with (k + Z.of_nat i * 2) by lia.
    rewrite Z.div_add by lia. do 2 f_equal.
    - rewrite (Z.div_small k) by lia. lia.
    - replace (80 + 2 * Z.of_nat i + k) with (k + 2 * (40 + Z.of_nat i)) by lia.
      rewrite Z.even_add_mul_2. by destruct Hk as [-> | ->]. }
  pose proof (Hdec 0 ltac:(auto)) as Dr. pose proof (Hdec 1 ltac:(auto)) as Dw. clear Hdec.
  rewrite Z.add_0_r in Dr. replace (80 + 2 * Z.of_nat i + 1) with (81 + 2 * Z.of_nat i) in Dw by lia.
  destruct (C _ _ Dr) as [Nr Pr]. destruct (C _ _ Dw) as [Nw Pw].
  unfold pend_of in Pr, Pw. rewrite Dr, Hb in Pr. rewrite Dw, Hb in Pw. cbn in Pr, Pw.
  injection Pr as Or Rr. injection Pw as Ow Rw.
  assert (h (80 + 2 * Z.of_nat i) = 0) as Zr by (destruct (Z.ltb_spec 0 (h (80 + 2 * Z.of_nat i))); [congruence|lia]).
  assert (h (81 + 2 * Z.of_nat i) = 0) as Zw by (destruct (Z.ltb_spec 0 (h (81 + 2 * Z.of_nat i))); [congruence|lia]).
  cbn [pipe_spec.encode]. rewrite Dr, Dw. split; [by eexists|]. split; [by eexists|].
  split; [lia|]. split; [done|]. split; [done|]. split; [done|].
  intros raw [j e] Hx. rewrite Habs. unfold bump, pend_of. rewrite Hx.
  destruct (C raw _ Hx) as [N P]. unfold pend_of in P. rewrite Hx in P.
  destruct (decide (j = i)) as [->|Hj].
  - rewrite list_lookup_insert_eq by (by eapply lookup_lt_Some). cbn. destruct e.
    + rewrite (decode_inj raw _ _ Hx Dr). rewrite decide_False, decide_True by lia.
      rewrite Zr. split; [lia|done].
    + rewrite (decode_inj raw _ _ Hx Dw). rewrite decide_True, decide_False by lia.
      rewrite Zw. split; [lia|done].
  - rewrite list_lookup_insert_ne by done. rewrite decide_False, decide_False by (intros ->; congruence).
    rewrite !Z.add_0_r. done.
Qed.

(** Reads and writes do not touch the counts. *)
Lemma counts_read h ps raw out r out' ps' : counts h ps ->
  pipe.read ps raw out = Ret (r, out', ps') -> counts h ps'.
Proof.
  intros [W C] E. destruct (pipe_spec.refines_all ps (pipe_spec.Read raw out) W) as (ps1 & Hrun & W' & Habs).
  cbn [pipe_spec.run] in Hrun. rewrite E in Hrun. injection Hrun as _ ->. split; [done|].
  intros x y Hy. destruct (C x y Hy) as [? <-]. split; [done|]. rewrite Habs.
  unfold pipe_spec.step, pipe_spec.on_end.
  destruct (pipe_spec.decode raw) as [[i e]|] eqn:Hd; [|done].
  destruct ((pipe_spec.abs <$> ps) !! i) as [b|] eqn:Hb; [|done].
  destruct e; [|done]. destruct (pipe_spec.ropen b) eqn:Ho; [|done].
  destruct (pipe_spec.data b); [done|]. cbn [snd].
  rewrite (pend_insert raw _ i pipe_spec.ReadEnd _ _ b Hd Hb) by (intros [] ?; done).
  case_decide; [|done]. subst x. unfold pend_of. rewrite Hd, Hb. cbn. by rewrite Ho.
Qed.

Lemma counts_write h ps raw bytes r ps' : counts h ps ->
  pipe.write ps raw bytes = Ret (r, ps') -> counts h ps'.
Proof.
  intros [W C] E. destruct (pipe_spec.refines_all ps (pipe_spec.Write raw bytes) W) as (ps1 & Hrun & W' & Habs).
  cbn [pipe_spec.run] in Hrun. rewrite E in Hrun. injection Hrun as _ ->. split; [done|].
  intros x y Hy. destruct (C x y Hy) as [? <-]. split; [done|]. rewrite Habs.
  unfold pipe_spec.step, pipe_spec.on_end.
  destruct (pipe_spec.decode raw) as [[i e]|] eqn:Hd; [|done].
  destruct ((pipe_spec.abs <$> ps) !! i) as [b|] eqn:Hb; [|done].
  destruct e; [done|]. destruct (pipe_spec.wopen b) eqn:Ho; [|done]. cbn [snd].
  rewrite (pend_insert raw _ i pipe_spec.WriteEnd _ _ b Hd Hb) by (intros [] ?; done).
  case_decide; [|done]. subst x. unfold pend_of. rewrite Hd, Hb. cbn. by rewrite Ho.
Qed.

(** Inheriting a table adds its descriptors to the counts. *)
Lemma counts_inherit t h ps : counts h ps -> Forall pipe_slot t ->
  (forall raw, 0 < held1 raw t -> 0 < h raw /\ h raw + held1 raw t <= 255) ->
  exists ps', inherit t ps = Ret ps' /\ counts (fun r => h r + held1 r t) ps'.
Proof.
  revert h ps. induction t as [|s t IH]; intros h ps C HF Hh.
  { exists ps. split; [done|]. eapply counts_ext; [done|]. intros raw. cbn. lia. }
  apply Forall_cons in HF as [Hs HF].
  assert (forall raw, held1 raw (s :: t) = names raw s + held1 raw t) as Hcons by done.
  assert (names_zero : s = None \/ (exists e, s = Some e /\ backend e <> Pipe) ->
    forall raw, names raw s = 0).
  { intros [-> |(e & -> & He)] raw; cbn; [done|]. by rewrite bool_decide_false. }
  assert (s = None \/ (exists e, s = Some e /\ backend e <> Pipe) ->
    exists ps', inherit t ps = Ret ps' /\ counts (fun r => h r + held1 r (s :: t)) ps') as Hskip.
  { intros Hz. destruct (IH h ps C HF) as (ps' & E & C').
    - intros raw Hr. specialize (Hh raw). rewrite Hcons, (names_zero Hz) in Hh. apply Hh. lia.
    - exists ps'. split; [done|]. eapply counts_ext; [done|]. intros raw. cbn beta.
      rewrite Hcons, (names_zero Hz). lia. }
  cbn [inherit]. destruct s as [e|]; [|by apply Hskip; left].
  case_bool_decide as He; [|by apply Hskip; right; exists e].
  destruct (Hs He) as [x Hx].
  assert (forall raw, names raw (Some e) = if decide (raw = raw_fd e) then 1 else 0) as Hnm.
  { intros raw. cbn. rewrite bool_decide_true by done. cbn.
    destruct (Z.eqb_spec (raw_fd e) raw), (decide (raw = raw_fd e)); congruence. }
  pose proof (held1_nonneg (raw_fd e) t) as Hnn.
  specialize (Hcons (raw_fd e)) as Hce. rewrite (Hnm (raw_fd e)), decide_True in Hce by done.
  destruct (counts_addref h ps (raw_fd e) x C Hx) as (ps1 & E1 & C1).
  { specialize (Hh (raw_fd e) ltac:(lia)). lia. }
  rewrite E1. cbn [mbind outcome_mbind]. destruct (IH _ ps1 C1 HF) as (ps' & E & C').
  - intros raw Hr. specialize (Hh raw). rewrite Hcons, Hnm in Hh. unfold bump.
    case_decide; [specialize (Hh ltac:(lia)); lia|]. specialize (Hh ltac:(lia)). lia.
  - exists ps'. split; [done|]. eapply counts_ext; [done|]. intros raw. cbn beta.
    rewrite Hcons, Hnm. unfold bump. case_decide; lia.
Qed.

(** ** All tables beside the driver *)

Section System.
Context {F E : Type} `{RawFile F} `{RawFile E}.

Record inv (ts : list FdTable) (d : devs F E) : Prop := {
  inv_len : Forall (fun t => length t = MAX_FD) ts;
  inv_slot : Forall (Forall pipe_slot) ts;
  inv_counts : counts (fun r => held r ts) (pipes d);
}.

(** One call of one task.  A creation may fail, for lack of pipes or of descriptors, but not
    with exactly one descriptor left (see [failed_pipe_leaves_a_descriptor]); [dup] is left out
    (see [dup_then_close_closes_the_copy]).  [fork] copies the table of task [i] to task [j],
    whose own pipe descriptors are closed by then.  A count is never pushed beyond
    the 255 its byte can hold. *)
Inductive step : list FdTable * devs F E -> list FdTable * devs F E -> Prop :=
| step_pipe ts d i t r slots t' d' :
    ts !! i = Some t -> pipe_alloc t d = Ret (r, slots, t', d') -> (slots = None -> t' = t) ->
    step (ts, d) (<[i := t']> ts, d')
| step_dup2 ts d i t x y r t' d' :
    ts !! i = Some t -> (forall raw, held raw ts < 255) ->
    dup2 t x y d = Ret (r, t', d') -> step (ts, d) (<[i := t']> ts, d')
| step_close ts d i t fd r t' d' :
    ts !! i = Some t -> close t fd d = Ret (r, t', d') -> step (ts, d) (<[i := t']> ts, d')
| step_open ts d i t e r t' :
    ts !! i = Some t -> backend e <> Pipe -> open_entry t e = Ret (r, t') ->
    step (ts, d) (<[i := t']> ts, d)
| step_read ts d f i t fd buf r buf' t' d' :
    ts !! i = Some t -> read_fd t f fd buf d = Ret (r, buf', t', d') ->
    step (ts, d) (<[i := t']> ts, d')
| step_write ts d f i t fd buf r f' t' d' :
    ts !! i = Some t -> write_fd t f fd buf d = Ret (r, t', f', d') ->
    step (ts, d) (<[i := t']> ts, d')
| step_fork ts d i j t c ps' :
    ts !! i = Some t -> ts !! j = Some c -> (forall raw, held1 raw c = 0) ->
    (forall raw, held raw ts + held1 raw t <= 255) ->
    inherit t (pipes d) = Ret ps' -> step (ts, d) (<[j := t]> ts, set_pipes d ps').

Lemma alloc_fd_Some t i : alloc_fd t = Some i -> t !! i = Some None.
Proof.
  unfold alloc_fd. intros (k & Hk & ->)%fmap_Some. apply position_Some in Hk as (s & Hs & Hn & _).
  rewrite lookup_drop in Hs. rewrite Nat.add_comm, Hs. by destruct s.
Qed.

(** Replacing one slot. *)
Lemma inv_set ts d d' i t fd s s' : inv ts d -> ts !! i = Some t -> t !! fd = Some s -> pipe_slot s' ->
  counts (fun r => held r ts - names r s + names r s') (pipes d') ->
  inv (<[i := <[fd := s']> t]> ts) d'.
Proof.
  intros [HL HS _] Ht Hs Hs' C.
  pose proof (Forall_lookup_1 _ _ _ _ HL Ht) as HLt. pose proof (Forall_lookup_1 _ _ _ _ HS Ht) as HSt.
  constructor.
  - apply Forall_insert; [done|]. by rewrite length_insert.
  - apply Forall_insert; [done|]. by apply Forall_insert.
  - eapply counts_ext; [done|]. intros r. by apply held_insert.
Qed.

Lemma pipes_inv_same ts d d' i t : inv ts d -> ts !! i = Some t -> counts (fun r => held r ts) (pipes d') ->
  inv (<[i := t]> ts) d'.
Proof. intros [HL HS _] Ht C. rewrite list_insert_id by done. by constructor. Qed.

Lemma names_other r s : (forall e, s = Some e -> backend e <> Pipe) -> names r s = 0.
Proof. intros Hs. destruct s as [e|]; [|done]. cbn. by rewrite bool_decide_false by (by apply Hs). Qed.

Lemma names_pipe r e : backend e = Pipe -> names r (Some e) = if decide (r = raw_fd e) then 1 else 0.
Proof.
  intros He. cbn. rewrite bool_decide_true by done. cbn.
  destruct (Z.eqb_spec (raw_fd e) r), (decide (r = raw_fd e)); congruence.
Qed.

Lemma slot_pipe ts d i t fd e : inv ts d -> ts !! i = Some t -> t !! fd = Some (Some e) ->
  backend e = Pipe -> is_Some (pipe_spec.decode (raw_fd e)) /\ 1 <= held (raw_fd e) ts.
Proof.
  intros [_ HS _] Ht Hs He. split.
  - pose proof (Forall_lookup_1 _ _ _ _ HS Ht) as HSt.
    by apply (Forall_lookup_1 _ _ _ _ HSt Hs).
  - pose proof (held_slot (raw_fd e) ts i t fd _ Ht Hs) as Hh.
    rewrite names_pipe, decide_True in Hh by done. done.
Qed.

Lemma inv_pipe ts d i t x slots t' d' : inv ts d -> ts !! i = Some t ->
  pipe_alloc t d = Ret (x, Some slots, t', d') -> inv (<[i := t']> ts) d'.
Proof.
  intros I Ht. unfold pipe_alloc. destruct (pipe.alloc (pipes d)) as [[[r w]|] ps] eqn:Ha; [|done].
  intros ([o t1] & Ho & Hk)%bind_Ret. destruct o as [sl|];
    [|by apply bind_Ret in Hk as ([? ?] & _ & ([? ?] & _ & ?)%bind_Ret)].
  injection Hk as _ -> -> <-. clear x.
  destruct (ends_alloc _ _ _ _ _ (inv_counts _ _ I) Ha) as (Dr & Dw & Hrw & Zr & Zw & C).
  unfold open_pipe in Ho. destruct (alloc_fd t) as [a|] eqn:Ea; [|done].
  apply alloc_fd_Some in Ea as Ha1. apply bind_Ret in Ho as (t2 & Hs & Ho).
  apply set_idx_Ret in Hs as [La ->]. destruct (alloc_fd (<[a := _]> t)) as [b|] eqn:Eb; [|done].
  apply alloc_fd_Some in Eb as Hb1. apply bind_Ret in Ho as (t3 & Hs & [= _ <-]).
  apply set_idx_Ret in Hs as [Lb ->].
  pose proof (Forall_lookup_1 _ _ _ _ (inv_len _ _ I) Ht) as HLt.
  pose proof (Forall_lookup_1 _ _ _ _ (inv_slot _ _ I) Ht) as HSt.
  constructor.
  - apply Forall_insert; [apply I|]. by rewrite !length_insert.
  - apply Forall_insert; [apply I|]. apply Forall_insert; [apply Forall_insert; [done|]|]; by intros _.
  - eapply counts_ext; [exact C|]. intros x. unfold held. rewrite (zsum_insert _ ts i t) by done.
    unfold held1 at 2 3. rewrite (zsum_insert _ _ b None), (zsum_insert _ _ a None) by done.
    rewrite !names_pipe by done. unfold bump. cbn [names raw_entry raw_fd].
    fold (held1 x t). unfold held. do 2 case_decide; lia.
Qed.

(** A creation that fails closes what it opened. *)
Lemma inv_no_pipe ts d i t r d' : inv ts d -> ts !! i = Some t -> pipe_alloc t d = Ret (r, None, t, d') -> inv (<[i := t]> ts) d'.
Proof.
  intros I Ht. unfold pipe_alloc. destruct (pipe.alloc (pipes d)) as [[[rr rw]|] p] eqn:Ha.
  2:{ intros [= _ <-]. by apply (pipes_inv_same ts d); [..|apply I]. }
  destruct (ends_alloc _ _ _ _ _ (inv_counts _ _ I) Ha) as ([x Hx] & [y Hy] & Hrw & Zr & Zw & C).
  intros ([[slots|] t1] & _ & Hk)%bind_Ret; [done|].
  destruct (counts_close _ _ _ _ C Hx) as (ps1 & E1 & C1); [unfold bump; rewrite decide_False, decide_True by done; lia|].
  destruct (counts_close _ _ _ _ C1 Hy) as (ps2 & E2 & C2); [unfold bump; repeat case_decide; try congruence; lia|].
  cbn [pipes set_pipes] in Hk. rewrite E1 in Hk. cbn [mbind outcome_mbind] in Hk. rewrite E2 in Hk. injection Hk as _ _ <-.
  apply (pipes_inv_same ts d); [done|done|]. cbn [pipes set_pipes]. eapply counts_ext; [exact C2|].
  intros q. unfold bump. repeat case_decide; congruence || lia.
Qed.

Lemma inv_close ts d i t fd r t' d' : inv ts d -> ts !! i = Some t ->
  close t fd d = Ret (r, t', d') -> inv (<[i := t']> ts) d'.
Proof.
  intros I Ht. unfold close. destruct (bad_fd fd); [intros [= _ <- <-]; by apply (pipes_inv_same ts d); [..|apply I]|].
  intros (s & Hs & (t1 & Ht1 & Hk)%bind_Ret)%bind_Ret. apply idx_Ret in Hs.
  apply set_idx_Ret in Ht1 as [Hlt ->]. destruct s as [e|].
  2: { injection Hk as _ <- <-. apply (inv_set ts d d i t _ None); [done..|].
    eapply counts_ext; [apply I|]. intros x. cbn. lia. }
  apply bind_Ret in Hk as (d1 & Hrel & [= _ <- <-]). unfold release in Hrel.
  assert (backend e <> Pipe -> pipes d1 = pipes d ->
    inv (<[i := <[Z.to_nat fd := None]> t]> ts) d1) as Hother.
  { intros He Hp. apply (inv_set ts d d1 i t _ (Some e)); [done..|]. rewrite Hp.
    eapply counts_ext; [apply I|]. intros x. rewrite (names_other x (Some e)) by (by intros ? [= <-]).
    cbn. lia. }
  destruct (backend e) eqn:He.
  - injection Hrel as <-. by apply Hother.
  - apply bind_Ret in Hrel as ([? ?] & _ & [= <-]). by apply Hother.
  - apply bind_Ret in Hrel as ([? ?] & _ & [= <-]). by apply Hother.
  - destruct (slot_pipe ts d i t _ e I Ht Hs He) as [[x Hx] Hh].
    destruct (counts_close _ _ _ _ (inv_counts _ _ I) Hx ltac:(cbn; lia)) as (ps' & Hc & C).
    rewrite Hc in Hrel. injection Hrel as <-. apply (inv_set ts d _ i t _ (Some e)); [done..|].
    eapply counts_ext; [exact C|]. intros y. rewrite names_pipe by done. unfold bump. cbn.
    case_decide; lia.
  - injection Hrel as <-. by apply Hother.
  - injection Hrel as <-. by apply Hother.
  - injection Hrel as <-. by apply Hother.
Qed.

(** [dup2]: count the copied end, then drop what the target slot held. *)
Lemma inv_dup2 ts d i t x y r t' d' : inv ts d -> ts !! i = Some t -> (forall raw, held raw ts < 255) ->
  dup2 t x y d = Ret (r, t', d') -> inv (<[i := t']> ts) d'.
Proof.
  intros I Ht Hroom. unfold dup2.
  destruct (bad_fd x); [intros [= _ <- <-]; by apply (pipes_inv_same ts d); [..|apply I]|].
  destruct (bad_fd y); [intros [= _ <- <-]; by apply (pipes_inv_same ts d); [..|apply I]|].
  intros (s & Hs & Hk)%bind_Ret. apply idx_Ret in Hs.
  destruct s as [e|]; [|injection Hk as _ <- <-; by apply (pipes_inv_same ts d); [..|apply I]].
  apply bind_Ret in Hk as (d1 & H1 & Hk). apply bind_Ret in Hk as (o & Ho & Hk). apply idx_Ret in Ho.
  apply bind_Ret in Hk as (d2 & H2 & Hk). apply bind_Ret in Hk as (t1 & Ht1 & [= _ <- <-]).
  apply set_idx_Ret in Ht1 as [Hlt ->].
  assert (pipe_slot (Some e)) as Hpe.
  { intros He. by apply (slot_pipe ts d i t (Z.to_nat x)). }
  assert (counts (fun r => held r ts + names r (Some e)) (pipes d1)) as C1.
  { destruct (decide (backend e = Pipe)) as [He|He].
    - rewrite He in H1. destruct (slot_pipe ts d i t _ e I Ht Hs He) as [[z Hz] Hh].
      destruct (counts_addref _ _ _ _ (inv_counts _ _ I) Hz) as (ps' & Ha & C).
      { specialize (Hroom (raw_fd e)). lia. }
      rewrite Ha in H1. injection H1 as <-. eapply counts_ext; [exact C|].
      intros q. rewrite names_pipe by done. done.
    - assert (d1 = d) as -> by (destruct (backend e); congruence).
      eapply counts_ext; [apply I|]. intros q. rewrite names_other by (by intros ? [= <-]). lia. }
  apply (inv_set ts d d2 i t _ o); [done..|].
  assert (forall q, names q o <= held q ts) as Hno by (intros q; by eapply held_slot).
  destruct o as [o|]; [|injection H2 as <-; eapply counts_ext; [exact C1|]; intros q; cbn; lia].
  destruct (decide (backend o = Pipe)) as [Hop|Hop].
  - rewrite Hop in H2. destruct (slot_pipe ts d i t _ o I Ht Ho Hop) as [[z Hz] Hh].
    destruct (counts_close _ _ _ _ C1 Hz) as (ps' & Hc & C).
    { pose proof (pipe_names_range (raw_fd o) (Some e)). lia. }
    rewrite Hc in H2. injection H2 as <-. eapply counts_ext; [exact C|].
    intros q. rewrite (names_pipe q o) by done. unfold bump. case_decide; lia.
  - assert (pipes d2 = pipes d1) as ->.
    { destruct (backend o); try congruence. by apply bind_Ret in H2 as ([? ?] & _ & [= <-]). }
    eapply counts_ext; [exact C1|]. intros q. rewrite (names_other q (Some o)) by (by intros ? [= <-]). lia.
Qed.

Lemma inv_open ts d i t e r t' : inv ts d -> ts !! i = Some t -> backend e <> Pipe ->
  open_entry t e = Ret (r, t') -> inv (<[i := t']> ts) d.
Proof.
  intros I Ht He. unfold open_entry. destruct (alloc_fd t) as [a|] eqn:Ea.
  - intros (t1 & Hs & [= _ <-])%bind_Ret. apply alloc_fd_Some in Ea. apply set_idx_Ret in Hs as [_ ->].
    apply (inv_set ts d d i t a None); [exact I|exact Ht|exact Ea|intros Hp; by destruct (He Hp)|].
    eapply counts_ext; [apply I|]. intros q. rewrite (names_other q (Some e)) by (by intros ? [= <-]).
    cbn. lia.
  - intros [= _ <-]. by apply (pipes_inv_same ts d); [..|apply I].
Qed.

(** A descriptor whose offset moves names the same end. *)
Lemma inv_offset ts d i t fd e o : inv ts d -> ts !! i = Some t -> t !! fd = Some (Some e) ->
  backend e = RamFS -> inv (<[i := <[fd := Some (set_offset e o)]> t]> ts) d.
Proof.
  intros I Ht He Hb. apply (inv_set ts d d i t fd (Some e)); [done..| |].
  - cbn. rewrite Hb. done.
  - eapply counts_ext; [apply I|]. intros q.
    rewrite !(names_other q) by (intros ? [= <-]; cbn; by rewrite Hb). lia.
Qed.

Lemma inv_read ts d f i t fd buf r buf' t' d' : inv ts d -> ts !! i = Some t ->
  read_fd t f fd buf d = Ret (r, buf', t', d') -> inv (<[i := t']> ts) d'.
Proof.
  intros I Ht. assert (forall d1, pipes d1 = pipes d -> inv (<[i := t]> ts) d1) as Hsame.
  { intros d1 Hd. apply (pipes_inv_same ts d); [done..|]. rewrite Hd. apply I. }
  unfold read_fd. destruct (bad_fd fd); [intros [= _ _ <- <-]; by apply Hsame|].
  intros (s & Hs & Hk)%bind_Ret. apply idx_Ret in Hs.
  destruct s as [e|]; [|injection Hk as _ _ <- <-; by apply Hsame].
  destruct (backend e) eqn:He.
  - apply bind_Ret in Hk as ([[r1 b1] t1] & H1 & [= _ _ <- <-]). unfold read_ramfs in H1.
    destruct (ramfs.inodes f !! inode_idx e) as [n|]; [|injection H1 as _ _ <-; by apply Hsame].
    destruct (ramfs.is_dir_node n); [injection H1 as _ _ <-; by apply Hsame|].
    destruct (_ =? 0); [injection H1 as _ _ <-; by apply Hsame|].
    apply bind_Ret in H1 as (? & _ & H1). apply bind_Ret in H1 as (? & _ & H1).
    apply bind_Ret in H1 as (off & _ & H1). apply bind_Ret in H1 as (t2 & Ht2 & [= _ _ <-]).
    apply set_idx_Ret in Ht2 as [_ ->]. by apply (inv_offset ts d i t _ e).
  - apply bind_Ret in Hk as ([[? ?] ?] & _ & [= _ _ <- <-]). by apply Hsame.
  - apply bind_Ret in Hk as ([[? ?] ?] & _ & [= _ _ <- <-]). by apply Hsame.
  - apply bind_Ret in Hk as ([[? ?] ?] & Hr & [= _ _ <- <-]). apply (pipes_inv_same ts d); [done..|].
    eapply counts_read; [apply I|done].
  - injection Hk as _ _ <- <-. by apply Hsame.
  - destruct (_ =? 0)%nat; [injection Hk as _ _ <- <-; by apply Hsame|].
    apply bind_Ret in Hk as ([c st] & _ & Hk). destruct c as [ch|].
    + apply bind_Ret in Hk as (? & _ & [= _ _ <- <-]). by apply Hsame.
    + injection Hk as _ _ <- <-. by apply Hsame.
  - injection Hk as _ _ <- <-. by apply Hsame.
Qed.

Lemma inv_write ts d f i t fd buf r f' t' d' : inv ts d -> ts !! i = Some t ->
  write_fd t f fd buf d = Ret (r, t', f', d') -> inv (<[i := t']> ts) d'.
Proof.
  intros I Ht. assert (forall d1, pipes d1 = pipes d -> inv (<[i := t]> ts) d1) as Hsame.
  { intros d1 Hd. apply (pipes_inv_same ts d); [done..|]. rewrite Hd. apply I. }
  unfold write_fd. destruct (bad_fd fd); [intros [= _ <- _ <-]; by apply Hsame|].
  intros (s & Hs & Hk)%bind_Ret. apply idx_Ret in Hs.
  destruct s as [e|]; [|injection Hk as _ <- _ <-; by apply Hsame].
  destruct (backend e) eqn:He.
  - apply bind_Ret in Hk as ([[r1 t1] f1] & H1 & [= _ <- _ <-]). unfold write_ramfs in H1.
    destruct (writable e); [|injection H1 as _ <- _; by apply Hsame]. cbn [negb] in H1.
    destruct (ramfs.inodes f !! inode_idx e) as [n|]; [|injection H1 as _ <- _; by apply Hsame].
    destruct (ramfs.is_dir_node n); [injection H1 as _ <- _; by apply Hsame|].
    apply bind_Ret in H1 as (? & _ & H1). apply bind_Ret in H1 as (off & _ & H1).
    apply bind_Ret in H1 as (t2 & Ht2 & [= _ <- _]).
    apply set_idx_Ret in Ht2 as [_ ->]. by apply (inv_offset ts d i t _ e).
  - apply bind_Ret in Hk as ([? ?] & _ & [= _ <- _ <-]). by apply Hsame.
  - destruct (writable e); [|injection Hk as _ <- _ <-; by apply Hsame].
    apply bind_Ret in Hk as ([? ?] & _ & [= _ <- _ <-]). by apply Hsame.
  - apply bind_Ret in Hk as ([? ?] & Hr & [= _ <- _ <-]). apply (pipes_inv_same ts d); [done..|].
    eapply counts_write; [apply I|done].
  - injection Hk as _ <- _ <-. by apply Hsame.
  - apply bind_Ret in Hk as (? & _ & [= _ <- _ <-]). by apply Hsame.
  - injection Hk as _ <- _ <-. by apply Hsame.
Qed.

Lemma inv_fork ts d i j t c ps' : inv ts d -> ts !! i = Some t -> ts !! j = Some c ->
  (forall raw, held1 raw c = 0) -> (forall raw, held raw ts + held1 raw t <= 255) ->
  inherit t (pipes d) = Ret ps' -> inv (<[j := t]> ts) (set_pipes d ps').
Proof.
  intros I Ht Hc Hz Hroom Hin.
  pose proof (Forall_lookup_1 _ _ _ _ (inv_len _ _ I) Ht) as HLt.
  pose proof (Forall_lookup_1 _ _ _ _ (inv_slot _ _ I) Ht) as HSt.
  destruct (counts_inherit t _ _ (inv_counts _ _ I) HSt) as (ps1 & H1 & C).
  { intros raw Hr. pose proof (zsum_ge (held1 raw) ts i t (held1_nonneg raw) Ht).
    specialize (Hroom raw). unfold held in *. lia. }
  rewrite Hin in H1. injection H1 as <-. constructor.
  - by apply Forall_insert; [apply I|].
  - by apply Forall_insert; [apply I|].
  - eapply counts_ext; [exact C|]. intros raw. unfold held. rewrite (zsum_insert _ ts j c) by done.
    rewrite Hz. lia.
Qed.

Lemma inv_step s s' : step s s' -> inv s.1 s.2 -> inv s'.1 s'.2.
Proof.
  intros [] I; cbn in *.
  - destruct slots as [slots|]; [by eapply inv_pipe|]. assert (t' = t) as -> by auto. by eapply inv_no_pipe.
  - by eapply inv_dup2.
  - by eapply inv_close.
  - by eapply inv_open.
  - by eapply inv_read.
  - by eapply inv_write.
  - by eapply inv_fork.
Qed.

(** Boot: [n] tasks without descriptors, all pipes closed. *)
Lemma pipes_inv_boot n d : pipes d = pipe.PIPES -> inv (replicate n new) d.
Proof.
  intros Hd. constructor.
  - by apply Forall_replicate.
  - apply Forall_replicate. by apply Forall_replicate.
  - rewrite Hd. split; [apply pipe_spec.wf_PIPES|]. intros raw [i e] Hx.
    assert (held raw (replicate n new) = 0) as ->.
    { apply zsum_zero. intros k t [-> _]%lookup_replicate. apply zsum_zero.
      by intros m s [-> _]%lookup_replicate. }
    split; [done|]. unfold pend_of. rewrite Hx. apply pipe_spec.decode_Some in Hx as (_ & _ & Hi & _).
    rewrite list_lookup_fmap. unfold pipe.PIPES. rewrite lookup_replicate_2 by done. cbn. by destruct e.
Qed.

(** C9: Pipe reference counts are exactly the descriptors.  Whatever sequence of
    pipe creations (failing ones included, unless exactly one descriptor is left),
    [dup2], closes, reads, writes, other opens and forks the tasks perform from boot
    (a fork into a slot whose pipe descriptors were closed, counts within their
    byte; [dup], which does not count, is left out), the count the driver keeps for a pipe end
    equals the number of descriptors, over all tables, that name it, and the end
    is open exactly when some descriptor names it. *)
Theorem pipe_refs_count_descriptors (n : nat) (d0 : devs F E) (ts : list FdTable) (d : devs F E)
    (Hboot : pipes d0 = pipe.PIPES) (Hrun : rtc step (replicate n new, d0) (ts, d)) :
  forall raw i, pipe.is_pipe_fd raw = true -> pipe.pipe_index raw = i ->
  exists p, pipes d !! i = Some p /\ pipe.wf p /\
    (if pipe.is_read_fd raw then pipe.read_refs p else pipe.write_refs p) = held raw ts /\
    (if pipe.is_read_fd raw then pipe.read_open p else pipe.write_open p) = (0 <? held raw ts).
Proof.
  assert (forall s s', rtc step s s' -> inv s.1 s.2 -> inv s'.1 s'.2) as Hrtc.
  { induction 1; [done|]. intros I. by eauto using inv_step. }
  specialize (Hrtc _ _ Hrun (pipes_inv_boot n d0 Hboot)). cbn in Hrtc. destruct Hrtc as [_ _ [W C]].
  intros raw i Hraw <-.
  destruct (pipe_spec.decode raw) as [[i e]|] eqn:Hd;
    [|apply pipe_spec.decode_None in Hd; congruence].
  destruct (C raw _ Hd) as [_ P]. unfold pend_of in P. rewrite Hd in P.
  apply pipe_spec.decode_Some in Hd as (_ & -> & Hi & ->).
  destruct (pipe_spec.table_lookup _ W i Hi) as (p & Hp & Wp).
  exists p. rewrite list_lookup_fmap, Hp in P. cbn in P. split; [done|]. split; [done|].
  by destruct e; injection P as <- <-.
Qed.

End System.

Import (hints) fd_spec.

(** Two tasks, the first of which creates a pipe. *)
Definition boot_devs : devs unit unit :=
  mkDevs pipe.PIPES tt tt stdin.boot task_output.empty.

Lemma pipe_refs_count_descriptors_witness : exists ts (d : devs unit unit) p,
  rtc step ([new; new], boot_devs) (ts, d) /\ pipes d !! 0%nat = Some p /\
  pipe.read_refs p = held 80 ts /\ pipe.read_open p = true.
Proof.
  assert (exists t' d', pipe_alloc new boot_devs = Ret (0, Some (3, 4)%nat, t', d') /\
    held 80 [t'; new] = 1) as (t' & d' & Hp & Hh) by (eexists _, _; split; reflexivity).
  assert (rtc step ([new; new], boot_devs) ([t'; new], d')) as Hrun.
  { eapply rtc_once, (step_pipe [new; new] boot_devs 0); [reflexivity|exact Hp|done]. }
  destruct (pipe_refs_count_descriptors 2 boot_devs [t'; new] d' eq_refl Hrun 80 0%nat)
    as (p & H1 & _ & H2 & H3); [reflexivity..|].
  exists [t'; new], d', p. rewrite Hh in H3. auto.
Defined.

(** ** Handlers that break the balance *)

Section Broken.
Context {F E : Type} `{RawFile F} `{RawFile E}.

(** [dup] does not count the copy it makes.  When the only descriptor of a
    pipe end is duplicated and the original is then closed, the driver closes
    the end although the duplicate still names it. *)
Theorem dup_then_close_closes_the_copy (ts : list FdTable) (d : devs F E) (i : nat) (t t1 : FdTable)
    (fd n : nat) (e : FdEntry) (I : inv ts d) (Ht : ts !! i = Some t) (Hfd : t !! fd = Some (Some e))
    (He : backend e = Pipe) (Hone : held (raw_fd e) ts = 1)
    (Hdup : dup t (Z.of_nat fd) = Ret (Z.of_nat n, t1)) :
  exists t2 d2, close t1 (Z.of_nat fd) d = Ret (0, t2, d2) /\ t2 !! n = Some (Some e) /\
    pend_of (raw_fd e) (pipe_spec.abs <$> pipes d2) = Some (false, 0).
Proof.
  pose proof (lookup_lt_Some _ _ _ Hfd) as Hlt.
  pose proof (Forall_lookup_1 _ _ _ _ (inv_len _ _ I) Ht) as HL.
  cbn beta in HL. assert (bad_fd (Z.of_nat fd) = false) as Hbad by (apply fd_spec.good_fd; lia).
  unfold dup in Hdup. rewrite Hbad, Nat2Z.id in Hdup.
  rewrite (proj2 (idx_Ret t fd (Some e)) Hfd) in Hdup. cbn [mbind outcome_mbind] in Hdup.
  destruct (position is_none t) as [m|] eqn:Hm; [|injection Hdup as Hn _; lia].
  apply bind_Ret in Hdup as (t1' & Hs & [= Hn <-]). apply Nat2Z.inj in Hn as ->.
  apply set_idx_Ret in Hs as [Hnl ->]. apply position_Some in Hm as (s & Hs & Hnone & _).
  assert (n <> fd) as Hne by (intros ->; rewrite Hfd in Hs; injection Hs as <-; done).
  destruct (slot_pipe ts d i t fd e I Ht Hfd He) as [[x Hx] _].
  destruct (counts_close _ _ _ _ (inv_counts _ _ I) Hx ltac:(cbn; lia)) as (ps' & Hc & [W C]).
  destruct (C _ _ Hx) as [_ P]. unfold bump in P. rewrite decide_True, Hone in P by done.
  eexists _, _. unfold close. rewrite Hbad, Nat2Z.id.
  rewrite (proj2 (idx_Ret (<[n := Some e]> t) fd (Some e))) by (by rewrite list_lookup_insert_ne).
  cbn [mbind outcome_mbind]. rewrite set_idx_lt by (by rewrite length_insert). cbn [mbind outcome_mbind].
  unfold release. rewrite He, Hc. cbn [mbind outcome_mbind]. split; [reflexivity|]. split.
  - rewrite list_lookup_insert_ne by done. by apply list_lookup_insert_eq.
  - cbn. exact P.
Qed.

(** A [pipe] call that fails for lack of descriptors leaves one behind.  With
    exactly one free slot the call reports [EMFILE], yet the slot now holds a
    descriptor of the pipe, both of whose ends are closed again and whose
    number the next call hands out. *)
Theorem failed_pipe_leaves_a_descriptor (ts : list FdTable) (d : devs F E) (t : FdTable)
    (a : nat) (r w : Z) (ps : list pipe.Pipe) (I : inv ts d)
    (Hfree : alloc_fd t = Some a)
    (Hfull : forall s, alloc_fd (<[a := Some s]> t) = None)
    (Halloc : pipe.alloc (pipes d) = (Some (r, w), ps)) :
  exists d', pipe_alloc t d = Ret (-24, None, <[a := Some (raw_entry Pipe r false)]> t, d') /\
    pend_of r (pipe_spec.abs <$> pipes d') = Some (false, 0) /\
    pend_of w (pipe_spec.abs <$> pipes d') = Some (false, 0).
Proof.
  destruct (ends_alloc _ _ _ _ _ (inv_counts _ _ I) Halloc)
    as ([x Hx] & [y Hy] & Hrw & Zr & Zw & C).
  destruct (counts_close _ _ _ _ C Hx) as (ps1 & E1 & C1).
  { unfold bump. rewrite decide_False, decide_True by done. lia. }
  destruct (counts_close _ _ _ _ C1 Hy) as (ps2 & E2 & [W2 C2]).
  { unfold bump. repeat case_decide; try congruence; lia. }
  unfold pipe_alloc. rewrite Halloc. unfold open_pipe. rewrite Hfree.
  apply alloc_fd_Some in Hfree. rewrite set_idx_lt by (by eapply lookup_lt_Some).
  cbn [mbind outcome_mbind]. rewrite Hfull. cbn [mbind outcome_mbind pipes set_pipes].
  rewrite E1. cbn [mbind outcome_mbind]. rewrite E2. cbn [mbind outcome_mbind].
  eexists. split; [done|]. cbn [pipes set_pipes].
  destruct (C2 _ _ Hx) as [_ ->], (C2 _ _ Hy) as [_ ->]. unfold bump.
  repeat case_decide; try congruence. by rewrite Zr, Zw.
Qed.
End Broken.

Definition piped : FdTable := <[4%nat := Some (raw_entry Pipe 81 true)]>
  (<[3%nat := Some (raw_entry Pipe 80 false)]> new).

(** The state after one [pipe] call. *)
Lemma piped_inv : exists d : devs unit unit, inv [piped] d.
Proof.
  assert (exists d', pipe_alloc new boot_devs = Ret (0, Some (3, 4)%nat, piped, d')) as (d' & Hp)
    by (eexists; reflexivity).
  exists d'. change [piped] with (<[0%nat := piped]> [new]).
  eapply inv_pipe; [apply (pipes_inv_boot 1 boot_devs); reflexivity|reflexivity|exact Hp].
Qed.

Lemma dup_then_close_closes_the_copy_witness : exists (d d2 : devs unit unit) t1 t2,
  dup piped 3 = Ret (0, t1) /\ close t1 3 d = Ret (0, t2, d2) /\
  t2 !! 0%nat = Some (Some (raw_entry Pipe 80 false)) /\
  pend_of 80 (pipe_spec.abs <$> pipes d2) = Some (false, 0).
Proof.
  destruct piped_inv as (d & I).
  destruct (dup_then_close_closes_the_copy [piped] d 0 piped
    (<[0%nat := Some (raw_entry Pipe 80 false)]> piped) 3 0 (raw_entry Pipe 80 false) I)
    as (t2 & d2 & H1 & H2 & H3); [reflexivity..|].
  exists d, d2, (<[0%nat := Some (raw_entry Pipe 80 false)]> piped), t2. split; [reflexivity|auto].
Defined.

(** A table with descriptor 31 free and the others on /dev/null. *)
Definition nearly_full : FdTable := replicate 31 (Some (raw_entry DevNull 0 false)) ++ [None].

Lemma failed_pipe_leaves_a_descriptor_witness : exists d' : devs unit unit,
  pipe_alloc nearly_full boot_devs =
    Ret (-24, None, <[31%nat := Some (raw_entry Pipe 80 false)]> nearly_full, d') /\
  pend_of 80 (pipe_spec.abs <$> pipes d') = Some (false, 0).
Proof.
  destruct (failed_pipe_leaves_a_descriptor (replicate 1 new) boot_devs nearly_full 31 80 81
    (pipe.alloc pipe.PIPES).2 (pipes_inv_boot 1 boot_devs eq_refl)) as (d' & H1 & H2 & _).
  - reflexivity.
  - intros s. reflexivity.
  - reflexivity.
  - exists d'. auto.
Defined.

End fd_pipes.
