(* ===== verification/Shm.v ===== *)
(** * Shared memory segments (kernel/src/kernel/ipc/shm.rs)

    Module [shm] translates the segment table and [shmget], [shmat], [shmdt],
    over the page-table model.  Module [shm_spec] proves the bookkeeping
    invariant over the calls of any number of tasks, and two ways in which the
    memory behind a segment is not protected. *)

From stdpp Require Import base list gmap strings list_numbers relations.
From Stdlib Require Import ZArith Lia.
From S2P Require Import Prelude FrameAlloc PageTable AddressSpace.

Local Open Scope Z_scope.

Module shm.
Import paging.

(* @src ipc/shm.rs 23-23 MAX_SEGMENTS *)
Definition MAX_SEGMENTS : nat := 16.
(* @src ipc/shm.rs 25-25 MAX_SEG_SIZE *)
Definition MAX_SEG_SIZE : Z := 0x100000.
(* @src ipc/shm.rs 27-27 MAX_ATTACH *)
Definition MAX_ATTACH : nat := 8.
(* @src ipc/shm.rs 29-29 PAGE_SIZE *)
Definition PAGE_SIZE : Z := 4096.
(* @src ipc/shm.rs 32-32 SHM_VIRT_BASE *)
Definition SHM_VIRT_BASE : Z := 0x20000000.
(* @src ipc/shm.rs 34-34 SHM_SLOT_SIZE *)
Definition SHM_SLOT_SIZE : Z := 0x100000.

(* @src ipc/shm.rs 38-45 ShmSegment *)
Record ShmSegment := mkSeg {
  key : Z;
  size : Z;
  phys_base : Z;
  pages : Z;
  refcount : Z;
  active : bool;
}.

(* @src ipc/shm.rs 47-51 ShmSegment::empty *)
Definition empty_seg : ShmSegment := mkSeg 0 0 0 0 0 false.

(* @src ipc/shm.rs 53-53 SEGTAB *)
Definition SEGTAB : list ShmSegment := replicate MAX_SEGMENTS empty_seg.

(* @src ipc/shm.rs 58-63 ShmAttach *)
Record ShmAttach := mkAttach { shmid : Z; vaddr : Z; a_active : bool }.

(* @src ipc/shm.rs 65-69 ShmAttach::empty *)
Definition empty_attach : ShmAttach := mkAttach 0 0 false.

Definition no_attaches : list ShmAttach := replicate MAX_ATTACH empty_attach.

(** The segment table beside the memory manager. *)
Record state := mkS { segtab : list ShmSegment; km : kernel }.

(* @src ipc/shm.rs 76-104 shmget *)
Definition shmget (k sz : Z) (s : state) : outcome (Z * state) :=
  if (sz =? 0) || (MAX_SEG_SIZE <? sz) then Ret (-22, s)
  else
    match position (fun g => active g && (key g =? k)) (segtab s) with
    | Some i => Ret (Z.of_nat i, s)
    | None =>
        match position (fun g => negb (active g)) (segtab s) with
        | None => Ret (-28, s)
        | Some slot =>
            let pgs := (sz + PAGE_SIZE - 1) / PAGE_SIZE in
            let actual := pgs * PAGE_SIZE in
            let! (r, m) := alloc_phys_frames pgs (km s) in
            match r with
            | Err _ => Ret (-12, mkS (segtab s) m)
            | Ok phys =>
                if phys =? 0 then Ret (-12, mkS (segtab s) m)
                else
                  let! t := set_idx (segtab s) slot (mkSeg k actual phys pgs 0 true) in
                  Ret (Z.of_nat slot, mkS t m)
            end
        end
    end.

(** [attaches] is the caller's attachment table, [cr3] its page table. *)
(* @src ipc/shm.rs 110-144 shmat *)
Definition shmat (id : Z) (attaches : list ShmAttach) (cr3 : Z) (s : state)
    : outcome (Z * list ShmAttach * state) :=
  if Z.of_nat MAX_SEGMENTS <=? id then Ret (-22, attaches, s)
  else
    let! seg := idx (segtab s) (Z.to_nat id) in
    if negb (active seg) then Ret (-22, attaches, s)
    else
      match position (fun a => a_active a && (shmid a =? id)) attaches with
      | Some j => let! a := idx attaches j in Ret (vaddr a, attaches, s)
      | None =>
          match position (fun a => negb (a_active a)) attaches with
          | None => Ret (-24, attaches, s)
          | Some slot =>
              let va := SHM_VIRT_BASE + id * SHM_SLOT_SIZE in
              let! (r, m) := map_phys_pages_in cr3 va (phys_base seg) (pages seg) true (km s) in
              match r with
              | Err _ => Ret (-12, attaches, mkS (segtab s) m)
              | Ok _ =>
                  let! n := cadd u32_max (refcount seg) 1 in
                  let! t := set_idx (segtab s) (Z.to_nat id)
                    (mkSeg (key seg) (size seg) (phys_base seg) (pages seg) n (active seg)) in
                  let! at' := set_idx attaches slot (mkAttach id va true) in
                  Ret (va, at', mkS t m)
              end
          end
      end.

(* @src ipc/shm.rs 148-154 seg_phys_base *)
Definition seg_phys_base (t : list ShmSegment) (id : nat) : Z :=
  match t !! id with Some g => if active g then phys_base g else 0 | None => 0 end.

(* @src ipc/shm.rs 158-165 segment_pages *)
Definition segment_pages (t : list ShmSegment) (id : Z) : Z :=
  if Z.of_nat MAX_SEGMENTS <=? id then 0
  else match t !! Z.to_nat id with Some g => if active g then pages g else 0 | None => 0 end.

(* @src ipc/shm.rs 168-184 shmdt *)
Definition shmdt (addr : Z) (attaches : list ShmAttach) (s : state)
    : outcome (Z * list ShmAttach * state) :=
  match position (fun a => a_active a && (vaddr a =? addr)) attaches with
  | None => Ret (-22, attaches, s)
  | Some slot =>
      let! a := idx attaches slot in
      let! at' := set_idx attaches slot empty_attach in
      let id := shmid a in
      if id <? Z.of_nat MAX_SEGMENTS then
        let! seg := idx (segtab s) (Z.to_nat id) in
        if active seg then
          let! t := set_idx (segtab s) (Z.to_nat id)
            (mkSeg (key seg) (size seg) (phys_base seg) (pages seg) (sat_sub (refcount seg) 1) (active seg)) in
          Ret (0, at', mkS t (km s))
        else Ret (0, at', s)
      else Ret (0, at', s)
  end.

End shm.

Module shm_spec.
Import shm.

Definition names (id : Z) (a : ShmAttach) : Z :=
  if a_active a && (shmid a =? id) then 1 else 0.
Definition attached1 (id : Z) (l : list ShmAttach) : Z := zsum (names id) l.
Definition attached (id : Z) (ts : list (list ShmAttach)) : Z := zsum (attached1 id) ts.

Definition window (id : Z) : Z := SHM_VIRT_BASE + id * SHM_SLOT_SIZE.

Record seg_ok (g : ShmSegment) : Prop := {
  seg_pages : 1 <= pages g <= 256;
  seg_size : size g = pages g * PAGE_SIZE;
  seg_base : phys_base g <> 0;
}.

(** The tables of all tasks and the segment table agree. *)
Record inv (ts : list (list ShmAttach)) (t : list ShmSegment) : Prop := {
  inv_len : length t = MAX_SEGMENTS;
  inv_att : Forall (fun l => length l = MAX_ATTACH) ts;
  inv_seg : forall i g, t !! i = Some g -> active g = true -> seg_ok g;
  inv_keys : forall i j g h, t !! i = Some g -> t !! j = Some h ->
    active g = true -> active h = true -> key g = key h -> i = j;
  inv_refs : forall i g, t !! i = Some g ->
    refcount g = attached (Z.of_nat i) ts /\ (active g = false -> refcount g = 0);
  inv_named : forall p l j a, ts !! p = Some l -> l !! j = Some a -> a_active a = true ->
    0 <= shmid a < Z.of_nat MAX_SEGMENTS /\ vaddr a = window (shmid a);
  inv_once : forall p l i j a b, ts !! p = Some l -> l !! i = Some a -> l !! j = Some b ->
    a_active a = true -> a_active b = true -> shmid a = shmid b -> i = j;
}.

Inductive step : list (list ShmAttach) * state -> list (list ShmAttach) * state -> Prop :=
| step_get ts s k sz r s' : 0 <= sz -> shmget k sz s = Ret (r, s') -> step (ts, s) (ts, s')
| step_at ts s p l id cr3 r l' s' : 0 <= id -> ts !! p = Some l ->
    shmat id l cr3 s = Ret (r, l', s') -> step (ts, s) (<[p := l']> ts, s')
| step_dt ts s p l a r l' s' : ts !! p = Some l ->
    shmdt a l s = Ret (r, l', s') -> step (ts, s) (<[p := l']> ts, s').

Lemma shm_names_range id a : 0 <= names id a <= 1.
Proof. unfold names. destruct (_ && _); lia. Qed.
Lemma attached1_nonneg id l : 0 <= attached1 id l.
Proof. apply zsum_nonneg. intros a. apply (shm_names_range id a). Qed.

Lemma attached_insert id ts p l j a b : ts !! p = Some l -> l !! j = Some a ->
  attached id (<[p := <[j := b]> l]> ts) = attached id ts - names id a + names id b.
Proof.
  intros Hp Hj. unfold attached. rewrite (zsum_insert _ ts p l) by done.
  unfold attached1. rewrite (zsum_insert _ l j a) by done. lia.
Qed.

Lemma attached_ge id ts p l j a : ts !! p = Some l -> l !! j = Some a -> names id a <= attached id ts.
Proof.
  intros Hp Hj. pose proof (zsum_ge (attached1 id) ts p l (attached1_nonneg id) Hp).
  pose proof (zsum_ge (names id) l j a (fun a => proj1 (shm_names_range id a)) Hj).
  unfold attached, attached1 in *. lia.
Qed.

(** One attachment slot replaced by [b], and the segment table by [t']. *)
Lemma inv_slot ts t p l j a b t' : inv ts t -> ts !! p = Some l -> l !! j = Some a ->
  (a_active b = true -> 0 <= shmid b < Z.of_nat MAX_SEGMENTS /\ vaddr b = window (shmid b) /\
     forall i c, i <> j -> l !! i = Some c -> a_active c = true -> shmid c <> shmid b) ->
  length t' = MAX_SEGMENTS ->
  (forall i g', t' !! i = Some g' -> exists g, t !! i = Some g /\ active g' = active g /\
     pages g' = pages g /\ size g' = size g /\ phys_base g' = phys_base g /\ key g' = key g /\
     refcount g' = refcount g - names (Z.of_nat i) a + names (Z.of_nat i) b /\
     (active g = false -> refcount g' = 0)) ->
  inv (<[p := <[j := b]> l]> ts) t'.
Proof.
  intros [HL HA HS HK HR HN HO] Hp Hj Hb HL' HT.
  pose proof (Forall_lookup_1 _ _ _ _ HA Hp) as HLl.
  assert (forall q m i c, <[p := <[j := b]> l]> ts !! q = Some m -> m !! i = Some c ->
    (q = p /\ i = j /\ c = b) \/ (exists m0, ts !! q = Some m0 /\ m0 !! i = Some c /\ (q = p -> m0 = l /\ i <> j)))
    as Hcase.
  { intros q m i c [(<- & <- & _)|[Hq Hm]]%list_lookup_insert_Some Hc.
    - apply list_lookup_insert_Some in Hc as [(<- & <- & _)|[Hi Hc]]; [by left|right]. exists l. auto.
    - right. exists m. naive_solver. }
  constructor.
  - done.
  - apply Forall_insert; [done|]. by rewrite length_insert.
  - intros i g' Hg' Ha. destruct (HT i g' Hg') as (g & Hg & E1 & E2 & E3 & E4 & _).
    destruct (HS i g Hg ltac:(congruence)) as [? ? ?]. constructor; congruence || (rewrite E2; lia).
  - intros i k g' h' Hg' Hh' Ha Hb' Hkey. destruct (HT i g' Hg') as (g & Hg & E1 & _ & _ & _ & E5 & _).
    destruct (HT k h' Hh') as (h & Hh & F1 & _ & _ & _ & F5 & _). apply (HK i k g h); congruence.
  - intros i g' Hg'. destruct (HT i g' Hg') as (g & Hg & E1 & _ & _ & _ & _ & E6 & E7).
    destruct (HR i g Hg) as [R1 R2]. rewrite (attached_insert _ ts p l j a b Hp Hj).
    split; [lia|]. intros Hi. apply E7. congruence.
  - intros q m i c Hq Hc Hac. destruct (Hcase q m i c Hq Hc) as [(-> & -> & ->)|(m0 & Hm0 & Hc0 & _)].
    + destruct (Hb Hac) as (? & ? & _). done.
    + by apply (HN q m0 i c).
  - intros q m i k c e Hq Hc He Hac Hae Hid.
    destruct (Hcase q m k e Hq He) as [(Eq & -> & ->)|(m1 & Hm1 & He0 & Hm')];
      destruct (Hcase q m i c Hq Hc) as [(Eq' & -> & ->)|(m0 & Hm0 & Hc0 & Hm)].
    + done.
    + subst q. destruct (Hm eq_refl) as [-> Hi]. destruct (Hb Hae) as (_ & _ & Hu). by destruct (Hu i c).
    + subst q. destruct (Hm' eq_refl) as [-> Hk]. destruct (Hb Hac) as (_ & _ & Hu). by destruct (Hu k e).
    + assert (m1 = m0) as -> by congruence. by apply (HO q m0 i k c e).
Qed.

Lemma inv_get ts s k sz r s' : inv ts (segtab s) -> 0 <= sz -> shmget k sz s = Ret (r, s') ->
  inv ts (segtab s').
Proof.
  intros I Hsz. unfold shmget. destruct ((sz =? 0) || (MAX_SEG_SIZE <? sz)) eqn:Hb; [by intros [= _ <-]|].
  bool_simpl. destruct (position _ (segtab s)) as [i|] eqn:Hk; [by intros [= _ <-]|].
  destruct (position (fun g => negb (active g)) (segtab s)) as [slot|] eqn:Hf; [|by intros [= _ <-]].
  intros ([q m] & _ & H1)%bind_Ret. destruct q as [phys|]; [|by injection H1 as _ <-].
  destruct (Z.eqb_spec phys 0); [by injection H1 as _ <-|].
  apply bind_Ret in H1 as (t & Ht & [= _ <-]). apply set_idx_Ret in Ht as [Hlt ->]. cbn [segtab].
  apply position_Some in Hf as (g0 & Hg0 & Hna & _). apply negb_true_iff in Hna.
  rewrite position_None in Hk. destruct I as [HL HA HS HK HR HN HO].
  assert (1 <= (sz + PAGE_SIZE - 1) / PAGE_SIZE <= 256) as Hpg.
  { unfold PAGE_SIZE, MAX_SEG_SIZE in *.
    split; [apply Z.div_le_lower_bound; lia|].
    apply Z.lt_succ_r, Z.div_lt_upper_bound; lia. }
  constructor.
  - by rewrite length_insert.
  - done.
  - intros i g [(<- & <- & _)|[Hne Hg]]%list_lookup_insert_Some Ha; [|by apply (HS i g)].
    by constructor.
  - assert (forall j h, segtab s !! j = Some h -> active h = true -> key h = k -> False) as Hno.
    { intros j h Hh Ha <-. specialize (Hk j h Hh). rewrite Ha, Z.eqb_refl in Hk. done. }
    intros i j g h [(<- & <- & _)|[Hne Hg]]%list_lookup_insert_Some
      [(<- & <- & _)|[Hne' Hh]]%list_lookup_insert_Some Ha Hb' Hkey; [done| | |by apply (HK i j g h)].
    + exfalso. by apply (Hno j h).
    + exfalso. by apply (Hno i g).
  - intros i g [(<- & <- & _)|[Hne Hg]]%list_lookup_insert_Some; [|by apply HR].
    destruct (HR slot g0 Hg0) as [R1 R2]. cbn. rewrite <- R1, R2 by done. done.
  - done.
  - done.
Qed.

Lemma inv_at ts s p l id cr3 r l' s' : inv ts (segtab s) -> 0 <= id -> ts !! p = Some l ->
  shmat id l cr3 s = Ret (r, l', s') -> inv (<[p := l']> ts) (segtab s').
Proof.
  intros I Hid Hp. assert (inv (<[p := l]> ts) (segtab s)) as Isame by (by rewrite list_insert_id).
  unfold shmat. destruct (Z.leb_spec (Z.of_nat MAX_SEGMENTS) id) as [|Hlt]; [by intros [= _ <- <-]|].
  intros (seg & Hseg & H1)%bind_Ret. apply idx_Ret in Hseg.
  destruct (active seg) eqn:Hact; [|by injection H1 as _ <- <-]. cbn [negb] in H1.
  destruct (position _ l) as [j|] eqn:Hj; [by apply bind_Ret in H1 as (? & _ & [= _ <- <-])|].
  destruct (position (fun a => negb (a_active a)) l) as [slot|] eqn:Hf; [|by injection H1 as _ <- <-].
  apply bind_Ret in H1 as ([q m] & _ & H1). destruct q; [|by injection H1 as _ <- <-].
  apply bind_Ret in H1 as (n & Hn & H1). apply bind_Ret in H1 as (t & Ht & H1).
  apply bind_Ret in H1 as (at' & Hat & [= _ <- <-]). apply set_idx_Ret in Ht as [Htl ->].
  apply set_idx_Ret in Hat as [Hal ->]. cbn [segtab].
  unfold cadd in Hn. destruct (Z.leb_spec (refcount seg + 1) u32_max); [|done]. injection Hn as <-.
  apply position_Some in Hf as (a0 & Ha0 & Hna & _). apply negb_true_iff in Hna.
  rewrite position_None in Hj.
  apply (inv_slot ts (segtab s) p l slot a0); [done..| | |].
  - intros _. cbn. split; [lia|]. split; [done|]. intros i c _ Hc Hac Hcid.
    specialize (Hj i c Hc). rewrite Hac, Hcid, Z.eqb_refl in Hj. done.
  - rewrite length_insert. apply I.
  - assert (forall i, names i a0 = 0) as Hz by (intros i; unfold names; by rewrite Hna).
    intros i g' [(<- & <- & _)|[Hne Hg]]%list_lookup_insert_Some.
    + exists seg. rewrite Hz. unfold names. cbn. rewrite Z2Nat.id, Z.eqb_refl by lia.
      split_and!; [done..|lia|congruence].
    + exists g'. rewrite Hz. unfold names. cbn.
      destruct (Z.eqb_spec id (Z.of_nat i)) as [->|]; [by rewrite Nat2Z.id in Hne|].
      split_and!; [done..|lia|]. intros Hi. destruct (inv_refs _ _ I i g' Hg) as [_ R2]. by apply R2.
Qed.

Lemma inv_dt ts s p l a r l' s' : inv ts (segtab s) -> ts !! p = Some l ->
  shmdt a l s = Ret (r, l', s') -> inv (<[p := l']> ts) (segtab s').
Proof.
  intros I Hp. assert (inv (<[p := l]> ts) (segtab s)) as Isame by (by rewrite list_insert_id).
  unfold shmdt. destruct (position _ l) as [slot|] eqn:Hj; [|by intros [= _ <- <-]].
  apply position_Some in Hj as (a0 & Ha0 & Hb & _). bool_simpl.
  intros (a1 & Ha1 & H1)%bind_Ret. apply idx_Ret in Ha1. rewrite Ha0 in Ha1. injection Ha1 as <-.
  apply bind_Ret in H1 as (at' & Hat & H1). apply set_idx_Ret in Hat as [Hal ->].
  destruct (inv_named _ _ I p l slot a0 Hp Ha0 H) as [Hid _].
  destruct (Z.ltb_spec (shmid a0) (Z.of_nat MAX_SEGMENTS)); [|lia].
  apply bind_Ret in H1 as (seg & Hseg & H1). apply idx_Ret in Hseg.
  assert (1 <= refcount seg) as Href.
  { destruct (inv_refs _ _ I _ seg Hseg) as [-> _]. rewrite Z2Nat.id by lia.
    pose proof (attached_ge (shmid a0) ts p l slot a0 Hp Ha0) as Hge.
    unfold names in Hge. rewrite H, Z.eqb_refl in Hge. done. }
  destruct (active seg) eqn:Hact.
  2: { destruct (inv_refs _ _ I _ seg Hseg) as [_ R2]. rewrite R2 in Href by done. lia. }
  apply bind_Ret in H1 as (t & Ht & [= _ <- <-]). apply set_idx_Ret in Ht as [Htl ->]. cbn [segtab].
  apply (inv_slot ts (segtab s) p l slot a0); [done..| |].
  - rewrite length_insert. apply I.
  - assert (forall i, names i empty_attach = 0) as Hz by done.
    intros i g' [(<- & <- & _)|[Hne Hg]]%list_lookup_insert_Some.
    + exists seg. rewrite Hz. unfold names. rewrite H. cbn. rewrite Z2Nat.id, Z.eqb_refl by lia.
      unfold sat_sub. split_and!; [done..|lia|congruence].
    + exists g'. rewrite Hz. unfold names. rewrite H. cbn [andb].
      destruct (Z.eqb_spec (shmid a0) (Z.of_nat i)) as [E|]; [by rewrite E, Nat2Z.id in Hne|].
      split_and!; [done..|lia|]. intros Hi. destruct (inv_refs _ _ I i g' Hg) as [_ R2]. by apply R2.
Qed.

Lemma shm_inv_boot n : inv (replicate n no_attaches) SEGTAB.
Proof.
  assert (forall i g, SEGTAB !! i = Some g -> g = empty_seg) as HG.
  { intros i g. unfold SEGTAB. by intros [? _]%lookup_replicate. }
  assert (forall p l j a, replicate n no_attaches !! p = Some l -> l !! j = Some a -> a = empty_attach) as HA.
  { intros p l j a [-> _]%lookup_replicate. unfold no_attaches. by intros [? _]%lookup_replicate. }
  constructor.
  - done.
  - by apply Forall_replicate.
  - intros i g Hg. by apply HG in Hg as ->.
  - intros i j g h Hg _ Ha. apply HG in Hg as ->. done.
  - intros i g Hg. apply HG in Hg as ->. cbn. split; [|done]. symmetry. apply zsum_zero.
    intros p l Hl. apply zsum_zero. intros j a Hj. by rewrite (HA p l j a Hl Hj).
  - intros p l j a Hl Hj Ha. by rewrite (HA p l j a Hl Hj) in Ha.
  - intros p l i j a b Hl Hi _ Ha. by rewrite (HA p l i a Hl Hi) in Ha.
Qed.

(** Shared-memory bookkeeping.  From boot, over any sequence of [shmget],
    [shmat] and [shmdt] calls of any tasks: a key names at most one segment, a
    segment's reference count is the number of live attachments to it over all
    tasks, a task is attached to a segment at most once, and the attachments of
    one task lie in disjoint windows, each holding the whole segment. *)
Theorem shm_attachments_are_consistent (n : nat) (k0 : paging.kernel) ts s
    (Hrun : rtc step (replicate n no_attaches, mkS SEGTAB k0) (ts, s)) :
  (forall i j g h, segtab s !! i = Some g -> segtab s !! j = Some h ->
     active g = true -> active h = true -> key g = key h -> i = j) /\
  (forall i g, segtab s !! i = Some g -> refcount g = attached (Z.of_nat i) ts) /\
  (forall p l i j a b, ts !! p = Some l -> l !! i = Some a -> l !! j = Some b ->
     a_active a = true -> a_active b = true -> i <> j ->
     exists ga gb, segtab s !! Z.to_nat (shmid a) = Some ga /\ active ga = true /\
       segtab s !! Z.to_nat (shmid b) = Some gb /\ active gb = true /\ 
       (vaddr a + size ga <= vaddr b \/ vaddr b + size gb <= vaddr a)).
Proof.
  assert (forall x y, rtc step x y -> inv x.1 (segtab x.2) -> inv y.1 (segtab y.2)) as Hrtc.
  { induction 1 as [|x y z Hs _ IH]; [done|]. intros I. apply IH. destruct Hs; cbn in *.
    - by eapply inv_get.
    - by eapply inv_at.
    - by eapply inv_dt. }
  specialize (Hrtc _ _ Hrun (shm_inv_boot n)). cbn in Hrtc. pose proof Hrtc as [HL HA HS HK HR HN HO].
  split; [done|]. split; [intros i g Hg; by apply HR|].
  assert (forall p l j a, ts !! p = Some l -> l !! j = Some a -> a_active a = true ->
    exists g, segtab s !! Z.to_nat (shmid a) = Some g /\ active g = true /\ seg_ok g) as Hact.
  { intros p l j a Hp Hj Ha. destruct (HN p l j a Hp Hj Ha) as [Hid _].
    destruct (lookup_lt_is_Some_2 (segtab s) (Z.to_nat (shmid a))) as [g Hg]; [rewrite HL; lia|].
    exists g. split; [done|]. assert (active g = true); [|by eauto].
    destruct (active g) eqn:E; [done|]. destruct (HR _ _ Hg) as [R1 R2]. rewrite R2, Z2Nat.id in R1 by done || lia.
    pose proof (attached_ge (shmid a) ts p l j a Hp Hj) as Hge.
    unfold names in Hge. rewrite Ha, Z.eqb_refl in Hge. cbn in Hge. lia. }
  intros p l i j a b Hp Hi Hj Ha Hb Hij.
  destruct (Hact p l i a Hp Hi Ha) as (ga & Hga & Aga & [Pa Sa _]).
  destruct (Hact p l j b Hp Hj Hb) as (gb & Hgb & Agb & [Pb Sb _]).
  exists ga, gb. do 4 (split; [done|]).
  destruct (HN p l i a Hp Hi Ha) as [Ia ->], (HN p l j b Hp Hj Hb) as [Ib ->].
  assert (shmid a <> shmid b) by (intros E; apply Hij; by apply (HO p l i j a b)).
  rewrite Sa, Sb. unfold window, SHM_VIRT_BASE, SHM_SLOT_SIZE, PAGE_SIZE. lia.
Qed.


(** A machine with one process at page table 4096. *)
Definition small : state :=
  mkS SEGTAB (paging.mkK ∅ (frames.mkFA (wr ∅ 0 3) (wr ∅ 1 1) 4 65536 1)
    (Some (paging.mkPTM 0 0xFFFF800000000000)) 0 0 0 true [] 0 0).

Lemma shm_attachments_are_consistent_witness : exists s l,
  rtc step ([no_attaches], mkS SEGTAB (km small)) ([l], s) /\ attached 0 [l] = 1 /\
  forall g, segtab s !! 0%nat = Some g -> refcount g = 1.
Proof.
  assert (forall s0 : state, match shmget 7 4096 s0 with
    | Ret (0, s1) => match shmat 0 no_attaches 4096 s1 with
                     | Ret (_, l, s2) => attached 0 [l] =? 1
                     | Panic => false end
    | _ => false end = true -> segtab s0 = SEGTAB -> 
    exists s l, rtc step ([no_attaches], s0) ([l], s) /\ attached 0 [l] = 1) as Hgen.
  { intros s0 H _. destruct (shmget 7 4096 s0) as [[[] s1]|] eqn:E1; try done.
    destruct (shmat 0 no_attaches 4096 s1) as [[[r l] s2]|] eqn:E2; [|done]. apply Z.eqb_eq in H.
    exists s2, l. split; [|done].
    eapply rtc_l; [by eapply (step_get [no_attaches] s0 7 4096)|].
    eapply rtc_once, (step_at [no_attaches] s1 0 no_attaches 0 4096 r l s2); done. }
  destruct (Hgen small ltac:(vm_compute; reflexivity) eq_refl) as (s & l & Hrun & Hl).
  exists s, l. split; [exact Hrun|]. split; [exact Hl|]. intros g Hg.
  destruct (shm_attachments_are_consistent 1 (km small) [l] s Hrun) as (_ & HR & _).
  by rewrite (HR 0%nat g Hg).
Defined.

(** *** The memory behind a segment *)

(** As [small], with frames 4 and 6 free and frame 5 in use by another process. *)
Definition fragmented : state :=
  mkS SEGTAB (paging.mkK ∅ (frames.mkFA (wr ∅ 0 (1 + 2 + 32)) (wr (wr ∅ 1 1) 5 1) 4 65536 2)
    (Some (paging.mkPTM 0 0xFFFF800000000000)) 0 0 0 true [] 0 0).

(** A segment can map memory it does not own.  [alloc_phys_frames] does not
    check that the frames it takes are adjacent, while [shmat] maps consecutive
    frames from the first one: on a machine whose free frames are not adjacent,
    the second page of a two-page segment is a frame that another process
    holds. *)
Theorem shm_can_map_a_foreign_frame : exists s0 s1 s2 l e,
  frames.is_free (paging.frame_allocator (km s0)) 5 = false /\
  rd (frames.refcount (paging.frame_allocator (km s0))) 5 = 1 /\
  shmget 7 8192 s0 = Ret (0, s1) /\
  shmat 0 no_attaches 4096 s1 = Ret (SHM_VIRT_BASE, l, s2) /\
  aspace.walk (paging.mem (km s2)) 4096 (SHM_VIRT_BASE + 4096) = Some e /\
  pte.addr e = 5 * 4096 /\ pte.is_writable (pte.flags e) = true.
Proof.
  assert (forall s0, match shmget 7 8192 s0 with
    | Ret (r, s1) => (r =? 0) &&
        match shmat 0 no_attaches 4096 s1 with
        | Ret (va, l, s2) => (va =? SHM_VIRT_BASE) &&
            match aspace.walk (paging.mem (km s2)) 4096 (SHM_VIRT_BASE + 4096) with
            | Some e => (pte.addr e =? 5 * 4096) && pte.is_writable (pte.flags e)
            | None => false
            end
        | Panic => false
        end
    | Panic => false
    end = true ->
    exists s1 s2 l e, shmget 7 8192 s0 = Ret (0, s1) /\
      shmat 0 no_attaches 4096 s1 = Ret (SHM_VIRT_BASE, l, s2) /\
      aspace.walk (paging.mem (km s2)) 4096 (SHM_VIRT_BASE + 4096) = Some e /\
      pte.addr e = 5 * 4096 /\ pte.is_writable (pte.flags e) = true) as Hgen.
  { intros s0 H. destruct (shmget 7 8192 s0) as [[r s1]|] eqn:E1; [|done]. bool_simpl. subst r.
    destruct (shmat 0 no_attaches 4096 s1) as [[[va l] s2]|] eqn:E2; [|done]. bool_simpl. subst va.
    destruct (aspace.walk (paging.mem (km s2)) 4096 (SHM_VIRT_BASE + 4096)) as [e|] eqn:E3; [|done].
    bool_simpl. exists s1, s2, l, e. done. }
  exists fragmented.
  destruct (Hgen fragmented ltac:(vm_compute; reflexivity)) as (s1 & s2 & l & e & H).
  exists s1, s2, l, e. split; [vm_compute; reflexivity|]. split; [vm_compute; reflexivity|]. exact H.
Qed.

(** The frames of a live segment are released when an attached process
    exits: tearing down the process's address space frees the segment's frame,
    which the segment table still lists. *)
Theorem exit_frees_the_frames_of_a_live_segment : exists s1 s2 l k' g,
  shmget 7 4096 small = Ret (0, s1) /\ shmat 0 no_attaches 4096 s1 = Ret (SHM_VIRT_BASE, l, s2) /\
  paging.free_user_page_table 4096 (km s2) = Ret (Ok tt, k') /\
  segtab s2 !! 0%nat = Some g /\ active g = true /\
  frames.is_free (paging.frame_allocator (km s2)) (phys_base g / 4096) = false /\
  frames.is_free (paging.frame_allocator k') (phys_base g / 4096) = true.
Proof.
  assert (forall s0, match shmget 7 4096 s0 with
    | Ret (r, s1) => (r =? 0) &&
        match shmat 0 no_attaches 4096 s1 with
        | Ret (va, l, s2) => (va =? SHM_VIRT_BASE) &&
            match paging.free_user_page_table 4096 (km s2), segtab s2 !! 0%nat with
            | Ret (Ok tt, k'), Some g => active g &&
                negb (frames.is_free (paging.frame_allocator (km s2)) (phys_base g / 4096)) &&
                frames.is_free (paging.frame_allocator k') (phys_base g / 4096)
            | _, _ => false
            end
        | Panic => false
        end
    | Panic => false
    end = true ->
    exists s1 s2 l k' g,
      shmget 7 4096 s0 = Ret (0, s1) /\ shmat 0 no_attaches 4096 s1 = Ret (SHM_VIRT_BASE, l, s2) /\
      paging.free_user_page_table 4096 (km s2) = Ret (Ok tt, k') /\
      segtab s2 !! 0%nat = Some g /\ active g = true /\
      frames.is_free (paging.frame_allocator (km s2)) (phys_base g / 4096) = false /\
      frames.is_free (paging.frame_allocator k') (phys_base g / 4096) = true) as Hgen.
  { intros s0 H. destruct (shmget 7 4096 s0) as [[r s1]|] eqn:E1; [|done]. bool_simpl. subst r.
    destruct (shmat 0 no_attaches 4096 s1) as [[[va l] s2]|] eqn:E2; [|done]. bool_simpl. subst va.
    destruct (paging.free_user_page_table 4096 (km s2)) as [[[[]|] k']|] eqn:E3; [|done..].
    destruct (segtab s2 !! 0%nat) as [g|] eqn:E4; [|done]. bool_simpl.
    exists s1, s2, l, k', g. done. }
  exact (Hgen small ltac:(vm_compute; reflexivity)).
Qed.

End shm_spec.
