(* ===== verification/Env.v ===== *)
(** * Environment variables (kernel/src/kernel/proc/env.rs)

    Module [env] translates the table of 32 entries: [getenv], [setenv],
    [write_env_strings] and the boot defaults.  Module [env_spec] gives the
    meaning, a finite map from keys to values with at most 32 keys, the
    refinement over any sequence of calls, and the round trip of the exported
    "KEY=VALUE" strings. *)

From stdpp Require Import base list gmap strings.
From Stdlib Require Import ZArith Lia.
From S2P Require Import Prelude.

Local Open Scope Z_scope.

Module env.

(* @src proc/env.rs 6-6 MAX_VARS *)
Definition MAX_VARS : nat := 32.
(* @src proc/env.rs 7-7 MAX_KEY *)
Definition MAX_KEY : nat := 32.
(* @src proc/env.rs 8-8 MAX_VAL *)
Definition MAX_VAL : nat := 256.

(* @src proc/env.rs 10-17 EnvEntry *)
Record EnvEntry := mkEnv {
  key : list Z;
  key_len : nat;
  val : list Z;
  val_len : nat;
  used : bool;
}.

(* @src proc/env.rs 19-23 EnvEntry::empty *)
Definition empty : EnvEntry := mkEnv (replicate MAX_KEY 0) 0 (replicate MAX_VAL 0) 0 false.

(* @src proc/env.rs 25-38 ENV_TABLE *)
Definition ENV_TABLE : list EnvEntry := replicate MAX_VARS empty.

(** Raw reads of [b.len()] bytes from [a]; the callers compare lengths first. *)
(* @src proc/env.rs 43-51 bytes_eq *)
Definition bytes_eq (a b : list Z) : bool := bool_decide (take (length b) a = b).

(** [copy_nonoverlapping] to the start of [dst]. *)
(* @src proc/env.rs 54-56 bytes_copy *)
Definition bytes_copy (dst src : list Z) : list Z := splice dst 0 src.

(** The tests of the search loops. *)
(* @src proc/env.rs 74-80 getenv (match) *)
Definition matches (k : list Z) (e : EnvEntry) : bool :=
  used e && (key_len e =? length k)%nat && bytes_eq (key e) k.

(* @src proc/env.rs 69-90 getenv *)
Definition getenv (t : list EnvEntry) (k : list Z) : option (list Z) :=
  if (length k =? 0)%nat || (MAX_KEY <? length k)%nat then None
  else
    match position (matches k) t with
    | Some i => (fun e => take (val_len e) (val e)) <$> t !! i
    | None => None
    end.

(* @src proc/env.rs 105-112 setenv (update) *)
Definition update (e : EnvEntry) (v : list Z) : EnvEntry :=
  if (length v =? 0)%nat then mkEnv (key e) (key_len e) (val e) (val_len e) false
  else mkEnv (key e) (key_len e) (bytes_copy (val e) v) (length v) (used e).

(* @src proc/env.rs 120-127 setenv (create) *)
Definition create (e : EnvEntry) (k v : list Z) : EnvEntry :=
  mkEnv (bytes_copy (key e) k) (length k) (bytes_copy (val e) v) (length v) true.

(* @src proc/env.rs 94-130 setenv *)
Definition setenv (t : list EnvEntry) (k v : list Z) : bool * list EnvEntry :=
  if (length k =? 0)%nat || (MAX_KEY <? length k)%nat || (MAX_VAL <? length v)%nat then (false, t)
  else
    match position (matches k) t with
    | Some i => (true, alter (fun e => update e v) i t)
    | None =>
        if (length v =? 0)%nat then (true, t)
        else
          match position (fun e => negb (used e)) t with
          | Some i => (true, alter (fun e => create e k v) i t)
          | None => (false, t)
          end
    end.

(** One entry copied by [write_env_strings], or skipped when it does not fit. *)
(* @src proc/env.rs 140-160 write_env_strings (loop) *)
Fixpoint write_loop (t : list EnvEntry) (buf : list Z) (count offset : nat)
    : outcome (nat * nat * list Z) :=
  match t with
  | [] => Ret (count, offset, buf)
  | e :: t' =>
      if negb (used e) then write_loop t' buf count offset
      else
        let needed := (key_len e + 1 + val_len e + 1)%nat in
        if (length buf <? offset + needed)%nat then write_loop t' buf count offset
        else
          let buf := splice buf offset (take (key_len e) (key e)) in
          let offset := (offset + key_len e)%nat in
          let! buf := set_idx buf offset 61 in
          let offset := (offset + 1)%nat in
          let buf := splice buf offset (take (val_len e) (val e)) in
          let offset := (offset + val_len e)%nat in
          let! buf := set_idx buf offset 0 in
          write_loop t' buf (count + 1) (offset + 1)
  end.

(* @src proc/env.rs 134-162 write_env_strings *)
Definition write_env_strings (t : list EnvEntry) (buf : list Z) : outcome (nat * nat * list Z) :=
  write_loop t buf 0 0.

(* @src proc/env.rs 165-171 init_defaults *)
Definition init_defaults (t : list EnvEntry) : list EnvEntry :=
  let set t k v := (setenv t (str k) (str v)).2 in
  let t := set t "PATH"%string "/bin"%string in
  let t := set t "HOME"%string "/"%string in
  let t := set t "TERM"%string "vt100"%string in
  let t := set t "USER"%string "oxide"%string in
  let t := set t "SHELL"%string "/bin/sh"%string in
  set t "HOSTNAME"%string "oxideos"%string.

(** ** Invariant *)

Definition entry_key (e : EnvEntry) : list Z := take (key_len e) (key e).
Definition entry_val (e : EnvEntry) : list Z := take (val_len e) (val e).

Record wf_entry (e : EnvEntry) : Prop := {
  wf_key : length (key e) = MAX_KEY;
  wf_val : length (val e) = MAX_VAL;
  wf_key_len : (key_len e <= MAX_KEY)%nat;
  wf_val_len : (val_len e <= MAX_VAL)%nat;
  wf_used : used e = true -> (0 < key_len e)%nat;
}.

Record wf (t : list EnvEntry) : Prop := {
  wf_length : length t = MAX_VARS;
  wf_entries : Forall wf_entry t;
  wf_unique : forall i j a b, t !! i = Some a -> t !! j = Some b ->
    used a = true -> used b = true -> entry_key a = entry_key b -> i = j;
}.

Lemma matches_iff k e : wf_entry e -> matches k e = true <-> used e = true /\ entry_key e = k.
Proof.
  intros W. unfold matches, bytes_eq, entry_key. rewrite !andb_true_iff, bool_decide_eq_true, Nat.eqb_eq.
  pose proof (wf_key e W). pose proof (wf_key_len e W). split.
  - intros [[Hu Hl] Hk]. split; [done|]. by rewrite Hl.
  - intros [Hu <-]. rewrite length_take, Nat.min_l by lia. done.
Qed.

(** The position of the entry with key [k]. *)
Lemma find_entry t k i : wf t ->
  position (matches k) t = Some i <->
  exists e, t !! i = Some e /\ used e = true /\ entry_key e = k.
Proof.
  intros W. rewrite position_Some. split.
  - intros (e & He & Hm & _). exists e.
    apply matches_iff in Hm; [done|]. by eapply Forall_lookup_1; [apply W|].
  - intros (e & He & Hu & Hk). exists e.
    assert (wf_entry e) by (by eapply Forall_lookup_1; [apply W|]).
    split; [done|]. split; [by apply matches_iff|]. intros j a Hj Ha.
    apply not_true_iff_false. intros Hm.
    assert (wf_entry a) by (by eapply Forall_lookup_1; [apply W|]).
    apply matches_iff in Hm as [Hu' Hk']; [|done].
    assert (j = i); [|lia]. apply (wf_unique t W j i a e); congruence.
Qed.

Lemma find_none t k : wf t ->
  position (matches k) t = None <->
  forall i e, t !! i = Some e -> used e = true -> entry_key e <> k.
Proof.
  intros W. rewrite position_None. split.
  - intros H i e He Hu Hk. specialize (H i e He).
    assert (wf_entry e) by (by eapply Forall_lookup_1; [apply W|]).
    assert (matches k e = true) by (by apply matches_iff). congruence.
  - intros H i e He. apply not_true_iff_false. intros Hm.
    assert (wf_entry e) by (by eapply Forall_lookup_1; [apply W|]).
    apply matches_iff in Hm as [? ?]; [|done]. by eapply H.
Qed.

Lemma take_copy (dst src : list Z) : (length src <= length dst)%nat ->
  take (length src) (bytes_copy dst src) = src.
Proof. intros H. unfold bytes_copy, splice. by rewrite take_0, app_nil_l, take_app_length. Qed.

Lemma length_copy (dst src : list Z) : (length src <= length dst)%nat ->
  length (bytes_copy dst src) = length dst.
Proof. intros H. unfold bytes_copy. by apply length_splice. Qed.

Lemma env_wf_update e v : wf_entry e -> (length v <= MAX_VAL)%nat -> wf_entry (update e v).
Proof.
  intros W Hv. unfold update. destruct (length v =? 0)%nat; destruct W; constructor; cbn; try done.
  by rewrite length_copy; [|lia].
Qed.

Lemma wf_create e k v : wf_entry e -> (0 < length k <= MAX_KEY)%nat -> (length v <= MAX_VAL)%nat ->
  wf_entry (create e k v).
Proof. intros W Hk Hv. destruct W. constructor; cbn; rewrite ?length_copy; lia. Qed.

Lemma wf_set t i e e' : wf t -> t !! i = Some e -> wf_entry e' ->
  (used e' = true -> forall j a, j <> i -> t !! j = Some a -> used a = true -> entry_key a <> entry_key e') ->
  wf (<[i := e']> t).
Proof.
  intros W He We' Hu. constructor.
  - rewrite length_insert. apply W.
  - by apply Forall_insert; [apply W|].
  - intros a b x y Ha Hb Hx Hy Hk.
    apply list_lookup_insert_Some in Ha as [(<- & <- & _)|[Hia Ha]];
      apply list_lookup_insert_Some in Hb as [(<- & <- & _)|[Hib Hb]]; [done| | |].
    + by destruct (Hu Hx b y).
    + by destruct (Hu Hy a x).
    + by apply (wf_unique t W a b x y).
Qed.

End env.

(** ** Meaning: a bounded map *)

Module env_spec.
Import env.

Implicit Types (t : list EnvEntry) (m : gmap (list Z) (list Z)) (i : nat) (e : EnvEntry) (k v : list Z).


Definition key_ok (k : list Z) : bool := (0 <? length k)%nat && (length k <=? 32)%nat.

Definition get (m : gmap (list Z) (list Z)) (k : list Z) : option (list Z) := m !! k.

Definition set (m : gmap (list Z) (list Z)) (k v : list Z) : bool * gmap (list Z) (list Z) :=
  if negb (key_ok k && (length v <=? 256)%nat) then (false, m)
  else if (length v =? 0)%nat then (true, delete k m)
  else if bool_decide (is_Some (m !! k)) || (size m <? 32)%nat then (true, <[k := v]> m)
  else (false, m).

Definition n_used (t : list EnvEntry) : Z := zsum (fun e => if used e then 1 else 0) t.

(** The table [t] stands for the map [m]. *)
Record rep (t : list EnvEntry) (m : gmap (list Z) (list Z)) : Prop := {
  rep_wf : wf t;
  rep_get : forall k v, m !! k = Some v <->
    exists i e, t !! i = Some e /\ used e = true /\ entry_key e = k /\ entry_val e = v;
  rep_size : Z.of_nat (size m) = n_used t;
}.

Lemma rep_None t m k : rep t m -> m !! k = None <->
  forall i e, t !! i = Some e -> used e = true -> entry_key e <> k.
Proof.
  intros R. split.
  - intros Hm i e He Hu Hk.
    assert (m !! k = Some (entry_val e)) by (apply (rep_get t m R); eauto 10). congruence.
  - intros H. destruct (m !! k) as [v|] eqn:E; [|done].
    apply (rep_get t m R) in E as (i & e & He & Hu & Hk & _). by destruct (H i e).
Qed.

Lemma get_refines t m k : rep t m -> getenv t k = get m k.
Proof.
  intros R. pose proof (rep_wf t m R) as W. unfold getenv, get.
  destruct ((length k =? 0)%nat || (MAX_KEY <? length k)%nat) eqn:Hb.
  - symmetry. apply (rep_None t m k R). intros i e He Hu <-.
    assert (wf_entry e) as [? ? Hkl _ Hpos] by (by eapply Forall_lookup_1; [apply W|]).
    specialize (Hpos Hu). unfold entry_key in Hb. rewrite length_take in Hb.
    apply orb_true_iff in Hb as [Hb|Hb]; bool_simpl; lia.
  - destruct (position (matches k) t) as [i|] eqn:Hp.
    + apply find_entry in Hp as (e & He & Hu & Hk); [|done]. rewrite He. cbn. symmetry.
      apply (rep_get t m R). eauto 10.
    + symmetry. apply (rep_None t m k R). by apply find_none.
Qed.

Lemma rep_replace t (m : gmap (list Z) (list Z)) (i : nat) (e e' : EnvEntry) (m' : gmap (list Z) (list Z)) : rep t m -> t !! i = Some e -> wf (<[i := e']> t) ->
  (forall k v, m' !! k = Some v <->
     (used e' = true /\ entry_key e' = k /\ entry_val e' = v) \/
     (m !! k = Some v /\ (used e = true -> entry_key e <> k))) ->
  Z.of_nat (size m') = n_used t - (if used e then 1 else 0) + (if used e' then 1 else 0) ->
  rep (<[i := e']> t) m'.
Proof.
  intros R He W' Hm Hs. pose proof (lookup_lt_Some _ _ _ He) as Hlt. constructor; [done| |].
  - intros k v. rewrite Hm, (rep_get t m R). split.
    + intros [(Hu & Hk & Hv)|((j & a & Ha & Hu & Hk & Hv) & Hne)].
      * exists i, e'. by rewrite list_lookup_insert_eq.
      * exists j, a. rewrite list_lookup_insert_ne; [done|]. intros ->. simplify_eq. by apply Hne.
    + intros (j & a & [(<- & <- & _)|[Hij Ha]]%list_lookup_insert_Some & Hu & Hk & Hv); [by left|right].
      split; [eauto 10|]. intros Hue Hke. apply Hij.
      apply (wf_unique t (rep_wf t m R) i j e a); congruence.
  - rewrite Hs. unfold n_used. by rewrite (zsum_insert _ t i e).
Qed.

Lemma n_used_full t : wf t -> position (fun e => negb (used e)) t = None -> n_used t = 32.
Proof.
  intros W Hp. assert (forall l : list EnvEntry, (forall i e, l !! i = Some e -> negb (used e) = false) ->
    zsum (fun e => if used e then 1 else 0) l = Z.of_nat (length l)) as H.
  { induction l as [|e l IH]; intros Hl; [done|]. rewrite zsum_cons, IH.
    - pose proof (Hl 0%nat e eq_refl) as He. apply negb_false_iff in He as ->. cbn [length]. lia.
    - intros i x Hx. by apply (Hl (S i)). }
  unfold n_used. rewrite H; [by rewrite (wf_length t W)|]. by apply position_None.
Qed.

Lemma n_used_free t i e : t !! i = Some e -> used e = false -> n_used t < Z.of_nat (length t).
Proof.
  intros He Hu. unfold n_used.
  assert (forall l : list EnvEntry, zsum (fun e => if used e then 1 else 0) l <= Z.of_nat (length l)) as Hle.
  { induction l as [|x l IH]; [done|]. rewrite zsum_cons. cbn [length]. destruct (used x); lia. }
  pose proof (zsum_insert (fun e => if used e then 1 else 0) t i e
    (mkEnv (key e) (key_len e) (val e) (val_len e) true) He) as Hi.
  cbn in Hi. rewrite Hu in Hi.
  pose proof (Hle (<[i := mkEnv (key e) (key_len e) (val e) (val_len e) true]> t)) as HL.
  rewrite length_insert in HL. lia.
Qed.

Lemma set_found t m k v (i : nat) (e : EnvEntry) : rep t m -> (length v <= MAX_VAL)%nat ->
  t !! i = Some e -> used e = true -> entry_key e = k ->
  rep (<[i := update e v]> t) (if (length v =? 0)%nat then delete k m else <[k := v]> m).
Proof.
  intros R Hv He Hu Hk. pose proof (rep_wf t m R) as W.
  assert (wf_entry e) as We by (by eapply Forall_lookup_1; [apply W|]).
  assert (m !! k = Some (entry_val e)) as Hmk by (apply (rep_get t m R); eauto 10).
  assert (entry_key (update e v) = k) as Hk'.
  { unfold update. by destruct (length v =? 0)%nat. }
  apply (rep_replace t m i e); [done..| | |].
  - apply (wf_set t i e); [done..|by apply env_wf_update|].
    intros _ j a Hj Ha Hua Hka. apply Hj. apply (wf_unique t W j i a e); congruence.
  - intros k' v'. rewrite Hk'. unfold update. destruct (length v =? 0)%nat eqn:Hz; cbn [used entry_val].
    + rewrite lookup_delete_Some. naive_solver.
    + rewrite Hu. unfold entry_val. cbn [val_len val]. rewrite take_copy by (rewrite (wf_val e We); lia).
      rewrite lookup_insert_Some. naive_solver.
  - rewrite Hu. unfold update. pose proof (rep_size t m R) as Hs.
    destruct (length v =? 0)%nat; cbn [used].
    + rewrite map_size_delete_Some by eauto. pose proof (map_size_ne_0_lookup_2 m k ltac:(eauto)). lia.
    + rewrite map_size_insert_Some by eauto. rewrite Hu. lia.
Qed.

Lemma set_new t m k v (i : nat) (e : EnvEntry) : rep t m -> (0 < length k <= MAX_KEY)%nat -> (length v <= MAX_VAL)%nat ->
  m !! k = None -> t !! i = Some e -> used e = false -> rep (<[i := create e k v]> t) (<[k := v]> m).
Proof.
  intros R Hlk Hv Hm He Hu. pose proof (rep_wf t m R) as W.
  assert (wf_entry e) as We by (by eapply Forall_lookup_1; [apply W|]).
  assert (entry_key (create e k v) = k) as Hk.
  { unfold entry_key, create. cbn [key_len key]. apply take_copy. rewrite (wf_key e We). lia. }
  assert (entry_val (create e k v) = v) as Hv'.
  { unfold entry_val, create. cbn [val_len val]. apply take_copy. rewrite (wf_val e We). lia. }
  apply (rep_replace t m i e); [done..| | |].
  - apply (wf_set t i e); [done..|by apply wf_create|]. intros _ j a _ Ha Hua. rewrite Hk.
    by apply (proj1 (rep_None t m k R) Hm j a).
  - intros k' v'. rewrite Hk, Hv', Hu, lookup_insert_Some. cbn. naive_solver.
  - rewrite Hu, map_size_insert_None by done. pose proof (rep_size t m R). cbn [create used]. lia.
Qed.

Lemma set_refines t m k v : rep t m ->
  (setenv t k v).1 = (set m k v).1 /\ rep (setenv t k v).2 (set m k v).2.
Proof.
  intros R. pose proof (rep_wf t m R) as W. pose proof (rep_size t m R) as HS. unfold setenv, set, key_ok.
  destruct (Nat.eqb_spec (length k) 0), (Nat.ltb_spec 0 (length k)); try lia; cbn [orb andb negb];
    [done|].
  destruct (Nat.ltb_spec MAX_KEY (length k)), (Nat.leb_spec (length k) 32);
    unfold MAX_KEY in *; try lia; cbn [orb andb negb]; [done|].
  destruct (Nat.ltb_spec MAX_VAL (length v)), (Nat.leb_spec (length v) 256);
    unfold MAX_VAL in *; try lia; cbn [orb andb negb]; [done|].
  destruct (position (matches k) t) as [i|] eqn:Hp.
  - apply find_entry in Hp as (e & He & Hu & Hk); [|done]. cbn [fst snd].
    rewrite (alter_insert _ t i e He).
    assert (m !! k = Some (entry_val e)) as Hmk by (apply (rep_get t m R); eauto 10).
    pose proof (set_found t m k v i e R ltac:(unfold MAX_VAL; lia) He Hu Hk) as R'.
    destruct (length v =? 0)%nat; [done|]. rewrite bool_decide_true by eauto. done.
  - pose proof (proj2 (rep_None t m k R) (proj1 (find_none t k W) Hp)) as Hm.
    destruct (Nat.eqb_spec (length v) 0); [cbn; by rewrite delete_id|].
    rewrite bool_decide_false by (rewrite Hm; by intros [? [=]]). cbn [orb].
    destruct (position (fun e => negb (used e)) t) as [i|] eqn:Hf.
    + apply position_Some in Hf as (e & He & Hu & _). apply negb_true_iff in Hu.
      pose proof (n_used_free t i e He Hu) as Hn. rewrite (wf_length t W) in Hn. unfold MAX_VARS in Hn.
      destruct (Nat.ltb_spec (size m) 32); [|lia]. cbn [fst snd]. split; [done|].
      rewrite (alter_insert _ t i e He). apply set_new; [done|unfold MAX_KEY; lia|unfold MAX_VAL; lia|done..].
    + pose proof (n_used_full t W Hf). destruct (Nat.ltb_spec (size m) 32); [lia|done].
Qed.

(** Calls, their replies and their sequences. *)
Inductive call := Get (k : list Z) | Set_ (k v : list Z).

Definition run (t : list EnvEntry) (c : call) : (option (list Z) * bool) * list EnvEntry :=
  match c with
  | Get k => ((getenv t k, true), t)
  | Set_ k v => let '(b, t) := setenv t k v in ((None, b), t)
  end.
Definition step (m : gmap (list Z) (list Z)) (c : call) : (option (list Z) * bool) * gmap (list Z) (list Z) :=
  match c with
  | Get k => ((get m k, true), m)
  | Set_ k v => let '(b, m) := set m k v in ((None, b), m)
  end.

Fixpoint run_all (t : list EnvEntry) (cs : list call) :=
  match cs with
  | [] => ([], t)
  | c :: cs' => let '(r, t) := run t c in let '(rs, t) := run_all t cs' in (r :: rs, t)
  end.
Fixpoint step_all (m : gmap (list Z) (list Z)) (cs : list call) :=
  match cs with
  | [] => ([], m)
  | c :: cs' => let '(r, m) := step m c in let '(rs, m) := step_all m cs' in (r :: rs, m)
  end.

Lemma run_refines t m c : rep t m ->
  (run t c).1 = (step m c).1 /\ rep (run t c).2 (step m c).2.
Proof.
  intros R. destruct c as [k|k v]; cbn.
  - by rewrite (get_refines t m k R).
  - pose proof (set_refines t m k v R) as [H1 H2].
    destruct (setenv t k v), (set m k v). cbn in *. by rewrite H1.
Qed.

Lemma rep_boot : rep ENV_TABLE ∅.
Proof.
  assert (forall i e, ENV_TABLE !! i = Some e -> e = empty) as He.
  { intros i e. unfold ENV_TABLE. by intros [? _]%lookup_replicate. }
  constructor.
  - constructor.
    + apply length_replicate.
    + apply Forall_replicate. constructor; unfold MAX_KEY, MAX_VAL; cbn; try lia; done.
    + intros i j a b Ha _ Hu. apply He in Ha as ->. done.
  - intros k v. split; [done|]. intros (i & e & H & Hu & _). apply He in H as ->. done.
  - rewrite map_size_empty. symmetry. apply zsum_zero. intros i e H. by apply He in H as ->.
Qed.

(** C13: The environment is a bounded map.  From boot, any sequence of [getenv]
    and [setenv] calls answers exactly as a map from keys to values that holds
    at most 32 keys: a value set is the value read, the empty value removes the
    key, and [setenv] fails exactly for a key or value of a bad length or for a
    new key in a full table. *)
Theorem env_refines_bounded_map (cs : list call) :
  let '(rs, t) := run_all ENV_TABLE cs in
  let '(rs', m) := step_all ∅ cs in
  rs = rs' /\ rep t m /\ (size m <= 32)%nat.
Proof.
  assert (forall t m, rep t m ->
    (run_all t cs).1 = (step_all m cs).1 /\ rep (run_all t cs).2 (step_all m cs).2) as H.
  { induction cs as [|c cs IH]; intros t m R; [done|]. cbn.
    destruct (run_refines t m c R) as [H1 H2]. destruct (run t c) as [r t1], (step m c) as [r' m1].
    cbn in H1, H2. destruct (IH t1 m1 H2) as [H3 H4].
    destruct (run_all t1 cs), (step_all m1 cs). cbn in *. by rewrite H1, H3. }
  specialize (H _ _ rep_boot). destruct (run_all ENV_TABLE cs), (step_all ∅ cs) as [? m].
  destruct H as [H1 H2]. cbn in *. split; [done|]. split; [done|].
  pose proof (rep_size _ _ H2) as Hs. pose proof (wf_length _ (rep_wf _ _ H2)) as Hl.
  assert (forall t : list EnvEntry, n_used t <= Z.of_nat (length t)) as Hle.
  { unfold n_used. induction t as [|x t IH]; [done|]. rewrite zsum_cons. cbn [length]. destruct (used x); lia. }
  specialize (Hle l0). unfold MAX_VARS in Hl. lia.
Qed.

(** ** The exported strings *)

Definition entry_text (e : EnvEntry) : list Z := entry_key e ++ [61] ++ entry_val e ++ [0].

(** The used entries that fit, in table order: an entry that does not fit is
    skipped. *)
Fixpoint exported (room : nat) (t : list EnvEntry) : list EnvEntry :=
  match t with
  | [] => []
  | e :: t' =>
      if used e && (length (entry_text e) <=? room)%nat
      then e :: exported (room - length (entry_text e)) t'
      else exported room t'
  end.

Definition texts (t : list EnvEntry) : list Z := concat (entry_text <$> t).

Lemma length_entry_text e : wf_entry e -> length (entry_text e) = (key_len e + 1 + val_len e + 1)%nat.
Proof.
  intros W. destruct W. unfold entry_text, entry_key, entry_val.
  rewrite !length_app, !length_take. cbn. lia.
Qed.

Lemma exported_fits r t : (length (texts (exported r t)) <= r)%nat.
Proof.
  revert r. induction t as [|e t IH]; intros r; [cbn; lia|].
  cbn [exported]. destruct (used e && _) eqn:Hb; [|apply IH]. bool_simpl.
  unfold texts. rewrite fmap_cons. cbn [concat]. rewrite length_app.
  specialize (IH (r - length (entry_text e))%nat). unfold texts in IH. lia.
Qed.

Lemma write_loop_spec t buf count offset : Forall wf_entry t -> (offset <= length buf)%nat ->
  write_loop t buf count offset =
  let es := exported (length buf - offset) t in
  Ret ((count + length es)%nat, (offset + length (texts es))%nat, splice buf offset (texts es)).
Proof.
  revert buf count offset. induction t as [|e t IH]; intros buf count offset HF Hoff.
  { cbn. by rewrite !Nat.add_0_r, splice_nil. }
  apply Forall_cons in HF as [We HF]. cbn [write_loop exported].
  destruct (used e) eqn:Hu; cbn [negb andb]; [|by rewrite IH].
  rewrite <- (length_entry_text e We).
  destruct (Nat.ltb_spec (length buf) (offset + length (entry_text e))) as [Hno|Hfit].
  - destruct (Nat.leb_spec (length (entry_text e)) (length buf - offset)); [lia|]. by rewrite IH.
  - destruct (Nat.leb_spec (length (entry_text e)) (length buf - offset)) as [_|]; [|lia].
    pose proof (length_entry_text e We) as HL. pose proof We as [Hk Hv Hkl Hvl _].
    assert (length (entry_key e) = key_len e) as HK by (unfold entry_key; rewrite length_take; lia).
    assert (length (entry_val e) = val_len e) as HV by (unfold entry_val; rewrite length_take; lia).
    fold (entry_key e) (entry_val e).
    rewrite set_idx_lt by (rewrite length_splice; lia). cbn [mbind outcome_mbind].
    rewrite insert_splice by (rewrite length_splice; lia).
    rewrite <- HK, (splice_app buf offset (entry_key e) [61]) by lia.
    replace (offset + length (entry_key e) + 1)%nat with (offset + length (entry_key e ++ [61%Z]))%nat
      by (rewrite length_app; cbn; lia).
    rewrite (splice_app buf offset (entry_key e ++ [61]) (entry_val e)) by (rewrite length_app; cbn; lia).
    replace (offset + length (entry_key e ++ [61%Z]) + val_len e)%nat
      with (offset + length ((entry_key e ++ [61%Z]) ++ entry_val e))%nat
      by (rewrite !length_app, HV; cbn; lia).
    rewrite set_idx_lt by (rewrite length_splice; rewrite !length_app; cbn; lia).
    cbn [mbind outcome_mbind].
    rewrite insert_splice by (rewrite length_splice; rewrite !length_app; cbn; lia).
    rewrite (splice_app buf offset ((entry_key e ++ [61]) ++ entry_val e) [0])
      by (rewrite !length_app; cbn; lia).
    replace (((entry_key e ++ [61]) ++ entry_val e) ++ [0]) with (entry_text e)
      by (unfold entry_text; by rewrite <- !app_assoc).
    replace (offset + length ((entry_key e ++ [61%Z]) ++ entry_val e) + 1)%nat
      with (offset + length (entry_text e))%nat by (rewrite HL, !length_app; cbn; lia).
    rewrite IH by (rewrite ?length_splice; done || lia). rewrite length_splice by lia.
    unfold texts. rewrite fmap_cons. cbn [concat length]. rewrite splice_app by lia. rewrite length_app.
    replace (length buf - (offset + length (entry_text e)))%nat
      with (length buf - offset - length (entry_text e))%nat by lia.
    f_equal. f_equal. f_equal; lia.
Qed.

(** Reading the exported block back: NUL-terminated strings, each split at its
    first ['=']. *)
Definition parse (block : list Z) : list (list Z * list Z) :=
  (fun s => match split 61 s with
            | k :: v :: _ => (k, v)
            | _ => (s, [])
            end) <$> removelast (split 0 block).

(** Keys and values that a "KEY=VALUE" string can carry. *)
Definition printable (e : EnvEntry) : Prop :=
  (0 ∉ entry_key e) /\ (0 ∉ entry_val e) /\ (61 ∉ entry_key e) /\ (61 ∉ entry_val e).

Lemma split_texts es : Forall printable es ->
  removelast (split 0 (texts es)) = (fun e => entry_key e ++ 61 :: entry_val e) <$> es.
Proof.
  induction es as [|e es IH]; intros HP; [done|]. apply Forall_cons in HP as [(H1 & H2 & _ & _) HP].
  unfold texts. rewrite !fmap_cons. cbn [concat]. unfold entry_text at 1.
  replace ((entry_key e ++ [61] ++ entry_val e ++ [0]) ++ concat (entry_text <$> es))
    with ((entry_key e ++ 61 :: entry_val e) ++ 0 :: texts es)
    by (unfold texts; by rewrite <- !app_assoc).
  rewrite split_sep, split_no_sep.
  - cbn [app]. rewrite <- IH by done. pose proof (split_nonempty 0 (texts es)).
    by destruct (split 0 (texts es)).
  - rewrite elem_of_app, elem_of_cons. naive_solver.
Qed.

(** The environment block handed to a new process reads back as the
    variables.  [write_env_strings] never panics nor writes past the buffer; the
    block it writes is the "KEY=VALUE" text of the used entries that fit, in
    table order, and parsing it (at NUL, then at the first ['=']) returns exactly
    their keys and values. *)
Theorem env_block_round_trip (t : list EnvEntry) (buf : list Z) (W : wf t)
    (HP : Forall printable (exported (length buf) t)) :
  exists n len out, write_env_strings t buf = Ret (n, len, out) /\ (len <= length buf)%nat /\
    drop len out = drop len buf /\ n = length (exported (length buf) t) /\
    parse (take len out) = (fun e => (entry_key e, entry_val e)) <$> exported (length buf) t.
Proof.
  unfold write_env_strings. rewrite write_loop_spec by (apply W || lia). rewrite Nat.sub_0_r. cbn zeta.
  set (es := exported (length buf) t) in *. eexists _, _, _. split; [done|]. rewrite !Nat.add_0_l.
  assert (length (texts es) <= length buf)%nat as Hlen by apply exported_fits.
  split; [done|]. unfold splice. rewrite take_0, app_nil_l, Nat.add_0_l. split_and!.
  - by rewrite drop_app_length.
  - done.
  - rewrite take_app_length. unfold parse. rewrite split_texts by done.
    rewrite <- list_fmap_compose. apply list_fmap_ext. intros i e He. cbn.
    pose proof (Forall_lookup_1 _ _ _ _ HP He) as (_ & _ & H1 & H2).
    by rewrite split_sep, !split_no_sep.
Qed.

Lemma env_block_round_trip_witness : exists n len out,
  write_env_strings (init_defaults ENV_TABLE) (replicate 64 7) = Ret (n, len, out) /\ n = 5%nat.
Proof.
  pose proof (env_block_round_trip (init_defaults ENV_TABLE) (replicate 64 7)) as T.
  destruct T as (n & len & out & H1 & _ & _ & Hn & _).
  - unfold init_defaults. eapply rep_wf. do 6 (apply set_refines). apply rep_boot.
  - apply (bool_decide_unpack (Forall printable _)). vm_compute. exact I.
  - exists n, len, out. split; [exact H1|]. rewrite Hn. vm_compute. reflexivity.
Defined.

End env_spec.
