(* ===== verification/ElfLoader.v ===== *)
(** * The ELF64 loader (kernel/src/kernel/proc/elf_loader.rs)

    Module [elf] translates [is_elf], [load] and [load_in].  The loader works on
    an address space, which it uses through the class [UserSpace]: mapping fresh
    zeroed pages, writing bytes, and what a byte reads as.  Headers are read
    through a raw pointer: [beyond] stands for whatever memory follows the image,
    and images are assumed to start at an address a multiple of 8, as the
    headers' types require.

    Module [elf_spec] says what a loaded image is, byte by byte, and proves that
    [load_in] builds it; and that a malformed header table aborts the kernel. *)

From stdpp Require Import base list gmap strings list_numbers.
From Stdlib Require Import ZArith Lia.
From S2P Require Import Prelude.

Local Open Scope Z_scope.

(** What the loader relies on. *)
Class UserSpace (W : Type) := {
  us_map : Z -> Z -> Z -> prog W string unit;
  us_copy : Z -> Z -> list Z -> prog W string unit;
  us_peek : W -> Z -> Z -> option Z;
}.

Class UserSpaceLaws (W : Type) `{UserSpace W} := {
  (** Pages mapped by a successful call read as zero; the rest is unchanged. *)
  us_map_ok : forall cr3 base n w w', us_map cr3 base n w = Ret (Ok tt, w') ->
    forall a, us_peek w' cr3 a =
      if decide (base <= a < base + 4096 * n) then Some 0 else us_peek w cr3 a;
  (** Writing to mapped bytes succeeds and changes exactly them. *)
  us_copy_ok : forall cr3 va bs w,
    (forall a, va <= a < va + Z.of_nat (length bs) -> is_Some (us_peek w cr3 a)) ->
    exists w', us_copy cr3 va bs w = Ret (Ok tt, w') /\
      forall a, us_peek w' cr3 a =
        if decide (va <= a < va + Z.of_nat (length bs)) then bs !! Z.to_nat (a - va) else us_peek w cr3 a;
}.

Module elf.

(* @src proc/elf_loader.rs 9-9 PAGE_SIZE *)
Definition PAGE_SIZE : Z := 4096.
(* @src proc/elf_loader.rs 10-10 ELFMAG *)
Definition ELFMAG : list Z := [127; 69; 76; 70].
(* @src proc/elf_loader.rs 11-11 ELFCLASS64 *)
Definition ELFCLASS64 : Z := 2.
(* @src proc/elf_loader.rs 12-12 ELFDATA2LSB *)
Definition ELFDATA2LSB : Z := 1.
(* @src proc/elf_loader.rs 13-13 ET_EXEC *)
Definition ET_EXEC : Z := 2.
(* @src proc/elf_loader.rs 14-14 EM_X86_64 *)
Definition EM_X86_64 : Z := 62.
(* @src proc/elf_loader.rs 15-15 PT_LOAD *)
Definition PT_LOAD : Z := 1.
(* @src proc/elf_loader.rs 16-16 PF_W *)
Definition PF_W : Z := 2.

(* @src proc/elf_loader.rs 19-21 is_elf *)
Definition is_elf (data : list Z) : bool :=
  (4 <=? length data)%nat && bool_decide (take 4 data = ELFMAG).

(** A little-endian field of [n] bytes at [off]. *)
Definition field (m : list Z) (off n : nat) : Z := le_decode (take n (drop off m)).

(* @src proc/elf_loader.rs 23-36 Elf64Ehdr *)
Record Elf64Ehdr := mkEhdr {
  e_ident : list Z;
  e_type : Z;
  e_machine : Z;
  e_version : Z;
  e_entry : Z;
  e_phoff : Z;
  e_shoff : Z;
  e_flags : Z;
  e_ehsize : Z;
  e_phentsize : Z;
  e_phnum : Z;
}.
Definition EHDR_SIZE : nat := 64.

Definition ehdr_of (m : list Z) : Elf64Ehdr :=
  mkEhdr (take 16 m) (field m 16 2) (field m 18 2) (field m 20 4) (field m 24 8) (field m 32 8)
         (field m 40 8) (field m 48 4) (field m 52 2) (field m 54 2) (field m 56 2).

(* @src proc/elf_loader.rs 38-48 Elf64Phdr *)
Record Elf64Phdr := mkPhdr {
  p_type : Z;
  p_flags : Z;
  p_offset : Z;
  p_vaddr : Z;
  p_paddr : Z;
  p_filesz : Z;
  p_memsz : Z;
  p_align : Z;
}.
Definition PHDR_SIZE : Z := 56.

Definition phdr_of (m : list Z) (off : nat) : Elf64Phdr :=
  mkPhdr (field m off 4) (field m (off + 4) 4) (field m (off + 8) 8) (field m (off + 16) 8)
         (field m (off + 24) 8) (field m (off + 32) 8) (field m (off + 40) 8) (field m (off + 48) 8).

Definition loadable (ph : Elf64Phdr) : bool := (p_type ph =? PT_LOAD) && negb (p_memsz ph =? 0).

Section Loader.
Context {W : Type} `{UserSpace W} (beyond : list Z).

(** The checks both loaders start with: the header, or the error. *)
(* @src proc/elf_loader.rs 122-134 load_in (header) *)
Definition check_header (data : list Z) : prog W string Elf64Ehdr :=
  if (length data <? EHDR_SIZE)%nat then err "file too small"%string
  else
    let h := ehdr_of data in
    if negb (bool_decide (take 4 (e_ident h) = ELFMAG)) then err "bad ELF magic"%string
    else if negb (bool_decide (e_ident h !! 4%nat = Some ELFCLASS64)) then err "not ELF64"%string
    else if negb (bool_decide (e_ident h !! 5%nat = Some ELFDATA2LSB)) then err "not little-endian"%string
    else if negb (e_type h =? ET_EXEC) then err "not an executable"%string
    else if negb (e_machine h =? EM_X86_64) then err "not x86-64"%string
    else if e_phentsize h <? PHDR_SIZE then err "phdr too small"%string
    else ok h.

(** [phoff + i * ph_size] and [ph_off + size_of::<Elf64Phdr>()] *)
Definition ph_off (h : Elf64Ehdr) (i : Z) : outcome Z :=
  let! x := cmul u64_max i (e_phentsize h) in cadd u64_max (e_phoff h) x.
Definition ph_end (o : Z) : outcome Z := cadd u64_max o PHDR_SIZE.

(** [&*(data[ph_off..].as_ptr() as *const Elf64Phdr)]: the slice panics when
    [ph_off] is past the end; the fields may lie past the end. *)
Definition read_phdr (data : list Z) (o : Z) : outcome Elf64Phdr :=
  if o <=? Z.of_nat (length data) then Ret (phdr_of (data ++ beyond) (Z.to_nat o)) else Panic.

(** [ph.p_vaddr & !0xFFF] and [(ph.p_vaddr + ph.p_memsz + 0xFFF) & !0xFFF] *)
Definition va_start (ph : Elf64Phdr) : Z := Z.ldiff (p_vaddr ph) 4095.
Definition va_end (ph : Elf64Phdr) : outcome Z :=
  let! x := cadd u64_max (p_vaddr ph) (p_memsz ph) in
  let! y := cadd u64_max x 4095 in Ret (Z.ldiff y 4095).

(** Pass 1 of [load_in]: the range spanned by all segments. *)
(* @src proc/elf_loader.rs 149-161 load_in (range) *)
Fixpoint range (data : list Z) (h : Elf64Ehdr) (ix : list Z) (min_va max_va : Z) : outcome (Z * Z) :=
  match ix with
  | [] => Ret (min_va, max_va)
  | i :: ix' =>
      let! o := ph_off h i in
      let! e := ph_end o in
      if Z.of_nat (length data) <? e then range data h ix' min_va max_va
      else
        let! ph := read_phdr data o in
        if negb (loadable ph) then range data h ix' min_va max_va
        else
          let s := va_start ph in
          let! e := va_end ph in
          range data h ix' (if s <? min_va then s else min_va) (if max_va <? e then e else max_va)
  end.

(** Pass 2: one segment copied from the file. *)
(* @src proc/elf_loader.rs 179-195 load_in (segment) *)
Definition copy_segment (data : list Z) (cr3 : Z) (ph : Elf64Phdr) : prog W string unit :=
  if 0 <? p_filesz ph then
    let? e := checked (cadd u64_max (p_offset ph) (p_filesz ph)) in
    if Z.of_nat (length data) <? e then err "segment beyond EOF"%string
    else us_copy cr3 (p_vaddr ph) (take (Z.to_nat (p_filesz ph)) (drop (Z.to_nat (p_offset ph)) data))
  else ok tt.

(* @src proc/elf_loader.rs 174-196 load_in (pass 2) *)
Definition copy_pass (data : list Z) (cr3 : Z) (h : Elf64Ehdr) (i : Z) : prog W string unit :=
  let? o := checked (ph_off h i) in
  let? ph := checked (read_phdr data o) in
  if negb (loadable ph) then ok tt else copy_segment data cr3 ph.

(* @src proc/elf_loader.rs 121-200 load_in *)
Definition load_in (data : list Z) (cr3 : Z) : prog W string Z :=
  let? h := check_header data in
  let ix := seqZ 0 (e_phnum h) in
  let? (min_va, max_va) := checked (range data h ix u64_max 0) in
  let? r := if min_va <? max_va
            then catch (us_map cr3 min_va ((max_va - min_va) / PAGE_SIZE)) else ok (Ok tt) in
  let? _ := match r with Ok _ => ok tt | Err _ => err "OOM: ELF segments"%string end in
  let? _ := for_each ix (copy_pass data cr3 h) in
  ok (e_entry h).

(** One header of [load], which works on the current address space [cr3]: the
    mapping may fail, the whole page range is zeroed, then the file part is
    copied. *)
(* @src proc/elf_loader.rs 74-112 load (segment) *)
Definition load_segment (data : list Z) (cr3 : Z) (h : Elf64Ehdr) (i : Z) : prog W string unit :=
  let? o := checked (ph_off h i) in
  let? e := checked (ph_end o) in
  if Z.of_nat (length data) <? e then err "phdr out of bounds"%string
  else
    let? ph := checked (read_phdr data o) in
    if negb (loadable ph) then ok tt
    else
      let s := va_start ph in
      let? e := checked (va_end ph) in
      let? _ := catch (us_map cr3 s ((e - s) / PAGE_SIZE)) in
      let? _ := us_copy cr3 s (replicate (Z.to_nat (e - s)) 0) in
      copy_segment data cr3 ph.

(* @src proc/elf_loader.rs 54-115 load *)
Definition load (data : list Z) (cr3 : Z) : prog W string Z :=
  let? h := check_header data in
  let? _ := for_each (seqZ 0 (e_phnum h)) (load_segment data cr3 h) in
  ok (e_entry h).

End Loader.
End elf.

Module elf_spec.
Import elf.

(** ** The image of a program *)

(** Program header [i]. *)
Definition hdr (data : list Z) (h : Elf64Ehdr) (i : Z) : Elf64Phdr :=
  phdr_of data (Z.to_nat (e_phoff h + i * e_phentsize h)).
Definition headers (data : list Z) (h : Elf64Ehdr) : list Elf64Phdr :=
  hdr data h <$> seqZ 0 (e_phnum h).

(** The byte at address [a]: the last segment whose file part covers it wins,
    zero otherwise. *)
Definition overlay (data : list Z) (a : Z) (b : Z) (ph : Elf64Phdr) : Z :=
  if loadable ph && (p_vaddr ph <=? a) && (a <? p_vaddr ph + p_filesz ph)
  then default 0 (data !! Z.to_nat (p_offset ph + (a - p_vaddr ph))) else b.
Definition image (data : list Z) (hs : list Elf64Phdr) (a : Z) : Z :=
  foldl (overlay data a) 0 hs.

Definition page_floor (x : Z) : Z := 4096 * (x / 4096).
Definition seg_lo (ph : Elf64Phdr) : Z := page_floor (p_vaddr ph).
Definition seg_hi (ph : Elf64Phdr) : Z := page_floor (p_vaddr ph + p_memsz ph + 4095).

Definition span_step (r : Z * Z) (ph : Elf64Phdr) : Z * Z :=
  if loadable ph then (Z.min (seg_lo ph) r.1, Z.max (seg_hi ph) r.2) else r.
(** The page range that holds every segment; [(u64_max, 0)] without segments. *)
Definition span (hs : list Elf64Phdr) : Z * Z := foldl span_step (u64_max, 0) hs.

(** A program whose headers and segments lie within the file and within the
    address space. *)
Record well_formed (data : list Z) (h : Elf64Ehdr) : Prop := {
  wf_size : Z.of_nat (length data) <= isize_max;
  wf_fields : 0 <= e_phoff h /\ 0 <= e_phentsize h /\ 0 <= e_phnum h;
  wf_table : forall i, 0 <= i < e_phnum h ->
    e_phoff h + i * e_phentsize h + PHDR_SIZE <= Z.of_nat (length data);
  wf_segment : forall ph, ph ∈ headers data h -> loadable ph = true ->
    0 <= p_vaddr ph /\ 0 < p_memsz ph /\ p_vaddr ph + p_memsz ph + 4095 <= u64_max /\
    0 <= p_filesz ph <= p_memsz ph /\ 0 <= p_offset ph /\
    p_offset ph + p_filesz ph <= Z.of_nat (length data);
}.

Lemma ldiff_floor x : Z.ldiff x 4095 = page_floor x.
Proof.
  change 4095 with (Z.ones 12). rewrite Z.ldiff_ones_r, Z.shiftl_mul_pow2, Z.shiftr_div_pow2 by lia.
  unfold page_floor. change (2 ^ 12) with 4096. lia.
Qed.

Lemma floor_bounds x : page_floor x <= x < page_floor x + 4096.
Proof. unfold page_floor. pose proof (Z.div_mod x 4096). pose proof (Z.mod_pos_bound x 4096). lia. Qed.

Lemma seg_bounds ph : 0 <= p_vaddr ph -> 0 < p_memsz ph ->
  0 <= seg_lo ph <= p_vaddr ph /\ p_vaddr ph + p_memsz ph <= seg_hi ph /\ seg_lo ph < seg_hi ph.
Proof.
  intros Hv Hm. unfold seg_lo, seg_hi. pose proof (floor_bounds (p_vaddr ph)).
  pose proof (floor_bounds (p_vaddr ph + p_memsz ph + 4095)).
  assert (0 <= page_floor (p_vaddr ph)) by (unfold page_floor; pose proof (Z.div_pos (p_vaddr ph) 4096); lia).
  lia.
Qed.

(** The span covers every segment, and is a whole number of pages. *)
Lemma span_grows hs r : (foldl span_step r hs).1 <= r.1 /\ r.2 <= (foldl span_step r hs).2.
Proof.
  revert r. induction hs as [|ph hs IH]; intros r; cbn; [lia|].
  specialize (IH (span_step r ph)). unfold span_step in *. destruct (loadable ph); cbn in *; lia.
Qed.

Lemma span_covers hs r ph : ph ∈ hs -> loadable ph = true ->
  (foldl span_step r hs).1 <= seg_lo ph /\ seg_hi ph <= (foldl span_step r hs).2.
Proof.
  revert r. induction hs as [|x hs IH]; intros r Hin Hl; [by apply elem_of_nil in Hin|]. cbn.
  apply elem_of_cons in Hin as [<-|Hin]; [|by apply IH].
  pose proof (span_grows hs (span_step r ph)) as Hg.
  assert ((span_step r ph).1 <= seg_lo ph /\ seg_hi ph <= (span_step r ph).2)
    by (unfold span_step; rewrite Hl; cbn; lia). lia.
Qed.

Lemma span_pages hs r :
  (r = (u64_max, 0) \/ ((4096 | r.1) /\ (4096 | r.2))) ->
  (forall ph, ph ∈ hs -> loadable ph = true -> 0 <= p_vaddr ph /\ 0 < p_memsz ph /\
     p_vaddr ph + p_memsz ph + 4095 <= u64_max) ->
  foldl span_step r hs = (u64_max, 0) \/
  ((4096 | (foldl span_step r hs).1) /\ (4096 | (foldl span_step r hs).2)).
Proof.
  revert r. induction hs as [|ph hs IH]; intros r Hr Hh; cbn; [done|].
  apply IH; [|intros x Hx; apply Hh; by right]. unfold span_step. destruct (loadable ph) eqn:Hl; [|done].
  destruct (Hh ph ltac:(left) Hl) as (Hv & Hm & Hu). destruct (seg_bounds ph Hv Hm) as (? & ? & ?).
  assert ((4096 | seg_lo ph) /\ (4096 | seg_hi ph)) as [D1 D2].
  { unfold seg_lo, seg_hi, page_floor. split; apply Z.divide_factor_l. }
  right. cbn. destruct Hr as [-> |[R1 R2]]; cbn.
  - rewrite Z.min_l, Z.max_l by (unfold u64_max in *; lia). done.
  - split; [destruct (Z.min_dec (seg_lo ph) r.1) as [-> | ->]|destruct (Z.max_dec (seg_hi ph) r.2) as [-> | ->]]; done.
Qed.

(** ** Loading *)

Section Load.
Context {W : Type} `{UserSpaceLaws W} (beyond data : list Z) (h : Elf64Ehdr) (cr3 : Z).
Context (WF : well_formed data h).

Lemma phdr_in_file i : 0 <= i < e_phnum h ->
  ph_off h i = Ret (e_phoff h + i * e_phentsize h) /\
  ph_end (e_phoff h + i * e_phentsize h) = Ret (e_phoff h + i * e_phentsize h + 56) /\
  read_phdr beyond data (e_phoff h + i * e_phentsize h) = Ret (hdr data h i).
Proof.
  intros Hi. pose proof (wf_table data h WF i Hi) as Ht. destruct (wf_fields data h WF) as (? & ? & ?).
  pose proof (wf_size data h WF). unfold PHDR_SIZE, isize_max in *.
  assert (0 <= i * e_phentsize h) by (apply Z.mul_nonneg_nonneg; lia).
  unfold ph_off, ph_end, read_phdr, cmul, cadd, PHDR_SIZE, u64_max.
  destruct (Z.leb_spec (i * e_phentsize h) 18446744073709551615); [|lia]. cbn [mbind outcome_mbind].
  destruct (Z.leb_spec (e_phoff h + i * e_phentsize h) 18446744073709551615); [|lia].
  destruct (Z.leb_spec (e_phoff h + i * e_phentsize h + 56) 18446744073709551615); [|lia].
  destruct (Z.leb_spec (e_phoff h + i * e_phentsize h) (Z.of_nat (length data))); [|lia].
  split; [done|]. split; [done|]. f_equal. unfold hdr, phdr_of, field.
  assert (forall o n, (o + n <= length data)%nat -> take n (drop o (data ++ beyond)) = take n (drop o data)) as Hf.
  { intros o n Hon. rewrite drop_app_le by lia. rewrite take_app_le; [done|]. rewrite length_drop. lia. }
  rewrite !Hf by lia. done.
Qed.

Lemma in_headers i : 0 <= i < e_phnum h -> hdr data h i ∈ headers data h.
Proof. intros Hi. apply list_elem_of_fmap. exists i. split; [done|]. apply elem_of_seqZ. lia. Qed.

Lemma range_span ix r : (forall i, i ∈ ix -> 0 <= i < e_phnum h) ->
  range beyond data h ix r.1 r.2 = Ret (foldl span_step r (hdr data h <$> ix)).
Proof.
  revert r. induction ix as [|i ix IH]; intros r Hix; [by destruct r|]. cbn [range].
  assert (0 <= i < e_phnum h) as Hi by (apply Hix; by left).
  destruct (phdr_in_file i Hi) as (-> & E2 & E3). cbn [mbind outcome_mbind]. rewrite E2.
  cbn [mbind outcome_mbind]. pose proof (wf_table data h WF i Hi) as Ht. unfold PHDR_SIZE in Ht.
  destruct (Z.ltb_spec (Z.of_nat (length data)) (e_phoff h + i * e_phentsize h + 56)); [lia|].
  rewrite E3. cbn [mbind outcome_mbind]. rewrite fmap_cons. cbn [foldl]. unfold span_step at 2.
  destruct (loadable (hdr data h i)) eqn:Hl; cbn [negb]; [|apply IH; intros; apply Hix; by right].
  destruct (wf_segment data h WF _ (in_headers i Hi) Hl) as (Hv & Hm & Hu & _).
  assert (va_end (hdr data h i) = Ret (seg_hi (hdr data h i))) as ->.
  { unfold va_end, cadd. destruct (Z.leb_spec (p_vaddr (hdr data h i) + p_memsz (hdr data h i)) u64_max); [|lia].
    cbn [mbind outcome_mbind].
    destruct (Z.leb_spec (p_vaddr (hdr data h i) + p_memsz (hdr data h i) + 4095) u64_max); [|lia]. cbn [mbind outcome_mbind].
    by rewrite ldiff_floor. }
  cbn [mbind outcome_mbind]. unfold va_start. rewrite ldiff_floor. fold (seg_lo (hdr data h i)).
  rewrite <- IH by (intros; apply Hix; by right). f_equal.
  - destruct (Z.ltb_spec (seg_lo (hdr data h i)) r.1); cbn; lia.
  - destruct (Z.ltb_spec r.2 (seg_hi (hdr data h i))); cbn; lia.
Qed.

(** Copying one segment into mapped memory overlays the image with it. *)
Lemma copy_pass_ok i w (im : Z -> Z) lo hi base : 0 <= i < e_phnum h ->
  (loadable (hdr data h i) = true -> lo <= seg_lo (hdr data h i) /\ seg_hi (hdr data h i) <= hi) ->
  (forall a, us_peek w cr3 a = if decide (lo <= a < hi) then Some (im a) else base a) ->
  exists w', copy_pass beyond data cr3 h i w = Ret (Ok tt, w') /\
    forall a, us_peek w' cr3 a =
      if decide (lo <= a < hi) then Some (overlay data a (im a) (hdr data h i)) else base a.
Proof.
  intros Hi Hhi Hw. destruct (phdr_in_file i Hi) as (E1 & _ & E3).
  unfold copy_pass, pbind at 1, checked at 1. rewrite E1. unfold pbind at 1, checked at 1. rewrite E3.
  unfold overlay. destruct (loadable (hdr data h i)) eqn:Hl; cbn [negb andb]; [|by exists w].
  destruct (wf_segment data h WF _ (in_headers i Hi) Hl) as (Hv & Hm & Hu & Hf & Ho & He).
  destruct (Hhi eq_refl). destruct (seg_bounds (hdr data h i) Hv Hm) as (? & ? & _).
  unfold copy_segment. destruct (Z.ltb_spec 0 (p_filesz (hdr data h i))) as [Hfs|Hfs].
  - unfold pbind, checked, cadd. pose proof (wf_size data h WF). unfold isize_max, u64_max in *.
    destruct (Z.leb_spec (p_offset (hdr data h i) + p_filesz (hdr data h i)) 18446744073709551615); [|lia].
    destruct (Z.ltb_spec (Z.of_nat (length data)) (p_offset (hdr data h i) + p_filesz (hdr data h i))); [lia|].
    set (bs := take _ _). assert (Z.of_nat (length bs) = p_filesz (hdr data h i)) as Hlen.
    { subst bs. rewrite length_take, length_drop. lia. }
    destruct (us_copy_ok cr3 (p_vaddr (hdr data h i)) bs w) as (w' & E & P).
    { intros a Ha. rewrite Hw, decide_True by lia. eauto. }
    exists w'. split; [done|]. intros a. rewrite P, Hlen. case_decide as Hin.
    + rewrite decide_True by lia. rewrite !(proj2 (Z.leb_le _ _)), !(proj2 (Z.ltb_lt _ _)) by lia. cbn [andb].
      subst bs. rewrite lookup_take_lt by lia. rewrite lookup_drop.
      replace (Z.to_nat (p_offset (hdr data h i)) + Z.to_nat (a - p_vaddr (hdr data h i)))%nat
        with (Z.to_nat (p_offset (hdr data h i) + (a - p_vaddr (hdr data h i)))) by lia.
      destruct (lookup_lt_is_Some_2 data (Z.to_nat (p_offset (hdr data h i) + (a - p_vaddr (hdr data h i)))))
        as [b ->]; [lia|done].
    + rewrite Hw. case_decide; [|done]. do 2 f_equal.
      destruct (Z.leb_spec (p_vaddr (hdr data h i)) a), (Z.ltb_spec a (p_vaddr (hdr data h i) + p_filesz (hdr data h i)));
        cbn; done || lia.
  - exists w. split; [done|]. intros a. rewrite Hw. case_decide; [|done]. do 2 f_equal.
    destruct (Z.leb_spec (p_vaddr (hdr data h i)) a), (Z.ltb_spec a (p_vaddr (hdr data h i) + p_filesz (hdr data h i)));
      cbn; done || lia.
Qed.

Lemma copy_all lo hi base :
  (forall ph, ph ∈ headers data h -> loadable ph = true -> lo <= seg_lo ph /\ seg_hi ph <= hi) ->
  triple (fun w => forall a, us_peek w cr3 a = if decide (lo <= a < hi) then Some 0 else base a)
    (for_each (seqZ 0 (e_phnum h)) (copy_pass beyond data cr3 h))
    (fun r w => match r with
                | Ok _ => forall a, us_peek w cr3 a =
                    if decide (lo <= a < hi) then Some (image data (headers data h) a) else base a
                | Err _ => False
                end).
Proof.
  intros Hspan.
  set (I := fun (dn : list Z) (w : W) => forall a, us_peek w cr3 a =
    if decide (lo <= a < hi) then Some (image data (hdr data h <$> dn) a) else base a).
  eapply triple_conseq; [apply (triple_for_each I (fun _ _ => False))| |]; subst I; cbv beta;
    [|by intros w Hw|by intros r w Hw].
  intros dn i rest Hix w Hw.
  assert (0 <= i < e_phnum h) as Hi.
  { assert (i ∈ seqZ 0 (e_phnum h)) as Hin by (rewrite Hix; apply elem_of_app; right; by left).
    apply elem_of_seqZ in Hin. lia. }
  destruct (copy_pass_ok i w (image data (hdr data h <$> dn)) lo hi base Hi) as (w' & E & P).
  - intros Hl. by apply Hspan, Hl; apply in_headers.
  - done.
  - exists (Ok tt), w'. split; [done|]. intros a. rewrite P. case_decide; [|done].
    unfold image. by rewrite fmap_app, foldl_app.
Qed.
End Load.

(** C10: Loading builds the image.  For a well-formed program whose page range can
    be mapped, [load_in] returns the entry point and never panics; in the page
    range every byte reads as the program says (the byte of the last segment
    whose file part covers the address, zero elsewhere, so .bss is clear), and
    no byte outside the range changes. *)
Theorem load_in_builds_the_image {W : Type} `{UserSpaceLaws W} (beyond data : list Z) (h : Elf64Ehdr)
    (cr3 : Z) (w w1 : W) (lo hi : Z)
    (Hhdr : check_header data w = Ret (Ok h, w)) (WF : well_formed data h)
    (Hspan : span (headers data h) = (lo, hi)) (Hsome : lo < hi)
    (Hmap : us_map cr3 lo ((hi - lo) / 4096) w = Ret (Ok tt, w1)) :
  exists w', load_in beyond data cr3 w = Ret (Ok (e_entry h), w') /\
    forall a, us_peek w' cr3 a =
      if decide (lo <= a < hi) then Some (image data (headers data h) a) else us_peek w cr3 a.
Proof.
  assert (range beyond data h (seqZ 0 (e_phnum h)) u64_max 0 = Ret (lo, hi)) as Hrange.
  { rewrite (range_span beyond data h WF _ (u64_max, 0)).
    - by rewrite <- Hspan.
    - intros i Hi. apply elem_of_seqZ in Hi. lia. }
  assert (4096 * ((hi - lo) / 4096) = hi - lo) as Hpages.
  { destruct (span_pages (headers data h) (u64_max, 0)) as [E|[D1 D2]]; [by left| | |].
    - intros ph Hin Hl. destruct (wf_segment data h WF ph Hin Hl) as (? & ? & ? & _). done.
    - unfold span in Hspan. rewrite E in Hspan. injection Hspan as <- <-. unfold u64_max in *. lia.
    - unfold span in Hspan. rewrite Hspan in D1, D2. cbn in D1, D2. symmetry.
      apply Z.div_exact; [lia|]. apply Z.mod_divide; [lia|]. by apply Z.divide_sub_r. }
  pose proof (us_map_ok _ _ _ _ _ Hmap) as Hzero. rewrite Hpages in Hzero.
  destruct (copy_all beyond data h cr3 WF lo hi (us_peek w cr3)) with (w := w1) as (r & w' & E & P).
  - intros ph Hin Hl. pose proof (span_covers (headers data h) (u64_max, 0) ph Hin Hl) as Hc.
    unfold span in Hspan. by rewrite Hspan in Hc.
  - intros a. rewrite Hzero. by replace (lo + (hi - lo)) with hi by lia.
  - destruct r as [[]|]; [|done]. exists w'. split; [|done].
    unfold load_in. unfold pbind at 1. rewrite Hhdr. unfold pbind at 1, checked at 1. rewrite Hrange.
    cbv iota beta. rewrite (proj2 (Z.ltb_lt _ _) Hsome). unfold pbind at 1, catch. unfold PAGE_SIZE. rewrite Hmap.
    unfold pbind at 1, ok at 1. unfold pbind. rewrite E. done.
Qed.

(** A malformed header table aborts the kernel: when the offset of the
    program headers is so large that the end of the first one overflows,
    [load_in] panics instead of reporting an error. *)
Theorem header_table_overflow_aborts {W : Type} `{UserSpace W} (beyond data : list Z) (h : Elf64Ehdr)
    (cr3 : Z) (w : W) (Hhdr : check_header data w = Ret (Ok h, w))
    (Hn : 0 < e_phnum h) (Hoff : e_phoff h <= u64_max < e_phoff h + PHDR_SIZE) :
  load_in beyond data cr3 w = Panic.
Proof.
  unfold load_in. unfold pbind at 1. rewrite Hhdr. unfold pbind at 1, checked at 1.
  rewrite (seqZ_cons 0 (e_phnum h)) by done. cbn [range]. unfold ph_off, ph_end, cmul, cadd.
  rewrite Z.mul_0_l. change (0 <=? u64_max) with true. cbn [mbind outcome_mbind].
  rewrite Z.add_0_r, (proj2 (Z.leb_le _ _)) by lia. cbn [mbind outcome_mbind].
  rewrite (proj2 (Z.leb_gt _ _)) by lia. done.
Qed.

(** A header that does not lie within the file is still executed: the pass
    that maps the segments skips it, the pass that copies them reads it from the
    memory behind the file and copies to the address found there. *)
Theorem header_past_the_file_is_executed {W : Type} `{UserSpace W} (beyond data : list Z) (h : Elf64Ehdr)
    (cr3 : Z) (w : W) (Hhdr : check_header data w = Ret (Ok h, w)) (Hn : e_phnum h = 1)
    (Hoff : 0 <= e_phoff h <= Z.of_nat (length data)) (Hsize : Z.of_nat (length data) <= isize_max)
    (Hpast : Z.of_nat (length data) < e_phoff h + PHDR_SIZE) :
  let ph := phdr_of (data ++ beyond) (Z.to_nat (e_phoff h)) in
  load_in beyond data cr3 w =
  (let? _ := if loadable ph then copy_segment data cr3 ph else ok tt in ok (e_entry h)) w.
Proof.
  intros ph. unfold load_in. unfold pbind at 1. rewrite Hhdr, Hn. unfold PHDR_SIZE, isize_max in *.
  assert (ph_off h 0 = Ret (e_phoff h)) as E1.
  { unfold ph_off, cmul, cadd. rewrite Z.mul_0_l. change (0 <=? u64_max) with true. cbn [mbind outcome_mbind].
    rewrite Z.add_0_r, (proj2 (Z.leb_le _ _)) by (unfold u64_max; lia). done. }
  assert (read_phdr beyond data (e_phoff h) = Ret ph) as E2.
  { unfold read_phdr. by rewrite (proj2 (Z.leb_le _ _)) by lia. }
  change (seqZ 0 1) with [0]. cbn [range for_each]. rewrite E1. cbn [mbind outcome_mbind].
  unfold ph_end, cadd, PHDR_SIZE. rewrite (proj2 (Z.leb_le _ _)) by (unfold u64_max; lia).
  cbn [mbind outcome_mbind]. rewrite (proj2 (Z.ltb_lt _ _)) by lia.
  unfold pbind, checked, catch, copy_pass, ok, pbind, checked. cbn [range].
  change (u64_max <? 0) with false. cbv iota beta. rewrite E1, E2. fold ph.
  by destruct (loadable ph); cbn [negb]; [|done]; destruct (copy_segment data cr3 ph w) as [[[]]|].
Qed.

(** ** A space with unlimited memory *)

#[export] Instance flat_space : UserSpace (Z -> Z -> option Z) := {|
  us_map := fun cr3 base n w => Ret (Ok tt, fun c a =>
    if decide (c = cr3 /\ base <= a < base + 4096 * n) then Some 0 else w c a);
  us_copy := fun cr3 va bs w => Ret (Ok tt, fun c a =>
    if decide (c = cr3 /\ va <= a < va + Z.of_nat (length bs)) then bs !! Z.to_nat (a - va) else w c a);
  us_peek := fun w c a => w c a;
|}.

#[export] Instance flat_space_laws : UserSpaceLaws (Z -> Z -> option Z).
Proof.
  constructor.
  - intros cr3 base n w w' [= <-] a. cbn. destruct (decide (base <= a < base + 4096 * n)).
    + by rewrite decide_True.
    + by rewrite decide_False by tauto.
  - intros cr3 va bs w _. eexists. split; [done|]. intros a. cbn.
    destruct (decide (va <= a < va + Z.of_nat (length bs))).
    + by rewrite decide_True.
    + by rewrite decide_False by tauto.
Qed.

(** A program of one segment: three bytes of code at 4 MiB, eight bytes long. *)
Definition tiny_header (phoff : Z) : list Z :=
  ELFMAG ++ [2; 1; 1; 0] ++ replicate 8 0 ++ le_encode 2 2 ++ le_encode 2 62 ++ le_encode 4 1 ++
  le_encode 8 0x400000 ++ le_encode 8 phoff ++ le_encode 8 0 ++ le_encode 4 0 ++ le_encode 2 64 ++
  le_encode 2 56 ++ le_encode 2 1 ++ replicate 6 0.
Definition tiny : list Z :=
  tiny_header 64 ++
  le_encode 4 1 ++ le_encode 4 5 ++ le_encode 8 120 ++ le_encode 8 0x400000 ++ le_encode 8 0 ++
  le_encode 8 3 ++ le_encode 8 8 ++ le_encode 8 4096 ++ [144; 15; 11].

Definition blank : Z -> Z -> option Z := fun _ _ => None.

Lemma tiny_well_formed : well_formed tiny (ehdr_of tiny).
Proof.
  constructor.
  - vm_compute. by intros [=].
  - vm_compute. done.
  - intros i Hi. change (e_phnum (ehdr_of tiny)) with 1 in Hi. assert (i = 0) as -> by lia.
    vm_compute. by intros [=].
  - intros ph Hin _. apply list_elem_of_fmap in Hin as (i & -> & Hi%elem_of_seqZ).
    change (e_phnum (ehdr_of tiny)) with 1 in Hi. assert (i = 0) as -> by lia.
    vm_compute. done.
Qed.

Lemma load_in_builds_the_image_witness : exists w',
  load_in [] tiny 7 blank = Ret (Ok 0x400000, w') /\
  us_peek w' 7 0x400000 = Some 144 /\ us_peek w' 7 0x400005 = Some 0 /\ us_peek w' 7 0x3FFFFF = None.
Proof.
  destruct (load_in_builds_the_image [] tiny (ehdr_of tiny) 7 blank
    (fun c a => if decide (c = 7 /\ 0x400000 <= a < 0x400000 + 4096 * 1) then Some 0 else blank c a)
    0x400000 0x401000) as (w' & H1 & H2).
  - vm_compute. reflexivity.
  - apply tiny_well_formed.
  - vm_compute. reflexivity.
  - lia.
  - reflexivity.
  - exists w'. rewrite !H2. split; [exact H1|]. split; [vm_compute; reflexivity|].
    split; [vm_compute; reflexivity|]. vm_compute; reflexivity.
Defined.

Lemma header_table_overflow_aborts_witness :
  load_in [] (tiny_header 18446744073709551600) 7 blank = Panic.
Proof.
  apply (header_table_overflow_aborts [] (tiny_header 18446744073709551600)
    (ehdr_of (tiny_header 18446744073709551600)) 7 blank).
  - vm_compute. reflexivity.
  - vm_compute. reflexivity.
  - vm_compute. split; [by intros [=]|reflexivity].
Defined.

Lemma header_past_the_file_is_executed_witness :
  load_in [] (tiny_header 64) 7 blank = Ret (Ok 0x400000, blank).
Proof.
  pose proof (header_past_the_file_is_executed [] (tiny_header 64) (ehdr_of (tiny_header 64)) 7 blank) as T.
  cbv zeta in T. rewrite T; [vm_compute; reflexivity|vm_compute; reflexivity|vm_compute; reflexivity| | |].
  - vm_compute. split; by intros [=].
  - vm_compute. by intros [=].
  - vm_compute. reflexivity.
Defined.

End elf_spec.
