(* ===== verification/Task.v ===== *)
(** * Tasks (kernel/src/kernel/proc/scheduler.rs, kernel/src/kernel/proc/user_mode.rs)

    Module [task]: a saved register context, the states of a task, and the task
    record with all its fields, as the scheduler keeps them.  [output] pairs the
    capture buffer with its length, as [FdTable.task_output] does.  A field [f]
    is updated by [set_f]. *)

From stdpp Require Import base list gmap strings.
From Stdlib Require Import ZArith Lia.
From S2P Require Import Prelude FdTable Shm.

Local Open Scope Z_scope.

Module task.
Import fdtable.

(* @src proc/scheduler.rs 18-18 MAX_TASKS *)
Definition MAX_TASKS : nat := 8.
(* @src proc/scheduler.rs 20-20 USER_CODE_ADDR *)
Definition USER_CODE_ADDR : Z := 0x400000.
(* @src proc/scheduler.rs 21-21 USER_STACK_TOP *)
Definition USER_STACK_TOP : Z := 0x800000.
(* @src proc/scheduler.rs 22-22 USER_STACK_PAGES *)
Definition USER_STACK_PAGES : Z := 64.
(* @src proc/scheduler.rs 26-26 TICKS_PER_SLICE *)
Definition TICKS_PER_SLICE : Z := 2.
(* @src proc/scheduler.rs 29-29 EXIT_PREEMPTED *)
Definition EXIT_PREEMPTED : Z := -9223372036854775808.
(* @src proc/scheduler.rs 31-31 EXIT_SLEEPING *)
Definition EXIT_SLEEPING : Z := -9223372036854775807.
(* @src proc/scheduler.rs 52-52 CWD_MAX *)
Definition CWD_MAX : nat := 128.
(* @src proc/scheduler.rs 55-55 MAX_MMAP_REGIONS *)
Definition MAX_MMAP_REGIONS : nat := 32.
(* @src proc/scheduler.rs 69-69 NSIG *)
Definition NSIG : nat := 32.
(* @src proc/scheduler.rs 72-72 SIG_DFL *)
Definition SIG_DFL : Z := 0.
(* @src proc/scheduler.rs 74-74 SIG_IGN *)
Definition SIG_IGN : Z := 1.
(* @src proc/scheduler.rs 80-80 SIGALRM *)
Definition SIGALRM : Z := 14.
(* @src proc/scheduler.rs 81-81 SIGKILL *)
Definition SIGKILL : Z := 9.
(* @src proc/scheduler.rs 83-83 SIGCHLD *)
Definition SIGCHLD : Z := 17.
(* @src proc/scheduler.rs 84-84 SIGCONT *)
Definition SIGCONT : Z := 18.
(* @src proc/scheduler.rs 85-85 SIGSTOP *)
Definition SIGSTOP : Z := 19.
(* @src proc/scheduler.rs 95-95 USER_SIGTRAMP *)
Definition USER_SIGTRAMP : Z := 0x900000.
(* @src proc/scheduler.rs 99-103 SIGTRAMP_BYTES *)
Definition SIGTRAMP_BYTES : list Z := [0x48; 0xc7; 0xc0; 95; 0; 0; 0; 0xcd; 0x80; 0x0f; 0x0b].

(* @src proc/user_mode.rs 23-31 TaskContext *)
Record TaskContext := mkCtx {
  r15 : Z; r14 : Z; r13 : Z; r12 : Z; r11 : Z; r10 : Z; r9 : Z; r8 : Z; rdi : Z; rsi : Z; rbp : Z;
  rdx : Z; rcx : Z; rbx : Z; rax : Z; rip : Z; cs : Z; rflags : Z; rsp : Z; ss : Z;
}.

(* @src proc/user_mode.rs 33-41 TaskContext::zeroed *)
Definition zeroed : TaskContext := mkCtx 0 0 0 0 0 0 0 0 0 0 0 0 0 0 0 0 0 0 0 0.

Definition with_rax (c : TaskContext) (x : Z) : TaskContext :=
  mkCtx (r15 c) (r14 c) (r13 c) (r12 c) (r11 c) (r10 c) (r9 c) (r8 c) (rdi c) (rsi c) (rbp c)
  (rdx c) (rcx c) (rbx c) x (rip c) (cs c) (rflags c) (rsp c) (ss c).
Definition with_rip (c : TaskContext) (x : Z) : TaskContext :=
  mkCtx (r15 c) (r14 c) (r13 c) (r12 c) (r11 c) (r10 c) (r9 c) (r8 c) (rdi c) (rsi c) (rbp c)
  (rdx c) (rcx c) (rbx c) (rax c) x (cs c) (rflags c) (rsp c) (ss c).
Definition with_rsp (c : TaskContext) (x : Z) : TaskContext :=
  mkCtx (r15 c) (r14 c) (r13 c) (r12 c) (r11 c) (r10 c) (r9 c) (r8 c) (rdi c) (rsi c) (rbp c)
  (rdx c) (rcx c) (rbx c) (rax c) (rip c) (cs c) (rflags c) x (ss c).
Definition with_rdi (c : TaskContext) (x : Z) : TaskContext :=
  mkCtx (r15 c) (r14 c) (r13 c) (r12 c) (r11 c) (r10 c) (r9 c) (r8 c) x (rsi c) (rbp c) (rdx c)
  (rcx c) (rbx c) (rax c) (rip c) (cs c) (rflags c) (rsp c) (ss c).

(* @src proc/scheduler.rs 36-44 TaskState *)
Inductive TaskState :=
| Empty
| Ready
| Running
| Sleeping (wake : Z)
| Waiting (child : Z)
| WaitingForMsg (queue_id msg_ptr : Z)
| Dead (code : Z).

#[export] Instance task_state_eq_dec : EqDecision TaskState.
Proof. solve_decision. Defined.

(* @src proc/scheduler.rs 47-49 TaskState::exit_code *)
Definition exit_code (s : TaskState) : option Z :=
  match s with Dead c => Some c | _ => None end.

(** [matches!(state, TaskState::Empty | TaskState::Dead(_))] *)
Definition vacant (s : TaskState) : bool :=
  match s with Empty | Dead _ => true | _ => false end.

(* @src proc/scheduler.rs 59-66 MmapRegion *)
Record MmapRegion := mkRegion { virt : Z; pages : Z }.
Definition no_region : MmapRegion := mkRegion 0 0.

(* @src proc/scheduler.rs 129-177 Task *)
Record Task := mkTask {
  state : TaskState;
  ctx : TaskContext;
  name : list Z;
  name_len : nat;
  first_run : bool;
  entry : Z;
  cr3 : Z;
  pid : Z;
  parent_pid : Z;
  pgid : Z;
  fs_base : Z;
  heap_end : Z;
  mmap_end : Z;
  output : task_output.t;
  fd_table : FdTable;
  cwd : list Z;
  cwd_len : nat;
  pending_signals : Z;
  signal_mask : Z;
  saved_signal_mask : Z;
  in_sigsuspend : bool;
  alarm_deadline : Z;
  signal_handlers : list Z;
  shm_attaches : list shm.ShmAttach;
  initial_rsp : Z;
  mmap_regions : list MmapRegion;
  mmap_nregions : nat;
}.

(* @src proc/scheduler.rs 180-214 Task::empty *)
Definition empty : Task := {|
  state := Empty; ctx := zeroed; name := replicate 16 0; name_len := 0; first_run := true;
  entry := USER_CODE_ADDR; cr3 := 0; pid := 0; parent_pid := 0; pgid := 0; fs_base := 0;
  heap_end := 0; mmap_end := 0; output := task_output.empty; fd_table := new;
  cwd := 47 :: replicate 127 0; cwd_len := 1; pending_signals := 0; signal_mask := 0;
  saved_signal_mask := 0; in_sigsuspend := false; alarm_deadline := 0;
  signal_handlers := replicate NSIG 0; shm_attaches := shm.no_attaches;
  initial_rsp := USER_STACK_TOP - 16; mmap_regions := replicate MAX_MMAP_REGIONS no_region;
  mmap_nregions := 0 |}.

Definition set_state (t : Task) (x : TaskState) : Task :=
  mkTask x (ctx t) (name t) (name_len t) (first_run t) (entry t) (cr3 t) (pid t) (parent_pid t)
  (pgid t) (fs_base t) (heap_end t) (mmap_end t) (output t) (fd_table t) (cwd t) (cwd_len t)
  (pending_signals t) (signal_mask t) (saved_signal_mask t) (in_sigsuspend t) (alarm_deadline t)
  (signal_handlers t) (shm_attaches t) (initial_rsp t) (mmap_regions t) (mmap_nregions t).
Definition set_ctx (t : Task) (x : TaskContext) : Task :=
  mkTask (state t) x (name t) (name_len t) (first_run t) (entry t) (cr3 t) (pid t) (parent_pid t)
  (pgid t) (fs_base t) (heap_end t) (mmap_end t) (output t) (fd_table t) (cwd t) (cwd_len t)
  (pending_signals t) (signal_mask t) (saved_signal_mask t) (in_sigsuspend t) (alarm_deadline t)
  (signal_handlers t) (shm_attaches t) (initial_rsp t) (mmap_regions t) (mmap_nregions t).
Definition set_name (t : Task) (x : list Z) : Task :=
  mkTask (state t) (ctx t) x (name_len t) (first_run t) (entry t) (cr3 t) (pid t) (parent_pid t)
  (pgid t) (fs_base t) (heap_end t) (mmap_end t) (output t) (fd_table t) (cwd t) (cwd_len t)
  (pending_signals t) (signal_mask t) (saved_signal_mask t) (in_sigsuspend t) (alarm_deadline t)
  (signal_handlers t) (shm_attaches t) (initial_rsp t) (mmap_regions t) (mmap_nregions t).
Definition set_name_len (t : Task) (x : nat) : Task :=
  mkTask (state t) (ctx t) (name t) x (first_run t) (entry t) (cr3 t) (pid t) (parent_pid t)
  (pgid t) (fs_base t) (heap_end t) (mmap_end t) (output t) (fd_table t) (cwd t) (cwd_len t)
  (pending_signals t) (signal_mask t) (saved_signal_mask t) (in_sigsuspend t) (alarm_deadline t)
  (signal_handlers t) (shm_attaches t) (initial_rsp t) (mmap_regions t) (mmap_nregions t).
Definition set_first_run (t : Task) (x : bool) : Task :=
  mkTask (state t) (ctx t) (name t) (name_len t) x (entry t) (cr3 t) (pid t) (parent_pid t)
  (pgid t) (fs_base t) (heap_end t) (mmap_end t) (output t) (fd_table t) (cwd t) (cwd_len t)
  (pending_signals t) (signal_mask t) (saved_signal_mask t) (in_sigsuspend t) (alarm_deadline t)
  (signal_handlers t) (shm_attaches t) (initial_rsp t) (mmap_regions t) (mmap_nregions t).
Definition set_entry (t : Task) (x : Z) : Task :=
  mkTask (state t) (ctx t) (name t) (name_len t) (first_run t) x (cr3 t) (pid t) (parent_pid t)
  (pgid t) (fs_base t) (heap_end t) (mmap_end t) (output t) (fd_table t) (cwd t) (cwd_len t)
  (pending_signals t) (signal_mask t) (saved_signal_mask t) (in_sigsuspend t) (alarm_deadline t)
  (signal_handlers t) (shm_attaches t) (initial_rsp t) (mmap_regions t) (mmap_nregions t).
Definition set_cr3 (t : Task) (x : Z) : Task :=
  mkTask (state t) (ctx t) (name t) (name_len t) (first_run t) (entry t) x (pid t) (parent_pid t)
  (pgid t) (fs_base t) (heap_end t) (mmap_end t) (output t) (fd_table t) (cwd t) (cwd_len t)
  (pending_signals t) (signal_mask t) (saved_signal_mask t) (in_sigsuspend t) (alarm_deadline t)
  (signal_handlers t) (shm_attaches t) (initial_rsp t) (mmap_regions t) (mmap_nregions t).
Definition set_pid (t : Task) (x : Z) : Task :=
  mkTask (state t) (ctx t) (name t) (name_len t) (first_run t) (entry t) (cr3 t) x (parent_pid t)
  (pgid t) (fs_base t) (heap_end t) (mmap_end t) (output t) (fd_table t) (cwd t) (cwd_len t)
  (pending_signals t) (signal_mask t) (saved_signal_mask t) (in_sigsuspend t) (alarm_deadline t)
  (signal_handlers t) (shm_attaches t) (initial_rsp t) (mmap_regions t) (mmap_nregions t).
Definition set_parent_pid (t : Task) (x : Z) : Task :=
  mkTask (state t) (ctx t) (name t) (name_len t) (first_run t) (entry t) (cr3 t) (pid t) x (pgid t)
  (fs_base t) (heap_end t) (mmap_end t) (output t) (fd_table t) (cwd t) (cwd_len t)
  (pending_signals t) (signal_mask t) (saved_signal_mask t) (in_sigsuspend t) (alarm_deadline t)
  (signal_handlers t) (shm_attaches t) (initial_rsp t) (mmap_regions t) (mmap_nregions t).
Definition set_pgid (t : Task) (x : Z) : Task :=
  mkTask (state t) (ctx t) (name t) (name_len t) (first_run t) (entry t) (cr3 t) (pid t)
  (parent_pid t) x (fs_base t) (heap_end t) (mmap_end t) (output t) (fd_table t) (cwd t)
  (cwd_len t) (pending_signals t) (signal_mask t) (saved_signal_mask t) (in_sigsuspend t)
  (alarm_deadline t) (signal_handlers t) (shm_attaches t) (initial_rsp t) (mmap_regions t)
  (mmap_nregions t).
Definition set_fs_base (t : Task) (x : Z) : Task :=
  mkTask (state t) (ctx t) (name t) (name_len t) (first_run t) (entry t) (cr3 t) (pid t)
  (parent_pid t) (pgid t) x (heap_end t) (mmap_end t) (output t) (fd_table t) (cwd t) (cwd_len t)
  (pending_signals t) (signal_mask t) (saved_signal_mask t) (in_sigsuspend t) (alarm_deadline t)
  (signal_handlers t) (shm_attaches t) (initial_rsp t) (mmap_regions t) (mmap_nregions t).
Definition set_heap_end (t : Task) (x : Z) : Task :=
  mkTask (state t) (ctx t) (name t) (name_len t) (first_run t) (entry t) (cr3 t) (pid t)
  (parent_pid t) (pgid t) (fs_base t) x (mmap_end t) (output t) (fd_table t) (cwd t) (cwd_len t)
  (pending_signals t) (signal_mask t) (saved_signal_mask t) (in_sigsuspend t) (alarm_deadline t)
  (signal_handlers t) (shm_attaches t) (initial_rsp t) (mmap_regions t) (mmap_nregions t).
Definition set_mmap_end (t : Task) (x : Z) : Task :=
  mkTask (state t) (ctx t) (name t) (name_len t) (first_run t) (entry t) (cr3 t) (pid t)
  (parent_pid t) (pgid t) (fs_base t) (heap_end t) x (output t) (fd_table t) (cwd t) (cwd_len t)
  (pending_signals t) (signal_mask t) (saved_signal_mask t) (in_sigsuspend t) (alarm_deadline t)
  (signal_handlers t) (shm_attaches t) (initial_rsp t) (mmap_regions t) (mmap_nregions t).
Definition set_output (t : Task) (x : task_output.t) : Task :=
  mkTask (state t) (ctx t) (name t) (name_len t) (first_run t) (entry t) (cr3 t) (pid t)
  (parent_pid t) (pgid t) (fs_base t) (heap_end t) (mmap_end t) x (fd_table t) (cwd t) (cwd_len t)
  (pending_signals t) (signal_mask t) (saved_signal_mask t) (in_sigsuspend t) (alarm_deadline t)
  (signal_handlers t) (shm_attaches t) (initial_rsp t) (mmap_regions t) (mmap_nregions t).
Definition set_fd_table (t : Task) (x : FdTable) : Task :=
  mkTask (state t) (ctx t) (name t) (name_len t) (first_run t) (entry t) (cr3 t) (pid t)
  (parent_pid t) (pgid t) (fs_base t) (heap_end t) (mmap_end t) (output t) x (cwd t) (cwd_len t)
  (pending_signals t) (signal_mask t) (saved_signal_mask t) (in_sigsuspend t) (alarm_deadline t)
  (signal_handlers t) (shm_attaches t) (initial_rsp t) (mmap_regions t) (mmap_nregions t).
Definition set_cwd (t : Task) (x : list Z) (n : nat) : Task :=
  mkTask (state t) (ctx t) (name t) (name_len t) (first_run t) (entry t) (cr3 t) (pid t)
  (parent_pid t) (pgid t) (fs_base t) (heap_end t) (mmap_end t) (output t) (fd_table t) x n
  (pending_signals t) (signal_mask t) (saved_signal_mask t) (in_sigsuspend t) (alarm_deadline t)
  (signal_handlers t) (shm_attaches t) (initial_rsp t) (mmap_regions t) (mmap_nregions t).
Definition set_pending_signals (t : Task) (x : Z) : Task :=
  mkTask (state t) (ctx t) (name t) (name_len t) (first_run t) (entry t) (cr3 t) (pid t)
  (parent_pid t) (pgid t) (fs_base t) (heap_end t) (mmap_end t) (output t) (fd_table t) (cwd t)
  (cwd_len t) x (signal_mask t) (saved_signal_mask t) (in_sigsuspend t) (alarm_deadline t)
  (signal_handlers t) (shm_attaches t) (initial_rsp t) (mmap_regions t) (mmap_nregions t).
Definition set_signal_mask (t : Task) (x : Z) : Task :=
  mkTask (state t) (ctx t) (name t) (name_len t) (first_run t) (entry t) (cr3 t) (pid t)
  (parent_pid t) (pgid t) (fs_base t) (heap_end t) (mmap_end t) (output t) (fd_table t) (cwd t)
  (cwd_len t) (pending_signals t) x (saved_signal_mask t) (in_sigsuspend t) (alarm_deadline t)
  (signal_handlers t) (shm_attaches t) (initial_rsp t) (mmap_regions t) (mmap_nregions t).
Definition set_saved_signal_mask (t : Task) (x : Z) : Task :=
  mkTask (state t) (ctx t) (name t) (name_len t) (first_run t) (entry t) (cr3 t) (pid t)
  (parent_pid t) (pgid t) (fs_base t) (heap_end t) (mmap_end t) (output t) (fd_table t) (cwd t)
  (cwd_len t) (pending_signals t) (signal_mask t) x (in_sigsuspend t) (alarm_deadline t)
  (signal_handlers t) (shm_attaches t) (initial_rsp t) (mmap_regions t) (mmap_nregions t).
Definition set_in_sigsuspend (t : Task) (x : bool) : Task :=
  mkTask (state t) (ctx t) (name t) (name_len t) (first_run t) (entry t) (cr3 t) (pid t)
  (parent_pid t) (pgid t) (fs_base t) (heap_end t) (mmap_end t) (output t) (fd_table t) (cwd t)
  (cwd_len t) (pending_signals t) (signal_mask t) (saved_signal_mask t) x (alarm_deadline t)
  (signal_handlers t) (shm_attaches t) (initial_rsp t) (mmap_regions t) (mmap_nregions t).
Definition set_alarm_deadline (t : Task) (x : Z) : Task :=
  mkTask (state t) (ctx t) (name t) (name_len t) (first_run t) (entry t) (cr3 t) (pid t)
  (parent_pid t) (pgid t) (fs_base t) (heap_end t) (mmap_end t) (output t) (fd_table t) (cwd t)
  (cwd_len t) (pending_signals t) (signal_mask t) (saved_signal_mask t) (in_sigsuspend t) x
  (signal_handlers t) (shm_attaches t) (initial_rsp t) (mmap_regions t) (mmap_nregions t).
Definition set_signal_handlers (t : Task) (x : list Z) : Task :=
  mkTask (state t) (ctx t) (name t) (name_len t) (first_run t) (entry t) (cr3 t) (pid t)
  (parent_pid t) (pgid t) (fs_base t) (heap_end t) (mmap_end t) (output t) (fd_table t) (cwd t)
  (cwd_len t) (pending_signals t) (signal_mask t) (saved_signal_mask t) (in_sigsuspend t)
  (alarm_deadline t) x (shm_attaches t) (initial_rsp t) (mmap_regions t) (mmap_nregions t).
Definition set_shm_attaches (t : Task) (x : list shm.ShmAttach) : Task :=
  mkTask (state t) (ctx t) (name t) (name_len t) (first_run t) (entry t) (cr3 t) (pid t)
  (parent_pid t) (pgid t) (fs_base t) (heap_end t) (mmap_end t) (output t) (fd_table t) (cwd t)
  (cwd_len t) (pending_signals t) (signal_mask t) (saved_signal_mask t) (in_sigsuspend t)
  (alarm_deadline t) (signal_handlers t) x (initial_rsp t) (mmap_regions t) (mmap_nregions t).
Definition set_initial_rsp (t : Task) (x : Z) : Task :=
  mkTask (state t) (ctx t) (name t) (name_len t) (first_run t) (entry t) (cr3 t) (pid t)
  (parent_pid t) (pgid t) (fs_base t) (heap_end t) (mmap_end t) (output t) (fd_table t) (cwd t)
  (cwd_len t) (pending_signals t) (signal_mask t) (saved_signal_mask t) (in_sigsuspend t)
  (alarm_deadline t) (signal_handlers t) (shm_attaches t) x (mmap_regions t) (mmap_nregions t).
Definition set_mmap_regions (t : Task) (x : list MmapRegion) : Task :=
  mkTask (state t) (ctx t) (name t) (name_len t) (first_run t) (entry t) (cr3 t) (pid t)
  (parent_pid t) (pgid t) (fs_base t) (heap_end t) (mmap_end t) (output t) (fd_table t) (cwd t)
  (cwd_len t) (pending_signals t) (signal_mask t) (saved_signal_mask t) (in_sigsuspend t)
  (alarm_deadline t) (signal_handlers t) (shm_attaches t) (initial_rsp t) x (mmap_nregions t).
Definition set_mmap_nregions (t : Task) (x : nat) : Task :=
  mkTask (state t) (ctx t) (name t) (name_len t) (first_run t) (entry t) (cr3 t) (pid t)
  (parent_pid t) (pgid t) (fs_base t) (heap_end t) (mmap_end t) (output t) (fd_table t) (cwd t)
  (cwd_len t) (pending_signals t) (signal_mask t) (saved_signal_mask t) (in_sigsuspend t)
  (alarm_deadline t) (signal_handlers t) (shm_attaches t) (initial_rsp t) (mmap_regions t) x.

(** The registers saved on the user stack when a handler is entered. *)
(* @src proc/scheduler.rs 109-127 SignalFrame *)
Record SignalFrame := mkFrame {
  f_rip : Z; f_rax : Z; f_rbx : Z; f_rcx : Z; f_rdx : Z; f_rsi : Z; f_rdi : Z; f_r8 : Z; f_r9 : Z;
  f_r10 : Z; f_r11 : Z; f_r12 : Z; f_r13 : Z; f_r14 : Z; f_r15 : Z; f_rbp : Z; f_rflags : Z;
}.
Definition FRAME_SIZE : Z := 136.

Definition frame_words (f : SignalFrame) : list Z :=
  [f_rip f; f_rax f; f_rbx f; f_rcx f; f_rdx f; f_rsi f; f_rdi f; f_r8 f; f_r9 f;
   f_r10 f; f_r11 f; f_r12 f; f_r13 f; f_r14 f; f_r15 f; f_rbp f; f_rflags f].
Definition frame_bytes (f : SignalFrame) : list Z := concat (le_encode 8 <$> frame_words f).

(* @src proc/scheduler.rs 748-766 deliver_pending_signals (frame) *)
Definition frame_of (c : TaskContext) : SignalFrame :=
  mkFrame (rip c) (rax c) (rbx c) (rcx c) (rdx c) (rsi c) (rdi c) (r8 c) (r9 c)
          (r10 c) (r11 c) (r12 c) (r13 c) (r14 c) (r15 c) (rbp c) (rflags c).

End task.
