(* ===== verification/Argv.v ===== *)
(** * The initial user stack (kernel/src/kernel/proc/scheduler.rs, write_argv_to_stack)

    Module [argv] builds the block of [argc], argument pointers, environment
    pointers and their strings that a new program finds on its stack. *)

From stdpp Require Import base list gmap strings.
From Stdlib Require Import ZArith Lia.
From S2P Require Import Prelude Env ElfLoader.

Local Open Scope Z_scope.

Module argv.

(** One turn of the argument loop: the pointer into its slot, the bytes and a
    NUL at [str_off]. *)
(* @src proc/scheduler.rs 318-328 write_argv_to_stack (argv) *)
Fixpoint put_args (initial_rsp : Z) (i str_off : nat) (args : list (list Z)) (buf : list Z)
    : outcome (nat * list Z) :=
  match args with
  | [] => Ret (str_off, buf)
  | b :: args' =>
      let! buf := copy_at buf (8 + i * 8) (le_encode 8 (initial_rsp + Z.of_nat str_off)) in
      let! buf := copy_at buf str_off b in
      let! buf := set_idx buf (str_off + length b) 0 in
      put_args initial_rsp (S i) (str_off + (length b + 1)) args' buf
  end.

(** [while scan < env_raw_len && env_raw[scan] != 0 { scan += 1 }] *)
Definition skip_to_nul (env : list Z) (scan : nat) : nat :=
  (scan + default (length env - scan) (position (fun b => (b =? 0)%Z) (drop scan env)))%nat.

(** The environment pointers, [n] of them at most, from slot number [ei]. *)
(* @src proc/scheduler.rs 333-345 write_argv_to_stack (envp) *)
Fixpoint put_envp (initial_rsp : Z) (base argc : nat) (env : list Z) (n ei scan : nat) (buf : list Z)
    : outcome (list Z) :=
  match n with
  | O => Ret buf
  | S n' =>
      if (scan <? length env)%nat then
        let! buf := copy_at buf (8 + (argc + 1 + ei) * 8) (le_encode 8 (initial_rsp + Z.of_nat (base + scan))) in
        put_envp initial_rsp base argc env n' (S ei) (skip_to_nul env scan + 1) buf
      else Ret buf
  end.

(** Where the stack pointer starts, and the block to copy there, if it fits. *)
(* @src proc/scheduler.rs 291-350 write_argv_to_stack *)
Definition build (vars : list env.EnvEntry) (stack_top : Z) (args : list (list Z))
    : outcome (Z * option (list Z)) :=
  let argc := Nat.min (length args) 31 in
  let args := take argc args in
  let! (envc, env_raw_len, env_raw) := env.write_env_strings vars (replicate (Z.to_nat 1024) 0) in
  let ptr_table_bytes := (8 * (1 + argc + 1 + envc + 1))%nat in
  let argv_str_bytes := sum_list ((fun a => length a + 1)%nat <$> args) in
  let raw_total := Z.of_nat (ptr_table_bytes + argv_str_bytes + env_raw_len) in
  let total := Z.ldiff (raw_total + 15) 15 + 8 in
  if 2048 <? total then let! rsp := csub stack_top 8 in Ret (rsp, None)
  else
    let! initial_rsp := csub stack_top total in
    let buf := replicate (Z.to_nat 2048) 0 in
    let! buf := copy_at buf 0 (le_encode 8 (Z.of_nat argc)) in
    let! (str_off, buf) := put_args initial_rsp 0 ptr_table_bytes args buf in
    let! env := slice env_raw 0 env_raw_len in
    let! buf := copy_at buf str_off env in
    let! buf := put_envp initial_rsp str_off argc env envc 0 0 buf in
    let! block := slice buf 0 (Z.to_nat total) in
    Ret (initial_rsp, Some block).

(** [write_argv_to_stack]: the block goes to the address space [cr3]. *)
Definition write_argv_to_stack {W : Type} `{UserSpace W} (vars : list env.EnvEntry) (cr3 stack_top : Z)
    (args : list (list Z)) : prog W string Z :=
  let? (rsp, block) := checked (build vars stack_top args) in
  match block with
  | None => ok rsp
  | Some b => let? _ := us_copy cr3 rsp b in ok rsp
  end.

End argv.

(** ** What the block says *)

Module argv_spec.
Import argv.

(** A table of 64-bit words, and strings with their terminators. *)
Definition words_of (ws : list Z) : list Z := concat (le_encode 8 <$> ws).
Definition strs (l : list (list Z)) : list Z := concat ((fun s => s ++ [0]) <$> l).

(** The addresses of consecutive strings, the first at offset [off]. *)
Fixpoint ptrs (rsp : Z) (off : nat) (l : list (list Z)) : list Z :=
  match l with
  | [] => []
  | s :: l' => rsp + Z.of_nat off :: ptrs rsp (off + (length s + 1)) l'
  end.

Lemma length_words_of ws : length (words_of ws) = (8 * length ws)%nat.
Proof. unfold words_of. induction ws as [|w ws IH]; [done|]. rewrite fmap_cons. cbn [concat length].
  rewrite length_app, length_le_encode, IH. lia. Qed.

Lemma words_of_app a b : words_of (a ++ b) = words_of a ++ words_of b.
Proof. unfold words_of. by rewrite fmap_app, concat_app. Qed.

Lemma strs_app a b : strs (a ++ b) = strs a ++ strs b.
Proof. unfold strs. by rewrite fmap_app, concat_app. Qed.

Lemma strs_cons s l : strs (s :: l) = s ++ 0 :: strs l.
Proof. unfold strs. rewrite fmap_cons. cbn [concat]. by rewrite <- app_assoc. Qed.

Lemma length_strs_cons s l : length (strs (s :: l)) = (length s + 1 + length (strs l))%nat.
Proof. rewrite strs_cons, length_app. cbn. lia. Qed.

Lemma length_ptrs rsp off l : length (ptrs rsp off l) = length l.
Proof. revert off. induction l as [|s l IH]; intros off; cbn; [done|]. by rewrite IH. Qed.

Lemma lookup_ptrs rsp off l1 s l2 :
  ptrs rsp off (l1 ++ s :: l2) !! length l1 = Some (rsp + Z.of_nat (off + length (strs l1))).
Proof.
  revert off. induction l1 as [|x l1 IH]; intros off; cbn [app ptrs length lookup list_lookup].
  - by rewrite Nat.add_0_r.
  - rewrite IH, length_strs_cons. do 2 f_equal. lia.
Qed.

Lemma words_of_mid a w b : words_of (a ++ w :: b) = words_of a ++ le_encode 8 w ++ words_of b.
Proof. rewrite words_of_app. unfold words_of at 2. rewrite fmap_cons. done. Qed.

(** Writing a word of the table. *)
Lemma copy_word ws body i v : (i < length ws)%nat ->
  copy_at (words_of ws ++ body) (8 * i) (le_encode 8 v) = Ret (words_of (<[i := v]> ws) ++ body).
Proof.
  intros Hi. rewrite copy_at_le by (rewrite length_app, length_words_of, length_le_encode; lia). f_equal.
  destruct (lookup_lt_is_Some_2 ws i Hi) as [w Hw]. rewrite insert_take_drop by done.
  pose proof (take_drop_middle ws i w Hw) as E. rewrite <- E at 1. rewrite !words_of_mid.
  assert (length (words_of (take i ws)) = 8 * i)%nat as Hl by (rewrite length_words_of, length_take; lia).
  unfold splice. rewrite <- !app_assoc, length_le_encode, take_app_length' by done. do 2 f_equal.
  rewrite drop_app_ge, Hl by lia. replace (8 * i + 8 - 8 * i)%nat with 8%nat by lia.
  by rewrite drop_app_length'.
Qed.

(** Appending a string to the strings written so far. *)
Lemma copy_str tbl dn n b : (length b <= n)%nat ->
  copy_at (tbl ++ dn ++ replicate n 0) (length tbl + length dn) b = Ret (tbl ++ (dn ++ b) ++ replicate (n - length b) 0).
Proof.
  intros Hb. rewrite copy_at_le by len_lia. f_equal. unfold splice.
  rewrite (app_assoc tbl dn). assert (length (tbl ++ dn) = length tbl + length dn)%nat as Hl by apply length_app.
  rewrite take_app_length', drop_app_ge by lia. rewrite Hl, drop_replicate, <- !app_assoc.
  do 4 f_equal. lia.
Qed.

Lemma set_nul tbl dn n : (0 < n)%nat ->
  set_idx (tbl ++ dn ++ replicate n 0) (length tbl + length dn) 0 = Ret (tbl ++ (dn ++ [0]) ++ replicate (n - 1) 0).
Proof.
  intros Hn. rewrite set_idx_lt by len_lia. f_equal.
  destruct n as [|n]; [lia|]. cbn [replicate Nat.sub]. rewrite Nat.sub_0_r, <- app_assoc. cbn [app].
  apply list_insert_id. rewrite app_assoc, lookup_app_r by len_lia.
  rewrite length_app, Nat.sub_diag. done.
Qed.

Lemma put_args_spec rsp args : forall ws i dn n,
  (1 + i + length args <= length ws)%nat -> (length (strs args) <= n)%nat ->
  put_args rsp i (8 * length ws + length dn) args (words_of ws ++ dn ++ replicate n 0) =
  Ret ((8 * length ws + length (dn ++ strs args))%nat,
       words_of (splice ws (1 + i) (ptrs rsp (8 * length ws + length dn) args)) ++
       (dn ++ strs args) ++ replicate (n - length (strs args)) 0).
Proof.
  induction args as [|b args IH]; intros ws i dn n Hi Hn; cbn [put_args].
  - change (strs []) with (@nil Z). cbn [ptrs]. by rewrite splice_nil, app_nil_r, Nat.sub_0_r.
  - cbn [length] in Hi. rewrite length_strs_cons in Hn.
    replace (8 + i * 8)%nat with (8 * (1 + i))%nat by lia. rewrite copy_word by lia. cbn [mbind outcome_mbind].
    set (ws1 := <[(1 + i)%nat := rsp + Z.of_nat (8 * length ws + length dn)]> ws).
    assert (length ws1 = length ws) as Hl1 by apply length_insert.
    rewrite <- Hl1 at 1. rewrite <- (length_words_of ws1). rewrite copy_str by lia. cbn [mbind outcome_mbind].
    replace (8 * length ws + length dn + length b)%nat with (length (words_of ws1) + length (dn ++ b))%nat
      by (rewrite length_words_of, Hl1, length_app; lia).
    rewrite set_nul by lia. cbn [mbind outcome_mbind].
    replace (8 * length ws + length dn + (length b + 1))%nat with (8 * length ws1 + length ((dn ++ b) ++ [0%Z]))%nat
      by (rewrite Hl1, !length_app; cbn; lia).
    rewrite IH by (rewrite ?Hl1; lia). rewrite strs_cons, Hl1. f_equal. f_equal.
    + rewrite !length_app. cbn. lia.
    + subst ws1. replace (1 + S i)%nat with (1 + i + 1)%nat by lia. rewrite splice_insert_cons by lia.
      cbn [ptrs]. replace (8 * length ws + length ((dn ++ b) ++ [0%Z]))%nat
        with (8 * length ws + length dn + (length b + 1))%nat by len_lia.
      f_equal. rewrite <- !app_assoc. cbn [app]. do 5 f_equal. rewrite !length_app. cbn. lia.
Qed.

Lemma position_nul s t : 0 ∉ s -> position (fun b => b =? 0) (s ++ 0 :: t) = Some (length s).
Proof.
  induction s as [|a s IH]; intros Hs; cbn; [done|]. destruct (Z.eqb_spec a 0) as [->|]; [set_solver|].
  rewrite IH by set_solver. done.
Qed.

Lemma skip_here l1 s l2 : 0 ∉ s ->
  skip_to_nul (strs (l1 ++ s :: l2)) (length (strs l1)) = (length (strs l1) + length s)%nat.
Proof.
  intros Hs. unfold skip_to_nul. rewrite strs_app, drop_app_length, strs_cons, position_nul by done. done.
Qed.

Lemma put_envp_spec rsp base argc body : forall l2 l1 ei ws, Forall (fun s => 0 ∉ s) l2 ->
  (2 + argc + ei + length l2 <= length ws)%nat ->
  put_envp rsp base argc (strs (l1 ++ l2)) (length l2) ei (length (strs l1)) (words_of ws ++ body) =
  Ret (words_of (splice ws (2 + argc + ei) (ptrs rsp (base + length (strs l1)) l2)) ++ body).
Proof.
  induction l2 as [|s l2 IH]; intros l1 ei ws HF Hi; cbn [put_envp length].
  - cbn [ptrs]. by rewrite splice_nil.
  - apply Forall_cons in HF as [Hs HF]. cbn [length] in Hi.
    destruct (Nat.ltb_spec (length (strs l1)) (length (strs (l1 ++ s :: l2)))) as [_|Hge];
      [|rewrite strs_app, length_app, length_strs_cons in Hge; lia].
    replace (8 + (argc + 1 + ei) * 8)%nat with (8 * (2 + argc + ei))%nat by lia.
    rewrite copy_word by lia. cbn [mbind outcome_mbind]. rewrite skip_here by done.
    replace (l1 ++ s :: l2) with ((l1 ++ [s]) ++ l2) by by rewrite <- app_assoc.
    replace (length (strs l1) + length s + 1)%nat with (length (strs (l1 ++ [s])))
      by (rewrite strs_app, length_app, length_strs_cons; cbn; lia).
    rewrite IH by (rewrite ?length_insert; done || lia). do 2 f_equal.
    replace (2 + argc + S ei)%nat with (2 + argc + ei + 1)%nat by lia. rewrite splice_insert_cons by lia.
    cbn [ptrs]. do 4 f_equal. rewrite strs_app, length_app, length_strs_cons. cbn. lia.
Qed.

(** ** Reading the block *)

Definition word (blk : list Z) (i : nat) : Z := le_decode (take 8 (drop (8 * i) blk)).
Definition cstr (blk : list Z) (off : Z) : list Z :=
  let b := drop (Z.to_nat off) blk in take (default 0%nat (position (fun b => b =? 0) b)) b.

Lemma word_of_table ws rest i v : ws !! i = Some v -> 0 <= v < 2 ^ 64 -> word (words_of ws ++ rest) i = v.
Proof.
  intros Hi Hv. unfold word. rewrite <- (take_drop_middle ws i v Hi), words_of_mid.
  assert (length (words_of (take i ws)) = 8 * i)%nat as Hl.
  { rewrite length_words_of, length_take. apply lookup_lt_Some in Hi. lia. }
  rewrite <- !app_assoc, drop_app_length', take_app_length' by (rewrite ?length_le_encode; done).
  by apply le_decode_encode.
Qed.

Lemma cstr_at pre s post off : off = Z.of_nat (length pre) -> 0 ∉ s -> cstr (pre ++ s ++ 0 :: post) off = s.
Proof.
  intros -> Hs. unfold cstr. rewrite Nat2Z.id, drop_app_length, position_nul by done.
  apply take_app_length.
Qed.

Lemma ptrs_range rsp off l v : 0 <= rsp -> v ∈ ptrs rsp off l -> 0 <= v <= rsp + Z.of_nat (off + length (strs l)).
Proof.
  intros Hr. revert off. induction l as [|s l IH]; intros off; cbn [ptrs]; [by intros ?%elem_of_nil|].
  rewrite length_strs_cons. intros [->|Hv]%elem_of_cons; [lia|]. specialize (IH _ Hv). lia.
Qed.

Lemma splice_zeros (x : Z) (p q : list Z) :
  splice (splice (x :: replicate (length p + 1 + length q + 1) 0) 1 p) (2 + length p) q = x :: p ++ [0] ++ q ++ [0].
Proof.
  assert (forall (a r : list Z) n, splice (a ++ replicate (length r + n) 0) (length a) r = a ++ r ++ replicate n 0) as Hz.
  { intros a r n. unfold splice. rewrite take_app_length, drop_app_ge by lia. rewrite drop_replicate.
    by replace (length r + n - (length a + length r - length a))%nat with n by lia. }
  replace (x :: replicate (length p + 1 + length q + 1) 0)
    with ([x] ++ replicate (length p + (1 + (length q + 1))) 0) by (cbn [app]; do 2 f_equal; lia).
  rewrite (Hz [x] p). rewrite (replicate_add 1 (length q + 1)).
  replace ([x] ++ p ++ replicate 1 0 ++ replicate (length q + 1) 0)
    with (([x] ++ p ++ [0]) ++ replicate (length q + 1) 0) by by rewrite <- !app_assoc.
  replace (2 + length p)%nat with (length ([x] ++ p ++ [0])) by len_lia.
  rewrite Hz. by rewrite <- !app_assoc.
Qed.

(** The variables as "KEY=VALUE" strings, those that fit the kernel's buffer. *)
Definition env_strings (vars : list env.EnvEntry) : list (list Z) :=
  (fun e => env.entry_key e ++ 61 :: env.entry_val e) <$> env_spec.exported (Z.to_nat 1024) vars.

Lemma texts_strs es : env_spec.texts es = strs ((fun e => env.entry_key e ++ 61 :: env.entry_val e) <$> es).
Proof.
  unfold env_spec.texts, strs. rewrite <- list_fmap_compose. f_equal. apply list_fmap_ext. intros i e _.
  unfold env_spec.entry_text. cbn. by rewrite <- app_assoc.
Qed.

Lemma write_env_block vars n : env.wf vars ->
  exists out, env.write_env_strings vars (replicate n 0) =
    Ret (length (env_spec.exported n vars), length (env_spec.texts (env_spec.exported n vars)), out) /\
    (length (env_spec.texts (env_spec.exported n vars)) <= length out)%nat /\
    take (length (env_spec.texts (env_spec.exported n vars))) out = env_spec.texts (env_spec.exported n vars).
Proof.
  intros Hw. unfold env.write_env_strings. rewrite env_spec.write_loop_spec by (apply Hw || lia).
  rewrite length_replicate, Nat.sub_0_r. cbn zeta. eexists. split; [by rewrite !Nat.add_0_l|].
  pose proof (env_spec.exported_fits n vars) as Hf. unfold splice. rewrite take_0, app_nil_l.
  split; [rewrite length_app, length_drop, length_replicate; lia|]. apply take_app_length.
Qed.

Lemma sum_strs args : sum_list ((fun a => length a + 1)%nat <$> args) = length (strs args).
Proof.
  induction args as [|a args IH]; [done|]. rewrite fmap_cons, length_strs_cons, <- IH.
  unfold sum_list. cbn. lia.
Qed.

Lemma words_of_zeros n : words_of (replicate n 0) = replicate (8 * n) 0.
Proof.
  induction n as [|n IH]; [done|]. replace (8 * S n)%nat with (8 + 8 * n)%nat by lia.
  rewrite replicate_add. unfold words_of in *. rewrite replicate_S, fmap_cons. cbn [concat]. by rewrite IH.
Qed.

Lemma total_bounds x : x - 15 <= Z.ldiff x 15 <= x.
Proof.
  change (Z.ldiff x 15) with (Z.ldiff x (Z.ones 4)). rewrite Z.ldiff_ones_r by lia.
  rewrite Z.shiftl_mul_pow2, Z.shiftr_div_pow2 by lia. change (2 ^ 4) with 16.
  pose proof (Z.div_mod x 16 ltac:(lia)). pose proof (Z.mod_pos_bound x 16 ltac:(lia)). lia.
Qed.

(** The block, part by part. *)
Definition layout (rsp : Z) (args envs : list (list Z)) : list Z :=
  let P := (8 * (3 + length args + length envs))%nat in
  words_of (Z.of_nat (length args) :: ptrs rsp P args ++ [0] ++ ptrs rsp (P + length (strs args)) envs ++ [0])
  ++ strs args ++ strs envs.

Lemma fill_layout rsp args envs f : Forall (fun s => 0 ∉ s) envs ->
  let nw := (3 + length args + length envs)%nat in
  (let! buf := copy_at (replicate (8 * nw + (length (strs args) + (length (strs envs) + f))) 0) 0
                 (le_encode 8 (Z.of_nat (length args))) in
   let! (str_off, buf) := put_args rsp 0 (8 * nw) args buf in
   let! buf := copy_at buf str_off (strs envs) in
   put_envp rsp str_off (length args) (strs envs) (length envs) 0 0 buf)
  = Ret (layout rsp args envs ++ replicate f 0).
Proof.
  intros Henv nw. rewrite replicate_add, <- words_of_zeros.
  pose proof (copy_word (replicate nw 0) (replicate (length (strs args) + (length (strs envs) + f)) 0) 0
    (Z.of_nat (length args))) as E. rewrite length_replicate in E. change (8 * 0)%nat with 0%nat in E.
  rewrite E by lia. clear E. cbn [mbind outcome_mbind].
  set (ws := <[0%nat := Z.of_nat (length args)]> (replicate nw 0)).
  assert (length ws = nw) as Hws by (subst ws; by rewrite length_insert, length_replicate).
  pose proof (put_args_spec rsp args ws 0 [] (length (strs args) + (length (strs envs) + f))) as E.
  cbn [app length] in E. rewrite Hws, (Nat.add_0_r (8 * nw)) in E. rewrite E by lia. clear E. cbn [mbind outcome_mbind].
  set (ws1 := splice ws (1 + 0) (ptrs rsp (8 * nw) args)).
  assert (length ws1 = nw) as Hws1 by (subst ws1; rewrite length_splice; [done|rewrite length_ptrs; lia]).
  replace (8 * nw + length (strs args))%nat with (length (words_of ws1) + length (strs args))%nat
    by (rewrite length_words_of; lia).
  rewrite copy_str by lia. cbn [mbind outcome_mbind].
  pose proof (put_envp_spec rsp (length (words_of ws1) + length (strs args)) (length args)
    ((strs args ++ strs envs) ++ replicate (length (strs args) + (length (strs envs) + f) - length (strs args)
      - length (strs envs)) 0) envs [] 0 ws1 Henv ltac:(lia)) as E.
  cbn [app] in E. change (length (strs [])) with 0%nat in E. rewrite E. clear E. rewrite !Nat.add_0_r.
  replace (length (strs args) + (length (strs envs) + f) - length (strs args) - length (strs envs))%nat with f by lia.
  unfold layout. rewrite <- !app_assoc. do 3 f_equal. rewrite length_words_of, Hws1. subst ws1 ws. 
  fold nw. replace (replicate nw 0) with (0 :: replicate (2 + length args + length envs) 0) by done.
  change (<[0%nat := Z.of_nat (length args)]> (0 :: replicate (2 + length args + length envs) 0))
    with (Z.of_nat (length args) :: replicate (2 + length args + length envs) 0).
  pose proof (splice_zeros (Z.of_nat (length args)) (ptrs rsp (8 * nw) args)
    (ptrs rsp (8 * nw + length (strs args)) envs)) as E. rewrite !length_ptrs in E.
  replace (2 + length args + length envs)%nat with (length args + 1 + length envs + 1)%nat by lia. exact E.
Qed.

Lemma length_layout rsp args envs :
  length (layout rsp args envs) = (8 * (3 + length args + length envs) + length (strs args) + length (strs envs))%nat.
Proof.
  unfold layout. rewrite !length_app, length_words_of. cbn [length]. rewrite !length_app, !length_ptrs. cbn. lia.
Qed.

Lemma build_layout vars top args rsp blk : env.wf vars -> (length args <= 31)%nat ->
  Forall (fun s => 0 ∉ s) (env_strings vars) -> build vars top args = Ret (rsp, Some blk) ->
  0 <= rsp /\ rsp + Z.of_nat (length blk) = top /\ exists m, blk = layout rsp args (env_strings vars) ++ replicate m 0.
Proof.
  intros Hw Hargs Henv Hb. unfold build in Hb. rewrite (Nat.min_l _ _ Hargs), firstn_all in Hb.
  destruct (write_env_block vars (Z.to_nat 1024) Hw) as (out & E & Hlen & Hout). rewrite E in Hb. clear E.
  rewrite texts_strs in Hlen, Hout, Hb. fold (env_strings vars) in Hlen, Hout, Hb.
  replace (length (env_spec.exported (Z.to_nat 1024) vars)) with (length (env_strings vars)) in Hb
    by (unfold env_strings; by rewrite length_fmap).
  set (envs := env_strings vars) in *. cbn [mbind outcome_mbind] in Hb. rewrite sum_strs in Hb.
  replace (8 * (1 + length args + 1 + length envs + 1))%nat with (8 * (3 + length args + length envs))%nat in Hb by lia.
  set (raw := Z.of_nat _) in Hb. pose proof (total_bounds (raw + 15)) as Ht.
  set (total := Z.ldiff (raw + 15) 15 + 8) in Hb.
  destruct (Z.ltb_spec 2048 total) as [|Hfit].
  { apply bind_Ret in Hb as (? & _ & ?). discriminate. }
  apply bind_Ret in Hb as (sp & Hsp & Hb). unfold csub in Hsp. destruct (Z.leb_spec total top); [|done].
  injection Hsp as <-.
  set (f := (Z.to_nat 2048 - Z.to_nat raw)%nat).
  replace (Z.to_nat 2048) with (8 * (3 + length args + length envs) + (length (strs args) + (length (strs envs) + f)))%nat in Hb
    by (subst f raw; lia).
  pose proof (fill_layout (top - total) args envs f Henv) as E. cbv zeta in E.
  apply bind_Ret in E as (b1 & E1 & E). rewrite E1 in Hb. cbn [mbind outcome_mbind] in Hb.
  apply bind_Ret in E as ([so b2] & E2 & E). rewrite E2 in Hb. cbn [mbind outcome_mbind] in Hb.
  rewrite slice_le in Hb by lia. cbn [mbind outcome_mbind] in Hb. rewrite Nat.sub_0_r, drop_0, Hout in Hb.
  apply bind_Ret in E as (b3 & E3 & E). rewrite E3 in Hb. cbn [mbind outcome_mbind] in Hb.
  rewrite E in Hb. cbn [mbind outcome_mbind] in Hb. pose proof (length_layout (top - total) args envs) as Hll.
  rewrite slice_le in Hb by (rewrite length_app, length_replicate, Hll; subst f raw total; lia).
  rewrite Nat.sub_0_r, drop_0 in Hb. assert (rsp = top - total /\ blk = take (Z.to_nat total) (layout (top - total) args envs ++ replicate f 0)) as [-> ->]
    by (by inversion Hb). split; [lia|]. split.
  - rewrite length_take, length_app, length_replicate, Hll. subst f raw. lia.
  - eexists. rewrite take_app_ge by (rewrite Hll; subst raw; lia). by rewrite take_replicate.
Qed.

(** A string of [l1 ++ s :: l2] reads back through its pointer. *)
Lemma read_string rsp pre l1 s l2 post w : 0 ∉ s -> w = rsp + Z.of_nat (length pre + length (strs l1)) ->
  cstr (pre ++ strs (l1 ++ s :: l2) ++ post) (w - rsp) = s.
Proof.
  intros Hs ->. rewrite strs_app, strs_cons, <- !app_assoc. cbn [app].
  rewrite (app_assoc pre). rewrite cstr_at; [done|rewrite length_app; lia|done].
Qed.

Lemma lookup_S (x : Z) l i : (x :: l) !! S i = l !! i.
Proof. done. Qed.

(** C33: The initial stack reads back as the arguments and the environment.  When
    [write_argv_to_stack] builds a block, the block ends at the top of the stack;
    its first word is the argument count; following the pointer in slot [i]
    yields argument [i]; the argument and environment pointers each end with a
    null word, and the environment pointers yield the "KEY=VALUE" strings. *)
Theorem initial_stack_round_trip (vars : list env.EnvEntry) (top : Z) (args : list (list Z)) (rsp : Z)
    (blk : list Z) (Hw : env.wf vars) (Hargs : (length args <= 31)%nat) (Htop : top < 2 ^ 64)
    (Hnul : Forall (fun s => 0 ∉ s) args) (Henv : Forall (fun s => 0 ∉ s) (env_strings vars))
    (Hb : build vars top args = Ret (rsp, Some blk)) :
  rsp + Z.of_nat (length blk) = top /\ word blk 0 = Z.of_nat (length args) /\
  (forall i a, args !! i = Some a -> cstr blk (word blk (1 + i) - rsp) = a) /\
  word blk (1 + length args) = 0 /\
  (forall i e, env_strings vars !! i = Some e -> cstr blk (word blk (2 + length args + i) - rsp) = e) /\
  word blk (2 + length args + length (env_strings vars)) = 0.
Proof.
  destruct (build_layout vars top args rsp blk Hw Hargs Henv Hb) as (Hrsp & Hlen & m & E).
  set (envs := env_strings vars) in *. rewrite E, length_app, length_replicate, length_layout in Hlen.
  set (P := (8 * (3 + length args + length envs))%nat) in *.
  set (ws := Z.of_nat (length args) :: ptrs rsp P args ++ [0] ++ ptrs rsp (P + length (strs args)) envs ++ [0]).
  assert (blk = words_of ws ++ strs args ++ strs envs ++ replicate m 0) as Eb.
  { rewrite E. unfold layout. fold P ws. by rewrite <- !app_assoc. }
  assert (length (words_of ws) = P) as HP.
  { rewrite length_words_of. subst ws P. cbn [length]. rewrite !length_app, !length_ptrs. cbn. lia. }
  assert (forall i v, ws !! i = Some v -> 0 <= v < 2 ^ 64 -> word blk i = v) as Hword.
  { intros i v Hi Hv. rewrite Eb. by apply word_of_table. }
  split; [rewrite E, length_app, length_replicate, length_layout; fold P; lia|].
  split; [apply Hword; [done|lia]|]. split_and!.
  - intros i a Hi. pose proof (lookup_lt_Some _ _ _ Hi) as Hl. pose proof (take_drop_middle args i a Hi) as Ea.
    pose proof (lookup_ptrs rsp P (take i args) a (drop (S i) args)) as Hp. rewrite Ea, length_take, Nat.min_l in Hp by lia.
    assert (word blk (1 + i) = rsp + Z.of_nat (P + length (strs (take i args)))) as ->.
    { apply Hword; [subst ws; change (1 + i)%nat with (S i); rewrite lookup_S;
        rewrite lookup_app_l by (rewrite length_ptrs; lia); exact Hp|].
      assert (length (strs (take i args)) <= length (strs args))%nat by (rewrite <- Ea at 2; rewrite strs_app, length_app; lia).
      lia. }
    rewrite Eb, <- HP. rewrite <- Ea at 1. apply read_string; [|done]. by apply (Forall_lookup_1 _ _ _ _ Hnul Hi).
  - apply Hword; [|lia]. subst ws. change (1 + length args)%nat with (S (length args)). rewrite lookup_S.
    rewrite lookup_app_r by (rewrite length_ptrs; lia). by rewrite length_ptrs, Nat.sub_diag.
  - intros i e Hi. pose proof (lookup_lt_Some _ _ _ Hi) as Hl. pose proof (take_drop_middle envs i e Hi) as Ea.
    pose proof (lookup_ptrs rsp (P + length (strs args)) (take i envs) e (drop (S i) envs)) as Hp.
    rewrite Ea, length_take, Nat.min_l in Hp by lia.
    assert (word blk (2 + length args + i) = rsp + Z.of_nat (P + length (strs args) + length (strs (take i envs)))) as ->.
    { apply Hword.
      - subst ws. change (2 + length args + i)%nat with (S (1 + length args + i)). rewrite lookup_S.
        rewrite lookup_app_r by (rewrite length_ptrs; lia). rewrite length_ptrs.
        replace (1 + length args + i - length args)%nat with (S i) by lia. cbn [app]; rewrite lookup_S.
        by rewrite lookup_app_l by (rewrite length_ptrs; lia).
      - assert (length (strs (take i envs)) <= length (strs envs))%nat
          by (rewrite <- Ea at 2; rewrite strs_app, length_app; lia). lia. }
    rewrite Eb, <- HP, <- (length_app (words_of ws)). rewrite <- Ea at 1. rewrite app_assoc.
    apply read_string; [|done]. by apply (Forall_lookup_1 _ _ _ _ Henv Hi).
  - apply Hword; [|lia]. subst ws. change (2 + length args + length envs)%nat with (S (1 + length args + length envs)).
    rewrite lookup_S. rewrite lookup_app_r by (rewrite length_ptrs; lia). rewrite length_ptrs.
    replace (1 + length args + length envs - length args)%nat with (S (length envs)) by lia.
    cbn [app]; rewrite lookup_S. rewrite lookup_app_r by (rewrite length_ptrs; lia).
    by rewrite length_ptrs, Nat.sub_diag.
Qed.

Lemma initial_stack_round_trip_witness : exists rsp blk,
  build (env.init_defaults env.ENV_TABLE) 0x800000 [str "sh"; str "-c"] = Ret (rsp, Some blk) /\
  cstr blk (word blk 2 - rsp) = str "-c".
Proof.
  destruct (returns_Ret (build (env.init_defaults env.ENV_TABLE) 0x800000 [str "sh"; str "-c"])) as [[rsp o] E];
    [vm_compute; reflexivity|].
  destruct o as [blk|]; [|vm_compute in E; discriminate].
  pose proof (initial_stack_round_trip (env.init_defaults env.ENV_TABLE) 0x800000 [str "sh"; str "-c"] rsp blk) as T.
  exists rsp, blk. split; [exact E|]. apply T with (i := 1%nat); [|cbn; lia|lia| | |exact E|reflexivity].
  - unfold env.init_defaults. eapply env_spec.rep_wf. do 6 (apply env_spec.set_refines). apply env_spec.rep_boot.
  - apply (bool_decide_unpack (Forall _ _)). vm_compute. exact I.
  - apply (bool_decide_unpack (Forall _ _)). vm_compute. exact I.
Defined.
End argv_spec.
