(* ===== verification/Sched.v ===== *)
(** * The scheduler (kernel/src/kernel/proc/scheduler.rs)

    Module [sched] translates the scheduler: signals, the phases of [tick],
    [spawn], [fork_task] and the calls that block the running task.  The state
    [Kst] holds the task table and what those operations touch of the other
    components: message queues, pipes, shared segments, the environment and
    memory.  Memory is used through [UserSpace] and [ProcMemory].

    A call that does not return ([sleep_task], [wait_for_pid], [wait_for_msg],
    [preempt]) leaves user mode: its model is the state it leaves and the code
    [tick] then receives. *)

From stdpp Require Import base list gmap strings list_numbers.
From Stdlib Require Import ZArith Lia.
From S2P Require Import Prelude IpcPipe IpcMsgq FdTable FdPipes Shm Env ElfLoader Task Argv.

Local Open Scope Z_scope.

(** What the scheduler uses of the virtual memory manager. *)
Class ProcMemory (W : Type) := {
  pm_create : prog W unit Z;
  pm_map : Z -> Z -> Z -> bool -> bool -> prog W string unit;
  pm_unmap : Z -> Z -> Z -> prog W unit unit;
  pm_free : Z -> prog W unit unit;
  pm_fork : Z * Z -> list (Z * Z) -> Z -> prog W unit Z;
}.

Module sched.
Import fdtable task.

Section Sched.
Context {W : Type} `{UserSpace W} `{ProcMemory W}.

(** [SCHED], [CURRENT_TASK_IDX], [CURRENT_SYSCALL_CTX], [KERNEL_CR3], the
    IA32_FS_BASE register and the state of the other components. *)
(* @src proc/scheduler.rs 222-242 Scheduler *)
Record Kst := mkKst {
  tasks : list Task;
  current : nat;
  slice_remaining : Z;
  current_task_idx : nat;
  syscall_ctx : option TaskContext;
  kernel_cr3 : Z;
  fs_base_msr : Z;
  queues : list ipc.MessageQueue;
  pipes : list pipe.Pipe;
  segtab : list shm.ShmSegment;
  vars : list env.EnvEntry;
  um : W;
}.

Definition set_tasks (k : Kst) x := mkKst x (current k) (slice_remaining k) (current_task_idx k)
  (syscall_ctx k) (kernel_cr3 k) (fs_base_msr k) (queues k) (pipes k) (segtab k) (vars k) (um k).
Definition set_current (k : Kst) i := mkKst (tasks k) i (slice_remaining k) i
  (syscall_ctx k) (kernel_cr3 k) (fs_base_msr k) (queues k) (pipes k) (segtab k) (vars k) (um k).
Definition set_slice (k : Kst) x := mkKst (tasks k) (current k) x (current_task_idx k)
  (syscall_ctx k) (kernel_cr3 k) (fs_base_msr k) (queues k) (pipes k) (segtab k) (vars k) (um k).
Definition set_syscall_ctx (k : Kst) x := mkKst (tasks k) (current k) (slice_remaining k) (current_task_idx k)
  x (kernel_cr3 k) (fs_base_msr k) (queues k) (pipes k) (segtab k) (vars k) (um k).
Definition set_msr (k : Kst) x := mkKst (tasks k) (current k) (slice_remaining k) (current_task_idx k)
  (syscall_ctx k) (kernel_cr3 k) x (queues k) (pipes k) (segtab k) (vars k) (um k).
Definition set_queues (k : Kst) x := mkKst (tasks k) (current k) (slice_remaining k) (current_task_idx k)
  (syscall_ctx k) (kernel_cr3 k) (fs_base_msr k) x (pipes k) (segtab k) (vars k) (um k).
Definition set_pipes (k : Kst) x := mkKst (tasks k) (current k) (slice_remaining k) (current_task_idx k)
  (syscall_ctx k) (kernel_cr3 k) (fs_base_msr k) (queues k) x (segtab k) (vars k) (um k).
Definition set_segtab (k : Kst) x := mkKst (tasks k) (current k) (slice_remaining k) (current_task_idx k)
  (syscall_ctx k) (kernel_cr3 k) (fs_base_msr k) (queues k) (pipes k) x (vars k) (um k).
Definition set_um (k : Kst) x := mkKst (tasks k) (current k) (slice_remaining k) (current_task_idx k)
  (syscall_ctx k) (kernel_cr3 k) (fs_base_msr k) (queues k) (pipes k) (segtab k) (vars k) x.

(** [tasks[i].f = ...] *)
Definition upd (i : nat) (f : Task -> Task) (k : Kst) : Kst := set_tasks k (alter f i (tasks k)).

(** A memory operation, run on the memory of the state. *)
Definition on_mem {E A} (m : prog W E A) : prog Kst E A := fun k =>
  match m (um k) with Ret (r, w) => Ret (r, set_um k w) | Panic => Panic end.
(** The same for the operations without a result. *)
Definition mem_do {E A} (m : prog W E A) (k : Kst) : outcome Kst :=
  match m (um k) with Ret (_, w) => Ret (set_um k w) | Panic => Panic end.

(** ** Signals *)

(* @src proc/scheduler.rs 660-683 send_signal *)
Definition send_signal (p signum : Z) (ts : list Task) : bool * list Task :=
  if (signum =? 0) || (Z.of_nat NSIG <=? signum) then (false, ts)
  else match position (fun t => pid t =? p) ts with
       | None => (false, ts)
       | Some i =>
           match ts !! i with
           | None => (false, ts)
           | Some t =>
               if vacant (state t) then (false, ts)
               else if signum =? SIGKILL then (true, <[i := set_state t (Dead (128 + signum))]> ts)
               else
                 let t := set_pending_signals t (Z.lor (pending_signals t) (bit (signum - 1))) in
                 let t := match state t with Sleeping _ => set_state t Ready | _ => t end in
                 (true, <[i := t]> ts)
           end
       end.

(* @src proc/scheduler.rs 687-689 kill *)
Definition kill (p : Z) (ts : list Task) : bool * list Task := send_signal p SIGKILL ts.

(** [x.trailing_zeros()] for a non-zero [u32]. *)
Definition trailing_zeros (x : Z) : Z :=
  Z.of_nat (default 32%nat (position (fun b => Z.testbit x b) (seqZ 0 32))).

(** The signals that a mask cannot hold back. *)
Definition always_deliverable : Z := Z.lor (bit (SIGKILL - 1)) (bit (SIGSTOP - 1)).

Definition deliverable (t : Task) : Z :=
  Z.lor (Z.ldiff (pending_signals t) (signal_mask t)) (Z.land (pending_signals t) always_deliverable).

(** Entering a handler: the trampoline's address and the saved registers go to
    the user stack, and the context is redirected. *)
(* @src proc/scheduler.rs 737-781 deliver_pending_signals (handler) *)
Definition enter_handler (i : nat) (signum handler : Z) (k : Kst) : outcome Kst :=
  let! t := idx (tasks k) i in
  let! sp := csub (rsp (ctx t)) 8 in
  let! k := mem_do (us_copy (cr3 t) sp (le_encode 8 USER_SIGTRAMP)) k in
  let! sp := csub sp FRAME_SIZE in
  let sp := Z.ldiff sp 15 in
  let! k := mem_do (us_copy (cr3 t) sp (frame_bytes (frame_of (ctx t)))) k in
  Ret (upd i (fun t => set_ctx t (with_rdi (with_rip (with_rsp (ctx t) sp) handler) signum)) k).

(** The [while] loop, at most one turn per bit of the mask. *)
(* @src proc/scheduler.rs 710-786 deliver_pending_signals (loop) *)
Fixpoint deliver_loop (fuel : nat) (i : nat) (to_deliver : Z) (k : Kst) : outcome (bool * Kst) :=
  match fuel with
  | O => Ret (false, k)
  | S fuel' =>
      if to_deliver =? 0 then Ret (false, k)
      else
        let b := trailing_zeros to_deliver in
        let signum := b + 1 in
        let rest := Z.ldiff to_deliver (bit b) in
        let! t := idx (tasks k) i in
        let! handler := if signum <? Z.of_nat NSIG then idx (signal_handlers t) (Z.to_nat signum)
                        else Ret SIG_DFL in
        if handler =? SIG_IGN then deliver_loop fuel' i rest k
        else if handler =? SIG_DFL then
          if (signum =? SIGCHLD) || (signum =? SIGCONT) then deliver_loop fuel' i rest k
          else Ret (true, upd i (fun t => set_state t (Dead (128 + signum))) k)
        else let! k := enter_handler i signum handler k in Ret (false, k)
  end.

(* @src proc/scheduler.rs 695-787 deliver_pending_signals *)
Definition deliver_pending_signals (i : nat) (k : Kst) : outcome (bool * Kst) :=
  let! t := idx (tasks k) i in
  let d := deliverable t in
  if d =? 0 then Ret (false, k)
  else deliver_loop 32 i d (upd i (fun t => set_pending_signals t (Z.ldiff (pending_signals t) d)) k).

(** ** The phases of [tick] *)

(* @src proc/scheduler.rs 486-491 tick (sleepers) *)
Definition wake_sleepers (now : Z) (ts : list Task) : list Task :=
  (fun t => match state t with
            | Sleeping wake => if wake <=? now then set_state t Ready else t
            | _ => t
            end) <$> ts.

(* @src proc/scheduler.rs 493-501 tick (alarms) *)
Definition fire_alarm (now : Z) (ts : list Task) (i : nat) : list Task :=
  match ts !! i with
  | None => ts
  | Some t =>
      if negb (alarm_deadline t =? 0) && (alarm_deadline t <=? now) then
        let ts := <[i := set_alarm_deadline t 0]> ts in
        if pid t =? 0 then ts else (send_signal (pid t) SIGALRM ts).2
      else ts
  end.
Definition fire_alarms (now : Z) (ts : list Task) : list Task :=
  foldl (fire_alarm now) ts (seq 0 MAX_TASKS).

(** The bytes of an [ipc::Message]. *)
Definition message_bytes (m : ipc.Message) : list Z :=
  le_encode 4 (ipc.type_id m) ++ le_encode 4 (ipc.size m) ++ ipc.data m.

(** The message is written at the receiver's address while the kernel's page
    table is loaded. *)
(* @src proc/scheduler.rs 503-516 tick (receivers) *)
Definition wake_receiver (k : Kst) (i : nat) : outcome Kst :=
  let! t := idx (tasks k) i in
  match state t with
  | WaitingForMsg queue_id msg_ptr =>
      let! (r, msg, qs) := ipc.msgrcv (queues k) queue_id ipc.empty in
      let k := set_queues k qs in
      if r =? 0 then
        let! k := mem_do (us_copy (kernel_cr3 k) msg_ptr (message_bytes msg)) k in
        Ret (upd i (fun t => set_state (set_ctx t (with_rax (ctx t) 0)) Ready) k)
      else Ret k
  | _ => Ret k
  end.
Fixpoint wake_receivers (k : Kst) (slots : list nat) : outcome Kst :=
  match slots with
  | [] => Ret k
  | i :: slots' => let! k := wake_receiver k i in wake_receivers k slots'
  end.

(** A task waiting for a child that has died gets its exit code, and the
    child's slot becomes free. *)
(* @src proc/scheduler.rs 518-534 tick (waiters) *)
Definition reap (ts : list Task) (i : nat) : list Task :=
  match ts !! i with
  | None => ts
  | Some t =>
      match state t with
      | Waiting child_pid =>
          match position (fun u => pid u =? child_pid) ts with
          | None => ts
          | Some j =>
              match ts !! j with
              | None => ts
              | Some u =>
                  match state u with
                  | Dead code =>
                      let ts := <[i := set_state (set_ctx t (with_rax (ctx t) (wrap 64 code))) Ready]> ts in
                      alter (fun u => set_parent_pid (set_pid (set_state u Empty) 0) 0) j ts
                  | _ => ts
                  end
              end
          end
      | _ => ts
      end
  end.
Definition reap_all (ts : list Task) : list Task := foldl reap ts (seq 0 MAX_TASKS).

Definition ready (ts : list Task) (i : nat) : bool :=
  match ts !! i with Some t => bool_decide (state t = Ready) | None => false end.

(** The slots in the order they are asked, beginning after [cur]. *)
Definition order (cur : nat) : list nat :=
  (fun i => ((cur + 1) mod MAX_TASKS + i) mod MAX_TASKS)%nat <$> seq 0 MAX_TASKS.

(* @src proc/scheduler.rs 536-545 tick (choice) *)
Definition round_robin (ts : list Task) (cur : nat) : option nat :=
  List.find (ready ts) (order cur).

(** What the processor is given to run. *)
Inductive launch :=
| Launch_at (entry initial_rsp cr3 : Z)
| Resume (c : TaskContext) (cr3 : Z).

(** [run_user]: what happens from entering user mode to the call of
    [exit_to_kernel]; the programs are not part of the kernel. *)
Section Tick.
Variable run_user : launch -> Kst -> outcome (Z * Kst).

(** [paging_allocator::free_user_page_table(cr3)] unless the task has none. *)
Definition drop_space (i : nat) (k : Kst) : outcome Kst :=
  let! t := idx (tasks k) i in
  if cr3 t =? 0 then Ret k
  else let! k := mem_do (pm_free (cr3 t)) k in Ret (upd i (fun t => set_cr3 t 0) k).

(* @src proc/scheduler.rs 566-591 tick (run) *)
Definition run_task (i : nat) (k : Kst) : outcome (Z * Kst) :=
  let k := set_slice (upd i (fun t => set_state t Running) k) TICKS_PER_SLICE in
  let! t := idx (tasks k) i in
  let k := set_msr k (fs_base t) in
  if first_run t then
    run_user (Launch_at (entry t) (initial_rsp t) (cr3 t)) (upd i (fun t => set_first_run t false) k)
  else run_user (Resume (ctx t) (cr3 t)) k.

(* @src proc/scheduler.rs 593-634 tick (after) *)
Definition after_run (i : nat) (code : Z) (k : Kst) : outcome (option (Z * Z) * Kst) :=
  if code =? EXIT_PREEMPTED then Ret (None, upd i (fun t => set_state t Ready) k)
  else if code =? EXIT_SLEEPING then Ret (None, k)
  else
    let! t := idx (tasks k) i in
    let k := upd i (fun t => set_state t (Dead code)) k in
    let! k := drop_space i k in
    let k := if parent_pid t =? 0 then k
             else set_tasks k (send_signal (parent_pid t) SIGCHLD (tasks k)).2 in
    Ret (Some (pid t, code), k).

(* @src proc/scheduler.rs 486-534 tick (wake) *)
Definition wake (now : Z) (k : Kst) : outcome Kst :=
  let k := set_tasks k (wake_sleepers now (tasks k)) in
  let k := set_tasks k (fire_alarms now (tasks k)) in
  let! k := wake_receivers k (seq 0 MAX_TASKS) in
  Ret (set_tasks k (reap_all (tasks k))).

(** The part of [tick] after a task has been chosen. *)
(* @src proc/scheduler.rs 547-634 tick (dispatch) *)
Definition dispatch (i : nat) (k : Kst) : outcome (option (Z * Z) * Kst) :=
  let k := set_current k i in
  let! t := idx (tasks k) i in
  let! (killed, k) := (if pending_signals t =? 0 then Ret (false, k)
                       else deliver_pending_signals i k) in
  if (killed : bool) then
    let! k := drop_space i k in
    let! t := idx (tasks k) i in
    Ret (Some (pid t, default (-1) (exit_code (state t))), k)
  else
    let! (code, k) := run_task i k in
    after_run i code k.

(* @src proc/scheduler.rs 482-635 tick *)
Definition tick (now : Z) (k : Kst) : outcome (option (Z * Z) * Kst) :=
  let! k := wake now k in
  match round_robin (tasks k) (current k) with
  | None => Ret (None, k)
  | Some i => dispatch i k
  end.
End Tick.

(** ** Calls of the running task that return to [tick] *)

(* @src proc/scheduler.rs 638-644 preempt *)
Definition preempt (c : TaskContext) (k : Kst) : Z * Kst :=
  (EXIT_PREEMPTED, upd (current k) (fun t => set_ctx t c) k).

(* @src proc/scheduler.rs 647-654 sleep_task *)
Definition sleep_task (wake_tick : Z) (c : TaskContext) (k : Kst) : Z * Kst :=
  (EXIT_SLEEPING,
   upd (current k) (fun t => set_state (set_ctx t (with_rax c 0)) (Sleeping wake_tick)) k).

(* @src proc/scheduler.rs 896-906 wait_for_pid *)
Definition wait_for_pid (parent_idx : nat) (child_pid : Z) (c : TaskContext) (k : Kst) : Z * Kst :=
  (EXIT_SLEEPING,
   upd parent_idx (fun t => set_state (set_ctx t (with_rax c 0)) (Waiting child_pid)) k).

(* @src proc/scheduler.rs 913-924 wait_for_msg *)
Definition wait_for_msg (queue_id msg_ptr : Z) (c : TaskContext) (k : Kst) : Z * Kst :=
  (EXIT_SLEEPING,
   upd (current k) (fun t => set_state (set_ctx t (with_rax c 0)) (WaitingForMsg queue_id msg_ptr)) k).

(** ** Queries *)

(* @src proc/scheduler.rs 927-933 has_task *)
Definition has_task (ts : list Task) : bool := existsb (fun t => negb (vacant (state t))) ts.

(* @src proc/scheduler.rs 936-944 task_count *)
Definition task_count (ts : list Task) : nat :=
  length (base.filter (fun t => vacant (state t) = false) ts).

(* @src proc/scheduler.rs 356-361 TaskInfo *)
Record TaskInfo := mkInfo { i_pid : Z; i_name : list Z; i_name_len : nat; i_state : TaskState }.

(* @src proc/scheduler.rs 363-378 task_infos *)
Definition task_infos (ts : list Task) : list TaskInfo :=
  (fun t => mkInfo (pid t) (name t) (name_len t) (state t)) <$> ts.

(** ** New tasks *)

Definition div_ceil (a b : Z) : Z := (a + b - 1) / b.

(** Mapping and filling the pages of a program: an ELF image or flat code. *)
(* @src proc/scheduler.rs 405-417 spawn (image) *)
Definition load_image (beyond code : list Z) (c : Z) : prog Kst string Z :=
  if elf.is_elf code then on_mem (elf.load_in beyond code c)
  else
    let? r := catch (on_mem (pm_map c USER_CODE_ADDR (div_ceil (Z.of_nat (length code)) 4096) true true)) in
    match r with
    | Err _ => err "OOM: code"%string
    | Ok _ => let? _ := on_mem (us_copy c USER_CODE_ADDR code) in ok USER_CODE_ADDR
    end.

(** [if map_user_region_in(cr3, USER_SIGTRAMP, ..).is_ok() { copy }] *)
(* @src proc/scheduler.rs 445-450 spawn (trampoline) *)
Definition map_trampoline (c : Z) : prog Kst string unit :=
  let? r := catch (on_mem (pm_map c USER_SIGTRAMP 1 true true)) in
  match r with
  | Err _ => ok tt
  | Ok _ => on_mem (us_copy c USER_SIGTRAMP SIGTRAMP_BYTES)
  end.

(** The task written into the slot: [pgid], [cwd] and the tail of [name] keep
    what the slot held. *)
(* @src proc/scheduler.rs 419-443 spawn (slot) *)
Definition spawned (t : Task) (e c p : Z) : Task := {|
  state := Ready; ctx := zeroed; name := name t; name_len := name_len t; first_run := true;
  entry := e; cr3 := c; pid := p; parent_pid := 0; pgid := pgid t; fs_base := 0;
  heap_end := 0; mmap_end := 0; output := task_output.mk (task_output.output (output t)) 0;
  fd_table := new; cwd := cwd t; cwd_len := cwd_len t; pending_signals := 0; signal_mask := 0;
  saved_signal_mask := 0; in_sigsuspend := false; alarm_deadline := 0;
  signal_handlers := replicate NSIG 0; shm_attaches := shm.no_attaches;
  initial_rsp := initial_rsp t; mmap_regions := replicate MAX_MMAP_REGIONS no_region;
  mmap_nregions := 0 |}.

(** [beyond] is the memory after the image in the kernel, as in [elf.load_in]. *)
(* @src proc/scheduler.rs 384-476 spawn *)
Definition spawn (beyond code nm : list Z) : prog Kst string Z :=
  if (length code =? 0)%nat then err "empty binary"%string else
  let? k := get in
  let? slot := ok_or (position (fun t => vacant (state t)) (tasks k)) "max tasks reached (8)"%string in
  let? r := catch (on_mem pm_create) in
  match r with
  | Err _ => err "OOM: cannot allocate page table"%string
  | Ok c =>
      let stack_base := USER_STACK_TOP - USER_STACK_PAGES * 4096 in
      let? r := catch (on_mem (pm_map c stack_base USER_STACK_PAGES true false)) in
      match r with
      | Err _ => err "OOM: stack"%string
      | Ok _ =>
          let? e := load_image beyond code c in
          let p := Z.of_nat slot + 1 in
          let? _ := modify (upd slot (fun t => spawned t e c p)) in
          let? _ := map_trampoline c in
          let? sp := on_mem (argv.write_argv_to_stack (vars k) c USER_STACK_TOP [nm]) in
          let n := Nat.min (length nm) 16 in
          let? _ := modify (upd slot (fun t =>
            set_name_len (set_name (set_initial_rsp t sp) (splice (name t) 0 (take n nm))) n)) in
          ok p
      end
  end.

(** The mappings of attached segments, which stay shared across [fork]. *)
(* @src proc/scheduler.rs 808-819 fork_task (ranges) *)
Definition shm_range (segs : list shm.ShmSegment) (a : shm.ShmAttach) : outcome (list (Z * Z)) :=
  if negb (shm.a_active a) then Ret []
  else
    let n := shm.segment_pages segs (shm.shmid a) in
    if n =? 0 then Ret []
    else let! hi := cadd u64_max (shm.vaddr a) (n * 4096) in Ret [(shm.vaddr a, hi)].
Fixpoint shm_ranges (segs : list shm.ShmSegment) (l : list shm.ShmAttach) : outcome (list (Z * Z)) :=
  match l with
  | [] => Ret []
  | a :: l' => let! r := shm_range segs a in let! rs := shm_ranges segs l' in Ret (r ++ rs)
  end.

Definition stack_range : Z * Z := (USER_STACK_TOP - USER_STACK_PAGES * 4096, USER_STACK_TOP).

(** The child written over the task [t] in its slot. *)
(* @src proc/scheduler.rs 826-877 fork_task (child) *)
Definition forked (t parent : Task) (child_ctx : TaskContext) (c p : Z) : Task := {|
  state := Ready; ctx := child_ctx; name := name parent; name_len := name_len parent; first_run := false;
  entry := entry parent; cr3 := c; pid := p; parent_pid := pid parent; pgid := pgid parent;
  fs_base := fs_base t; heap_end := heap_end parent; mmap_end := mmap_end parent;
  output := task_output.mk (task_output.output (output t)) 0; fd_table := fd_table parent;
  cwd := cwd parent; cwd_len := cwd_len parent; pending_signals := 0; signal_mask := 0;
  saved_signal_mask := 0; in_sigsuspend := false; alarm_deadline := 0;
  signal_handlers := signal_handlers parent; shm_attaches := shm.no_attaches;
  initial_rsp := initial_rsp t; mmap_regions := mmap_regions parent;
  mmap_nregions := mmap_nregions parent |}.

(** The first slot a child can take, other than the parent's. *)
Definition child_slot (parent_idx : nat) (ts : list Task) : option nat :=
  List.find (fun i => negb (i =? parent_idx)%nat &&
                      match ts !! i with Some t => vacant (state t) | None => false end)
            (seq 0 MAX_TASKS).

(* @src proc/scheduler.rs 794-890 fork_task *)
Definition fork_task (parent_idx : nat) (child_ctx : TaskContext) : prog Kst string Z :=
  let? k := get in
  let? slot := ok_or (child_slot parent_idx (tasks k)) "max tasks reached"%string in
  let? parent := checked (idx (tasks k) parent_idx) in
  let? ranges := checked (shm_ranges (segtab k) (shm_attaches parent)) in
  let? r := catch (on_mem (pm_fork stack_range ranges (cr3 parent))) in
  match r with
  | Err _ => err "OOM: fork page table"%string
  | Ok c =>
      let p := Z.of_nat slot + 1 in
      let? _ := modify (upd slot (fun t => forked t parent child_ctx c p)) in
      let? ps := checked (fd_pipes.inherit (fd_table parent) (pipes k)) in
      let? _ := modify (fun k => set_pipes k ps) in
      ok p
  end.

End Sched.

(** ** A machine with unlimited memory *)

#[export] Existing Instance elf_spec.flat_space.
#[export] Existing Instance elf_spec.flat_space_laws.

#[export] Instance flat_memory : ProcMemory (Z -> Z -> option Z) := {|
  pm_create := fun w => Ret (Ok 4096, w);
  pm_map := fun cr3 base n _ _ => us_map cr3 base n;
  pm_unmap := fun cr3 base n w => Ret (Ok tt, fun c a =>
    if decide (c = cr3 /\ base <= a < base + 4096 * n) then None else w c a);
  pm_free := fun cr3 w => Ret (Ok tt, fun c a => if decide (c = cr3) then None else w c a);
  pm_fork := fun _ _ cr3 w => Ret (Ok (cr3 + 4096), fun c a => if decide (c = cr3 + 4096) then w cr3 a else w c a);
|}.

Definition boot : Kst (W := Z -> Z -> option Z) := {|
  tasks := replicate MAX_TASKS empty; current := 0; slice_remaining := 0; current_task_idx := 0;
  syscall_ctx := None; kernel_cr3 := 0; fs_base_msr := 0; queues := ipc.QUEUES; pipes := pipe.PIPES;
  segtab := shm.SEGTAB; vars := env.ENV_TABLE; um := fun _ _ => None |}.

End sched.
