(* ===== verification/SchedSpec.v ===== *)
(** * The scheduler's properties

    Round-robin choice and bounded waiting, delivery of signals, and reaping of
    children, for the operations of [Sched.sched]. *)

From stdpp Require Import base list gmap strings list_numbers relations.
From Stdlib Require Import ZArith Lia.
From S2P Require Import Prelude IpcPipe IpcMsgq FdTable FdPipes Shm Env ElfLoader Task Argv Sched.

Local Open Scope Z_scope.

Module sched_spec.
Import fdtable task sched.

(** When terms are compared, the wake phase is unfolded last. *)
#[local] Strategy 100 [wake wake_receivers deliver_pending_signals].

(** ** Round robin *)

(** How many slots are asked before slot [j], beginning after [cur]. *)
Definition dist (cur j : nat) : nat := ((j + 7 - cur) mod 8)%nat.

Definition order_ok (cur : nat) : bool :=
  forallb (fun j => bool_decide (order cur !! dist cur j = Some j)) (seq 0 8) &&
  forallb (fun d => match order cur !! d with
                    | Some i => (i <? 8)%nat && (dist cur i =? d)%nat &&
                        forallb (fun j => implb ((d <? dist cur j)%nat) (dist i j <? dist cur j)%nat) (seq 0 8)
                    | None => false end) (seq 0 8).

Lemma order_all : forallb order_ok (seq 0 8) = true.
Proof. vm_compute. reflexivity. Qed.

Lemma order_facts cur : (cur < 8)%nat ->
  (forall j, (j < 8)%nat -> order cur !! dist cur j = Some j) /\
  (forall d i, order cur !! d = Some i -> (i < 8)%nat /\ dist cur i = d /\
     forall j, (j < 8)%nat -> (d < dist cur j)%nat -> (dist i j < dist cur j)%nat).
Proof.
  intros Hc. pose proof order_all as H. rewrite forallb_forall in H.
  specialize (H cur). rewrite in_seq in H. specialize (H ltac:(lia)). unfold order_ok in H.
  apply andb_true_iff in H as [H1 H2]. rewrite forallb_forall in H1, H2. split.
  - intros j Hj. specialize (H1 j). rewrite in_seq in H1. specialize (H1 ltac:(lia)).
    by apply bool_decide_eq_true in H1.
  - intros d i Hd. assert (d < 8)%nat as Hd8.
    { apply lookup_lt_Some in Hd. unfold order in Hd. by rewrite length_fmap, length_seq in Hd. }
    specialize (H2 d). rewrite in_seq, Hd in H2. specialize (H2 ltac:(lia)).
    apply andb_true_iff in H2 as [[Hi He]%andb_true_iff Hj].
    apply Nat.ltb_lt in Hi. apply Nat.eqb_eq in He. split; [done|]. split; [done|].
    intros j Hj8 Hlt. rewrite forallb_forall in Hj. specialize (Hj j). rewrite in_seq in Hj.
    specialize (Hj ltac:(lia)). apply Nat.ltb_lt in Hlt. rewrite Hlt in Hj. cbn in Hj.
    by apply Nat.ltb_lt.
Qed.

Lemma find_first {A} (f : A -> bool) l : 
  match List.find f l with
  | Some x => exists d, l !! d = Some x /\ f x = true /\ forall e y, (e < d)%nat -> l !! e = Some y -> f y = false
  | None => forall e y, l !! e = Some y -> f y = false
  end.
Proof.
  induction l as [|a l IH]; cbn; [done|]. destruct (f a) eqn:Ha.
  - exists 0%nat. split; [done|]. split; [done|]. intros; lia.
  - destruct (List.find f l) as [x|].
    + destruct IH as (d & Hd & Hx & Hm). exists (S d). split; [done|]. split; [done|].
      intros [|e] y He Hy; cbn in Hy; [congruence|]. apply (Hm e y); [lia|done].
    + intros [|e] y Hy; cbn in Hy; [congruence|]. by apply (IH e).
Qed.

(** The chosen slot is ready and no ready slot comes before it. *)
Lemma round_robin_first ts cur : (cur < 8)%nat ->
  match round_robin ts cur with
  | Some i => (i < 8)%nat /\ ready ts i = true /\
      forall j, (j < 8)%nat -> ready ts j = true -> i = j \/ (dist i j < dist cur j)%nat
  | None => forall j, (j < 8)%nat -> ready ts j = false
  end.
Proof.
  intros Hc. destruct (order_facts cur Hc) as [Hin Hout]. unfold round_robin.
  pose proof (find_first (ready ts) (order cur)) as Hf.
  destruct (List.find (ready ts) (order cur)) as [i|].
  - destruct Hf as (d & Hd & Hr & Hm). destruct (Hout d i Hd) as (Hi & He & Hj).
    split; [done|]. split; [done|]. intros j Hj8 Hrj.
    destruct (decide (d < dist cur j)%nat) as [Hlt|Hge]; [right; by apply Hj|left].
    destruct (decide (dist cur j < d)%nat) as [Hlt|Hge'].
    + pose proof (Hm _ _ Hlt (Hin j Hj8)). congruence.
    + assert (dist cur j = d) as E by lia. pose proof (Hin j Hj8) as Hl. rewrite E in Hl. congruence.
  - intros j Hj. by apply (Hf (dist cur j)), Hin.
Qed.

Section Ticks.
Context {W : Type} `{UserSpace W} `{ProcMemory W}.
Variable run_user : launch -> Kst (W := W) -> outcome (Z * Kst (W := W)).

(** User code never moves the scheduler's cursor: only [tick] writes it. *)
Hypothesis user_keeps_current : forall l k c k', run_user l k = Ret (c, k') -> current k' = current k.

Lemma mem_do_current {E A} (m : prog W E A) k k' : mem_do m k = Ret k' ->
  current k' = current k /\ tasks k' = tasks k.
Proof. unfold mem_do. destruct (m (um k)) as [[r w]|]; [|done]. by intros [= <-]. Qed.

Lemma wake_current now k k' : wake now k = Ret k' -> current k' = current k.
Proof.
  unfold wake. intros (k2 & Hk & [= <-])%bind_Ret. cbn.
  change (current k) with (current (set_tasks (set_tasks k (wake_sleepers now (tasks k)))
    (fire_alarms now (tasks (set_tasks k (wake_sleepers now (tasks k))))))).
  revert Hk. generalize (set_tasks (set_tasks k (wake_sleepers now (tasks k)))
    (fire_alarms now (tasks (set_tasks k (wake_sleepers now (tasks k)))))) (seq 0 MAX_TASKS).
  intros k0 l. revert k0. induction l as [|i l IH]; intros k0; cbn [wake_receivers]; [by intros [= ->]|].
  intros (k1 & H1 & H2)%bind_Ret. rewrite (IH _ H2). clear IH H2. unfold wake_receiver in H1.
  apply bind_Ret in H1 as (t & _ & H1). destruct (state t); try by injection H1 as <-.
  apply bind_Ret in H1 as ([[r msg] qs] & _ & H1). destruct (r =? 0); [|by injection H1 as <-].
  apply bind_Ret in H1 as (k3 & H3 & [= <-]). cbn. by apply mem_do_current in H3 as [-> _].
Qed.

Lemma drop_space_current i k k' : drop_space i k = Ret k' -> current k' = current k.
Proof.
  unfold drop_space. intros (t & _ & Hk)%bind_Ret. destruct (cr3 t =? 0); [by injection Hk as <-|].
  apply bind_Ret in Hk as (k1 & Hk & [= <-]). by apply mem_do_current in Hk as [Hc _].
Qed.

Lemma enter_handler_current i s h k k' : enter_handler i s h k = Ret k' -> current k' = current k.
Proof.
  unfold enter_handler.
  intros (t & _ & (sp & _ & (k1 & [H1 _]%mem_do_current & (sp' & _ & (k2 & [H2 _]%mem_do_current
    & [= <-])%bind_Ret)%bind_Ret)%bind_Ret)%bind_Ret)%bind_Ret. cbn. congruence.
Qed.

Lemma deliver_loop_current fuel i d k b k' : deliver_loop fuel i d k = Ret (b, k') -> current k' = current k.
Proof.
  revert d k. induction fuel as [|fuel IH]; intros d k; cbn [deliver_loop]; [by intros [= _ <-]|].
  destruct (d =? 0); [by intros [= _ <-]|]. intros (t & _ & (h & _ & Hk)%bind_Ret)%bind_Ret.
  destruct (h =? SIG_IGN); [by eapply IH|]. destruct (h =? SIG_DFL).
  - destruct (_ || _); [by eapply IH|]. by injection Hk as _ <-.
  - apply bind_Ret in Hk as (k1 & Hk & [= _ <-]). by eapply enter_handler_current.
Qed.

Lemma dispatch_current i k r k' : dispatch run_user i k = Ret (r, k') -> current k' = i.
Proof using user_keeps_current.
  unfold dispatch. intros (t & _ & ([killed k1] & Hd & Hk)%bind_Ret)%bind_Ret.
  assert (current k1 = i) as Hc.
  { destruct (pending_signals t =? 0); [by injection Hd as _ <-|].
    unfold deliver_pending_signals in Hd. apply bind_Ret in Hd as (u & _ & Hd).
    destruct (deliverable u =? 0); [by injection Hd as _ <-|].
    by apply deliver_loop_current in Hd. }
  destruct killed.
  - apply bind_Ret in Hk as (k2 & H2%drop_space_current & (u & _ & [= _ <-])%bind_Ret). congruence.
  - apply bind_Ret in Hk as ([code k2] & H2 & Ha). assert (current k2 = i) as Hc2.
    { unfold run_task in H2. apply bind_Ret in H2 as (u & _ & H2).
      destruct (first_run u); apply user_keeps_current in H2; cbn in H2; congruence. }
    unfold after_run in Ha. destruct (code =? EXIT_PREEMPTED); [by injection Ha as _ <-|].
    destruct (code =? EXIT_SLEEPING); [by injection Ha as _ <-|].
    apply bind_Ret in Ha as (u & _ & (k3 & H3%drop_space_current & [= _ <-])%bind_Ret).
    destruct (parent_pid u =? 0); cbn in *; congruence.
Qed.

Lemma tick_chosen now k k1 j : wake now k = Ret k1 -> round_robin (tasks k1) (current k1) = Some j ->
  tick run_user now k = dispatch run_user j k1.
Proof using Type. intros Hw Hr. unfold tick. rewrite Hw. cbn [mbind outcome_mbind]. by rewrite Hr. Qed.

(** One tick that finds slot [j] ready: it runs [j], or another task and then
    [j] is closer to its turn. *)
Lemma tick_progress now k k1 r k' j : (current k < 8)%nat -> (j < 8)%nat ->
  wake now k = Ret k1 -> ready (tasks k1) j = true -> tick run_user now k = Ret (r, k') ->
  round_robin (tasks k1) (current k1) = Some j \/
  (current k' < 8)%nat /\ (dist (current k') j < dist (current k) j)%nat.
Proof using user_keeps_current.
  intros Hc Hj Hw Hr Ht. unfold tick in Ht. apply bind_Ret in Ht as (k1' & Hw' & Ht).
  rewrite Hw in Hw'. injection Hw' as <-.
  rewrite <- (wake_current now k k1 Hw) in Hc |- *.
  pose proof (round_robin_first (tasks k1) (current k1) Hc) as Hf.
  destruct (round_robin (tasks k1) (current k1)) as [i|].
  - destruct Hf as (Hi & _ & Hm). rewrite (dispatch_current _ _ _ _ Ht).
    destruct (Hm j Hj Hr) as [->|]; [by left|by right].
  - by rewrite Hf in Hr.
Qed.

(** C5: Bounded waiting.  Over any run of eight ticks in which a task is found
    ready each time, the scheduler picks that task in one of them, whatever the
    other tasks, the user programs and the clock do. *)
Theorem ready_task_runs_within_eight_ticks (ks woken : nat -> Kst (W := W)) (now : nat -> Z)
    (rs : nat -> option (Z * Z)) (j : nat)
    (Hj : (j < MAX_TASKS)%nat) (Hcur : (current (ks 0%nat) < MAX_TASKS)%nat)
    (Hwake : forall n, (n < 8)%nat -> wake (now n) (ks n) = Ret (woken n))
    (Htick : forall n, (n < 8)%nat -> tick run_user (now n) (ks n) = Ret (rs n, ks (S n)))
    (Hready : forall n, (n < 8)%nat -> ready (tasks (woken n)) j = true) :
  exists n, (n < 8)%nat /\ round_robin (tasks (woken n)) (current (woken n)) = Some j /\
    tick run_user (now n) (ks n) = dispatch run_user j (woken n).
Proof using user_keeps_current.
  unfold MAX_TASKS in *.
  assert (forall n, (n <= 8)%nat ->
    (exists m, (m < n)%nat /\ round_robin (tasks (woken m)) (current (woken m)) = Some j) \/
    (current (ks n) < 8)%nat /\ (dist (current (ks n)) j + n <= dist (current (ks 0%nat)) j)%nat) as Hn.
  { induction n as [|n IH]; intros Hle; [right; lia|].
    destruct (IH ltac:(lia)) as [(m & Hm & Hx)|(Hc & Hd)]; [left; exists m; split; [lia|done]|].
    destruct (tick_progress (now n) (ks n) (woken n) (rs n) (ks (S n)) j) as [Hx|[Hc' Hd']];
      [done..|by apply Hwake; lia|by apply Hready; lia|by apply Htick; lia|left; exists n; split; [lia|done]|].
    right. split; [done|lia]. }
  destruct (Hn 8%nat) as [(n & Hlt & Hx)|(_ & Hd)]; [done| |].
  - exists n. split; [done|]. split; [done|]. by apply tick_chosen; [apply Hwake|].
  - exfalso. assert (dist (current (ks 0%nat)) j < 8)%nat by (unfold dist; apply Nat.mod_upper_bound; lia). lia.
Qed.
End Ticks.

(** ** Signal delivery *)

(** The set bits of a mask, lowest first. *)
Definition bits (d : Z) : list Z := List.filter (Z.testbit d) (seqZ 0 32).

Lemma filter_first {A} `{EqDecision A} (f : A -> bool) l p :
  NoDup l -> position f l = Some p -> exists x, l !! p = Some x /\ f x = true /\
  List.filter f l = x :: List.filter (fun y => f y && negb (bool_decide (y = x))) l.
Proof.
  revert p. induction l as [|a l IH]; intros p ND Hp; cbn in Hp; [done|].
  apply NoDup_cons in ND as [Ha ND]. destruct (f a) eqn:Hf.
  - injection Hp as <-. exists a. split; [done|]. split; [done|]. cbn. rewrite Hf. cbn.
    rewrite bool_decide_true by done. cbn. f_equal. apply List.filter_ext_in. intros y Hy.
    rewrite bool_decide_false; [by rewrite andb_true_r|]. intros ->. by apply Ha, list_elem_of_In.
  - apply fmap_Some in Hp as (q & Hq & ->). destruct (IH q ND Hq) as (x & Hx & Hfx & E).
    exists x. split; [done|]. split; [done|]. cbn. rewrite Hf. cbn. done.
Qed.

Lemma bits_nil d : 0 <= d < 2 ^ 32 -> (bits d = [] <-> d = 0).
Proof.
  intros Hd. split; [|by intros ->; vm_compute]. intros E. apply Z.bits_inj'. intros n Hn.
  rewrite Z.bits_0. destruct (decide (n < 32)) as [Hlt|Hge].
  - destruct (Z.testbit d n) eqn:Hb; [|done]. assert (In n (bits d)) as Hin.
    { apply List.filter_In. split; [|done]. apply list_elem_of_In, elem_of_seqZ. lia. }
    by rewrite E in Hin.
  - destruct (decide (d = 0)) as [->|]; [apply Z.bits_0|]. apply Z.bits_above_log2; [lia|].
    apply Z.log2_lt_pow2; [lia|]. apply Z.lt_le_trans with (2 ^ 32); [lia|]. by apply Z.pow_le_mono_r; lia.
Qed.

Lemma bits_cons d : 0 <= d < 2 ^ 32 -> d <> 0 ->
  bits d = trailing_zeros d :: bits (Z.ldiff d (bit (trailing_zeros d))) /\ 0 <= trailing_zeros d < 32.
Proof.
  intros Hd H0. unfold trailing_zeros. destruct (position (fun b => Z.testbit d b) (seqZ 0 32)) as [p|] eqn:Hp.
  - destruct (filter_first (Z.testbit d) (seqZ 0 32) p) as (x & Hx & _ & E); [apply NoDup_seqZ|done|].
    apply lookup_seqZ in Hx as [-> Hlt]. cbn [default]. split; [|simpl; lia]. unfold bits.
    rewrite Z.add_0_l in E. rewrite E. simpl default. f_equal. apply List.filter_ext_in.
    intros y Hy%list_elem_of_In%elem_of_seqZ. rewrite ldiff_bit_testbit by lia. done.
  - exfalso. apply H0, bits_nil; [done|]. unfold bits. rewrite position_None in Hp.
    assert (forall l, (forall x, In x l -> Z.testbit d x = false) -> List.filter (Z.testbit d) l = []) as Hnil.
    { induction l as [|a l IH]; intros Hall; cbn; [done|]. rewrite (Hall a) by by left. apply IH.
      intros; apply Hall; by right. }
    apply Hnil. intros x Hx%list_elem_of_In%list_elem_of_lookup. destruct Hx as [i Hi]. by eapply Hp.
Qed.

Lemma ldiff_range d m : 0 <= d < 2 ^ 32 -> 0 <= m -> 0 <= Z.ldiff d m < 2 ^ 32.
Proof.
  intros Hd Hm. assert (0 <= Z.ldiff d m) as Hn by (apply Z.ldiff_nonneg; lia).
  split; [done|]. apply Z.bounded_iff_bits_nonneg; [lia|done|]. intros l Hl. rewrite Z.ldiff_spec.
  by rewrite (proj1 (Z.bounded_iff_bits_nonneg 32 d ltac:(lia) ltac:(lia)) ltac:(lia) l Hl).
Qed.

(** The first signal that has an effect, and its handler. *)
Fixpoint first_effective (handlers : list Z) (bs : list Z) : option (Z * Z) :=
  match bs with
  | [] => None
  | b :: bs' =>
      let signum := b + 1 in
      let h := default SIG_DFL (handlers !! Z.to_nat signum) in
      if (h =? SIG_IGN) || ((h =? SIG_DFL) && ((signum =? SIGCHLD) || (signum =? SIGCONT)))
      then first_effective handlers bs' else Some (signum, h)
  end.

Lemma length_bits d : (length (bits d) <= 32)%nat.
Proof.
  unfold bits. transitivity (length (seqZ 0 32)); [|by rewrite length_seqZ].
  generalize (seqZ 0 32). induction l as [|a l IH]; cbn; [done|]. destruct (Z.testbit d a); cbn; lia.
Qed.

#[local] Opaque bits.

Section Delivery.
Context {W : Type} `{UserSpace W} `{ProcMemory W}.
Implicit Types (k : Kst (W := W)) (t : Task).

(** What delivering the signals [d] to task [i] comes to. *)
Definition delivered (i : nat) (d : Z) (t : Task) k : outcome (bool * Kst) :=
  match first_effective (signal_handlers t) (bits d) with
  | None => Ret (false, k)
  | Some (signum, h) =>
      if h =? SIG_DFL then Ret (true, upd i (fun t => set_state t (Dead (128 + signum))) k)
      else let! k := enter_handler i signum h k in Ret (false, k)
  end.

Lemma handler_of t b : length (signal_handlers t) = NSIG -> 0 <= b < 32 ->
  (if b + 1 <? Z.of_nat NSIG then idx (signal_handlers t) (Z.to_nat (b + 1)) else Ret SIG_DFL) =
  Ret (default SIG_DFL (signal_handlers t !! Z.to_nat (b + 1))).
Proof.
  intros Hl Hb. unfold NSIG in *. destruct (Z.ltb_spec (b + 1) (Z.of_nat 32)).
  - destruct (idx_lt (signal_handlers t) (Z.to_nat (b + 1))) as (h & -> & ->); [lia|done].
  - by rewrite lookup_ge_None_2 by lia.
Qed.

(** One turn per set bit is enough: the loop reaches its end within its bound. *)
Lemma deliver_loop_ref fuel i d t k : 0 <= d < 2 ^ 32 -> (length (bits d) <= fuel)%nat ->
  tasks k !! i = Some t -> length (signal_handlers t) = NSIG ->
  deliver_loop fuel i d k = delivered i d t k.
Proof.
  revert d. induction fuel as [|fuel IH]; intros d Hd Hf Ht Hh; unfold delivered.
  - cbn [deliver_loop]. destruct (bits d); [done|cbn in Hf; lia].
  - cbn [deliver_loop]. destruct (Z.eqb_spec d 0) as [->|Hnz].
    { by rewrite (proj2 (bits_nil 0 ltac:(lia)) eq_refl). }
    destruct (bits_cons d Hd Hnz) as [E Hb]. rewrite E in Hf |- *. cbn [length] in Hf.
    rewrite (proj2 (idx_Ret _ _ _) Ht). cbn [mbind outcome_mbind]. rewrite handler_of by done.
    cbn [mbind outcome_mbind first_effective].
    set (h := default SIG_DFL (signal_handlers t !! Z.to_nat (trailing_zeros d + 1))).
    assert (0 <= bit (trailing_zeros d)) by (unfold bit; rewrite Z.shiftl_1_l; apply Z.pow_nonneg; lia).
    specialize (IH (Z.ldiff d (bit (trailing_zeros d))) (ldiff_range _ _ Hd ltac:(done)) ltac:(lia) Ht Hh).
    unfold delivered in IH. destruct (h =? SIG_IGN); cbn [orb]; [done|].
    destruct (h =? SIG_DFL) eqn:Hdfl; cbn [andb].
    + destruct ((trailing_zeros d + 1 =? SIGCHLD) || (trailing_zeros d + 1 =? SIGCONT)); [done|].
      by rewrite Hdfl.
    + by rewrite Hdfl.
Qed.

Lemma deliverable_testbit t b : 0 <= b -> Z.testbit (deliverable t) b =
  Z.testbit (pending_signals t) b && (negb (Z.testbit (signal_mask t) b) || (b =? 8) || (b =? 18)).
Proof.
  intros Hb. unfold deliverable, always_deliverable, SIGKILL, SIGSTOP.
  rewrite Z.lor_spec, Z.ldiff_spec, Z.land_spec, Z.lor_spec, !bit_testbit, !bool_decide_Zeqb by lia.
  change (9 - 1) with 8. change (19 - 1) with 18.
  destruct (Z.testbit (pending_signals t) b), (Z.testbit (signal_mask t) b), (b =? 8), (b =? 18); reflexivity.
Qed.

Lemma deliverable_range t : 0 <= pending_signals t < 2 ^ 32 -> 0 <= deliverable t < 2 ^ 32.
Proof.
  intros Hp. assert (0 <= deliverable t) as Hn.
  { unfold deliverable. apply Z.lor_nonneg. split; [apply Z.ldiff_nonneg; lia|apply Z.land_nonneg; lia]. }
  split; [done|]. apply Z.bounded_iff_bits_nonneg; [lia|done|]. intros l Hl.
  rewrite deliverable_testbit by lia.
  by rewrite (proj1 (Z.bounded_iff_bits_nonneg 32 (pending_signals t) ltac:(lia) ltac:(lia)) ltac:(lia) l Hl).
Qed.

Lemma deliver_ref i t k : tasks k !! i = Some t -> 0 <= pending_signals t < 2 ^ 32 ->
  length (signal_handlers t) = NSIG ->
  let t' := set_pending_signals t (Z.ldiff (pending_signals t) (deliverable t)) in
  deliver_pending_signals i k =
    (if deliverable t =? 0 then Ret (false, k)
     else delivered i (deliverable t) t' (set_tasks k (<[i := t']> (tasks k)))).
Proof.
  intros Ht Hp Hh. cbv zeta. unfold deliver_pending_signals. rewrite (proj2 (idx_Ret _ _ _) Ht).
  cbn [mbind outcome_mbind].
  destruct (deliverable t =? 0); [done|]. unfold upd. rewrite (alter_insert _ _ _ _ Ht).
  apply deliver_loop_ref; [by apply deliverable_range|apply length_bits| |done].
  cbn. apply list_lookup_insert_eq. by eapply lookup_lt_Some.
Qed.

(** C34: Signal delivery is the lowest effective signal first.  Delivering to a
    task keeps exactly its masked signals pending (SIGKILL and SIGSTOP cannot be
    held back), skips the signals that are ignored explicitly or by default, and
    acts on the first of the others in numeric order: a default action kills the
    task with code 128 plus the signal, a handler is entered.  The loop reaches
    that answer within its 32 turns. *)
Theorem delivery_takes_the_lowest_effective_signal (i : nat) t k
    (Ht : tasks k !! i = Some t) (Hp : 0 <= pending_signals t < 2 ^ 32)
    (Hh : length (signal_handlers t) = NSIG) :
  let t' := set_pending_signals t (Z.ldiff (pending_signals t) (deliverable t)) in
  (forall b, 0 <= b -> Z.testbit (pending_signals t') b =
     Z.testbit (pending_signals t) b && Z.testbit (signal_mask t) b && negb (b =? 8) && negb (b =? 18)) /\
  deliver_pending_signals i k =
    (if deliverable t =? 0 then Ret (false, k)
     else delivered i (deliverable t) t' (set_tasks k (<[i := t']> (tasks k)))).
Proof.
  cbv zeta. split.
  - intros b Hb. cbn [pending_signals set_pending_signals]. rewrite Z.ldiff_spec, deliverable_testbit by done.
    by destruct (Z.testbit (pending_signals t) b), (Z.testbit (signal_mask t) b), (b =? 8), (b =? 18).
  - by apply deliver_ref.
Qed.

(** Entering a handler redirects the context and leaves the task otherwise alone. *)
Lemma enter_handler_task i sg h k k' t : tasks k !! i = Some t -> enter_handler i sg h k = Ret k' ->
  exists sp, tasks k' !! i = Some (set_ctx t (with_rdi (with_rip (with_rsp (ctx t) sp) h) sg)).
Proof.
  intros Ht. unfold enter_handler.
  intros (u & Hu%idx_Ret & (sp & _ & (k1 & [_ H1]%mem_do_current & (sp' & _ & (k2 & [_ H2]%mem_do_current
    & [= <-])%bind_Ret)%bind_Ret)%bind_Ret)%bind_Ret)%bind_Ret.
  exists (Z.ldiff sp' 15). cbn. by rewrite list_lookup_alter_eq, H2, H1, Ht.
Qed.

(** A second handled signal is lost.  When two deliverable signals are
    pending, and the first effective one has a handler, the delivery enters that
    handler and clears the other signal too, without acting on it. *)
Theorem second_handled_signal_is_lost (i : nat) t k k' b (s1 h1 s2 : Z)
    (Ht : tasks k !! i = Some t) (Hp : 0 <= pending_signals t < 2 ^ 32)
    (Hh : length (signal_handlers t) = NSIG)
    (Hfirst : first_effective (signal_handlers t) (bits (deliverable t)) = Some (s1, h1))
    (Hhandler : h1 <> SIG_DFL) (Hs2 : 0 < s2)
    (Hpend : Z.testbit (deliverable t) (s2 - 1) = true) (Hne : s1 <> s2)
    (Hd : deliver_pending_signals i k = Ret (b, k')) :
  b = false /\ exists t', tasks k' !! i = Some t' /\ rip (ctx t') = h1 /\ rdi (ctx t') = s1 /\
    Z.testbit (pending_signals t') (s2 - 1) = false.
Proof.
  rewrite (deliver_ref i t k Ht Hp Hh) in Hd.
  destruct (Z.eqb_spec (deliverable t) 0) as [E|_]; [by rewrite E, Z.bits_0 in Hpend|].
  set (t1 := set_pending_signals t (Z.ldiff (pending_signals t) (deliverable t))) in Hd.
  assert (tasks (set_tasks k (<[i := t1]> (tasks k))) !! i = Some t1) as Ht1.
  { cbn. apply list_lookup_insert_eq. by eapply lookup_lt_Some. }
  unfold delivered in Hd. change (signal_handlers t1) with (signal_handlers t) in Hd. rewrite Hfirst in Hd.
  destruct (Z.eqb_spec h1 SIG_DFL); [done|]. apply bind_Ret in Hd as (k1 & Hk & [= <- <-]).
  destruct (enter_handler_task _ _ _ _ _ _ Ht1 Hk) as [sp Hsp]. split; [done|]. eexists. split; [exact Hsp|].
  split; [done|]. split; [done|]. cbn [pending_signals set_ctx t1 set_pending_signals].
  rewrite Z.ldiff_spec, Hpend. apply andb_false_r.
Qed.
End Delivery.

Section Frame.
Context {W : Type} `{UserSpaceLaws W} `{ProcMemory W}.
Implicit Types (k : Kst (W := W)) (t : Task).

Lemma mem_do_copy k c va bs :
  (forall a, va <= a < va + Z.of_nat (length bs) -> is_Some (us_peek (um k) c a)) ->
  exists k', mem_do (us_copy c va bs) k = Ret k' /\ tasks k' = tasks k /\
    forall a, us_peek (um k') c a =
      if decide (va <= a < va + Z.of_nat (length bs)) then bs !! Z.to_nat (a - va) else us_peek (um k) c a.
Proof.
  intros Hm. destruct (us_copy_ok c va bs (um k) Hm) as (w & E & P).
  exists (set_um k w). split; [unfold mem_do; by rewrite E|done].
Qed.

Lemma length_frame f : length (frame_bytes f) = 136%nat.
Proof. reflexivity. Qed.

(** A handler does not return through the trampoline.  On entry to a
    handler the stack pointer addresses the saved frame, so the word a return
    instruction takes is the interrupted instruction pointer, not the address
    of the trampoline that would restore the registers. *)
Theorem handler_return_skips_the_trampoline (i : nat) (sg h : Z) t k
    (Ht : tasks k !! i = Some t) (Hsp : 160 <= rsp (ctx t)) (Hrip : 0 <= rip (ctx t) < 2 ^ 64)
    (Hstack : forall a, rsp (ctx t) - 160 <= a < rsp (ctx t) -> is_Some (us_peek (um k) (cr3 t) a)) :
  exists k' t', enter_handler i sg h k = Ret k' /\ tasks k' !! i = Some t' /\ rip (ctx t') = h /\
    forall n b, le_encode 8 (rip (ctx t)) !! n = Some b ->
      us_peek (um k') (cr3 t) (rsp (ctx t') + Z.of_nat n) = Some b.
Proof.
  set (sp2 := Z.ldiff (rsp (ctx t) - 8 - 136) 15).
  assert (rsp (ctx t) - 159 <= sp2 <= rsp (ctx t) - 144) as Hsp2.
  { subst sp2. change 15 with (Z.ones 4). rewrite Z.ldiff_ones_r by lia.
    rewrite Z.shiftl_mul_pow2, Z.shiftr_div_pow2 by lia. change (2 ^ 4) with 16.
    pose proof (Z.div_mod (rsp (ctx t) - 8 - 136) 16). pose proof (Z.mod_pos_bound (rsp (ctx t) - 8 - 136) 16). lia. }
  destruct (mem_do_copy k (cr3 t) (rsp (ctx t) - 8) (le_encode 8 USER_SIGTRAMP)) as (k1 & E1 & T1 & P1).
  { rewrite length_le_encode. intros a Ha. apply Hstack. lia. }
  destruct (mem_do_copy k1 (cr3 t) sp2 (frame_bytes (frame_of (ctx t)))) as (k2 & E2 & T2 & P2).
  { rewrite length_frame. intros a Ha. rewrite P1, length_le_encode. case_decide.
    - apply lookup_lt_is_Some. rewrite length_le_encode. lia.
    - apply Hstack. lia. }
  exists (upd i (fun t0 => set_ctx t0 (with_rdi (with_rip (with_rsp (ctx t0) sp2) h) sg)) k2).
  exists (set_ctx t (with_rdi (with_rip (with_rsp (ctx t) sp2) h) sg)). split.
  - unfold enter_handler. rewrite (proj2 (idx_Ret _ _ _) Ht). cbn [mbind outcome_mbind].
    rewrite csub_le by lia. cbn [mbind outcome_mbind]. rewrite E1. cbn [mbind outcome_mbind].
    unfold FRAME_SIZE. rewrite csub_le by lia. cbn [mbind outcome_mbind]. fold sp2. by rewrite E2.
  - split; [cbn; by rewrite list_lookup_alter_eq, T2, T1, Ht|]. split; [done|]. intros n b Hn.
    pose proof (lookup_lt_Some _ _ _ Hn) as Hlt. rewrite length_le_encode in Hlt.
    cbn [rsp ctx set_ctx with_rdi with_rip with_rsp um upd set_tasks]. rewrite P2, length_frame, decide_True by lia.
    replace (Z.to_nat (sp2 + Z.of_nat n - sp2)) with n by lia.
    unfold frame_bytes, frame_words, frame_of. cbn [fmap list_fmap concat]. 
    by rewrite lookup_app_l by (rewrite length_le_encode; lia).
Qed.
End Frame.

(** ** Reaping *)

(** The slots a turn of the reaping loop changes: the waiting task itself, and
    a dead task with the number it waits for. *)
Lemma reap_keeps ts i x u : ts !! x = Some u ->
  (x = i -> forall c, state u <> Waiting c) ->
  (forall code t c, state u = Dead code -> ts !! i = Some t -> state t = Waiting c -> pid u <> c) ->
  reap ts i !! x = Some u.
Proof.
  intros Hx H1 H2. unfold reap. destruct (ts !! i) as [t|] eqn:Ht; [|done].
  destruct (state t) as [| | | |c| |] eqn:Es; try done.
  destruct (position (fun u => pid u =? c) ts) as [j|] eqn:Hp; [|done].
  apply position_Some in Hp as (v & Hv & Hpid & _). apply Z.eqb_eq in Hpid. rewrite Hv.
  destruct (state v) as [| | | | | |code] eqn:Ev; try done.
  assert (x <> i) as Hxi by (intros ->; rewrite Ht in Hx; injection Hx as ->; by eapply H1).
  assert (x <> j) as Hxj by (intros ->; rewrite Hv in Hx; injection Hx as ->; by eapply H2).
  by rewrite list_lookup_alter_ne, list_lookup_insert_ne.
Qed.

Section Reap.
Variables (ts0 : list Task) (i j : nat) (t u : Task) (c code : Z).
Hypothesis (Hc : c <> 0) (Ht : state t = Waiting c) (Hu : state u = Dead code) (Hpid : pid u = c).

Definition reaped_parent : Task := set_state (set_ctx t (with_rax (ctx t) (wrap 64 code))) Ready.
Definition reaped_child : Task := set_parent_pid (set_pid (set_state u Empty) 0) 0.

(** Before turn [i]: nobody before [i] waits for [c], and [j] alone has it. *)
Record before (ts : list Task) : Prop := {
  b_parent : ts !! i = Some t;
  b_child : ts !! j = Some u;
  b_first : forall x v, (x < i)%nat -> ts !! x = Some v -> state v <> Waiting c;
  b_alone : forall x v, ts !! x = Some v -> pid v = c -> x = j;
}.

Lemma before_step ts x : before ts -> (x < i)%nat -> before (reap ts x).
Proof using Hc Ht Hu Hpid.
  intros [Hp Hch Hf Ha] Hx.
  assert (forall y v, reap ts x !! y = Some v -> exists v0, ts !! y = Some v0 /\
    (v = v0 \/ (state v = Ready /\ pid v = pid v0) \/ (state v = Empty /\ pid v = 0))) as Hback.
  { intros y v. unfold reap. destruct (ts !! x) as [w|] eqn:Hw; [|by eauto].
    destruct (state w) as [| | | |d| |] eqn:Ew; try by eauto.
    destruct (position _ ts) as [z|]; [|by eauto]. destruct (ts !! z) as [zt|] eqn:Hz; [|by eauto].
    destruct (state zt) as [| | | | | |code0]; try by eauto.
    assert (forall v1, <[x := set_state (set_ctx w (with_rax (ctx w) (wrap 64 code0))) Ready]> ts !! y = Some v1 ->
      exists v0, ts !! y = Some v0 /\ (v1 = v0 \/ state v1 = Ready /\ pid v1 = pid v0)) as Hins.
    { intros v1. destruct (decide (x = y)) as [<-|Hxy].
      - rewrite list_lookup_insert_eq by by eapply lookup_lt_Some. intros [= <-]. exists w. auto.
      - rewrite list_lookup_insert_ne by done. eauto. }
    destruct (decide (z = y)) as [<-|Hzy].
    - rewrite list_lookup_alter_eq. intros (v1 & (v0 & Hv0 & _)%Hins & ->)%fmap_Some. exists v0. auto.
    - rewrite list_lookup_alter_ne by done. intros (v0 & Hv0 & [->|Hr])%Hins; exists v0; auto. }
  constructor.
  - apply reap_keeps; [done|intros; lia|by rewrite Ht].
  - apply reap_keeps; [done| |].
    + by rewrite Hu.
    + intros code' w d _ Hw Ew. rewrite Hpid. intros <-. by apply (Hf x w).
  - intros y v Hy (v0 & Hv0 & [->|[[-> _]|[-> _]]])%Hback; [by eapply Hf|done|done].
  - intros y v (v0 & Hv0 & [->|[[_ E]|[_ E]]])%Hback; intros E'; [by eapply Ha|eapply Ha; [done|congruence]|congruence].
Qed.

Lemma reap_here ts : before ts -> reap ts i !! i = Some reaped_parent /\ reap ts i !! j = Some reaped_child.
Proof using Hc Ht Hu Hpid.
  intros [Hp Hch Hf Ha]. assert (i <> j) by (intros ->; congruence).
  assert (position (fun v => pid v =? c) ts = Some j) as E.
  { apply position_Some. exists u. split; [done|]. split; [by apply Z.eqb_eq|].
    intros y v Hy Hv. apply Z.eqb_neq. intros E. specialize (Ha y v Hv E). lia. }
  unfold reap. rewrite Hp, Ht, E, Hch, Hu. split.
  - rewrite list_lookup_alter_ne by done. apply list_lookup_insert_eq. by eapply lookup_lt_Some.
  - rewrite list_lookup_alter_eq, list_lookup_insert_ne by done. by rewrite Hch.
Qed.

Lemma after_step ts x : ts !! i = Some reaped_parent -> ts !! j = Some reaped_child ->
  reap ts x !! i = Some reaped_parent /\ reap ts x !! j = Some reaped_child.
Proof using Type. intros Hi Hj. split; by apply reap_keeps. Qed.

Lemma reap_all_pair : before ts0 -> (i < MAX_TASKS)%nat ->
  reap_all ts0 !! i = Some reaped_parent /\ reap_all ts0 !! j = Some reaped_child.
Proof using Hc Ht Hu Hpid.
  intros Hb Hi. unfold reap_all, MAX_TASKS in *.
  replace 8%nat with (i + (1 + (7 - i)))%nat by lia. rewrite seq_app, foldl_app, seq_app, foldl_app.
  assert (before (foldl reap ts0 (seq 0 i))) as Hb'.
  { assert (forall n m ts, before ts -> (m + n <= i)%nat -> before (foldl reap ts (seq m n))) as Hn.
    { induction n as [|n IH]; intros m ts H Hle; cbn; [done|]. apply IH; [|lia]. apply before_step; [done|lia]. }
    by apply Hn. }
  destruct (reap_here _ Hb') as [H1 H2].
  change (foldl reap (foldl reap ts0 (seq 0 i)) (seq (0 + i) 1)) with (reap (foldl reap ts0 (seq 0 i)) i).
  revert H1 H2. generalize (reap (foldl reap ts0 (seq 0 i)) i) (seq (0 + i + 1) (7 - i)).
  intros ts l. revert ts. induction l as [|x l IH]; intros ts H1 H2; cbn [foldl]; [by split|].
  destruct (after_step ts x H1 H2). by apply IH.
Qed.
End Reap.

(** A parent gets its child's exit code, once.  When a task waits for a
    child that has died, and it is the first slot to wait for that child, one
    pass of the reaping phase makes it ready with the exit code in [rax] and
    frees the child's slot, whatever else the pass does. *)
Theorem waiter_gets_the_exit_code (ts : list Task) (i j : nat) (t u : Task) (c code : Z)
    (Hi : ts !! i = Some t) (Hlen : (i < MAX_TASKS)%nat) (Ht : state t = Waiting c)
    (Hj : ts !! j = Some u) (Hu : state u = Dead code) (Hpid : pid u = c) (Hc : c <> 0)
    (Hfirst : forall x v, (x < i)%nat -> ts !! x = Some v -> state v <> Waiting c)
    (Halone : forall x v, ts !! x = Some v -> pid v = c -> x = j) :
  exists t' u', reap_all ts !! i = Some t' /\ reap_all ts !! j = Some u' /\
    state t' = Ready /\ rax (ctx t') = wrap 64 code /\ pid t' = pid t /\
    state u' = Empty /\ pid u' = 0 /\ parent_pid u' = 0.
Proof.
  destruct (reap_all_pair ts i j t u c code) as [H1 H2]; [done..|].
  exists (reaped_parent t code), (reaped_child u). done.
Qed.

(** ** Instances *)

(** A task of slot [i], ready to run. *)
Definition sample (i : Z) (st : TaskState) : Task := set_pid (set_state empty st) (i + 1).

Definition two_ready : Kst :=
  set_tasks boot (<[0%nat := sample 0 Ready]> (<[3%nat := sample 3 Ready]> (tasks boot))).

(** A program that computes until its slice ends. *)
Definition spin (l : launch) (k : Kst (W := Z -> Z -> option Z)) : outcome (Z * Kst) := Ret (EXIT_PREEMPTED, k).

Definition or_else {A} (d : A) (o : outcome A) : A := match o with Ret a => a | Panic => d end.
Lemma or_else_Ret {A} (d : A) o : returns o = true -> o = Ret (or_else d o).
Proof. by destruct o. Qed.

Definition at_tick (n : nat) : Kst := Nat.iter n (fun k => (or_else (None, k) (tick spin 0 k)).2) two_ready.

Lemma ready_task_runs_within_eight_ticks_witness : exists n, (n < 8)%nat /\
  tick spin 0 (at_tick n) = dispatch spin 3 (or_else (at_tick n) (wake 0 (at_tick n))).
Proof.
  destruct (ready_task_runs_within_eight_ticks spin ltac:(intros l k c k' [= _ <-]; reflexivity)
    at_tick (fun n => or_else (at_tick n) (wake 0 (at_tick n))) (fun _ => 0)
    (fun n => (or_else (None, at_tick n) (tick spin 0 (at_tick n))).1) 3) as (n & Hn & _ & E).
  - unfold MAX_TASKS. lia.
  - vm_compute. lia.
  - intros n Hn. apply or_else_Ret. do 8 (destruct n as [|n]; [vm_compute; reflexivity|]). lia.
  - intros n Hn. change (at_tick (S n)) with ((or_else (None, at_tick n) (tick spin 0 (at_tick n))).2).
    rewrite <- surjective_pairing. apply or_else_Ret.
    do 8 (destruct n as [|n]; [vm_compute; reflexivity|]). lia.
  - intros n Hn. do 8 (destruct n as [|n]; [vm_compute; reflexivity|]). lia.
  - exists n. split; [exact Hn|exact E].
Defined.

(** A task with a handler for signals 1 and 2, both pending, and a mapped stack. *)
Definition caught : Task :=
  set_ctx (set_signal_handlers (set_pending_signals (sample 0 Ready) 3)
    (<[1%nat := 0x401000]> (<[2%nat := 0x402000]> (replicate NSIG 0))))
    (with_rip (with_rsp zeroed 0x800000) 0x400123).
Definition signalled : Kst :=
  set_um (set_tasks boot (<[0%nat := caught]> (tasks boot))) (fun _ _ => Some 0).

Lemma delivery_takes_the_lowest_effective_signal_witness :
  deliver_pending_signals 0 signalled =
  delivered 0 3 (set_pending_signals caught 0) (set_tasks signalled (<[0%nat := set_pending_signals caught 0]> (tasks signalled))).
Proof.
  destruct (delivery_takes_the_lowest_effective_signal 0 caught signalled) as [_ E];
    [reflexivity|vm_compute; split; congruence|reflexivity|exact E].
Defined.

Lemma second_handled_signal_is_lost_witness : exists k' t', deliver_pending_signals 0 signalled = Ret (false, k') /\
  tasks k' !! 0%nat = Some t' /\ rip (ctx t') = 0x401000 /\ Z.testbit (pending_signals t') 1 = false.
Proof.
  destruct (returns_Ret (deliver_pending_signals 0 signalled)) as [[b k'] E]; [vm_compute; reflexivity|].
  destruct (second_handled_signal_is_lost 0 caught signalled k' b 1 0x401000 2) as (-> & t' & H1 & H2 & _ & H3);
    [reflexivity|vm_compute; split; congruence|reflexivity|vm_compute; reflexivity|vm_compute; congruence
    |lia|vm_compute; reflexivity|lia|exact E|].
  exists k', t'. split; [exact E|]. split; [exact H1|]. split; [exact H2|exact H3].
Defined.

Lemma handler_return_skips_the_trampoline_witness : exists k' t', enter_handler 0 1 0x401000 signalled = Ret k' /\
  tasks k' !! 0%nat = Some t' /\ us_peek (um k') 0 (rsp (ctx t')) = Some 0x23.
Proof.
  destruct (handler_return_skips_the_trampoline 0 1 0x401000 caught signalled) as (k' & t' & E & H1 & _ & H2).
  - reflexivity.
  - vm_compute. congruence.
  - vm_compute. split; congruence.
  - intros a _. exists 0. reflexivity.
  - exists k', t'. split; [exact E|]. split; [exact H1|].
    rewrite <- (Z.add_0_r (rsp (ctx t'))). apply (H2 0%nat 0x23). vm_compute. reflexivity.
Defined.

(** Slot 0 waits for process 2, which has exited with code 7. *)
Definition family : list Task :=
  [sample 0 (Waiting 2); set_parent_pid (sample 1 (Dead 7)) 1; sample 2 Ready].

Lemma waiter_gets_the_exit_code_witness : exists t' u',
  reap_all family !! 0%nat = Some t' /\ reap_all family !! 1%nat = Some u' /\ state t' = Ready /\ rax (ctx t') = 7.
Proof.
  destruct (waiter_gets_the_exit_code family 0 1 (sample 0 (Waiting 2)) (set_parent_pid (sample 1 (Dead 7)) 1) 2 7)
    as (t' & u' & H1 & H2 & H3 & H4 & _).
  - reflexivity.
  - unfold MAX_TASKS. lia.
  - reflexivity.
  - reflexivity.
  - reflexivity.
  - reflexivity.
  - lia.
  - intros x v Hx. lia.
  - intros [|[|[|x]]] v Hv Hp; cbn in Hv; [injection Hv as <-; discriminate|done|injection Hv as <-; discriminate|discriminate].
  - exists t', u'. split; [exact H1|]. split; [exact H2|]. split; [exact H3|exact H4].
Defined.
End sched_spec.
