(* ===== verification/ProcCalls.v ===== *)
(** * Process system calls (kernel/src/kernel/sys/syscall.rs)

    Module [proc_calls] translates the system calls that work on the running
    task: process creation and waiting, the heap and anonymous mappings, process
    groups, signals, blocking receive and program replacement.

    A call either returns a value to the program ([Return]) or leaves user mode
    with a code for [tick] ([Leave]); a page fault or overflow in the kernel is
    [Panic].  Pointers given by the program are dereferenced with its own page
    table loaded. *)

From stdpp Require Import base list gmap strings list_numbers.
From Stdlib Require Import ZArith Lia.
From S2P Require Import Prelude IpcPipe IpcMsgq FdTable FdPipes Shm Env ElfLoader Task Argv Sched.

Local Open Scope Z_scope.

Module proc_calls.
Import fdtable task sched.

Inductive sysret := Return (v : Z) | Leave (code : Z).

Section Calls.
Context {W : Type} `{UserSpace W} `{ProcMemory W}.
Implicit Types (k : Kst (W := W)).

Definition cur (k : Kst (W := W)) : outcome Task := idx (tasks k) (current_task_idx k).
Definition upd_cur (f : Task -> Task) (k : Kst (W := W)) : Kst := upd (current_task_idx k) f k.

(** [n] bytes at a program's address; an unmapped byte faults. *)
Fixpoint peek_bytes (w : W) (c a : Z) (n : nat) : outcome (list Z) :=
  match n with
  | O => Ret []
  | S n' =>
      match us_peek w c a with
      | Some b => let! bs := peek_bytes w c (a + 1) n' in Ret (b :: bs)
      | None => Panic
      end
  end.
Definition read_u64 (k : Kst (W := W)) (c a : Z) : outcome Z :=
  let! bs := peek_bytes (um k) c a 8 in Ret (le_decode bs).
Definition write_bytes (c a : Z) (bs : list Z) (k : Kst (W := W)) : outcome Kst := mem_do (us_copy c a bs) k.

Definition USER_SPACE_START : Z := 0x1000.
Definition KERNEL_SPACE_BASE : Z := 0xFFFF800000000000.

(* @src sys/syscall_core.rs 922-928 validate_user_range *)
Definition validate_user_range (a len : Z) : bool :=
  if len =? 0 then true
  else if a <? USER_SPACE_START then false
  else if u64_max <? a + (len - 1) then false
  else a + (len - 1) <? KERNEL_SPACE_BASE.

(** ** Processes *)

(* @src sys/syscall.rs 105-111 current_pid *)
Definition current_pid (k : Kst (W := W)) : outcome Z := let! t := cur k in Ret (pid t).

(* @src sys/syscall.rs 122-142 fork_child *)
Definition fork_child (k : Kst (W := W)) : outcome (Z * Kst) :=
  match syscall_ctx k with
  | None => Ret (-1, k)
  | Some c =>
      match fork_task (current_task_idx k) (with_rax c 0) k with
      | Ret (Ok p, k') => Ret (p, k')
      | Ret (Err _, k') => Ret (-4, k')
      | Panic => Panic
      end
  end.

(* @src sys/syscall.rs 144-176 waitpid_impl *)
Definition waitpid_impl (p : Z) (k : Kst (W := W)) : outcome (sysret * Kst) :=
  let target := wrap 8 p in
  let! me := cur k in
  match position (fun t => (pid t =? target) && (parent_pid t =? pid me)) (tasks k) with
  | None => Ret (Return (-3), k)
  | Some i =>
      let! t := idx (tasks k) i in
      match state t with
      | Dead code =>
          Ret (Return code, upd i (fun t => set_parent_pid (set_pid (set_state t Empty) 0) 0) k)
      | _ =>
          match syscall_ctx k with
          | None => Ret (Return (-6), k)
          | Some c =>
              let (code, k) := wait_for_pid (current_task_idx k) target c (set_syscall_ctx k None) in
              Ret (Leave code, k)
          end
      end
  end.

(* @src sys/syscall.rs 285-288 kill_pid_sig *)
Definition kill_pid_sig (p signum : Z) (k : Kst (W := W)) : Z * Kst :=
  let (ok, ts) := send_signal (wrap 8 p) signum (tasks k) in
  (if ok : bool then 0 else -3, set_tasks k ts).

(** A second argument of [0] means SIGKILL. *)
(* @src sys/syscall_core.rs 1538-1543 sys_kill *)
Definition sys_kill (p signum : Z) (k : Kst (W := W)) : Z * Kst :=
  kill_pid_sig p (wrap 8 (if signum =? 0 then 9 else signum)) k.

(* @src sys/syscall.rs 290-296 getppid_impl *)
Definition getppid_impl (k : Kst (W := W)) : outcome Z := let! t := cur k in Ret (parent_pid t).

(* @src sys/syscall.rs 298-317 getpgid_impl *)
Definition getpgid_impl (p : Z) (k : Kst (W := W)) : outcome Z :=
  let target := if p =? 0 then current_task_idx k
                else default (current_task_idx k) (position (fun t => pid t =? wrap 8 p) (tasks k)) in
  let! t := idx (tasks k) target in
  Ret (if pgid t =? 0 then pid t else pgid t).

(* @src sys/syscall.rs 336-338 getpgrp_impl *)
Definition getpgrp_impl (k : Kst (W := W)) : outcome Z := getpgid_impl 0 k.

(* @src sys/syscall.rs 319-334 setpgid_impl *)
Definition setpgid_impl (p g : Z) (k : Kst (W := W)) : outcome (Z * Kst) :=
  let! me := cur k in
  let target := if p =? 0 then pid me else p in
  let new_pgid := wrap 8 (if g =? 0 then target else g) in
  match position (fun t => pid t =? wrap 8 target) (tasks k) with
  | Some i => Ret (0, upd i (fun t => set_pgid t new_pgid) k)
  | None => Ret (-3, k)
  end.

(** [ms.saturating_mul(TIMER_HZ) / 1000] ticks from [now], then
    [sleep_until_tick]; without a saved context the kernel busy-waits. *)
(* @src sys/syscall_core.rs 1448-1453 sys_sleep *)
Definition sleep_target (now ms : Z) : Z := sat_add u64_max now (Z.min u64_max (ms * 100) / 1000).
(* @src sys/syscall.rs 58-77 sleep_until_tick *)
Definition sleep_until_tick (target : Z) (k : Kst (W := W)) : sysret * Kst :=
  match syscall_ctx k with
  | Some c =>
      let k := set_syscall_ctx k None in
      if has_task (tasks k) then let (code, k) := sleep_task target c k in (Leave code, k)
      else (Return 0, k)
  | None => (Return 0, k)
  end.

(** ** Memory *)

Definition USER_HEAP_BASE : Z := 0x1000000.
Definition USER_MMAP_BASE : Z := 0x8000000.

(** [(a + PAGE_SIZE - 1) & !(PAGE_SIZE - 1)] *)
Definition page_up (a : Z) : outcome Z := let! x := cadd u64_max a 4096 in Ret (Z.ldiff (x - 1) 4095).
(** [(len + PAGE_SIZE - 1) / PAGE_SIZE] *)
Definition pages_of (len : Z) : outcome Z := let! x := cadd u64_max len 4096 in Ret ((x - 1) / 4096).

(* @src sys/syscall.rs 178-216 brk_program *)
Definition brk_program (new_end : Z) (k : Kst (W := W)) : outcome (Z * Kst) :=
  let! t := cur k in
  let cur_end := if heap_end t =? 0 then USER_HEAP_BASE else heap_end t in
  if new_end =? 0 then Ret (swrap 64 cur_end, k)
  else if (new_end <? USER_HEAP_BASE) || (new_end <=? cur_end) then Ret (swrap 64 cur_end, k)
  else
    let! first_page := page_up cur_end in
    let! last_page := page_up new_end in
    let grown k := (swrap 64 new_end, upd_cur (fun t => set_heap_end t new_end) k) in
    if first_page <? last_page then
      match on_mem (pm_map (cr3 t) first_page ((last_page - first_page) / 4096) true false) k with
      | Ret (Ok _, k) => Ret (grown k)
      | Ret (Err _, k) => Ret (-4, k)
      | Panic => Panic
      end
    else Ret (grown k).

(* @src sys/syscall.rs 218-254 mmap_anon *)
Definition mmap_anon (len : Z) (k : Kst (W := W)) : outcome (Z * Kst) :=
  if len =? 0 then Ret (-22, k)
  else
    let! t := cur k in
    let base := if mmap_end t =? 0 then USER_MMAP_BASE else mmap_end t in
    let! n := pages_of len in
    match on_mem (pm_map (cr3 t) base n true false) k with
    | Ret (Ok _, k) =>
        let! sz := cmul u64_max n 4096 in
        let! new_end := cadd u64_max base sz in
        let k := upd_cur (fun t => set_mmap_end t new_end) k in
        let! k := (if (mmap_nregions t <? MAX_MMAP_REGIONS)%nat then
                     let! rs := set_idx (mmap_regions t) (mmap_nregions t) (mkRegion base (wrap 32 n)) in
                     Ret (upd_cur (fun t => set_mmap_nregions (set_mmap_regions t rs) (mmap_nregions t + 1)) k)
                   else Ret k) in
        Ret (swrap 64 base, k)
    | Ret (Err _, k) => Ret (-12, k)
    | Panic => Panic
    end.

(** The swap-remove of the region that starts at [addr]. *)
(* @src sys/syscall.rs 270-281 munmap_impl (regions) *)
Definition forget_region (addr : Z) (t : Task) : outcome Task :=
  let! tracked := slice (mmap_regions t) 0 (mmap_nregions t) in
  match position (fun r => virt r =? addr) tracked with
  | None => Ret t
  | Some i =>
      let! last := idx (mmap_regions t) (mmap_nregions t - 1) in
      let! rs := set_idx (mmap_regions t) i last in
      let! rs := set_idx rs (mmap_nregions t - 1) no_region in
      Ret (set_mmap_nregions (set_mmap_regions t rs) (mmap_nregions t - 1))
  end.

(* @src sys/syscall.rs 256-283 munmap_impl *)
Definition munmap_impl (addr len : Z) (k : Kst (W := W)) : outcome (Z * Kst) :=
  if len =? 0 then Ret (-22, k)
  else
    let! t := cur k in
    let! n := pages_of len in
    let! k := mem_do (pm_unmap (cr3 t) addr n) k in
    let! t := forget_region addr t in
    Ret (0, upd_cur (fun _ => t) k).

(** ** Signals *)

(* @src sys/syscall.rs 1252-1268 sigaction_impl *)
Definition sigaction_impl (signum handler old_ptr : Z) (k : Kst (W := W)) : outcome (Z * Kst) :=
  if (signum =? 0) || (Z.of_nat NSIG <=? signum) then Ret (-22, k)
  else
    let! t := cur k in
    let! prev := idx (signal_handlers t) (Z.to_nat signum) in
    let set k := upd_cur (fun t => set_signal_handlers t (<[Z.to_nat signum := handler]> (signal_handlers t))) k in
    if old_ptr =? 0 then Ret (0, set k)
    else if validate_user_range old_ptr 8 then
      let! k := write_bytes (cr3 t) old_ptr (le_encode 8 prev) k in Ret (0, set k)
    else Ret (-14, k).

(** The frame read back from the user stack. *)
Definition frame_of_words (w : list Z) : SignalFrame :=
  let g i := default 0 (w !! i) in
  mkFrame (g 0%nat) (g 1%nat) (g 2%nat) (g 3%nat) (g 4%nat) (g 5%nat) (g 6%nat) (g 7%nat) (g 8%nat)
          (g 9%nat) (g 10%nat) (g 11%nat) (g 12%nat) (g 13%nat) (g 14%nat) (g 15%nat) (g 16%nat).
Fixpoint read_words (k : Kst (W := W)) (c a : Z) (n : nat) : outcome (list Z) :=
  match n with
  | O => Ret []
  | S n' => let! x := read_u64 k c a in let! xs := read_words k c (a + 8) n' in Ret (x :: xs)
  end.

Definition restore (c : TaskContext) (f : SignalFrame) (sp : Z) : TaskContext :=
  mkCtx (f_r15 f) (f_r14 f) (f_r13 f) (f_r12 f) (f_r11 f) (f_r10 f) (f_r9 f) (f_r8 f) (f_rdi f) (f_rsi f)
        (f_rbp f) (f_rdx f) (f_rcx f) (f_rbx f) (f_rax f) (f_rip f) (cs c) (f_rflags f) sp (ss c).

(* @src sys/syscall.rs 1270-1330 sigreturn_impl *)
Definition sigreturn_impl (k : Kst (W := W)) : outcome (Z * Kst) :=
  let! t := cur k in
  let! ws := read_words k (cr3 t) (rsp (ctx t)) 17 in
  let! sp := cadd u64_max (rsp (ctx t)) FRAME_SIZE in
  let! sp := cadd u64_max sp 8 in
  let t := set_ctx t (restore (ctx t) (frame_of_words ws) sp) in
  let t := if in_sigsuspend t then set_signal_mask (set_in_sigsuspend t false) (saved_signal_mask t) else t in
  Ret (0, upd_cur (fun _ => t) k).

(** The masks that cannot hold SIGKILL or SIGSTOP. *)
Definition unkillable : Z := Z.lor (bit (SIGKILL - 1)) (bit (SIGSTOP - 1)).

(** Neither pointer is checked against the user range. *)
(* @src sys/syscall.rs 1332-1361 sigprocmask_impl *)
Definition sigprocmask_impl (how set_ptr old_ptr : Z) (k : Kst (W := W)) : outcome (Z * Kst) :=
  let! t := cur k in
  let! k := (if old_ptr =? 0 then Ret k
             else write_bytes (cr3 t) old_ptr (le_encode 8 (signal_mask t)) k) in
  if set_ptr =? 0 then Ret (0, k)
  else
    let! raw := read_u64 k (cr3 t) set_ptr in
    let new_mask := Z.ldiff (wrap 32 raw) unkillable in
    let set m := Ret (0, upd_cur (fun t => set_signal_mask t (m (signal_mask t))) k) in
    if how =? 0 then set (fun m => Z.lor m new_mask)
    else if how =? 1 then set (fun m => Z.ldiff m new_mask)
    else if how =? 2 then set (fun _ => new_mask)
    else Ret (-22, k).

(* @src sys/syscall.rs 1363-1386 alarm_impl *)
Definition alarm_impl (now seconds : Z) (k : Kst (W := W)) : outcome (Z * Kst) :=
  let! t := cur k in
  let remaining := if now <? alarm_deadline t then (alarm_deadline t - now) / 100 else 0 in
  let! deadline := if seconds =? 0 then Ret 0 else cadd u64_max now (seconds * 100) in
  Ret (remaining, upd_cur (fun t => set_alarm_deadline t deadline) k).

(* @src sys/syscall.rs 1388-1400 sigpending_impl *)
Definition sigpending_impl (set_ptr : Z) (k : Kst (W := W)) : outcome (Z * Kst) :=
  if set_ptr =? 0 then Ret (-14, k)
  else
    let! t := cur k in
    let! k := write_bytes (cr3 t) set_ptr (le_encode 8 (Z.land (pending_signals t) (signal_mask t))) k in
    Ret (0, k).

(** The task is marked asleep, but the call returns to it at once. *)
(* @src sys/syscall.rs 1402-1427 sigsuspend_impl *)
Definition sigsuspend_impl (mask_ptr : Z) (k : Kst (W := W)) : outcome (Z * Kst) :=
  let! t := cur k in
  let! raw := if mask_ptr =? 0 then Ret 0 else read_u64 k (cr3 t) mask_ptr in
  let effective := Z.ldiff (wrap 32 raw) unkillable in
  Ret (-4, upd_cur (fun t => set_state (set_signal_mask (set_in_sigsuspend
         (set_saved_signal_mask t (signal_mask t)) true) effective) (Sleeping (u64_max / 2))) k).

(** ** Messages *)

(* @src sys/syscall.rs 1506-1515 msgrcv *)
Definition msgrcv (id msg_out_ptr : Z) (k : Kst (W := W)) : outcome (Z * Kst) :=
  let! t := cur k in
  let! (res, msg, qs) := ipc.msgrcv (queues k) id ipc.empty in
  let k := set_queues k qs in
  if res =? 0 then let! k := write_bytes (cr3 t) msg_out_ptr (message_bytes msg) k in Ret (res, k)
  else Ret (res, k).

(* @src sys/syscall.rs 1524-1545 msgrcv_wait *)
Definition msgrcv_wait (id msg_out_ptr : Z) (k : Kst (W := W)) : outcome (sysret * Kst) :=
  let! t := cur k in
  let! (res, msg, qs) := ipc.msgrcv (queues k) id ipc.empty in
  let k := set_queues k qs in
  if res =? 0 then let! k := write_bytes (cr3 t) msg_out_ptr (message_bytes msg) k in Ret (Return 0, k)
  else
    match syscall_ctx k with
    | Some c => let (code, k) := wait_for_msg id msg_out_ptr c (set_syscall_ctx k None) in Ret (Leave code, k)
    | None => Ret (Return (-11), k)
    end.

(** ** Program replacement *)

Definition is_space (b : Z) : bool :=
  (b =? 32) || (b =? 9) || (b =? 10) || (b =? 12) || (b =? 13).
(** [split_ascii_whitespace] *)
Fixpoint words (word s : list Z) : list (list Z) :=
  match s with
  | [] => if (length word =? 0)%nat then [] else [word]
  | b :: s' =>
      if is_space b then (if (length word =? 0)%nat then words [] s' else word :: words [] s')
      else words (word ++ [b]) s'
  end.

(** The task after [exec]: image, entry and stack are new, descriptors above 2
    are gone without being closed. *)
(* @src sys/syscall.rs 1798-1818 exec_binary (task) *)
Definition replaced (t : Task) (c e sp : Z) : Task :=
  let std := take 3 (fd_table t) ++ drop 3 new in
  set_output (set_fd_table (set_initial_rsp (set_first_run (set_entry (set_cr3 t c) e) true) sp) std)
             (task_output.mk (task_output.output (output t)) 0).

(** The errors before the task is changed leave the new address space behind. *)
(* @src sys/syscall.rs 1738-1832 exec_binary *)
Definition exec_binary (beyond binary prog_name extra_args : list Z) (k : Kst (W := W)) : outcome (sysret * Kst) :=
  let stack_base := USER_STACK_TOP - USER_STACK_PAGES * 4096 in
  let step : prog Kst Z (Z * Z * Z) :=
    let? r := catch (on_mem pm_create) in
    match r with
    | Err _ => err (-4)
    | Ok c =>
        let? r := catch (on_mem (pm_map c stack_base USER_STACK_PAGES true false)) in
        match r with
        | Err _ => err (-4)
        | Ok _ =>
            let? _ := catch (map_trampoline c) in
            let? r := catch (load_image beyond binary c) in
            match r with
            | Err _ => err (if elf.is_elf binary then -1 else -4)
            | Ok e =>
                let args := prog_name :: take 30 (words [] extra_args) in
                let? r := catch (on_mem (argv.write_argv_to_stack (vars k) c USER_STACK_TOP args)) in
                match r with Err _ => err (-4) | Ok sp => ok (c, e, sp) end
            end
        end
    end in
  match step k with
  | Panic => Panic
  | Ret (Err e, k) => Ret (Return e, k)
  | Ret (Ok (c, e, sp), k) =>
      let! t := cur k in
      let k := upd_cur (fun t => replaced t c e sp) k in
      let! k := (if cr3 t =? 0 then Ret k else mem_do (pm_free (cr3 t)) k) in
      Ret (Leave EXIT_PREEMPTED, set_syscall_ctx k None)
  end.

(* @src sys/syscall.rs 631-640 getcwd_impl *)
Definition getcwd_impl (buf : list Z) (k : Kst (W := W)) : outcome (Z * list Z) :=
  let! t := cur k in
  let len := Nat.min (cwd_len t) (length buf) in
  let! d := slice (cwd t) 0 len in
  let! buf := copy_at buf 0 d in
  Ret (Z.of_nat len, buf).


(** ** Reading and writing a program's memory *)

Lemma peek_bytes_Ret (w : W) c a n bs : peek_bytes w c a n = Ret bs <->
  length bs = n /\ forall i, (i < n)%nat -> us_peek w c (a + Z.of_nat i) = bs !! i.
Proof.
  revert a bs. induction n as [|n IH]; intros a bs; cbn [peek_bytes].
  { split; [intros [= <-]; split; [done|lia]|]. intros [Hl _]. by apply nil_length_inv in Hl as ->. }
  split.
  - destruct (us_peek w c a) as [b|] eqn:E; [|done]. intros (bs' & Hb & [= <-])%bind_Ret. apply IH in Hb as [Hl Hb]. split; [cbn; lia|].
    intros [|i] Hi; [by rewrite Z.add_0_r|]. transitivity (us_peek w c (a + 1 + Z.of_nat i)); [f_equal; lia|]. apply Hb. lia.
  - intros [Hl Hb]. destruct bs as [|b bs]; [done|]. specialize (Hb 0%nat ltac:(lia)) as H0'. rewrite Z.add_0_r in H0'. rewrite H0'. cbn [lookup list_lookup].
    rewrite (proj2 (IH (a + 1) bs)); [done|]. split; [cbn in Hl; lia|]. intros i Hi. transitivity (us_peek w c (a + Z.of_nat (S i))); [f_equal; lia|]. exact (Hb (S i) ltac:(lia)).
Qed.

Definition mapped (w : W) (c a : Z) (n : nat) : Prop := forall i, (i < n)%nat -> is_Some (us_peek w c (a + Z.of_nat i)).

Lemma peek_bytes_mapped (w : W) c a n : mapped w c a n -> exists bs, peek_bytes w c a n = Ret bs.
Proof.
  revert a. induction n as [|n IH]; intros a Hm; [by eexists|]. cbn [peek_bytes].
  destruct (Hm 0%nat ltac:(lia)) as [b Hb]. rewrite Z.add_0_r in Hb. rewrite Hb.
  destruct (IH (a + 1)) as [bs ->]; [|by eexists]. intros i Hi. replace (a + 1 + Z.of_nat i) with (a + Z.of_nat (S i)) by lia. apply Hm. lia.
Qed.

Lemma write_bytes_mapped `{!UserSpaceLaws W} c a bs (k : Kst (W := W)) : mapped (um k) c a (length bs) ->
  exists w', write_bytes c a bs k = Ret (set_um k w') /\
    forall x, us_peek w' c x = if decide (a <= x < a + Z.of_nat (length bs)) then bs !! Z.to_nat (x - a) else us_peek (um k) c x.
Proof.
  intros Hm. destruct (us_copy_ok c a bs (um k)) as (w' & E & Hw).
  - intros x Hx. replace x with (a + Z.of_nat (Z.to_nat (x - a))) by lia. apply Hm. lia.
  - exists w'. unfold write_bytes, mem_do. by rewrite E.
Qed.

(** What was written is read back. *)
Lemma peek_written (w w' : W) c a bs :
  (forall x, us_peek w' c x = if decide (a <= x < a + Z.of_nat (length bs)) then bs !! Z.to_nat (x - a) else us_peek w c x) ->
  peek_bytes w' c a (length bs) = Ret bs.
Proof.
  intros Hw. apply peek_bytes_Ret. split; [done|]. intros i Hi. rewrite Hw, decide_True by lia. f_equal. lia.
Qed.
End Calls.
End proc_calls.
