(* ===== verification/SchedInv.v ===== *)
(** * Invariants of the task table

    Module [sched_inv]: the invariant of the task table, and that each process
    call of a running task, the launching and killing of programs by the desktop,
    and a tick keep it.  RuntimeInv.v puts the steps together. *)

From stdpp Require Import base list gmap strings list_numbers relations.
From Stdlib Require Import ZArith Lia.
From S2P Require Import Prelude IpcPipe IpcMsgq FdTable FdPipes Shm Env ElfLoader Task Argv Sched ProcCalls.

Local Open Scope Z_scope.

Module sched_inv.
Import fdtable task sched proc_calls.

(** What holds of the task in slot [i]. *)
Record task_ok (i : nat) (t : Task) : Prop := {
  t_pid : pid t = if bool_decide (state t = Empty) then 0 else Z.of_nat i + 1;
  t_parent : parent_pid t <> Z.of_nat i + 1;
  t_handlers : length (signal_handlers t) = NSIG;
  t_pending : 0 <= pending_signals t < 2 ^ 32;
}.

Definition table_ok (ts : list Task) : Prop :=
  length ts = MAX_TASKS /\ forall i t, ts !! i = Some t -> task_ok i t.

Lemma table_ok_insert ts i t : table_ok ts -> task_ok i t -> table_ok (<[i := t]> ts).
Proof.
  intros [Hl Ht] Hi. split; [by rewrite length_insert|]. intros j u Hj.
  apply list_lookup_insert_Some in Hj as [(<- & <- & _)|[_ Hj]]; [done|by apply Ht].
Qed.

Lemma table_ok_alter ts i f : table_ok ts ->
  (forall t, ts !! i = Some t -> task_ok i t -> task_ok i (f t)) -> table_ok (alter f i ts).
Proof.
  intros [Hl Ht] Hf. split; [by rewrite length_alter|]. intros j u.
  rewrite list_lookup_alter. case_decide as E; [subst j|by apply Ht].
  intros (t & Hi & ->)%fmap_Some. apply Hf; [done|]. by apply Ht.
Qed.

(** An update of a used slot that keeps the process numbers. *)
Record mild (f : Task -> Task) : Prop := {
  m_pid : forall t, pid (f t) = pid t;
  m_parent : forall t, parent_pid (f t) = parent_pid t;
  m_handlers : forall t, length (signal_handlers t) = NSIG -> length (signal_handlers (f t)) = NSIG;
  m_pending : forall t, 0 <= pending_signals t < 2 ^ 32 -> 0 <= pending_signals (f t) < 2 ^ 32;
  m_state : forall t, state t <> Empty -> state (f t) <> Empty;
}.

Lemma task_ok_mild i f t : mild f -> state t <> Empty -> task_ok i t -> task_ok i (f t).
Proof.
  intros [M1 M2 M3 M4 M5] Hs [T1 T2 T3 T4]. constructor; [|by rewrite M2|by apply M3|by apply M4].
  rewrite M1, T1, !bool_decide_false by auto. done.
Qed.

(** An update that also leaves the state alone is fine in any slot. *)
Lemma task_ok_quiet i f t : mild f -> state (f t) = state t -> task_ok i t -> task_ok i (f t).
Proof.
  intros [M1 M2 M3 M4 M5] Hs [T1 T2 T3 T4]. constructor; [|by rewrite M2|by apply M3|by apply M4].
  by rewrite M1, T1, Hs.
Qed.

Lemma pending_lor x s : 0 <= x < 2 ^ 32 -> s < 32 -> 0 <= Z.lor x (bit (s - 1)) < 2 ^ 32.
Proof.
  intros Hx Hs32. destruct (Z.leb_spec s 0).
  { unfold bit. rewrite Z.shiftl_1_l, Z.pow_neg_r, Z.lor_0_r by lia. done. }
  assert (0 < s < 32) as Hs by lia. assert (0 <= bit (s - 1)) as Hb by (unfold bit; rewrite Z.shiftl_1_l; apply Z.pow_nonneg; lia).
  assert (0 <= Z.lor x (bit (s - 1))) as Hn by (apply Z.lor_nonneg; lia). split; [done|].
  apply Z.bounded_iff_bits_nonneg; [lia|done|]. intros l Hl. rewrite Z.lor_spec, bit_testbit by lia.
  rewrite bool_decide_false by lia. rewrite orb_false_r.
  by apply (proj1 (Z.bounded_iff_bits_nonneg 32 x ltac:(lia) ltac:(lia)) ltac:(lia)).
Qed.

Lemma pending_ldiff x m : 0 <= x < 2 ^ 32 -> 0 <= Z.ldiff x m < 2 ^ 32.
Proof.
  intros Hx. assert (0 <= Z.ldiff x m) as Hn by (apply Z.ldiff_nonneg; lia). split; [done|].
  apply Z.bounded_iff_bits_nonneg; [lia|done|]. intros l Hl. rewrite Z.ldiff_spec.
  by rewrite (proj1 (Z.bounded_iff_bits_nonneg 32 x ltac:(lia) ltac:(lia)) ltac:(lia) l Hl).
Qed.

Lemma mild_state st : st <> Empty -> mild (fun t => set_state t st).
Proof. by constructor. Qed.

Lemma mild_pend s : s < 32 ->
  mild (fun t => set_pending_signals t (Z.lor (pending_signals t) (bit (s - 1)))).
Proof. intros Hs. constructor; try done. intros t Ht. by apply pending_lor. Qed.

(** A signal wakes a sleeper. *)
Definition alert (t : Task) : Task := match state t with Sleeping _ => set_state t Ready | _ => t end.
Lemma mild_alert : mild alert.
Proof. constructor; intros t; unfold alert; destruct (state t) eqn:E; cbn; rewrite ?E; done. Qed.

(** A signal changes one used slot, mildly. *)
Lemma send_signal_ok p s ts : table_ok ts ->
  table_ok (send_signal p s ts).2 /\
  forall i t, ts !! i = Some t -> state t <> Empty ->
    exists t', (send_signal p s ts).2 !! i = Some t' /\ state t' <> Empty.
Proof.
  intros H. unfold send_signal.
  destruct ((s =? 0) || (Z.of_nat NSIG <=? s)) eqn:Hr; [cbn; eauto|].
  apply orb_false_iff in Hr as [Hs0%Z.eqb_neq Hs1%Z.leb_gt]. unfold NSIG in *.
  destruct (position _ ts) as [j|]; [|cbn; eauto]. destruct (ts !! j) as [u|] eqn:Hj; [|cbn; eauto].
  destruct (vacant (state u)) eqn:Hv; [cbn; eauto|]. assert (state u <> Empty) as Hu by (by intros E; rewrite E in Hv).
  assert (forall u', task_ok j u' -> state u' <> Empty -> table_ok (<[j := u']> ts) /\
    forall i t, ts !! i = Some t -> state t <> Empty ->
      exists t', <[j := u']> ts !! i = Some t' /\ state t' <> Empty) as Hset.
  { intros u' Ho Hne. split; [by apply table_ok_insert|]. intros i t Hi Ht.
    destruct (decide (j = i)) as [<-|]; [|rewrite list_lookup_insert_ne by done; eauto].
    rewrite list_lookup_insert_eq by by eapply lookup_lt_Some. eauto. }
  assert (task_ok j u) as Hok by by apply H.
  destruct (s =? SIGKILL); cbn [snd]; apply Hset.
  - by apply (task_ok_mild j (fun t => set_state t (Dead (128 + s)))); [apply mild_state| |].
  - done.
  - apply (task_ok_mild j alert); [apply mild_alert|done|].
    by apply (task_ok_mild j (fun t => set_pending_signals t (Z.lor (pending_signals t) (bit (s - 1)))));
      [apply mild_pend; lia| |].
  - by apply mild_alert.
Qed.

Section Inv.
Context {W : Type} `{UserSpace W} `{ProcMemory W}.
Implicit Types (k : Kst (W := W)).

Record inv k : Prop := {
  i_table : table_ok (tasks k);
  i_cur : (current k < MAX_TASKS)%nat;
  i_idx : current_task_idx k = current k;
}.

(** While the task in slot [here] runs, the slot is in use. *)
Section At.
Context (here : nat).
Definition live k : Prop := current k = here /\ exists t, tasks k !! current k = Some t /\ state t <> Empty.
Definition good k : Prop := inv k /\ live k.

(** Two states with the same table and cursor. *)
Definition same k k' : Prop :=
  tasks k' = tasks k /\ current k' = current k /\ current_task_idx k' = current_task_idx k.

Lemma inv_same k k' : same k k' -> inv k -> inv k'.
Proof. intros (E1 & E2 & E3) [I1 I2 I3]. constructor; rewrite ?E1, ?E2, ?E3; done. Qed.
Lemma good_same k k' : same k k' -> good k -> good k'.
Proof.
  intros E [I L]. split; [by eapply inv_same|]. destruct E as (E1 & E2 & _). unfold live. by rewrite E1, E2.
Qed.

Lemma mem_do_same {E A} (m : prog W E A) k k' : mem_do m k = Ret k' -> same k k'.
Proof. unfold mem_do. destruct (m (um k)) as [[r w]|]; [|done]. by intros [= <-]. Qed.
Lemma on_mem_same {E A} (m : prog W E A) k r k' : on_mem m k = Ret (r, k') -> same k k'.
Proof. unfold on_mem. destruct (m (um k)) as [[r' w]|]; [|done]. by intros [= _ <-]. Qed.

Lemma inv_upd i f k : inv k -> (forall t, tasks k !! i = Some t -> task_ok i t -> task_ok i (f t)) ->
  inv (upd i f k).
Proof. intros [I1 I2 I3] Hf. constructor; [|done|done]. by apply table_ok_alter. Qed.

Lemma live_upd i f k : live k -> (i = current k -> forall t, state t <> Empty -> state (f t) <> Empty) ->
  live (upd i f k).
Proof.
  intros (Hc & t & Ht & Hs) Hf. split; [done|]. cbn. rewrite list_lookup_alter.
  case_decide as E; [|eauto]. rewrite E, Ht. eexists. split; [done|]. by apply Hf.
Qed.

Lemma good_upd_cur f k : mild f -> good k -> good (upd_cur f k).
Proof.
  intros Hm [I L]. destruct (id L) as (_ & t & Ht & Hs). unfold upd_cur. rewrite (i_idx k I). split.
  - apply inv_upd; [done|]. intros u Hu Hok. rewrite Ht in Hu. injection Hu as <-. by apply task_ok_mild.
  - apply live_upd; [done|]. intros _. apply Hm.
Qed.

Lemma good_quiet i f k : mild f -> (forall t, state (f t) = state t) -> good k -> good (upd i f k).
Proof.
  intros Hm Hq [I L]. split; [|by apply live_upd; [|intros _; apply Hm]].
  apply inv_upd; [done|]. intros t _ Hok. by apply task_ok_quiet.
Qed.

Lemma cur_Ret k t : good k -> cur k = Ret t -> tasks k !! current k = Some t /\ task_ok (current k) t /\ state t <> Empty.
Proof.
  intros [I (_ & u & Hu & Hs)]. unfold cur. rewrite (i_idx k I), idx_Ret. intros Ht. split; [done|].
  rewrite Ht in Hu. injection Hu as ->. split; [by apply I|done].
Qed.

(** [cur] and a whole-task write. *)
Lemma good_set_cur t t' k : good k -> cur k = Ret t ->
  task_ok (current k) t' -> state t' <> Empty -> good (upd_cur (fun _ => t') k).
Proof.
  intros G Ht Hok Hs. destruct (cur_Ret k t G Ht) as (E & _ & _). destruct G as [I L]. unfold upd_cur.
  rewrite (i_idx k I). split; [by apply inv_upd|]. apply live_upd; [done|auto].
Qed.

(** ** The calls of the running task *)

Lemma good_wait_state st (c : TaskContext) k : good k -> st <> Empty ->
  good (upd (current k) (fun t => set_state (set_ctx t c) st) k).
Proof.
  intros G Hs. destruct (id G) as [I _]. rewrite <- (i_idx k I). by apply good_upd_cur.
Qed.

Lemma waitpid_good p k r k' : good k -> waitpid_impl p k = Ret (r, k') -> good k'.
Proof.
  intros G. unfold waitpid_impl. intros (me & Hme & Hk)%bind_Ret.
  destruct (cur_Ret k me G Hme) as (Hcur & Hmeok & Hlive).
  destruct (position _ (tasks k)) as [i|] eqn:Hp; [|by injection Hk as _ <-].
  apply position_Some in Hp as (t & Ht & [Hpid%Z.eqb_eq Hpar%Z.eqb_eq]%andb_true_iff & _).
  apply bind_Ret in Hk as (t' & Ht'%idx_Ret & Hk). rewrite Ht in Ht'. injection Ht' as <-.
  assert (forall c0, good (wait_for_pid (current_task_idx k) (wrap 8 p) c0 (set_syscall_ctx k None)).2) as Hwait.
  { intros c0. destruct (id G) as [I _]. rewrite (i_idx k I). cbn.
    apply (good_wait_state (Waiting (wrap 8 p)) (with_rax c0 0) (set_syscall_ctx k None)); [|done].
    by apply (good_same k). }
  destruct (state t) as [| | | | | |code] eqn:Es;
    try (destruct (syscall_ctx k) as [c0|]; injection Hk as _ <-; [apply Hwait|done]).
  injection Hk as _ <-. destruct (id G) as [I L].
  assert (i <> current k) as Hne.
  { intros ->. rewrite Hcur in Ht. injection Ht as <-. destruct Hmeok as [T1 T2 _ _].
    rewrite bool_decide_false in T1 by done. congruence. }
  split; [|by apply live_upd; [|intros ->]]. apply inv_upd; [done|].
  intros u Hu [T1 T2 T3 T4]. constructor; cbn; [by rewrite bool_decide_true|lia|done|done].
Qed.

(** Programs that only work on memory. *)
Definition memory_only {E A} (m : prog (Kst (W := W)) E A) : Prop :=
  forall k r k', m k = Ret (r, k') -> same k k'.

Lemma same_trans k1 k2 k3 : same k1 k2 -> same k2 k3 -> same k1 k3.
Proof. unfold same. intuition congruence. Qed.

Lemma memory_only_ok {E A} (a : A) : memory_only (E := E) (ok a).
Proof. by intros k r k' [= _ <-]. Qed.
Lemma memory_only_err {E A} (e : E) : memory_only (A := A) (err e).
Proof. by intros k r k' [= _ <-]. Qed.
Lemma memory_only_on_mem {E A} (m : prog W E A) : memory_only (on_mem m).
Proof. intros k r k'. apply on_mem_same. Qed.
Lemma memory_only_bind {E A B} (m : prog Kst E A) (g : A -> prog Kst E B) :
  memory_only m -> (forall a, memory_only (g a)) -> memory_only (pbind m g).
Proof.
  intros Hm Hg k r k'. unfold pbind. destruct (m k) as [[[a|e] k1]|] eqn:E1; [| |done].
  - intros H2. eapply same_trans; [by eapply Hm|by eapply Hg].
  - intros [= _ <-]. by eapply Hm.
Qed.
Lemma memory_only_catch {E E' A} (m : prog Kst E A) : memory_only m -> memory_only (E := E') (catch m).
Proof. intros Hm k r k'. unfold catch. destruct (m k) as [[r1 k1]|] eqn:E1; [|done]. intros [= _ <-]. by eapply Hm. Qed.

#[local] Hint Resolve memory_only_ok memory_only_err memory_only_on_mem memory_only_catch : oxide.
Ltac solve_memory := repeat match goal with
  | |- memory_only (pbind _ _) => apply memory_only_bind; [|intros ?]
  | |- memory_only (catch _) => apply memory_only_catch
  | |- memory_only (match ?x with _ => _ end) => destruct x
  | _ => solve [auto with oxide]
  end.

Lemma memory_only_load_image b code c : memory_only (load_image b code c).
Proof. unfold load_image. solve_memory. Qed.
Lemma memory_only_trampoline c : memory_only (map_trampoline c).
Proof. unfold map_trampoline. solve_memory. Qed.
#[local] Hint Resolve memory_only_load_image memory_only_trampoline : oxide.

Lemma find_spec {A} (f : A -> bool) l x : List.find f l = Some x -> In x l /\ f x = true.
Proof. apply List.find_some. Qed.

(** A fork fills a free slot with a child of the parent. *)
Lemma fork_good i c k r k' : good k -> i = current k -> fork_task i c k = Ret (r, k') -> good k'.
Proof.
  intros G -> Hf. destruct (id G) as [I (_ & me & Hme & Hlive)].
  unfold fork_task, pbind, get, ok_or in Hf.
  destruct (child_slot (current k) (tasks k)) as [slot|] eqn:Hs; [|by injection Hf as _ <-].
  cbn in Hf. unfold checked at 1 in Hf. rewrite (proj2 (idx_Ret _ _ _) Hme) in Hf.
  unfold checked at 1 in Hf. destruct (shm_ranges _ _) as [rs|]; [|done].
  unfold catch at 1 in Hf. destruct (on_mem _ k) as [[r1 k1]|] eqn:E1; [|done].
  apply on_mem_same in E1. destruct r1 as [c1|]; [|injection Hf as _ <-; by eapply good_same].
  unfold modify, checked in Hf. destruct (fd_pipes.inherit _ _) as [ps|]; [|done]. injection Hf as _ <-.
  apply find_spec in Hs as [_ [Hne%negb_true_iff%Nat.eqb_neq _]%andb_true_iff].
  apply (good_same (upd slot (fun t => forked t me c c1 (Z.of_nat slot + 1)) k1)); [done|].
  assert (good k1) as [I1 L1] by by eapply good_same. destruct E1 as (Et & Ec & _).
  split; [|apply live_upd; [done|]; rewrite Ec; by intros ->].
  apply inv_upd; [done|]. intros t Ht [T1 T2 T3 T4].
  destruct (i_table k I) as [_ Hall]. destruct (Hall _ _ Hme) as [M1 M2 M3 M4].
  rewrite bool_decide_false in M1 by done.
  constructor; cbn; [done|rewrite M1; lia|done|lia].
Qed.

Lemma exec_good b bin nm args k r k' : good k -> exec_binary b bin nm args k = Ret (r, k') -> good k'.
Proof.
  intros G. unfold exec_binary. set (step := pbind _ _). intros Hk.
  assert (memory_only step) as Hstep.
  { subst step. solve_memory. }
  destruct (step k) as [[[[[c e] sp]|e] k1]|] eqn:E1; [| |done]; apply Hstep in E1.
  - assert (good k1) as G1 by by eapply good_same. apply bind_Ret in Hk as (t & Ht & Hk).
    apply bind_Ret in Hk as (k2 & H2 & [= _ <-]). apply (good_same k2); [done|].
    assert (good (upd_cur (fun t => replaced t c e sp) k1)) as G2 by by apply good_upd_cur.
    destruct (cr3 t =? 0); [by injection H2 as <-|]. by eapply good_same; [eapply mem_do_same|].
  - injection Hk as _ <-. by eapply good_same.
Qed.

Lemma same_refl k : same k k.
Proof. done. Qed.

Lemma write_bytes_good c a bs k k' : good k -> write_bytes c a bs k = Ret k' -> good k'.
Proof. intros G Hk. eapply good_same; [by eapply mem_do_same|done]. Qed.

Lemma brk_good e k r k' : good k -> brk_program e k = Ret (r, k') -> good k'.
Proof.
  intros G. unfold brk_program. intros (t & Ht & Hk)%bind_Ret.
  destruct (e =? 0); [by injection Hk as _ <-|]. destruct (_ || _); [by injection Hk as _ <-|].
  apply bind_Ret in Hk as (fp & _ & (lp & _ & Hk)%bind_Ret).
  destruct (fp <? lp); [|injection Hk as _ <-; by apply good_upd_cur].
  destruct (on_mem _ k) as [[[u|e'] k1]|] eqn:E1; [| |done]; apply on_mem_same in E1; injection Hk as _ <-.
  - apply good_upd_cur; [done|]. by eapply good_same.
  - by eapply good_same.
Qed.

Lemma mmap_good len k r k' : good k -> mmap_anon len k = Ret (r, k') -> good k'.
Proof.
  intros G. unfold mmap_anon. destruct (len =? 0); [by intros [= _ <-]|].
  intros (t & Ht & (n & _ & Hk)%bind_Ret)%bind_Ret.
  destruct (on_mem _ k) as [[[u|e'] k1]|] eqn:E1; [| |done]; apply on_mem_same in E1.
  - apply bind_Ret in Hk as (sz & _ & (ne & _ & (k2 & H2 & [= _ <-])%bind_Ret)%bind_Ret).
    assert (good (upd_cur (fun t => set_mmap_end t ne) k1)) as G1 by (apply good_upd_cur; [done|by eapply good_same]).
    destruct (_ <? _)%nat; [|by injection H2 as <-]. apply bind_Ret in H2 as (rs & _ & [= <-]).
    by apply good_upd_cur.
  - injection Hk as _ <-. by eapply good_same.
Qed.

Lemma munmap_good a len k r k' : good k -> munmap_impl a len k = Ret (r, k') -> good k'.
Proof.
  intros G. unfold munmap_impl. destruct (len =? 0); [by intros [= _ <-]|].
  intros (t & Ht & (n & _ & (k1 & H1%mem_do_same & (t' & H2 & [= _ <-])%bind_Ret)%bind_Ret)%bind_Ret)%bind_Ret.
  destruct (cur_Ret k t G Ht) as (Hc & Hok & Hs). assert (good k1) as G1 by by eapply good_same.
  destruct H1 as (Et & Ec & Ei). apply (good_set_cur t); [done|unfold cur in *; by rewrite Et, Ei| |].
  - rewrite Ec. unfold forget_region in H2. apply bind_Ret in H2 as (tr & _ & H2).
    destruct (position _ tr); [|by injection H2 as <-].
    apply bind_Ret in H2 as (l & _ & (rs & _ & (rs2 & _ & [= <-])%bind_Ret)%bind_Ret). by destruct Hok.
  - unfold forget_region in H2. apply bind_Ret in H2 as (tr & _ & H2).
    destruct (position _ tr); [|by injection H2 as <-].
    by apply bind_Ret in H2 as (l & _ & (rs & _ & (rs2 & _ & [= <-])%bind_Ret)%bind_Ret).
Qed.

Lemma sigaction_good sg h p k r k' : good k -> sigaction_impl sg h p k = Ret (r, k') -> good k'.
Proof.
  intros G. unfold sigaction_impl. destruct (_ || _); [by intros [= _ <-]|].
  intros (t & Ht & (prev & _ & Hk)%bind_Ret)%bind_Ret.
  assert (mild (fun t => set_signal_handlers t (<[Z.to_nat sg:=h]> (signal_handlers t)))) as Hm.
  { constructor; try done. intros u Hu. cbn. by rewrite length_insert. }
  destruct (p =? 0); [injection Hk as _ <-; by apply good_upd_cur|].
  destruct (validate_user_range p 8); [|by injection Hk as _ <-].
  apply bind_Ret in Hk as (k1 & H1 & [= _ <-]). apply good_upd_cur; [done|]. by eapply write_bytes_good.
Qed.

Lemma sigreturn_good k r k' : good k -> sigreturn_impl k = Ret (r, k') -> good k'.
Proof.
  intros G. unfold sigreturn_impl.
  intros (t & Ht & (ws & _ & (sp & _ & (sp' & _ & [= _ <-])%bind_Ret)%bind_Ret)%bind_Ret)%bind_Ret.
  destruct (cur_Ret k t G Ht) as (Hc & Hok & Hs). apply (good_set_cur t); [done|done| |].
  - cbn [in_sigsuspend set_ctx]. destruct (in_sigsuspend t); by destruct Hok.
  - cbn [in_sigsuspend set_ctx]. by destruct (in_sigsuspend t).
Qed.

Lemma sigprocmask_good how p q k r k' : good k -> sigprocmask_impl how p q k = Ret (r, k') -> good k'.
Proof.
  intros G. unfold sigprocmask_impl. intros (t & Ht & (k1 & H1 & Hk)%bind_Ret)%bind_Ret.
  assert (good k1) as G1 by (destruct (q =? 0); [by injection H1 as <-|by eapply write_bytes_good]).
  destruct (p =? 0); [by injection Hk as _ <-|]. apply bind_Ret in Hk as (raw & _ & Hk).
  repeat (destruct (_ =? _) in Hk; [injection Hk as _ <-; by apply good_upd_cur|]). by injection Hk as _ <-.
Qed.

Lemma msgrcv_good id0 p k r k' : good k -> msgrcv id0 p k = Ret (r, k') -> good k'.
Proof.
  intros G. unfold msgrcv. intros (t & Ht & ([[res msg] qs] & _ & Hk)%bind_Ret)%bind_Ret.
  assert (good (set_queues k qs)) as G1 by by apply (good_same k).
  destruct (res =? 0); [|by injection Hk as _ <-].
  apply bind_Ret in Hk as (k1 & H1 & [= _ <-]). by eapply write_bytes_good.
Qed.

Lemma msgrcv_wait_good id0 p k r k' : good k -> msgrcv_wait id0 p k = Ret (r, k') -> good k'.
Proof.
  intros G. unfold msgrcv_wait. intros (t & Ht & ([[res msg] qs] & _ & Hk)%bind_Ret)%bind_Ret.
  assert (good (set_queues k qs)) as G1 by by apply (good_same k).
  destruct (res =? 0).
  - apply bind_Ret in Hk as (k1 & H1 & [= _ <-]). by eapply write_bytes_good.
  - cbn in Hk. destruct (syscall_ctx k) as [c|]; injection Hk as _ <-; [|done].
    apply (good_wait_state (WaitingForMsg id0 p) (with_rax c 0) (set_syscall_ctx (set_queues k qs) None));
      [by apply (good_same k)|done].
Qed.

Lemma fork_child_good k r k' : good k -> fork_child k = Ret (r, k') -> good k'.
Proof.
  intros G Hk. unfold fork_child in Hk. destruct (syscall_ctx k) as [c|]; [|by injection Hk as _ <-].
  destruct (fork_task _ _ k) as [[[p|e] k1]|] eqn:E; [| |done]; injection Hk as _ <-;
    (eapply fork_good; [exact G| |exact E]; by destruct G as [[] _]).
Qed.

Lemma kill_good p sg k r k' : good k -> kill_pid_sig p sg k = (r, k') -> good k'.
Proof.
  intros G Hk. unfold kill_pid_sig in Hk.
  destruct (send_signal_ok (wrap 8 p) sg (tasks k)) as [Hok Hlive]; [by apply G|].
  destruct (send_signal _ _ (tasks k)) as [okb ts]. injection Hk as _ <-. destruct G as [[I1 I2 I3] (Hc & t & Ht & Hs')].
  split; [by constructor|]. split; [exact Hc|]. by apply (Hlive _ t).
Qed.

Lemma setpgid_good p g k r k' : good k -> setpgid_impl p g k = Ret (r, k') -> good k'.
Proof.
  intros G Hk. unfold setpgid_impl in Hk. apply bind_Ret in Hk as (me & _ & Hk).
  destruct (position _ (tasks k)); injection Hk as _ <-; [by apply good_quiet|done].
Qed.

Lemma sleep_good tg k r k' : good k -> sleep_until_tick tg k = (r, k') -> good k'.
Proof.
  intros G Hk. unfold sleep_until_tick in Hk. destruct (syscall_ctx k) as [c|]; [|by injection Hk as _ <-].
  destruct (has_task _); injection Hk as _ <-; [|by apply (good_same k)].
  apply (good_wait_state (Sleeping tg) (with_rax c 0) (set_syscall_ctx k None)); [by apply (good_same k)|done].
Qed.

Lemma alarm_good now secs k r k' : good k -> alarm_impl now secs k = Ret (r, k') -> good k'.
Proof. intros G. unfold alarm_impl. intros (t & _ & (d & _ & [= _ <-])%bind_Ret)%bind_Ret. by apply good_upd_cur. Qed.

Lemma sigpending_good p k r k' : good k -> sigpending_impl p k = Ret (r, k') -> good k'.
Proof.
  intros G Hk. unfold sigpending_impl in Hk. destruct (p =? 0); [by injection Hk as _ <-|].
  apply bind_Ret in Hk as (t & _ & (k1 & H1 & [= _ <-])%bind_Ret). by eapply write_bytes_good.
Qed.

Lemma sigsuspend_good p k r k' : good k -> sigsuspend_impl p k = Ret (r, k') -> good k'.
Proof. intros G. unfold sigsuspend_impl. intros (t & _ & (raw & _ & [= _ <-])%bind_Ret)%bind_Ret. by apply good_upd_cur. Qed.

Lemma preempt_good c k r k' : good k -> preempt c k = (r, k') -> good k'.
Proof. intros G [= _ <-]. destruct (id G) as [I _]. rewrite <- (i_idx k I). by apply good_upd_cur. Qed.

(** ** Ticks *)

Lemma wake_sleepers_ok now ts : table_ok ts -> table_ok (wake_sleepers now ts).
Proof.
  intros [Hl Ht]. split; [unfold wake_sleepers; by rewrite length_fmap|]. intros i t.
  unfold wake_sleepers. rewrite list_lookup_fmap. intros (u & Hu & ->)%fmap_Some.
  specialize (Ht i u Hu). destruct (state u) eqn:Es; try done. destruct (_ <=? now); [|done].
  by apply (task_ok_mild i (fun t => set_state t Ready)); [apply mild_state|rewrite Es|].
Qed.

Lemma fire_alarm_ok now ts i : table_ok ts -> table_ok (fire_alarm now ts i).
Proof.
  intros H1. unfold fire_alarm. destruct (ts !! i) as [t|] eqn:Ht; [|done].
  destruct (negb _ && _); [|done].
  assert (table_ok (<[i := set_alarm_deadline t 0]> ts)) as H2.
  { apply table_ok_insert; [done|]. destruct H1 as [_ H1]. by destruct (H1 i t Ht). }
  destruct (pid t =? 0); [done|]. by apply send_signal_ok.
Qed.

Lemma foldl_keeps {A B} (P : A -> Prop) (f : A -> B -> A) l a :
  (forall a b, P a -> P (f a b)) -> P a -> P (foldl f a l).
Proof. intros Hf. revert a. induction l as [|b l IH]; intros a Ha; cbn; auto. Qed.

Lemma reap_ok ts i : table_ok ts -> table_ok (reap ts i).
Proof.
  intros H1. unfold reap. destruct (ts !! i) as [t|] eqn:Ht; [|done].
  destruct (state t) as [| | | |c| |] eqn:Es; try done. destruct (position _ ts) as [j|]; [|done].
  destruct (ts !! j) as [u|]; [|done]. destruct (state u); try done. apply table_ok_alter.
  - apply table_ok_insert; [done|].
    apply (task_ok_mild i (fun t => set_state (set_ctx t (with_rax (ctx t) (wrap 64 code))) Ready)); [done|by rewrite Es|].
    by apply H1.
  - intros v _ [T1 T2 T3 T4]. constructor; cbn; [by rewrite bool_decide_true|lia|done|done].
Qed.

Lemma wake_receiver_ok k i k' : inv k -> wake_receiver k i = Ret k' -> inv k'.
Proof.
  intros I. unfold wake_receiver. intros (t & Ht%idx_Ret & Hk)%bind_Ret.
  destruct (state t) eqn:Es; try by injection Hk as <-.
  apply bind_Ret in Hk as ([[r msg] qs] & _ & Hk).
  assert (inv (set_queues k qs)) as I1 by by apply (inv_same k).
  destruct (r =? 0); [|by injection Hk as <-]. apply bind_Ret in Hk as (k1 & H1%mem_do_same & [= <-]).
  apply inv_upd; [by eapply inv_same|]. intros u Hu Hok. destruct H1 as (Et & _). cbn in Et.
  rewrite Et, Ht in Hu. injection Hu as <-.
  by apply (task_ok_mild i (fun t => set_state (set_ctx t (with_rax (ctx t) 0)) Ready)); [|rewrite Es|].
Qed.

Lemma wake_ok now k k' : inv k -> wake now k = Ret k' -> inv k'.
Proof.
  intros I. unfold wake. intros (k1 & H1 & [= <-])%bind_Ret.
  assert (inv k1) as [I1 I2 I3].
  { revert H1. set (k0 := set_tasks (set_tasks k _) _). assert (inv k0) as I0.
    { destruct I as [I1 I2 I3]. constructor; [|done|done].
      apply (foldl_keeps table_ok); [intros; by apply fire_alarm_ok|]. by apply wake_sleepers_ok. }
    revert I0. generalize k0 (seq 0 MAX_TASKS). intros k2 l. revert k2.
    induction l as [|i l IH]; intros k2 I0; cbn [wake_receivers]; [by intros [= <-]|].
    intros (k3 & H3 & H4)%bind_Ret. eapply IH; [|done]. by eapply wake_receiver_ok. }
  constructor; [|done|done]. apply (foldl_keeps table_ok); [intros; by apply reap_ok|done].
Qed.

Lemma good_upd_at i f k : i = current k -> mild f -> good k -> good (upd i f k).
Proof. intros -> Hm G. destruct (id G) as [I _]. rewrite <- (i_idx k I). by apply good_upd_cur. Qed.

Lemma enter_handler_good i sg h k k' : good k -> i = current k -> enter_handler i sg h k = Ret k' -> good k' /\ i = current k'.
Proof.
  intros G Hi. unfold enter_handler.
  intros (t & _ & (sp & _ & (k1 & H1%mem_do_same & (sp' & _ & (k2 & H2%mem_do_same
    & [= <-])%bind_Ret)%bind_Ret)%bind_Ret)%bind_Ret)%bind_Ret.
  pose proof (same_trans _ _ _ H1 H2) as Hs. destruct (id Hs) as (_ & Ec & _).
  split; [|cbn; congruence]. apply good_upd_at; [congruence|done|]. by eapply good_same.
Qed.

Lemma deliver_loop_good fuel i d k b k' : good k -> i = current k ->
  deliver_loop fuel i d k = Ret (b, k') -> good k' /\ i = current k'.
Proof.
  revert d k. induction fuel as [|fuel IH]; intros d k G Hi; cbn [deliver_loop]; [by intros [= _ <-]|].
  destruct (d =? 0); [by intros [= _ <-]|]. intros (t & _ & (h & _ & Hk)%bind_Ret)%bind_Ret.
  destruct (h =? SIG_IGN); [by eapply IH|]. destruct (h =? SIG_DFL).
  - destruct (_ || _); [by eapply IH|]. injection Hk as _ <-. split; [|done]. by apply good_upd_at.
  - apply bind_Ret in Hk as (k1 & Hk & [= _ <-]). by eapply enter_handler_good.
Qed.

Lemma deliver_good i k b k' : good k -> i = current k ->
  deliver_pending_signals i k = Ret (b, k') -> good k' /\ i = current k'.
Proof.
  intros G Hi. unfold deliver_pending_signals. intros (t & _ & Hk)%bind_Ret.
  destruct (deliverable t =? 0); [by injection Hk as _ <-|].
  eapply deliver_loop_good; [| |done]; [|done]. apply good_upd_at; [done| |done].
  constructor; try done. intros u Hu. by apply pending_ldiff.
Qed.

Lemma drop_space_good i k k' : good k -> drop_space i k = Ret k' -> good k' /\ current k' = current k.
Proof.
  intros G. unfold drop_space. intros (t & _ & Hk)%bind_Ret. destruct (cr3 t =? 0); [by injection Hk as <-|].
  apply bind_Ret in Hk as (k1 & H1%mem_do_same & [= <-]).
  split; [apply good_quiet; [done|done|by eapply good_same]|by apply H1].
Qed.

Lemma after_run_ok i code k r k' : good k -> i = current k -> after_run i code k = Ret (r, k') -> inv k'.
Proof.
  intros G Hi. unfold after_run. destruct (code =? EXIT_PREEMPTED).
  { intros [= _ <-]. by apply good_upd_at. }
  destruct (code =? EXIT_SLEEPING); [intros [= _ <-]; apply G|].
  intros (t & _ & (k1 & [H1 Hc]%drop_space_good & [= _ <-])%bind_Ret)%bind_Ret; [|by apply good_upd_at].
  destruct (parent_pid t =? 0); [apply H1|]. destruct H1 as [[I1 I2 I3] _].
  constructor; [|done|done]. by apply send_signal_ok.
Qed.

End At.

(** What a program does while it runs keeps the table in order, whichever slot it has. *)
Definition keeps_table (run_user : launch -> Kst (W := W) -> outcome (Z * Kst)) : Prop :=
  forall here l k c k', run_user l k = Ret (c, k') -> good here k -> good here k'.

Lemma dispatch_ok run_user i k r k' : keeps_table run_user -> inv k -> ready (tasks k) i = true ->
  (i < MAX_TASKS)%nat -> dispatch run_user i k = Ret (r, k') -> inv k'.
Proof.
  intros Hu I Hr Hi. unfold dispatch. intros (t & _ & ([killed k1] & Hd & Hk)%bind_Ret)%bind_Ret.
  assert (good i (set_current k i)) as G.
  { split; [destruct I; by constructor|]. split; [done|]. unfold ready in Hr. destruct (tasks k !! i) as [u|] eqn:E; [|done].
    apply bool_decide_eq_true in Hr. exists u. cbn. by rewrite Hr. }
  assert (good i k1 /\ i = current k1) as [G1 Hc].
  { destruct (pending_signals t =? 0); [by injection Hd as _ <-|]. by eapply deliver_good. }
  destruct killed.
  - apply bind_Ret in Hk as (k2 & [G2 _]%(drop_space_good i) & (u & _ & [= _ <-])%bind_Ret); [apply G2|done].
  - apply bind_Ret in Hk as ([code k2] & H2 & Ha). unfold run_task in H2.
    apply bind_Ret in H2 as (u & _ & H2).
    assert (good i (upd i (fun t => set_state t Running) k1)) as G2 by by apply good_upd_at.
    assert (good i k2) as G3.
    { destruct (first_run u); (eapply Hu; [exact H2|]); [apply good_quiet; [done|done|]|];
        by apply (good_same i (upd i (fun t => set_state t Running) k1)). }
    assert (i = current k2) as Hc3 by by destruct G3 as [_ [? _]].
    by eapply after_run_ok.
Qed.

Lemma order_lt cur i : In i (order cur) -> (i < MAX_TASKS)%nat.
Proof.
  unfold order. intros Hin%list_elem_of_In. apply list_elem_of_fmap in Hin as (x & -> & _).
  by apply Nat.mod_upper_bound.
Qed.

Lemma tick_ok run_user now k r k' : keeps_table run_user -> inv k -> tick run_user now k = Ret (r, k') -> inv k'.
Proof.
  intros Hu I. unfold tick. intros (k1 & H1 & Hk)%bind_Ret.
  assert (inv k1) as I1 by by eapply wake_ok.
  destruct (round_robin (tasks k1) (current k1)) as [i|] eqn:E; [|by injection Hk as _ <-].
  apply find_spec in E as [Hin Hr]. eapply dispatch_ok; [done|exact I1|exact Hr| |exact Hk].
  by eapply order_lt.
Qed.

Lemma spawn_ok b code nm k r k' : inv k -> spawn b code nm k = Ret (r, k') -> inv k'.
Proof.
  intros I. unfold spawn. destruct (length code =? 0)%nat; [by intros [= _ <-]|].
  unfold pbind at 1, get. unfold pbind at 1, ok_or.
  destruct (position _ (tasks k)) as [slot|]; [cbn [ok]|by intros [= _ <-]].
  intros Hk. change (ok slot k) with (Ret (Ok (E := string) slot, k)) in Hk. cbv iota beta in Hk.
  unfold pbind at 1, catch at 1 in Hk. destruct (on_mem pm_create k) as [[r1 k1]|] eqn:E1; [|done].
  apply on_mem_same in E1. destruct r1 as [c|]; [|injection Hk as _ <-; by eapply inv_same].
  unfold pbind at 1, catch at 1 in Hk. destruct (on_mem _ k1) as [[r2 k2]|] eqn:E2; [|done].
  apply on_mem_same in E2. assert (inv k2) as I2 by by eapply inv_same; [|eapply inv_same].
  destruct r2; [|by injection Hk as _ <-].
  unfold pbind at 1 in Hk. destruct (load_image b code c k2) as [[r3 k3]|] eqn:E3; [|done].
  apply memory_only_load_image in E3. assert (inv k3) as I3 by by eapply inv_same.
  destruct r3 as [e|]; [|by injection Hk as _ <-].
  unfold pbind at 1, modify at 1 in Hk. set (k4 := upd slot _ k3) in Hk. assert (inv k4) as I4.
  { apply inv_upd; [done|]. intros t _ _. constructor; cbn; [done|lia|done|lia]. }
  unfold pbind at 1 in Hk. destruct (map_trampoline c k4) as [[r5 k5]|] eqn:E5; [|done].
  apply memory_only_trampoline in E5. assert (inv k5) as I5 by by eapply inv_same.
  destruct r5; [|by injection Hk as _ <-].
  unfold pbind at 1 in Hk. destruct (on_mem _ k5) as [[r6 k6]|] eqn:E6; [|done].
  apply on_mem_same in E6. assert (inv k6) as I6 by by eapply inv_same. destruct r6; [|by injection Hk as _ <-].
  injection Hk as _ <-. apply inv_upd; [done|]. intros t _ [T1 T2 T3 T4]. by constructor.
Qed.

(** ** The system *)

Definition booted k : Prop :=
  tasks k = replicate MAX_TASKS empty /\ current k = 0%nat /\ current_task_idx k = 0%nat.

Lemma booted_inv k : booted k -> inv k.
Proof.
  intros (E1 & E2 & E3). constructor; [|rewrite E2; unfold MAX_TASKS; lia|congruence]. rewrite E1.
  split; [by rewrite length_replicate|]. intros i t [-> _]%lookup_replicate. constructor; cbn; [done|lia|done|lia].
Qed.

Lemma kill_ok p k : inv k -> inv (set_tasks k (kill p (tasks k)).2).
Proof. intros [I1 I2 I3]. constructor; [|done|done]. by apply send_signal_ok. Qed.

(** Every slot as it should be, in one statement. *)
Lemma inv_numbers k : inv k ->
  length (tasks k) = MAX_TASKS /\ (current k < MAX_TASKS)%nat /\
  (forall i t, tasks k !! i = Some t ->
     pid t = (if bool_decide (state t = Empty) then 0 else Z.of_nat i + 1) /\ parent_pid t <> Z.of_nat i + 1) /\
  (forall i j t u, tasks k !! i = Some t -> tasks k !! j = Some u -> pid t = pid u -> pid t <> 0 -> i = j).
Proof.
  intros [[Hl Ht] Hc _].
  split; [done|]. split; [done|]. split; [intros i t Hi; by destruct (Ht i t Hi)|].
  intros i j t u Hi Hj E Hnz. destruct (Ht i t Hi) as [T1 _ _ _], (Ht j u Hj) as [U1 _ _ _].
  rewrite T1 in E, Hnz. rewrite U1 in E. repeat case_bool_decide; lia.
Qed.
End Inv.
End sched_inv.
