(* ===== verification/ProcSpec.v ===== *)
(** * Properties of the process system calls

    Module [proc_spec]: what [fork] copies, that a task that kills itself lives
    on, and that a program can abort the kernel by the length of a mapping. *)

From stdpp Require Import base list gmap strings list_numbers relations.
From Stdlib Require Import ZArith Lia.
From S2P Require Import Prelude IpcPipe IpcMsgq FdTable FdPipes Shm Env ElfLoader Task Argv Sched SchedSpec ProcCalls SchedInv.

Local Open Scope Z_scope.

Module proc_spec.
Import fdtable task sched proc_calls sched_inv.

Section Calls.
Context {W : Type} `{UserSpace W} `{ProcMemory W}.
Implicit Types (k : Kst (W := W)) (t : Task).

(** A task's own fields that [fork] hands to the child. *)
Definition image (t : Task) :=
  (name t, name_len t, entry t, pgid t, heap_end t, mmap_end t, fd_table t, cwd t, cwd_len t,
   signal_handlers t, mmap_regions t, mmap_nregions t).

(** The signal state a child starts with. *)
Definition signals (t : Task) :=
  (pending_signals t, signal_mask t, saved_signal_mask t, in_sigsuspend t, alarm_deadline t).

(** A successful [fork] adds one task and changes no other: the child takes
    a free slot, has the parent's program, heap, descriptors, directory and
    handlers, the parent's number as its parent, no pending signals and no
    attached segments, and every inherited pipe end is counted.  The thread
    pointer is the exception: the child keeps the one the slot held before. *)
Theorem fork_copies_all_but_the_thread_pointer (i : nat) (c : TaskContext) k k' (p : Z)
    (Hfork : fork_task i c k = Ret (Ok p, k')) :
  exists slot parent old child, p = Z.of_nat slot + 1 /\ slot <> i /\
    tasks k !! i = Some parent /\ tasks k !! slot = Some old /\ vacant (state old) = true /\
    tasks k' = <[slot := child]> (tasks k) /\
    state child = Ready /\ ctx child = c /\ pid child = p /\ parent_pid child = pid parent /\
    image child = image parent /\ signals child = (0, 0, 0, false, 0) /\
    shm_attaches child = shm.no_attaches /\
    fd_pipes.inherit (fd_table parent) (pipes k) = Ret (pipes k') /\
    fs_base child = fs_base old.
Proof.
  unfold fork_task, pbind, get, ok_or in Hfork.
  destruct (child_slot i (tasks k)) as [slot|] eqn:Hs; [|done]. cbn in Hfork.
  unfold checked at 1 in Hfork. destruct (idx (tasks k) i) as [parent|] eqn:Hpar; [|done]. apply idx_Ret in Hpar.
  unfold checked at 1 in Hfork. destruct (shm_ranges _ _) as [rs|]; [|done].
  unfold catch at 1 in Hfork. destruct (on_mem _ k) as [[r1 k1]|] eqn:E1; [|done].
  assert (pipes k1 = pipes k /\ tasks k1 = tasks k) as [Ep Et].
  { unfold on_mem in E1. destruct (pm_fork _ _ _ _) as [[r w]|]; [|done]. by injection E1 as _ <-. }
  destruct r1 as [c1|]; [|done]. unfold modify, checked in Hfork.
  destruct (fd_pipes.inherit _ _) as [ps|] eqn:Hps; [|done].
  apply find_spec in Hs as [_ [Hne%negb_true_iff%Nat.eqb_neq Hv]%andb_true_iff].
  destruct (tasks k !! slot) as [old|] eqn:Hold; [|done].
  assert (p = Z.of_nat slot + 1 /\
    k' = set_pipes (upd slot (fun t => forked t parent c c1 (Z.of_nat slot + 1)) k1) ps) as [-> ->] by by inversion Hfork.
  exists slot, parent, old, (forked old parent c c1 (Z.of_nat slot + 1)).
  split; [done|]. split; [done|]. split; [done|]. split; [done|]. split; [done|].
  split; [cbn; rewrite Et; by apply (alter_insert (fun t => forked t parent c c1 (Z.of_nat slot + 1)))|]. done.
Qed.

(** A task that sends itself SIGKILL is not killed: the call marks it dead
    and returns to it, and its next sleep overwrites the mark, so it stays in
    the table and is woken as if nothing had happened. *)
Theorem sigkill_of_oneself_is_undone k t u (j : nat) (c : TaskContext) (target : Z)
    (G : good (current k) k) (Ht : tasks k !! current k = Some t) (Ha : vacant (state t) = false)
    (Hj : tasks k !! j = Some u) (Hu : vacant (state u) = false) (Hne : j <> current k) :
  exists k1 k2, sys_kill (pid t) 9 k = (0, k1) /\
    (state <$> tasks k1 !! current k) = Some (Dead 137) /\
    sleep_until_tick target (set_syscall_ctx k1 (Some c)) = (Leave EXIT_SLEEPING, k2) /\
    after_run (current k) EXIT_SLEEPING k2 = Ret (None, k2) /\
    (state <$> tasks k2 !! current k) = Some (Sleeping target).
Proof.
  destruct G as [[[Hl Hok] Hc Hidx] _]. destruct (Hok _ _ Ht) as [Hp _ _ _].
  rewrite bool_decide_false in Hp by (intros E; by rewrite E in Ha). unfold MAX_TASKS in *.
  assert (wrap 8 (pid t) = pid t) as Hw by (unfold wrap; rewrite Z.mod_small; [done|change (2 ^ 8) with 256; lia]).
  assert (position (fun v => pid v =? pid t) (tasks k) = Some (current k)) as Hpos.
  { apply position_Some. exists t. split; [done|]. split; [by apply Z.eqb_eq|].
    intros x v Hx Hv. apply Z.eqb_neq. destruct (Hok _ _ Hv) as [Hpv _ _ _]. rewrite Hpv, Hp.
    case_bool_decide; lia. }
  set (k1 := set_tasks k (<[current k := set_state t (Dead 137)]> (tasks k))).
  set (k2 := upd (current k) (fun t => set_state (set_ctx t (with_rax c 0)) (Sleeping target)) (set_syscall_ctx k1 None)).
  assert (tasks k1 !! current k = Some (set_state t (Dead 137))) as Ht1.
  { apply list_lookup_insert_eq. by eapply lookup_lt_Some. }
  exists k1, k2. split; [|split; [by rewrite Ht1|split; [|split; [done|]]]].
  - unfold sys_kill, kill_pid_sig, send_signal. rewrite Hw, Hpos, Ht, Ha. done.
  - unfold sleep_until_tick. cbn [syscall_ctx set_syscall_ctx].
    assert (has_task (tasks k1) = true) as Hht.
    { unfold has_task. apply existsb_exists. exists u. split; [|by rewrite Hu]. apply list_elem_of_In.
      apply list_elem_of_lookup. exists j. cbn. by rewrite list_lookup_insert_ne. }
    change (tasks (set_syscall_ctx (set_syscall_ctx k1 (Some c)) None)) with (tasks k1). rewrite Hht. done.
  - subst k2. cbn -[k1]. change (tasks (set_syscall_ctx k1 None)) with (tasks k1).
    by rewrite list_lookup_alter_eq, Ht1.
Qed.

(** A program can abort the kernel by a length: [mmap], [munmap] and [brk]
    round their argument up to a page without checking for overflow, so the
    last 4095 values of each (and [u64::MAX] among them) panic. *)
Theorem page_rounding_aborts k t (n addr : Z)
    (Ht : cur k = Ret t) (Hn : u64_max - 4096 < n <= u64_max)
    (Hheap : heap_end t <= u64_max - 4096) :
  mmap_anon n k = Panic /\ munmap_impl addr n k = Panic /\ brk_program n k = Panic.
Proof.
  assert (pages_of n = Panic) as E by (unfold pages_of; rewrite cadd_gt by lia; done).
  assert ((n =? 0) = false) as Hn0 by (apply Z.eqb_neq; unfold u64_max in Hn; lia).
  unfold mmap_anon, munmap_impl, brk_program. rewrite Hn0, Ht. split; [|split].
  - cbn [mbind outcome_mbind]. by rewrite E.
  - cbn [mbind outcome_mbind]. by rewrite E.
  - cbn [mbind outcome_mbind]. set (ce := if heap_end t =? 0 then _ else _).
    assert (ce <= u64_max - 4096) as Hce by (subst ce; destruct (heap_end t =? 0); [vm_compute; congruence|done]).
    destruct (Z.ltb_spec n USER_HEAP_BASE) as [Hlt|_]; [unfold USER_HEAP_BASE, u64_max in *; lia|].
    destruct (Z.leb_spec n ce); [lia|]. cbn [orb]. unfold page_up. rewrite (cadd_le _ ce) by lia.
    cbn [mbind outcome_mbind]. by rewrite (cadd_gt _ n) by lia.
Qed.
End Calls.

(** ** Instances *)

Import sched_spec.

Lemma fork_copies_all_but_the_thread_pointer_witness : exists k' child,
  fork_task 0 zeroed two_ready = Ret (Ok 2, k') /\ tasks k' !! 1%nat = Some child /\ parent_pid child = 1.
Proof.
  destruct (returns_Ret (fork_task 0 zeroed two_ready)) as [[r k'] E]; [vm_compute; reflexivity|].
  assert (r = Ok 2) as -> by (apply (f_equal (fun o => or_else (Err EmptyString) ((fun x => x.1) <$> o))) in E; vm_compute in E; congruence).
  destruct (fork_copies_all_but_the_thread_pointer 0 zeroed two_ready k' 2 E)
    as (slot & parent & old & child & Hp & _ & Hpar & Hold & _ & Ht & _ & _ & _ & Hpp & _).
  exists k', child. assert (slot = 1)%nat as -> by lia. split; [exact E|]. split.
  - rewrite Ht. apply list_lookup_insert_eq. vm_compute. lia.
  - rewrite Hpp. vm_compute in Hpar. injection Hpar as <-. reflexivity.
Defined.

Lemma two_ready_good : good (current two_ready) two_ready.
Proof.
  split.
  - constructor; [|vm_compute; lia|reflexivity]. split; [reflexivity|]. intros i t Hi.
    do 8 (destruct i as [|i]; [vm_compute in Hi; injection Hi as <-; constructor; vm_compute; (reflexivity || congruence || (split; congruence))|]).
    vm_compute in Hi. discriminate.
  - split; [reflexivity|]. exists (sample 0 Ready). split; [reflexivity|discriminate].
Qed.

Lemma sigkill_of_oneself_is_undone_witness : exists k1 k2 : Kst (W := Z -> Z -> option Z),
  sys_kill 1 9 two_ready = (0, k1) /\
  sleep_until_tick 50 (set_syscall_ctx k1 (Some zeroed)) = (Leave EXIT_SLEEPING, k2) /\
  (state <$> tasks k2 !! 0%nat) = Some (Sleeping 50).
Proof.
  destruct (sigkill_of_oneself_is_undone two_ready (sample 0 Ready) (sample 3 Ready) 3 zeroed 50)
    as (k1 & k2 & H1 & _ & H2 & _ & H3);
    [exact two_ready_good|reflexivity|reflexivity|reflexivity|reflexivity|vm_compute; lia|].
  exists k1, k2. split; [exact H1|]. split; [exact H2|exact H3].
Defined.

Lemma page_rounding_aborts_witness : mmap_anon u64_max two_ready = Panic.
Proof.
  apply (page_rounding_aborts two_ready (sample 0 Ready) u64_max 0);
    [reflexivity|vm_compute; split; congruence|vm_compute; congruence].
Defined.
End proc_spec.
