(* ===== verification/Mbr.v ===== *)
(** * Disk sectors and the partition table (kernel/src/kernel/fs/mbr.rs)

    The class [BlockDevice] is what the file systems use of the ATA driver: one
    call to read and one to write a 512-byte sector ([fat::read_sector_buf] and
    [fat::write_sector_buf] only name the disk). [DiskLaws] is what a working
    disk promises, and [ram_disk] an instance that keeps the promise.

    Module [mbr] translates the parser of the partition table. *)

From stdpp Require Import base list gmap strings list_numbers.
From Stdlib Require Import ZArith Lia.
From S2P Require Import Prelude.

Local Open Scope Z_scope.

(** Reading a sector fails or yields its bytes; writing fails or stores them. *)
(* @src fs/fat.rs 279-286 read_sector_buf *)
Class BlockDevice (D : Type) := {
  sector_read : D -> Z -> option (list Z);
  sector_write : D -> Z -> list Z -> bool * D;
}.

Definition is_sector (b : list Z) : Prop := length b = 512%nat /\ Forall is_byte b.

(** The sector at [lba]; on a working disk every read yields one. *)
Definition sector {D} `{BlockDevice D} (d : D) (lba : Z) : list Z := default [] (sector_read d lba).

(** A disk without errors: it has a sector at every address, and keeps what was
    written last. *)
Class DiskLaws (D : Type) `{BlockDevice D} := {
  read_works : forall d lba, sector_read d lba = Some (sector d lba);
  sectors_are_512_bytes : forall d lba, is_sector (sector d lba);
  write_works : forall d lba b, (sector_write d lba b).1 = true;
  read_after_write : forall d lba b l, is_sector b ->
    sector (sector_write d lba b).2 l = if decide (l = lba) then b else sector d l;
}.

Lemma sector_length `{DiskLaws D} (d : D) lba : length (sector d lba) = 512%nat.
Proof. apply sectors_are_512_bytes. Qed.
Lemma sector_lengths `{DiskLaws D} (d : D) ls : Forall (fun l => length l = 512%nat) (sector d <$> ls).
Proof. apply Forall_fmap, Forall_true. intros l. apply sector_length. Qed.

(** A disk in memory: the sectors that were written, zeros elsewhere. *)
Definition zero_sector : list Z := replicate 512 0.

Record RamDisk := mkDisk { sectors : gmap Z (list Z); }.
#[export] Instance ram_disk : BlockDevice RamDisk := {|
  sector_read d lba :=
    Some (match sectors d !! lba with
          | Some b => if bool_decide (is_sector b) then b else zero_sector
          | None => zero_sector
          end);
  sector_write d lba b := (true, mkDisk (<[lba := b]> (sectors d)));
|}.

#[export] Instance ram_disk_laws : DiskLaws RamDisk.
Proof.
  assert (Hz : is_sector zero_sector).
  { split; [done|]. apply Forall_replicate. unfold is_byte. lia. }
  split; cbn; try done.
  - intros d lba. unfold sector; cbn. destruct (sectors d !! lba) as [b|]; [|done].
    by destruct (bool_decide_reflect (is_sector b)).
  - intros d lba b l Hb. unfold sector; cbn. destruct (decide (l = lba)) as [->|Hne].
    + rewrite lookup_insert_eq. by rewrite bool_decide_eq_true_2.
    + by rewrite lookup_insert_ne.
Qed.

(** [buf[i]] of a sector, and little-endian fields of it. *)
Definition byte (b : list Z) (i : Z) : Z := default 0 (b !! Z.to_nat i).
Definition u16_at (b : list Z) (i : Z) : Z := byte b i + 256 * byte b (i + 1).
Definition u32_at (b : list Z) (i : Z) : Z := u16_at b i + 65536 * u16_at b (i + 2).

Module mbr.

(* @src fs/mbr.rs 15-15 PTYPE_FAT16_SMALL *)
Definition PTYPE_FAT16_SMALL : Z := 0x04.
(* @src fs/mbr.rs 17-17 PTYPE_FAT16_LARGE *)
Definition PTYPE_FAT16_LARGE : Z := 0x06.
(* @src fs/mbr.rs 19-19 PTYPE_FAT16_LBA *)
Definition PTYPE_FAT16_LBA : Z := 0x0E.
(* @src fs/mbr.rs 21-21 PTYPE_LINUX *)
Definition PTYPE_LINUX : Z := 0x83.

(* @src fs/mbr.rs 26-31 PartEntry *)
Record PartEntry := mkPart { status : Z; partition_type : Z; start_lba : Z; size_sectors : Z; }.

(* @src fs/mbr.rs 34-36 PartEntry::empty *)
Definition empty_part : PartEntry := mkPart 0 0 0 0.

(* @src fs/mbr.rs 40-46 MbrState *)
Record MbrState := mkMbr { entries : list PartEntry; whole_disk : bool; valid : bool; }.

(* @src fs/mbr.rs 49-60 MbrState::new *)
Definition new : MbrState := mkMbr (replicate 4 empty_part) true false.

(* @src fs/mbr.rs 97-103 init (one partition entry) *)
Definition part_at (buf : list Z) (i : Z) : PartEntry :=
  let off := 446 + i * 16 in
  mkPart (byte buf off) (byte buf (off + 4)) (u32_at buf (off + 8)) (u32_at buf (off + 12)).

Section Mbr.
Context {D : Type} `{BlockDevice D}.

(** [present] is [ata::is_present()]. *)
(* @src fs/mbr.rs 68-131 init *)
Definition init (present : bool) (d : D) (m : MbrState) : MbrState :=
  if negb present then m
  else match sector_read d 0 with
  | None => m
  | Some buf =>
      if negb (byte buf 510 =? 0x55) || negb (byte buf 511 =? 0xAA) then m
      else if (byte buf 0 =? 0xEB) || (byte buf 0 =? 0xE9) then mkMbr (entries m) true true
      else
        let es := part_at buf <$> [0; 1; 2; 3] in
        let has_any := existsb (fun e => negb (partition_type e =? 0)) es in
        mkMbr es (negb has_any) true
  end.

End Mbr.

Definition is_fat16 (e : PartEntry) : bool :=
  let t := partition_type e in (t =? PTYPE_FAT16_SMALL) || (t =? PTYPE_FAT16_LARGE) || (t =? PTYPE_FAT16_LBA).

(* @src fs/mbr.rs 136-145 fat16_lba_offset *)
Definition fat16_lba_offset (m : MbrState) : Z :=
  if negb (valid m) || whole_disk m then 0
  else match List.find is_fat16 (entries m) with Some e => start_lba e | None => 0 end.

(* @src fs/mbr.rs 148-157 ext2_lba_offset *)
Definition ext2_lba_offset (m : MbrState) : option Z :=
  if negb (valid m) || whole_disk m then None
  else start_lba <$> List.find (fun e => partition_type e =? PTYPE_LINUX) (entries m).

End mbr.
