(* ===== verification/Fat.v ===== *)
(** * The FAT16 driver: allocation table, directories and paths (kernel/src/kernel/fs/fat.rs)

    Module [fat] translates the driver over the sectors of a [BlockDevice].
    Sector buffers always hold 512 bytes, and no index of the code leaves them.
    Cluster and sector numbers are computed in [u32] with overflow checks.
    FatOps.v goes on with the calls on files.

    A chain of clusters that is cyclic can make the code loop for ever. The
    loops that follow chains have a bound of 65537 turns, more than the table
    has entries, and [Panic] beyond it. *)

From stdpp Require Import base list gmap strings list_numbers.
From Stdlib Require Import ZArith Lia.
From S2P Require Import Prelude Mbr.

Local Open Scope Z_scope.

Module fat.

(* @src fs/fat.rs 22-22 FAT_FD_BASE *)
Definition FAT_FD_BASE : Z := 64.
(* @src fs/fat.rs 23-23 FAT_FD_COUNT *)
Definition FAT_FD_COUNT : nat := 16.

(* @src fs/fat.rs 27-37 Bpb *)
Record Bpb := mkBpb {
  bytes_per_sector : Z;
  sectors_per_cluster : Z;
  reserved_sectors : Z;
  fat_count : Z;
  root_entry_count : Z;
  fat_size_16 : Z;
  fat_start_lba : Z;
  root_dir_lba : Z;
  data_start_lba : Z;
}.

(** [size] is the field [file_size]. *)
(* @src fs/fat.rs 41-52 FatFd *)
Record FatFd := mkFatFd {
  active : bool;
  writable : bool;
  size : Z;
  first_cluster : Z;
  cur_cluster : Z;
  cur_sector : Z;
  file_offset : Z;
  dir_entry_sector : Z;
  dir_entry_offset : Z;
}.

(* @src fs/fat.rs 55-67 FatFd::empty *)
Definition empty_fd : FatFd := mkFatFd false false 0 0 0 0 0 0 0.

(* @src fs/fat.rs 104-109 DirLoc *)
Inductive DirLoc := Root | Subdir (first : Z).
#[export] Instance dirloc_eq_dec : EqDecision DirLoc.
Proof. solve_decision. Defined.

(* @src fs/fat.rs 112-121 DirEntryInfo *)
Record DirEntryInfo := mkEntry {
  name83 : list Z;
  e_first_cluster : Z;
  e_size : Z;
  entry_sector : Z;
  entry_offset : Z;
  e_is_dir : bool;
}.

(** [bpb.data_start_lba + (cluster as u32 - 2) * bpb.sectors_per_cluster as u32] *)
(* @src fs/fat.rs 126-128 cluster_to_lba *)
Definition cluster_to_lba (b : Bpb) (cluster : Z) : outcome Z :=
  let! c := csub cluster 2 in
  let! x := cmul u32_max c (sectors_per_cluster b) in
  cadd u32_max (data_start_lba b) x.

(** ** Names and paths *)

Definition to_ascii_uppercase (b : Z) : Z := if (97 <=? b) && (b <=? 122) then b - 32 else b.
Definition to_ascii_lowercase (b : Z) : Z := if (65 <=? b) && (b <=? 90) then b + 32 else b.

Definition SLASH : Z := 47.
Definition DOT : Z := 46.
Definition SPACE : Z := 32.

(* @src fs/fat.rs 201-206 strip_disk_prefix *)
Definition strip_disk_prefix (raw : list Z) : list Z :=
  if starts_with raw (str "/disk/") then drop 6 raw
  else if bool_decide (raw = str "/disk") then []
  else if starts_with raw (str "/") then drop 1 raw
  else raw.

(* @src fs/fat.rs 209-224 component_to_83 *)
Definition component_to_83 (part : list Z) : option (list Z) :=
  if bool_decide (part = []) then None
  else
    let (name_part, ext_part) :=
      match position (fun b => b =? DOT) part with
      | Some dot => (take dot part, drop (S dot) part)
      | None => (part, [])
      end in
    if bool_decide (name_part = []) then None
    else
      let n83 := replicate 11 SPACE in
      let n83 := splice n83 0 (to_ascii_uppercase <$> take 8 name_part) in
      Some (splice n83 8 (to_ascii_uppercase <$> take 3 ext_part)).

(** [s.push(b as char)]: a byte from 128 on is a character of two bytes. *)
Definition push_char (b : Z) : list Z :=
  if b <? 128 then [b] else [Z.lor 0xC0 (Z.shiftr b 6); Z.lor 0x80 (Z.land b 0x3F)].

(** The bytes up to the first space. *)
Fixpoint before_space (s : list Z) : list Z :=
  match s with
  | [] => []
  | b :: s' => if b =? SPACE then [] else b :: before_space s'
  end.

(* @src fs/fat.rs 1042-1057 fat83_to_string *)
Definition fat83_to_string (name ext : list Z) : list Z :=
  let s := mjoin ((fun b => push_char (to_ascii_lowercase b)) <$> before_space name) in
  let e := trim_end SPACE ext in
  if bool_decide (e = []) then s
  else s ++ DOT :: mjoin ((fun b => push_char (to_ascii_lowercase b)) <$> e).

Definition name_of (n83 : list Z) : list Z := fat83_to_string (take 8 n83) (drop 8 n83).
Definition is_dots (n : list Z) : bool := bool_decide (n = str ".") || bool_decide (n = str "..").

(** The two parts of a path at its last slash. *)
Definition split_last (rel : list Z) : list Z * list Z :=
  match rfind SLASH rel with
  | Some pos => (take pos rel, drop (S pos) rel)
  | None => ([], rel)
  end.

Section Fat.
Context {D : Type} `{BlockDevice D}.

(** ** The allocation table *)

(** Where the entry of [cluster] is: sector of the table, byte in the sector. *)
Definition fat_sector (cluster : Z) : Z := cluster * 2 / 512.
Definition fat_byte (cluster : Z) : Z := (cluster * 2) mod 512.

(* @src fs/fat.rs 335-349 fat_next *)
Definition fat_next (b : Bpb) (cluster : Z) (d : D) : outcome Z :=
  let! lba := cadd u32_max (fat_start_lba b) (fat_sector cluster) in
  Ret (match sector_read d lba with
       | None => 0
       | Some buf =>
           let lo := byte buf (fat_byte cluster) in
           let hi := byte buf (fat_byte cluster + 1) in
           let val := Z.lor lo (Z.shiftl hi 8) in
           if 0xFFF8 <=? val then 0xFFFF else val
       end).

(** One table copy after another; the first failure ends the call. *)
(* @src fs/fat.rs 298-305 fat_write_entry (copies) *)
Fixpoint write_copies (b : Bpb) (lba byte_in_sector value : Z) (copies : list Z) (d : D) : outcome (bool * D) :=
  match copies with
  | [] => Ret (true, d)
  | copy :: copies' =>
      let! off := cmul u32_max copy (fat_size_16 b) in
      let! l := cadd u32_max lba off in
      match sector_read d l with
      | None => Ret (false, d)
      | Some buf =>
          let buf := <[Z.to_nat byte_in_sector := Z.land value 0xFF]> buf in
          let buf := <[Z.to_nat (byte_in_sector + 1) := Z.shiftr value 8]> buf in
          let (ok, d) := sector_write d l buf in
          if ok : bool then write_copies b lba byte_in_sector value copies' d else Ret (false, d)
      end
  end.

(* @src fs/fat.rs 289-306 fat_write_entry *)
Definition fat_write_entry (b : Bpb) (cluster value : Z) (d : D) : outcome (bool * D) :=
  let! fat_lba := cadd u32_max (fat_start_lba b) (fat_sector cluster) in
  write_copies b fat_lba (fat_byte cluster) value (seqZ 0 (fat_count b)) d.

(** The first free entry of a sector of the table, as a cluster number. *)
(* @src fs/fat.rs 316-321 fat_alloc_cluster (one sector) *)
Definition free_in_sector (s : Z) (buf : list Z) : option Z :=
  let cluster i := wrap 16 (s * 256 + i) in
  (fun i => cluster (Z.of_nat i)) <$>
  position (fun i => negb (cluster i <? 2) && ((byte buf (2 * i) =? 0) && (byte buf (2 * i + 1) =? 0))) (seqZ 0 256).

(* @src fs/fat.rs 313-329 fat_alloc_cluster (scan) *)
Fixpoint alloc_scan (b : Bpb) (sectors : list Z) (d : D) : outcome (Z * D) :=
  match sectors with
  | [] => Ret (0, d)
  | s :: sectors' =>
      let! lba := cadd u32_max (fat_start_lba b) s in
      match sector_read d lba with
      | None => alloc_scan b sectors' d
      | Some buf =>
          match free_in_sector s buf with
          | None => alloc_scan b sectors' d
          | Some cluster =>
              let! (ok, d) := fat_write_entry b cluster 0xFFFF d in
              Ret (if ok : bool then cluster else 0, d)
          end
      end
  end.

(* @src fs/fat.rs 310-331 fat_alloc_cluster *)
Definition fat_alloc_cluster (b : Bpb) (d : D) : outcome (Z * D) := alloc_scan b (seqZ 0 (fat_size_16 b)) d.

(** Each turn clears an entry, so the loop ends within the table's size. *)
(* @src fs/fat.rs 355-360 free_cluster_chain (loop) *)
Fixpoint free_chain (fuel : nat) (b : Bpb) (cl : Z) (d : D) : outcome D :=
  match fuel with
  | O => Panic
  | S fuel' =>
      if (2 <=? cl) && (cl <? 0xFFF8) then
        let! next := fat_next b cl d in
        let! (_, d) := fat_write_entry b cl 0 d in
        if (next =? 0) || (next =? 0xFFFF) then Ret d else free_chain fuel' b next d
      else Ret d
  end.
Definition CHAIN : nat := Z.to_nat 65537.

(* @src fs/fat.rs 353-361 free_cluster_chain *)
Definition free_cluster_chain (b : Bpb) (cl : Z) (d : D) : outcome D := free_chain CHAIN b cl d.

(** ** Directories *)

(* @src fs/fat.rs 151-160 for_each_fat_entry (entry) *)
Definition entry_at (buf : list Z) (lba off : Z) : DirEntryInfo :=
  let o := Z.to_nat off in
  mkEntry (take 11 (drop o buf)) (u16_at buf (off + 26)) (u32_at buf (off + 28)) lba off
          (negb (Z.land (byte buf (off + 11)) 0x10 =? 0)).

(** The entries of one sector; [false] ends the walk. *)
(* @src fs/fat.rs 174-191 for_each_fat_entry (sector) *)
Fixpoint scan_sector {S} (f : DirEntryInfo -> S -> bool * S) (buf : list Z) (lba : Z) (es : list Z) (s : S) : bool * S :=
  match es with
  | [] => (true, s)
  | e :: es' =>
      let off := e * 32 in
      if byte buf off =? 0 then (false, s)
      else if byte buf off =? 0xE5 then scan_sector f buf lba es' s
      else if negb (Z.land (byte buf (off + 11)) 0x08 =? 0) then scan_sector f buf lba es' s
      else let (go, s) := f (entry_at buf lba off) s in
           if go : bool then scan_sector f buf lba es' s else (false, s)
  end.

(** A run of sectors from [lba]; a read error ends the walk too. *)
(* @src fs/fat.rs 171-192 for_each_fat_entry (sectors) *)
Fixpoint scan_sectors {S} (f : DirEntryInfo -> S -> bool * S) (d : D) (lba : Z) (ns : list Z) (s : S)
    : outcome (bool * S) :=
  match ns with
  | [] => Ret (true, s)
  | n :: ns' =>
      let! l := cadd u32_max lba n in
      match sector_read d l with
      | None => Ret (false, s)
      | Some buf =>
          let (go, s) := scan_sector f buf l (seqZ 0 16) s in
          if go : bool then scan_sectors f d lba ns' s else Ret (false, s)
      end
  end.

(* @src fs/fat.rs 166-195 for_each_fat_entry (chain) *)
Fixpoint scan_chain {S} (fuel : nat) (f : DirEntryInfo -> S -> bool * S) (b : Bpb) (d : D) (cluster : Z) (s : S)
    : outcome S :=
  match fuel with
  | O => Panic
  | S fuel' =>
      if (cluster <? 2) || (0xFFF8 <=? cluster) then Ret s
      else
        let! lba := cluster_to_lba b cluster in
        let! (go, s) := scan_sectors f d lba (seqZ 0 (sectors_per_cluster b)) s in
        if go : bool then let! next := fat_next b cluster d in scan_chain fuel' f b d next s else Ret s
  end.

(* @src fs/fat.rs 141-141 for_each_fat_entry (root_sectors) *)
Definition root_sectors (b : Bpb) : Z := (root_entry_count b * 32 + 511) / 512.

(* @src fs/fat.rs 132-197 for_each_fat_entry *)
Definition for_each_fat_entry {S} (f : DirEntryInfo -> S -> bool * S) (b : Bpb) (d : D) (dir : DirLoc) (s : S)
    : outcome S :=
  match dir with
  | Root => let! (_, s) := scan_sectors f d (root_dir_lba b) (seqZ 0 (root_sectors b)) s in Ret s
  | Subdir c => scan_chain CHAIN f b d c s
  end.

(** The first entry that satisfies [p]. *)
Definition find_entry (p : DirEntryInfo -> bool) (b : Bpb) (d : D) (dir : DirLoc) : outcome (option DirEntryInfo) :=
  for_each_fat_entry (fun e s => if p e then (false, Some e) else (true, s)) b d dir None.

(* @src fs/fat.rs 231-257 resolve_dir_components (loop) *)
Fixpoint resolve_parts (b : Bpb) (d : D) (parts : list (list Z)) (current : DirLoc) : outcome (option DirLoc) :=
  match parts with
  | [] => Ret (Some current)
  | part :: parts' =>
      if bool_decide (part = []) || bool_decide (part = str ".") then resolve_parts b d parts' current
      else if bool_decide (part = str "..") then
        match current with Root => resolve_parts b d parts' current | Subdir _ => Ret None end
      else match component_to_83 part with
      | None => Ret None
      | Some n83 =>
          let! found := find_entry (fun e => bool_decide (name83 e = n83)) b d current in
          match found with
          | Some e => if e_is_dir e then resolve_parts b d parts' (Subdir (e_first_cluster e)) else Ret None
          | None => Ret None
          end
      end
  end.

(* @src fs/fat.rs 229-258 resolve_dir_components *)
Definition resolve_dir_components (b : Bpb) (d : D) (start_dir : DirLoc) (components : list Z) : outcome (option DirLoc) :=
  if bool_decide (components = []) then Ret (Some start_dir)
  else resolve_parts b d (split SLASH components) start_dir.

(* @src fs/fat.rs 263-276 resolve_parent *)
Definition resolve_parent (b : Bpb) (d : D) (raw_path : list Z) : outcome (option (DirLoc * list Z)) :=
  let rel := strip_disk_prefix raw_path in
  if bool_decide (rel = []) then Ret None
  else
    let (dir_bytes, file_bytes) := split_last rel in
    let! parent := resolve_dir_components b d Root dir_bytes in
    Ret (match parent with
         | None => None
         | Some p => match component_to_83 file_bytes with Some n => Some (p, n) | None => None end
         end).

End Fat.
End fat.
