(* ===== verification/FatNames.v ===== *)
(** * Short names of the FAT16 driver

    [component_to_83] turns a path component into the eleven bytes of a directory
    entry and [fat83_to_string] turns them back. For names that fit, the way
    there and back only loses the case of letters, and two names have the same
    entry exactly when they differ in nothing else. *)

From stdpp Require Import base list strings list_numbers.
From Stdlib Require Import ZArith Lia.
From S2P Require Import Prelude Mbr Fat.

Local Open Scope Z_scope.

Module fat_names.
Import fat.

(** A character of a short name: printable ASCII, not a dot. *)
Definition name_char (c : Z) : Prop := 33 <= c < 127 /\ c <> DOT.

(** A name of one to eight characters with an extension of at most three. *)
Definition short_name (n e : list Z) : Prop :=
  (1 <= length n <= 8)%nat /\ (length e <= 3)%nat /\ Forall name_char n /\ Forall name_char e.

#[export] Instance name_char_dec c : Decision (name_char c).
Proof. unfold name_char. apply _. Defined.
#[export] Instance short_name_dec n e : Decision (short_name n e).
Proof. unfold short_name. apply _. Defined.

Definition written (n e : list Z) : list Z := if bool_decide (e = []) then n else n ++ DOT :: e.

Definition up := to_ascii_uppercase.
Definition low := to_ascii_lowercase.

Lemma up_cases c : (97 <= c <= 122 /\ up c = c - 32) \/ (~ 97 <= c <= 122 /\ up c = c).
Proof. unfold up, to_ascii_uppercase. destruct (Z.leb_spec 97 c), (Z.leb_spec c 122); cbn; lia. Qed.

Lemma low_cases c : (65 <= c <= 90 /\ low c = c + 32) \/ (~ 65 <= c <= 90 /\ low c = c).
Proof. unfold low, to_ascii_lowercase. destruct (Z.leb_spec 65 c), (Z.leb_spec c 90); cbn; lia. Qed.

Lemma low_up c : low (up c) = low c.
Proof. destruct (up_cases c), (low_cases (up c)), (low_cases c); lia. Qed.

Lemma up_low c : up (low c) = up c.
Proof. destruct (low_cases c), (up_cases (low c)), (up_cases c); lia. Qed.

Lemma up_not_space c : name_char c -> up c <> SPACE.
Proof. unfold name_char, SPACE. destruct (up_cases c); lia. Qed.

Lemma position_app_dot n e : Forall name_char n -> position (fun b => b =? DOT) (n ++ DOT :: e) = Some (length n).
Proof.
  induction n as [|c n IH]; intros Hn; cbn; [done|]. apply Forall_cons in Hn as [[_ Hc] Hn].
  destruct (Z.eqb_spec c DOT); [done|]. by rewrite IH.
Qed.

Lemma position_no_dot n : Forall name_char n -> position (fun b => b =? DOT) n = None.
Proof.
  intros Hn. apply position_None. intros i c Hc. apply Z.eqb_neq. by destruct (Forall_lookup_1 _ _ _ _ Hn Hc).
Qed.

(** The eleven bytes: both parts in capitals, filled up with spaces. *)
Definition padded (k : nat) (s : list Z) : list Z := (up <$> s) ++ replicate (k - length s) SPACE.

Lemma length_padded k s : (length s <= k)%nat -> length (padded k s) = k.
Proof. intros Hk. unfold padded. rewrite length_app, length_fmap, length_replicate. lia. Qed.

Lemma component_short n e : short_name n e -> component_to_83 (written n e) = Some (padded 8 n ++ padded 3 e).
Proof.
  intros ([Hn1 Hn8] & He & Hn & Hec). unfold component_to_83.
  assert (Hne : n <> []) by (by destruct n; [cbn in Hn1; lia|]).
  assert (Hsplit : match position (fun b => b =? DOT) (written n e) with
    | Some dot => (take dot (written n e), drop (S dot) (written n e)) | None => (written n e, []) end = (n, e)).
  { unfold written. destruct (bool_decide_reflect (e = [])) as [->|_]; [by rewrite position_no_dot|].
    rewrite position_app_dot by done. rewrite take_app_length. f_equal.
    change (DOT :: e) with ([DOT] ++ e). rewrite app_assoc, <- (Nat.add_1_r (length n)).
    replace (length n + 1)%nat with (length (n ++ [DOT])) by (rewrite length_app; cbn; lia). apply drop_app_length. }
  rewrite bool_decide_eq_false_2 by (unfold written; destruct (bool_decide _); [done|by destruct n]).
  rewrite Hsplit, bool_decide_eq_false_2 by done. f_equal.
  rewrite (take_ge n), (take_ge e) by lia. unfold splice.
  rewrite take_0, !app_nil_l, length_fmap, drop_replicate, length_fmap.
  rewrite take_app, length_fmap, take_ge by (rewrite length_fmap; lia).
  rewrite take_replicate, drop_app, length_fmap, drop_replicate, (drop_ge (to_ascii_uppercase <$> n)) by (rewrite length_fmap; lia).
  unfold padded, up. rewrite <- !app_assoc. do 2 f_equal; [f_equal; lia|]. cbn [app]. do 2 f_equal. lia.
Qed.

Lemma before_space_pad s k : Forall (fun c => c <> SPACE) s -> before_space (s ++ replicate k SPACE) = s.
Proof.
  induction s as [|c s IH]; intros Hs; cbn; [by destruct k|]. apply Forall_cons in Hs as [Hc Hs].
  destruct (Z.eqb_spec c SPACE); [done|]. by rewrite IH.
Qed.

Lemma trim_end_pad s k : Forall (fun c => c <> SPACE) s -> trim_end SPACE (s ++ replicate k SPACE) = s.
Proof.
  induction s as [|c s IH]; intros Hs; cbn.
  - induction k as [|k IH]; [done|]. cbn. by rewrite IH.
  - apply Forall_cons in Hs as [Hc Hs]. rewrite IH by done. destruct s; [|done].
    by destruct (Z.eqb_spec c SPACE).
Qed.

Lemma push_low s : Forall name_char s -> mjoin ((fun b => push_char (to_ascii_lowercase b)) <$> (up <$> s)) = low <$> s.
Proof.
  induction s as [|c s IH]; intros Hs; [done|]. apply Forall_cons in Hs as [Hc Hs]. cbn.
  change (to_ascii_lowercase (up c)) with (low (up c)). rewrite low_up. unfold push_char.
  assert (low c < 128) by (destruct Hc; destruct (low_cases c); lia). destruct (Z.ltb_spec (low c) 128); [|lia].
  cbn. f_equal. by apply IH.
Qed.

Lemma up_no_space s : Forall name_char s -> Forall (fun c => c <> SPACE) (up <$> s).
Proof. intros Hs. apply Forall_fmap. eapply Forall_impl; [done|]. intros c Hc. by apply up_not_space. Qed.

Lemma name_of_short n e : short_name n e -> name_of (padded 8 n ++ padded 3 e) = low <$> written n e.
Proof.
  intros ([Hn1 Hn8] & He & Hn & Hec). unfold name_of.
  rewrite take_app_length', drop_app_length' by (by rewrite length_padded).
  unfold fat83_to_string, padded. rewrite before_space_pad, trim_end_pad by (by apply up_no_space).
  rewrite !push_low by done. unfold written. destruct (bool_decide_reflect (e = [])) as [->|Hne].
  - by rewrite bool_decide_eq_true_2.
  - rewrite bool_decide_eq_false_2 by (by destruct e). by rewrite fmap_app.
Qed.

(** The case of letters makes no difference to any component. *)
Lemma position_dot_low x : position (fun b => b =? DOT) (low <$> x) = position (fun b => b =? DOT) x.
Proof.
  induction x as [|c x IH]; [done|]. cbn. rewrite IH.
  assert ((low c =? DOT) = (c =? DOT)) as ->; [|done].
  unfold DOT. destruct (low_cases c), (Z.eqb_spec (low c) 46), (Z.eqb_spec c 46); lia.
Qed.

Lemma component_low x : component_to_83 (low <$> x) = component_to_83 x.
Proof.
  assert (Hnil : forall y : list Z, bool_decide (low <$> y = []) = bool_decide (y = [])) by (intros [|]; done).
  assert (Hup : forall y : list Z, to_ascii_uppercase <$> (low <$> y) = to_ascii_uppercase <$> y).
  { intros y. rewrite <- list_fmap_compose. apply list_fmap_ext. intros. apply up_low. }
  unfold component_to_83. rewrite Hnil, position_dot_low. destruct (bool_decide (x = [])); [done|].
  destruct (position _ x) as [dot|].
  - rewrite <- fmap_take, <- fmap_drop, Hnil. destruct (bool_decide _); [done|]. by rewrite <- !fmap_take, !Hup.
  - rewrite Hnil. destruct (bool_decide _); [done|]. by rewrite <- !fmap_take, !Hup.
Qed.

(** A file name of one to eight characters with an extension of at most three
    gets an eleven-byte directory name, which is listed as the same name in lower
    case; and two such names get the same directory name exactly when they are
    equal up to the case of letters. *)
Theorem short_names_round_trip n e n' e' : short_name n e -> short_name n' e' ->
  (exists n83, component_to_83 (written n e) = Some n83 /\ length n83 = 11%nat /\ name_of n83 = low <$> written n e) /\
  (component_to_83 (written n e) = component_to_83 (written n' e') <-> low <$> written n e = low <$> written n' e').
Proof.
  intros Hs Hs'. split.
  - exists (padded 8 n ++ padded 3 e). rewrite component_short by done. split_and!; [done| |by apply name_of_short].
    destruct Hs as ([] & ? & _). rewrite length_app, !length_padded by done. done.
  - split.
    + rewrite !component_short by done. intros [= Heq]. by rewrite <- !name_of_short, Heq by done.
    + intros Heq. by rewrite <- (component_low (written n e)), Heq, component_low.
Qed.

Lemma short_names_round_trip_witness :
  short_name (str "ReadMe") (str "TXT") /\
  component_to_83 (written (str "ReadMe") (str "TXT")) = component_to_83 (written (str "README") (str "txt")).
Proof.
  assert (H1 : short_name (str "ReadMe") (str "TXT")) by (apply (bool_decide_unpack _); vm_compute; exact I).
  assert (H2 : short_name (str "README") (str "txt")) by (apply (bool_decide_unpack _); vm_compute; exact I).
  split; [exact H1|]. apply (short_names_round_trip _ _ _ _ H1 H2). vm_compute. reflexivity.
Defined.
End fat_names.
