(* ===== verification/FatOps.v ===== *)
(** * The FAT16 driver: calls on files and directories (kernel/src/kernel/fs/fat.rs)

    Module [fatfs] holds the state [FatFs] (the static [FAT_FS], with the disk
    it lives on) and translates the calls of the driver, from [init] to
    [list_dir]. A loop over the bytes of a buffer has a turn for each of them.
    [fat_raw] makes the driver a back end of the descriptor tables. *)

From stdpp Require Import base list gmap strings list_numbers.
From Stdlib Require Import ZArith Lia.
From S2P Require Import Prelude RamFs FdTable Mbr Fat.

Local Open Scope Z_scope.

Module fatfs.
Import fat.

(* @src fs/mod.rs 33-33 ENOSPC *)
Definition ENOSPC : Z := -28.
(* @src fs/mod.rs 36-36 ENOTEMPTY *)
Definition ENOTEMPTY : Z := -39.

(** The driver's state and its disk. *)
(* @src fs/fat.rs 72-76 FatFs *)
Record FatFs (D : Type) := mkFs { ready : bool; bpb : Bpb; fds : list FatFd; disk : D }.
Arguments mkFs {D}.
Arguments ready {D}.
Arguments bpb {D}.
Arguments fds {D}.
Arguments disk {D}.

Definition set_disk {D} (f : FatFs D) (d : D) : FatFs D := mkFs (ready f) (bpb f) (fds f) d.
Definition set_fds {D} (f : FatFs D) (l : list FatFd) : FatFs D := mkFs (ready f) (bpb f) l (disk f).

(* @src fs/fat.rs 79-95 FatFs::new *)
Definition new {D} (d : D) : FatFs D :=
  mkFs false (mkBpb 512 1 1 2 512 9 1 19 51) (replicate FAT_FD_COUNT empty_fd) d.

(* @src fs/fat.rs 423-425 is_fat_fd *)
Definition is_fat_fd (fd : Z) : bool := (FAT_FD_BASE <=? fd) && (fd <? FAT_FD_BASE + Z.of_nat FAT_FD_COUNT).

Definition slot_of (fd : Z) : nat := Z.to_nat (fd - FAT_FD_BASE).

(** The bytes a [u16] and a [u32] are stored as. *)
Definition u16_bytes (x : Z) : list Z := [Z.land x 0xFF; Z.shiftr x 8].
Definition u32_bytes (x : Z) : list Z :=
  [Z.land x 0xFF; Z.land (Z.shiftr x 8) 0xFF; Z.land (Z.shiftr x 16) 0xFF; Z.land (Z.shiftr x 24) 0xFF].

Definition zeros (n : nat) : list Z := replicate n 0.

(** Reading a sector, changing its bytes from [off] on and writing it back. *)
Definition patch {D} `{BlockDevice D} (d : D) (lba : Z) (off : Z) (bytes : list Z) : bool * D :=
  match sector_read d lba with
  | None => (false, d)
  | Some buf => sector_write d lba (splice buf (Z.to_nat off) bytes)
  end.

Section FatFs.
Context {D : Type} `{BlockDevice D}.

(** [present] and [m] are what [ata::is_present] and the partition table say. *)
(* @src fs/fat.rs 370-420 init *)
Definition init (present : bool) (m : mbr.MbrState) (f : FatFs D) : outcome (FatFs D) :=
  if negb present then Ret f
  else
    let part_offset := mbr.fat16_lba_offset m in
    match sector_read (disk f) part_offset with
    | None => Ret f
    | Some buf =>
        if negb (byte buf 510 =? 0x55) || negb (byte buf 511 =? 0xAA) then Ret f
        else
          let reserved := u16_at buf 0x0E in
          let fat_count := byte buf 0x10 in
          let rde := u16_at buf 0x11 in
          let fat_size := u16_at buf 0x16 in
          let! fat_start := cadd u32_max part_offset reserved in
          let! root := cadd u32_max fat_start (fat_count * fat_size) in
          let! data := cadd u32_max root ((rde * 32 + 511) / 512) in
          Ret (mkFs true (mkBpb (u16_at buf 0x0B) (byte buf 0x0D) reserved fat_count rde fat_size fat_start root data)
                    (fds f) (disk f))
    end.

(** The new offset is cut to 32 bits; the position on the disk does not move. *)
(* @src fs/fat.rs 430-447 file_seek *)
Definition file_seek (f : FatFs D) (fd offset whence : Z) : outcome (Z * FatFs D) :=
  if negb (is_fat_fd fd) then Ret (-9, f)
  else
    let! s := idx (fds f) (slot_of fd) in
    let i64 x := if (- 2 ^ 63 <=? x) && (x <? 2 ^ 63) then Ret x else Panic in
    let go new_off :=
      if new_off <? 0 then Ret (-22, f)
      else Ret (new_off, set_fds f (<[slot_of fd := mkFatFd (active s) (writable s) (size s) (first_cluster s)
             (cur_cluster s) (cur_sector s) (wrap 32 new_off) (dir_entry_sector s) (dir_entry_offset s)]> (fds f))) in
    if whence =? 0 then go offset
    else if whence =? 1 then let! x := i64 (file_offset s + offset) in go x
    else if whence =? 2 then let! x := i64 (size s + offset) in go x
    else Ret (-22, f).

(* @src fs/fat.rs 450-457 file_size *)
Definition file_size (f : FatFs D) (fd : Z) : outcome Z :=
  if negb (is_fat_fd fd) then Ret 0
  else let! s := idx (fds f) (slot_of fd) in Ret (size s).

(** ** New directory entries *)

Definition entry_bytes (name : list Z) (attr first_cluster size : Z) : list Z :=
  name ++ [attr] ++ zeros 14 ++ u16_bytes first_cluster ++ u32_bytes size.

(** The first unused entry of a sector takes the new one. *)
(* @src fs/fat.rs 569-590 create_dir_entry (try_sector) *)
Definition try_sector (entry : list Z) (d : D) (lba : Z) : option (Z * Z) * D :=
  match sector_read d lba with
  | None => (None, d)
  | Some buf =>
      match position (fun e => (byte buf (e * 32) =? 0) || (byte buf (e * 32) =? 0xE5)) (seqZ 0 16) with
      | None => (None, d)
      | Some e =>
          let off := Z.of_nat e * 32 in
          let (ok, d) := sector_write d lba (splice buf (Z.to_nat off) entry) in
          (if ok : bool then Some (lba, off) else None, d)
      end
  end.

Fixpoint try_sectors (entry : list Z) (d : D) (lba : Z) (ns : list Z) : outcome (option (Z * Z) * D) :=
  match ns with
  | [] => Ret (None, d)
  | n :: ns' =>
      let! l := cadd u32_max lba n in
      let (r, d) := try_sector entry d l in
      match r with Some p => Ret (Some p, d) | None => try_sectors entry d lba ns' end
  end.

(** Sectors of zeros; errors are ignored. *)
Fixpoint zero_sectors (d : D) (lba : Z) (ns : list Z) : outcome D :=
  match ns with
  | [] => Ret d
  | n :: ns' => let! l := cadd u32_max lba n in zero_sectors (sector_write d l (zeros 512)).2 lba ns'
  end.

(* @src fs/fat.rs 601-628 create_dir_entry (subdirectory) *)
Fixpoint create_in_chain (fuel : nat) (entry : list Z) (b : Bpb) (d : D) (cluster : Z) : outcome (option (Z * Z) * D) :=
  match fuel with
  | O => Panic
  | S fuel' =>
      if (cluster <? 2) || (0xFFF8 <=? cluster) then Ret (None, d)
      else
        let! lba := cluster_to_lba b cluster in
        let! (r, d) := try_sectors entry d lba (seqZ 0 (sectors_per_cluster b)) in
        match r with
        | Some p => Ret (Some p, d)
        | None =>
            let! next := fat_next b cluster d in
            if (0xFFF8 <=? next) || (next =? 0) then
              let! (new_cl, d) := fat_alloc_cluster b d in
              if new_cl =? 0 then Ret (None, d)
              else
                let! (_, d) := fat_write_entry b cluster new_cl d in
                let! new_lba := cluster_to_lba b new_cl in
                let! d := zero_sectors d new_lba (seqZ 0 (sectors_per_cluster b)) in
                create_in_chain fuel' entry b d new_cl
            else create_in_chain fuel' entry b d next
        end
  end.

(** Where the entry was put: its sector and the offset in it. *)
(* @src fs/fat.rs 557-630 create_dir_entry *)
Definition create_dir_entry (b : Bpb) (d : D) (dir : DirLoc) (name : list Z) (attr first_cluster size : Z)
    : outcome (option (Z * Z) * D) :=
  let entry := entry_bytes name attr first_cluster size in
  match dir with
  | Root => try_sectors entry d (root_dir_lba b) (seqZ 0 (root_sectors b))
  | Subdir first_cl => create_in_chain CHAIN entry b d first_cl
  end.

(** ** Opening and closing *)

(** The loop of [O_TRUNC], which unlike [free_cluster_chain] stops only when the
    next cluster is not a data cluster. *)
(* @src fs/fat.rs 514-519 open (truncation loop) *)
Fixpoint trunc_chain (fuel : nat) (b : Bpb) (cl : Z) (d : D) : outcome D :=
  match fuel with
  | O => Panic
  | S fuel' =>
      if (2 <=? cl) && (cl <? 0xFFF8) then
        let! next := fat_next b cl d in
        let! (_, d) := fat_write_entry b cl 0 d in
        trunc_chain fuel' b next d
      else Ret d
  end.

(** What [open] found or made: the entry's place, first cluster and size. *)
Definition found_file : Type := Z * Z * Z * Z.

(* @src fs/fat.rs 476-510 open (search and creation) *)
Definition open_entry (f : FatFs D) (parent : DirLoc) (name : list Z) (do_create : bool)
    : outcome (result found_file Z * D) :=
  let b := bpb f in
  let! found := find_entry (fun e => bool_decide (name83 e = name) && negb (e_is_dir e)) b (disk f) parent in
  match found with
  | Some e => Ret (Ok (entry_sector e, entry_offset e, e_first_cluster e, e_size e), disk f)
  | None =>
      if negb do_create then Ret (Err (-7), disk f)
      else
        let! (new_cluster, d) := fat_alloc_cluster b (disk f) in
        if new_cluster =? 0 then Ret (Err (-28), d)
        else
          let! (created, d) := create_dir_entry b d parent name 0x20 new_cluster 0 in
          Ret (match created with
               | Some (sec, off) => Ok (sec, off, new_cluster, 0)
               | None => Err (-28)
               end, d)
  end.

(* @src fs/fat.rs 512-531 open (truncation) *)
Definition open_trunc (b : Bpb) (d : D) (e : found_file) : outcome (found_file * D) :=
  let '(sec, off, fc, _) := e in
  let! d := trunc_chain CHAIN b fc d in
  let! (new_cl, d) := fat_alloc_cluster b d in
  let (_, d) := patch d sec (off + 26) (u16_bytes new_cl ++ zeros 4) in
  Ret ((sec, off, new_cl, 0), d).

(* @src fs/fat.rs 533-550 open (descriptor) *)
Definition open_slot (f : FatFs D) (w : bool) (e : found_file) : Z * FatFs D :=
  let '(sec, off, fc, sz) := e in
  match position (fun s => negb (active s)) (fds f) with
  | Some i => (FAT_FD_BASE + Z.of_nat i, set_fds f (<[i := mkFatFd true w sz fc fc 0 0 sec off]> (fds f)))
  | None => (-4, f)
  end.

(* @src fs/fat.rs 462-551 open *)
Definition open (f : FatFs D) (raw_path : list Z) (flags : Z) : outcome (Z * FatFs D) :=
  if negb (ready f) then Ret (-2, f)
  else
    let! parent := resolve_parent (bpb f) (disk f) raw_path in
    match parent with
    | None => Ret (-22, f)
    | Some (parent_dir, dir_name) =>
        let w := fdtable.has flags fs.O_WRONLY || fdtable.has flags fs.O_RDWR in
        let do_create := fdtable.has flags fs.O_CREAT in
        let do_trunc := fdtable.has flags fs.O_TRUNC in
        let! (r, d) := open_entry f parent_dir dir_name do_create in
        match r with
        | Err e => Ret (e, set_disk f d)
        | Ok (sec, off, fc, sz) =>
            let! (e, d) := (if do_trunc && w && negb (fc =? 0) then open_trunc (bpb f) d (sec, off, fc, sz)
                            else Ret ((sec, off, fc, sz), d)) in
            Ret (open_slot (set_disk f d) w e)
        end
    end.

(** The size, then the first cluster, in the entry of the file. *)
(* @src fs/fat.rs 885-901 flush_dir_size *)
Definition flush_dir_size (d : D) (s : FatFd) : D :=
  if dir_entry_sector s =? 0 then d
  else (patch d (dir_entry_sector s) (dir_entry_offset s + 26) (u16_bytes (first_cluster s) ++ u32_bytes (size s))).2.

(* @src fs/fat.rs 1028-1039 close *)
Definition close (f : FatFs D) (fd : Z) : outcome (Z * FatFs D) :=
  if negb (is_fat_fd fd) then Ret (-5, f)
  else
    let! s := idx (fds f) (slot_of fd) in
    let d := if active s && writable s then flush_dir_size (disk f) s else disk f in
    let s := mkFatFd false (writable s) (size s) (first_cluster s) (cur_cluster s) (cur_sector s) (file_offset s)
                     (dir_entry_sector s) (dir_entry_offset s) in
    Ret (0, set_fds (set_disk f d) (<[slot_of fd := s]> (fds f))).

(** ** Directories *)

(* @src fs/fat.rs 634-667 is_directory *)
Definition is_directory (f : FatFs D) (raw_path : list Z) : outcome bool :=
  if negb (ready f) then Ret false
  else
    let rel := strip_disk_prefix raw_path in
    if bool_decide (rel = []) then Ret true
    else
      let (dir_bytes, file_bytes) := split_last rel in
      let! parent := resolve_dir_components (bpb f) (disk f) Root dir_bytes in
      match parent with
      | None => Ret false
      | Some p =>
          match component_to_83 file_bytes with
          | None => Ret false
          | Some n =>
              let! found := find_entry (fun e => bool_decide (name83 e = n) && e_is_dir e) (bpb f) (disk f) p in
              Ret (bool_decide (is_Some found))
          end
      end.

(** Sectors of zeros; the first error ends the loop. *)
Fixpoint clear_sectors (d : D) (lba : Z) (ns : list Z) : outcome (bool * D) :=
  match ns with
  | [] => Ret (true, d)
  | n :: ns' =>
      let! l := cadd u32_max lba n in
      let (ok, d) := sector_write d l (zeros 512) in
      if ok : bool then clear_sectors d lba ns' else Ret (false, d)
  end.

Definition cluster_of (dir : DirLoc) : Z := match dir with Subdir cl => cl | Root => 0 end.

(** The entries [.] and [..] of a new directory. *)
(* @src fs/fat.rs 695-712 mkdir (first entries) *)
Definition dot_entries (self parent : Z) : list Z :=
  entry_bytes (str ".          ") 0x10 self 0 ++ entry_bytes (str "..         ") 0x10 parent 0.

(* @src fs/fat.rs 671-724 mkdir *)
Definition mkdir (f : FatFs D) (raw_path : list Z) : outcome (Z * FatFs D) :=
  if negb (ready f) then Ret (-2, f)
  else
    let b := bpb f in
    let! r := resolve_parent b (disk f) raw_path in
    match r with
    | None => Ret (-22, f)
    | Some (parent_dir, dir_name) =>
        let! (new_cluster, d) := fat_alloc_cluster b (disk f) in
        if new_cluster =? 0 then Ret (-28, set_disk f d)
        else
          let! new_lba := cluster_to_lba b new_cluster in
          let! (cleared, d) := clear_sectors d new_lba (seqZ 0 (sectors_per_cluster b)) in
          if negb cleared then Ret (-5, set_disk f d)
          else
            let (ok, d) := patch d new_lba 0 (dot_entries new_cluster (cluster_of parent_dir)) in
            if negb ok then Ret (-5, set_disk f d)
            else
              let! (created, d) := create_dir_entry b d parent_dir dir_name 0x10 new_cluster 0 in
              Ret (match created with Some _ => 0 | None => -28 end, set_disk f d)
    end.

(* @src fs/fat.rs 762-774 unlink (children) *)
Definition has_children (b : Bpb) (d : D) (cluster : Z) : outcome bool :=
  let! found := find_entry (fun e => negb (is_dots (name_of (name83 e)))) b d (Subdir cluster) in
  Ret (bool_decide (is_Some found)).

(* @src fs/fat.rs 730-787 unlink *)
Definition unlink (f : FatFs D) (raw_path : list Z) : outcome (Z * FatFs D) :=
  if negb (ready f) then Ret (-2, f)
  else
    let b := bpb f in
    let! r := resolve_parent b (disk f) raw_path in
    match r with
    | None => Ret (-22, f)
    | Some (parent_dir, n) =>
        let! found := find_entry (fun e => bool_decide (name83 e = n)) b (disk f) parent_dir in
        match found with
        | None => Ret (fs.ENOENT, f)
        | Some e =>
            let! full := (if e_is_dir e then has_children b (disk f) (e_first_cluster e) else Ret false) in
            if full : bool then Ret (ENOTEMPTY, f)
            else
              let! d := (if 2 <=? e_first_cluster e then free_cluster_chain b (e_first_cluster e) (disk f)
                         else Ret (disk f)) in
              let (ok, d) := patch d (entry_sector e) (entry_offset e) [0xE5] in
              Ret (if ok : bool then 0 else -5, set_disk f d)
        end
    end.

(** A move to another directory: a new entry, [..] of a moved directory, and the
    old entry. *)
(* @src fs/fat.rs 855-881 rename (cross-directory move) *)
Definition move_entry (f : FatFs D) (e : DirEntryInfo) (new_parent : DirLoc) (new_name : list Z) : outcome (Z * FatFs D) :=
  let b := bpb f in
  let attr := if e_is_dir e then 0x10 else 0x20 in
  let! (created, d) := create_dir_entry b (disk f) new_parent new_name attr (e_first_cluster e) (e_size e) in
  match created with
  | None => Ret (ENOSPC, set_disk f d)
  | Some _ =>
      let! d := (if e_is_dir e then
                   let! dir_lba := cluster_to_lba b (e_first_cluster e) in
                   Ret (patch d dir_lba 58 (u16_bytes (cluster_of new_parent))).2
                 else Ret d) in
      Ret (0, set_disk f (patch d (entry_sector e) (entry_offset e) [0xE5]).2)
  end.

(* @src fs/fat.rs 793-882 rename *)
Definition rename (f : FatFs D) (old_path new_path : list Z) : outcome (Z * FatFs D) :=
  if negb (ready f) then Ret (-2, f)
  else
    let b := bpb f in
    let! ro := resolve_parent b (disk f) old_path in
    match ro with
    | None => Ret (-22, f)
    | Some (old_parent, old_name) =>
        let! rn := resolve_parent b (disk f) new_path in
        match rn with
        | None => Ret (-22, f)
        | Some (new_parent, new_name) =>
            let! found := find_entry (fun e => bool_decide (name83 e = old_name)) b (disk f) old_parent in
            match found with
            | None => Ret (fs.ENOENT, f)
            | Some e =>
                let! dest := find_entry (fun e => bool_decide (name83 e = new_name)) b (disk f) new_parent in
                match dest with
                | Some _ => Ret (fs.EEXIST, f)
                | None =>
                    if bool_decide (old_parent = new_parent) then
                      let (ok, d) := patch (disk f) (entry_sector e) (entry_offset e) new_name in
                      Ret (if ok : bool then 0 else -5, set_disk f d)
                    else move_entry f e new_parent new_name
                end
            end
        end
    end.

(* @src fs/fat.rs 1061-1066 resolve_dir *)
Definition resolve_dir (f : FatFs D) (raw_path : list Z) : outcome (option DirLoc) :=
  if negb (ready f) then Ret None
  else resolve_dir_components (bpb f) (disk f) Root (strip_disk_prefix raw_path).

(** The names that fit, a line each. *)
(* @src fs/fat.rs 1070-1093 list_dir_raw *)
Definition list_dir_raw (f : FatFs D) (dir : DirLoc) (out : list Z) : outcome (Z * list Z) :=
  if negb (ready f) then Ret (-2, out)
  else
    let line e '(written, out) :=
      let name := name_of (name83 e) in
      if is_dots name then (true, (written, out))
      else
        let text := name ++ (if e_is_dir e then str "/" else []) ++ [10] in
        if (length out <? written + length text)%nat then (false, (written, out))
        else (true, ((written + length text)%nat, splice out written text)) in
    let! (written, out) := for_each_fat_entry line (bpb f) (disk f) dir (0%nat, out) in
    Ret (Z.of_nat written, out).

(* @src fs/fat.rs 1102-1117 list_dir *)
Definition list_dir (f : FatFs D) (dir : DirLoc) : outcome (list (list Z * bool)) :=
  if negb (ready f) then Ret []
  else
    for_each_fat_entry (fun e l =>
      let name := name_of (name83 e) in (true, if is_dots name then l else l ++ [(name, e_is_dir e)]))
      (bpb f) (disk f) dir [].

(** ** Reading and writing *)

Definition set_pos (s : FatFd) (cluster sec off : Z) : FatFd :=
  mkFatFd (active s) (writable s) (size s) (first_cluster s) cluster sec off (dir_entry_sector s) (dir_entry_offset s).
Definition set_size (s : FatFd) (sz : Z) : FatFd :=
  mkFatFd (active s) (writable s) sz (first_cluster s) (cur_cluster s) (cur_sector s) (file_offset s)
          (dir_entry_sector s) (dir_entry_offset s).
Definition set_first (s : FatFd) (cl : Z) : FatFd :=
  mkFatFd (active s) (writable s) (size s) cl cl 0 (file_offset s) (dir_entry_sector s) (dir_entry_offset s).

(** The address of the current sector. *)
Definition cur_lba (b : Bpb) (s : FatFd) : outcome Z :=
  let! l := cluster_to_lba b (cur_cluster s) in cadd u32_max l (cur_sector s).

(* @src fs/fat.rs 920-948 read_fd (loop) *)
Fixpoint read_loop (fuel : nat) (b : Bpb) (d : D) (to_read : nat) (done : nat) (buf : list Z) (s : FatFd)
    : outcome (nat * list Z * FatFd) :=
  match fuel with
  | O => Panic
  | S fuel' =>
      if negb (done <? to_read)%nat then Ret (done, buf, s)
      else
        let! lba := cur_lba b s in
        match sector_read d lba with
        | None => Ret (done, buf, s)
        | Some sec =>
            let byte_off := Z.to_nat (file_offset s mod 512) in
            let avail := Nat.min (512 - byte_off) (to_read - done) in
            let buf := splice buf done (take avail (drop byte_off sec)) in
            let done := (done + avail)%nat in
            let! off := cadd u32_max (file_offset s) (Z.of_nat avail) in
            let s := set_pos s (cur_cluster s) (cur_sector s) off in
            if off mod 512 =? 0 then
              let! cs := cadd u8_max (cur_sector s) 1 in
              if sectors_per_cluster b <=? cs then
                let s := set_pos s (cur_cluster s) 0 off in
                let! next := fat_next b (cur_cluster s) d in
                if (next =? 0xFFFF) || (next =? 0) then Ret (done, buf, s)
                else read_loop fuel' b d to_read done buf (set_pos s next 0 off)
              else read_loop fuel' b d to_read done buf (set_pos s (cur_cluster s) cs off)
            else read_loop fuel' b d to_read done buf s
        end
  end.

(* @src fs/fat.rs 904-951 read_fd *)
Definition read_fd (f : FatFs D) (fd : Z) (buf : list Z) : outcome (Z * list Z * FatFs D) :=
  if negb (ready f) || negb (is_fat_fd fd) then Ret (-5, buf, f)
  else
    let! s := idx (fds f) (slot_of fd) in
    if negb (active s) then Ret (-5, buf, f)
    else
      let remaining := Z.to_nat (sat_sub (size s) (file_offset s)) in
      if (remaining =? 0)%nat then Ret (0, buf, f)
      else
        let to_read := Nat.min (length buf) remaining in
        let! (done, buf, s) := read_loop (S to_read) (bpb f) (disk f) to_read 0 buf s in
        Ret (Z.of_nat done, buf, set_fds f (<[slot_of fd := s]> (fds f))).

(** The position after the bytes of a turn: [None] when no cluster is left. *)
(* @src fs/fat.rs 999-1018 write_fd (advance) *)
Definition write_advance (b : Bpb) (d : D) (more : bool) (s : FatFd) : outcome (bool * FatFd * D) :=
  let off := file_offset s in
  if off mod 512 =? 0 then
    let! cs := cadd u8_max (cur_sector s) 1 in
    if sectors_per_cluster b <=? cs then
      let s := set_pos s (cur_cluster s) 0 off in
      let! next := fat_next b (cur_cluster s) d in
      if (0xFFF8 <=? next) || (next =? 0) then
        if more then
          let! (new_cl, d) := fat_alloc_cluster b d in
          if new_cl =? 0 then Ret (false, s, d)
          else
            let! (_, d) := fat_write_entry b (cur_cluster s) new_cl d in
            Ret (true, set_pos s new_cl 0 off, d)
        else Ret (true, s, d)
      else Ret (true, set_pos s next 0 off, d)
    else Ret (true, set_pos s (cur_cluster s) cs off, d)
  else Ret (true, s, d).

(* @src fs/fat.rs 969-977 write_fd (first cluster) *)
Definition write_first (b : Bpb) (d : D) (s : FatFd) : outcome (option FatFd * D) :=
  if cur_cluster s <? 2 then
    let! (cl, d) := fat_alloc_cluster b d in
    Ret (if cl =? 0 then None else Some (set_first s cl), d)
  else Ret (Some s, d).

(** [buf] is what is left to write. *)
(* @src fs/fat.rs 968-1019 write_fd (loop) *)
Fixpoint write_loop (fuel : nat) (b : Bpb) (d : D) (done : nat) (buf : list Z) (s : FatFd) : outcome (nat * FatFd * D) :=
  match fuel with
  | O => Panic
  | S fuel' =>
      if bool_decide (buf = []) then Ret (done, s, d)
      else
        let! (first, d) := write_first b d s in
        match first with
        | None => Ret (done, s, d)
        | Some s =>
            let! lba := cur_lba b s in
            let byte_off := Z.to_nat (file_offset s mod 512) in
            let avail := Nat.min (512 - byte_off) (length buf) in
            match (if (0 <? byte_off)%nat || (avail <? 512)%nat then sector_read d lba else Some (zeros 512)) with
            | None => Ret (done, s, d)
            | Some sec =>
                let (ok, d) := sector_write d lba (splice sec byte_off (take avail buf)) in
                if negb ok then Ret (done, s, d)
                else
                  let buf := drop avail buf in
                  let done := (done + avail)%nat in
                  let! off := cadd u32_max (file_offset s) (Z.of_nat avail) in
                  let s := set_pos s (cur_cluster s) (cur_sector s) off in
                  let s := if size s <? off then set_size s off else s in
                  let! (go, s, d) := write_advance b d (negb (bool_decide (buf = []))) s in
                  if go : bool then write_loop fuel' b d done buf s else Ret (done, s, d)
            end
        end
  end.

(* @src fs/fat.rs 955-1025 write_fd *)
Definition write_fd (f : FatFs D) (fd : Z) (buf : list Z) : outcome (Z * FatFs D) :=
  if negb (ready f) || negb (is_fat_fd fd) then Ret (-5, f)
  else
    let! s := idx (fds f) (slot_of fd) in
    if negb (active s) then Ret (-5, f)
    else if negb (writable s) then Ret (-9, f)
    else
      let! (done, s, d) := write_loop (S (length buf)) (bpb f) (disk f) 0 buf s in
      let d := flush_dir_size d s in
      Ret (Z.of_nat done, set_fds (set_disk f d) (<[slot_of fd := s]> (fds f))).

#[export] Instance fat_raw : RawFile (FatFs D) := {|
  raw_read := read_fd;
  raw_write := write_fd;
  raw_close := close;
|}.

End FatFs.
End fatfs.
