(* ===== verification/FatTable.v ===== *)
(** * The allocation table of the FAT16 driver

    On a disk without errors: what one write of the table does to every entry of
    every copy, that allocation takes the lowest free cluster, and that freeing a
    chain ends whatever the table holds and frees exactly a well-formed chain. *)

From stdpp Require Import base list gmap list_numbers.
From Stdlib Require Import ZArith Lia.
From S2P Require Import Prelude Mbr Fat.

Local Open Scope Z_scope.

Module fat_table.
Import fat.

(** ** Sectors as tables of 16-bit words *)

(** The two stores of [fat_write_entry]. *)
Definition put16 (b : list Z) (i v : Z) : list Z :=
  <[Z.to_nat (i + 1) := Z.shiftr v 8]> (<[Z.to_nat i := Z.land v 0xFF]> b).

Lemma byte_insert b i j v : 0 <= i < Z.of_nat (length b) -> 0 <= j ->
  byte (<[Z.to_nat i := v]> b) j = if decide (j = i) then v else byte b j.
Proof.
  intros Hi Hj. unfold byte. destruct (decide (j = i)) as [->|Hne].
  - rewrite list_lookup_insert_eq by lia. done.
  - rewrite list_lookup_insert_ne by lia. done.
Qed.

Lemma byte_range b i : Forall is_byte b -> 0 <= byte b i < 256.
Proof.
  intros Hb. unfold byte. destruct (b !! _) as [x|] eqn:Hx; cbn; [|lia].
  exact (Forall_lookup_1 _ _ _ _ Hb Hx).
Qed.

Lemma land_255 v : Z.land v 0xFF = v mod 256.
Proof. change 0xFF with (Z.ones 8). by rewrite Z.land_ones by lia. Qed.

Lemma shiftr_8 v : Z.shiftr v 8 = v / 256.
Proof. by rewrite Z.shiftr_div_pow2 by lia. Qed.

Lemma u16_range b i : Forall is_byte b -> 0 <= u16_at b i < 65536.
Proof.
  intros Hb. unfold u16_at.
  pose proof (byte_range b i Hb). pose proof (byte_range b (i + 1) Hb). lia.
Qed.

(** [lo | (hi << 8)] *)
Lemma lor_bytes lo hi : 0 <= lo < 256 -> 0 <= hi -> Z.lor lo (Z.shiftl hi 8) = lo + 256 * hi.
Proof.
  intros Hlo Hhi. pose proof (Z.add_lor_land lo (Z.shiftl hi 8)) as Ha.
  assert (Hz : Z.land lo (Z.shiftl hi 8) = 0).
  { apply Z.bits_inj'. intros n Hn. rewrite Z.land_spec, Z.bits_0, Z.shiftl_spec by lia.
    destruct (Z.ltb_spec n 8).
    - rewrite (Z.testbit_neg_r hi) by lia. apply andb_false_r.
    - replace lo with (lo mod 2 ^ 8) by (apply Z.mod_small; lia).
      by rewrite Z.mod_pow2_bits_high by lia. }
  rewrite Hz, Z.shiftl_mul_pow2 in Ha by lia. rewrite Z.shiftl_mul_pow2 by lia. lia.
Qed.

Lemma is_sector_put16 b i v : is_sector b -> 0 <= v < 65536 -> is_sector (put16 b i v).
Proof.
  intros [Hl Hb] Hv. unfold put16. split; [by rewrite !length_insert|].
  apply Forall_insert; [apply Forall_insert; [done|]|];
    rewrite ?land_255, ?shiftr_8; unfold is_byte.
  - apply Z.mod_pos_bound. lia.
  - split; [apply Z.div_pos; lia|apply Z.div_lt_upper_bound; lia].
Qed.

(** A word is stored in its own place and in no other. *)
Lemma u16_put16 b i j v : length b = 512%nat -> 0 <= i < 256 -> 0 <= j < 256 -> 0 <= v < 65536 ->
  u16_at (put16 b (2 * i) v) (2 * j) = if decide (j = i) then v else u16_at b (2 * j).
Proof.
  intros Hl Hi Hj Hv. unfold u16_at, put16.
  rewrite !byte_insert by (rewrite ?length_insert; lia).
  destruct (decide (j = i)) as [->|Hne].
  - rewrite decide_False, decide_True, decide_True by lia.
    rewrite land_255, shiftr_8. pose proof (Z.div_mod v 256). lia.
  - by rewrite !decide_False by lia.
Qed.

(** ** Where the entries are *)

(** What the calls below ask of a volume: the areas follow each other, no sector
    number overflows, and cluster numbers stay below the reserved ones. *)
Record volume_ok (b : Bpb) : Prop := {
  v_spc : 1 <= sectors_per_cluster b <= 255;
  v_count : 1 <= fat_count b <= 255;
  v_size : 1 <= fat_size_16 b <= 255;
  v_start : 0 <= fat_start_lba b;
  v_root : fat_start_lba b + fat_count b * fat_size_16 b <= root_dir_lba b;
  v_entries : 0 <= root_entry_count b;
  v_data : root_dir_lba b + root_sectors b <= data_start_lba b;
  v_end : data_start_lba b + 65536 * sectors_per_cluster b <= u32_max;
}.

(** The number of entries of the table. *)
Definition clusters (b : Bpb) : Z := 256 * fat_size_16 b.

(** The sector of copy [k] that holds the entry of cluster [c], and the entry. *)
Definition tab_lba (b : Bpb) (k c : Z) : Z := fat_start_lba b + c / 256 + k * fat_size_16 b.
Definition entry {D} `{BlockDevice D} (b : Bpb) (d : D) (k c : Z) : Z :=
  u16_at (sector d (tab_lba b k c)) (2 * (c mod 256)).

(** The value [fat_next] makes of an entry. *)
Definition next_of (v : Z) : Z := if 0xFFF8 <=? v then 0xFFFF else v.

Lemma fat_place c : 0 <= c -> fat_sector c = c / 256 /\ fat_byte c = 2 * (c mod 256).
Proof.
  intros Hc. unfold fat_sector, fat_byte. split.
  - change 512 with (256 * 2). by rewrite Z.div_mul_cancel_r by lia.
  - change 512 with (256 * 2). rewrite Z.mul_mod_distr_r by lia. lia.
Qed.

Lemma tab_lba_inj b k c j c' : 0 <= c < clusters b -> 0 <= c' < clusters b ->
  tab_lba b k c = tab_lba b j c' -> k = j /\ c / 256 = c' / 256.
Proof.
  unfold tab_lba, clusters. intros Hc Hc' Heq.
  assert (0 <= c / 256 < fat_size_16 b) by (split; [apply Z.div_pos|apply Z.div_lt_upper_bound]; lia).
  assert (0 <= c' / 256 < fat_size_16 b) by (split; [apply Z.div_pos|apply Z.div_lt_upper_bound]; lia).
  destruct (Z.div_mod_unique (fat_size_16 b) k j (c / 256) (c' / 256)); lia.
Qed.

Lemma tab_lba_range b k c : volume_ok b -> 0 <= k < fat_count b -> 0 <= c < 65536 ->
  0 <= tab_lba b k c <= u32_max /\ k * fat_size_16 b <= u32_max.
Proof.
  intros [] Hk Hc. unfold tab_lba, u32_max in *.
  assert (0 <= c / 256 < 256) by (split; [apply Z.div_pos|apply Z.div_lt_upper_bound]; lia).
  assert (0 <= root_sectors b) by (apply Z.div_pos; lia). nia.
Qed.

Section Table.
Context {D : Type} `{DL : DiskLaws D}.
Context (b : Bpb) (Hv : volume_ok b).

Lemma entry_range (d : D) k c : 0 <= entry b d k c < 65536.
Proof. apply u16_range, sectors_are_512_bytes. Qed.

(** [fat_next] is the entry of the first copy. *)
Lemma fat_next_entry (d : D) c : 0 <= c < 65536 -> fat_next b c d = Ret (next_of (entry b d 0 c)).
Proof.
  intros Hc. unfold fat_next. destruct (fat_place c) as [-> ->]; [lia|].
  pose proof (tab_lba_range b 0 c Hv) as Hr. destruct Hv. unfold tab_lba in Hr.
  rewrite cadd_le by (apply Z.le_trans with (m := fat_start_lba b + c / 256 + 0 * fat_size_16 b); [lia|apply Hr; lia]).
  cbn [mbind outcome_mbind]. rewrite read_works.
  destruct (sectors_are_512_bytes d (fat_start_lba b + c / 256)) as [_ Hb].
  rewrite lor_bytes by (first [apply byte_range, Hb|pose proof (byte_range _ (2 * (c mod 256) + 1) Hb); lia]).
  unfold entry, tab_lba, u16_at. replace (fat_start_lba b + c / 256 + 0 * fat_size_16 b) with (fat_start_lba b + c / 256) by lia.
  done.
Qed.

(** One write per copy. *)
Lemma write_copies_spec c v ks (d : D) :
  0 <= c < 65536 -> 0 <= v < 65536 -> NoDup ks -> (forall k, k ∈ ks -> 0 <= k < fat_count b) ->
  exists d', write_copies b (fat_start_lba b + c / 256) (2 * (c mod 256)) v ks d = Ret (true, d') /\
    forall l, sector d' l = if decide (l ∈ (fun k => tab_lba b k c) <$> ks) then put16 (sector d l) (2 * (c mod 256)) v
                            else sector d l.
Proof.
  intros Hc Hval. revert d. induction ks as [|k ks IH]; intros d Hnd Hks.
  { exists d. split; [done|]. intros l. by rewrite decide_False by (apply not_elem_of_nil). }
  apply NoDup_cons in Hnd as [Hk Hnd].
  destruct (tab_lba_range b k c Hv) as [Hl Hm]; [apply Hks; left|done|].
  cbn [write_copies]. rewrite cmul_le by done. cbn [mbind outcome_mbind].
  rewrite cadd_le by (unfold tab_lba in Hl; lia). cbn [mbind outcome_mbind].
  change (fat_start_lba b + c / 256 + k * fat_size_16 b) with (tab_lba b k c).
  rewrite read_works. fold (put16 (sector d (tab_lba b k c)) (2 * (c mod 256)) v).
  destruct (sector_write d (tab_lba b k c) _) as [ok d1] eqn:Hw.
  pose proof (write_works d (tab_lba b k c) (put16 (sector d (tab_lba b k c)) (2 * (c mod 256)) v)) as Hok.
  rewrite Hw in Hok. cbn in Hok. subst ok.
  assert (Hd1 : forall l, sector d1 l = if decide (l = tab_lba b k c) then put16 (sector d l) (2 * (c mod 256)) v else sector d l).
  { intros l. pose proof (read_after_write d (tab_lba b k c) (put16 (sector d (tab_lba b k c)) (2 * (c mod 256)) v) l) as Hr.
    rewrite Hw in Hr. cbn in Hr. rewrite Hr by (apply is_sector_put16; [apply sectors_are_512_bytes|done]).
    by destruct (decide (l = tab_lba b k c)) as [->|]. }
  destruct (IH d1 Hnd) as (d' & -> & Hd'); [by intros; apply Hks; right|].
  exists d'. split; [done|]. intros l. rewrite Hd', Hd1. cbn [fmap list_fmap].
  destruct (decide (l = tab_lba b k c)) as [->|Hne].
  - rewrite decide_False; [by rewrite decide_True by left|].
    intros (j & Heq & Hj)%list_elem_of_fmap. unfold tab_lba in Heq. destruct Hv.
    assert (k = j) as -> by nia. done.
  - destruct (decide (l ∈ _)) as [Hin|Hin].
    + by rewrite decide_True by (by right).
    + rewrite decide_False; [done|]. by intros [?|?]%elem_of_cons.
Qed.

Lemma fat_write_entry_spec c v (d : D) : 0 <= c < 65536 -> 0 <= v < 65536 ->
  exists d', fat_write_entry b c v d = Ret (true, d') /\
    forall l, sector d' l = if decide (l ∈ (fun k => tab_lba b k c) <$> seqZ 0 (fat_count b))
                            then put16 (sector d l) (2 * (c mod 256)) v else sector d l.
Proof.
  intros Hc Hval. unfold fat_write_entry. destruct (fat_place c) as [-> ->]; [lia|].
  pose proof (tab_lba_range b 0 c Hv) as Hr. unfold tab_lba in Hr.
  assert (fat_start_lba b + c / 256 <= u32_max) by (destruct Hv; lia).
  rewrite cadd_le by done. cbn [mbind outcome_mbind].
  apply write_copies_spec; [done|done|apply NoDup_seqZ|]. intros k Hk%elem_of_seqZ. lia.
Qed.

Lemma elem_of_copies l c :
  l ∈ (fun k => tab_lba b k c) <$> seqZ 0 (fat_count b) <-> exists k, l = tab_lba b k c /\ 0 <= k < fat_count b.
Proof.
  rewrite list_elem_of_fmap. split; intros (k & ? & Hk); exists k; rewrite ?elem_of_seqZ in *; split; auto; lia.
Qed.

(** The sectors of the table. *)
Definition in_table (l : Z) : Prop := fat_start_lba b <= l < fat_start_lba b + fat_count b * fat_size_16 b.

(** [d'] is [d] with the entry of [c] set to [v] in every copy. *)
Definition set_entry (d d' : D) (c v : Z) : Prop :=
  (forall k c', 0 <= k < fat_count b -> 0 <= c' < clusters b ->
     entry b d' k c' = if decide (c' = c) then v else entry b d k c') /\
  (forall l, ~ in_table l -> sector d' l = sector d l).

Lemma clusters_le : clusters b <= 65280.
Proof. unfold clusters. destruct Hv. lia. Qed.

Lemma fat_write_entry_sets c v (d : D) : 0 <= c < clusters b -> 0 <= v < 65536 ->
  exists d', fat_write_entry b c v d = Ret (true, d') /\ set_entry d d' c v.
Proof.
  intros Hc Hval. pose proof clusters_le.
  destruct (fat_write_entry_spec c v d) as (d' & Hw & Hd'); [lia|done|].
  exists d'. split; [done|]. split.
  - intros k c' Hk Hc'. unfold entry. rewrite Hd'.
    destruct (decide _) as [(j & Heq & Hj)%elem_of_copies|Hno].
    + apply tab_lba_inj in Heq as [<- Hq]; [|done|done].
      rewrite u16_put16 by (first [apply sectors_are_512_bytes|apply Z.mod_pos_bound; lia|done]).
      pose proof (Z.div_mod c 256 ltac:(lia)). pose proof (Z.div_mod c' 256 ltac:(lia)).
      destruct (decide (c' mod 256 = c mod 256)), (decide (c' = c)); try done; subst; lia.
    + destruct (decide (c' = c)) as [->|]; [|done].
      destruct Hno. apply elem_of_copies. by exists k.
  - intros l Hl. rewrite Hd', decide_False; [done|].
    intros (k & -> & Hk)%elem_of_copies. destruct Hl. unfold in_table, tab_lba, clusters in *.
    assert (0 <= c / 256 < fat_size_16 b) by (split; [apply Z.div_pos|apply Z.div_lt_upper_bound]; lia).
    destruct Hv. nia.
Qed.

(** On a disk without errors, writing the entry of a cluster succeeds, sets
    the entry in every copy of the table, changes no other entry of any copy and
    no sector outside the table; reading the entry back gives the value (with all
    end marks read as 0xFFFF). *)
Theorem fat_entry_round_trip c v (d : D) : 0 <= c < clusters b -> 0 <= v < 65536 ->
  exists d', fat_write_entry b c v d = Ret (true, d') /\
    fat_next b c d' = Ret (next_of v) /\
    (forall k c', 0 <= k < fat_count b -> 0 <= c' < clusters b ->
       entry b d' k c' = if decide (c' = c) then v else entry b d k c') /\
    (forall l, ~ in_table l -> sector d' l = sector d l).
Proof.
  intros Hc Hval. destruct (fat_write_entry_sets c v d Hc Hval) as (d' & Hw & He & Ho).
  exists d'. split_and!; [done| |done|done]. pose proof clusters_le.
  rewrite fat_next_entry, He, decide_True by (first [done|destruct Hv; lia]). done.
Qed.

(** ** Allocation *)

Lemma free_entry_bytes (d : D) s i : 0 <= s < fat_size_16 b -> 0 <= i < 256 ->
  let buf := sector d (fat_start_lba b + s) in
  wrap 16 (s * 256 + i) = s * 256 + i /\
  (byte buf (2 * i) =? 0) && (byte buf (2 * i + 1) =? 0) = (entry b d 0 (s * 256 + i) =? 0).
Proof.
  intros Hs Hi buf. destruct (sectors_are_512_bytes d (fat_start_lba b + s)) as [_ Hb]. split.
  - unfold wrap. rewrite Z.mod_small; [done|]. destruct Hv. lia.
  - unfold entry, tab_lba. rewrite (Z.div_add_l s 256 i), (Z.div_small i) by lia.
    rewrite (Z.add_comm (s * 256)), Z.mod_add, Z.mod_small by lia.
    replace (fat_start_lba b + (s + 0) + 0 * fat_size_16 b) with (fat_start_lba b + s) by lia.
    fold buf. unfold u16_at. pose proof (byte_range buf (2 * i) Hb). pose proof (byte_range buf (2 * i + 1) Hb).
    destruct (Z.eqb_spec (byte buf (2 * i)) 0), (Z.eqb_spec (byte buf (2 * i + 1)) 0),
      (Z.eqb_spec (byte buf (2 * i) + 256 * byte buf (2 * i + 1)) 0); cbn; lia.
Qed.

(** No cluster of sector [s] of the table is free, or the first one that is. *)
Lemma free_in_sector_spec (d : D) s : 0 <= s < fat_size_16 b ->
  match free_in_sector s (sector d (fat_start_lba b + s)) with
  | Some c => 2 <= c /\ s * 256 <= c < s * 256 + 256 /\ entry b d 0 c = 0 /\
              forall c', 2 <= c' -> s * 256 <= c' < c -> entry b d 0 c' <> 0
  | None => forall c', 2 <= c' -> s * 256 <= c' < s * 256 + 256 -> entry b d 0 c' <> 0
  end.
Proof.
  intros Hs. unfold free_in_sector. destruct (position _ _) as [i|] eqn:Hp; cbn [fmap option_fmap option_map].
  - apply position_Some in Hp as (x & Hx & Hf & Hmin). apply lookup_seqZ in Hx as [-> Hi].
    destruct (free_entry_bytes d s (0 + Z.of_nat i) Hs) as [Hw Hb]; [lia|].
    rewrite Z.add_0_l in *. rewrite Hw in *. rewrite Hb in Hf.
    apply andb_true_iff in Hf as [H2%negb_true_iff%Z.ltb_ge He%Z.eqb_eq].
    split_and!; [lia|lia|lia|done|]. intros c' Hc2 Hc'.
    destruct (free_entry_bytes d s (c' - s * 256) Hs) as [Hw' Hb']; [lia|].
    specialize (Hmin (Z.to_nat (c' - s * 256)) (c' - s * 256) ltac:(lia)).
    rewrite Hw', Hb' in Hmin. replace (s * 256 + (c' - s * 256)) with c' in Hmin by lia.
    destruct (Z.eqb_spec (entry b d 0 c') 0); [|done].
    rewrite andb_true_r in Hmin. rewrite negb_false_iff in Hmin. rewrite Z.ltb_lt in Hmin.
    assert (c' < 2); [apply Hmin, lookup_seqZ; lia|lia].
  - rewrite position_None in Hp. intros c' Hc2 Hc'.
    destruct (free_entry_bytes d s (c' - s * 256) Hs) as [Hw' Hb']; [lia|].
    specialize (Hp (Z.to_nat (c' - s * 256)) (c' - s * 256)).
    rewrite Hw', Hb' in Hp. replace (s * 256 + (c' - s * 256)) with c' in Hp by lia.
    destruct (Z.eqb_spec (entry b d 0 c') 0); [|done].
    rewrite andb_true_r, negb_false_iff, Z.ltb_lt in Hp.
    assert (c' < 2); [apply Hp, lookup_seqZ; lia|lia].
Qed.

(** What an allocation does: the lowest free cluster becomes the end of a chain,
    or there is none. *)
Definition allocated (from : Z) (d : D) (r : Z) (d' : D) : Prop :=
  (r = 0 /\ d' = d /\ forall c, 2 <= c -> from <= c < clusters b -> entry b d 0 c <> 0) \/
  (2 <= r < clusters b /\ entry b d 0 r = 0 /\ (forall c, 2 <= c -> from <= c < r -> entry b d 0 c <> 0) /\
   set_entry d d' r 0xFFFF).

Lemma alloc_scan_spec (d : D) n s : 0 <= s -> s + Z.of_nat n = fat_size_16 b ->
  exists r d', alloc_scan b (seqZ s (Z.of_nat n)) d = Ret (r, d') /\ allocated (s * 256) d r d'.
Proof.
  revert s. induction n as [|n IH]; intros s Hs Hn.
  { exists 0, d. split; [done|]. left. split_and!; auto. unfold clusters. intros; lia. }
  rewrite (seqZ_cons s) by lia. cbn [alloc_scan].
  assert (fat_start_lba b + s <= u32_max) by (destruct Hv; unfold u32_max in *; assert (0 <= root_sectors b) by (apply Z.div_pos; lia); nia).
  rewrite cadd_le by done. cbn [mbind outcome_mbind]. rewrite read_works.
  pose proof (free_in_sector_spec d s ltac:(lia)) as Hf. destruct (free_in_sector _ _) as [c|].
  - destruct Hf as (H2 & Hc & He & Hmin).
    destruct (fat_write_entry_sets c 0xFFFF d) as (d' & -> & Hset); [unfold clusters; lia|lia|].
    cbn [mbind outcome_mbind]. exists c, d'. split; [done|]. right. split_and!; auto; unfold clusters; lia.
  - destruct (IH (Z.succ s)) as (r & d' & Hscan & Ha); [lia|lia|].
    replace (Z.pred (Z.of_nat (S n))) with (Z.of_nat n) by lia.
    exists r, d'. split; [done|]. unfold allocated in *.
    assert (Hjoin : forall hi c, (Z.succ s * 256 <= c < hi -> entry b d 0 c <> 0) -> 2 <= c -> s * 256 <= c < hi -> entry b d 0 c <> 0).
    { intros hi c Hc H2 Hcc. destruct (Z.lt_ge_cases c (Z.succ s * 256)); [apply Hf; lia|apply Hc; lia]. }
    destruct Ha as [(-> & -> & Ha)|(Hr & He & Hmin & Hset)]; [left|right]; split_and!; auto; try lia; intros; eapply Hjoin; eauto.
Qed.

Lemma fat_alloc_cluster_spec (d : D) : exists r d', fat_alloc_cluster b d = Ret (r, d') /\ allocated 2 d r d'.
Proof.
  destruct (alloc_scan_spec d (Z.to_nat (fat_size_16 b)) 0) as (r & d' & Hs & Ha); [lia|destruct Hv; lia|].
  unfold fat_alloc_cluster. rewrite Z2Nat.id in Hs by (destruct Hv; lia). exists r, d'. split; [done|].
  destruct Ha as [(-> & -> & Ha)|(Hr & He & Hmin & Hset)]; [left|right]; split_and!; auto; try lia; intros; first [apply Ha|apply Hmin]; lia.
Qed.

(** On a disk without errors, allocating a cluster always returns: either the
    lowest-numbered free cluster, whose entry becomes the end-of-chain mark in
    every copy while every other entry and every other sector stay as they were,
    or 0 with nothing changed, and then no cluster of the table is free. *)
Theorem fat_alloc_takes_the_lowest_free_cluster (d : D) :
  exists r d', fat_alloc_cluster b d = Ret (r, d') /\
    ((r = 0 /\ d' = d /\ forall c, 2 <= c < clusters b -> entry b d 0 c <> 0) \/
     (2 <= r < clusters b /\ entry b d 0 r = 0 /\ (forall c, 2 <= c < r -> entry b d 0 c <> 0) /\
      (forall k c, 0 <= k < fat_count b -> 0 <= c < clusters b ->
         entry b d' k c = if decide (c = r) then 0xFFFF else entry b d k c) /\
      (forall l, ~ in_table l -> sector d' l = sector d l))).
Proof.
  destruct (fat_alloc_cluster_spec d) as (r & d' & Ha & Hr). exists r, d'. split; [done|].
  destruct Hr as [(-> & -> & Hr)|(Hr & He & Hmin & Hset)]; [left|right].
  - split_and!; auto. intros; apply Hr; lia.
  - destruct Hset. split_and!; auto; try lia. intros; apply Hmin; lia.
Qed.

(** ** Freeing chains *)

(** The clusters that a chain can go on from. *)
Definition live (d : D) : list Z := filter (fun c => entry b d 0 c <> 0) (seqZ 2 65526).

Lemma length_filter_lt {A} (P Q : A -> Prop) `{!forall x, Decision (P x), !forall x, Decision (Q x)} l x :
  (forall y, Q y -> P y) -> x ∈ l -> P x -> ~ Q x -> (length (filter Q l) < length (filter P l))%nat.
Proof.
  intros Hsub Hx Hp Hq.
  assert (Hle : forall l, (length (filter Q l) <= length (filter P l))%nat).
  { clear x Hx Hp Hq l. intros l. induction l as [|y l IH]; [done|]. rewrite !filter_cons.
    destruct (decide (Q y)); [rewrite decide_True by auto; cbn; lia|]. destruct (decide (P y)); cbn; lia. }
  induction l as [|y l IH]; [by apply not_elem_of_nil in Hx|]. rewrite !filter_cons.
  apply elem_of_cons in Hx as [<-|Hx].
  - rewrite (decide_True _ _ Hp), (decide_False _ _ Hq). cbn. specialize (Hle l). lia.
  - specialize (IH Hx). destruct (decide (Q y)); [rewrite decide_True by auto; cbn; lia|].
    destruct (decide (P y)); cbn; lia.
Qed.

(** Clearing an entry, of the table or beyond it, sets no other. *)
Lemma clear_entry c (d : D) : 0 <= c < 65536 ->
  exists d', fat_write_entry b c 0 d = Ret (true, d') /\ entry b d' 0 c = 0 /\
    forall c', entry b d' 0 c' <> 0 -> entry b d 0 c' <> 0.
Proof.
  intros Hc. destruct (fat_write_entry_spec c 0 d) as (d' & Hw & Hd'); [done|lia|].
  assert (He : forall c', entry b d' 0 c' = entry b d 0 c' \/ entry b d' 0 c' = 0).
  { intros c'. unfold entry. rewrite Hd'. destruct (decide _); [|by left].
    rewrite u16_put16 by (first [apply sectors_are_512_bytes|apply Z.mod_pos_bound; lia|lia]).
    destruct (decide _); auto. }
  exists d'. split_and!; [done| |].
  - unfold entry. rewrite Hd', decide_True by (apply elem_of_copies; exists 0; split; [done|destruct Hv; lia]).
    rewrite u16_put16 by (first [apply sectors_are_512_bytes|apply Z.mod_pos_bound; lia|lia]).
    by rewrite decide_True.
  - intros c' Hne. destruct (He c') as [<-|?]; done.
Qed.

Lemma live_decreases c (d d' : D) : 2 <= c < 0xFFF8 -> entry b d 0 c <> 0 -> entry b d' 0 c = 0 ->
  (forall c', entry b d' 0 c' <> 0 -> entry b d 0 c' <> 0) -> (length (live d') < length (live d))%nat.
Proof.
  intros Hc He Hz Hsub. apply (length_filter_lt _ _ _ c); auto.
  apply elem_of_seqZ. lia.
Qed.

Lemma next_of_range v : 0 <= v < 65536 -> 0 <= next_of v < 65536.
Proof. unfold next_of. destruct (Z.leb_spec 0xFFF8 v); lia. Qed.

Lemma free_chain_returns fuel : forall c (d : D), 0 <= c < 65536 -> (length (live d) < fuel)%nat ->
  exists d', free_chain fuel b c d = Ret d'.
Proof.
  induction fuel as [|fuel IH]; intros c d Hc Hfuel; [lia|]. cbn [free_chain].
  destruct ((2 <=? c) && (c <? 0xFFF8)) eqn:Hr; [|by eexists].
  apply andb_true_iff in Hr as [H2%Z.leb_le H3%Z.ltb_lt].
  rewrite fat_next_entry by lia. cbn [mbind outcome_mbind].
  destruct (clear_entry c d Hc) as (d1 & -> & Hz & Hsub). cbn [mbind outcome_mbind].
  destruct ((next_of (entry b d 0 c) =? 0) || _) eqn:Hn; [by eexists|].
  apply orb_false_iff in Hn as [Hn%Z.eqb_neq _].
  apply IH; [apply next_of_range, entry_range|].
  assert (entry b d 0 c <> 0) by (intros He; rewrite He in Hn; done).
  pose proof (live_decreases c d d1 ltac:(lia) ltac:(done) Hz Hsub). lia.
Qed.

Lemma live_le (d : D) : (length (live d) <= Z.to_nat 65526)%nat.
Proof. unfold live. etransitivity; [apply length_filter|]. by rewrite length_seqZ. Qed.

(** C35: On a disk without errors, freeing a chain always ends, whatever the table
    holds: a cyclic chain or one that leaves the table is followed at most once
    through each cluster, because every turn clears the entry it leaves. *)
Theorem fat_free_chain_terminates c (d : D) : 0 <= c < 65536 ->
  exists d', free_cluster_chain b c d = Ret d'.
Proof.
  intros Hc. apply free_chain_returns; [done|]. pose proof (live_le d). unfold CHAIN. lia.
Qed.

(** [cs] is a chain of the table: distinct clusters, each entry names the next,
    and the last one holds an end mark. *)
Definition linked (d : D) (cs : list Z) : Prop :=
  cs <> [] /\ NoDup cs /\
  forall i c, cs !! i = Some c ->
    2 <= c < clusters b /\
    match cs !! S i with Some c' => entry b d 0 c = c' | None => 0xFFF8 <= entry b d 0 c end.

Lemma linked_tail (d : D) c cs : cs <> [] -> linked d (c :: cs) -> linked d cs.
Proof.
  intros Hcs (_ & [_ Hnd]%NoDup_cons & Hl). split_and!; auto. intros i x Hx. apply (Hl (S i) x Hx).
Qed.

Lemma linked_entries (d d' : D) cs : (forall c, c ∈ cs -> entry b d' 0 c = entry b d 0 c) -> linked d cs -> linked d' cs.
Proof.
  intros He (Hne & Hnd & Hl). split_and!; auto. intros i c Hc. rewrite He by (by eapply list_elem_of_lookup_2). by apply Hl.
Qed.

Lemma linked_next (d : D) cs i c : linked d cs -> cs !! i = Some c ->
  fat_next b c d = Ret (match cs !! S i with Some c' => c' | None => 0xFFFF end).
Proof.
  intros (_ & _ & Hl) Hc. pose proof clusters_le. destruct (Hl i c Hc) as [Hr Hn].
  rewrite fat_next_entry by lia. f_equal. unfold next_of.
  destruct (cs !! S i) as [c'|] eqn:Hc'.
  - rewrite Hn. destruct (Hl _ _ Hc') as [? _]. by destruct (Z.leb_spec 0xFFF8 c'); [lia|].
  - by destruct (Z.leb_spec 0xFFF8 (entry b d 0 c)); [|lia].
Qed.

Lemma linked_nonzero (d : D) cs c : linked d cs -> c ∈ cs -> 2 <= c < clusters b /\ entry b d 0 c <> 0.
Proof.
  intros (_ & _ & Hl) [i Hi]%list_elem_of_lookup_1. destruct (Hl i c Hi) as [Hr Hn]. split; [done|].
  destruct (cs !! S i) as [c'|] eqn:Hc'; [|lia]. rewrite Hn. destruct (Hl _ _ Hc') as [? _]. lia.
Qed.

(** A chain with one more cluster at its end. *)
Lemma linked_snoc (d d' : D) cs c new : linked d cs -> last cs = Some c -> 2 <= new < clusters b -> new ∉ cs ->
  (forall x, x ∈ cs -> x <> c -> entry b d' 0 x = entry b d 0 x) ->
  entry b d' 0 c = new -> 0xFFF8 <= entry b d' 0 new -> linked d' (cs ++ [new]).
Proof.
  intros (Hne & Hnd & Hl) Hlast Hnew Hnin Hsame Hc Hend.
  rewrite last_lookup in Hlast. pose proof (lookup_lt_Some _ _ _ Hlast) as Hlen. split_and!.
  - by destruct cs.
  - apply NoDup_app. split_and!; [done| |apply NoDup_singleton]. by intros x Hx ->%list_elem_of_singleton.
  - intros i x Hx. apply lookup_app_Some in Hx as [Hx|[Hge Hx]].
    + destruct (Hl i x Hx) as [Hr Hn]. split; [done|]. pose proof (lookup_lt_Some _ _ _ Hx).
      destruct (decide (x = c)) as [->|Hxc].
      * rewrite (NoDup_lookup cs i (Nat.pred (length cs)) c Hnd Hx Hlast).
        rewrite lookup_app_r by lia. by replace (S (Nat.pred (length cs)) - length cs)%nat with 0%nat by lia.
      * rewrite Hsame by (first [by eapply list_elem_of_lookup_2|done]).
        assert (S i < length cs)%nat.
        { destruct (decide (i = Nat.pred (length cs))) as [->|]; [congruence|lia]. }
        by rewrite lookup_app_l by done.
    + apply list_lookup_singleton_Some in Hx as [Hi <-]. split; [done|].
      by rewrite lookup_ge_None_2 by (rewrite length_app; cbn; lia).
Qed.

(** [d'] is [d] with the entries of [cs] cleared. *)
Definition cleared (cs : list Z) (d d' : D) : Prop :=
  (forall k c, 0 <= k < fat_count b -> 0 <= c < clusters b ->
     entry b d' k c = if decide (c ∈ cs) then 0 else entry b d k c) /\
  (forall l, ~ in_table l -> sector d' l = sector d l).

Lemma cleared_cons c cs (d d1 d2 : D) : set_entry d d1 c 0 -> cleared cs d1 d2 -> cleared (c :: cs) d d2.
Proof.
  intros [He Ho] [He2 Ho2]. split.
  - intros k x Hk Hx. rewrite He2, He by done.
    destruct (decide (x ∈ cs)); [by rewrite decide_True by (by right)|].
    destruct (decide (x = c)) as [->|]; [by rewrite decide_True by left|].
    rewrite decide_False; [done|]. by intros [?|?]%elem_of_cons.
  - intros l Hl. by rewrite Ho2, Ho.
Qed.

Lemma free_chain_exact fuel : forall c cs (d : D), linked d (c :: cs) -> (length (c :: cs) <= fuel)%nat ->
  exists d', free_chain fuel b c d = Ret d' /\ cleared (c :: cs) d d'.
Proof.
  induction fuel as [|fuel IH]; intros c cs d Hl Hf; [cbn in Hf; lia|]. cbn [free_chain].
  pose proof clusters_le. destruct (linked_nonzero d (c :: cs) c Hl) as [Hc _]; [left|].
  destruct (Z.leb_spec 2 c), (Z.ltb_spec c 0xFFF8); cbn [andb]; try lia.
  rewrite (linked_next d (c :: cs) 0 c Hl eq_refl). cbn [mbind outcome_mbind].
  destruct (fat_write_entry_sets c 0 d) as (d1 & -> & Hset); [lia|lia|]. cbn [mbind outcome_mbind lookup list_lookup].
  destruct cs as [|c' cs]; cbn [lookup list_lookup].
  - exists d1. split; [done|]. eapply cleared_cons; [done|]. by split.
  - assert (Hl' : linked d1 (c' :: cs)).
    { destruct Hl as (Hne & Hnd & Hl). apply (linked_entries d); [|by eapply linked_tail; [|split]].
      intros x Hx. destruct Hset as [He _]. apply NoDup_cons in Hnd as [Hnot _].
      rewrite He, decide_False; [done|by intros ->|destruct Hv; lia|].
      apply list_elem_of_lookup_1 in Hx as [i Hi]. destruct (Hl (S i) x Hi). lia. }
    destruct (linked_nonzero d1 (c' :: cs) c' Hl') as [Hc' _]; [left|].
    destruct (Z.eqb_spec c' 0), (Z.eqb_spec c' 0xFFFF); cbn [orb]; try lia.
    destruct (IH c' cs d1 Hl') as (d2 & -> & Hcl); [cbn in *; lia|].
    exists d2. split; [done|]. by eapply cleared_cons.
Qed.

Lemma linked_length (d : D) cs : linked d cs -> (length cs <= Z.to_nat 65280)%nat.
Proof.
  intros Hl. destruct Hl as (Hne & Hnd & Hr). pose proof clusters_le.
  rewrite <- (length_seqZ 0 65280). apply NoDup_incl_length; [by apply NoDup_ListNoDup|].
  intros x Hx. apply list_elem_of_In, elem_of_seqZ. apply list_elem_of_In, list_elem_of_lookup_1 in Hx as [i Hi].
  destruct (Hr i x Hi). lia.
Qed.

(** Freeing a well-formed chain frees exactly its clusters: in every copy of
    the table their entries become 0, every other entry keeps its value, and no
    sector outside the table changes. *)
Theorem fat_free_chain_is_exact c cs (d : D) : linked d (c :: cs) ->
  exists d', free_cluster_chain b c d = Ret d' /\
    (forall k x, 0 <= k < fat_count b -> 0 <= x < clusters b ->
       entry b d' k x = if decide (x ∈ c :: cs) then 0 else entry b d k x) /\
    (forall l, ~ in_table l -> sector d' l = sector d l).
Proof.
  intros Hl. pose proof (linked_length d _ Hl). apply free_chain_exact; [done|]. unfold CHAIN. lia.
Qed.
End Table.

(** ** A volume

    One sector per cluster, two copies of a table of one sector, sixteen entries
    in the root directory; clusters 2 and 3 are a file. *)
Definition sample_bpb : Bpb := mkBpb 512 1 1 2 16 1 1 3 4.
Definition sample_table : list Z := splice zero_sector 0 [0xF8; 0xFF; 0xFF; 0xFF; 3; 0; 0xFF; 0xFF].
Definition sample_disk : RamDisk := mkDisk (<[1 := sample_table]> (<[2 := sample_table]> ∅)).

Lemma sample_ok : volume_ok sample_bpb.
Proof. by split; cbn; unfold u32_max; change (root_sectors sample_bpb) with 1; lia. Qed.

Lemma sample_chain : linked sample_bpb sample_disk [2; 3].
Proof.
  split_and!; [done|apply (bool_decide_unpack _); vm_compute; exact I|].
  intros [|[|i]] c Hc; cbn in Hc; [injection Hc as <-|injection Hc as <-|done];
    (split; [split; by vm_compute|]); by vm_compute.
Qed.

Lemma fat_entry_round_trip_witness :
  exists d', fat_write_entry sample_bpb 5 6 sample_disk = Ret (true, d') /\ fat_next sample_bpb 5 d' = Ret 6.
Proof.
  destruct (fat_entry_round_trip sample_bpb sample_ok 5 6 sample_disk) as (d' & Hw & Hn & _); [by vm_compute|lia|].
  by exists d'.
Defined.

Lemma fat_alloc_takes_the_lowest_free_cluster_witness :
  exists d', fat_alloc_cluster sample_bpb sample_disk = Ret (4, d') /\ entry sample_bpb d' 1 4 = 0xFFFF.
Proof.
  destruct (fat_alloc_takes_the_lowest_free_cluster sample_bpb sample_ok sample_disk) as (r & d' & Ha & [Hr|Hr]).
  - destruct Hr as (_ & _ & Hr). exfalso. by apply (Hr 4); vm_compute.
  - destruct Hr as (Hr & Hz & Hmin & He & _). assert (r = 4) as ->.
    { destruct (Z.lt_trichotomy r 4) as [Hlt|[->|Hgt]]; [|done|].
      - assert (r = 2 \/ r = 3) as [-> | ->] by lia; by vm_compute in Hz.
      - exfalso. by apply (Hmin 4); [lia|vm_compute]. }
    exists d'. split; [done|]. rewrite He by (by vm_compute). by rewrite decide_True.
Defined.

(** The chain 2 -> 3 -> 2: freeing it ends. *)
Lemma fat_free_chain_terminates_witness :
  exists d d', fat_write_entry sample_bpb 3 2 sample_disk = Ret (true, d) /\ free_cluster_chain sample_bpb 2 d = Ret d'.
Proof.
  destruct (fat_write_entry_sets sample_bpb sample_ok 3 2 sample_disk) as (d & Hw & _); [by vm_compute|lia|].
  destruct (fat_free_chain_terminates sample_bpb sample_ok 2 d) as (d' & Hf); [lia|]. by exists d, d'.
Defined.

Lemma fat_free_chain_is_exact_witness :
  exists d', free_cluster_chain sample_bpb 2 sample_disk = Ret d' /\ entry sample_bpb d' 0 3 = 0.
Proof.
  destruct (fat_free_chain_is_exact sample_bpb sample_ok 2 [3] sample_disk sample_chain) as (d' & Hf & He & _).
  exists d'. split; [exact Hf|]. clear Hf. rewrite He by (unfold clusters; cbn; lia). by rewrite decide_True by (right; left).
Defined.
End fat_table.
