(* ===== verification/FatFile.v ===== *)
(** * Files of the FAT16 driver

    A file is a chain of clusters; [content] is the bytes of its sectors, one
    after another. On a disk without errors: a read returns the next bytes of
    the file, a write replaces them and extends the chain with free clusters,
    and two calls that break this promise: a write that ends at the end of the
    last cluster, and a seek. *)

From stdpp Require Import base list gmap list_numbers.
From Stdlib Require Import ZArith Lia.
From S2P Require Import Prelude RamFs FdTable Mbr Fat FatOps FatTable.

Local Open Scope Z_scope.

Module fat_file.
Import fat fatfs fat_table.

(** The offset and its sector after [a] more bytes of the sector. *)
Lemma advance_offset off a : 0 <= off -> 1 <= a <= 512 - off mod 512 ->
  if decide ((off + a) mod 512 = 0) then a = 512 - off mod 512 /\ (off + a) / 512 = off / 512 + 1
  else a < 512 - off mod 512 /\ (off + a) / 512 = off / 512.
Proof.
  intros Hoff Ha. destruct (decide _) as [Hm|Hm]; Z.to_euclidean_division_equations; lia.
Qed.

Section File.
Context {D : Type} `{DL : DiskLaws D}.
Context (b : Bpb) (Hv : volume_ok b).

(** ** The sectors of a file *)

Definition spc : nat := Z.to_nat (sectors_per_cluster b).
Definition lba (c : Z) : Z := data_start_lba b + (c - 2) * sectors_per_cluster b.
Definition cluster_sectors (c : Z) : list Z := seqZ (lba c) (sectors_per_cluster b).
Definition file_sectors (cs : list Z) : list Z := mjoin (cluster_sectors <$> cs).
Definition content (d : D) (cs : list Z) : list Z := mjoin (sector d <$> file_sectors cs).

Lemma cluster_to_lba_ok c : 2 <= c < 65536 -> cluster_to_lba b c = Ret (lba c).
Proof.
  intros Hc. unfold cluster_to_lba, lba. destruct Hv.
  assert ((c - 2) * sectors_per_cluster b <= 65534 * sectors_per_cluster b) by nia.
  assert (0 <= root_sectors b) by (apply Z.div_pos; lia).
  assert (0 <= data_start_lba b) by nia.
  rewrite csub_le by lia. cbn [mbind outcome_mbind]. rewrite cmul_le by lia. cbn [mbind outcome_mbind].
  by rewrite cadd_le by lia.
Qed.

Lemma cluster_sectors_length cs : Forall (fun l => length l = spc) (cluster_sectors <$> cs).
Proof. apply Forall_fmap, Forall_true. intros c. cbn. unfold cluster_sectors. by rewrite length_seqZ. Qed.

Lemma file_sectors_lookup cs i c j : cs !! i = Some c -> 0 <= j < sectors_per_cluster b ->
  file_sectors cs !! (i * spc + Z.to_nat j)%nat = Some (lba c + j).
Proof.
  intros Hc Hj. unfold file_sectors.
  rewrite (lookup_mjoin spc _ i (cluster_sectors c)); [|apply cluster_sectors_length| |unfold spc; lia].
  - unfold cluster_sectors. apply lookup_seqZ. lia.
  - by rewrite list_lookup_fmap, Hc.
Qed.

Lemma elem_of_file_sectors cs l : l ∈ file_sectors cs <-> exists c, c ∈ cs /\ lba c <= l < lba c + sectors_per_cluster b.
Proof.
  unfold file_sectors, cluster_sectors. rewrite list_elem_of_join. split.
  - intros (ls & Hl & Hls). apply list_elem_of_fmap in Hls as (c & -> & Hc). apply elem_of_seqZ in Hl. eauto.
  - intros (c & Hc & Hl). exists (seqZ (lba c) (sectors_per_cluster b)). rewrite elem_of_seqZ. split; [lia|].
    apply list_elem_of_fmap. eauto.
Qed.

(** The sectors of distinct clusters are distinct. *)
Lemma lba_disjoint c c' l : lba c <= l < lba c + sectors_per_cluster b ->
  lba c' <= l < lba c' + sectors_per_cluster b -> c = c'.
Proof. unfold lba. destruct Hv. intros. nia. Qed.

Lemma file_sectors_not_table cs l : (forall c, c ∈ cs -> 2 <= c) -> l ∈ file_sectors cs -> ~ in_table b l.
Proof.
  intros Hcs (c & Hc & Hl)%elem_of_file_sectors. specialize (Hcs c Hc). unfold in_table, lba in *. destruct Hv.
  assert (0 <= root_sectors b) by (apply Z.div_pos; lia). nia.
Qed.

Lemma file_sectors_NoDup cs : NoDup cs -> NoDup (file_sectors cs).
Proof.
  induction cs as [|c cs IH]; intros Hnd; [constructor|].
  apply NoDup_cons in Hnd as [Hc Hnd]. unfold file_sectors. cbn. apply NoDup_app. split_and!; [apply NoDup_seqZ| |by apply IH].
  intros l Hl Hl2. apply elem_of_seqZ in Hl. apply elem_of_file_sectors in Hl2 as (c' & Hc' & Hl').
  by rewrite (lba_disjoint c c' l Hl Hl') in Hc.
Qed.

Lemma content_length (d : D) cs : length (content d cs) = (512 * (spc * length cs))%nat.
Proof.
  unfold content. rewrite (length_mjoin 512) by apply sector_lengths.
  rewrite length_fmap. unfold file_sectors. rewrite (length_mjoin spc) by apply cluster_sectors_length.
  rewrite length_fmap. lia.
Qed.

Lemma content_lookup (d : D) cs m l o : file_sectors cs !! m = Some l -> (o < 512)%nat ->
  content d cs !! (m * 512 + o)%nat = sector d l !! o.
Proof.
  intros Hm Ho. unfold content. apply lookup_mjoin; [apply sector_lengths| |done].
  by rewrite list_lookup_fmap, Hm.
Qed.

(** Every byte of the file is in one of its sectors. *)
Lemma content_index cs k : (k < 512 * (spc * length cs))%nat ->
  exists m l o, k = (m * 512 + o)%nat /\ (o < 512)%nat /\ file_sectors cs !! m = Some l.
Proof.
  intros Hk. exists (k / 512)%nat.
  assert (Hm : (k / 512 < length (file_sectors cs))%nat).
  { unfold file_sectors. rewrite (length_mjoin spc) by apply cluster_sectors_length. rewrite length_fmap.
    apply Nat.Div0.div_lt_upper_bound. lia. }
  destruct (lookup_lt_is_Some_2 _ _ Hm) as [l Hl]. exists l, (k mod 512)%nat.
  pose proof (Nat.div_mod k 512 ltac:(lia)). pose proof (Nat.mod_upper_bound k 512 ltac:(lia)).
  split_and!; [lia|lia|done].
Qed.

(** ** Positions *)

(** The descriptor's cluster and sector are those of its offset. *)
Definition positioned (cs : list Z) (s : FatFd) (i : nat) : Prop :=
  cs !! i = Some (cur_cluster s) /\ 0 <= cur_sector s < sectors_per_cluster b /\ 0 <= file_offset s /\
  file_offset s / 512 = Z.of_nat i * sectors_per_cluster b + cur_sector s.

(** Behind the last byte of the last cluster, the code goes back to its first sector. *)
Definition at_end (cs : list Z) (s : FatFd) : Prop :=
  last cs = Some (cur_cluster s) /\ cur_sector s = 0 /\
  file_offset s = 512 * (sectors_per_cluster b * Z.of_nat (length cs)).

Lemma positioned_sector cs s i : positioned cs s i ->
  file_sectors cs !! Z.to_nat (file_offset s / 512) = Some (lba (cur_cluster s) + cur_sector s).
Proof.
  intros (Hc & Hs & Ho & Hq). rewrite Hq.
  replace (Z.to_nat _) with (i * spc + Z.to_nat (cur_sector s))%nat; [by apply file_sectors_lookup|].
  unfold spc. destruct Hv. nia.
Qed.

(** The file has all bytes of the sector. *)
Lemma positioned_room cs s i (d : D) : positioned cs s i ->
  (Z.to_nat (file_offset s / 512) * 512 + 512 <= length (content d cs))%nat.
Proof.
  intros Hp. pose proof (lookup_lt_Some _ _ _ (positioned_sector cs s i Hp)) as Hlt. unfold content.
  rewrite (length_mjoin 512) by apply sector_lengths. rewrite length_fmap. lia.
Qed.

Lemma cur_lba_ok cs s i (d : D) : linked b d cs -> positioned cs s i ->
  cur_lba b s = Ret (lba (cur_cluster s) + cur_sector s).
Proof.
  intros Hl (Hc & Hs & _). pose proof (clusters_le b Hv).
  destruct (linked_nonzero b d cs (cur_cluster s) Hl) as [Hr _]; [by eapply list_elem_of_lookup_2|].
  unfold cur_lba. rewrite cluster_to_lba_ok by lia. cbn [mbind outcome_mbind].
  apply cadd_le. unfold lba. destruct Hv.
  assert ((cur_cluster s - 2) * sectors_per_cluster b <= 65278 * sectors_per_cluster b) by nia. lia.
Qed.

(** [n] bytes of the current sector are [n] bytes of the file. *)
Lemma sector_slice (d : D) cs s i n : positioned cs s i -> (Z.to_nat (file_offset s mod 512) + n <= 512)%nat ->
  take n (drop (Z.to_nat (file_offset s mod 512)) (sector d (lba (cur_cluster s) + cur_sector s))) =
  take n (drop (Z.to_nat (file_offset s)) (content d cs)).
Proof.
  intros Hp Hn. pose proof (positioned_sector cs s i Hp) as Hsec. destruct Hp as (_ & _ & Ho & _).
  apply list_eq. intros k. destruct (decide (k < n)%nat) as [Hk|Hk].
  - rewrite !lookup_take_lt, !lookup_drop by lia.
    rewrite <- (content_lookup d cs _ _ (Z.to_nat (file_offset s mod 512) + k) Hsec) by lia. f_equal.
    Z.to_euclidean_division_equations; lia.
  - by rewrite !lookup_take_ge by lia.
Qed.

(** ** Moving on *)

Section Moves.
Context (cs : list Z) (s : FatFd) (i : nat) (Hp : positioned cs s i).
Context (a : Z) (Ha : 1 <= a <= 512 - file_offset s mod 512).

Lemma stay_in_sector : (file_offset s + a) mod 512 <> 0 ->
  positioned cs (set_pos s (cur_cluster s) (cur_sector s) (file_offset s + a)) i.
Proof using Hp Ha.
  intros Hm. destruct Hp as (Hc & Hs & Ho & Hq). pose proof (advance_offset _ a Ho Ha) as Hadv.
  rewrite decide_False in Hadv by done. split_and!; cbn; try done; lia.
Qed.

Context (Hm : (file_offset s + a) mod 512 = 0).

Lemma next_sector : cur_sector s + 1 < sectors_per_cluster b ->
  positioned cs (set_pos s (cur_cluster s) (cur_sector s + 1) (file_offset s + a)) i.
Proof using Hp Ha Hm.
  intros Hlt. destruct Hp as (Hc & Hs & Ho & Hq). pose proof (advance_offset _ a Ho Ha) as Hadv.
  rewrite decide_True in Hadv by done. split_and!; cbn; try done; lia.
Qed.

Lemma next_cluster cs' c' : sectors_per_cluster b <= cur_sector s + 1 -> cs' !! S i = Some c' ->
  positioned cs' (set_pos s c' 0 (file_offset s + a)) (S i).
Proof using Hp Ha Hm.
  intros Hge Hc'. destruct Hp as (Hc & Hs & Ho & Hq). pose proof (advance_offset _ a Ho Ha) as Hadv.
  rewrite decide_True in Hadv by done. split_and!; cbn; try done; lia.
Qed.

Lemma reach_end : sectors_per_cluster b <= cur_sector s + 1 -> cs !! S i = None ->
  at_end cs (set_pos s (cur_cluster s) 0 (file_offset s + a)).
Proof using Hp Ha Hm.
  intros Hge Hnone. destruct Hp as (Hc & Hs & Ho & Hq). pose proof (advance_offset _ a Ho Ha) as Hadv.
  rewrite decide_True in Hadv by done. apply lookup_ge_None in Hnone. pose proof (lookup_lt_Some _ _ _ Hc).
  assert (length cs = S i) as Hlen by lia. split_and!; cbn; [|done|].
  - rewrite last_lookup, Hlen. done.
  - rewrite Hlen. pose proof (Z.div_mod (file_offset s + a) 512 ltac:(lia)). lia.
Qed.
End Moves.

(** ** Reading *)

Definition placed (cs : list Z) (s : FatFd) : Prop := at_end cs s \/ exists i, positioned cs s i.

(** Only the position differs. *)
Definition moved (s s' : FatFd) : Prop := s' = set_pos s (cur_cluster s') (cur_sector s') (file_offset s').

Lemma moved_trans s c q o s' : moved (set_pos s c q o) s' -> moved s s'.
Proof. unfold moved, set_pos. cbn. done. Qed.

Lemma moved_size s s' : moved s s' -> size s' = size s /\ moved (set_size s (size s')) s'.
Proof. unfold moved. intros ->. by destruct s. Qed.

Lemma file_read_loop (d : D) cs to_read fuel : linked b d cs -> forall done buf s i, positioned cs s i ->
  (done <= to_read <= length buf)%nat -> (to_read - done < fuel)%nat ->
  (Z.to_nat (file_offset s) + (to_read - done) <= length (content d cs))%nat ->
  file_offset s + Z.of_nat (to_read - done) <= u32_max ->
  exists s', read_loop fuel b d to_read done buf s =
      Ret (to_read, splice buf done (take (to_read - done) (drop (Z.to_nat (file_offset s)) (content d cs))), s') /\
    file_offset s' = file_offset s + Z.of_nat (to_read - done) /\ placed cs s' /\ moved s s'.
Proof.
  intros Hl. induction fuel as [|fuel IH]; intros done buf s i Hp Hd Hf Hcap Hmax; [lia|]. cbn [read_loop].
  destruct (Nat.ltb_spec done to_read) as [Hlt|Hge]; cbn [negb]; cycle 1.
  { replace (to_read - done)%nat with 0%nat by lia. replace done with to_read by lia. exists s.
    rewrite take_0, splice_nil. split_and!; [done|lia|right; eauto|by destruct s]. }
  rewrite (cur_lba_ok cs s i d Hl Hp). cbn [mbind outcome_mbind]. rewrite read_works.
  pose proof (Z.mod_pos_bound (file_offset s) 512 ltac:(lia)) as Hr.
  remember (Nat.min (512 - Z.to_nat (file_offset s mod 512)) (to_read - done)) as a eqn:Ea.
  assert (Ha : 1 <= Z.of_nat a <= 512 - file_offset s mod 512) by lia.
  rewrite (sector_slice d cs s i a Hp) by lia. rewrite cadd_le by lia. cbn [mbind outcome_mbind].
  cbn [cur_sector cur_cluster set_pos]. pose proof Hp as (Hc & Hs & Ho & Hq).
  set (part := take a (drop (Z.to_nat (file_offset s)) (content d cs))).
  assert (Hpart : length part = a) by (unfold part; rewrite length_take, length_drop; lia).
  (* the rest of the loop, from any place on the chain *)
  assert (Hrest : forall s1, file_offset s1 = file_offset s + Z.of_nat a -> moved s s1 -> (exists i, positioned cs s1 i) ->
    exists s', read_loop fuel b d to_read (done + a) (splice buf done part) s1 =
      Ret (to_read, splice buf done (take (to_read - done) (drop (Z.to_nat (file_offset s)) (content d cs))), s') /\
      file_offset s' = file_offset s + Z.of_nat (to_read - done) /\ placed cs s' /\ moved s s').
  { intros s1 Ho1 Hm1 [i1 Hp1].
    destruct (IH (done + a)%nat (splice buf done part) s1 i1 Hp1) as (s' & -> & Ho' & Hpl & Hm'); rewrite ?length_splice; try lia.
    exists s'. split_and!; [|lia|done|by rewrite Hm1 in Hm'].
    f_equal. f_equal. f_equal. rewrite Ho1. replace (done + a)%nat with (done + length part)%nat by lia.
    rewrite splice_app by lia. f_equal. rewrite Hpart.
    unfold part. rewrite <- (take_drop a (take (to_read - done) _)), take_take, Nat.min_l by lia. f_equal.
    rewrite skipn_firstn_comm, drop_drop. f_equal; [lia|f_equal; lia]. }
  destruct (Z.eqb_spec ((file_offset s + Z.of_nat a) mod 512) 0) as [Hm|Hm]; cycle 1.
  { apply Hrest; [done|done|]. exists i. by apply stay_in_sector. }
  rewrite cadd_le by (destruct Hv; unfold u8_max; lia). cbn [mbind outcome_mbind].
  destruct (Z.leb_spec (sectors_per_cluster b) (cur_sector s + 1)) as [Hge|Hlt']; cycle 1.
  { apply Hrest; [done|done|]. exists i. exact (next_sector cs s i Hp (Z.of_nat a) Ha Hm Hlt'). }
  rewrite (linked_next b Hv d cs i _ Hl Hc). cbn [mbind outcome_mbind].
  destruct (cs !! S i) as [c'|] eqn:Hc'.
  - destruct (linked_nonzero b d cs c' Hl) as [Hr' _]; [by eapply list_elem_of_lookup_2|]. pose proof (clusters_le b Hv).
    destruct (Z.eqb_spec c' 0xFFFF), (Z.eqb_spec c' 0); cbn [orb]; try lia.
    apply Hrest; [done|done|]. exists (S i). exact (next_cluster cs s i Hp (Z.of_nat a) Ha Hm cs c' Hge Hc').
  - cbn [Z.eqb orb]. cbn.
    pose proof (reach_end cs s i Hp (Z.of_nat a) Ha Hm Hge Hc') as Hend.
    assert (a = to_read - done)%nat as ->.
    { destruct Hend as (_ & _ & Hoff). cbn in Hoff. rewrite content_length in Hcap. unfold spc in Hcap. destruct Hv. nia. }
    exists (set_pos s (cur_cluster s) 0 (file_offset s + Z.of_nat (to_read - done))). split_and!; [|done|by left|done].
    f_equal. f_equal. f_equal. lia.
Qed.

(** ** Writing *)

(** [d'], [cs ++ cs'] and [s'] are the disk, the chain and the descriptor after
    the first [n] bytes of [buf] were written at the offset of [s]. *)
Record wrote (d : D) (cs : list Z) (s : FatFd) (buf : list Z) (n : nat) (d' : D) (cs' : list Z) (s' : FatFd) : Prop := {
  w_len : (n <= length buf)%nat;
  w_chain : linked b d' (cs ++ cs');
  w_fresh : forall c, c ∈ cs' -> entry b d 0 c = 0;
  w_in : forall k, (k < n)%nat -> content d' (cs ++ cs') !! (Z.to_nat (file_offset s) + k)%nat = buf !! k;
  w_out : forall k, (k < length (content d cs))%nat ->
    ~ (Z.to_nat (file_offset s) <= k < Z.to_nat (file_offset s) + n)%nat ->
    content d' (cs ++ cs') !! k = content d cs !! k;
  w_table : forall k c, 0 <= k < fat_count b -> 0 <= c < clusters b -> c ∉ cs ++ cs' -> entry b d' k c = entry b d k c;
  w_disk : forall l, ~ in_table b l -> l ∉ file_sectors (cs ++ cs') -> sector d' l = sector d l;
  w_offset : file_offset s' = file_offset s + Z.of_nat n;
  w_size : size s' = Z.max (size s) (file_offset s');
  w_moved : moved (set_size s (size s')) s';
}.

Lemma content_lt_app (d d' : D) cs cs' k : (k < length (content d cs))%nat -> (k < length (content d' (cs ++ cs')))%nat.
Proof. rewrite !content_length, length_app. nia. Qed.

Lemma wrote_trans d cs s buf n d1 cs1 s1 m d2 cs2 s2 : 0 <= file_offset s ->
  wrote d cs s buf n d1 cs1 s1 -> wrote d1 (cs ++ cs1) s1 (drop n buf) m d2 cs2 s2 ->
  wrote d cs s buf (n + m) d2 (cs1 ++ cs2) s2.
Proof.
  intros Hoff H1 H2. pose proof (w_offset _ _ _ _ _ _ _ _ H1) as Ho1.
  pose proof (w_chain _ _ _ _ _ _ _ _ H2) as Hl2. rewrite <- app_assoc in Hl2.
  pose proof (w_len _ _ _ _ _ _ _ _ H1). pose proof (w_len _ _ _ _ _ _ _ _ H2) as Hlen2. rewrite length_drop in Hlen2.
  split.
  - lia.
  - done.
  - intros c [Hc|Hc]%elem_of_app; [by eapply w_fresh|].
    pose proof (w_fresh _ _ _ _ _ _ _ _ H2 c Hc) as Hz. rewrite <- (w_table _ _ _ _ _ _ _ _ H1); [done|destruct Hv; lia| |].
    + destruct (linked_nonzero b d2 _ c Hl2) as [? _]; [|lia]. rewrite !elem_of_app. auto.
    + intros Hin. by destruct (linked_nonzero b d1 _ c (w_chain _ _ _ _ _ _ _ _ H1) Hin).
  - intros k Hk. rewrite app_assoc. destruct (decide (k < n)%nat) as [Hn|Hn].
    + pose proof (w_in _ _ _ _ _ _ _ _ H1 k Hn) as Hin.
      rewrite (w_out _ _ _ _ _ _ _ _ H2); [done| |lia].
      apply lookup_lt_is_Some_1. rewrite Hin. apply lookup_lt_is_Some_2. lia.
    + pose proof (w_in _ _ _ _ _ _ _ _ H2 (k - n)%nat ltac:(lia)) as Hin. rewrite lookup_drop in Hin.
      replace (n + (k - n))%nat with k in Hin by lia. rewrite <- Hin. f_equal. lia.
  - intros k Hk Hout. rewrite app_assoc.
    rewrite (w_out _ _ _ _ _ _ _ _ H2); [|by eapply content_lt_app|lia].
    apply (w_out _ _ _ _ _ _ _ _ H1); [done|lia].
  - intros k c Hk Hc Hni. rewrite app_assoc in Hni. rewrite (w_table _ _ _ _ _ _ _ _ H2) by done.
    apply (w_table _ _ _ _ _ _ _ _ H1); [done|done|]. intros ?. apply Hni. apply elem_of_app. by left.
  - intros l Ht Hl. rewrite app_assoc in Hl. rewrite (w_disk _ _ _ _ _ _ _ _ H2) by done.
    apply (w_disk _ _ _ _ _ _ _ _ H1); [done|]. intros (c & Hc & Hr)%elem_of_file_sectors. apply Hl.
    apply elem_of_file_sectors. exists c. split; [|done]. apply elem_of_app. by left.
  - rewrite (w_offset _ _ _ _ _ _ _ _ H2), Ho1. lia.
  - rewrite (w_size _ _ _ _ _ _ _ _ H2), (w_size _ _ _ _ _ _ _ _ H1). rewrite (w_offset _ _ _ _ _ _ _ _ H2). lia.
  - pose proof (w_moved _ _ _ _ _ _ _ _ H1) as M1. pose proof (w_moved _ _ _ _ _ _ _ _ H2) as M2.
    unfold moved, set_pos, set_size in *. cbn in *. rewrite M1 in M2. cbn in M2. exact M2.
Qed.

(** The file after its current sector was replaced by [sec] with [src] at the
    offset, where [sec] is the old sector elsewhere. *)
Lemma content_after_write (d d' : D) cs s i sec src k :
  let off := Z.to_nat (file_offset s) in
  let r := Z.to_nat (file_offset s mod 512) in
  let l := lba (cur_cluster s) + cur_sector s in
  positioned cs s i -> NoDup cs -> length sec = 512%nat -> (r + length src <= 512)%nat ->
  (forall o, ~ (r <= o < r + length src)%nat -> sec !! o = sector d l !! o) ->
  (forall x, sector d' x = if decide (x = l) then splice sec r src else sector d x) ->
  (k < length (content d cs))%nat ->
  content d' cs !! k = if decide (off <= k < off + length src)%nat then src !! (k - off)%nat else content d cs !! k.
Proof.
  intros off r l Hp Hnd Hlen Hsrc Hold Hd' Hk. rewrite content_length in Hk.
  destruct (content_index cs k Hk) as (m & x & o & -> & Ho & Hx).
  rewrite !(content_lookup _ cs m x o Hx Ho), Hd'. pose proof (positioned_sector cs s i Hp) as Hq.
  destruct Hp as (_ & _ & Hoff & _). pose proof (Z.div_mod (file_offset s) 512 ltac:(lia)).
  pose proof (Z.div_pos (file_offset s) 512 ltac:(lia) ltac:(lia)).
  pose proof (Z.mod_pos_bound (file_offset s) 512 ltac:(lia)).
  destruct (decide (x = l)) as [->|Hne].
  - assert (m = Z.to_nat (file_offset s / 512)) as ->.
    { eapply NoDup_lookup; [by apply file_sectors_NoDup|done|done]. }
    destruct (decide _) as [Hd|Hd].
    + rewrite lookup_splice_in by lia. f_equal. lia.
    + rewrite lookup_splice_out by lia. apply Hold. lia.
  - rewrite decide_False; [done|]. intros Hd.
    assert (m = Z.to_nat (file_offset s / 512)) as -> by lia. rewrite Hx in Hq. by injection Hq.
Qed.

(** Bytes written to the current sector. *)
Lemma write_sector_wrote (d : D) cs s i buf (sec : list Z) :
  linked b d cs -> positioned cs s i -> Forall is_byte buf ->
  let r := Z.to_nat (file_offset s mod 512) in
  let a := Nat.min (512 - r) (length buf) in
  let l := lba (cur_cluster s) + cur_sector s in
  is_sector sec -> (forall o, ~ (r <= o < r + a)%nat -> sec !! o = sector d l !! o) ->
  let off := file_offset s + Z.of_nat a in
  exists d', sector_write d l (splice sec r (take a buf)) = (true, d') /\
    wrote d cs s buf a d' [] (set_size (set_pos s (cur_cluster s) (cur_sector s) off) (Z.max (size s) off)) /\
    (forall k c, 0 <= k < fat_count b -> 0 <= c < clusters b -> entry b d' k c = entry b d k c).
Proof.
  intros Hl Hp Hbuf r a l Hsec Hold off.
  destruct (sector_write d l (splice sec r (take a buf))) as [ok d'] eqn:Hw.
  pose proof (write_works d l (splice sec r (take a buf))) as Hok. rewrite Hw in Hok. cbn in Hok. subst ok.
  pose proof (Z.mod_pos_bound (file_offset s) 512 ltac:(lia)) as Hr. destruct Hsec as [Hlen Hbytes].
  assert (Hta : length (take a buf) = a) by (rewrite length_take; lia).
  assert (Hsec' : is_sector (splice sec r (take a buf))).
  { split; [rewrite length_splice; lia|]. unfold splice.
    apply Forall_app_2; [by apply Forall_take|]. apply Forall_app_2; [by apply Forall_take|by apply Forall_drop]. }
  assert (Hd' : forall x, sector d' x = if decide (x = l) then splice sec r (take a buf) else sector d x).
  { intros x. pose proof (read_after_write d l _ x Hsec') as Hrw. by rewrite Hw in Hrw. }
  assert (Hin : l ∈ file_sectors cs) by (eapply list_elem_of_lookup_2, positioned_sector; eauto).
  assert (Hnt : ~ in_table b l).
  { eapply file_sectors_not_table; eauto. intros c Hc. by destruct (linked_nonzero b d cs c Hl Hc) as [[? _] _]. }
  assert (Htab : forall k c, 0 <= k < fat_count b -> 0 <= c < clusters b -> entry b d' k c = entry b d k c).
  { intros k c Hk Hc. unfold entry. rewrite Hd', decide_False; [done|]. intros Heq. destruct Hnt. rewrite <- Heq.
    unfold in_table, tab_lba, clusters in *.
    assert (0 <= c / 256 < fat_size_16 b) by (split; [apply Z.div_pos|apply Z.div_lt_upper_bound]; lia).
    destruct Hv. nia. }
  assert (Hcont : forall k, (k < length (content d cs))%nat ->
    content d' cs !! k = if decide (Z.to_nat (file_offset s) <= k < Z.to_nat (file_offset s) + a)%nat
                         then buf !! (k - Z.to_nat (file_offset s))%nat else content d cs !! k).
  { intros k Hk. rewrite (content_after_write d d' cs s i sec (take a buf)), Hta by (rewrite ?Hta; first [done|apply Hl|lia]).
    destruct (decide _); [|done]. by rewrite lookup_take_lt by lia. }
  pose proof (positioned_sector cs s i Hp) as Hq. pose proof Hp as (_ & _ & Hoff & _).
  exists d'. split_and!; [done| |done]. split; rewrite ?app_nil_r; cbn; try done.
  - lia.
  - apply (linked_entries b d); [|done]. intros c Hc. apply Htab; [destruct Hv; lia|].
    destruct (linked_nonzero b d cs c Hl Hc). lia.
  - intros c Hc. by apply not_elem_of_nil in Hc.
  - intros k Hk. rewrite Hcont; [rewrite decide_True by lia; f_equal; lia|].
    pose proof (positioned_room cs s i d Hp). pose proof (Z.div_mod (file_offset s) 512 ltac:(lia)). lia.
  - intros k Hk Hout. by rewrite Hcont, decide_False.
  - intros k c Hk Hc _. by apply Htab.
  - intros x _ Hx. rewrite Hd', decide_False; [done|]. by intros ->.
Qed.

(** No cluster is free. *)
Definition full (d : D) : Prop := forall c, 2 <= c < clusters b -> entry b d 0 c <> 0.

Lemma content_ext (d d' : D) cs : (forall l, l ∈ file_sectors cs -> sector d' l = sector d l) -> content d' cs = content d cs.
Proof. intros Hs. unfold content. f_equal. apply list_fmap_ext. intros i l Hl. apply Hs. by eapply list_elem_of_lookup_2. Qed.

Lemma content_app (d : D) cs cs' : content d (cs ++ cs') = content d cs ++ content d cs'.
Proof. unfold content, file_sectors. by rewrite fmap_app, join_app, fmap_app, join_app. Qed.

(** A free cluster added to the end of the chain: no byte of the file changes. *)
Lemma grow_wrote (d d1 d2 : D) cs s s' buf new : linked b d cs -> last cs = Some (cur_cluster s) ->
  2 <= new < clusters b -> entry b d 0 new = 0 -> set_entry b d d1 new 0xFFFF -> set_entry b d1 d2 (cur_cluster s) new ->
  file_offset s' = file_offset s -> file_offset s <= size s -> moved s s' -> wrote d cs s buf 0 d2 [new] s'.
Proof.
  intros Hl Hlast Hnew Hz [He1 Ho1] [He2 Ho2] Hoff Hsz Hm.
  assert (Hnin : new ∉ cs) by (intros Hin; by destruct (linked_nonzero b d cs new Hl Hin)).
  assert (Hcur : cur_cluster s ∈ cs) by (rewrite last_lookup in Hlast; by eapply list_elem_of_lookup_2).
  assert (Hsec : forall l, ~ in_table b l -> sector d2 l = sector d l) by (intros l Hnt; by rewrite Ho2, Ho1).
  assert (Hent : forall k c, 0 <= k < fat_count b -> 0 <= c < clusters b -> c <> new -> c <> cur_cluster s ->
    entry b d2 k c = entry b d k c) by (intros; by rewrite He2, decide_False, He1, decide_False by done).
  assert (Hrange : forall c, c ∈ cs -> 2 <= c < clusters b) by (intros c Hc; by destruct (linked_nonzero b d cs c Hl Hc)).
  assert (0 <= 0 < fat_count b) as H0 by (destruct Hv; lia). pose proof (Hrange _ Hcur).
  split.
  - lia.
  - apply (linked_snoc b d d2 cs (cur_cluster s)); try done.
    + intros x Hx Hne. pose proof (Hrange x Hx). apply Hent; [done|lia|by intros ->|done].
    + rewrite He2 by lia. by rewrite decide_True.
    + rewrite He2, decide_False, He1, decide_True by (first [lia|done|by intros ->]). lia.
  - by intros c ->%list_elem_of_singleton.
  - intros; lia.
  - intros k Hk _. rewrite content_app, lookup_app_l by (by rewrite content_length in *).
    f_equal. apply content_ext. intros l Hx. apply Hsec. eapply file_sectors_not_table; [|done].
    intros c Hc. by destruct (Hrange c Hc).
  - intros k c Hk Hc Hni. rewrite elem_of_app, list_elem_of_singleton in Hni. apply Hent; auto. intros ->. auto.
  - auto.
  - lia.
  - destruct (moved_size s s' Hm) as [-> _]. lia.
  - by apply moved_size.
Qed.

Lemma stay_wrote (d : D) cs s s' buf : linked b d cs -> file_offset s' = file_offset s -> file_offset s <= size s ->
  moved s s' -> wrote d cs s buf 0 d [] s'.
Proof.
  intros Hl Hoff Hsz Hm. split; rewrite ?app_nil_r; try done; try (intros; lia).
  - intros c Hc. by apply not_elem_of_nil in Hc.
  - destruct (moved_size s s' Hm) as [-> _]. lia.
  - by apply moved_size.
Qed.

(** The position after the [a] bytes that were written at [s]. *)
Lemma write_advance_spec (d : D) cs s i a sz more buf : linked b d cs -> positioned cs s i ->
  1 <= a <= 512 - file_offset s mod 512 -> file_offset s + a <= sz ->
  let s1 := set_size (set_pos s (cur_cluster s) (cur_sector s) (file_offset s + a)) sz in
  exists go s2 d2 cs2, write_advance b d more s1 = Ret (go, s2, d2) /\ wrote d cs s1 buf 0 d2 cs2 s2 /\
    if go : bool then (more = true -> exists i', positioned (cs ++ cs2) s2 i') /\ placed (cs ++ cs2) s2
    else full d2 /\ placed (cs ++ cs2) s2.
Proof.
  intros Hl Hp Ha Hsz s1. unfold write_advance. cbn [file_offset s1 set_size set_pos cur_sector cur_cluster].
  pose proof Hp as (Hc & Hs & Ho & Hq).
  assert (Hstay : forall c q, wrote d cs s1 buf 0 d [] (set_pos s1 c q (file_offset s + a))) by (intros; by apply stay_wrote).
  destruct (Z.eqb_spec ((file_offset s + a) mod 512) 0) as [Hm|Hm]; cycle 1.
  { exists true, s1, d, []. rewrite app_nil_r. pose proof (stay_in_sector cs s i Hp a Ha Hm) as Hp1.
    split_and!; [done|by apply stay_wrote|intros _; by exists i|right; by exists i]. }
  rewrite cadd_le by (destruct Hv; unfold u8_max; lia). cbn [mbind outcome_mbind].
  destruct (Z.leb_spec (sectors_per_cluster b) (cur_sector s + 1)) as [Hge|Hlt]; cycle 1.
  { exists true, (set_pos s1 (cur_cluster s) (cur_sector s + 1) (file_offset s + a)), d, []. rewrite app_nil_r.
    pose proof (next_sector cs s i Hp a Ha Hm Hlt) as Hp1.
    split_and!; [done|apply Hstay|intros _; by exists i|right; by exists i]. }
  rewrite (linked_next b Hv d cs i _ Hl Hc). cbn [mbind outcome_mbind]. pose proof (clusters_le b Hv).
  destruct (cs !! S i) as [c'|] eqn:Hc'.
  { destruct (linked_nonzero b d cs c' Hl) as [Hr' _]; [by eapply list_elem_of_lookup_2|].
    destruct (Z.leb_spec 0xFFF8 c'), (Z.eqb_spec c' 0); cbn [orb]; try lia.
    exists true, (set_pos s1 c' 0 (file_offset s + a)), d, []. rewrite app_nil_r.
    pose proof (next_cluster cs s i Hp a Ha Hm cs c' Hge Hc') as Hp1.
    split_and!; [done|apply Hstay|intros _; by exists (S i)|right; by exists (S i)]. }
  cbn [Z.leb Z.compare Pos.compare Pos.compare_cont orb].
  pose proof (reach_end cs s i Hp a Ha Hm Hge Hc') as Hend.
  destruct more; cycle 1.
  { exists true, (set_pos s1 (cur_cluster s) 0 (file_offset s + a)), d, []. rewrite app_nil_r.
    split_and!; [done|apply Hstay|done|by left]. }
  destruct (fat_alloc_cluster_spec b Hv d) as (r & d1 & -> & Hr). cbn [mbind outcome_mbind].
  destruct Hr as [(-> & -> & Hfull)|(Hr & Hz & _ & Hset)].
  { exists false, (set_pos s1 (cur_cluster s) 0 (file_offset s + a)), d, []. rewrite app_nil_r.
    split_and!; [done|apply Hstay|intros c Hcc; apply Hfull; lia|by left]. }
  destruct (Z.eqb_spec r 0); [lia|].
  destruct (linked_nonzero b d cs (cur_cluster s) Hl) as [Hcur _]; [by eapply list_elem_of_lookup_2|].
  destruct (fat_write_entry_sets b Hv (cur_cluster s) r d1) as (d2 & -> & Hset2); [lia|lia|]. cbn [mbind outcome_mbind].
  exists true, (set_pos s1 r 0 (file_offset s + a)), d2, [r]. destruct Hend as (Hlast & _).
  assert (Hp2 : positioned (cs ++ [r]) (set_pos s1 r 0 (file_offset s + a)) (S i)).
  { apply (next_cluster cs s i Hp a Ha Hm (cs ++ [r]) r Hge). apply lookup_ge_None in Hc'. pose proof (lookup_lt_Some _ _ _ Hc).
    rewrite lookup_app_r by lia. by replace (S i - length cs)%nat with 0%nat by lia. }
  split_and!; [done| |intros _; by exists (S i)|right; by exists (S i)].
  by eapply grow_wrote.
Qed.

Lemma is_sector_zeros : is_sector (zeros 512).
Proof. split; [done|]. apply Forall_replicate. unfold is_byte. lia. Qed.

Lemma grow_size s off : (if size s <? off then set_size s off else s) = set_size s (Z.max (size s) off).
Proof. destruct (Z.ltb_spec (size s) off); [by rewrite Z.max_r by lia|]. rewrite Z.max_l by lia. by destruct s. Qed.

(** The sector the loop builds on: the old one, unless all of it is replaced. *)
Lemma write_base (d : D) l r a : (r + a <= 512)%nat ->
  exists sec, (if (0 <? r)%nat || (a <? 512)%nat then sector_read d l else Some (zeros 512)) = Some sec /\ is_sector sec /\
    forall o, ~ (r <= o < r + a)%nat -> sec !! o = sector d l !! o.
Proof.
  intros Hra. destruct (Nat.ltb_spec 0 r), (Nat.ltb_spec a 512); cbn [orb];
    try (exists (sector d l); split_and!; [apply read_works|apply sectors_are_512_bytes..|done]).
  exists (zeros 512). split; [done|]. split; [apply is_sector_zeros|]. intros o Ho.
  rewrite !lookup_ge_None_2; [done| |by cbn; lia].
  destruct (sectors_are_512_bytes d l) as [-> _]. lia.
Qed.

Lemma file_write_loop fuel : forall (d : D) cs done buf s i, linked b d cs -> positioned cs s i -> Forall is_byte buf ->
  (length buf < fuel)%nat -> file_offset s <= size s -> file_offset s + Z.of_nat (length buf) <= u32_max ->
  exists n d' cs' s', write_loop fuel b d done buf s = Ret ((done + n)%nat, s', d') /\
    wrote d cs s buf n d' cs' s' /\ placed (cs ++ cs') s' /\ ((n < length buf)%nat -> full d').
Proof.
  induction fuel as [|fuel IH]; intros d cs done buf s i Hl Hp Hbytes Hf Hsz Hmax; [lia|]. cbn [write_loop].
  destruct (bool_decide_reflect (buf = [])) as [->|Hne].
  { exists 0%nat, d, [], s. rewrite Nat.add_0_r, app_nil_r. split_and!; [done| |right; eauto|cbn; lia].
    apply stay_wrote; auto. by destruct s. }
  pose proof Hp as (Hc & Hs & Ho & Hq).
  destruct (linked_nonzero b d cs (cur_cluster s) Hl) as [Hcur _]; [by eapply list_elem_of_lookup_2|].
  unfold write_first. destruct (Z.ltb_spec (cur_cluster s) 2); [lia|]. cbn [mbind outcome_mbind].
  rewrite (cur_lba_ok cs s i d Hl Hp). cbn [mbind outcome_mbind].
  pose proof (Z.mod_pos_bound (file_offset s) 512 ltac:(lia)) as Hr.
  assert (length buf <> 0)%nat by (by destruct buf).
  destruct (write_base d (lba (cur_cluster s) + cur_sector s) (Z.to_nat (file_offset s mod 512))
    (Nat.min (512 - Z.to_nat (file_offset s mod 512)) (length buf))) as (sec & -> & Hsec & Hold); [lia|].
  destruct (write_sector_wrote d cs s i buf sec Hl Hp Hbytes Hsec Hold) as (d1 & -> & Hw1 & _). cbn [negb].
  remember (Nat.min (512 - Z.to_nat (file_offset s mod 512)) (length buf)) as a eqn:Ea.
  rewrite cadd_le by lia. cbn [mbind outcome_mbind]. rewrite grow_size.
  pose proof (w_chain _ _ _ _ _ _ _ _ Hw1) as Hl1. rewrite app_nil_r in Hl1.
  destruct (write_advance_spec d1 cs s i (Z.of_nat a) (Z.max (size s) (file_offset s + Z.of_nat a))
    (negb (bool_decide (drop a buf = []))) (drop a buf) Hl1 Hp) as (go & s2 & d2 & cs2 & Hadv & Hw2 & Hgo); [lia|lia|].
  cbn [size set_pos] in *. rewrite Hadv. cbn [mbind outcome_mbind].
  assert (Hw : wrote d cs s buf a d2 cs2 s2).
  { rewrite <- (Nat.add_0_r a). eapply (wrote_trans d cs s buf a d1 [] _ 0 d2 cs2); [done|exact Hw1|].
    by rewrite app_nil_r. }
  destruct go; cycle 1.
  { exists a, d2, cs2, s2. destruct Hgo. split_and!; auto. }
  destruct Hgo as [Hpos Hplaced]. destruct (bool_decide_reflect (drop a buf = [])) as [Hnil|Hmore]; cbn [negb] in *.
  - rewrite Hnil. assert (a = length buf) as -> by (apply (f_equal length) in Hnil; rewrite length_drop in Hnil; cbn in Hnil; lia).
    destruct fuel; [lia|]. cbn [write_loop bool_decide]. rewrite bool_decide_eq_true_2 by done.
    exists (length buf), d2, cs2, s2. split_and!; auto. lia.
  - destruct (Hpos eq_refl) as [i' Hp2]. pose proof (w_offset _ _ _ _ _ _ _ _ Hw) as Hoff. pose proof (w_size _ _ _ _ _ _ _ _ Hw).
    destruct (IH d2 (cs ++ cs2) (done + a)%nat (drop a buf) s2 i' (w_chain _ _ _ _ _ _ _ _ Hw) Hp2) as (n & d' & cs' & s' & -> & Hw' & Hpl & Hfull);
      rewrite ?length_drop; try lia; [by apply Forall_drop|].
    exists (a + n)%nat, d', (cs2 ++ cs'), s'. rewrite Nat.add_assoc, app_assoc.
    split_and!; [done|by eapply wrote_trans|done|]. rewrite length_drop in Hfull. intros. apply Hfull. lia.
Qed.
End File.
End fat_file.
