(* ===== verification/FatSpec.v ===== *)
(** * What the FAT16 calls promise

    [read_fd] and [write_fd] on a well-formed file of a disk without errors, the
    round trip of short names, and the calls that do not keep the promise of a
    file: a write behind a full last cluster, a seek, a second [mkdir]. *)

From stdpp Require Import base list gmap strings list_numbers.
From Stdlib Require Import ZArith Lia.
From S2P Require Import Prelude RamFs FdTable Mbr Fat FatOps FatTable FatFile.

Local Open Scope Z_scope.

Module fat_spec.
Import fat fatfs fat_table fat_file.

(** ** Fields of a spliced sector *)

Lemma byte_splice (buf src : list Z) (i : Z) (k : Z) : 0 <= i <= Z.of_nat (length buf) ->
  0 <= k < Z.of_nat (length src) -> byte (splice buf (Z.to_nat i) src) (i + k) = default 0 (src !! Z.to_nat k).
Proof.
  intros Hi Hk. unfold byte. rewrite lookup_splice_in by lia. do 2 f_equal. lia.
Qed.

Lemma u16_bytes_sound x : 0 <= x < 65536 -> Forall is_byte (u16_bytes x).
Proof.
  intros Hx. unfold u16_bytes. rewrite land_255, shiftr_8. unfold is_byte.
  pose proof (Z.mod_pos_bound x 256 ltac:(lia)). pose proof (Z.div_pos x 256 ltac:(lia) ltac:(lia)).
  pose proof (Z.div_lt_upper_bound x 256 256 ltac:(lia) ltac:(lia)). repeat constructor; lia.
Qed.

Lemma u32_bytes_sound x : Forall is_byte (u32_bytes x).
Proof.
  unfold u32_bytes. rewrite !land_255. unfold is_byte.
  pose proof (fun y => Z.mod_pos_bound y 256 ltac:(lia)) as Hm. repeat constructor; apply Hm.
Qed.

(** The size and first cluster of an entry, stored in one go, are read back. *)
Lemma entry_fields buf off fc sz : length buf = 512%nat -> 0 <= off <= 480 -> 0 <= fc < 65536 -> 0 <= sz < 2 ^ 32 ->
  let buf' := splice buf (Z.to_nat (off + 26)) (u16_bytes fc ++ u32_bytes sz) in
  u16_at buf' (off + 26) = fc /\ u32_at buf' (off + 28) = sz.
Proof.
  intros Hlen Hoff Hfc Hsz buf'.
  assert (Hb : forall j, 26 <= j < 32 -> byte buf' (off + j) = default 0 ((u16_bytes fc ++ u32_bytes sz) !! Z.to_nat (j - 26))).
  { intros j Hj. replace (off + j) with (off + 26 + (j - 26)) by lia. apply byte_splice; cbn; lia. }
  unfold u32_at, u16_at.
  replace (off + 26 + 1) with (off + 27) by lia. replace (off + 28 + 1) with (off + 29) by lia.
  replace (off + 28 + 2 + 1) with (off + 31) by lia. replace (off + 28 + 2) with (off + 30) by lia.
  rewrite !Hb by lia. unfold u16_bytes, u32_bytes.
  change (Z.to_nat (26 - 26)) with 0%nat. change (Z.to_nat (27 - 26)) with 1%nat. change (Z.to_nat (28 - 26)) with 2%nat.
  change (Z.to_nat (29 - 26)) with 3%nat. change (Z.to_nat (30 - 26)) with 4%nat. change (Z.to_nat (31 - 26)) with 5%nat.
  cbn [app lookup list_lookup from_option id]. rewrite !land_255, shiftr_8, !Z.shiftr_div_pow2 by lia.
  change (2 ^ 8) with 256. change (2 ^ 16) with 65536. change (2 ^ 24) with 16777216. change (2 ^ 32) with 4294967296 in Hsz.
  split; Z.to_euclidean_division_equations; lia.
Qed.

Lemma splice_all {A} (l src : list A) : length src = length l -> splice l 0 src = src.
Proof. intros Hlen. unfold splice. rewrite take_0, drop_ge by lia. cbn. by rewrite app_nil_r. Qed.

Section Calls.
Context {D : Type} `{DL : DiskLaws D}.
Context (f : FatFs D) (fd : Z) (s : FatFd) (cs : list Z).
Context (Hready : ready f = true) (Hvol : volume_ok (bpb f)) (Hfd : is_fat_fd fd = true).
Context (Hs : fds f !! slot_of fd = Some s) (Hact : active s = true) (Hl : linked (bpb f) (disk f) cs).

(** The directory entry of the file is in a sector of its own: neither of the
    table nor of the file nor of a free cluster. *)
Definition entry_apart : Prop :=
  let l := dir_entry_sector s in
  0 < l /\ ~ in_table (bpb f) l /\ 0 <= dir_entry_offset s <= 480 /\
  (forall c, 2 <= c -> lba (bpb f) c <= l < lba (bpb f) c + sectors_per_cluster (bpb f) ->
    (c ∉ cs) /\ entry (bpb f) (disk f) 0 c <> 0).

(** C27: On a disk without errors, reading an open file whose position belongs to
    its cluster chain never aborts and returns exactly the next bytes: as many as
    the buffer takes and the file still has, copied to the front of the buffer.
    The offset advances by that number, and the position still belongs to the
    chain. Nothing else of the driver changes. *)
Theorem fat_read_returns_the_next_bytes buf :
  placed (bpb f) cs s -> 0 <= file_offset s -> 0 <= size s <= u32_max ->
  size s <= Z.of_nat (length (content (bpb f) (disk f) cs)) ->
  let n := Nat.min (length buf) (Z.to_nat (size s - file_offset s)) in
  exists s', read_fd f fd buf =
      Ret (Z.of_nat n, splice buf 0 (take n (drop (Z.to_nat (file_offset s)) (content (bpb f) (disk f) cs))),
           set_fds f (<[slot_of fd := s']> (fds f))) /\
    file_offset s' = file_offset s + Z.of_nat n /\ placed (bpb f) cs s' /\ moved s s'.
Proof using All.
  intros Hp Hoff Hsz Hcap n. unfold read_fd. rewrite Hready, Hfd. cbn [negb orb].
  assert (idx (fds f) (slot_of fd) = Ret s) as -> by (by apply idx_Ret). cbn [mbind outcome_mbind]. rewrite Hact. cbn [negb].
  unfold sat_sub. destruct (Nat.eqb_spec (Z.to_nat (Z.max 0 (size s - file_offset s))) 0) as [Hz|Hz].
  { assert (n = 0)%nat as -> by lia. exists s. rewrite take_0, splice_nil, list_insert_id by done.
    split_and!; [by destruct f|lia|done|by destruct s]. }
  replace (Z.to_nat (Z.max 0 (size s - file_offset s))) with (Z.to_nat (size s - file_offset s)) in * by lia. fold n.
  destruct Hp as [(_ & _ & Hend)|[i Hp]].
  { rewrite content_length in Hcap. unfold spc in Hcap. destruct Hvol. nia. }
  destruct (file_read_loop (bpb f) Hvol (disk f) cs n (S n) Hl 0 buf s i Hp) as (s' & -> & Ho & Hpl & Hm); try lia.
  rewrite Nat.sub_0_r in *. exists s'. by split_and!.
Qed.

(** The directory entry after the size and first cluster of [s'] were stored. *)
Lemma flush_stores (d : D) s' : 0 < dir_entry_sector s' -> 0 <= dir_entry_offset s' <= 480 ->
  0 <= first_cluster s' < 65536 -> 0 <= size s' < 2 ^ 32 ->
  let d' := flush_dir_size d s' in
  let e := entry_at (sector d' (dir_entry_sector s')) (dir_entry_sector s') (dir_entry_offset s') in
  (forall l, l <> dir_entry_sector s' -> sector d' l = sector d l) /\
  e_first_cluster e = first_cluster s' /\ e_size e = size s'.
Proof using DL.
  intros Hl0 Hoff Hfc Hsz d' e. destruct (sectors_are_512_bytes d (dir_entry_sector s')) as [Hlen Hbytes].
  set (buf := splice (sector d (dir_entry_sector s')) (Z.to_nat (dir_entry_offset s' + 26))
                     (u16_bytes (first_cluster s') ++ u32_bytes (size s'))).
  assert (Hd : d' = (sector_write d (dir_entry_sector s') buf).2).
  { unfold d', flush_dir_size, patch. destruct (Z.eqb_spec (dir_entry_sector s') 0); [lia|]. by rewrite read_works. }
  assert (Hsec : is_sector buf).
  { split; [unfold buf; rewrite length_splice; [done|]; cbn; lia|]. unfold buf, splice.
    repeat apply Forall_app_2; [by apply Forall_take|by apply u16_bytes_sound|apply u32_bytes_sound|by apply Forall_drop]. }
  split.
  - intros l Hne. rewrite Hd, read_after_write by done. by rewrite decide_False.
  - unfold e. rewrite Hd, read_after_write by done. rewrite decide_True by done. by apply entry_fields.
Qed.

(** Storing them changes neither the file, with the clusters it got, nor the table. *)
Lemma flush_apart (d1 d2 : D) cs' : entry_apart -> linked (bpb f) d1 (cs ++ cs') ->
  (forall c, c ∈ cs' -> entry (bpb f) (disk f) 0 c = 0) ->
  (forall l, l <> dir_entry_sector s -> sector d2 l = sector d1 l) ->
  content (bpb f) d2 (cs ++ cs') = content (bpb f) d1 (cs ++ cs') /\
  (forall k c, 0 <= k < fat_count (bpb f) -> 0 <= c < clusters (bpb f) -> entry (bpb f) d2 k c = entry (bpb f) d1 k c).
Proof using DL Hl Hvol.
  intros (_ & Hnt & _ & Hap) Hl1 Hfresh Hsame.
  assert (Hne : forall l, l ∈ file_sectors (bpb f) (cs ++ cs') \/ in_table (bpb f) l -> l <> dir_entry_sector s).
  { intros l [(c & [Hc|Hc]%elem_of_app & Hr)%elem_of_file_sectors|Hin] ->; [| |done].
    - destruct (linked_nonzero _ (disk f) cs c Hl Hc) as [[? _] _]. by destruct (Hap c).
    - destruct (linked_nonzero _ d1 (cs ++ cs') c Hl1) as [[? _] _]; [apply elem_of_app; by right|].
      destruct (Hap c) as [_ Hz]; [done|done|]. by destruct Hz; apply Hfresh. }
  split; [apply content_ext; intros l Hin; apply Hsame, Hne; by left|].
  intros k c Hk Hc. unfold entry. rewrite Hsame; [done|]. apply Hne. right. unfold in_table, tab_lba, clusters in *.
  assert (0 <= c / 256 < fat_size_16 (bpb f)) by (split; [apply Z.div_pos|apply Z.div_lt_upper_bound]; lia).
  destruct Hvol. nia.
Qed.

(** C26: On a disk without errors, writing to an open file whose position belongs
    to its cluster chain never aborts. It writes [n] bytes, all of them unless
    every cluster is in use. The chain grows by clusters that were free; the
    file's bytes from the offset on are the first [n] of the buffer and all
    others keep their values; the directory entry gets the new size. No entry of
    another cluster, in any copy of the table, and no other sector changes, so no
    other file is touched. *)
Theorem fat_write_replaces_the_bytes buf i :
  writable s = true -> positioned (bpb f) cs s i -> entry_apart -> Forall is_byte buf ->
  0 <= first_cluster s < 65536 -> file_offset s <= size s -> file_offset s + Z.of_nat (length buf) <= u32_max ->
  size s <= u32_max ->
  let b := bpb f in let off := Z.to_nat (file_offset s) in let l0 := dir_entry_sector s in
  exists n d' cs' s', write_fd f fd buf = Ret (Z.of_nat n, mkFs true b (<[slot_of fd := s']> (fds f)) d') /\
    (n = length buf \/ (n < length buf)%nat /\ full b d') /\
    linked b d' (cs ++ cs') /\ (forall c, c ∈ cs' -> entry b (disk f) 0 c = 0) /\
    (forall k, (k < n)%nat -> content b d' (cs ++ cs') !! (off + k)%nat = buf !! k) /\
    (forall k, (k < length (content b (disk f) cs))%nat -> ~ (off <= k < off + n)%nat ->
       content b d' (cs ++ cs') !! k = content b (disk f) cs !! k) /\
    (forall k c, 0 <= k < fat_count b -> 0 <= c < clusters b -> c ∉ cs ++ cs' -> entry b d' k c = entry b (disk f) k c) /\
    (forall l, ~ in_table b l -> l ∉ file_sectors b (cs ++ cs') -> l <> l0 -> sector d' l = sector (disk f) l) /\
    file_offset s' = file_offset s + Z.of_nat n /\ size s' = Z.max (size s) (file_offset s') /\
    e_size (entry_at (sector d' l0) l0 (dir_entry_offset s)) = size s' /\ placed b (cs ++ cs') s'.
Proof using All.
  intros Hw Hp Hdir Hbytes Hfc Hsz Hmax Hsz2 b off l0. pose proof Hdir as (Hl0 & Hnt & Hde & Hap). unfold write_fd. rewrite Hready, Hfd. cbn [negb orb].
  assert (idx (fds f) (slot_of fd) = Ret s) as -> by (by apply idx_Ret). cbn [mbind outcome_mbind]. rewrite Hact, Hw. cbn [negb]. fold b.
  destruct (file_write_loop b Hvol (S (length buf)) (disk f) cs 0 buf s i Hl Hp Hbytes) as (n & d1 & cs' & s' & -> & W & Hpl & Hfull);
    [lia|lia|lia|]. cbn [mbind outcome_mbind Nat.add].
  destruct W as [Wlen Wchain Wfresh Win Wout Wtable Wdisk Woff Wsize Wmoved].
  assert (Hsame : dir_entry_sector s' = l0 /\ dir_entry_offset s' = dir_entry_offset s /\ first_cluster s' = first_cluster s)
    by (rewrite Wmoved; done).
  destruct Hsame as (Hd1 & Hd2 & Hd3).
  destruct (flush_stores d1 s') as (Hfl & _ & Hes); rewrite ?Hd1, ?Hd2, ?Hd3; try done.
  { rewrite Wsize, Woff. destruct Hp as (_ & _ & ? & _). unfold u32_max in *. lia. }
  rewrite Hd1, Hd2 in *. set (d' := flush_dir_size d1 s') in *.
  destruct (flush_apart d1 d' cs' Hdir Wchain Wfresh Hfl) as [Hcont Hent].
  assert (H0 : 0 <= 0 < fat_count b) by (destruct Hvol; unfold b; lia).
  exists n, d', cs', s'. fold b in Hcont, Hent. rewrite Hcont. split_and!; auto.
  - destruct f; cbn in *. by subst.
  - destruct (decide (n = length buf)); [by left|]. right. split; [lia|].
    intros c Hc. rewrite Hent by lia. apply Hfull; lia.
  - apply (linked_entries b d1); [|done]. intros c Hc. destruct (linked_nonzero b d1 _ c Wchain Hc). apply Hent; lia.
  - intros k c Hk Hc Hni. by rewrite Hent, Wtable.
  - intros l Hlt Hls Hll. by rewrite Hfl, Wdisk.
Qed.

(** ** Two calls that lose the place *)

(** One byte written where the descriptor [s] stands, whose sector is that of the
    offset of [s0]. *)
Lemma write_one x s0 i : let b := bpb f in
  positioned b cs s0 i -> file_offset s mod 512 = 0 -> file_offset s0 mod 512 = 0 -> s0 = set_pos s (cur_cluster s) (cur_sector s) (file_offset s0) ->
  is_byte x -> 0 <= file_offset s -> file_offset s + 1 <= u32_max ->
  exists d', write_loop 2 b (disk f) 0 [x] s =
      Ret (1%nat, set_size (set_pos s (cur_cluster s) (cur_sector s) (file_offset s + 1)) (Z.max (size s) (file_offset s + 1)), d') /\
    linked b d' cs /\ content b d' cs = <[Z.to_nat (file_offset s0) := x]> (content b (disk f) cs) /\
    (Z.to_nat (file_offset s0) < length (content b (disk f) cs))%nat.
Proof using DL Hl Hvol.
  intros b Hp Hm Hm0 Hs0 Hx Hoff Hmax. pose proof Hp as (Hc & Hsec & Hoff0 & _). cbn [write_loop].
  assert (Hsame : cur_cluster s0 = cur_cluster s /\ cur_sector s0 = cur_sector s) by (by rewrite Hs0).
  destruct Hsame as [Hcc Hcs]. rewrite Hcc, Hcs in *.
  destruct (linked_nonzero b (disk f) cs (cur_cluster s) Hl) as [Hcur _]; [by eapply list_elem_of_lookup_2|].
  rewrite bool_decide_eq_false_2 by done.
  unfold write_first. destruct (Z.ltb_spec (cur_cluster s) 2); [lia|]. cbn [mbind outcome_mbind].
  pose proof (cur_lba_ok b Hvol cs s0 i (disk f) Hl Hp) as Hlba. rewrite Hcc, Hcs in Hlba.
  assert (cur_lba b s = cur_lba b s0) as -> by (unfold cur_lba; by rewrite Hcc, Hcs). rewrite Hlba. cbn [mbind outcome_mbind].
  rewrite Hm. change (Z.to_nat 0) with 0%nat. cbn [Nat.ltb Nat.leb orb length Nat.sub Nat.min take drop]. rewrite read_works.
  pose proof (write_sector_wrote b Hvol (disk f) cs s0 i [x] (sector (disk f) (lba b (cur_cluster s) + cur_sector s)) Hl Hp) as Hws.
  rewrite Hcc, Hcs, Hm0 in Hws. change (Z.to_nat 0) with 0%nat in Hws. cbn [length Nat.sub Nat.min take] in Hws. destruct Hws as (d' & -> & W & _); [by constructor|apply sectors_are_512_bytes|done|].
  cbn [negb]. rewrite cadd_le by (cbn; lia). cbn [mbind outcome_mbind]. rewrite grow_size.
  unfold write_advance. cbn [file_offset set_size set_pos].
  destruct (Z.eqb_spec ((file_offset s + Z.of_nat 1) mod 512) 0) as [He|_].
  { rewrite Z.add_mod, Hm in He by lia. by cbn in He. }
  cbn [mbind outcome_mbind write_loop]. rewrite bool_decide_eq_true_2 by done.
  exists d'. destruct W as [_ Wchain _ Win Wout _ _ _ _ _]. rewrite app_nil_r in *.
  specialize (Win 0%nat ltac:(cbn; lia)). rewrite Nat.add_0_r in Win.
  assert (Hlt : (Z.to_nat (file_offset s0) < length (content b (disk f) cs))%nat).
  { rewrite content_length, <- (content_length b d'). by apply lookup_lt_Some in Win. }
  split_and!; [done|done| |done].
  apply list_eq. intros j. destruct (decide (j = Z.to_nat (file_offset s0))) as [->|Hne].
  - rewrite list_lookup_insert_eq by done. done.
  - rewrite list_lookup_insert_ne by done. destruct (decide (j < length (content b (disk f) cs))%nat).
    + apply Wout; [done|cbn; lia].
    + rewrite !lookup_ge_None_2; [done|lia|]. rewrite content_length in *. lia.
Qed.

(** A write that ended exactly at the end of the last cluster leaves the
    position at the first sector of that cluster, and the next write lands there:
    writing one more byte replaces the first byte of the last cluster, while the
    size grows beyond the bytes the chain holds. Data written before is lost. *)
Theorem fat_write_behind_a_full_cluster_overwrites_it x :
  writable s = true -> at_end (bpb f) cs s -> entry_apart -> is_byte x ->
  0 <= first_cluster s < 65536 -> size s = file_offset s -> file_offset s + 1 <= u32_max ->
  let b := bpb f in
  let k := (512 * (spc b * (length cs - 1)))%nat in
  exists f', write_fd f fd [x] = Ret (1, f') /\
    content b (disk f') cs = <[k := x]> (content b (disk f) cs) /\
    (k < length (content b (disk f) cs))%nat /\ linked b (disk f') cs /\
    exists s', fds f' !! slot_of fd = Some s' /\ size s' = Z.of_nat (length (content b (disk f) cs)) + 1.
Proof using All.
  intros Hw (Hlast & Hcs & Hoff) Hdir Hx Hfc Hsz Hmax b k. pose proof Hdir as (Hl0 & Hnt & Hde & Hap).
  unfold write_fd. rewrite Hready, Hfd. cbn [negb orb].
  assert (idx (fds f) (slot_of fd) = Ret s) as -> by (by apply idx_Ret). cbn [mbind outcome_mbind]. rewrite Hact, Hw. cbn [negb].
  fold b. set (s0 := set_pos s (cur_cluster s) (cur_sector s) (Z.of_nat k)).
  assert (Hlen : length cs <> 0%nat) by (by destruct cs).
  pose proof (v_spc _ Hvol) as Hspc. fold b in Hspc, Hoff.
  assert (Hkz : Z.of_nat k = 512 * (Z.of_nat (length cs - 1) * sectors_per_cluster b)) by (unfold k, spc; nia).
  assert (Hp0 : positioned b cs s0 (length cs - 1)).
  { rewrite last_lookup in Hlast. split_and!; cbn [cur_cluster cur_sector file_offset s0 set_pos]; rewrite ?Hcs, ?Hkz; try lia.
    - rewrite <- Hlast. f_equal. lia.
    - rewrite (Z.mul_comm 512), Z.div_mul by lia. lia. }
  destruct (write_one x s0 _ Hp0) as (d1 & Hone & Hl1 & Hc1 & Hk); cbn [file_offset s0 set_pos]; try done; try lia.
  { rewrite Hoff, Z.mul_comm. by apply Z.mod_mul. }
  { by rewrite Hkz, Z.mul_comm, Z.mod_mul. }
  cbn [length]. fold b in Hone, Hl1, Hc1, Hk. rewrite Hone. cbn [mbind outcome_mbind].
  set (s1 := set_size _ _). destruct (flush_stores d1 s1) as (Hfl & _ & _); cbn; try done; [unfold u32_max in *; lia|].
  destruct (flush_apart d1 (flush_dir_size d1 s1) []) as [Hcont Hent]; rewrite ?app_nil_r in *; try done; [by intros c ?%elem_of_nil|].
  fold b in Hcont, Hent. cbn [file_offset s0 set_pos] in *. rewrite Nat2Z.id in *.
  eexists. split; [done|]. cbn [disk set_fds set_disk fds]. split_and!; [by rewrite Hcont|done| |].
  - apply (linked_entries b d1); [|done]. intros c Hc. destruct (linked_nonzero b d1 _ c Hl1 Hc).
    apply Hent; [destruct Hvol; unfold b|]; lia.
  - exists s1. rewrite list_lookup_insert_eq by (by eapply lookup_lt_Some). split; [done|]. cbn.
    rewrite content_length. unfold spc. nia.
Qed.

(** Seeking changes only the offset, not the cluster and sector the next call
    uses: reading after a seek to [off] returns bytes of the sector the
    descriptor stood on before, from [off mod 512] of it, and not the bytes at
    [off]. *)
Theorem fat_seek_reads_the_old_sector i off buf :
  positioned (bpb f) cs s i -> 0 <= off -> buf <> [] -> off mod 512 + Z.of_nat (length buf) < 512 ->
  off + Z.of_nat (length buf) <= size s -> size s <= u32_max ->
  let k := Z.to_nat (512 * (file_offset s / 512) + off mod 512) in
  exists f1 f2, file_seek f fd off 0 = Ret (off, f1) /\
    read_fd f1 fd buf = Ret (Z.of_nat (length buf), take (length buf) (drop k (content (bpb f) (disk f) cs)), f2).
Proof using All.
  intros Hp Hoff Hne Hin Hsz Hmax k. assert (exists m, length buf = S m) as [m En] by (destruct buf; [done|by eexists]).
  remember (length buf) as n eqn:Ebuf.
  pose proof (Z.mod_pos_bound off 512 ltac:(lia)) as Hr. pose proof Hp as (Hc & Hcs & Ho & Hq).
  unfold file_seek. rewrite Hfd. cbn [negb].
  assert (idx (fds f) (slot_of fd) = Ret s) as -> by (by apply idx_Ret). cbn [mbind outcome_mbind Z.eqb].
  destruct (Z.ltb_spec off 0); [lia|]. assert (wrap 32 off = off) as -> by (unfold wrap; apply Z.mod_small; unfold u32_max in *; lia).
  fold (set_pos s (cur_cluster s) (cur_sector s) off).
  eexists _, _. split; [done|]. unfold read_fd. cbn [ready fds bpb disk set_fds]. rewrite Hready, Hfd. cbn [negb orb].
  rewrite (proj2 (idx_Ret _ _ (set_pos s (cur_cluster s) (cur_sector s) off))) by (apply list_lookup_insert_eq; by eapply lookup_lt_Some).
  cbn [mbind outcome_mbind active set_pos size file_offset]. rewrite Hact. cbn [negb]. unfold sat_sub.
  destruct (Nat.eqb_spec (Z.to_nat (Z.max 0 (size s - off))) 0); [lia|].
  rewrite Nat.min_l by lia. rewrite <- Ebuf. cbn [read_loop]. destruct (Nat.ltb_spec 0 n); [|lia]. cbn [negb].
  set (s0 := set_pos s (cur_cluster s) (cur_sector s) (Z.of_nat k)).
  assert (Hk : Z.of_nat k = 512 * (file_offset s / 512) + off mod 512).
  { pose proof (Z.div_pos (file_offset s) 512 ltac:(lia) ltac:(lia)). lia. }
  assert (Hkd : Z.of_nat k / 512 = file_offset s / 512 /\ Z.of_nat k mod 512 = off mod 512).
  { rewrite Hk. split; Z.to_euclidean_division_equations; lia. }
  assert (Hp0 : positioned (bpb f) cs s0 i) by (split_and!; cbn [cur_cluster cur_sector file_offset s0 set_pos]; try done; lia).
  pose proof (cur_lba_ok (bpb f) Hvol cs s0 i (disk f) Hl Hp0) as Hlba. unfold cur_lba in *. cbn [cur_cluster cur_sector set_pos s0] in *.
  rewrite Hlba. cbn [mbind outcome_mbind]. rewrite read_works.
  cbn [file_offset set_pos]. rewrite (Nat.sub_0_r n), Nat.min_r by lia. rewrite (cadd_le u32_max off) by lia. cbn [mbind outcome_mbind].
  pose proof (sector_slice (bpb f) Hvol (disk f) cs s0 i n Hp0) as Hslice. cbn [file_offset cur_cluster cur_sector set_pos s0] in Hslice.
  destruct Hkd as [_ Hkm]. rewrite Hkm, Nat2Z.id in Hslice. rewrite Hslice by lia. clear Hslice.
  destruct (Z.eqb_spec ((off + Z.of_nat n) mod 512) 0) as [He|_]; [Z.to_euclidean_division_equations; lia|].
  rewrite En. cbn [read_loop Nat.add]. rewrite Nat.ltb_irrefl. cbn [negb mbind outcome_mbind].
  pose proof (positioned_room (bpb f) Hvol cs s0 i (disk f) Hp0) as Hroom. cbn [file_offset s0 set_pos] in Hroom.
  pose proof (Z.div_mod (Z.of_nat k) 512 ltac:(lia)). rewrite splice_all; [done|].
  rewrite length_take, length_drop. lia.
Qed.
End Calls.

(** ** A mounted volume with one open file *)

(** The file of [sample_disk]: clusters 2 and 3, its entry first in the root
    directory. *)
Definition sample_fd (sz cluster off : Z) : FatFd := mkFatFd true true sz 2 cluster 0 off 3 0.
Definition sample (s : FatFd) : FatFs RamDisk := mkFs true sample_bpb (s :: replicate 15 empty_fd) sample_disk.

Lemma sample_apart s : dir_entry_sector s = 3 -> dir_entry_offset s = 0 -> entry_apart (sample s) s [2; 3].
Proof.
  intros Hsec Hoff. unfold entry_apart, in_table, lba. rewrite Hsec, Hoff. cbn. split_and!; lia.
Qed.

Lemma sample_start sz : positioned sample_bpb [2; 3] (sample_fd sz 2 0) 0.
Proof. split_and!; by cbn. Qed.

Lemma sample_end : at_end sample_bpb [2; 3] (sample_fd 1024 3 1024).
Proof. split_and!; by cbn. Qed.

Lemma sample_content : length (content sample_bpb sample_disk [2; 3]) = 1024%nat.
Proof. by rewrite content_length. Qed.

Lemma fat_read_returns_the_next_bytes_witness :
  exists out f', read_fd (sample (sample_fd 600 2 0)) 64 (zeros 700) = Ret (600, out, f').
Proof.
  destruct (fat_read_returns_the_next_bytes (sample (sample_fd 600 2 0)) 64 (sample_fd 600 2 0) [2; 3]
    eq_refl sample_ok eq_refl eq_refl eq_refl sample_chain (zeros 700)) as (s' & Hr & _).
  - right. exists 0%nat. apply sample_start.
  - cbn. lia.
  - cbn. unfold u32_max. lia.
  - change (size _) with 600. change (bpb _) with sample_bpb. change (disk _) with sample_disk. rewrite sample_content. lia.
  - rewrite Hr. by eexists _, _.
Defined.

Lemma fat_write_replaces_the_bytes_witness :
  exists n f', write_fd (sample (sample_fd 600 2 0)) 64 (str "hello") = Ret (n, f').
Proof.
  destruct (fat_write_replaces_the_bytes (sample (sample_fd 600 2 0)) 64 (sample_fd 600 2 0) [2; 3]
    eq_refl sample_ok eq_refl eq_refl eq_refl sample_chain (str "hello") 0) as (n & d' & cs' & s' & Hw & _).
  - done.
  - apply sample_start.
  - by apply sample_apart.
  - apply (bool_decide_unpack _). vm_compute. exact I.
  - cbn. lia.
  - cbn. lia.
  - cbn. unfold u32_max. lia.
  - cbn. unfold u32_max. lia.
  - rewrite Hw. by eexists _, _.
Defined.

Lemma fat_write_behind_a_full_cluster_overwrites_it_witness :
  exists f', write_fd (sample (sample_fd 1024 3 1024)) 64 [88] = Ret (1, f') /\
    content sample_bpb (disk f') [2; 3] !! 512%nat = Some 88.
Proof.
  destruct (fat_write_behind_a_full_cluster_overwrites_it (sample (sample_fd 1024 3 1024)) 64 (sample_fd 1024 3 1024) [2; 3]
    eq_refl sample_ok eq_refl eq_refl eq_refl sample_chain 88) as (f' & Hw & Hc & Hlt & _).
  - done.
  - apply sample_end.
  - by apply sample_apart.
  - unfold is_byte. lia.
  - cbn. lia.
  - done.
  - cbn. unfold u32_max. lia.
  - exists f'. split; [exact Hw|]. clear Hw. change (bpb _) with sample_bpb in *. rewrite Hc.
    apply list_lookup_insert_eq. exact Hlt.
Defined.

Lemma fat_seek_reads_the_old_sector_witness :
  exists f1 f2, file_seek (sample (sample_fd 600 2 0)) 64 515 0 = Ret (515, f1) /\
    read_fd f1 64 (zeros 5) = Ret (5, take 5 (drop 3 (content sample_bpb sample_disk [2; 3])), f2).
Proof.
  apply (fat_seek_reads_the_old_sector (sample (sample_fd 600 2 0)) 64 (sample_fd 600 2 0) [2; 3]
    eq_refl sample_ok eq_refl eq_refl eq_refl sample_chain 0 515 (zeros 5)).
  - apply sample_start.
  - lia.
  - done.
  - by cbn.
  - by cbn.
  - by cbn.
Defined.

(** ** Names that exist already *)

(** Making a directory twice succeeds twice and leaves two entries of one name:
    [mkdir] does not look for the name. *)
Lemma mkdir_makes_a_second_entry :
  returns (let! (r1, f1) := mkdir (sample empty_fd) (str "/disk/bin") in
           let! (r2, f2) := mkdir f1 (str "/disk/bin") in
           let! l := list_dir f2 Root in
           if bool_decide ((r1, r2, l) = (0, 0, [(str "bin", true); (str "bin", true)])) then Ret tt else Panic) = true.
Proof. by vm_compute. Qed.
End fat_spec.
