(* ===== verification/DiskStore.v ===== *)
(** * The record store (kernel/src/kernel/drivers/disk_store.rs)

    A table of 255 records, a sector each, from sector 2049 of a disk. Module
    [disk_store] translates the driver over four disks, each a [BlockDevice] or
    absent. Module [store_spec] shows that a mounted store is a finite map from
    numbers to at most 496 bytes with room for 255 entries, and that mounting it
    the first time destroys what a FAT16 volume of the disk has there. *)

From stdpp Require Import base list gmap list_numbers.
From Stdlib Require Import ZArith Lia.
From S2P Require Import Prelude Mbr Fat FatOps FatTable FatFile.

Local Open Scope Z_scope.

Module disk_store.

(* @src drivers/disk_store.rs 25-25 STORE_MAGIC *)
Definition STORE_MAGIC : Z := 0x4F584453.
(* @src drivers/disk_store.rs 26-26 RECORD_MAGIC *)
Definition RECORD_MAGIC : Z := 0x52454358.
(* @src drivers/disk_store.rs 27-27 STORE_BASE_LBA *)
Definition STORE_BASE_LBA : Z := 2048.
(* @src drivers/disk_store.rs 28-28 MAX_RECORDS *)
Definition MAX_RECORDS : Z := 255.
(* @src drivers/disk_store.rs 29-29 RECORD_DATA_MAX *)
Definition RECORD_DATA_MAX : nat := 496.

(** The bytes of a new header: its four numbers and the reserved rest. *)
(* @src drivers/disk_store.rs 34-40 StoreHeader *)
Definition header_bytes : list Z :=
  le_encode 4 STORE_MAGIC ++ le_encode 4 1 ++ le_encode 4 MAX_RECORDS ++
  le_encode 4 (Z.of_nat RECORD_DATA_MAX) ++ replicate 496 0.

(* @src drivers/disk_store.rs 44-50 RecordSlot *)
Record RecordSlot := mkSlot { magic : Z; id : Z; data_len : Z; sum : Z; data : list Z; }.

(** The packed struct as the bytes of a sector, and back. *)
Definition word (b : list Z) (i : nat) : Z := le_decode (take 4 (drop i b)).
(* @src drivers/disk_store.rs 73-75 read_slot (decoding) *)
Definition slot_of_bytes (b : list Z) : RecordSlot := mkSlot (word b 0) (word b 4) (word b 8) (word b 12) (drop 16 b).
(* @src drivers/disk_store.rs 79-80 write_slot (encoding) *)
Definition bytes_of_slot (s : RecordSlot) : list Z :=
  le_encode 4 (magic s) ++ le_encode 4 (id s) ++ le_encode 4 (data_len s) ++ le_encode 4 (sum s) ++ data s.

(* @src drivers/disk_store.rs 61-61 header_lba *)
Definition header_lba : Z := STORE_BASE_LBA.
(* @src drivers/disk_store.rs 62-62 record_lba *)
Definition record_lba (slot : Z) : Z := STORE_BASE_LBA + 1 + slot.

(* @src drivers/disk_store.rs 64-66 checksum *)
Definition checksum (bytes : list Z) : Z := foldl Z.lxor 0 bytes.

(** The four disks and which of them have a mounted store. *)
(* @src drivers/disk_store.rs 57-57 STORE_MOUNTED *)
Record Stores (D : Type) := mkStores { mounted : list bool; disks : list (option D); }.
Arguments mkStores {D}.
Arguments mounted {D}.
Arguments disks {D}.

Section Store.
Context {D : Type} `{BlockDevice D}.

Definition set_disk (st : Stores D) (disk : nat) (d : D) : Stores D :=
  mkStores (mounted st) (<[disk := Some d]> (disks st)).
Definition set_mounted (st : Stores D) (disk : nat) : outcome (Stores D) :=
  let! m := set_idx (mounted st) disk true in Ret (mkStores m (disks st)).

(** [ata::read_sector] and [ata::write_sector]; an absent disk is an error. *)
(* @src drivers/ata.rs 273-281 read_sector *)
Definition read_sector (st : Stores D) (disk : nat) (lba : Z) : outcome (option (list Z)) :=
  let! d := idx (disks st) disk in
  Ret (match d with Some d => sector_read d lba | None => None end).
(* @src drivers/ata.rs 284-292 write_sector *)
Definition write_sector (st : Stores D) (disk : nat) (lba : Z) (b : list Z) : outcome (bool * Stores D) :=
  let! d := idx (disks st) disk in
  Ret (match d with
       | Some d => let (ok, d) := sector_write d lba b in (ok, set_disk st disk d)
       | None => (false, st)
       end).

(* @src drivers/ata.rs 423-426 is_present_at *)
Definition is_present_at (st : Stores D) (disk : nat) : outcome bool :=
  if (4 <=? disk)%nat then Ret false
  else let! d := idx (disks st) disk in Ret (bool_decide (is_Some d)).

(* @src drivers/disk_store.rs 68-76 read_slot *)
Definition read_slot (st : Stores D) (disk : nat) (slot : Z) : outcome (option RecordSlot) :=
  let! b := read_sector st disk (record_lba slot) in Ret (slot_of_bytes <$> b).

(* @src drivers/disk_store.rs 78-82 write_slot *)
Definition write_slot (st : Stores D) (disk : nat) (slot : Z) (s : RecordSlot) : outcome (bool * Stores D) :=
  write_sector st disk (record_lba slot) (bytes_of_slot s).

(* @src drivers/disk_store.rs 88-93 is_ext2_disk *)
Definition is_ext2_disk (st : Stores D) (disk : nat) : outcome bool :=
  let! b := read_sector st disk 2 in
  Ret (match b with Some b => u16_at b 56 =? 0xEF53 | None => false end).

(** Empty slots; errors are ignored. *)
(* @src drivers/disk_store.rs 157-160 mount (slots) *)
Fixpoint clear_slots (st : Stores D) (disk : nat) (slots : list Z) : outcome (Stores D) :=
  match slots with
  | [] => Ret st
  | slot :: slots' =>
      let! (_, st) := write_sector st disk (record_lba slot) (replicate 512 0) in
      clear_slots st disk slots'
  end.

(* @src drivers/disk_store.rs 102-164 mount *)
Definition mount (st : Stores D) (disk : nat) : outcome (bool * Stores D) :=
  let! present := is_present_at st disk in
  if negb present then Ret (false, st)
  else
    let! b := read_sector st disk header_lba in
    match b with
    | None => Ret (false, st)
    | Some b =>
        if (word b 0 =? STORE_MAGIC) && (word b 4 =? 1) && (word b 8 =? MAX_RECORDS) then
          let! st := set_mounted st disk in Ret (true, st)
        else
          let! ext2 := is_ext2_disk st disk in
          if ext2 : bool then Ret (false, st)
          else
            let! (ok, st) := write_sector st disk header_lba header_bytes in
            if negb ok then Ret (false, st)
            else
              let! st := clear_slots st disk (seqZ 0 MAX_RECORDS) in
              let! st := set_mounted st disk in
              Ret (true, st)
    end.

(** The slot with the record [id], and the first slot without a record before it. *)
(* @src drivers/disk_store.rs 173-188 write_record (search) *)
Fixpoint find_slot (st : Stores D) (disk : nat) (key : Z) (slots : list Z) (first_empty : option Z)
    : outcome (option Z * option Z) :=
  match slots with
  | [] => Ret (None, first_empty)
  | slot :: slots' =>
      let! r := read_slot st disk slot in
      match r with
      | Some s =>
          if (magic s =? RECORD_MAGIC) && (id s =? key) then Ret (Some slot, first_empty)
          else if negb (magic s =? RECORD_MAGIC) && bool_decide (first_empty = None) then
            find_slot st disk key slots' (Some slot)
          else find_slot st disk key slots' first_empty
      | None => find_slot st disk key slots' first_empty
      end
  end.

(** A record with its checksum, the data filled up with zeros. *)
(* @src drivers/disk_store.rs 199-207 write_record (record) *)
Definition new_record (key : Z) (bytes : list Z) : RecordSlot :=
  let len := Nat.min (length bytes) RECORD_DATA_MAX in
  let buf := splice (replicate RECORD_DATA_MAX 0) 0 (take len bytes) in
  mkSlot RECORD_MAGIC key (Z.of_nat len) (checksum (take len buf)) buf.

(* @src drivers/disk_store.rs 169-210 write_record *)
Definition write_record (st : Stores D) (disk : nat) (key : Z) (bytes : list Z) : outcome (bool * Stores D) :=
  let! m := idx (mounted st) disk in
  if negb m then Ret (false, st)
  else
    let! (target, first_empty) := find_slot st disk key (seqZ 0 MAX_RECORDS) None in
    match (match target with Some s => Some s | None => first_empty end) with
    | None => Ret (false, st)
    | Some slot => write_slot st disk slot (new_record key bytes)
    end.

(* @src drivers/disk_store.rs 217-232 read_record (search) *)
Fixpoint read_scan (st : Stores D) (disk : nat) (key : Z) (buf : list Z) (slots : list Z)
    : outcome (option nat * list Z) :=
  match slots with
  | [] => Ret (None, buf)
  | slot :: slots' =>
      let! r := read_slot st disk slot in
      match r with
      | None => Ret (None, buf)
      | Some s =>
          if negb (magic s =? RECORD_MAGIC) || negb (id s =? key) then read_scan st disk key buf slots'
          else
            let dlen := Nat.min (Z.to_nat (data_len s)) RECORD_DATA_MAX in
            if negb (checksum (take dlen (data s)) =? sum s) then Ret (None, buf)
            else
              let copy := Nat.min dlen (length buf) in
              Ret (Some copy, splice buf 0 (take copy (data s)))
      end
  end.

(* @src drivers/disk_store.rs 214-233 read_record *)
Definition read_record (st : Stores D) (disk : nat) (key : Z) (buf : list Z) : outcome (option nat * list Z) :=
  let! m := idx (mounted st) disk in
  if negb m then Ret (None, buf) else read_scan st disk key buf (seqZ 0 MAX_RECORDS).

(* @src drivers/disk_store.rs 239-247 delete_record (search) *)
Fixpoint delete_scan (st : Stores D) (disk : nat) (key : Z) (slots : list Z) : outcome (bool * Stores D) :=
  match slots with
  | [] => Ret (false, st)
  | slot :: slots' =>
      let! r := read_slot st disk slot in
      match r with
      | Some s =>
          if (magic s =? RECORD_MAGIC) && (id s =? key) then write_sector st disk (record_lba slot) (replicate 512 0)
          else delete_scan st disk key slots'
      | None => delete_scan st disk key slots'
      end
  end.

(* @src drivers/disk_store.rs 236-248 delete_record *)
Definition delete_record (st : Stores D) (disk : nat) (key : Z) : outcome (bool * Stores D) :=
  let! m := idx (mounted st) disk in
  if negb m then Ret (false, st) else delete_scan st disk key (seqZ 0 MAX_RECORDS).

(* @src drivers/disk_store.rs 256-265 list_records (loop) *)
Fixpoint list_scan (st : Stores D) (disk : nat) (out : list Z) (count : nat) (slots : list Z) : outcome (nat * list Z) :=
  match slots with
  | [] => Ret (count, out)
  | slot :: slots' =>
      if (length out <=? count)%nat then Ret (count, out)
      else
        let! r := read_slot st disk slot in
        match r with
        | Some s =>
            if magic s =? RECORD_MAGIC then list_scan st disk (<[count := id s]> out) (S count) slots'
            else list_scan st disk out count slots'
        | None => list_scan st disk out count slots'
        end
  end.

(* @src drivers/disk_store.rs 252-266 list_records *)
Definition list_records (st : Stores D) (disk : nat) (out : list Z) : outcome (nat * list Z) :=
  let! m := idx (mounted st) disk in
  if negb m then Ret (0%nat, out) else list_scan st disk out 0 (seqZ 0 MAX_RECORDS).

(* @src drivers/disk_store.rs 269-271 is_mounted *)
Definition is_mounted (st : Stores D) (disk : nat) : outcome bool := idx (mounted st) disk.

End Store.
End disk_store.

Module store_spec.
Import disk_store.

(** ** Records as bytes *)

Lemma word_app (a b : list Z) x n : length a = n -> 0 <= x < 2 ^ 32 -> word (a ++ le_encode 4 x ++ b) n = x.
Proof.
  intros Ha Hx. unfold word. rewrite drop_app_length' by done. rewrite take_app_length' by (by rewrite length_le_encode).
  by apply le_decode_encode.
Qed.

Definition record_ok (s : RecordSlot) : Prop :=
  0 <= magic s < 2 ^ 32 /\ 0 <= id s < 2 ^ 32 /\ 0 <= data_len s < 2 ^ 32 /\ 0 <= sum s < 2 ^ 32 /\
  length (data s) = 496%nat /\ Forall is_byte (data s).

Lemma slot_round_trip s : record_ok s -> slot_of_bytes (bytes_of_slot s) = s /\ is_sector (bytes_of_slot s).
Proof.
  intros (Hm & Hi & Hl & Hs & Hlen & Hb). split.
  - unfold slot_of_bytes, bytes_of_slot.
    set (m := le_encode 4 (magic s)). set (i := le_encode 4 (id s)). set (l := le_encode 4 (data_len s)).
    set (c := le_encode 4 (sum s)).
    assert (length m = 4 /\ length i = 4 /\ length l = 4 /\ length c = 4)%nat as (Lm & Li & Ll & Lc)
      by (unfold m, i, l, c; by rewrite !length_le_encode).
    assert (word (m ++ i ++ l ++ c ++ data s) 0 = magic s) as -> by (by apply (word_app [])).
    assert (word (m ++ i ++ l ++ c ++ data s) 4 = id s) as -> by (by apply word_app).
    assert (word (m ++ i ++ l ++ c ++ data s) 8 = data_len s) as ->.
    { rewrite (app_assoc m). apply word_app; [len_lia|done]. }
    assert (word (m ++ i ++ l ++ c ++ data s) 12 = sum s) as ->.
    { rewrite (app_assoc i), (app_assoc m). apply word_app; [len_lia|done]. }
    assert (drop 16 (m ++ i ++ l ++ c ++ data s) = data s) as ->; [|by destruct s].
    rewrite (app_assoc l), (app_assoc i), (app_assoc m). apply drop_app_length'. len_lia.
  - unfold bytes_of_slot. split.
    + rewrite !length_app, !length_le_encode. lia.
    + repeat apply Forall_app_2; try apply le_encode_bytes; done.
Qed.

Lemma checksum_range bytes : Forall is_byte bytes -> 0 <= checksum bytes < 2 ^ 32.
Proof.
  intros Hb. cut (forall acc, 0 <= acc < 2 ^ 8 -> 0 <= foldl Z.lxor acc bytes < 2 ^ 8).
  { intros Hc. specialize (Hc 0 ltac:(lia)). unfold checksum. lia. }
  induction Hb as [|x bytes Hx Hb IH]; intros acc Hacc; cbn; [done|]. apply IH.
  split; [apply Z.lxor_nonneg; unfold is_byte in Hx; lia|].
  apply (Z.bounded_iff_bits_nonneg 8); [lia|apply Z.lxor_nonneg; unfold is_byte in Hx; lia|].
  assert (Hbits : forall y n, 0 <= y < 2 ^ 8 -> 8 <= n -> Z.testbit y n = false).
  { intros y n Hy Hn. by apply (proj1 (Z.bounded_iff_bits_nonneg 8 y ltac:(lia) ltac:(lia)) ltac:(lia)). }
  intros n Hn. by rewrite Z.lxor_spec, !Hbits.
Qed.

(** The bytes of a record. *)
Definition contents (s : RecordSlot) : list Z := take (Nat.min (Z.to_nat (data_len s)) RECORD_DATA_MAX) (data s).

Lemma take_splice_0 (bytes : list Z) n k : (n <= length bytes)%nat -> take n (splice (replicate k 0) 0 (take n bytes)) = take n bytes.
Proof. intros Hn. unfold splice. rewrite take_0, app_nil_l. apply take_app_length'. rewrite length_take. lia. Qed.

Lemma new_record_ok key bytes : 0 <= key < 2 ^ 32 -> Forall is_byte bytes ->
  record_ok (new_record key bytes) /\ contents (new_record key bytes) = take 496 bytes /\
  checksum (contents (new_record key bytes)) = sum (new_record key bytes).
Proof.
  intros Hk Hb. unfold new_record, contents. cbn [data_len data sum]. rewrite Nat2Z.id.
  set (len := Nat.min (length bytes) RECORD_DATA_MAX).
  assert (Hlen : (len <= length bytes)%nat /\ (len <= 496)%nat) by (unfold len, RECORD_DATA_MAX; lia).
  rewrite Nat.min_l by apply Hlen. rewrite take_splice_0 by apply Hlen.
  assert (Ht : take len bytes = take 496 bytes).
  { unfold len. destruct (Nat.le_ge_cases (length bytes) 496) as [Hle|Hge].
    - rewrite Nat.min_l by done. by rewrite !take_ge by lia.
    - by rewrite Nat.min_r by done. }
  split_and!; [|done|done]. unfold record_ok. cbn [magic id data_len sum data]. split_and!; try done; try lia.
  - apply checksum_range. by apply Forall_take.
  - apply checksum_range. by apply Forall_take.
  - rewrite length_splice, length_replicate; [done|]. rewrite length_take, length_replicate. unfold RECORD_DATA_MAX. lia.
  - unfold splice. repeat apply Forall_app_2; [constructor|by apply Forall_take|].
    apply Forall_drop, Forall_replicate. unfold is_byte. lia.
Qed.

(** ** The map a disk shows *)

Section Map.
Context {D : Type} `{DL : DiskLaws D}.

(** The record in a slot, if there is one. *)
Definition row (d : D) (slot : Z) : option RecordSlot :=
  let s := slot_of_bytes (sector d (record_lba slot)) in
  if magic s =? RECORD_MAGIC then Some s else None.

(** [d] has a store with the records [m]: the header is in place, checksums are
    right, and no number is used twice. *)
Record shows (d : D) (m : gmap Z (list Z)) : Prop := {
  sh_header : let b := sector d header_lba in word b 0 = STORE_MAGIC /\ word b 4 = 1 /\ word b 8 = MAX_RECORDS;
  sh_valid : forall i s, 0 <= i < 255 -> row d i = Some s -> checksum (contents s) = sum s;
  sh_inj : forall i j s t, 0 <= i < 255 -> 0 <= j < 255 -> row d i = Some s -> row d j = Some t -> id s = id t -> i = j;
  sh_map : forall key bytes, m !! key = Some bytes <->
    exists i s, 0 <= i < 255 /\ row d i = Some s /\ id s = key /\ contents s = bytes;
}.

Definition keys (d : D) : list Z := omap (fun i => id <$> row d i) (seqZ 0 255).

Lemma elem_of_keys d m key : shows d m -> key ∈ keys d <-> is_Some (m !! key).
Proof.
  intros Hsh. unfold keys. rewrite list_elem_of_omap. split.
  - intros (i & Hi%elem_of_seqZ & (s & Hs & ->)%fmap_Some). exists (contents s).
    apply (sh_map _ _ Hsh). exists i, s. split_and!; auto; lia.
  - intros [bytes (i & s & Hi & Hs & <- & _)%(sh_map _ _ Hsh)]. exists i. rewrite elem_of_seqZ, Hs. split; [lia|done].
Qed.

Lemma keys_NoDup d m : shows d m -> NoDup (keys d).
Proof.
  intros Hsh. unfold keys. cut (forall l, NoDup l -> (forall i, i ∈ l -> 0 <= i < 255) -> NoDup (omap (fun i => id <$> row d i) l)).
  { intros Hc. apply Hc; [apply NoDup_seqZ|]. intros i Hi%elem_of_seqZ. lia. }
  induction l as [|i l IH]; intros Hnd Hr; [constructor|]. apply NoDup_cons in Hnd as [Hi Hnd].
  assert (Hl : NoDup (omap (fun i => id <$> row d i) l)) by (apply IH; [done|intros; apply Hr; by right]).
  cbn. destruct (row d i) as [s|] eqn:Hs; [|done]. cbn. apply NoDup_cons. split; [|done].
  intros (j & Hj & (t & Ht & Heq)%fmap_Some)%list_elem_of_omap.
  assert (i = j) as <-; [|done]. eapply (sh_inj _ _ Hsh); [apply Hr; left|apply Hr; by right|done|done|done].
Qed.

Lemma size_keys d m : shows d m -> size m = length (keys d).
Proof.
  intros Hsh. rewrite <- size_dom. assert (dom m = list_to_set (keys d)) as ->.
  { apply set_eq. intros key. rewrite elem_of_list_to_set, (elem_of_keys d m) by done. apply elem_of_dom. }
  apply size_list_to_set. by eapply keys_NoDup.
Qed.

Lemma length_omap_full {A B} (f : A -> option B) l : (forall x, x ∈ l -> f x <> None) -> length (omap f l) = length l.
Proof.
  induction l as [|x l IH]; intros Hf; [done|]. cbn. pose proof (Hf x ltac:(left)).
  destruct (f x); [|done]. cbn. f_equal. apply IH. intros; apply Hf; by right.
Qed.

Lemma length_omap_le {A B} (f : A -> option B) l : (length (omap f l) <= length l)%nat.
Proof. induction l as [|x l IH]; [done|]. cbn. destruct (f x); cbn; lia. Qed.

Lemma length_omap_hole {A B} (f : A -> option B) l x : x ∈ l -> f x = None -> (length (omap f l) < length l)%nat.
Proof.
  intros Hx Hf. induction l as [|y l IH]; [by apply not_elem_of_nil in Hx|]. pose proof (length_omap_le f l).
  apply elem_of_cons in Hx as [<-|Hx]; cbn; [rewrite Hf; lia|]. specialize (IH Hx). destruct (f y); cbn; lia.
Qed.

(** The map is full exactly when no slot is empty. *)
Lemma shows_full d m : shows d m -> (forall i, 0 <= i < 255 -> row d i <> None) -> size m = 255%nat.
Proof.
  intros Hsh Hf. rewrite (size_keys d) by done. unfold keys. rewrite length_omap_full; [by rewrite length_seqZ|].
  intros i Hi%elem_of_seqZ Hn%fmap_None. by apply (Hf i); [lia|].
Qed.

Lemma shows_room d m i : shows d m -> 0 <= i < 255 -> row d i = None -> (size m < 255)%nat.
Proof.
  intros Hsh Hi Hn. rewrite (size_keys d) by done. unfold keys.
  eapply Nat.lt_le_trans; [apply (length_omap_hole _ _ i)|]; [apply elem_of_seqZ; lia|by rewrite Hn|by rewrite length_seqZ].
Qed.

(** One slot rewritten. *)
Record replaced (d d' : D) (slot : Z) (o : option RecordSlot) : Prop := {
  rp_header : sector d' header_lba = sector d header_lba;
  rp_slot : row d' slot = o;
  rp_rest : forall i, 0 <= i < 255 -> i <> slot -> row d' i = row d i;
}.

Lemma write_replaces (d : D) slot b : 0 <= slot < 255 -> is_sector b ->
  exists d', sector_write d (record_lba slot) b = (true, d') /\
    replaced d d' slot (let s := slot_of_bytes b in if magic s =? RECORD_MAGIC then Some s else None).
Proof.
  intros Hs Hb. destruct (sector_write d (record_lba slot) b) as [ok d'] eqn:Hw.
  pose proof (write_works d (record_lba slot) b) as Hok. rewrite Hw in Hok. cbn in Hok. subst ok.
  assert (Hd' : forall l, sector d' l = if decide (l = record_lba slot) then b else sector d l).
  { intros l. pose proof (read_after_write d (record_lba slot) b l Hb) as Hr. by rewrite Hw in Hr. }
  exists d'. split; [done|]. unfold record_lba, header_lba, STORE_BASE_LBA in *. split.
  - rewrite Hd', decide_False; [done|]. unfold header_lba, STORE_BASE_LBA. lia.
  - unfold row, record_lba, STORE_BASE_LBA. rewrite Hd'. by rewrite decide_True.
  - intros i Hi Hne. unfold row, record_lba, STORE_BASE_LBA. rewrite Hd', decide_False; [done|]. lia.
Qed.

Lemma shows_put (d d' : D) m slot s : shows d m -> 0 <= slot < 255 -> replaced d d' slot (Some s) ->
  checksum (contents s) = sum s ->
  (forall i t, 0 <= i < 255 -> row d i = Some t -> id t = id s -> i = slot) ->
  (forall t, row d slot = Some t -> id t = id s) ->
  shows d' (<[id s := contents s]> m).
Proof.
  intros Hsh Hslot [Hh Hrow Hrest] Hsum Hkey Hold. split.
  - rewrite Hh. apply (sh_header _ _ Hsh).
  - intros i t Hi Ht. destruct (decide (i = slot)) as [->|Hne]; [congruence|].
    rewrite Hrest in Ht by done. by eapply (sh_valid _ _ Hsh).
  - intros i j t u Hi Hj Ht Hu Heq.
    destruct (decide (i = slot)) as [->|Hi'], (decide (j = slot)) as [->|Hj']; [done| | |].
    + rewrite Hrest in Hu by done. symmetry. eapply Hkey; [done|done|congruence].
    + rewrite Hrest in Ht by done. eapply Hkey; [done|done|congruence].
    + rewrite Hrest in Ht, Hu by done. eapply (sh_inj _ _ Hsh); eauto.
  - intros key bytes. destruct (decide (key = id s)) as [->|Hne].
    + rewrite lookup_insert_eq. split.
      * intros [= <-]. by exists slot, s.
      * intros (i & t & Hi & Ht & Hid & <-). destruct (decide (i = slot)) as [->|Hi']; [congruence|].
        rewrite Hrest in Ht by done. by destruct Hi'; eapply Hkey.
    + rewrite lookup_insert_ne by done. rewrite (sh_map _ _ Hsh). split; intros (i & t & Hi & Ht & Hid & Hc); exists i, t.
      * assert (i <> slot) by (intros ->; apply Hne; rewrite <- Hid; by apply Hold). by rewrite Hrest.
      * assert (i <> slot) by (intros ->; congruence). by rewrite Hrest in Ht.
Qed.

Lemma shows_del (d d' : D) m slot s : shows d m -> 0 <= slot < 255 -> row d slot = Some s -> replaced d d' slot None ->
  shows d' (delete (id s) m).
Proof.
  intros Hsh Hslot Hs [Hh Hrow Hrest].
  assert (Hused : forall i t, row d' i = Some t -> i <> slot) by (intros i t Ht ->; congruence). split.
  - rewrite Hh. apply (sh_header _ _ Hsh).
  - intros i t Hi Ht. pose proof (Hused i t Ht). rewrite Hrest in Ht by done. by eapply (sh_valid _ _ Hsh).
  - intros i j t u Hi Hj Ht Hu Heq. pose proof (Hused i t Ht). pose proof (Hused j u Hu).
    rewrite Hrest in Ht, Hu by done. eapply (sh_inj _ _ Hsh); eauto.
  - intros key bytes. rewrite lookup_delete_Some, (sh_map _ _ Hsh). split.
    + intros (Hne & i & t & Hi & Ht & Hid & Hc). exists i, t. rewrite Hrest; [done|done|]. intros ->. congruence.
    + intros (i & t & Hi & Ht & Hid & Hc). pose proof (Hused i t Ht). rewrite Hrest in Ht by done.
      split; [|by exists i, t]. intros <-. pose proof (sh_inj _ _ Hsh i slot t s Hi Hslot Ht Hs Hid). done.
Qed.

(** ** The calls on one disk *)

Context (k : nat).

Definition holds (st : Stores D) (d : D) : Prop := mounted st !! k = Some true /\ disks st !! k = Some (Some d).

Lemma holds_set st d d' : holds st d -> holds (set_disk st k d') d'.
Proof. intros [Hm Hd]. split; [done|]. cbn. rewrite list_lookup_insert_eq; [done|]. by eapply lookup_lt_Some. Qed.

Lemma read_slot_holds st d slot : holds st d -> read_slot st k slot = Ret (Some (slot_of_bytes (sector d (record_lba slot)))).
Proof.
  intros [_ Hd]. unfold read_slot, read_sector. rewrite (proj2 (idx_Ret _ _ _) Hd). cbn [mbind outcome_mbind].
  by rewrite read_works.
Qed.

Lemma write_sector_holds st d lba b : holds st d ->
  write_sector st k lba b = Ret ((sector_write d lba b).1, set_disk st k (sector_write d lba b).2).
Proof.
  intros [_ Hd]. unfold write_sector. rewrite (proj2 (idx_Ret _ _ _) Hd). cbn [mbind outcome_mbind].
  by destruct (sector_write d lba b).
Qed.

Lemma find_slot_holds st d key l : holds st d -> forall fe, exists t e, find_slot st k key l fe = Ret (t, e) /\
  match t with
  | Some slot => slot ∈ l /\ exists s, row d slot = Some s /\ id s = key
  | None => (forall slot s, slot ∈ l -> row d slot = Some s -> id s <> key) /\
      match e with
      | Some x => fe = Some x \/ x ∈ l /\ row d x = None
      | None => fe = None /\ forall slot, slot ∈ l -> row d slot <> None
      end
  end.
Proof.
  intros Hst. induction l as [|x l IH]; intros fe; cbn [find_slot].
  { exists None, fe. split; [done|]. split; [by intros ? ? ?%elem_of_nil|].
    destruct fe; [by left|]. split; [done|by intros ? ?%elem_of_nil]. }
  rewrite (read_slot_holds st d) by done. cbn [mbind outcome_mbind].
  set (s := slot_of_bytes (sector d (record_lba x))).
  (* the rest of the list, when slot [x] does not have the key *)
  assert (Hrest : forall fe', (forall u, row d x = Some u -> id u <> key) ->
    (forall y, fe' = Some y -> fe = Some y \/ y = x /\ row d x = None) -> (fe' = None -> fe = None /\ row d x <> None) ->
    exists t e, find_slot st k key l fe' = Ret (t, e) /\
      match t with
      | Some slot => slot ∈ x :: l /\ exists s, row d slot = Some s /\ id s = key
      | None => (forall slot s, slot ∈ x :: l -> row d slot = Some s -> id s <> key) /\
          match e with
          | Some y => fe = Some y \/ y ∈ x :: l /\ row d y = None
          | None => fe = None /\ forall slot, slot ∈ x :: l -> row d slot <> None
          end
      end).
  { intros fe' Hx Hsome Hnone. destruct (IH fe') as (t & e & -> & Hte). exists t, e. split; [done|].
    destruct t as [slot|]; [destruct Hte; split; [by right|done]|]. destruct Hte as [Hno He]. split.
    - intros slot u [->|Hin]%elem_of_cons Hu; eauto.
    - destruct e as [y|].
      + destruct He as [[?|[-> ?]]%Hsome|[? ?]]; [by left|right; split; [left|done]|right; split; [by right|done]].
      + destruct He as [[? ?]%Hnone ?]. split; [done|]. intros slot [->|Hin]%elem_of_cons; eauto. }
  destruct (magic s =? RECORD_MAGIC) eqn:Hmag; cbn [andb negb].
  - assert (Hrow : row d x = Some s) by (unfold row; fold s; by rewrite Hmag).
    destruct (Z.eqb_spec (id s) key) as [Hid|Hid].
    { exists (Some x), fe. split; [done|]. split; [left|by exists s]. }
    apply Hrest; [congruence|by left|by split; congruence].
  - assert (Hrow : row d x = None) by (unfold row; fold s; by rewrite Hmag).
    destruct (bool_decide_reflect (fe = None)) as [->|Hfe]; apply Hrest; try congruence; auto.
    intros y [= <-]. by right.
Qed.

(** ** The map's own operations *)

Definition spec_write (m : gmap Z (list Z)) (key : Z) (bytes : list Z) : bool * gmap Z (list Z) :=
  if decide (is_Some (m !! key) \/ (size m < 255)%nat) then (true, <[key := take 496 bytes]> m) else (false, m).

Definition spec_read (m : gmap Z (list Z)) (key : Z) (buf : list Z) : option nat * list Z :=
  match m !! key with
  | Some bytes => let n := Nat.min (length bytes) (length buf) in (Some n, splice buf 0 (take n bytes))
  | None => (None, buf)
  end.

Definition spec_delete (m : gmap Z (list Z)) (key : Z) : bool * gmap Z (list Z) :=
  (bool_decide (is_Some (m !! key)), delete key m).

(** The store after a call has the records [m'] on the same disk. *)
Definition goes_to (st st' : Stores D) (m' : gmap Z (list Z)) : Prop :=
  exists d', holds st' d' /\ shows d' m' /\ forall j, j <> k -> disks st' !! j = disks st !! j.

Lemma goes_to_set st d d' m' : holds st d -> shows d' m' -> goes_to st (set_disk st k d') m'.
Proof.
  intros Hst Hsh. exists d'. split_and!; [by eapply holds_set|done|].
  intros j Hj. cbn. by rewrite list_lookup_insert_ne.
Qed.

Lemma goes_to_refl st d m : holds st d -> shows d m -> goes_to st st m.
Proof. intros Hst Hsh. by exists d. Qed.

(** A record written to a slot that is empty or has its number. *)
Lemma write_slot_goes st d m slot key bytes : holds st d -> shows d m -> 0 <= slot < 255 -> 0 <= key < 2 ^ 32 -> Forall is_byte bytes ->
  (forall i t, 0 <= i < 255 -> row d i = Some t -> id t = key -> i = slot) ->
  (forall t, row d slot = Some t -> id t = key) ->
  exists st', write_slot st k slot (new_record key bytes) = Ret (true, st') /\ goes_to st st' (<[key := take 496 bytes]> m).
Proof.
  intros Hst Hsh Hslot Hkey Hb Huniq Hold. destruct (new_record_ok key bytes Hkey Hb) as (Hok & Hc & Hsum).
  destruct (slot_round_trip _ Hok) as [Hrt Hsec].
  destruct (write_replaces d slot (bytes_of_slot (new_record key bytes)) Hslot Hsec) as (d' & Hw & Hrep).
  rewrite Hrt in Hrep. cbn zeta in Hrep. change (magic (new_record key bytes) =? RECORD_MAGIC) with true in Hrep.
  unfold write_slot. rewrite (write_sector_holds st d), Hw by done. cbn [fst snd].
  eexists. split; [done|]. eapply goes_to_set; [done|]. rewrite <- Hc.
  eapply (shows_put d d' m slot (new_record key bytes)); eauto.
Qed.

Lemma write_record_spec st d m key bytes : holds st d -> shows d m -> 0 <= key < 2 ^ 32 -> Forall is_byte bytes ->
  exists st', write_record st k key bytes = Ret ((spec_write m key bytes).1, st') /\ goes_to st st' (spec_write m key bytes).2.
Proof.
  intros Hst Hsh Hkey Hb. unfold write_record. rewrite (proj2 (idx_Ret _ _ _) (proj1 Hst)). cbn [mbind outcome_mbind negb].
  destruct (find_slot_holds st d key (seqZ 0 MAX_RECORDS) Hst None) as (t & e & -> & Hte). cbn [mbind outcome_mbind].
  unfold spec_write. assert (Hin : forall i, i ∈ seqZ 0 MAX_RECORDS <-> 0 <= i < 255) by (intros; rewrite elem_of_seqZ; unfold MAX_RECORDS; lia).
  destruct t as [slot|].
  - destruct Hte as (Hslot & s & Hs & Hid). apply Hin in Hslot.
    rewrite decide_True by (left; eexists; apply (sh_map _ _ Hsh); by exists slot, s).
    eapply write_slot_goes; eauto; [|congruence]. intros i t Hi Ht Heq. eapply (sh_inj _ _ Hsh); eauto. congruence.
  - destruct Hte as [Hno He]. destruct e as [slot|].
    + destruct He as [?|[Hslot Hs]]; [done|]. apply Hin in Hslot.
      rewrite decide_True by (right; by eapply shows_room).
      eapply write_slot_goes; eauto; [|congruence]. intros i t Hi Ht Heq. exfalso. by eapply (Hno i t); [apply Hin|..].
    + destruct He as [_ Hall]. rewrite decide_False; [exists st; split; [done|by eapply goes_to_refl]|].
      intros [[bytes' (i & s & Hi & Hs & Hid & _)%(sh_map _ _ Hsh)]|Hroom].
      * by eapply (Hno i s); [apply Hin|..].
      * rewrite (shows_full d m Hsh) in Hroom; [lia|]. intros i Hi. by apply Hall, Hin.
Qed.

(** The first matching slot of a walk is the only one. *)
Lemma read_scan_holds st d m key buf l : holds st d -> shows d m -> (forall i, i ∈ l -> 0 <= i < 255) ->
  read_scan st k key buf l = Ret (
    match List.find (fun i => match row d i with Some s => id s =? key | None => false end) l with
    | Some i => match row d i with
                | Some s => let n := Nat.min (length (contents s)) (length buf) in (Some n, splice buf 0 (take n (contents s)))
                | None => (None, buf) end
    | None => (None, buf)
    end).
Proof.
  intros Hst Hsh. induction l as [|x l IH]; intros Hl; [done|]. cbn [read_scan List.find].
  rewrite (read_slot_holds st d) by done. cbn [mbind outcome_mbind].
  set (s := slot_of_bytes (sector d (record_lba x))).
  assert (Hlen : length (data s) = 496%nat).
  { unfold s, slot_of_bytes. cbn [data]. rewrite length_drop. destruct (sectors_are_512_bytes d (record_lba x)) as [-> _]. done. }
  destruct (magic s =? RECORD_MAGIC) eqn:Hmag; cbn [negb orb].
  - assert (Hrow : row d x = Some s) by (unfold row; fold s; by rewrite Hmag). rewrite Hrow.
    destruct (Z.eqb_spec (id s) key); cbn [negb]; [|apply IH; intros; apply Hl; by right].
    rewrite Hrow. fold (contents s). rewrite (sh_valid _ _ Hsh x s), Z.eqb_refl by (first [apply Hl; left|done]). cbn [negb].
    assert (Hc : length (contents s) = Nat.min (Z.to_nat (data_len s)) RECORD_DATA_MAX).
    { unfold contents. rewrite length_take. unfold RECORD_DATA_MAX. lia. }
    rewrite Hc. unfold contents. rewrite take_take. do 3 f_equal. f_equal. lia.
  - assert (Hrow : row d x = None) by (unfold row; fold s; by rewrite Hmag). rewrite Hrow.
    apply IH. intros; apply Hl; by right.
Qed.

Lemma read_record_spec st d m key buf : holds st d -> shows d m -> read_record st k key buf = Ret (spec_read m key buf).
Proof.
  intros Hst Hsh. unfold read_record. rewrite (proj2 (idx_Ret _ _ _) (proj1 Hst)). cbn [mbind outcome_mbind negb].
  assert (Hin : forall i, i ∈ seqZ 0 MAX_RECORDS <-> 0 <= i < 255) by (intros; rewrite elem_of_seqZ; unfold MAX_RECORDS; lia).
  rewrite (read_scan_holds st d m) by (first [done|intros; by apply Hin]). f_equal. unfold spec_read.
  destruct (List.find _ _) as [i|] eqn:Hf.
  - apply List.find_some in Hf as [Hi%list_elem_of_In Hid]. apply Hin in Hi. destruct (row d i) as [s|] eqn:Hs; [|done].
    apply Z.eqb_eq in Hid. assert (m !! key = Some (contents s)) as -> by (apply (sh_map _ _ Hsh); by exists i, s). done.
  - destruct (m !! key) as [bytes|] eqn:Hm; [|done]. apply (sh_map _ _ Hsh) in Hm as (i & s & Hi & Hs & Hid & _).
    pose proof (List.find_none _ _ Hf i (proj1 (list_elem_of_In _ _) (proj2 (Hin i) Hi))) as Hno. cbn in Hno.
    rewrite Hs in Hno. by apply Z.eqb_neq in Hno.
Qed.

Lemma is_sector_empty : is_sector (replicate 512 0).
Proof. split; [done|]. apply Forall_replicate. unfold is_byte. lia. Qed.

Lemma delete_scan_holds st d m key l : holds st d -> shows d m -> (forall i, i ∈ l -> 0 <= i < 255) ->
  exists st' found, delete_scan st k key l = Ret (found, st') /\
    if found : bool then (exists i s, i ∈ l /\ row d i = Some s /\ id s = key) /\ goes_to st st' (delete key m)
    else st' = st /\ forall i s, i ∈ l -> row d i = Some s -> id s <> key.
Proof.
  intros Hst Hsh. induction l as [|x l IH]; intros Hl; cbn [delete_scan].
  { exists st, false. split; [done|]. split; [done|]. by intros ? ? ?%elem_of_nil. }
  rewrite (read_slot_holds st d) by done. cbn [mbind outcome_mbind]. set (s := slot_of_bytes (sector d (record_lba x))).
  assert (Hrow : row d x = if magic s =? RECORD_MAGIC then Some s else None) by done.
  destruct ((magic s =? RECORD_MAGIC) && (id s =? key)) eqn:Hs.
  - apply andb_true_iff in Hs as [Hmag Hid%Z.eqb_eq]. rewrite Hmag in Hrow. pose proof (Hl x ltac:(left)) as Hx.
    destruct (write_replaces d x (replicate 512 0) Hx is_sector_empty) as (d' & Hw & Hrep).
    rewrite (write_sector_holds st d), Hw by done. cbn [fst snd]. eexists _, true. split; [done|]. split.
    + exists x, s. split_and!; [left|done|done].
    + eapply goes_to_set; [done|]. rewrite <- Hid. by eapply shows_del.
  - destruct IH as (st' & found & -> & Hf); [intros; apply Hl; by right|]. exists st', found. split; [done|].
    destruct found.
    + destruct Hf as [(i & t & Hi & Ht) Hg]. split; [|done]. exists i, t. split; [by right|done].
    + destruct Hf as [-> Hno]. split; [done|]. intros i t [->|Hi]%elem_of_cons Ht; [|eauto].
      rewrite Hrow in Ht. destruct (magic s =? RECORD_MAGIC); [|done]. injection Ht as <-. by apply Z.eqb_neq.
Qed.

Lemma delete_record_spec st d m key : holds st d -> shows d m ->
  exists st', delete_record st k key = Ret ((spec_delete m key).1, st') /\ goes_to st st' (spec_delete m key).2.
Proof.
  intros Hst Hsh. unfold delete_record. rewrite (proj2 (idx_Ret _ _ _) (proj1 Hst)). cbn [mbind outcome_mbind negb].
  assert (Hin : forall i, i ∈ seqZ 0 MAX_RECORDS <-> 0 <= i < 255) by (intros; rewrite elem_of_seqZ; unfold MAX_RECORDS; lia).
  destruct (delete_scan_holds st d m key (seqZ 0 MAX_RECORDS) Hst Hsh) as (st' & found & -> & Hf); [intros; by apply Hin|].
  exists st'. unfold spec_delete. cbn [fst snd]. destruct found.
  - destruct Hf as [(i & s & Hi%Hin & Hs & Hid) Hg]. rewrite bool_decide_eq_true_2; [done|].
    exists (contents s). apply (sh_map _ _ Hsh). by exists i, s.
  - destruct Hf as [-> Hno]. assert (Hnone : m !! key = None).
    { apply eq_None_not_Some. intros [bytes (i & s & Hi%Hin & Hs & Hid & _)%(sh_map _ _ Hsh)]. by eapply Hno. }
    rewrite bool_decide_eq_false_2 by (rewrite Hnone; by intros [? ?]). rewrite delete_id by done.
    split; [done|]. by eapply goes_to_refl.
Qed.

Lemma list_scan_holds st d l : holds st d -> forall out count, (count + length l <= length out)%nat ->
  let ks := omap (fun i => id <$> row d i) l in
  list_scan st k out count l = Ret ((count + length ks)%nat, splice out count ks).
Proof.
  intros Hst. induction l as [|x l IH]; intros out count Hc ks; cbn [list_scan].
  { unfold ks. cbn. by rewrite Nat.add_0_r, splice_nil. }
  cbn [length] in Hc. destruct (Nat.leb_spec (length out) count); [lia|].
  rewrite (read_slot_holds st d) by done. cbn [mbind outcome_mbind]. set (s := slot_of_bytes (sector d (record_lba x))).
  assert (Hrow : row d x = if magic s =? RECORD_MAGIC then Some s else None) by done. unfold ks. cbn [omap list_omap].
  destruct (magic s =? RECORD_MAGIC); rewrite Hrow; cbn [fmap option_fmap option_map].
  - rewrite IH by (rewrite length_insert; lia). cbn [length]. f_equal. f_equal; [lia|]. rewrite <- (Nat.add_1_r count). by rewrite splice_insert_cons by lia.
  - apply IH. lia.
Qed.

(** ** Mounting *)

(** What mounting leaves on a disk that has no store. *)
Definition formatted (d : D) (l : Z) : list Z :=
  if decide (l = header_lba) then header_bytes
  else if decide (header_lba < l <= header_lba + 255) then replicate 512 0
  else sector d l.

Lemma write_sector_at (st : Stores D) d lba b : disks st !! k = Some (Some d) -> is_sector b ->
  exists d', write_sector st k lba b = Ret (true, set_disk st k d') /\
    forall l, sector d' l = if decide (l = lba) then b else sector d l.
Proof.
  intros Hd Hb. unfold write_sector. rewrite (proj2 (idx_Ret _ _ _) Hd). cbn [mbind outcome_mbind].
  pose proof (write_works d lba b) as Hok. pose proof (read_after_write d lba b) as Hr.
  destruct (sector_write d lba b) as [ok d']. cbn in Hok, Hr. subst ok. exists d'. split; [done|]. intros l. by apply Hr.
Qed.

Lemma set_disk_twice (st : Stores D) d d' : set_disk (set_disk st k d) k d' = set_disk st k d'.
Proof. unfold set_disk. cbn. by rewrite list_insert_insert_eq. Qed.

Lemma clear_slots_spec (st : Stores D) d l : disks st !! k = Some (Some d) ->
  exists d', clear_slots st k l = Ret (set_disk st k d') /\
    forall x, sector d' x = if decide (x ∈ record_lba <$> l) then replicate 512 0 else sector d x.
Proof.
  revert st d. induction l as [|i l IH]; intros st d Hd; cbn [clear_slots].
  { exists d. split; [unfold set_disk; rewrite list_insert_id by done; by destruct st|].
    intros x. by rewrite decide_False by (apply not_elem_of_nil). }
  destruct (write_sector_at st d (record_lba i) (replicate 512 0) Hd is_sector_empty) as (d1 & -> & Hd1).
  cbn [mbind outcome_mbind]. destruct (IH (set_disk st k d1) d1) as (d' & -> & Hd').
  { cbn. rewrite list_lookup_insert_eq; [done|]. by eapply lookup_lt_Some. }
  exists d'. rewrite set_disk_twice. split; [done|]. intros x. rewrite Hd', Hd1. cbn [fmap list_fmap].
  destruct (decide (x ∈ record_lba <$> l)) as [Hin|Hin]; [by rewrite decide_True by (by right)|].
  destruct (decide (x = record_lba i)) as [->|Hne]; [by rewrite decide_True by left|].
  rewrite decide_False; [done|]. by intros [?|?]%elem_of_cons.
Qed.

Lemma elem_of_slots x : x ∈ record_lba <$> seqZ 0 MAX_RECORDS <-> header_lba < x <= header_lba + 255.
Proof.
  rewrite list_elem_of_fmap. unfold record_lba, header_lba, STORE_BASE_LBA, MAX_RECORDS. split.
  - intros (i & -> & Hi%elem_of_seqZ). lia.
  - intros Hx. exists (x - 2049). rewrite elem_of_seqZ. lia.
Qed.

Lemma is_sector_header : is_sector header_bytes.
Proof. split; [done|]. apply (bool_decide_unpack _). by vm_compute. Qed.

(** A disk can be given a store: it is neither formatted as one nor as ext2. *)
Definition no_store (d : D) : Prop :=
  let b := sector d header_lba in
  (word b 0 =? STORE_MAGIC) && (word b 4 =? 1) && (word b 8 =? MAX_RECORDS) = false /\
  u16_at (sector d 2) 56 <> 0xEF53.

Lemma read_sector_at (st : Stores D) d lba : disks st !! k = Some (Some d) -> read_sector st k lba = Ret (Some (sector d lba)).
Proof.
  intros Hd. unfold read_sector. rewrite (proj2 (idx_Ret _ _ _) Hd). cbn [mbind outcome_mbind]. by rewrite read_works.
Qed.

Lemma present_at (st : Stores D) d : (k < 4)%nat -> disks st !! k = Some (Some d) -> is_present_at st k = Ret true.
Proof.
  intros Hk Hd. unfold is_present_at. destruct (Nat.leb_spec 4 k); [lia|].
  rewrite (proj2 (idx_Ret _ _ _) Hd). cbn [mbind outcome_mbind]. by rewrite bool_decide_eq_true_2 by done.
Qed.

Lemma mount_formats (st : Stores D) d : (k < 4)%nat -> length (mounted st) = 4%nat -> disks st !! k = Some (Some d) -> no_store d ->
  exists st' d', mount st k = Ret (true, st') /\ holds st' d' /\ (forall l, sector d' l = formatted d l) /\
    forall j, j <> k -> disks st' !! j = disks st !! j.
Proof.
  intros Hk Hlen Hd [Hno Hext]. unfold mount. rewrite (present_at st d Hk Hd). cbn [mbind outcome_mbind negb].
  rewrite (read_sector_at st d) by done. cbn [mbind outcome_mbind]. rewrite Hno.
  unfold is_ext2_disk. rewrite (read_sector_at st d) by done. cbn [mbind outcome_mbind].
  destruct (Z.eqb_spec (u16_at (sector d 2) 56) 0xEF53); [done|].
  destruct (write_sector_at st d header_lba header_bytes Hd is_sector_header) as (d1 & -> & Hd1). cbn [mbind outcome_mbind negb].
  destruct (clear_slots_spec (set_disk st k d1) d1 (seqZ 0 MAX_RECORDS)) as (d' & -> & Hd').
  { cbn. rewrite list_lookup_insert_eq; [done|]. by eapply lookup_lt_Some. }
  cbn [mbind outcome_mbind]. rewrite set_disk_twice. unfold set_mounted. cbn [mounted set_disk].
  rewrite set_idx_lt by lia. cbn [mbind outcome_mbind]. eexists _, d'. split; [done|]. split_and!.
  - split; cbn; rewrite list_lookup_insert_eq; [done|lia|done|by eapply lookup_lt_Some].
  - intros l. rewrite Hd', Hd1. unfold formatted.
    destruct (decide (l ∈ _)) as [Hin%elem_of_slots|Hin].
    + by rewrite decide_False, decide_True by lia.
    + rewrite elem_of_slots in Hin. destruct (decide (l = header_lba)); [done|]. by rewrite decide_False.
  - intros j Hj. cbn. by rewrite list_lookup_insert_ne.
Qed.

Lemma formatted_shows (d d' : D) : (forall l, sector d' l = formatted d l) -> shows d' ∅.
Proof.
  intros Hf. assert (Hnone : forall i, 0 <= i < 255 -> row d' i = None).
  { intros i Hi. unfold row. rewrite Hf. unfold formatted, record_lba, header_lba, STORE_BASE_LBA.
    by rewrite decide_False, decide_True by lia. }
  split.
  - rewrite Hf. unfold formatted. rewrite decide_True by done. by vm_compute.
  - intros i s Hi Hs. by rewrite Hnone in Hs.
  - intros i j s t Hi Hj Hs. by rewrite Hnone in Hs.
  - intros key bytes. rewrite lookup_empty. split; [done|]. intros (i & s & Hi & Hs & _). by rewrite Hnone in Hs.
Qed.

(** A disk that has a store keeps its records. *)
Lemma mount_keeps (st : Stores D) d m : (k < 4)%nat -> length (mounted st) = 4%nat -> disks st !! k = Some (Some d) -> shows d m ->
  exists st', mount st k = Ret (true, st') /\ goes_to st st' m.
Proof.
  intros Hk Hlen Hd Hsh. unfold mount. rewrite (present_at st d Hk Hd). cbn [mbind outcome_mbind negb].
  rewrite (read_sector_at st d) by done. cbn [mbind outcome_mbind].
  destruct (sh_header _ _ Hsh) as (-> & -> & ->). cbn [Z.eqb andb]. rewrite !Z.eqb_refl. cbn [andb].
  unfold set_mounted. rewrite set_idx_lt by lia. cbn [mbind outcome_mbind]. eexists. split; [done|].
  exists d. split_and!; [|done|done]. split; cbn; [by rewrite list_lookup_insert_eq by lia|done].
Qed.

(** ** Histories *)

(** A call on the store, or a restart of the machine that mounts it again. *)
Inductive call := Write (key : Z) (bytes : list Z) | Read (key : Z) (buf : list Z) | Delete (key : Z) | Reboot.
Inductive reply := Done (ok : bool) | Got (r : option nat * list Z).

Definition call_ok (c : call) : Prop :=
  match c with Write key bytes => 0 <= key < 2 ^ 32 /\ Forall is_byte bytes | _ => True end.

Definition exec (st : Stores D) (c : call) : outcome (reply * Stores D) :=
  match c with
  | Write key bytes => let! (ok, st) := write_record st k key bytes in Ret (Done ok, st)
  | Read key buf => let! r := read_record st k key buf in Ret (Got r, st)
  | Delete key => let! (ok, st) := delete_record st k key in Ret (Done ok, st)
  | Reboot => let! (ok, st) := mount (mkStores (replicate 4 false) (disks st)) k in Ret (Done ok, st)
  end.

Fixpoint exec_all (st : Stores D) (cs : list call) : outcome (list reply * Stores D) :=
  match cs with
  | [] => Ret ([], st)
  | c :: cs' => let! (r, st) := exec st c in let! (rs, st) := exec_all st cs' in Ret (r :: rs, st)
  end.

Definition spec_exec (m : gmap Z (list Z)) (c : call) : reply * gmap Z (list Z) :=
  match c with
  | Write key bytes => let (ok, m) := spec_write m key bytes in (Done ok, m)
  | Read key buf => (Got (spec_read m key buf), m)
  | Delete key => let (ok, m) := spec_delete m key in (Done ok, m)
  | Reboot => (Done true, m)
  end.

Fixpoint spec_all (m : gmap Z (list Z)) (cs : list call) : list reply * gmap Z (list Z) :=
  match cs with
  | [] => ([], m)
  | c :: cs' => let (r, m) := spec_exec m c in let (rs, m) := spec_all m cs' in (r :: rs, m)
  end.

Lemma exec_refines st d m c : (k < 4)%nat -> call_ok c -> holds st d -> shows d m ->
  exists st', exec st c = Ret ((spec_exec m c).1, st') /\ goes_to st st' (spec_exec m c).2.
Proof.
  intros Hk Hc Hst Hsh. destruct c as [key bytes|key buf|key|]; cbn [exec spec_exec].
  - destruct Hc as [Hkey Hb]. destruct (write_record_spec st d m key bytes Hst Hsh Hkey Hb) as (st' & -> & Hg).
    exists st'. by destruct (spec_write m key bytes).
  - rewrite (read_record_spec st d m) by done. exists st. split; [done|]. by eapply goes_to_refl.
  - destruct (delete_record_spec st d m key Hst Hsh) as (st' & -> & Hg). by exists st'.
  - destruct (mount_keeps (mkStores (replicate 4 false) (disks st)) d m Hk) as (st' & -> & Hg); [done|apply Hst|done|].
    by exists st'.
Qed.

Lemma exec_all_refines cs st d m : (k < 4)%nat -> Forall call_ok cs -> holds st d -> shows d m ->
  exists st', exec_all st cs = Ret ((spec_all m cs).1, st') /\ goes_to st st' (spec_all m cs).2.
Proof.
  intros Hk Hcs. revert st d m. induction Hcs as [|c cs Hc Hcs IH]; intros st d m Hst Hsh; cbn [exec_all spec_all].
  { exists st. split; [done|]. by eapply goes_to_refl. }
  destruct (exec_refines st d m c Hk Hc Hst Hsh) as (st1 & -> & d1 & Hst1 & Hsh1 & Hd1). cbn [mbind outcome_mbind].
  destruct (spec_exec m c) as [r m1]. cbn [fst snd] in *.
  destruct (IH st1 d1 m1 Hst1 Hsh1) as (st2 & -> & d2 & Hst2 & Hsh2 & Hd2). cbn [mbind outcome_mbind].
  destruct (spec_all m1 cs) as [rs m2]. exists st2. split; [done|]. exists d2. split_and!; [done|done|].
  intros j Hj. by rewrite Hd2, Hd1.
Qed.

(** C30: Mounting the record store on a present disk that has no store and is not
    ext2 succeeds, and from then on any history of writes, reads, deletions and
    restarts of the machine runs without abort or error and answers exactly as a
    finite map from record numbers to byte strings does: at most 496 bytes of a
    record are kept, a 256th record is refused, and records survive restarts. No
    other disk changes. *)
Theorem record_store_refines_a_durable_map (st : Stores D) d cs :
  (k < 4)%nat -> length (mounted st) = 4%nat -> disks st !! k = Some (Some d) -> no_store d -> Forall call_ok cs ->
  exists st1 st2 d2, mount st k = Ret (true, st1) /\ exec_all st1 cs = Ret ((spec_all ∅ cs).1, st2) /\
    holds st2 d2 /\ shows d2 (spec_all ∅ cs).2 /\ forall j, j <> k -> disks st2 !! j = disks st !! j.
Proof.
  intros Hk Hlen Hd Hno Hcs. destruct (mount_formats st d Hk Hlen Hd Hno) as (st1 & d1 & Hm & Hst1 & Hf & Hj).
  destruct (exec_all_refines cs st1 d1 ∅ Hk Hcs Hst1 (formatted_shows d d1 Hf)) as (st2 & He & d2 & Hst2 & Hsh2 & Hj2).
  exists st1, st2, d2. split_and!; auto. intros j Hne. by rewrite Hj2, Hj.
Qed.

(** Listing the records gives every number once, in the order of the slots. *)
Theorem list_records_is_exact st d m out : holds st d -> shows d m -> (255 <= length out)%nat ->
  exists ks, list_records st k out = Ret (length ks, splice out 0 ks) /\ NoDup ks /\ length ks = size m /\
    forall key, key ∈ ks <-> is_Some (m !! key).
Proof.
  intros Hst Hsh Hout. unfold list_records. rewrite (proj2 (idx_Ret _ _ _) (proj1 Hst)). cbn [mbind outcome_mbind negb].
  rewrite (list_scan_holds st d) by (first [done|rewrite length_seqZ; unfold MAX_RECORDS; lia]).
  exists (keys d). split_and!; [done|by eapply keys_NoDup|by erewrite size_keys|]. intros key. by apply elem_of_keys.
Qed.

(** The store is put on the first disk whatever else is on it: when a FAT16
    volume of that disk has a file with a sector among 2049 to 2303, mounting
    the store for the first time succeeds and fills that part of the file with
    zeros, while the file's chain and directory entry stay. *)
Theorem store_format_zeroes_fat_files (st : Stores D) d b cs i l :
  (k < 4)%nat -> length (mounted st) = 4%nat -> disks st !! k = Some (Some d) -> no_store d ->
  fat_table.volume_ok b -> fat_table.linked b d cs -> fat_file.file_sectors b cs !! i = Some l -> 2049 <= l <= 2303 ->
  fat.fat_start_lba b + fat.fat_count b * fat.fat_size_16 b <= 2048 ->
  exists st' d', mount st k = Ret (true, st') /\ disks st' !! k = Some (Some d') /\ fat_table.linked b d' cs /\
    forall o, (o < 512)%nat -> fat_file.content b d' cs !! (i * 512 + o)%nat = Some 0.
Proof.
  intros Hk Hlen Hd Hno Hv Hl Hi Hrange Htab.
  destruct (mount_formats st d Hk Hlen Hd Hno) as (st' & d' & Hm & Hst & Hf & _). exists st', d'. split_and!; [done|apply Hst| |].
  - apply (fat_table.linked_entries b d); [|done]. intros c Hc. unfold fat_table.entry. rewrite Hf. unfold formatted, header_lba, STORE_BASE_LBA.
    destruct (fat_table.linked_nonzero b d cs c Hl Hc) as [Hcr _].
    assert (fat_table.tab_lba b 0 c < 2048).
    { unfold fat_table.tab_lba, fat_table.clusters in *. destruct Hv.
      assert (c / 256 < fat.fat_size_16 b) by (apply Z.div_lt_upper_bound; lia). nia. }
    by rewrite !decide_False by lia.
  - intros o Ho. rewrite (fat_file.content_lookup b d' cs i l o Hi Ho), Hf. unfold formatted, header_lba, STORE_BASE_LBA.
    rewrite decide_False, decide_True by lia. by apply lookup_replicate.
Qed.
End Map.

(** ** Witnesses *)

Definition blank : Stores RamDisk := mkStores (replicate 4 false) [Some (mkDisk ∅); None; None; None].

Lemma record_store_refines_a_durable_map_witness :
  exists st1 st2, mount blank 0 = Ret (true, st1) /\
    exec_all 0 st1 [Write 7 [104; 105]; Reboot; Read 7 [0; 0; 0]; Delete 7; Delete 7] =
      Ret ([Done true; Done true; Got (Some 2%nat, [104; 105; 0]); Done true; Done false], st2).
Proof.
  destruct (record_store_refines_a_durable_map 0 blank (mkDisk ∅)
    [Write 7 [104; 105]; Reboot; Read 7 [0; 0; 0]; Delete 7; Delete 7]) as (st1 & st2 & d2 & Hm & He & _).
  - lia.
  - done.
  - done.
  - split; [by vm_compute|by vm_compute].
  - repeat constructor; cbn; unfold is_byte; lia.
  - exists st1, st2. split; [exact Hm|]. rewrite He. do 2 f_equal.
Defined.

(** A FAT16 volume on the whole disk with a file in sector 2049. *)
Definition fat_bpb : fat.Bpb := fat.mkBpb 512 1 1 2 16 9 1 19 20.
Definition fat_disk : RamDisk := mkDisk (<[8 := splice (replicate 512 0) 478 [0xFF; 0xFF]]> (<[2049 := replicate 512 65]> ∅)).

Lemma store_format_zeroes_fat_files_witness :
  exists st' d', mount (mkStores (replicate 4 false) [Some fat_disk; None; None; None]) 0 = Ret (true, st') /\
    disks st' !! 0%nat = Some (Some d') /\
    fat_file.content fat_bpb fat_disk [2031] !! 0%nat = Some 65 /\ fat_file.content fat_bpb d' [2031] !! 0%nat = Some 0.
Proof.
  destruct (store_format_zeroes_fat_files 0 (mkStores (replicate 4 false) [Some fat_disk; None; None; None]) fat_disk fat_bpb [2031] 0 2049)
    as (st' & d' & Hm & Hd & _ & Hz).
  - lia.
  - done.
  - done.
  - split; [by vm_compute|by vm_compute].
  - by split; cbn; unfold u32_max; change (fat.root_sectors fat_bpb) with 1; lia.
  - split_and!; [done|apply NoDup_singleton|].
    intros [|i] c Hc; cbn in Hc; [injection Hc as <-|done]. split; [split; by vm_compute|by vm_compute].
  - done.
  - lia.
  - by vm_compute.
  - exists st', d'. split_and!; [exact Hm|exact Hd|by vm_compute|]. exact (Hz 0%nat ltac:(lia)).
Defined.
End store_spec.
