(* ===== verification/StoreFs.v ===== *)
(** * Files made from kernel state (kernel/src/kernel/fs/diskfs.rs, fs/procfs.rs)

    Module [diskfs] shows the records of the disk store as files /store/<id> of
    the in-memory filesystem, module [procfs] the counters of the kernel as files
    of /proc. Numbers are written in decimal by loops that fill a small buffer
    from its end; running out of the buffer is an index underflow, so [Panic].
    The in-memory filesystem is [None] until the kernel has made it. *)

From stdpp Require Import base list gmap strings list_numbers.
From Stdlib Require Import ZArith Lia.
From S2P Require Import Prelude RamFs Mbr DiskStore.

Local Open Scope Z_scope.

(** ** Decimal numbers *)

(** [while n > 0 { i -= 1; buf[i] = b'0' + (n % 10); n /= 10 }] with room for
    [room] digits before those in [acc]. *)
Fixpoint digits (room : nat) (n : Z) (acc : list Z) : outcome (list Z) :=
  if 0 <? n then
    match room with
    | O => Panic
    | S room' => digits room' (n / 10) (48 + n mod 10 :: acc)
    end
  else Ret acc.

Definition decimal (room : nat) (n : Z) : outcome (list Z) :=
  if n =? 0 then Ret [48] else digits room n [].

(** The digits of a number, the most significant first. *)
Fixpoint dec (room : nat) (n : Z) : list Z :=
  match room with
  | O => []
  | S room' => if 0 <? n then dec room' (n / 10) ++ [48 + n mod 10] else []
  end.

Lemma digits_dec room : forall n acc, 0 <= n < 10 ^ Z.of_nat room -> digits room n acc = Ret (dec room n ++ acc).
Proof.
  induction room as [|room IH]; intros n acc Hn; cbn [digits dec].
  - destruct (Z.ltb_spec 0 n); [cbn in Hn; lia|done].
  - destruct (Z.ltb_spec 0 n); [|done]. rewrite IH; [by rewrite <- app_assoc|].
    rewrite Nat2Z.inj_succ, Z.pow_succ_r in Hn by lia. split; [apply Z.div_pos; lia|apply Z.div_lt_upper_bound; lia].
Qed.

Definition value (ds : list Z) : Z := foldl (fun v c => v * 10 + (c - 48)) 0 ds.
Definition is_digit (c : Z) : Prop := 48 <= c <= 57.

Lemma value_dec room : forall n, 0 <= n < 10 ^ Z.of_nat room -> value (dec room n) = n.
Proof.
  induction room as [|room IH]; intros n Hn; cbn [dec]; [cbn in *; lia|].
  destruct (Z.ltb_spec 0 n); [|cbn; lia]. unfold value in *. rewrite foldl_app. cbn [foldl]. rewrite IH.
  - pose proof (Z.div_mod n 10). lia.
  - rewrite Nat2Z.inj_succ, Z.pow_succ_r in Hn by lia. split; [apply Z.div_pos; lia|apply Z.div_lt_upper_bound; lia].
Qed.

Lemma dec_digits room : forall n, Forall is_digit (dec room n).
Proof.
  induction room as [|room IH]; intros n; cbn [dec]; [constructor|]. destruct (0 <? n); [|constructor].
  apply Forall_app_2; [apply IH|]. constructor; [|constructor]. unfold is_digit. pose proof (Z.mod_pos_bound n 10). lia.
Qed.

Lemma dec_nonempty room n : (0 < room)%nat -> 0 < n -> dec room n <> [].
Proof. destruct room; [lia|]. intros _ Hn. cbn [dec]. destruct (Z.ltb_spec 0 n); [|lia]. by destruct (dec room (n / 10)). Qed.

Module diskfs.
Import ramfs disk_store.

(* @src fs/diskfs.rs 15-20 push_u64 *)
Definition push_u64 (n : Z) : outcome (list Z) := decimal 20 n.

(* @src fs/diskfs.rs 137-142 push_u32_to_str *)
Definition push_u32_to_str (n : Z) : outcome (list Z) := decimal 10 n.

(* @src fs/diskfs.rs 130-135 record_path *)
Definition record_path (id : Z) : outcome (list Z) := let! ds := push_u32_to_str id in Ret (str "/store/" ++ ds).

(* @src fs/diskfs.rs 173-176 parse_record_id (loop) *)
Fixpoint parse_digits (n : Z) (s : list Z) : option Z :=
  match s with
  | [] => Some n
  | c :: s' => if (c <? 48) || (57 <? c) then None else parse_digits (wrap 32 (wrap 32 (n * 10) + (c - 48))) s'
  end.

(* @src fs/diskfs.rs 169-178 parse_record_id *)
Definition parse_record_id (path : list Z) : option Z :=
  if starts_with path (str "/store/") then
    let suffix := drop 7 path in
    if bool_decide (suffix = []) then None else parse_digits 0 suffix
  else None.

(** [let _ = fs.write_file(path, data)]: an error keeps what was done. *)
Definition ignore {W E A} (p : prog W E A) (w : W) : outcome W := let! (_, w) := p w in Ret w.

Section DiskFs.
Context {D : Type} `{BlockDevice D}.

(* @src fs/diskfs.rs 106-115 refresh_record *)
Definition refresh_record (st : Stores D) (fs : option RamFs) (record_id : Z) : outcome (option RamFs) :=
  match fs with
  | None => Ret None
  | Some f =>
      let! m := is_mounted st 0 in
      if negb m then Ret (Some f)
      else
        let! path := record_path record_id in
        let! (r, buf) := read_record st 0 record_id (replicate RECORD_DATA_MAX 0) in
        match r with
        | Some len => let! f := ignore (write_file path (take len buf)) f in Ret (Some f)
        | None => Ret (Some f)
        end
  end.

(* @src fs/diskfs.rs 95-101 refresh_all_records (loop) *)
Fixpoint refresh_ids (st : Stores D) (ids : list Z) (f : RamFs) : outcome RamFs :=
  match ids with
  | [] => Ret f
  | i :: ids' =>
      let! path := record_path i in
      let! (r, buf) := read_record st 0 i (replicate RECORD_DATA_MAX 0) in
      let! f := (match r with Some len => ignore (write_file path (take len buf)) f | None => Ret f end) in
      refresh_ids st ids' f
  end.

(* @src fs/diskfs.rs 88-102 refresh_all_records *)
Definition refresh_all_records (st : Stores D) (fs : option RamFs) : outcome (option RamFs) :=
  match fs with
  | None => Ret None
  | Some f =>
      let! m := is_mounted st 0 in
      if negb m then Ret (Some f)
      else
        let! (n, ids) := list_records st 0 (replicate 255 0) in
        let! f := refresh_ids st (take n ids) f in
        Ret (Some f)
  end.

(* @src fs/diskfs.rs 118-127 write_record *)
Definition write_record (st : Stores D) (fs : option RamFs) (record_id : Z) (bytes : list Z)
    : outcome (bool * Stores D * option RamFs) :=
  let! (ok, st) := disk_store.write_record st 0 record_id bytes in
  if negb ok then Ret (ok, st, fs)
  else match fs with
  | None => Ret (ok, st, None)
  | Some f =>
      let! path := record_path record_id in
      let! f := ignore (write_file path bytes) f in
      Ret (ok, st, Some f)
  end.

(** A number and a newline for each record, while they fit with room to spare. *)
(* @src fs/diskfs.rs 151-165 list_store_raw (loop) *)
Fixpoint list_ids (ids : list Z) (buf : list Z) (pos : nat) : outcome (nat * list Z) :=
  match ids with
  | [] => Ret (pos, buf)
  | i :: ids' =>
      let! s := decimal 12 i in
      if (length buf <=? pos + length s + 1)%nat then Ret (pos, buf)
      else list_ids ids' (splice buf pos (s ++ [10])) (pos + length s + 1)
  end.

(* @src fs/diskfs.rs 145-166 list_store_raw *)
Definition list_store_raw (st : Stores D) (buf : list Z) : outcome (Z * list Z) :=
  let! m := is_mounted st 0 in
  if negb m then Ret (0, buf)
  else
    let! (n, ids) := list_records st 0 (replicate 255 0) in
    let! (pos, buf) := list_ids (take n ids) buf 0 in
    Ret (Z.of_nat pos, buf).

(** [/diskinfo]: a line for each disk; [info i] is [ata::disk_info(i)]. *)
Definition labels : list (list Z) :=
  [str "disk0 (primary master)"; str "disk1 (primary slave)"; str "disk2 (secondary master)"; str "disk3 (secondary slave)"].
Definition mounts : list (list Z) := [str "/disk"; str "(no mount)"; str "/ext2"; str "(no mount)"].

(* @src fs/diskfs.rs 43-59 populate (drives) *)
Fixpoint disk_lines (st : Stores D) (info : nat -> option (Z * bool * bool)) (ixs : list nat) : outcome (list Z) :=
  match ixs with
  | [] => Ret []
  | i :: ixs' =>
      let! label := idx labels i in
      let! present := is_present_at st i in
      let! line := (if (present : bool) then
          match info i with
          | Some (secs, _, lba48) =>
              let! mb := push_u64 (secs / 2048) in
              let! mnt := idx mounts i in
              Ret (mb ++ str " MB" ++ (if lba48 : bool then str " LBA48" else []) ++ str "  mount=" ++ mnt)
          | None => Ret []
          end
        else Ret (str "not present")) in
      let! rest := disk_lines st info ixs' in
      Ret (str "  " ++ label ++ str ": " ++ line ++ [10] ++ rest)
  end.

(* @src fs/diskfs.rs 61-71 populate (store) *)
Definition store_line (st : Stores D) : outcome (list Z) :=
  let! m := is_mounted st 0 in
  let! text := (if (m : bool) then
      let! (n, _) := list_records st 0 (replicate 255 0) in
      let! ds := push_u64 (Z.of_nat n) in
      Ret (ds ++ str " record(s)")
    else Ret (str "not mounted")) in
  Ret ([10] ++ str "Disk Record Store (/store):" ++ [10] ++ str "  Disk 0: " ++ text ++ [10]).

Definition mount_lines : list Z :=
  [10] ++ str "Mount Points:" ++ [10] ++
  str "  /        ramfs  (volatile, cleared on reboot)" ++ [10] ++
  str "  /disk    fat16  (persistent, primary disk)" ++ [10] ++
  str "  /ext2    ext2   (read-only, secondary disk)" ++ [10] ++
  str "  /store   oxds   (persistent record store, primary disk)" ++ [10] ++
  str "  /dev     devfs  (devices: null, tty)" ++ [10] ++
  str "  /proc    procfs (runtime info: uptime, meminfo, ...)" ++ [10].

(* @src fs/diskfs.rs 25-85 populate *)
Definition populate (st : Stores D) (info : nat -> option (Z * bool * bool)) (fs : option RamFs) : outcome (option RamFs) :=
  match fs with
  | None => Ret None
  | Some f =>
      let! f := ignore (create_dir (str "/disk")) f in
      let! f := ignore (create_dir (str "/ext2")) f in
      let! f := ignore (create_dir (str "/store")) f in
      let! drives := disk_lines st info [0; 1; 2; 3]%nat in
      let! store := store_line st in
      let text := str "OxideOS Disk Summary" ++ [10] ++ str "====================" ++ [10; 10] ++
                  str "ATA Drives:" ++ [10] ++ drives ++ store ++ mount_lines in
      let! f := ignore (write_file (str "/diskinfo") text) f in
      refresh_all_records st (Some f)
  end.

End DiskFs.
End diskfs.

Module procfs.
Import ramfs diskfs.

(** [version] is [PROC_VERSION], which the build sets. *)
(* @src fs/procfs.rs 26-53 populate *)
Definition populate (version : list Z) (fs : option RamFs) : outcome (option RamFs) :=
  match fs with
  | None => Ret None
  | Some f =>
      let! f := ignore (create_dir (str "/proc")) f in
      let! f := ignore (write_file (str "/proc/version") version) f in
      let! f := ignore (write_file (str "/proc/cpuinfo")
        (str "processor" ++ [9] ++ str ": 0" ++ [10] ++ str "vendor_id" ++ [9] ++ str ": GenuineIntel" ++ [10] ++
         str "cpu family" ++ [9] ++ str ": 6" ++ [10] ++ str "model name" ++ [9] ++ str ": OxideOS Virtual CPU @ 100Hz" ++ [10] ++
         str "arch" ++ [9; 9] ++ str ": x86_64" ++ [10])) f in
      let! f := ignore (write_file (str "/proc/mounts")
        (str "ramfs / ramfs rw 0 0" ++ [10] ++ str "fat16 /disk fat16 rw 0 0" ++ [10] ++
         str "ext2 /ext2 ext2 rw 0 0" ++ [10] ++ str "devfs /dev devfs rw 0 0" ++ [10])) f in
      let! f := ignore (write_file (str "/proc/uptime") (str "0.00 0.00" ++ [10])) f in
      let! f := ignore (write_file (str "/proc/meminfo") (str "MemTotal: 0 kB" ++ [10])) f in
      Ret (Some f)
  end.

(* @src fs/procfs.rs 96-102 write_proc_file *)
Definition write_proc_file (path bytes : list Z) (fs : option RamFs) : outcome (option RamFs) :=
  match fs with
  | None => Ret None
  | Some f =>
      match resolve f path with
      | None => Ret (Some f)
      | Some i =>
          let! n := idx (inodes f) i in
          let! l := set_idx (inodes f) i (set_data n bytes) in
          Ret (Some (mkRamFs l))
      end
  end.

(* @src fs/procfs.rs 65-77 refresh_uptime *)
Definition refresh_uptime (ticks : Z) (fs : option RamFs) : outcome (option RamFs) :=
  let secs := ticks / 100 in
  let frac := (ticks mod 100) / 10 in
  let! a := push_u64 secs in
  let! b := push_u64 frac in
  write_proc_file (str "/proc/uptime") (a ++ [46] ++ b ++ str " 0.00" ++ [10]) fs.

Definition mem_line (label : list Z) (kb : Z) : outcome (list Z) :=
  let! ds := push_u64 kb in Ret (label ++ ds ++ str " kB" ++ [10]).

(** The frame counts are those of [frame_stats]. *)
(* @src fs/procfs.rs 79-94 refresh_meminfo *)
Definition refresh_meminfo (alloc_frames total_frames : Z) (fs : option RamFs) : outcome (option RamFs) :=
  let! t := cmul u64_max total_frames 4096 in
  let! u := cmul u64_max alloc_frames 4096 in
  let total_kb := t / 1024 in
  let used_kb := u / 1024 in
  let free_kb := sat_sub total_kb used_kb in
  let! l1 := mem_line (str "MemTotal:     ") total_kb in
  let! l2 := mem_line (str "MemFree:      ") free_kb in
  let! l3 := mem_line (str "MemAvailable: ") free_kb in
  let! l4 := mem_line (str "MemUsed:      ") used_kb in
  write_proc_file (str "/proc/meminfo") (l1 ++ l2 ++ l3 ++ l4) fs.

(* @src fs/procfs.rs 57-63 refresh *)
Definition refresh (ticks alloc_frames total_frames : Z) (path : list Z) (fs : option RamFs) : outcome (option RamFs) :=
  if bool_decide (path = str "/proc/uptime") then refresh_uptime ticks fs
  else if bool_decide (path = str "/proc/meminfo") then refresh_meminfo alloc_frames total_frames fs
  else Ret fs.

End procfs.

Module store_fs_spec.
Import ramfs ramfs_spec disk_store store_spec diskfs.

(** The digits of a record number. *)
Definition id_digits (i : Z) : list Z := if i =? 0 then [48] else dec 10 i.

Lemma decimal_ok i : 0 <= i < 2 ^ 32 -> decimal 10 i = Ret (id_digits i).
Proof.
  intros Hi. unfold decimal, id_digits. destruct (Z.eqb_spec i 0); [done|].
  rewrite digits_dec; [by rewrite app_nil_r|]. change (10 ^ Z.of_nat 10) with 10000000000. lia.
Qed.

Lemma id_digits_ok i : 0 <= i < 2 ^ 32 -> Forall is_digit (id_digits i) /\ id_digits i <> [] /\ value (id_digits i) = i.
Proof.
  intros Hi. unfold id_digits. destruct (Z.eqb_spec i 0) as [->|Hne].
  - split_and!; [repeat constructor; unfold is_digit; lia|done|done].
  - split_and!; [apply dec_digits|apply dec_nonempty; lia|]. apply value_dec.
    change (10 ^ Z.of_nat 10) with 10000000000. lia.
Qed.

(** Parsing computes the value in 32 bits. *)
Lemma parse_digits_value ds : Forall is_digit ds -> forall n, parse_digits (wrap 32 n) ds =
  Some (wrap 32 (foldl (fun v c => v * 10 + (c - 48)) n ds)).
Proof.
  induction 1 as [|c ds Hc Hds IH]; intros n; cbn [parse_digits foldl]; [done|].
  unfold is_digit in Hc. destruct (Z.ltb_spec c 48), (Z.ltb_spec 57 c); cbn [orb]; try lia.
  rewrite <- IH. f_equal. unfold wrap. by rewrite Zplus_mod_idemp_l, <- Z.add_mod_idemp_l, Z.mul_mod_idemp_l, Z.add_mod_idemp_l by lia.
Qed.

Lemma record_path_ok i : 0 <= i < 2 ^ 32 -> record_path i = Ret (str "/store/" ++ id_digits i).
Proof. intros Hi. unfold record_path, push_u32_to_str. by rewrite decimal_ok. Qed.

Lemma starts_with_app pre s : starts_with (pre ++ s) pre = true.
Proof. induction pre as [|c pre IH]; [by destruct s|]. cbn. by rewrite Z.eqb_refl. Qed.

(** The path of every record is parsed back to its number. *)
Theorem record_path_round_trip i : 0 <= i < 2 ^ 32 ->
  exists path, record_path i = Ret path /\ parse_record_id path = Some i.
Proof.
  intros Hi. exists (str "/store/" ++ id_digits i). split; [by apply record_path_ok|].
  destruct (id_digits_ok i Hi) as (Hd & Hne & Hv). unfold parse_record_id.
  rewrite starts_with_app.
  change (drop 7 (str "/store/" ++ id_digits i)) with (id_digits i). rewrite bool_decide_eq_false_2 by done.
  change 0 with (wrap 32 0) at 1. rewrite parse_digits_value by done. unfold value in Hv. rewrite Hv.
  unfold wrap. by rewrite Z.mod_small.
Qed.

(** Numbers beyond 32 bits wrap around: two paths name one record. *)
Lemma long_record_numbers_wrap : parse_record_id (str "/store/4294967303") = parse_record_id (str "/store/7").
Proof. by vm_compute. Qed.

Lemma record_comps i : 0 <= i < 2 ^ 32 -> comps (str "/store/" ++ id_digits i) = [str "store"; id_digits i].
Proof.
  intros Hi. destruct (id_digits_ok i Hi) as (Hd & Hne & _).
  change (str "/store/" ++ id_digits i) with ([] ++ SLASH :: (str "store" ++ SLASH :: id_digits i)).
  rewrite !comps_sep, comps_nil, app_nil_l. rewrite (comps_name (id_digits i)) by (first [done|intros Hin;
    pose proof (proj1 (List.Forall_forall _ _) Hd SLASH (proj1 (list_elem_of_In _ _) Hin)) as H; unfold is_digit, SLASH in H; lia]).
  done.
Qed.

(** ** Records as files *)

Lemma contents_fits (s : RecordSlot) : (length (contents s) <= 496)%nat.
Proof. unfold contents, RECORD_DATA_MAX. rewrite length_take. lia. Qed.

Section Files.
Context {D : Type} `{DL : DiskLaws D}.

(** The record as [refresh_record] reads it into a buffer of 496 bytes. *)
Lemma read_whole_record (st : Stores D) d m key bytes : holds 0 st d -> shows d m -> m !! key = Some bytes ->
  exists buf, read_record st 0 key (replicate RECORD_DATA_MAX 0) = Ret (Some (length bytes), buf) /\ take (length bytes) buf = bytes.
Proof.
  intros Hst Hsh Hm. rewrite (read_record_spec 0 st d m) by done. unfold spec_read. rewrite Hm.
  assert (Hlen : (length bytes <= 496)%nat).
  { apply (sh_map _ _ Hsh) in Hm as (i & s & _ & _ & _ & <-). apply contents_fits. }
  rewrite length_replicate, Nat.min_l by (unfold RECORD_DATA_MAX; lia). eexists. split; [done|].
  rewrite (take_ge bytes) by done. unfold splice. rewrite take_0, app_nil_l. apply take_app_length'. done.
Qed.

(** Opening a file of the record store shows the record on the disk: when the
    store holds [bytes] under a number, refreshing it makes the file /store/<id>
    of the in-memory filesystem read as exactly [bytes], provided the directory
    is there and the name is no directory; every other path keeps its meaning. *)
Theorem store_file_shows_the_record (st : Stores D) d m key bytes f :
  holds 0 st d -> shows d m -> m !! key = Some bytes -> 0 <= key < 2 ^ 32 ->
  wf f -> Z.of_nat (length (inodes f)) + 2 < isize_max ->
  view f [str "store"] = Some ADir -> view f [str "store"; id_digits key] <> Some ADir ->
  exists path f', record_path key = Ret path /\ refresh_record st (Some f) key = Ret (Some f') /\ wf f' /\
    read_file f' path = Ret (Some bytes) /\
    forall q, q <> [str "store"; id_digits key] -> view f' q = view f q.
Proof.
  intros Hst Hsh Hm Hk W Hroom Hdir Hno. set (path := str "/store/" ++ id_digits key).
  pose proof (record_comps key Hk) as Hc. fold path in Hc.
  destruct (read_whole_record st d m key bytes Hst Hsh Hm) as (buf & Hr & Htake).
  set (v' := upd (view f) [str "store"; id_digits key] (Some (AFile bytes))).
  assert (Hstep : step_all [WriteFile path bytes; ReadFile path] (view f) = Some ([RDone; RData (Some bytes)], v')).
  { cbn [step_all step]. rewrite Hc. unfold create. cbn [removelast]. rewrite Hdir.
    assert (Hv : v' [str "store"; id_digits key] = Some (AFile bytes)) by (unfold v', upd; by rewrite decide_True).
    destruct (view f [str "store"; id_digits key]) as [[|old]|]; [done|..]; fold v'; cbn [step_all step]; by rewrite Hv. }
  destruct (ramfs_run_refines [WriteFile path bytes; ReadFile path] f (view f) _ v' W ltac:(done) ltac:(cbn [length]; lia) Hstep) as (f' & Hrun & W' & V' & _).
  cbn [run_all run] in Hrun. unfold done_reply in Hrun.
  apply bind_Ret in Hrun as ([r1 f1] & Hw & Hrun). apply bind_Ret in Hw as ([r f1'] & Hw & [= <- <-]).
  apply bind_Ret in Hrun as ([rs f2] & Hrd & Hlast). apply bind_Ret in Hrd as ([r2 f3] & Hrd & Hnil).
  apply bind_Ret in Hrd as (o & Hrd & Ho). cbn [mbind outcome_mbind run_all] in *. simplify_eq.
  exists path, f'. split_and!; [by apply record_path_ok| |done|done|].
  - unfold refresh_record, is_mounted. rewrite (proj2 (idx_Ret _ _ _) (proj1 Hst)). cbn [mbind outcome_mbind negb].
    rewrite record_path_ok by done. cbn [mbind outcome_mbind]. rewrite Hr. cbn [mbind outcome_mbind].
    rewrite Htake. unfold ignore. fold path. by rewrite Hw.
  - intros q Hq. rewrite V'. unfold v', upd. by rewrite decide_False.
Qed.
End Files.

(** ** Witnesses *)

Lemma record_path_round_trip_witness :
  exists path, record_path 4294967295 = Ret path /\ parse_record_id path = Some 4294967295.
Proof. apply (record_path_round_trip 4294967295). lia. Defined.

(** A filesystem with the directory /store. *)
Lemma sample_files : exists f, wf f /\ Z.of_nat (length (inodes f)) + 2 < isize_max /\
  view f [str "store"] = Some ADir /\ view f [str "store"; id_digits 7] = None.
Proof.
  destruct (booted [118]) as (f0 & _ & W0 & V0 & L0).
  destruct (ramfs_run_refines [CreateDir (str "/store")] f0 (boot_view [118]) [RDone]
    (upd (boot_view [118]) [str "store"] (Some ADir)) W0 V0) as (f & _ & W & V & L).
  - unfold isize_max. cbn [length]. lia.
  - vm_compute. reflexivity.
  - exists f. split_and!; [done|unfold isize_max; cbn [length] in L; lia|..]; rewrite V; by vm_compute.
Qed.

(** A store with record 7. *)
Lemma sample_store : exists (st : Stores RamDisk) d m,
  holds 0 st d /\ shows d m /\ m !! 7 = Some [104; 105].
Proof.
  destruct (mount_formats 0 blank (mkDisk ∅)) as (st1 & d1 & _ & Hst1 & Hf & _);
    [lia|done|done|split; by vm_compute|].
  destruct (exec_all_refines 0 [Write 7 [104; 105]] st1 d1 ∅ ltac:(lia)) as (st2 & _ & d2 & Hst2 & Hsh2 & _).
  - repeat constructor; cbn; unfold is_byte; lia.
  - done.
  - exact (formatted_shows _ d1 Hf).
  - exists st2, d2, (spec_all ∅ [Write 7 [104; 105]]).2. split_and!; [done..|]. by vm_compute.
Qed.

Lemma store_file_shows_the_record_witness : exists (st : Stores RamDisk) f f',
  refresh_record st (Some f) 7 = Ret (Some f') /\ read_file f' (str "/store/7") = Ret (Some [104; 105]).
Proof.
  destruct sample_files as (f & W & Hroom & Hdir & Hno), sample_store as (st & d & m & Hst & Hsh & Hm).
  destruct (store_file_shows_the_record st d m 7 [104; 105] f Hst Hsh Hm ltac:(lia) W Hroom Hdir ltac:(by rewrite Hno))
    as (path & f' & Hp & Hr & _ & Hrd & _).
  assert (path = str "/store/7") as -> by (vm_compute in Hp |- *; congruence).
  by exists st, f, f'.
Defined.
End store_fs_spec.
