(* ===== verification/Ext2.v ===== *)
(** * The ext2 driver: blocks, bitmaps and inodes (kernel/src/kernel/fs/ext2.rs)

    Module [ext2] translates the driver up to the records of inodes. Its world
    [Ext2] is the static [EXT2], the static buffer [SCRATCH] and the secondary
    disk. [SCRATCH] is one buffer for every caller: a function that reads a block
    leaves it there, and what a short block does not fill keeps its old bytes.

    Block and sector numbers are computed in [u32] with overflow checks; an index
    outside [SCRATCH] aborts the kernel. Ext2Ops.v goes on with directories and
    the calls on files. *)

From stdpp Require Import base list gmap strings list_numbers.
From Stdlib Require Import ZArith Lia.
From S2P Require Import Prelude Mbr.

Local Open Scope Z_scope.

Module ext2.

(* @src fs/ext2.rs 34-34 EXT2_FD_BASE *)
Definition EXT2_FD_BASE : Z := 80.
(* @src fs/ext2.rs 35-35 EXT2_FD_COUNT *)
Definition EXT2_FD_COUNT : nat := 16.
(* @src fs/ext2.rs 36-36 MAX_GROUPS *)
Definition MAX_GROUPS : nat := 8.
(* @src fs/ext2.rs 37-37 MAX_BLOCK *)
Definition MAX_BLOCK : nat := 4096.
(* @src fs/ext2.rs 40-40 EXT2_MAGIC *)
Definition EXT2_MAGIC : Z := 0xEF53.
(* @src fs/ext2.rs 43-43 S_IFREG *)
Definition S_IFREG : Z := 0x8000.
(* @src fs/ext2.rs 44-44 S_IFDIR *)
Definition S_IFDIR : Z := 0x4000.
(* @src fs/ext2.rs 47-47 FT_REG *)
Definition FT_REG : Z := 1.
(* @src fs/ext2.rs 48-48 FT_DIR *)
Definition FT_DIR : Z := 2.

(* @src fs/ext2.rs 52-59 BlockGroupDesc *)
Record BlockGroupDesc := mkDesc {
  block_bitmap : Z;
  inode_bitmap : Z;
  inode_table : Z;
  free_blocks_count : Z;
  free_inodes_count : Z;
  used_dirs_count : Z;
}.

(* @src fs/ext2.rs 62-67 BlockGroupDesc::zero *)
Definition zero_desc : BlockGroupDesc := mkDesc 0 0 0 0 0 0.

(* @src fs/ext2.rs 72-91 Inode *)
Record Inode := mkInode {
  mode : Z;
  uid : Z;
  size_lo : Z;
  atime : Z;
  ctime : Z;
  mtime : Z;
  dtime : Z;
  gid : Z;
  links_count : Z;
  blocks_512 : Z;
  flags : Z;
  osd1 : Z;
  block : list Z;
  generation : Z;
  file_acl : Z;
  size_hi : Z;
  faddr : Z;
}.

(* @src fs/ext2.rs 94-100 Inode::zero *)
Definition zero_inode : Inode := mkInode 0 0 0 0 0 0 0 0 0 0 0 0 (replicate 15 0) 0 0 0 0.

(* @src fs/ext2.rs 102-102 Inode::is_dir *)
Definition is_dir (i : Inode) : bool := Z.land (mode i) 0xF000 =? S_IFDIR.
(* @src fs/ext2.rs 103-103 Inode::is_file *)
Definition is_file (i : Inode) : bool := Z.land (mode i) 0xF000 =? S_IFREG.
(* @src fs/ext2.rs 104-104 Inode::size *)
Definition size (i : Inode) : Z := Z.lor (size_lo i) (Z.shiftl (size_hi i) 32).

(* @src fs/ext2.rs 109-117 Ext2Fd *)
Record Ext2Fd := mkFd {
  active : bool;
  inode_no : Z;
  file_size : Z;
  file_offset : Z;
  direct_blocks : list Z;
  writable : bool;
  append : bool;
}.

(* @src fs/ext2.rs 120-125 Ext2Fd::empty *)
Definition empty_fd : Ext2Fd := mkFd false 0 0 0 (replicate 12 0) false false.

(* @src fs/ext2.rs 129-144 Ext2State *)
Record Ext2State := mkState {
  ready : bool;
  lba_offset : Z;
  block_size : Z;
  sects_per_block : Z;
  inodes_per_group : Z;
  blocks_per_group : Z;
  inode_size : Z;
  first_data_block : Z;
  groups_count : Z;
  bgdt : list BlockGroupDesc;
  bgdt_block : Z;
  sb_free_blocks : Z;
  sb_free_inodes : Z;
  fds : list Ext2Fd;
}.

(* @src fs/ext2.rs 147-164 Ext2State::new *)
Definition new : Ext2State :=
  mkState false 0 1024 2 0 0 128 1 0 (replicate MAX_GROUPS zero_desc) 0 0 0 (replicate EXT2_FD_COUNT empty_fd).

(** The driver's state, its buffer and its disk. *)
(* @src fs/ext2.rs 167-170 EXT2, SCRATCH *)
Record Ext2 (D : Type) := mkExt2 { state : Ext2State; scratch : list Z; disk : D }.
Arguments mkExt2 {D}.
Arguments state {D}.
Arguments scratch {D}.
Arguments disk {D}.

Definition boot {D} (d : D) : Ext2 D := mkExt2 new (replicate MAX_BLOCK 0) d.

Definition set_state {D} (w : Ext2 D) (s : Ext2State) : Ext2 D := mkExt2 s (scratch w) (disk w).
Definition set_scratch {D} (w : Ext2 D) (b : list Z) : Ext2 D := mkExt2 (state w) b (disk w).
Definition set_disk {D} (w : Ext2 D) (d : D) : Ext2 D := mkExt2 (state w) (scratch w) d.

(** The fields the driver changes while it is mounted. *)
Definition set_counts (s : Ext2State) (b : list BlockGroupDesc) (fb fi : Z) : Ext2State :=
  mkState (ready s) (lba_offset s) (block_size s) (sects_per_block s) (inodes_per_group s) (blocks_per_group s)
    (inode_size s) (first_data_block s) (groups_count s) b (bgdt_block s) fb fi (fds s).
Definition set_fds (s : Ext2State) (l : list Ext2Fd) : Ext2State :=
  mkState (ready s) (lba_offset s) (block_size s) (sects_per_block s) (inodes_per_group s) (blocks_per_group s)
    (inode_size s) (first_data_block s) (groups_count s) (bgdt s) (bgdt_block s) (sb_free_blocks s) (sb_free_inodes s) l.

(** Division by zero aborts. *)
Definition cdiv (a b : Z) : outcome Z := if b =? 0 then Panic else Ret (a / b).
Definition div_ceil (a b : Z) : outcome Z := if b =? 0 then Panic else Ret ((a + b - 1) / b).
Definition crem (a b : Z) : outcome Z := if b =? 0 then Panic else Ret (a mod b).

(** Little-endian bytes. *)
Definition u16_le (x : Z) : list Z := le_encode 2 x.
Definition u32_le (x : Z) : list Z := le_encode 4 x.

(* @src fs/ext2.rs 219-222 scratch_u32 *)
Definition scratch_u32 (s : list Z) (offset : nat) : outcome Z :=
  let! b := slice s offset (offset + 4) in Ret (le_decode b).
(* @src fs/ext2.rs 224-227 scratch_u16 *)
Definition scratch_u16 (s : list Z) (offset : nat) : outcome Z :=
  let! b := slice s offset (offset + 2) in Ret (le_decode b).
(* @src fs/ext2.rs 229-232 scratch_u8 *)
Definition scratch_u8 (s : list Z) (offset : nat) : outcome Z := idx s offset.

Section Ext2.
Context {D : Type} `{BlockDevice D}.

Implicit Types w : Ext2 D.

(** ** Blocks *)

(** Sector [s] of the block goes to its place in [SCRATCH]; a failure ends the
    loop and leaves the sectors read before. *)
(* @src fs/ext2.rs 180-193 read_block_into_scratch (loop) *)
Fixpoint read_sectors (lba : Z) (ss : list Z) w : outcome (bool * Ext2 D) :=
  match ss with
  | [] => Ret (true, w)
  | s :: ss' =>
      let! l := cadd u32_max lba s in
      match sector_read (disk w) l with
      | None => Ret (false, w)
      | Some buf =>
          let! b := copy_at (scratch w) (Z.to_nat (s * 512)) buf in
          read_sectors lba ss' (set_scratch w b)
      end
  end.

(** [state.lba_offset + block_no * state.sects_per_block] *)
(* @src fs/ext2.rs 177-177 read_block_into_scratch (address) *)
Definition block_lba (s : Ext2State) (block_no : Z) : outcome Z :=
  let! x := cmul u32_max block_no (sects_per_block s) in
  cadd u32_max (lba_offset s) x.

(* @src fs/ext2.rs 176-195 read_block_into_scratch *)
Definition read_block_into_scratch (block_no : Z) w : outcome (bool * Ext2 D) :=
  let! lba := block_lba (state w) block_no in
  read_sectors lba (seqZ 0 (sects_per_block (state w))) w.

(* @src fs/ext2.rs 202-214 write_block_from_scratch (loop) *)
Fixpoint write_sectors (lba : Z) (ss : list Z) w : outcome (bool * Ext2 D) :=
  match ss with
  | [] => Ret (true, w)
  | s :: ss' =>
      let! l := cadd u32_max lba s in
      let! buf := slice (scratch w) (Z.to_nat (s * 512)) (Z.to_nat (s * 512) + 512) in
      let (ok, d) := sector_write (disk w) l buf in
      if ok : bool then write_sectors lba ss' (set_disk w d) else Ret (false, set_disk w d)
  end.

(* @src fs/ext2.rs 199-216 write_block_from_scratch *)
Definition write_block_from_scratch (block_no : Z) w : outcome (bool * Ext2 D) :=
  let! lba := block_lba (state w) block_no in
  write_sectors lba (seqZ 0 (sects_per_block (state w))) w.

(** Changing bytes of [SCRATCH]. *)
Definition patch_scratch (pos : nat) (bytes : list Z) w : outcome (Ext2 D) :=
  let! b := copy_at (scratch w) pos bytes in Ret (set_scratch w b).

(** ** Bitmaps *)

(* @src fs/ext2.rs 242-245 block_to_group_bit *)
Definition block_to_group_bit (s : Ext2State) (block_no : Z) : outcome (nat * Z) :=
  let! rel := csub block_no (first_data_block s) in
  let! g := cdiv rel (blocks_per_group s) in
  let! b := crem rel (blocks_per_group s) in
  Ret (Z.to_nat g, b).

(* @src fs/ext2.rs 248-250 group_bit_to_block *)
Definition group_bit_to_block (s : Ext2State) (group : nat) (bit : Z) : outcome Z :=
  let! x := cmul u32_max (Z.of_nat group) (blocks_per_group s) in
  let! y := cadd u32_max (first_data_block s) x in
  cadd u32_max y bit.

(* @src fs/ext2.rs 253-256 inode_to_group_bit *)
Definition inode_to_group_bit (s : Ext2State) (ino : Z) : outcome (nat * Z) :=
  let! i := csub ino 1 in
  let! g := cdiv i (inodes_per_group s) in
  let! b := crem i (inodes_per_group s) in
  Ret (Z.to_nat g, b).

(* @src fs/ext2.rs 260-271 write_bgdt_entry *)
Definition write_bgdt_entry (group : nat) w : outcome (bool * Ext2 D) :=
  let! (ok, w) := read_block_into_scratch (bgdt_block (state w)) w in
  if negb ok then Ret (false, w)
  else
    let base := (group * 32)%nat in
    let! desc := idx (bgdt (state w)) group in
    let! w := patch_scratch (base + 12) (u16_le (free_blocks_count desc)) w in
    let! w := patch_scratch (base + 14) (u16_le (free_inodes_count desc)) w in
    let! w := patch_scratch (base + 16) (u16_le (used_dirs_count desc)) w in
    write_block_from_scratch (bgdt_block (state w)) w.

(* @src fs/ext2.rs 279-286 write_superblock_free_counts *)
Definition write_superblock_free_counts w : outcome (bool * Ext2 D) :=
  let! sb_lba := cadd u32_max (lba_offset (state w)) 2 in
  match sector_read (disk w) sb_lba with
  | None => Ret (false, w)
  | Some sb0 =>
      let! sb0 := copy_at sb0 12 (u32_le (sb_free_blocks (state w))) in
      let! sb0 := copy_at sb0 16 (u32_le (sb_free_inodes (state w))) in
      let (ok, d) := sector_write (disk w) sb_lba sb0 in
      Ret (ok, set_disk w d)
  end.

(** The first clear bit of the bitmap in [SCRATCH], among [bits]. *)
(* @src fs/ext2.rs 304-313 ext2_alloc_block (bit loop) *)
Fixpoint find_clear (bs : Z) (s : list Z) (bits : list Z) : outcome (option Z) :=
  match bits with
  | [] => Ret None
  | b :: bits' =>
      if bs <=? b / 8 then Ret None
      else
        let! x := idx s (Z.to_nat (b / 8)) in
        if Z.land x (bit (b mod 8)) =? 0 then Ret (Some b) else find_clear bs s bits'
  end.

(** [scratch[bit / 8] |= 1 << (bit % 8)] and [&= !(1 << (bit % 8))] *)
(* @src fs/ext2.rs 309-309 ext2_alloc_block (set) *)
Definition set_bit (b : Z) w : outcome (Ext2 D) :=
  let! x := idx (scratch w) (Z.to_nat (b / 8)) in
  let! s := set_idx (scratch w) (Z.to_nat (b / 8)) (Z.lor x (bit (b mod 8))) in
  Ret (set_scratch w s).
(* @src fs/ext2.rs 340-342 ext2_free_block (clear) *)
Definition clear_bit (b : Z) w : outcome (Ext2 D) :=
  let! x := idx (scratch w) (Z.to_nat (b / 8)) in
  let! s := set_idx (scratch w) (Z.to_nat (b / 8)) (Z.ldiff x (bit (b mod 8))) in
  Ret (set_scratch w s).

(** [state.bgdt[g]] and the free counts after a change of it. *)
Definition put_desc (g : nat) (desc : BlockGroupDesc) (fb fi : Z) w : outcome (Ext2 D) :=
  let! l := set_idx (bgdt (state w)) g desc in
  Ret (set_state w (set_counts (state w) l fb fi)).

(** The counts go to the table of groups, then to the superblock; the first
    failure ends it. *)
(* @src fs/ext2.rs 320-321 ext2_alloc_block (counts) *)
Definition write_counts (g : nat) w : outcome (bool * Ext2 D) :=
  let! (ok, w) := write_bgdt_entry g w in
  if negb ok then Ret (false, w) else write_superblock_free_counts w.

(** When freeing, both are written whatever happens. *)
(* @src fs/ext2.rs 347-349 ext2_free_block (counts) *)
Definition write_both_counts (g : nat) w : outcome (bool * Ext2 D) :=
  let! (bgdt_ok, w) := write_bgdt_entry g w in
  let! (sb_ok, w) := write_superblock_free_counts w in
  Ret (bgdt_ok && sb_ok, w).

(** What is done with the clear bit of a group. *)
(* @src fs/ext2.rs 315-328 ext2_alloc_block (take) *)
Definition take_block (g : nat) (bitmap_block bit : Z) w : outcome (Z * Ext2 D) :=
  let! w := set_bit bit w in
  let! (ok, w) := write_block_from_scratch bitmap_block w in
  if negb ok then Ret (0, w)
  else
    let! desc := idx (bgdt (state w)) g in
    let! fb := csub (free_blocks_count desc) 1 in
    let! w := put_desc g (mkDesc (block_bitmap desc) (inode_bitmap desc) (inode_table desc) fb
                                 (free_inodes_count desc) (used_dirs_count desc))
                       (sat_sub (sb_free_blocks (state w)) 1) (sb_free_inodes (state w)) w in
    let! (ok, w) := write_counts g w in
    if negb ok then Ret (0, w)
    else
      let! block_no := group_bit_to_block (state w) g bit in
      let w := set_scratch w (replicate MAX_BLOCK 0) in
      let! (ok, w) := write_block_from_scratch block_no w in
      Ret (if ok : bool then block_no else 0, w).

(* @src fs/ext2.rs 295-329 ext2_alloc_block (groups) *)
Fixpoint alloc_block_in (order : list nat) w : outcome (Z * Ext2 D) :=
  match order with
  | [] => Ret (0, w)
  | g :: order' =>
      if (Z.to_nat (groups_count (state w)) <=? g)%nat then alloc_block_in order' w
      else
        let! desc := idx (bgdt (state w)) g in
        if free_blocks_count desc =? 0 then alloc_block_in order' w
        else
          let! (ok, w) := read_block_into_scratch (block_bitmap desc) w in
          if negb ok then alloc_block_in order' w
          else
            let! found := find_clear (block_size (state w)) (scratch w) (seqZ 0 (blocks_per_group (state w))) in
            match found with
            | None => alloc_block_in order' w
            | Some bit => take_block g (block_bitmap desc) bit w
            end
  end.

(** [once(pref_group).chain(0..groups)] *)
(* @src fs/ext2.rs 293-294 ext2_alloc_block (order) *)
Definition group_order (s : Ext2State) (pref_group : nat) : list nat :=
  pref_group :: seq 0 (Z.to_nat (groups_count s)).

(* @src fs/ext2.rs 292-330 ext2_alloc_block *)
Definition ext2_alloc_block (pref_group : nat) w : outcome (Z * Ext2 D) :=
  alloc_block_in (group_order (state w) pref_group) w.

(* @src fs/ext2.rs 333-350 ext2_free_block *)
Definition ext2_free_block (block_no : Z) w : outcome (bool * Ext2 D) :=
  if block_no =? 0 then Ret (true, w)
  else
    let! (g, bit) := block_to_group_bit (state w) block_no in
    if (Z.to_nat (groups_count (state w)) <=? g)%nat then Ret (false, w)
    else
      let! desc := idx (bgdt (state w)) g in
      let! (ok, w) := read_block_into_scratch (block_bitmap desc) w in
      if negb ok then Ret (false, w)
      else
        let! w := clear_bit bit w in
        let! (ok, w) := write_block_from_scratch (block_bitmap desc) w in
        if negb ok then Ret (false, w)
        else
          let! fb := cadd u16_max (free_blocks_count desc) 1 in
          let! sb := cadd u32_max (sb_free_blocks (state w)) 1 in
          let! w := put_desc g (mkDesc (block_bitmap desc) (inode_bitmap desc) (inode_table desc) fb
                                       (free_inodes_count desc) (used_dirs_count desc))
                             sb (sb_free_inodes (state w)) w in
          write_both_counts g w.

(* @src fs/ext2.rs 380-390 ext2_alloc_inode (take) *)
Definition take_inode (g : nat) (bitmap_block bit : Z) (dir : bool) w : outcome (Z * Ext2 D) :=
  let! w := set_bit bit w in
  let! (ok, w) := write_block_from_scratch bitmap_block w in
  if negb ok then Ret (0, w)
  else
    let! desc := idx (bgdt (state w)) g in
    let! fi := csub (free_inodes_count desc) 1 in
    let! dirs := (if dir then cadd u16_max (used_dirs_count desc) 1 else Ret (used_dirs_count desc)) in
    let! w := put_desc g (mkDesc (block_bitmap desc) (inode_bitmap desc) (inode_table desc)
                                 (free_blocks_count desc) fi dirs)
                       (sb_free_blocks (state w)) (sat_sub (sb_free_inodes (state w)) 1) w in
    let! (ok, w) := write_counts g w in
    if negb ok then Ret (0, w)
    else
      let! x := cmul u32_max (Z.of_nat g) (inodes_per_group (state w)) in
      let! y := cadd u32_max x bit in
      let! ino := cadd u32_max y 1 in
      Ret (ino, w).

(* @src fs/ext2.rs 358-391 ext2_alloc_inode (groups) *)
Fixpoint alloc_inode_in (order : list nat) (dir : bool) w : outcome (Z * Ext2 D) :=
  match order with
  | [] => Ret (0, w)
  | g :: order' =>
      if (Z.to_nat (groups_count (state w)) <=? g)%nat then alloc_inode_in order' dir w
      else
        let! desc := idx (bgdt (state w)) g in
        if free_inodes_count desc =? 0 then alloc_inode_in order' dir w
        else
          let! (ok, w) := read_block_into_scratch (inode_bitmap desc) w in
          if negb ok then alloc_inode_in order' dir w
          else
            let! found := find_clear (block_size (state w)) (scratch w) (seqZ 0 (inodes_per_group (state w))) in
            match found with
            | None => alloc_inode_in order' dir w
            | Some bit => take_inode g (inode_bitmap desc) bit dir w
            end
  end.

(* @src fs/ext2.rs 357-393 ext2_alloc_inode *)
Definition ext2_alloc_inode (pref_group : nat) (dir : bool) w : outcome (Z * Ext2 D) :=
  alloc_inode_in (group_order (state w) pref_group) dir w.

(** ** Records of inodes *)

(* @src fs/ext2.rs 499-510 inode_location *)
Definition inode_location (s : Ext2State) (ino : Z) : outcome (option (Z * nat)) :=
  if ino =? 0 then Ret None
  else
    let! (group, local_idx) := inode_to_group_bit s ino in
    if (Z.to_nat (groups_count s) <=? group)%nat then Ret None
    else
      let! desc := idx (bgdt s) group in
      let! byte_offset := cmul u32_max local_idx (inode_size s) in
      let! block_offset_in_table := cdiv byte_offset (block_size s) in
      let! byte_in_block := crem byte_offset (block_size s) in
      let! blk := cadd u32_max (inode_table desc) block_offset_in_table in
      Ret (Some (blk, Z.to_nat byte_in_block)).

(** The common shape of the patches: load the block of the record, change it,
    write it back. *)
Definition patch_inode (ino : Z) (change : nat -> Ext2 D -> outcome (Ext2 D)) w : outcome (bool * Ext2 D) :=
  let! loc := inode_location (state w) ino in
  match loc with
  | None => Ret (false, w)
  | Some (blk, base) =>
      let! (ok, w) := read_block_into_scratch blk w in
      if negb ok then Ret (false, w)
      else
        let! w := change base w in
        write_block_from_scratch blk w
  end.

(* @src fs/ext2.rs 410-425 ext2_free_inode (record) *)
Definition clear_record (g : nat) (ino : Z) w : outcome (Ext2 D) :=
  let! i := csub ino 1 in
  let! desc := idx (bgdt (state w)) g in
  let! local := crem i (inodes_per_group (state w)) in
  let! byte_offset := cmul u32_max local (inode_size (state w)) in
  let! off := cdiv byte_offset (block_size (state w)) in
  let! byte_in_block := crem byte_offset (block_size (state w)) in
  let base := Z.to_nat byte_in_block in
  let! block_no := cadd u32_max (inode_table desc) off in
  let! (ok, w) := read_block_into_scratch block_no w in
  if negb ok then Ret w
  else
    let! w := patch_scratch base [0; 0] w in
    let! w := patch_scratch (base + 4) [0; 0; 0; 0] w in
    let! w := patch_scratch (base + 26) [0; 0] w in
    let! (_, w) := write_block_from_scratch block_no w in
    Ret w.

(* @src fs/ext2.rs 398-433 ext2_free_inode *)
Definition ext2_free_inode (ino : Z) (dir : bool) w : outcome (bool * Ext2 D) :=
  if ino =? 0 then Ret (true, w)
  else
    let! (g, bit) := inode_to_group_bit (state w) ino in
    if (Z.to_nat (groups_count (state w)) <=? g)%nat then Ret (false, w)
    else
      let! desc := idx (bgdt (state w)) g in
      let! (ok, w) := read_block_into_scratch (inode_bitmap desc) w in
      if negb ok then Ret (false, w)
      else
        let! w := clear_bit bit w in
        let! (ok, w) := write_block_from_scratch (inode_bitmap desc) w in
        if negb ok then Ret (false, w)
        else
          let! w := clear_record g ino w in
          let! fi := cadd u16_max (free_inodes_count desc) 1 in
          let! si := cadd u32_max (sb_free_inodes (state w)) 1 in
          let dirs := if dir then sat_sub (used_dirs_count desc) 1 else used_dirs_count desc in
          let! w := put_desc g (mkDesc (block_bitmap desc) (inode_bitmap desc) (inode_table desc)
                                       (free_blocks_count desc) fi dirs)
                             (sb_free_blocks (state w)) si w in
          write_both_counts g w.

(** The 15 block pointers of a record. *)
(* @src fs/ext2.rs 465-468 read_inode (block pointers) *)
Fixpoint read_pointers (s : list Z) (o : nat) (n : nat) : outcome (list Z) :=
  match n with
  | O => Ret []
  | S n' =>
      let! p := scratch_u32 s o in
      let! ps := read_pointers s (o + 4) n' in
      Ret (p :: ps)
  end.

(** The fields of the record at [base] in [SCRATCH]; the others stay zero. *)
(* @src fs/ext2.rs 455-470 read_inode (fields) *)
Definition inode_fields (s : list Z) (base : nat) : outcome Inode :=
  let! md := scratch_u16 s base in
  let! ud := scratch_u16 s (base + 2) in
  let! lo := scratch_u32 s (base + 4) in
  let! links := scratch_u16 s (base + 26) in
  let! b512 := scratch_u32 s (base + 28) in
  let! bl := read_pointers s (base + 40) 15 in
  let! hi := scratch_u32 s (base + 108) in
  Ret (mkInode md ud lo 0 0 0 0 0 links b512 0 0 bl 0 0 hi 0).

(** [None] is the result [false]; the callers give up on it. *)
(* @src fs/ext2.rs 438-471 read_inode *)
Definition read_inode (ino : Z) w : outcome (option Inode * Ext2 D) :=
  let! loc := inode_location (state w) ino in
  match loc with
  | None => Ret (None, w)
  | Some (blk, base) =>
      let! (ok, w) := read_block_into_scratch blk w in
      if negb ok then Ret (None, w)
      else let! i := inode_fields (scratch w) base in Ret (Some i, w)
  end.

(* @src fs/ext2.rs 475-496 update_inode_size *)
Definition update_inode_size (ino new_size : Z) w : outcome (bool * Ext2 D) :=
  patch_inode ino (fun base => patch_scratch (base + 4) (u32_le new_size)) w.

(* @src fs/ext2.rs 513-520 update_inode_block_ptr *)
Definition update_inode_block_ptr (ino : Z) (i : nat) (block_no : Z) w : outcome (bool * Ext2 D) :=
  patch_inode ino (fun base => patch_scratch (base + 40 + i * 4) (u32_le block_no)) w.

(* @src fs/ext2.rs 548-554 update_inode_times *)
Definition update_inode_times (ino : Z) w : outcome (bool * Ext2 D) :=
  patch_inode ino (fun base => patch_scratch (base + 8) (replicate 12 0)) w.

(* @src fs/ext2.rs 557-563 update_inode_links *)
Definition update_inode_links (ino links : Z) w : outcome (bool * Ext2 D) :=
  patch_inode ino (fun base => patch_scratch (base + 26) (u16_le links)) w.

(* @src fs/ext2.rs 566-571 read_inode_links *)
Definition read_inode_links (ino : Z) w : outcome (Z * Ext2 D) :=
  let! loc := inode_location (state w) ino in
  match loc with
  | None => Ret (0, w)
  | Some (blk, base) =>
      let! (ok, w) := read_block_into_scratch blk w in
      if negb ok then Ret (0, w)
      else let! l := scratch_u16 (scratch w) (base + 26) in Ret (l, w)
  end.

(* @src fs/ext2.rs 576-587 write_new_inode_record *)
Definition write_new_inode_record (ino mode links : Z) w : outcome (bool * Ext2 D) :=
  patch_inode ino (fun base w =>
    let! w := patch_scratch base (replicate 128 0) w in
    let! w := patch_scratch base (u16_le mode) w in
    patch_scratch (base + 26) (u16_le links) w) w.

(** ** Sizes *)

(* @src fs/ext2.rs 533-539 resize_blocks (loop) *)
Fixpoint free_from (ino : Z) (bis : list nat) (blocks : list Z) w : outcome (bool * list Z * Ext2 D) :=
  match bis with
  | [] => Ret (true, blocks, w)
  | bi :: bis' =>
      let! b := idx blocks bi in
      if b =? 0 then free_from ino bis' blocks w
      else
        let! (_, w) := ext2_free_block b w in
        let! blocks := set_idx blocks bi 0 in
        let! (ok, w) := update_inode_block_ptr ino bi 0 w in
        if negb ok then Ret (false, blocks, w) else free_from ino bis' blocks w
  end.

(** The new pointers and size are returned with the result. *)
(* @src fs/ext2.rs 528-543 resize_blocks *)
Definition resize_blocks (ino : Z) (blocks : list Z) (cur_size new_len : Z) w : outcome (bool * list Z * Z * Ext2 D) :=
  let bs := block_size (state w) in
  let! max := cmul u32_max 12 bs in
  if max <? new_len then Ret (false, blocks, cur_size, w)
  else
    let! (ok, blocks, w) :=
      (if new_len <? cur_size then
         let! keep := div_ceil new_len bs in
         free_from ino (seq (Z.to_nat keep) (12 - Z.to_nat keep)) blocks w
       else Ret (true, blocks, w)) in
    if negb ok then Ret (false, blocks, cur_size, w)
    else
      let! (ok, w) := update_inode_size ino new_len w in
      Ret (ok, blocks, new_len, w).

End Ext2.

End ext2.
