(* ===== verification/Ext2Ops.v ===== *)
(** * The ext2 driver: directories, paths and calls (kernel/src/kernel/fs/ext2.rs)

    Module [ext2fs] goes on from [ext2]: the walk over the entries of a directory,
    insertion and deletion of entries, [init], and the calls on files and
    directories. [ext2_raw] makes the driver a back end of the descriptor tables.

    An entry moves the walk on by at least one byte, so that a block has at most
    [block_size] of them, which is the fuel of the loops over entries. A loop over
    the bytes of a buffer has a turn for each of them. *)

From stdpp Require Import base list gmap strings list_numbers.
From Stdlib Require Import ZArith Lia.
From S2P Require Import Prelude RamFs FdTable Mbr Fat FatOps Ext2.

Local Open Scope Z_scope.

Module ext2fs.
Import ext2.
Export fs.

(* @src fs/mod.rs 37-37 EFBIG *)
Definition EFBIG : Z := -27.
Definition ENOSPC : Z := fatfs.ENOSPC.
Definition ENOTEMPTY : Z := fatfs.ENOTEMPTY.

Definition SLASH : Z := 47.

(** ** Entries of a directory *)

(** The header of an entry as the loops read it. *)
Record dirent := mkDirent { e_pos : nat; e_ino : Z; e_reclen : Z; e_namlen : Z; e_ftype : Z }.

(** Listing a directory reads the type byte too. *)
(* @src fs/ext2.rs 612-614 dir_lookup (header) *)
Definition entry_at (s : list Z) (pos : nat) (typed : bool) : outcome dirent :=
  let! ino := scratch_u32 s pos in
  let! reclen := scratch_u16 s (pos + 4) in
  let! namlen := scratch_u8 s (pos + 6) in
  let! ftype := (if typed then scratch_u8 s (pos + 7) else Ret 0) in
  Ret (mkDirent pos ino reclen namlen ftype).

(** [&s[pos+8..pos+8+namlen]] *)
Definition entry_name (s : list Z) (e : dirent) : outcome (list Z) :=
  slice s (e_pos e + 8) (e_pos e + 8 + Z.to_nat (e_namlen e)).

(** The loop over the entries of the block in SCRATCH. The body goes on with a new
    value or leaves the function. *)
(* @src fs/ext2.rs 611-625 dir_lookup (entries) *)
Fixpoint scan_entries {A R} (typed : bool) (body : list Z -> dirent -> A -> outcome (A + R))
    (fuel : nat) (s : list Z) (bs seen size : Z) (pos : nat) (a : A) : outcome (A + R) :=
  match fuel with
  | O => Panic
  | S fuel' =>
      if (Z.of_nat pos <? bs) && (seen + Z.of_nat pos <? size) then
        let! e := entry_at s pos typed in
        if e_reclen e =? 0 then Ret (inl a)
        else
          let! r := body s e a in
          match r with
          | inr r => Ret (inr r)
          | inl a => scan_entries typed body fuel' s bs seen size (pos + Z.to_nat (e_reclen e)) a
          end
      else Ret (inl a)
  end.

(** How a walk over the blocks of a directory ends: after the last entry, at a
    block that cannot be read, or in the body, with the block then loaded. *)
Inductive walked (A R : Type) := Ended (a : A) | Failed (a : A) | Stopped (blk : Z) (r : R).
Arguments Ended {A R}.
Arguments Failed {A R}.
Arguments Stopped {A R}.

Section Ext2.
Context {D : Type} `{BlockDevice D}.

Implicit Types w : Ext2 D.

(** The loop over the direct blocks. *)
(* @src fs/ext2.rs 603-627 dir_lookup (blocks) *)
Fixpoint walk_blocks {A R} (typed : bool) (body : list Z -> dirent -> A -> outcome (A + R))
    (size : Z) (blocks : list Z) (seen : Z) (a : A) w : outcome (walked A R * Ext2 D) :=
  match blocks with
  | [] => Ret (Ended a, w)
  | blk :: blocks' =>
      if (blk =? 0) || (size <=? seen) then Ret (Ended a, w)
      else
        let! (ok, w) := read_block_into_scratch blk w in
        if negb ok then Ret (Failed a, w)
        else
          let bs := block_size (state w) in
          let! r := scan_entries typed body (S (Z.to_nat bs)) (scratch w) bs seen size 0 a in
          match r with
          | inr r => Ret (Stopped blk r, w)
          | inl a => walk_blocks typed body size blocks' (seen + bs) a w
          end
  end.

Definition walk_dir {A R} (typed : bool) (body : list Z -> dirent -> A -> outcome (A + R))
    (i : Inode) (a : A) w : outcome (walked A R * Ext2 D) :=
  walk_blocks typed body (size_lo i) (take 12 (block i)) 0 a w.

(** The entry in use with this name: where it is and its inode. *)
(* @src fs/ext2.rs 617-623 dir_lookup (match) *)
Definition match_name (name : list Z) (s : list Z) (e : dirent) (_ : unit) : outcome (unit + (nat * Z)) :=
  if negb (e_ino e =? 0) && (e_namlen e =? Z.of_nat (length name)) then
    let! n := entry_name s e in
    Ret (if bool_decide (n = name) then inr (e_pos e, e_ino e) else inl tt)
  else Ret (inl tt).

(* @src fs/ext2.rs 593-629 dir_lookup *)
Definition dir_lookup (dir_ino : Z) (name : list Z) w : outcome (Z * Ext2 D) :=
  let! (i, w) := read_inode dir_ino w in
  match i with
  | None => Ret (0, w)
  | Some i =>
      if negb (is_dir i) then Ret (0, w)
      else
        let! (r, w) := walk_dir false (match_name name) i tt w in
        Ret (match r with Stopped _ (_, ino) => ino | _ => 0 end, w)
  end.

(** ** Paths *)

(* @src fs/ext2.rs 638-642 lookup_path (slashes) *)
Fixpoint skip_slashes (path : list Z) : list Z :=
  match path with
  | b :: path' => if b =? SLASH then skip_slashes path' else path
  | [] => []
  end.

(* @src fs/ext2.rs 646-652 lookup_path (components) *)
Fixpoint lookup_components (cur : Z) (comps : list (list Z)) w : outcome (Z * Ext2 D) :=
  match comps with
  | [] => Ret (cur, w)
  | c :: comps' =>
      if bool_decide (c = []) then lookup_components cur comps' w
      else
        let! (next, w) := dir_lookup cur c w in
        if next =? 0 then Ret (0, w) else lookup_components next comps' w
  end.

(* @src fs/ext2.rs 633-653 lookup_path *)
Definition lookup_path (path : list Z) w : outcome (Z * Ext2 D) :=
  let path := skip_slashes path in
  if bool_decide (path = []) then Ret (2, w) else lookup_components 2 (split SLASH path) w.

(* @src fs/ext2.rs 658-676 resolve_parent *)
Definition resolve_parent (path : list Z) w : outcome (option (Z * list Z) * Ext2 D) :=
  let path := skip_slashes path in
  if bool_decide (path = []) then Ret (None, w)
  else
    let (parent_part, name) :=
      match rfind SLASH path with
      | Some i => (take i path, drop (i + 1) path)
      | None => ([], path)
      end in
    if bool_decide (name = []) || (255 <? length name)%nat then Ret (None, w)
    else
      let! (parent_ino, w) := (if bool_decide (parent_part = []) then Ret (2, w) else lookup_path parent_part w) in
      Ret (if parent_ino =? 0 then None else Some (parent_ino, name), w).

(** [&path[5..]] keeps the slash after the prefix. *)
(* @src fs/ext2.rs 1423-1431 strip_ext2_prefix *)
Definition strip_ext2_prefix (path : list Z) : list Z :=
  if starts_with path (str "/ext2/") then drop 5 path
  else if bool_decide (path = str "/ext2") then str "/"
  else path.

(** ** Changing directories *)

(* @src fs/ext2.rs 679-679 dirent_align4 *)
Definition dirent_align4 (n : Z) : Z := Z.ldiff (n + 3) 3.

(* @src fs/ext2.rs 683-693 write_dir_entry_at *)
Definition write_dir_entry_at (pos : nat) (ino rec_len : Z) (name : list Z) (file_type : Z) w : outcome (Ext2 D) :=
  let! w := patch_scratch pos (u32_le ino) w in
  let! w := patch_scratch (pos + 4) (u16_le rec_len) w in
  let! w := patch_scratch (pos + 6) [wrap 8 (Z.of_nat (length name))] w in
  let! w := patch_scratch (pos + 7) [file_type] w in
  patch_scratch (pos + 8) name w.

(** The loop over the entries of a block: a deleted entry that is long enough is
    taken, or an entry in use is cut to its length and the rest taken. *)
(* @src fs/ext2.rs 719-742 dir_insert_entry (entries) *)
Fixpoint insert_scan (fuel : nat) (name : list Z) (new_ino file_type needed : Z) (pos : nat) w : outcome (bool * Ext2 D) :=
  match fuel with
  | O => Panic
  | S fuel' =>
      let bs := block_size (state w) in
      if Z.of_nat pos <? bs then
        let! e := entry_at (scratch w) pos false in
        if (e_reclen e =? 0) || (bs <? Z.of_nat pos + e_reclen e) then Ret (false, w)
        else if (e_ino e =? 0) && (needed <=? e_reclen e) then
          let! w := write_dir_entry_at pos new_ino (e_reclen e) name file_type w in
          Ret (true, w)
        else
          let ideal := dirent_align4 (8 + e_namlen e) in
          if negb (e_ino e =? 0) && (ideal + needed <=? e_reclen e) then
            let slack := e_reclen e - ideal in
            let! w := patch_scratch (pos + 4) (u16_le ideal) w in
            let! w := write_dir_entry_at (pos + Z.to_nat ideal) new_ino slack name file_type w in
            Ret (true, w)
          else insert_scan fuel' name new_ino file_type needed (pos + Z.to_nat (e_reclen e)) w
      else Ret (false, w)
  end.

(** [Some] is the result of the function, [None] that no block has room. *)
(* @src fs/ext2.rs 712-748 dir_insert_entry (blocks) *)
Fixpoint insert_blocks (name : list Z) (new_ino file_type needed size : Z) (blocks : list Z) (seen : Z) w
    : outcome (option bool * Ext2 D) :=
  match blocks with
  | [] => Ret (None, w)
  | blk :: blocks' =>
      if (blk =? 0) || (size <=? seen) then Ret (None, w)
      else
        let! (ok, w) := read_block_into_scratch blk w in
        if negb ok then Ret (Some false, w)
        else
          let bs := block_size (state w) in
          let! (done, w) := insert_scan (S (Z.to_nat bs)) name new_ino file_type needed 0 w in
          if done : bool then
            let! (ok, w) := write_block_from_scratch blk w in Ret (Some ok, w)
          else insert_blocks name new_ino file_type needed size blocks' (seen + bs) w
  end.

(* @src fs/ext2.rs 750-763 dir_insert_entry (new block) *)
Definition extend_dir (dir_ino : Z) (i : Inode) (name : list Z) (new_ino file_type : Z) w : outcome (bool * Ext2 D) :=
  match position (fun b => b =? 0) (take 12 (block i)) with
  | None => Ret (false, w)
  | Some bi =>
      let bs := block_size (state w) in
      let! d := csub dir_ino 1 in
      let! pref_group := cdiv d (inodes_per_group (state w)) in
      let! (new_block, w) := ext2_alloc_block (Z.to_nat pref_group) w in
      if new_block =? 0 then Ret (false, w)
      else
        let! (ok, w) := read_block_into_scratch new_block w in
        if negb ok then Ret (false, w)
        else
          let! w := write_dir_entry_at 0 new_ino (wrap 16 bs) name file_type w in
          let! (ok, w) := write_block_from_scratch new_block w in
          if negb ok then Ret (false, w)
          else
            let! (ok, w) := update_inode_block_ptr dir_ino bi new_block w in
            if negb ok then Ret (false, w)
            else
              let! size := cadd u32_max (size_lo i) bs in
              update_inode_size dir_ino size w
  end.

(* @src fs/ext2.rs 700-763 dir_insert_entry *)
Definition dir_insert_entry (dir_ino : Z) (name : list Z) (new_ino file_type : Z) w : outcome (bool * Ext2 D) :=
  if bool_decide (name = []) || (255 <? length name)%nat then Ret (false, w)
  else
    let needed := dirent_align4 (8 + Z.of_nat (length name)) in
    let! (i, w) := read_inode dir_ino w in
    match i with
    | None => Ret (false, w)
    | Some i =>
        if negb (is_dir i) then Ret (false, w)
        else
          let! (r, w) := insert_blocks name new_ino file_type needed (size_lo i) (take 12 (block i)) 0 w in
          match r with
          | Some ok => Ret (ok, w)
          | None => extend_dir dir_ino i name new_ino file_type w
          end
    end.

(* @src fs/ext2.rs 768-804 dir_delete_entry *)
Definition dir_delete_entry (dir_ino : Z) (name : list Z) w : outcome (bool * Ext2 D) :=
  let! (i, w) := read_inode dir_ino w in
  match i with
  | None => Ret (false, w)
  | Some i =>
      if negb (is_dir i) then Ret (false, w)
      else
        let! (r, w) := walk_dir false (match_name name) i tt w in
        match r with
        | Stopped blk (pos, _) =>
            let! w := patch_scratch pos [0; 0; 0; 0] w in
            write_block_from_scratch blk w
        | _ => Ret (false, w)
        end
  end.

(** ** Mounting *)

(* @src fs/ext2.rs 901-913 init (descriptors) *)
Definition desc_at (s : list Z) (g : nat) : outcome BlockGroupDesc :=
  let base := (g * 32)%nat in
  let! bb := scratch_u32 s base in
  let! ib := scratch_u32 s (base + 4) in
  let! it := scratch_u32 s (base + 8) in
  let! fb := scratch_u16 s (base + 12) in
  let! fi := scratch_u16 s (base + 14) in
  let! ud := scratch_u16 s (base + 16) in
  Ret (mkDesc bb ib it fb fi ud).

(* @src fs/ext2.rs 900-915 init (descriptor loop) *)
Fixpoint load_descs (s : list Z) (gs : list nat) (l : list BlockGroupDesc) : outcome (list BlockGroupDesc) :=
  match gs with
  | [] => Ret l
  | g :: gs' =>
      let! d := desc_at s g in
      let! l := set_idx l g d in
      load_descs s gs' l
  end.

(** The fields of the superblock that the driver keeps. *)
(* @src fs/ext2.rs 852-887 init (superblock) *)
Definition mount_fields (partition_lba : Z) (s : list Z) (st : Ext2State) : outcome (option Ext2State) :=
  let! blocks_count := scratch_u32 s 4 in
  let! free_blocks := scratch_u32 s 12 in
  let! free_inodes := scratch_u32 s 16 in
  let! first_data_blk := scratch_u32 s 20 in
  let! log_block_size := scratch_u32 s 24 in
  let! blocks_per_grp := scratch_u32 s 32 in
  let! inodes_per_grp := scratch_u32 s 40 in
  let! rev_level := scratch_u32 s 76 in
  let! isize := (if 1 <=? rev_level then scratch_u16 s 88 else Ret 128) in
  let! bs := (if 32 <=? log_block_size then Panic else Ret (wrap 32 (Z.shiftl 1024 log_block_size))) in
  if Z.of_nat MAX_BLOCK <? bs then Ret None
  else
    let! bits := cmul u32_max bs 8 in
    if (bits <? blocks_per_grp) || (bits <? inodes_per_grp) then Ret None
    else
      let! groups := div_ceil blocks_count blocks_per_grp in
      Ret (Some (mkState (ready st) partition_lba bs (bs / 512) inodes_per_grp blocks_per_grp isize first_data_blk
                         (Z.min groups (Z.of_nat MAX_GROUPS)) (bgdt st) (bgdt_block st) free_blocks free_inodes (fds st))).

(** [present] is [ata::is_present_sec()]. *)
(* @src fs/ext2.rs 814-937 init *)
Definition init (present : bool) (partition_lba : Z) w : outcome (Ext2 D) :=
  if negb present then Ret w
  else
    let! sb_lba := cadd u32_max partition_lba 2 in
    match sector_read (disk w) sb_lba with
    | None => Ret w
    | Some sb0 =>
        let! sb_lba1 := cadd u32_max sb_lba 1 in
        match sector_read (disk w) sb_lba1 with
        | None => Ret w
        | Some sb1 =>
            let! w := patch_scratch 0 sb0 w in
            let! w := patch_scratch 512 sb1 w in
            let! magic := scratch_u16 (scratch w) 56 in
            if negb (magic =? EXT2_MAGIC) then Ret w
            else
              let! st := mount_fields partition_lba (scratch w) (state w) in
              match st with
              | None => Ret w
              | Some st =>
                  let w := set_state w st in
                  let! bgdt_blk := cadd u32_max (first_data_block st) 1 in
                  let! (ok, w) := read_block_into_scratch bgdt_blk w in
                  if negb ok then Ret w
                  else
                    let! l := load_descs (scratch w) (seq 0 (Z.to_nat (groups_count st))) (bgdt st) in
                    Ret (set_state w (mkState true (lba_offset st) (block_size st) (sects_per_block st)
                      (inodes_per_group st) (blocks_per_group st) (inode_size st) (first_data_block st)
                      (groups_count st) l bgdt_blk (sb_free_blocks st) (sb_free_inodes st) (fds st)))
              end
        end
    end.

(* @src fs/ext2.rs 939-939 is_ready *)
Definition is_ready w : bool := ready (state w).

(* @src fs/ext2.rs 942-944 is_ext2_fd *)
Definition is_ext2_fd (fd : Z) : bool := (EXT2_FD_BASE <=? fd) && (fd <? EXT2_FD_BASE + Z.of_nat EXT2_FD_COUNT).

Definition slot_of (fd : Z) : nat := Z.to_nat (fd - EXT2_FD_BASE).

Definition group_of (w : Ext2 D) (ino : Z) : outcome nat :=
  let! i := csub ino 1 in
  let! g := cdiv i (inodes_per_group (state w)) in
  Ret (Z.to_nat g).

(** ** Opening *)

(* @src fs/ext2.rs 949-971 create *)
Definition create (path : list Z) w : outcome (Z * Ext2 D) :=
  if negb (ready (state w)) then Ret (ENOENT, w)
  else
    let! (p, w) := resolve_parent path w in
    match p with
    | None => Ret (ENOENT, w)
    | Some (parent_ino, name) =>
        let! (found, w) := dir_lookup parent_ino name w in
        if negb (found =? 0) then Ret (EEXIST, w)
        else
          let! pref_group := group_of w parent_ino in
          let! (ino, w) := ext2_alloc_inode pref_group false w in
          if ino =? 0 then Ret (ENOSPC, w)
          else
            let! (ok, w) := write_new_inode_record ino (Z.lor S_IFREG 420) 1 w in
            if negb ok then let! (_, w) := ext2_free_inode ino false w in Ret (-5, w)
            else
              let! (ok, w) := dir_insert_entry parent_ino name ino FT_REG w in
              if negb ok then let! (_, w) := ext2_free_inode ino false w in Ret (ENOSPC, w)
              else Ret (ino, w)
    end.

(** [inode.block[..12]] after [O_TRUNC]; [None] is the failure. *)
(* @src fs/ext2.rs 997-1004 open (O_TRUNC) *)
Definition open_trunc (ino : Z) (i : Inode) w : outcome (option (Z * list Z) * Ext2 D) :=
  let! (ok, _, size, w) := resize_blocks ino (take 12 (block i)) (size_lo i) 0 w in
  if negb ok then Ret (None, w) else Ret (Some (size, replicate 12 0), w).

(* @src fs/ext2.rs 1006-1023 open (slot) *)
Definition open_slot (ino size : Z) (blocks : list Z) (flags : Z) w : outcome (Z * Ext2 D) :=
  let writable := negb (Z.land flags O_WRONLY =? 0) || negb (Z.land flags O_RDWR =? 0) in
  let app := negb (Z.land flags O_APPEND =? 0) in
  match position (fun s => negb (active s)) (fds (state w)) with
  | None => Ret (-24, w)
  | Some i =>
      let slot := mkFd true ino size (if app then size else 0) blocks writable app in
      Ret (EXT2_FD_BASE + Z.of_nat i, set_state w (set_fds (state w) (<[i := slot]> (fds (state w)))))
  end.

(* @src fs/ext2.rs 978-1024 open *)
Definition open (path : list Z) (flags : Z) w : outcome (Z * Ext2 D) :=
  if negb (ready (state w)) then Ret (ENOENT, w)
  else
    let path := strip_ext2_prefix path in
    let! (ino, w) := lookup_path path w in
    let! (r, w) :=
      (if ino =? 0 then
         if Z.land flags O_CREAT =? 0 then Ret (ENOENT, w)
         else let! (created, w) := create path w in
              Ret (if created <=? 0 then Z.min created (-1) else created, w)
       else Ret (ino, w)) in
    if r <? 0 then Ret (r, w)
    else
      let ino := r in
      let! (i, w) := read_inode ino w in
      match i with
      | None => Ret (-1, w)
      | Some i =>
          if negb (is_file i) then Ret (-21, w)
          else
            let! (t, w) := (if negb (Z.land flags O_TRUNC =? 0) then open_trunc ino i w
                            else Ret (Some (size_lo i, take 12 (block i)), w)) in
            match t with
            | None => Ret (-5, w)
            | Some (size, blocks) => open_slot ino size blocks flags w
            end
      end.

(** ** Reading and writing *)

Definition put_slot (i : nat) (s : Ext2Fd) w : Ext2 D := set_state w (set_fds (state w) (<[i := s]> (fds (state w)))).
Definition set_offset (s : Ext2Fd) (o : Z) : Ext2Fd :=
  mkFd (active s) (inode_no s) (file_size s) o (direct_blocks s) (writable s) (append s).
Definition set_size (s : Ext2Fd) (n : Z) : Ext2Fd :=
  mkFd (active s) (inode_no s) n (file_offset s) (direct_blocks s) (writable s) (append s).
Definition set_blocks (s : Ext2Fd) (l : list Z) : Ext2Fd :=
  mkFd (active s) (inode_no s) (file_size s) (file_offset s) l (writable s) (append s).

(** A turn per byte is enough: every turn reads at least one. *)
(* @src fs/ext2.rs 1042-1067 read_fd (loop) *)
Fixpoint read_fd_loop (fuel : nat) (slot : Ext2Fd) (to_read done : nat) (buf : list Z) w : outcome (nat * list Z * Ext2 D) :=
  match fuel with
  | O => Panic
  | S fuel' =>
      if (to_read <=? done)%nat then Ret (done, buf, w)
      else
        let bs := block_size (state w) in
        let file_offset := file_offset slot + Z.of_nat done in
        let! block_idx := cdiv file_offset bs in
        let! byte_in_blk := crem file_offset bs in
        if 12 <=? block_idx then Ret (done, buf, w)
        else
          let! blk := idx (direct_blocks slot) (Z.to_nat block_idx) in
          let avail := Nat.min (Z.to_nat (bs - byte_in_blk)) (to_read - done) in
          if blk =? 0 then
            let! buf := copy_at buf done (replicate avail 0) in
            read_fd_loop fuel' slot to_read (done + avail) buf w
          else
            let! (ok, w) := read_block_into_scratch blk w in
            if negb ok then Ret (done, buf, w)
            else
              let! bytes := slice (scratch w) (Z.to_nat byte_in_blk) (Z.to_nat byte_in_blk + avail) in
              let! buf := copy_at buf done bytes in
              read_fd_loop fuel' slot to_read (done + avail) buf w
  end.

(* @src fs/ext2.rs 1027-1070 read_fd *)
Definition read_fd (fd : Z) (buf : list Z) w : outcome (Z * list Z * Ext2 D) :=
  if negb (ready (state w)) || negb (is_ext2_fd fd) then Ret (-5, buf, w)
  else
    let i := slot_of fd in
    let! slot := idx (fds (state w)) i in
    if negb (active slot) then Ret (-5, buf, w)
    else
      let remaining := sat_sub (file_size slot) (file_offset slot) in
      if remaining =? 0 then Ret (0, buf, w)
      else
        let to_read := Nat.min (length buf) (Z.to_nat remaining) in
        let! (done, buf, w) := read_fd_loop (S to_read) slot to_read 0 buf w in
        let! off := cadd u32_max (file_offset slot) (wrap 32 (Z.of_nat done)) in
        Ret (Z.of_nat done, buf, put_slot i (set_offset slot off) w).

(** The block a write goes to, allocated when there is none; [None] ends the
    loop. *)
(* @src fs/ext2.rs 1099-1105 write_fd (block) *)
Definition block_for_write (i : nat) (block_idx : nat) (pref_group : nat) w : outcome (option Z * Ext2 D) :=
  let! slot := idx (fds (state w)) i in
  let! blk := idx (direct_blocks slot) block_idx in
  if negb (blk =? 0) then Ret (Some blk, w)
  else
    let! (blk, w) := ext2_alloc_block pref_group w in
    if blk =? 0 then Ret (None, w)
    else
      let! (ok, w) := update_inode_block_ptr (inode_no slot) block_idx blk w in
      if negb ok then Ret (None, w)
      else
        let! l := set_idx (direct_blocks slot) block_idx blk in
        Ret (Some blk, put_slot i (set_blocks slot l) w).

(** The loop: how much was written, and whether the limit of 12 blocks stopped it. *)
(* @src fs/ext2.rs 1092-1119 write_fd (loop) *)
Fixpoint write_fd_loop (fuel : nat) (i : nat) (pref_group : nat) (buf : list Z) (done : nat) w
    : outcome (nat * bool * Ext2 D) :=
  match fuel with
  | O => Panic
  | S fuel' =>
      if (length buf <=? done)%nat then Ret (done, false, w)
      else
        let bs := block_size (state w) in
        let! slot := idx (fds (state w)) i in
        let file_offset := file_offset slot + Z.of_nat done in
        let! block_idx := cdiv file_offset bs in
        let! byte_in_blk := crem file_offset bs in
        if 12 <=? block_idx then Ret (done, true, w)
        else
          let! (blk, w) := block_for_write i (Z.to_nat block_idx) pref_group w in
          match blk with
          | None => Ret (done, false, w)
          | Some blk =>
              let! (ok, w) := read_block_into_scratch blk w in
              if negb ok then Ret (done, false, w)
              else
                let avail := Nat.min (Z.to_nat (bs - byte_in_blk)) (length buf - done) in
                let! bytes := slice buf done (done + avail) in
                let! w := patch_scratch (Z.to_nat byte_in_blk) bytes w in
                let! (ok, w) := write_block_from_scratch blk w in
                if negb ok then Ret (done, false, w)
                else write_fd_loop fuel' i pref_group buf (done + avail) w
          end
  end.

(** The offset, the size and the times after a write of [done] bytes. *)
(* @src fs/ext2.rs 1126-1133 write_fd (end) *)
Definition write_fd_end (i : nat) (done : nat) w : outcome (Z * Ext2 D) :=
  let! slot := idx (fds (state w)) i in
  let! off := cadd u32_max (file_offset slot) (wrap 32 (Z.of_nat done)) in
  let slot := set_offset slot off in
  let! w :=
    (if file_size slot <? off then
       let! (_, w) := update_inode_size (inode_no slot) off (put_slot i (set_size slot off) w) in Ret w
     else Ret (put_slot i slot w)) in
  let! (_, w) := update_inode_times (inode_no slot) w in
  Ret (Z.of_nat done, w).

(* @src fs/ext2.rs 1078-1134 write_fd *)
Definition write_fd (fd : Z) (buf : list Z) w : outcome (Z * Ext2 D) :=
  if negb (ready (state w)) || negb (is_ext2_fd fd) then Ret (-5, w)
  else
    let i := slot_of fd in
    let! slot := idx (fds (state w)) i in
    if negb (active slot) then Ret (-5, w)
    else if negb (writable slot) then Ret (EACCES, w)
    else
      let! pref_group := group_of w (inode_no slot) in
      let! (done, hit_efbig, w) := write_fd_loop (S (length buf)) i pref_group buf 0 w in
      if (done =? 0)%nat then
        Ret (if bool_decide (buf = []) then 0 else if hit_efbig : bool then EFBIG else ENOSPC, w)
      else write_fd_end i done w.

(* @src fs/ext2.rs 1137-1143 close *)
Definition close (fd : Z) w : outcome (Z * Ext2 D) :=
  if negb (is_ext2_fd fd) then Ret (-5, w)
  else
    let i := slot_of fd in
    let! s := idx (fds (state w)) i in
    Ret (0, put_slot i (mkFd false (inode_no s) (file_size s) (file_offset s) (direct_blocks s) (writable s) (append s)) w).

(** ** Directories *)

Definition is_dots (name : list Z) : bool := bool_decide (name = str ".") || bool_decide (name = str "..").

(** One line of the listing; [inr] is the end of the output. *)
(* @src fs/ext2.rs 1177-1196 list_dir_raw (entry) *)
Definition list_entry (s : list Z) (e : dirent) (acc : nat * list Z) : outcome (nat * list Z + nat * list Z) :=
  let (written, out) := acc in
  if e_ino e =? 0 then Ret (inl acc)
  else
    let! name := entry_name s e in
    if is_dots name then Ret (inl acc)
    else
      let n := Nat.min (Z.to_nat (e_namlen e)) (length out - (written + 2)) in
      if (n =? 0)%nat then Ret (inr acc)
      else
        let! out := copy_at out written (take n name) in
        let written := (written + n)%nat in
        let! (written, out) :=
          (if (e_ftype e =? FT_DIR) && (written <? length out)%nat
           then let! o := set_idx out written SLASH in Ret ((written + 1)%nat, o) else Ret (written, out)) in
        let! (written, out) :=
          (if (written <? length out)%nat
           then let! o := set_idx out written 10 in Ret ((written + 1)%nat, o) else Ret (written, out)) in
        Ret (inl (written, out)).

(* @src fs/ext2.rs 1147-1203 list_dir_raw *)
Definition list_dir_raw (path out : list Z) w : outcome (Z * list Z * Ext2 D) :=
  if negb (ready (state w)) then Ret (-2, out, w)
  else
    let! (dir_ino, w) := lookup_path (strip_ext2_prefix path) w in
    if dir_ino =? 0 then Ret (-7, out, w)
    else
      let! (i, w) := read_inode dir_ino w in
      match i with
      | None => Ret (-1, out, w)
      | Some i =>
          if negb (is_dir i) then Ret (-20, out, w)
          else
            let! (r, w) := walk_dir true list_entry i (0%nat, out) w in
            let (written, out) := (match r with Ended a => a | Failed a => a | Stopped _ a => a end : nat * list Z) in
            Ret (Z.of_nat written, out, w)
      end.

(* @src fs/ext2.rs 1206-1215 is_dir *)
Definition is_dir_path (path : list Z) w : outcome (bool * Ext2 D) :=
  if negb (ready (state w)) then Ret (false, w)
  else
    let! (ino, w) := lookup_path (strip_ext2_prefix path) w in
    if ino =? 0 then Ret (false, w)
    else
      let! (i, w) := read_inode ino w in
      Ret (match i with None => false | Some i => is_dir i end, w).

(** Undoing an unfinished directory. *)
(* @src fs/ext2.rs 1248-1252 mkdir (undo) *)
Definition mkdir_undo (new_block new_ino : Z) w : outcome (Z * Ext2 D) :=
  let! (_, w) := ext2_free_block new_block w in
  let! (_, w) := ext2_free_inode new_ino true w in
  Ret (ENOSPC, w).

(** The block and the record of the new directory; [false] is the result -5. *)
(* @src fs/ext2.rs 1236-1246 mkdir (contents) *)
Definition mkdir_fill (parent_ino new_ino new_block : Z) w : outcome (bool * Ext2 D) :=
  let bs := block_size (state w) in
  let! (ok, w) := read_block_into_scratch new_block w in
  if negb ok then Ret (false, w)
  else
    let! w := write_dir_entry_at 0 new_ino 12 (str ".") FT_DIR w in
    let! w := write_dir_entry_at 12 parent_ino (wrap 16 (bs - 12)) (str "..") FT_DIR w in
    let! (ok, w) := write_block_from_scratch new_block w in
    if negb ok then Ret (false, w)
    else
      let! (ok, w) := write_new_inode_record new_ino (Z.lor S_IFDIR 493) 2 w in
      if negb ok then Ret (false, w)
      else
        let! (ok, w) := update_inode_block_ptr new_ino 0 new_block w in
        if negb ok then Ret (false, w)
        else update_inode_size new_ino bs w.

(* @src fs/ext2.rs 1218-1260 mkdir *)
Definition mkdir (path : list Z) w : outcome (Z * Ext2 D) :=
  if negb (ready (state w)) then Ret (ENOENT, w)
  else
    let! (p, w) := resolve_parent (strip_ext2_prefix path) w in
    match p with
    | None => Ret (ENOENT, w)
    | Some (parent_ino, name) =>
        let! (found, w) := dir_lookup parent_ino name w in
        if negb (found =? 0) then Ret (EEXIST, w)
        else
          let! pref_group := group_of w parent_ino in
          let! (new_ino, w) := ext2_alloc_inode pref_group true w in
          if new_ino =? 0 then Ret (ENOSPC, w)
          else
            let! (new_block, w) := ext2_alloc_block pref_group w in
            if new_block =? 0 then
              let! (_, w) := ext2_free_inode new_ino true w in Ret (ENOSPC, w)
            else
              let! (ok, w) := mkdir_fill parent_ino new_ino new_block w in
              if negb ok then Ret (-5, w)
              else
                let! (ok, w) := dir_insert_entry parent_ino name new_ino FT_DIR w in
                if negb ok then mkdir_undo new_block new_ino w
                else
                  let! (links, w) := read_inode_links parent_ino w in
                  let! links := cadd u16_max links 1 in
                  let! (_, w) := update_inode_links parent_ino links w in
                  Ret (0, w)
    end.

(** An entry in use other than the two dots ends the walk. *)
(* @src fs/ext2.rs 1284-1288 dir_is_empty (entry) *)
Definition live_entry (s : list Z) (e : dirent) (_ : unit) : outcome (unit + unit) :=
  if e_ino e =? 0 then Ret (inl tt)
  else let! name := entry_name s e in Ret (if is_dots name then inl tt else inr tt).

(* @src fs/ext2.rs 1263-1294 dir_is_empty *)
Definition dir_is_empty (dir_ino : Z) w : outcome (bool * Ext2 D) :=
  let! (i, w) := read_inode dir_ino w in
  match i with
  | None => Ret (false, w)
  | Some i =>
      if negb (is_dir i) then Ret (false, w)
      else
        let! (r, w) := walk_dir false live_entry i tt w in
        Ret (match r with Ended _ => true | _ => false end, w)
  end.

(** [for bi in 0..12 { if block[bi] != 0 { ext2_free_block(..) } }] *)
(* @src fs/ext2.rs 1312-1314 unlink (blocks) *)
Fixpoint free_blocks (blocks : list Z) w : outcome (Ext2 D) :=
  match blocks with
  | [] => Ret w
  | b :: blocks' =>
      if b =? 0 then free_blocks blocks' w
      else let! (_, w) := ext2_free_block b w in free_blocks blocks' w
  end.

(* @src fs/ext2.rs 1298-1333 unlink *)
Definition unlink (path : list Z) w : outcome (Z * Ext2 D) :=
  if negb (ready (state w)) then Ret (ENOENT, w)
  else
    let! (p, w) := resolve_parent (strip_ext2_prefix path) w in
    match p with
    | None => Ret (ENOENT, w)
    | Some (parent_ino, name) =>
        let! (target_ino, w) := dir_lookup parent_ino name w in
        if target_ino =? 0 then Ret (ENOENT, w)
        else
          let! (i, w) := read_inode target_ino w in
          match i with
          | None => Ret (-5, w)
          | Some i =>
              if is_dir i then
                let! (empty, w) := dir_is_empty target_ino w in
                if negb empty then Ret (ENOTEMPTY, w)
                else
                  let! w := free_blocks (take 12 (block i)) w in
                  let! (_, w) := ext2_free_inode target_ino true w in
                  let! (_, w) := dir_delete_entry parent_ino name w in
                  let! (links, w) := read_inode_links parent_ino w in
                  let! (_, w) := update_inode_links parent_ino (sat_sub links 1) w in
                  Ret (0, w)
              else
                let! (links, w) := read_inode_links target_ino w in
                let new_links := sat_sub links 1 in
                let! w :=
                  (if new_links =? 0 then
                     let! w := free_blocks (take 12 (block i)) w in
                     let! (_, w) := ext2_free_inode target_ino false w in Ret w
                   else let! (_, w) := update_inode_links target_ino new_links w in Ret w) in
                let! (_, w) := dir_delete_entry parent_ino name w in
                Ret (0, w)
          end
    end.

(* @src fs/ext2.rs 1337-1347 rmdir *)
Definition rmdir (path : list Z) w : outcome (Z * Ext2 D) :=
  if negb (ready (state w)) then Ret (ENOENT, w)
  else
    let! (ino, w) := lookup_path (strip_ext2_prefix path) w in
    if ino =? 0 then Ret (ENOENT, w)
    else
      let! (i, w) := read_inode ino w in
      match i with
      | None => Ret (-5, w)
      | Some i => if negb (is_dir i) then Ret (ENOTDIR, w) else unlink path w
      end.

(* @src fs/ext2.rs 1352-1371 truncate *)
Definition truncate (fd length : Z) w : outcome (Z * Ext2 D) :=
  if negb (ready (state w)) || negb (is_ext2_fd fd) then Ret (-5, w)
  else
    let i := slot_of fd in
    let! slot := idx (fds (state w)) i in
    if negb (active slot) then Ret (-5, w)
    else if negb (writable slot) then Ret (EACCES, w)
    else
      let! max := cmul u32_max 12 (block_size (state w)) in
      if max <? length then Ret (EFBIG, w)
      else
        let! (ok, blocks, size, w) := resize_blocks (inode_no slot) (direct_blocks slot) (file_size slot) length w in
        if negb ok then Ret (-5, w)
        else Ret (0, put_slot i (set_size (set_blocks slot blocks) size) w).

(** The ".." of a moved directory is at byte 12 of its first block. *)
(* @src fs/ext2.rs 1402-1415 rename (parents) *)
Definition move_parent (i : Inode) (old_parent new_parent : Z) w : outcome (Ext2 D) :=
  let! blk := idx (block i) 0 in
  let! w :=
    (if blk =? 0 then Ret w
     else
       let! (ok, w) := read_block_into_scratch blk w in
       if negb ok then Ret w
       else
         let! w := patch_scratch 12 (u32_le new_parent) w in
         let! (_, w) := write_block_from_scratch blk w in Ret w) in
  let! (old_links, w) := read_inode_links old_parent w in
  let! (_, w) := update_inode_links old_parent (sat_sub old_links 1) w in
  let! (new_links, w) := read_inode_links new_parent w in
  let! links := cadd u16_max new_links 1 in
  let! (_, w) := update_inode_links new_parent links w in
  Ret w.

(* @src fs/ext2.rs 1378-1418 rename *)
Definition rename (old_path new_path : list Z) w : outcome (Z * Ext2 D) :=
  if negb (ready (state w)) then Ret (ENOENT, w)
  else
    let! (op, w) := resolve_parent (strip_ext2_prefix old_path) w in
    match op with
    | None => Ret (ENOENT, w)
    | Some (old_parent, old_name) =>
        let! (target_ino, w) := dir_lookup old_parent old_name w in
        if target_ino =? 0 then Ret (ENOENT, w)
        else
          let! (np, w) := resolve_parent (strip_ext2_prefix new_path) w in
          match np with
          | None => Ret (ENOENT, w)
          | Some (new_parent, new_name) =>
              if (old_parent =? new_parent) && bool_decide (old_name = new_name) then Ret (0, w)
              else
                let! (found, w) := dir_lookup new_parent new_name w in
                if negb (found =? 0) then Ret (EEXIST, w)
                else
                  let! (i, w) := read_inode target_ino w in
                  match i with
                  | None => Ret (-5, w)
                  | Some i =>
                      let! (ok, w) := dir_insert_entry new_parent new_name target_ino
                                        (if is_dir i then FT_DIR else FT_REG) w in
                      if negb ok then Ret (ENOSPC, w)
                      else
                        let! (_, w) := dir_delete_entry old_parent old_name w in
                        let! w := (if is_dir i && negb (old_parent =? new_parent)
                                   then move_parent i old_parent new_parent w else Ret w) in
                        Ret (0, w)
                  end
          end
    end.

#[export] Instance ext2_raw : RawFile (Ext2 D) := {|
  raw_read w fd buf := read_fd fd buf w;
  raw_write w fd buf := write_fd fd buf w;
  raw_close w fd := close fd w;
|}.

End Ext2.

End ext2fs.
