(* ===== verification/Ext2Block.v ===== *)
(** * The ext2 driver: what its block operations do to the disk

    Module [ext2_block] sees a disk without errors as a map from block numbers to
    contents: reading a block loads its content into [SCRATCH], writing one changes
    that block and nothing else. *)

From stdpp Require Import base list gmap strings list_numbers.
From Stdlib Require Import ZArith Lia.
From S2P Require Import Prelude Mbr Ext2.

Local Open Scope Z_scope.

Module ext2_block.
Import ext2.

(** The sizes that mounting checks. *)
Record geometry_ok (s : Ext2State) : Prop := {
  geo_size : block_size s = 512 * sects_per_block s;
  geo_sectors : 2 <= sects_per_block s <= 8;
  geo_offset : 0 <= lba_offset s;
}.

(** The field of [n] bytes at [o]. *)
Definition field (c : list Z) (o n : nat) : Z := le_decode (take n (drop o c)).

(** The sectors of block [b] have numbers of 32 bits. *)
Definition addressable (s : Ext2State) (b : Z) : Prop :=
  0 <= b /\ lba_offset s + (b + 1) * sects_per_block s <= u32_max.

Definition lba (s : Ext2State) (b : Z) : Z := lba_offset s + b * sects_per_block s.

Definition bsn (s : Ext2State) : nat := Z.to_nat (block_size s).

Definition buffer_ok (b : list Z) : Prop := length b = MAX_BLOCK /\ Forall is_byte b.

(** Mounting is over for good: calls keep everything but counts and descriptors. *)
Definition same_geometry (s s' : Ext2State) : Prop :=
  ready s' = ready s /\ lba_offset s' = lba_offset s /\ block_size s' = block_size s /\
  sects_per_block s' = sects_per_block s /\ inodes_per_group s' = inodes_per_group s /\
  blocks_per_group s' = blocks_per_group s /\ inode_size s' = inode_size s /\
  first_data_block s' = first_data_block s /\ groups_count s' = groups_count s /\ bgdt_block s' = bgdt_block s.

#[export] Instance same_geometry_preorder : PreOrder same_geometry.
Proof. split; [by intros s|]. unfold same_geometry. intros s1 s2 s3. intuition congruence. Qed.

Section Blocks.
Context {D : Type} `{DL : DiskLaws D}.
Implicit Types (w : Ext2 D) (s : Ext2State) (d : D).

(** The content of block [b]. *)
Definition blk_of s d (b : Z) : list Z := mjoin (sector d <$> seqZ (lba s b) (sects_per_block s)).
Definition blk w (b : Z) : list Z := blk_of (state w) (disk w) b.

Record io_ok w : Prop := { io_geo : geometry_ok (state w); io_buf : buffer_ok (scratch w) }.

Lemma length_blk_of s d b : geometry_ok s -> length (blk_of s d b) = bsn s.
Proof.
  intros [Hs Hn _]. unfold blk_of, bsn. rewrite (length_mjoin 512) by apply sector_lengths.
  rewrite length_fmap, length_seqZ, Hs. lia.
Qed.

Lemma blk_of_bytes s d b : Forall is_byte (blk_of s d b).
Proof.
  unfold blk_of. generalize (seqZ (lba s b) (sects_per_block s)). induction l as [|x l IH]; [constructor|].
  cbn. apply Forall_app. split; [apply sectors_are_512_bytes|done].
Qed.

Lemma bsn_le s : geometry_ok s -> (1024 <= bsn s <= MAX_BLOCK)%nat.
Proof. intros [Hs Hn _]. unfold bsn, MAX_BLOCK. lia. Qed.

(** ** Reading *)

Lemma read_sectors_ok w lb n : forall k, 0 <= lb -> lb + Z.of_nat (k + n) <= u32_max + 1 -> (512 * (k + n) <= length (scratch w))%nat ->
  read_sectors lb (seqZ (Z.of_nat k) (Z.of_nat n)) w =
  Ret (true, set_scratch w (splice (scratch w) (512 * k) (mjoin (sector (disk w) <$> seqZ (lb + Z.of_nat k) (Z.of_nat n))))).
Proof.
  revert w. induction n as [|n IH]; intros w k Hlb Hr Hbuf.
  { rewrite !seqZ_nil by done. cbn [read_sectors fmap list_fmap]. change (mjoin []) with (@nil Z). rewrite splice_nil. by destruct w. }
  rewrite !(seqZ_cons _ (Z.of_nat (S n))) by lia. cbn [read_sectors]. rewrite cadd_le by lia. cbn [mbind outcome_mbind].
  rewrite read_works. rewrite copy_at_le by (rewrite sector_length; lia). cbn [mbind outcome_mbind].
  replace (Z.to_nat (Z.of_nat k * 512)) with (512 * k)%nat by lia.
  replace (Z.succ (Z.of_nat k)) with (Z.of_nat (S k)) by lia. replace (Z.pred (Z.of_nat (S n))) with (Z.of_nat n) by lia.
  rewrite IH; cbn [scratch set_scratch disk]; [|lia|lia|rewrite length_splice; rewrite ?sector_length; lia].
  do 2 f_equal. unfold set_scratch; cbn [state disk]. f_equal.
  replace (512 * S k)%nat with (512 * k + length (sector (disk w) (lb + Z.of_nat k)))%nat by (rewrite sector_length; lia).
  rewrite splice_app by (rewrite sector_length; lia). by replace (Z.succ (lb + Z.of_nat k)) with (lb + Z.of_nat (S k)) by lia.
Qed.

Lemma read_block_ok w b : io_ok w -> addressable (state w) b ->
  read_block_into_scratch b w = Ret (true, set_scratch w (splice (scratch w) 0 (blk w b))).
Proof.
  intros [[Hs Hn Ho] [Hlen _]] [Hb Ha]. unfold read_block_into_scratch, block_lba.
  rewrite cmul_le by lia. cbn [mbind outcome_mbind]. rewrite cadd_le by lia. cbn [mbind outcome_mbind].
  pose proof (read_sectors_ok w (lba (state w) b) (Z.to_nat (sects_per_block (state w))) 0) as Hread.
  rewrite Z.add_0_r, Z2Nat.id in Hread by lia. apply Hread; [unfold lba; nia|unfold lba; nia|].
  rewrite Hlen. unfold MAX_BLOCK. lia.
Qed.

(** ** Writing *)

(** The disk after block [b] was written with [bytes]. *)
Definition stored s d d' (b : Z) (bytes : list Z) : Prop := forall l,
  sector d' l = if decide (lba s b <= l < lba s b + sects_per_block s)
                then take 512 (drop (Z.to_nat (l - lba s b) * 512) bytes) else sector d l.

Lemma slice_buffer (buf : list Z) k : buffer_ok buf -> (k < 8)%nat ->
  slice buf (k * 512) (k * 512 + 512) = Ret (take 512 (drop (k * 512) buf)) /\ is_sector (take 512 (drop (k * 512) buf)).
Proof.
  intros [Hl Hb] Hk. unfold MAX_BLOCK in Hl. rewrite slice_le by lia. split; [do 2 f_equal; lia|].
  split; [rewrite length_take, length_drop; lia|]. by apply Forall_take, Forall_drop.
Qed.

Lemma write_sectors_ok n : forall w lb k, 0 <= lb -> lb + Z.of_nat (k + n) <= u32_max + 1 -> buffer_ok (scratch w) -> (k + n <= 8)%nat ->
  exists d', write_sectors lb (seqZ (Z.of_nat k) (Z.of_nat n)) w = Ret (true, set_disk w d') /\
    forall l, sector d' l = if decide (lb + Z.of_nat k <= l < lb + Z.of_nat (k + n))
                            then take 512 (drop (Z.to_nat (l - lb) * 512) (scratch w)) else sector (disk w) l.
Proof.
  induction n as [|n IH]; intros w lb k Hlb Hr Hbuf Hk.
  { exists (disk w). split; [by destruct w|]. intros l. by rewrite decide_False by lia. }
  rewrite (seqZ_cons _ (Z.of_nat (S n))) by lia. cbn [write_sectors]. rewrite cadd_le by lia. cbn [mbind outcome_mbind].
  replace (Z.to_nat (Z.of_nat k * 512)) with (k * 512)%nat by lia.
  destruct (slice_buffer (scratch w) k Hbuf ltac:(lia)) as [-> Hsec]. cbn [mbind outcome_mbind].
  destruct (sector_write (disk w) (lb + Z.of_nat k) _) as [ok d1] eqn:Ew.
  pose proof (write_works (disk w) (lb + Z.of_nat k) (take 512 (drop (k * 512) (scratch w)))) as Hok. rewrite Ew in Hok. cbn in Hok. subst ok.
  pose proof (fun l => read_after_write (disk w) (lb + Z.of_nat k) _ l Hsec) as Hraw. rewrite Ew in Hraw. cbn [snd] in Hraw.
  replace (Z.succ (Z.of_nat k)) with (Z.of_nat (S k)) by lia. replace (Z.pred (Z.of_nat (S n))) with (Z.of_nat n) by lia.
  destruct (IH (set_disk w d1) lb (S k) Hlb ltac:(lia) Hbuf ltac:(lia)) as (d' & -> & Hd'). exists d'. split; [done|].
  intros l. rewrite Hd'. cbn [scratch set_disk disk]. rewrite Hraw.
  destruct (decide (lb + Z.of_nat (S k) <= l < lb + Z.of_nat (S k + n))), (decide (lb + Z.of_nat k <= l < lb + Z.of_nat (k + S n)));
    try done; try lia; destruct (decide (l = lb + Z.of_nat k)) as [->|]; try done; try lia.
  replace (Z.to_nat (lb + Z.of_nat k - lb)) with k by lia. done.
Qed.

Lemma write_block_ok w b : io_ok w -> addressable (state w) b ->
  exists d', write_block_from_scratch b w = Ret (true, set_disk w d') /\
    stored (state w) (disk w) d' b (take (bsn (state w)) (scratch w)).
Proof.
  intros [[Hs Hn Ho] Hbuf] [Hb Ha]. unfold write_block_from_scratch, block_lba.
  rewrite cmul_le by lia. cbn [mbind outcome_mbind]. rewrite cadd_le by lia. cbn [mbind outcome_mbind].
  destruct (write_sectors_ok (Z.to_nat (sects_per_block (state w))) w (lba (state w) b) 0) as (d' & Hw & Hd');
    [unfold lba; nia|unfold lba; nia|done|lia|].
  rewrite Z2Nat.id in Hw by lia. exists d'. split; [done|].
  intros l. rewrite Hd'. rewrite Z.add_0_r, Nat.add_0_l, Z2Nat.id by lia. destruct (decide _) as [Hl|]; [|done].
  rewrite skipn_firstn_comm, take_take. f_equal. unfold bsn. rewrite Hs. unfold lba in *. lia.
Qed.

Lemma block_lba_disjoint s b b' l : geometry_ok s -> b <> b' ->
  lba s b <= l < lba s b + sects_per_block s -> ~ lba s b' <= l < lba s b' + sects_per_block s.
Proof. intros [_ Hn _] Hne. unfold lba. nia. Qed.

Lemma blk_of_ext s d d' b : (forall l, lba s b <= l < lba s b + sects_per_block s -> sector d' l = sector d l) ->
  blk_of s d' b = blk_of s d b.
Proof. intros Hext. unfold blk_of. f_equal. apply list_fmap_ext. intros i l [-> Hi]%lookup_seqZ. apply Hext. lia. Qed.

Lemma blk_of_lookup s d b i : (i < Z.to_nat (sects_per_block s) * 512)%nat ->
  blk_of s d b !! i = sector d (lba s b + Z.of_nat (i / 512)) !! (i mod 512)%nat.
Proof.
  intros Hi. unfold blk_of. rewrite (Nat.div_mod_eq i 512) at 1.
  assert (i / 512 < Z.to_nat (sects_per_block s))%nat by (apply Nat.Div0.div_lt_upper_bound; lia).
  replace (512 * (i / 512) + i mod 512)%nat with (i / 512 * 512 + i mod 512)%nat by lia.
  apply (lookup_mjoin 512); [apply sector_lengths| |apply Nat.mod_upper_bound; lia].
  rewrite list_lookup_fmap. rewrite (proj2 (lookup_seqZ _ _ _ (lba s b + Z.of_nat (i / 512)))); [done|]. lia.
Qed.

Lemma stored_blk s d d' b bytes : geometry_ok s -> length bytes = bsn s -> stored s d d' b bytes ->
  forall b', blk_of s d' b' = if decide (b' = b) then bytes else blk_of s d b'.
Proof.
  intros Hg Hlen Hst b'. destruct (decide (b' = b)) as [->|Hne].
  - apply list_eq. intros i. destruct (decide (i < bsn s)%nat) as [Hi|Hi].
    2: { rewrite !lookup_ge_None_2 by (rewrite ?length_blk_of by done; lia). done. }
    assert (Hi' : (i < Z.to_nat (sects_per_block s) * 512)%nat) by (destruct Hg as [Hs ? _]; unfold bsn in Hi; lia).
    rewrite blk_of_lookup, Hst by done.
    assert (i / 512 < Z.to_nat (sects_per_block s))%nat by (apply Nat.Div0.div_lt_upper_bound; lia).
    pose proof (Nat.mod_upper_bound i 512 ltac:(lia)).
    rewrite decide_True by lia. rewrite lookup_take_lt by lia. rewrite lookup_drop. f_equal.
    pose proof (Nat.div_mod_eq i 512). lia.
  - apply blk_of_ext. intros l Hl. rewrite Hst. rewrite decide_False; [done|]. eapply block_lba_disjoint; eauto.
Qed.

(** ** Loading, changing and storing a block

    After a read [SCRATCH] starts with the content of the block; the changes the
    driver makes stay inside it, and a write stores exactly that part. *)

Definition loaded w (c : list Z) : Prop :=
  geometry_ok (state w) /\ length c = bsn (state w) /\ Forall is_byte c /\
  exists rest, scratch w = c ++ rest /\ Forall is_byte rest /\ length (c ++ rest) = MAX_BLOCK.

Lemma loaded_io w c : loaded w c -> io_ok w.
Proof. intros (Hg & _ & Hc & rest & Hs & Hr & Hl). split; [done|]. rewrite Hs. split; [done|]. by apply Forall_app. Qed.

(** The driver's state and the sectors before the partition are as they were, and
    the blocks have these contents. *)
Record shows w w' (f : Z -> list Z) : Prop := {
  sh_state : state w' = state w;
  sh_blk : forall b, blk w' b = f b;
  sh_low : forall l, l < lba_offset (state w) -> sector (disk w') l = sector (disk w) l;
}.

Definition upd (f : Z -> list Z) (b : Z) (c : list Z) : Z -> list Z := fun b' => if decide (b' = b) then c else f b'.

Lemma upd_eq f b c : upd f b c b = c.
Proof. unfold upd. by rewrite decide_True. Qed.
Lemma upd_ne f b c b' : b' <> b -> upd f b c b' = f b'.
Proof. intros Hne. unfold upd. by rewrite decide_False. Qed.

Lemma shows_refl w : shows w w (blk w).
Proof. by split. Qed.

Lemma shows_trans w w1 w2 f g : shows w w1 f -> shows w1 w2 g -> shows w w2 g.
Proof. intros [H1 H2 H3] [H4 H5 H6]. split; [congruence|done|]. intros l Hl. rewrite H6, H3; [done..|by rewrite H1]. Qed.

Lemma shows_ext w w' f g : shows w w' f -> (forall b, f b = g b) -> shows w w' g.
Proof. intros [H1 H2 H3] Hfg. split; [done| |done]. intros b. by rewrite H2. Qed.

Lemma read_loaded w b : io_ok w -> addressable (state w) b ->
  exists w', read_block_into_scratch b w = Ret (true, w') /\ shows w w' (blk w) /\ loaded w' (blk w b).
Proof.
  intros Hio Ha. pose proof (io_geo _ Hio) as Hg. destruct (io_buf _ Hio) as [Hl Hb].
  pose proof (length_blk_of (state w) (disk w) b Hg) as Hlen. pose proof (bsn_le _ Hg).
  eexists. split; [by apply read_block_ok|]. split; [by split|]. split; [done|]. split; [done|]. split; [apply blk_of_bytes|].
  exists (drop (bsn (state w)) (scratch w)). cbn [scratch set_scratch]. unfold splice. rewrite take_0, app_nil_l, Nat.add_0_l.
  unfold blk. rewrite Hlen. split_and!; [done|by apply Forall_drop|]. rewrite length_app, Hlen, length_drop, Hl. lia.
Qed.

Lemma splice_app_l (c rest src : list Z) i : (i + length src <= length c)%nat -> splice (c ++ rest) i src = splice c i src ++ rest.
Proof. intros Hi. unfold splice. rewrite take_app_le, drop_app_le by lia. by rewrite <- !app_assoc. Qed.

Lemma splice_bytes (c src : list Z) i : Forall is_byte c -> Forall is_byte src -> Forall is_byte (splice c i src).
Proof. intros Hc Hs. unfold splice. apply Forall_app; split; [by apply Forall_take|]. apply Forall_app; split; [done|by apply Forall_drop]. Qed.

Lemma patch_loaded w c pos src : loaded w c -> (pos + length src <= bsn (state w))%nat -> Forall is_byte src ->
  exists w', patch_scratch pos src w = Ret w' /\ shows w w' (blk w) /\ loaded w' (splice c pos src).
Proof.
  intros (Hg & Hl & Hc & rest & Hs & Hr & Hm) Hp Hb. unfold patch_scratch. rewrite Hs.
  rewrite copy_at_le by (rewrite length_app; lia). cbn [mbind outcome_mbind]. eexists. split; [done|]. split; [by split|].
  split; [done|]. cbn [state set_scratch scratch]. rewrite length_splice by lia. split_and!; [done|by apply splice_bytes|].
  exists rest. split_and!; [apply splice_app_l; lia|done|]. rewrite !length_app, length_splice in * by lia. done.
Qed.

Lemma write_loaded w c b : loaded w c -> addressable (state w) b ->
  exists w', write_block_from_scratch b w = Ret (true, w') /\ shows w w' (upd (blk w) b c) /\ loaded w' c.
Proof.
  intros Hld Ha. pose proof (loaded_io w c Hld) as Hio. destruct Hld as (Hg & Hl & Hc & rest & Hs & Hr & Hm).
  destruct (write_block_ok w b Hio Ha) as (d' & -> & Hst). rewrite Hs in Hst. rewrite take_app_length' in Hst by done.
  eexists. split; [done|]. split.
  - split; [done| |].
    + intros b'. unfold blk at 1. cbn [state disk set_disk]. by apply (stored_blk _ (disk w)).
    + intros l Hlow. cbn [disk set_disk]. rewrite Hst. rewrite decide_False; [done|]. destruct Ha, Hg. unfold lba. nia.
  - split; [done|]. split; [done|]. split; [done|]. exists rest. by split_and!.
Qed.

(** The same from a world [w0] some steps back. *)
Lemma run_read w0 w f b : shows w0 w f -> io_ok w -> addressable (state w0) b ->
  exists w', read_block_into_scratch b w = Ret (true, w') /\ shows w0 w' f /\ loaded w' (f b).
Proof.
  intros S Hio Ha. destruct (read_loaded w b Hio) as (w' & Hr & S' & L'); [by rewrite (sh_state _ _ _ S)|].
  exists w'. split; [done|]. rewrite <- (sh_blk _ _ _ S). split; [|done].
  eapply shows_ext; [by eapply shows_trans|]. apply S.
Qed.

Lemma run_patch w0 w f c pos src : shows w0 w f -> loaded w c -> (pos + length src <= bsn (state w0))%nat -> Forall is_byte src ->
  exists w', patch_scratch pos src w = Ret w' /\ shows w0 w' f /\ loaded w' (splice c pos src).
Proof.
  intros S L Hp Hb. destruct (patch_loaded w c pos src L) as (w' & Hr & S' & L'); [by rewrite (sh_state _ _ _ S)|done|].
  exists w'. split; [done|]. split; [|done]. eapply shows_ext; [by eapply shows_trans|]. apply S.
Qed.

Lemma run_write w0 w f c b : shows w0 w f -> loaded w c -> addressable (state w0) b ->
  exists w', write_block_from_scratch b w = Ret (true, w') /\ shows w0 w' (upd f b c) /\ loaded w' c.
Proof.
  intros S L Ha. destruct (write_loaded w c b L) as (w' & Hr & S' & L'); [by rewrite (sh_state _ _ _ S)|].
  exists w'. split; [done|]. split; [|done]. eapply shows_ext; [by eapply shows_trans|].
  intros b'. unfold upd. case_decide; [done|apply S].
Qed.

(** Changes of the counts and descriptors keep the blocks. *)
Lemma blk_of_geometry s s' d b : same_geometry s s' -> blk_of s' d b = blk_of s d b.
Proof. intros (_ & Hl & _ & Hs & _). unfold blk_of, lba. by rewrite Hl, Hs. Qed.

Lemma geometry_ok_same s s' : same_geometry s s' -> geometry_ok s -> geometry_ok s'.
Proof. intros (_ & Hl & Hb & Hs & _) []. split; by rewrite ?Hl, ?Hb, ?Hs. Qed.

Lemma addressable_same s s' b : same_geometry s s' -> addressable s b -> addressable s' b.
Proof. intros (_ & Hl & Hb & Hs & _). unfold addressable. by rewrite Hl, Hs. Qed.

Lemma io_ok_shows w w' f : io_ok w -> buffer_ok (scratch w') -> shows w w' f -> io_ok w'.
Proof. intros [Hg _] Hb [Hs _ _]. split; [by rewrite Hs|done]. Qed.

(** [le_decode] reads what [le_encode] wrote into a block. *)
Lemma slice_splice_same (c src : list Z) i : (i + length src <= length c)%nat ->
  take (length src) (drop i (splice c i src)) = src.
Proof.
  intros Hi. unfold splice. rewrite drop_app_length' by (rewrite length_take; lia). by apply take_app_length'.
Qed.

Lemma slice_splice_other (c src : list Z) i j n : (i + length src <= length c)%nat ->
  (j + n <= i)%nat \/ (i + length src <= j)%nat -> take n (drop j (splice c i src)) = take n (drop j c).
Proof.
  intros Hi Hd. apply list_eq. intros k. destruct (decide (k < n)%nat) as [Hk|Hk].
  - rewrite !lookup_take_lt, !lookup_drop by lia. apply lookup_splice_out; lia.
  - by rewrite !lookup_take_ge by lia.
Qed.

Lemma splice_inner (c sec src : list Z) o i : (i + length src <= length sec)%nat -> (o + length sec <= length c)%nat ->
  splice c o (splice sec i src) = splice (splice c o sec) (o + i) src.
Proof.
  intros Hi Ho. assert (Hls : length (splice sec i src) = length sec) by (apply length_splice; lia).
  assert (Hlc : length (splice c o sec) = length c) by (apply length_splice; lia).
  apply list_eq. intros k. destruct (decide (o <= k < o + length sec)%nat) as [Hk|Hk].
  - rewrite (lookup_splice_in c o (splice sec i src)) by lia. destruct (decide (i <= k - o < i + length src)%nat) as [Hk'|Hk'].
    + rewrite !lookup_splice_in by lia. f_equal. lia.
    + rewrite !lookup_splice_out by lia. by rewrite lookup_splice_in by lia.
  - rewrite (lookup_splice_out c o (splice sec i src)) by lia. by rewrite !lookup_splice_out by lia.
Qed.

Lemma splice_id (c : list Z) o n : (o + n <= length c)%nat -> splice c o (take n (drop o c)) = c.
Proof.
  intros Ho. unfold splice. rewrite length_take, length_drop, Nat.min_l by lia.
  rewrite <- drop_drop, take_drop. apply take_drop.
Qed.

(** A write of sector [k] of block [b]. *)
Lemma blk_of_sector s d d' b k sec : geometry_ok s -> length sec = 512%nat -> 0 <= k < sects_per_block s ->
  (forall l, sector d' l = if decide (l = lba s b + k) then sec else sector d l) ->
  blk_of s d' b = splice (blk_of s d b) (Z.to_nat k * 512) sec.
Proof.
  intros Hg Hsec Hk Hd'. pose proof (length_blk_of s d b Hg) as Hl. pose proof (length_blk_of s d' b Hg) as Hl'.
  assert (Hbs : bsn s = (Z.to_nat (sects_per_block s) * 512)%nat) by (destruct Hg; unfold bsn; lia).
  apply list_eq. intros i. destruct (decide (i < bsn s)%nat) as [Hi|Hi].
  2: { rewrite !lookup_ge_None_2; [done|rewrite length_splice; lia|lia]. }
  pose proof (Nat.div_mod_eq i 512). pose proof (Nat.mod_upper_bound i 512 ltac:(lia)).
  rewrite blk_of_lookup, Hd' by lia. destruct (decide (i / 512 = Z.to_nat k)%nat) as [He|He].
  - rewrite decide_True by lia. rewrite lookup_splice_in by lia. f_equal. lia.
  - rewrite decide_False by lia. rewrite lookup_splice_out by lia. by rewrite blk_of_lookup by lia.
Qed.
End Blocks.
End ext2_block.
