(* ===== verification/Ext2Alloc.v ===== *)
(** * The ext2 driver: allocation of blocks and inodes

    Module [ext2_alloc] states when a mounted volume is consistent ([volume_ok]):
    its metadata blocks are distinct and marked in use, the free counts are the
    numbers of clear bits, and the copies of the counts on the disk are those in
    memory. Allocating and freeing keep this, and change the set of blocks in use
    by exactly the block they return or take. *)

From stdpp Require Import base list gmap strings list_numbers.
From Stdlib Require Import ZArith Lia.
From S2P Require Import Prelude RamFs Mbr Ext2 Ext2Ops Ext2Block.

Local Open Scope Z_scope.

Module ext2_alloc.
Import ext2 ext2fs ext2_block.

(** ** Bits of a bitmap *)

Definition tst (c : list Z) (k : Z) : bool := Z.testbit (default 0 (c !! Z.to_nat (k / 8))) (k mod 8).
Definition setb (c : list Z) (k : Z) : list Z :=
  <[Z.to_nat (k / 8) := Z.lor (default 0 (c !! Z.to_nat (k / 8))) (bit (k mod 8))]> c.
Definition clrb (c : list Z) (k : Z) : list Z :=
  <[Z.to_nat (k / 8) := Z.ldiff (default 0 (c !! Z.to_nat (k / 8))) (bit (k mod 8))]> c.

Lemma div_mod_8 k k' : k / 8 = k' / 8 -> k mod 8 = k' mod 8 -> k = k'.
Proof. intros. rewrite (Z.div_mod k 8), (Z.div_mod k' 8) by lia. lia. Qed.

Lemma tst_setb c k k' : 0 <= k -> 0 <= k' -> (Z.to_nat (k / 8) < length c)%nat ->
  tst (setb c k) k' = tst c k' || bool_decide (k' = k).
Proof.
  intros Hk Hk' Hl. unfold tst, setb. pose proof (Z.mod_pos_bound k 8 ltac:(lia)). pose proof (Z.mod_pos_bound k' 8 ltac:(lia)).
  destruct (decide (k' / 8 = k / 8)) as [He|He].
  - rewrite He, list_lookup_insert_eq by done. cbn [from_option]; unfold id at 1. rewrite lor_bit_testbit by lia. f_equal.
    apply bool_decide_ext. split; [|congruence]. intros Hm. by apply div_mod_8.
  - rewrite list_lookup_insert_ne by (pose proof (Z.div_pos k 8); pose proof (Z.div_pos k' 8); lia).
    rewrite bool_decide_eq_false_2 by congruence. by rewrite orb_false_r.
Qed.

Lemma tst_clrb c k k' : 0 <= k -> 0 <= k' -> (Z.to_nat (k / 8) < length c)%nat ->
  tst (clrb c k) k' = tst c k' && negb (bool_decide (k' = k)).
Proof.
  intros Hk Hk' Hl. unfold tst, clrb. pose proof (Z.mod_pos_bound k 8 ltac:(lia)). pose proof (Z.mod_pos_bound k' 8 ltac:(lia)).
  destruct (decide (k' / 8 = k / 8)) as [He|He].
  - rewrite He, list_lookup_insert_eq by done. cbn [from_option]; unfold id at 1. rewrite ldiff_bit_testbit by lia. do 2 f_equal.
    apply bool_decide_ext. split; [|congruence]. intros Hm. by apply div_mod_8.
  - rewrite list_lookup_insert_ne by (pose proof (Z.div_pos k 8); pose proof (Z.div_pos k' 8); lia).
    rewrite bool_decide_eq_false_2 by congruence. by rewrite andb_true_r.
Qed.

Lemma length_setb c k : length (setb c k) = length c.
Proof. apply length_insert. Qed.
Lemma length_clrb c k : length (clrb c k) = length c.
Proof. apply length_insert. Qed.

Lemma byte_lor x k : is_byte x -> 0 <= k < 8 -> is_byte (Z.lor x (bit k)).
Proof.
  intros [Hx0 Hx] Hk. split; [apply Z.lor_nonneg; split; [done|]; apply Z.shiftl_nonneg; lia|].
  destruct (Z.eq_dec (Z.lor x (bit k)) 0) as [->|Hne]; [lia|].
  assert (Hb : bit k = 2 ^ k) by (unfold bit; by rewrite Z.shiftl_1_l).
  assert (H2 : 2 ^ k < 2 ^ 8) by (apply Z.pow_lt_mono_r; lia). pose proof (Z.pow_pos_nonneg 2 k ltac:(lia) ltac:(lia)).
  change 256 with (2 ^ 8). apply Z.log2_lt_pow2; [assert (0 <= Z.lor x (bit k)) by (apply Z.lor_nonneg; lia); lia|].
  rewrite Z.log2_lor by lia. apply Z.max_lub_lt.
  - destruct (Z.eq_dec x 0) as [->|]; [cbn; lia|]. apply Z.log2_lt_pow2; [lia|done].
  - rewrite Hb, Z.log2_pow2; lia.
Qed.

Lemma byte_ldiff x k : is_byte x -> 0 <= k -> is_byte (Z.ldiff x (bit k)).
Proof.
  intros [Hx0 Hx] Hk. split; [apply Z.ldiff_nonneg; by left|].
  assert (Hl : Z.ldiff x (bit k) = x - Z.land x (bit k)).
  { rewrite Z.sub_nocarry_ldiff.
    - apply Z.bits_inj'. intros n Hn. rewrite !Z.ldiff_spec, Z.land_spec. by destruct (Z.testbit x n), (Z.testbit (bit k) n).
    - apply Z.bits_inj'. intros n Hn. rewrite Z.ldiff_spec, Z.land_spec, Z.bits_0. by destruct (Z.testbit x n), (Z.testbit (bit k) n). }
  assert (0 <= Z.land x (bit k)) by (apply Z.land_nonneg; by left). lia.
Qed.

Lemma setb_bytes c k : Forall is_byte c -> Forall is_byte (setb c k).
Proof.
  intros Hc. apply Forall_insert; [done|]. apply byte_lor; [|apply Z.mod_pos_bound; lia].
  destruct (c !! Z.to_nat (k / 8)) as [x|] eqn:E; [by eapply Forall_lookup_1 in Hc|]. cbn. unfold is_byte. lia.
Qed.

Lemma clrb_bytes c k : Forall is_byte c -> Forall is_byte (clrb c k).
Proof.
  intros Hc. apply Forall_insert; [done|]. apply byte_ldiff; [|apply Z.mod_pos_bound; lia].
  destruct (c !! Z.to_nat (k / 8)) as [x|] eqn:E; [by eapply Forall_lookup_1 in Hc|]. cbn. unfold is_byte. lia.
Qed.

(** The number of clear bits below [n]. *)
Definition clear_bits (c : list Z) (n : Z) : Z := zsum (fun k => if tst c k then 0 else 1) (seqZ 0 n).

Lemma zsum_change {A} (f g : A -> Z) (l : list A) x : NoDup l -> x ∈ l -> (forall y, y ∈ l -> y <> x -> f y = g y) ->
  zsum f l = zsum g l - g x + f x.
Proof.
  intros Hnd. revert x. induction Hnd as [|y l Hy Hnd IH]; intros x Hx Hfg; [by apply not_elem_of_nil in Hx|].
  rewrite !zsum_cons. apply elem_of_cons in Hx as [->|Hx].
  - assert (zsum f l = zsum g l) as ->; [|lia]. clear IH Hnd. induction l as [|z l IH]; [done|].
    rewrite !zsum_cons. apply not_elem_of_cons in Hy as [Hyz Hy]. rewrite (Hfg z), IH; [done|done| |set_solver|done].
    intros v Hv Hne. apply Hfg; [set_solver|done].
  - rewrite (IH x Hx), (Hfg y); [lia|set_solver|congruence|]. intros v Hv. apply Hfg. set_solver.
Qed.

Lemma clear_bits_setb c n k : 0 <= k < n -> (Z.to_nat (k / 8) < length c)%nat -> tst c k = false ->
  clear_bits (setb c k) n = clear_bits c n - 1.
Proof.
  intros Hk Hl Hc. unfold clear_bits. rewrite (zsum_change _ (fun k => if tst c k then 0 else 1) _ k); [|apply NoDup_seqZ|apply elem_of_seqZ; lia|].
  - rewrite tst_setb, Hc, bool_decide_eq_true_2 by (done || lia). cbn. lia.
  - intros y Hy%elem_of_seqZ Hne. rewrite tst_setb, bool_decide_eq_false_2, orb_false_r by (done || lia). done.
Qed.

Lemma clear_bits_clrb c n k : 0 <= k < n -> (Z.to_nat (k / 8) < length c)%nat -> tst c k = true ->
  clear_bits (clrb c k) n = clear_bits c n + 1.
Proof.
  intros Hk Hl Hc. unfold clear_bits. rewrite (zsum_change _ (fun k => if tst c k then 0 else 1) _ k); [|apply NoDup_seqZ|apply elem_of_seqZ; lia|].
  - rewrite tst_clrb, Hc, bool_decide_eq_true_2 by (done || lia). cbn. lia.
  - intros y Hy%elem_of_seqZ Hne. rewrite tst_clrb, bool_decide_eq_false_2, andb_true_r by (done || lia). done.
Qed.

Lemma clear_bits_range c n : 0 <= n -> 0 <= clear_bits c n <= n.
Proof.
  intros Hn. unfold clear_bits. rewrite <- (Z2Nat.id n) at 3 by done. rewrite <- (length_seqZ 0 n).
  generalize (seqZ 0 n). induction l as [|x l IH]; [cbn; lia|]. rewrite zsum_cons. cbn [length]. destruct (tst c x); lia.
Qed.

Lemma clear_bits_zero c n : clear_bits c n = 0 -> forall k, 0 <= k < n -> tst c k = true.
Proof.
  intros Hz k Hk. destruct (tst c k) eqn:E; [done|]. exfalso.
  assert (Hin : k ∈ seqZ 0 n) by (apply elem_of_seqZ; lia). apply list_elem_of_lookup_1 in Hin as [i Hi].
  pose proof (zsum_ge (fun k => if tst c k then 0 else 1) (seqZ 0 n) i k) as Hge. cbn beta in Hge. rewrite E in Hge.
  unfold clear_bits in Hz. rewrite Hz in Hge. enough (1 <= 0) by lia. apply Hge; [|done]. intros y. destruct (tst c y); lia.
Qed.

(** [find_clear] finds the first clear bit. *)
Lemma find_clear_ok bs (s c rest : list Z) n : forall k, s = c ++ rest -> Z.of_nat (length c) = bs -> 0 <= k -> 0 <= n -> k + n <= 8 * bs ->
  exists r, find_clear bs s (seqZ k n) = Ret r /\
    match r with
    | Some b => k <= b < k + n /\ tst c b = false
    | None => forall b, k <= b < k + n -> tst c b = true
    end.
Proof.
  intros k Hs Hl Hk Hn. rewrite <- (Z2Nat.id n Hn). clear Hn. revert k Hk.
  induction (Z.to_nat n) as [|m IH]; intros k Hk Hb.
  { exists None. split; [done|]. lia. }
  rewrite (seqZ_cons _ (Z.of_nat (S m))) by lia. cbn [find_clear].
  assert (Hkb : k / 8 < bs) by (apply Z.div_lt_upper_bound; lia). pose proof (Z.div_pos k 8 Hk ltac:(lia)).
  destruct (Z.leb_spec bs (k / 8)); [lia|].
  destruct (lookup_lt_is_Some_2 c (Z.to_nat (k / 8))) as [x Hx]; [lia|].
  rewrite (proj2 (idx_Ret s _ x)) by (rewrite Hs; by apply lookup_app_l_Some). cbn [mbind outcome_mbind].
  rewrite land_bit_zero by (apply Z.mod_pos_bound; lia).
  assert (Ht : tst c k = Z.testbit x (k mod 8)) by (unfold tst; by rewrite Hx). rewrite <- Ht.
  destruct (tst c k) eqn:E; cbn [negb].
  - replace (Z.succ k) with (k + 1) by lia. replace (Z.pred (Z.of_nat (S m))) with (Z.of_nat m) by lia.
    destruct (IH (k + 1) ltac:(lia) ltac:(lia)) as (r & -> & Hr). exists r. split; [done|]. destruct r as [b|]; [split; [lia|apply Hr]|].
    intros b Hbk. destruct (decide (b = k)) as [->|]; [done|]. apply Hr. lia.
  - exists (Some k). split; [done|]. split; [lia|done].
Qed.

(** ** The layout of a volume *)

Definition desc (s : Ext2State) (g : nat) : BlockGroupDesc := default zero_desc (bgdt s !! g).
Definition groups (s : Ext2State) : nat := Z.to_nat (groups_count s).

(** The superblock is in the third sector of the partition. *)
Definition sb_block (s : Ext2State) : Z := 2 / sects_per_block s.
Definition sb_off (s : Ext2State) : nat := Z.to_nat (512 * (2 mod sects_per_block s)).

Definition table_len (s : Ext2State) : Z := (inodes_per_group s * inode_size s + block_size s - 1) / block_size s.

Definition group_meta (s : Ext2State) (g : nat) : list Z :=
  block_bitmap (desc s g) :: inode_bitmap (desc s g) :: seqZ (inode_table (desc s g)) (table_len s).

(** The blocks of the file system itself. *)
Definition meta (s : Ext2State) : list Z :=
  sb_block s :: bgdt_block s :: mjoin (group_meta s <$> seq 0 (groups s)).

Definition in_volume (s : Ext2State) (b : Z) : Prop :=
  first_data_block s <= b < first_data_block s + groups_count s * blocks_per_group s.

Definition group_of_block (s : Ext2State) (b : Z) : nat := Z.to_nat ((b - first_data_block s) / blocks_per_group s).
Definition bit_of_block (s : Ext2State) (b : Z) : Z := (b - first_data_block s) mod blocks_per_group s.

(** [bgdt_block] is after the block of the superblock, as mounting sets it. *)
Record layout_ok (s : Ext2State) : Prop := {
  lo_geo : geometry_ok s;
  lo_ready : ready s = true;
  lo_groups : 0 < groups_count s <= Z.of_nat MAX_GROUPS;
  lo_bgdt : length (bgdt s) = MAX_GROUPS;
  lo_bpg : 0 < blocks_per_group s <= 8 * block_size s;
  lo_ipg : 0 < inodes_per_group s <= 8 * block_size s;
  lo_isize : 128 <= inode_size s <= block_size s /\ block_size s mod inode_size s = 0;
  lo_first : 0 <= first_data_block s;
  lo_boot : first_data_block s = 0 -> sb_block s = 0;
  lo_end : addressable s (first_data_block s + groups_count s * blocks_per_group s);
  lo_distinct : NoDup (meta s);
  lo_inside : Forall (in_volume s) (meta s);
}.

(** The states of one mount: only counts and descriptors change. *)
Definition same_places (d d' : BlockGroupDesc) : Prop :=
  block_bitmap d' = block_bitmap d /\ inode_bitmap d' = inode_bitmap d /\ inode_table d' = inode_table d.

Record same_layout (s s' : Ext2State) : Prop := {
  sl_geo : same_geometry s s';
  sl_bgdt : length (bgdt s') = length (bgdt s);
  sl_places : forall g, same_places (desc s g) (desc s' g);
}.

#[export] Instance same_layout_preorder : PreOrder same_layout.
Proof.
  split; [intros s; by split|]. intros s1 s2 s3 [G1 B1 P1] [G2 B2 P2]. split; [by etrans|congruence|].
  intros g. specialize (P1 g). specialize (P2 g). unfold same_places in *. intuition congruence.
Qed.

(** The fields of [s'] as those of [s]. *)
Ltac same_fields s s' := repeat match goal with H : ?f s' = ?f s |- _ => rewrite H; clear H end.

Lemma group_meta_same s s' g : same_layout s s' -> group_meta s' g = group_meta s g.
Proof.
  intros [G _ P]. destruct (P g) as (H1 & H2 & H3). unfold group_meta, table_len. rewrite H1, H2, H3.
  unfold same_geometry in G. destruct_and! G. by same_fields s s'.
Qed.

Lemma meta_same s s' : same_layout s s' -> meta s' = meta s.
Proof.
  intros SL. pose proof (fun g => group_meta_same s s' g SL) as Hg. destruct SL as [G _ _].
  unfold meta, sb_block, groups. unfold same_geometry in G. destruct_and! G.
  same_fields s s'. do 3 f_equal.
  apply list_fmap_ext. intros i x _. apply Hg.
Qed.

Lemma layout_ok_same s s' : same_layout s s' -> layout_ok s -> layout_ok s'.
Proof.
  intros SL L. pose proof (meta_same s s' SL) as Hm. destruct SL as [G B _]. destruct L.
  pose proof (geometry_ok_same s s' G lo_geo0) as Hg. pose proof (addressable_same s s') as Ha.
  pose proof G as G'. unfold same_geometry in G'. destruct_and! G'.
  split; same_fields s s'; rewrite ?Hm, ?B; try done.
  - unfold sb_block in *. by same_fields s s'.
  - apply Ha; [done|]. done.
  - unfold in_volume in *. by same_fields s s'.
Qed.

Section Alloc.
Context {D : Type} `{DL : DiskLaws D}.
Implicit Types w : Ext2 D.

(** ** Writing the counts *)

Definition put_entry (c : list Z) (g : nat) (d : BlockGroupDesc) : list Z :=
  splice (splice (splice c (g * 32 + 12) (u16_le (free_blocks_count d))) (g * 32 + 14) (u16_le (free_inodes_count d)))
         (g * 32 + 16) (u16_le (used_dirs_count d)).

Definition put_sb (s : Ext2State) (c : list Z) : list Z :=
  splice (splice c (sb_off s + 12) (u32_le (sb_free_blocks s))) (sb_off s + 16) (u32_le (sb_free_inodes s)).

Lemma bytes_u16 x : Forall is_byte (u16_le x).
Proof. apply le_encode_bytes. Qed.
Lemma bytes_u32 x : Forall is_byte (u32_le x).
Proof. apply le_encode_bytes. Qed.
Lemma length_u16 x : length (u16_le x) = 2%nat.
Proof. apply length_le_encode. Qed.
Lemma length_u32 x : length (u32_le x) = 4%nat.
Proof. apply length_le_encode. Qed.
Hint Rewrite length_u16 length_u32 : oxide_len.

(** Arithmetic on the lengths of changed blocks. *)
Ltac splice_lia := repeat (rewrite length_splice; rewrite ?length_u16, ?length_u32); rewrite ?length_u16, ?length_u32; lia.

Lemma write_bgdt_entry_ok w g d : io_ok w -> addressable (state w) (bgdt_block (state w)) -> bgdt (state w) !! g = Some d -> (g < 8)%nat ->
  exists w', write_bgdt_entry g w = Ret (true, w') /\ io_ok w' /\
    shows w w' (upd (blk w) (bgdt_block (state w)) (put_entry (blk w (bgdt_block (state w))) g d)).
Proof.
  intros Hio Ha Hd Hg. pose proof (bsn_le _ (io_geo _ Hio)) as Hbs. unfold write_bgdt_entry.
  destruct (run_read w w _ (bgdt_block (state w)) (shows_refl w) Hio Ha) as (w1 & -> & S1 & L1). cbn [mbind outcome_mbind negb].
  rewrite (sh_state _ _ _ S1), (proj2 (idx_Ret _ _ _) Hd). cbn [mbind outcome_mbind].
  destruct (run_patch w w1 _ _ (g * 32 + 12) (u16_le (free_blocks_count d)) S1 L1) as (w2 & -> & S2 & L2);
    [len_lia|apply bytes_u16|]. cbn [mbind outcome_mbind].
  destruct (run_patch w w2 _ _ (g * 32 + 14) (u16_le (free_inodes_count d)) S2 L2) as (w3 & -> & S3 & L3);
    [len_lia|apply bytes_u16|]. cbn [mbind outcome_mbind].
  destruct (run_patch w w3 _ _ (g * 32 + 16) (u16_le (used_dirs_count d)) S3 L3) as (w4 & -> & S4 & L4);
    [len_lia|apply bytes_u16|]. cbn [mbind outcome_mbind].
  rewrite (sh_state _ _ _ S4). destruct (run_write w w4 _ _ (bgdt_block (state w)) S4 L4 Ha) as (w5 & -> & S5 & L5).
  exists w5. split; [done|]. split; [by eapply loaded_io|done].
Qed.

(** The sector of the superblock as a part of its block. *)
Lemma sb_sector s (d : D) : geometry_ok s -> 
  sector d (lba_offset s + 2) = take 512 (drop (sb_off s) (blk_of s d (sb_block s))).
Proof.
  intros Hg. pose proof (length_blk_of s d (sb_block s) Hg) as Hl. destruct Hg as [Hs Hn Ho].
  pose proof (Z.mod_pos_bound 2 (sects_per_block s) ltac:(lia)) as Hm. pose proof (Z.div_mod 2 (sects_per_block s) ltac:(lia)) as Hd.
  unfold bsn in Hl. apply list_eq. intros i. destruct (decide (i < 512)%nat) as [Hi|Hi].
  - rewrite lookup_take_lt, lookup_drop by done. unfold sb_off, sb_block in *.
    rewrite blk_of_lookup by nia. 
    replace (Z.to_nat (512 * (2 mod sects_per_block s)) + i)%nat with (i + Z.to_nat (2 mod sects_per_block s) * 512)%nat by lia.
    rewrite Nat.div_add, Nat.Div0.mod_add, Nat.div_small, Nat.mod_small by lia. f_equal. f_equal. unfold lba. lia.
  - rewrite lookup_take_ge by lia. apply lookup_ge_None_2. rewrite sector_length. lia.
Qed.

Lemma sb_in_block s : geometry_ok s -> (sb_off s + 512 <= bsn s)%nat.
Proof.
  intros [Hs Hn Ho]. pose proof (Z.mod_pos_bound 2 (sects_per_block s) ltac:(lia)). unfold sb_off, bsn. nia.
Qed.

Lemma write_superblock_ok w : io_ok w -> lba_offset (state w) + 2 <= u32_max ->
  exists w', write_superblock_free_counts w = Ret (true, w') /\ io_ok w' /\
    shows w w' (upd (blk w) (sb_block (state w)) (put_sb (state w) (blk w (sb_block (state w))))).
Proof.
  intros [Hg Hb] Hl. unfold write_superblock_free_counts. rewrite cadd_le by lia. cbn [mbind outcome_mbind]. rewrite read_works.
  set (sec := sector (disk w) (lba_offset (state w) + 2)). assert (Hsec : is_sector sec) by apply sectors_are_512_bytes.
  destruct Hsec as [Hlen Hby].
  rewrite copy_at_le by (rewrite length_u32; lia). cbn [mbind outcome_mbind].
  rewrite copy_at_le by (rewrite length_u32, length_splice by (rewrite length_u32; lia); lia). cbn [mbind outcome_mbind].
  set (sec' := splice (splice sec 12 _) 16 _).
  assert (Hlen' : length sec' = 512%nat) by (unfold sec'; rewrite !length_splice; rewrite ?length_u32; rewrite ?length_splice; rewrite ?length_u32; lia).
  assert (Hsec' : is_sector sec') by (split; [done|]; unfold sec'; repeat apply splice_bytes; auto using bytes_u32).
  destruct (sector_write (disk w) (lba_offset (state w) + 2) sec') as [ok d'] eqn:Ew.
  pose proof (write_works (disk w) (lba_offset (state w) + 2) sec') as Hok. rewrite Ew in Hok. cbn in Hok. subst ok.
  pose proof (fun l => read_after_write (disk w) (lba_offset (state w) + 2) sec' l Hsec') as Hraw. rewrite Ew in Hraw. cbn [snd] in Hraw.
  eexists. split; [done|]. split; [by split|]. split; [done| |].
  - intros b. unfold blk, upd. cbn [state disk set_disk]. pose proof Hg as [Hs Hn Ho].
    pose proof (Z.mod_pos_bound 2 (sects_per_block (state w)) ltac:(lia)) as Hm.
    pose proof (Z.div_mod 2 (sects_per_block (state w)) ltac:(lia)) as Hdm.
    destruct (decide (b = sb_block (state w))) as [->|Hne].
    + rewrite (blk_of_sector _ (disk w) d' _ (2 mod sects_per_block (state w)) sec' Hg Hlen' ltac:(lia)).
      2: { intros l. rewrite Hraw. unfold lba, sb_block. do 2 case_decide; try done; lia. }
      pose proof (length_blk_of (state w) (disk w) (sb_block (state w)) Hg) as Hlb. pose proof (sb_in_block _ Hg) as Hin.
      replace (Z.to_nat (2 mod sects_per_block (state w)) * 512)%nat with (sb_off (state w)) by (unfold sb_off; lia).
      unfold sec'. rewrite splice_inner; rewrite ?length_splice; rewrite ?length_u32; try lia.
      rewrite splice_inner by (rewrite ?length_u32; lia). unfold sec. rewrite sb_sector, splice_id by (done || lia). done.
    + apply blk_of_ext. intros l Hlb. rewrite Hraw. rewrite decide_False; [done|]. unfold lba, sb_block in *. nia.
  - intros l Hlow. cbn [disk set_disk]. rewrite Hraw, decide_False by lia. done.
Qed.

(** ** Consistent volumes *)

Definition used w (b : Z) : bool :=
  tst (blk w (block_bitmap (desc (state w) (group_of_block (state w) b)))) (bit_of_block (state w) b).

(** Descriptor [g] of the table in block [c]. *)
Definition desc_of (c : list Z) (g : nat) : BlockGroupDesc :=
  let f o n := le_decode (take n (drop (g * 32 + o) c)) in
  (mkDesc (f 0 4) (f 4 4) (f 8 4) (f 12 2) (f 14 2) (f 16 2))%nat.

Record volume_ok w : Prop := {
  vo_io : io_ok w;
  vo_layout : layout_ok (state w);
  vo_meta : forall m, m ∈ meta (state w) -> used w m = true;
  vo_blocks : forall g, (g < groups (state w))%nat -> free_blocks_count (desc (state w) g) =
    clear_bits (blk w (block_bitmap (desc (state w) g))) (blocks_per_group (state w));
  vo_inodes : forall g, (g < groups (state w))%nat -> free_inodes_count (desc (state w) g) =
    clear_bits (blk w (inode_bitmap (desc (state w) g))) (inodes_per_group (state w));
  vo_dirs : forall g, (g < groups (state w))%nat -> 0 <= used_dirs_count (desc (state w) g) <= u16_max;
  vo_sum : sb_free_blocks (state w) = zsum (fun g => free_blocks_count (desc (state w) g)) (seq 0 (groups (state w)));
  vo_isum : sb_free_inodes (state w) = zsum (fun g => free_inodes_count (desc (state w) g)) (seq 0 (groups (state w)));
  vo_table : forall g, (g < groups (state w))%nat -> desc_of (blk w (bgdt_block (state w))) g = desc (state w) g;
  vo_sb : le_decode (take 4 (drop (sb_off (state w) + 12) (blk w (sb_block (state w))))) = sb_free_blocks (state w);
  vo_sbi : le_decode (take 4 (drop (sb_off (state w) + 16) (blk w (sb_block (state w))))) = sb_free_inodes (state w);
}.

(** *** Facts of the layout *)

Lemma in_volume_addressable s b : layout_ok s -> in_volume s b -> addressable s b.
Proof. intros L Hb. destruct (lo_end _ L) as [_ He]. pose proof (lo_first _ L). destruct (lo_geo _ L). unfold in_volume, addressable in *. nia. Qed.

Lemma meta_addressable s b : layout_ok s -> b ∈ meta s -> addressable s b.
Proof. intros L Hb. apply in_volume_addressable; [done|]. pose proof (lo_inside _ L) as HF. rewrite Forall_forall in HF. by apply HF. Qed.

Lemma group_meta_in s g m : (g < groups s)%nat -> m ∈ group_meta s g -> m ∈ meta s.
Proof.
  intros Hg Hm. do 2 (apply elem_of_cons; right). apply list_elem_of_join. exists (group_meta s g). split; [done|].
  apply list_elem_of_fmap. exists g. split; [done|]. apply elem_of_seq. lia.
Qed.

Lemma sb_in s : sb_block s ∈ meta s.
Proof. apply elem_of_cons. by left. Qed.
Lemma bgdt_in s : bgdt_block s ∈ meta s.
Proof. apply elem_of_cons. right. apply elem_of_cons. by left. Qed.

Lemma bb_in s g : block_bitmap (desc s g) ∈ group_meta s g.
Proof. apply elem_of_cons. by left. Qed.
Lemma ib_in s g : inode_bitmap (desc s g) ∈ group_meta s g.
Proof. apply elem_of_cons. right. apply elem_of_cons. by left. Qed.

Lemma NoDup_join_inj {A} (ls : list (list A)) i j l k x : NoDup (mjoin ls) -> ls !! i = Some l -> ls !! j = Some k -> x ∈ l -> x ∈ k -> i = j.
Proof.
  revert i j. induction ls as [|l0 ls IH]; intros i j Hnd Hi Hj Hl Hk; [done|].
  change (mjoin (l0 :: ls)) with (l0 ++ mjoin ls) in Hnd. apply NoDup_app in Hnd as (_ & Hd & Hnd).
  destruct i as [|i], j as [|j]; cbn in Hi, Hj; simplify_eq; [done|..].
  - exfalso. apply (Hd x Hl). apply list_elem_of_join. exists k. split; [done|]. by eapply list_elem_of_lookup_2.
  - exfalso. apply (Hd x Hk). apply list_elem_of_join. exists l. split; [done|]. by eapply list_elem_of_lookup_2.
  - f_equal. eapply IH; eauto.
Qed.

Lemma NoDup_join_part {A} (ls : list (list A)) i l : NoDup (mjoin ls) -> ls !! i = Some l -> NoDup l.
Proof.
  revert i. induction ls as [|l0 ls IH]; intros i Hnd Hi; [done|].
  change (mjoin (l0 :: ls)) with (l0 ++ mjoin ls) in Hnd. apply NoDup_app in Hnd as (Hl & _ & Hnd).
  destruct i as [|i]; cbn in Hi; simplify_eq; [done|]. by eapply IH.
Qed.

Lemma group_meta_at s g : (g < groups s)%nat -> (group_meta s <$> seq 0 (groups s)) !! g = Some (group_meta s g).
Proof. intros Hg. rewrite list_lookup_fmap, lookup_seq_lt by done. done. Qed.

Lemma group_meta_inj s g g' m : layout_ok s -> (g < groups s)%nat -> (g' < groups s)%nat -> m ∈ group_meta s g -> m ∈ group_meta s g' -> g = g'.
Proof.
  intros L Hg Hg' Hm Hm'. pose proof (lo_distinct _ L) as Hnd. apply NoDup_cons in Hnd as [_ Hnd]. apply NoDup_cons in Hnd as [_ Hnd].
  eapply NoDup_join_inj; [done|by apply group_meta_at|by apply group_meta_at|done|done].
Qed.

Lemma group_meta_special s g m : layout_ok s -> (g < groups s)%nat -> m ∈ group_meta s g -> m <> sb_block s /\ m <> bgdt_block s.
Proof.
  intros L Hg Hm. pose proof (lo_distinct _ L) as Hnd. apply NoDup_cons in Hnd as [H1 Hnd]. apply NoDup_cons in Hnd as [H2 _].
  assert (Hj : m ∈ mjoin (group_meta s <$> seq 0 (groups s))).
  { apply list_elem_of_join. exists (group_meta s g). split; [done|]. eapply list_elem_of_lookup_2. by apply group_meta_at. }
  split; intros ->; [apply H1; by apply elem_of_cons; right|done].
Qed.

Lemma bgdt_not_sb s : layout_ok s -> bgdt_block s <> sb_block s.
Proof. intros L He. pose proof (lo_distinct _ L) as Hnd. apply NoDup_cons in Hnd as [H1 _]. apply H1. rewrite <- He. apply elem_of_cons. by left. Qed.

Lemma bb_not_ib s g g' : layout_ok s -> (g < groups s)%nat -> (g' < groups s)%nat -> block_bitmap (desc s g) <> inode_bitmap (desc s g').
Proof.
  intros L Hg Hg' He. assert (g = g') as <- by (eapply group_meta_inj; eauto; [apply bb_in|rewrite He; apply ib_in]).
  pose proof (lo_distinct _ L) as Hnd. apply NoDup_cons in Hnd as [_ Hnd]. apply NoDup_cons in Hnd as [_ Hnd].
  eapply NoDup_join_part in Hnd; [|by apply (group_meta_at s g)]. apply NoDup_cons in Hnd as [Hn _]. apply Hn. rewrite He.
  apply elem_of_cons. by left.
Qed.

(** *** Numbers of blocks *)

Lemma in_volume_bit s b : layout_ok s -> in_volume s b ->
  (group_of_block s b < groups s)%nat /\ 0 <= bit_of_block s b < blocks_per_group s /\
  b = first_data_block s + Z.of_nat (group_of_block s b) * blocks_per_group s + bit_of_block s b.
Proof.
  intros L [Hb1 Hb2]. pose proof (lo_bpg _ L) as Hp. pose proof (lo_groups _ L). unfold group_of_block, bit_of_block, groups.
  pose proof (Z.mod_pos_bound (b - first_data_block s) (blocks_per_group s) ltac:(lia)).
  pose proof (Z.div_mod (b - first_data_block s) (blocks_per_group s) ltac:(lia)).
  pose proof (Z.div_pos (b - first_data_block s) (blocks_per_group s) ltac:(lia) ltac:(lia)).
  assert ((b - first_data_block s) / blocks_per_group s < groups_count s) by (apply Z.div_lt_upper_bound; nia).
  rewrite Z2Nat.id by lia. split_and!; nia.
Qed.

Lemma bit_in_volume s g k : layout_ok s -> (g < groups s)%nat -> 0 <= k < blocks_per_group s ->
  let b := first_data_block s + Z.of_nat g * blocks_per_group s + k in
  in_volume s b /\ group_of_block s b = g /\ bit_of_block s b = k.
Proof.
  intros L Hg Hk b. pose proof (lo_bpg _ L) as Hp. unfold groups in Hg. unfold b, in_volume, group_of_block, bit_of_block.
  replace (first_data_block s + Z.of_nat g * blocks_per_group s + k - first_data_block s) with (k + Z.of_nat g * blocks_per_group s) by lia.
  rewrite Z.div_add, Z.mod_add, Z.div_small, Z.mod_small by lia. split_and!; nia.
Qed.

Lemma block_to_group_bit_ok s b : layout_ok s -> in_volume s b -> block_to_group_bit s b = Ret (group_of_block s b, bit_of_block s b).
Proof.
  intros L [Hb1 Hb2]. pose proof (lo_bpg _ L). unfold block_to_group_bit. rewrite csub_le by lia. cbn [mbind outcome_mbind].
  unfold cdiv, crem. destruct (Z.eqb_spec (blocks_per_group s) 0); [lia|]. done.
Qed.

Lemma group_bit_to_block_ok s g k : layout_ok s -> (g < groups s)%nat -> 0 <= k < blocks_per_group s ->
  group_bit_to_block s g k = Ret (first_data_block s + Z.of_nat g * blocks_per_group s + k).
Proof.
  intros L Hg Hk. destruct (bit_in_volume s g k L Hg Hk) as [Hin _]. destruct (in_volume_addressable _ _ L Hin) as [H1 H2].
  pose proof (lo_first _ L). destruct (lo_geo _ L). unfold group_bit_to_block.
  rewrite cmul_le by nia. cbn [mbind outcome_mbind]. rewrite cadd_le by nia. cbn [mbind outcome_mbind]. rewrite cadd_le by nia. done.
Qed.

(** ** The counts on the disk *)

Lemma length_put_entry c g d : (256 <= length c)%nat -> (g < 8)%nat -> length (put_entry c g d) = length c.
Proof. intros Hc Hg. unfold put_entry. splice_lia. Qed.

(** A field of the table away from the three counts of group [g]. *)
Lemma put_entry_other c g d o n : (256 <= length c)%nat -> (g < 8)%nat -> (o + n <= g * 32 + 12 \/ g * 32 + 18 <= o)%nat ->
  take n (drop o (put_entry c g d)) = take n (drop o c).
Proof.
  intros Hc Hg Ho. unfold put_entry.
  by rewrite !slice_splice_other by splice_lia.
Qed.

Lemma put_entry_counts c g d : (256 <= length c)%nat -> (g < 8)%nat ->
  take 2 (drop (g * 32 + 12) (put_entry c g d)) = u16_le (free_blocks_count d) /\
  take 2 (drop (g * 32 + 14) (put_entry c g d)) = u16_le (free_inodes_count d) /\
  take 2 (drop (g * 32 + 16) (put_entry c g d)) = u16_le (used_dirs_count d).
Proof.
  intros Hc Hg. unfold put_entry.
  assert (Hs : forall (c : list Z) i (src : list Z), length src = 2%nat -> (i + 2 <= length c)%nat -> take 2 (drop i (splice c i src)) = src).
  { intros c0 i src Hl Hi. pose proof (slice_splice_same c0 src i) as Hx. rewrite Hl in Hx. by apply Hx. }
  split_and!.
  - do 2 (rewrite slice_splice_other by splice_lia). apply Hs; [apply length_u16|lia].
  - rewrite slice_splice_other by splice_lia. apply Hs; [apply length_u16|splice_lia].
  - apply Hs; [apply length_u16|splice_lia].
Qed.

Lemma decode_u16 x : 0 <= x <= u16_max -> le_decode (u16_le x) = x.
Proof. intros Hx. unfold u16_le. rewrite le_decode_encode; [done|]. unfold u16_max in Hx. cbn. lia. Qed.
Lemma decode_u32 x : 0 <= x <= u32_max -> le_decode (u32_le x) = x.
Proof. intros Hx. unfold u32_le. rewrite le_decode_encode; [done|]. unfold u32_max in Hx. cbn. lia. Qed.

Definition counts_ok (d : BlockGroupDesc) : Prop :=
  0 <= free_blocks_count d <= u16_max /\ 0 <= free_inodes_count d <= u16_max /\ 0 <= used_dirs_count d <= u16_max.

Lemma desc_of_put_entry c g d g' : (256 <= length c)%nat -> (g < 8)%nat -> counts_ok d -> same_places (desc_of c g) d ->
  desc_of (put_entry c g d) g' = if decide (g' = g) then d else desc_of c g'.
Proof.
  intros Hc Hg (H1 & H2 & H3) (P1 & P2 & P3). destruct (decide (g' = g)) as [->|Hne].
  - destruct (put_entry_counts c g d Hc Hg) as (E1 & E2 & E3). unfold desc_of in *. cbv zeta in *.
    rewrite E1, E2, E3, !decode_u16 by done. rewrite !put_entry_other by (done || lia). cbn in P1, P2, P3. by rewrite <- P1, <- P2, <- P3; destruct d.
  - unfold desc_of. rewrite !put_entry_other by (done || lia). done.
Qed.

(** ** Consistency is kept *)

(** The state after the descriptor of group [g] and the free counts changed. *)
Definition changed (s : Ext2State) (g : nat) (d : BlockGroupDesc) (fb fi : Z) : Ext2State :=
  set_counts s (<[g := d]> (bgdt s)) fb fi.

Lemma desc_changed s g d fb fi g' : (g < length (bgdt s))%nat ->
  desc (changed s g d fb fi) g' = if decide (g' = g) then d else desc s g'.
Proof.
  intros Hg. unfold desc, changed. cbn [bgdt set_counts]. destruct (decide (g' = g)) as [->|Hne].
  - by rewrite list_lookup_insert_eq.
  - by rewrite list_lookup_insert_ne.
Qed.

Lemma same_layout_changed s g d fb fi : (g < length (bgdt s))%nat -> same_places (desc s g) d -> same_layout s (changed s g d fb fi).
Proof.
  intros Hg Hp. split; [done|cbn; apply length_insert|]. intros g'. rewrite desc_changed by done. by case_decide; subst.
Qed.

Lemma zsum_bound {A} (f : A -> Z) l m : (forall x, x ∈ l -> 0 <= f x <= m) -> 0 <= zsum f l <= Z.of_nat (length l) * m.
Proof.
  induction l as [|x l IH]; intros Hf; [cbn; lia|]. rewrite zsum_cons. cbn [length].
  pose proof (Hf x ltac:(set_solver)). pose proof (IH ltac:(intros; apply Hf; set_solver)). lia.
Qed.

(** The sum of the counts of the groups, at most eight bitmaps of 32768 bits. *)
Lemma counts_sum s (f : nat -> Z) n : layout_ok s -> (forall g, (g < groups s)%nat -> 0 <= f g <= n) -> n <= 8 * block_size s ->
  0 <= zsum f (seq 0 (groups s)) <= 262144.
Proof.
  intros L Hf Hn. pose proof (lo_groups _ L) as Hg. pose proof (lo_geo _ L) as [Hs Hsp _]. unfold MAX_GROUPS in Hg.
  pose proof (zsum_bound f (seq 0 (groups s)) n) as Hb. rewrite length_seq in Hb.
  assert (Hin : forall x, x ∈ seq 0 (groups s) -> 0 <= f x <= n) by (intros x Hx%elem_of_seq; apply Hf; lia).
  specialize (Hb Hin). unfold groups in *. assert (0 <= n) by (specialize (Hf 0%nat); lia). nia.
Qed.

Lemma blocks_sum w : volume_ok w -> 0 <= sb_free_blocks (state w) <= 262144.
Proof.
  intros V. rewrite (vo_sum _ V). pose proof (vo_layout _ V) as L. pose proof (lo_bpg _ L).
  apply (counts_sum _ _ (blocks_per_group (state w))); [done| |lia]. intros g Hg. rewrite (vo_blocks _ V g Hg). apply clear_bits_range. lia.
Qed.

Lemma inodes_sum w : volume_ok w -> 0 <= sb_free_inodes (state w) <= 262144.
Proof.
  intros V. rewrite (vo_isum _ V). pose proof (vo_layout _ V) as L. pose proof (lo_ipg _ L).
  apply (counts_sum _ _ (inodes_per_group (state w))); [done| |lia]. intros g Hg. rewrite (vo_inodes _ V g Hg). apply clear_bits_range. lia.
Qed.

Lemma put_sb_counts s c : (sb_off s + 512 <= length c)%nat ->
  take 4 (drop (sb_off s + 12) (put_sb s c)) = u32_le (sb_free_blocks s) /\
  take 4 (drop (sb_off s + 16) (put_sb s c)) = u32_le (sb_free_inodes s).
Proof.
  intros Hc. unfold put_sb.
  assert (Hs : forall (c : list Z) i (src : list Z), length src = 4%nat -> (i + 4 <= length c)%nat -> take 4 (drop i (splice c i src)) = src).
  { intros c0 i src Hl Hi. pose proof (slice_splice_same c0 src i) as Hx. rewrite Hl in Hx. by apply Hx. }
  split.
  - rewrite slice_splice_other by splice_lia. apply Hs; [apply length_u32|lia].
  - apply Hs; [apply length_u32|splice_lia].
Qed.

(** What a change of one group must do to keep the volume consistent. *)
Record group_change w w' (g : nat) (d : BlockGroupDesc) : Prop := {
  gc_io : io_ok w';
  gc_group : (g < groups (state w))%nat;
  gc_state : exists fb fi, state w' = changed (state w) g d fb fi /\
    fb = sb_free_blocks (state w) - free_blocks_count (desc (state w) g) + free_blocks_count d /\
    fi = sb_free_inodes (state w) - free_inodes_count (desc (state w) g) + free_inodes_count d;
  gc_places : same_places (desc (state w) g) d;
  gc_dirs : 0 <= used_dirs_count d <= u16_max;
  gc_table : blk w' (bgdt_block (state w)) = put_entry (blk w (bgdt_block (state w))) g d;
  gc_sb : blk w' (sb_block (state w)) = put_sb (state w') (blk w (sb_block (state w)));
  gc_others : forall g', (g' < groups (state w))%nat -> g' <> g ->
    blk w' (block_bitmap (desc (state w) g')) = blk w (block_bitmap (desc (state w) g')) /\
    blk w' (inode_bitmap (desc (state w) g')) = blk w (inode_bitmap (desc (state w) g'));
  gc_blocks : free_blocks_count d = clear_bits (blk w' (block_bitmap d)) (blocks_per_group (state w));
  gc_inodes : free_inodes_count d = clear_bits (blk w' (inode_bitmap d)) (inodes_per_group (state w));
  gc_meta : forall m, m ∈ meta (state w) -> used w' m = true;
}.

Lemma groups_lt_8 s g : layout_ok s -> (g < groups s)%nat -> (g < length (bgdt s))%nat /\ (g < 8)%nat.
Proof. intros L Hg. pose proof (lo_groups _ L). rewrite (lo_bgdt _ L). unfold groups, MAX_GROUPS in *. lia. Qed.

Lemma volume_ok_change w w' g d : volume_ok w -> group_change w w' g d -> volume_ok w'.
Proof.
  intros V []. pose proof (vo_layout _ V) as L. pose proof (vo_io _ V) as [Hgeo _].
  destruct gc_state0 as (fb & fi & Hs & Hfb & Hfi). destruct (groups_lt_8 _ g L gc_group0) as [Hg8 Hg].
  assert (SL : same_layout (state w) (state w')) by (rewrite Hs; by apply same_layout_changed).
  assert (Hd : forall g', desc (state w') g' = if decide (g' = g) then d else desc (state w) g') by (intros; rewrite Hs; by apply desc_changed).
  pose proof (layout_ok_same _ _ SL L) as L'. pose proof (meta_same _ _ SL) as Hm.
  pose proof (bsn_le _ Hgeo) as Hbs. pose proof (lo_bpg _ L) as Hp. pose proof (lo_ipg _ L) as Hi.
  assert (Hc : forall b, length (blk w b) = bsn (state w)) by (intros; by apply length_blk_of).
  assert (Hcnt : counts_ok d).
  { pose proof (geo_size _ Hgeo). pose proof (geo_sectors _ Hgeo). unfold u16_max. split_and!; try apply gc_dirs0; rewrite ?gc_blocks0, ?gc_inodes0.
    all: match goal with |- context [clear_bits ?c ?n] => pose proof (clear_bits_range c n) end; unfold u16_max in *; lia. }
  assert (Hgr : groups (state w') = groups (state w)) by (rewrite Hs; done).
  assert (HF : forall f : BlockGroupDesc -> Z, zsum (fun g' => f (desc (state w') g')) (seq 0 (groups (state w'))) =
    zsum (fun g' => f (desc (state w) g')) (seq 0 (groups (state w))) - f (desc (state w) g) + f d).
  { intros f. rewrite Hgr. rewrite (zsum_change _ (fun g' => f (desc (state w) g')) _ g);
      [|apply NoDup_seq|apply elem_of_seq; lia|intros y _ Hne; by rewrite Hd, decide_False].
    by rewrite Hd, decide_True. }
  assert (Hfbs : sb_free_blocks (state w') = fb /\ sb_free_inodes (state w') = fi) by (by rewrite Hs). destruct Hfbs as [Ef Ei].
  assert (Hv1 : forall g', (g' < groups (state w'))%nat -> free_blocks_count (desc (state w') g') = clear_bits (blk w' (block_bitmap (desc (state w') g'))) (blocks_per_group (state w'))).
  { intros g' Hg'. rewrite Hgr in Hg'. rewrite Hd. replace (blocks_per_group (state w')) with (blocks_per_group (state w)) by (by rewrite Hs).
    case_decide; subst; [done|]. rewrite (proj1 (gc_others0 g' ltac:(done) ltac:(done))). by apply vo_blocks. }
  assert (Hv2 : forall g', (g' < groups (state w'))%nat -> free_inodes_count (desc (state w') g') = clear_bits (blk w' (inode_bitmap (desc (state w') g'))) (inodes_per_group (state w'))).
  { intros g' Hg'. rewrite Hgr in Hg'. rewrite Hd. replace (inodes_per_group (state w')) with (inodes_per_group (state w)) by (by rewrite Hs).
    case_decide; subst; [done|]. rewrite (proj2 (gc_others0 g' ltac:(done) ltac:(done))). by apply vo_inodes. }
  assert (Hsum : sb_free_blocks (state w') = zsum (fun g => free_blocks_count (desc (state w') g)) (seq 0 (groups (state w'))))
    by (rewrite HF, <- (vo_sum _ V); lia).
  assert (Hisum : sb_free_inodes (state w') = zsum (fun g => free_inodes_count (desc (state w') g)) (seq 0 (groups (state w'))))
    by (rewrite HF, <- (vo_isum _ V); lia).
  assert (Hbp : blocks_per_group (state w') = blocks_per_group (state w) /\ inodes_per_group (state w') = inodes_per_group (state w) /\
    block_size (state w') = block_size (state w) /\ sb_off (state w') = sb_off (state w) /\ sb_block (state w') = sb_block (state w) /\
    bgdt_block (state w') = bgdt_block (state w)) by (by rewrite Hs). destruct Hbp as (Eb & Eip & Ebs & Eo & Esb & Ebg).
  assert (Hput : (sb_off (state w') + 512 <= length (blk w (sb_block (state w))))%nat) by (rewrite Eo, Hc; by apply sb_in_block).
  destruct (put_sb_counts (state w') (blk w (sb_block (state w))) Hput) as [Hsb1 Hsb2].
  split; try done.
  - by rewrite Hm.
  - intros g' Hg'. rewrite Hgr in Hg'. rewrite Hd. case_decide; [done|by apply vo_dirs].
  - intros g' Hg'. rewrite Hgr in Hg'. rewrite Ebg, gc_table0, Hd. rewrite desc_of_put_entry; [|rewrite Hc; lia|done|done|by rewrite (vo_table _ V)].
    case_decide; [done|by apply vo_table].
  - rewrite Esb, gc_sb0, Hsb1. apply decode_u32.
    pose proof (counts_sum (state w') (fun g => free_blocks_count (desc (state w') g)) (blocks_per_group (state w'))) as Hb. rewrite Hsum. unfold u32_max.
    enough (0 <= zsum (fun g => free_blocks_count (desc (state w') g)) (seq 0 (groups (state w'))) <= 262144) by lia.
    apply Hb; [done| |lia]. intros g' Hg'. rewrite (Hv1 g' Hg'). apply clear_bits_range. lia.
  - rewrite Esb, gc_sb0, Hsb2. apply decode_u32.
    pose proof (counts_sum (state w') (fun g => free_inodes_count (desc (state w') g)) (inodes_per_group (state w'))) as Hb. rewrite Hisum. unfold u32_max.
    enough (0 <= zsum (fun g => free_inodes_count (desc (state w') g)) (seq 0 (groups (state w'))) <= 262144) by lia.
    apply Hb; [done| |lia]. intros g' Hg'. rewrite (Hv2 g' Hg'). apply clear_bits_range. lia.
Qed.

(** ** Bits in SCRATCH *)

Lemma bit_in_buffer w c rest k : loaded w c -> scratch w = c ++ rest -> 0 <= k < 8 * block_size (state w) ->
  exists x, c !! Z.to_nat (k / 8) = Some x /\ (Z.to_nat (k / 8) < length c)%nat /\ idx (scratch w) (Z.to_nat (k / 8)) = Ret x /\
    forall y, set_idx (scratch w) (Z.to_nat (k / 8)) y = Ret (<[Z.to_nat (k / 8) := y]> c ++ rest).
Proof.
  intros (Hg & Hl & _) Hs Hk. assert (k / 8 < block_size (state w)) by (apply Z.div_lt_upper_bound; lia).
  pose proof (Z.div_pos k 8 ltac:(lia) ltac:(lia)). assert (Hlt : (Z.to_nat (k / 8) < length c)%nat) by (rewrite Hl; unfold bsn; lia).
  destruct (lookup_lt_is_Some_2 _ _ Hlt) as [x Hx]. exists x. split_and!; [done|done| |].
  - apply idx_Ret. rewrite Hs. by apply lookup_app_l_Some.
  - intros y. rewrite set_idx_lt by (rewrite Hs, length_app; lia). by rewrite Hs, insert_app_l.
Qed.

Lemma loaded_change w c c' : loaded w c -> length c' = length c -> Forall is_byte c' ->
  exists rest, scratch w = c ++ rest /\ loaded (set_scratch w (c' ++ rest)) c'.
Proof.
  intros (Hg & Hl & Hc & rest & Hs & Hr & Hm) Hl' Hc'. exists rest. split; [done|]. split; [done|]. cbn [state set_scratch].
  split; [by rewrite Hl'|]. split; [done|]. exists rest. split; [done|]. split; [done|]. rewrite !length_app in *. lia.
Qed.

Lemma run_set_bit w0 w f c k : shows w0 w f -> loaded w c -> 0 <= k < 8 * block_size (state w0) ->
  exists w', set_bit k w = Ret w' /\ shows w0 w' f /\ loaded w' (setb c k).
Proof.
  intros S L Hk. destruct (loaded_change w c (setb c k) L (length_setb c k)) as (rest & Hs & L').
  { destruct L as (_ & _ & Hc & _). by apply setb_bytes. }
  destruct (bit_in_buffer w c rest k L Hs) as (x & Hx & Hlt & Hi & Hset); [by rewrite (sh_state _ _ _ S)|].
  unfold set_bit. rewrite Hi. cbn [mbind outcome_mbind]. rewrite Hset. cbn [mbind outcome_mbind].
  exists (set_scratch w (setb c k ++ rest)). unfold setb at 1 2. rewrite Hx. split; [done|]. split; [|done].
  destruct S as [S1 S2 S3]. by split.
Qed.

Lemma run_clear_bit w0 w f c k : shows w0 w f -> loaded w c -> 0 <= k < 8 * block_size (state w0) ->
  exists w', clear_bit k w = Ret w' /\ shows w0 w' f /\ loaded w' (clrb c k).
Proof.
  intros S L Hk. destruct (loaded_change w c (clrb c k) L (length_clrb c k)) as (rest & Hs & L').
  { destruct L as (_ & _ & Hc & _). by apply clrb_bytes. }
  destruct (bit_in_buffer w c rest k L Hs) as (x & Hx & Hlt & Hi & Hset); [by rewrite (sh_state _ _ _ S)|].
  unfold clear_bit. rewrite Hi. cbn [mbind outcome_mbind]. rewrite Hset. cbn [mbind outcome_mbind].
  exists (set_scratch w (clrb c k ++ rest)). unfold clrb at 1 2. rewrite Hx. split; [done|]. split; [|done].
  destruct S as [S1 S2 S3]. by split.
Qed.

(** The state changes in memory between two writes. *)
Lemma shows_state w f s : same_geometry (state w) s -> shows w w f -> shows (set_state w s) (set_state w s) f.
Proof. intros G S. split; [done| |done]. intros b. rewrite <- (sh_blk _ _ _ S). unfold blk. cbn [state set_state disk]. by apply blk_of_geometry. Qed.

Lemma put_desc_ok w g d fb fi : (g < length (bgdt (state w)))%nat ->
  put_desc g d fb fi w = Ret (set_state w (changed (state w) g d fb fi)).
Proof. intros Hg. unfold put_desc. by rewrite set_idx_lt. Qed.

(** Both counts are written, and nothing else changes on the disk. *)
Lemma counts_written w g d : io_ok w -> layout_ok (state w) -> bgdt (state w) !! g = Some d -> (g < groups (state w))%nat ->
  exists w', write_counts g w = Ret (true, w') /\ write_both_counts g w = Ret (true, w') /\ io_ok w' /\
    shows w w' (upd (upd (blk w) (bgdt_block (state w)) (put_entry (blk w (bgdt_block (state w))) g d))
                    (sb_block (state w)) (put_sb (state w) (blk w (sb_block (state w))))).
Proof.
  intros Hio L Hd Hg. destruct (groups_lt_8 _ g L Hg) as [_ Hg8]. 
  assert (Ha : addressable (state w) (bgdt_block (state w))) by (apply meta_addressable; [done|set_solver]).
  assert (Hsb : addressable (state w) (sb_block (state w))) by (apply meta_addressable; [done|set_solver]).
  destruct (write_bgdt_entry_ok w g d Hio Ha Hd Hg8) as (w1 & Hw1 & Hio1 & S1).
  pose proof (sh_state _ _ _ S1) as E1.
  destruct (write_superblock_ok w1 Hio1) as (w2 & Hw2 & Hio2 & S2).
  { rewrite E1. destruct (lo_end _ L) as [He1 He2]. pose proof (lo_groups _ L). pose proof (lo_bpg _ L). pose proof (lo_first _ L).
    destruct (lo_geo _ L). nia. }
  exists w2. unfold write_counts, write_both_counts. rewrite Hw1. cbn [mbind outcome_mbind negb]. rewrite Hw2. cbn [mbind outcome_mbind andb].
  split_and!; [done|done|done|]. eapply shows_ext; [by eapply shows_trans|]. intros b. rewrite E1.
  rewrite (sh_blk _ _ _ S1 (sb_block (state w))), (upd_ne _ _ _ (sb_block (state w))) by (apply not_eq_sym; by apply bgdt_not_sb).
  unfold upd at 1 2. case_decide; [done|apply S1].
Qed.

(** ** Allocating a block *)

Definition block_at (s : Ext2State) (g : nat) (k : Z) : Z := first_data_block s + Z.of_nat g * blocks_per_group s + k.

(** The descriptor with one free block less or more. *)
Definition add_free (d : BlockGroupDesc) (n : Z) : BlockGroupDesc :=
  mkDesc (block_bitmap d) (inode_bitmap d) (inode_table d) (free_blocks_count d + n) (free_inodes_count d) (used_dirs_count d).

Lemma desc_lookup s g : layout_ok s -> (g < groups s)%nat -> bgdt s !! g = Some (desc s g).
Proof.
  intros L Hg. destruct (groups_lt_8 s g L Hg) as [Hl _]. destruct (lookup_lt_is_Some_2 _ _ Hl) as [d Hd].
  unfold desc. by rewrite Hd.
Qed.

Lemma free_not_meta w b : volume_ok w -> used w b = false -> b ∉ meta (state w).
Proof. intros V Hu Hm. pose proof (vo_meta _ V b Hm). congruence. Qed.

(** The blocks after an allocation or release in group [g]. *)
Definition bitmap_change w (s' : Ext2State) (g : nat) (m : Z) (c : list Z) : Z -> list Z :=
  let s := state w in
  upd (upd (upd (blk w) m c) (bgdt_block s) (put_entry (blk w (bgdt_block s)) g (desc s' g))) (sb_block s) (put_sb s' (blk w (sb_block s))).

(** The bitmap in SCRATCH is written, then the counts in memory and on the disk. *)
Lemma change_bitmap w w1 g m c d' fb fi : volume_ok w -> (g < groups (state w))%nat -> m ∈ group_meta (state w) g ->
  shows w w1 (blk w) -> loaded w1 c -> same_places (desc (state w) g) d' ->
  exists w2 w3, write_block_from_scratch m w1 = Ret (true, w2) /\ state w2 = state w /\
    put_desc g d' fb fi w2 = Ret (set_state w2 (changed (state w) g d' fb fi)) /\
    write_counts g (set_state w2 (changed (state w) g d' fb fi)) = Ret (true, w3) /\
    write_both_counts g (set_state w2 (changed (state w) g d' fb fi)) = Ret (true, w3) /\
    io_ok w3 /\ state w3 = changed (state w) g d' fb fi /\
    (forall b, blk w3 b = bitmap_change w (state w3) g m c b) /\
    (forall l, l < lba_offset (state w) -> sector (disk w3) l = sector (disk w) l).
Proof.
  intros V Hg Hm S1 L1 Hp. pose proof (vo_layout _ V) as L. destruct (groups_lt_8 _ g L Hg) as [Hl Hg8].
  assert (Ha : addressable (state w) m) by (apply meta_addressable; [done|by eapply group_meta_in]).
  destruct (run_write w w1 _ _ m S1 L1 Ha) as (w2 & Hw2 & S2 & L2). pose proof (sh_state _ _ _ S2) as E2.
  set (s' := changed (state w) g d' fb fi). assert (SL : same_layout (state w) s') by (by apply same_layout_changed).
  assert (Hdl : bgdt s' !! g = Some d') by (unfold s'; cbn; by rewrite list_lookup_insert_eq).
  assert (Hio : io_ok (set_state w2 s')).
  { destruct (loaded_io _ _ L2) as [Hgeo Hbuf]. split; [|done]. cbn. rewrite E2 in Hgeo. by eapply geometry_ok_same; [apply SL|]. }
  destruct (counts_written (set_state w2 s') g d' Hio) as (w3 & Hc1 & Hc2 & Hio3 & S3); cbn [state set_state].
  { by eapply layout_ok_same. } { done. } { done. }
  exists w2, w3. split; [done|]. split; [done|]. split; [rewrite put_desc_ok by (by rewrite E2); by rewrite E2|].
  split; [done|]. split; [done|]. split; [done|]. cbn [state set_state] in S3. pose proof (sh_state _ _ _ S3) as E3. cbn [state set_state] in E3.
  split; [done|]. assert (Hb2 : forall b, blk (set_state w2 s') b = blk w2 b).
  { intros b. unfold blk. cbn [state set_state disk]. rewrite E2. apply blk_of_geometry, SL. }
  assert (Hg1 : bgdt_block s' = bgdt_block (state w)) by done. assert (Hg2 : sb_block s' = sb_block (state w)) by done.
  destruct (group_meta_special _ _ _ L Hg Hm) as [Hm1 Hm2]. split.
  - intros b. rewrite (sh_blk _ _ _ S3), Hg1, Hg2, !Hb2. cbn [state set_state]. unfold bitmap_change. rewrite E3.
    assert (Hds : desc s' g = d') by (unfold s'; rewrite desc_changed by done; by rewrite decide_True). rewrite Hds.
    rewrite !(sh_blk _ _ _ S2), !(upd_ne (blk w) m) by done. unfold upd at 1 2 3 4. case_decide; [done|]. case_decide; [done|].
    rewrite Hb2. apply S2.
  - intros l Hlow. rewrite (sh_low _ _ _ S3) by done. apply S2. done.
Qed.

Lemma bitmap_change_map w s' g m c b : volume_ok w -> (g < groups (state w))%nat -> m ∈ group_meta (state w) g ->
  b <> bgdt_block (state w) -> b <> sb_block (state w) -> bitmap_change w s' g m c b = if decide (b = m) then c else blk w b.
Proof. intros V Hg Hm H1 H2. unfold bitmap_change. by rewrite !upd_ne by done. Qed.


(** A block that holds neither counts nor a bitmap of blocks. *)
Definition plain (s : Ext2State) (b : Z) : Prop :=
  b <> sb_block s /\ b <> bgdt_block s /\ forall g, (g < groups s)%nat -> b <> block_bitmap (desc s g).

Lemma plain_not_meta s b : b ∉ meta s -> plain s b.
Proof.
  intros Hb. split_and!; [by intros ->; apply Hb; set_solver|by intros ->; apply Hb; set_solver|].
  intros g Hg ->. apply Hb. eapply group_meta_in; [done|apply bb_in].
Qed.

Lemma used_same w w' b : same_layout (state w) (state w') ->
  used w' b = tst (blk w' (block_bitmap (desc (state w) (group_of_block (state w) b)))) (bit_of_block (state w) b).
Proof.
  intros [G _ P]. destruct (P (group_of_block (state w') b)) as (Hb & _). unfold used. rewrite Hb.
  unfold same_geometry in G. destruct_and! G. unfold group_of_block, bit_of_block. by same_fields (state w) (state w').
Qed.

(** The bitmap of group [g] with bit [k] set to [v], all others kept. *)
Lemma used_changed w w' g k (v : bool) : volume_ok w -> (g < groups (state w))%nat -> 0 <= k < blocks_per_group (state w) ->
  same_layout (state w) (state w') ->
  (forall k', 0 <= k' -> tst (blk w' (block_bitmap (desc (state w) g))) k' =
     if bool_decide (k' = k) then v else tst (blk w (block_bitmap (desc (state w) g))) k') ->
  (forall g', (g' < groups (state w))%nat -> g' <> g -> blk w' (block_bitmap (desc (state w) g')) = blk w (block_bitmap (desc (state w) g'))) ->
  forall b, in_volume (state w) b -> used w' b = if bool_decide (b = block_at (state w) g k) then v else used w b.
Proof.
  intros V Hg Hk SL Hbit Hoth b Hb. pose proof (vo_layout _ V) as L. destruct (in_volume_bit _ _ L Hb) as (Hg' & Hk' & Heq).
  rewrite (used_same w w' b SL). unfold used. destruct (decide (group_of_block (state w) b = g)) as [He|He].
  - rewrite He, Hbit by lia. destruct (bool_decide_reflect (bit_of_block (state w) b = k)) as [Hbk|Hbk].
    + rewrite bool_decide_eq_true_2; [done|]. unfold block_at. rewrite Heq, He, Hbk. done.
    + rewrite bool_decide_eq_false_2; [done|]. intros ->. apply Hbk. by apply bit_in_volume.
  - rewrite Hoth by done. rewrite bool_decide_eq_false_2; [done|]. intros ->. apply He. by apply bit_in_volume.
Qed.

(** The superblock is the same but for the two counts. *)
Definition sb_same w w' : Prop := forall o n, (o + n <= 12 \/ 20 <= o)%nat ->
  field (blk w' (sb_block (state w))) (sb_off (state w) + o) n = field (blk w (sb_block (state w))) (sb_off (state w) + o) n.

Lemma sb_same_trans w w1 w2 : same_layout (state w) (state w1) -> sb_same w w1 -> sb_same w1 w2 -> sb_same w w2.
Proof.
  intros [(_ & _ & _ & Hs & _) _ _] H1 H2 o n Ho. rewrite <- (H1 o n Ho). specialize (H2 o n Ho).
  unfold sb_block, sb_off in *. by rewrite Hs in H2.
Qed.

Lemma sb_same_put w w' s' : io_ok w -> sb_off s' = sb_off (state w) ->
  blk w' (sb_block (state w)) = put_sb s' (blk w (sb_block (state w))) -> sb_same w w'.
Proof.
  intros [Hg _] Ho' Hb o n Ho. pose proof (sb_in_block _ Hg). unfold field. rewrite Hb. unfold put_sb. rewrite Ho'.
  assert (length (blk w (sb_block (state w))) = bsn (state w)) by (by apply length_blk_of).
  by rewrite !slice_splice_other by splice_lia.
Qed.

Record allocated w w' (r : Z) : Prop := {
  al_ok : volume_ok w';
  al_layout : same_layout (state w) (state w');
  al_fds : fds (state w') = fds (state w);
  al_in : in_volume (state w) r;
  al_free : used w r = false;
  al_used : forall b, in_volume (state w) b -> used w' b = used w b || bool_decide (b = r);
  al_sb : sb_same w w';
  al_zero : blk w' r = replicate (bsn (state w)) 0;
  al_others : forall b, b <> r -> plain (state w) b -> blk w' b = blk w b;
  al_low : forall l, l < lba_offset (state w) -> sector (disk w') l = sector (disk w) l;
}.

Lemma loaded_zeros w : io_ok w -> loaded (set_scratch w (replicate MAX_BLOCK 0)) (replicate (bsn (state w)) 0).
Proof.
  intros [Hg _]. pose proof (bsn_le _ Hg) as Hb. split; [done|]. split; [apply length_replicate|].
  split; [apply Forall_replicate; unfold is_byte; lia|]. exists (replicate (MAX_BLOCK - bsn (state w)) 0).
  cbn [scratch set_scratch]. rewrite <- replicate_add. split; [f_equal; lia|]. split; [apply Forall_replicate; unfold is_byte; lia|].
  rewrite length_replicate. lia.
Qed.

Lemma zsum_ge_in {A} (f : A -> Z) l x : (forall y, y ∈ l -> 0 <= f y) -> x ∈ l -> f x <= zsum f l.
Proof.
  induction l as [|y l IH]; intros Hf Hx; [by apply not_elem_of_nil in Hx|]. rewrite zsum_cons.
  pose proof (Hf y ltac:(set_solver)). assert (0 <= zsum f l).
  { clear IH Hx. induction l as [|z l IH]; [cbn; lia|]. rewrite zsum_cons. pose proof (Hf z ltac:(set_solver)). enough (0 <= zsum f l) by lia.
    apply IH. set_solver. }
  apply elem_of_cons in Hx as [->|Hx]; [lia|]. pose proof (IH ltac:(intros; apply Hf; set_solver) Hx). lia.
Qed.

(** A group with a clear bit has a free block in every count. *)
Lemma counts_positive w g k : volume_ok w -> (g < groups (state w))%nat -> 0 <= k < blocks_per_group (state w) ->
  tst (blk w (block_bitmap (desc (state w) g))) k = false ->
  1 <= free_blocks_count (desc (state w) g) /\ 1 <= sb_free_blocks (state w).
Proof.
  intros V Hg Hk Hfree. assert (Hr : forall g, (g < groups (state w))%nat -> 0 <= free_blocks_count (desc (state w) g)).
  { intros g' Hg'. rewrite (vo_blocks _ V g' Hg'). apply clear_bits_range. lia. }
  assert (Hpos : 1 <= free_blocks_count (desc (state w) g)).
  { pose proof (vo_blocks _ V g Hg) as Hcnt. destruct (decide (free_blocks_count (desc (state w) g) = 0)) as [Hz|]; [|specialize (Hr g Hg); lia].
    rewrite Hz in Hcnt. symmetry in Hcnt. pose proof (clear_bits_zero _ _ Hcnt k Hk). congruence. }
  split; [done|]. rewrite (vo_sum _ V). etrans; [exact Hpos|].
  apply (zsum_ge_in (fun g => free_blocks_count (desc (state w) g))); [intros y Hy%elem_of_seq; apply Hr; lia|apply elem_of_seq; lia].
Qed.

Lemma bit_in_block w b k : layout_ok (state w) -> 0 <= k < 8 * block_size (state w) -> (Z.to_nat (k / 8) < length (blk w b))%nat.
Proof.
  intros L Hk. unfold blk. rewrite length_blk_of by apply L. unfold bsn. assert (k / 8 < block_size (state w)) by (apply Z.div_lt_upper_bound; lia).
  pose proof (Z.div_pos k 8 ltac:(lia) ltac:(lia)). lia.
Qed.

(** The volume after a change of the bitmap of blocks of group [g]. *)
Lemma block_change_ok w w3 w' g c n r : volume_ok w -> (g < groups (state w))%nat -> in_volume (state w) r -> r ∉ meta (state w) ->
  let m := block_bitmap (desc (state w) g) in let d' := add_free (desc (state w) g) n in
  state w3 = changed (state w) g d' (sb_free_blocks (state w) + n) (sb_free_inodes (state w)) -> state w' = state w3 -> io_ok w' ->
  (forall b, b <> r -> blk w' b = bitmap_change w (state w3) g m c b) ->
  clear_bits c (blocks_per_group (state w)) = clear_bits (blk w m) (blocks_per_group (state w)) + n ->
  (forall b, b ∈ meta (state w) -> used w' b = true) -> volume_ok w'.
Proof.
  intros V Hg Hr Hrm m d' E3 E' Hio Hblk Hclr Hmeta. pose proof (vo_layout _ V) as L. destruct (groups_lt_8 _ g L Hg) as [Hl _].
  assert (Hm : m ∈ group_meta (state w) g) by apply bb_in. destruct (group_meta_special _ _ _ L Hg Hm) as [Hm1 Hm2].
  assert (Hne : forall b, b ∈ meta (state w) -> b <> r) by (intros b Hb ->; done).
  assert (Hds : desc (state w3) g = d') by (rewrite E3, desc_changed by done; by rewrite decide_True).
  assert (Hgb : forall g' b, (g' < groups (state w))%nat -> b ∈ group_meta (state w) g' -> b <> m -> blk w' b = blk w b).
  { intros g' b Hg' Hb Hbm. destruct (group_meta_special _ _ _ L Hg' Hb) as [Hb1 Hb2].
    rewrite Hblk by (apply Hne; by eapply group_meta_in). unfold bitmap_change. by rewrite !upd_ne by done. }
  assert (Hbm : blk w' m = c) by (rewrite Hblk by (apply Hne; by eapply group_meta_in); unfold bitmap_change; by rewrite !(upd_ne _ _ _ m), upd_eq by done).
  apply (volume_ok_change w w' g d' V). split; try done.
  - exists (sb_free_blocks (state w) + n), (sb_free_inodes (state w)). split; [by rewrite E', E3|]. cbn. lia.
  - by apply vo_dirs.
  - rewrite Hblk by (apply Hne, bgdt_in). unfold bitmap_change. rewrite upd_ne, upd_eq by (by apply bgdt_not_sb). by rewrite Hds.
  - rewrite Hblk by (apply Hne, sb_in). unfold bitmap_change. rewrite upd_eq. by rewrite E'.
  - intros g' Hg' Hne'. split; (eapply Hgb; [done|apply bb_in || apply ib_in|]).
    + intros He. apply Hne'. apply (group_meta_inj (state w) g' g (block_bitmap (desc (state w) g'))); [done|done|done|apply bb_in|by rewrite He].
    + apply not_eq_sym. by apply bb_not_ib.
  - change (block_bitmap d') with m. rewrite Hbm, Hclr. cbn. by rewrite (vo_blocks _ V g Hg).
  - change (inode_bitmap d') with (inode_bitmap (desc (state w) g)). rewrite (Hgb g); [by apply vo_inodes|done|apply ib_in|apply not_eq_sym; by apply bb_not_ib].
Qed.

Lemma other_bitmaps w s' g c g' : volume_ok w -> (g < groups (state w))%nat -> (g' < groups (state w))%nat -> g' <> g ->
  bitmap_change w s' g (block_bitmap (desc (state w) g)) c (block_bitmap (desc (state w) g')) = blk w (block_bitmap (desc (state w) g')).
Proof.
  intros V Hg Hg' Hne. pose proof (vo_layout _ V) as L. destruct (group_meta_special _ _ _ L Hg' (bb_in _ _)) as [H1 H2].
  unfold bitmap_change. rewrite !upd_ne; [done| |done|done]. intros He. apply Hne.
  apply (group_meta_inj (state w) g' g (block_bitmap (desc (state w) g'))); [done|done|done|apply bb_in|]. rewrite He. apply bb_in.
Qed.

Lemma this_bitmap w s' g c m : volume_ok w -> (g < groups (state w))%nat -> m ∈ group_meta (state w) g ->
  bitmap_change w s' g m c m = c.
Proof.
  intros V Hg Hm. destruct (group_meta_special _ _ _ (vo_layout _ V) Hg Hm) as [H1 H2].
  unfold bitmap_change. by rewrite (upd_ne _ (sb_block _)), (upd_ne _ (bgdt_block _)), upd_eq.
Qed.

Lemma take_block_ok w w1 g k : volume_ok w -> (g < groups (state w))%nat -> 0 <= k < blocks_per_group (state w) ->
  let m := block_bitmap (desc (state w) g) in let r := block_at (state w) g k in
  tst (blk w m) k = false -> shows w w1 (blk w) -> loaded w1 (blk w m) ->
  exists w', take_block g m k w1 = Ret (r, w') /\ allocated w w' r.
Proof.
  intros V Hg Hk m r Hfree S1 L1. pose proof (vo_layout _ V) as L. pose proof (lo_bpg _ L) as Hp.
  assert (Hm : m ∈ group_meta (state w) g) by apply bb_in. assert (Hm' : m ∈ meta (state w)) by (by eapply group_meta_in).
  destruct (bit_in_volume (state w) g k L Hg Hk) as (Hr & Hrg & Hrk). fold (block_at (state w) g k) in Hr, Hrg, Hrk. fold r in Hr, Hrg, Hrk.
  assert (Hur : used w r = false) by (unfold used; by rewrite Hrg, Hrk). pose proof (free_not_meta w r V Hur) as Hrm.
  pose proof (bit_in_block w m k L ltac:(lia)) as Hk8. destruct (counts_positive w g k V Hg Hk Hfree) as [Hc1 Hc2].
  set (d' := add_free (desc (state w) g) (-1)).
  unfold take_block. destruct (run_set_bit w w1 _ _ k S1 L1 ltac:(lia)) as (w2 & -> & S2 & L2). cbn [mbind outcome_mbind].
  destruct (change_bitmap w w2 g m (setb (blk w m) k) d' (sb_free_blocks (state w) - 1) (sb_free_inodes (state w)) V Hg Hm S2 L2 ltac:(done))
    as (w3 & w4 & -> & E3 & Hpd & Hwc & _ & Hio4 & E4 & Hblk4 & Hlow4). cbn [mbind outcome_mbind negb].
  rewrite E3, (proj2 (idx_Ret _ _ _) (desc_lookup _ g L Hg)). cbn [mbind outcome_mbind]. rewrite csub_le by lia. cbn [mbind outcome_mbind].
  replace (sat_sub (sb_free_blocks (state w)) 1) with (sb_free_blocks (state w) - 1) by (unfold sat_sub; lia).
  change (mkDesc _ _ _ (free_blocks_count (desc (state w) g) - 1) _ _) with d'. rewrite Hpd. cbn [mbind outcome_mbind]. rewrite Hwc. cbn [mbind outcome_mbind negb].
  assert (SL : same_layout (state w) (state w4)) by (rewrite E4; apply same_layout_changed; [by apply groups_lt_8|done]).
  rewrite group_bit_to_block_ok; [|by eapply layout_ok_same|by rewrite E4|by rewrite E4]. cbn [mbind outcome_mbind].
  replace (first_data_block (state w4) + Z.of_nat g * blocks_per_group (state w4) + k) with r by (by rewrite E4).
  assert (Ha : addressable (state (set_scratch w4 (replicate MAX_BLOCK 0))) r).
  { cbn. eapply addressable_same; [apply SL|]. by apply in_volume_addressable. }
  destruct (write_loaded _ _ r (loaded_zeros w4 Hio4) Ha) as (w' & Hw' & S' & L'). cbn [state set_scratch] in S'.
  rewrite Hw'. cbn [mbind outcome_mbind]. exists w'. split; [done|].
  pose proof (sh_state _ _ _ S') as E'. cbn [state set_scratch] in E'.
  assert (Hblk' : forall b, b <> r -> blk w' b = bitmap_change w (state w4) g m (setb (blk w m) k) b).
  { intros b Hb. rewrite (sh_blk _ _ _ S'), upd_ne by done. apply Hblk4. }
  assert (Hne : forall b, b ∈ meta (state w) -> b <> r) by (intros b Hb ->; done).
  assert (Hused : forall b, in_volume (state w) b -> used w' b = used w b || bool_decide (b = r)).
  { intros b Hb. rewrite (used_changed w w' g k true V Hg Hk) with (b := b); [fold r; case_bool_decide; [by rewrite orb_true_r|by rewrite orb_false_r]|by rewrite E'| | |done].
    - intros k' Hk'. rewrite Hblk' by (by apply Hne). rewrite this_bitmap, tst_setb by (done || lia). case_bool_decide; [by rewrite orb_true_r|by rewrite orb_false_r].
    - intros g' Hg' Hgne. rewrite Hblk' by (apply Hne; eapply group_meta_in; [done|apply bb_in]). by apply other_bitmaps. }
  split; try done.
  - eapply (block_change_ok w w4 w' g _ (-1) r); eauto using loaded_io.
    + rewrite clear_bits_setb by done. fold m. lia.
    + intros b Hb. rewrite Hused by (pose proof (lo_inside _ L) as HF; rewrite Forall_forall in HF; by apply HF). by rewrite (vo_meta _ V b Hb).
  - by rewrite E'.
  - by rewrite E', E4.
  - eapply (sb_same_put _ _ (state w4)); [apply V|by rewrite E4|]. rewrite Hblk' by (apply Hne, sb_in). unfold bitmap_change. by rewrite upd_eq.
  - rewrite (sh_blk _ _ _ S'), upd_eq. by rewrite E4.
  - intros b Hb (Hp1 & Hp2 & Hp3). rewrite Hblk' by done. unfold bitmap_change. rewrite !upd_ne; [done|by apply Hp3|done|done].
  - intros l Hlow. rewrite (sh_low _ _ _ S') by (cbn; by rewrite E4). cbn [disk set_scratch]. by apply Hlow4.
Qed.

(** Only SCRATCH differs. *)
Definition same_disk w w' : Prop := io_ok w' /\ shows w w' (blk w).

Lemma same_disk_used w w' b : same_disk w w' -> used w' b = used w b.
Proof. intros [_ S]. unfold used. by rewrite (sh_state _ _ _ S), (sh_blk _ _ _ S). Qed.

Lemma volume_ok_same_disk w w' : volume_ok w -> same_disk w w' -> volume_ok w'.
Proof.
  intros V SD. pose proof (fun b => same_disk_used w w' b SD) as Hu. destruct SD as [Hio S], V.
  split; [done|..]; rewrite ?(sh_state _ _ _ S), ?(sh_blk _ _ _ S); try done.
  - intros m Hm. rewrite Hu. auto.
  - intros g Hg. rewrite (sh_blk _ _ _ S). auto.
  - intros g Hg. rewrite (sh_blk _ _ _ S). auto.
Qed.

Lemma allocated_same_disk w w1 w' r : same_disk w w1 -> allocated w1 w' r -> allocated w w' r.
Proof.
  intros SD A. pose proof (fun b => same_disk_used w w1 b SD) as Hu. destruct SD as [Hio S], A. pose proof (sh_state _ _ _ S) as E.
  rewrite E in *. rewrite Hu in *.
  split; try done.
  - intros b Hb. rewrite al_used0 by done. by rewrite Hu.
  - intros o n Ho. rewrite <- (sh_blk _ _ _ S). pose proof (al_sb0 o n Ho) as Hx. by rewrite E in Hx.
  - intros b Hb Hp. rewrite al_others0 by done. apply S.
  - intros l Hl. rewrite al_low0 by done. by apply S.
Qed.

(** A group with a free block is full of used ones only when its count is zero. *)
Lemma full_group w g : volume_ok w -> (g < groups (state w))%nat -> free_blocks_count (desc (state w) g) = 0 ->
  forall b, in_volume (state w) b -> group_of_block (state w) b = g -> used w b = true.
Proof.
  intros V Hg Hz b Hb <-. destruct (in_volume_bit _ _ (vo_layout _ V) Hb) as (_ & Hk & _).
  rewrite (vo_blocks _ V _ Hg) in Hz. by apply (clear_bits_zero _ _ Hz).
Qed.

Lemma alloc_block_in_ok order w : volume_ok w ->
  exists r w', alloc_block_in order w = Ret (r, w') /\
    (allocated w w' r \/ r = 0 /\ same_disk w w' /\
      forall g, g ∈ order -> (g < groups (state w))%nat -> forall b, in_volume (state w) b -> group_of_block (state w) b = g -> used w b = true).
Proof.
  intros V. revert w V. induction order as [|g order IH]; intros w V; cbn [alloc_block_in].
  { exists 0, w. split; [done|]. right. split; [done|]. split; [split; [apply V|apply shows_refl]|]. intros g Hg. by apply not_elem_of_nil in Hg. }
  pose proof (vo_layout _ V) as L. fold (groups (state w)). destruct (Nat.leb_spec (groups (state w)) g) as [Hg|Hg].
  { destruct (IH w V) as (r & w' & -> & Hc). exists r, w'. split; [done|]. destruct Hc as [?|(? & ? & Hf)]; [by left|right].
    split_and!; [done|done|]. intros g' [->|Hg']%elem_of_cons ?; [lia|by apply Hf]. }
  rewrite (proj2 (idx_Ret _ _ _) (desc_lookup _ g L Hg)). cbn [mbind outcome_mbind].
  destruct (Z.eqb_spec (free_blocks_count (desc (state w) g)) 0) as [Hz|Hz].
  { destruct (IH w V) as (r & w' & -> & Hc). exists r, w'. split; [done|]. destruct Hc as [?|(? & ? & Hf)]; [by left|right].
    split_and!; [done|done|]. intros g' [->|Hg']%elem_of_cons ?; [by apply full_group|by apply Hf]. }
  assert (Hm : block_bitmap (desc (state w) g) ∈ meta (state w)) by (eapply group_meta_in; [done|apply bb_in]).
  destruct (run_read w w _ _ (shows_refl w) (vo_io _ V) (meta_addressable _ _ L Hm)) as (w1 & -> & S1 & L1). cbn [mbind outcome_mbind negb].
  rewrite (sh_state _ _ _ S1). pose proof (lo_bpg _ L) as Hp. pose proof L1 as (_ & Hl1 & _ & rest & Hs1 & _).
  destruct (find_clear_ok (block_size (state w)) (scratch w1) (blk w (block_bitmap (desc (state w) g))) rest (blocks_per_group (state w)) 0) as (f & -> & Hf);
    [done|rewrite Hl1, (sh_state _ _ _ S1); pose proof (geo_size _ (lo_geo _ L)); pose proof (geo_sectors _ (lo_geo _ L)); unfold bsn; lia|lia|lia|lia|].
  cbn [mbind outcome_mbind]. destruct f as [k|].
  - destruct Hf as [Hk Hfree]. destruct (take_block_ok w w1 g k V Hg ltac:(lia) Hfree S1 L1) as (w' & -> & Ha).
    exists (block_at (state w) g k), w'. split; [done|]. by left.
  - exfalso. apply Hz. rewrite (vo_blocks _ V g Hg). unfold clear_bits. 
    assert (Hall : forall k, k ∈ seqZ 0 (blocks_per_group (state w)) -> (if tst (blk w (block_bitmap (desc (state w) g))) k then 0 else 1) = 0).
    { intros k Hk%elem_of_seqZ. rewrite Hf by lia. done. }
    revert Hall. generalize (seqZ 0 (blocks_per_group (state w))). clear. induction l as [|x l IH]; intros Hall; [done|].
    rewrite zsum_cons, (Hall x), IH by set_solver. done.
Qed.

(** The allocator fails exactly when every block is in use. *)
Lemma alloc_block_ok w pref : volume_ok w ->
  exists r w', ext2_alloc_block pref w = Ret (r, w') /\
    (allocated w w' r \/ r = 0 /\ same_disk w w' /\ forall b, in_volume (state w) b -> used w b = true).
Proof.
  intros V. destruct (alloc_block_in_ok (group_order (state w) pref) w V) as (r & w' & Hr & Hc). exists r, w'. split; [done|].
  destruct Hc as [?|(? & ? & Hf)]; [by left|right]. split_and!; [done|done|]. intros b Hb.
  destruct (in_volume_bit _ _ (vo_layout _ V) Hb) as (Hg & _). eapply Hf; [|exact Hg|done|done].
  unfold group_order. apply elem_of_cons. right. apply elem_of_seq. unfold groups in Hg. lia.
Qed.

(** ** Freeing a block *)

Record freed w w' (r : Z) : Prop := {
  fr_ok : volume_ok w';
  fr_layout : same_layout (state w) (state w');
  fr_fds : fds (state w') = fds (state w);
  fr_used : forall b, in_volume (state w) b -> used w' b = used w b && negb (bool_decide (b = r));
  fr_sb : sb_same w w';
  fr_others : forall b, plain (state w) b -> blk w' b = blk w b;
  fr_low : forall l, l < lba_offset (state w) -> sector (disk w') l = sector (disk w) l;
}.

Lemma free_block_ok w r : volume_ok w -> in_volume (state w) r -> r <> 0 -> r ∉ meta (state w) -> used w r = true ->
  exists w', ext2_free_block r w = Ret (true, w') /\ freed w w' r.
Proof.
  intros V Hr Hr0 Hrm Hur. pose proof (vo_layout _ V) as L. pose proof (lo_bpg _ L) as Hp.
  destruct (in_volume_bit _ _ L Hr) as (Hg & Hk & Hreq). set (g := group_of_block (state w) r) in *. set (k := bit_of_block (state w) r) in *.
  set (m := block_bitmap (desc (state w) g)). assert (Hm : m ∈ group_meta (state w) g) by apply bb_in.
  assert (Hm' : m ∈ meta (state w)) by (by eapply group_meta_in).
  unfold ext2_free_block. destruct (Z.eqb_spec r 0); [done|]. rewrite block_to_group_bit_ok by done. cbn [mbind outcome_mbind]. fold g k.
  fold (groups (state w)). destruct (Nat.leb_spec (groups (state w)) g); [lia|].
  rewrite (proj2 (idx_Ret _ _ _) (desc_lookup _ g L Hg)). cbn [mbind outcome_mbind]. fold m.
  destruct (run_read w w _ m (shows_refl w) (vo_io _ V) (meta_addressable _ _ L Hm')) as (w1 & -> & S1 & L1). cbn [mbind outcome_mbind negb].
  destruct (run_clear_bit w w1 _ _ k S1 L1 ltac:(lia)) as (w2 & -> & S2 & L2). cbn [mbind outcome_mbind].
  pose proof (bit_in_block w m k L ltac:(lia)) as Hk8.
  set (d' := add_free (desc (state w) g) 1).
  destruct (change_bitmap w w2 g m (clrb (blk w m) k) d' (sb_free_blocks (state w) + 1) (sb_free_inodes (state w)) V Hg Hm S2 L2 ltac:(done))
    as (w3 & w4 & -> & E3 & Hpd & _ & Hwc & Hio4 & E4 & Hblk4 & Hlow4). cbn [mbind outcome_mbind negb].
  pose proof (clear_bits_range (blk w m) (blocks_per_group (state w)) ltac:(lia)) as Hcr.
  pose proof (vo_blocks _ V g Hg) as Hcnt. fold m in Hcnt. pose proof (blocks_sum w V) as Hsum.
  rewrite (cadd_le u16_max) by (pose proof (geo_size _ (lo_geo _ L)); pose proof (geo_sectors _ (lo_geo _ L)); unfold u16_max; lia). cbn [mbind outcome_mbind].
  rewrite E3, (cadd_le u32_max) by (unfold u32_max; lia). cbn [mbind outcome_mbind].
  change (mkDesc _ _ _ (free_blocks_count (desc (state w) g) + 1) _ _) with d'. rewrite Hpd. cbn [mbind outcome_mbind].
  exists w4. split; [done|]. assert (SL : same_layout (state w) (state w4)) by (rewrite E4; apply same_layout_changed; [by apply groups_lt_8|done]).
  assert (Hused : forall b, in_volume (state w) b -> used w4 b = used w b && negb (bool_decide (b = r))).
  { intros b Hb. rewrite (used_changed w w4 g k false V Hg Hk) with (b := b); [|done| | |done].
    - replace (block_at (state w) g k) with r by done. case_bool_decide; [by rewrite andb_false_r|by rewrite andb_true_r].
    - intros k' Hk'. rewrite Hblk4. fold m. rewrite this_bitmap, tst_clrb by (done || lia). case_bool_decide; [by rewrite andb_false_r|by rewrite andb_true_r].
    - intros g' Hg' Hgne. rewrite Hblk4. by apply other_bitmaps. }
  split; try done.
  - eapply (block_change_ok w w4 w4 g _ 1 r); eauto.
    + fold m. apply clear_bits_clrb; [done|done|]. done.
    + intros b Hb. rewrite Hused by (pose proof (lo_inside _ L) as HF; rewrite Forall_forall in HF; by apply HF). rewrite (vo_meta _ V b Hb).
      rewrite bool_decide_eq_false_2; [done|]. by intros ->.
  - by rewrite E4.
  - eapply (sb_same_put _ _ (state w4)); [apply V|by rewrite E4|]. rewrite Hblk4. unfold bitmap_change. by rewrite upd_eq.
  - intros b (Hp1 & Hp2 & Hp3). rewrite Hblk4. unfold bitmap_change. rewrite !upd_ne; [done|by apply Hp3|done|done].
Qed.
End Alloc.
End ext2_alloc.
