(* ===== verification/Ext2Sample.v ===== *)
(** * A small ext2 volume

    The disk image [img]: 64 blocks of 1024 bytes in one group with 16 inodes, an
    empty root directory in block 7. [mounted] is the driver after mounting it; the
    volume is consistent. *)

From stdpp Require Import base list gmap strings list_numbers.
From Stdlib Require Import ZArith Lia.
From S2P Require Import Prelude RamFs Mbr Ext2 Ext2Ops Ext2Block Ext2Alloc.

Local Open Scope Z_scope.

Module ext2_sample.
Import ext2 ext2fs ext2_block ext2_alloc.

(** A sector with these bytes at these places. *)
Fixpoint sector_with (l : list (nat * list Z)) : list Z :=
  match l with [] => replicate 512 0 | (pos, bytes) :: l' => splice (sector_with l') pos bytes end.

Definition img_sectors : list (Z * list (nat * list Z)) := [
  (2, [(0%nat, u32_le 16); (4%nat, u32_le 64); (12%nat, u32_le 56); (16%nat, u32_le 6); (20%nat, u32_le 1); (32%nat, u32_le 64); (40%nat, u32_le 16); (56%nat, u16_le EXT2_MAGIC)]);
  (4, [(0%nat, u32_le 3); (4%nat, u32_le 4); (8%nat, u32_le 5); (12%nat, u16_le 56); (14%nat, u16_le 6); (16%nat, u16_le 1)]);
  (6, [(0%nat, [0x7F]); (7%nat, [0x80])]);
  (8, [(0%nat, [0xFF; 0x03])]);
  (10, [(128%nat, u16_le 0x41ED); (132%nat, u32_le 1024); (154%nat, u16_le 2); (168%nat, u32_le 7)]);
  (14, [(0%nat, u32_le 2); (4%nat, u16_le 12); (6%nat, [1; 2]); (8%nat, str "."); (12%nat, u32_le 2); (16%nat, u16_le 1012); (18%nat, [2; 2]); (20%nat, str "..")])].

Definition img : RamDisk := mkDisk (list_to_map ((fun '(l, f) => (l, sector_with f)) <$> img_sectors)).

Definition mounted : Ext2 RamDisk := match init true 0 (boot img) with Ret w => w | Panic => boot img end.

Definition mounted_state : Ext2State :=
  mkState true 0 1024 2 16 64 128 1 1 (mkDesc 3 4 5 56 6 1 :: replicate 7 zero_desc) 2 56 6 (replicate 16 empty_fd).

Lemma mounted_is : state mounted = mounted_state.
Proof. vm_compute. reflexivity. Qed.

Lemma mounted_layout : layout_ok (state mounted).
Proof.
  rewrite mounted_is. split; cbn; try done; try lia.
  - apply (bool_decide_unpack _). vm_compute. exact I.
  - apply (bool_decide_unpack _). vm_compute. exact I.
Qed.

Lemma one_group g : (g < groups (state mounted))%nat -> g = 0%nat.
Proof. rewrite mounted_is. unfold groups. cbn. lia. Qed.

Lemma mounted_ok : volume_ok mounted.
Proof.
  pose proof mounted_layout as L. split.
  - split; [apply L|]. split; [by vm_compute|]. apply (bool_decide_unpack _). vm_compute. exact I.
  - done.
  - rewrite <- Forall_forall. apply (bool_decide_unpack _). vm_compute. exact I.
  - intros g ->%one_group. by vm_compute.
  - intros g ->%one_group. by vm_compute.
  - intros g ->%one_group. rewrite mounted_is. cbn. unfold u16_max. lia.
  - by vm_compute.
  - by vm_compute.
  - intros g ->%one_group. by vm_compute.
  - by vm_compute.
  - by vm_compute.
Qed.
End ext2_sample.
