(* ===== verification/Ext2Spec.v ===== *)
(** * The ext2 driver: properties of allocation and mounting

    Any sequence of allocations and releases hands out blocks that were free and
    keeps every other block as it was; what is in memory can be read back from the
    disk at any time; the numbers of blocks and their places in the bitmaps
    correspond. *)

From stdpp Require Import base list gmap strings list_numbers.
From Stdlib Require Import ZArith Lia.
From S2P Require Import Prelude RamFs Mbr Ext2 Ext2Ops Ext2Block Ext2Alloc Ext2Sample.

Local Open Scope Z_scope.

Module ext2_spec.
Import ext2 ext2fs ext2_block ext2_alloc.

Section Spec.
Context {D : Type} `{DL : DiskLaws D}.
Implicit Types w : Ext2 D.

(** ** Sequences of allocations and releases *)

(** [Take] allocates near a group, [Give] frees one of the blocks held. *)
Inductive alloc_op := Take (pref_group : nat) | Give (i : nat).

Fixpoint run_ops (ops : list alloc_op) (held : list Z) w : outcome (list Z * Ext2 D) :=
  match ops with
  | [] => Ret (held, w)
  | Take g :: ops' =>
      let! (r, w) := ext2_alloc_block g w in
      run_ops ops' (if r =? 0 then held else r :: held) w
  | Give i :: ops' =>
      match held !! i with
      | None => run_ops ops' held w
      | Some b => let! (_, w) := ext2_free_block b w in run_ops ops' (delete i held) w
      end
  end.

(** The world [w'] reached from [w] with the blocks [held] handed out. *)
Record holding w w' (held : list Z) : Prop := {
  ho_ok : volume_ok w';
  ho_layout : same_layout (state w) (state w');
  ho_nodup : NoDup held;
  ho_held : forall b, b ∈ held -> in_volume (state w) b /\ used w b = false;
  ho_used : forall b, in_volume (state w) b -> used w' b = used w b || bool_decide (b ∈ held);
  ho_sb : sb_same w w';
  ho_kept : forall b, used w b = true -> plain (state w) b -> blk w' b = blk w b;
  ho_low : forall l, l < lba_offset (state w) -> sector (disk w') l = sector (disk w) l;
}.

Lemma holding_refl w : volume_ok w -> holding w w [].
Proof.
  intros V. split; try done; [constructor|intros b Hb; by apply not_elem_of_nil in Hb|].
  intros b Hb. by rewrite orb_false_r.
Qed.

Lemma plain_same s s' b : same_layout s s' -> plain s b -> plain s' b.
Proof.
  intros [G _ P] (H1 & H2 & H3). unfold plain, sb_block, groups in *. unfold same_geometry in G. destruct_and! G.
  same_fields s s'. split_and!; [done|done|]. intros g Hg. destruct (P g) as (-> & _). by apply H3.
Qed.

Lemma in_volume_same s s' b : same_layout s s' -> in_volume s b -> in_volume s' b.
Proof. intros [G _ _]. unfold in_volume, same_geometry in *. destruct_and! G. by same_fields s s'. Qed.

Lemma in_volume_back s s' b : same_layout s s' -> in_volume s' b -> in_volume s b.
Proof. intros [G _ _]. unfold in_volume, same_geometry in *. destruct_and! G. by same_fields s s'. Qed.

(** Block 0 is never handed out. *)
Lemma zero_not_free w : volume_ok w -> in_volume (state w) 0 -> used w 0 = true.
Proof.
  intros V Hin. pose proof (vo_layout _ V) as L. apply (vo_meta _ V). unfold in_volume in Hin. pose proof (lo_first _ L).
  rewrite <- (lo_boot _ L) by lia. apply elem_of_cons. by left.
Qed.

Lemma holding_take w w' held r w2 : volume_ok w -> holding w w' held -> allocated w' w2 r -> r <> 0 /\ holding w w2 (r :: held).
Proof.
  intros V [] []. pose proof (in_volume_back _ _ r ho_layout0 al_in0) as Hin. pose proof (ho_used0 r Hin) as Hu.
  rewrite al_free0 in Hu. symmetry in Hu. apply orb_false_iff in Hu as [Hu1 Hu2]. apply bool_decide_eq_false in Hu2.
  split. { intros ->. pose proof (zero_not_free w V Hin). congruence. }
  split; [done|by etrans|by apply NoDup_cons| | |by eapply sb_same_trans| |].
  - intros b [->|Hb]%elem_of_cons; [done|by apply ho_held0].
  - intros b Hb. rewrite al_used0 by (by eapply in_volume_same). rewrite ho_used0 by done. rewrite <- orb_assoc. f_equal.
    apply eq_true_iff_eq. rewrite orb_true_iff, !bool_decide_eq_true, elem_of_cons. tauto.
  - intros b Hb Hp. rewrite al_others0; [by apply ho_kept0|congruence|by eapply plain_same].
  - intros l Hl. rewrite al_low0; [by apply ho_low0|]. destruct ho_layout0 as [(_ & -> & _) _ _]. done.
Qed.

Lemma holding_give w w' held i r w2 : volume_ok w -> holding w w' held -> held !! i = Some r -> freed w' w2 r -> holding w w2 (delete i held).
Proof.
  intros V [] Hi []. assert (Hd : forall b, b ∈ delete i held <-> b ∈ held /\ b <> r).
  { intros b. rewrite (delete_Permutation held i r Hi) in ho_nodup0. apply NoDup_cons in ho_nodup0 as [Hn _].
    rewrite (delete_Permutation held i r Hi) at 2. rewrite elem_of_cons. split; [intros Hb; split; [by right|by intros ->]|tauto]. }
  split; [done|by etrans| | | |by eapply sb_same_trans| |].
  - rewrite (delete_Permutation held i r Hi) in ho_nodup0. by apply NoDup_cons in ho_nodup0 as [_ ?].
  - intros b Hb. apply ho_held0. by apply Hd.
  - intros b Hb. rewrite fr_used0 by (by eapply in_volume_same). rewrite ho_used0 by done.
    apply eq_true_iff_eq. rewrite andb_true_iff, !orb_true_iff, negb_true_iff, bool_decide_eq_false, !bool_decide_eq_true, Hd.
    destruct (ho_held0 r ltac:(by eapply list_elem_of_lookup_2)) as [_ Hr].
    split; [intros [[?|?] ?]; tauto|]. intros [Hu|?]; [|tauto]. split; [by left|]. intros ->. congruence.
  - intros b Hb Hp. rewrite fr_others0; [by apply ho_kept0|by eapply plain_same].
  - intros l Hl. rewrite fr_low0; [by apply ho_low0|]. destruct ho_layout0 as [(_ & -> & _) _ _]. done.
Qed.

Lemma run_ops_holding ops w : volume_ok w -> forall w' held, holding w w' held ->
  exists held2 w2, run_ops ops held w' = Ret (held2, w2) /\ holding w w2 held2.
Proof.
  intros V. induction ops as [|[g|i] ops IH]; intros w' held Ho; cbn [run_ops].
  - by exists held, w'.
  - destruct (alloc_block_ok w' g (ho_ok _ _ _ Ho)) as (r & w2 & -> & Hc). cbn [mbind outcome_mbind].
    destruct Hc as [Ha|(-> & SD & _)].
    + destruct (holding_take w w' held r w2 V Ho Ha) as [Hr Ho2]. destruct (Z.eqb_spec r 0); [done|]. by apply IH.
    + apply IH. rewrite Z.eqb_refl. pose proof (volume_ok_same_disk w' w2 (ho_ok _ _ _ Ho) SD) as V2.
      pose proof (fun b => same_disk_used w' w2 b SD) as Hu. destruct SD as [_ S], Ho. pose proof (sh_state _ _ _ S) as E.
      split; rewrite ?E; try done.
      * intros b Hb. rewrite Hu. by apply ho_used0.
      * unfold sb_same. intros o n Ho. rewrite (sh_blk _ _ _ S). by apply ho_sb0.
      * intros b Hb Hp. rewrite (sh_blk _ _ _ S). by apply ho_kept0.
      * intros l Hl. rewrite (sh_low _ _ _ S); [by apply ho_low0|]. destruct ho_layout0 as [(_ & -> & _) _ _]. done.
  - destruct (held !! i) as [b|] eqn:Hi; [|by apply IH].
    assert (Hb : b ∈ held) by (by eapply list_elem_of_lookup_2). pose proof (ho_held _ _ _ Ho b Hb) as [Hin Hub].
    assert (Hmb : b ∉ meta (state w')) by (rewrite (meta_same _ _ (ho_layout _ _ _ Ho)); by apply free_not_meta).
    destruct (free_block_ok w' b (ho_ok _ _ _ Ho)) as (w2 & -> & Hf).
    + eapply in_volume_same; [apply Ho|done].
    + intros ->. pose proof (zero_not_free w V Hin). congruence.
    + done.
    + rewrite (ho_used _ _ _ Ho b Hin), bool_decide_eq_true_2 by done. apply orb_true_r.
    + cbn [mbind outcome_mbind]. apply IH. by eapply holding_give.
Qed.

(** The allocator hands out free blocks only. On a consistent volume of a disk
    without errors, any sequence of allocations and releases of the blocks handed
    out ends without abort and leaves the volume consistent (bitmaps, counts in
    memory and counts on the disk agree); the blocks held are distinct and were
    free, never a block of the file system itself; exactly they are marked in use
    in addition to what was in use; and every block of a file in use, and the disk
    before the partition, is untouched. *)
Theorem block_allocator_hands_out_free_blocks (ops : list alloc_op) w : volume_ok w ->
  exists held w', run_ops ops [] w = Ret (held, w') /\ volume_ok w' /\ NoDup held /\
    (forall b, b ∈ held -> in_volume (state w) b /\ used w b = false /\ b ∉ meta (state w)) /\
    (forall b, in_volume (state w) b -> used w' b = used w b || bool_decide (b ∈ held)) /\
    (forall b, used w b = true -> plain (state w) b -> blk w' b = blk w b) /\
    (forall l, l < lba_offset (state w) -> sector (disk w') l = sector (disk w) l).
Proof.
  intros V. destruct (run_ops_holding ops w V w [] (holding_refl w V)) as (held & w' & Hr & []).
  exists held, w'. split_and!; try done. intros b Hb. destruct (ho_held0 b Hb). split_and!; [done|done|]. by apply free_not_meta.
Qed.

(** Allocation fails exactly on a full volume: it returns 0 and changes
    nothing on the disk when every block is in use; otherwise it returns a block
    that was free, marked in use now and filled with zeros. *)
Theorem alloc_block_fails_only_when_full w pref_group : volume_ok w ->
  exists r w', ext2_alloc_block pref_group w = Ret (r, w') /\ volume_ok w' /\
    (r = 0 <-> forall b, in_volume (state w) b -> used w b = true) /\
    (r = 0 -> forall b, blk w' b = blk w b) /\
    (r <> 0 -> in_volume (state w) r /\ used w r = false /\ used w' r = true /\ blk w' r = replicate (bsn (state w)) 0).
Proof.
  intros V. destruct (alloc_block_ok w pref_group V) as (r & w' & Hr & Hc). exists r, w'. split; [done|]. destruct Hc as [[]|(-> & SD & Hf)].
  - assert (Hne : r <> 0) by (intros ->; pose proof (zero_not_free w V al_in0); congruence).
    split_and!; [done| |done|]. { split; [done|]. intros Hall. specialize (Hall r al_in0). congruence. }
    intros _. split_and!; [done|done| |done]. rewrite al_used0 by done. by rewrite bool_decide_eq_true_2, orb_true_r.
  - split_and!; [by eapply volume_ok_same_disk|done| |done]. intros _ b. apply SD.
Qed.

(** The number of a block and its place in the bitmaps correspond: on the
    blocks of the volume the two conversions are inverse to each other, without
    overflow. *)
Theorem block_numbers_round_trip (s : Ext2State) b : layout_ok s -> in_volume s b ->
  exists g k, block_to_group_bit s b = Ret (g, k) /\ (g < groups s)%nat /\ 0 <= k < blocks_per_group s /\ group_bit_to_block s g k = Ret b /\
    forall g' k', (g' < groups s)%nat -> 0 <= k' < blocks_per_group s -> group_bit_to_block s g' k' = Ret b -> g' = g /\ k' = k.
Proof.
  intros L Hb. destruct (in_volume_bit s b L Hb) as (Hg & Hk & Heq). exists (group_of_block s b), (bit_of_block s b).
  split_and!; [by apply block_to_group_bit_ok|done|lia|lia|rewrite group_bit_to_block_ok by done; by rewrite <- Heq|].
  intros g' k' Hg' Hk' Hr. rewrite group_bit_to_block_ok in Hr by done. injection Hr as Hr.
  destruct (bit_in_volume s g' k' L Hg' Hk') as (_ & H1 & H2). by rewrite Hr in H1, H2.
Qed.

(** ** Mounting again *)

Lemma scratch_u32_field s o : (o + 4 <= length s)%nat -> scratch_u32 s o = Ret (field s o 4).
Proof. intros Ho. unfold scratch_u32. rewrite slice_le by lia. cbn [mbind outcome_mbind]. unfold field. do 3 f_equal. lia. Qed.
Lemma scratch_u16_field s o : (o + 2 <= length s)%nat -> scratch_u16 s o = Ret (field s o 2).
Proof. intros Ho. unfold scratch_u16. rewrite slice_le by lia. cbn [mbind outcome_mbind]. unfold field. do 3 f_equal. lia. Qed.

Lemma field_app_l c rest o n : (o + n <= length c)%nat -> field (c ++ rest) o n = field c o n.
Proof. intros Ho. unfold field. rewrite drop_app_le, take_app_le by (rewrite ?length_drop; lia). done. Qed.

Lemma field_part c off o n m : (o + n <= m)%nat -> field (take m (drop off c)) o n = field c (off + o) n.
Proof. intros Ho. unfold field. rewrite skipn_firstn_comm, take_take, drop_drop, Nat.min_l by lia. done. Qed.

(** The fixed fields of the superblock on the disk are those of the mount. *)
Record superblock_ok w : Prop := {
  su_magic : field (blk w (sb_block (state w))) (sb_off (state w) + 56) 2 = EXT2_MAGIC;
  su_first : field (blk w (sb_block (state w))) (sb_off (state w) + 20) 4 = first_data_block (state w);
  su_log : let l := field (blk w (sb_block (state w))) (sb_off (state w) + 24) 4 in l < 32 /\ wrap 32 (Z.shiftl 1024 l) = block_size (state w);
  su_bpg : field (blk w (sb_block (state w))) (sb_off (state w) + 32) 4 = blocks_per_group (state w);
  su_ipg : field (blk w (sb_block (state w))) (sb_off (state w) + 40) 4 = inodes_per_group (state w);
  su_isize : inode_size (state w) = if 1 <=? field (blk w (sb_block (state w))) (sb_off (state w) + 76) 4
    then field (blk w (sb_block (state w))) (sb_off (state w) + 88) 2 else 128;
  su_groups : let n := field (blk w (sb_block (state w))) (sb_off (state w) + 4) 4 in
    groups_count (state w) = Z.min ((n + blocks_per_group (state w) - 1) / blocks_per_group (state w)) (Z.of_nat MAX_GROUPS);
  su_bgdt : bgdt_block (state w) = first_data_block (state w) + 1;
}.

Lemma mount_fields_ok w s st : volume_ok w -> superblock_ok w -> (1024 <= length s)%nat ->
  (forall o n, (o + n <= 512)%nat -> field s o n = field (blk w (sb_block (state w))) (sb_off (state w) + o) n) ->
  mount_fields (lba_offset (state w)) s st = Ret (Some (mkState (ready st) (lba_offset (state w)) (block_size (state w)) (sects_per_block (state w))
    (inodes_per_group (state w)) (blocks_per_group (state w)) (inode_size (state w)) (first_data_block (state w)) (groups_count (state w))
    (bgdt st) (bgdt_block st) (sb_free_blocks (state w)) (sb_free_inodes (state w)) (fds st))).
Proof.
  intros V [] Hl Hf. pose proof (vo_layout _ V) as L. pose proof (lo_geo _ L) as [Hs Hsp _]. destruct su_log0 as [Hlog Hbs].
  pose proof (lo_bpg _ L). pose proof (lo_ipg _ L).
  unfold mount_fields. rewrite !scratch_u32_field by lia. cbn [mbind outcome_mbind]. rewrite !Hf by lia.
  rewrite su_first0, su_bpg0, su_ipg0. fold (field (blk w (sb_block (state w))) (sb_off (state w) + 12) 4) in *.
  pose proof (vo_sb _ V) as Hb1. pose proof (vo_sbi _ V) as Hb2. fold (field (blk w (sb_block (state w))) (sb_off (state w) + 12) 4) in Hb1.
  fold (field (blk w (sb_block (state w))) (sb_off (state w) + 16) 4) in Hb2. rewrite Hb1, Hb2.
  replace (if 1 <=? field (blk w (sb_block (state w))) (sb_off (state w) + 76) 4 then scratch_u16 s 88 else Ret 128) with (@Ret Z (inode_size (state w)))
    by (rewrite su_isize0, scratch_u16_field, Hf by lia; by destruct (1 <=? _)). cbn [mbind outcome_mbind].
  destruct (Z.leb_spec 32 (field (blk w (sb_block (state w))) (sb_off (state w) + 24) 4)); [lia|]. cbn [mbind outcome_mbind]. rewrite Hbs.
  unfold MAX_BLOCK. destruct (Z.ltb_spec (Z.of_nat 4096) (block_size (state w))); [lia|].
  rewrite cmul_le by (unfold u32_max; lia). cbn [mbind outcome_mbind].
  destruct (Z.ltb_spec (block_size (state w) * 8) (blocks_per_group (state w))); [lia|].
  destruct (Z.ltb_spec (block_size (state w) * 8) (inodes_per_group (state w))); [lia|]. cbn [orb].
  unfold div_ceil. destruct (Z.eqb_spec (blocks_per_group (state w)) 0); [lia|]. cbn [mbind outcome_mbind].
  rewrite <- su_groups0. do 3 f_equal. rewrite Hs. rewrite Z.mul_comm. by apply Z.div_mul.
Qed.

Lemma desc_at_ok s g : (g * 32 + 18 <= length s)%nat -> desc_at s g = Ret (desc_of s g).
Proof.
  intros Hl. unfold desc_at. rewrite !scratch_u32_field, !scratch_u16_field by lia. cbn [mbind outcome_mbind].
  unfold field, desc_of. by rewrite Nat.add_0_r.
Qed.

Lemma load_descs_ok s n : forall k l, (k + n <= 8)%nat -> length l = 8%nat -> (256 <= length s)%nat ->
  exists l', load_descs s (seq k n) l = Ret l' /\ length l' = 8%nat /\
    forall g, l' !! g = if decide (k <= g < k + n)%nat then Some (desc_of s g) else l !! g.
Proof.
  induction n as [|n IH]; intros k l Hk Hl Hs; cbn [seq load_descs].
  { exists l. split; [done|]. split; [done|]. intros g. by rewrite decide_False by lia. }
  rewrite desc_at_ok by lia. cbn [mbind outcome_mbind]. rewrite set_idx_lt by lia. cbn [mbind outcome_mbind].
  destruct (IH (S k) (<[k := desc_of s k]> l) ltac:(lia) ltac:(by rewrite length_insert) Hs) as (l' & -> & Hl' & Hg).
  exists l'. split; [done|]. split; [done|]. intros g. rewrite Hg. destruct (decide (g = k)) as [->|Hne].
  - rewrite decide_False, decide_True by lia. apply list_lookup_insert_eq. lia.
  - rewrite list_lookup_insert_ne by done. repeat case_decide; try done; lia.
Qed.

Lemma desc_of_app c rest g : (g * 32 + 18 <= length c)%nat -> desc_of (c ++ rest) g = desc_of c g.
Proof.
  intros Hl. pose proof (fun o n H => field_app_l c rest o n H) as Hf. unfold field in Hf. unfold desc_of. by rewrite !Hf by lia.
Qed.

(** The superblock in SCRATCH. *)
Lemma superblock_loaded w w0 : volume_ok w -> disk w0 = disk w -> buffer_ok (scratch w0) ->
  let sec := sector (disk w) (lba_offset (state w) + 2) in let sec1 := sector (disk w) (lba_offset (state w) + 3) in
  exists w1, (let! w := patch_scratch 0 sec w0 in patch_scratch 512 sec1 w) = Ret w1 /\ buffer_ok (scratch w1) /\
    state w1 = state w0 /\ disk w1 = disk w /\
    forall o n, (o + n <= 512)%nat -> field (scratch w1) o n = field (blk w (sb_block (state w))) (sb_off (state w) + o) n.
Proof.
  intros V Hd [Hl Hb] sec sec1. pose proof (lo_geo _ (vo_layout _ V)) as Hgeo.
  assert (Hlen : length sec = 512%nat /\ length sec1 = 512%nat) by (split; apply sectors_are_512_bytes). destruct Hlen as [H1 H2].
  assert (Hbytes : Forall is_byte sec /\ Forall is_byte sec1) by (split; apply sectors_are_512_bytes). destruct Hbytes as [B1 B2].
  unfold patch_scratch. rewrite copy_at_le by (rewrite H1, Hl; unfold MAX_BLOCK; lia). cbn [mbind outcome_mbind scratch set_scratch].
  rewrite copy_at_le by (rewrite length_splice, H2, Hl by (rewrite H1, Hl; unfold MAX_BLOCK; lia); unfold MAX_BLOCK; lia). cbn [mbind outcome_mbind].
  eexists. split; [done|]. cbn [scratch set_scratch state disk]. set (s := splice (splice _ 0 sec) 512 sec1).
  assert (Hls : length s = MAX_BLOCK) by (unfold s; rewrite !length_splice; rewrite ?length_splice; rewrite ?H1, ?H2, ?Hl; unfold MAX_BLOCK; lia).
  split; [split; [done|by repeat apply splice_bytes]|]. split; [done|]. split; [done|].
  assert (Hsec : take 512 s = sec).
  { unfold s, splice at 1. rewrite take_app_le by (rewrite length_take, length_splice; rewrite ?H1, ?Hl; unfold MAX_BLOCK; lia).
    rewrite take_take, Nat.min_id. unfold splice. rewrite take_0, app_nil_l. by apply take_app_length'. }
  intros o n Hon. rewrite <- (take_drop 512 s), Hsec, field_app_l by (rewrite H1; lia).
  unfold sec. rewrite (sb_sector _ (disk w) Hgeo). by apply field_part.
Qed.

(** Mounting reads the state back, whatever the driver held before. *)
Lemma mount_again w w0 : volume_ok w -> superblock_ok w -> disk w0 = disk w -> buffer_ok (scratch w0) -> length (bgdt (state w0)) = MAX_GROUPS ->
  exists w', init true (lba_offset (state w)) w0 = Ret w' /\ same_geometry (state w) (state w') /\ disk w' = disk w /\
    (forall g, (g < groups (state w))%nat -> desc (state w') g = desc (state w) g) /\
    sb_free_blocks (state w') = sb_free_blocks (state w) /\ sb_free_inodes (state w') = sb_free_inodes (state w).
Proof.
  intros V SU Hd0 Hbuf Hl0. pose proof (vo_layout _ V) as L. pose proof (lo_geo _ L) as Hgeo. pose proof Hgeo as [Hs Hsp Ho]. pose proof (lo_groups _ L) as Hgr.
  assert (Hend : lba_offset (state w) + 3 <= u32_max).
  { destruct (lo_end _ L) as [He1 He2]. pose proof (lo_bpg _ L). pose proof (lo_first _ L). nia. }
  assert (Hbg : addressable (state w) (bgdt_block (state w))) by (apply meta_addressable; [done|set_solver]).
  destruct (superblock_loaded w w0 V Hd0 Hbuf) as (w1 & Hp & [Hl1 Hb1] & E1 & Hd1 & Hf). unfold MAX_BLOCK in Hl1.
  unfold init. cbn [negb]. rewrite cadd_le by lia. cbn [mbind outcome_mbind]. rewrite Hd0, read_works.
  rewrite cadd_le by lia. cbn [mbind outcome_mbind]. rewrite read_works. replace (lba_offset (state w) + 2 + 1) with (lba_offset (state w) + 3) by lia.
  apply bind_Ret in Hp as (wa & Hp1 & Hp2). rewrite Hp1. cbn [mbind outcome_mbind]. rewrite Hp2. cbn [mbind outcome_mbind].
  rewrite scratch_u16_field by lia. cbn [mbind outcome_mbind]. rewrite Hf, (su_magic _ SU), Z.eqb_refl by lia. cbn [negb].
  rewrite (mount_fields_ok w) by (done || lia). cbn [mbind outcome_mbind first_data_block].
  set (st := mkState _ _ _ _ _ _ _ _ _ _ _ _ _ _).
  assert (Hbl : first_data_block (state w) + 1 <= u32_max) by (pose proof (su_bgdt _ SU) as Hx; rewrite Hx in Hbg; destruct Hbg; nia).
  rewrite cadd_le by done. rewrite <- (su_bgdt _ SU). cbn [mbind outcome_mbind].
  assert (Hio : io_ok (set_state w1 st)) by (split; [by split|by split]).
  rewrite (read_block_ok (set_state w1 st) (bgdt_block (state w)) Hio Hbg). cbn [mbind outcome_mbind negb].
  assert (Hlb : blk (set_state w1 st) (bgdt_block (state w)) = blk w (bgdt_block (state w))) by (unfold blk; cbn [state set_state disk]; by rewrite Hd1).
  pose proof (bsn_le _ Hgeo). assert (Hlw : length (blk w (bgdt_block (state w))) = bsn (state w)) by (by apply length_blk_of).
  cbn [scratch set_scratch set_state]. rewrite Hlb. unfold splice. rewrite take_0, app_nil_l. set (rest := drop _ (scratch w1)).
  destruct (load_descs_ok (blk w (bgdt_block (state w)) ++ rest) (Z.to_nat (groups_count (state w))) 0 (bgdt (state w0))) as (l' & Hld & Hl' & Hg');
    [unfold MAX_GROUPS in *; lia|done|rewrite length_app; lia|].
  replace (bgdt st) with (bgdt (state w0)) by (unfold st; cbn [bgdt]; by rewrite E1).
  change (groups_count st) with (groups_count (state w)). rewrite Hld. cbn [mbind outcome_mbind]. eexists. split; [done|]. cbn [state set_state].
  split; [split; [by rewrite (lo_ready _ L)|done]|]. split; [done|]. split; [|done].
  intros g Hg. unfold desc at 1. cbn [bgdt]. rewrite Hg'. unfold groups in Hg. rewrite decide_True by lia. cbn [from_option]. unfold id.
  pose proof (groups_lt_8 _ g L Hg). rewrite desc_of_app by lia. by apply vo_table.
Qed.

Lemma superblock_ok_kept w w' : same_layout (state w) (state w') -> sb_same w w' -> superblock_ok w -> superblock_ok w'.
Proof.
  intros [G _ _] Hsb []. assert (Hf : forall o n, (o + n <= 12 \/ 20 <= o)%nat ->
    field (blk w' (sb_block (state w'))) (sb_off (state w') + o) n = field (blk w (sb_block (state w))) (sb_off (state w) + o) n).
  { intros o n Ho. rewrite <- Hsb by done. unfold sb_block, sb_off. by destruct G as (_ & _ & _ & -> & _). }
  unfold same_geometry in G. destruct_and! G. split; rewrite ?Hf by lia; same_fields (state w) (state w'); done.
Qed.

(** The driver keeps nothing back: after any sequence of allocations and
    releases, mounting the disk afresh gives the same groups and counts, so that
    there is nothing for a sync to write. *)
Theorem allocation_is_written_through (ops : list alloc_op) w : volume_ok w -> superblock_ok w ->
  exists held w' w2, run_ops ops [] w = Ret (held, w') /\ init true (lba_offset (state w')) (boot (disk w')) = Ret w2 /\
    same_geometry (state w') (state w2) /\ disk w2 = disk w' /\
    (forall g, (g < groups (state w'))%nat -> desc (state w2) g = desc (state w') g) /\
    sb_free_blocks (state w2) = sb_free_blocks (state w') /\ sb_free_inodes (state w2) = sb_free_inodes (state w').
Proof.
  intros V SU. destruct (run_ops_holding ops w V w [] (holding_refl w V)) as (held & w' & Hr & []).
  destruct (mount_again w' (boot (disk w')) ho_ok0) as (w2 & Hi & Hrest); [by eapply superblock_ok_kept|done| |done|].
  - split; [apply length_replicate|]. apply Forall_replicate. unfold is_byte. lia.
  - exists held, w', w2. auto.
Qed.
End Spec.

(** ** Witnesses *)

Import ext2_sample.

Lemma mounted_superblock : superblock_ok mounted.
Proof. split; vm_compute; done. Qed.

Lemma block_allocator_hands_out_free_blocks_witness : exists held w',
  run_ops [Take 0; Take 3; Give 1; Take 0] [] mounted = Ret (held, w') /\ NoDup held /\ volume_ok w'.
Proof.
  destruct (block_allocator_hands_out_free_blocks [Take 0; Take 3; Give 1; Take 0] mounted mounted_ok) as (held & w' & Hr & Hv & Hnd & _).
  exists held, w'. auto.
Defined.

Lemma alloc_block_fails_only_when_full_witness : exists r w', ext2_alloc_block 0 mounted = Ret (r, w') /\ volume_ok w' /\
  (r = 0 <-> forall b, in_volume (state mounted) b -> used mounted b = true).
Proof.
  destruct (alloc_block_fails_only_when_full mounted 0 mounted_ok) as (r & w' & Hr & Hv & Hz & _). exists r, w'. auto.
Defined.

Lemma block_numbers_round_trip_witness : exists g k,
  block_to_group_bit (state mounted) 9 = Ret (g, k) /\ group_bit_to_block (state mounted) g k = Ret 9.
Proof.
  destruct (block_numbers_round_trip (state mounted) 9 mounted_layout) as (g & k & H1 & _ & _ & H2 & _).
  - rewrite mounted_is. unfold in_volume. cbn. lia.
  - exists g, k. auto.
Defined.

Lemma allocation_is_written_through_witness : exists held w' w2,
  run_ops [Take 0; Take 0; Give 0] [] mounted = Ret (held, w') /\ init true (lba_offset (state w')) (boot (disk w')) = Ret w2 /\
  sb_free_blocks (state w2) = sb_free_blocks (state w').
Proof.
  destruct (allocation_is_written_through [Take 0; Take 0; Give 0] mounted mounted_ok mounted_superblock)
    as (held & w' & w2 & Hr & Hi & _ & _ & _ & Hf & _). exists held, w', w2. auto.
Defined.
End ext2_spec.
