(* ===== verification/Ext2Inode.v ===== *)
(** * The ext2 driver: records of inodes

    Module [ext2_inode] gives the place of an inode's record in the tables, and
    shows that reading an inode yields the fields of its record and that the
    updates change these fields and nothing else. *)

From stdpp Require Import base list gmap strings list_numbers.
From Stdlib Require Import ZArith Lia.
From S2P Require Import Prelude RamFs Mbr Ext2 Ext2Ops Ext2Block Ext2Alloc Ext2Sample Ext2Spec.

Local Open Scope Z_scope.

Module ext2_inode.
Import ext2 ext2fs ext2_block ext2_alloc ext2_spec.

(** The numbers of inodes. *)
Definition inode_ok (s : Ext2State) (ino : Z) : Prop := 1 <= ino <= groups_count s * inodes_per_group s.

Definition igroup (s : Ext2State) (ino : Z) : nat := Z.to_nat ((ino - 1) / inodes_per_group s).
Definition ibyte (s : Ext2State) (ino : Z) : Z := ((ino - 1) mod inodes_per_group s) * inode_size s.

(** The block and the byte where the record starts. *)
Definition iblock (s : Ext2State) (ino : Z) : Z := inode_table (desc s (igroup s ino)) + ibyte s ino / block_size s.
Definition ibase (s : Ext2State) (ino : Z) : nat := Z.to_nat (ibyte s ino mod block_size s).

Lemma igroup_lt s ino : layout_ok s -> inode_ok s ino -> (igroup s ino < groups s)%nat.
Proof.
  intros L [H1 H2]. pose proof (lo_ipg _ L). unfold igroup, groups.
  assert ((ino - 1) / inodes_per_group s < groups_count s) by (apply Z.div_lt_upper_bound; lia).
  pose proof (Z.div_pos (ino - 1) (inodes_per_group s)). lia.
Qed.

Lemma ibyte_range s ino : layout_ok s -> 0 <= ibyte s ino /\ ibyte s ino + inode_size s <= inodes_per_group s * inode_size s.
Proof.
  intros L. pose proof (lo_ipg _ L). destruct (lo_isize _ L) as [Hs _].
  pose proof (Z.mod_pos_bound (ino - 1) (inodes_per_group s) ltac:(lia)). unfold ibyte. nia.
Qed.

(** A record does not cross the end of its block. *)
Lemma ibase_range s ino : layout_ok s -> (ibase s ino + 128 <= bsn s)%nat /\ (ibase s ino + Z.to_nat (inode_size s) <= bsn s)%nat.
Proof.
  intros L. destruct (lo_isize _ L) as [Hs Hm]. unfold ibase, bsn, ibyte.
  set (i := (ino - 1) mod inodes_per_group s). apply Z.mod_divide in Hm as [q Hq]; [|lia].
  assert (0 < q) by nia. rewrite Hq. replace (q * inode_size s) with (inode_size s * q) by lia.
  rewrite (Z.mul_comm i). rewrite Z.mul_mod_distr_l by lia. pose proof (Z.mod_pos_bound i q ltac:(lia)). nia.
Qed.

Lemma iblock_table s ino : layout_ok s -> iblock s ino ∈ seqZ (inode_table (desc s (igroup s ino))) (table_len s).
Proof.
  intros L. apply elem_of_seqZ. unfold iblock, table_len.
  pose proof (ibyte_range s ino L) as [H1 H2]. destruct (lo_isize _ L) as [Hs _].
  pose proof (Z.div_pos (ibyte s ino) (block_size s) H1 ltac:(lia)). split; [lia|].
  assert (ibyte s ino / block_size s < (inodes_per_group s * inode_size s + block_size s - 1) / block_size s); [|lia].
  apply Z.lt_le_trans with (ibyte s ino / block_size s + 1); [lia|]. rewrite <- Z.div_add by lia. apply Z.div_le_mono; lia.
Qed.

Lemma iblock_in s ino : layout_ok s -> inode_ok s ino -> iblock s ino ∈ group_meta s (igroup s ino).
Proof. intros L Hi. do 2 (apply elem_of_cons; right). by apply iblock_table. Qed.

Lemma iblock_meta s ino : layout_ok s -> inode_ok s ino -> iblock s ino ∈ meta s.
Proof. intros L Hi. eapply group_meta_in; [by apply igroup_lt|by apply iblock_in]. Qed.

Lemma inode_location_ok s ino : layout_ok s -> inode_ok s ino -> inode_location s ino = Ret (Some (iblock s ino, ibase s ino)).
Proof.
  intros L Hi. pose proof (igroup_lt s ino L Hi) as Hg. pose proof (lo_ipg _ L) as Hp. destruct (lo_isize _ L) as [Hs _].
  pose proof (ibyte_range s ino L) as [Hb1 Hb2]. destruct (meta_addressable _ _ L (iblock_meta s ino L Hi)) as [Ha1 Ha2].
  pose proof (geo_size _ (lo_geo _ L)). pose proof (geo_sectors _ (lo_geo _ L)). pose proof (geo_offset _ (lo_geo _ L)).
  unfold inode_location, inode_to_group_bit. destruct (Z.eqb_spec ino 0); [unfold inode_ok in Hi; lia|].
  rewrite csub_le by (unfold inode_ok in Hi; lia). cbn [mbind outcome_mbind].
  unfold cdiv, crem. destruct (Z.eqb_spec (inodes_per_group s) 0); [lia|]. cbn [mbind outcome_mbind]. fold (igroup s ino) (groups s).
  destruct (Nat.leb_spec (groups s) (igroup s ino)); [lia|]. rewrite (proj2 (idx_Ret _ _ _) (desc_lookup _ _ L Hg)). cbn [mbind outcome_mbind].
  fold (ibyte s ino). rewrite cmul_le by (fold (ibyte s ino); unfold u32_max; nia). cbn [mbind outcome_mbind]. fold (ibyte s ino).
  destruct (Z.eqb_spec (block_size s) 0); [lia|]. cbn [mbind outcome_mbind]. fold (iblock s ino). unfold cadd. fold (iblock s ino).
  destruct (Z.leb_spec (iblock s ino) u32_max); [done|]. nia.
Qed.

Lemma iblock_distinct s i j : layout_ok s -> inode_ok s i -> inode_ok s j -> i <> j ->
  iblock s i <> iblock s j \/ (ibase s i + 128 <= ibase s j)%nat \/ (ibase s j + 128 <= ibase s i)%nat.
Proof.
  intros L Hi Hj Hne. destruct (decide (iblock s i = iblock s j)) as [He|]; [right|by left].
  assert (Hg : igroup s i = igroup s j).
  { eapply group_meta_inj; [done|by apply igroup_lt|by apply igroup_lt|by apply iblock_in|rewrite He; by apply iblock_in]. }
  pose proof (lo_ipg _ L) as Hp. destruct (lo_isize _ L) as [Hs _]. destruct Hi as [Hi1 Hi2], Hj as [Hj1 Hj2].
  pose proof (ibyte_range s i L) as [Hb1 _]. pose proof (ibyte_range s j L) as [Hb2 _].
  unfold iblock in He. rewrite Hg in He. assert (Hq : ibyte s i / block_size s = ibyte s j / block_size s) by lia.
  pose proof (Z.div_mod (ibyte s i) (block_size s) ltac:(lia)). pose proof (Z.div_mod (ibyte s j) (block_size s) ltac:(lia)).
  pose proof (Z.mod_pos_bound (ibyte s i) (block_size s) ltac:(lia)). pose proof (Z.mod_pos_bound (ibyte s j) (block_size s) ltac:(lia)).
  assert (Hm : (i - 1) mod inodes_per_group s <> (j - 1) mod inodes_per_group s).
  { intros Hmm. apply Hne. pose proof (Z.div_mod (i - 1) (inodes_per_group s) ltac:(lia)). pose proof (Z.div_mod (j - 1) (inodes_per_group s) ltac:(lia)).
    pose proof (Z.div_pos (i - 1) (inodes_per_group s) ltac:(lia) ltac:(lia)). pose proof (Z.div_pos (j - 1) (inodes_per_group s) ltac:(lia) ltac:(lia)).
    unfold igroup in Hg. assert ((i - 1) / inodes_per_group s = (j - 1) / inodes_per_group s) by lia. nia. }
  unfold ibase. assert (ibyte s i - ibyte s j >= 128 \/ ibyte s j - ibyte s i >= 128) by (unfold ibyte; nia). rewrite Hq in *. lia.
Qed.

Section Inodes.
Context {D : Type} `{DL : DiskLaws D}.
Implicit Types w : Ext2 D.

(** The field of [n] bytes at [o] of the record of [ino]. *)
Definition ifield w (ino : Z) (o n : nat) : Z := field (blk w (iblock (state w) ino)) (ibase (state w) ino + o) n.

Definition isize w (ino : Z) : Z := ifield w ino 4 4.
Definition imode w (ino : Z) : Z := ifield w ino 0 2.
Definition ilinks w (ino : Z) : Z := ifield w ino 26 2.
Definition iptr w (ino : Z) (k : nat) : Z := ifield w ino (40 + k * 4) 4.

(** The inode as [read_inode] returns it. *)
Definition inode_of w (ino : Z) : Inode :=
  mkInode (imode w ino) (ifield w ino 2 2) (isize w ino) 0 0 0 0 0 (ilinks w ino) (ifield w ino 28 4) 0 0
          (iptr w ino <$> seq 0 15) 0 0 (ifield w ino 108 4) 0.

Lemma read_pointers_ok c n : forall o, (o + n * 4 <= length c)%nat ->
  read_pointers c o n = Ret ((fun k => field c (o + k * 4) 4) <$> seq 0 n).
Proof.
  induction n as [|n IH]; intros o Ho; cbn [read_pointers]; [done|].
  rewrite scratch_u32_field by lia. cbn [mbind outcome_mbind]. rewrite IH by lia. cbn [mbind outcome_mbind seq fmap list_fmap].
  rewrite Nat.add_0_r. do 2 f_equal. rewrite <- fmap_S_seq, <- list_fmap_compose. apply list_fmap_ext. intros i x _. cbn. f_equal. lia.
Qed.

Lemma read_inode_ok w ino : volume_ok w -> inode_ok (state w) ino ->
  exists w', read_inode ino w = Ret (Some (inode_of w ino), w') /\ same_disk w w'.
Proof.
  intros V Hi. pose proof (vo_layout _ V) as L. unfold read_inode. rewrite inode_location_ok by done. cbn [mbind outcome_mbind].
  destruct (run_read w w _ _ (shows_refl w) (vo_io _ V) (meta_addressable _ _ L (iblock_meta _ _ L Hi))) as (w' & -> & S & Ld).
  cbn [mbind outcome_mbind negb]. pose proof (loaded_io _ _ Ld) as Hio. destruct Ld as (_ & Hl & _ & rest & -> & _).
  pose proof (ibase_range _ ino L) as [Hb _]. assert (Hlen : length (blk w (iblock (state w) ino)) = bsn (state w)) by (apply length_blk_of, L).
  unfold inode_fields. rewrite !scratch_u16_field, !scratch_u32_field by (rewrite length_app; lia). cbn [mbind outcome_mbind].
  rewrite read_pointers_ok by (rewrite length_app; lia). cbn [mbind outcome_mbind].
  exists w'. split; [|by split]. rewrite !field_app_l by lia. do 2 f_equal. unfold inode_of, imode, isize, ilinks, ifield, iptr, ifield. rewrite Nat.add_0_r.
  do 2 f_equal. apply list_fmap_ext. intros i k Hk. apply lookup_seq in Hk as [-> Hk]. rewrite field_app_l by lia. f_equal. lia.
Qed.

(** ** Updates *)

(** The blocks that say what is in use. *)
Definition control (s : Ext2State) (m : Z) : Prop :=
  m = sb_block s \/ m = bgdt_block s \/ exists g, (g < groups s)%nat /\ (m = block_bitmap (desc s g) \/ m = inode_bitmap (desc s g)).

Lemma used_ext w w' b : state w' = state w -> (forall m, control (state w) m -> blk w' m = blk w m) ->
  layout_ok (state w) -> in_volume (state w) b -> used w' b = used w b.
Proof.
  intros E Hc L Hb. unfold used. rewrite E, Hc; [done|]. right. right. exists (group_of_block (state w) b).
  split; [by apply in_volume_bit|by left].
Qed.

Lemma volume_ok_control w w' : volume_ok w -> io_ok w' -> state w' = state w -> (forall m, control (state w) m -> blk w' m = blk w m) -> volume_ok w'.
Proof.
  intros V Hio E Hc. pose proof (vo_layout _ V) as L. pose proof (fun b => used_ext w w' b E Hc L) as Hu. destruct V.
  assert (Hbb : forall g, (g < groups (state w))%nat -> blk w' (block_bitmap (desc (state w) g)) = blk w (block_bitmap (desc (state w) g)) /\
    blk w' (inode_bitmap (desc (state w) g)) = blk w (inode_bitmap (desc (state w) g))).
  { intros g Hg. split; apply Hc; right; right; exists g; auto. }
  split; [done|..]; rewrite ?E, ?(Hc (sb_block (state w)) ltac:(by left)), ?(Hc (bgdt_block (state w)) ltac:(by right; left)); try done.
  - intros m Hm. rewrite Hu; [auto|]. pose proof (lo_inside _ L) as HF. rewrite Forall_forall in HF. by apply HF.
  - intros g Hg. destruct (Hbb g Hg) as [-> _]. auto.
  - intros g Hg. destruct (Hbb g Hg) as [_ ->]. auto.
Qed.

Lemma iblock_not_control s ino : layout_ok s -> inode_ok s ino -> ~ control s (iblock s ino).
Proof.
  intros L Hi Hc. pose proof (igroup_lt s ino L Hi) as Hg. pose proof (iblock_in s ino L Hi) as Hin.
  destruct (group_meta_special _ _ _ L Hg Hin) as [H1 H2]. destruct Hc as [?|[?|(g & Hg' & Hm)]]; [done|done|].
  assert (g = igroup s ino) as ->.
  { destruct Hm as [Hm|Hm]; (eapply group_meta_inj; [done|done|done| |exact Hin]); rewrite Hm; [apply bb_in|apply ib_in]. }
  pose proof (lo_distinct _ L) as Hnd. apply NoDup_cons in Hnd as [_ Hnd]. apply NoDup_cons in Hnd as [_ Hnd].
  eapply NoDup_join_part in Hnd; [|by apply (group_meta_at s (igroup s ino))]. apply NoDup_cons in Hnd as [Hn1 Hnd]. apply NoDup_cons in Hnd as [Hn2 _].
  pose proof (iblock_table s ino L) as Ht. destruct Hm as [Hm|Hm]; rewrite Hm in Ht; [apply Hn1; apply elem_of_cons; by right|done].
Qed.

(** The world after [bytes] were written at [o] of the record of [ino]. *)
Record patched w w' (ino : Z) (o : nat) (bytes : list Z) : Prop := {
  pa_ok : volume_ok w';
  pa_shows : shows w w' (upd (blk w) (iblock (state w) ino) (splice (blk w (iblock (state w) ino)) (ibase (state w) ino + o) bytes));
}.

Lemma patched_shows_ok w w' ino f : volume_ok w -> inode_ok (state w) ino -> io_ok w' -> shows w w' (upd (blk w) (iblock (state w) ino) f) -> volume_ok w'.
Proof.
  intros V Hi Hio S. apply (volume_ok_control w w' V Hio (sh_state _ _ _ S)). intros m Hm. rewrite (sh_blk _ _ _ S), upd_ne; [done|].
  intros ->. by apply (iblock_not_control (state w) ino (vo_layout _ V)) in Hm.
Qed.

Lemma patch_inode_ok w ino o bytes : volume_ok w -> inode_ok (state w) ino -> (o + length bytes <= 128)%nat -> Forall is_byte bytes ->
  exists w', patch_inode ino (fun base => patch_scratch (base + o) bytes) w = Ret (true, w') /\ patched w w' ino o bytes.
Proof.
  intros V Hi Ho Hb. pose proof (vo_layout _ V) as L. unfold patch_inode. rewrite inode_location_ok by done. cbn [mbind outcome_mbind].
  pose proof (meta_addressable _ _ L (iblock_meta _ _ L Hi)) as Ha. pose proof (ibase_range _ ino L) as [Hr _].
  destruct (run_read w w _ _ (shows_refl w) (vo_io _ V) Ha) as (w1 & -> & S1 & L1). cbn [mbind outcome_mbind negb].
  destruct (run_patch w w1 _ _ (ibase (state w) ino + o) bytes S1 L1) as (w2 & -> & S2 & L2); [lia|done|]. cbn [mbind outcome_mbind].
  destruct (run_write w w2 _ _ (iblock (state w) ino) S2 L2 Ha) as (w3 & -> & S3 & L3). exists w3. split; [done|].
  split; [|done]. eapply patched_shows_ok; [done|done|by eapply loaded_io|done].
Qed.

(** What a patch does to the fields of records. *)
Lemma ifield_patched_other w w' ino o bytes i o' n : volume_ok w -> patched w w' ino o bytes -> inode_ok (state w) ino -> inode_ok (state w) i ->
  (o + length bytes <= 128)%nat -> (o' + n <= 128)%nat -> i <> ino \/ (o' + n <= o)%nat \/ (o + length bytes <= o')%nat ->
  ifield w' i o' n = ifield w i o' n.
Proof.
  intros V [_ S] Hino Hi Ho Ho' Hd. pose proof (vo_layout _ V) as L. unfold ifield, field. rewrite (sh_state _ _ _ S), (sh_blk _ _ _ S).
  pose proof (ibase_range _ ino L) as [Hr _]. pose proof (ibase_range _ i L) as [Hr' _].
  assert (Hlen : length (blk w (iblock (state w) ino)) = bsn (state w)) by (apply length_blk_of, L).
  destruct (decide (iblock (state w) i = iblock (state w) ino)) as [He|Hne]; [|by rewrite upd_ne].
  rewrite He, upd_eq, slice_splice_other; [done|lia|]. destruct (decide (i = ino)) as [->|Hi']; [lia|].
  destruct (iblock_distinct (state w) i ino L Hi Hino Hi') as [?|Hb]; [done|lia].
Qed.

Lemma ifield_patched_same w w' ino o bytes : volume_ok w -> patched w w' ino o bytes -> (o + length bytes <= 128)%nat ->
  ifield w' ino o (length bytes) = le_decode bytes.
Proof.
  intros V [_ S] Ho. pose proof (vo_layout _ V) as L. unfold ifield, field. rewrite (sh_state _ _ _ S), (sh_blk _ _ _ S), upd_eq.
  pose proof (ibase_range _ ino L) as [Hr _]. assert (length (blk w (iblock (state w) ino)) = bsn (state w)) by (apply length_blk_of, L).
  rewrite slice_splice_same by lia. done.
Qed.
End Inodes.
End ext2_inode.
