(* ===== verification/Ext2File.v ===== *)
(** * The ext2 driver: files as sequences of bytes

    A file is read and written through its twelve direct blocks. Module
    [ext2_file] defines the byte of a file at a position ([fbyte], zero in a hole)
    and shows that the loops of [read_fd] and [write_fd] read and change exactly
    these bytes: a write allocates what it needs, keeps the record of the inode in
    step, and leaves the blocks of other files and their records alone. *)

From stdpp Require Import base list gmap strings list_numbers.
From Stdlib Require Import ZArith Lia.
From S2P Require Import Prelude RamFs FdTable Mbr Ext2 Ext2Ops Ext2Block Ext2Alloc Ext2Sample Ext2Spec Ext2Inode.

Local Open Scope Z_scope.

Module ext2_file.
Import ext2 ext2fs ext2_block ext2_alloc ext2_spec ext2_inode.

(** Positions within blocks. *)
Lemma within_block bs p a : 0 < bs -> 0 <= p -> 0 <= a -> p mod bs + a < bs -> (p + a) / bs = p / bs /\ (p + a) mod bs = p mod bs + a.
Proof.
  intros Hbs Hp Ha Hlt. pose proof (Z.mod_pos_bound p bs Hbs). pose proof (Z.div_mod p bs ltac:(lia)).
  split; [symmetry; apply (Z.div_unique _ _ _ (p mod bs + a))|symmetry; apply (Z.mod_unique _ _ (p / bs))]; lia.
Qed.

Section Files.
Context {D : Type} `{DL : DiskLaws D}.
Implicit Types w : Ext2 D.

(** ** The bytes of a file *)

Definition bsz w : Z := block_size (state w).

Definition fbyte w (bl : list Z) (p : Z) : Z :=
  match bl !! Z.to_nat (p / bsz w) with
  | Some b => if b =? 0 then 0 else default 0 (blk w b !! Z.to_nat (p mod bsz w))
  | None => 0
  end.

Definition fbytes w (bl : list Z) (p : Z) (n : nat) : list Z := fbyte w bl <$> seqZ p (Z.of_nat n).

Lemma fbytes_length w bl p n : length (fbytes w bl p n) = n.
Proof. unfold fbytes. rewrite length_fmap, length_seqZ. lia. Qed.

Lemma fbytes_lookup w bl p n i : (i < n)%nat -> fbytes w bl p n !! i = Some (fbyte w bl (p + Z.of_nat i)).
Proof. intros Hi. unfold fbytes. rewrite list_lookup_fmap. rewrite (proj2 (lookup_seqZ _ _ _ (p + Z.of_nat i))); [done|]. lia. Qed.

Lemma fbytes_app w bl p n m : fbytes w bl p (n + m) = fbytes w bl p n ++ fbytes w bl (p + Z.of_nat n) m.
Proof. unfold fbytes. rewrite Nat2Z.inj_add, seqZ_app by lia. apply fmap_app. Qed.

(** The bytes of one block: zeros in a hole, a part of its content otherwise. *)
Lemma fbytes_in_block w bl p n b : geometry_ok (state w) -> 0 <= p -> bl !! Z.to_nat (p / bsz w) = Some b ->
  p mod bsz w + Z.of_nat n <= bsz w ->
  fbytes w bl p n = if b =? 0 then replicate n 0 else take n (drop (Z.to_nat (p mod bsz w)) (blk w b)).
Proof.
  intros Hg Hp Hb Hn. pose proof (geo_size _ Hg). pose proof (geo_sectors _ Hg). assert (Hbs : 0 < bsz w) by (unfold bsz; lia).
  pose proof (Z.mod_pos_bound p (bsz w) Hbs). apply list_eq. intros i. destruct (decide (i < n)%nat) as [Hi|Hi].
  - rewrite fbytes_lookup by done. destruct (within_block (bsz w) p (Z.of_nat i) Hbs Hp ltac:(lia) ltac:(lia)) as [Hd Hm].
    unfold fbyte. rewrite Hd, Hm, Hb. destruct (b =? 0); [by rewrite lookup_replicate_2|].
    rewrite lookup_take_lt, lookup_drop by done. replace (Z.to_nat (p mod bsz w + Z.of_nat i)) with (Z.to_nat (p mod bsz w) + i)%nat by lia.
    destruct (lookup_lt_is_Some_2 (blk w b) (Z.to_nat (p mod bsz w) + i)) as [x ->]; [|done].
    unfold blk. rewrite length_blk_of by done. unfold bsn, bsz in *. lia.
  - rewrite lookup_ge_None_2 by (rewrite fbytes_length; lia). destruct (b =? 0); rewrite lookup_ge_None_2; [done| |done|].
    + rewrite length_replicate. lia.
    + rewrite length_take. lia.
Qed.

Lemma fbyte_ext w w' bl p : block_size (state w') = block_size (state w) -> (forall b, b ∈ bl -> b <> 0 -> blk w' b = blk w b) ->
  fbyte w' bl p = fbyte w bl p.
Proof.
  intros Hs Hb. unfold fbyte, bsz. rewrite Hs. destruct (bl !! Z.to_nat (p / block_size (state w))) as [b|] eqn:E; [|done].
  destruct (Z.eqb_spec b 0); [done|]. rewrite Hb; [done|by eapply list_elem_of_lookup_2|done].
Qed.

Lemma fbytes_same_disk w w' bl p n : same_disk w w' -> fbytes w' bl p n = fbytes w bl p n.
Proof.
  intros [_ S]. unfold fbytes. apply list_fmap_ext. intros i q _. apply fbyte_ext; [by rewrite (sh_state _ _ _ S)|]. intros b _ _. apply S.
Qed.

(** ** Reading *)

Definition readable w (bl : list Z) : Prop := length bl = 12%nat /\ forall b, b ∈ bl -> b <> 0 -> addressable (state w) b.

Lemma block_index w p : geometry_ok (state w) -> 0 <= p < 12 * bsz w ->
  0 <= p / bsz w < 12 /\ 0 <= p mod bsz w < bsz w /\ p = bsz w * (p / bsz w) + p mod bsz w.
Proof.
  intros Hg Hp. pose proof (geo_size _ Hg). pose proof (geo_sectors _ Hg). assert (0 < bsz w) by (unfold bsz; lia).
  pose proof (Z.mod_pos_bound p (bsz w) ltac:(lia)). pose proof (Z.div_mod p (bsz w) ltac:(lia)). pose proof (Z.div_pos p (bsz w) ltac:(lia) ltac:(lia)).
  assert (p / bsz w < 12) by (apply Z.div_lt_upper_bound; lia). split_and!; lia.
Qed.

Lemma read_fd_loop_ok slot to_read fuel : forall done buf w, io_ok w -> readable w (direct_blocks slot) -> 0 <= file_offset slot ->
  let total := Nat.min to_read (Z.to_nat (12 * bsz w - file_offset slot)) in
  (done <= total)%nat -> (to_read <= length buf)%nat -> (to_read - done < fuel)%nat ->
  exists w', read_fd_loop fuel slot to_read done buf w =
    Ret (total, splice buf done (fbytes w (direct_blocks slot) (file_offset slot + Z.of_nat done) (total - done)), w') /\ same_disk w w'.
Proof.
  induction fuel as [|fuel IH]; intros done buf w Hio [Hl Ha] Hoff total Hdone Hbuf Hfuel; [lia|].
  pose proof (io_geo _ Hio) as Hg. pose proof (geo_size _ Hg). pose proof (geo_sectors _ Hg). assert (Hbs : 0 < bsz w) by (unfold bsz; lia).
  cbn [read_fd_loop]. destruct (Nat.leb_spec to_read done) as [Hle|Hlt].
  { assert (total = done) as -> by lia. rewrite Nat.sub_diag. unfold fbytes. cbn [Z.of_nat]. rewrite seqZ_nil by done. cbn [fmap list_fmap].
    rewrite splice_nil. exists w. split; [done|]. split; [done|apply shows_refl]. }
  fold (bsz w). unfold cdiv, crem. destruct (Z.eqb_spec (bsz w) 0); [lia|]. cbn [mbind outcome_mbind].
  set (p := file_offset slot + Z.of_nat done) in *.
  destruct (Z.leb_spec 12 (p / bsz w)) as [H12|H12].
  { assert (12 * bsz w <= p) by (pose proof (Z.mul_div_le p (bsz w) ltac:(lia)); nia).
    assert (total = done) as -> by (unfold p in *; lia). rewrite Nat.sub_diag. unfold fbytes. cbn [Z.of_nat]. rewrite seqZ_nil by done. cbn [fmap list_fmap].
    rewrite splice_nil. exists w. split; [done|]. split; [done|apply shows_refl]. }
  assert (Hp : 0 <= p < 12 * bsz w).
  { split; [unfold p; lia|]. pose proof (Z.mod_pos_bound p (bsz w) ltac:(lia)). pose proof (Z.div_mod p (bsz w) ltac:(lia)). nia. }
  destruct (block_index w p Hg Hp) as (Hi & Hm & Hdm).
  destruct (lookup_lt_is_Some_2 (direct_blocks slot) (Z.to_nat (p / bsz w))) as [b Hb]; [lia|].
  rewrite (proj2 (idx_Ret _ _ _) Hb). cbn [mbind outcome_mbind].
  set (avail := Nat.min (Z.to_nat (bsz w - p mod bsz w)) (to_read - done)).
  assert (Hav : (1 <= avail)%nat /\ (done + avail <= total)%nat) by (unfold avail, total, p in *; nia).
  pose proof (fbytes_in_block w (direct_blocks slot) p avail b Hg ltac:(lia) Hb ltac:(unfold avail; lia)) as Hpart.
  assert (Hnext : forall w1, same_disk w w1 -> let bytes := fbytes w (direct_blocks slot) p avail in
    exists w', read_fd_loop fuel slot to_read (done + avail) (splice buf done bytes) w1 =
      Ret (total, splice buf done (fbytes w (direct_blocks slot) p (total - done)), w') /\ same_disk w w').
  { intros w1 SD bytes. pose proof SD as [Hio1 S1]. pose proof (sh_state _ _ _ S1) as E1.
    assert (Hlb : length bytes = avail) by apply fbytes_length.
    destruct (IH (done + avail)%nat (splice buf done bytes) w1 Hio1) as (w' & Hr & SD').
    { split; [done|]. by rewrite E1. } { done. } { unfold bsz. rewrite E1. fold (bsz w). lia. } { rewrite length_splice by lia. done. } { lia. }
    assert (Hbz : bsz w1 = bsz w) by (unfold bsz; by rewrite E1).
    assert (Hfb : forall q n, fbytes w1 (direct_blocks slot) q n = fbytes w (direct_blocks slot) q n).
    { intros q n'. by apply fbytes_same_disk. }
    rewrite Hbz, Hfb in Hr. fold total in Hr. exists w'. rewrite Hr. split.
    - do 2 f_equal. replace (total - done)%nat with (avail + (total - (done + avail)))%nat by lia. rewrite fbytes_app. fold bytes.
      rewrite <- splice_app by lia. rewrite Hlb.
      by replace (p + Z.of_nat avail) with (file_offset slot + Z.of_nat (done + avail)) by (unfold p; lia).
    - destruct SD' as [Hio' S']. split; [done|]. eapply shows_ext; [by eapply shows_trans|]. apply S1. }
  destruct (Z.eqb_spec b 0) as [->|Hb0].
  - rewrite copy_at_le by (rewrite length_replicate; lia). cbn [mbind outcome_mbind]. cbn in Hpart. rewrite <- Hpart.
    apply (Hnext w). split; [done|apply shows_refl].
  - destruct (run_read w w _ b (shows_refl w) Hio) as (w1 & -> & S1 & L1); [apply Ha; [by eapply list_elem_of_lookup_2|done]|].
    cbn [mbind outcome_mbind negb]. pose proof (loaded_io _ _ L1) as Hio1. destruct L1 as (_ & Hlen & _ & rest & Hs1 & _).
    rewrite (sh_state _ _ _ S1) in Hlen. rewrite Hs1. unfold bsn in Hlen.
    rewrite slice_le by (rewrite length_app; unfold avail, bsz in *; lia). cbn [mbind outcome_mbind].
    rewrite drop_app_le by (unfold bsz in *; lia). rewrite take_app_le by (rewrite length_drop; unfold avail, bsz in *; lia).
    replace (Z.to_nat (p mod bsz w) + avail - Z.to_nat (p mod bsz w))%nat with avail by lia. rewrite <- Hpart.
    rewrite copy_at_le by (rewrite fbytes_length; lia). cbn [mbind outcome_mbind]. apply Hnext. by split.
Qed.

(** ** Blocks of files *)

(** A block in use that is not one of the file system itself. *)
Definition data_block w (b : Z) : Prop := in_volume (state w) b /\ used w b = true /\ b ∉ meta (state w).

Lemma data_nonzero w b : volume_ok w -> data_block w b -> b <> 0.
Proof.
  intros V (Hin & _ & Hm) ->. pose proof (vo_layout _ V) as L. apply Hm. unfold in_volume in Hin. pose proof (lo_first _ L).
  rewrite <- (lo_boot _ L) by lia. apply elem_of_cons. by left.
Qed.

Record blocks_ok w (bl : list Z) : Prop := {
  bo_length : length bl = 12%nat;
  bo_data : forall b, b ∈ bl -> b <> 0 -> data_block w b;
  bo_inj : forall j k b, bl !! j = Some b -> bl !! k = Some b -> b <> 0 -> j = k;
}.

Lemma blocks_ok_readable w bl : volume_ok w -> blocks_ok w bl -> readable w bl.
Proof.
  intros V [Hl Hd _]. split; [done|]. intros b Hb Hb0. destruct (Hd b Hb Hb0) as (Hin & _). apply in_volume_addressable; [apply V|done].
Qed.

Lemma control_meta s m : control s m -> m ∈ meta s.
Proof.
  intros [->|[->|(g & Hg & Hm)]]; [set_solver|set_solver|]. eapply group_meta_in; [done|]. destruct Hm as [->| ->]; [apply bb_in|apply ib_in].
Qed.

(** Descriptors are no part of the volume. *)
Lemma volume_ok_fds w l : volume_ok w -> volume_ok (set_state w (set_fds (state w) l)).
Proof.
  intros V. pose proof (vo_layout _ V) as L. destruct V, L, vo_io0 as [Hg Hb].
  assert (Hg' : geometry_ok (set_fds (state w) l)) by (destruct Hg; by split). split; try done.
Qed.

Lemma put_slot_blk w i s b : blk (put_slot i s w) b = blk w b.
Proof. done. Qed.

(** ** What a write does

    [bytes] were written at position [p] of the file with inode [ino]; its
    pointers went from [bl] to [bl']. *)
Record wrote w (bl : list Z) w' (bl' : list Z) (ino p : Z) (bytes : list Z) : Prop := {
  wr_ok : volume_ok w';
  wr_layout : same_layout (state w) (state w');
  wr_blocks : blocks_ok w' bl';
  wr_bytes : forall q, 0 <= q < 12 * bsz w -> fbyte w' bl' q =
    if decide (p <= q < p + Z.of_nat (length bytes)) then default 0 (bytes !! Z.to_nat (q - p)) else fbyte w bl q;
  wr_used : forall b, in_volume (state w) b -> used w b = true -> used w' b = true;
  wr_new : forall b, b ∈ bl' -> b <> 0 -> b ∈ bl \/ used w b = false;
  wr_others : forall b, data_block w b -> b ∉ bl -> blk w' b = blk w b;
  wr_inodes : forall i o n, inode_ok (state w) i -> (o + n <= 128)%nat -> i <> ino \/ (o + n <= 40)%nat \/ (88 <= o)%nat ->
    ifield w' i o n = ifield w i o n;
  wr_ptrs : (forall k b, bl !! k = Some b -> iptr w ino k = b) -> forall k b, bl' !! k = Some b -> iptr w' ino k = b;
  wr_low : forall l, l < lba_offset (state w) -> sector (disk w') l = sector (disk w) l;
}.

Lemma inode_ok_same s s' i : same_layout s s' -> inode_ok s i -> inode_ok s' i.
Proof. intros [G _ _]. unfold inode_ok, same_geometry in *. destruct_and! G. by same_fields s s'. Qed.

Lemma bsz_same w w' : same_layout (state w) (state w') -> bsz w' = bsz w.
Proof. intros [(_ & _ & Hb & _) _ _]. done. Qed.

Lemma wrote_refl w bl ino p : volume_ok w -> blocks_ok w bl -> wrote w bl w bl ino p [].
Proof. intros V B. split; try done; auto. intros q Hq. rewrite decide_False; [done|]. cbn. lia. Qed.

Lemma same_disk_refl w : io_ok w -> same_disk w w.
Proof. intros Hio. split; [done|apply shows_refl]. Qed.

Lemma wrote_same_disk w w' bl ino p : volume_ok w -> blocks_ok w bl -> same_disk w w' -> wrote w bl w' bl ino p [].
Proof.
  intros V B SD. pose proof (volume_ok_same_disk w w' V SD) as V'. pose proof (fun b => same_disk_used w w' b SD) as Hu.
  pose proof SD as [_ S]. pose proof (sh_state _ _ _ S) as E. split; rewrite ?E; try done.
  - destruct B as [B1 B2 B3]. split; [done| |done]. intros b Hb Hb0. destruct (B2 b Hb Hb0) as (H1 & H2 & H3). unfold data_block. by rewrite E, Hu.
  - intros q Hq. rewrite decide_False by (cbn; lia). apply fbyte_ext; [by rewrite E|]. intros b _ _. apply S.
  - intros b Hb Hub. by rewrite Hu.
  - intros b Hb _. by left.
  - intros b _ _. apply S.
  - intros i o n _ _ _. unfold ifield. by rewrite E, (sh_blk _ _ _ S).
  - intros Hp k b Hb. unfold iptr, ifield. rewrite E, (sh_blk _ _ _ S). by apply Hp.
  - intros l Hl. by apply S.
Qed.

Lemma wrote_both w bl w1 bl1 w2 bl2 ino p b1 b2 : volume_ok w -> 0 <= p -> wrote w bl w1 bl1 ino p b1 ->
  wrote w1 bl1 w2 bl2 ino (p + Z.of_nat (length b1)) b2 -> wrote w bl w2 bl2 ino p (b1 ++ b2).
Proof.
  intros V Hp A B. pose proof (bsz_same _ _ (wr_layout _ _ _ _ _ _ _ A)) as Hbs. destruct A as [A1 A2 A3 A4 A5 A6 A7 A8 A9 A10], B as [B1 B2 B3 B4 B5 B6 B7 B8 B9 B10].
  split; [done|by etrans|done|..].
  - intros q Hq. rewrite B4 by (by rewrite Hbs). rewrite A4 by done. rewrite length_app.
    destruct (decide (p + Z.of_nat (length b1) <= q < p + Z.of_nat (length b1) + Z.of_nat (length b2))) as [Hin|Hin].
    + rewrite decide_True by lia. rewrite lookup_app_r by lia. do 2 f_equal. lia.
    + destruct (decide (p <= q < p + Z.of_nat (length b1))); [|by rewrite decide_False by lia].
      rewrite decide_True by lia. by rewrite lookup_app_l by lia.
  - intros b Hb Hu. apply B5; [by eapply in_volume_same|]. by apply A5.
  - intros b Hb Hb0. destruct (B6 b Hb Hb0) as [Hb1|Hu]; [by apply A6|]. right. destruct (used w b) eqn:E; [|done].
    destruct (bo_data _ _ B3 b Hb Hb0) as (Hin & _). pose proof (A5 b) as Hx. rewrite Hx in Hu; [done| |done].
    eapply in_volume_back; [exact A2|]. by eapply in_volume_back; [exact B2|].
  - intros b Hd Hnb. pose proof (data_nonzero w b V Hd) as Hb0. pose proof Hd as (H1 & H2 & H3). rewrite B7; [by apply A7| |].
    + split_and!; [by eapply in_volume_same|by apply A5|by rewrite (meta_same _ _ A2)].
    + intros Hb1. destruct (A6 b Hb1 Hb0); [done|congruence].
  - intros i o n Hi Ho Hd. rewrite B8; [by apply A8|by eapply inode_ok_same|done|done].
  - intros Hp0. by apply B9, A9.
  - intros l Hl. rewrite B10; [by apply A10|]. by destruct A2 as [(_ & -> & _) _ _].
Qed.

(** ** One block *)

(** Writing into a block of the file. *)
Lemma write_in_block w bl ino k b p bytes w2 : volume_ok w -> blocks_ok w bl -> inode_ok (state w) ino -> bl !! k = Some b -> b <> 0 ->
  0 <= p -> Z.to_nat (p / bsz w) = k -> p mod bsz w + Z.of_nat (length bytes) <= bsz w ->
  io_ok w2 -> shows w w2 (upd (blk w) b (splice (blk w b) (Z.to_nat (p mod bsz w)) bytes)) ->
  wrote w bl w2 bl ino p bytes.
Proof.
  intros V B Hino Hk Hb0 Hp Hpk Hn Hio S. destruct (bo_data _ _ B b ltac:(by eapply list_elem_of_lookup_2) Hb0) as (Hin & Hu & Hm).
  pose proof (sh_state _ _ _ S) as E. pose proof (vo_layout _ V) as L. pose proof (io_geo _ (vo_io _ V)) as Hg.
  assert (Hbs : 0 < bsz w) by (pose proof (geo_size _ Hg); pose proof (geo_sectors _ Hg); unfold bsz; lia).
  assert (Hc : forall m, control (state w) m -> blk w2 m = blk w m).
  { intros m Hcm. rewrite (sh_blk _ _ _ S), upd_ne; [done|]. intros ->. by apply Hm, control_meta. }
  assert (V2 : volume_ok w2) by (by eapply volume_ok_control).
  assert (Hu2 : forall b', in_volume (state w) b' -> used w2 b' = used w b') by (intros; by apply used_ext).
  assert (Hib : forall i, inode_ok (state w) i -> b <> iblock (state w) i) by (intros i Hi ->; apply Hm; by apply iblock_meta).
  split; [done|by rewrite E| | | | | | | |].
  - destruct B as [B1 B2 B3]. split; [done| |done]. intros b' Hb' Hb0'. destruct (B2 b' Hb' Hb0') as (H1 & H2 & H3).
    unfold data_block. rewrite E. split_and!; [done|by rewrite Hu2|done].
  - intros q Hq. pose proof (block_index w q Hg Hq) as (Hqi & Hqm & Hqd).
    assert (Hlen : length (blk w b) = bsn (state w)) by (by apply length_blk_of). unfold bsn in Hlen. fold (bsz w) in Hlen.
    pose proof (Z.mod_pos_bound p (bsz w) ltac:(lia)) as Hpm. pose proof (Z.div_mod p (bsz w) ltac:(lia)) as Hpd.
    pose proof (Z.div_pos p (bsz w) ltac:(lia) ltac:(lia)) as Hpp.
    unfold fbyte at 1. replace (bsz w2) with (bsz w) by (unfold bsz; by rewrite E).
    destruct (decide (q / bsz w = p / bsz w)) as [Hsame|Hdiff].
    + rewrite Hsame, Hpk, Hk. destruct (Z.eqb_spec b 0); [done|]. rewrite (sh_blk _ _ _ S), upd_eq.
      destruct (decide (p <= q < p + Z.of_nat (length bytes))) as [Hr|Hr].
      * rewrite lookup_splice_in by nia. do 2 f_equal. nia.
      * rewrite lookup_splice_out by nia. unfold fbyte. rewrite Hsame, Hpk, Hk. destruct (Z.eqb_spec b 0); done.
    + rewrite decide_False by nia. unfold fbyte. destruct (bl !! Z.to_nat (q / bsz w)) as [b'|] eqn:Hb'; [|done].
      destruct (Z.eqb_spec b' 0) as [|Hb0']; [done|]. rewrite (sh_blk _ _ _ S), upd_ne; [done|]. intros ->. apply Hdiff.
      pose proof (bo_inj _ _ B _ _ _ Hb' Hk Hb0). lia.
  - intros b' H1 H2. by rewrite Hu2.
  - intros b' Hb' _. by left.
  - intros b' _ Hnb. rewrite (sh_blk _ _ _ S), upd_ne; [done|]. intros ->. apply Hnb. by eapply list_elem_of_lookup_2.
  - intros i o n Hi Ho _. unfold ifield. rewrite E, (sh_blk _ _ _ S), upd_ne; [done|]. apply not_eq_sym. by apply Hib.
  - intros Hptr k' b' Hb'. rewrite <- (Hptr k' b' Hb'). unfold iptr, ifield. rewrite E, (sh_blk _ _ _ S).
    rewrite upd_ne; [done|]. apply not_eq_sym. by apply Hib.
  - intros l Hl. by apply S.
Qed.

Lemma not_control_plain s b : ~ control s b -> plain s b.
Proof.
  intros Hc. split_and!; [intros ->; apply Hc; by left|intros ->; apply Hc; by right; left|].
  intros g Hg ->. apply Hc. right. right. exists g. auto.
Qed.

Lemma ifield_allocated w w1 r i o n : volume_ok w -> allocated w w1 r -> inode_ok (state w) i -> ifield w1 i o n = ifield w i o n.
Proof.
  intros V A Hi. pose proof (vo_layout _ V) as L. pose proof (al_layout _ _ _ A) as [G _ P]. 
  assert (Hib : iblock (state w1) i = iblock (state w) i /\ ibase (state w1) i = ibase (state w) i).
  { unfold iblock, ibase, ibyte, igroup. destruct (P (Z.to_nat ((i - 1) / inodes_per_group (state w1)))) as (_ & _ & ->).
    unfold same_geometry in G. destruct_and! G. by same_fields (state w) (state w1). }
  destruct Hib as [H1 H2]. unfold ifield. rewrite H1, H2, (al_others _ _ _ A); [done| |].
  - intros He. pose proof (free_not_meta w r V (al_free _ _ _ A)) as Hm. apply Hm. rewrite <- He. by apply iblock_meta.
  - by apply not_control_plain, iblock_not_control.
Qed.

(** A hole of the file gets a new block. *)
Lemma wrote_new_block w bl ino k p r w1 w2 : volume_ok w -> blocks_ok w bl -> inode_ok (state w) ino -> bl !! k = Some 0 ->
  allocated w w1 r -> patched w1 w2 ino (40 + k * 4) (u32_le r) -> wrote w bl w2 (<[k := r]> bl) ino p [].
Proof.
  intros V B Hino Hk A P. pose proof (vo_layout _ V) as L. pose proof (al_layout _ _ _ A) as SL. pose proof (al_ok _ _ _ A) as V1.
  assert (Hkl : (k < 12)%nat) by (rewrite <- (bo_length _ _ B); by eapply lookup_lt_Some).
  pose proof (inode_ok_same _ _ ino SL Hino) as Hino1. pose proof (sh_state _ _ _ (pa_shows _ _ _ _ _ P)) as E2.
  pose proof (free_not_meta w r V (al_free _ _ _ A)) as Hrm. pose proof (meta_same _ _ SL) as Hms.
  assert (SL2 : same_layout (state w) (state w2)) by (by rewrite E2).
  assert (Hdata : forall b, b ∉ meta (state w) -> blk w2 b = blk w1 b).
  { intros b Hb. rewrite (sh_blk _ _ _ (pa_shows _ _ _ _ _ P)), upd_ne; [done|]. intros ->. apply Hb. rewrite <- Hms. apply iblock_meta; [apply V1|done]. }
  assert (Hold : forall b, data_block w b -> b <> r /\ blk w2 b = blk w b).
  { intros b (H1 & H2 & H3). assert (b <> r) by (intros ->; pose proof (al_free _ _ _ A); congruence). split; [done|].
    rewrite Hdata by done. apply (al_others _ _ _ A); [done|by apply plain_not_meta]. }
  assert (Hused : forall b, in_volume (state w) b -> used w2 b = used w b || bool_decide (b = r)).
  { intros b Hb. rewrite <- (al_used _ _ _ A b Hb). apply used_ext; [done| |apply V1|by eapply in_volume_same].
    intros m Hm. rewrite (sh_blk _ _ _ (pa_shows _ _ _ _ _ P)), upd_ne; [done|]. intros ->. by apply (iblock_not_control _ ino (vo_layout _ V1)) in Hm. }
  assert (Hr : data_block w2 r).
  { unfold data_block. rewrite Hused by apply A. rewrite bool_decide_eq_true_2, orb_true_r by done. rewrite (meta_same _ _ SL2).
    split_and!; [eapply in_volume_same; [done|apply A]|done|done]. }
  pose proof (data_nonzero w2 r (pa_ok _ _ _ _ _ P) Hr) as Hr0.
  assert (Hbo : blocks_ok w2 (<[k := r]> bl)).
  { destruct B as [B1 B2 B3]. split; [by rewrite length_insert| |].
    - intros b Hb Hb0. apply list_elem_of_lookup in Hb as [j Hj]. apply list_lookup_insert_Some in Hj as [(_ & <- & _)|[_ Hj]]; [done|].
      destruct (B2 b ltac:(by eapply list_elem_of_lookup_2) Hb0) as (H1 & H2 & H3). unfold data_block. rewrite Hused, H2, (meta_same _ _ SL2) by done.
      split_and!; [by eapply in_volume_same|done|done].
    - assert (Hnr : forall j, bl !! j <> Some r).
      { intros j Hj. destruct (Hold r) as [Hx _]; [|done]. apply B2; [by eapply list_elem_of_lookup_2|done]. }
      intros j j' b Hj Hj' Hb0. apply list_lookup_insert_Some in Hj as [(<- & <- & _)|[Hj1 Hj]];
        apply list_lookup_insert_Some in Hj' as [(<- & Hbr & _)|[Hj1' Hj']]; [done|by apply Hnr in Hj'|subst b; by apply Hnr in Hj|by eapply B3]. }
  split; [apply P|done|done|..].
  - intros q Hq. rewrite decide_False by (cbn; lia). pose proof (io_geo _ (vo_io _ V)) as Hg. pose proof (block_index w q Hg Hq) as (Hqi & Hqm & _).
    unfold fbyte. rewrite (bsz_same _ _ SL2). destruct (decide (Z.to_nat (q / bsz w) = k)) as [He|He].
    + rewrite He, list_lookup_insert_eq by (rewrite (bo_length _ _ B); done). rewrite Hk. cbn [Z.eqb]. destruct (Z.eqb_spec r 0); [done|].
      rewrite Hdata, (al_zero _ _ _ A) by done. destruct (replicate _ 0 !! _) eqn:Ez; [|done]. by apply lookup_replicate in Ez as [-> _].
    + rewrite list_lookup_insert_ne by done. destruct (bl !! Z.to_nat (q / bsz w)) as [b|] eqn:Hb; [|done]. destruct (Z.eqb_spec b 0); [done|].
      destruct (Hold b) as [_ ->]; [|done]. apply (bo_data _ _ B); [by eapply list_elem_of_lookup_2|done].
  - intros b Hb Hu. by rewrite Hused, Hu.
  - intros b Hb Hb0. apply list_elem_of_lookup in Hb as [j Hj]. apply list_lookup_insert_Some in Hj as [(_ & <- & _)|[_ Hj]]; [right; apply A|].
    left. by eapply list_elem_of_lookup_2.
  - intros b Hb _. by apply Hold.
  - intros i o n Hi Ho Hd. rewrite (ifield_patched_other w1 w2 ino (40 + k * 4) (u32_le r)); try done; [by eapply ifield_allocated|by eapply inode_ok_same|rewrite length_u32; lia|rewrite length_u32; lia].
  - intros Hptr j b Hj. unfold iptr. destruct (decide (j = k)) as [->|Hne].
    + rewrite list_lookup_insert_eq in Hj by (rewrite (bo_length _ _ B); done). injection Hj as <-.
      pose proof (ifield_patched_same w1 w2 ino (40 + k * 4) (u32_le r) V1 P) as Hf. rewrite length_u32 in Hf. rewrite Hf by lia.
      apply decode_u32. destruct (in_volume_addressable _ _ L (al_in _ _ _ A)) as [H1 H2]. pose proof (geo_sectors _ (lo_geo _ L)). pose proof (geo_offset _ (lo_geo _ L)). nia.
    + rewrite list_lookup_insert_ne in Hj by done. assert (j < 12)%nat by (rewrite <- (bo_length _ _ B); by eapply lookup_lt_Some).
      rewrite (ifield_patched_other w1 w2 ino (40 + k * 4) (u32_le r)); try done; [|rewrite length_u32; lia|lia|rewrite length_u32; lia].
      rewrite (ifield_allocated w w1 r) by done. by apply Hptr.
  - intros l Hl. rewrite (sh_low _ _ _ (pa_shows _ _ _ _ _ P)); [by apply A|]. by destruct SL as [(_ & -> & _) _ _].
Qed.

(** ** The loop of [write_fd] *)

Lemma same_layout_fds s s' l : same_layout s s' -> same_layout s (set_fds s' l).
Proof. intros [G B P]. by split. Qed.

Lemma wrote_put_slot w bl w' bl' ino p bytes i s : wrote w bl w' bl' ino p bytes -> wrote w bl (put_slot i s w') bl' ino p bytes.
Proof.
  intros []. split; try done; [by apply volume_ok_fds|by apply same_layout_fds|]. by destruct wr_blocks0; split.
Qed.

Lemma set_blocks_id slot : set_blocks slot (direct_blocks slot) = slot.
Proof. by destruct slot. Qed.

(** The block for the next bytes is there or is allocated. *)
Lemma block_for_write_ok w i slot k pref p : volume_ok w -> fds (state w) !! i = Some slot -> blocks_ok w (direct_blocks slot) ->
  inode_ok (state w) (inode_no slot) -> (k < 12)%nat ->
  exists r w', block_for_write i k pref w = Ret (r, w') /\
    match r with
    | None => volume_ok w' /\ same_disk w w' /\ forall b, in_volume (state w) b -> used w b = true
    | Some b => exists bl', b <> 0 /\ bl' !! k = Some b /\ wrote w (direct_blocks slot) w' bl' (inode_no slot) p [] /\
        fds (state w') = <[i := set_blocks slot bl']> (fds (state w))
    end.
Proof.
  intros V Hs B Hino Hk. destruct (lookup_lt_is_Some_2 (direct_blocks slot) k) as [b Hb]; [by rewrite (bo_length _ _ B)|].
  unfold block_for_write. rewrite (proj2 (idx_Ret _ _ _) Hs). cbn [mbind outcome_mbind]. rewrite (proj2 (idx_Ret _ _ _) Hb). cbn [mbind outcome_mbind].
  destruct (Z.eqb_spec b 0) as [->|Hb0]; cbn [negb].
  2: { exists (Some b), w. split; [done|]. exists (direct_blocks slot). split_and!; [done|done|by apply wrote_refl|]. by rewrite set_blocks_id, list_insert_id. }
  destruct (alloc_block_ok w pref V) as (r & w1 & -> & Hc). cbn [mbind outcome_mbind]. destruct Hc as [A|(-> & SD & Hf)].
  2: { exists None, w1. split; [done|]. split_and!; [by eapply volume_ok_same_disk|done|done]. }
  assert (Hr0 : r <> 0) by (intros ->; pose proof (zero_not_free w V (al_in _ _ _ A)); pose proof (al_free _ _ _ A); congruence).
  destruct (Z.eqb_spec r 0); [done|]. unfold update_inode_block_ptr.
  destruct (patch_inode_ok w1 (inode_no slot) (40 + k * 4) (u32_le r)) as (w2 & Hw2 & P); [apply A|eapply inode_ok_same; [apply A|done]|rewrite length_u32; lia|apply bytes_u32|].
  replace (patch_inode (inode_no slot) (fun base => patch_scratch (base + 40 + k * 4) (u32_le r)) w1) with (Ret (true, w2))
    by (rewrite <- Hw2; unfold patch_inode; destruct (inode_location _ _) as [[[]|]|]; cbn [mbind outcome_mbind]; rewrite ?Nat.add_assoc; done).
  cbn [mbind outcome_mbind negb]. rewrite set_idx_lt by (rewrite (bo_length _ _ B); done). cbn [mbind outcome_mbind].
  eexists _, _. split; [done|]. exists (<[k := r]> (direct_blocks slot)). split_and!; [done|apply list_lookup_insert_eq; by rewrite (bo_length _ _ B)| |].
  - apply wrote_put_slot. by eapply wrote_new_block.
  - cbn. by rewrite (sh_state _ _ _ (pa_shows _ _ _ _ _ P)), (al_fds _ _ _ A).
Qed.

(** Why the loop ends after [n] bytes. *)
Definition loop_end w w' (slot : Ext2Fd) (buf : list Z) (n : nat) (hit : bool) : Prop :=
  (n = length buf /\ hit = false) \/
  ((n < length buf)%nat /\ hit = true /\ 12 * bsz w <= file_offset slot + Z.of_nat n) \/
  ((n < length buf)%nat /\ hit = false /\ file_offset slot + Z.of_nat n < 12 * bsz w /\ forall b, in_volume (state w) b -> used w' b = true).

(** The result of the loop from [done] on. *)
Definition loop_result w (i : nat) (slot : Ext2Fd) (buf : list Z) (done : nat) (o : outcome (nat * bool * Ext2 D)) : Prop :=
  exists n hit w' bl', o = Ret ((done + n)%nat, hit, w') /\ (done + n <= length buf)%nat /\
    wrote w (direct_blocks slot) w' bl' (inode_no slot) (file_offset slot + Z.of_nat done) (take n (drop done buf)) /\
    fds (state w') = <[i := set_blocks slot bl']> (fds (state w)) /\ loop_end w w' slot buf (done + n) hit /\
    (n = 0%nat \/ file_offset slot + Z.of_nat (done + n) <= 12 * bsz w).

Lemma loop_stops w w1 i slot buf done hit : volume_ok w -> fds (state w) !! i = Some slot -> blocks_ok w (direct_blocks slot) -> same_disk w w1 ->
  (done <= length buf)%nat -> loop_end w w1 slot buf done hit -> loop_result w i slot buf done (Ret (done, hit, w1)).
Proof.
  intros V Hs B SD Hd He. exists 0%nat, hit, w1, (direct_blocks slot). rewrite Nat.add_0_r, take_0. split_and!; [done|done|by apply wrote_same_disk| |done|by left].
  destruct SD as [_ S]. by rewrite (sh_state _ _ _ S), set_blocks_id, list_insert_id.
Qed.

(** A turn that wrote [a] bytes, and the rest. *)
Lemma loop_continues w w1 bl1 i slot buf done a o : volume_ok w -> fds (state w) !! i = Some slot -> 0 <= file_offset slot ->
  wrote w (direct_blocks slot) w1 bl1 (inode_no slot) (file_offset slot + Z.of_nat done) (take a (drop done buf)) ->
  fds (state w1) = <[i := set_blocks slot bl1]> (fds (state w)) -> (done + a <= length buf)%nat -> file_offset slot + Z.of_nat (done + a) <= 12 * bsz w ->
  loop_result w1 i (set_blocks slot bl1) buf (done + a) o -> loop_result w i slot buf done o.
Proof.
  intros V Hs Hoff W Hf Ha Hlim (n & hit & w' & bl' & -> & Hn & W' & Hf' & He & Hl). pose proof (wr_layout _ _ _ _ _ _ _ W) as SL.
  exists (a + n)%nat, hit, w', bl'. rewrite Nat.add_assoc. split_and!; [done|done| | | |].
  - replace (take (a + n) (drop done buf)) with (take a (drop done buf) ++ take n (drop (done + a) buf)) by (rewrite <- drop_drop; by rewrite take_take_drop).
    eapply wrote_both; [done|lia|exact W|]. rewrite length_take, length_drop, Nat.min_l by lia. cbn [inode_no file_offset direct_blocks set_blocks] in W'.
    by replace (file_offset slot + Z.of_nat done + Z.of_nat a) with (file_offset slot + Z.of_nat (done + a)) by lia.
  - rewrite Hf', Hf, list_insert_insert_eq. done.
  - unfold loop_end in *. rewrite (bsz_same _ _ SL) in He. destruct He as [?|[?|(H1 & H2 & Hlt & H3)]]; [by left|by right; left|right; right].
    split_and!; [done|done|done|]. intros b Hb. apply H3. by eapply in_volume_same.
  - rewrite (bsz_same _ _ SL) in Hl. right. destruct Hl as [->|?]; [by rewrite Nat.add_0_r|done].
Qed.

Lemma write_fd_loop_ok i pref buf fuel : Forall is_byte buf -> forall done slot w, volume_ok w -> fds (state w) !! i = Some slot ->
  blocks_ok w (direct_blocks slot) -> inode_ok (state w) (inode_no slot) -> 0 <= file_offset slot ->
  (done <= length buf)%nat -> (length buf - done < fuel)%nat -> loop_result w i slot buf done (write_fd_loop fuel i pref buf done w).
Proof.
  intros Hby. induction fuel as [|fuel IH]; intros done slot w V Hs B Hino Hoff Hdone Hfuel; [lia|].
  pose proof (io_geo _ (vo_io _ V)) as Hg. assert (Hbs : 0 < bsz w) by (pose proof (geo_size _ Hg); pose proof (geo_sectors _ Hg); unfold bsz; lia).
  cbn [write_fd_loop]. destruct (Nat.leb_spec (length buf) done) as [Hle|Hlt].
  { apply loop_stops; [done|done|done|apply same_disk_refl, V|done|]. left. split; [lia|done]. }
  rewrite (proj2 (idx_Ret _ _ _) Hs). fold (bsz w). unfold cdiv, crem. destruct (Z.eqb_spec (bsz w) 0); [lia|]. cbn [mbind outcome_mbind].
  set (p := file_offset slot + Z.of_nat done) in *. destruct (Z.leb_spec 12 (p / bsz w)) as [H12|H12].
  { apply loop_stops; [done|done|done|apply same_disk_refl, V|done|]. right. left. split_and!; [done|done|]. fold p.
    pose proof (Z.mul_div_le p (bsz w) ltac:(lia)). nia. }
  assert (Hp : 0 <= p < 12 * bsz w).
  { split; [unfold p; lia|]. pose proof (Z.mod_pos_bound p (bsz w) ltac:(lia)). pose proof (Z.div_mod p (bsz w) ltac:(lia)). nia. }
  destruct (block_index w p Hg Hp) as (Hi & Hm & Hdm).
  destruct (block_for_write_ok w i slot (Z.to_nat (p / bsz w)) pref p V Hs B Hino ltac:(lia)) as (r & w1 & -> & Hr). cbn [mbind outcome_mbind].
  destruct r as [b|].
  2: { destruct Hr as (V1 & SD & Hfull). apply loop_stops; [done|done|done|done|done|]. right. right. split_and!; [done|done|fold p; lia|].
       intros b Hb. rewrite (same_disk_used w w1 b SD). by apply Hfull. }
  destruct Hr as (bl1 & Hb0 & Hbk & W1 & Hf1). pose proof (wr_layout _ _ _ _ _ _ _ W1) as SL1. pose proof (wr_ok _ _ _ _ _ _ _ W1) as V1.
  pose proof (wr_blocks _ _ _ _ _ _ _ W1) as B1. pose proof (bsz_same _ _ SL1) as Hbz1.
  destruct (bo_data _ _ B1 b ltac:(by eapply list_elem_of_lookup_2) Hb0) as (Hbin & _ & _).
  pose proof (in_volume_addressable _ _ (vo_layout _ V1) Hbin) as Ha1.
  destruct (run_read w1 w1 _ b (shows_refl w1) (vo_io _ V1) Ha1) as (w2 & -> & S2 & L2). cbn [mbind outcome_mbind negb].
  set (avail := Nat.min (Z.to_nat (bsz w - p mod bsz w)) (length buf - done)).
  assert (Hav : (1 <= avail)%nat /\ (done + avail <= length buf)%nat /\ p mod bsz w + Z.of_nat avail <= bsz w) by (unfold avail; lia).
  rewrite slice_le by lia. cbn [mbind outcome_mbind]. replace (done + avail - done)%nat with avail by lia.
  assert (Hlen : length (take avail (drop done buf)) = avail) by (rewrite length_take, length_drop; lia).
  destruct (run_patch w1 w2 _ _ (Z.to_nat (p mod bsz w)) (take avail (drop done buf)) S2 L2) as (w3 & -> & S3 & L3).
  { rewrite Hlen. unfold bsn. fold (bsz w1). rewrite Hbz1. lia. } { by apply Forall_take, Forall_drop. } cbn [mbind outcome_mbind].
  destruct (run_write w1 w3 _ _ b S3 L3 Ha1) as (w4 & -> & S4 & L4). cbn [mbind outcome_mbind negb].
  assert (Hino1 : inode_ok (state w1) (inode_no slot)) by (by eapply inode_ok_same).
  assert (W2 : wrote w1 bl1 w4 bl1 (inode_no slot) p (take avail (drop done buf))).
  { eapply (write_in_block w1 bl1 (inode_no slot) (Z.to_nat (p / bsz w)) b); eauto using loaded_io; rewrite ?Hbz1, ?Hlen; try done; lia. }
  assert (W12 : wrote w (direct_blocks slot) w4 bl1 (inode_no slot) p (take avail (drop done buf))).
  { rewrite <- (app_nil_l (take avail (drop done buf))). eapply wrote_both; [done|lia|exact W1|]. cbn. by rewrite Z.add_0_r. }
  pose proof (sh_state _ _ _ S4) as E4. pose proof (wr_layout _ _ _ _ _ _ _ W12) as SL4.
  eapply loop_continues; [done|done|done|exact W12|by rewrite E4|lia|unfold p in *; nia|].
  apply IH; [apply W12|rewrite E4, Hf1; apply list_lookup_insert_eq; by eapply lookup_lt_Some|apply W12|by eapply inode_ok_same|done|lia|lia].
Qed.
End Files.
End ext2_file.
