(* ===== verification/Ext2FileSpec.v ===== *)
(** * The ext2 driver: reading and writing files

    [read_fd] returns the bytes of the file at the offset of the descriptor;
    [write_fd] changes exactly the bytes it reports, in the file and on the disk.
    A session on the sample volume shows what the driver does with descriptors of
    removed files, with directories moved below themselves and with the entry ".". *)

From stdpp Require Import base list gmap strings list_numbers.
From Stdlib Require Import ZArith Lia.
From S2P Require Import Prelude RamFs FdTable Mbr Ext2 Ext2Ops Ext2Block Ext2Alloc Ext2Sample Ext2Spec Ext2Inode Ext2File.

Local Open Scope Z_scope.

Module ext2_file_spec.
Import ext2 ext2fs ext2_block ext2_alloc ext2_sample ext2_spec ext2_inode ext2_file.

Section Spec.
Context {D : Type} `{DL : DiskLaws D}.
Implicit Types w : Ext2 D.

(** A descriptor of an open file. *)
Record open_file w (fd : Z) (slot : Ext2Fd) : Prop := {
  of_fd : is_ext2_fd fd = true;
  of_slot : fds (state w) !! slot_of fd = Some slot;
  of_active : active slot = true;
  of_blocks : blocks_ok w (direct_blocks slot);
  of_inode : inode_ok (state w) (inode_no slot);
  of_offset : 0 <= file_offset slot <= u32_max;
  of_size : 0 <= file_size slot <= u32_max;
}.

(** Reading returns the bytes of the file: as many as fit the buffer, up to the
    end of the file and of the twelfth block, zeros where the file has no block;
    the rest of the buffer and the disk are untouched, and the offset moves by the
    number of bytes read. *)
Theorem ext2_read_returns_the_file w fd slot buf : volume_ok w -> open_file w fd slot ->
  let n := Nat.min (length buf) (Z.to_nat (Z.min (file_size slot) (12 * bsz w) - file_offset slot)) in
  exists w', read_fd fd buf w = Ret (Z.of_nat n, splice buf 0 (fbytes w (direct_blocks slot) (file_offset slot) n), w') /\
    fds (state w') = <[slot_of fd := set_offset slot (file_offset slot + Z.of_nat n)]> (fds (state w)) /\
    (forall b, blk w' b = blk w b).
Proof.
  intros V [Hfd Hs Ha B Hino Hoff Hsz] n. pose proof (vo_layout _ V) as L. pose proof (geo_size _ (lo_geo _ L)). pose proof (geo_sectors _ (lo_geo _ L)).
  assert (Hbs : 0 < bsz w <= 4096) by (unfold bsz; lia).
  unfold read_fd. rewrite (lo_ready _ L), Hfd, (proj2 (idx_Ret _ _ _) Hs). cbn [negb orb mbind outcome_mbind]. rewrite Ha. cbn [negb].
  unfold sat_sub. destruct (Z.eqb_spec (Z.max 0 (file_size slot - file_offset slot)) 0) as [Hz|Hz].
  { assert (n = 0%nat) as -> by (unfold n; lia). unfold fbytes. cbn [Z.of_nat]. rewrite seqZ_nil by done. cbn [fmap list_fmap]. rewrite splice_nil, Z.add_0_r.
    exists w. split; [done|]. split; [|done]. rewrite list_insert_id; [done|]. by destruct slot. }
  set (to_read := Nat.min (length buf) (Z.to_nat (Z.max 0 (file_size slot - file_offset slot)))).
  destruct (read_fd_loop_ok slot to_read (S to_read) 0 buf w (vo_io _ V) (blocks_ok_readable w _ V B) ltac:(lia)) as (w' & Hr & SD);
    [unfold to_read; lia|unfold to_read; lia|lia|].
  rewrite Z.add_0_r, Nat.sub_0_r in Hr. replace (Nat.min to_read (Z.to_nat (12 * bsz w - file_offset slot))) with n in Hr by (unfold n, to_read; lia).
  rewrite Hr. cbn [mbind outcome_mbind]. unfold wrap. rewrite Z.mod_small by (unfold n; lia). rewrite cadd_le by (unfold n, u32_max in *; lia). cbn [mbind outcome_mbind].
  eexists. split; [done|]. destruct SD as [_ S]. split; [cbn; by rewrite (sh_state _ _ _ S)|]. intros b. rewrite put_slot_blk. apply S.
Qed.

Lemma update_size_patch w ino n : update_inode_size ino n w = patch_inode ino (fun base => patch_scratch (base + 4) (u32_le n)) w.
Proof. done. Qed.
Lemma update_times_patch w ino : update_inode_times ino w = patch_inode ino (fun base => patch_scratch (base + 8) (replicate 12 0)) w.
Proof. done. Qed.

(** What a change of the record outside the pointers keeps. *)
Record kept w w' (bl : list Z) (ino : Z) (from : nat) : Prop := {
  ke_ok : volume_ok w';
  ke_layout : same_layout (state w) (state w');
  ke_blocks : blocks_ok w' bl;
  ke_bytes : forall q, fbyte w' bl q = fbyte w bl q;
  ke_used : forall b, in_volume (state w) b -> used w' b = used w b;
  ke_data : forall b, b ∉ meta (state w) -> blk w' b = blk w b;
  ke_inodes : forall i o n, inode_ok (state w) i -> (o + n <= 128)%nat -> i <> ino \/ (from <= o)%nat -> ifield w' i o n = ifield w i o n;
}.

Lemma kept_trans w w1 w2 bl ino f1 f2 : kept w w1 bl ino f1 -> kept w1 w2 bl ino f2 -> kept w w2 bl ino (Nat.max f1 f2).
Proof.
  intros [] []. split; [done|by etrans|done|..].
  - intros q. by rewrite ke_bytes1, ke_bytes0.
  - intros b Hb. rewrite ke_used1 by (by eapply in_volume_same). by apply ke_used0.
  - intros b Hb. rewrite ke_data1 by (by rewrite (meta_same _ _ ke_layout0)). by apply ke_data0.
  - intros i o n Hi Hn Hd. rewrite ke_inodes1; [apply ke_inodes0; [done|done|lia]|by eapply inode_ok_same|done|lia].
Qed.

Lemma kept_put_slot w bl ino i s : volume_ok w -> blocks_ok w bl -> kept w (put_slot i s w) bl ino 0.
Proof. intros V []. split; try done. by apply volume_ok_fds. Qed.

Lemma patched_kept w w' bl ino o src : volume_ok w -> blocks_ok w bl -> inode_ok (state w) ino -> patched w w' ino o src ->
  (o + length src <= 40)%nat -> kept w w' bl ino (o + length src).
Proof.
  intros V [B1 B2 B3] Hino P Ho. pose proof (sh_state _ _ _ (pa_shows _ _ _ _ _ P)) as E. pose proof (vo_layout _ V) as L.
  assert (Hd : forall b, b ∉ meta (state w) -> blk w' b = blk w b).
  { intros b Hb. rewrite (sh_blk _ _ _ (pa_shows _ _ _ _ _ P)), upd_ne; [done|]. intros ->. apply Hb. by apply iblock_meta. }
  assert (Hu : forall b, in_volume (state w) b -> used w' b = used w b).
  { intros b Hb. apply used_ext; [done| |done|done]. intros m Hm. rewrite (sh_blk _ _ _ (pa_shows _ _ _ _ _ P)), upd_ne; [done|].
    intros ->. by apply (iblock_not_control _ ino L) in Hm. }
  split; [apply P|by rewrite E| | |done|done|].
  - split; [done| |done]. intros b Hb Hb0. destruct (B2 b Hb Hb0) as (H1 & H2 & H3). unfold data_block. by rewrite E, Hu.
  - intros q. apply fbyte_ext; [by rewrite E|]. intros b Hb Hb0. by apply Hd, B2.
  - intros i o' n Hi Hn Hdis. eapply ifield_patched_other; [done|done|done|done|lia|done|]. destruct Hdis; [by left|right; by right].
Qed.

(** The record on the disk is that of the descriptor. *)
Definition in_step w (slot : Ext2Fd) : Prop :=
  isize w (inode_no slot) = file_size slot /\ forall k b, direct_blocks slot !! k = Some b -> iptr w (inode_no slot) k = b.

(** The descriptor after [n] more bytes. *)
Definition advanced (slot : Ext2Fd) (bl : list Z) (n : nat) : Ext2Fd :=
  let off := file_offset slot + Z.of_nat n in
  mkFd (active slot) (inode_no slot) (Z.max (file_size slot) off) off bl (writable slot) (append slot).

(** The size in the record, when the file has grown. *)
Lemma grow_size_ok w i slot bl off : volume_ok w -> blocks_ok w bl -> inode_ok (state w) (inode_no slot) -> 0 <= off <= u32_max ->
  exists w1, (if file_size slot <? off then let! (_, w) := update_inode_size (inode_no slot) off (put_slot i (set_size (set_offset (set_blocks slot bl) off) off) w) in Ret w
        else Ret (put_slot i (set_offset (set_blocks slot bl) off) w)) = Ret w1 /\ kept w w1 bl (inode_no slot) 8 /\
    fds (state w1) = <[i := set_size (set_offset (set_blocks slot bl) off) (Z.max (file_size slot) off)]> (fds (state w)) /\
    (isize w (inode_no slot) = file_size slot -> isize w1 (inode_no slot) = Z.max (file_size slot) off).
Proof.
  intros V B Hino Hoff. destruct (Z.ltb_spec (file_size slot) off) as [Hlt|Hge].
  - pose proof (kept_put_slot w bl (inode_no slot) i (set_size (set_offset (set_blocks slot bl) off) off) V B) as K0. set (w0 := put_slot i _ w) in *.
    destruct (patch_inode_ok w0 (inode_no slot) 4 (u32_le off)) as (w1 & Hw1 & P1); [apply K0|done|rewrite length_u32; lia|apply bytes_u32|].
    rewrite update_size_patch, Hw1. cbn [mbind outcome_mbind]. exists w1. split; [done|].
    pose proof (patched_kept w0 w1 bl (inode_no slot) 4 (u32_le off) (ke_ok _ _ _ _ _ K0) (ke_blocks _ _ _ _ _ K0) Hino P1 ltac:(rewrite length_u32; lia)) as K1.
    rewrite length_u32 in K1. split; [exact (kept_trans _ _ _ _ _ _ _ K0 K1)|]. split.
    + rewrite (sh_state _ _ _ (pa_shows _ _ _ _ _ P1)). cbn. by rewrite Z.max_r by lia.
    + intros _. unfold isize. pose proof (ifield_patched_same w0 w1 (inode_no slot) 4 (u32_le off) (ke_ok _ _ _ _ _ K0) P1) as Hf. rewrite length_u32 in Hf.
      rewrite Hf by lia. rewrite Z.max_r by lia. by apply decode_u32.
  - eexists. split; [done|]. pose proof (kept_put_slot w bl (inode_no slot) i (set_offset (set_blocks slot bl) off) V B) as K0. split.
    + destruct K0. by split.
    + split; [|intros Hx; rewrite Z.max_l by lia; done]. cbn. rewrite Z.max_l by lia. done.
Qed.

Lemma write_fd_end_ok w i slot bl n : volume_ok w -> blocks_ok w bl -> inode_ok (state w) (inode_no slot) -> fds (state w) !! i = Some (set_blocks slot bl) ->
  0 <= file_offset slot -> file_offset slot + Z.of_nat n <= u32_max ->
  exists w2, write_fd_end i n w = Ret (Z.of_nat n, w2) /\ kept w w2 bl (inode_no slot) 20 /\
    fds (state w2) = <[i := advanced slot bl n]> (fds (state w)) /\
    (isize w (inode_no slot) = file_size slot -> isize w2 (inode_no slot) = file_size (advanced slot bl n)).
Proof.
  intros V B Hino Hs Hoff Hmax. unfold write_fd_end. rewrite (proj2 (idx_Ret _ _ _) Hs). cbn [mbind outcome_mbind file_offset set_blocks].
  unfold wrap. rewrite Z.mod_small by (unfold u32_max in *; lia). rewrite cadd_le by done. cbn [mbind outcome_mbind file_size set_offset set_blocks inode_no].
  destruct (grow_size_ok w i slot bl (file_offset slot + Z.of_nat n) V B Hino ltac:(lia)) as (w1 & Hw1 & K1 & F1 & I1).
  change (mkFd (active slot) (inode_no slot) (file_size slot) (file_offset slot + Z.of_nat n) bl (writable slot) (append slot)) with (set_offset (set_blocks slot bl) (file_offset slot + Z.of_nat n)).
  rewrite Hw1. cbn [mbind outcome_mbind]. pose proof (inode_ok_same _ _ _ (ke_layout _ _ _ _ _ K1) Hino) as Hino1.
  destruct (patch_inode_ok w1 (inode_no slot) 8 (replicate 12 0)) as (w2 & Hw2 & P2);
    [apply K1|done|rewrite length_replicate; lia|apply Forall_replicate; unfold is_byte; lia|].
  rewrite update_times_patch, Hw2. cbn [mbind outcome_mbind]. exists w2. split; [done|].
  pose proof (patched_kept w1 w2 bl (inode_no slot) 8 (replicate 12 0) (ke_ok _ _ _ _ _ K1) (ke_blocks _ _ _ _ _ K1) Hino1 P2 ltac:(rewrite length_replicate; lia)) as K2.
  rewrite length_replicate in K2. split; [exact (kept_trans _ _ _ _ _ _ _ K1 K2)|]. split.
  - rewrite (sh_state _ _ _ (pa_shows _ _ _ _ _ P2)). done.
  - intros Hi. cbn [file_size advanced]. rewrite <- (I1 Hi). unfold isize.
    eapply ifield_patched_other; [apply K1|done|done|done|rewrite length_replicate; lia|lia|right; left; lia].
Qed.

(** C28: Writing changes the bytes it reports and nothing else. On a consistent
    volume a write through an open descriptor ends without abort and writes [n]
    bytes at the offset: all of the buffer, unless the twelfth block or the volume
    is full. The file then has these bytes there and its old bytes elsewhere, the
    descriptor and the record on the disk have the new size and blocks, blocks of
    other files and other records are as before, and the volume is consistent.
    When nothing can be written the result is EFBIG or ENOSPC. *)
Theorem ext2_write_changes_the_file w fd slot buf : volume_ok w -> open_file w fd slot -> writable slot = true -> Forall is_byte buf -> buf <> [] ->
  exists n r w' bl, write_fd fd buf w = Ret (r, w') /\ volume_ok w' /\ (n <= length buf)%nat /\
    let slot' := if (n =? 0)%nat then set_blocks slot bl else advanced slot bl n in
    (r = if (n =? 0)%nat then if 12 * bsz w <=? file_offset slot then EFBIG else ENOSPC else Z.of_nat n) /\
    ((n < length buf)%nat -> 12 * bsz w <= file_offset slot + Z.of_nat n \/ forall b, in_volume (state w) b -> used w' b = true) /\
    fds (state w') = <[slot_of fd := slot']> (fds (state w)) /\ blocks_ok w' bl /\
    (forall q, 0 <= q < 12 * bsz w -> fbyte w' bl q =
       if decide (file_offset slot <= q < file_offset slot + Z.of_nat n) then default 0 (buf !! Z.to_nat (q - file_offset slot))
       else fbyte w (direct_blocks slot) q) /\
    (in_step w slot -> in_step w' slot') /\
    (forall b, data_block w b -> b ∉ direct_blocks slot -> blk w' b = blk w b) /\
    (forall i o k, inode_ok (state w) i -> i <> inode_no slot -> (o + k <= 128)%nat -> ifield w' i o k = ifield w i o k).
Proof.
  intros V [Hfd Hs Ha B Hino Hoff Hsz] Hwr Hby Hne. pose proof (vo_layout _ V) as L. pose proof (geo_size _ (lo_geo _ L)). pose proof (geo_sectors _ (lo_geo _ L)).
  assert (Hbs : 0 < bsz w <= 4096) by (unfold bsz; lia). pose proof (lo_ipg _ L).
  unfold write_fd. rewrite (lo_ready _ L), Hfd, (proj2 (idx_Ret _ _ _) Hs). cbn [negb orb mbind outcome_mbind]. rewrite Ha, Hwr. cbn [negb].
  unfold group_of. rewrite csub_le by apply Hino. cbn [mbind outcome_mbind]. unfold cdiv. destruct (Z.eqb_spec (inodes_per_group (state w)) 0) as [Hz|Hz]; [lia|]. cbn [mbind outcome_mbind].
  destruct (write_fd_loop_ok (slot_of fd) (Z.to_nat ((inode_no slot - 1) / inodes_per_group (state w))) buf (S (length buf)) Hby 0 slot w V Hs B Hino ltac:(lia) ltac:(lia) ltac:(lia))
    as (n & hit & w1 & bl & -> & Hn & W & Hf & He & Hl). cbn [mbind outcome_mbind]. rewrite Nat.add_0_l in *. rewrite Z.add_0_r, drop_0 in W.
  pose proof (wr_layout _ _ _ _ _ _ _ W) as SL. assert (Hlt : (length (take n buf) = n)%nat) by (rewrite length_take; lia).
  assert (Hbytes : forall q, 0 <= q < 12 * bsz w -> fbyte w1 bl q = if decide (file_offset slot <= q < file_offset slot + Z.of_nat n)
      then default 0 (buf !! Z.to_nat (q - file_offset slot)) else fbyte w (direct_blocks slot) q).
  { intros q Hq. rewrite (wr_bytes _ _ _ _ _ _ _ W q Hq), Hlt. case_decide; [|done]. by rewrite lookup_take_lt by lia. }
  assert (Hend : (n < length buf)%nat -> 12 * bsz w <= file_offset slot + Z.of_nat n \/ forall b, in_volume (state w) b -> used w1 b = true).
  { intros Hnl. destruct He as [[-> _]|[(_ & _ & ?)|(_ & _ & _ & ?)]]; [lia|by left|by right]. }
  destruct (Nat.eqb_spec n 0) as [->|Hn0].
  - exists 0%nat. eexists _, w1, bl. split; [done|]. split; [apply W|]. split; [lia|]. cbn [Nat.eqb]. split.
    + rewrite bool_decide_eq_false_2 by done. destruct He as [[Hx _]|[(_ & -> & Hx)|(_ & -> & Hx & _)]]; [destruct buf; done| |];
        destruct (Z.leb_spec (12 * bsz w) (file_offset slot)); try done; cbn in Hx; lia.
    + split; [done|]. split; [done|]. split; [apply W|]. split; [done|]. split; [|split].
      * intros [Hz1 Hz2]. split; cbn [inode_no file_size set_blocks direct_blocks].
        -- rewrite <- Hz1. unfold isize. apply (wr_inodes _ _ _ _ _ _ _ W); [done|lia|right; left; lia].
        -- by apply (wr_ptrs _ _ _ _ _ _ _ W).
      * intros b Hb Hnb. by apply (wr_others _ _ _ _ _ _ _ W).
      * intros i o k Hi Hne' Hk. apply (wr_inodes _ _ _ _ _ _ _ W); [done|done|by left].
  - assert (Hs1 : fds (state w1) !! slot_of fd = Some (set_blocks slot bl)) by (rewrite Hf; apply list_lookup_insert_eq; by eapply lookup_lt_Some).
    destruct (write_fd_end_ok w1 (slot_of fd) slot bl n) as (w2 & Hw2 & K & Hf2 & Hi2); [apply W|apply W|by eapply inode_ok_same|done|lia|unfold u32_max in *; lia|].
    rewrite Hw2. exists n, (Z.of_nat n), w2, bl. split; [done|]. split; [apply K|]. split; [done|]. destruct (Nat.eqb_spec n 0); [done|].
    split; [done|]. split; [|split; [|split; [|split; [|split; [|split]]]]].
    + intros Hnl. destruct (Hend Hnl) as [?|Hfull]; [by left|right]. intros b Hb. rewrite (ke_used _ _ _ _ _ K) by (by eapply in_volume_same). by apply Hfull.
    + by rewrite Hf2, Hf, list_insert_insert_eq.
    + apply K.
    + intros q Hq. rewrite (ke_bytes _ _ _ _ _ K). by apply Hbytes.
    + intros [Hz1 Hz2]. assert (Hi1 : isize w1 (inode_no slot) = file_size slot).
      { rewrite <- Hz1. unfold isize. apply (wr_inodes _ _ _ _ _ _ _ W); [done|lia|right; left; lia]. }
      split; [by apply Hi2|]. intros k b Hkb. cbn [direct_blocks advanced inode_no] in *.
      rewrite <- (wr_ptrs _ _ _ _ _ _ _ W Hz2 k b Hkb). unfold iptr. assert (k < 12)%nat by (rewrite <- (bo_length _ _ (ke_blocks _ _ _ _ _ K)); by eapply lookup_lt_Some).
      apply (ke_inodes _ _ _ _ _ K); [by eapply inode_ok_same|lia|right; lia].
    + intros b Hb Hnb. rewrite (ke_data _ _ _ _ _ K) by (rewrite (meta_same _ _ SL); apply Hb). by apply (wr_others _ _ _ _ _ _ _ W).
    + intros i o k Hi Hne' Hk. rewrite (ke_inodes _ _ _ _ _ K); [|by eapply inode_ok_same|done|by left]. apply (wr_inodes _ _ _ _ _ _ _ W); [done|done|by left].
Qed.

(** ** Shrinking and growing *)

Lemma free_from_holes ino bis blocks w : (forall bi, bi ∈ bis -> blocks !! bi = Some 0) -> free_from ino bis blocks w = Ret (true, blocks, w).
Proof.
  induction bis as [|bi bis IH]; intros Hz; cbn [free_from]; [done|].
  rewrite (proj2 (idx_Ret _ _ _) (Hz bi ltac:(set_solver))). cbn [mbind outcome_mbind]. rewrite Z.eqb_refl. apply IH. set_solver.
Qed.

(** Changing the size alone. *)
Lemma truncate_size_only w fd slot n : volume_ok w -> open_file w fd slot -> writable slot = true -> 0 <= n <= 12 * bsz w ->
  (forall k, (n + bsz w - 1) / bsz w <= Z.of_nat k -> (k < 12)%nat -> direct_blocks slot !! k = Some 0) ->
  exists w', truncate fd n w = Ret (0, w') /\ volume_ok w' /\ open_file w' fd (set_size slot n) /\
    bsz w' = bsz w /\ forall q, fbyte w' (direct_blocks slot) q = fbyte w (direct_blocks slot) q.
Proof.
  intros V [Hfd Hs Ha B Hino Hoff Hsz] Hwr Hn Hh. pose proof (vo_layout _ V) as L. pose proof (geo_size _ (lo_geo _ L)) as Hg1. pose proof (geo_sectors _ (lo_geo _ L)) as Hg2.
  assert (Hbs : 0 < bsz w <= 4096) by (unfold bsz; lia). assert (Hm : cmul u32_max 12 (block_size (state w)) = Ret (12 * bsz w)) by (apply cmul_le; unfold bsz in *; unfold u32_max; lia).
  unfold truncate, resize_blocks. rewrite (lo_ready _ L), Hfd, (proj2 (idx_Ret _ _ _) Hs). cbn [negb orb mbind outcome_mbind]. rewrite Ha, Hwr. cbn [negb].
  rewrite Hm. cbn [mbind outcome_mbind]. destruct (Z.ltb_spec (12 * bsz w) n); [lia|].
  replace (if n <? file_size slot then _ else _) with (Ret (true, direct_blocks slot, w)).
  2: { destruct (n <? file_size slot); [|done]. unfold div_ceil. fold (bsz w). destruct (Z.eqb_spec (bsz w) 0); [lia|]. cbn [mbind outcome_mbind].
       symmetry. apply free_from_holes. intros bi Hbi%elem_of_seq. apply Hh; [|lia]. pose proof (Z.div_pos (n + bsz w - 1) (bsz w)). lia. }
  cbn [mbind outcome_mbind negb]. rewrite update_size_patch.
  destruct (patch_inode_ok w (inode_no slot) 4 (u32_le n) V Hino ltac:(rewrite length_u32; lia) ltac:(apply bytes_u32)) as (w1 & -> & P). cbn [mbind outcome_mbind negb].
  pose proof (patched_kept w w1 (direct_blocks slot) (inode_no slot) 4 (u32_le n) V B Hino P ltac:(rewrite length_u32; lia)) as K. rewrite length_u32 in K.
  pose proof (sh_state _ _ _ (pa_shows _ _ _ _ _ P)) as E1. rewrite set_blocks_id.
  pose proof (kept_put_slot w1 (direct_blocks slot) (inode_no slot) (slot_of fd) (set_size slot n) (ke_ok _ _ _ _ _ K) (ke_blocks _ _ _ _ _ K)) as K2.
  eexists. split; [done|]. split; [apply K2|]. split; [|split].
  - split; cbn [inode_no file_offset file_size direct_blocks active set_size]; try done; [|apply K2|eapply inode_ok_same; [apply K2|]; by rewrite E1|unfold u32_max; lia].
    cbn. rewrite E1. apply list_lookup_insert_eq. by eapply lookup_lt_Some.
  - unfold bsz. cbn. by rewrite E1.
  - intros q. rewrite (ke_bytes _ _ _ _ _ K2). apply K.
Qed.

(** Growing does not clear: shrinking a file within its last block and growing
    it back leaves the old bytes in place of the zeros that the driver documents,
    at every position of the file. *)
Theorem truncate_keeps_the_old_bytes w fd slot n : volume_ok w -> open_file w fd slot -> writable slot = true ->
  0 <= n <= file_size slot -> file_size slot <= 12 * bsz w ->
  (forall k, (n + bsz w - 1) / bsz w <= Z.of_nat k -> (k < 12)%nat -> direct_blocks slot !! k = Some 0) ->
  exists w1 w2 slot2, truncate fd n w = Ret (0, w1) /\ truncate fd (file_size slot) w1 = Ret (0, w2) /\
    open_file w2 fd slot2 /\ file_size slot2 = file_size slot /\
    forall q, fbyte w2 (direct_blocks slot2) q = fbyte w (direct_blocks slot) q.
Proof.
  intros V O Hwr Hn Hmax Hh. destruct (truncate_size_only w fd slot n V O Hwr ltac:(lia) Hh) as (w1 & Hw1 & V1 & O1 & Hb1 & F1).
  destruct (truncate_size_only w1 fd (set_size slot n) (file_size slot) V1 O1 Hwr) as (w2 & Hw2 & V2 & O2 & Hb2 & F2).
  - rewrite Hb1. lia.
  - intros k Hk Hk12. apply Hh; [|done]. rewrite Hb1 in Hk. etrans; [|exact Hk]. pose proof (vo_layout _ V) as L.
    pose proof (geo_size _ (lo_geo _ L)). pose proof (geo_sectors _ (lo_geo _ L)). apply Z.div_le_mono; unfold bsz; lia.
  - exists w1, w2, (set_size (set_size slot n) (file_size slot)). split_and!; [done|done|done|done|]. intros q. cbn [direct_blocks set_size] in *. by rewrite F2, F1.
Qed.
End Spec.

(** ** Sessions on the sample volume *)

(** A descriptor outlives its file: after [unlink], a descriptor that is still
    open writes into the blocks the file had, which by then belong to another
    file, and that file reads back the foreign bytes. *)
Theorem removed_file_overwrites_another :
  (let! (a, w) := open (str "/ext2/a") 66 mounted in
   let! (n1, w) := write_fd a (str "AAAA") w in
   let! (a2, w) := open (str "/ext2/a") 2 w in
   let! (u, w) := unlink (str "/ext2/a") w in
   let! (b, w) := open (str "/ext2/b") 66 w in
   let! (n2, w) := write_fd b (str "BBBB") w in
   let! (n3, w) := write_fd a2 (str "XXXX") w in
   let! (b2, w) := open (str "/ext2/b") 0 w in
   let! (n4, buf, w) := read_fd b2 [0; 0; 0; 0] w in
   Ret ([a; n1; a2; u; b; n2; n3; b2; n4], buf)) = Ret ([80; 4; 81; 0; 82; 4; 4; 83; 4], str "XXXX").
Proof. vm_compute. reflexivity. Qed.

(** A directory can be moved below itself: the call succeeds, and the directory
    and its file can no longer be reached, while their inodes stay in use. *)
Theorem directory_moved_below_itself_is_lost :
  (let! (r1, w) := mkdir (str "/ext2/d") mounted in
   let! (a, w) := open (str "/ext2/d/a") 66 w in
   let! (r2, w) := rename (str "/ext2/d") (str "/ext2/d/e") w in
   let! (r3, w) := open (str "/ext2/d/a") 0 w in
   let! (n, out, w) := list_dir_raw (str "/ext2") [0; 0; 0] w in
   Ret ([r1; a; r2; r3; n], sb_free_inodes (state w))) = Ret ([0; 80; 0; -2; 0], 4).
Proof. vm_compute. reflexivity. Qed.

(** Two descriptors of one file keep their own lists of blocks: what the first
    wrote is gone when the second has written, and its block is lost. *)
Lemma second_descriptor_drops_the_first_write :
  (let! (a, w) := open (str "/ext2/a") 66 mounted in
   let! (b, w) := open (str "/ext2/a") 66 w in
   let! (n1, w) := write_fd a (str "AAAA") w in
   let! (n2, w) := write_fd b (str "B") w in
   let! (c, w) := open (str "/ext2/a") 0 w in
   let! (n3, buf, w) := read_fd c [0; 0; 0; 0] w in
   Ret ([a; b; n1; n2; c; n3], buf, sb_free_blocks (state w))) = Ret ([80; 81; 4; 1; 82; 1], [66; 0; 0; 0], 54).
Proof. vm_compute. reflexivity. Qed.

(** Removing the entry "." of a directory frees the directory but leaves its name:
    the next directory takes its inode, and both names lead to it. *)
Lemma dot_entry_removes_the_directory :
  (let! (r1, w) := mkdir (str "/ext2/x") mounted in
   let! (r2, w) := rmdir (str "/ext2/x/.") w in
   let! (r3, w) := mkdir (str "/ext2/y") w in
   let! (r4, w) := mkdir (str "/ext2/y/z") w in
   let! (n, out, w) := list_dir_raw (str "/ext2/x") [0; 0; 0; 0] w in
   Ret ([r1; r2; r3; r4; n], out)) = Ret ([0; 0; 0; 0; 3], str "z/" ++ [10; 0]).
Proof. vm_compute. reflexivity. Qed.

(** ** Witnesses *)

#[local] Opaque mounted.

(** Descriptor 80 of an empty file with inode 11, and of one with 10 bytes. *)
Definition fresh_slot (n : Z) : Ext2Fd := mkFd true 11 n 0 (replicate 12 0) true false.
Definition opened (n : Z) : Ext2 RamDisk := put_slot 0 (fresh_slot n) mounted.

Lemma opened_ok n : volume_ok (opened n).
Proof. apply volume_ok_fds, mounted_ok. Qed.

Lemma opened_file n : 0 <= n <= u32_max -> open_file (opened n) 80 (fresh_slot n).
Proof.
  intros Hn. split; [reflexivity| |reflexivity| | |cbn; unfold u32_max; lia|exact Hn].
  - unfold opened, put_slot. cbn [state set_state fds set_fds]. rewrite mounted_is. reflexivity.
  - split; [reflexivity| |]; [intros b Hb Hb0; apply elem_of_replicate in Hb as [-> _]; contradiction|].
    intros j k b Hj _ Hb0. apply lookup_replicate in Hj as [-> _]. contradiction.
  - unfold opened, put_slot, inode_ok. cbn [state set_state]. rewrite mounted_is. cbn. lia.
Qed.

Lemma opened_bsz n : bsz (opened n) = 1024.
Proof. unfold bsz, opened, put_slot. cbn [state set_state set_fds block_size]. by rewrite mounted_is. Qed.

Lemma ext2_read_returns_the_file_witness : exists w', read_fd 80 [7; 7] (opened 1) = Ret (1, [0; 7], w').
Proof.
  destruct (ext2_read_returns_the_file (opened 1) 80 (fresh_slot 1) [7; 7] (opened_ok 1) (opened_file 1 ltac:(unfold u32_max; lia))) as (w' & Hr & _).
  rewrite opened_bsz in Hr. exists w'. rewrite Hr. done.
Defined.

Lemma ext2_write_changes_the_file_witness : exists n r w' bl, write_fd 80 [1; 2; 3] (opened 0) = Ret (r, w') /\ volume_ok w' /\ (n <= 3)%nat /\ blocks_ok w' bl.
Proof.
  destruct (ext2_write_changes_the_file (opened 0) 80 (fresh_slot 0) [1; 2; 3] (opened_ok 0) (opened_file 0 ltac:(unfold u32_max; lia)) eq_refl)
    as (n & r & w' & bl & Hr & Hv & Hn & _ & _ & _ & Hb & _).
  - repeat constructor; lia.
  - done.
  - exists n, r, w', bl. auto.
Defined.

Lemma truncate_keeps_the_old_bytes_witness : exists w1 w2 slot2, truncate 80 3 (opened 10) = Ret (0, w1) /\ truncate 80 10 w1 = Ret (0, w2) /\ open_file w2 80 slot2.
Proof.
  destruct (truncate_keeps_the_old_bytes (opened 10) 80 (fresh_slot 10) 3 (opened_ok 10) (opened_file 10 ltac:(unfold u32_max; lia)) eq_refl) as (w1 & w2 & slot2 & H1 & H2 & H3 & _).
  - cbn. lia.
  - rewrite opened_bsz. cbn. lia.
  - intros k _ Hk. by apply lookup_replicate.
  - exists w1, w2, slot2. auto.
Defined.
End ext2_file_spec.
