(* ===== verification/Ext2Dir.v ===== *)
(** * The ext2 driver: directories as maps from names to inodes

    A block of a directory is a sequence of entries that fill it ([dir_at]). Module
    [ext2_dir] shows what the loops of the driver do to such a block: they find the
    first entry in use with a name, put a new entry into a deleted one or into the
    rest of one in use, and delete an entry by clearing its inode. *)

From stdpp Require Import base list gmap strings list_numbers.
From Stdlib Require Import ZArith Lia.
From S2P Require Import Prelude RamFs FdTable Mbr Ext2 Ext2Ops Ext2Block Ext2Alloc Ext2Sample Ext2Spec Ext2Inode Ext2File.

Local Open Scope Z_scope.

Module ext2_dir.
Import ext2 ext2fs ext2_block ext2_alloc ext2_spec ext2_inode ext2_file.

(** ** Entries of a block *)

Record dent := mkEnt { d_ino : Z; d_len : nat; d_name : list Z }.

(** The entry at [pos]; the name of a deleted entry does not matter. *)
Record ent_at (c : list Z) (pos : nat) (e : dent) : Prop := {
  en_ino : field c pos 4 = d_ino e;
  en_len : field c (pos + 4) 2 = Z.of_nat (d_len e);
  en_min : (8 <= d_len e)%nat;
  en_fits : (pos + d_len e <= length c)%nat;
  en_namlen : d_ino e <> 0 -> c !! (pos + 6)%nat = Some (Z.of_nat (length (d_name e)));
  en_name : d_ino e <> 0 -> take (length (d_name e)) (drop (pos + 8) c) = d_name e;
  en_room : d_ino e <> 0 -> (8 + length (d_name e) <= d_len e)%nat;
}.

Fixpoint dir_at (c : list Z) (pos : nat) (es : list dent) : Prop :=
  match es with
  | [] => pos = length c
  | e :: es' => ent_at c pos e /\ dir_at c (pos + d_len e) es'
  end.

(** The entries in use, as pairs of name and inode. *)
Definition live_ent (e : dent) : option (list Z * Z) := if decide (d_ino e = 0) then None else Some (d_name e, d_ino e).
Definition live (es : list dent) : list (list Z * Z) := omap live_ent es.

(** Where the entry in use with [name] is, from [pos] on. *)
Fixpoint find_name (name : list Z) (pos : nat) (es : list dent) : option (nat * Z) :=
  match es with
  | [] => None
  | e :: es' => if decide (d_ino e <> 0 /\ d_name e = name) then Some (pos, d_ino e) else find_name name (pos + d_len e) es'
  end.

Lemma find_name_live name es : forall pos,
  match find_name name pos es with
  | Some (_, i) => (name, i) ∈ live es /\ i <> 0
  | None => forall i, (name, i) ∉ live es
  end.
Proof.
  induction es as [|e es IH]; intros pos; cbn [find_name]; [intros i Hi; by apply not_elem_of_nil in Hi|].
  unfold live. cbn [omap list_omap]. fold (live es). unfold live_ent. destruct (decide (d_ino e <> 0 /\ d_name e = name)) as [[H1 H2]|Hno].
  - rewrite decide_False by done. split; [|done]. rewrite H2. apply elem_of_cons. by left.
  - specialize (IH (pos + d_len e)%nat). destruct (find_name name (pos + d_len e) es) as [[p i]|].
    + destruct IH as [Hin Hi0]. split; [|done]. destruct (decide (d_ino e = 0)); [done|]. apply elem_of_cons. by right.
    + intros i Hi. destruct (decide (d_ino e = 0)) as [|Hne]; [by apply IH in Hi|]. apply elem_of_cons in Hi as [[= -> ->]|Hi]; [by apply Hno|by apply IH in Hi].
Qed.

(** *** Reading an entry *)

Lemma entry_at_ok c rest pos e : Forall is_byte c -> ent_at c pos e ->
  exists nl, entry_at (c ++ rest) pos false = Ret (mkDirent pos (d_ino e) (Z.of_nat (d_len e)) nl 0) /\ c !! (pos + 6)%nat = Some nl /\ 0 <= nl < 256.
Proof.
  intros Hby []. destruct (lookup_lt_is_Some_2 c (pos + 6)) as [nl Hnl]; [lia|]. exists nl.
  unfold entry_at, scratch_u8. rewrite scratch_u32_field, scratch_u16_field by (rewrite length_app; lia). cbn [mbind outcome_mbind].
  rewrite !field_app_l by lia. rewrite (proj2 (idx_Ret _ _ nl)) by (by apply lookup_app_l_Some). cbn [mbind outcome_mbind].
  rewrite en_ino0, en_len0. split; [done|]. split; [done|]. by eapply Forall_lookup_1 in Hby.
Qed.

Lemma match_name_ok c rest pos e nl name : ent_at c pos e -> c !! (pos + 6)%nat = Some nl -> 0 <= nl < 256 -> (length name <= 255)%nat ->
  match_name name (c ++ rest) (mkDirent pos (d_ino e) (Z.of_nat (d_len e)) nl 0) tt =
    Ret (if decide (d_ino e <> 0 /\ d_name e = name) then inr (pos, d_ino e) else inl tt).
Proof.
  intros [] Hnl Hr Hlen. unfold match_name. cbn [e_ino e_namlen]. destruct (Z.eqb_spec (d_ino e) 0) as [Hz|Hz]; cbn [negb andb].
  { rewrite decide_False; [done|]. tauto. }
  specialize (en_namlen0 Hz). specialize (en_name0 Hz). specialize (en_room0 Hz). rewrite Hnl in en_namlen0. injection en_namlen0 as ->.
  destruct (Z.eqb_spec (Z.of_nat (length (d_name e))) (Z.of_nat (length name))) as [Hl|Hl].
  - unfold entry_name. cbn [e_pos e_namlen]. rewrite slice_le by (rewrite length_app; lia). cbn [mbind outcome_mbind].
    replace (pos + 8 + Z.to_nat (Z.of_nat (length (d_name e))) - (pos + 8))%nat with (length (d_name e)) by lia.
    rewrite drop_app_le, take_app_le by (rewrite ?length_drop; lia). rewrite en_name0.
    destruct (bool_decide_reflect (d_name e = name)); [by rewrite decide_True|]. rewrite decide_False; [done|]. tauto.
  - rewrite decide_False; [done|]. intros [_ He]. apply Hl. by rewrite He.
Qed.

(** *** Looking up a name in a block *)

Lemma scan_lookup c rest bs seen size name : Forall is_byte c -> Z.of_nat (length c) = bs -> seen + bs <= size -> (length name <= 255)%nat ->
  forall fuel es pos, dir_at c pos es -> (length c - pos < fuel)%nat ->
  scan_entries false (match_name name) fuel (c ++ rest) bs seen size pos tt =
    Ret (match find_name name pos es with Some r => inr r | None => inl tt end).
Proof.
  intros Hby Hbs Hsize Hname. induction fuel as [|fuel IH]; intros es pos Hd Hf; [lia|]. cbn [scan_entries].
  destruct es as [|e es]; cbn [dir_at find_name] in *.
  { subst pos. destruct (Z.ltb_spec (Z.of_nat (length c)) bs); [lia|]. done. }
  destruct Hd as [He Hd]. pose proof (en_min _ _ _ He). pose proof (en_fits _ _ _ He).
  destruct (Z.ltb_spec (Z.of_nat pos) bs); [|lia]. destruct (Z.ltb_spec (seen + Z.of_nat pos) size); [|lia]. cbn [andb].
  destruct (entry_at_ok c rest pos e Hby He) as (nl & -> & Hnl & Hr). cbn [mbind outcome_mbind e_reclen].
  destruct (Z.eqb_spec (Z.of_nat (d_len e)) 0); [lia|]. rewrite (match_name_ok c rest pos e nl name) by done. cbn [mbind outcome_mbind].
  destruct (decide (d_ino e <> 0 /\ d_name e = name)); [done|]. rewrite Nat2Z.id. apply IH; [done|lia].
Qed.

(** ** Changing a block *)

Definition agree (c c' : list Z) (a b : nat) : Prop := forall k, (a <= k < b)%nat -> c' !! k = c !! k.

Lemma agree_field c c' o n : agree c c' o (o + n) -> field c' o n = field c o n.
Proof.
  intros Ha. unfold field. f_equal. apply list_eq. intros k. destruct (decide (k < n)%nat) as [Hk|Hk]; [|by rewrite !lookup_take_ge by lia].
  rewrite !lookup_take_lt, !lookup_drop by done. apply Ha. lia.
Qed.

Lemma agree_slice c c' o n : agree c c' o (o + n) -> take n (drop o c') = take n (drop o c).
Proof.
  intros Ha. apply list_eq. intros k. destruct (decide (k < n)%nat) as [Hk|Hk]; [|by rewrite !lookup_take_ge by lia].
  rewrite !lookup_take_lt, !lookup_drop by done. apply Ha. lia.
Qed.

Lemma agree_sub c c' a b a' b' : agree c c' a b -> (a <= a')%nat -> (b' <= b)%nat -> agree c c' a' b'.
Proof. intros Ha H1 H2 k Hk. apply Ha. lia. Qed.

Lemma agree_splice c i src a b : (i + length src <= length c)%nat -> (b <= i \/ i + length src <= a)%nat -> agree c (splice c i src) a b.
Proof. intros Hi Hd k Hk. apply lookup_splice_out; lia. Qed.

Lemma agree_trans c c1 c2 a b : agree c c1 a b -> agree c1 c2 a b -> agree c c2 a b.
Proof. intros H1 H2 k Hk. by rewrite H2, H1. Qed.

Lemma ent_at_agree c c' pos e : length c' = length c -> agree c c' pos (pos + d_len e) -> ent_at c pos e -> ent_at c' pos e.
Proof.
  intros Hl Ha []. split; [| |done|lia| | |done].
  - rewrite (agree_field c c') by (eapply agree_sub; [done|lia|lia]). done.
  - rewrite (agree_field c c') by (eapply agree_sub; [done|lia|lia]). done.
  - intros Hz. rewrite Ha by lia. by apply en_namlen0.
  - intros Hz. specialize (en_room0 Hz). rewrite (agree_slice c c') by (eapply agree_sub; [done|lia|lia]). by apply en_name0.
Qed.

Lemma dir_at_fits c es : forall pos, dir_at c pos es -> (pos <= length c)%nat.
Proof. induction es as [|e es IH]; intros pos Hd; cbn in Hd; [lia|]. destruct Hd as [He _]. pose proof (en_fits _ _ _ He). pose proof (en_min _ _ _ He). lia. Qed.

Lemma dir_at_agree c c' es : length c' = length c -> forall pos, agree c c' pos (length c) -> dir_at c pos es -> dir_at c' pos es.
Proof.
  intros Hl. induction es as [|e es IH]; intros pos Ha Hd; cbn [dir_at] in *; [by rewrite Hl|]. destruct Hd as [He Hd].
  pose proof (en_fits _ _ _ He). split.
  - apply (ent_at_agree c); [done|by eapply agree_sub|done].
  - apply IH; [|done]. eapply agree_sub; [done|lia|done].
Qed.

(** *** A new entry *)

Definition ent_bytes (ino rec_len : Z) (name : list Z) (ft : Z) : list Z :=
  u32_le ino ++ u16_le rec_len ++ [wrap 8 (Z.of_nat (length name))] ++ [ft] ++ name.

Lemma length_ent_bytes ino rec_len name ft : length (ent_bytes ino rec_len name ft) = (8 + length name)%nat.
Proof. unfold ent_bytes. rewrite !length_app, length_u32, length_u16. cbn. lia. Qed.

Lemma drop_prefix {A} (l k : list A) n m : n = length l -> drop (n + m) (l ++ k) = drop m k.
Proof. intros ->. by rewrite drop_app_add. Qed.

Lemma new_ent_at c pos ino len name ft : (8 + length name <= len)%nat -> (pos + len <= length c)%nat -> (length name <= 255)%nat ->
  0 <= ino <= u32_max -> Z.of_nat len <= u16_max ->
  ent_at (splice c pos (ent_bytes ino (Z.of_nat len) name ft)) pos (mkEnt ino len name).
Proof.
  intros Hl Hp Hn Hi Hu. pose proof (length_ent_bytes ino (Z.of_nat len) name ft) as Hb. set (b := ent_bytes _ _ _ _) in *.
  assert (Hls : length (splice c pos b) = length c) by (apply length_splice; lia).
  assert (Hpart : forall o n, (o + n <= length b)%nat -> take n (drop (pos + o) (splice c pos b)) = take n (drop o b)).
  { intros o n Ho. apply list_eq. intros k. destruct (decide (k < n)%nat) as [Hk|]; [|by rewrite !lookup_take_ge by lia].
    rewrite !lookup_take_lt, !lookup_drop by done. rewrite lookup_splice_in by lia. f_equal. lia. }
  split; cbn [d_ino d_len d_name]; try lia.
  - unfold field. pose proof (Hpart 0%nat 4%nat ltac:(lia)) as H0. rewrite Nat.add_0_r in H0. rewrite H0. unfold b, ent_bytes. rewrite drop_0, take_app_length' by (by rewrite length_u32). by apply decode_u32.
  - unfold field. rewrite Hpart by lia. unfold b, ent_bytes. rewrite drop_app_length' by (by rewrite length_u32). rewrite take_app_length' by (by rewrite length_u16).
    apply decode_u16. lia.
  - intros _. rewrite lookup_splice_in by lia. replace (pos + 6 - pos)%nat with 6%nat by lia. unfold b, ent_bytes.
    rewrite lookup_app_r, length_u32 by (rewrite length_u32; lia). rewrite lookup_app_r, length_u16 by (rewrite length_u16; lia). cbn.
    unfold wrap. rewrite Z.mod_small; [done|]. lia.
  - intros _. rewrite Hpart by lia. unfold b, ent_bytes.
    rewrite (drop_prefix _ _ 4 4) by (by rewrite length_u32). rewrite (drop_prefix _ _ 2 2) by (by rewrite length_u16). cbn. apply take_ge. lia.
Qed.

Lemma align4_range n : 0 <= n -> n <= dirent_align4 n <= n + 3.
Proof.
  intros Hn. unfold dirent_align4. change 3 with (Z.ones 2) at 2 4. rewrite Z.ldiff_ones_r by lia.
  rewrite Z.shiftl_mul_pow2, Z.shiftr_div_pow2 by lia. change (2 ^ 2) with 4. pose proof (Z.div_mod (n + 3) 4 ltac:(lia)). pose proof (Z.mod_pos_bound (n + 3) 4 ltac:(lia)). lia.
Qed.

Section Dirs.
Context {D : Type} `{DL : DiskLaws D}.
Implicit Types w : Ext2 D.

(** A name as the driver takes it. *)
Definition name_ok (name : list Z) : Prop := name <> [] /\ (length name <= 255)%nat /\ Forall is_byte name.

Lemma run_entry w0 w f c pos ino rec_len name ft : shows w0 w f -> loaded w c -> (pos + 8 + length name <= bsn (state w0))%nat ->
  Forall is_byte name -> is_byte ft ->
  exists w', write_dir_entry_at pos ino rec_len name ft w = Ret w' /\ shows w0 w' f /\ loaded w' (splice c pos (ent_bytes ino rec_len name ft)).
Proof.
  intros S L Hp Hn Hft. unfold write_dir_entry_at. pose proof L as (Hg & Hl & _). rewrite (sh_state _ _ _ S) in Hl.
  destruct (run_patch w0 w _ _ pos (u32_le ino) S L) as (w1 & -> & S1 & L1); [rewrite length_u32; lia|apply bytes_u32|]. cbn [mbind outcome_mbind].
  destruct (run_patch w0 w1 _ _ (pos + 4) (u16_le rec_len) S1 L1) as (w2 & -> & S2 & L2); [rewrite length_u16; lia|apply bytes_u16|]. cbn [mbind outcome_mbind].
  destruct (run_patch w0 w2 _ _ (pos + 6) [wrap 8 (Z.of_nat (length name))] S2 L2) as (w3 & -> & S3 & L3);
    [cbn; lia|apply Forall_singleton; unfold is_byte, wrap; apply Z.mod_pos_bound; lia|]. cbn [mbind outcome_mbind].
  destruct (run_patch w0 w3 _ _ (pos + 7) [ft] S3 L3) as (w4 & -> & S4 & L4); [cbn; lia|by apply Forall_singleton|]. cbn [mbind outcome_mbind].
  destruct (run_patch w0 w4 _ _ (pos + 8) name S4 L4) as (w5 & -> & S5 & L5); [lia|done|]. exists w5. split; [done|]. split; [done|].
  unfold ent_bytes. pose proof (length_u32 ino). pose proof (length_u16 rec_len).
  rewrite <- splice_app by lia. replace (pos + length (u32_le ino))%nat with (pos + 4)%nat by lia.
  rewrite <- splice_app by (rewrite length_splice; lia). replace (pos + 4 + length (u16_le rec_len))%nat with (pos + 6)%nat by lia.
  rewrite <- splice_app by (cbn [length]; rewrite !length_splice; rewrite ?length_splice; lia). cbn [length]. replace (pos + 6 + 1)%nat with (pos + 7)%nat by lia.
  rewrite <- splice_app by (cbn [length]; rewrite !length_splice; rewrite ?length_splice; cbn [length]; rewrite ?length_splice; lia).
  cbn [length]. by replace (pos + 7 + 1)%nat with (pos + 8)%nat by lia.
Qed.

Lemma live_cons e es : live (e :: es) = (if decide (d_ino e = 0) then [] else [(d_name e, d_ino e)]) ++ live es.
Proof. unfold live. cbn [omap list_omap]. unfold live_ent. by case_decide. Qed.

(** What [insert_scan] leaves in SCRATCH when it finds room. *)
Record inserted (c c' : list Z) (pos : nat) (es : list dent) (name : list Z) (ino : Z) : Prop := {
  in_length : length c' = length c;
  in_before : agree c c' 0 pos;
  in_entries : exists es', dir_at c' pos es' /\ live es' ≡ₚ (name, ino) :: live es;
}.

Lemma inserted_later c c' pos e es name ino : ent_at c pos e -> inserted c c' (pos + d_len e) es name ino -> inserted c c' pos (e :: es) name ino.
Proof.
  intros He [Hl Hb (es' & Hd & Hp)]. split; [done|eapply agree_sub; [done|lia|lia]|]. exists (e :: es'). split.
  - cbn. split; [|done]. apply (ent_at_agree c); [done|eapply agree_sub; [done|lia|lia]|done].
  - rewrite !live_cons, Hp. by rewrite <- Permutation_middle.
Qed.

(** A deleted entry takes the new one. *)
Lemma inserted_reuse c pos e es name ino ft : ent_at c pos e -> dir_at c (pos + d_len e) es -> d_ino e = 0 -> (8 + length name <= d_len e)%nat ->
  (length name <= 255)%nat -> 1 <= ino <= u32_max -> Z.of_nat (d_len e) <= u16_max ->
  inserted c (splice c pos (ent_bytes ino (Z.of_nat (d_len e)) name ft)) pos (e :: es) name ino.
Proof.
  intros He Hd Hz Hfit Hn Hi Hu. pose proof (en_fits _ _ _ He) as Hf. pose proof (length_ent_bytes ino (Z.of_nat (d_len e)) name ft) as Hb.
  split; [apply length_splice; lia|apply agree_splice; lia|]. exists (mkEnt ino (d_len e) name :: es). split.
  - cbn [dir_at d_len]. split; [apply new_ent_at; lia|]. eapply (dir_at_agree c); [apply length_splice; lia|apply agree_splice; lia|done].
  - rewrite !live_cons. cbn [d_ino d_name]. rewrite decide_False, decide_True by lia. done.
Qed.

(** An entry in use is cut to [k] bytes and the rest takes the new one. *)
Lemma inserted_split c pos e es name ino ft k : ent_at c pos e -> dir_at c (pos + d_len e) es -> d_ino e <> 0 ->
  (8 + length (d_name e) <= k)%nat -> (k + 8 + length name <= d_len e)%nat -> (length name <= 255)%nat -> 1 <= ino <= u32_max -> Z.of_nat (d_len e) <= u16_max ->
  inserted c (splice (splice c (pos + 4) (u16_le (Z.of_nat k))) (pos + k) (ent_bytes ino (Z.of_nat (d_len e - k)) name ft)) pos (e :: es) name ino.
Proof.
  intros He Hd Hz Hk Hfit Hn Hi Hu. pose proof (en_fits _ _ _ He) as Hf. pose proof (length_ent_bytes ino (Z.of_nat (d_len e - k)) name ft) as Hb.
  pose proof (length_u16 (Z.of_nat k)) as Hl2. set (c1 := splice c (pos + 4) _). assert (Hl1 : length c1 = length c) by (apply length_splice; lia).
  set (c2 := splice c1 _ _). assert (Hlen : length c2 = length c) by (rewrite <- Hl1; apply length_splice; lia).
  assert (Hag : forall a b, (b <= pos + 4 \/ pos + 6 <= a)%nat -> (b <= pos + k \/ pos + k + 8 + length name <= a)%nat -> agree c c2 a b).
  { intros a b H1 H2. apply (agree_trans c c1 c2); apply agree_splice; lia. }
  split; [done|apply Hag; lia|]. exists (mkEnt (d_ino e) k (d_name e) :: mkEnt ino (d_len e - k) name :: es). split.
  - cbn [dir_at d_len]. split_and!.
    + destruct He. split; cbn [d_ino d_len d_name]; try lia.
      * rewrite (agree_field c) by (apply Hag; lia). done.
      * rewrite (agree_field c1) by (apply agree_splice; lia). unfold field, c1. pose proof (slice_splice_same c (u16_le (Z.of_nat k)) (pos + 4)) as Hx. rewrite Hl2 in Hx.
        rewrite Hx by lia. apply decode_u16. lia.
      * intros _. rewrite (Hag (pos + 6)%nat (pos + 7)%nat) by lia. by apply en_namlen0.
      * intros _. rewrite (agree_slice c) by (apply Hag; lia). by apply en_name0.
    + apply new_ent_at; lia.
    + replace (pos + k + (d_len e - k))%nat with (pos + d_len e)%nat by lia. apply (dir_at_agree c); [done|apply Hag; lia|done].
  - rewrite !live_cons. cbn [d_ino d_name]. rewrite !decide_False by lia. cbn [app]. apply Permutation_swap.
Qed.

Lemma insert_scan_ok w0 name ino ft : name_ok name -> 1 <= ino <= u32_max -> is_byte ft ->
  forall fuel es pos w f c, shows w0 w f -> loaded w c -> dir_at c pos es -> (length c - pos < fuel)%nat ->
  exists r w', insert_scan fuel name ino ft (dirent_align4 (8 + Z.of_nat (length name))) pos w = Ret (r, w') /\ shows w0 w' f /\
    if r : bool then exists c', loaded w' c' /\ inserted c c' pos es name ino else loaded w' c.
Proof.
  intros (_ & Hn & Hnb) Hi Hft. pose proof (align4_range (8 + Z.of_nat (length name)) ltac:(lia)) as Hneed. set (needed := dirent_align4 _) in *.
  induction fuel as [|fuel IH]; intros es pos w f c S L Hd Hf; [lia|]. cbn [insert_scan].
  pose proof L as (Hg & Hl & Hby & rest & Hs & _). pose proof (sh_state _ _ _ S) as E.
  assert (Hbs : block_size (state w) = Z.of_nat (length c)) by (rewrite Hl; pose proof (geo_size _ Hg); pose proof (geo_sectors _ Hg); unfold bsn; lia).
  assert (Hmax : (length c <= 4096)%nat) by (rewrite Hl; by apply bsn_le).
  rewrite Hbs. destruct es as [|e es]; cbn [dir_at] in Hd.
  { subst pos. destruct (Z.ltb_spec (Z.of_nat (length c)) (Z.of_nat (length c))); [lia|]. exists false, w. done. }
  destruct Hd as [He Hd]. pose proof (en_min _ _ _ He) as Hmin. pose proof (en_fits _ _ _ He) as Hfit.
  destruct (Z.ltb_spec (Z.of_nat pos) (Z.of_nat (length c))); [|lia].
  destruct (entry_at_ok c rest pos e Hby He) as (nl & Hent & Hnl & Hr). rewrite Hs, Hent. cbn [mbind outcome_mbind e_reclen e_ino e_namlen].
  destruct (Z.eqb_spec (Z.of_nat (d_len e)) 0); [lia|]. destruct (Z.ltb_spec (Z.of_nat (length c)) (Z.of_nat pos + Z.of_nat (d_len e))); [lia|]. cbn [orb].
  assert (Hu : Z.of_nat (d_len e) <= u16_max) by (unfold u16_max; lia). assert (Hbn : bsn (state w0) = length c) by (by rewrite Hl, E).
  assert (Hnext : exists r w', insert_scan fuel name ino ft needed (pos + Z.to_nat (Z.of_nat (d_len e))) w = Ret (r, w') /\ shows w0 w' f /\
    if r : bool then exists c', loaded w' c' /\ inserted c c' pos (e :: es) name ino else loaded w' c).
  { rewrite Nat2Z.id. destruct (IH es (pos + d_len e)%nat w f c S L Hd ltac:(lia)) as (r & w' & Hr' & S' & H'). exists r, w'. split; [done|]. split; [done|].
    destruct r; [|done]. destruct H' as (c' & L' & I'). exists c'. split; [done|]. by apply inserted_later. }
  destruct (Z.eqb_spec (d_ino e) 0) as [Hz|Hz]; cbn [negb andb].
  - destruct (Z.leb_spec needed (Z.of_nat (d_len e))) as [Hle|]; [|exact Hnext].
    destruct (run_entry w0 w f c pos ino (Z.of_nat (d_len e)) name ft S L ltac:(lia) Hnb Hft) as (w' & -> & S' & L'). cbn [mbind outcome_mbind].
    exists true, w'. split; [done|]. split; [done|]. eexists. split; [done|]. apply inserted_reuse; try done; lia.
  - pose proof (en_namlen _ _ _ He Hz) as Hnl'. rewrite Hnl in Hnl'. injection Hnl' as ->. pose proof (en_room _ _ _ He Hz) as Hroom.
    pose proof (align4_range (8 + Z.of_nat (length (d_name e))) ltac:(lia)) as Hid. set (ideal := dirent_align4 (8 + Z.of_nat (length (d_name e)))) in *.
    destruct (Z.leb_spec (ideal + needed) (Z.of_nat (d_len e))) as [Hle|]; [|exact Hnext].
    destruct (run_patch w0 w f c (pos + 4) (u16_le ideal) S L) as (w1 & -> & S1 & L1); [rewrite length_u16; lia|apply bytes_u16|]. cbn [mbind outcome_mbind].
    destruct (run_entry w0 w1 f _ (pos + Z.to_nat ideal) ino (Z.of_nat (d_len e) - ideal) name ft S1 L1 ltac:(lia) Hnb Hft) as (w' & -> & S' & L'). cbn [mbind outcome_mbind].
    exists true, w'. split; [done|]. split; [done|]. eexists. split; [done|].
    replace (u16_le ideal) with (u16_le (Z.of_nat (Z.to_nat ideal))) by (f_equal; lia).
    replace (Z.of_nat (d_len e) - ideal) with (Z.of_nat (d_len e - Z.to_nat ideal)) by lia. apply inserted_split; try done; lia.
Qed.

(** *** Deleting an entry *)

Lemma find_name_range name c : forall es p pos i, dir_at c p es -> find_name name p es = Some (pos, i) -> (p <= pos)%nat /\ (pos + 8 <= length c)%nat.
Proof.
  induction es as [|e es IH]; intros p pos i Hd Hf; cbn in Hd, Hf; [done|]. destruct Hd as [He Hd]. pose proof (en_min _ _ _ He). pose proof (en_fits _ _ _ He).
  destruct (decide _) as [_|_]; [injection Hf as <- <-; lia|]. destruct (IH _ _ _ Hd Hf). lia.
Qed.

Lemma deleted_entry name c : forall es p pos i, dir_at c p es -> find_name name p es = Some (pos, i) ->
  exists es', dir_at (splice c pos [0; 0; 0; 0]) p es' /\ live es ≡ₚ (name, i) :: live es'.
Proof.
  induction es as [|e es IH]; intros p pos i Hd Hf; [done|]. pose proof (find_name_range _ _ _ _ _ _ Hd Hf) as [Hr1 Hr2].
  cbn [dir_at find_name] in Hd, Hf. destruct Hd as [He Hd]. pose proof (en_min _ _ _ He). pose proof (en_fits _ _ _ He).
  assert (Hl : length (splice c pos [0; 0; 0; 0]) = length c) by (apply length_splice; cbn; lia).
  destruct (decide (d_ino e <> 0 /\ d_name e = name)) as [[Hz Hnm]|Hno].
  - injection Hf as <- <-. exists (mkEnt 0 (d_len e) (d_name e) :: es). split.
    + cbn [dir_at d_len]. split.
      * destruct He. split; cbn [d_ino d_len d_name]; try done; try lia.
        -- unfold field. pose proof (slice_splice_same c [0; 0; 0; 0] p ltac:(cbn; lia)) as Hx. cbn [length] in Hx. by rewrite Hx.
        -- rewrite (agree_field c) by (apply agree_splice; cbn; lia). done.
      * apply (dir_at_agree c); [done|apply agree_splice; cbn; lia|done].
    + rewrite !live_cons. cbn [d_ino]. rewrite decide_False, decide_True by done. by rewrite Hnm.
  - destruct (IH _ _ _ Hd Hf) as (es' & Hd' & Hp'). pose proof (find_name_range _ _ _ _ _ _ Hd Hf) as [Hr _]. exists (e :: es'). split.
    + cbn [dir_at]. split; [|done]. apply (ent_at_agree c); [done|apply agree_splice; cbn; lia|done].
    + rewrite !live_cons, Hp'. by rewrite <- Permutation_middle.
Qed.
End Dirs.
End ext2_dir.
