(* ===== verification/Ext2DirSpec.v ===== *)
(** * The ext2 driver: a directory refines a finite map

    A directory of a consistent volume stands for the map from its names to
    inodes ([dir_ok]). Looking up, inserting and deleting names are lookup, insert
    and delete of that map; insertion fails only when the directory has twelve
    blocks or the volume is full. Blocks of other files and other inodes keep their
    contents. *)

From stdpp Require Import base list gmap strings list_numbers.
From Stdlib Require Import ZArith Lia.
From S2P Require Import Prelude RamFs FdTable Mbr Ext2 Ext2Ops Ext2Block Ext2Alloc Ext2Sample Ext2Spec Ext2Inode Ext2File Ext2Dir.

Local Open Scope Z_scope.

Module ext2_dir_spec.
Import ext2 ext2fs ext2_block ext2_alloc ext2_sample ext2_spec ext2_inode ext2_file ext2_dir.

Section Dirs.
Context {D : Type} `{DL : DiskLaws D}.
Implicit Types w : Ext2 D.

(** The blocks [bl] of a directory and their entries [ess]. *)
Record dir_layout w (dir : Z) (bl : list Z) (ess : list (list dent)) : Prop := {
  dl_inode : inode_ok (state w) dir;
  dl_mode : Z.land (imode w dir) 0xF000 = S_IFDIR;
  dl_count : (length bl <= 12)%nat;
  dl_ptrs : forall k b, bl !! k = Some b -> iptr w dir k = b;
  dl_rest : forall k, (length bl <= k < 12)%nat -> iptr w dir k = 0;
  dl_size : isize w dir = Z.of_nat (length bl) * bsz w;
  dl_data : forall b, b ∈ bl -> data_block w b;
  dl_nodup : NoDup bl;
  dl_entries : Forall2 (fun b es => dir_at (blk w b) 0 es) bl ess;
  dl_names : NoDup (fst <$> live (mjoin ess));
}.

Definition stands_for (ess : list (list dent)) (m : gmap (list Z) Z) : Prop :=
  forall name i, m !! name = Some i <-> (name, i) ∈ live (mjoin ess).

(** Directory [dir] holds the names [m]. *)
Definition dir_ok w (dir : Z) (m : gmap (list Z) Z) : Prop := exists bl ess, dir_layout w dir bl ess /\ stands_for ess m.

Lemma live_app es es' : live (es ++ es') = live es ++ live es'.
Proof. apply omap_app. Qed.

Lemma live_join (ess : list (list dent)) : live (mjoin ess) = mjoin (live <$> ess).
Proof. induction ess as [|es ess IH]; [done|]. change (mjoin (es :: ess)) with (es ++ mjoin ess). rewrite live_app, IH. done. Qed.

Lemma dir_pointers w dir bl ess : dir_layout w dir bl ess -> take 12 (block (inode_of w dir)) = bl ++ replicate (12 - length bl) 0.
Proof.
  intros [_ _ Hc Hp Hr _ _ _ _ _]. unfold inode_of. cbn [block]. rewrite <- fmap_take. change (take 12 (seq 0 15)) with (seq 0 12).
  apply list_eq. intros k. rewrite list_lookup_fmap. destruct (decide (k < 12)%nat) as [Hk|Hk].
  - rewrite lookup_seq_lt by done. cbn [fmap option_fmap option_map]. destruct (decide (k < length bl)%nat) as [Hb|Hb].
    + destruct (lookup_lt_is_Some_2 bl k Hb) as [b Hbk]. rewrite lookup_app_l by done. rewrite Hbk. f_equal. by apply Hp.
    + rewrite lookup_app_r, lookup_replicate_2 by lia. f_equal. apply Hr. lia.
  - rewrite lookup_seq_ge by lia. symmetry. apply lookup_ge_None_2. rewrite length_app, length_replicate. lia.
Qed.

Lemma dir_is_dir w dir bl ess : dir_layout w dir bl ess -> is_dir (inode_of w dir) = true.
Proof. intros L. unfold is_dir, inode_of. cbn [mode]. rewrite (dl_mode _ _ _ _ L). done. Qed.

(** ** Looking up *)

(** The first entry in use with [name]: its block, its place and its inode. *)
Fixpoint find_dir (name : list Z) (bl : list Z) (ess : list (list dent)) : option (Z * (nat * Z)) :=
  match bl, ess with
  | b :: bl', es :: ess' => match find_name name 0 es with Some r => Some (b, r) | None => find_dir name bl' ess' end
  | _, _ => None
  end.

Lemma find_dir_live name bl ess : length bl = length ess ->
  match find_dir name bl ess with
  | Some (_, (_, i)) => (name, i) ∈ live (mjoin ess) /\ i <> 0
  | None => forall i, (name, i) ∉ live (mjoin ess)
  end.
Proof.
  revert ess. induction bl as [|b bl IH]; intros [|es ess] Hl; try done; [intros i Hi; by apply not_elem_of_nil in Hi|].
  cbn [find_dir]. change (mjoin (es :: ess)) with (es ++ mjoin ess). rewrite live_app. pose proof (find_name_live name es 0) as Hf.
  destruct (find_name name 0 es) as [[p i]|]; [destruct Hf; split; [apply elem_of_app; by left|done]|].
  specialize (IH ess ltac:(by injection Hl)). destruct (find_dir name bl ess) as [[b' [p i]]|]; [destruct IH; split; [apply elem_of_app; by right|done]|].
  intros i Hi. apply elem_of_app in Hi as [Hi|Hi]; [by apply Hf in Hi|by apply IH in Hi].
Qed.

Lemma walk_lookup name size zs : (length name <= 255)%nat -> Forall (fun z => z = 0) zs -> forall bl ess seen w, io_ok w ->
  (forall b, b ∈ bl -> b <> 0 /\ addressable (state w) b) -> Forall2 (fun b es => dir_at (blk w b) 0 es) bl ess ->
  seen + Z.of_nat (length bl) * bsz w <= size ->
  exists w', walk_blocks false (match_name name) size (bl ++ zs) seen tt w =
    Ret (match find_dir name bl ess with Some (b, r) => Stopped b r | None => Ended tt end, w') /\ same_disk w w' /\
    match find_dir name bl ess with Some (b, r) => loaded w' (blk w b) | None => True end.
Proof.
  intros Hn Hz. induction bl as [|b bl IH]; intros [|es ess] seen w Hio Hb Hd Hs; inversion Hd as [|? ? ? ? Hd1 Hd2]; subst.
  - exists w. cbn [app find_dir]. split; [|split; [by apply same_disk_refl|done]]. destruct zs as [|z zs]; [done|]. cbn [walk_blocks].
    apply Forall_cons in Hz as [-> _]. done.
  - cbn [app walk_blocks find_dir length] in *. destruct (Hb b ltac:(set_solver)) as [Hb0 Ha]. pose proof (io_geo _ Hio) as Hg.
    assert (Hbs : 0 < bsz w) by (pose proof (geo_size _ Hg); pose proof (geo_sectors _ Hg); unfold bsz; lia).
    destruct (Z.eqb_spec b 0); [done|]. destruct (Z.leb_spec size seen); [nia|]. cbn [orb].
    destruct (run_read w w _ b (shows_refl w) Hio Ha) as (w1 & -> & S1 & L1). cbn [mbind outcome_mbind negb].
    pose proof (loaded_io _ _ L1) as Hio1. pose proof (sh_state _ _ _ S1) as E1. pose proof L1 as (_ & Hl & Hby & rest & Hsc & _). rewrite E1 in Hl.
    assert (Hbl : Z.of_nat (length (blk w b)) = block_size (state w1)) by (rewrite Hl, E1; unfold bsn, bsz in *; lia).
    rewrite Hsc. rewrite (scan_lookup (blk w b) rest (block_size (state w1)) seen size name Hby Hbl) with (es := es); [|rewrite E1; fold (bsz w); nia|done|done|lia].
    cbn [mbind outcome_mbind]. assert (SD1 : same_disk w w1) by (by split). destruct (find_name name 0 es) as [r|] eqn:Hf.
    + exists w1. split; [done|]. split; [done|]. done.
    + rewrite E1. fold (bsz w). destruct (IH ess (seen + bsz w) w1 Hio1) as (w2 & Hw2 & SD2 & Hl2).
      { intros b' Hb'. rewrite E1. apply Hb. set_solver. }
      { eapply Forall2_impl; [exact Hd2|]. intros b' es' Hx. cbn beta in *. by rewrite (sh_blk _ _ _ S1). }
      { unfold bsz in *. rewrite E1. lia. }
      exists w2. split; [done|]. split.
      * destruct SD2 as [Hio2 S2]. split; [done|]. eapply shows_ext; [by eapply shows_trans|]. apply S1.
      * destruct (find_dir name bl ess) as [[b' r]|]; [|done]. by rewrite (sh_blk _ _ _ S1) in Hl2.
Qed.

Lemma dir_blocks_ready w dir bl ess : volume_ok w -> dir_layout w dir bl ess -> forall b, b ∈ bl -> b <> 0 /\ addressable (state w) b.
Proof.
  intros V L b Hb. pose proof (dl_data _ _ _ _ L b Hb) as Hd. split; [by eapply data_nonzero|]. apply in_volume_addressable; [apply V|apply Hd].
Qed.

(** Reading the inode and walking its blocks, as all calls on directories begin. *)
Lemma walk_dir_ok w dir bl ess name : volume_ok w -> dir_layout w dir bl ess -> (length name <= 255)%nat ->
  exists w1 w2, read_inode dir w = Ret (Some (inode_of w dir), w1) /\ same_disk w w1 /\
    walk_dir false (match_name name) (inode_of w dir) tt w1 = Ret (match find_dir name bl ess with Some (b, r) => Stopped b r | None => Ended tt end, w2) /\
    same_disk w w2 /\ match find_dir name bl ess with Some (b, r) => loaded w2 (blk w b) | None => True end.
Proof.
  intros V L Hn. destruct (read_inode_ok w dir V (dl_inode _ _ _ _ L)) as (w1 & Hr & SD1). pose proof SD1 as [Hio1 S1]. pose proof (sh_state _ _ _ S1) as E1.
  exists w1. unfold walk_dir. rewrite (dir_pointers _ _ _ _ L). cbn [size_lo inode_of].
  destruct (walk_lookup name (isize w dir) (replicate (12 - length bl) 0) Hn ltac:(by apply Forall_replicate) bl ess 0 w1 Hio1) as (w2 & Hw & SD2 & Hl2).
  - intros b Hb. rewrite E1. by eapply dir_blocks_ready.
  - eapply Forall2_impl; [apply L|]. intros b es Hx. cbn beta in *. by rewrite (sh_blk _ _ _ S1).
  - rewrite (dl_size _ _ _ _ L). unfold bsz. rewrite E1. lia.
  - exists w2. split; [done|]. split; [done|]. split; [done|]. split.
    + destruct SD2 as [Hio2 S2]. split; [done|]. eapply shows_ext; [by eapply shows_trans|]. apply S1.
    + destruct (find_dir name bl ess) as [[b r]|]; [|done]. by rewrite (sh_blk _ _ _ S1) in Hl2.
Qed.

Lemma dir_lookup_ok w dir m name : volume_ok w -> dir_ok w dir m -> (length name <= 255)%nat ->
  exists w', dir_lookup dir name w = Ret (default 0 (m !! name), w') /\ same_disk w w'.
Proof.
  intros V (bl & ess & L & Hm) Hn. destruct (walk_dir_ok w dir bl ess name V L Hn) as (w1 & w2 & Hr & SD1 & Hw & SD2 & _).
  unfold dir_lookup. rewrite Hr. cbn [mbind outcome_mbind]. rewrite (dir_is_dir _ _ _ _ L). cbn [negb]. rewrite Hw. cbn [mbind outcome_mbind].
  exists w2. split; [|done]. pose proof (find_dir_live name bl ess (Forall2_length _ _ _ (dl_entries _ _ _ _ L))) as Hf.
  destruct (find_dir name bl ess) as [[b [p i]]|].
  - destruct Hf as [Hf _]. apply Hm in Hf. by rewrite Hf.
  - destruct (m !! name) as [i|] eqn:E; [|done]. apply Hm in E. by apply Hf in E.
Qed.

(** ** Changes *)

(** What a change of directory [dir] with blocks [bl] leaves alone. *)
Record dir_frame w w' (dir : Z) (bl : list Z) : Prop := {
  df_ok : volume_ok w';
  df_layout : same_layout (state w) (state w');
  df_fds : fds (state w') = fds (state w);
  df_used : forall b, in_volume (state w) b -> used w b = true -> used w' b = true;
  df_data : forall b, data_block w b -> b ∉ bl -> blk w' b = blk w b;
  df_inodes : forall i o n, inode_ok (state w) i -> i <> dir -> (o + n <= 128)%nat -> ifield w' i o n = ifield w i o n;
}.

Lemma dir_frame_refl w w' dir bl : volume_ok w -> same_disk w w' -> dir_frame w w' dir bl.
Proof.
  intros V SD. pose proof (volume_ok_same_disk w w' V SD) as V'. pose proof (fun b => same_disk_used w w' b SD) as Hu. destruct SD as [_ S].
  pose proof (sh_state _ _ _ S) as E. split; [done|by rewrite E|by rewrite E|intros b _ ?; by rewrite Hu|intros b _ _; apply S|].
  intros i o n _ _ _. unfold ifield. by rewrite E, (sh_blk _ _ _ S).
Qed.

Lemma dir_frame_trans w w1 w2 dir bl : dir_frame w w1 dir bl -> dir_frame w1 w2 dir bl -> dir_frame w w2 dir bl.
Proof.
  intros [] []. split; [done|by etrans|congruence|..].
  - intros b Hb Hu. apply df_used1; [by eapply in_volume_same|]. by apply df_used0.
  - intros b (H1 & H2 & H3) Hnb. rewrite df_data1; [by apply df_data0| |done].
    split_and!; [by eapply in_volume_same|by apply df_used0|by rewrite (meta_same _ _ df_layout0)].
  - intros i o n Hi Hne Hn. rewrite df_inodes1; [by apply df_inodes0|by eapply inode_ok_same|done|done].
Qed.

Lemma dir_layout_same_disk w w' dir bl ess : dir_layout w dir bl ess -> same_disk w w' -> dir_layout w' dir bl ess.
Proof.
  intros [] SD. pose proof (fun b => same_disk_used w w' b SD) as Hu. destruct SD as [_ S]. pose proof (sh_state _ _ _ S) as E.
  assert (Hif : forall i o n, ifield w' i o n = ifield w i o n) by (intros; unfold ifield; by rewrite E, (sh_blk _ _ _ S)).
  assert (Hbz : bsz w' = bsz w) by (unfold bsz; by rewrite E).
  split; try done.
  - by rewrite E.
  - unfold imode. by rewrite Hif.
  - intros k b Hk. unfold iptr. rewrite Hif. by apply dl_ptrs0.
  - intros k Hk. unfold iptr. rewrite Hif. by apply dl_rest0.
  - unfold isize. by rewrite Hif, Hbz.
  - intros b Hb. unfold data_block. rewrite E, Hu. by apply dl_data0.
  - eapply Forall2_impl; [done|]. intros b es Hd. cbn beta in *. by rewrite (sh_blk _ _ _ S).
Qed.

Lemma live_insert (ess : list (list dent)) j es es' : ess !! j = Some es ->
  live (mjoin (<[j := es']> ess)) ++ live es ≡ₚ live (mjoin ess) ++ live es'.
Proof.
  revert j. induction ess as [|e0 ess IH]; intros [|j] Hj; cbn in Hj; simplify_eq.
  - change (mjoin (<[0%nat := es']> (es :: ess))) with (es' ++ mjoin ess). change (mjoin (es :: ess)) with (es ++ mjoin ess). rewrite !live_app.
    rewrite <- !app_assoc, (Permutation_app_comm (live es')), (Permutation_app_comm (live (mjoin ess)) (live es)), <- app_assoc. done.
  - change (mjoin (<[S j := es']> (e0 :: ess))) with (e0 ++ mjoin (<[j := es']> ess)). change (mjoin (e0 :: ess)) with (e0 ++ mjoin ess).
    rewrite !live_app, <- !app_assoc. by apply Permutation_app_head, IH.
Qed.

(** One block of the directory has new entries. *)
Lemma dir_block_changed w w' dir bl ess j b es es' c : volume_ok w -> dir_layout w dir bl ess -> bl !! j = Some b -> ess !! j = Some es ->
  shows w w' (upd (blk w) b c) -> io_ok w' -> dir_at c 0 es' -> NoDup (fst <$> live (mjoin (<[j := es']> ess))) ->
  dir_layout w' dir bl (<[j := es']> ess) /\ dir_frame w w' dir bl.
Proof.
  intros V L Hj He S Hio Hd Hnd. assert (Hb : b ∈ bl) by (by eapply list_elem_of_lookup_2). destruct (dl_data _ _ _ _ L b Hb) as (Hin & Hu & Hm).
  pose proof (sh_state _ _ _ S) as E. pose proof (vo_layout _ V) as LV.
  assert (Hc : forall m, m ∈ meta (state w) -> blk w' m = blk w m) by (intros m Hmm; rewrite (sh_blk _ _ _ S), upd_ne; [done|by intros ->]).
  assert (V' : volume_ok w') by (apply (volume_ok_control w); [done|done|done|]; intros m Hcm; by apply Hc, control_meta).
  assert (Hu' : forall b', in_volume (state w) b' -> used w' b' = used w b') by (intros; apply used_ext; try done; intros m Hcm; by apply Hc, control_meta).
  assert (Hif : forall i o n, inode_ok (state w) i -> ifield w' i o n = ifield w i o n).
  { intros i o n Hi. unfold ifield. rewrite E, Hc; [done|]. by apply iblock_meta. }
  assert (Hbz : bsz w' = bsz w) by (unfold bsz; by rewrite E).
  split.
  - destruct L. split; try done.
    + by rewrite E.
    + unfold imode. by rewrite Hif.
    + intros k b' Hk. unfold iptr. rewrite Hif by done. by apply dl_ptrs0.
    + intros k Hk. unfold iptr. rewrite Hif by done. by apply dl_rest0.
    + unfold isize. by rewrite Hif, Hbz.
    + intros b' Hb'. destruct (dl_data0 b' Hb') as (H1 & H2 & H3). unfold data_block. by rewrite E, Hu'.
    + apply Forall2_same_length_lookup_2; [rewrite length_insert; by eapply Forall2_length|]. intros k b' es0 Hk Hes. rewrite (sh_blk _ _ _ S).
      destruct (decide (k = j)) as [->|Hne].
      * rewrite list_lookup_insert_eq in Hes by (by eapply lookup_lt_Some). simplify_eq. by rewrite upd_eq.
      * rewrite list_lookup_insert_ne in Hes by done. rewrite upd_ne; [by eapply (Forall2_lookup_lr _ _ _ k) in dl_entries0|].
        intros ->. apply Hne. exact (NoDup_lookup bl k j b dl_nodup0 Hk Hj).
  - split; [done|by rewrite E|by rewrite E|intros; by rewrite Hu'| |].
    + intros b' _ Hnb. rewrite (sh_blk _ _ _ S), upd_ne; [done|]. by intros ->.
    + intros i o n Hi _ _. by apply Hif.
Qed.

Lemma find_dir_at name : forall bl ess b r, find_dir name bl ess = Some (b, r) ->
  exists j es, bl !! j = Some b /\ ess !! j = Some es /\ find_name name 0 es = Some r.
Proof.
  induction bl as [|b0 bl IH]; intros [|es0 ess] b r Hf; try done. cbn [find_dir] in Hf. destruct (find_name name 0 es0) as [r0|] eqn:E.
  - injection Hf as -> ->. exists 0%nat, es0. done.
  - destruct (IH ess b r Hf) as (j & es & H1 & H2 & H3). exists (S j), es. done.
Qed.

Lemma stands_for_perm ess ess' m name i : stands_for ess m -> NoDup (fst <$> live (mjoin ess)) -> live (mjoin ess) ≡ₚ (name, i) :: live (mjoin ess') ->
  stands_for ess' (delete name m) /\ NoDup (fst <$> live (mjoin ess')).
Proof.
  intros Hm Hnd Hp. rewrite Hp in Hnd. cbn [fmap list_fmap] in Hnd. apply NoDup_cons in Hnd as [Hni Hnd]. split; [|done].
  intros nm j. rewrite lookup_delete_Some, (Hm nm j), Hp, elem_of_cons. split.
  - intros [Hne [[= -> ->]|?]]; [done|done].
  - intros Hin. split; [|by right]. intros <-. apply Hni. apply list_elem_of_fmap. eexists (_, j). done.
Qed.

Lemma dir_delete_entry_ok w dir m name : volume_ok w -> dir_ok w dir m -> (length name <= 255)%nat ->
  exists w' bl, dir_delete_entry dir name w = Ret (bool_decide (is_Some (m !! name)), w') /\ dir_ok w' dir (delete name m) /\ dir_frame w w' dir bl /\
    (exists ess, dir_layout w dir bl ess).
Proof.
  intros V (bl & ess & L & Hm) Hn. destruct (walk_dir_ok w dir bl ess name V L Hn) as (w1 & w2 & Hr & SD1 & Hw & SD2 & Hl2).
  unfold dir_delete_entry. rewrite Hr. cbn [mbind outcome_mbind]. rewrite (dir_is_dir _ _ _ _ L). cbn [negb]. rewrite Hw. cbn [mbind outcome_mbind].
  pose proof (find_dir_live name bl ess (Forall2_length _ _ _ (dl_entries _ _ _ _ L))) as Hf.
  destruct (find_dir name bl ess) as [[b [p i]]|] eqn:Efd.
  - destruct Hf as [Hf Hi0]. apply Hm in Hf. rewrite bool_decide_eq_true_2 by (by rewrite Hf).
    destruct (find_dir_at _ _ _ _ _ Efd) as (j & es & Hj & He & Hfn). pose proof SD2 as [Hio2 S2].
    assert (Hd : dir_at (blk w b) 0 es) by (pose proof (dl_entries _ _ _ _ L) as HF; by eapply (Forall2_lookup_lr _ _ _ j) in HF).
    destruct (find_name_range _ _ _ _ _ _ Hd Hfn) as [_ Hp8]. destruct (deleted_entry _ _ _ _ _ _ Hd Hfn) as (es' & Hd' & Hperm).
    assert (Hlen : length (blk w b) = bsn (state w)) by (apply length_blk_of, (vo_io _ V)).
    destruct (run_patch w w2 _ _ p [0; 0; 0; 0] S2 Hl2) as (w3 & -> & S3 & L3); [cbn; lia|by repeat constructor|]. cbn [mbind outcome_mbind].
    destruct (run_write w w3 _ _ b S3 L3) as (w4 & -> & S4 & L4); [eapply dir_blocks_ready; [done|done|by eapply list_elem_of_lookup_2]|].
    assert (Hp : live (mjoin ess) ≡ₚ (name, i) :: live (mjoin (<[j := es']> ess))).
    { pose proof (live_insert ess j es es' He) as Hli. rewrite Hperm in Hli. rewrite <- Permutation_middle in Hli.
      change ((name, i) :: live (mjoin (<[j:=es']> ess)) ++ live es') with (((name, i) :: live (mjoin (<[j:=es']> ess))) ++ live es') in Hli.
      symmetry. by apply Permutation_app_inv_r in Hli. }
    destruct (stands_for_perm ess (<[j := es']> ess) m name i Hm (dl_names _ _ _ _ L) Hp) as [Hm' Hnd'].
    destruct (dir_block_changed w w4 dir bl ess j b es es' _ V L Hj He S4 (loaded_io _ _ L4) Hd' Hnd') as [L' F'].
    exists w4, bl. split; [done|]. split; [by exists bl, (<[j := es']> ess)|]. split; [done|by exists ess].
  - assert (Hnone : m !! name = None) by (destruct (m !! name) as [i|] eqn:E; [|done]; apply Hm in E; by apply Hf in E).
    rewrite bool_decide_eq_false_2 by (rewrite Hnone; by intros [? ?]). exists w2, bl. split; [done|]. rewrite delete_id by done.
    split; [exists bl, ess; split; [by eapply dir_layout_same_disk|done]|]. split; [by apply dir_frame_refl|by exists ess].
Qed.

(** ** Inserting *)

Lemma insert_blocks_ok name ino ft size zs : name_ok name -> 1 <= ino <= u32_max -> is_byte ft -> Forall (fun z => z = 0) zs ->
  forall bl ess seen w, io_ok w -> (forall b, b ∈ bl -> b <> 0 /\ addressable (state w) b) ->
  Forall2 (fun b es => dir_at (blk w b) 0 es) bl ess -> seen + Z.of_nat (length bl) * bsz w <= size ->
  exists r w', insert_blocks name ino ft (dirent_align4 (8 + Z.of_nat (length name))) size (bl ++ zs) seen w = Ret (r, w') /\ io_ok w' /\
    match r with
    | None => shows w w' (blk w)
    | Some ok => ok = true /\ exists j b es c, bl !! j = Some b /\ ess !! j = Some es /\ inserted (blk w b) c 0 es name ino /\ shows w w' (upd (blk w) b c)
    end.
Proof.
  intros Hn Hi Hft Hz. induction bl as [|b bl IH]; intros [|es ess] seen w Hio Hb Hd Hs; inversion Hd as [|? ? ? ? Hd1 Hd2]; subst.
  - exists None, w. cbn [app]. split; [|split; [done|apply shows_refl]]. destruct zs as [|z zs]; [done|]. cbn [insert_blocks].
    apply Forall_cons in Hz as [-> _]. done.
  - cbn [app insert_blocks length] in *. destruct (Hb b ltac:(set_solver)) as [Hb0 Ha]. pose proof (io_geo _ Hio) as Hg.
    assert (Hbs : 0 < bsz w) by (pose proof (geo_size _ Hg); pose proof (geo_sectors _ Hg); unfold bsz; lia).
    destruct (Z.eqb_spec b 0); [done|]. destruct (Z.leb_spec size seen); [nia|]. cbn [orb].
    destruct (run_read w w _ b (shows_refl w) Hio Ha) as (w1 & -> & S1 & L1). cbn [mbind outcome_mbind negb].
    assert (Hlen : length (blk w b) = bsn (state w)) by (by apply length_blk_of).
    destruct (insert_scan_ok w name ino ft Hn Hi Hft (S (Z.to_nat (block_size (state w1)))) es 0 w1 (blk w) (blk w b) S1 L1 Hd1) as (r & w2 & -> & S2 & Hr);
      [rewrite Hlen, (sh_state _ _ _ S1); unfold bsn; lia|]. cbn [mbind outcome_mbind].
    destruct r.
    + destruct Hr as (c & L2 & I2). destruct (run_write w w2 _ _ b S2 L2 Ha) as (w3 & -> & S3 & L3). cbn [mbind outcome_mbind].
      exists (Some true), w3. split; [done|]. split; [by eapply loaded_io|]. split; [done|]. exists 0%nat, b, es, c. done.
    + pose proof (loaded_io _ _ Hr) as Hio2. pose proof (sh_state _ _ _ S1) as E1. pose proof (sh_state _ _ _ S2) as E2.
      destruct (IH ess (seen + block_size (state w1)) w2 Hio2) as (r & w3 & Hw3 & Hio3 & H3).
      { intros b' Hb'. rewrite E2. apply Hb. set_solver. }
      { eapply Forall2_impl; [exact Hd2|]. intros b' es' Hx. cbn beta in *. by rewrite (sh_blk _ _ _ S2). }
      { unfold bsz in *. rewrite E1, E2. lia. }
      exists r, w3. split; [done|]. split; [done|]. destruct r as [ok|].
      * destruct H3 as (-> & j & b' & es' & c & H1 & H2 & H4 & H5). split; [done|]. exists (S j), b', es', c. rewrite (sh_blk _ _ _ S2) in H4.
        split_and!; [done|done|done|]. eapply shows_ext; [by eapply shows_trans|]. intros x. unfold upd. case_decide; [done|apply S2].
      * eapply shows_ext; [by eapply shows_trans|]. apply S2.
Qed.

(** The first free pointer is the one after the blocks. *)
Lemma first_free_pointer (bl : list Z) n : (forall b, b ∈ bl -> b <> 0) ->
  position (fun b => b =? 0) (bl ++ replicate n 0) = if (n =? 0)%nat then None else Some (length bl).
Proof.
  induction bl as [|b bl IH]; intros Hb; cbn [app position].
  - destruct n as [|n]; done.
  - destruct (Z.eqb_spec b 0) as [->|_]; [exfalso; by apply (Hb 0); [set_solver|]|]. rewrite IH by set_solver. by destruct n.
Qed.

Lemma stands_for_insert ess ess' m name i : stands_for ess m -> NoDup (fst <$> live (mjoin ess)) -> m !! name = None ->
  live (mjoin ess') ≡ₚ (name, i) :: live (mjoin ess) -> stands_for ess' (<[name := i]> m) /\ NoDup (fst <$> live (mjoin ess')).
Proof.
  intros Hm Hnd Hnone Hp. assert (Hno : forall j, (name, j) ∉ live (mjoin ess)).
  { intros j Hj. apply Hm in Hj. congruence. }
  split.
  - intros nm j. rewrite Hp, elem_of_cons, lookup_insert_Some, (Hm nm j). split.
    + intros [[<- <-]|[_ ?]]; [by left|by right].
    + intros [[= -> ->]|Hj]; [by left|right]. split; [|done]. intros <-. by apply Hno in Hj.
  - rewrite Hp. cbn [fmap list_fmap]. apply NoDup_cons. split; [|done]. intros Hin. apply list_elem_of_fmap in Hin as ([nm j] & Hx & Hj).
    cbn in Hx. subst nm. by apply Hno in Hj.
Qed.

(** A change of one block that is not of the file system itself. *)
Lemma data_change_ok w w' r c : volume_ok w -> r ∉ meta (state w) -> io_ok w' -> shows w w' (upd (blk w) r c) ->
  volume_ok w' /\ (forall b, in_volume (state w) b -> used w' b = used w b) /\
  (forall i o n, inode_ok (state w) i -> ifield w' i o n = ifield w i o n).
Proof.
  intros V Hr Hio S. pose proof (sh_state _ _ _ S) as E. pose proof (vo_layout _ V) as L.
  assert (Hc : forall m, m ∈ meta (state w) -> blk w' m = blk w m) by (intros m Hmm; rewrite (sh_blk _ _ _ S), upd_ne; [done|by intros ->]).
  split_and!.
  - apply (volume_ok_control w); [done|done|done|]. intros m Hcm. by apply Hc, control_meta.
  - intros b Hb. apply used_ext; [done| |done|done]. intros m Hcm. by apply Hc, control_meta.
  - intros i o n Hi. unfold ifield. rewrite E, Hc; [done|]. by apply iblock_meta.
Qed.

(** The last steps of an extension: the block [r] with one entry, its pointer and the
    new size. *)
Record extended w w' (dir r : Z) (k : nat) (c : list Z) (size : Z) : Prop := {
  ex_ok : volume_ok w';
  ex_layout : same_layout (state w) (state w');
  ex_fds : fds (state w') = fds (state w);
  ex_fresh : in_volume (state w) r /\ used w r = false;
  ex_used : forall b, in_volume (state w) b -> used w' b = used w b || bool_decide (b = r);
  ex_block : blk w' r = c;
  ex_data : forall b, data_block w b -> blk w' b = blk w b;
  ex_ptr : iptr w' dir k = r;
  ex_size : isize w' dir = size;
  ex_inodes : forall i o n, inode_ok (state w) i -> (o + n <= 128)%nat ->
    i <> dir \/ ((8 <= o \/ o + n <= 4) /\ (o + n <= 40 + k * 4 \/ 44 + k * 4 <= o))%nat -> ifield w' i o n = ifield w i o n;
}.

Lemma extended_ok w w1 w2 w3 w4 dir r k c size : volume_ok w -> inode_ok (state w) dir -> (k < 12)%nat -> 0 <= size <= u32_max ->
  allocated w w1 r -> io_ok w2 -> shows w1 w2 (upd (blk w1) r c) -> patched w2 w3 dir (40 + k * 4) (u32_le r) -> patched w3 w4 dir 4 (u32_le size) ->
  extended w w4 dir r k c size.
Proof.
  intros V Hdir Hk Hsz A Hio2 S2 P3 P4. pose proof (al_layout _ _ _ A) as SL1. pose proof (al_ok _ _ _ A) as V1. pose proof (vo_layout _ V) as L.
  pose proof (free_not_meta w r V (al_free _ _ _ A)) as Hrm. assert (Hrm1 : r ∉ meta (state w1)) by (by rewrite (meta_same _ _ SL1)).
  destruct (data_change_ok w1 w2 r c V1 Hrm1 Hio2 S2) as (V2 & U2 & I2). pose proof (sh_state _ _ _ S2) as E2.
  pose proof (sh_state _ _ _ (pa_shows _ _ _ _ _ P3)) as E3. pose proof (sh_state _ _ _ (pa_shows _ _ _ _ _ P4)) as E4. pose proof (pa_ok _ _ _ _ _ P3) as V3.
  assert (SL2 : same_layout (state w) (state w2)) by (by rewrite E2). assert (SL3 : same_layout (state w) (state w3)) by (by rewrite E3).
  assert (SL4 : same_layout (state w) (state w4)) by (by rewrite E4).
  assert (Hd2 : inode_ok (state w2) dir) by (by eapply inode_ok_same). assert (Hd3 : inode_ok (state w3) dir) by (by eapply inode_ok_same).
  assert (Hdata : forall b, b ∉ meta (state w) -> blk w4 b = upd (blk w1) r c b).
  { intros b Hb. rewrite (sh_blk _ _ _ (pa_shows _ _ _ _ _ P4)), upd_ne by (intros ->; apply Hb; rewrite <- (meta_same _ _ SL3); apply iblock_meta; [apply V3|done]).
    rewrite (sh_blk _ _ _ (pa_shows _ _ _ _ _ P3)), upd_ne by (intros ->; apply Hb; rewrite <- (meta_same _ _ SL2); apply iblock_meta; [apply V2|done]). apply S2. }
  assert (Hpu : forall wa wb o src b, volume_ok wa -> inode_ok (state wa) dir -> patched wa wb dir o src -> in_volume (state wa) b -> used wb b = used wa b).
  { intros wa wb o src b Va Hda P Hb. pose proof (sh_state _ _ _ (pa_shows _ _ _ _ _ P)). apply used_ext; [done| |apply Va|done].
    intros m Hm. rewrite (sh_blk _ _ _ (pa_shows _ _ _ _ _ P)), upd_ne; [done|]. intros ->. by apply (iblock_not_control _ dir (vo_layout _ Va)) in Hm. }
  assert (Hif : forall i o n, inode_ok (state w) i -> (o + n <= 128)%nat ->
    i <> dir \/ ((8 <= o \/ o + n <= 4) /\ (o + n <= 40 + k * 4 \/ 44 + k * 4 <= o))%nat -> ifield w4 i o n = ifield w i o n).
  { intros i o n Hi Hn Hc. rewrite (ifield_patched_other w3 w4 dir 4 (u32_le size)); try done; [|by eapply inode_ok_same|rewrite length_u32; lia|rewrite length_u32; lia].
    rewrite (ifield_patched_other w2 w3 dir (40 + k * 4) (u32_le r)); try done; [|by eapply inode_ok_same|rewrite length_u32; lia|rewrite length_u32; lia].
    rewrite I2 by (by eapply inode_ok_same). by eapply ifield_allocated. }
  assert (Hr4 : 0 <= r <= u32_max).
  { destruct (in_volume_addressable _ _ L (al_in _ _ _ A)) as [Ha1 Ha2]. pose proof (geo_sectors _ (lo_geo _ L)). pose proof (geo_offset _ (lo_geo _ L)). nia. }
  split; [apply P4|done|by rewrite E4, E3, E2, (al_fds _ _ _ A)|split; apply A| | | | | |done].
  - intros b Hb. rewrite (Hpu w3 w4 4%nat (u32_le size)), (Hpu w2 w3 (40 + k * 4)%nat (u32_le r)), U2; try done; try (by eapply in_volume_same). by apply A.
  - rewrite Hdata by done. apply upd_eq.
  - intros b (H1 & H2 & H3). assert (b <> r) by (intros ->; pose proof (al_free _ _ _ A); congruence).
    rewrite Hdata, upd_ne by done. apply (al_others _ _ _ A); [done|by apply plain_not_meta].
  - unfold iptr. rewrite (ifield_patched_other w3 w4 dir 4 (u32_le size)); try done; [|rewrite length_u32; lia|lia|rewrite length_u32; lia].
    pose proof (ifield_patched_same w2 w3 dir (40 + k * 4) (u32_le r) V2 P3) as Hf. rewrite length_u32 in Hf. rewrite Hf by lia. by apply decode_u32.
  - unfold isize. pose proof (ifield_patched_same w3 w4 dir 4 (u32_le size) V3 P4) as Hf. rewrite length_u32 in Hf. rewrite Hf by lia. by apply decode_u32.
Qed.

Lemma extended_layout w w' dir bl ess r c es size : volume_ok w -> dir_layout w dir bl ess -> (length bl < 12)%nat ->
  size = Z.of_nat (length bl + 1) * bsz w -> extended w w' dir r (length bl) c size -> dir_at c 0 es -> NoDup (fst <$> live (mjoin (ess ++ [es]))) ->
  dir_layout w' dir (bl ++ [r]) (ess ++ [es]) /\ dir_frame w w' dir bl.
Proof.
  intros V [] Hlt Hsz [] Hd Hnd. destruct ex_fresh0 as [Hrin Hrf]. pose proof (free_not_meta w r V Hrf) as Hrm.
  assert (Hrb : r ∉ bl) by (intros Hb; destruct (dl_data0 r Hb) as (_ & Hu & _); congruence).
  split.
  - split; [by eapply inode_ok_same| |rewrite length_app; cbn; lia| | | | | | |done].
    + unfold imode. by rewrite ex_inodes0 by (done || lia).
    + intros k b Hk. apply lookup_app_Some in Hk as [Hk|[Hk1 Hk2]].
      * pose proof (lookup_lt_Some _ _ _ Hk). unfold iptr. rewrite ex_inodes0 by (done || lia). by apply dl_ptrs0.
      * apply list_lookup_singleton_Some in Hk2 as [Hk2 <-]. by replace k with (length bl) by lia.
    + intros k Hk. rewrite length_app in Hk. cbn in Hk. unfold iptr. rewrite ex_inodes0 by (done || lia). apply dl_rest0. lia.
    + rewrite ex_size0, Hsz, (bsz_same _ _ ex_layout0), length_app. done.
    + intros b Hb. unfold data_block. rewrite (meta_same _ _ ex_layout0). apply elem_of_app in Hb as [Hb|Hb%list_elem_of_singleton].
      * destruct (dl_data0 b Hb) as (H1 & H2 & H3). rewrite ex_used0, H2 by done. split_and!; [by eapply in_volume_same|done|done].
      * subst b. rewrite ex_used0, bool_decide_eq_true_2, orb_true_r by done. split_and!; [by eapply in_volume_same|done|done].
    + apply NoDup_app. split_and!; [done|intros b Hb Hb'%list_elem_of_singleton; by subst|apply NoDup_singleton].
    + apply Forall2_app; [|constructor; [by rewrite ex_block0|constructor]].
      apply Forall2_same_length_lookup_2; [by eapply Forall2_length|]. intros j b es0 Hj He. rewrite ex_data0 by (apply dl_data0; by eapply list_elem_of_lookup_2).
      exact (Forall2_lookup_lr _ _ _ j _ _ dl_entries0 Hj He).
  - split; [done|done|done| | |].
    + intros b Hb Hu. by rewrite ex_used0, Hu.
    + intros b Hb _. by apply ex_data0.
    + intros i o n Hi Hne Hn. apply ex_inodes0; [done|done|by left].
Qed.

Lemma extend_dir_ok w dir bl ess name ino ft : volume_ok w -> dir_layout w dir bl ess -> name_ok name -> 1 <= ino <= u32_max -> is_byte ft ->
  exists r w', extend_dir dir (inode_of w dir) name ino ft w = Ret (r, w') /\
    if r : bool then exists b c, (length bl < 12)%nat /\ extended w w' dir b (length bl) c (Z.of_nat (length bl + 1) * bsz w) /\ dir_at c 0 [mkEnt ino (bsn (state w)) name]
    else same_disk w w' /\ (length bl = 12%nat \/ forall b, in_volume (state w) b -> used w b = true).
Proof.
  intros V L (Hne & Hn & Hnb) Hi Hft. pose proof (vo_layout _ V) as LV. pose proof (geo_size _ (lo_geo _ LV)) as Hg1. pose proof (geo_sectors _ (lo_geo _ LV)) as Hg2.
  assert (Hbs : 1024 <= bsz w <= 4096) by (unfold bsz; lia).
  unfold extend_dir. rewrite (dir_pointers _ _ _ _ L), first_free_pointer by (intros b Hb; by eapply dir_blocks_ready).
  destruct (Nat.eqb_spec (12 - length bl) 0) as [Hfull|Hroom].
  { exists false, w. split; [done|]. split; [apply same_disk_refl, V|]. left. pose proof (dl_count _ _ _ _ L). lia. }
  pose proof (dl_inode _ _ _ _ L) as Hdir. rewrite csub_le by apply Hdir. cbn [mbind outcome_mbind]. pose proof (lo_ipg _ LV).
  unfold cdiv. destruct (Z.eqb_spec (inodes_per_group (state w)) 0); [lia|]. cbn [mbind outcome_mbind].
  destruct (alloc_block_ok w (Z.to_nat ((dir - 1) / inodes_per_group (state w))) V) as (r & w1 & -> & Hc). cbn [mbind outcome_mbind].
  destruct Hc as [A|(-> & SD & Hf)]; [|exists false, w1; split; [done|]; split; [done|by right]].
  assert (Hr0 : r <> 0) by (intros ->; pose proof (zero_not_free w V (al_in _ _ _ A)); pose proof (al_free _ _ _ A); congruence).
  destruct (Z.eqb_spec r 0); [done|]. pose proof (al_ok _ _ _ A) as V1. pose proof (al_layout _ _ _ A) as SL1.
  assert (Ha : addressable (state w1) r) by (apply in_volume_addressable; [apply V1|eapply in_volume_same; [done|apply A]]).
  assert (Hbn : bsn (state w1) = bsn (state w)) by (unfold bsn; by destruct SL1 as [(_ & _ & -> & _) _ _]).
  destruct (run_read w1 w1 _ r (shows_refl w1) (vo_io _ V1) Ha) as (w2 & -> & S2 & L2). cbn [mbind outcome_mbind negb]. rewrite (al_zero _ _ _ A) in L2.
  destruct (run_entry w1 w2 _ _ 0 ino (wrap 16 (block_size (state w))) name ft S2 L2) as (w3 & -> & S3 & L3); [rewrite Hbn; unfold bsn, bsz in *; lia|done|done|]. cbn [mbind outcome_mbind].
  destruct (run_write w1 w3 _ _ r S3 L3 Ha) as (w4 & -> & S4 & L4). cbn [mbind outcome_mbind negb].
  set (c := splice _ _ _) in *. pose proof (sh_state _ _ _ S4) as E4. pose proof (free_not_meta w r V (al_free _ _ _ A)) as Hrm.
  destruct (data_change_ok w1 w4 r c V1 ltac:(by rewrite (meta_same _ _ SL1)) (loaded_io _ _ L4) S4) as (V4 & _ & _).
  assert (Hd4 : inode_ok (state w4) dir) by (rewrite E4; by eapply inode_ok_same).
  destruct (patch_inode_ok w4 dir (40 + length bl * 4) (u32_le r) V4 Hd4) as (w5 & Hw5 & P5); [rewrite length_u32; lia|apply bytes_u32|].
  unfold update_inode_block_ptr. replace (patch_inode dir (fun base => patch_scratch (base + 40 + length bl * 4) (u32_le r)) w4) with (Ret (true, w5))
    by (rewrite <- Hw5; unfold patch_inode; destruct (inode_location _ _) as [[[]|]|]; cbn [mbind outcome_mbind]; rewrite ?Nat.add_assoc; done).
  cbn [mbind outcome_mbind negb size_lo inode_of]. pose proof (sh_state _ _ _ (pa_shows _ _ _ _ _ P5)) as E5. rewrite (dl_size _ _ _ _ L). fold (bsz w).
  rewrite cadd_le by (pose proof (dl_count _ _ _ _ L); unfold u32_max; nia). cbn [mbind outcome_mbind].
  replace (Z.of_nat (length bl) * bsz w + bsz w) with (Z.of_nat (length bl + 1) * bsz w) by lia. set (size := Z.of_nat (length bl + 1) * bsz w).
  destruct (patch_inode_ok w5 dir 4 (u32_le size) (pa_ok _ _ _ _ _ P5) ltac:(by rewrite E5)) as (w6 & Hw6 & P6); [rewrite length_u32; lia|apply bytes_u32|].
  unfold update_inode_size. rewrite Hw6. exists true, w6. split; [done|]. exists r, c. split; [lia|]. split.
  - eapply (extended_ok w w1 w4 w5 w6); try done; [lia|unfold size, u32_max; nia|by eapply loaded_io].
  - cbn [dir_at d_len]. split; [|unfold c; rewrite length_splice; rewrite length_replicate; [lia|rewrite length_ent_bytes; unfold bsn, bsz in *; lia]].
    unfold c. replace (wrap 16 (block_size (state w))) with (Z.of_nat (bsn (state w))) by (unfold wrap, bsn, bsz in *; rewrite Z.mod_small; lia).
    apply new_ent_at; rewrite ?length_replicate; unfold bsn, bsz, u16_max in *; lia.
Qed.

Lemma dir_insert_entry_ok w dir m name ino ft : volume_ok w -> dir_ok w dir m -> name_ok name -> 1 <= ino <= u32_max -> is_byte ft -> m !! name = None ->
  exists r w' bl ess, dir_insert_entry dir name ino ft w = Ret (r, w') /\ dir_layout w dir bl ess /\ dir_frame w w' dir bl /\
    if r : bool then dir_ok w' dir (<[name := ino]> m)
    else dir_ok w' dir m /\ (length bl = 12%nat \/ forall b, in_volume (state w) b -> used w b = true).
Proof.
  intros V (bl & ess & L & Hm) Hn Hi Hft Hnone. pose proof Hn as (Hne & Hlen & Hby).
  unfold dir_insert_entry. rewrite bool_decide_eq_false_2 by done. destruct (Nat.ltb_spec 255 (length name)); [lia|]. cbn [orb].
  destruct (read_inode_ok w dir V (dl_inode _ _ _ _ L)) as (w1 & -> & SD1). cbn [mbind outcome_mbind]. rewrite (dir_is_dir _ _ _ _ L). cbn [negb].
  pose proof SD1 as [Hio1 S1]. pose proof (sh_state _ _ _ S1) as E1. pose proof (volume_ok_same_disk w w1 V SD1) as V1.
  rewrite (dir_pointers _ _ _ _ L). cbn [size_lo inode_of].
  destruct (insert_blocks_ok name ino ft (isize w dir) (replicate (12 - length bl) 0) Hn Hi Hft ltac:(by apply Forall_replicate) bl ess 0 w1 Hio1) as (r & w2 & Hw2 & Hio2 & H2).
  - intros b Hb. rewrite E1. by eapply dir_blocks_ready.
  - eapply Forall2_impl; [apply L|]. intros b es Hx. cbn beta in *. by rewrite (sh_blk _ _ _ S1).
  - rewrite (dl_size _ _ _ _ L). unfold bsz. rewrite E1. lia.
  - rewrite Hw2. cbn [mbind outcome_mbind]. destruct r as [ok|].
    + destruct H2 as (-> & j & b & es & c & Hj & He & [I1 I2 (es' & Hd' & Hp')] & S2). exists true, w2, bl, ess. split; [done|]. split; [done|].
      assert (Sw : shows w w2 (upd (blk w) b c)).
      { eapply shows_ext; [by eapply shows_trans|]. intros x. unfold upd. case_decide; [done|apply S1]. }
      assert (Hp : live (mjoin (<[j := es']> ess)) ≡ₚ (name, ino) :: live (mjoin ess)).
      { pose proof (live_insert ess j es es' He) as Hli. rewrite Hp', <- Permutation_middle in Hli.
        change ((name, ino) :: live (mjoin ess) ++ live es) with (((name, ino) :: live (mjoin ess)) ++ live es) in Hli. by apply Permutation_app_inv_r in Hli. }
      destruct (stands_for_insert ess (<[j := es']> ess) m name ino Hm (dl_names _ _ _ _ L) Hnone Hp) as [Hm' Hnd'].
      destruct (dir_block_changed w w2 dir bl ess j b es es' c V L Hj He Sw Hio2 Hd' Hnd') as [L' F']. split; [done|]. by exists bl, (<[j := es']> ess).
    + assert (SD2 : same_disk w w2) by (split; [done|]; eapply shows_ext; [by eapply shows_trans|]; apply S1).
      pose proof (volume_ok_same_disk w w2 V SD2) as V2. pose proof (dir_layout_same_disk w w2 dir bl ess L SD2) as L2.
      assert (Hio : inode_of w2 dir = inode_of w dir).
      { destruct SD2 as [_ Sx]. unfold inode_of, imode, isize, ilinks, iptr, ifield. rewrite (sh_state _ _ _ Sx). by rewrite !(sh_blk _ _ _ Sx). }
      rewrite <- Hio. destruct (extend_dir_ok w2 dir bl ess name ino ft V2 L2 Hn Hi Hft) as (r & w3 & -> & H3). exists r, w3, bl, ess. split; [done|]. split; [done|].
      destruct r.
      * destruct H3 as (b & c & Hlt & X & Hd). assert (Hp : live (mjoin (ess ++ [[mkEnt ino (bsn (state w2)) name]])) ≡ₚ (name, ino) :: live (mjoin ess)).
        { rewrite join_app. change (mjoin [[mkEnt ino (bsn (state w2)) name]]) with [mkEnt ino (bsn (state w2)) name]. rewrite live_app, live_cons. cbn [d_ino d_name].
          rewrite decide_False by lia. cbn [app]. by rewrite <- Permutation_cons_append. }
        destruct (stands_for_insert ess _ m name ino Hm (dl_names _ _ _ _ L) Hnone Hp) as [Hm' Hnd'].
        destruct (extended_layout w2 w3 dir bl ess b c _ _ V2 L2 Hlt eq_refl X Hd Hnd') as [L' F'].
        split; [eapply dir_frame_trans; [by apply dir_frame_refl|done]|by eexists _, _].
      * destruct H3 as [SD3 Hfull]. split; [eapply dir_frame_trans; by apply dir_frame_refl|]. split.
        -- exists bl, ess. split; [by eapply dir_layout_same_disk|done].
        -- destruct Hfull as [?|Hfull]; [by left|right]. intros b Hb. rewrite <- (same_disk_used w w2 b SD2). apply Hfull.
           destruct SD2 as [_ Sx]. by rewrite (sh_state _ _ _ Sx).
Qed.

(** ** The refinement *)

(** Calls on a directory; a name is inserted when it is not there, as [create],
    [mkdir] and [rename] do. *)
Inductive dir_op := Lookup (name : list Z) | Insert (name : list Z) (ino ft : Z) | Delete (name : list Z).
Inductive dir_reply := Found (ino : Z) | Added (code : Z) | Deleted (ok : bool).

Definition op_ok (o : dir_op) : Prop :=
  match o with
  | Lookup name | Delete name => (length name <= 255)%nat
  | Insert name ino ft => name_ok name /\ 1 <= ino <= u32_max /\ is_byte ft
  end.

Definition exec_op (dir : Z) (o : dir_op) w : outcome (dir_reply * Ext2 D) :=
  match o with
  | Lookup name => let! (i, w) := dir_lookup dir name w in Ret (Found i, w)
  | Insert name ino ft =>
      let! (found, w) := dir_lookup dir name w in
      if negb (found =? 0) then Ret (Added EEXIST, w)
      else let! (ok, w) := dir_insert_entry dir name ino ft w in Ret (Added (if ok : bool then 0 else ENOSPC), w)
  | Delete name => let! (ok, w) := dir_delete_entry dir name w in Ret (Deleted ok, w)
  end.

Fixpoint exec_ops (dir : Z) (ops : list dir_op) w : outcome (list dir_reply * Ext2 D) :=
  match ops with
  | [] => Ret ([], w)
  | o :: ops' => let! (r, w) := exec_op dir o w in let! (rs, w) := exec_ops dir ops' w in Ret (r :: rs, w)
  end.

(** The map answers; an insertion may find no room. *)
Inductive map_step (m : gmap (list Z) Z) : dir_op -> dir_reply -> gmap (list Z) Z -> Prop :=
| step_lookup name : map_step m (Lookup name) (Found (default 0 (m !! name))) m
| step_exists name ino ft i : m !! name = Some i -> map_step m (Insert name ino ft) (Added EEXIST) m
| step_insert name ino ft : m !! name = None -> map_step m (Insert name ino ft) (Added 0) (<[name := ino]> m)
| step_full name ino ft : m !! name = None -> map_step m (Insert name ino ft) (Added ENOSPC) m
| step_delete name : map_step m (Delete name) (Deleted (bool_decide (is_Some (m !! name)))) (delete name m).

Inductive map_steps : gmap (list Z) Z -> list dir_op -> list dir_reply -> gmap (list Z) Z -> Prop :=
| steps_nil m : map_steps m [] [] m
| steps_cons m o r m1 ops rs m2 : map_step m o r m1 -> map_steps m1 ops rs m2 -> map_steps m (o :: ops) (r :: rs) m2.

Lemma dir_ok_nonzero w dir m name i : dir_ok w dir m -> m !! name = Some i -> i <> 0.
Proof.
  intros (bl & ess & _ & Hm) Hi. apply Hm in Hi. unfold live in Hi. apply list_elem_of_omap in Hi as (e & _ & He). unfold live_ent in He.
  destruct (decide (d_ino e = 0)); [done|]. by injection He as _ <-.
Qed.

Lemma dir_ok_same_disk w w' dir m : dir_ok w dir m -> same_disk w w' -> dir_ok w' dir m.
Proof. intros (bl & ess & L & Hm) SD. exists bl, ess. split; [by eapply dir_layout_same_disk|done]. Qed.

Lemma exec_op_ok w dir m o : volume_ok w -> dir_ok w dir m -> op_ok o ->
  exists r w' m', exec_op dir o w = Ret (r, w') /\ map_step m o r m' /\ volume_ok w' /\ dir_ok w' dir m'.
Proof.
  intros V Hd Ho. destruct o as [name|name ino ft|name]; cbn [exec_op op_ok] in *.
  - destruct (dir_lookup_ok w dir m name V Hd Ho) as (w' & -> & SD). cbn [mbind outcome_mbind]. eexists _, w', m. split; [done|].
    split; [constructor|]. split; [by eapply volume_ok_same_disk|by eapply dir_ok_same_disk].
  - destruct Ho as (Hn & Hi & Hft). destruct (dir_lookup_ok w dir m name V Hd ltac:(apply Hn)) as (w1 & -> & SD). cbn [mbind outcome_mbind].
    pose proof (volume_ok_same_disk w w1 V SD) as V1. pose proof (dir_ok_same_disk w w1 dir m Hd SD) as Hd1.
    destruct (m !! name) as [i|] eqn:E; cbn [from_option]; unfold id.
    + destruct (Z.eqb_spec i 0) as [Hz|_]; [by apply (dir_ok_nonzero w dir m name i) in Hd|]. cbn [negb]. eexists _, w1, m. split; [done|]. split; [by econstructor|done].
    + cbn [Z.eqb negb]. destruct (dir_insert_entry_ok w1 dir m name ino ft V1 Hd1 Hn Hi Hft E) as (r & w2 & bl & ess & -> & _ & F & Hr). cbn [mbind outcome_mbind].
      destruct r; eexists _, w2, _; (split; [done|]).
      * split; [by constructor|]. split; [apply F|done].
      * split; [by constructor|]. split; [apply F|apply Hr].
  - destruct (dir_delete_entry_ok w dir m name V Hd Ho) as (w' & bl & -> & Hd' & F & _). cbn [mbind outcome_mbind]. eexists _, w', _. split; [done|].
    split; [constructor|]. split; [apply F|done].
Qed.

(** C29: A directory is a map from names to inodes. On a consistent volume, any
    sequence of lookups, insertions of absent names and deletions on a directory
    runs without abort and answers as the finite map does, through tombstones,
    split entries and added blocks; the directory then holds exactly the map, and
    the volume is consistent. *)
Theorem directory_refines_a_name_map (dir : Z) (ops : list dir_op) w m : volume_ok w -> dir_ok w dir m -> Forall op_ok ops ->
  exists rs w' m', exec_ops dir ops w = Ret (rs, w') /\ map_steps m ops rs m' /\ volume_ok w' /\ dir_ok w' dir m'.
Proof.
  intros V Hd Ho. revert w m V Hd. induction Ho as [|o ops Ho Hops IH]; intros w m V Hd; cbn [exec_ops].
  { exists [], w, m. split; [done|]. split; [constructor|done]. }
  destruct (exec_op_ok w dir m o V Hd Ho) as (r & w1 & m1 & -> & Hs & V1 & Hd1). cbn [mbind outcome_mbind].
  destruct (IH w1 m1 V1 Hd1) as (rs & w2 & m2 & -> & Hss & V2 & Hd2). cbn [mbind outcome_mbind].
  exists (r :: rs), w2, m2. split; [done|]. split; [by econstructor|done].
Qed.

(** An insertion fails only for want of space, and touches one directory: it
    fails when the directory has twelve blocks and no gap, or when every block of
    the volume is in use; the blocks of other files, the records of other inodes
    and the open descriptors stay as they are in either case. *)
Theorem dir_insert_fails_only_when_full w dir m name ino ft : volume_ok w -> dir_ok w dir m -> name_ok name -> 1 <= ino <= u32_max -> is_byte ft ->
  m !! name = None ->
  exists ok w' bl ess, dir_insert_entry dir name ino ft w = Ret (ok, w') /\ dir_layout w dir bl ess /\
    (ok = false -> dir_ok w' dir m /\ (length bl = 12%nat \/ forall b, in_volume (state w) b -> used w b = true)) /\
    (ok = true -> dir_ok w' dir (<[name := ino]> m)) /\ volume_ok w' /\ fds (state w') = fds (state w) /\
    (forall b, data_block w b -> b ∉ bl -> blk w' b = blk w b) /\
    (forall i o n, inode_ok (state w) i -> i <> dir -> (o + n <= 128)%nat -> ifield w' i o n = ifield w i o n).
Proof.
  intros V Hd Hn Hi Hft Hnone. destruct (dir_insert_entry_ok w dir m name ino ft V Hd Hn Hi Hft Hnone) as (r & w' & bl & ess & Hr & L & [] & Hc).
  exists r, w', bl, ess. split; [done|]. split; [done|]. destruct r; split_and!; try done.
Qed.
End Dirs.

(** ** Witnesses *)

#[local] Opaque mounted.

Definition root_entries : list (list dent) := [[mkEnt 2 12 (str "."); mkEnt 2 1012 (str "..")]].
Definition root_map : gmap (list Z) Z := <[str "." := 2]> (<[str ".." := 2]> ∅).

Lemma mounted_root : dir_ok mounted 2 root_map.
Proof.
  exists [7], root_entries. split.
  - split.
    + rewrite mounted_is. unfold inode_ok. cbn. lia.
    + by vm_compute.
    + cbn. lia.
    + intros [|k] b Hk; [injection Hk as <-; by vm_compute|by destruct k].
    + assert (HF : Forall (fun k => iptr mounted 2 k = 0) (seq 1 11)) by (apply (bool_decide_unpack _); vm_compute; exact I).
      intros k Hk. cbn in Hk. rewrite Forall_forall in HF. apply HF, elem_of_seq. lia.
    + by vm_compute.
    + intros b ->%list_elem_of_singleton. split_and!; [rewrite mounted_is; unfold in_volume; cbn; lia|by vm_compute|].
      apply (bool_decide_unpack _). vm_compute. exact I.
    + apply NoDup_singleton.
    + constructor; [|constructor]. assert (Hl : length (blk mounted 7) = 1024%nat) by (vm_compute; reflexivity).
      cbn [dir_at d_len root_entries Nat.add]. split_and!; [| |by rewrite Hl].
      * split; cbn [d_ino d_len d_name Nat.add]; [vm_compute; reflexivity|vm_compute; reflexivity|lia|rewrite Hl; lia|intros _; vm_compute; reflexivity|intros _; vm_compute; reflexivity|cbn; lia].
      * split; cbn [d_ino d_len d_name Nat.add]; [vm_compute; reflexivity|vm_compute; reflexivity|lia|rewrite Hl; lia|intros _; vm_compute; reflexivity|intros _; vm_compute; reflexivity|cbn; lia].
    + apply (bool_decide_unpack _). vm_compute. exact I.
  - intros name i. change (live (mjoin root_entries)) with [(str ".", 2); (str "..", 2)]. unfold root_map.
    rewrite lookup_insert_Some, lookup_insert_Some, lookup_empty. rewrite !elem_of_cons. split.
    + intros [[<- <-]|[_ [[<- <-]|[_ ?]]]]; [by left|by right; left|done].
    + intros [[= -> ->]|[[= -> ->]|Hn]]; [by left|right|by apply not_elem_of_nil in Hn]. split; [done|by left].
Qed.

Lemma a_name_ok : name_ok (str "a").
Proof. split_and!; [done|cbn; lia|apply (bool_decide_unpack _); vm_compute; exact I]. Qed.

Definition root_ops : list dir_op := [Insert (str "a") 11 1; Lookup (str "a"); Delete (str "a")].

Lemma root_ops_ok : Forall op_ok root_ops.
Proof.
  repeat (apply Forall_cons; split); [|cbn; lia|cbn; lia|apply Forall_nil; exact I].
  split; [exact a_name_ok|]. split; [unfold u32_max; lia|unfold is_byte; lia].
Qed.

Lemma directory_refines_a_name_map_witness : exists rs w' m', exec_ops 2 root_ops mounted = Ret (rs, w') /\ map_steps root_map root_ops rs m' /\ volume_ok w' /\ dir_ok w' 2 m'.
Proof. exact (directory_refines_a_name_map 2 root_ops mounted root_map mounted_ok mounted_root root_ops_ok). Defined.

Lemma dir_insert_fails_only_when_full_witness : exists ok w' bl ess, dir_insert_entry 2 (str "a") 11 1 mounted = Ret (ok, w') /\ dir_layout mounted 2 bl ess /\
    (ok = true -> dir_ok w' 2 (<[str "a" := 11]> root_map)).
Proof.
  assert (Hi : 1 <= 11 <= u32_max) by (unfold u32_max; lia). assert (Hf : is_byte 1) by (unfold is_byte; lia).
  assert (Hn : root_map !! str "a" = None) by (vm_compute; reflexivity).
  destruct (dir_insert_fails_only_when_full mounted 2 root_map (str "a") 11 1 mounted_ok mounted_root a_name_ok Hi Hf Hn) as (ok & w' & bl & ess & Hr & L & _ & Hok & _).
  exists ok, w', bl, ess. split; [exact Hr|]. split; [exact L|exact Hok].
Defined.
End ext2_dir_spec.
