(* ===== verification/Vfs.v ===== *)
(** * The virtual filesystem (kernel/src/kernel/fs/vfs.rs)

    Module [vfs] routes paths to the filesystems by their first component and
    translates opening, listing, making and entering directories and the two
    [stat] functions. All filesystems work on the four disks of [stores]: FAT16
    and the record store on the first one, ext2 on the last one. A path is the
    bytes of a [str]. *)

From stdpp Require Import base list gmap strings list_numbers.
From Stdlib Require Import ZArith Lia.
From S2P Require Import Prelude RamFs FdTable Task Mbr Fat FatOps DiskStore StoreFs Ext2 Ext2Ops.

Local Open Scope Z_scope.

(** A position of [DISKS]: transfers to and from an absent disk fail. *)
(* @src drivers/ata.rs 273-292 read_sector *)
#[export] Instance slot_disk {D} `{BlockDevice D} : BlockDevice (option D) := {|
  sector_read d lba := match d with Some d => sector_read d lba | None => None end;
  sector_write d lba b :=
    match d with Some d => let (ok, d) := sector_write d lba b in (ok, Some d) | None => (false, None) end;
|}.

Module vfs.
Import fs ramfs disk_store.

(* @src fs/vfs.rs 18-26 Resolved *)
Inductive Resolved :=
| RamFS (path : list Z)
| Fat16 (fat_path : list Z)
| Ext2 (path : list Z)
| Dev (backend : fdtable.FdBackend)
| Proc (path : list Z)
| DiskStore (path : list Z).

(** [path == m || path.starts_with(m + "/")] *)
Definition below (m path : list Z) : bool := bool_decide (path = m) || starts_with path (m ++ [SLASH]).

(* @src fs/vfs.rs 28-50 resolve *)
Definition resolve (path : list Z) : Resolved :=
  if below (str "/dev") path then
    let dev_name := if (5 <? length path)%nat then drop 5 path else [] in
    Dev (if bool_decide (dev_name = str "tty") then fdtable.DevTty else fdtable.DevNull)
  else if below (str "/disk") path then Fat16 path
  else if below (str "/ext2") path then Ext2 path
  else if below (str "/proc") path then Proc path
  else if below (str "/store") path then DiskStore path
  else RamFS path.

(** The state of the filesystems. The drivers' own states hold no disk: [fat_of]
    and [ext2_of] put the disk of [stores] in. *)
Record Files (D : Type) := mkFiles {
  ram : option RamFs;
  fat_state : fatfs.FatFs unit;
  ext2_state : ext2.Ext2 unit;
  stores : Stores D;
}.
Arguments mkFiles {D}.
Arguments ram {D}.
Arguments fat_state {D}.
Arguments ext2_state {D}.
Arguments stores {D}.

(** What the files of /proc show: [timer::get_ticks] and [frame_stats]. *)
Record Stats := mkStats { ticks : Z; alloc_frames : Z; total_frames : Z }.

Definition set_ram {D} (v : Files D) (f : option RamFs) : Files D := mkFiles f (fat_state v) (ext2_state v) (stores v).

Definition disk_at {D} (v : Files D) (i : nat) : option D := default None (disks (stores v) !! i).
Definition put_disk {D} (v : Files D) (i : nat) (d : option D) : Stores D :=
  mkStores (mounted (stores v)) (<[i := d]> (disks (stores v))).

Definition with_disk {D D'} (f : fatfs.FatFs D) (d : D') : fatfs.FatFs D' := fatfs.mkFs (fatfs.ready f) (fatfs.bpb f) (fatfs.fds f) d.
Definition fat_of {D} (v : Files D) : fatfs.FatFs (option D) := with_disk (fat_state v) (disk_at v 0).
Definition put_fat {D} (v : Files D) (f : fatfs.FatFs (option D)) : Files D :=
  mkFiles (ram v) (with_disk f tt) (ext2_state v) (put_disk v 0 (fatfs.disk f)).

Definition ext2_of {D} (v : Files D) : ext2.Ext2 (option D) :=
  ext2.mkExt2 (ext2.state (ext2_state v)) (ext2.scratch (ext2_state v)) (disk_at v 3).
Definition put_ext2 {D} (v : Files D) (w : ext2.Ext2 (option D)) : Files D :=
  mkFiles (ram v) (fat_state v) (ext2.mkExt2 (ext2.state w) (ext2.scratch w) tt) (put_disk v 3 (ext2.disk w)).

(** ** Status records *)

(* @src fs/vfs.rs 262-262 S_IFREG *)
Definition S_IFREG : Z := 0x8000.
(* @src fs/vfs.rs 263-263 S_IFDIR *)
Definition S_IFDIR : Z := 0x4000.
(* @src fs/vfs.rs 264-264 S_IFCHR *)
Definition S_IFCHR : Z := 0x2000.
(* @src fs/vfs.rs 266-266 S_IFIFO *)
Definition S_IFIFO : Z := 0x1000.

(* @src fs/vfs.rs 270-270 StatKind *)
Inductive StatKind := File | Directory | Device.
Definition kind_code (k : StatKind) : Z := match k with File => 0 | Directory => 1 | Device => 2 end.

(* @src fs/vfs.rs 273-273 FileStat *)
Record FileStat := mkFileStat { size : Z; kind : Z; pad : Z }.

(* @src fs/vfs.rs 276-284 LinuxStat *)
Record LinuxStat := mkStat {
  st_dev : Z; st_ino : Z; st_nlink : Z;
  st_mode : Z; st_uid : Z; st_gid : Z; pad0 : Z;
  st_rdev : Z; st_size : Z; st_blksize : Z; st_blocks : Z;
  st_atime : Z; st_atime_ns : Z;
  st_mtime : Z; st_mtime_ns : Z;
  st_ctime : Z; st_ctime_ns : Z;
  unused : list Z;
}.

(* @src fs/vfs.rs 287-287 LinuxStat::zeroed *)
Definition zeroed : LinuxStat := mkStat 0 0 0 0 0 0 0 0 0 0 0 0 0 0 0 0 0 [0; 0; 0].

(* @src fs/vfs.rs 288-294 LinuxStat::fill_file *)
Definition fill_file (size ino : Z) : outcome LinuxStat :=
  let! n := cadd u64_max size 511 in
  Ret (mkStat 1 ino 1 (Z.lor S_IFREG 0x1A4) 1000 1000 0 0 (swrap 64 size) 512 (n / 512) 0 0 0 0 0 0 [0; 0; 0]).

(* @src fs/vfs.rs 295-300 LinuxStat::fill_dir *)
Definition fill_dir (ino : Z) : LinuxStat :=
  mkStat 1 ino 2 (Z.lor S_IFDIR 0x1ED) 1000 1000 0 0 0 512 0 0 0 0 0 0 0 [0; 0; 0].

(* @src fs/vfs.rs 301-305 LinuxStat::fill_chardev *)
Definition fill_chardev (ino : Z) : LinuxStat :=
  mkStat 1 ino 1 (Z.lor S_IFCHR 0x1B6) 1000 1000 0 0 0 0 0 0 0 0 0 0 0 [0; 0; 0].

Section Vfs.
Context {D : Type} `{BlockDevice D}.
Implicit Types (v : Files D) (t : fdtable.FdTable).

(** A call of a driver. *)
Definition on_fat {A} (m : fatfs.FatFs (option D) -> outcome (A * fatfs.FatFs (option D))) v : outcome (A * Files D) :=
  let! (a, f) := m (fat_of v) in Ret (a, put_fat v f).
Definition on_ext2 {A} (m : ext2.Ext2 (option D) -> outcome (A * ext2.Ext2 (option D))) v : outcome (A * Files D) :=
  let! (a, w) := m (ext2_of v) in Ret (a, put_ext2 v w).

(* @src drivers/ata.rs 261-261 is_present *)
Definition is_present v : bool := bool_decide (is_Some (disk_at v 0)).

Definition ext2_ready v : bool := ext2fs.is_ready (ext2_of v).

(** [fat_path == b"/disk" || fat_path == b"/disk/" || fat::resolve_dir(fat_path).is_some()] *)
Definition is_fat_dir (path : list Z) v : outcome bool :=
  if bool_decide (path = str "/disk") || bool_decide (path = str "/disk/") then Ret true
  else let! r := fatfs.resolve_dir (fat_of v) path in Ret (bool_decide (is_Some r)).

(** [path == b"/ext2" || path == b"/ext2/" || ext2::is_dir(path)] *)
Definition is_ext2_dir (path : list Z) v : outcome (bool * Files D) :=
  if bool_decide (path = str "/ext2") || bool_decide (path = str "/ext2/") then Ret (true, v)
  else on_ext2 (ext2fs.is_dir_path path) v.

Definition is_ram_dir (f : RamFs) (path : list Z) : outcome bool :=
  let! l := list_dir f path in Ret (bool_decide (is_Some l)).

(** [RAMFS.get().and_then(|fs| fs.list_dir(path)).is_some()] *)
Definition listed v (path : list Z) : outcome bool :=
  match ram v with None => Ret false | Some f => is_ram_dir f path end.

Definition is_store_root (path : list Z) : bool := bool_decide (path = str "/store") || bool_decide (path = str "/store/").

Definition writable_flags (flags : Z) : bool := fdtable.has flags O_WRONLY || fdtable.has flags O_RDWR.

(** ** Opening *)

(* @src fs/vfs.rs 63-75 vfs_open (Fat16) *)
Definition open_fat16 (path : list Z) (flags : Z) t v : outcome (Z * fdtable.FdTable * Files D) :=
  if negb (is_present v) then Ret (-19, t, v)
  else
    let! dir := is_fat_dir path v in
    if (dir : bool) then (let! (r, t) := fdtable.open_dir t path in Ret (r, t, v))
    else
      let! (raw_fd, v) := on_fat (fun f => fatfs.open f path flags) v in
      if raw_fd <? 0 then Ret (raw_fd, t, v)
      else let! (r, t) := fdtable.open_fat t raw_fd (writable_flags flags) in Ret (r, t, v).

(* @src fs/vfs.rs 77-87 vfs_open (Ext2) *)
Definition open_ext2 (path : list Z) (flags : Z) t v : outcome (Z * fdtable.FdTable * Files D) :=
  if negb (ext2_ready v) then Ret (-19, t, v)
  else
    let! (dir, v) := on_ext2 (ext2fs.is_dir_path path) v in
    if (dir : bool) then (let! (r, t) := fdtable.open_dir t path in Ret (r, t, v))
    else
      let! (raw_fd, v) := on_ext2 (ext2fs.open path flags) v in
      if raw_fd <? 0 then Ret (raw_fd, t, v)
      else let! (r, t) := fdtable.open_ext2 t raw_fd (writable_flags flags) in Ret (r, t, v).

(** [fdt.open(fs, path, flags)] when there is an in-memory filesystem. *)
Definition open_ram_file (path : list Z) (flags : Z) t v : outcome (Z * fdtable.FdTable * Files D) :=
  match ram v with
  | None => Ret (-2, t, v)
  | Some f => let! (r, t, f) := fdtable.open t path flags f in Ret (r, t, set_ram v (Some f))
  end.

(* @src fs/vfs.rs 89-99 vfs_open (RamFS) *)
Definition open_ram (path : list Z) (flags : Z) t v : outcome (Z * fdtable.FdTable * Files D) :=
  match ram v with
  | None => Ret (-2, t, v)
  | Some f =>
      let! dir := is_ram_dir f path in
      if (dir : bool) then (let! (r, t) := fdtable.open_dir t path in Ret (r, t, v))
      else open_ram_file path flags t v
  end.

(* @src fs/vfs.rs 101-112 vfs_open (Proc) *)
Definition open_proc (s : Stats) (path : list Z) (flags : Z) t v : outcome (Z * fdtable.FdTable * Files D) :=
  let! f := procfs.refresh (ticks s) (alloc_frames s) (total_frames s) path (ram v) in
  open_ram path flags t (set_ram v f).

(* @src fs/vfs.rs 114-135 vfs_open (DiskStore) *)
Definition open_store (path : list Z) (flags : Z) t v : outcome (Z * fdtable.FdTable * Files D) :=
  if is_store_root path then
    let! f := diskfs.refresh_all_records (stores v) (ram v) in
    let v := set_ram v f in
    match ram v with
    | None => Ret (-2, t, v)
    | Some _ => let! (r, t) := fdtable.open_dir t path in Ret (r, t, v)
    end
  else
    match diskfs.parse_record_id path with
    | Some id =>
        let! f := diskfs.refresh_record (stores v) (ram v) id in
        open_ram_file path flags t (set_ram v f)
    | None => Ret (-2, t, v)
    end.

(* @src fs/vfs.rs 54-137 vfs_open *)
Definition vfs_open (s : Stats) (path : list Z) (flags : Z) t v : outcome (Z * fdtable.FdTable * Files D) :=
  match resolve path with
  | Dev backend => let! (r, t) := fdtable.open_dev t backend in Ret (r, t, v)
  | Fat16 fat_path => open_fat16 fat_path flags t v
  | Ext2 ext2_path => open_ext2 ext2_path flags t v
  | RamFS path => open_ram path flags t v
  | Proc path => open_proc s path flags t v
  | DiskStore path => open_store path flags t v
  end.

(** ** Directories *)

(** [fs.read_dir_raw(path, buf)] when there is an in-memory filesystem. *)
Definition read_ram_dir (path buf : list Z) v : outcome (Z * list Z * Files D) :=
  match ram v with
  | None => Ret (-2, buf, v)
  | Some f => let! (r, buf) := read_dir_raw f path buf in Ret (r, buf, v)
  end.

(* @src fs/vfs.rs 141-175 vfs_readdir *)
Definition vfs_readdir (path buf : list Z) v : outcome (Z * list Z * Files D) :=
  match resolve path with
  | Dev _ =>
      let listing := str "null" ++ [10] ++ str "tty" ++ [10] in
      let n := Nat.min (length listing) (length buf) in
      let! buf := copy_at buf 0 (take n listing) in
      Ret (Z.of_nat n, buf, v)
  | Fat16 fat_path =>
      let! dir := fatfs.resolve_dir (fat_of v) fat_path in
      match dir with
      | Some loc => let! (r, buf) := fatfs.list_dir_raw (fat_of v) loc buf in Ret (r, buf, v)
      | None => Ret (-7, buf, v)
      end
  | Ext2 ext2_path =>
      if negb (ext2_ready v) then Ret (-19, buf, v)
      else
        let! (x, v) := on_ext2 (fun w => let! (r, buf, w) := ext2fs.list_dir_raw ext2_path buf w in Ret ((r, buf), w)) v in
        Ret (x, v)
  | RamFS path => read_ram_dir path buf v
  | Proc path => read_ram_dir path buf v
  | DiskStore _ => let! (r, buf) := diskfs.list_store_raw (stores v) buf in Ret (r, buf, v)
  end.

(* @src fs/vfs.rs 179-199 vfs_mkdir *)
Definition vfs_mkdir (path : list Z) v : outcome (Z * Files D) :=
  match resolve path with
  | Fat16 fat_path => if negb (is_present v) then Ret (-19, v) else on_fat (fun f => fatfs.mkdir f fat_path) v
  | Ext2 ext2_path => if negb (ext2_ready v) then Ret (-19, v) else on_ext2 (ext2fs.mkdir ext2_path) v
  | Dev _ | Proc _ | DiskStore _ => Ret (-1, v)
  | RamFS path =>
      match ram v with
      | None => Ret (-2, v)
      | Some f =>
          let! (r, f) := create_dir path f in
          Ret (match r with Ok _ => 0 | Err _ => -1 end, set_ram v (Some f))
      end
  end.

(** Whether a path can be entered; [None] is the early return without a disk. *)
(* @src fs/vfs.rs 206-233 vfs_chdir (exists) *)
Definition chdir_exists (path : list Z) v : outcome (option bool * Files D) :=
  match resolve path with
  | Fat16 fat_path =>
      if negb (is_present v) then Ret (None, v)
      else let! b := is_fat_dir fat_path v in Ret (Some b, v)
  | Ext2 ext2_path =>
      if negb (ext2_ready v) then Ret (Some false, v)
      else let! (b, v) := is_ext2_dir ext2_path v in Ret (Some b, v)
  | RamFS rpath =>
      if bool_decide (rpath = [SLASH]) then Ret (Some true, v)
      else let! b := listed v rpath in Ret (Some b, v)
  | Dev _ => Ret (Some false, v)
  | Proc rpath =>
      if bool_decide (rpath = str "/proc") then Ret (Some true, v)
      else let! b := listed v rpath in Ret (Some b, v)
  | DiskStore dpath => Ret (Some (is_store_root dpath), v)
  end.

(** The path as it is stored, in a buffer of [CWD_MAX] bytes: cut, and with a
    slash at its end where there is room. *)
(* @src fs/vfs.rs 237-248 vfs_chdir (norm) *)
Definition chdir_norm (path : list Z) : outcome (list Z * nat) :=
  let len := Nat.min (length path) (task.CWD_MAX - 1) in
  let! norm := copy_at (replicate task.CWD_MAX 0) 0 (take len path) in
  let! last := idx norm (len - 1) in
  if last =? SLASH then Ret (norm, len)
  else if (len <? task.CWD_MAX - 1)%nat then (let! norm := set_idx norm len SLASH in Ret (norm, S len))
  else Ret (norm, len).

(* @src fs/vfs.rs 203-258 vfs_chdir *)
Definition vfs_chdir (path : list Z) (t : task.Task) v : outcome (Z * task.Task * Files D) :=
  let! (e, v) := chdir_exists path v in
  match e with
  | None => Ret (-19, t, v)
  | Some false => Ret (-7, t, v)
  | Some true =>
      let! (norm, final_len) := chdir_norm path in
      let! cwd := copy_at (task.cwd t) 0 (take final_len norm) in
      Ret (0, task.set_cwd t cwd final_len, v)
  end.

(** ** Status *)

(** [let size = fat::file_size(fd); fat::close(fd)] *)
Definition fat_size (fd : Z) v : outcome (Z * Files D) :=
  let! size := fatfs.file_size (fat_of v) fd in
  let! (_, v) := on_fat (fun f => fatfs.close f fd) v in
  Ret (size, v).

(** The bytes of an ext2 file, counted by reading it to its end. A turn reads at
    least a byte, and a file has at most twelve blocks of 4096. *)
(* @src fs/vfs.rs 343-347 vfs_stat_linux (loop) *)
Fixpoint count_bytes (fuel : nat) (fd size : Z) (tmp : list Z) v : outcome (Z * Files D) :=
  match fuel with
  | O => Panic
  | S fuel =>
      let! (x, v) := on_ext2 (fun w => let! (n, tmp, w) := ext2fs.read_fd fd tmp w in Ret ((n, tmp), w)) v in
      let (n, tmp) := (x : Z * list Z) in
      if n <=? 0 then Ret (size, v)
      else let! size := cadd u64_max size n in count_bytes fuel fd size tmp v
  end.
Definition count_fuel : nat := S (12 * ext2.MAX_BLOCK).

Definition ext2_size (fd : Z) v : outcome (Z * Files D) :=
  let! (size, v) := count_bytes count_fuel fd 0 (replicate 512 0) v in
  let! (_, v) := on_ext2 (ext2fs.close fd) v in
  Ret (size, v).

(** The length of a record: [read_record] into a buffer of [RECORD_DATA_MAX] bytes. *)
Definition record_size (id : Z) v : outcome (option nat) :=
  let! (r, _) := read_record (stores v) 0 id (replicate RECORD_DATA_MAX 0) in Ret r.

(* @src fs/vfs.rs 352-380 vfs_stat_linux (RamFS, Proc) *)
Definition stat_ram_linux (file_ino dir_ino : Z) (path : list Z) v : outcome (Z * LinuxStat) :=
  match ram v with
  | None => Ret (-2, zeroed)
  | Some f =>
      let! d := read_file f path in
      match d with
      | Some data => let! s := fill_file (Z.of_nat (length data)) (file_ino + Z.of_nat (length path)) in Ret (0, s)
      | None =>
          let! dir := is_ram_dir f path in
          Ret (if (dir : bool) then (0, fill_dir (dir_ino + Z.of_nat (length path))) else (-2, zeroed))
      end
  end.

(** The result and the record that [out] points at, cleared first. *)
(* @src fs/vfs.rs 310-402 vfs_stat_linux *)
Definition vfs_stat_linux (s : Stats) (path : list Z) v : outcome (Z * LinuxStat * Files D) :=
  match resolve path with
  | Dev _ => Ret (0, fill_chardev 1, v)
  | Fat16 fat_path =>
      if negb (is_present v) then Ret (-19, zeroed, v)
      else
        let! dir := is_fat_dir fat_path v in
        if (dir : bool) then Ret (0, fill_dir 2, v)
        else
          let! (fd, v) := on_fat (fun f => fatfs.open f fat_path 0) v in
          if fd <? 0 then Ret (-2, zeroed, v)
          else
            let! (size, v) := fat_size fd v in
            let! st := fill_file size (100 + Z.of_nat (length fat_path)) in
            Ret (0, st, v)
  | Ext2 ext2_path =>
      if negb (ext2_ready v) then Ret (-19, zeroed, v)
      else
        let! (dir, v) := is_ext2_dir ext2_path v in
        if (dir : bool) then Ret (0, fill_dir 4, v)
        else
          let! (fd, v) := on_ext2 (ext2fs.open ext2_path 0) v in
          if fd <? 0 then Ret (-2, zeroed, v)
          else
            let! (size, v) := ext2_size fd v in
            let! st := fill_file size (200 + Z.of_nat (length ext2_path)) in
            Ret (0, st, v)
  | RamFS rpath => let! (r, st) := stat_ram_linux 300 400 rpath v in Ret (r, st, v)
  | Proc rpath =>
      let! f := procfs.refresh (ticks s) (alloc_frames s) (total_frames s) rpath (ram v) in
      let v := set_ram v f in
      let! (r, st) := stat_ram_linux 500 600 rpath v in
      Ret (r, st, v)
  | DiskStore dpath =>
      if is_store_root dpath then Ret (0, fill_dir 700, v)
      else
        match diskfs.parse_record_id dpath with
        | None => Ret (-2, zeroed, v)
        | Some id =>
            let! r := record_size id v in
            match r with
            | None => Ret (-2, zeroed, v)
            | Some len => let! st := fill_file (Z.of_nat len) (700 + id) in Ret (0, st, v)
            end
        end
  end.

(* @src fs/vfs.rs 448-476 vfs_stat (RamFS, Proc) *)
Definition stat_ram (path : list Z) (out : FileStat) v : outcome (Z * FileStat) :=
  match ram v with
  | None => Ret (-2, out)
  | Some f =>
      let! d := read_file f path in
      match d with
      | Some data => Ret (0, mkFileStat (Z.of_nat (length data)) (kind_code File) 0)
      | None =>
          let! dir := is_ram_dir f path in
          Ret (if (dir : bool) then (0, mkFileStat 0 (kind_code Directory) 0) else (-7, out))
      end
  end.

(* @src fs/vfs.rs 406-499 vfs_stat *)
Definition vfs_stat (s : Stats) (path : list Z) (out : FileStat) v : outcome (Z * FileStat * Files D) :=
  match resolve path with
  | Dev _ => Ret (0, mkFileStat 0 (kind_code Device) 0, v)
  | Fat16 fat_path =>
      if negb (is_present v) then Ret (-19, out, v)
      else
        let! dir := is_fat_dir fat_path v in
        if (dir : bool) then Ret (0, mkFileStat 0 (kind_code Directory) 0, v)
        else
          let! (fd, v) := on_fat (fun f => fatfs.open f fat_path 0) v in
          if fd <? 0 then Ret (-7, out, v)
          else
            let! (size, v) := fat_size fd v in
            Ret (0, mkFileStat size (kind_code File) 0, v)
  | Ext2 ext2_path =>
      if negb (ext2_ready v) then Ret (-19, out, v)
      else
        let! (dir, v) := is_ext2_dir ext2_path v in
        if (dir : bool) then Ret (0, mkFileStat 0 (kind_code Directory) 0, v)
        else
          let! (fd, v) := on_ext2 (ext2fs.open ext2_path 0) v in
          if fd <? 0 then Ret (-7, out, v)
          else
            let! (size, v) := ext2_size fd v in
            Ret (0, mkFileStat size (kind_code File) 0, v)
  | RamFS rpath => let! (r, st) := stat_ram rpath out v in Ret (r, st, v)
  | Proc rpath =>
      let! f := procfs.refresh (ticks s) (alloc_frames s) (total_frames s) rpath (ram v) in
      let v := set_ram v f in
      let! (r, st) := stat_ram rpath out v in
      Ret (r, st, v)
  | DiskStore dpath =>
      if is_store_root dpath then Ret (0, mkFileStat 0 (kind_code Directory) 0, v)
      else
        match diskfs.parse_record_id dpath with
        | None => Ret (-7, out, v)
        | Some id =>
            let! r := record_size id v in
            match r with
            | None => Ret (-7, out, v)
            | Some len => Ret (0, mkFileStat (Z.of_nat len) (kind_code File) 0, v)
            end
        end
  end.
End Vfs.
End vfs.
