(* ===== verification/VfsSpec.v ===== *)
(** * Properties of the virtual filesystem

    The status of an in-memory path is that of the node the path names; the two status
    functions agree; and the working directory is stored as it was given. *)

From stdpp Require Import base list gmap strings list_numbers.
From Stdlib Require Import ZArith Lia.
From S2P Require Import Prelude RamFs FdTable Task Mbr Fat FatOps DiskStore StoreFs Ext2 Ext2Ops Ext2Block Ext2Alloc Ext2Sample Vfs.

Local Open Scope Z_scope.

Module vfs_spec.
Import fs ramfs ramfs_spec vfs.
Import (hints) fd_spec.

(** ** Status *)

Section Status.
Context {D : Type} `{BlockDevice D}.
Implicit Types (v w : Files D).

(** The short record says what the long one says. *)
Definition mode_kind (mode : Z) : StatKind :=
  let ty := Z.land mode 0xF000 in if ty =? S_IFREG then File else if ty =? S_IFDIR then Directory else Device.
Definition agrees (st : LinuxStat) (out : FileStat) : Prop :=
  st_size st = swrap 64 (size out) /\ kind out = kind_code (mode_kind (st_mode st)) /\ pad out = 0.

(** The results of the two functions side by side. *)
Definition same_answer (out : FileStat) (r : Z) (st : LinuxStat) (r' : Z) (o : FileStat) : Prop :=
  (r' = 0 <-> r = 0) /\ (r = 0 -> agrees st o) /\ (r <> 0 -> st = zeroed /\ o = out).

Lemma same_file out n ino st : fill_file n ino = Ret st -> same_answer out 0 st 0 (mkFileStat n (kind_code File) 0).
Proof. unfold fill_file. intros (m & _ & [= <-])%bind_Ret. by repeat split. Qed.
Lemma same_dir out ino : same_answer out 0 (fill_dir ino) 0 (mkFileStat 0 (kind_code Directory) 0).
Proof. by repeat split. Qed.
Lemma same_error out r r' : r <> 0 -> r' <> 0 -> same_answer out r zeroed r' out.
Proof. by repeat split. Qed.

Ltac same := first [by eapply same_file|apply same_dir|by apply same_error].

Lemma stat_ram_agree v file_ino dir_ino path out r st : stat_ram_linux file_ino dir_ino path v = Ret (r, st) ->
  exists r' o, stat_ram path out v = Ret (r', o) /\ same_answer out r st r' o.
Proof.
  unfold stat_ram_linux, stat_ram. destruct (ram v) as [f|]; [|intros [= <- <-]; eexists _, _; split; [done|same]].
  intros (d & -> & Hr)%bind_Ret. cbn [mbind outcome_mbind]. destruct d as [bytes|].
  - apply bind_Ret in Hr as (x & Hx & [= <- <-]). eexists _, _. split; [done|same].
  - apply bind_Ret in Hr as ([] & -> & [= <- <-]); cbn [mbind outcome_mbind]; eexists _, _; (split; [done|same]).
Qed.

(** The two status functions of the kernel agree: whenever the Linux one
    returns, the short one returns too, with the same effect on the filesystems;
    both succeed or both fail, on success the kinds and sizes are the same, and
    on failure neither reports anything. *)
Theorem stat_functions_agree s path out v r st w : vfs_stat_linux s path v = Ret (r, st, w) ->
  exists r' o, vfs_stat s path out v = Ret (r', o, w) /\ same_answer out r st r' o.
Proof.
  unfold vfs_stat_linux, vfs_stat. intros Hr. destruct (resolve path) as [p|p|p|d|p|p].
  - apply bind_Ret in Hr as ([r1 st1] & E & [= <- <- <-]). destruct (stat_ram_agree v 300 400 p out r1 st1 E) as (r' & o & -> & S). by exists r', o.
  - destruct (negb (is_present v)); [injection Hr as <- <- <-; eexists _, _; split; [done|same]|].
    apply bind_Ret in Hr as ([] & -> & Hr); cbn [mbind outcome_mbind].
    { injection Hr as <- <- <-. eexists _, _. split; [done|same]. }
    apply bind_Ret in Hr as ([fd u] & -> & Hr). cbn [mbind outcome_mbind]. destruct (fd <? 0).
    { injection Hr as <- <- <-. eexists _, _. split; [done|same]. }
    apply bind_Ret in Hr as ([n u'] & -> & Hr). cbn [mbind outcome_mbind]. apply bind_Ret in Hr as (x & Hx & [= <- <- <-]).
    eexists _, _. split; [done|same].
  - destruct (negb (ext2_ready v)); [injection Hr as <- <- <-; eexists _, _; split; [done|same]|].
    apply bind_Ret in Hr as ([[] u0] & -> & Hr); cbn [mbind outcome_mbind].
    { injection Hr as <- <- <-. eexists _, _. split; [done|same]. }
    apply bind_Ret in Hr as ([fd u] & -> & Hr). cbn [mbind outcome_mbind]. destruct (fd <? 0).
    { injection Hr as <- <- <-. eexists _, _. split; [done|same]. }
    apply bind_Ret in Hr as ([n u'] & -> & Hr). cbn [mbind outcome_mbind]. apply bind_Ret in Hr as (x & Hx & [= <- <- <-]).
    eexists _, _. split; [done|same].
  - injection Hr as <- <- <-. eexists _, _. split; [done|]. by repeat split.
  - apply bind_Ret in Hr as (f & -> & Hr). cbn [mbind outcome_mbind] in *. apply bind_Ret in Hr as ([r1 st1] & E & [= <- <- <-]).
    destruct (stat_ram_agree (set_ram v f) 500 600 p out r1 st1 E) as (r' & o & -> & S). by exists r', o.
  - destruct (is_store_root p); [injection Hr as <- <- <-; eexists _, _; split; [done|same]|].
    destruct (diskfs.parse_record_id p) as [id|]; [|injection Hr as <- <- <-; eexists _, _; split; [done|same]].
    apply bind_Ret in Hr as ([len|] & -> & Hr); cbn [mbind outcome_mbind]; [|injection Hr as <- <- <-; eexists _, _; split; [done|same]].
    apply bind_Ret in Hr as (x & Hx & [= <- <- <-]). eexists _, _. split; [done|same].
Qed.

(** ** In-memory paths *)

Lemma set_ram_same v f : ram v = Some f -> set_ram v (Some f) = v.
Proof. destruct v. cbn. by intros ->. Qed.

Lemma read_file_view f path : wf f -> read_file f path =
  Ret (match view f (comps path) with Some (AFile bytes) => Some bytes | _ => None end).
Proof.
  intros W. unfold read_file. destruct (resolve_cases f path W) as [(-> & ->)|(i & n & -> & _ & Hn & ->)]; [done|].
  apply idx_Ret in Hn as ->. cbn. rewrite is_dir_node_of. destruct (node_of n) eqn:Hk; [done|]. by apply node_of_file in Hk as [_ <-].
Qed.

Lemma is_ram_dir_view f path : wf f -> is_ram_dir f path = Ret (bool_decide (view f (comps path) = Some ADir)).
Proof.
  intros W. unfold is_ram_dir, list_dir. destruct (resolve_cases f path W) as [(-> & ->)|(i & n & -> & _ & Hn & ->)]; [done|].
  apply idx_Ret in Hn as ->. cbn. rewrite is_dir_node_of. by destruct (node_of n).
Qed.

Lemma has_none b : fdtable.has 0 b = false.
Proof. unfold fdtable.has. by rewrite Z.land_0_l. Qed.

Lemma open_plain f path t n : wf f -> view f (comps path) = Some n -> n <> ADir -> forall fd, fdtable.alloc_fd t = Some fd -> (fd < length t)%nat ->
  exists i nd, fdtable.open t path 0 f = Ret (Z.of_nat fd, <[fd := Some (fdtable.ramfs_entry i 0 false false)]> t, f) /\
    inodes f !! i = Some nd /\ node_of nd = n.
Proof.
  intros W Hv Hn fd Ha Hlt. unfold fdtable.open, fdtable.open_inode. rewrite !has_none. cbn [orb].
  destruct (resolve_cases f path W) as [(_ & E)|(i & nd & Hr & _ & Hi & E)]; [congruence|].
  rewrite E in Hv. injection Hv as Hv. unfold pbind, get. rewrite Hr. cbn [ok mbind outcome_mbind]. rewrite Ha.
  apply idx_Ret in Hi as Hi'. rewrite Hi'. cbn [mbind outcome_mbind]. rewrite set_idx_lt by done. exists i, nd. by subst.
Qed.

(** What [stat] says of an in-memory path, opening and reading it confirm. A
    file is reported as a regular file of its length, opens for reading without
    changing anything, and reads as its bytes; a directory is reported as one; and
    for a name that is not there both calls report that it is missing. *)
Theorem stat_open_and_read_agree {F E : Type} `{RawFile F} `{RawFile E} s path v f t fd (d : fdtable.devs F E) :
  resolve path = RamFS path -> ram v = Some f -> wf f -> fdtable.alloc_fd t = Some fd -> length t = fdtable.MAX_FD -> 
  match view f (comps path) with
  | Some (AFile bytes) => Z.of_nat (length bytes) + 511 <= fdtable.i64_max ->
      exists st t' t'', vfs_stat_linux s path v = Ret (0, st, v) /\
        st_mode st = Z.lor S_IFREG 0x1A4 /\ st_size st = Z.of_nat (length bytes) /\
        vfs_open s path 0 t v = Ret (Z.of_nat fd, t', v) /\
        fdtable.read_fd t' f (Z.of_nat fd) (replicate (length bytes) 0) d = Ret (st_size st, bytes, t'', d)
  | Some ADir => exists st, vfs_stat_linux s path v = Ret (0, st, v) /\ st_mode st = Z.lor S_IFDIR 0x1ED
  | None => vfs_stat_linux s path v = Ret (-2, zeroed, v) /\ vfs_open s path 0 t v = Ret (-2, t, v)
  end.
Proof.
  intros Hp Hram W Ha Hlen. unfold vfs_stat_linux, vfs_open, open_ram, open_ram_file, stat_ram_linux. rewrite Hp, Hram.
  rewrite (read_file_view f path W), (is_ram_dir_view f path W). cbn [mbind outcome_mbind].
  assert (Hfd : (fd < length t)%nat).
  { unfold fdtable.alloc_fd in Ha. apply fmap_Some in Ha as (k & Hk & ->). apply position_lt in Hk. rewrite length_drop in Hk. lia. }
  destruct (view f (comps path)) as [[|bytes]|] eqn:Hv.
  - eexists. split; [by rewrite bool_decide_eq_true_2|done].
  - intros Hb. destruct (open_plain f path t _ W Hv ltac:(done) fd Ha Hfd) as (i & nd & Ho & Hi & Hnd).
    apply node_of_file in Hnd as [Hk <-]. rewrite bool_decide_eq_false_2 by done. cbn [mbind outcome_mbind]. rewrite Ho. cbn [mbind outcome_mbind].
    rewrite (set_ram_same v f Hram). unfold fill_file. rewrite cadd_le by (unfold u64_max, fdtable.i64_max in *; lia). cbn [mbind outcome_mbind].
    assert (Hsz : swrap 64 (Z.of_nat (length (data nd))) = Z.of_nat (length (data nd))).
    { unfold swrap, fdtable.i64_max in *. rewrite Z.mod_small by lia. destruct (Z.ltb_spec (Z.of_nat (length (data nd))) (2 ^ (64 - 1))); lia. }
    eexists _, _, _. split; [done|]. split; [done|]. split; [done|]. split; [done|]. cbn [st_size]. rewrite Hsz.
    rewrite (fd_spec.read_fd_spec (<[fd := Some (fdtable.ramfs_entry i 0 false false)]> t) f d fd (fdtable.ramfs_entry i 0 false false) nd);
      [|lia|by apply list_lookup_insert_eq|done|done|done|cbn; lia|unfold u64_max, fdtable.i64_max in *; lia].
    cbn [fdtable.offset fdtable.ramfs_entry]. change (Z.to_nat 0) with 0%nat. rewrite drop_0, length_replicate, take_ge by done.
    unfold splice. rewrite take_0, app_nil_l, drop_ge by (rewrite ?length_replicate; lia). by rewrite app_nil_r.
  - split; [by rewrite bool_decide_eq_false_2|]. rewrite bool_decide_eq_false_2 by done. cbn [mbind outcome_mbind].
    unfold fdtable.open, fdtable.open_inode. rewrite !has_none. unfold pbind, get.
    destruct (resolve_cases f path W) as [(-> & _)|(i & nd & _ & _ & _ & E')]; [|congruence]. cbn. by rewrite (set_ram_same v f Hram).
Qed.
End Status.

(** ** The working directory *)

(** What is stored: the path with a slash at its end. *)
Definition slashed (path : list Z) : list Z := if bool_decide (last path = Some SLASH) then path else path ++ [SLASH].

Lemma chdir_norm_ok path : path <> [] -> (length path < 127)%nat ->
  exists norm, chdir_norm path = Ret (norm, length (slashed path)) /\ take (length (slashed path)) norm = slashed path.
Proof.
  intros Hne Hlen. unfold chdir_norm, task.CWD_MAX. rewrite (Nat.min_l _ (128 - 1)), take_ge by lia.
  rewrite copy_at_le by (rewrite length_replicate; lia). cbn [mbind outcome_mbind]. set (norm := splice (replicate 128 0) 0 path).
  assert (Hn : length norm = 128%nat) by (unfold norm; rewrite length_splice; rewrite length_replicate; lia).
  assert (Hpre : forall i, (i < length path)%nat -> norm !! i = path !! i).
  { intros i Hi. unfold norm, splice. rewrite take_0, app_nil_l. by apply lookup_app_l. }
  assert (Htake : take (length path) norm = path).
  { apply list_eq. intros i. destruct (decide (i < length path)%nat); [by rewrite lookup_take_lt, Hpre|].
    rewrite !(proj2 (lookup_ge_None _ _)); [done|lia|rewrite length_take; lia]. }
  assert (exists x, last path = Some x) as [x Hx] by (destruct (last path) eqn:E; [eauto|by apply last_None in E]).
  assert (Hi : norm !! (length path - 1)%nat = Some x).
  { rewrite Hpre by (destruct path; cbn; [done|lia]). rewrite <- Hx, last_lookup. f_equal. lia. }
  apply idx_Ret in Hi as ->. cbn [mbind outcome_mbind]. unfold slashed. rewrite Hx.
  destruct (Z.eqb_spec x SLASH) as [->|Hne'].
  - rewrite bool_decide_eq_true_2 by done. by exists norm.
  - rewrite bool_decide_eq_false_2 by congruence. destruct (Nat.ltb_spec (length path) (128 - 1)); [|lia].
    rewrite set_idx_lt by lia. cbn [mbind outcome_mbind]. rewrite length_app. exists (<[length path := SLASH]> norm).
    split; [by rewrite Nat.add_comm|]. rewrite take_insert_lt by (cbn; lia).
    rewrite Nat.add_comm. cbn [length Nat.add]. rewrite (take_S_r _ _ (default 0 (norm !! length path))).
    + rewrite Htake, insert_app_r_alt by lia. by rewrite Nat.sub_diag.
    + destruct (norm !! length path) eqn:E; [done|]. apply lookup_ge_None in E. lia.
Qed.

(** ** Files that cannot be examined *)

#[local] Opaque ext2_sample.mounted.

Definition sample_files : Files RamDisk :=
  mkFiles None (fatfs.new tt) (ext2.mkExt2 (ext2.state ext2_sample.mounted) (ext2.scratch ext2_sample.mounted) tt)
    (disk_store.mkStores (replicate 4 false) [None; None; None; Some (ext2.disk ext2_sample.mounted)]).

Fixpoint open_times (n : nat) (path : list Z) (flags : Z) t (v : Files RamDisk) : outcome (list Z * Files RamDisk) :=
  match n with
  | O => Ret ([], v)
  | S n' =>
      let! (fd, t, v) := vfs_open (mkStats 0 0 0) path flags t v in
      let! (fds, v) := open_times n' path flags t v in Ret (fd :: fds, v)
  end.

(** Examining an ext2 file needs a free slot of the driver's descriptor table:
    when programs hold all sixteen, [stat] of a file that is there reports that it
    does not exist. *)
Theorem stat_needs_a_free_descriptor :
  (let! (fds, v) := open_times 16 (str "/ext2/a") 66 fdtable.new sample_files in
   let! (r, st, v) := vfs_stat_linux (mkStats 0 0 0) (str "/ext2/a") v in
   let! (fds1, v1) := open_times 15 (str "/ext2/a") 66 fdtable.new sample_files in
   let! (r1, st1, v1) := vfs_stat_linux (mkStats 0 0 0) (str "/ext2/a") v1 in
   Ret (forallb (fun fd => 0 <=? fd) fds, r, r1)) = Ret (true, -2, 0).
Proof. vm_compute. reflexivity. Qed.

(** ** Witnesses *)

Definition hello_files : Files RamDisk := set_ram sample_files (Some fd_spec.hello).

Lemma stat_functions_agree_witness : exists st o,
  vfs_stat_linux (mkStats 0 0 0) (str "/h") hello_files = Ret (0, st, hello_files) /\
  vfs_stat (mkStats 0 0 0) (str "/h") (mkFileStat 9 9 9) hello_files = Ret (0, o, hello_files) /\ agrees st o.
Proof.
  assert (Hs : exists st, vfs_stat_linux (mkStats 0 0 0) (str "/h") hello_files = Ret (0, st, hello_files)) by (eexists; reflexivity).
  destruct Hs as [st Hs]. exists st.
  destruct (stat_functions_agree (mkStats 0 0 0) (str "/h") (mkFileStat 9 9 9) hello_files 0 st hello_files Hs) as (r' & o & Ho & Hr & Ha & _).
  exists o. rewrite (proj2 Hr eq_refl) in Ho. split; [exact Hs|]. split; [exact Ho|exact (Ha eq_refl)].
Defined.

Lemma stat_open_and_read_agree_witness : exists st t' t'',
  vfs_stat_linux (mkStats 0 0 0) (str "/h") hello_files = Ret (0, st, hello_files) /\ st_size st = 3 /\
  vfs_open (mkStats 0 0 0) (str "/h") 0 fdtable.new hello_files = Ret (3, t', hello_files) /\
  fdtable.read_fd t' fd_spec.hello 3 [0; 0; 0] fd_spec.idle = Ret (st_size st, [1; 2; 3], t'', fd_spec.idle).
Proof.
  destruct (stat_open_and_read_agree (mkStats 0 0 0) (str "/h") hello_files fd_spec.hello fdtable.new 3 fd_spec.idle) as (st & t' & t'' & Hs & _ & Hn & Ho & Hr);
    [reflexivity|reflexivity|exact fd_spec.hello_wf|reflexivity|reflexivity|vm_compute; discriminate|].
  exists st, t', t''. split; [exact Hs|]. split; [exact Hn|]. split; [exact Ho|exact Hr].
Defined.
End vfs_spec.
