(* ===== verification/Tty.v ===== *)
(** * The terminal settings (kernel/src/kernel/proc/tty.rs)

    Module [tty] translates the terminal's settings and its [ioctl] requests; all
    descriptors share one terminal. Structures go to and from the memory of the
    running program as their bytes, in the layout of [repr(C)]. *)

From stdpp Require Import base list gmap strings list_numbers.
From Stdlib Require Import ZArith Lia.
From S2P Require Import Prelude ElfLoader Task Sched ProcCalls.

Local Open Scope Z_scope.

Module tty.
Import task sched proc_calls.

(* @src proc/tty.rs 20-27 TCGETS *)
Inductive request := TCGETS | TCSETS | TCSETSW | TCSETSF | TIOCGPGRP | TIOCSPGRP | TIOCGWINSZ | TIOCSWINSZ.
Definition request_number (r : request) : Z :=
  match r with
  | TCGETS => 0x5401 | TCSETS => 0x5402 | TCSETSW => 0x5403 | TCSETSF => 0x5404
  | TIOCGPGRP => 0x540F | TIOCSPGRP => 0x5410 | TIOCGWINSZ => 0x5413 | TIOCSWINSZ => 0x5414
  end.
Definition request_of (n : Z) : option request :=
  find (fun r => request_number r =? n) [TCGETS; TCSETS; TCSETSW; TCSETSF; TIOCGPGRP; TIOCSPGRP; TIOCGWINSZ; TIOCSWINSZ].

(* @src proc/tty.rs 31-37 ISIG *)
Definition ISIG : Z := 0x0001.
Definition ICANON : Z := 0x0002.
Definition ECHO : Z := 0x0008.
Definition ECHOE : Z := 0x0010.
Definition ECHOK : Z := 0x0020.
(* @src proc/tty.rs 41-42 ICRNL *)
Definition ICRNL : Z := 0x0100.
Definition IXON : Z := 0x0400.
(* @src proc/tty.rs 46-47 OPOST *)
Definition OPOST : Z := 0x0001.
Definition ONLCR : Z := 0x0004.

(* @src proc/tty.rs 65-73 Termios *)
Record Termios := mkTermios {
  c_iflag : Z;
  c_oflag : Z;
  c_cflag : Z;
  c_lflag : Z;
  c_line : Z;
  c_cc : list Z;
  pad : list Z;
}.

(* @src proc/tty.rs 78-83 Winsize *)
Record Winsize := mkWinsize { ws_row : Z; ws_col : Z; ws_xpixel : Z; ws_ypixel : Z }.

(* @src proc/tty.rs 113-116 TtyState *)
Record TtyState := mkTty { termios : Termios; winsize : Winsize }.

Definition cooked (cc : list Z) : Termios :=
  mkTermios (Z.lor ICRNL IXON) (Z.lor OPOST ONLCR) 0x00BF
    (Z.lor (Z.lor (Z.lor (Z.lor ISIG ICANON) ECHO) ECHOE) ECHOK) 0 cc [0; 0; 0].

(* @src proc/tty.rs 86-104 default_termios *)
Definition default_termios : Termios :=
  cooked (<[7%nat := 0]> (<[6%nat := 1]> (<[4%nat := 4]> (<[3%nat := 21]> (<[2%nat := 127]> (<[1%nat := 28]> (<[0%nat := 3]> (replicate 32 0)))))))).

(* @src proc/tty.rs 107-109 DEFAULT_WINSIZE *)
Definition DEFAULT_WINSIZE : Winsize := mkWinsize 24 80 720 384.

(* @src proc/tty.rs 119-121 TtyState::new *)
Definition new : TtyState := mkTty default_termios DEFAULT_WINSIZE.

(* @src proc/tty.rs 124-135 TTY *)
Definition TTY : TtyState := mkTty (cooked (replicate 32 0)) DEFAULT_WINSIZE.

(** The structures in memory: 52 and 8 bytes. *)
Definition termios_bytes (t : Termios) : list Z :=
  le_encode 4 (c_iflag t) ++ le_encode 4 (c_oflag t) ++ le_encode 4 (c_cflag t) ++ le_encode 4 (c_lflag t) ++
  [c_line t] ++ c_cc t ++ pad t.
Definition word (b : list Z) (i n : nat) : Z := le_decode (take n (drop i b)).
Definition termios_of_bytes (b : list Z) : Termios :=
  mkTermios (word b 0 4) (word b 4 4) (word b 8 4) (word b 12 4) (word b 16 1) (take 32 (drop 17 b)) (take 3 (drop 49 b)).
Definition winsize_bytes (w : Winsize) : list Z :=
  le_encode 2 (ws_row w) ++ le_encode 2 (ws_col w) ++ le_encode 2 (ws_xpixel w) ++ le_encode 2 (ws_ypixel w).
Definition winsize_of_bytes (b : list Z) : Winsize := mkWinsize (word b 0 2) (word b 2 2) (word b 4 2) (word b 6 2).

Definition termios_size : Z := 52.
Definition winsize_size : Z := 8.

Section Ioctl.
Context {W : Type} `{UserSpace W} `{ProcMemory W}.
Implicit Types (k : Kst (W := W)) (s : TtyState).

(** [read_unaligned] and [write_unaligned] at an address of the running program. *)
Definition load (a : Z) (n : nat) k : outcome (list Z) := let! t := cur k in peek_bytes (um k) (cr3 t) a n.
Definition store (a : Z) (bs : list Z) k : outcome Kst := let! t := cur k in write_bytes (cr3 t) a bs k.

(* @src proc/tty.rs 147-225 ioctl *)
Definition ioctl (req arg : Z) s k : outcome (Z * TtyState * Kst) :=
  match request_of req with
  | Some TCGETS =>
      if negb (validate_user_range arg termios_size) then Ret (-1, s, k)
      else let! k := store arg (termios_bytes (termios s)) k in Ret (0, s, k)
  | Some (TCSETS | TCSETSW | TCSETSF) =>
      if negb (validate_user_range arg termios_size) then Ret (-1, s, k)
      else let! b := load arg 52 k in Ret (0, mkTty (termios_of_bytes b) (winsize s), k)
  | Some TIOCGWINSZ =>
      if negb (validate_user_range arg winsize_size) then Ret (-1, s, k)
      else let! k := store arg (winsize_bytes (winsize s)) k in Ret (0, s, k)
  | Some TIOCSWINSZ =>
      if negb (validate_user_range arg winsize_size) then Ret (-1, s, k)
      else let! b := load arg 8 k in Ret (0, mkTty (termios s) (winsize_of_bytes b), k)
  | Some TIOCGPGRP =>
      if negb (validate_user_range arg 4) then Ret (-1, s, k)
      else
        let! p := current_pid k in
        let! k := store arg (le_encode 4 (wrap 32 p)) k in Ret (0, s, k)
  | Some TIOCSPGRP => Ret (0, s, k)
  | None => Ret (-1, s, k)
  end.
End Ioctl.

(* @src proc/tty.rs 228-230 is_canonical *)
Definition is_canonical (s : TtyState) : bool := negb (Z.land (c_lflag (termios s)) ICANON =? 0).
(* @src proc/tty.rs 233-235 is_echo *)
Definition is_echo (s : TtyState) : bool := negb (Z.land (c_lflag (termios s)) ECHO =? 0).
End tty.

(** ** Properties *)

Module tty_spec.
Import task sched proc_calls tty.

Lemma word_bound b i n : Forall is_byte b -> 0 <= word b i n < 256 ^ Z.of_nat n.
Proof.
  intros Hb. unfold word. pose proof (le_decode_bound (take n (drop i b)) ltac:(by apply Forall_take, Forall_drop)) as Hd.
  assert (256 ^ Z.of_nat (length (take n (drop i b))) <= 256 ^ Z.of_nat n); [|lia].
  apply Z.pow_le_mono_r; [lia|]. rewrite length_take. lia.
Qed.

Lemma encode_word b i n : Forall is_byte b -> (i + n <= length b)%nat -> le_encode n (word b i n) = take n (drop i b).
Proof.
  intros Hb Hl. unfold word. rewrite <- (le_encode_decode (take n (drop i b))) at 2 by by apply Forall_take, Forall_drop.
  f_equal. rewrite length_take, length_drop. lia.
Qed.

Lemma termios_round_trip b : length b = 52%nat -> Forall is_byte b -> termios_bytes (termios_of_bytes b) = b.
Proof.
  intros Hl Hb. unfold termios_bytes, termios_of_bytes. cbn [c_iflag c_oflag c_cflag c_lflag c_line c_cc pad].
  rewrite !encode_word by (done || lia).
  assert (He : [word b 16 1] = take 1 (drop 16 b)) by (rewrite <- (encode_word b 16 1) by (done || lia); cbn; pose proof (word_bound b 16 1 Hb); by rewrite Z.mod_small by (cbn in *; lia)).
  rewrite He. rewrite (take_drop_app b 17 32 3 49 35) by done.
  rewrite (take_drop_app b 16 1 35 17 36), (take_drop_app b 12 4 36 16 40) by done.
  rewrite (take_drop_app b 8 4 40 12 44), (take_drop_app b 4 4 44 8 48) by done.
  rewrite (take_drop_app b 0 4 48 4 52), drop_0 by done. by apply take_ge; lia.
Qed.

Lemma winsize_round_trip b : length b = 8%nat -> Forall is_byte b -> winsize_bytes (winsize_of_bytes b) = b.
Proof.
  intros Hl Hb. unfold winsize_bytes, winsize_of_bytes. cbn [ws_row ws_col ws_xpixel ws_ypixel]. rewrite !encode_word by (done || lia).
  rewrite (take_drop_app b 4 2 2 6 4) by done.
  rewrite (take_drop_app b 2 2 4 4 6), (take_drop_app b 0 2 6 2 8), drop_0 by done. by apply take_ge; lia.
Qed.

Section Requests.
Context {W : Type} `{UserSpaceLaws W} `{ProcMemory W}.
Implicit Types (k : Kst (W := W)) (s : TtyState).

(** The bytes of programs are bytes. *)
Definition byte_memory k : Prop := forall c a b, us_peek (um k) c a = Some b -> is_byte b.

Lemma load_bytes a n k b : byte_memory k -> load a n k = Ret b -> length b = n /\ Forall is_byte b.
Proof.
  intros Hm (t & _ & [Hl Hb]%peek_bytes_Ret)%bind_Ret. split; [done|]. apply Forall_lookup_2. intros i x Hi.
  pose proof (lookup_lt_Some _ _ _ Hi). rewrite <- Hb in Hi by lia. by eapply Hm.
Qed.

(** What a program that sets the terminal changes: the flags for echo and line input are bits 3
    and 1 of the fourth word of its bytes, and the window size stays; or the other way round. *)
Definition effect (get : request) (bytes : list Z) (s s' : TtyState) : Prop :=
  match get with
  | TCGETS => winsize s' = winsize s /\
      is_echo s' = Z.testbit (le_decode (take 4 (drop 12 bytes))) 3 /\ is_canonical s' = Z.testbit (le_decode (take 4 (drop 12 bytes))) 1
  | _ => termios s' = termios s /\ ws_row (winsize s') = le_decode (take 2 bytes) /\ ws_col (winsize s') = le_decode (take 2 (drop 2 bytes))
  end.

End Requests.

(** The kernel starts with no control characters set: the settings it starts with
    are not those of [TtyState::new], which nothing uses. *)
Lemma boot_settings_have_no_control_characters : c_cc (termios TTY) = replicate 32 0 /\ c_cc (termios new) !! 0%nat = Some 3 /\ TTY <> new.
Proof. split_and!; [done|done|]. intros [=]. Qed.

(** ** Witnesses *)

Definition page_of_a : Z -> Z -> option Z := fun _ a => if (4096 <=? a) && (a <? 8192) then Some 65 else None.
Definition one_page : Kst := set_um sched.boot page_of_a.

Lemma one_page_bytes : byte_memory one_page.
Proof. intros c a b. cbn. unfold page_of_a. destruct (_ && _); [|done]. intros [= <-]. unfold is_byte. lia. Qed.

Lemma one_page_mapped c a n : 4096 <= a -> a + Z.of_nat n <= 8192 -> mapped (um one_page) c a n.
Proof.
  intros H1 H2 i Hi. exists 65. cbn. unfold page_of_a.
  destruct (Z.leb_spec 4096 (a + Z.of_nat i)); [|lia]. destruct (Z.ltb_spec (a + Z.of_nat i) 8192); [done|lia].
Qed.

End tty_spec.
