(* ===== verification/Dispatch.v ===== *)
(** * The dispatcher of system calls (kernel/src/kernel/sys/syscall_core.rs)

    Module [syscall_core] translates the numbering of the calls, the checks on
    their arguments and their forwarding to a runtime. The methods of the trait
    [SyscallRuntime] are the constructors of [method]; a runtime answers them. A
    call that leaves user mode for the scheduler is an [Err] with the code it
    leaves, so that nothing after it is done.

    A slice made from a pointer and a length of the caller is that pair. The three
    accesses the dispatcher makes itself are [read_byte], [write_bytes] and
    [is_page_mapped]. The methods for tracing are left out. *)

From stdpp Require Import base list gmap strings list_numbers.
From Stdlib Require Import ZArith Lia.
From S2P Require Import Prelude RamFs ProcCalls.

Local Open Scope Z_scope.

Module syscall_core.

(* @src sys/syscall_core.rs 9-9 TIMER_HZ *)
Definition TIMER_HZ : Z := 100.

(* @src sys/syscall_core.rs 18-168 Syscall *)
Inductive Syscall :=
  | Read | Write | Open | Close | Stat | Fstat | Pread64 | Pwrite64 | Writev | Access | SchedYield
  | Msync | Mincore | Madvise | Shmctl | Dup | Pause | Getitimer | Alarm | Setitimer | Sendfile | Vfork
  | Flock | Fsync | Fdatasync | Sync | Ftruncate | Fchdir | Rmdir | Creat | Readlink | Fchmod | Fchown
  | Lchown | Umask | Getrlimit | Getrusage | Sysinfo | Times | Syslog | Setpgid | Getpgrp | Setsid
  | Setreuid | Setregid | Getgroups | Setresuid | Getresuid | Setresgid | Getresgid | Getpgid
  | Prlimit64 | Select | Poll | Pselect6 | Mmap | Munmap | Brk | Sigaction | Sigreturn | Ioctl | Pipe
  | Dup2 | Sleep | GetPid | Socket | Connect | Accept | Sendto | Recvfrom | Bind | Listen | Fork | Exec
  | Exit | Wait | Kill | Uname | Fcntl | Truncate | ReadDir | Getcwd | Chdir | Rename | Mkdir | Unlink
  | Chmod | Chown | Lseek | Lstat | Readv | Mremap | Sigprocmask | SigPending | SigSuspend | GetTime
  | Mprotect | Getppid | Getuid | Getgid | Setuid | Setgid | Geteuid | Getegid | Gettid | Futex
  | ArchPrctl | SetTidAddress | ClockGettime | ExitGroup | Openat | Pipe2 | Shmget | Shmat | Shmdt
  | Print | GetChar | GetSystemInfo | Getenv | Setenv | ExecArgs | Send | Recv | CloseSocket
  | MsgqCreate | Msgsnd | Msgrcv | MsgqDestroy | MsgrcvWait | MsgqLen | GuiCreate | GuiDestroy
  | GuiFillRect | GuiDrawText | GuiPresent | GuiPollEvent | GuiGetSize | GuiBlitShm | InstallQuery
  | InstallBegin | DnsResolve | Invalid.
(** [syscall as u64], the discriminants of the enumeration. *)
(* @src sys/syscall_core.rs 20-171 Syscall *)
Definition number (s : Syscall) : Z :=
  match s with
  | Read => 0 | Write => 1 | Open => 2 | Close => 3 | Stat => 4 | Fstat => 5 | Pread64 => 17
  | Pwrite64 => 18 | Writev => 20 | Access => 21 | SchedYield => 24 | Msync => 26 | Mincore => 27
  | Madvise => 28 | Shmctl => 31 | Dup => 32 | Pause => 34 | Getitimer => 36 | Alarm => 37
  | Setitimer => 38 | Sendfile => 40 | Vfork => 58 | Flock => 73 | Fsync => 74 | Fdatasync => 75
  | Sync => 162 | Ftruncate => 77 | Fchdir => 81 | Rmdir => 84 | Creat => 85 | Readlink => 89
  | Fchmod => 91 | Fchown => 93 | Lchown => 94 | Umask => 95 | Getrlimit => 97 | Getrusage => 98
  | Sysinfo => 99 | Times => 100 | Syslog => 103 | Setpgid => 109 | Getpgrp => 111 | Setsid => 112
  | Setreuid => 113 | Setregid => 114 | Getgroups => 115 | Setresuid => 117 | Getresuid => 118
  | Setresgid => 119 | Getresgid => 120 | Getpgid => 121 | Prlimit64 => 302 | Select => 23 | Poll => 7
  | Pselect6 => 270 | Mmap => 9 | Munmap => 11 | Brk => 12 | Sigaction => 13 | Sigreturn => 15
  | Ioctl => 16 | Pipe => 22 | Dup2 => 33 | Sleep => 35 | GetPid => 39 | Socket => 41 | Connect => 42
  | Accept => 43 | Sendto => 44 | Recvfrom => 45 | Bind => 49 | Listen => 50 | Fork => 57 | Exec => 59
  | Exit => 60 | Wait => 61 | Kill => 62 | Uname => 63 | Fcntl => 72 | Truncate => 76 | ReadDir => 78
  | Getcwd => 79 | Chdir => 80 | Rename => 82 | Mkdir => 83 | Unlink => 87 | Chmod => 90 | Chown => 92
  | Lseek => 8 | Lstat => 6 | Readv => 19 | Mremap => 25 | Sigprocmask => 14 | SigPending => 127
  | SigSuspend => 130 | GetTime => 96 | Mprotect => 10 | Getppid => 110 | Getuid => 102 | Getgid => 104
  | Setuid => 105 | Setgid => 106 | Geteuid => 107 | Getegid => 108 | Gettid => 186 | Futex => 202
  | ArchPrctl => 158 | SetTidAddress => 218 | ClockGettime => 228 | ExitGroup => 231 | Openat => 257
  | Pipe2 => 293 | Shmget => 29 | Shmat => 30 | Shmdt => 67 | Print => 400 | GetChar => 401
  | GetSystemInfo => 402 | Getenv => 403 | Setenv => 404 | ExecArgs => 405 | Send => 406 | Recv => 407
  | CloseSocket => 408 | MsgqCreate => 415 | Msgsnd => 416 | Msgrcv => 417 | MsgqDestroy => 418
  | MsgrcvWait => 419 | MsgqLen => 420 | GuiCreate => 425 | GuiDestroy => 426 | GuiFillRect => 427
  | GuiDrawText => 428 | GuiPresent => 429 | GuiPollEvent => 430 | GuiGetSize => 431
  | GuiBlitShm => 432 | InstallQuery => 433 | InstallBegin => 434 | DnsResolve => 435
  | Invalid => u64_max
  end.

(* @src sys/syscall_core.rs 174-319 Syscall::name *)
Definition name (s : Syscall) : list Z :=
  str (match s with
    | Exit => "exit" | Fork => "fork" | Wait => "wait" | GetPid => "getpid" | Exec => "exec"
    | ExecArgs => "exec_args" | Mmap => "mmap" | Munmap => "munmap" | Brk => "brk" | Read => "read"
    | Write => "write" | Open => "open" | Close => "close" | Print => "print" | GetChar => "getchar"
    | GetTime => "gettime" | Sleep => "sleep" | GetSystemInfo => "get_system_info" | Pipe => "pipe"
    | ReadDir => "readdir" | Mkdir => "mkdir" | Chdir => "chdir" | Getcwd => "getcwd" | Stat => "stat"
    | Fstat => "fstat" | Poll => "poll" | Unlink => "unlink" | Rename => "rename"
    | Truncate => "truncate" | Getenv => "getenv" | Setenv => "setenv" | Dup2 => "dup2"
    | Kill => "kill" | Uname => "uname" | Fcntl => "fcntl" | Lseek => "lseek" | Lstat => "lstat"
    | Readv => "readv" | Mremap => "mremap" | Sigprocmask => "sigprocmask" | SigPending => "sigpending"
    | SigSuspend => "sigsuspend" | Getuid => "getuid" | Getgid => "getgid" | Setuid => "setuid"
    | Setgid => "setgid" | Geteuid => "geteuid" | Getegid => "getegid" | Gettid => "gettid"
    | Futex => "futex" | Openat => "openat" | Pipe2 => "pipe2" | Mprotect => "mprotect"
    | Getppid => "getppid" | ArchPrctl => "arch_prctl" | SetTidAddress => "set_tid_address"
    | ClockGettime => "clock_gettime" | ExitGroup => "exit_group" | Ioctl => "ioctl"
    | Sigaction => "sigaction" | Sigreturn => "sigreturn" | Chmod => "chmod" | Chown => "chown"
    | Socket => "socket" | Bind => "bind" | Connect => "connect" | Listen => "listen"
    | Accept => "accept" | Send => "send" | Recv => "recv" | CloseSocket => "close_socket"
    | Sendto => "sendto" | Recvfrom => "recvfrom" | MsgqCreate => "msgq_create" | Msgsnd => "msgsnd"
    | Msgrcv => "msgrcv" | MsgqDestroy => "msgq_destroy" | MsgrcvWait => "msgrcv_wait"
    | MsgqLen => "msgq_len" | Shmget => "shmget" | Shmat => "shmat" | Shmdt => "shmdt"
    | GuiCreate => "gui_create" | GuiDestroy => "gui_destroy" | GuiFillRect => "gui_fill_rect"
    | GuiDrawText => "gui_draw_text" | GuiPresent => "gui_present" | GuiPollEvent => "gui_poll_event"
    | GuiGetSize => "gui_get_size" | GuiBlitShm => "gui_blit_shm" | InstallQuery => "install_query"
    | InstallBegin => "install_begin" | DnsResolve => "dns_resolve" | Pread64 => "pread64"
    | Pwrite64 => "pwrite64" | Writev => "writev" | Access => "access" | SchedYield => "sched_yield"
    | Msync => "msync" | Mincore => "mincore" | Madvise => "madvise" | Shmctl => "shmctl"
    | Dup => "dup" | Pause => "pause" | Getitimer => "getitimer" | Alarm => "alarm"
    | Setitimer => "setitimer" | Sendfile => "sendfile" | Vfork => "vfork" | Flock => "flock"
    | Fsync => "fsync" | Fdatasync => "fdatasync" | Sync => "sync" | Ftruncate => "ftruncate"
    | Fchdir => "fchdir" | Rmdir => "rmdir" | Creat => "creat" | Readlink => "readlink"
    | Fchmod => "fchmod" | Fchown => "fchown" | Lchown => "lchown" | Umask => "umask"
    | Getrlimit => "getrlimit" | Getrusage => "getrusage" | Sysinfo => "sysinfo" | Times => "times"
    | Syslog => "syslog" | Setpgid => "setpgid" | Getpgrp => "getpgrp" | Setsid => "setsid"
    | Setreuid => "setreuid" | Setregid => "setregid" | Getgroups => "getgroups"
    | Setresuid => "setresuid" | Setresgid => "setresgid" | Getresuid => "getresuid"
    | Getresgid => "getresgid" | Getpgid => "getpgid" | Select => "select" | Pselect6 => "pselect6"
    | Prlimit64 => "prlimit64" | Invalid => "invalid"
    end)%string.

(* @src sys/syscall_core.rs 322-470 Syscall::from *)
Definition of_number (num : Z) : Syscall :=
  if num =? 0 then Read else if num =? 1 then Write else if num =? 2 then Open else
  if num =? 3 then Close else if num =? 4 then Stat else if num =? 5 then Fstat else
  if num =? 7 then Poll else if num =? 6 then Lstat else if num =? 8 then Lseek else
  if num =? 9 then Mmap else if num =? 10 then Mprotect else if num =? 11 then Munmap else
  if num =? 12 then Brk else if num =? 13 then Sigaction else if num =? 15 then Sigreturn else
  if num =? 16 then Ioctl else if num =? 22 then Pipe else if num =? 29 then Shmget else
  if num =? 30 then Shmat else if num =? 33 then Dup2 else if num =? 35 then Sleep else
  if num =? 39 then GetPid else if num =? 41 then Socket else if num =? 42 then Connect else
  if num =? 43 then Accept else if num =? 44 then Sendto else if num =? 45 then Recvfrom else
  if num =? 49 then Bind else if num =? 50 then Listen else if num =? 57 then Fork else
  if num =? 58 then Vfork else if num =? 59 then Exec else if num =? 60 then Exit else
  if num =? 61 then Wait else if num =? 62 then Kill else if num =? 63 then Uname else
  if num =? 67 then Shmdt else if num =? 72 then Fcntl else if num =? 73 then Flock else
  if num =? 74 then Fsync else if num =? 75 then Fdatasync else if num =? 162 then Sync else
  if num =? 76 then Truncate else if num =? 77 then Ftruncate else if num =? 78 then ReadDir else
  if num =? 79 then Getcwd else if num =? 80 then Chdir else if num =? 81 then Fchdir else
  if num =? 82 then Rename else if num =? 83 then Mkdir else if num =? 84 then Rmdir else
  if num =? 85 then Creat else if num =? 87 then Unlink else if num =? 89 then Readlink else
  if num =? 90 then Chmod else if num =? 91 then Fchmod else if num =? 92 then Chown else
  if num =? 93 then Fchown else if num =? 94 then Lchown else if num =? 95 then Umask else
  if num =? 96 then GetTime else if num =? 97 then Getrlimit else if num =? 98 then Getrusage else
  if num =? 99 then Sysinfo else if num =? 100 then Times else if num =? 103 then Syslog else
  if num =? 109 then Setpgid else if num =? 111 then Getpgrp else if num =? 112 then Setsid else
  if num =? 113 then Setreuid else if num =? 114 then Setregid else if num =? 115 then Getgroups else
  if num =? 117 then Setresuid else if num =? 118 then Getresuid else if num =? 119 then Setresgid else
  if num =? 120 then Getresgid else if num =? 121 then Getpgid else if num =? 23 then Select else
  if num =? 270 then Pselect6 else if num =? 302 then Prlimit64 else if num =? 17 then Pread64 else
  if num =? 18 then Pwrite64 else if num =? 14 then Sigprocmask else if num =? 127 then SigPending else
  if num =? 130 then SigSuspend else if num =? 19 then Readv else if num =? 20 then Writev else
  if num =? 21 then Access else if num =? 24 then SchedYield else if num =? 25 then Mremap else
  if num =? 26 then Msync else if num =? 27 then Mincore else if num =? 28 then Madvise else
  if num =? 31 then Shmctl else if num =? 32 then Dup else if num =? 34 then Pause else
  if num =? 36 then Getitimer else if num =? 37 then Alarm else if num =? 38 then Setitimer else
  if num =? 40 then Sendfile else if num =? 102 then Getuid else if num =? 104 then Getgid else
  if num =? 105 then Setuid else if num =? 106 then Setgid else if num =? 107 then Geteuid else
  if num =? 108 then Getegid else if num =? 110 then Getppid else if num =? 158 then ArchPrctl else
  if num =? 186 then Gettid else if num =? 202 then Futex else if num =? 218 then SetTidAddress else
  if num =? 228 then ClockGettime else if num =? 231 then ExitGroup else if num =? 257 then Openat else
  if num =? 293 then Pipe2 else if num =? 400 then Print else if num =? 401 then GetChar else
  if num =? 402 then GetSystemInfo else if num =? 403 then Getenv else if num =? 404 then Setenv else
  if num =? 405 then ExecArgs else if num =? 406 then Send else if num =? 407 then Recv else
  if num =? 408 then CloseSocket else if num =? 415 then MsgqCreate else if num =? 416 then Msgsnd else
  if num =? 417 then Msgrcv else if num =? 418 then MsgqDestroy else if num =? 419 then MsgrcvWait else
  if num =? 420 then MsgqLen else if num =? 425 then GuiCreate else if num =? 426 then GuiDestroy else
  if num =? 427 then GuiFillRect else if num =? 428 then GuiDrawText else
  if num =? 429 then GuiPresent else if num =? 430 then GuiPollEvent else
  if num =? 431 then GuiGetSize else if num =? 432 then GuiBlitShm else
  if num =? 433 then InstallQuery else if num =? 434 then InstallBegin else
  if num =? 435 then DnsResolve else
  Invalid.

Lemma of_number_number s : of_number (number s) = s.
Proof. by destruct s. Qed.

Lemma number_inj s s' : number s = number s' -> s = s'.
Proof. intros E. by rewrite <- (of_number_number s), E, of_number_number. Qed.

#[export] Instance Syscall_eq_dec : EqDecision Syscall.
Proof. intros s s'. destruct (decide (number s = number s')) as [E|E]; [left; by apply number_inj|right; congruence]. Defined.

(* @src sys/syscall_core.rs 476-484 SyscallResult *)
Record SyscallResult := mkResult { value : Z; error : bool }.
Definition ok_result (v : Z) : SyscallResult := mkResult v false.
Definition err_result (e : Z) : SyscallResult := mkResult e true.

(* @src sys/syscall_core.rs 488-493 SystemInfo *)
Record SystemInfo := mkInfo { total_memory : Z; free_memory : Z; uptime_ms : Z; process_count : Z }.

(** [SystemInfo] in memory: three words, a half word and its padding. *)
Definition info_bytes (i : SystemInfo) : list Z :=
  le_encode 8 (total_memory i) ++ le_encode 8 (free_memory i) ++ le_encode 8 (uptime_ms i) ++ le_encode 8 (process_count i).

(* @src sys/syscall_core.rs 496-511 SyscallRequest *)
Record SyscallRequest := mkRequest { num : Z; arg1 : Z; arg2 : Z; arg3 : Z; arg4 : Z; arg5 : Z }.
Definition syscall (r : SyscallRequest) : Syscall := of_number (num r).

(* @src sys/syscall_core.rs 514-520 EINVAL *)
Definition EINVAL : Z := -1.
Definition ENOSYS : Z := -2.
Definition EBADF : Z := -5.
Definition EAGAIN : Z := -6.

(** [slice::from_raw_parts(ptr, len)] *)
Record slice := mkSlice { ptr : Z; len : Z }.

(** The methods that the runtime of the kernel defines, and the accesses to
    memory. [system_uptime_ms] is [fill_system_info], which sets the other fields
    to constants. *)
(* @src sys/syscall_core.rs 523-671 SyscallRuntime *)
Inductive method :=
| read_byte (addr : Z) | write_bytes (addr : Z) (bytes : list Z) | is_page_mapped (addr : Z)
| current_pid | current_ticks | write_console (bytes : slice) | system_uptime_ms
| sleep_until_tick (target_tick : Z) | exit (code : Z) | get_char
| exec_program (path : slice) | exec_program_args (path args : slice)
| fork_child | waitpid_impl (pid : Z) | brk_program (new_end : Z) | mmap_anon (addr len : Z) | munmap_impl (addr len : Z)
| getppid_impl | uname_impl (buf_ptr : Z) | arch_prctl_impl (code addr : Z) | clock_gettime_impl (clk_id tp_ptr : Z)
| fcntl_impl (fd cmd arg : Z) | lseek_impl (fd offset whence : Z) | sigprocmask_impl (how set_ptr old_ptr : Z)
| readv_impl (fd iov_ptr iovcnt : Z) | writev_impl (fd iov_ptr iovcnt : Z) | access_impl (path : slice) (mode : Z)
| dup_impl (fd : Z) | ftruncate_impl (fd length : Z) | fchdir_impl (fd : Z) | rmdir_impl (path : slice)
| getrlimit_impl (resource rlim_ptr : Z) | getrusage_impl (who buf_ptr : Z) | sysinfo_impl (buf_ptr : Z)
| setpgid_impl (pid pgid : Z) | getpgrp_impl | getpgid_impl (pid : Z)
| select_impl (nfds read_ptr write_ptr except_ptr timeout_ptr : Z)
| pread64_impl (fd buf_ptr count offset : Z) | pwrite64_impl (fd buf_ptr count offset : Z)
| alarm_impl (seconds : Z) | sigpending_impl (set_ptr size : Z) | sigsuspend_impl (mask_ptr size : Z)
| kill_pid_sig (pid signum : Z) | ioctl_impl (fd request arg : Z) | sigaction_impl (signum handler old_ptr : Z) | sigreturn_impl
| chmod_impl (path : slice) (mode : Z) | chown_impl (path : slice) (uid gid : Z)
| shmget_impl (key size flags : Z) | shmat_impl (shmid addr_hint : Z) | shmdt_impl (addr : Z)
| socket_impl (domain type_ proto : Z) | bind_impl (sfd addr_ptr addr_len : Z) | connect_impl (sfd addr_ptr addr_len : Z)
| listen_impl (sfd backlog : Z) | accept_impl (sfd : Z) | send_impl (sfd buf_ptr len flags : Z) | recv_impl (sfd buf_ptr len flags : Z)
| close_socket_impl (sfd : Z) | sendto_impl (sfd buf_ptr len flags addr_ptr addr_len : Z)
| recvfrom_impl (sfd buf_ptr len flags addr_ptr addr_len_ptr : Z)
| getdents64_impl (fd : Z) (buf : slice) | readdir_impl (path buf : slice) | mkdir_impl (path : slice) | chdir_impl (path : slice)
| getcwd_impl (buf : slice) | stat_impl (path : slice) (buf_ptr : Z) | fstat_impl (fd buf_ptr : Z)
| poll_impl (fds_ptr nfds timeout_ms : Z) | unlink_impl (path : slice) | rename_impl (old_path new_path : slice)
| truncate_impl (fd length : Z) | getenv_impl (key buf : slice) | setenv_impl (key val : slice) | dup2_impl (old_fd new_fd : Z)
| fs_open (path : slice) (flags : Z) | fs_close (fd : Z) | fs_read (fd : Z) (buf : slice) | fs_write_file (fd : Z) (buf : slice)
| pipe_alloc (read_fd_ptr write_fd_ptr : Z) | msgq_create (id : Z) | msgsnd (id type_id : Z) (data : slice) | msgrcv (id msg_out_ptr : Z)
| msgq_destroy (id : Z) | msgrcv_wait (id msg_out_ptr : Z) | msgq_len (id : Z)
| gui_create_impl (pid : Z) (title : slice) (w h : Z) | gui_destroy_impl (pid win_id : Z)
| gui_fill_rect_impl (pid win_id x y w h color : Z) | gui_draw_text_impl (pid win_id x y color : Z) (text : slice)
| gui_present_impl (pid win_id : Z) | gui_poll_event_impl (pid win_id event_ptr : Z) | gui_get_size_impl (pid win_id w_ptr h_ptr : Z)
| gui_blit_shm_impl (pid win_id shm_id sx sy sw sh dx dy : Z)
| install_query_impl | install_begin_impl | dns_resolve_impl (hostname : slice).

Class SyscallRuntime (R : Type) := call : method -> prog R Z Z.

Section Dispatch.
Context {R : Type} `{SyscallRuntime R}.
Abbreviation M := (prog R Z).

(** ** Methods with a default that the kernel's runtime keeps *)

(** The stubs that do nothing. *)
(* @src sys/syscall_core.rs 564-747 SyscallRuntime (defaults) *)
Definition stub (s : Syscall) : option Z :=
  match s with
  | Mprotect | Setuid | Futex | SchedYield | Msync | Madvise | Flock | Fsync | Fdatasync | Sync
  | Fchmod | Fchown | Times | Syslog | Setreuid | Setregid | Setresuid | Setresgid | Getgroups | Getresuid | Getresgid
  | Prlimit64 => Some 0
  | Getuid | Getgid => Some 1000
  | Mremap | Mincore => Some (-12)
  | Umask => Some 0x12
  | Sendfile => Some ENOSYS
  | Pause => Some (-4)
  | _ => None
  end.

(* @src sys/syscall_core.rs 689-692 creat_impl *)
Definition creat_impl (path : slice) (mode : Z) : M Z := call (fs_open path 0x241).

(** ** Helpers *)

(** [if r < 0 { SyscallResult::err(r) } else { SyscallResult::ok(r) }] *)
Definition finish (r : Z) : SyscallResult := if r <? 0 then err_result r else ok_result r.
Definition forward (m : method) : M SyscallResult := let? r := call m in ok (finish r).
Definition plain (m : method) : M SyscallResult := let? r := call m in ok (ok_result r).

(** [if let Err(e) = validate_user_range(p, n) { return SyscallResult::err(e); }] *)
Definition checked_range (p n : Z) (k : M SyscallResult) : M SyscallResult :=
  if proc_calls.validate_user_range p n then k else ok (err_result EINVAL).

(** A method that does not return. *)
Definition never (m : method) : M SyscallResult := let? _ := call m in checked Panic.

Definition i32 (x : Z) : Z := swrap 32 x.
Definition u32 (x : Z) : Z := wrap 32 x.
Definition u16 (x : Z) : Z := wrap 16 x.
Definition i64 (x : Z) : Z := swrap 64 x.

(** The halves of a packed pair. *)
Definition lo32 (x : Z) : Z := u32 (Z.land x 0xFFFFFFFF).
Definition hi32 (x : Z) : Z := u32 (Z.land (Z.shiftr x 32) 0xFFFFFFFF).

(* @src sys/syscall_core.rs 1610-1628 strnlen_user *)
Fixpoint strnlen_from (n : nat) (p i checked_page : Z) : M Z :=
  match n with
  | O => ok i
  | S n' =>
      let? addr := checked (cadd u64_max p i) in
      let page := Z.ldiff addr 0xFFF in
      let? m := (if page =? checked_page then ok 1 else call (is_page_mapped addr)) in
      if m =? 0 then ok 0
      else
        let? b := call (read_byte addr) in
        if b =? 0 then ok (i + 1) else strnlen_from n' p (i + 1) page
  end.
Definition strnlen_user (p : Z) (max : nat) : M Z := strnlen_from max p 0 u64_max.

(** A path that ends with a NUL, as most calls take it. *)
Definition PATH_MAX : nat := Z.to_nat 4096.
Definition with_path (p : Z) (k : slice -> M SyscallResult) : M SyscallResult :=
  let? path_len := strnlen_user p PATH_MAX in
  if path_len =? 0 then ok (err_result EINVAL)
  else checked_range p path_len (k (mkSlice p path_len)).

(** A path of a given length. *)
Definition with_slice (p n : Z) (k : slice -> M SyscallResult) : M SyscallResult := checked_range p n (k (mkSlice p n)).

(** ** Calls of their own *)

(* @src sys/syscall_core.rs 1366-1378 sys_open *)
Definition sys_open (path_ptr flags : Z) : M SyscallResult := with_path path_ptr (fun path => forward (fs_open path (u32 flags))).

(* @src sys/syscall_core.rs 1380-1383 sys_close *)
Definition sys_close (fd : Z) : M SyscallResult := forward (fs_close fd).

(* @src sys/syscall_core.rs 1385-1408 sys_read *)
Definition sys_read (fd buf_ptr count : Z) : M SyscallResult :=
  if count =? 0 then ok (ok_result 0)
  else with_slice buf_ptr count (fun buf =>
    if fd =? 0 then
      let? r := call (fs_read fd buf) in
      if negb (r =? EBADF) then ok (finish r)
      else
        let? r := call get_char in
        if r <? 0 then ok (err_result r)
        else let? _ := call (write_bytes buf_ptr [wrap 8 r]) in ok (ok_result 1)
    else forward (fs_read fd buf)).

(* @src sys/syscall_core.rs 1410-1435 sys_write *)
Definition sys_write (fd buf_ptr count : Z) : M SyscallResult :=
  if fd <? 0 then ok (err_result EBADF)
  else with_slice buf_ptr count (fun buf =>
    if (fd =? 1) || (fd =? 2) then
      let? r := call (fs_write_file fd buf) in
      if negb (r =? fs.EBADF) then ok (finish r)
      else let? _ := call (write_console buf) in ok (ok_result (i64 count))
    else if 3 <=? fd then forward (fs_write_file fd buf)
    else ok (err_result EBADF)).

(* @src sys/syscall_core.rs 1437-1446 sys_print *)
Definition sys_print (msg_ptr n : Z) : M SyscallResult :=
  with_slice msg_ptr n (fun msg => let? _ := call (write_console msg) in ok (ok_result (i64 n))).

(* @src sys/syscall_core.rs 1448-1453 sys_sleep *)
Definition sys_sleep (ms : Z) : M SyscallResult :=
  let? start := call current_ticks in
  let ticks := Z.min u64_max (ms * TIMER_HZ) / 1000 in
  let? _ := call (sleep_until_tick (sat_add u64_max start ticks)) in ok (ok_result 0).

(** [fill_system_info] and [write_user_value]; the size of [SystemInfo] is 32. *)
(* @src sys/syscall_core.rs 1455-1464 sys_get_system_info *)
Definition sys_get_system_info (info_ptr : Z) : M SyscallResult :=
  let? up := call system_uptime_ms in
  let info := mkInfo (128 * 1024 * 1024) (64 * 1024 * 1024) up 1 in
  checked_range info_ptr 32 (let? _ := call (write_bytes info_ptr (info_bytes info)) in ok (ok_result 0)).

(* @src sys/syscall_core.rs 1466-1486 sys_exec *)
Definition sys_exec (path_ptr a2 : Z) : M SyscallResult :=
  let? path_len := (if 4096 <=? a2 then strnlen_user path_ptr PATH_MAX
                    else if a2 =? 0 then strnlen_user path_ptr PATH_MAX else ok a2) in
  if path_len =? 0 then ok (err_result EINVAL)
  else with_slice path_ptr path_len (fun path => let? e := call (exec_program path) in ok (err_result e)).

(* @src sys/syscall_core.rs 1490-1510 sys_exec_args *)
Definition sys_exec_args (path_ptr path_len args_ptr args_len : Z) : M SyscallResult :=
  checked_range path_ptr path_len (
    if path_len =? 0 then ok (err_result EINVAL)
    else
      let path := mkSlice path_ptr path_len in
      let go args := let? e := call (exec_program_args path args) in ok (err_result e) in
      if 0 <? args_len then with_slice args_ptr args_len go else go (mkSlice 0 0)).

(* @src sys/syscall_core.rs 1512-1519 sys_pipe *)
Definition sys_pipe (read_fd_ptr write_fd_ptr : Z) : M SyscallResult :=
  checked_range read_fd_ptr 4 (checked_range write_fd_ptr 4 (forward (pipe_alloc read_fd_ptr write_fd_ptr))).

(* @src sys/syscall_core.rs 1521-1524 sys_fork *)
Definition sys_fork : M SyscallResult := forward fork_child.
(* @src sys/syscall_core.rs 1526-1531 sys_waitpid *)
Definition sys_waitpid (pid : Z) : M SyscallResult := forward (waitpid_impl pid).
(* @src sys/syscall_core.rs 1533-1536 sys_brk *)
Definition sys_brk (new_end : Z) : M SyscallResult := forward (brk_program new_end).
(* @src sys/syscall_core.rs 1538-1543 sys_kill *)
Definition sys_kill (pid signum : Z) : M SyscallResult :=
  forward (kill_pid_sig pid (wrap 8 (if signum =? 0 then 9 else signum))).

(* @src sys/syscall_core.rs 1545-1554 sys_readdir *)
Definition sys_readdir (path_ptr path_len buf_ptr buf_len : Z) : M SyscallResult :=
  with_slice path_ptr path_len (fun path => with_slice buf_ptr buf_len (fun buf => forward (readdir_impl path buf))).
(* @src sys/syscall_core.rs 1556-1563 sys_mkdir *)
Definition sys_mkdir (path_ptr path_len : Z) : M SyscallResult :=
  with_slice path_ptr path_len (fun path => forward (mkdir_impl path)).
(* @src sys/syscall_core.rs 1565-1575 sys_chdir *)
Definition sys_chdir (path_ptr : Z) : M SyscallResult := with_path path_ptr (fun path => forward (chdir_impl path)).
(* @src sys/syscall_core.rs 1577-1584 sys_getcwd *)
Definition sys_getcwd (buf_ptr buf_len : Z) : M SyscallResult :=
  with_slice buf_ptr buf_len (fun buf => forward (getcwd_impl buf)).

(* @src sys/syscall_core.rs 1587-1606 sys_stat *)
Definition sys_stat (path_ptr a2 a3 : Z) : M SyscallResult :=
  let? (path_len, stat_buf) := (if 4096 <=? a2 then (let? n := strnlen_user path_ptr PATH_MAX in ok (n, a2)) else ok (a2, a3)) in
  if path_len =? 0 then ok (err_result EINVAL)
  else with_slice path_ptr path_len (fun path => checked_range stat_buf 144 (forward (stat_impl path stat_buf))).

(* @src sys/syscall_core.rs 1631-1640 sys_getenv *)
Definition sys_getenv (key_ptr key_len buf_ptr buf_len : Z) : M SyscallResult :=
  with_slice key_ptr key_len (fun key => with_slice buf_ptr buf_len (fun buf => forward (getenv_impl key buf))).
(* @src sys/syscall_core.rs 1643-1656 sys_setenv *)
Definition sys_setenv (key_ptr key_len val_ptr val_len : Z) : M SyscallResult :=
  with_slice key_ptr key_len (fun key =>
    let go val := forward (setenv_impl key val) in
    if 0 <? val_len then with_slice val_ptr val_len go else go (mkSlice 0 0)).
(* @src sys/syscall_core.rs 1658-1661 sys_dup2 *)
Definition sys_dup2 (old_fd new_fd : Z) : M SyscallResult := forward (dup2_impl old_fd new_fd).

(** [size_of::<Message>()] *)
Definition MESSAGE_SIZE : Z := 264.
(* @src sys/syscall_core.rs 1663-1666 sys_msgq_create *)
Definition sys_msgq_create (id : Z) : M SyscallResult := forward (msgq_create id).
(* @src sys/syscall_core.rs 1668-1675 sys_msgsnd *)
Definition sys_msgsnd (id type_id data_ptr data_len : Z) : M SyscallResult :=
  with_slice data_ptr data_len (fun data => forward (msgsnd id type_id data)).
(* @src sys/syscall_core.rs 1677-1685 sys_msgrcv *)
Definition sys_msgrcv (id msg_out_ptr : Z) : M SyscallResult := checked_range msg_out_ptr MESSAGE_SIZE (forward (msgrcv id msg_out_ptr)).
(* @src sys/syscall_core.rs 1687-1690 sys_msgq_destroy *)
Definition sys_msgq_destroy (id : Z) : M SyscallResult := forward (msgq_destroy id).
(* @src sys/syscall_core.rs 1694-1703 sys_msgrcv_wait *)
Definition sys_msgrcv_wait (id msg_out_ptr : Z) : M SyscallResult := checked_range msg_out_ptr MESSAGE_SIZE (forward (msgrcv_wait id msg_out_ptr)).
(* @src sys/syscall_core.rs 1705-1708 sys_msgq_len *)
Definition sys_msgq_len (id : Z) : M SyscallResult := forward (msgq_len id).

(* @src sys/syscall_core.rs 1713-1728 sys_gui_create *)
Definition sys_gui_create (rq : SyscallRequest) : M SyscallResult :=
  with_slice (arg1 rq) (arg2 rq) (fun title =>
    let? pid := call current_pid in forward (gui_create_impl pid title (lo32 (arg3 rq)) (hi32 (arg3 rq)))).
(* @src sys/syscall_core.rs 1731-1748 sys_gui_draw_text *)
Definition sys_gui_draw_text (rq : SyscallRequest) : M SyscallResult :=
  with_slice (arg4 rq) (arg5 rq) (fun text =>
    let? pid := call current_pid in
    forward (gui_draw_text_impl pid (u32 (arg1 rq)) (u32 (Z.land (arg2 rq) 0xFFFF)) (u32 (Z.land (Z.shiftr (arg2 rq) 32) 0xFFFF)) (u32 (arg3 rq)) text)).

(** ** The dispatcher, in the order of its arms *)

(* @src sys/syscall_core.rs 949-999 dispatch *)
Definition dispatch_basic (s : Syscall) (rq : SyscallRequest) : option (M SyscallResult) :=
  match s with
  | Exit => Some (never (exit (i32 (arg1 rq))))
  | Fork => Some sys_fork
  | Wait => Some (sys_waitpid (arg1 rq))
  | Exec => Some (sys_exec (arg1 rq) (arg2 rq))
  | ExecArgs => Some (sys_exec_args (arg1 rq) (arg2 rq) (arg3 rq) (arg4 rq))
  | GetPid => Some (plain current_pid)
  | Mmap => Some (forward (mmap_anon (arg1 rq) (arg2 rq)))
  | Munmap => Some (forward (munmap_impl (arg1 rq) (arg2 rq)))
  | Brk => Some (sys_brk (arg1 rq))
  | Read => Some (sys_read (i32 (arg1 rq)) (arg2 rq) (arg3 rq))
  | Write => Some (sys_write (i32 (arg1 rq)) (arg2 rq) (arg3 rq))
  | Open => Some (sys_open (arg1 rq) (arg2 rq))
  | Close => Some (sys_close (i32 (arg1 rq)))
  | Print => Some (sys_print (arg1 rq) (arg2 rq))
  | GetChar => Some (forward get_char)
  | GetTime => Some (plain current_ticks)
  | Sleep => Some (sys_sleep (arg1 rq))
  | GetSystemInfo => Some (sys_get_system_info (arg1 rq))
  | Pipe => Some (sys_pipe (arg1 rq) (arg2 rq))
  | ReadDir => Some (
      if arg1 rq <? 4096 then with_slice (arg2 rq) (arg3 rq) (fun buf => forward (getdents64_impl (i32 (arg1 rq)) buf))
      else sys_readdir (arg1 rq) (arg2 rq) (arg3 rq) (arg4 rq))
  | _ => None
  end.

(* @src sys/syscall_core.rs 1000-1061 dispatch *)
Definition dispatch_files (s : Syscall) (rq : SyscallRequest) : option (M SyscallResult) :=
  match s with
  | Mkdir => Some (sys_mkdir (arg1 rq) (arg2 rq))
  | Chdir => Some (sys_chdir (arg1 rq))
  | Getcwd => Some (sys_getcwd (arg1 rq) (arg2 rq))
  | Stat => Some (sys_stat (arg1 rq) (arg2 rq) (arg3 rq))
  | Fstat => Some (forward (fstat_impl (i32 (arg1 rq)) (arg2 rq)))
  | Poll => Some (forward (poll_impl (arg1 rq) (arg2 rq) (i64 (arg3 rq))))
  | Unlink => Some (with_slice (arg1 rq) (arg2 rq) (fun path => forward (unlink_impl path)))
  | Rename => Some (
      checked_range (arg1 rq) (arg2 rq) (checked_range (arg3 rq) (arg4 rq)
        (forward (rename_impl (mkSlice (arg1 rq) (arg2 rq)) (mkSlice (arg3 rq) (arg4 rq))))))
  | Truncate => Some (forward (truncate_impl (i32 (arg1 rq)) (arg2 rq)))
  | Getenv => Some (sys_getenv (arg1 rq) (arg2 rq) (arg3 rq) (arg4 rq))
  | Setenv => Some (sys_setenv (arg1 rq) (arg2 rq) (arg3 rq) (arg4 rq))
  | Dup2 => Some (sys_dup2 (i32 (arg1 rq)) (i32 (arg2 rq)))
  | Kill => Some (sys_kill (arg1 rq) (arg2 rq))
  | Ioctl => Some (forward (ioctl_impl (i32 (arg1 rq)) (arg2 rq) (arg3 rq)))
  | Sigaction => Some (forward (sigaction_impl (u32 (arg1 rq)) (arg2 rq) (arg3 rq)))
  | Sigreturn => Some (forward sigreturn_impl)
  | Chmod => Some (with_slice (arg1 rq) (arg2 rq) (fun path => forward (chmod_impl path (u16 (arg3 rq)))))
  | Chown => Some (with_slice (arg1 rq) (arg2 rq) (fun path => forward (chown_impl path (u32 (arg3 rq)) (u32 (arg4 rq)))))
  | _ => None
  end.

(* @src sys/syscall_core.rs 1062-1182 dispatch *)
Definition dispatch_services (s : Syscall) (rq : SyscallRequest) : option (M SyscallResult) :=
  match s with
  | Socket => Some (forward (socket_impl (u32 (arg1 rq)) (u32 (arg2 rq)) (u32 (arg3 rq))))
  | Bind => Some (forward (bind_impl (arg1 rq) (arg2 rq) (arg3 rq)))
  | Connect => Some (forward (connect_impl (arg1 rq) (arg2 rq) (arg3 rq)))
  | Listen => Some (forward (listen_impl (arg1 rq) (i32 (arg2 rq))))
  | Accept => Some (forward (accept_impl (arg1 rq)))
  | Send => Some (forward (send_impl (arg1 rq) (arg2 rq) (arg3 rq) (u32 (arg4 rq))))
  | Recv => Some (forward (recv_impl (arg1 rq) (arg2 rq) (arg3 rq) (u32 (arg4 rq))))
  | CloseSocket => Some (forward (close_socket_impl (arg1 rq)))
  | Sendto => Some (forward (sendto_impl (arg1 rq) (arg2 rq) (arg3 rq) (u32 (arg4 rq)) (arg5 rq) 16))
  | Recvfrom => Some (forward (recvfrom_impl (arg1 rq) (arg2 rq) (arg3 rq) (u32 (arg4 rq)) (arg5 rq) 0))
  | MsgqCreate => Some (sys_msgq_create (u32 (arg1 rq)))
  | Msgsnd => Some (sys_msgsnd (u32 (arg1 rq)) (u32 (arg2 rq)) (arg3 rq) (arg4 rq))
  | Msgrcv => Some (sys_msgrcv (u32 (arg1 rq)) (arg2 rq))
  | MsgqDestroy => Some (sys_msgq_destroy (u32 (arg1 rq)))
  | MsgrcvWait => Some (sys_msgrcv_wait (u32 (arg1 rq)) (arg2 rq))
  | MsgqLen => Some (sys_msgq_len (u32 (arg1 rq)))
  | Shmget => Some (forward (shmget_impl (u32 (arg1 rq)) (arg2 rq) (u32 (arg3 rq))))
  | Shmat => Some (forward (shmat_impl (u32 (arg1 rq)) (arg2 rq)))
  | Shmdt => Some (forward (shmdt_impl (arg1 rq)))
  | GuiCreate => Some (sys_gui_create rq)
  | GuiDestroy => Some (let? pid := call current_pid in forward (gui_destroy_impl pid (u32 (arg1 rq))))
  | GuiFillRect => Some (
      let? pid := call current_pid in
      forward (gui_fill_rect_impl pid (u32 (arg1 rq)) (lo32 (arg2 rq)) (hi32 (arg2 rq)) (lo32 (arg3 rq)) (hi32 (arg3 rq)) (u32 (arg4 rq))))
  | GuiDrawText => Some (sys_gui_draw_text rq)
  | GuiPresent => Some (let? pid := call current_pid in forward (gui_present_impl pid (u32 (arg1 rq))))
  | GuiPollEvent => Some (let? pid := call current_pid in forward (gui_poll_event_impl pid (u32 (arg1 rq)) (arg2 rq)))
  | GuiGetSize => Some (let? pid := call current_pid in forward (gui_get_size_impl pid (u32 (arg1 rq)) (arg2 rq) (arg3 rq)))
  | GuiBlitShm => Some (
      let? pid := call current_pid in
      forward (gui_blit_shm_impl pid (u32 (arg1 rq)) (u32 (arg2 rq)) (lo32 (arg3 rq)) (hi32 (arg3 rq))
                 (lo32 (arg4 rq)) (hi32 (arg4 rq)) (lo32 (arg5 rq)) (hi32 (arg5 rq))))
  | InstallQuery => Some (forward install_query_impl)
  | InstallBegin => Some (forward install_begin_impl)
  | _ => None
  end.

(* @src sys/syscall_core.rs 1183-1290 dispatch *)
Definition dispatch_linux (s : Syscall) (rq : SyscallRequest) : option (M SyscallResult) :=
  match s with
  | Getppid => Some (plain getppid_impl)
  | Uname => Some (forward (uname_impl (arg1 rq)))
  | SetTidAddress => Some (plain current_pid)
  | ArchPrctl => Some (forward (arch_prctl_impl (arg1 rq) (arg2 rq)))
  | ClockGettime => Some (forward (clock_gettime_impl (arg1 rq) (arg2 rq)))
  | Fcntl => Some (forward (fcntl_impl (i32 (arg1 rq)) (arg2 rq) (arg3 rq)))
  | Lseek => Some (forward (lseek_impl (i32 (arg1 rq)) (i64 (arg2 rq)) (u32 (arg3 rq))))
  | ExitGroup => Some (never (exit (i32 (arg1 rq))))
  | Sigprocmask => Some (forward (sigprocmask_impl (u32 (arg1 rq)) (arg2 rq) (arg3 rq)))
  | Lstat => Some (sys_stat (arg1 rq) (arg2 rq) (arg3 rq))
  | Readv => Some (forward (readv_impl (i32 (arg1 rq)) (arg2 rq) (u32 (arg3 rq))))
  | Geteuid => Some (ok (ok_result 1000))
  | Getegid => Some (ok (ok_result 1000))
  | Setgid => Some (ok (ok_result 0))
  | Gettid => Some (plain current_pid)
  | Openat => Some (with_path (arg2 rq) (fun path => forward (fs_open path (u32 (arg3 rq)))))
  | Pipe2 => Some (sys_pipe (arg1 rq) (arg2 rq))
  | Writev => Some (forward (writev_impl (i32 (arg1 rq)) (arg2 rq) (u32 (arg3 rq))))
  | Access => Some (with_path (arg1 rq) (fun path => forward (access_impl path (u32 (arg2 rq)))))
  | Dup => Some (forward (dup_impl (i32 (arg1 rq))))
  | Vfork => Some (forward fork_child)
  | Ftruncate => Some (forward (ftruncate_impl (i32 (arg1 rq)) (arg2 rq)))
  | Fchdir => Some (forward (fchdir_impl (i32 (arg1 rq))))
  | Rmdir => Some (with_slice (arg1 rq) (arg2 rq) (fun path => forward (rmdir_impl path)))
  | Creat => Some (with_slice (arg1 rq) (arg2 rq) (fun path => let? r := creat_impl path (u32 (arg3 rq)) in ok (finish r)))
  | _ => None
  end.

(* @src sys/syscall_core.rs 1291-1361 dispatch *)
Definition dispatch_rest (s : Syscall) (rq : SyscallRequest) : option (M SyscallResult) :=
  match s with
  | Readlink => Some (with_path (arg1 rq) (fun _ => ok (finish (-22))))
  | Lchown => Some (with_slice (arg1 rq) (arg2 rq) (fun _ => ok (finish 0)))
  | Getrlimit => Some (forward (getrlimit_impl (u32 (arg1 rq)) (arg2 rq)))
  | Getrusage => Some (forward (getrusage_impl (i32 (arg1 rq)) (arg2 rq)))
  | Sysinfo => Some (forward (sysinfo_impl (arg1 rq)))
  | Setpgid => Some (plain (setpgid_impl (u32 (arg1 rq)) (u32 (arg2 rq))))
  | Getpgrp => Some (plain getpgrp_impl)
  | Setsid => Some (plain current_pid)
  | Getpgid => Some (plain (getpgid_impl (u32 (arg1 rq))))
  | Select | Pselect6 => Some (forward (select_impl (arg1 rq) (arg2 rq) (arg3 rq) (arg4 rq) (arg5 rq)))
  | Pread64 => Some (forward (pread64_impl (i32 (arg1 rq)) (arg2 rq) (arg3 rq) (i64 (arg4 rq))))
  | Pwrite64 => Some (forward (pwrite64_impl (i32 (arg1 rq)) (arg2 rq) (arg3 rq) (i64 (arg4 rq))))
  | Shmctl | Getitimer | Setitimer => Some (ok (ok_result 0))
  | Alarm => Some (plain (alarm_impl (u32 (arg1 rq))))
  | SigPending => Some (forward (sigpending_impl (arg1 rq) (arg2 rq)))
  | SigSuspend => Some (forward (sigsuspend_impl (arg1 rq) (arg2 rq)))
  | DnsResolve => Some (
      if (arg2 rq =? 0) || (253 <? arg2 rq) then ok (err_result EINVAL)
      else with_slice (arg1 rq) (arg2 rq) (fun hostname => forward (dns_resolve_impl hostname)))
  | Invalid => Some (ok (err_result ENOSYS))
  | _ => None
  end.

(** Every arm of the match is one of the groups, or a stub whose result goes out
    as [finish] or, for the stubs that are non-negative, as it is. *)
(* @src sys/syscall_core.rs 937-948 dispatch *)
Definition dispatch (rq : SyscallRequest) : M SyscallResult :=
  let s := syscall rq in
  match dispatch_basic s rq with Some m => m | None =>
  match dispatch_files s rq with Some m => m | None =>
  match dispatch_services s rq with Some m => m | None =>
  match dispatch_linux s rq with Some m => m | None =>
  match dispatch_rest s rq with Some m => m | None =>
  match stub s with Some r => ok (finish r) | None => checked Panic end end end end end end.
End Dispatch.
End syscall_core.
