(* ===== verification/DispatchSpec.v ===== *)
(** * Properties of the dispatcher

    The numbering of the calls; the ranges the dispatcher checks, for any runtime,
    by recording the methods it calls; and what it passes on for strings, for the
    standard input and for pointers it does not check. *)

From stdpp Require Import base list gmap strings list_numbers.
From Stdlib Require Import ZArith Lia.
From S2P Require Import Prelude RamFs ProcCalls Dispatch.

Local Open Scope Z_scope.

Module dispatch_spec.
Import syscall_core.

(** The numbers of the calls are read as they are written: the number of every
    call is decoded to it, and every number that is decoded to a call other than
    [Invalid] is its number, so that no two calls share a number. *)
Theorem syscall_numbers_round_trip :
  (forall s, of_number (number s) = s) /\ (forall n, of_number n <> Invalid -> number (of_number n) = n).
Proof.
  split; [apply of_number_number|]. intros n. unfold of_number.
  repeat (match goal with |- context [if n =? ?k then _ else _] => destruct (Z.eqb_spec n k) as [->|_]; [reflexivity|] end). done.
Qed.

(** ** A runtime that records *)

#[export] Instance recording {R} `{SyscallRuntime R} : SyscallRuntime (R * list method) := fun m '(r, l) =>
  match call m r with Ret (x, r') => Ret (x, (r', l ++ [m])) | Panic => Panic end.

(** The ranges of memory a method gets as slices, or writes itself. *)
Definition slices (m : method) : list slice :=
  match m with
  | write_bytes a bs => [mkSlice a (Z.of_nat (length bs))]
  | write_console s | exec_program s | access_impl s _ | rmdir_impl s | chmod_impl s _ | chown_impl s _ _
  | getdents64_impl _ s | mkdir_impl s | chdir_impl s | getcwd_impl s | stat_impl s _ | unlink_impl s
  | fs_open s _ | fs_read _ s | fs_write_file _ s | msgsnd _ _ s | gui_create_impl _ s _ _ | gui_draw_text_impl _ _ _ _ _ s
  | dns_resolve_impl s => [s]
  | exec_program_args s s' | readdir_impl s s' | rename_impl s s' | getenv_impl s s' | setenv_impl s s' => [s; s']
  | _ => []
  end.

Definition user_slice (s : slice) : Prop := proc_calls.validate_user_range (ptr s) (len s) = true.
Definition user_method (m : method) : Prop := Forall user_slice (slices m).

(** A range that is checked lies below the kernel and does not wrap. *)
Lemma user_slice_below s : user_slice s -> 0 < len s ->
  proc_calls.USER_SPACE_START <= ptr s /\ ptr s + len s <= proc_calls.KERNEL_SPACE_BASE.
Proof.
  unfold user_slice, proc_calls.validate_user_range. intros Hv Hl.
  destruct (Z.eqb_spec (len s) 0); [lia|]. destruct (Z.ltb_spec (ptr s) proc_calls.USER_SPACE_START); [done|].
  destruct (_ <? _); [done|]. apply Z.ltb_lt in Hv. lia.
Qed.

Lemma user_slice_prefix p n k : user_slice (mkSlice p n) -> 0 <= k <= n -> user_slice (mkSlice p k).
Proof.
  unfold user_slice, proc_calls.validate_user_range. cbn. intros Hv Hk.
  destruct (Z.eqb_spec k 0); [done|]. destruct (Z.eqb_spec n 0); [lia|]. destruct (_ <? _); [done|].
  destruct (Z.ltb_spec u64_max (p + (n - 1))); [done|]. destruct (Z.ltb_spec u64_max (p + (k - 1))); [lia|].
  apply Z.ltb_lt in Hv. apply Z.ltb_lt. lia.
Qed.

Section Checked.
Context {R : Type} `{SyscallRuntime R}.
Abbreviation L := (R * list method)%type.

(** Every method the code calls gets checked ranges only. *)
Definition guarded {A} (p : prog L Z A) : Prop := forall r l x r' l', p (r, l) = Ret (x, (r', l')) ->
  exists l2, l' = l ++ l2 /\ Forall user_method l2.

Lemma guarded_ok {A} (a : A) : guarded (ok a).
Proof. intros r l x r' l' [= _ _ <-]. exists []. by rewrite app_nil_r. Qed.
Lemma guarded_checked {A} (o : outcome A) : guarded (checked o).
Proof. intros r l x r' l' E. unfold checked in E. destruct o; [|done]. injection E as _ _ <-. exists []. by rewrite app_nil_r. Qed.
Lemma guarded_call m : user_method m -> guarded (call m).
Proof.
  intros Hm r l x r' l' E. unfold call, recording in E. destruct (call m r) as [[]|]; [|done]. injection E as _ _ <-.
  exists [m]. split; [done|]. by apply Forall_singleton.
Qed.
Lemma guarded_bind {A B} (p : prog L Z A) (k : A -> prog L Z B) : guarded p -> (forall a, guarded (k a)) -> guarded (let? x := p in k x).
Proof.
  intros Hp Hk r l x r' l' E. unfold pbind in E. destruct (p (r, l)) as [[[a|e] [r1 l1]]|] eqn:Ep; [| |done].
  - apply Hp in Ep as (l2 & -> & F2). apply Hk in E as (l3 & -> & F3). exists (l2 ++ l3). rewrite app_assoc. split; [done|]. by apply Forall_app.
  - injection E as _ <- <-. by eapply Hp.
Qed.
Lemma guarded_range p n (k : prog L Z SyscallResult) : (user_slice (mkSlice p n) -> guarded k) -> guarded (checked_range p n k).
Proof.
  intros Hk. unfold checked_range. destruct (proc_calls.validate_user_range p n) eqn:E; [by apply Hk|apply guarded_ok].
Qed.
Lemma guarded_slice p n (k : slice -> prog L Z SyscallResult) : (user_slice (mkSlice p n) -> guarded (k (mkSlice p n))) -> guarded (with_slice p n k).
Proof. apply guarded_range. Qed.
Lemma guarded_strnlen n p i page : guarded (strnlen_from (R := L) n p i page).
Proof.
  assert (Hc : forall m, slices m = [] -> guarded (call (R := L) m)) by (intros m Hm; apply guarded_call; unfold user_method; by rewrite Hm).
  revert i page. induction n as [|n IH]; intros i page; cbn [strnlen_from]; [apply guarded_ok|].
  apply guarded_bind; [apply guarded_checked|]. intros a. apply guarded_bind; [destruct (_ =? _); [apply guarded_ok|by apply Hc]|].
  intros m. destruct (_ =? _); [apply guarded_ok|]. apply guarded_bind; [by apply Hc|]. intros b. destruct (_ =? _); [apply guarded_ok|apply IH].
Qed.
#[local] Opaque strnlen_from PATH_MAX.

Lemma guarded_path p (k : slice -> prog L Z SyscallResult) : (forall s, user_slice s -> guarded (k s)) -> guarded (with_path p k).
Proof.
  intros Hk. apply guarded_bind; [apply guarded_strnlen|]. intros n. destruct (_ =? _); [apply guarded_ok|]. apply guarded_range. apply Hk.
Qed.
Lemma guarded_forward m : user_method m -> guarded (forward (R := L) m).
Proof. intros Hm. apply guarded_bind; [by apply guarded_call|]. intros. apply guarded_ok. Qed.
Lemma guarded_plain m : user_method m -> guarded (plain (R := L) m).
Proof. intros Hm. apply guarded_bind; [by apply guarded_call|]. intros. apply guarded_ok. Qed.
Lemma guarded_never m : user_method m -> guarded (never (R := L) m).
Proof. intros Hm. apply guarded_bind; [by apply guarded_call|]. intros. apply guarded_checked. Qed.

Ltac user := unfold user_method; cbn [slices]; repeat first [assumption|exact (eq_refl : user_slice (mkSlice 0 0))|apply Forall_nil; exact I|apply Forall_cons; split].
Ltac guards :=
  repeat first
    [ apply guarded_ok | apply guarded_checked
    | apply guarded_forward; user | apply guarded_plain; user | apply guarded_never; user | apply guarded_call; user
    | apply guarded_path; intros ?s ? | apply guarded_slice; intros ? | apply guarded_range; intros ?
    | apply guarded_strnlen
    | apply guarded_bind; [|intros ?]
    | match goal with |- guarded (if ?b then _ else _) => destruct b | |- guarded (match ?x with pair _ _ => _ end) => destruct x end ].

Lemma guarded_read fd p n : 0 <= n -> guarded (sys_read (R := L) fd p n).
Proof.
  intros Hn. unfold sys_read. destruct (Z.eqb_spec n 0); [apply guarded_ok|]. apply guarded_slice. intros Hs. guards.
  apply (user_slice_prefix p n); [done|]. cbn. lia.
Qed.

Lemma guarded_info p : guarded (sys_get_system_info (R := L) p).
Proof. unfold sys_get_system_info. guards. Qed.

(** The arguments of a request are 64-bit words. *)
Definition request_ok (rq : SyscallRequest) : Prop := 0 <= arg3 rq.

Lemma guarded_basic s rq m : request_ok rq -> dispatch_basic (R := L) s rq = Some m -> guarded m.
Proof.
  intros Hrq Hm. destruct s; try discriminate Hm; injection Hm as <-; try (by apply guarded_read); try apply guarded_info;
    unfold sys_fork, sys_waitpid, sys_exec, sys_exec_args, sys_brk, sys_write, sys_open, sys_close, sys_print, sys_sleep, sys_pipe, sys_readdir;
    cbv zeta; guards.
Qed.

Lemma guarded_files s rq m : dispatch_files (R := L) s rq = Some m -> guarded m.
Proof.
  intros Hm. destruct s; try discriminate Hm; injection Hm as <-;
    unfold sys_mkdir, sys_chdir, sys_getcwd, sys_stat, sys_getenv, sys_setenv, sys_dup2, sys_kill; cbv zeta; guards.
Qed.

Lemma guarded_services s rq m : dispatch_services (R := L) s rq = Some m -> guarded m.
Proof.
  intros Hm. destruct s; try discriminate Hm; injection Hm as <-;
    unfold sys_msgq_create, sys_msgsnd, sys_msgrcv, sys_msgq_destroy, sys_msgrcv_wait, sys_msgq_len, sys_gui_create, sys_gui_draw_text;
    cbv zeta; guards.
Qed.

Lemma guarded_linux s rq m : dispatch_linux (R := L) s rq = Some m -> guarded m.
Proof.
  intros Hm. destruct s; try discriminate Hm; injection Hm as <-; unfold sys_stat, sys_pipe, creat_impl; cbv zeta; guards.
Qed.

Lemma guarded_rest s rq m : dispatch_rest (R := L) s rq = Some m -> guarded m.
Proof. intros Hm. destruct s; try discriminate Hm; injection Hm as <-; guards. Qed.

Lemma guarded_dispatch rq : request_ok rq -> guarded (dispatch (R := L) rq).
Proof.
  intros Hrq. unfold dispatch. destruct (dispatch_basic _ rq) eqn:E1; [by eapply guarded_basic|].
  destruct (dispatch_files _ rq) eqn:E2; [by eapply guarded_files|]. destruct (dispatch_services _ rq) eqn:E3; [by eapply guarded_services|].
  destruct (dispatch_linux _ rq) eqn:E4; [by eapply guarded_linux|]. destruct (dispatch_rest _ rq) eqn:E5; [by eapply guarded_rest|].
  destruct (stub _); [apply guarded_ok|apply guarded_checked].
Qed.

(** C12: Every slice of user memory that the dispatcher hands to a runtime, and
    every byte it writes itself, lies in user space: for any runtime and any
    request, the non-empty ranges of all methods called begin at or above
    [USER_SPACE_START], end at or below the kernel, and do not wrap around. *)
Theorem slices_lie_in_user_space rq r x r' l' : request_ok rq -> dispatch (R := L) rq (r, []) = Ret (x, (r', l')) ->
  forall m s, m ∈ l' -> s ∈ slices m -> 0 < len s ->
    proc_calls.USER_SPACE_START <= ptr s /\ ptr s + len s <= proc_calls.KERNEL_SPACE_BASE.
Proof.
  intros Hrq E m s Hm Hs Hl. apply (guarded_dispatch rq Hrq) in E as (l2 & -> & F). cbn in Hm.
  rewrite Forall_forall in F. specialize (F m Hm). unfold user_method in F. rewrite Forall_forall in F. apply user_slice_below; [by apply F|done].
Qed.

(** Every call has an arm: the dispatcher never reaches the end of its match. *)
Lemma dispatch_is_total s rq : is_Some (dispatch_basic (R := R) s rq) \/ is_Some (dispatch_files (R := R) s rq) \/
  is_Some (dispatch_services (R := R) s rq) \/ is_Some (dispatch_linux (R := R) s rq) \/ is_Some (dispatch_rest (R := R) s rq) \/ is_Some (stub s).
Proof. destruct s; cbn; eauto 10. Qed.
End Checked.
#[local] Transparent strnlen_from PATH_MAX.

(** ** Pointers that are not checked *)

(** A runtime that answers 0 to everything. *)
#[export] Instance zero_runtime : SyscallRuntime unit := fun _ r => Ret (Ok 0, r).

Definition KP : Z := 0xFFFF800000100000.

(** These calls pass the caller's pointer on without a check: with an address in
    the kernel as argument, the methods that write a status record, a system name,
    a time, limits, usage, system information, a set of signals or descriptor sets,
    or transfer file contents, are called with it. *)
Theorem pointers_passed_on_unchecked :
  (fun '(s, a, b, c, d) => snd <$> dispatch (mkRequest (number s) a b c d 0) (tt, [])) <$>
    [(Fstat, 3, KP, 0, 0); (Uname, KP, 0, 0, 0); (ClockGettime, 0, KP, 0, 0); (Getrlimit, 0, KP, 0, 0); (Getrusage, 0, KP, 0, 0);
     (Sysinfo, KP, 0, 0, 0); (SigPending, KP, 8, 0, 0); (ArchPrctl, 0x1003, KP, 0, 0); (Poll, KP, 1, 0, 0); (Select, 1, KP, 0, 0);
     (Readv, 3, KP, 1, 0); (Writev, 1, KP, 1, 0); (Pread64, 3, KP, 64, 0); (Pwrite64, 3, KP, 64, 0)] =
  (fun m => Ret (tt, [m])) <$>
    [fstat_impl 3 KP; uname_impl KP; clock_gettime_impl 0 KP; getrlimit_impl 0 KP; getrusage_impl 0 KP;
     sysinfo_impl KP; sigpending_impl KP 8; arch_prctl_impl 0x1003 KP; poll_impl KP 1 0; select_impl 1 KP 0 0 0;
     readv_impl 3 KP 1; writev_impl 1 KP 1; pread64_impl 3 KP 64 0; pwrite64_impl 3 KP 64 0].
Proof. vm_compute. reflexivity. Qed.

(** ** Strings and the standard input *)

Section Memory.
Context {R : Type} `{SyscallRuntime R} (r : R) (mem : Z -> option Z).
Context (page_law : forall a, is_Some (mem a) -> call (is_page_mapped a) r = Ret (Ok 1, r)).
Context (byte_law : forall a b, mem a = Some b -> call (read_byte a) r = Ret (Ok b, r)).

(** The bytes of a string and its terminator. *)
Definition c_string (p : Z) (s : list Z) : Prop :=
  Forall (fun b => b <> 0) s /\ forall i, (i <= length s)%nat -> mem (p + Z.of_nat i) = Some (default 0 (s !! i)).

Lemma strnlen_ok n p s page k : c_string p s -> (k <= length s)%nat -> (length s - k < n)%nat -> 0 <= p -> p + Z.of_nat (length s) <= u64_max ->
  strnlen_from n p (Z.of_nat k) page r = Ret (Ok (Z.of_nat (S (length s))), r).
Proof.
  intros [Hnz Hm] Hk. remember (length s - k)%nat as todo eqn:Ht. revert n page k Hk Ht. induction todo as [|todo IH]; intros [|n] page k Hk Ht Hn Hp Hmax; try lia;
    cbn [strnlen_from]; unfold pbind, checked; rewrite cadd_le by lia; specialize (Hm k Hk) as Hb.
  all: assert (Hpage : (if Z.ldiff (p + Z.of_nat k) 0xFFF =? page then ok 1 else call (is_page_mapped (p + Z.of_nat k))) r = Ret (Ok 1, r))
    by (destruct (_ =? _); [done|apply page_law; by eexists]); rewrite Hpage; cbn [Z.eqb]; rewrite (byte_law _ _ Hb).
  - assert (k = length s) as -> by lia. rewrite (proj2 (lookup_ge_None s _)) by lia. change (default 0 None =? 0) with true. cbv iota. unfold ok. do 3 f_equal. lia.
  - destruct (lookup_lt_is_Some_2 s k ltac:(lia)) as [b Hbk]. rewrite Hbk. cbn [default from_option id].
    rewrite Forall_lookup in Hnz. specialize (Hnz k b Hbk). unfold id. destruct (Z.eqb_spec b 0); [done|].
    replace (Z.of_nat k + 1) with (Z.of_nat (S k)) by lia. apply IH; lia.
Qed.

(** A call that takes a string gets it with its terminator. *)
Lemma with_path_string p s (k : slice -> prog R Z SyscallResult) : c_string p s -> (length s < 4096)%nat ->
  proc_calls.validate_user_range p (Z.of_nat (S (length s))) = true -> with_path p k r = k (mkSlice p (Z.of_nat (S (length s)))) r.
Proof.
  intros Hs Hl Hv. unfold with_path, strnlen_user, pbind.
  pose proof (user_slice_below (mkSlice p (Z.of_nat (S (length s)))) Hv ltac:(cbn; lia)) as [H1 H2]. cbn in H1, H2.
  unfold proc_calls.USER_SPACE_START, proc_calls.KERNEL_SPACE_BASE in *.
  change 0 with (Z.of_nat 0) at 1. rewrite (strnlen_ok PATH_MAX p s u64_max 0) by (first [done|unfold PATH_MAX, u64_max; lia]).
  destruct (Z.eqb_spec (Z.of_nat (S (length s))) 0); [lia|]. unfold checked_range. by rewrite Hv.
Qed.

(** The path of an opened file carries its terminator: for a string of fewer
    than 4096 bytes in user space, [open] calls [fs_open] with a slice one byte
    longer than the string, the terminating zero included. *)
Theorem open_passes_the_terminator p s flags : c_string p s -> (length s < 4096)%nat ->
  proc_calls.validate_user_range p (Z.of_nat (S (length s))) = true ->
  dispatch (mkRequest 2 p flags 0 0 0) r = forward (fs_open (mkSlice p (Z.of_nat (S (length s)))) (u32 flags)) r.
Proof.
  intros Hs Hl Hv. change (dispatch (mkRequest 2 p flags 0 0 0) r) with (sys_open (R := R) p flags r).
  by apply (with_path_string p s (fun path => forward (fs_open path (u32 flags)))).
Qed.
End Memory.

(** Reading the standard input never falls back to the keyboard: when the
    descriptor table has no entry 0, so that the runtime answers with the
    filesystem's EBADF, [read] fails with that code and the keyboard is not
    asked, because the dispatcher compares with an EBADF of its own. *)
Theorem stdin_never_reads_the_keyboard {R} `{SyscallRuntime R} (r r' : R) l p n :
  n <> 0 -> proc_calls.validate_user_range p n = true -> call (fs_read 0 (mkSlice p n)) r = Ret (Ok fs.EBADF, r') ->
  dispatch (mkRequest 0 0 p n 0 0) (r, l) = Ret (Ok (err_result (-9)), (r', l ++ [fs_read 0 (mkSlice p n)])).
Proof.
  intros Hn Hv Hr. change (dispatch (mkRequest 0 0 p n 0 0) (r, l)) with (sys_read (R := R * list method) 0 p n (r, l)).
  unfold sys_read. destruct (Z.eqb_spec n 0); [done|]. unfold with_slice, checked_range. rewrite Hv. cbn [Z.eqb].
  unfold pbind. change (call (fs_read 0 (mkSlice p n)) (r, l)) with
    (match call (fs_read 0 (mkSlice p n)) r with Ret (x, r') => Ret (x, (r', l ++ [fs_read 0 (mkSlice p n)])) | Panic => Panic end).
  by rewrite Hr.
Qed.

(** ** Witnesses *)

Lemma syscall_numbers_round_trip_witness : number (of_number 257) = 257.
Proof. apply (proj2 syscall_numbers_round_trip 257). discriminate. Defined.

Lemma slices_lie_in_user_space_witness : exists l, dispatch (mkRequest 1 1 0x400000 5 0 0) (tt, []) = Ret (Ok (ok_result 0), (tt, l)) /\
  fs_write_file 1 (mkSlice 0x400000 5) ∈ l /\ 0x400000 + 5 <= proc_calls.KERNEL_SPACE_BASE.
Proof.
  eexists. split; [vm_compute; reflexivity|]. split; [apply elem_of_cons; by left|].
  refine (proj2 (slices_lie_in_user_space (mkRequest 1 1 0x400000 5 0 0) tt (Ok (ok_result 0)) tt [fs_write_file 1 (mkSlice 0x400000 5)]
    _ _ (fs_write_file 1 (mkSlice 0x400000 5)) (mkSlice 0x400000 5) _ _ _)); [vm_compute; discriminate|vm_compute; reflexivity|apply elem_of_cons; by left|apply elem_of_cons; by left|reflexivity].
Defined.

(** A runtime that answers for memory that holds a path, and has no files. *)
Definition path_at (a : Z) : option Z := [47; 104; 0] !! Z.to_nat (a - 0x400000).
#[export] Instance path_runtime : SyscallRuntime bool := fun m r =>
  Ret (Ok (match m with
           | is_page_mapped a => 1
           | read_byte a => default 0 (path_at a)
           | fs_open _ _ => -2
           | _ => fs.EBADF
           end), r).

Lemma open_passes_the_terminator_witness :
  dispatch (mkRequest 2 0x400000 0 0 0 0) true = forward (fs_open (mkSlice 0x400000 3) 0) true.
Proof.
  apply (open_passes_the_terminator true path_at (fun a _ => eq_refl)
    (fun a b Hb => f_equal (fun o => Ret (Ok (default 0 o), true)) Hb) 0x400000 [47; 104] 0); [|vm_compute; lia|vm_compute; reflexivity].
  split; [apply (bool_decide_unpack _); vm_compute; exact I|]. intros i Hi. do 3 (destruct i as [|i]; [vm_compute; reflexivity|]). cbn in Hi. lia.
Defined.
End dispatch_spec.
