(* ===== verification/FileCalls.v ===== *)
(** * File system calls (kernel/src/kernel/sys/syscall.rs)

    Module [file_calls] translates the calls of the running task that reach files,
    directories and descriptors: opening, reading and writing, positions, status,
    directory listings, waiting for descriptors, and environment variables.

    [Kernel] is the whole state the calls work on. A slice of a program's memory is
    read or written as a whole; a byte of it that is not mapped faults, which is
    [Panic]. *)

From stdpp Require Import base list gmap strings list_numbers.
From Stdlib Require Import ZArith Lia.
From S2P Require Import Prelude IpcPipe IpcMsgq IpcStdin RamFs FdTable FdPipes Shm Env ElfLoader Task Argv Sched ProcCalls Mbr Fat FatOps DiskStore StoreFs Ext2 Ext2Ops Vfs Tty Dispatch.

Local Open Scope Z_scope.

(** [core::str::from_utf8(b).is_ok()] *)
Definition cont (b : Z) : bool := (0x80 <=? b) && (b <=? 0xBF).
Fixpoint utf8_valid (b : list Z) : bool :=
  match b with
  | [] => true
  | x :: b' =>
      if x <=? 0x7F then utf8_valid b'
      else if (0xC2 <=? x) && (x <=? 0xDF) then
        match b' with y :: r => cont y && utf8_valid r | _ => false end
      else if (0xE0 <=? x) && (x <=? 0xEF) then
        match b' with
        | y :: z :: r => ((if x =? 0xE0 then 0xA0 else 0x80) <=? y) && (y <=? (if x =? 0xED then 0x9F else 0xBF)) && cont z && utf8_valid r
        | _ => false
        end
      else if (0xF0 <=? x) && (x <=? 0xF4) then
        match b' with
        | y :: z :: w :: r => ((if x =? 0xF0 then 0x90 else 0x80) <=? y) && (y <=? (if x =? 0xF4 then 0x8F else 0xBF)) && cont z && cont w && utf8_valid r
        | _ => false
        end
      else false
  end.

Module file_calls.
Import fdtable task sched proc_calls vfs.
Import (hints) fatfs ext2fs.

Section Calls.
Context {W D : Type} `{UserSpace W} `{ProcMemory W} `{BlockDevice D}.

(** The scheduler's state, the filesystems, the terminal, the input queue and the
    number of timer ticks. *)
Record Kernel := mkKernel {
  kst : Kst (W := W);
  files : Files D;
  term : tty.TtyState;
  keys : stdin.state;
  stats : Stats;
}.
Implicit Types (k : Kernel).

Definition set_kst k x : Kernel := mkKernel x (files k) (term k) (keys k) (stats k).
Definition set_files k x : Kernel := mkKernel (kst k) x (term k) (keys k) (stats k).
Definition set_term k x : Kernel := mkKernel (kst k) (files k) x (keys k) (stats k).
Definition set_keys k x : Kernel := mkKernel (kst k) (files k) (term k) x (stats k).

Definition this k : outcome Task := cur (kst k).
Definition set_this (f : Task -> Task) k : Kernel := set_kst k (upd_cur f (kst k)).
Definition table k : outcome FdTable := let! t := this k in Ret (fd_table t).
Definition set_table (t : FdTable) k : Kernel := set_this (fun x => set_fd_table x t) k.

(** The bytes at an address of the running program. *)
Definition load (a : Z) (n : nat) k : outcome (list Z) := tty.load a n (kst k).
Definition store (a : Z) (bs : list Z) k : outcome Kernel := let! x := tty.store a bs (kst k) in Ret (set_kst k x).
Definition load_slice (s : syscall_core.slice) k : outcome (list Z) := load (syscall_core.ptr s) (Z.to_nat (syscall_core.len s)) k.

(** A method that takes a path: [core::str::from_utf8(path)] first. *)
Definition with_str (bad : Z) (path : syscall_core.slice) (f : list Z -> Kernel -> outcome (Z * Kernel)) k : outcome (Z * Kernel) :=
  let! p := load_slice path k in if utf8_valid p then f p k else Ret (bad, k).

(** A method that fills a buffer of the program. *)
Definition with_buf (s : syscall_core.slice) (f : list Z -> Kernel -> outcome (Z * list Z * Kernel)) k : outcome (Z * Kernel) :=
  let! b := load_slice s k in
  let! (r, b, k) := f b k in
  let! k := store (syscall_core.ptr s) b k in Ret (r, k).

(** What the descriptors of the running task reach, and the state after a call on it. *)
Definition devs_of (t : Task) k : devs (fatfs.FatFs (option D)) (ext2.Ext2 (option D)) :=
  mkDevs (sched.pipes (kst k)) (fat_of (files k)) (ext2_of (files k)) (keys k) (output t).
Definition put_devs (t : FdTable) (d : devs (fatfs.FatFs (option D)) (ext2.Ext2 (option D))) k : Kernel :=
  set_keys (set_files (set_kst k (sched.set_pipes (upd_cur (fun x => set_output (set_fd_table x t) (out d)) (kst k)) (fdtable.pipes d)))
    (put_ext2 (put_fat (files k) (fat d)) (ext2 d))) (fdtable.tty d).

(** [SCHED.tasks[idx].fd_table.entries[fd]] after the check of the range. *)
Definition entry_of (fd : Z) k : outcome (option FdEntry) :=
  if bad_fd fd then Ret None else let! t := table k in idx t (Z.to_nat fd).

(** ** Console and clock *)

(** System calls come from user programs, so that [is_active] holds. *)
(* @src sys/syscall.rs 35-46 write_console *)
Definition write_console (bytes : list Z) k : outcome Kernel :=
  let! t := this k in
  let! o := task_output.write (output t) bytes in
  Ret (set_this (fun t => set_output t o) k).

(* @src sys/syscall.rs 79-84 get_char *)
Definition get_char k : outcome (Z * Kernel) :=
  let! (c, s) := stdin.pop (keys k) in
  Ret (match c with Some ch => ch | None => -6 end, set_keys k s).

(* @src sys/syscall.rs 48-56 fill_system_info *)
Definition system_uptime_ms k : outcome Z :=
  let! x := cmul u64_max (ticks (stats k)) 1000 in Ret (x / syscall_core.TIMER_HZ).

(** ** Opening, reading and writing *)

(* @src sys/syscall.rs 1430-1436 fs_open *)
Definition fs_open (path : syscall_core.slice) (flags : Z) : Kernel -> outcome (Z * Kernel) :=
  with_str (-22) path (fun p k =>
    let! t := table k in
    let! (r, t, v) := vfs_open (stats k) p flags t (files k) in
    Ret (r, set_table t (set_files k v))).

(* @src sys/syscall.rs 1438-1445 fs_close *)
Definition fs_close (fd : Z) k : outcome (Z * Kernel) :=
  let! t := this k in
  let! (r, tb, d) := close (fd_table t) fd (devs_of t k) in
  Ret (r, put_devs tb d k).

(* @src sys/syscall.rs 1447-1458 fs_read *)
Definition fs_read (fd : Z) (buf : syscall_core.slice) : Kernel -> outcome (Z * Kernel) :=
  with_buf buf (fun b k =>
    match ram (files k) with
    | None => Ret (-2, b, k)
    | Some f =>
        let! t := this k in
        let! (r, b, tb, d) := read_fd (fd_table t) f fd b (devs_of t k) in
        Ret (r, b, put_devs tb d k)
    end).

(* @src sys/syscall.rs 1460-1471 fs_write_file *)
Definition fs_write_file (fd : Z) (buf : syscall_core.slice) k : outcome (Z * Kernel) :=
  let! b := load_slice buf k in
  match ram (files k) with
  | None => Ret (-2, k)
  | Some f =>
      let! t := this k in
      let! (r, tb, f, d) := write_fd (fd_table t) f fd b (devs_of t k) in
      let k := put_devs tb d k in
      Ret (r, set_files k (set_ram (files k) (Some f)))
  end.

(* @src sys/syscall.rs 655-694 lseek_impl *)
Definition lseek_impl (fd off whence : Z) k : outcome (Z * Kernel) :=
  let! e := entry_of fd k in
  match e, ram (files k) with
  | Some x, None =>
      match backend x with
      | fdtable.RamFS => Ret (-9, k)
      | fdtable.Fat16 => let! (r, v) := on_fat (fun f => fatfs.file_seek f (raw_fd x) off whence) (files k) in Ret (r, set_files k v)
      | _ => Ret (-29, k)
      end
  | _, f =>
      let! t := table k in
      let! (r, t, x) := lseek fatfs.file_seek t (default (ramfs.mkRamFs []) f) (fat_of (files k)) fd off whence in
      Ret (r, set_table t (set_files k (put_fat (files k) x)))
  end.

(** A signed sum of results. *)
Definition add_i64 (a b : Z) : outcome Z := cadd_i64 a b.

(** The address and the length of an [iovec]. *)
Definition iovec (iov_ptr : Z) (i : nat) k : outcome syscall_core.slice :=
  let! e := cadd u64_max iov_ptr (Z.of_nat i * 16) in
  let! base := load e 8 k in
  let! e8 := cadd u64_max e 8 in
  let! len := load e8 8 k in
  Ret (syscall_core.mkSlice (le_decode base) (le_decode len)).

(* @src sys/syscall.rs 696-710 readv_impl *)
Fixpoint readv_loop (fd iov_ptr : Z) (ns : list nat) (total : Z) k : outcome (Z * Kernel) :=
  match ns with
  | [] => Ret (total, k)
  | i :: ns' =>
      let! s := iovec iov_ptr i k in
      if syscall_core.len s =? 0 then readv_loop fd iov_ptr ns' total k
      else
        let! (r, k) := fs_read fd s k in
        if r <? 0 then Ret (if 0 <? total then total else r, k)
        else
          let! total := add_i64 total r in
          if r <? swrap 64 (syscall_core.len s) then Ret (total, k) else readv_loop fd iov_ptr ns' total k
  end.
Definition readv_impl (fd iov_ptr iovcnt : Z) k : outcome (Z * Kernel) := readv_loop fd iov_ptr (seq 0 (Z.to_nat iovcnt)) 0 k.

(* @src sys/syscall.rs 712-730 writev_impl *)
Fixpoint writev_loop (fd iov_ptr : Z) (ns : list nat) (total : Z) k : outcome (Z * Kernel) :=
  match ns with
  | [] => Ret (total, k)
  | i :: ns' =>
      let! s := iovec iov_ptr i k in
      if syscall_core.len s =? 0 then writev_loop fd iov_ptr ns' total k
      else
        let! (r, k) := (if (fd =? 1) || (fd =? 2)
                        then (let! b := load_slice s k in let! k := write_console b k in Ret (swrap 64 (syscall_core.len s), k))
                        else fs_write_file fd s k) in
        if r <? 0 then Ret (if 0 <? total then total else r, k)
        else let! total := add_i64 total r in writev_loop fd iov_ptr ns' total k
  end.
Definition writev_impl (fd iov_ptr iovcnt : Z) k : outcome (Z * Kernel) := writev_loop fd iov_ptr (seq 0 (Z.to_nat iovcnt)) 0 k.

(* @src sys/syscall.rs 834-844 pread64_impl *)
Definition pread64_impl (fd buf_ptr count off : Z) k : outcome (Z * Kernel) :=
  let! (saved, k) := lseek_impl fd 0 1 k in
  if saved <? 0 then Ret (saved, k)
  else
    let! (r, k) := lseek_impl fd off 0 k in
    if r <? 0 then Ret (r, k)
    else
      let! (n, k) := fs_read fd (syscall_core.mkSlice buf_ptr count) k in
      let! (_, k) := lseek_impl fd saved 0 k in
      Ret (n, k).

(* @src sys/syscall.rs 846-855 pwrite64_impl *)
Definition pwrite64_impl (fd buf_ptr count off : Z) k : outcome (Z * Kernel) :=
  let! (saved, k) := lseek_impl fd 0 1 k in
  if saved <? 0 then Ret (saved, k)
  else
    let! (r, k) := lseek_impl fd off 0 k in
    if r <? 0 then Ret (r, k)
    else
      let! (n, k) := fs_write_file fd (syscall_core.mkSlice buf_ptr count) k in
      let! (_, k) := lseek_impl fd saved 0 k in
      Ret (n, k).

(** ** Descriptors *)

(* @src sys/syscall.rs 742-762 dup_impl *)
Definition dup_impl (fd : Z) k : outcome (Z * Kernel) :=
  let! t := table k in let! (r, t) := dup t fd in Ret (r, set_table t k).

(* @src sys/syscall.rs 1070-1076 dup2_impl *)
Definition dup2_impl (old_fd new_fd : Z) k : outcome (Z * Kernel) :=
  let! t := this k in
  let! (r, tb, d) := dup2 (fd_table t) old_fd new_fd (devs_of t k) in
  Ret (r, put_devs tb d k).

(** [fd as usize] of a negative number is large. *)
(* @src sys/syscall.rs 440-469 fcntl_impl *)
Definition fcntl_impl (fd cmd arg : Z) k : outcome (Z * Kernel) :=
  if cmd =? 1 then
    let! e := entry_of fd k in
    match e with
    | None => Ret (-9, k)
    | Some e =>
        let! t := table k in
        match position is_none (drop (Z.to_nat (Z.min arg (Z.of_nat MAX_FD))) t) with
        | Some i =>
            let new_fd := (Z.to_nat (Z.min arg (Z.of_nat MAX_FD)) + i)%nat in
            let! t := set_idx t new_fd (Some e) in
            Ret (Z.of_nat new_fd, set_table t k)
        | None => Ret (-24, k)
        end
    end
  else if cmd =? 3 then Ret (2, k)
  else Ret (0, k).

(* @src sys/syscall.rs 1473-1496 pipe_alloc *)
Definition pipe_alloc (read_fd_ptr write_fd_ptr : Z) k : outcome (Z * Kernel) :=
  let! t := this k in
  let! (r, slots, tb, d) := fdtable.pipe_alloc (fd_table t) (devs_of t k) in
  let k := put_devs tb d k in
  match slots with
  | Some (rslot, wslot) =>
      let! k := store read_fd_ptr (le_encode 4 (Z.of_nat rslot)) k in
      let! k := store write_fd_ptr (le_encode 4 (Z.of_nat wslot)) k in
      Ret (r, k)
  | None => Ret (r, k)
  end.

(** ** Paths *)

(* @src sys/syscall.rs 607-613 readdir_impl *)
Definition readdir_impl (path buf : syscall_core.slice) k : outcome (Z * Kernel) :=
  with_str (-22) path (fun p => with_buf buf (fun b k =>
    let! (r, b, v) := vfs_readdir p b (files k) in Ret (r, b, set_files k v))) k.

(* @src sys/syscall.rs 615-621 mkdir_impl *)
Definition mkdir_impl (path : syscall_core.slice) : Kernel -> outcome (Z * Kernel) :=
  with_str (-22) path (fun p k => let! (r, v) := vfs_mkdir p (files k) in Ret (r, set_files k v)).

(* @src sys/syscall.rs 623-629 chdir_impl *)
Definition chdir_impl (path : syscall_core.slice) : Kernel -> outcome (Z * Kernel) :=
  with_str (-22) path (fun p k =>
    let! t := this k in
    let! (r, t, v) := vfs_chdir p t (files k) in
    Ret (r, set_this (fun _ => t) (set_files k v))).

(* @src sys/syscall.rs 631-640 getcwd_impl *)
Definition getcwd_impl (buf : syscall_core.slice) : Kernel -> outcome (Z * Kernel) :=
  with_buf buf (fun b k => let! (r, b) := proc_calls.getcwd_impl b (kst k) in Ret (r, b, k)).

(** A [LinuxStat] in memory, 144 bytes. *)
Definition stat_bytes (s : LinuxStat) : list Z :=
  concat (le_encode 8 <$> [st_dev s; st_ino s; st_nlink s]) ++ concat (le_encode 4 <$> [st_mode s; st_uid s; st_gid s; pad0 s]) ++
  concat (le_encode 8 <$> [st_rdev s; st_size s; st_blksize s; st_blocks s; st_atime s; st_atime_ns s;
                           st_mtime s; st_mtime_ns s; st_ctime s; st_ctime_ns s]) ++
  concat (le_encode 8 <$> unused s).

(* @src sys/syscall.rs 642-653 stat_impl *)
Definition stat_impl (path : syscall_core.slice) (buf_ptr : Z) : Kernel -> outcome (Z * Kernel) :=
  with_str (-22) path (fun p k =>
    let! (r, st, v) := vfs_stat_linux (stats k) p (files k) in
    let! k := store buf_ptr (stat_bytes st) (set_files k v) in Ret (r, k)).

(* @src sys/syscall.rs 732-740 access_impl *)
Definition access_impl (path : syscall_core.slice) (mode : Z) : Kernel -> outcome (Z * Kernel) :=
  with_str (-22) path (fun p k => let! (r, _, v) := vfs_stat_linux (stats k) p (files k) in Ret (r, set_files k v)).

(** The file a descriptor leads to: the record that [fstat] writes, without what
    the directory entry would say. *)
(* @src sys/syscall.rs 857-907 fstat_impl *)
Definition fstat_record (fd : Z) (e : FdEntry) k : outcome LinuxStat :=
  match backend e with
  | DevNull | DevTty => Ret (fill_chardev (fd + 1))
  | fdtable.Fat16 => let! n := fatfs.file_size (fat_of (files k)) (raw_fd e) in fill_file n (100 + wrap 64 (raw_fd e))
  | fdtable.RamFS =>
      let! n := (match ram (files k) with
                 | Some f => let! n := idx (ramfs.inodes f) (inode_idx e) in Ret (Z.of_nat (length (ramfs.data n)))
                 | None => Ret 0
                 end) in
      fill_file n (300 + Z.of_nat (inode_idx e))
  | Pipe => Ret (mkStat 0 (500 + fd) 0 (Z.lor S_IFIFO 0x1B6) 0 0 0 0 0 0 0 0 0 0 0 0 0 [0; 0; 0])
  | fdtable.Ext2 => fill_file 0 (200 + wrap 64 (raw_fd e))
  | Dir => Ret (fill_dir (600 + fd))
  end.
Definition fstat_impl (fd buf_ptr : Z) k : outcome (Z * Kernel) :=
  let! e := entry_of fd k in
  match e with
  | None => Ret (-9, k)
  | Some e =>
      let! k := store buf_ptr (stat_bytes zeroed) k in
      let! st := fstat_record fd e k in
      let! k := store buf_ptr (stat_bytes st) k in Ret (0, k)
  end.

(** [ext2::truncate] takes the length as a [u32]. *)
Definition ext2_truncate (e : FdEntry) (length : Z) k : outcome (Z * Kernel) :=
  let! (r, v) := on_ext2 (ext2fs.truncate (raw_fd e) (wrap 32 length)) (files k) in Ret (r, set_files k v).

(* @src sys/syscall.rs 764-782 ftruncate_impl *)
Definition ftruncate_impl (fd length : Z) k : outcome (Z * Kernel) :=
  let! e := entry_of fd k in
  match e with
  | None => Ret (-9, k)
  | Some e => if bool_decide (backend e = fdtable.Ext2) then ext2_truncate e length k else Ret (0, k)
  end.

(* @src sys/syscall.rs 1187-1209 truncate_impl *)
Definition truncate_impl (fd length : Z) k : outcome (Z * Kernel) :=
  let! e := entry_of fd k in
  match e with
  | None => Ret (-9, k)
  | Some e =>
      match backend e with
      | fdtable.RamFS =>
          match ram (files k) with
          | Some f => Ret (0, set_files k (set_ram (files k) (Some (ramfs.truncate_by_idx (inode_idx e) (Z.to_nat length) f))))
          | None => Ret (-2, k)
          end
      | fdtable.Ext2 => ext2_truncate e length k
      | _ => Ret (-38, k)
      end
  end.

(** [chmod] and [chown] of an in-memory path. *)
Definition on_node (path : syscall_core.slice) (g : ramfs.INode -> ramfs.INode) : Kernel -> outcome (Z * Kernel) :=
  with_str (-22) path (fun p k =>
    match ram (files k) with
    | None => Ret (-2, k)
    | Some f =>
        match ramfs.resolve f p with
        | None => Ret (-7, k)
        | Some i =>
            let! n := idx (ramfs.inodes f) i in
            let! l := set_idx (ramfs.inodes f) i (g n) in
            Ret (0, set_files k (set_ram (files k) (Some (ramfs.mkRamFs l))))
        end
    end).
(* @src sys/syscall.rs 1082-1102 chmod_impl *)
Definition chmod_impl (path : syscall_core.slice) (mode : Z) : Kernel -> outcome (Z * Kernel) :=
  on_node path (fun n => ramfs.mkINode (ramfs.name n) (ramfs.parent_idx n) (ramfs.kind n) (ramfs.data n) mode (ramfs.uid n) (ramfs.gid n)).
(* @src sys/syscall.rs 1104-1125 chown_impl *)
Definition chown_impl (path : syscall_core.slice) (uid gid : Z) : Kernel -> outcome (Z * Kernel) :=
  on_node path (fun n => ramfs.mkINode (ramfs.name n) (ramfs.parent_idx n) (ramfs.kind n) (ramfs.data n) (ramfs.mode n) uid gid).

(** The descriptor tables of all tasks. *)
Definition set_tables (ts : list FdTable) k : Kernel :=
  set_kst k (set_tasks (kst k) (zip_with (fun t tb => set_fd_table t tb) (tasks (kst k)) ts)).

(* @src sys/syscall.rs 1127-1158 unlink_impl *)
Definition unlink_impl (path : syscall_core.slice) : Kernel -> outcome (Z * Kernel) :=
  with_str (-22) path (fun p k =>
    match vfs.resolve p with
    | vfs.Fat16 _ =>
        if negb (is_present (files k)) then Ret (-19, k)
        else let! (r, v) := on_fat (fun f => fatfs.unlink f p) (files k) in Ret (r, set_files k v)
    | vfs.Ext2 _ =>
        if negb (ext2_ready (files k)) then Ret (-19, k)
        else let! (r, v) := on_ext2 (ext2fs.unlink p) (files k) in Ret (r, set_files k v)
    | _ =>
        match ram (files k) with
        | None => Ret (-2, k)
        | Some f =>
            let! (r, f, ts) := unlink p f (fd_table <$> tasks (kst k)) in
            Ret (r, set_tables ts (set_files k (set_ram (files k) (Some f))))
        end
    end).
(* @src sys/syscall.rs 784-787 rmdir_impl *)
Definition rmdir_impl (path : syscall_core.slice) : Kernel -> outcome (Z * Kernel) := unlink_impl path.

Definition is_fat (p : list Z) : bool := match vfs.resolve p with vfs.Fat16 _ => true | _ => false end.
Definition is_ext2 (p : list Z) : bool := match vfs.resolve p with vfs.Ext2 _ => true | _ => false end.

(* @src sys/syscall.rs 1160-1185 rename_impl *)
Definition rename_impl (old_path new_path : syscall_core.slice) : Kernel -> outcome (Z * Kernel) :=
  with_str (-22) old_path (fun old => with_str (-22) new_path (fun new k =>
    if is_fat old && is_fat new then
      if negb (is_present (files k)) then Ret (-19, k)
      else let! (r, v) := on_fat (fun f => fatfs.rename f old new) (files k) in Ret (r, set_files k v)
    else if is_ext2 old && is_ext2 new then
      if negb (ext2_ready (files k)) then Ret (-19, k)
      else let! (r, v) := on_ext2 (ext2fs.rename old new) (files k) in Ret (r, set_files k v)
    else if negb (eqb (is_fat old) (is_fat new)) || negb (eqb (is_ext2 old) (is_ext2 new)) then Ret (-22, k)
    else
      match ram (files k) with
      | None => Ret (-2, k)
      | Some f =>
          let! (r, f, ts) := rename_ramfs old new f (fd_table <$> tasks (kst k)) in
          Ret (r, set_tables ts (set_files k (set_ram (files k) (Some f))))
      end)).

(** ** Directory entries *)

(* @src sys/syscall.rs 567-592 getdents64_impl (entry) *)
Definition dirent64 (ino off : Z) (line : list Z) : list Z :=
  let is_dir := bool_decide (last line = Some 47) in
  let name := if is_dir then take (length line - 1) line else line in
  let base := (19 + length name + 1)%nat in
  let reclen := ((base + 7) / 8 * 8)%nat in
  le_encode 8 ino ++ le_encode 8 off ++ le_encode 2 (Z.of_nat reclen) ++ [if is_dir then 4 else 8] ++ name ++ [0] ++
  replicate (reclen - base) 0.

(** The lines from the current position on, while their entries fit. *)
(* @src sys/syscall.rs 564-597 getdents64_impl (loop) *)
Fixpoint dirents (lines : list (list Z)) (start_off ino : Z) (consumed : nat) (buf : list Z) (pos : nat) : nat * nat * list Z :=
  match lines with
  | [] => (pos, consumed, buf)
  | line :: lines' =>
      if (length line =? 0)%nat then dirents lines' start_off ino (S consumed) buf pos
      else
        let d := dirent64 ino (start_off + Z.of_nat (consumed + length line + 1)) line in
        if (length buf <? pos + length d)%nat then (pos, consumed, buf)
        else dirents lines' start_off (ino + 1) (consumed + (length line + 1)) (splice buf pos d) (pos + length d)
  end.

(* @src sys/syscall.rs 521-605 getdents64_impl *)
Definition getdents64_impl (fd : Z) (buf : syscall_core.slice) : Kernel -> outcome (Z * Kernel) :=
  with_buf buf (fun b k =>
    let! e := entry_of fd k in
    match e with
    | None => Ret (-9, b, k)
    | Some e =>
        if negb (bool_decide (backend e = Dir)) then Ret (-20, b, k)
        else
          let! path := slice (dir_path e) 0 (Z.to_nat (dir_path_len e)) in
          if negb (utf8_valid path) then Ret (-22, b, k)
          else
            let! (n, names, v) := vfs_readdir path (replicate (Z.to_nat 2048) 0) (files k) in
            let k := set_files k v in
            if n <? 0 then Ret (n, b, k)
            else
              let! names := slice names 0 (Z.to_nat n) in
              if n <=? offset e then Ret (0, b, k)
              else
                let remaining := drop (Z.to_nat (offset e)) names in
                let '(pos, consumed, b) := dirents (split 10 remaining) (offset e) (1000 + offset e) 0 b 0 in
                let! t := table k in
                let! t := set_idx t (Z.to_nat fd) (Some (set_offset e (offset e + Z.of_nat consumed))) in
                Ret (Z.of_nat pos, b, set_table t k)
    end).
End Calls.
Arguments Kernel : clear implicits.
End file_calls.
