(* ===== verification/Runtime.v ===== *)
(** * The runtime of the system calls (kernel/src/kernel/sys/syscall.rs)

    Module [kernel_runtime] translates the remaining methods of [KernelRuntime]
    (waiting for descriptors, programs, clocks and information calls) and makes the
    kernel an instance of [SyscallRuntime]: [handle_syscall] is the dispatcher on
    it. The network stack, the window system and the installer answer through the
    class [Services]; the programs built into the kernel are the parameter
    [find_program], [beyond] is what the memory behind a file's bytes holds, and
    [disk_sectors] is the size of a disk. *)

From stdpp Require Import base list gmap strings list_numbers.
From Stdlib Require Import ZArith Lia.
From S2P Require Import Prelude IpcPipe IpcMsgq IpcStdin PageTable RamFs FdTable FdPipes Shm Env ElfLoader Task Argv Sched ProcCalls Mbr Fat FatOps DiskStore StoreFs Ext2 Ext2Ops Vfs Tty Dispatch FileCalls.

Local Open Scope Z_scope.

(** Sockets, windows, the installer and name lookup. They read and write the memory
    of the running program, so that they get the scheduler's state too. *)
Class Services (W S : Type) := {
  service : syscall_core.method -> S -> sched.Kst (W := W) -> outcome (Z * S * sched.Kst (W := W));
  socket_read_ready : S -> Z -> bool;
}.

(** Shared segments: the segment table and the memory it is mapped into. *)
Class SegmentMemory (W : Type) := {
  seg_get : Z -> Z -> list shm.ShmSegment * W -> outcome (Z * (list shm.ShmSegment * W));
  seg_at : Z -> list shm.ShmAttach -> Z -> list shm.ShmSegment * W -> outcome (Z * list shm.ShmAttach * (list shm.ShmSegment * W));
  seg_dt : Z -> list shm.ShmAttach -> list shm.ShmSegment * W -> outcome (Z * list shm.ShmAttach * (list shm.ShmSegment * W));
}.

(** The segments of the memory manager. *)
#[export] Instance paging_segments : SegmentMemory paging.kernel := {|
  seg_get key size '(t, w) := let! (r, s) := shm.shmget key size (shm.mkS t w) in Ret (r, (shm.segtab s, shm.km s));
  seg_at id att cr3 '(t, w) := let! (r, att, s) := shm.shmat id att cr3 (shm.mkS t w) in Ret (r, att, (shm.segtab s, shm.km s));
  seg_dt addr att '(t, w) := let! (r, att, s) := shm.shmdt addr att (shm.mkS t w) in Ret (r, att, (shm.segtab s, shm.km s));
|}.

Module kernel_runtime.
Import fdtable task sched proc_calls vfs file_calls.

(** ** Waiting for descriptors *)

(* @src sys/syscall.rs 915-918 PollFd *)
Record PollFd := mkPoll { p_fd : Z; events : Z; revents : Z }.
Definition POLLIN : Z := 0x0001.
Definition POLLOUT : Z := 0x0004.
Definition POLLHUP : Z := 0x0010.

Definition poll_bytes (p : PollFd) : list Z := le_encode 4 (wrap 32 (p_fd p)) ++ le_encode 2 (wrap 16 (events p)) ++ le_encode 2 (wrap 16 (revents p)).
Definition poll_of (b : list Z) : PollFd :=
  mkPoll (swrap 32 (le_decode (take 4 b))) (swrap 16 (le_decode (take 2 (drop 4 b)))) (swrap 16 (le_decode (take 2 (drop 6 b)))).

Definition set_vars {W} (k : Kst (W := W)) x : Kst := mkKst (tasks k) (current k) (slice_remaining k) (current_task_idx k)
  (syscall_ctx k) (kernel_cr3 k) (fs_base_msr k) (queues k) (sched.pipes k) (segtab k) x (um k).

Section Runtime.
Context {W D S : Type} `{UserSpace W} `{ProcMemory W} `{SegmentMemory W} `{BlockDevice D} `{Services W S}.
Context (find_program : list Z -> option (list Z)) (beyond : list Z) (disk_sectors : D -> Z).

(** The kernel, the services and the IA32_GS_BASE register. *)
Record Machine := mkMachine { kernel : Kernel W D; services : S; gs_base : Z }.
Implicit Types (k : Kernel W D) (m : Machine).

Definition set_kernel m k : Machine := mkMachine k (services m) (gs_base m).

Definition wants (p : PollFd) (e : Z) : bool := negb (Z.land (events p) e =? 0).
Definition bits (b : bool) (e : Z) : Z := if b then e else 0.

(** What is ready of what was asked for. *)
(* @src sys/syscall.rs 936-983 poll_impl (one descriptor) *)
Definition poll_one (s : S) k (p : PollFd) : outcome Z :=
  if p_fd p <? 0 then Ret 0
  else if 200 <=? p_fd p then Ret (Z.lor (bits (wants p POLLIN && socket_read_ready s (p_fd p)) POLLIN) (bits (wants p POLLOUT) POLLOUT))
  else if Z.of_nat MAX_FD <=? p_fd p then Ret 0
  else
    let! t := table k in
    let! e := idx t (Z.to_nat (p_fd p)) in
    match e with
    | None => Ret POLLHUP
    | Some e =>
        match backend e with
        | DevTty => Ret (Z.lor (bits (wants p POLLIN && (0 <? Z.of_nat (stdin.available (keys k)))) POLLIN) (bits (wants p POLLOUT) POLLOUT))
        | Pipe =>
            if writable e then Ret (bits (wants p POLLOUT) POLLOUT)
            else let! r := (if wants p POLLIN then pipe.read_ready (sched.pipes (kst k)) (raw_fd e) else Ret false) in Ret (bits r POLLIN)
        | DevNull | fdtable.RamFS | fdtable.Fat16 | fdtable.Ext2 | Dir => Ret (Z.lor (bits (wants p POLLIN) POLLIN) (bits (wants p POLLOUT) POLLOUT))
        end
    end.

(* @src sys/syscall.rs 930-986 poll_impl (loop) *)
Fixpoint poll_all (s : S) k (ps : list PollFd) : outcome (Z * list PollFd) :=
  match ps with
  | [] => Ret (0, [])
  | p :: ps' =>
      let! r := poll_one s k p in
      let! (n, ps') := poll_all s k ps' in
      Ret ((if r =? 0 then n else n + 1), mkPoll (p_fd p) (events p) r :: ps')
  end.

Fixpoint chunks (n : nat) (b : list Z) : list (list Z) := match n with O => [] | Datatypes.S n' => take 8 b :: chunks n' (drop 8 b) end.

(** [sleep_until_tick(current_ticks() + ticks)] when nothing is ready. *)
(* @src sys/syscall.rs 989-997 poll_impl (sleep) *)
Definition wait_ticks (timeout_ms : Z) k : outcome (sysret * Kernel W D) :=
  let! ticks := (if timeout_ms <? 0 then Ret 2
                 else let! x := cmul u64_max timeout_ms syscall_core.TIMER_HZ in Ret (Z.max (x / 1000) 1)) in
  let! target := cadd u64_max (vfs.ticks (stats k)) ticks in
  let (r, x) := proc_calls.sleep_until_tick target (kst k) in
  Ret (match r with Return _ => Return 0 | Leave c => Leave c end, set_kst k x).

(* @src sys/syscall.rs 909-998 poll_impl *)
Definition poll_impl (fds_ptr nfds timeout_ms : Z) (s : S) k : outcome (sysret * Kernel W D) :=
  if nfds =? 0 then Ret (Return 0, k)
  else if (64 <? nfds) || (fds_ptr <? 0x1000) then Ret (Return (-22), k)
  else
    let n := Z.to_nat nfds in
    let! b := load fds_ptr (8 * n) k in
    let! (ready, ps) := poll_all s k (poll_of <$> chunks n b) in
    let! k := store fds_ptr (concat (poll_bytes <$> ps)) k in
    if (0 <? ready) || (timeout_ms =? 0) then Ret (Return ready, k)
    else wait_ticks timeout_ms k.

Definition no_set (p : Z) : bool := (p =? 0) || (p <? 0x1000).
(* @src sys/syscall.rs 1609-1612 read_from_fdset *)
Definition read_from_fdset (p : Z) (n : nat) k : outcome (list Z) :=
  if no_set p || (n =? 0)%nat then Ret [0; 0]
  else
    let! a := load p 8 k in
    let! b := load (p + 8) 8 k in
    Ret [le_decode a; le_decode b].
(* @src sys/syscall.rs 1615-1618 clear_fdset *)
Definition clear_fdset (p : Z) k : outcome (Kernel W D) := if no_set p then Ret k else store p (replicate 128 0) k.
(* @src sys/syscall.rs 1621-1629 set_fdset_bit *)
Definition set_fdset_bit (p : Z) (fd : nat) k : outcome (Kernel W D) :=
  if no_set p then Ret k
  else
    let a := p + 8 * Z.of_nat (fd / 64) in
    let! w := load a 8 k in
    store a (le_encode 8 (Z.lor (le_decode w) (Z.shiftl 1 (Z.of_nat (fd mod 64))))) k.

(* @src sys/syscall.rs 1632-1654 fd_read_ready *)
Definition fd_read_ready (fd : nat) (s : S) k : outcome bool :=
  if (200 <=? fd)%nat then Ret (socket_read_ready s (Z.of_nat fd))
  else if (MAX_FD <=? fd)%nat then Ret false
  else
    let! t := table k in
    let! e := idx t fd in
    match e with
    | None => Ret true
    | Some e =>
        match backend e with
        | DevTty => Ret (0 <? Z.of_nat (stdin.available (keys k)))
        | Pipe => if writable e then Ret true else pipe.read_ready (sched.pipes (kst k)) (raw_fd e)
        | _ => Ret true
        end
    end.

Definition in_set (ws : list Z) (fd : nat) : bool := Z.testbit (default 0 (ws !! (fd / 64)%nat)) (Z.of_nat (fd mod 64)).

(* @src sys/syscall.rs 1036-1055 select_impl (loop) *)
Fixpoint select_loop (fds : list nat) (snap_read snap_write : list Z) (read_ptr write_ptr ready : Z) (s : S) k : outcome (Z * Kernel W D) :=
  match fds with
  | [] => Ret (ready, k)
  | fd :: fds' =>
      let! (ready, k) := (if in_set snap_read fd then
                            let! r := fd_read_ready fd s k in
                            if (r : bool) then (let! k := set_fdset_bit read_ptr fd k in Ret (ready + 1, k)) else Ret (ready, k)
                          else Ret (ready, k)) in
      let! (ready, k) := (if in_set snap_write fd then (let! k := set_fdset_bit write_ptr fd k in Ret (ready + 1, k)) else Ret (ready, k)) in
      select_loop fds' snap_read snap_write read_ptr write_ptr ready s k
  end.

Definition mul_i64 (a b : Z) : outcome Z := let x := a * b in if (i64_min <=? x) && (x <=? i64_max) then Ret x else Panic.

(** [tv_usec / 1000] rounds towards zero. *)
(* @src sys/syscall.rs 1012-1022 select_impl (timeout) *)
Definition select_timeout (timeout_ptr : Z) k : outcome (option Z) :=
  if timeout_ptr =? 0 then Ret (Some (-1))
  else if timeout_ptr <? 0x1000 then Ret None
  else
    let! a := load timeout_ptr 8 k in
    let! b := load (timeout_ptr + 8) 8 k in
    let! x := mul_i64 (swrap 64 (le_decode a)) 1000 in
    let! y := cadd_i64 x (Z.quot (swrap 64 (le_decode b)) 1000) in
    Ret (Some y).

(* @src sys/syscall.rs 1003-1068 select_impl *)
Definition select_impl (nfds read_ptr write_ptr timeout_ptr : Z) (s : S) k : outcome (sysret * Kernel W D) :=
  if 1024 <? nfds then Ret (Return (-22), k)
  else
    let! timeout := select_timeout timeout_ptr k in
    match timeout with
    | None => Ret (Return (-22), k)
    | Some timeout_ms =>
        let n := Z.to_nat (Z.min nfds 64) in
        let! snap_read := read_from_fdset read_ptr n k in
        let! snap_write := read_from_fdset write_ptr n k in
        let! k := clear_fdset read_ptr k in
        let! k := clear_fdset write_ptr k in
        let! (ready, k) := select_loop (seq 0 n) snap_read snap_write read_ptr write_ptr 0 s k in
        if (0 <? ready) || (timeout_ms =? 0) then Ret (Return ready, k)
        else wait_ticks timeout_ms k
    end.

(** ** Programs *)

(** [trim_end_matches('/')], then [rsplit('/').next()] *)
Definition base_name (path : list Z) : list Z := default path (last (split 47 (trim_end 47 path))).

Fixpoint trim_start (c : Z) (p : list Z) : list Z := match p with b :: p' => if b =? c then trim_start c p' else p | [] => [] end.
(** [trim_start_matches("bin/")] *)
Fixpoint trim_bin (fuel : nat) (p : list Z) : list Z :=
  match fuel with O => p | Datatypes.S n => if starts_with p (str "bin/") then trim_bin n (drop 4 p) else p end.

(** At most one turn per byte of the file, and one more. *)
(* @src sys/syscall.rs 1722-1727 exec_fat (loop) *)
Fixpoint read_whole (fuel : nat) (fd : Z) (buf : list Z) v : outcome (list Z * Files D) :=
  match fuel with
  | O => Panic
  | Datatypes.S fuel' =>
      let! (n, tmp, v) := (let! (n, tmp, f) := fatfs.read_fd (fat_of v) fd (replicate 512 0) in Ret (n, tmp, put_fat v f)) in
      if n <=? 0 then Ret (buf, v) else read_whole fuel' fd (buf ++ take (Z.to_nat n) tmp) v
  end.

(* @src sys/syscall.rs 1716-1733 exec_fat *)
Definition exec_fat (path extra_args : list Z) k : outcome (sysret * Kernel W D) :=
  let! (fd, v) := on_fat (fun f => fatfs.open f path 0) (files k) in
  let k := set_files k v in
  if fd <? 0 then Ret (Return (-2), k)
  else
    let! size := fatfs.file_size (fat_of v) fd in
    let! (buf, v) := read_whole (Datatypes.S (Z.to_nat size)) fd [] v in
    let! (_, v) := on_fat (fun f => fatfs.close f fd) v in
    let k := set_files k v in
    if (length buf =? 0)%nat then Ret (Return (-2), k)
    else
      let prog_name := base_name (if utf8_valid path then path else []) in
      let! (r, x) := exec_binary beyond buf prog_name extra_args (kst k) in
      Ret (r, set_kst k x).

Definition is_enoent (r : sysret) : bool := match r with Return v => v =? -2 | Leave _ => false end.

(* @src sys/syscall.rs 1661-1714 exec_resolve *)
Definition exec_resolve (path extra_args : list Z) k : outcome (sysret * Kernel W D) :=
  if negb (utf8_valid path) then Ret (Return (-1), k)
  else
    let exec b := (let! (r, x) := exec_binary beyond b (base_name path) extra_args (kst k) in Ret (r, set_kst k x)) in
    match find_program (trim_bin (length path) (trim_start 47 path)) with
    | Some b => exec b
    | None =>
        let! data := (match ram (files k) with Some f => ramfs.read_file f path | None => Ret None end) in
        match data with
        | Some (b :: data) => exec (b :: data)
        | _ =>
            if starts_with path (str "/disk/") then exec_fat path extra_args k
            else if existsb (Z.eqb 47) path then Ret (Return (-2), k)
            else
              let! (r, k) := exec_fat (str "/disk/" ++ path) extra_args k in
              if negb (is_enoent r) then Ret (r, k)
              else exec_fat (str "/disk/" ++ path ++ str ".elf") extra_args k
        end
    end.

(* @src sys/syscall.rs 113-115 exec_program *)
Definition exec_program (path : syscall_core.slice) k : outcome (sysret * Kernel W D) :=
  let! p := load_slice path k in exec_resolve p [] k.
(* @src sys/syscall.rs 117-120 exec_program_args *)
Definition exec_program_args (path args : syscall_core.slice) k : outcome (sysret * Kernel W D) :=
  let! p := load_slice path k in
  let! a := load_slice args k in
  exec_resolve p (if utf8_valid a then a else []) k.

(** ** Information *)

(* @src sys/syscall.rs 340-402 arch_prctl_impl *)
Definition arch_prctl_impl (code addr : Z) m : outcome (Z * Machine) :=
  let k := kernel m in
  if code =? 0x1002 then
    let! t := this k in
    Ret (0, set_kernel m (set_kst k (set_msr (upd_cur (fun t => set_fs_base t addr) (kst k)) addr)))
  else if code =? 0x1003 then
    if addr =? 0 then Ret (-14, m)
    else
      let! t := this k in
      let! k := store addr (le_encode 8 (fs_base t)) k in Ret (0, set_kernel m k)
  else if code =? 0x1001 then Ret (0, mkMachine k (services m) addr)
  else if code =? 0x1004 then
    if addr =? 0 then Ret (-14, m)
    else let! k := store addr (le_encode 8 (gs_base m)) k in Ret (0, set_kernel m k)
  else Ret (-22, m).

(** One field of [utsname]: 65 bytes, the last of them zero. *)
Definition uts_field (s : list Z) : list Z := take 64 s ++ replicate (65 - Nat.min 64 (length s)) 0.
Definition utsname : list (list Z) := str <$> ["OxideOS"; "oxideos"; "0.1.0"; "#1 SMP"; "x86_64"; "(none)"]%string.

(* @src sys/syscall.rs 404-425 uname_impl *)
Definition uname_impl (buf_ptr : Z) k : outcome (Z * Kernel W D) :=
  if buf_ptr =? 0 then Ret (-14, k)
  else let! k := store buf_ptr (concat (uts_field <$> utsname)) k in Ret (0, k).

(** Two words one after the other, as three calls write them. *)
Definition store_pair (p a b : Z) k : outcome (Kernel W D) :=
  let! k := store p (le_encode 8 a) k in
  let! p8 := cadd u64_max p 8 in
  store p8 (le_encode 8 b) k.

(* @src sys/syscall.rs 427-438 clock_gettime_impl *)
Definition clock_gettime_impl (tp_ptr : Z) k : outcome (Z * Kernel W D) :=
  if tp_ptr =? 0 then Ret (-14, k)
  else
    let n := ticks (stats k) in
    let! k := store_pair tp_ptr (n / 100) (n mod 100 * 10000000) k in Ret (0, k).

(* @src sys/syscall.rs 795-806 getrlimit_impl *)
Definition getrlimit_impl (rlim_ptr : Z) k : outcome (Z * Kernel W D) :=
  if rlim_ptr =? 0 then Ret (-22, k)
  else let! k := store_pair rlim_ptr u64_max u64_max k in Ret (0, k).

(* @src sys/syscall.rs 808-815 getrusage_impl *)
Definition getrusage_impl (buf_ptr : Z) k : outcome (Z * Kernel W D) :=
  if buf_ptr =? 0 then Ret (-22, k)
  else let! k := store buf_ptr (replicate 144 0) k in Ret (0, k).

(* @src sys/syscall.rs 817-832 sysinfo_impl *)
Definition sysinfo_impl (buf_ptr : Z) k : outcome (Z * Kernel W D) :=
  if buf_ptr =? 0 then Ret (-22, k)
  else
    let! k := store buf_ptr (replicate 112 0) k in
    let! k := store_pair buf_ptr (ticks (stats k) / 100) (128 * 1024 * 1024) k in
    let! p16 := cadd u64_max buf_ptr 16 in
    let! k := store p16 (le_encode 8 (64 * 1024 * 1024)) k in
    let! p104 := cadd u64_max buf_ptr 104 in
    let! k := store p104 (le_encode 4 4096) k in Ret (0, k).

(* @src sys/syscall.rs 1078-1080 ioctl_impl *)
Definition ioctl_impl (request arg : Z) k : outcome (Z * Kernel W D) :=
  let! (r, s, x) := tty.ioctl request arg (term k) (kst k) in Ret (r, set_term (set_kst k x) s).

(** ** Environment, segments and messages *)

(* @src sys/syscall.rs 1211-1220 getenv_impl *)
Definition getenv_impl (key buf : syscall_core.slice) k : outcome (Z * Kernel W D) :=
  let! q := load_slice key k in
  match env.getenv (vars (kst k)) q with
  | None => Ret (-7, k)
  | Some v => with_buf buf (fun b k =>
      let n := Nat.min (length v) (length b) in
      let! b := copy_at b 0 (take n v) in Ret (Z.of_nat n, b, k)) k
  end.

(* @src sys/syscall.rs 1222-1224 setenv_impl *)
Definition setenv_impl (key val : syscall_core.slice) k : outcome (Z * Kernel W D) :=
  let! q := load_slice key k in
  let! v := load_slice val k in
  let (ok, t) := env.setenv (vars (kst k)) q v in
  Ret (if ok : bool then 0 else -1, set_kst k (set_vars (kst k) t)).

(** The segment table and the memory behind it. *)
Definition on_segs {A} (f : list shm.ShmSegment * W -> outcome (A * (list shm.ShmSegment * W))) k : outcome (A * Kernel W D) :=
  let! (a, (t, w)) := f (segtab (kst k), um (kst k)) in Ret (a, set_kst k (set_segtab (set_um (kst k) w) t)).

(* @src sys/syscall.rs 1226-1228 shmget_impl *)
Definition shmget_impl (key size : Z) k : outcome (Z * Kernel W D) := on_segs (seg_get key size) k.
(* @src sys/syscall.rs 1230-1239 shmat_impl *)
Definition shmat_impl (shmid : Z) k : outcome (Z * Kernel W D) :=
  let! t := this k in
  let! (r, att, k) := (let! (ra, k) := on_segs (seg_at shmid (shm_attaches t) (cr3 t)) k in Ret (ra, k)) in
  Ret (r, set_this (fun t => set_shm_attaches t att) k).
(* @src sys/syscall.rs 1241-1249 shmdt_impl *)
Definition shmdt_impl (addr : Z) k : outcome (Z * Kernel W D) :=
  let! t := this k in
  let! (r, att, k) := (let! (ra, k) := on_segs (seg_dt addr (shm_attaches t)) k in Ret (ra, k)) in
  Ret (r, set_this (fun t => set_shm_attaches t att) k).

(* @src sys/syscall.rs 1498-1500 msgq_create *)
Definition msgq_create (id : Z) k : outcome (Z * Kernel W D) :=
  let (r, qs) := ipc.msgq_create (queues (kst k)) id in Ret (r, set_kst k (set_queues (kst k) qs)).
(* @src sys/syscall.rs 1502-1504 msgsnd *)
Definition msgsnd (id type_id : Z) (data : syscall_core.slice) k : outcome (Z * Kernel W D) :=
  let! b := load_slice data k in
  let! (r, qs) := ipc.msgsnd (queues (kst k)) id type_id b in Ret (r, set_kst k (set_queues (kst k) qs)).
(* @src sys/syscall.rs 1517-1519 msgq_destroy *)
Definition msgq_destroy (id : Z) k : outcome (Z * Kernel W D) :=
  let (r, qs) := ipc.msgq_destroy (queues (kst k)) id in Ret (r, set_kst k (set_queues (kst k) qs)).
(* @src sys/syscall.rs 1547-1549 msgq_len *)
Definition msgq_len (id : Z) k : outcome (Z * Kernel W D) :=
  let! n := ipc.msgq_len (queues (kst k)) id in Ret (n, k).

(* @src sys/syscall.rs 1589-1592 install_query_impl *)
Definition install_query_impl k : Z :=
  match disk_at (files k) 3 with Some d => wrap 32 (disk_sectors d) | None => -1 end.

(** ** The kernel as a runtime *)

(* @src sys/syscall.rs 31-33 current_ticks *)
Definition current_ticks k : Z := ticks (stats k).

(** The code goes to [tick], [code as i64] of a 32-bit number. *)
(* @src sys/syscall.rs 86-101 exit *)
Definition exit (code : Z) m : outcome (result Z Z * Machine) := Ret (Err code, m).

(* @src sys/syscall.rs 789-793 fchdir_impl *)
Definition fchdir_impl (fd : Z) k : outcome (Z * Kernel W D) := Ret (0, k).

Definition from_result (o : outcome (Z * Kernel W D)) m : outcome (result Z Z * Machine) :=
  let! (r, k) := o in Ret (Ok r, set_kernel m k).
Definition from_sysret (o : outcome (sysret * Kernel W D)) m : outcome (result Z Z * Machine) :=
  let! (r, k) := o in Ret (match r with Return v => Ok v | Leave c => Err c end, set_kernel m k).
Definition from_kst (o : outcome (Z * Kst (W := W))) m : outcome (result Z Z * Machine) :=
  let! (r, x) := o in Ret (Ok r, set_kernel m (set_kst (kernel m) x)).
Definition from_value (o : outcome Z) m : outcome (result Z Z * Machine) :=
  let! r := o in Ret (Ok r, m).
Definition from_kst_sysret (o : outcome (sysret * Kst (W := W))) m : outcome (result Z Z * Machine) :=
  from_sysret (let! (r, x) := o in Ret (r, set_kst (kernel m) x)) m.
Definition from_service (q : syscall_core.method) m : outcome (result Z Z * Machine) :=
  let! (r, s, x) := service q (services m) (kst (kernel m)) in
  Ret (Ok r, mkMachine (set_kst (kernel m) x) s (gs_base m)).

(** The methods by the components that answer them: the program's memory and
    process, its files, what [from_service] asks for. *)
(* @src sys/syscall.rs 14-14 impl SyscallRuntime for KernelRuntime (process) *)
Definition process_method (q : syscall_core.method) m : option (outcome (result Z Z * Machine)) :=
  let k := kernel m in let x := kst k in let now := current_ticks k in
  match q with
  | syscall_core.read_byte a => Some (let! b := load a 1 k in let! c := idx b 0 in Ret (Ok c, m))
  | syscall_core.write_bytes a bs => Some (let! k := store a bs k in Ret (Ok 0, set_kernel m k))
  | syscall_core.is_page_mapped a => Some (let! t := this k in Ret (Ok (match us_peek (um x) (cr3 t) a with Some _ => 1 | None => 0 end), m))
  | syscall_core.current_pid => Some (from_value (proc_calls.current_pid x) m)
  | syscall_core.current_ticks => Some (Ret (Ok now, m))
  | syscall_core.write_console s => Some (let! b := load_slice s k in let! k := file_calls.write_console b k in Ret (Ok 0, set_kernel m k))
  | syscall_core.system_uptime_ms => Some (from_value (file_calls.system_uptime_ms k) m)
  | syscall_core.sleep_until_tick t => Some (from_kst_sysret (Ret (proc_calls.sleep_until_tick t x)) m)
  | syscall_core.exit code => Some (exit code m)
  | syscall_core.get_char => Some (from_result (file_calls.get_char k) m)
  | syscall_core.exec_program p => Some (from_sysret (exec_program p k) m)
  | syscall_core.exec_program_args p a => Some (from_sysret (exec_program_args p a k) m)
  | syscall_core.fork_child => Some (from_kst (proc_calls.fork_child x) m)
  | syscall_core.waitpid_impl p => Some (from_kst_sysret (proc_calls.waitpid_impl p x) m)
  | syscall_core.brk_program e => Some (from_kst (proc_calls.brk_program e x) m)
  | syscall_core.mmap_anon _ n => Some (from_kst (proc_calls.mmap_anon n x) m)
  | syscall_core.munmap_impl a n => Some (from_kst (proc_calls.munmap_impl a n x) m)
  | syscall_core.getppid_impl => Some (from_value (proc_calls.getppid_impl x) m)
  | syscall_core.setpgid_impl p g => Some (from_kst (proc_calls.setpgid_impl p g x) m)
  | syscall_core.getpgrp_impl => Some (from_value (proc_calls.getpgrp_impl x) m)
  | syscall_core.getpgid_impl p => Some (from_value (proc_calls.getpgid_impl p x) m)
  | syscall_core.kill_pid_sig p n => Some (from_kst (Ret (proc_calls.kill_pid_sig p n x)) m)
  | syscall_core.sigaction_impl n h o => Some (from_kst (proc_calls.sigaction_impl n h o x) m)
  | syscall_core.sigreturn_impl => Some (from_kst (proc_calls.sigreturn_impl x) m)
  | syscall_core.sigprocmask_impl h s o => Some (from_kst (proc_calls.sigprocmask_impl h s o x) m)
  | syscall_core.alarm_impl n => Some (from_kst (proc_calls.alarm_impl now n x) m)
  | syscall_core.sigpending_impl p _ => Some (from_kst (proc_calls.sigpending_impl p x) m)
  | syscall_core.sigsuspend_impl p _ => Some (from_kst (proc_calls.sigsuspend_impl p x) m)
  | syscall_core.msgrcv i p => Some (from_kst (proc_calls.msgrcv i p x) m)
  | syscall_core.msgrcv_wait i p => Some (from_kst_sysret (proc_calls.msgrcv_wait i p x) m)
  | syscall_core.arch_prctl_impl c a => Some (let! (r, m) := arch_prctl_impl c a m in Ret (Ok r, m))
  | _ => None
  end.

(** The calls on files, and the ones of this file. *)
(* @src sys/syscall.rs 14-14 impl SyscallRuntime for KernelRuntime (files) *)
Definition file_method (q : syscall_core.method) m : option (outcome (Z * Kernel W D)) :=
  let k := kernel m in
  match q with
  | syscall_core.fcntl_impl fd c a => Some (file_calls.fcntl_impl fd c a k)
  | syscall_core.lseek_impl fd o w => Some (file_calls.lseek_impl fd o w k)
  | syscall_core.readv_impl fd p n => Some (file_calls.readv_impl fd p n k)
  | syscall_core.writev_impl fd p n => Some (file_calls.writev_impl fd p n k)
  | syscall_core.access_impl p md => Some (file_calls.access_impl p md k)
  | syscall_core.dup_impl fd => Some (file_calls.dup_impl fd k)
  | syscall_core.dup2_impl a b => Some (file_calls.dup2_impl a b k)
  | syscall_core.ftruncate_impl fd n => Some (file_calls.ftruncate_impl fd n k)
  | syscall_core.truncate_impl fd n => Some (file_calls.truncate_impl fd n k)
  | syscall_core.fchdir_impl fd => Some (fchdir_impl fd k)
  | syscall_core.rmdir_impl p => Some (file_calls.rmdir_impl p k)
  | syscall_core.pread64_impl fd p n o => Some (file_calls.pread64_impl fd p n o k)
  | syscall_core.pwrite64_impl fd p n o => Some (file_calls.pwrite64_impl fd p n o k)
  | syscall_core.chmod_impl p md => Some (file_calls.chmod_impl p md k)
  | syscall_core.chown_impl p u g => Some (file_calls.chown_impl p u g k)
  | syscall_core.getdents64_impl fd b => Some (file_calls.getdents64_impl fd b k)
  | syscall_core.readdir_impl p b => Some (file_calls.readdir_impl p b k)
  | syscall_core.mkdir_impl p => Some (file_calls.mkdir_impl p k)
  | syscall_core.chdir_impl p => Some (file_calls.chdir_impl p k)
  | syscall_core.getcwd_impl b => Some (file_calls.getcwd_impl b k)
  | syscall_core.stat_impl p b => Some (file_calls.stat_impl p b k)
  | syscall_core.fstat_impl fd b => Some (file_calls.fstat_impl fd b k)
  | syscall_core.unlink_impl p => Some (file_calls.unlink_impl p k)
  | syscall_core.rename_impl p q => Some (file_calls.rename_impl p q k)
  | syscall_core.fs_open p fl => Some (file_calls.fs_open p fl k)
  | syscall_core.fs_close fd => Some (file_calls.fs_close fd k)
  | syscall_core.fs_read fd b => Some (file_calls.fs_read fd b k)
  | syscall_core.fs_write_file fd b => Some (file_calls.fs_write_file fd b k)
  | syscall_core.pipe_alloc r w => Some (file_calls.pipe_alloc r w k)
  | syscall_core.uname_impl p => Some (uname_impl p k)
  | syscall_core.clock_gettime_impl _ p => Some (clock_gettime_impl p k)
  | syscall_core.getrlimit_impl _ p => Some (getrlimit_impl p k)
  | syscall_core.getrusage_impl _ p => Some (getrusage_impl p k)
  | syscall_core.sysinfo_impl p => Some (sysinfo_impl p k)
  | syscall_core.ioctl_impl _ r a => Some (ioctl_impl r a k)
  | syscall_core.shmget_impl key n _ => Some (shmget_impl key n k)
  | syscall_core.shmat_impl i _ => Some (shmat_impl i k)
  | syscall_core.shmdt_impl a => Some (shmdt_impl a k)
  | syscall_core.getenv_impl q b => Some (getenv_impl q b k)
  | syscall_core.setenv_impl q v => Some (setenv_impl q v k)
  | syscall_core.msgq_create i => Some (msgq_create i k)
  | syscall_core.msgsnd i t d => Some (msgsnd i t d k)
  | syscall_core.msgq_destroy i => Some (msgq_destroy i k)
  | syscall_core.msgq_len i => Some (msgq_len i k)
  | syscall_core.install_query_impl => Some (Ret (install_query_impl k, k))
  | _ => None
  end.

(* @src sys/syscall.rs 12-14 KernelRuntime *)
Definition KernelRuntime (q : syscall_core.method) m : outcome (result Z Z * Machine) :=
  match process_method q m with
  | Some o => o
  | None =>
      match file_method q m with
      | Some o => from_result o m
      | None =>
          match q with
          | syscall_core.poll_impl p n t => from_sysret (poll_impl p n t (services m) (kernel m)) m
          | syscall_core.select_impl n r w _ t => from_sysret (select_impl n r w t (services m) (kernel m)) m
          | _ => from_service q m
          end
      end
  end.
#[export] Instance kernel_runtime : syscall_core.SyscallRuntime Machine := KernelRuntime.

(** [Ok] is the result for the program, [Err] the code that leaves user mode. *)
(* @src sys/syscall.rs 1835-1848 handle_syscall *)
Definition handle_syscall (num arg1 arg2 arg3 arg4 arg5 : Z) : prog Machine Z syscall_core.SyscallResult :=
  syscall_core.dispatch (syscall_core.mkRequest num arg1 arg2 arg3 arg4 arg5).
End Runtime.
End kernel_runtime.
