(* ===== verification/RuntimeInv.v ===== *)
(** * The task table under every system call

    Module [runtime_inv] puts the invariant of SchedInv.v together with the system calls of
    Dispatch.v, FileCalls.v and Runtime.v: whatever programs compute, store and ask the kernel
    for, the table of tasks stays in order. *)

From stdpp Require Import base list gmap strings list_numbers relations.
From Stdlib Require Import ZArith Lia.
From S2P Require Import Prelude IpcPipe IpcMsgq IpcStdin RamFs FdTable FdPipes Shm Env ElfLoader Task Argv Sched ProcCalls SchedInv Mbr Fat FatOps DiskStore StoreFs Ext2 Ext2Ops Vfs Tty Dispatch FileCalls Runtime.

Local Open Scope Z_scope.

Module runtime_inv.
Import fdtable task sched proc_calls sched_inv vfs file_calls kernel_runtime.

(** ** What holds of a result, if there is one *)

Definition post {A} (o : outcome A) (P : A -> Prop) : Prop := forall a, o = Ret a -> P a.

Lemma post_ret {A} (a : A) (P : A -> Prop) : P a -> post (Ret a) P.
Proof. by intros H b [= <-]. Qed.
Lemma post_panic {A} (P : A -> Prop) : post Panic P.
Proof. by intros a. Qed.
Lemma post_bind {A B} (m : outcome A) (f : A -> outcome B) (Q : A -> Prop) (P : B -> Prop) :
  post m Q -> (forall a, Q a -> post (f a) P) -> post (let! x := m in f x) P.
Proof. intros Hm Hf b (a & E & Ea)%bind_Ret. by eapply Hf; [apply Hm|]. Qed.
Lemma post_any {A B} (m : outcome A) (f : A -> outcome B) (P : B -> Prop) :
  (forall a, m = Ret a -> post (f a) P) -> post (let! x := m in f x) P.
Proof. intros Hf b (a & E & Ea)%bind_Ret. by eapply Hf. Qed.

Create HintDb keep.

Section Keep.
Context {W D S : Type} `{UserSpace W} `{ProcMemory W} `{SegmentMemory W} `{BlockDevice D} `{Services W S}.
Context (find_program : list Z -> option (list Z)) (beyond : list Z) (disk_sectors : D -> Z).
(** Sockets, windows, the installer and name lookup leave the scheduler alone. *)
Context (service_frame : forall q (s s' : S) (x x' : Kst (W := W)) r, service q s x = Ret (r, s', x') -> same x x').
Context (here : nat).
Implicit Types (k : Kernel W D) (m : Machine (W := W) (D := D) (S := S)).

Definition sane k : Prop := good here (kst k).

(** ** Updates of the kernel's state *)

Lemma sane_kst k x : good here x -> sane (set_kst k x).
Proof. done. Qed.
Lemma sane_files k v : sane k -> sane (set_files k v).
Proof. done. Qed.
Lemma sane_term k v : sane k -> sane (set_term k v).
Proof. done. Qed.
Lemma sane_keys k v : sane k -> sane (set_keys k v).
Proof. done. Qed.
Lemma sane_this f k : mild f -> sane k -> sane (set_this f k).
Proof. intros. by apply good_upd_cur. Qed.
Lemma sane_table t k : sane k -> sane (set_table t k).
Proof. intros. by apply sane_this. Qed.
Lemma sane_devs t d k : sane k -> sane (put_devs t d k).
Proof.
  intros Hk. apply (good_same here (upd_cur (fun x => set_output (set_fd_table x t) (out d)) (kst k))); [done|].
  by apply good_upd_cur.
Qed.
Lemma sane_same k x : same (kst k) x -> sane k -> sane (set_kst k x).
Proof. intros Hs Hk. by apply (good_same here (kst k)). Qed.

Lemma sane_tables ts k : length ts = length (tasks (kst k)) -> sane k -> sane (set_tables ts k).
Proof.
  intros Hl [[[Hn Ht] I2 I3] (Hc & t & Hcur & Hs)].
  assert (forall i u, zip_with (fun t tb => set_fd_table t tb) (tasks (kst k)) ts !! i = Some u -> exists v tb, tasks (kst k) !! i = Some v /\ u = set_fd_table v tb) as Hz.
  { intros i u. rewrite lookup_zip_with. intros (v & Hv & (tb & _ & [= <-])%bind_Some)%bind_Some. eauto. }
  assert (length (zip_with (fun t tb => set_fd_table t tb) (tasks (kst k)) ts) = MAX_TASKS) as Hlen by (rewrite length_zip_with; lia).
  split.
  - constructor; [|done|done]. split; [done|]. intros i u (v & tb & Hv & ->)%Hz. by destruct (Ht i v Hv).
  - split; [done|]. apply lookup_lt_Some in Hcur as Hlt. rewrite Hn, <- Hlen in Hlt.
    destruct (lookup_lt_is_Some_2 _ _ Hlt) as [u Hu]. exists u. split; [done|]. apply Hz in Hu as (v & tb & Hv & ->). rewrite Hcur in Hv. by injection Hv as <-.
Qed.

Definition ends {A} (r : A * Kernel W D) : Prop := sane r.2.

Lemma post_store a bs k : sane k -> post (store a bs k) sane.
Proof.
  intros Hk k' E. unfold store, tty.store in E. apply bind_Ret in E as (x & (t & _ & E)%bind_Ret & [= <-]).
  eapply (good_same here); [by eapply mem_do_same|done].
Qed.

#[local] Hint Resolve sane_files sane_term sane_keys sane_table sane_devs post_store : keep.

(** Runs through the statements of a call: calls with a lemma by the lemma, the others by what
    they return. *)
Ltac keep := repeat first
  [ match goal with
    | |- post (Ret _) _ => apply post_ret
    | |- post Panic _ => apply post_panic
    | |- post (match ?x with _ => _ end) _ => destruct x
    | |- post (let (_, _) := ?x in _) _ => destruct x
    | |- ends (_, _) => unfold ends; cbn [snd]
    | |- sane (match ?x with _ => _ end) => destruct x
    | Hx : ends ?x |- _ => match x with (_, _) => unfold ends in Hx; cbn [snd] in Hx | _ => destruct x end
    end
  | solve [auto with keep]
  | eapply post_bind; [solve [auto with keep]|intros ? ?]
  | apply post_any; intros ? _
  | progress intros ].

Lemma keep_str bad path f k : (forall p k, sane k -> post (f p k) ends) -> sane k -> post (with_str bad path f k) ends.
Proof. intros Hf Hk. unfold with_str. keep. Qed.
Lemma keep_buf s f k : (forall b k, sane k -> post (f b k) ends) -> sane k -> post (with_buf s f k) ends.
Proof.
  intros Hf Hk. unfold with_buf. apply post_any. intros b _. eapply post_bind; [by apply Hf|]. intros [[r b'] k'] Hk'. cbn in Hk'. keep.
Qed.
Lemma keep_console b k : sane k -> post (write_console b k) sane.
Proof. intros Hk. unfold write_console. apply post_any. intros t _. apply post_any. intros o _. apply post_ret. by apply sane_this. Qed.
#[local] Hint Resolve keep_str keep_buf keep_console : keep.

Lemma keep_open p fl k : sane k -> post (fs_open p fl k) ends.
Proof. intros Hk. unfold fs_open. apply keep_str; [|done]. keep. Qed.
Lemma keep_close fd k : sane k -> post (fs_close fd k) ends.
Proof. intros Hk. unfold fs_close. keep. Qed.
Lemma keep_read fd b k : sane k -> post (fs_read fd b k) ends.
Proof. intros Hk. unfold fs_read. apply keep_buf; [|done]. keep. Qed.
Lemma keep_write fd b k : sane k -> post (fs_write_file fd b k) ends.
Proof. intros Hk. unfold fs_write_file. keep. Qed.
Lemma keep_lseek fd o w k : sane k -> post (lseek_impl fd o w k) ends.
Proof. intros Hk. unfold lseek_impl. keep. Qed.
#[local] Hint Resolve keep_open keep_close keep_read keep_write keep_lseek : keep.

Lemma keep_readv fd p ns total k : sane k -> post (readv_loop fd p ns total k) ends.
Proof. revert total k. induction ns as [|i ns IH]; intros total k Hk; cbn [readv_loop]; keep. Qed.
Lemma keep_writev fd p ns total k : sane k -> post (writev_loop fd p ns total k) ends.
Proof.
  revert total k. induction ns as [|i ns IH]; intros total k Hk; cbn [writev_loop]; [keep|]. apply post_any. intros s _.
  destruct (_ =? _); [keep|]. eapply (post_bind _ _ ends); [keep|]. intros [r k'] Hk'. keep.
Qed.
Lemma keep_pread fd p n o k : sane k -> post (pread64_impl fd p n o k) ends.
Proof. intros Hk. unfold pread64_impl. keep. Qed.
Lemma keep_pwrite fd p n o k : sane k -> post (pwrite64_impl fd p n o k) ends.
Proof. intros Hk. unfold pwrite64_impl. keep. Qed.
Lemma keep_pipe_alloc r w k : sane k -> post (file_calls.pipe_alloc r w k) ends.
Proof. intros Hk. unfold file_calls.pipe_alloc. keep. Qed.
Lemma keep_chdir p k : sane k -> post (chdir_impl p k) ends.
Proof.
  intros Hk. unfold chdir_impl. apply keep_str; [|done]. clear k Hk. intros q k Hk. apply post_any. intros t Ht. apply post_any. intros [[r t'] v] E. apply post_ret.
  unfold ends. cbn [snd]. unfold this in Ht. destruct (cur_Ret here (kst k) t Hk Ht) as (_ & Hok & Hs).
  assert (t' = t \/ exists cwd n, t' = set_cwd t cwd n) as Hc.
  { unfold vfs_chdir in E. apply bind_Ret in E as ([e v1] & _ & E). destruct e as [[|]|]; [|by injection E as _ <- _; left|by injection E as _ <- _; left].
    apply bind_Ret in E as ([nm fl] & _ & (cwd & _ & [= _ <- _])%bind_Ret). right. eauto. }
  apply (good_set_cur here t); [done|done| |]; destruct Hc as [->|(cwd & n & ->)]; try done. by destruct Hok.
Qed.
Lemma keep_unlink p k : sane k -> post (unlink_impl p k) ends.
Proof.
  intros Hk. unfold unlink_impl. apply keep_str; [|done]. clear k Hk. intros q k Hk.
  assert (post (match ram (files k) with
    | None => Ret (-2, k)
    | Some f => let! (r, f, ts) := unlink q f (fd_table <$> tasks (kst k)) in Ret (r, set_tables ts (set_files k (set_ram (files k) (Some f))))
    end) ends) as Hram.
  { destruct (ram (files k)) as [f|]; [|keep]. apply post_any. intros [[r f'] ts] E. apply post_ret. unfold ends. cbn [snd]. apply sane_tables; [|by apply sane_files].
    unfold unlink in E. apply bind_Ret in E as ([[i|e] f1] & _ & E); injection E as _ _ <-; cbn; by rewrite ?length_fmap. }
  destruct (vfs.resolve q); first [exact Hram|keep].
Qed.
Lemma keep_rename p q k : sane k -> post (rename_impl p q k) ends.
Proof.
  intros Hk. unfold rename_impl. apply keep_str; [|done]. clear k Hk. intros old k Hk. apply keep_str; [|done]. clear k Hk. intros new k Hk.
  do 3 (match goal with |- post (if ?b then _ else _) _ => destruct b; [keep|] end).
  destruct (ram (files k)) as [f|]; [|keep]. apply post_any. intros [[r f'] ts] E. apply post_ret. unfold ends. cbn [snd]. apply sane_tables; [|by apply sane_files].
  unfold rename_ramfs in E. apply bind_Ret in E as ([x f1] & _ & [= _ _ <-]). cbn. by rewrite length_fmap.
Qed.
Lemma keep_getdents fd b k : sane k -> post (getdents64_impl fd b k) ends.
Proof. intros Hk. unfold getdents64_impl. apply keep_buf; [|done]. keep. Qed.
#[local] Hint Resolve keep_readv keep_writev keep_pread keep_pwrite keep_pipe_alloc keep_chdir keep_unlink keep_rename keep_getdents : keep.

Lemma keep_store_pair p a b k : sane k -> post (store_pair p a b k) sane.
Proof. intros Hk. unfold store_pair. keep. Qed.
#[local] Hint Resolve keep_store_pair : keep.

Lemma keep_segs {A} f k : sane k -> post (on_segs (A := A) f k) ends.
Proof. intros Hk. unfold on_segs. apply post_any. intros [a [t w]] _. apply post_ret. by apply (sane_same k). Qed.
Lemma keep_shmat i k : sane k -> post (shmat_impl i k) ends.
Proof.
  intros Hk. unfold shmat_impl. apply post_any. intros t _. eapply (post_bind _ _ ends).
  - eapply post_bind; [by apply keep_segs|]. intros [ra k'] Hk'. by apply post_ret.
  - intros [[r att] k'] Hk'. apply post_ret. by apply sane_this.
Qed.
Lemma keep_shmdt a k : sane k -> post (shmdt_impl a k) ends.
Proof.
  intros Hk. unfold shmdt_impl. apply post_any. intros t _. eapply (post_bind _ _ ends).
  - eapply post_bind; [by apply keep_segs|]. intros [ra k'] Hk'. by apply post_ret.
  - intros [[r att] k'] Hk'. apply post_ret. by apply sane_this.
Qed.
Lemma keep_ioctl r a k : sane k -> post (ioctl_impl r a k) ends.
Proof.
  intros Hk. unfold ioctl_impl. apply post_any. intros [[x s] x'] E. apply post_ret. apply sane_term.
  assert (forall b x1, tty.store a b (kst k) = Ret x1 -> good here x1) as Hst.
  { intros b x1 (t & _ & Hw)%bind_Ret. eapply (good_same here); [by eapply mem_do_same|done]. }
  unfold tty.ioctl in E. destruct (tty.request_of r) as [[]|]; try (destruct (negb _)); repeat (apply bind_Ret in E as (? & ? & E)); injection E as _ _ <-; try done; apply sane_kst; eauto.
Qed.
Lemma keep_getenv q b k : sane k -> post (getenv_impl q b k) ends.
Proof. intros Hk. unfold getenv_impl. apply post_any. intros x _. destruct (env.getenv _ _); [|keep]. apply keep_buf; [|done]. keep. Qed.
#[local] Hint Resolve keep_segs keep_shmat keep_shmdt keep_ioctl keep_getenv : keep.

Lemma keep_set_vars k t : sane k -> sane (set_kst k (set_vars (kst k) t)).
Proof. by apply sane_same. Qed.
Lemma keep_set_queues k t : sane k -> sane (set_kst k (set_queues (kst k) t)).
Proof. by apply sane_same. Qed.
#[local] Hint Resolve keep_set_vars keep_set_queues : keep.

Lemma file_method_keeps q m o : file_method disk_sectors q m = Some o -> sane (kernel m) -> post o ends.
Proof.
  intros E Hk. destruct q; try discriminate E; injection E as <-;
    try (solve [auto with keep]).
  all: unfold readv_impl, writev_impl, fcntl_impl, access_impl, dup_impl, dup2_impl, ftruncate_impl, ext2_truncate, truncate_impl, fchdir_impl, rmdir_impl, chmod_impl, chown_impl, on_node,
    readdir_impl, mkdir_impl, file_calls.getcwd_impl, stat_impl, fstat_impl, uname_impl, clock_gettime_impl, getrlimit_impl, getrusage_impl, sysinfo_impl, shmget_impl, setenv_impl, msgq_create, msgsnd, msgq_destroy, msgq_len.
  all: try (solve [auto with keep]).
  all: repeat (apply keep_str; [clear Hk; intros ? ? Hk|done]); try (apply keep_buf; [clear Hk; intros ? ? Hk|done]); keep.
Qed.

(** ** Waiting and programs *)

Lemma keep_wait_ticks t k : sane k -> post (wait_ticks t k) ends.
Proof.
  intros Hk. unfold wait_ticks. apply post_any. intros n _. apply post_any. intros tg _.
  destruct (proc_calls.sleep_until_tick tg (kst k)) as [r x] eqn:E. apply post_ret. by apply (sleep_good here) in E.
Qed.
Lemma keep_clear p k : sane k -> post (clear_fdset p k) sane.
Proof. intros Hk. unfold clear_fdset. keep. Qed.
Lemma keep_set_bit p fd k : sane k -> post (set_fdset_bit p fd k) sane.
Proof. intros Hk. unfold set_fdset_bit. keep. Qed.
#[local] Hint Resolve keep_wait_ticks keep_clear keep_set_bit : keep.

Lemma keep_poll p n t s k : sane k -> post (poll_impl p n t s k) ends.
Proof. intros Hk. unfold poll_impl. keep. Qed.
Lemma keep_select_loop fds sr sw rp wp n s k : sane k -> post (select_loop fds sr sw rp wp n s k) ends.
Proof.
  revert n k. induction fds as [|fd fds IH]; intros n k Hk; cbn [select_loop]; [keep|].
  eapply (post_bind _ _ ends); [keep|]. intros [n1 k1] Hk1. eapply (post_bind _ _ ends); [keep|]. intros [n2 k2] Hk2. by apply IH.
Qed.
#[local] Hint Resolve keep_select_loop : keep.
Lemma keep_select n r w t s k : sane k -> post (select_impl n r w t s k) ends.
Proof. intros Hk. unfold select_impl. keep. Qed.

Lemma keep_exec b bin nm args k : sane k -> post (let! (r, x) := exec_binary b bin nm args (kst k) in Ret (r, set_kst k x)) ends.
Proof. intros Hk. apply post_any. intros [r x] E. apply post_ret. by apply (exec_good here) in E. Qed.
#[local] Hint Resolve keep_exec : keep.
Lemma keep_exec_fat p a k : sane k -> post (exec_fat beyond p a k) ends.
Proof.
  intros Hk. unfold exec_fat. apply post_any. intros [fd v] _. cbv zeta. destruct (_ <? _); [keep|]. apply post_any. intros n _. apply post_any. intros [buf v1] _.
  apply post_any. intros [x v2] _. destruct (_ =? _)%nat; [keep|]. by apply keep_exec.
Qed.
#[local] Hint Resolve keep_exec_fat : keep.
Lemma keep_exec_resolve p a k : sane k -> post (exec_resolve find_program beyond p a k) ends.
Proof.
  intros Hk. unfold exec_resolve. cbv zeta. destruct (negb _); [keep|]. destruct (find_program _); [by apply keep_exec|]. apply post_any. intros d _.
  assert (post (if starts_with p (str "/disk/") then exec_fat beyond p a k
            else if existsb (Z.eqb 47) p then Ret (Return (-2), k)
            else
              let! (r, k) := exec_fat beyond (str "/disk/" ++ p) a k in
              if negb (is_enoent r) then Ret (r, k)
              else exec_fat beyond (str "/disk/" ++ p ++ str ".elf") a k) ends) as Hdisk by keep.
  destruct d as [[|b d]|]; [exact Hdisk|by apply keep_exec|exact Hdisk].
Qed.
#[local] Hint Resolve keep_exec_resolve : keep.

(** ** The runtime *)

Definition fine m : Prop := sane (kernel m).
Definition finish {A} (r : A * Machine) : Prop := fine r.2.

Lemma from_result_fine o m : fine m -> post o ends -> post (from_result o m) finish.
Proof. intros Hm Ho. unfold from_result. eapply post_bind; [exact Ho|]. intros [r k] Hk. by apply post_ret. Qed.
Lemma from_sysret_fine o m : fine m -> post o ends -> post (from_sysret o m) finish.
Proof. intros Hm Ho. unfold from_sysret. eapply post_bind; [exact Ho|]. intros [r k] Hk. by apply post_ret. Qed.
Lemma from_kst_fine o m : fine m -> (forall r x, o = Ret (r, x) -> good here x) -> post (from_kst o m) finish.
Proof. intros Hm Ho. unfold from_kst. apply post_any. intros [r x] E. apply post_ret. by eapply Ho. Qed.
Lemma from_kst_sysret_fine o m : fine m -> (forall r x, o = Ret (r, x) -> good here x) -> post (from_kst_sysret o m) finish.
Proof. intros Hm Ho. apply from_sysret_fine; [done|]. apply post_any. intros [r x] E. apply post_ret. by eapply Ho. Qed.
Lemma from_value_fine o m : fine m -> post (from_value o m) finish.
Proof. intros Hm. unfold from_value. apply post_any. intros r _. by apply post_ret. Qed.

Lemma arch_prctl_fine c a m : fine m -> post (arch_prctl_impl c a m) finish.
Proof.
  intros Hm. assert (forall bs, post (let! k := store a bs (kernel m) in Ret (0, set_kernel m k)) finish) as Hst.
  { intros bs. eapply post_bind; [by apply post_store|]. intros k Hk. by apply post_ret. }
  unfold arch_prctl_impl. destruct (c =? 0x1002).
  { apply post_any. intros t _. apply post_ret. apply (good_same here (upd_cur (fun t => set_fs_base t a) (kst (kernel m)))); [done|]. by apply good_upd_cur. }
  destruct (c =? 0x1003). { destruct (a =? 0); [by apply post_ret|]. apply post_any. intros t _. apply Hst. }
  destruct (c =? 0x1001); [by apply post_ret|]. destruct (c =? 0x1004); [|by apply post_ret]. destruct (a =? 0); [by apply post_ret|]. apply Hst.
Qed.

Lemma process_method_fine q m o : process_method find_program beyond q m = Some o -> fine m -> post o finish.
Proof.
  intros E Hm. destruct q; try discriminate E; injection E as <-; try (by apply from_value_fine); try (by apply post_ret).
  all: try (apply from_kst_fine; [done|]; intros ? ? Hx).
  all: try (apply from_kst_sysret_fine; [done|]; intros ? ? Hx).
  all: try (apply from_result_fine; [done|]).
  all: try (apply from_sysret_fine; [done|]).
  all: try (first [by apply (fork_child_good here) in Hx|by apply (waitpid_good here) in Hx|by apply (brk_good here) in Hx|by apply (mmap_good here) in Hx
    |by apply (munmap_good here) in Hx|by apply (sigaction_good here) in Hx|by apply (sigreturn_good here) in Hx|by apply (sigprocmask_good here) in Hx
    |by apply (setpgid_good here) in Hx|by apply (alarm_good here) in Hx|by apply (sigpending_good here) in Hx|by apply (sigsuspend_good here) in Hx
    |by apply (msgrcv_good here) in Hx|by apply (msgrcv_wait_good here) in Hx|injection Hx as Hx; by apply (sleep_good here) in Hx]).
  - keep.
  - eapply post_bind; [by apply post_store|]. intros k Hk. by apply post_ret.
  - keep.
  - apply post_any. intros b _. eapply post_bind; [by apply keep_console|]. intros k Hk. by apply post_ret.
  - unfold get_char. keep.
  - unfold exec_program. keep.
  - unfold exec_program_args. keep.
  - eapply post_bind; [by apply arch_prctl_fine|]. intros [r m'] Hm'. by apply post_ret.
  - destruct (kill_pid_sig _ _ _) as [r x] eqn:Hx. apply post_ret. by apply (kill_good here) in Hx.
Qed.

Lemma from_service_fine q m : fine m -> post (from_service q m) finish.
Proof. intros Hm. unfold from_service. apply post_any. intros [[r s] x] E. apply post_ret. apply service_frame in E. by apply (good_same here (kst (kernel m))). Qed.

Lemma KernelRuntime_fine q m : fine m -> post (KernelRuntime find_program beyond disk_sectors q m) finish.
Proof.
  intros Hm. unfold KernelRuntime. destruct (process_method _ _ q m) as [o|] eqn:E1; [by eapply process_method_fine|].
  destruct (file_method _ q m) as [o|] eqn:E2; [apply from_result_fine; [done|]; by eapply file_method_keeps|].
  destruct q; try (by apply from_service_fine); (apply from_sysret_fine; [done|]); first [by apply keep_poll|by apply keep_select].
Qed.
End Keep.

(** ** The dispatcher *)

Section Dispatcher.
Import syscall_core.
Context {R : Type} `{SyscallRuntime R} (I : R -> Prop).
Context (call_keeps : forall q r x r', call q r = Ret (x, r') -> I r -> I r').

(** Whatever the methods of a runtime keep, a request keeps. *)
Definition stays {A} (p : prog R Z A) : Prop := forall r x r', p r = Ret (x, r') -> I r -> I r'.

Lemma stays_ok {A} (a : A) : stays (ok a).
Proof. by intros r x r' [= _ <-]. Qed.
Lemma stays_checked {A} (o : outcome A) : stays (checked o).
Proof. intros r x r' E. unfold checked in E. destruct o; [|done]. by injection E as _ <-. Qed.
Lemma stays_call q : stays (call q).
Proof. intros r x r'. apply call_keeps. Qed.
Lemma stays_bind {A B} (p : prog R Z A) (k : A -> prog R Z B) : stays p -> (forall a, stays (k a)) -> stays (let? x := p in k x).
Proof.
  intros Hp Hk r x r' E Hr. unfold pbind in E. destruct (p r) as [[[a|e] r1]|] eqn:Ep; [| |done].
  - eapply Hk; [exact E|]. by eapply Hp.
  - injection E as _ <-. by eapply Hp.
Qed.
Lemma stays_range p n (k : prog R Z SyscallResult) : stays k -> stays (checked_range p n k).
Proof. intros Hk. unfold checked_range. destruct (proc_calls.validate_user_range p n); [done|apply stays_ok]. Qed.
Lemma stays_strnlen n p i page : stays (strnlen_from n p i page).
Proof.
  revert i page. induction n as [|n IH]; intros i page; cbn [strnlen_from]; [apply stays_ok|].
  apply stays_bind; [apply stays_checked|]. intros a. apply stays_bind; [destruct (_ =? _); [apply stays_ok|apply stays_call]|].
  intros m. destruct (_ =? _); [apply stays_ok|]. apply stays_bind; [apply stays_call|]. intros b. destruct (_ =? _); [apply stays_ok|apply IH].
Qed.
#[local] Opaque strnlen_from PATH_MAX.
Lemma stays_path p (k : slice -> prog R Z SyscallResult) : (forall s, stays (k s)) -> stays (with_path p k).
Proof. intros Hk. apply stays_bind; [apply stays_strnlen|]. intros n. destruct (_ =? _); [apply stays_ok|]. by apply stays_range. Qed.

Ltac stays := repeat first
  [ apply stays_ok | apply stays_checked | apply stays_call | apply stays_strnlen
  | apply stays_path; intros ? | apply stays_range
  | apply stays_bind; [|intros ?]
  | match goal with |- stays (if ?b then _ else _) => destruct b | |- stays (match ?x with pair _ _ => _ end) => destruct x end ].

Lemma dispatch_stays rq : stays (dispatch rq).
Proof.
  unfold dispatch. set (s := syscall rq).
  destruct (dispatch_basic s rq) as [m|] eqn:E.
  { destruct s; try discriminate E; injection E as <-;
      unfold sys_read, sys_get_system_info, sys_fork, sys_waitpid, sys_exec, sys_exec_args, sys_brk, sys_write, sys_open, sys_close, sys_print, sys_sleep, sys_pipe, sys_readdir, with_slice, forward, plain, never;
      cbv zeta; stays. }
  destruct (dispatch_files s rq) as [m|] eqn:E1.
  { clear E. destruct s; try discriminate E1; injection E1 as <-;
      unfold sys_mkdir, sys_chdir, sys_getcwd, sys_stat, sys_getenv, sys_setenv, sys_dup2, sys_kill, with_slice, forward, plain, never; cbv zeta; stays. }
  destruct (dispatch_services s rq) as [m|] eqn:E2.
  { clear E E1. destruct s; try discriminate E2; injection E2 as <-;
      unfold sys_msgq_create, sys_msgsnd, sys_msgrcv, sys_msgq_destroy, sys_msgrcv_wait, sys_msgq_len, sys_gui_create, sys_gui_draw_text, with_slice, forward, plain, never; cbv zeta; stays. }
  destruct (dispatch_linux s rq) as [m|] eqn:E3.
  { clear E E1 E2. destruct s; try discriminate E3; injection E3 as <-; unfold sys_stat, sys_pipe, creat_impl, with_slice, forward, plain, never; cbv zeta; stays. }
  destruct (dispatch_rest s rq) as [m|] eqn:E4.
  { clear E E1 E2 E3. destruct s; try discriminate E4; injection E4 as <-; unfold with_slice, forward, plain, never; stays. }
  destruct (stub _); [apply stays_ok|apply stays_checked].
Qed.
End Dispatcher.

(** ** The system *)

Section System.
Context {W D S : Type} `{UserSpace W} `{ProcMemory W} `{SegmentMemory W} `{BlockDevice D} `{Services W S}.
Context (find_program : list Z -> option (list Z)) (beyond : list Z) (disk_sectors : D -> Z).
Context (service_frame : forall q (s s' : S) (x x' : Kst (W := W)) r, service q s x = Ret (r, s', x') -> same x x').
Implicit Types (m : Machine (W := W) (D := D) (S := S)) (k : Kst (W := W)).

(** What happens while a program runs: it computes, stores and faults, and devices, files and
    clock move on (all but the scheduler may change); the entry code saves its registers; it
    makes a system call, any request with any arguments; the timer preempts it. *)
Inductive user_step : Machine (W := W) (D := D) (S := S) -> Machine (W := W) (D := D) (S := S) -> Prop :=
| u_compute m m' w : kst (kernel m') = set_um (kst (kernel m)) w -> user_step m m'
| u_entry m c : user_step m (set_kernel m (set_kst (kernel m) (set_syscall_ctx (kst (kernel m)) c)))
| u_call m m' num a1 a2 a3 a4 a5 x : handle_syscall find_program beyond disk_sectors num a1 a2 a3 a4 a5 m = Ret (x, m') -> user_step m m'
| u_preempt m c x k : preempt c (kst (kernel m)) = (x, k) -> user_step m (set_kernel m (set_kst (kernel m) k)).

Definition runs_programs (run_user : launch -> Kst (W := W) -> outcome (Z * Kst)) : Prop :=
  forall l k c k', run_user l k = Ret (c, k') -> exists m m', kst (kernel m) = k /\ kst (kernel m') = k' /\ rtc user_step m m'.

Lemma user_step_good here m m' : user_step m m' -> good here (kst (kernel m)) -> good here (kst (kernel m')).
Proof.
  intros Hs G. destruct Hs as [m m' w E|m c|m m' num a1 a2 a3 a4 a5 x E|m c x k E].
  - rewrite E. by apply (good_same here (kst (kernel m))).
  - by apply (good_same here (kst (kernel m))).
  - revert G. apply (dispatch_stays (fun m => good here (kst (kernel m)))) in E; [exact E|].
    intros q r y r' Eq Hr. eapply KernelRuntime_fine in Eq; [exact Eq|done|exact Hr].
  - by apply (preempt_good here) in E.
Qed.

Lemma runs_programs_keep run_user : runs_programs run_user -> keeps_table run_user.
Proof.
  intros Hr here l k c k' E G. destruct (Hr l k c k' E) as (m & m' & <- & <- & Hs). clear E Hr.
  induction Hs as [|m m1 m' Hs _ IH]; [done|]. apply IH. by eapply user_step_good.
Qed.

(** The steps of the kernel: the desktop starts and kills programs, and at a tick the scheduler
    wakes, delivers signals, and runs a program of any behaviour. *)
Inductive kstep : Kst (W := W) -> Kst (W := W) -> Prop :=
| k_spawn b code nm k r k' : spawn b code nm k = Ret (r, k') -> kstep k k'
| k_kill p k : kstep k (set_tasks k (kill p (tasks k)).2)
| k_tick run_user now k r k' : runs_programs run_user -> tick run_user now k = Ret (r, k') -> kstep k k'.

Lemma kstep_inv k k' : kstep k k' -> inv k -> inv k'.
Proof.
  intros Hs I. destruct Hs as [b code nm k r k' Hk|p k|ru now k r k' Hu Hk].
  - by eapply spawn_ok.
  - by apply kill_ok.
  - eapply tick_ok; [by apply runs_programs_keep|done|done].
Qed.

(** C4: Process numbers name slots.  Whatever programs compute, store and ask the kernel for
    (every system call with any arguments, files, pipes, signals, fork, exec and exit included),
    whenever they are preempted, and whatever the desktop starts and kills, the table keeps its
    eight slots, an empty slot has number 0 and every other task in slot [i] has number [i + 1]:
    no two tasks share a number, a signal or wait reaches the slot its number says, no task is
    its own parent, and the cursor stays inside the table.  Of sockets, windows and the installer
    it is assumed that they leave the scheduler's table alone. *)
Theorem process_numbers_name_slots (k0 k : Kst (W := W)) (Hboot : booted k0) (Hreach : rtc kstep k0 k) :
  length (tasks k) = MAX_TASKS /\ (current k < MAX_TASKS)%nat /\
  (forall i t, tasks k !! i = Some t ->
     pid t = (if bool_decide (state t = Empty) then 0 else Z.of_nat i + 1) /\ parent_pid t <> Z.of_nat i + 1) /\
  (forall i j t u, tasks k !! i = Some t -> tasks k !! j = Some u -> pid t = pid u -> pid t <> 0 -> i = j).
Proof. apply inv_numbers. apply booted_inv in Hboot. induction Hreach; eauto using kstep_inv. Qed.
End System.

(** ** A run *)

(** Two programs are started; at a tick the first one runs: it writes to its terminal, stores a
    byte, forks and is preempted. *)
#[local] Instance flat_segments : SegmentMemory (Z -> Z -> option Z) := {|
  seg_get := fun _ _ s => Ret (-12, s);
  seg_at := fun _ att _ s => Ret (-22, att, s);
  seg_dt := fun _ att s => Ret (-22, att, s);
|}.
#[local] Instance no_services : Services (Z -> Z -> option Z) unit := {|
  service := fun _ s k => Ret (-38, s, k);
  socket_read_ready := fun _ _ => false;
|}.
Lemma no_services_frame q (s s' : unit) (x x' : Kst (W := Z -> Z -> option Z)) r : service q s x = Ret (r, s', x') -> same x x'.
Proof. intros E. cbn in E. assert (x' = x) as -> by congruence. done. Qed.
Abbreviation Flat := (Machine (W := Z -> Z -> option Z) (D := RamDisk) (S := unit)).

Definition around (k : Kst (W := Z -> Z -> option Z)) : Flat :=
  mkMachine (mkKernel k (mkFiles None (fatfs.new tt) (ext2.boot tt) (disk_store.mkStores (replicate 4 false) [None; None; None; None]))
    tty.TTY stdin.boot (mkStats 5 0 0)) tt 0.
Definition request (num a1 a2 a3 : Z) (m : Flat) : outcome Flat :=
  let! (_, m) := handle_syscall (fun _ => None) [] (fun _ : RamDisk => 0) num a1 a2 a3 0 0 m in Ret m.
Definition behaviour (l : launch) (k : Kst (W := Z -> Z -> option Z)) : outcome (Z * Kst) :=
  let m := around k in
  let! m := request 1 1 0x400000 1 (set_kernel m (set_kst (kernel m) (set_syscall_ctx (kst (kernel m)) (Some task.zeroed)))) in
  let m := set_kernel m (set_kst (kernel m) (set_um (kst (kernel m)) (fun c a => if a =? 0x400000 then Some 7 else um (kst (kernel m)) c a))) in
  let! m := request 57 0 0 0 m in
  let (r, k) := preempt task.zeroed (kst (kernel m)) in Ret (EXIT_PREEMPTED, k).

Lemma request_steps num a1 a2 a3 m m' : request num a1 a2 a3 m = Ret m' ->
  user_step (fun _ => None) [] (fun _ : RamDisk => 0) m m'.
Proof. intros ([x m1] & E & [= <-])%bind_Ret. by eapply u_call. Qed.

Lemma behaviour_runs : runs_programs (fun _ => None) [] (fun _ : RamDisk => 0) behaviour.
Proof.
  intros l k c k' (m1 & E1%request_steps & (m2 & E2%request_steps & E)%bind_Ret)%bind_Ret.
  destruct (preempt task.zeroed (kst (kernel m2))) as [r k2] eqn:Ep. injection E as _ <-.
  exists (around k), (set_kernel m2 (set_kst (kernel m2) k2)). split; [done|]. split; [done|].
  eapply rtc_l; [apply (u_entry _ _ _ (around k) (Some task.zeroed))|]. eapply rtc_l; [exact E1|]. eapply rtc_l.
  2:{ eapply rtc_l; [exact E2|]. eapply rtc_l; [by eapply u_preempt|]. apply rtc_refl. }
  by eapply u_compute.
Qed.

Definition started (k : Kst (W := Z -> Z -> option Z)) : Kst := match spawn [] [144] (str "sh") k with Ret (_, k) => k | Panic => k end.
Definition ran (k : Kst (W := Z -> Z -> option Z)) : Kst := match tick behaviour 1 k with Ret (_, k) => k | Panic => k end.

Lemma started_step k : returns (spawn [] [144] (str "sh") k) = true -> kstep (fun _ => None) [] (fun _ : RamDisk => 0) k (started k).
Proof. intros [[r k'] E]%returns_Ret. unfold started. rewrite E. by eapply k_spawn. Qed.
Lemma ran_step k : returns (tick behaviour 1 k) = true -> kstep (fun _ => None) [] (fun _ : RamDisk => 0) k (ran k).
Proof. intros [[r k'] E]%returns_Ret. unfold ran. rewrite E. eapply k_tick; [apply behaviour_runs|exact E]. Qed.

(** The child of the second program is in the third slot and has number 3. *)
Lemma process_numbers_name_slots_witness :
  rtc (kstep (fun _ => None) [] (fun _ : RamDisk => 0)) boot (ran (started (started boot))) /\
  exists t, tasks (ran (started (started boot))) !! 2%nat = Some t /\ parent_pid t = 2 /\ pid t = 3.
Proof.
  assert (rtc (kstep (fun _ => None) [] (fun _ : RamDisk => 0)) boot (ran (started (started boot)))) as Hr.
  { eapply rtc_l; [apply started_step; vm_compute; reflexivity|]. eapply rtc_l; [apply started_step; vm_compute; reflexivity|].
    eapply rtc_l; [apply ran_step; vm_compute; reflexivity|]. apply rtc_refl. }
  split; [exact Hr|]. destruct (process_numbers_name_slots (fun _ => None) [] (fun _ : RamDisk => 0) no_services_frame boot _ (conj eq_refl (conj eq_refl eq_refl)) Hr)
    as (_ & _ & Hn & _).
  destruct (tasks (ran (started (started boot))) !! 2%nat) as [t|] eqn:E; [|vm_compute in E; discriminate E].
  assert ((parent_pid <$> Some t) = Some 2 /\ ((fun t => bool_decide (state t = Empty)) <$> Some t) = Some false) as [E1 E2]
    by (rewrite <- E; vm_compute; split; reflexivity).
  exists t. split; [done|]. destruct (Hn 2%nat t E) as [Hp _]. injection E1 as E1. split; [done|].
  rewrite Hp. cbn in E2. injection E2 as ->. done.
Defined.
End runtime_inv.
