(* ===== verification/RuntimeSpec.v ===== *)
(** * Properties of the system calls

    The calls as a program makes them, through the dispatcher: positioned writes and
    reads are a round trip through the program's memory and the in-memory
    filesystem; [poll] reports the descriptors that are ready; directory entries can
    be parsed back; a string never names an in-memory file; and the time a program
    waits can abort the kernel. *)

From stdpp Require Import base list gmap strings list_numbers.
From Stdlib Require Import ZArith Lia.
From S2P Require Import Prelude IpcPipe IpcMsgq IpcStdin RamFs FdTable FdPipes Shm Env ElfLoader Task Argv Sched SchedSpec ProcCalls Mbr Fat FatOps DiskStore StoreFs Ext2 Ext2Ops Vfs Tty Dispatch DispatchSpec FileCalls Runtime.

Local Open Scope Z_scope.

Module runtime_spec.
Import fdtable task sched proc_calls vfs file_calls kernel_runtime.
Import (hints) fatfs ext2fs.

(** ** Paths with a terminator *)

Lemma split_has c s b : b ∈ s -> b <> c -> exists x, x ∈ split c s /\ b ∈ x.
Proof.
  intros Hb Hne. induction s as [|a s IH]; [by apply not_elem_of_nil in Hb|]. cbn. apply elem_of_cons in Hb as [<-|Hb].
  - destruct (Z.eqb_spec b c); [done|]. destruct (split c s) as [|x xs]; eexists; (split; [apply elem_of_cons; by left|apply elem_of_cons; by left]).
  - destruct (IH Hb) as (x & Hx & Hbx). destruct (a =? c); [exists x; split; [by apply elem_of_cons; right|done]|].
    destruct (split c s) as [|y ys]; [by apply not_elem_of_nil in Hx|]. apply elem_of_cons in Hx as [->|Hx].
    + eexists. split; [apply elem_of_cons; by left|apply elem_of_cons; by right].
    + exists x. split; [apply elem_of_cons; by right|done].
Qed.

Section Names.
Import ramfs.

(** No name holds the byte that ends strings. *)
Definition no_nul (f : RamFs) : Prop := Forall (fun n => 0 ∉ name n) (inodes f).

Lemma find_child_nul f p x : no_nul f -> 0 ∈ x -> find_child f p x = None.
Proof.
  intros Hf Hx. unfold find_child. destruct (position _ _) as [i|] eqn:E; [|done]. apply position_Some in E as (n & Hn & Hp & _).
  apply andb_true_iff in Hp as [_ Hp%bool_decide_eq_true]. unfold no_nul in Hf. rewrite Forall_forall in Hf. destruct (Hf n); [by apply list_elem_of_lookup; exists i|by rewrite Hp].
Qed.

Lemma resolve_loop_nul f cur ps x : no_nul f -> x ∈ ps -> 0 ∈ x -> resolve_loop f cur ps = None.
Proof.
  intros Hf Hx H0. revert cur. induction ps as [|y ps IH]; intros cur; [by apply not_elem_of_nil in Hx|]. cbn.
  apply elem_of_cons in Hx as [<-|Hx].
  - destruct x as [|b x]; [by apply not_elem_of_nil in H0|]. by rewrite find_child_nul.
  - destruct y as [|b y]; [by apply IH|]. destruct (find_child _ _ _); [by apply IH|done].
Qed.

Lemma resolve_nul f path : no_nul f -> 0 ∈ path -> ramfs.resolve f path = None.
Proof.
  intros Hf Hp. unfold ramfs.resolve. rewrite bool_decide_false by (intros ->; by apply list_elem_of_singleton in Hp).
  rewrite bool_decide_false by (intros ->; by apply not_elem_of_nil in Hp). cbn [orb].
  assert (0 ∈ (if starts_with path [SLASH] then drop 1 path else path)) as Hp'.
  { destruct path as [|b path]; [by apply not_elem_of_nil in Hp|]. cbn [starts_with]. destruct (Z.eqb_spec b SLASH) as [->|]; cbn [andb]; [|done].
    apply elem_of_cons in Hp as [?|Hp]; [done|]. by destruct path. }
  destruct (split_has SLASH _ 0 Hp') as (x & Hx & H0); [unfold SLASH; lia|]. by eapply resolve_loop_nul.
Qed.
End Names.

Lemma starts_with_end s b pre : b ∉ pre -> starts_with (s ++ [b]) pre = true -> starts_with s pre = true.
Proof.
  revert s. induction pre as [|c pre IH]; intros s Hb; [by destruct s|]. apply not_elem_of_cons in Hb as [Hc Hb]. destruct s as [|a s]; cbn.
  - intros [E _]%andb_true_iff. apply Z.eqb_eq in E. congruence.
  - intros [-> Hs]%andb_true_iff. cbn. by apply IH.
Qed.

Lemma below_nul m s : 0 ∉ m -> below m (s ++ [0]) = true -> below m s = true.
Proof.
  intros Hm Hb. unfold below in *. apply orb_true_iff in Hb as [E%bool_decide_eq_true|Hs].
  - exfalso. apply Hm. rewrite <- E. apply elem_of_app. right. by apply list_elem_of_singleton.
  - apply orb_true_iff. right. eapply starts_with_end; [|exact Hs]. apply not_elem_of_app. split; [done|]. by intros ?%list_elem_of_singleton.
Qed.

Lemma not_below_nul m s : 0 ∉ m -> below m s = false -> below m (s ++ [0]) = false.
Proof. intros Hm Hb. destruct (below m (s ++ [0])) eqn:E; [|done]. by rewrite (below_nul m s) in Hb. Qed.

Lemma resolve_nul_path s : vfs.resolve s = vfs.RamFS s -> vfs.resolve (s ++ [0]) = vfs.RamFS (s ++ [0]).
Proof.
  unfold vfs.resolve. intros Hr.
  repeat (match type of Hr with context [below ?m s] => destruct (below m s) eqn:?E; [discriminate|] end;
    rewrite not_below_nul by (first [assumption|apply (bool_decide_unpack _); vm_compute; exact I])).
  done.
Qed.

Lemma utf8_valid_nul s : utf8_valid s = true -> utf8_valid (s ++ [0]) = true.
Proof.
  remember (length s) as n eqn:Hn. revert s Hn. induction n as [n IH] using lt_wf_ind. intros s -> Hs.
  destruct s as [|x s]; [done|]. cbn [utf8_valid app] in *.
  destruct (x <=? 0x7F); [apply (IH (length s)); cbn; [lia|done..]|].
  destruct (_ && _).
  { destruct s as [|y s]; [done|]. cbn [app]. apply andb_true_iff in Hs as [-> Hs]. apply (IH (length s)); cbn; [lia|done..]. }
  destruct ((0xE0 <=? x) && _).
  { destruct s as [|y [|z s]]; [done..|]. cbn [app]. apply andb_true_iff in Hs as [-> Hs]. apply (IH (length s)); cbn; [lia|done..]. }
  destruct ((0xF0 <=? x) && _); [|done].
  destruct s as [|y [|z [|u s]]]; [done..|]. cbn [app]. apply andb_true_iff in Hs as [-> Hs]. apply (IH (length s)); cbn; [lia|done..].
Qed.

(** ** Reading a program from the disk *)

Section Load.
Context {D : Type} `{BlockDevice D}.
Implicit Types (v : Files D).

Lemma read_loop_advances fuel b (d : option D) to_read : forall got buf s got' buf' s', (got <= to_read)%nat ->
  fatfs.read_loop fuel b d to_read got buf s = Ret (got', buf', s') ->
  (got <= got' <= to_read)%nat /\ fat.file_offset s' = fat.file_offset s + Z.of_nat (got' - got) /\ fat.size s' = fat.size s.
Proof.
  induction fuel as [|fuel IH]; intros got buf s got' buf' s' Hle E; cbn [fatfs.read_loop] in E; [done|].
  destruct (Nat.ltb_spec got to_read); cbn [negb] in E; [|injection E as <- <- <-; rewrite Nat.sub_diag, Z.add_0_r; repeat split; lia].
  apply bind_Ret in E as (lba & _ & E). destruct (sector_read d lba) as [sec|]; [|injection E as <- <- <-; rewrite Nat.sub_diag, Z.add_0_r; repeat split; lia].
  set (av := Nat.min _ (to_read - got)) in E. assert (got + av <= to_read)%nat as Hav by (subst av; lia). clearbody av. cbv zeta in E.
  apply bind_Ret in E as (off & Eo & E). assert (off = fat.file_offset s + Z.of_nat av) as -> by (unfold cadd in Eo; destruct (_ <=? _); [congruence|done]).
  clear Eo. assert (Hnext : forall s1 got' buf' s', fat.file_offset s1 = fat.file_offset s + Z.of_nat av -> fat.size s1 = fat.size s -> forall bf,
    fatfs.read_loop fuel b d to_read (got + av) bf s1 = Ret (got', buf', s') ->
    (got <= got' <= to_read)%nat /\ fat.file_offset s' = fat.file_offset s + Z.of_nat (got' - got) /\ fat.size s' = fat.size s).
  { intros s1 g1 b1 s2 Ho Hs bf E1. apply IH in E1 as (? & -> & ->); [|done]. split; [lia|]. split; [lia|done]. }
  destruct (_ =? 0); [|by eapply Hnext in E].
  apply bind_Ret in E as (cs & _ & E). destruct (_ <=? cs); [|by eapply Hnext in E].
  apply bind_Ret in E as (nx & _ & E). destruct (_ || _); [injection E as <- <- <-; cbn; split; [lia|]; split; [lia|done]|by eapply Hnext in E].
Qed.

(** The bytes a descriptor of the driver has before it. *)
Definition ahead v (fd : Z) : nat :=
  match fatfs.fds (fat_of v) !! fatfs.slot_of fd with Some s => Z.to_nat (fat.size s - fat.file_offset s) | None => 0 end.

Lemma read_fd_ahead v fd buf n buf' f' : fatfs.read_fd (fat_of v) fd buf = Ret (n, buf', f') -> 0 < n ->
  (ahead (put_fat v f') fd < ahead v fd)%nat.
Proof.
  unfold fatfs.read_fd. destruct (_ || _); [intros [= <- _ _]; lia|]. intros E Hn. apply bind_Ret in E as (s & Hs%idx_Ret & E).
  destruct (negb _); [injection E as <- _ _; lia|]. destruct (_ =? 0)%nat eqn:Hz; [injection E as <- _ _; lia|]. apply Nat.eqb_neq in Hz.
  apply bind_Ret in E as ([[got b1] s1] & Hl & [= <- <- <-]). apply read_loop_advances in Hl as (Hg & Ho & Hsz); [|lia].
  unfold ahead. change (fatfs.fds (fat_of (put_fat v ?f))) with (fatfs.fds f). rewrite Hs. cbn [fatfs.fds fatfs.set_fds].
  rewrite list_lookup_insert_eq by (by eapply lookup_lt_Some). rewrite Hsz, Ho. unfold sat_sub in *. lia.
Qed.

(** Enough turns: one more than the bytes ahead, and further ones change nothing. *)
Lemma read_whole_turns fuel : forall j fd buf v, (ahead v fd < fuel)%nat -> read_whole (fuel + j) fd buf v = read_whole fuel fd buf v.
Proof.
  induction fuel as [|fuel IH]; intros j fd buf v Ha; [lia|]. cbn [Nat.add read_whole].
  destruct (fatfs.read_fd _ _ _) as [[[n tmp] f]|] eqn:E; [|done]. cbn [mbind outcome_mbind]. destruct (Z.leb_spec n 0); [done|].
  apply IH. apply read_fd_ahead in E; lia.
Qed.
End Load.

(** ** Directory entries, as a program reads them *)

(** The bytes up to the terminator. *)
Fixpoint c_str (b : list Z) : list Z := match b with x :: b' => (if x =? 0 then [] else x :: c_str b') | [] => [] end.

(** A walk along the record lengths of [linux_dirent64]: type and name. *)
Fixpoint parse_dirents (fuel : nat) (b : list Z) : list (Z * list Z) :=
  match fuel, b with
  | Datatypes.S n, _ :: _ =>
      (nth 18 b 0, c_str (drop 19 b)) :: parse_dirents n (drop (Z.to_nat (le_decode (take 2 (drop 16 b)))) b)
  | _, _ => []
  end.

(** What a line of a listing stands for. *)
Definition entry_of_line (line : list Z) : Z * list Z :=
  if bool_decide (last line = Some 47) then (4, take (length line - 1) line) else (8, line).

Definition plain_line (line : list Z) : Prop := (0 ∉ line) /\ (length line <= 2048)%nat.
Definition nonempty (line : list Z) : Prop := line <> [].
#[local] Instance nonempty_dec line : Decision (nonempty line).
Proof. destruct line; [right|left]; unfold nonempty; congruence. Defined.

(** The bytes of the lines with their separators. *)
Definition lines_length (lines : list (list Z)) : nat := sum_list ((fun l => Datatypes.S (length l)) <$> lines).

Lemma c_str_app name r : 0 ∉ name -> c_str (name ++ 0 :: r) = name.
Proof.
  induction name as [|b name IH]; intros Hn; [done|]. apply not_elem_of_cons in Hn as [Hb Hn]. cbn. destruct (Z.eqb_spec b 0); [congruence|]. by rewrite IH.
Qed.

(** A record is as long as it says. *)
Definition record_length (line : list Z) : nat := ((20 + length ((entry_of_line line).2) + 7) / 8 * 8)%nat.

Lemma record_length_ge line : (20 + length ((entry_of_line line).2) <= record_length line <= 27 + length ((entry_of_line line).2))%nat.
Proof.
  unfold record_length. pose proof (Nat.div_mod (20 + length ((entry_of_line line).2) + 7) 8 ltac:(lia)) as E.
  pose proof (Nat.mod_upper_bound (20 + length ((entry_of_line line).2) + 7) 8 ltac:(lia)). lia.
Qed.

Lemma dirent64_layout ino off line : dirent64 ino off line =
  le_encode 8 ino ++ le_encode 8 off ++ le_encode 2 (Z.of_nat (record_length line)) ++
  (entry_of_line line).1 :: (entry_of_line line).2 ++ 0 :: replicate (record_length line - (20 + length ((entry_of_line line).2))) 0.
Proof.
  assert (Hc : forall n, (19 + n + 1 = 20 + n)%nat) by lia.
  unfold dirent64, record_length, entry_of_line. case_bool_decide; cbn [fst snd]; by rewrite Hc.
Qed.

Lemma length_dirent64 ino off line : length (dirent64 ino off line) = record_length line.
Proof.
  rewrite dirent64_layout. pose proof (record_length_ge line). rewrite !length_app, !length_le_encode. cbn [length]. rewrite length_app. cbn [length].
  rewrite length_replicate. lia.
Qed.

Lemma entry_name_plain line : plain_line line -> (0 ∉ (entry_of_line line).2) /\ (length ((entry_of_line line).2) <= 2048)%nat.
Proof.
  intros [H0 Hl]. unfold entry_of_line. case_bool_decide; cbn [snd]; [|done]. rewrite length_take. split; [|lia].
  intros Hin. apply H0. rewrite <- (take_drop (length line - 1) line). apply elem_of_app. by left.
Qed.

Lemma parse_dirent fuel ino off line rest : plain_line line ->
  parse_dirents (Datatypes.S fuel) (dirent64 ino off line ++ rest) = entry_of_line line :: parse_dirents fuel rest.
Proof.
  intros Hp. pose proof (entry_name_plain line Hp) as [Hn Hl]. pose proof (record_length_ge line) as Hr.
  set (b := dirent64 ino off line ++ rest).
  assert (Hdrop : drop (record_length line) b = rest) by (subst b; by rewrite drop_app_length' by (by rewrite length_dirent64)).
  set (C := le_encode 2 (Z.of_nat (record_length line))). destruct (entry_of_line line) as [ty nm] eqn:Ee. cbn [fst snd] in *.
  set (pad := replicate (record_length line - (20 + length nm)) 0).
  assert (Hb : b = (le_encode 8 ino ++ le_encode 8 off) ++ C ++ ty :: nm ++ 0 :: pad ++ rest).
  { subst b C pad. rewrite dirent64_layout, Ee. cbn [fst snd]. rewrite <- !app_assoc. cbn [app]. by rewrite <- app_assoc. }
  assert (H16 : take 2 (drop 16 b) = C) by (rewrite Hb, drop_app_length' by done; by rewrite take_app_length' by done).
  assert (Hb' : b = (le_encode 8 ino ++ le_encode 8 off ++ C) ++ ty :: nm ++ 0 :: pad ++ rest) by (by rewrite Hb, <- !app_assoc).
  assert (H18 : nth 18 b 0 = ty) by (rewrite Hb', app_nth2 by (change (18 >= 18)%nat; lia); done).
  assert (H19 : c_str (drop 19 b) = nm).
  { rewrite Hb', (cons_middle ty), app_assoc, drop_app_length' by done. by apply c_str_app. }
  assert (b <> []) as Hne by (by rewrite Hb').
  destruct b as [|x b0]; [done|]. cbn [parse_dirents]. rewrite H16, H18, H19. subst C. rewrite le_decode_encode by (change (2 ^ (8 * Z.of_nat 2)) with 65536; lia).
  by rewrite Nat2Z.id, Hdrop.
Qed.

(** The records of the lines that are reported. *)
Fixpoint records (start_off ino : Z) (consumed : nat) (lines : list (list Z)) : list Z :=
  match lines with
  | [] => []
  | [] :: lines' => records start_off ino (Datatypes.S consumed) lines'
  | line :: lines' => dirent64 ino (start_off + Z.of_nat (consumed + length line + 1)) line ++ records start_off (ino + 1) (consumed + (length line + 1)) lines'
  end.

(** The reported lines are a prefix, as long as the records fit. *)
Lemma dirents_prefix lines : forall start_off ino consumed buf pos pos' consumed' buf', (pos <= length buf)%nat ->
  dirents lines start_off ino consumed buf pos = (pos', consumed', buf') ->
  exists told rest, lines = told ++ rest /\ consumed' = (consumed + lines_length told)%nat /\ length buf' = length buf /\ (pos <= pos' <= length buf)%nat /\
    take pos' buf' = take pos buf ++ records start_off ino consumed told /\
    match rest with [] => True | line :: _ => line <> [] /\ (length buf < pos' + record_length line)%nat end.
Proof.
  induction lines as [|line lines IH]; intros start_off ino consumed buf pos pos' consumed' buf' Hpos E; cbn [dirents] in E.
  - injection E as <- <- <-. exists [], []. cbn. split; [done|]. rewrite app_nil_r. unfold lines_length. cbn. repeat split; (done || lia).
  - destruct line as [|b line].
    { cbn [length Nat.eqb] in E. apply IH in E as (told & rest & -> & -> & Hl & Hp & Ht & Hr); [|done]. exists ([] :: told), rest. split; [done|].
      split; [unfold lines_length; cbn; lia|]. done. }
    change (length (b :: line) =? 0)%nat with false in E. cbv iota in E. rewrite length_dirent64 in E.
    destruct (Nat.ltb_spec (length buf) (pos + record_length (b :: line))) as [Hlt|Hge].
    { injection E as <- <- <-. exists [], ((b :: line) :: lines). split; [done|]. rewrite app_nil_r. unfold lines_length. cbn [fmap list_fmap sum_list sum_list_with records].
      repeat split; (done || lia). }
    set (d := dirent64 ino _ (b :: line)) in E. assert (Hd : length d = record_length (b :: line)) by apply length_dirent64.
    apply IH in E as (told & rest & -> & -> & Hl & Hp & Ht & Hr); [|rewrite length_splice; lia].
    exists ((b :: line) :: told), rest. rewrite length_splice in Hl, Hp, Hr by lia. split; [done|]. split; [unfold lines_length; cbn; lia|].
    split; [done|]. split; [lia|]. split; [|done]. rewrite Ht. cbn [records]. fold d. rewrite app_assoc. f_equal.
    unfold splice. rewrite app_assoc, take_app_length'; [done|]. rewrite length_app, length_take. lia.
Qed.

Lemma parse_records lines : forall start_off ino consumed fuel, Forall plain_line lines -> (length (filter nonempty lines) <= fuel)%nat ->
  parse_dirents fuel (records start_off ino consumed lines) = entry_of_line <$> filter nonempty lines.
Proof.
  induction lines as [|line lines IH]; intros start_off ino consumed fuel Hp Hf; [by destruct fuel|]. apply Forall_cons in Hp as [Hpl Hp].
  destruct line as [|b line].
  - rewrite filter_cons_False in * by (intros Hn; by apply Hn). cbn [records]. by apply IH.
  - rewrite filter_cons_True in * by done. cbn [records length] in *. destruct fuel as [|fuel]; [lia|]. rewrite parse_dirent by done.
    cbn [fmap list_fmap]. f_equal. apply IH; [done|lia].
Qed.

Lemma records_length lines : forall start_off ino consumed, (length (filter nonempty lines) <= length (records start_off ino consumed lines))%nat.
Proof.
  induction lines as [|line lines IH]; intros start_off ino consumed; [done|]. destruct line as [|b line].
  - rewrite filter_cons_False by (intros Hn; by apply Hn). apply IH.
  - rewrite filter_cons_True by done. cbn [records length]. rewrite length_app, length_dirent64. pose proof (record_length_ge (b :: line)).
    specialize (IH start_off (ino + 1) (consumed + (length (b :: line) + 1))%nat). cbn [length] in *. lia.
Qed.

(** Past the lines that were reported, the rest follows. *)
Lemma split_drop c told : forall s rest, split c s = told ++ rest -> rest <> [] -> split c (drop (lines_length told) s) = rest.
Proof.
  induction told as [|line told IH]; intros s rest E Hr; [done|]. unfold lines_length. cbn [fmap list_fmap sum_list sum_list_with]. fold (lines_length told).
  revert line E. induction s as [|b s IHs]; intros line E.
  - cbn in E. injection E as <- E. symmetry in E. by apply app_nil in E as [_ ->].
  - cbn [split] in E. destruct (Z.eqb_spec b c) as [->|Hb].
    + injection E as <- E. cbn. by apply IH.
    + pose proof (split_nonempty c s) as Hne. destruct (split c s) as [|p ps] eqn:Es; [done|]. injection E as <- E. cbn [length].
      change (drop (Datatypes.S (Datatypes.S (length p)) + _) (b :: s)) with (drop (Datatypes.S (length p) + lines_length told) s). apply IHs. by rewrite E.
Qed.

Lemma split_length c s x : x ∈ split c s -> (length x <= length s)%nat.
Proof.
  revert x. induction s as [|b s IH]; intros x; cbn; [intros ->%list_elem_of_singleton; done|]. destruct (b =? c).
  - intros [->|Hx]%elem_of_cons; [cbn; lia|]. specialize (IH x Hx). lia.
  - destruct (split c s) as [|p ps] eqn:Es; [by apply split_nonempty in Es|]. intros [->|Hx]%elem_of_cons; cbn.
    + specialize (IH p ltac:(apply elem_of_cons; by left)). lia.
    + specialize (IH x ltac:(apply elem_of_cons; by right)). lia.
Qed.

Lemma split_elem c s x b : x ∈ split c s -> b ∈ x -> b ∈ s.
Proof.
  revert x. induction s as [|a s IH]; intros x; cbn; [intros ->%list_elem_of_singleton; done|]. destruct (a =? c).
  - intros [->|Hx]%elem_of_cons Hb; [by apply not_elem_of_nil in Hb|]. apply elem_of_cons. right. by eapply IH.
  - destruct (split c s) as [|p ps] eqn:Es; [by apply split_nonempty in Es|]. intros [->|Hx]%elem_of_cons Hb; apply elem_of_cons.
    + apply elem_of_cons in Hb as [->|Hb]; [by left|right; eapply IH; [apply elem_of_cons; by left|done]].
    + right. eapply IH; [apply elem_of_cons; by right|done].
Qed.

Lemma listing_plain s : 0 ∉ s -> (length s <= 2048)%nat -> Forall plain_line (split 10 s).
Proof.
  intros H0 Hl. apply Forall_forall. intros x Hx. split; [intros Hb; apply H0; by eapply split_elem|]. apply split_length in Hx. lia.
Qed.

(** ** An open in-memory file *)

Section Files.
Context {W D S : Type} `{UserSpace W} `{ProcMemory W} `{SegmentMemory W} `{BlockDevice D} `{Services W S}.
Context (find_program : list Z -> option (list Z)) (beyond : list Z) (disk_sectors : D -> Z).
Implicit Types (k : Kernel W D) (t : Task) (e : FdEntry) (w : W) (m : Machine (W := W) (D := D) (S := S)).

Abbreviation runtime := (kernel_runtime find_program beyond disk_sectors).

(** Descriptor [fd] of the running task, whose page table is [c], is open on an
    in-memory file with these bytes; the memory is [w]. *)
Record opened k (c : Z) w (fd : nat) e (bytes : list Z) : Prop := {
  op_fd : (fd < MAX_FD)%nat;
  op_task : exists t, cur (kst k) = Ret t /\ cr3 t = c /\ fd_table t !! fd = Some (Some e);
  op_backend : backend e = fdtable.RamFS;
  op_file : exists f n, ram (files k) = Some f /\ ramfs.inodes f !! inode_idx e = Some n /\ ramfs.kind n = ramfs.File /\ ramfs.data n = bytes;
  op_mem : um (kst k) = w;
}.

Lemma cur_upd (x : Kst (W := W)) t g : cur x = Ret t -> cur (upd_cur g x) = Ret (g t).
Proof.
  unfold cur. intros Ht%idx_Ret. apply idx_Ret. unfold upd_cur, upd. cbn. by rewrite list_lookup_alter_eq, Ht.
Qed.

Lemma cur_put_devs k t tb d : cur (kst k) = Ret t -> cur (kst (put_devs tb d k)) = Ret (set_output (set_fd_table t tb) (out d)).
Proof. intros Ht. exact (cur_upd (kst k) t (fun x => set_output (set_fd_table x tb) (out d)) Ht). Qed.

(** The entry of the descriptor is replaced by one that leads to the same inode. *)
Lemma opened_after k k' c w w' fd e e' bytes bytes' t (f : ramfs.RamFs) n :
  opened k c w fd e bytes -> cur (kst k) = Ret t ->
  (exists t', cur (kst k') = Ret t' /\ cr3 t' = cr3 t /\ fd_table t' = <[fd := Some e']> (fd_table t)) ->
  backend e' = backend e -> ram (files k') = Some f -> ramfs.inodes f !! inode_idx e' = Some n ->
  ramfs.kind n = ramfs.File -> ramfs.data n = bytes' -> um (kst k') = w' -> opened k' c w' fd e' bytes'.
Proof.
  intros [O1 (t0 & Ht0 & Hc & He) O3 O4 O5] Ht (t' & Ht' & Hc' & Hf') Hb Hr Hn Hk Hd Hw. rewrite Ht in Ht0. injection Ht0 as <-.
  constructor; [done| |congruence|by exists f, n|done]. exists t'. split; [done|]. split; [congruence|].
  rewrite Hf'. apply list_lookup_insert_eq. by eapply lookup_lt_Some.
Qed.

Lemma set_offset_same e : set_offset e (offset e) = e.
Proof. by destruct e. Qed.
Lemma bad_fd_of (fd : nat) : (fd < MAX_FD)%nat -> bad_fd (Z.of_nat fd) = false.
Proof. apply fd_spec.good_fd. Qed.

(** The position [o] that a seek to [off] asks for. *)
Definition seeks e (off whence o : Z) : Prop :=
  whence = 0 /\ o = off \/ whence = 1 /\ o = offset e + off /\ offset e <= i64_max /\ o <= i64_max.

Lemma lseek_ramfs {F} (seek : F -> Z -> Z -> Z -> outcome (Z * F)) t fd e (f : ramfs.RamFs) n x off whence o :
  (fd < MAX_FD)%nat -> fd_table t !! fd = Some (Some e) -> backend e = fdtable.RamFS -> ramfs.inodes f !! inode_idx e = Some n ->
  0 <= offset e -> 0 <= o -> seeks e off whence o ->
  lseek seek (fd_table t) f x (Z.of_nat fd) off whence = Ret (o, <[fd := Some (set_offset e o)]> (fd_table t), x).
Proof.
  intros Hfd He Hb Hn He0 Ho Hs. pose proof (lookup_lt_Some _ _ _ He) as Hlt.
  unfold lseek. rewrite bad_fd_of, Nat2Z.id by done. rewrite (proj2 (idx_Ret _ _ _) He). cbn [mbind outcome_mbind]. rewrite Hb.
  rewrite (proj2 (idx_Ret _ _ _) Hn). cbn [mbind outcome_mbind]. destruct Hs as [[-> <-]|(-> & Eo & Hoff & Hrange)].
  - cbn [Z.eqb mbind outcome_mbind]. destruct (Z.ltb_spec o 0); [lia|]. rewrite set_idx_lt by done. done.
  - rewrite (swrap_id 64 (offset e)) by (unfold i64_max in *; cbn; lia).
    change (1 =? 0) with false. change (1 =? 1) with true. cbv iota. unfold cadd_i64. rewrite <- Eo.
    destruct (Z.leb_spec i64_min o); [|unfold i64_min in *; lia]. destruct (Z.leb_spec o i64_max); [|lia]. cbn [orb andb mbind outcome_mbind].
    destruct (Z.ltb_spec o 0); [lia|]. by rewrite set_idx_lt.
Qed.

Lemma lseek_file k c w fd e bytes off whence o : opened k c w fd e bytes -> 0 <= offset e -> 0 <= o -> seeks e off whence o ->
  exists k', lseek_impl (Z.of_nat fd) off whence k = Ret (o, k') /\ opened k' c w fd (set_offset e o) bytes.
Proof.
  intros O He0 Ho Hs. destruct O as [O1 (t & Ht & Hc & He) O3 (f & n & Hr & Hn & Hk & Hd) O5] eqn:EO.
  eexists. split.
  - unfold lseek_impl, entry_of. rewrite bad_fd_of by done. unfold table, this. rewrite Ht. cbn [mbind outcome_mbind].
    rewrite Nat2Z.id, (proj2 (idx_Ret _ _ _) He). cbn [mbind outcome_mbind]. rewrite Hr. cbn [default from_option]. unfold id.
    by rewrite (lseek_ramfs _ t fd e f n _ off whence o).
  - clear EO. eapply (opened_after k) with (t := t) (f := f) (n := n); try done.
    eexists. split; [unfold set_table, set_this; cbn; by apply cur_upd|]. done.
Qed.

(** The bytes of a file after a write. *)
Definition overwritten (bytes : list Z) (off : Z) (bs : list Z) : list Z :=
  take (Z.to_nat off) bytes ++ bs ++ drop (Z.to_nat off + length bs) bytes.

Lemma write_file k c w fd e bytes p bs : opened k c w fd e bytes -> writable e = true ->
  0 <= offset e <= Z.of_nat (length bytes) -> offset e + Z.of_nat (length bs) <= u64_max ->
  peek_bytes w c p (length bs) = Ret bs ->
  exists k', fs_write_file (Z.of_nat fd) (syscall_core.mkSlice p (Z.of_nat (length bs))) k = Ret (Z.of_nat (length bs), k') /\
    opened k' c w fd (set_offset e (offset e + Z.of_nat (length bs))) (overwritten bytes (offset e) bs).
Proof.
  intros O Hw Ho Hu Hp. destruct O as [O1 (t & Ht & Hc & He) O3 (f & n & Hr & Hn & Hk & Hd) O5] eqn:EO.
  assert (Hload : load_slice (syscall_core.mkSlice p (Z.of_nat (length bs))) k = Ret bs).
  { unfold load_slice, load, tty.load. cbn [syscall_core.ptr syscall_core.len]. rewrite Ht. cbn [mbind outcome_mbind]. by rewrite O5, Hc, Nat2Z.id. }
  eexists. split.
  - unfold fs_write_file. rewrite Hload. cbn [mbind outcome_mbind]. rewrite Hr. unfold this. rewrite Ht. cbn [mbind outcome_mbind].
    rewrite (fd_spec.write_fd_spec (fd_table t) f (devs_of t k) fd e n) by (first [done|by rewrite Hd]). reflexivity.
  - clear EO. eapply (opened_after k) with (t := t) (n := ramfs.set_data n (overwritten bytes (offset e) bs)); try done.
    + eexists. split; [exact (cur_put_devs k t _ _ Ht)|]. done.
    + cbn. rewrite Hd. apply list_lookup_insert_eq. by eapply lookup_lt_Some.
Qed.

Context `{!UserSpaceLaws W}.

Lemma read_file_at k c w fd e bytes q (n : nat) : opened k c w fd e bytes ->
  0 <= offset e <= Z.of_nat (length bytes) -> Z.of_nat (length bytes) <= u64_max -> mapped w c q n ->
  let got := take n (drop (Z.to_nat (offset e)) bytes) in
  exists k' w', fs_read (Z.of_nat fd) (syscall_core.mkSlice q (Z.of_nat n)) k = Ret (Z.of_nat (length got), k') /\
    opened k' c w' fd (set_offset e (offset e + Z.of_nat (length got))) bytes /\
    peek_bytes w' c q (length got) = Ret got /\ (forall x, us_peek w' c x = us_peek w c x \/ q <= x < q + Z.of_nat n).
Proof.
  intros O Ho Hu Hm got. destruct O as [O1 (t & Ht & Hc & He) O3 (f & nd & Hr & Hn & Hk & Hd) O5] eqn:EO.
  destruct (peek_bytes_mapped w c q n Hm) as [old Hold]. pose proof (proj1 (proj1 (peek_bytes_Ret _ _ _ _ _) Hold)) as Hlen.
  assert (Hload : load_slice (syscall_core.mkSlice q (Z.of_nat n)) k = Ret old).
  { unfold load_slice, load, tty.load. cbn [syscall_core.ptr syscall_core.len]. rewrite Ht. cbn [mbind outcome_mbind]. by rewrite O5, Hc, Nat2Z.id. }
  set (tb := <[fd := Some (set_offset e (offset e + Z.of_nat (length got)))]> (fd_table t)).
  set (k1 := put_devs tb (devs_of t k) k).
  assert (Hk1 : exists t1, cur (kst k1) = Ret t1 /\ cr3 t1 = c /\ fd_table t1 = tb) by (eexists; split; [exact (cur_put_devs k t _ _ Ht)|done]).
  destruct Hk1 as (t1 & Ht1 & Hc1 & Hf1).
  assert (length got <= n)%nat as Hgn by (subst got; rewrite length_take; lia).
  assert (Hgl : length (splice old 0 got) = n) by (rewrite length_splice; lia).
  destruct (write_bytes_mapped c q (splice old 0 got) (kst k1)) as (w' & Ew & Hw'); [rewrite Hgl; change (um (kst k1)) with (um (kst k)); by rewrite O5|].
  exists (set_kst k1 (set_um (kst k1) w')), w'. split; [|split; [|split]].
  - unfold fs_read, with_buf. rewrite Hload. cbn [mbind outcome_mbind]. rewrite Hr. unfold this. rewrite Ht. cbn [mbind outcome_mbind].
    rewrite (fd_spec.read_fd_spec (fd_table t) f (devs_of t k) fd e nd) by (first [done|by rewrite Hd]). cbn [mbind outcome_mbind].
    rewrite Hlen, Hd. fold got tb k1. unfold store, tty.store. rewrite Ht1. cbn [mbind outcome_mbind]. rewrite Hc1. cbn [syscall_core.ptr]. by rewrite Ew.
  - clear EO. eapply (opened_after k) with (t := t) (f := f) (n := nd); try done. exists t1. split; [exact Ht1|]. split; [congruence|done].
  - clearbody got. apply peek_bytes_Ret. split; [done|]. intros i Hi. rewrite Hw', decide_True by (rewrite Hgl; lia).
    replace (Z.to_nat (q + Z.of_nat i - q)) with i by lia. unfold splice. rewrite take_0, app_nil_l. by apply lookup_app_l.
  - intros x. rewrite Hw', Hgl. destruct (decide _); [by right|]. left. change (um (kst k1)) with (um (kst k)). by rewrite O5.
Qed.

Lemma length_overwritten bytes off bs : 0 <= off <= Z.of_nat (length bytes) ->
  (Z.to_nat off + length bs <= length (overwritten bytes off bs) <= length bytes + length bs)%nat.
Proof. intros Ho. unfold overwritten. rewrite !length_app, length_take, length_drop. lia. Qed.
Lemma overwritten_at bytes off bs : 0 <= off <= Z.of_nat (length bytes) ->
  take (length bs) (drop (Z.to_nat off) (overwritten bytes off bs)) = bs.
Proof. intros Ho. unfold overwritten. rewrite drop_app_length' by (rewrite length_take; lia). apply take_app_length. Qed.

Lemma pwrite_file k c w fd e bytes p bs off : opened k c w fd e bytes -> writable e = true -> 0 <= offset e <= i64_max ->
  0 <= off <= Z.of_nat (length bytes) -> Z.of_nat (length bytes) + Z.of_nat (length bs) <= i64_max -> peek_bytes w c p (length bs) = Ret bs ->
  exists k', pwrite64_impl (Z.of_nat fd) p (Z.of_nat (length bs)) off k = Ret (Z.of_nat (length bs), k') /\
    opened k' c w fd e (overwritten bytes off bs).
Proof.
  intros O Hw He Hoff Hl Hp. unfold pwrite64_impl, i64_max in *.
  destruct (lseek_file k c w fd e bytes 0 1 (offset e) O) as (k1 & -> & O1); [lia..|right; unfold i64_max; lia|]. cbn [mbind outcome_mbind].
  rewrite set_offset_same in O1. destruct (Z.ltb_spec (offset e) 0); [lia|].
  destruct (lseek_file k1 c w fd e bytes off 0 off O1) as (k2 & -> & O2); [lia..|by left|]. cbn [mbind outcome_mbind]. destruct (Z.ltb_spec off 0); [lia|].
  destruct (write_file k2 c w fd _ bytes p bs O2 Hw) as (k3 & -> & O3); [cbn; lia|cbn; unfold u64_max; lia|done|]. cbn [mbind outcome_mbind].
  destruct (lseek_file k3 c w fd _ _ (offset e) 0 (offset e) O3) as (k4 & -> & O4); [cbn; lia|lia|by left|]. cbn [mbind outcome_mbind].
  exists k4. split; [done|]. destruct e. exact O4.
Qed.

Lemma pread_file k c w fd e bytes q (n : nat) off : opened k c w fd e bytes -> 0 <= offset e <= i64_max ->
  0 <= off <= Z.of_nat (length bytes) -> Z.of_nat (length bytes) <= i64_max -> mapped w c q n ->
  let got := take n (drop (Z.to_nat off) bytes) in
  exists k' w', pread64_impl (Z.of_nat fd) q (Z.of_nat n) off k = Ret (Z.of_nat (length got), k') /\
    opened k' c w' fd e bytes /\ peek_bytes w' c q (length got) = Ret got /\
    (forall x, us_peek w' c x = us_peek w c x \/ q <= x < q + Z.of_nat n).
Proof.
  intros O He Hoff Hl Hm got. unfold pread64_impl, i64_max in *.
  destruct (lseek_file k c w fd e bytes 0 1 (offset e) O) as (k1 & -> & O1); [lia..|right; unfold i64_max; lia|]. cbn [mbind outcome_mbind].
  rewrite set_offset_same in O1. destruct (Z.ltb_spec (offset e) 0); [lia|].
  destruct (lseek_file k1 c w fd e bytes off 0 off O1) as (k2 & -> & O2); [lia..|by left|]. cbn [mbind outcome_mbind]. destruct (Z.ltb_spec off 0); [lia|].
  destruct (read_file_at k2 c w fd _ bytes q n O2) as (k3 & w3 & -> & O3 & Hgot & Hframe); [cbn; lia|unfold u64_max; lia|done|]. cbn [mbind outcome_mbind].
  cbn [offset set_offset] in *. fold got in O3, Hgot |- *.
  destruct (lseek_file k3 c w3 fd _ _ (offset e) 0 (offset e) O3) as (k4 & -> & O4); [cbn; lia|lia|by left|]. cbn [mbind outcome_mbind].
  exists k4, w3. split; [done|]. split; [destruct e; exact O4|]. done.
Qed.

Lemma i32_fd (fd : nat) : (fd < MAX_FD)%nat -> syscall_core.i32 (Z.of_nat fd) = Z.of_nat fd.
Proof. intros Hf. apply swrap_id; [lia|]. cbn. unfold MAX_FD in Hf. lia. Qed.

(** A call that the kernel's runtime answers with a value. *)
Lemma forward_file q m r k' : process_method find_program beyond q m = None -> file_method disk_sectors q m = Some (Ret (r, k')) -> 0 <= r ->
  syscall_core.forward (H := runtime) q m = Ret (Ok (syscall_core.ok_result r), set_kernel m k').
Proof.
  intros Hp Hf Hr. unfold syscall_core.forward, pbind, syscall_core.call, kernel_runtime, KernelRuntime. rewrite Hp, Hf. cbn.
  unfold syscall_core.finish. destruct (Z.ltb_spec r 0); [lia|done].
Qed.

(** C11: Positioned writes and reads are a round trip through the whole kernel. For a
    program with a writable descriptor on an in-memory file, the system call
    [pwrite64] at a position within the file takes the bytes from the program's
    memory and returns their number; [pread64] at that position then puts the same
    bytes into the program's buffer. The file holds them in place of what was
    there, and neither call moves the position of the descriptor. *)
Theorem pwrite_pread_round_trip m c w fd e bytes p q bs off : opened (kernel m) c w fd e bytes -> writable e = true -> 0 <= offset e <= i64_max ->
  0 <= off <= Z.of_nat (length bytes) -> Z.of_nat (length bytes) + Z.of_nat (length bs) <= i64_max ->
  peek_bytes w c p (length bs) = Ret bs -> mapped w c q (length bs) ->
  let n := Z.of_nat (length bs) in
  exists m1 m2 w2,
    handle_syscall find_program beyond disk_sectors 18 (Z.of_nat fd) p n off 0 m = Ret (Ok (syscall_core.ok_result n), m1) /\
    opened (kernel m1) c w fd e (overwritten bytes off bs) /\
    handle_syscall find_program beyond disk_sectors 17 (Z.of_nat fd) q n off 0 m1 = Ret (Ok (syscall_core.ok_result n), m2) /\
    opened (kernel m2) c w2 fd e (overwritten bytes off bs) /\ peek_bytes w2 c q (length bs) = Ret bs.
Proof.
  intros O Hw He Hoff Hl Hp Hq n. pose proof (op_fd _ _ _ _ _ _ O) as Hfd.
  assert (syscall_core.i64 off = off) as Hi64 by (apply swrap_id; [lia|]; unfold i64_max in *; cbn; lia).
  destruct (pwrite_file (kernel m) c w fd e bytes p bs off) as (k1 & E1 & O1); [done..|].
  pose proof (length_overwritten bytes off bs Hoff) as Hlo. pose proof (overwritten_at bytes off bs Hoff) as Hat.
  destruct (pread_file k1 c w fd e (overwritten bytes off bs) q (length bs) off O1) as (k2 & w2 & E2 & O2 & Hgot & _); [unfold i64_max in *; lia..|done|].
  rewrite Hat in E2, Hgot. exists (set_kernel m k1), (set_kernel (set_kernel m k1) k2), w2. split; [|split; [exact O1|split; [|by split]]].
  - change (handle_syscall find_program beyond disk_sectors 18 (Z.of_nat fd) p n off 0 m) with
      (syscall_core.forward (H := runtime) (syscall_core.pwrite64_impl (syscall_core.i32 (Z.of_nat fd)) p n (syscall_core.i64 off)) m).
    rewrite i32_fd, Hi64 by done. apply forward_file; [done| |lia]. cbn [file_method]. f_equal. exact E1.
  - change (handle_syscall find_program beyond disk_sectors 17 (Z.of_nat fd) q n off 0 (set_kernel m k1)) with
      (syscall_core.forward (H := runtime) (syscall_core.pread64_impl (syscall_core.i32 (Z.of_nat fd)) q n (syscall_core.i64 off)) (set_kernel m k1)).
    rewrite i32_fd, Hi64 by done. apply forward_file; [done| |lia]. cbn [file_method]. f_equal. exact E2.
Qed.

(** ** Strings *)

(** The bytes of a string in the memory of the running program. *)
Definition string_at k t (p : Z) (s : list Z) : Prop := cur (kst k) = Ret t /\ dispatch_spec.c_string (us_peek (um (kst k)) (cr3 t)) p s.

Lemma page_law m t : cur (kst (kernel m)) = Ret t -> forall a, is_Some (us_peek (um (kst (kernel m))) (cr3 t) a) ->
  syscall_core.call (SyscallRuntime := runtime) (syscall_core.is_page_mapped a) m = Ret (Ok 1, m).
Proof.
  intros Ht a [b Hb]. unfold syscall_core.call, kernel_runtime, KernelRuntime. cbn [process_method]. unfold this. rewrite Ht. cbn [mbind outcome_mbind]. by rewrite Hb.
Qed.
Lemma byte_law m t : cur (kst (kernel m)) = Ret t -> forall a b, us_peek (um (kst (kernel m))) (cr3 t) a = Some b ->
  syscall_core.call (SyscallRuntime := runtime) (syscall_core.read_byte a) m = Ret (Ok b, m).
Proof.
  intros Ht a b Hb. unfold syscall_core.call, kernel_runtime, KernelRuntime. cbn [process_method]. unfold load, tty.load. rewrite Ht. cbn [mbind outcome_mbind peek_bytes].
  by rewrite Hb.
Qed.

Lemma load_string k t p s : string_at k t p s -> load_slice (syscall_core.mkSlice p (Z.of_nat (Datatypes.S (length s)))) k = Ret (s ++ [0]).
Proof.
  intros [Ht [_ Hs]]. unfold load_slice, load, tty.load. cbn [syscall_core.ptr syscall_core.len]. rewrite Ht. cbn [mbind outcome_mbind]. rewrite Nat2Z.id.
  apply peek_bytes_Ret. split; [rewrite length_app; cbn; lia|]. intros i Hi. rewrite Hs by lia. destruct (decide (i < length s)%nat).
  - rewrite lookup_app_l by done. destruct (lookup_lt_is_Some_2 s i) as [b ->]; done.
  - assert (i = length s) as -> by lia. rewrite (proj2 (lookup_ge_None s _)) by lia. rewrite lookup_app_r by lia. by rewrite Nat.sub_diag.
Qed.

(** The kernel's answer to a call on a path. *)
Lemma path_error m r k' q : process_method find_program beyond q m = None -> file_method disk_sectors q m = Some (Ret (r, k')) -> r < 0 ->
  syscall_core.forward (H := runtime) q m = Ret (Ok (syscall_core.err_result r), set_kernel m k').
Proof.
  intros Hp Hf Hr. unfold syscall_core.forward, pbind, syscall_core.call, kernel_runtime, KernelRuntime. rewrite Hp, Hf. cbn.
  unfold syscall_core.finish. destruct (Z.ltb_spec r 0); [done|lia].
Qed.

Lemma open_nul_path k t f s : cur (kst k) = Ret t -> ram (files k) = Some f -> no_nul f -> vfs.resolve s = vfs.RamFS s ->
  exists v, vfs_open (stats k) (s ++ [0]) 0 (fd_table t) (files k) = Ret (fs.ENOENT, fd_table t, v).
Proof.
  intros Ht Hr Hf Hs. assert (0 ∈ s ++ [0]) as H0' by (apply elem_of_app; right; by apply list_elem_of_singleton).
  pose proof (resolve_nul f _ Hf H0') as Hn. unfold vfs_open. rewrite resolve_nul_path by done. unfold open_ram, is_ram_dir, ramfs.list_dir. rewrite Hr, Hn.
  cbn [mbind outcome_mbind]. rewrite bool_decide_false by (by intros [? ?]). unfold open_ram_file. rewrite Hr. unfold open, open_inode. cbv [pbind get]. rewrite Hn.
  cbn. eauto.
Qed.

(** A string never names a file in memory. Because the dispatcher counts the
    terminator as part of a path, and no name holds it, [open] without O_CREAT and
    [chdir] fail for every path outside the mounts that a program passes as a
    string, whatever the filesystem holds: the first with ENOENT, the second with
    the code of a directory that does not exist. *)
Theorem strings_name_no_file m t f p s : string_at (kernel m) t p s -> ram (files (kernel m)) = Some f -> no_nul f ->
  vfs.resolve s = vfs.RamFS s -> utf8_valid s = true -> (length s < 4096)%nat ->
  validate_user_range p (Z.of_nat (Datatypes.S (length s))) = true ->
  exists m1 m2,
    handle_syscall find_program beyond disk_sectors 2 p 0 0 0 0 m = Ret (Ok (syscall_core.err_result fs.ENOENT), m1) /\
    handle_syscall find_program beyond disk_sectors 80 p 0 0 0 0 m = Ret (Ok (syscall_core.err_result (-7)), m2).
Proof.
  intros Hs Hr Hf Hv Hu Hl Hrange. pose proof Hs as [Ht Hc]. pose proof (load_string _ _ _ _ Hs) as Hload. apply utf8_valid_nul in Hu.
  set (sl := syscall_core.mkSlice p (Z.of_nat (Datatypes.S (length s)))) in *.
  assert (0 ∈ s ++ [0]) as H0' by (apply elem_of_app; right; by apply list_elem_of_singleton).
  assert (Hpath : forall g, syscall_core.with_path (H := runtime) p g m = g sl m).
  { intros g. exact (dispatch_spec.with_path_string m _ (page_law m t Ht) (byte_law m t Ht) p s g Hc Hl Hrange). }
  destruct (open_nul_path (kernel m) t f s) as [v Hopen]; [done..|].
  eexists _, _. split.
  - change (handle_syscall find_program beyond disk_sectors 2 p 0 0 0 0 m) with
      (syscall_core.with_path (H := runtime) p (fun path => syscall_core.forward (H := runtime) (syscall_core.fs_open path 0)) m).
    rewrite Hpath. eapply path_error; [done| |unfold fs.ENOENT; lia]. cbn [file_method]. f_equal. unfold fs_open, with_str. rewrite Hload. cbn [mbind outcome_mbind].
    rewrite Hu. unfold table, this. rewrite Ht. cbn [mbind outcome_mbind]. rewrite Hopen. reflexivity.
  - change (handle_syscall find_program beyond disk_sectors 80 p 0 0 0 0 m) with
      (syscall_core.with_path (H := runtime) p (fun path => syscall_core.forward (H := runtime) (syscall_core.chdir_impl path)) m).
    rewrite Hpath. eapply path_error; [done| |lia]. cbn [file_method]. f_equal. unfold chdir_impl, with_str. rewrite Hload. cbn [mbind outcome_mbind].
    rewrite Hu. unfold this. rewrite Ht. cbn [mbind outcome_mbind]. unfold vfs_chdir, chdir_exists. rewrite resolve_nul_path by done.
    rewrite bool_decide_false by (intros E; rewrite E in H0'; apply list_elem_of_singleton in H0'; done).
    unfold listed, is_ram_dir, ramfs.list_dir. rewrite Hr, (resolve_nul f _ Hf H0'). cbn [mbind outcome_mbind]. rewrite bool_decide_false by (by intros [? ?]). reflexivity.
Qed.

(** ** Waiting for descriptors *)

(** The fields have their types. *)
Definition poll_typed (p : PollFd) : Prop :=
  - 2 ^ 31 <= p_fd p < 2 ^ 31 /\ - 2 ^ 15 <= events p < 2 ^ 15 /\ - 2 ^ 15 <= revents p < 2 ^ 15.

Lemma swrap_wrap (v x : Z) : 0 < v -> - 2 ^ (v - 1) <= x < 2 ^ (v - 1) -> swrap v (wrap v x) = x.
Proof.
  intros Hv Hx. rewrite <- (swrap_id v x) at 2 by done. unfold swrap, wrap. by rewrite Z.mod_mod by (apply Z.pow_nonzero; lia).
Qed.

Lemma poll_bytes_length p : length (poll_bytes p) = 8%nat.
Proof. done. Qed.

Lemma poll_of_bytes p : poll_typed p -> poll_of (poll_bytes p) = p.
Proof.
  intros (Hf & He & Hr). destruct p as [fd ev rv]. cbn in Hf, He, Hr. unfold poll_of, poll_bytes. cbn [p_fd events revents].
  rewrite (take_app_length' (le_encode 4 _)), (drop_app_length' (le_encode 4 _)), (take_app_length' (le_encode 2 _)) by done.
  rewrite app_assoc, (drop_app_length' (_ ++ _)) by done. rewrite take_ge by (by rewrite length_le_encode).
  rewrite !le_decode_encode by (apply Z.mod_pos_bound; lia). rewrite !swrap_wrap by (cbn; lia). done.
Qed.

Lemma chunks_bytes ps : chunks (length ps) (concat (poll_bytes <$> ps)) = poll_bytes <$> ps.
Proof.
  induction ps as [|p ps IH]; [done|]. cbn [length chunks fmap list_fmap concat]. rewrite take_app_length', drop_app_length' by done. by rewrite IH.
Qed.

Lemma poll_all_spec (s : S) k ps rs : Forall2 (fun p r => poll_one s k p = Ret r) ps rs ->
  poll_all s k ps = Ret (Z.of_nat (length (filter (fun r => r <> 0) rs)), zip_with (fun p r => mkPoll (p_fd p) (events p) r) ps rs).
Proof.
  induction 1 as [|p r ps rs Hp _ IH]; [done|]. cbn [poll_all]. rewrite Hp, IH. cbn [mbind outcome_mbind]. rewrite filter_cons.
  destruct (Z.eqb_spec r 0); destruct (decide (r <> 0)); [done|done| |done]. do 2 f_equal. cbn [length]. lia.
Qed.

(** The entries a program passes to [poll], at an address of its memory. *)
Record polled k t (a : Z) (ps : list PollFd) : Prop := {
  po_task : cur (kst k) = Ret t;
  po_typed : Forall poll_typed ps;
  po_count : (0 < length ps <= 64)%nat;
  po_addr : 0x1000 <= a;
  po_mem : peek_bytes (um (kst k)) (cr3 t) a (8 * length ps) = Ret (concat (poll_bytes <$> ps));
}.

(** The entries after the call, and how many of them are ready. *)
Definition answered (ps : list PollFd) (rs : list Z) : list PollFd := zip_with (fun p r => mkPoll (p_fd p) (events p) r) ps rs.
Definition ready_count (rs : list Z) : nat := length (filter (fun r => r <> 0) rs).

Lemma concat_poll_length ps : length (concat (poll_bytes <$> ps)) = (8 * length ps)%nat.
Proof. induction ps as [|p ps IH]; [done|]. cbn [fmap list_fmap concat]. rewrite length_app, IH, poll_bytes_length. cbn [length]. lia. Qed.

Lemma poll_scan (s : S) k t a ps rs timeout : polled k t a ps -> Forall2 (fun p r => poll_one s k p = Ret r) ps rs ->
  exists k', poll_impl a (Z.of_nat (length ps)) timeout s k =
      (if (0 <? Z.of_nat (ready_count rs)) || (timeout =? 0) then Ret (Return (Z.of_nat (ready_count rs)), k') else wait_ticks timeout k') /\
    (exists w', k' = set_kst k (set_um (kst k) w')) /\
    peek_bytes (um (kst k')) (cr3 t) a (8 * length ps) = Ret (concat (poll_bytes <$> answered ps rs)).
Proof.
  intros [Ht Hty Hn Ha Hm] Hrs. pose proof (Forall2_length _ _ _ Hrs) as Hlen.
  assert (Hlen' : length (concat (poll_bytes <$> answered ps rs)) = (8 * length ps)%nat).
  { rewrite concat_poll_length. unfold answered. rewrite length_zip_with. lia. }
  destruct (write_bytes_mapped (cr3 t) a (concat (poll_bytes <$> answered ps rs)) (kst k)) as (w' & Ew & Hw').
  { rewrite Hlen'. intros i Hi. apply peek_bytes_Ret in Hm as [Hml Hm]. rewrite Hm by done. apply lookup_lt_is_Some_2. by rewrite Hml. }
  exists (set_kst k (set_um (kst k) w')). split; [|split; [by eexists|rewrite <- Hlen'; by eapply peek_written]].
  unfold poll_impl. destruct (Z.eqb_spec (Z.of_nat (length ps)) 0); [lia|]. destruct (Z.ltb_spec 64 (Z.of_nat (length ps))); [lia|].
  destruct (Z.ltb_spec a 0x1000); [lia|]. cbn [orb]. rewrite Nat2Z.id. unfold load, tty.load. rewrite Ht. cbn [mbind outcome_mbind]. rewrite Hm. cbn [mbind outcome_mbind].
  rewrite chunks_bytes. assert (poll_of <$> (poll_bytes <$> ps) = ps) as ->.
  { rewrite <- list_fmap_compose. rewrite <- (list_fmap_id ps) at 2. apply list_fmap_ext. intros i p Hp. apply poll_of_bytes. rewrite Forall_lookup in Hty. by eapply Hty. }
  rewrite (poll_all_spec s k ps rs Hrs). cbn [mbind outcome_mbind]. unfold store, tty.store. rewrite Ht. cbn [mbind outcome_mbind].
  fold (answered ps rs). rewrite Ew. done.
Qed.

Lemma poll_call m a n timeout : i64_min <= timeout <= i64_max ->
  handle_syscall find_program beyond disk_sectors 7 a n (wrap 64 timeout) 0 0 m =
  syscall_core.forward (H := runtime) (syscall_core.poll_impl a n timeout) m.
Proof.
  intros Ht. change (handle_syscall find_program beyond disk_sectors 7 a n (wrap 64 timeout) 0 0 m) with
    (syscall_core.forward (H := runtime) (syscall_core.poll_impl a n (swrap 64 (wrap 64 timeout))) m).
  rewrite swrap_wrap; [done|lia|]. unfold i64_min, i64_max in Ht. cbn. lia.
Qed.

(** ** What [poll] should say *)

(** The tables [poll] looks at are as the kernel keeps them: an open descriptor of a pipe
    names one of its ends, and an end with a descriptor is open (see
    [fd_pipes.pipe_refs_count_descriptors]). *)
Definition pipe_entry k (e : FdEntry) : Prop := exists i x, pipe_spec.decode (raw_fd e) = Some (i, x) /\
  match x with
  | pipe_spec.ReadEnd => writable e = false /\ exists p, sched.pipes (kst k) !! i = Some p /\ pipe.read_open p = true
  | pipe_spec.WriteEnd => writable e = true
  end.
Record descriptors k t : Prop := {
  ds_table : length (fd_table t) = MAX_FD;
  ds_pipes : pipe.wf_table (sched.pipes (kst k));
  ds_keys : stdin.wf (keys k);
  ds_ends : forall fd e, fd_table t !! fd = Some (Some e) -> backend e = Pipe -> pipe_entry k e;
}.

(** A read of one byte from the descriptor gives a byte at once. *)
Definition byte_waits k t f (fd : Z) : Prop := exists b tb d, read_fd (fd_table t) f fd [0] (devs_of t k) = Ret (1, [b], tb, d).

Definition open_on t (fd : Z) (e : FdEntry) : Prop := 0 <= fd < Z.of_nat MAX_FD /\ fd_table t !! Z.to_nat fd = Some (Some e).

(** Input is ready on a terminal and on a pipe when a read gives a byte, on a socket when the
    network says so, and on every other open descriptor at any time. *)
Definition input_ready (s : S) k t f (fd : Z) : Prop :=
  200 <= fd /\ socket_read_ready s fd = true \/
  exists e, open_on t fd e /\ match backend e with DevTty | Pipe => byte_waits k t f fd | _ => True end.
(** Output is ready on every socket and open descriptor but the read end of a pipe. *)
Definition output_ready t (fd : Z) : Prop := 200 <= fd \/ exists e, open_on t fd e /\ (backend e = Pipe -> writable e = true).
Definition not_open t (fd : Z) : Prop := 0 <= fd < Z.of_nat MAX_FD /\ fd_table t !! Z.to_nat fd = Some None.

(** The answer to an entry, bit by bit: POLLIN (bit 0) and POLLOUT (bit 2) when they were asked
    for and the descriptor is ready, POLLHUP (bit 4) for a descriptor that is not open. *)
Definition answer (s : S) k t f (p : PollFd) (r : Z) : Prop := forall b, Z.testbit r b = true <->
  b = 0 /\ Z.testbit (events p) 0 = true /\ input_ready s k t f (p_fd p) \/
  b = 2 /\ Z.testbit (events p) 2 = true /\ output_ready t (p_fd p) \/
  b = 4 /\ not_open t (p_fd p).

Lemma wants_bit p n : 0 <= n -> wants p (2 ^ n) = Z.testbit (events p) n.
Proof. apply flag_bit. Qed.

Lemma bits_test (b : bool) n i : 0 <= n -> Z.testbit (bits b (2 ^ n)) i = true <-> b = true /\ i = n.
Proof.
  intros Hn. destruct b; cbn [bits]; [|rewrite Z.bits_0; by split; [|intros []]].
  rewrite Z.pow2_bits_eqb by done. rewrite Z.eqb_eq. naive_solver.
Qed.

(** An answer of the two bits. *)
Lemma answer_bits s k t f p (i o : bool) : (i = true <-> input_ready s k t f (p_fd p)) -> (o = true <-> output_ready t (p_fd p)) ->
  ~ not_open t (p_fd p) -> answer s k t f p (Z.lor (bits (wants p POLLIN && i) POLLIN) (bits (wants p POLLOUT && o) POLLOUT)).
Proof.
  intros Hi Ho Hn b. change POLLIN with (2 ^ 0). change POLLOUT with (2 ^ 2). rewrite !wants_bit by lia.
  rewrite Z.lor_spec, orb_true_iff, !bits_test, !andb_true_iff by lia. rewrite Hi, Ho. tauto.
Qed.

Lemma key_waits k t f fd e : stdin.wf (keys k) -> open_on t fd e -> backend e = DevTty ->
  (0 <? Z.of_nat (stdin.available (keys k))) = true <-> byte_waits k t f fd.
Proof.
  intros Hwf [Hfd He] Hb. rewrite Z.ltb_lt. unfold byte_waits, read_fd, bad_fd. rewrite (proj2 (Z.ltb_ge fd 0)), (proj2 (Z.leb_gt _ fd)) by lia. cbn [orb].
  rewrite (proj2 (idx_Ret _ _ _) He). cbn [mbind outcome_mbind]. rewrite Hb. change (length [0] =? 0)%nat with false. cbn [fdtable.tty devs_of].
  pose proof (stdin.stdin_contents_nil _ Hwf) as Hnil. pose proof (stdin.stdin_length_contents _ Hwf) as Hlen. unfold stdin.pop.
  destruct (Nat.eqb_spec (stdin.HEAD (keys k)) (stdin.TAIL (keys k))) as [Eq|Ne]; cbn [mbind outcome_mbind].
  - apply Hnil in Eq. rewrite Eq in Hlen. change (length []) with 0%nat in Hlen. split; [lia|by intros (? & ? & ? & ?)].
  - destruct (lookup_lt_is_Some_2 (stdin.BUF (keys k)) (stdin.HEAD (keys k))) as [c Hc]; [rewrite (stdin.wf_len _ Hwf); apply Hwf|].
    rewrite (proj2 (idx_Ret _ _ _) Hc). cbn [mbind outcome_mbind]. change (set_idx [0] 0 c) with (Ret [c]). cbn [mbind outcome_mbind]. split; [by eauto|]. intros _. destruct (stdin.contents (keys k)); [tauto|]. cbn [length] in Hlen. lia.
Qed.

Lemma pipe_waits k t f fd e i p : pipe.wf_table (sched.pipes (kst k)) -> open_on t fd e -> backend e = Pipe ->
  pipe_spec.decode (raw_fd e) = Some (i, pipe_spec.ReadEnd) -> sched.pipes (kst k) !! i = Some p -> pipe.read_open p = true ->
  exists r, pipe.read_ready (sched.pipes (kst k)) (raw_fd e) = Ret r /\ (r = true <-> byte_waits k t f fd).
Proof.
  intros Hwf [Hfd He] Hb Hd Hp Ho. unfold byte_waits, read_fd, bad_fd. rewrite (proj2 (Z.ltb_ge fd 0)), (proj2 (Z.leb_gt _ fd)) by lia. cbn [orb].
  rewrite (proj2 (idx_Ret _ _ _) He). cbn [mbind outcome_mbind]. rewrite Hb. cbn [fdtable.pipes devs_of].
  destruct (pipe_spec.refines_all _ (pipe_spec.ReadReady (raw_fd e)) Hwf) as (ps1 & E1 & _). destruct (pipe_spec.refines_all _ (pipe_spec.Read (raw_fd e) [0]) Hwf) as (ps2 & E2 & _).
  cbn [pipe_spec.run pipe_spec.step] in E1, E2. unfold pipe_spec.on_end in E1, E2. rewrite Hd, list_lookup_fmap, Hp in E1, E2. cbn in E1, E2. rewrite Ho in E2.
  apply bind_Ret in E1 as (r & -> & E1). apply bind_Ret in E2 as ([[n out] ps3] & -> & E2). exists r. split; [done|]. cbn [mbind outcome_mbind].
  injection E1 as -> _. destruct (pipe.contents p) as [|b l]; cbn in E2 |- *.
  - split; [done|]. intros (? & ? & ? & Hx). injection Hx as -> _ _ _. destruct (pipe.write_refs p =? 0); discriminate E2.
  - injection E2 as -> -> ->. split; [|done]. intros _. by exists b, (fd_table t), (fdtable.set_pipes (devs_of t k) ps2).
Qed.

Lemma write_end_gives_nothing k t f fd e i : open_on t fd e -> backend e = Pipe -> pipe_spec.decode (raw_fd e) = Some (i, pipe_spec.WriteEnd) -> ~ byte_waits k t f fd.
Proof.
  intros [Hfd He] Hb Hd (b & tb & d & Hx). revert Hx. unfold read_fd, bad_fd. rewrite (proj2 (Z.ltb_ge fd 0)), (proj2 (Z.leb_gt _ fd)) by lia. cbn [orb].
  rewrite (proj2 (idx_Ret _ _ _) He). cbn [mbind outcome_mbind]. rewrite Hb. unfold pipe.read. apply pipe_spec.decode_Some in Hd as (-> & _ & _ & ->). done.
Qed.

Lemma poll_one_answers (s : S) k t f p : cur (kst k) = Ret t -> descriptors k t -> exists r, poll_one s k p = Ret r /\ answer s k t f p r.
Proof.
  intros Ht [Hl Hps Hk Hends]. unfold poll_one. pose proof (answer_bits s k t f p) as AB. unfold input_ready, output_ready, not_open, open_on in AB.
  assert (HM : Z.of_nat MAX_FD = 32) by done. rewrite HM in AB |- *.
  assert (Hzero : (p_fd p < 0 \/ 32 <= p_fd p < 200) -> answer s k t f p 0).
  { intros Hout. specialize (AB false false). rewrite !andb_false_r in AB. change 0 with (Z.lor (bits false POLLIN) (bits false POLLOUT)).
    apply AB; [split; [done|intros [[]|(e & [] & _)]; lia]|split; [done|intros [|(e & [] & _)]; lia]|intros []; lia]. }
  destruct (Z.ltb_spec (p_fd p) 0); [exists 0; split; [done|apply Hzero; lia]|]. destruct (Z.leb_spec 200 (p_fd p)).
  { eexists. split; [done|]. specialize (AB (socket_read_ready s (p_fd p)) true). rewrite andb_true_r in AB.
    apply AB; [split; [by left|intros [[]|(e & [] & _)]; [done|lia]]|split; [by left|done]|intros []; lia]. }
  destruct (Z.leb_spec 32 (p_fd p)); [exists 0; split; [done|apply Hzero; lia]|]. unfold table, this. rewrite Ht. cbn [mbind outcome_mbind].
  destruct (lookup_lt_is_Some_2 (fd_table t) (Z.to_nat (p_fd p))) as [o Ho]; [rewrite Hl; unfold MAX_FD in *; lia|].
  rewrite (proj2 (idx_Ret _ _ _) Ho). cbn [mbind outcome_mbind]. destruct o as [e|].
  2: { eexists. split; [done|]. intros b. change POLLHUP with (2 ^ 4). rewrite Z.pow2_bits_eqb, Z.eqb_eq by lia.
    unfold input_ready, output_ready, not_open, open_on. rewrite HM. split; [intros <-; right; right; by split_and!|].
    intros [(_ & _ & [[]|(e & [_ Hc] & _)])|[(_ & _ & [|(e & [_ Hc] & _)])|[-> _]]]; [lia|congruence|lia|congruence|done]. }
  assert (Hopen : open_on t (p_fd p) e) by (split; [rewrite HM; lia|done]).
  assert (Hsame : forall e', fd_table t !! Z.to_nat (p_fd p) = Some (Some e') -> e' = e) by congruence.
  assert (Hin : forall P : Prop, (match backend e with DevTty | Pipe => byte_waits k t f (p_fd p) | _ => True end <-> P) ->
    (200 <= p_fd p /\ socket_read_ready s (p_fd p) = true \/ (exists e, (0 <= p_fd p < 32 /\ fd_table t !! Z.to_nat (p_fd p) = Some (Some e)) /\
      match backend e with DevTty | Pipe => byte_waits k t f (p_fd p) | _ => True end)) <-> P).
  { intros P <-. split; [intros [[]|(e' & [_ Hc] & Hx)]; [lia|by rewrite <- (Hsame e' Hc)]|]. intros Hx. right. exists e. split; [split; [lia|done]|done]. }
  assert (Hout : (200 <= p_fd p \/ exists e, (0 <= p_fd p < 32 /\ fd_table t !! Z.to_nat (p_fd p) = Some (Some e)) /\ (backend e = Pipe -> writable e = true)) <->
    (backend e = Pipe -> writable e = true)).
  { split; [intros [|(e' & [_ Hc] & Hx)]; [lia|by rewrite <- (Hsame e' Hc)]|]. intros Hx. right. exists e. split; [split; [lia|done]|done]. }
  assert (Hnot : ~ (0 <= p_fd p < 32 /\ fd_table t !! Z.to_nat (p_fd p) = Some None)) by (intros []; congruence).
  assert (Hplain : backend e <> Pipe -> backend e <> DevTty -> answer s k t f p (Z.lor (bits (wants p POLLIN) POLLIN) (bits (wants p POLLOUT) POLLOUT))).
  { intros Hb1 Hb2. specialize (AB true true). rewrite !andb_true_r in AB. apply AB; [|by rewrite Hout|done]. rewrite (Hin True); [done|]. by destruct (backend e). }
  destruct (backend e) eqn:Hb; try (eexists; split; [done|by apply Hplain]).
  - destruct (Hends _ e Ho Hb) as (i & x & Hd & Hx). destruct x.
    + destruct Hx as (Hw & q & Hq & Hro). rewrite Hw. destruct (pipe_waits k t f (p_fd p) e i q Hps Hopen Hb Hd Hq Hro) as (r & Er & Hr).
      exists (bits (wants p POLLIN && r) POLLIN). split; [destruct (wants p POLLIN); [by rewrite Er|done]|].
      specialize (AB r false). rewrite andb_false_r, Z.lor_0_r in AB. apply AB; [by rewrite (Hin (byte_waits k t f (p_fd p)))|rewrite Hout, Hw; naive_solver|done].
    + rewrite Hx. eexists. split; [done|]. specialize (AB false true). rewrite andb_false_r, andb_true_r, Z.lor_0_l in AB.
      apply AB; [rewrite (Hin False); [done|]|by rewrite Hout|done]. split; [|done]. by eapply write_end_gives_nothing.
  - eexists. split; [done|]. specialize (AB (0 <? Z.of_nat (stdin.available (keys k))) true). rewrite andb_true_r in AB.
    apply AB; [rewrite (Hin (byte_waits k t f (p_fd p))); [by eapply key_waits|done]|by rewrite Hout|done].
Qed.

Lemma poll_answers (s : S) k t f ps : cur (kst k) = Ret t -> descriptors k t ->
  exists rs, Forall2 (fun p r => poll_one s k p = Ret r) ps rs /\ Forall2 (answer s k t f) ps rs.
Proof.
  intros Ht Hd. induction ps as [|p ps (rs & IH1 & IH2)]; [exists []; by split; constructor|].
  destruct (poll_one_answers s k t f p Ht Hd) as (r & H1' & H2'). exists (r :: rs). by split; constructor.
Qed.

(** The timer ticks a program sleeps when nothing is ready. *)
Definition sleep_ticks (timeout : Z) : Z := if timeout <? 0 then 2 else Z.max (timeout * 100 / 1000) 1.

Lemma wait_sleeps k t c timeout : cur (kst k) = Ret t -> current (kst k) = current_task_idx (kst k) ->
  syscall_ctx (kst k) = Some c -> has_task (tasks (kst k)) = true ->
  timeout * 100 <= u64_max -> vfs.ticks (stats k) + sleep_ticks timeout <= u64_max ->
  exists x, wait_ticks timeout k = Ret (Leave EXIT_SLEEPING, set_kst k x) /\ um x = um (kst k) /\
    cur x = Ret (set_state (set_ctx t (with_rax c 0)) (Sleeping (vfs.ticks (stats k) + sleep_ticks timeout))).
Proof.
  intros Ht Hi Hc Hh Ho Hs. set (sleeping t := set_state (set_ctx t (with_rax c 0)) (Sleeping (vfs.ticks (stats k) + sleep_ticks timeout))).
  exists (upd (current (kst k)) sleeping (set_syscall_ctx (kst k) None)). split; [|split; [done|]].
  - unfold wait_ticks. assert ((if timeout <? 0 then Ret 2 else let! x := cmul u64_max timeout syscall_core.TIMER_HZ in Ret (Z.max (x / 1000) 1)) = Ret (sleep_ticks timeout)) as ->.
    { unfold sleep_ticks, cmul, syscall_core.TIMER_HZ. destruct (timeout <? 0); [done|]. by rewrite (proj2 (Z.leb_le _ _) Ho). }
    cbn [mbind outcome_mbind]. unfold cadd. rewrite (proj2 (Z.leb_le _ _) Hs). cbn [mbind outcome_mbind].
    unfold proc_calls.sleep_until_tick. rewrite Hc. change (tasks (set_syscall_ctx (kst k) None)) with (tasks (kst k)). rewrite Hh. unfold sleep_task. reflexivity.
  - rewrite Hi. exact (cur_upd (set_syscall_ctx (kst k) None) t sleeping Ht).
Qed.


(** A program can abort the kernel by the time it waits: when nothing is ready,
    [poll] multiplies the milliseconds by the timer frequency as a 64-bit integer,
    so that every timeout above [u64::MAX / 100] overflows. *)
Theorem poll_timeout_aborts_the_kernel m t a ps rs timeout : polled (kernel m) t a ps ->
  Forall2 (fun p r => poll_one (services m) (kernel m) p = Ret r) ps rs -> ready_count rs = 0%nat ->
  u64_max / 100 < timeout <= i64_max ->
  handle_syscall find_program beyond disk_sectors 7 a (Z.of_nat (length ps)) (wrap 64 timeout) 0 0 m = Panic.
Proof.
  intros Hp Hrs Hz Hto. unfold u64_max, i64_max in Hto. change (18446744073709551615 / 100) with 184467440737095516 in Hto.
  rewrite poll_call by (unfold i64_min, i64_max; lia).
  destruct (poll_scan (services m) (kernel m) t a ps rs timeout Hp Hrs) as (k' & E & _).
  unfold syscall_core.forward, pbind, syscall_core.call, kernel_runtime, KernelRuntime. cbn [process_method file_method]. rewrite E, Hz.
  destruct (Z.eqb_spec timeout 0); [lia|]. change (0 <? Z.of_nat 0) with false. cbn [orb]. unfold wait_ticks. destruct (Z.ltb_spec timeout 0); [lia|].
  unfold cmul, syscall_core.TIMER_HZ, u64_max. destruct (Z.leb_spec (timeout * 100) 18446744073709551615); [lia|]. done.
Qed.

(** ** Directory entries *)

(** Descriptor [fd] is open on a directory whose listing, as [getdents64] asks for
    it, is [listing]; the filesystems are [v] after that. *)
Record listed_dir k t (fd : nat) e (listing : list Z) (v : Files D) : Prop := {
  ld_task : cur (kst k) = Ret t;
  ld_fd : (fd < MAX_FD)%nat;
  ld_entry : fd_table t !! fd = Some (Some e);
  ld_backend : backend e = Dir;
  ld_listing : exists path names, slice (dir_path e) 0 (Z.to_nat (dir_path_len e)) = Ret path /\ utf8_valid path = true /\
    vfs_readdir path (replicate (Z.to_nat 2048) 0) (files k) = Ret (Z.of_nat (length listing), names, v) /\
    slice names 0 (length listing) = Ret listing;
  ld_plain : 0 ∉ listing;
  ld_short : (length listing <= 2048)%nat;
}.

(** C14: [getdents64] gives the entries of a directory back. For a descriptor on a
    directory, the records it writes to the program's buffer parse to the type and
    name of the next lines of the listing, from the position of the descriptor on:
    as many as fit, in order and none left out. The position moves behind them, so
    that the next call starts with the first line that was not reported. *)
Theorem getdents_gives_the_next_entries k t fd e listing v a (n : nat) : listed_dir k t fd e listing v ->
  0 <= offset e < Z.of_nat (length listing) -> mapped (um (kst k)) (cr3 t) a n ->
  exists k' pos told rest bytes e',
    getdents64_impl (Z.of_nat fd) (syscall_core.mkSlice a (Z.of_nat n)) k = Ret (Z.of_nat pos, k') /\
    split 10 (drop (Z.to_nat (offset e)) listing) = told ++ rest /\
    peek_bytes (um (kst k')) (cr3 t) a pos = Ret bytes /\ parse_dirents pos bytes = entry_of_line <$> filter nonempty told /\
    (table k' = Ret (<[fd := Some e']> (fd_table t)) /\ offset e' = offset e + Z.of_nat (lines_length told)) /\
    match rest with
    | [] => True
    | line :: _ => (n < pos + record_length line)%nat /\ split 10 (drop (Z.to_nat (offset e')) listing) = rest
    end.
Proof.
  intros [Ht Hfd He Hb (path & names & Hpath & Hutf & Hread & Hslice) H0' Hshort] Hoff Hm.
  destruct (peek_bytes_mapped _ _ _ _ Hm) as [old Hold]. pose proof (proj1 (proj1 (peek_bytes_Ret _ _ _ _ _) Hold)) as Hlen.
  set (lst := drop (Z.to_nat (offset e)) listing) in *.
  assert (Hpl : Forall plain_line (split 10 lst)).
  { apply listing_plain; [|subst lst; rewrite length_drop; lia]. intros Hin. apply H0'. rewrite <- (take_drop (Z.to_nat (offset e)) listing). apply elem_of_app. by right. }
  destruct (dirents (split 10 lst) (offset e) (1000 + offset e) 0 old 0) as [[pos consumed] buf'] eqn:Ed.
  pose proof (dirents_prefix _ _ _ _ _ _ _ _ _ (Nat.le_0_l _) Ed) as (told & rest & Esp & -> & Hbl & Hpos & Htk & Hrest).
  rewrite take_0, app_nil_l in Htk. cbn [Nat.add] in *. rewrite Hlen in *. set (e' := set_offset e (offset e + Z.of_nat (lines_length told))).
  set (k1 := set_table (<[fd := Some e']> (fd_table t)) (set_files k v)).
  assert (Ht1 : cur (kst k1) = Ret (set_fd_table t (<[fd := Some e']> (fd_table t)))) by exact (cur_upd (kst k) t _ Ht).
  destruct (write_bytes_mapped (cr3 t) a buf' (kst k1)) as (w' & Ew & Hw'); [by rewrite Hbl|].
  exists (set_kst k1 (set_um (kst k1) w')), pos, told, rest, (take pos buf'), e'. split; [|split; [done|split; [|split; [|split]]]].
  - unfold getdents64_impl, with_buf, load_slice, load, tty.load. cbn [syscall_core.ptr syscall_core.len]. rewrite Ht. cbn [mbind outcome_mbind].
    rewrite (Nat2Z.id n), Hold. cbn [mbind outcome_mbind]. unfold entry_of, table, this. rewrite bad_fd_of, Ht, (Nat2Z.id fd) by done. cbn [mbind outcome_mbind].
    rewrite (proj2 (idx_Ret _ _ _) He). cbn [mbind outcome_mbind]. rewrite bool_decide_true by done. cbn [negb]. rewrite Hpath. cbn [mbind outcome_mbind].
    rewrite Hutf. cbn [negb]. rewrite Hread. cbn [mbind outcome_mbind]. destruct (Z.ltb_spec (Z.of_nat (length listing)) 0); [lia|]. rewrite (Nat2Z.id (length listing)), Hslice.
    cbn [mbind outcome_mbind]. destruct (Z.leb_spec (Z.of_nat (length listing)) (offset e)); [lia|]. fold lst. rewrite Ed.
    change (kst (set_files k v)) with (kst k). rewrite Ht. cbn [mbind outcome_mbind]. rewrite set_idx_lt by (by eapply lookup_lt_Some). cbn [mbind outcome_mbind].
    fold e' k1. unfold store, tty.store. rewrite Ht1. cbn [mbind outcome_mbind]. change (cr3 (set_fd_table t _)) with (cr3 t). by rewrite Ew.
  - apply peek_bytes_Ret. split; [rewrite length_take; lia|]. intros i Hi. cbn [um kst set_kst set_um]. rewrite Hw', decide_True by (rewrite Hbl; lia).
    rewrite lookup_take_lt by done. f_equal. lia.
  - rewrite Htk. assert (pos = length (records (offset e) (1000 + offset e) 0 told)) as -> by (rewrite <- Htk, length_take; lia).
    rewrite parse_records; [done| |apply records_length]. rewrite Esp in Hpl. by apply Forall_app in Hpl as [? _].
  - split; [|done]. unfold table, this. change (kst (set_kst k1 _)) with (set_um (kst k1) w').
    change (cur (set_um (kst k1) w')) with (cur (kst k1)). by rewrite Ht1.
  - destruct rest as [|line rest]; [done|]. destruct Hrest as [_ Hr]. split; [done|]. apply split_drop in Esp; [|done]. rewrite <- Esp. subst lst.
    rewrite drop_drop. do 2 f_equal. subst e'. cbn [offset set_offset]. lia.
Qed.
End Files.

(** ** A machine with one program *)

(** Neither segments nor services. *)
#[export] Instance flat_segments : SegmentMemory (Z -> Z -> option Z) := {|
  seg_get := fun _ _ s => Ret (-12, s);
  seg_at := fun _ att _ s => Ret (-22, att, s);
  seg_dt := fun _ att s => Ret (-22, att, s);
|}.
#[export] Instance no_services : Services (Z -> Z -> option Z) unit := {|
  service := fun _ s k => Ret (-38, s, k);
  socket_read_ready := fun _ _ => false;
|}.

(** One page of memory: a path, a key for standard input and entries for [poll]. *)
Definition page : list Z := str "/h" ++ replicate 14 0 ++ poll_bytes (mkPoll 3 1 0) ++ poll_bytes (mkPoll (-1) 1 0) ++ [7; 8].
Definition page_memory : Z -> Z -> option Z := fun c a =>
  if (c =? 4096) && (0x400000 <=? a) && (a <? 0x401000) then Some (default 0 (page !! Z.to_nat (a - 0x400000))) else None.

(** Descriptor 3 is the file /h and descriptor 4 the directory /. *)
Definition file_entry : FdEntry := ramfs_entry 1 1 true false.
Definition dir_entry : FdEntry := mkFd Dir 0 0 0 false false (splice (replicate 64 0) 0 [47]) 1.
Definition program : Task := set_fd_table (set_cr3 (sched_spec.sample 0 Ready) 4096) (<[4%nat := Some dir_entry]> fd_spec.hello_table).
Definition machine : Machine (W := Z -> Z -> option Z) (D := RamDisk) (S := unit) :=
  mkMachine (mkKernel
    (set_um (set_tasks boot (<[0%nat := program]> (tasks boot))) page_memory)
    (mkFiles (Some fd_spec.hello) (fatfs.new tt) (ext2.boot tt) (disk_store.mkStores (replicate 4 false) [None; None; None; None]))
    tty.TTY (sched_spec.or_else stdin.boot (stdin.push 65 stdin.boot)) (mkStats 5 0 0)) tt 0.

Abbreviation syscall := (handle_syscall (fun _ => None) [] (fun _ : RamDisk => 0)).

Lemma page_mapped a n : 0x400000 <= a -> a + Z.of_nat n <= 0x401000 -> mapped page_memory 4096 a n.
Proof.
  intros H1 H2 i Hi. change (is_Some (page_memory 4096 (a + Z.of_nat i))). unfold page_memory. change (4096 =? 4096) with true. cbn [andb].
  destruct (Z.leb_spec 0x400000 (a + Z.of_nat i)); [|lia]. destruct (Z.ltb_spec (a + Z.of_nat i) 0x401000); [|lia]. cbn [andb]. eauto.
Qed.

Lemma machine_opened : opened (kernel machine) 4096 page_memory 3 file_entry [1; 2; 3].
Proof.
  constructor; [vm_compute; lia| | | |reflexivity].
  - exists program. split; [reflexivity|]. split; reflexivity.
  - reflexivity.
  - eexists _, _. split; [reflexivity|]. split; [reflexivity|]. split; reflexivity.
Qed.

Lemma pwrite_pread_round_trip_witness : exists m1 m2 w2,
  syscall 18 3 0x400020 2 2 0 machine = Ret (Ok (syscall_core.ok_result 2), m1) /\
  syscall 17 3 0x400100 2 2 0 m1 = Ret (Ok (syscall_core.ok_result 2), m2) /\
  opened (kernel m2) 4096 w2 3 file_entry [1; 2; 7; 8] /\ peek_bytes w2 4096 0x400100 2 = Ret [7; 8].
Proof.
  destruct (pwrite_pread_round_trip (fun _ => None) [] (fun _ : RamDisk => 0) machine 4096 page_memory 3 file_entry [1; 2; 3] 0x400020 0x400100 [7; 8] 2)
    as (m1 & m2 & w2 & H1 & _ & H2 & H3 & H4);
    [exact machine_opened|reflexivity|vm_compute; split; discriminate|vm_compute; split; discriminate|vm_compute; discriminate|vm_compute; reflexivity
    |apply page_mapped; vm_compute; discriminate|].
  exists m1, m2, w2. split; [exact H1|]. split; [exact H2|]. split; [exact H3|exact H4].
Defined.

Lemma strings_name_no_file_witness : exists m1 m2,
  syscall 2 0x400000 0 0 0 0 machine = Ret (Ok (syscall_core.err_result (-2)), m1) /\
  syscall 80 0x400000 0 0 0 0 machine = Ret (Ok (syscall_core.err_result (-7)), m2).
Proof.
  apply (strings_name_no_file (fun _ => None) [] (fun _ : RamDisk => 0) machine program fd_spec.hello 0x400000 (str "/h"));
    [|reflexivity| |vm_compute; reflexivity|vm_compute; reflexivity|vm_compute; lia|vm_compute; reflexivity].
  - split; [reflexivity|]. split; [apply (bool_decide_unpack _); vm_compute; exact I|].
    intros i Hi. do 3 (destruct i as [|i]; [vm_compute; reflexivity|]). vm_compute in Hi. lia.
  - apply (bool_decide_unpack _); vm_compute; exact I.
Defined.

Lemma machine_polled a ps : (0 < length ps <= 64)%nat -> 0x400000 <= a -> Forall poll_typed ps ->
  peek_bytes page_memory 4096 a (8 * length ps) = Ret (concat (poll_bytes <$> ps)) -> polled (kernel machine) program a ps.
Proof. intros Hl Ha Hp Hm. by constructor; [| | |lia|]. Qed.

(** The same program with a pipe as descriptors 5 and 6, into which [bytes] were written, and an
    entry for [poll] that asks for input from it. *)
Definition piped (bytes : list Z) : list pipe.Pipe := sched_spec.or_else (pipe.alloc pipe.PIPES).2 (snd <$> pipe.write (pipe.alloc pipe.PIPES).2 81 bytes).
Definition pipe_program : Task := set_fd_table program (<[6%nat := Some (raw_entry Pipe 81 true)]> (<[5%nat := Some (raw_entry Pipe 80 false)]> (fd_table program))).
Definition poll_memory : Z -> Z -> option Z := fun c a =>
  if (c =? 4096) && (0x400000 <=? a) && (a <? 0x401000) then Some (default 0 (poll_bytes (mkPoll 5 1 0) !! Z.to_nat (a - 0x400000))) else None.
Definition pipe_machine (bytes : list Z) : Machine (W := Z -> Z -> option Z) (D := RamDisk) (S := unit) :=
  let k := kernel machine in
  mkMachine (mkKernel (set_syscall_ctx (sched.set_pipes (set_um (set_tasks boot (<[0%nat := pipe_program]> (tasks boot))) poll_memory) (piped bytes)) (Some (ctx program)))
    (files k) (term k) (keys k) (stats k)) tt 0.

Lemma piped_ok bytes : pipe.wf_table (piped bytes) /\ exists p, piped bytes !! 0%nat = Some p /\ pipe.read_open p = true.
Proof.
  destruct (pipe_spec.refines_all (pipe.alloc pipe.PIPES).2 (pipe_spec.Write 81 bytes) pipe_spec.wf_one_alloc) as (ps & E & Hwf & Habs).
  cbn [pipe_spec.run] in E. apply bind_Ret in E as ([r ps'] & E & [= _ ->]). unfold piped. rewrite E. cbn [fmap outcome_fmap sched_spec.or_else snd]. split; [done|].
  apply (f_equal (fun l => pipe_spec.ropen <$> l !! 0%nat)) in Habs. rewrite list_lookup_fmap in Habs. cbn [pipe_spec.step] in Habs.
  unfold pipe_spec.on_end in Habs. change (pipe_spec.decode 81) with (Some (0%nat, pipe_spec.WriteEnd)) in Habs. cbn in Habs.
  destruct (ps !! 0%nat) as [p|]; [|done]. exists p. split; [done|]. by injection Habs as ->.
Qed.

Lemma machine_descriptors bytes : descriptors (kernel (pipe_machine bytes)) pipe_program.
Proof.
  destruct (piped_ok bytes) as (Hwf & p & Hp & Ho). constructor; [reflexivity|exact Hwf| |].
  - destruct (stdin.push_spec stdin.boot stdin.wf_boot 65) as (s' & Hs & Hwf' & _). change (keys (kernel (pipe_machine bytes))) with (sched_spec.or_else stdin.boot (stdin.push 65 stdin.boot)). by rewrite Hs.
  - intros fd e Hfd Hb. do 5 (destruct fd as [|fd]; [vm_compute in Hfd; try discriminate Hfd; injection Hfd as <-; discriminate Hb|]).
    destruct fd as [|fd]; [|destruct fd as [|fd]]; [vm_compute in Hfd; injection Hfd as <-..|].
    + exists 0%nat, pipe_spec.ReadEnd. split; [reflexivity|]. split; [reflexivity|]. by exists p.
    + exists 0%nat, pipe_spec.WriteEnd. by split.
    + do 26 (destruct fd as [|fd]; [vm_compute in Hfd; discriminate Hfd|]). vm_compute in Hfd. destruct fd; discriminate Hfd.
Qed.


Lemma poll_timeout_aborts_the_kernel_witness : syscall 7 0x400018 1 i64_max 0 0 machine = Panic.
Proof.
  apply (poll_timeout_aborts_the_kernel (fun _ => None) [] (fun _ : RamDisk => 0) machine program 0x400018 [mkPoll (-1) 1 0] [0] i64_max);
    [|constructor; [vm_compute; reflexivity|constructor]|vm_compute; reflexivity|vm_compute; split; (reflexivity || discriminate)].
  apply machine_polled; [vm_compute; lia|lia| |vm_compute; reflexivity].
  constructor; [|constructor]; vm_compute; repeat split; discriminate.
Defined.

Lemma getdents_gives_the_next_entries_witness : exists k' bytes,
  getdents64_impl 4 (syscall_core.mkSlice 0x400100 64) (kernel machine) = Ret (24, k') /\
  peek_bytes (um (kst k')) 4096 0x400100 24 = Ret bytes /\ parse_dirents 24 bytes = [(8, [104])].
Proof.
  destruct (getdents_gives_the_next_entries (kernel machine) program 4 dir_entry [104; 10] (files (kernel machine)) 0x400100 64)
    as (k' & pos & told & rest & bytes & e' & H1 & H2 & H3 & H4 & _ & H6).
  - constructor; [reflexivity|vm_compute; lia|reflexivity|reflexivity| |apply (bool_decide_unpack _); vm_compute; exact I|vm_compute; lia].
    eexists _, _. split; [reflexivity|]. split; [reflexivity|]. split; vm_compute; reflexivity.
  - vm_compute. split; [discriminate|reflexivity].
  - apply page_mapped; vm_compute; discriminate.
  - assert (Hc : fst <$> getdents64_impl 4 (syscall_core.mkSlice 0x400100 64) (kernel machine) = Ret 24) by (vm_compute; reflexivity).
    change (Z.of_nat 4) with 4 in H1. change (Z.of_nat 64) with 64 in H1. rewrite H1 in Hc. injection Hc as Hpos. assert (pos = 24%nat) as -> by lia.
    change (split 10 (drop (Z.to_nat (offset dir_entry)) [104; 10])) with [[104]; []] in H2.
    assert (rest = [] /\ told = [[104]; []]) as [-> ->].
    { destruct told as [|l1 [|l2 told]]; cbn [app] in H2.
      - subst rest. exfalso. destruct H6 as [H6 _]. vm_compute in H6. lia.
      - injection H2 as <- <-. exfalso. destruct H6 as [H6 _]. vm_compute in H6. lia.
      - injection H2 as <- <- E. symmetry in E. by apply app_nil in E as [-> ->]. }
    exists k', bytes. split; [exact H1|]. split; [exact H3|exact H4].
Defined.

(** The queue holds a key, and descriptor 0 is not open. *)
Lemma stdin_never_reads_the_keyboard_witness : exists m',
  syscall_core.dispatch (H := @dispatch_spec.recording _ (kernel_runtime (fun _ => None) [] (fun _ : RamDisk => 0)))
    (syscall_core.mkRequest 0 0 0x400100 4 0 0) (machine, []) =
  Ret (Ok (syscall_core.err_result (-9)), (m', [syscall_core.fs_read 0 (syscall_core.mkSlice 0x400100 4)])) /\
  stdin.available (keys (kernel m')) = 1%nat.
Proof.
  destruct (returns_Ret (KernelRuntime (fun _ => None) [] (fun _ : RamDisk => 0) (syscall_core.fs_read 0 (syscall_core.mkSlice 0x400100 4)) machine))
    as [[r m'] E]; [vm_compute; reflexivity|].
  assert (Hc : (fun x => (fst x, stdin.available (keys (kernel (snd x))))) <$> KernelRuntime (fun _ => None) [] (fun _ : RamDisk => 0) (syscall_core.fs_read 0 (syscall_core.mkSlice 0x400100 4)) machine = Ret (Ok fs.EBADF, 1%nat))
    by (vm_compute; reflexivity).
  rewrite E in Hc. injection Hc as -> Hk. exists m'. split; [|exact Hk].
  apply (dispatch_spec.stdin_never_reads_the_keyboard machine m' [] 0x400100 4); [discriminate|vm_compute; reflexivity|exact E].
Defined.
End runtime_spec.
