(* ===== verification/WindowManager.v ===== *)
(** * The window manager (kernel/src/gui/window_manager.rs, gui/widgets.rs)

    Module [window_manager] translates the table of windows, the stacking order, and
    what clicks, drags and the context menu do to them; drawing is left out. An index
    out of range and an overflow of the unsigned coordinates are [Panic]. *)

From stdpp Require Import base list gmap strings list_numbers sorting.
From Stdlib Require Import ZArith Lia.
From S2P Require Import Prelude FdTable.

Local Open Scope Z_scope.

Module window_manager.

(* @src src/kernel/src/gui/window_manager.rs 8-14 MAX_WINDOWS *)
Definition MAX_WINDOWS : nat := 16.
Definition TASKBAR_HEIGHT : Z := 48.
Definition TITLEBAR_H : Z := 34.
Definition RESIZE_ZONE : Z := 8.
Definition MIN_WIN_W : Z := 200.
Definition MIN_WIN_H : Z := 100.

(** Digits of a number below 100. *)
Definition two_digits (n : Z) : list Z := [48 + wrap 8 (n / 10); 48 + wrap 8 (n mod 10)].
(* @src src/kernel/src/gui/window_manager.rs 18-31 format_uptime *)
Definition format_uptime (ticks : Z) : list Z :=
  let total_secs := ticks / 100 in
  two_digits (total_secs / 3600 mod 100) ++ [58] ++ two_digits (total_secs / 60 mod 60) ++ [58] ++ two_digits (total_secs mod 60).

Definition TASKBAR_ITEM_WIDTH : Z := 150.
Definition TASKBAR_ITEM_SPACING : Z := 5.

(* @src src/kernel/src/gui/window_manager.rs 35-42 WindowState *)
Inductive WindowState := Normal | Minimized | Maximized | SnappedLeft | SnappedRight.
#[export] Instance WindowState_eq_dec : EqDecision WindowState.
Proof. solve_decision. Defined.

(* @src src/kernel/src/gui/graphics.rs 25-43 BackgroundStyle *)
Inductive BackgroundStyle := Default | Sunset | Space | Aurora | Geometric | Image | ImageDark | ImageBluePandas | ImageDarkRabbit | ImagePandasLight.

(* @src src/kernel/src/gui/widgets.rs 15-24 Window *)
Record Window := mkWindow { x : Z; y : Z; width : Z; height : Z; title : list Z; bg_color : Z; visible : bool; has_close_button : bool }.
(** [surface] is the background colour, which the colour crate computes. *)
(* @src src/kernel/src/gui/widgets.rs 27-34 Window::new *)
Definition new_window (surface : Z) (x y width height : Z) (title : list Z) : Window := mkWindow x y width height title surface true true.
Definition place (w : Window) (x y width height : Z) : Window := mkWindow x y width height (title w) (bg_color w) (visible w) (has_close_button w).
Definition geometry (w : Window) : Z * Z * Z * Z := (x w, y w, width w, height w).

(* @src src/kernel/src/gui/window_manager.rs 44-72 WindowManager *)
Record WindowManager := mkWM {
  windows : list (option Window);
  window_states : list WindowState;
  saved_positions : list (Z * Z * Z * Z);
  z_order : list nat;
  window_count : nat;
  focused_window : option nat;
  dragging_window : option nat;
  drag_offset_x : Z;
  drag_offset_y : Z;
  screen_width : Z;
  screen_height : Z;
  context_menu_visible : bool;
  context_menu_x : Z;
  context_menu_y : Z;
  background_style : BackgroundStyle;
  last_closed_window : option nat;
  clock_was_clicked : bool;
  resizing_window : option nat;
  resize_edge : Z;
  resize_start_mx : Z;
  resize_start_my : Z;
  resize_start_w : Z;
  resize_start_h : Z;
}.

Definition set_windows (m : WindowManager) x : WindowManager := mkWM x (window_states m) (saved_positions m) (z_order m) (window_count m) (focused_window m) (dragging_window m) (drag_offset_x m) (drag_offset_y m) (screen_width m) (screen_height m) (context_menu_visible m) (context_menu_x m) (context_menu_y m) (background_style m) (last_closed_window m) (clock_was_clicked m) (resizing_window m) (resize_edge m) (resize_start_mx m) (resize_start_my m) (resize_start_w m) (resize_start_h m).
Definition set_window_states (m : WindowManager) x : WindowManager := mkWM (windows m) x (saved_positions m) (z_order m) (window_count m) (focused_window m) (dragging_window m) (drag_offset_x m) (drag_offset_y m) (screen_width m) (screen_height m) (context_menu_visible m) (context_menu_x m) (context_menu_y m) (background_style m) (last_closed_window m) (clock_was_clicked m) (resizing_window m) (resize_edge m) (resize_start_mx m) (resize_start_my m) (resize_start_w m) (resize_start_h m).
Definition set_saved_positions (m : WindowManager) x : WindowManager := mkWM (windows m) (window_states m) x (z_order m) (window_count m) (focused_window m) (dragging_window m) (drag_offset_x m) (drag_offset_y m) (screen_width m) (screen_height m) (context_menu_visible m) (context_menu_x m) (context_menu_y m) (background_style m) (last_closed_window m) (clock_was_clicked m) (resizing_window m) (resize_edge m) (resize_start_mx m) (resize_start_my m) (resize_start_w m) (resize_start_h m).
Definition set_z_order (m : WindowManager) x : WindowManager := mkWM (windows m) (window_states m) (saved_positions m) x (window_count m) (focused_window m) (dragging_window m) (drag_offset_x m) (drag_offset_y m) (screen_width m) (screen_height m) (context_menu_visible m) (context_menu_x m) (context_menu_y m) (background_style m) (last_closed_window m) (clock_was_clicked m) (resizing_window m) (resize_edge m) (resize_start_mx m) (resize_start_my m) (resize_start_w m) (resize_start_h m).
Definition set_window_count (m : WindowManager) x : WindowManager := mkWM (windows m) (window_states m) (saved_positions m) (z_order m) x (focused_window m) (dragging_window m) (drag_offset_x m) (drag_offset_y m) (screen_width m) (screen_height m) (context_menu_visible m) (context_menu_x m) (context_menu_y m) (background_style m) (last_closed_window m) (clock_was_clicked m) (resizing_window m) (resize_edge m) (resize_start_mx m) (resize_start_my m) (resize_start_w m) (resize_start_h m).
Definition set_focused_window (m : WindowManager) x : WindowManager := mkWM (windows m) (window_states m) (saved_positions m) (z_order m) (window_count m) x (dragging_window m) (drag_offset_x m) (drag_offset_y m) (screen_width m) (screen_height m) (context_menu_visible m) (context_menu_x m) (context_menu_y m) (background_style m) (last_closed_window m) (clock_was_clicked m) (resizing_window m) (resize_edge m) (resize_start_mx m) (resize_start_my m) (resize_start_w m) (resize_start_h m).
Definition set_dragging_window (m : WindowManager) x : WindowManager := mkWM (windows m) (window_states m) (saved_positions m) (z_order m) (window_count m) (focused_window m) x (drag_offset_x m) (drag_offset_y m) (screen_width m) (screen_height m) (context_menu_visible m) (context_menu_x m) (context_menu_y m) (background_style m) (last_closed_window m) (clock_was_clicked m) (resizing_window m) (resize_edge m) (resize_start_mx m) (resize_start_my m) (resize_start_w m) (resize_start_h m).
Definition set_last_closed_window (m : WindowManager) x : WindowManager := mkWM (windows m) (window_states m) (saved_positions m) (z_order m) (window_count m) (focused_window m) (dragging_window m) (drag_offset_x m) (drag_offset_y m) (screen_width m) (screen_height m) (context_menu_visible m) (context_menu_x m) (context_menu_y m) (background_style m) x (clock_was_clicked m) (resizing_window m) (resize_edge m) (resize_start_mx m) (resize_start_my m) (resize_start_w m) (resize_start_h m).
Definition set_clock_was_clicked (m : WindowManager) x : WindowManager := mkWM (windows m) (window_states m) (saved_positions m) (z_order m) (window_count m) (focused_window m) (dragging_window m) (drag_offset_x m) (drag_offset_y m) (screen_width m) (screen_height m) (context_menu_visible m) (context_menu_x m) (context_menu_y m) (background_style m) (last_closed_window m) x (resizing_window m) (resize_edge m) (resize_start_mx m) (resize_start_my m) (resize_start_w m) (resize_start_h m).
Definition set_resizing_window (m : WindowManager) x : WindowManager := mkWM (windows m) (window_states m) (saved_positions m) (z_order m) (window_count m) (focused_window m) (dragging_window m) (drag_offset_x m) (drag_offset_y m) (screen_width m) (screen_height m) (context_menu_visible m) (context_menu_x m) (context_menu_y m) (background_style m) (last_closed_window m) (clock_was_clicked m) x (resize_edge m) (resize_start_mx m) (resize_start_my m) (resize_start_w m) (resize_start_h m).
Definition set_context_menu_visible (m : WindowManager) x : WindowManager := mkWM (windows m) (window_states m) (saved_positions m) (z_order m) (window_count m) (focused_window m) (dragging_window m) (drag_offset_x m) (drag_offset_y m) (screen_width m) (screen_height m) x (context_menu_x m) (context_menu_y m) (background_style m) (last_closed_window m) (clock_was_clicked m) (resizing_window m) (resize_edge m) (resize_start_mx m) (resize_start_my m) (resize_start_w m) (resize_start_h m).
Definition set_background_style (m : WindowManager) x : WindowManager := mkWM (windows m) (window_states m) (saved_positions m) (z_order m) (window_count m) (focused_window m) (dragging_window m) (drag_offset_x m) (drag_offset_y m) (screen_width m) (screen_height m) (context_menu_visible m) (context_menu_x m) (context_menu_y m) x (last_closed_window m) (clock_was_clicked m) (resizing_window m) (resize_edge m) (resize_start_mx m) (resize_start_my m) (resize_start_w m) (resize_start_h m).
Definition set_drag (m : WindowManager) (id : nat) (ox oy : Z) : WindowManager :=
  mkWM (windows m) (window_states m) (saved_positions m) (z_order m) (window_count m) (focused_window m) (Some id) ox oy (screen_width m) (screen_height m)
    (context_menu_visible m) (context_menu_x m) (context_menu_y m) (background_style m) (last_closed_window m) (clock_was_clicked m)
    (resizing_window m) (resize_edge m) (resize_start_mx m) (resize_start_my m) (resize_start_w m) (resize_start_h m).
Definition set_resize (m : WindowManager) (id : nat) (edge mx my w h : Z) : WindowManager :=
  mkWM (windows m) (window_states m) (saved_positions m) (z_order m) (window_count m) (focused_window m) (dragging_window m) (drag_offset_x m) (drag_offset_y m)
    (screen_width m) (screen_height m) (context_menu_visible m) (context_menu_x m) (context_menu_y m) (background_style m) (last_closed_window m)
    (clock_was_clicked m) (Some id) edge mx my w h.
Definition set_menu (m : WindowManager) (mx my : Z) : WindowManager :=
  mkWM (windows m) (window_states m) (saved_positions m) (z_order m) (window_count m) (focused_window m) (dragging_window m) (drag_offset_x m) (drag_offset_y m)
    (screen_width m) (screen_height m) true mx my (background_style m) (last_closed_window m) (clock_was_clicked m)
    (resizing_window m) (resize_edge m) (resize_start_mx m) (resize_start_my m) (resize_start_w m) (resize_start_h m).

(* @src src/kernel/src/gui/window_manager.rs 116-119 set_screen_dimensions *)
Definition set_screen_dimensions (w h : Z) (m : WindowManager) : WindowManager :=
  mkWM (windows m) (window_states m) (saved_positions m) (z_order m) (window_count m) (focused_window m) (dragging_window m) (drag_offset_x m) (drag_offset_y m)
    w h (context_menu_visible m) (context_menu_x m) (context_menu_y m) (background_style m) (last_closed_window m) (clock_was_clicked m)
    (resizing_window m) (resize_edge m) (resize_start_mx m) (resize_start_my m) (resize_start_w m) (resize_start_h m).

(* @src src/kernel/src/gui/window_manager.rs 75-101 WindowManager::new *)
Definition new : WindowManager :=
  mkWM (replicate MAX_WINDOWS None) (replicate MAX_WINDOWS Normal) (replicate MAX_WINDOWS (0, 0, 0, 0)) (replicate MAX_WINDOWS 0%nat) 0 None None 0 0 1280 800
    false 0 0 Default None false None 0 0 0 0 0.

(* @src src/kernel/src/gui/window_manager.rs 104-108 take_clock_click *)
Definition take_clock_click (m : WindowManager) : bool * WindowManager := (clock_was_clicked m, set_clock_was_clicked m false).
(* @src src/kernel/src/gui/window_manager.rs 112-114 take_closed_window *)
Definition take_closed_window (m : WindowManager) : option nat * WindowManager := (last_closed_window m, set_last_closed_window m None).
(* @src src/kernel/src/gui/window_manager.rs 537-539 z_order_slice *)
Definition z_order_slice (m : WindowManager) : outcome (list nat) := slice (z_order m) 0 (window_count m).
(* @src src/kernel/src/gui/window_manager.rs 985-987 get_background_style *)
Definition get_background_style (m : WindowManager) : BackgroundStyle := background_style m.
(* @src src/kernel/src/gui/window_manager.rs 989-995 get_window *)
Definition get_window (id : nat) (m : WindowManager) : outcome (option Window) := if (id <? MAX_WINDOWS)%nat then idx (windows m) id else Ret None.
(* @src src/kernel/src/gui/window_manager.rs 1005-1007 get_focused *)
Definition get_focused (m : WindowManager) : option nat := focused_window m.
(* @src src/kernel/src/gui/window_manager.rs 1009-1011 set_focused *)
Definition set_focused (id : option nat) (m : WindowManager) : WindowManager := set_focused_window m id.
(* @src src/kernel/src/gui/window_manager.rs 1013-1019 is_window_visible *)
Definition is_window_visible (id : nat) (m : WindowManager) : outcome bool :=
  if (MAX_WINDOWS <=? id)%nat then Ret false
  else
    let! w := idx (windows m) id in
    match w with
    | None => Ret false
    | Some w => if visible w then (let! s := idx (window_states m) id in Ret (negb (bool_decide (s = Minimized)))) else Ret false
    end.
(* @src src/kernel/src/gui/window_manager.rs 1021-1023 is_dragging *)
Definition is_dragging (m : WindowManager) : bool := bool_decide (is_Some (dragging_window m)) || bool_decide (is_Some (resizing_window m)).
(* @src src/kernel/src/gui/window_manager.rs 1025-1027 get_screen_dimensions *)
Definition get_screen_dimensions (m : WindowManager) : Z * Z := (screen_width m, screen_height m).

(** ** The stacking order *)

(** [for i in i..i + n { if z_order[i] == id { return i } }] *)
(* @src src/kernel/src/gui/window_manager.rs 157-163 remove_window (search) *)
Fixpoint find_z (z : list nat) (id i n : nat) : outcome (option nat) :=
  match n with
  | O => Ret None
  | S n' => let! v := idx z i in if (v =? id)%nat then Ret (Some i) else find_z z id (S i) n'
  end.
(** [for i in i..i + n { z_order[i] = z_order[i + 1] }] *)
(* @src src/kernel/src/gui/window_manager.rs 165-168 remove_window (shift) *)
Fixpoint shift_down (z : list nat) (i n : nat) : outcome (list nat) :=
  match n with
  | O => Ret z
  | S n' => let! v := idx z (S i) in let! z := set_idx z i v in shift_down z (S i) n'
  end.

Definition is_none {A} (o : option A) : bool := match o with None => true | Some _ => false end.
(* @src src/kernel/src/gui/window_manager.rs 151-153 remove_window (guard) *)
Definition no_window (id : nat) (m : WindowManager) : outcome bool :=
  if (MAX_WINDOWS <=? id)%nat then Ret true else let! w := idx (windows m) id in Ret (is_none w).

(** The first empty slot from [i] on. *)
(* @src src/kernel/src/gui/window_manager.rs 129-148 add_window (loop) *)
Fixpoint add_loop (w : Window) (m : WindowManager) (i n : nat) : outcome (option nat * WindowManager) :=
  match n with
  | O => Ret (None, m)
  | S n' =>
    let! slot := idx (windows m) i in
    if is_none slot then
      let! ws := set_idx (windows m) i (Some w) in
      let! ss := set_idx (window_states m) i Normal in
      let! z := set_idx (z_order m) (window_count m) i in
      let m := set_z_order (set_window_states (set_windows m ws) ss) z in
      Ret (Some i, set_focused_window (set_window_count m (window_count m + 1)) (Some i))
    else add_loop w m (S i) n'
  end.
(* @src src/kernel/src/gui/window_manager.rs 121-148 add_window *)
Definition add_window (w : Window) (m : WindowManager) : outcome (option nat * WindowManager) :=
  if (MAX_WINDOWS <=? window_count m)%nat then Ret (None, m) else add_loop w m 0 MAX_WINDOWS.

(* @src src/kernel/src/gui/window_manager.rs 157-170 remove_window (stack) *)
Definition unstack (id : nat) (m : WindowManager) : outcome WindowManager :=
  let! found := find_z (z_order m) id 0 (window_count m) in
  match found with
  | None => Ret m
  | Some i => let! z := shift_down (z_order m) i (window_count m - 1 - i) in Ret (set_window_count (set_z_order m z) (window_count m - 1))
  end.
(* @src src/kernel/src/gui/window_manager.rs 172-178 remove_window (focus) *)
Definition focus_top (m : WindowManager) : outcome WindowManager :=
  if (0 <? window_count m)%nat then let! t := idx (z_order m) (window_count m - 1) in Ret (set_focused_window m (Some t))
  else Ret (set_focused_window m None).
(* @src src/kernel/src/gui/window_manager.rs 150-183 remove_window *)
Definition remove_window (id : nat) (m : WindowManager) : outcome WindowManager :=
  let! none := no_window id m in
  if none : bool then Ret m
  else
    let! ws := set_idx (windows m) id None in
    let! m := unstack id (set_windows m ws) in
    let! m := (if bool_decide (focused_window m = Some id) then focus_top m else Ret m) in
    Ret (if bool_decide (dragging_window m = Some id) then set_dragging_window m None else m).

(** [for i in (0..n).rev()]: the topmost window other than [id] that is not minimized. *)
(* @src src/kernel/src/gui/window_manager.rs 196-202 minimize_window (loop) *)
Fixpoint next_focus (z : list nat) (states : list WindowState) (id n : nat) : outcome (option nat) :=
  match n with
  | O => Ret None
  | S n' =>
    let! v := idx z n' in
    if (v =? id)%nat then next_focus z states id n'
    else let! s := idx states v in if bool_decide (s = Minimized) then next_focus z states id n' else Ret (Some v)
  end.
(* @src src/kernel/src/gui/window_manager.rs 185-210 minimize_window *)
Definition minimize_window (id : nat) (m : WindowManager) : outcome WindowManager :=
  let! none := no_window id m in
  if none : bool then Ret m
  else
    let! ss := set_idx (window_states m) id Minimized in
    let m := set_window_states m ss in
    if bool_decide (focused_window m = Some id) then
      let! f := next_focus (z_order m) (window_states m) id (window_count m) in Ret (set_focused_window m f)
    else Ret m.

(** Move the window in slot [id] and give it a state. *)
(* @src src/kernel/src/gui/window_manager.rs 226-230 maximize_window (move) *)
Definition move_window (id : nat) (w : Window) (s : WindowState) (m : WindowManager) : outcome WindowManager :=
  let! ws := set_idx (windows m) id (Some w) in
  let! ss := set_idx (window_states m) id s in
  Ret (set_window_states (set_windows m ws) ss).
(* @src src/kernel/src/gui/window_manager.rs 225-225 maximize_window (save) *)
Definition save_position (id : nat) (w : Window) (m : WindowManager) : outcome WindowManager :=
  let! sp := set_idx (saved_positions m) id (geometry w) in Ret (set_saved_positions m sp).
(* @src src/kernel/src/gui/window_manager.rs 212-235 maximize_window *)
Definition maximize_window (id : nat) (m : WindowManager) : outcome WindowManager :=
  if (MAX_WINDOWS <=? id)%nat then Ret m
  else
    let! w := idx (windows m) id in
    match w with
    | None => Ret m
    | Some w =>
      let! s := idx (window_states m) id in
      match s with
      | Maximized | SnappedLeft | SnappedRight =>
        let! p := idx (saved_positions m) id in
        let '(px, py, pw, ph) := p in
        move_window id (place w px py pw ph) Normal m
      | _ =>
        let! m := save_position id w m in
        move_window id (place w 0 TASKBAR_HEIGHT (screen_width m) (sat_sub (screen_height m) TASKBAR_HEIGHT)) Maximized m
      end
    end.

(* @src src/kernel/src/gui/window_manager.rs 279-304 bring_to_front *)
Definition bring_to_front (id : nat) (m : WindowManager) : outcome WindowManager :=
  let! none := no_window id m in
  if none : bool then Ret m
  else
    let! found := find_z (z_order m) id 0 (window_count m) in
    match found with
    | None => Ret m
    | Some pos =>
      if (pos =? window_count m - 1)%nat then Ret m
      else
        let! z := shift_down (z_order m) pos (window_count m - 1 - pos) in
        let! z := set_idx z (window_count m - 1) id in
        Ret (set_focused_window (set_z_order m z) (Some id))
    end.

(* @src src/kernel/src/gui/window_manager.rs 237-251 restore_window *)
Definition restore_window (id : nat) (m : WindowManager) : outcome WindowManager :=
  if (MAX_WINDOWS <=? id)%nat then Ret m
  else
    let! s := idx (window_states m) id in
    match s with
    | Minimized => let! ss := set_idx (window_states m) id Normal in bring_to_front id (set_window_states m ss)
    | Maximized | SnappedLeft | SnappedRight => maximize_window id m
    | Normal => Ret m
    end.

(** Save the window's place and give it the half of the screen that starts at [left]. *)
(* @src src/kernel/src/gui/window_manager.rs 254-264 snap_left *)
Definition snap (left : Z) (s : WindowState) (id : nat) (m : WindowManager) : outcome WindowManager :=
  if (MAX_WINDOWS <=? id)%nat then Ret m
  else
    let! w := idx (windows m) id in
    match w with
    | None => Ret m
    | Some w =>
      let! m := save_position id w m in
      move_window id (place w left TASKBAR_HEIGHT (screen_width m / 2) (sat_sub (screen_height m) TASKBAR_HEIGHT)) s m
    end.
(* @src src/kernel/src/gui/window_manager.rs 254-264 snap_left *)
Definition snap_left (id : nat) (m : WindowManager) : outcome WindowManager := snap 0 SnappedLeft id m.
(* @src src/kernel/src/gui/window_manager.rs 267-277 snap_right *)
Definition snap_right (id : nat) (m : WindowManager) : outcome WindowManager := snap (screen_width m / 2) SnappedRight id m.

(** ** The mouse *)

Definition uadd (a b : Z) : outcome Z := cadd u64_max a b.
(** [a as i64 - b], the difference checked *)
Definition sub_i64 (a b : Z) : outcome Z := fdtable.cadd_i64 (swrap 64 a) (- b).
Definition both (a b : outcome bool) : outcome bool := let! x := a in if x : bool then b else Ret false.
(** [p >= lo && p < lo + size] *)
Definition within (p lo size : Z) : outcome bool := if lo <=? p then let! hi := uadd lo size in Ret (p <? hi) else Ret false.

Definition BTN_SIZE : Z := 14.
Definition BTN_CLOSE_OX : Z := 10.
Definition BTN_MIN_OX : Z := 28.
Definition BTN_MAX_OX : Z := 46.
(* @src src/kernel/src/gui/window_manager.rs 625-632 btn_by (buttons) *)
Definition btn_by (w : Window) : outcome Z := uadd (y w) ((TITLEBAR_H - BTN_SIZE) / 2).
Definition button_clicked (ox : Z) (w : Window) (mx my : Z) : outcome bool :=
  let! bx := uadd (x w) ox in
  let! by_ := btn_by w in
  both (within mx bx BTN_SIZE) (within my by_ BTN_SIZE).
(* @src src/kernel/src/gui/window_manager.rs 468-473 is_close_button_clicked *)
Definition is_close_button_clicked : Window -> Z -> Z -> outcome bool := button_clicked BTN_CLOSE_OX.
(* @src src/kernel/src/gui/window_manager.rs 475-480 is_minimize_button_clicked *)
Definition is_minimize_button_clicked : Window -> Z -> Z -> outcome bool := button_clicked BTN_MIN_OX.
(* @src src/kernel/src/gui/window_manager.rs 482-487 is_maximize_button_clicked *)
Definition is_maximize_button_clicked : Window -> Z -> Z -> outcome bool := button_clicked BTN_MAX_OX.
(* @src src/kernel/src/gui/widgets.rs 87-90 Window::is_titlebar_clicked *)
Definition is_titlebar_clicked (w : Window) (mx my : Z) : outcome bool :=
  if negb (visible w) then Ret false else both (within mx (x w) (width w)) (within my (y w) 30).
(** [p >= lo + size.saturating_sub(RESIZE_ZONE) && p < lo + size + RESIZE_ZONE] *)
Definition near_edge (p lo size : Z) : outcome bool :=
  let! a := uadd lo (sat_sub size RESIZE_ZONE) in
  if a <=? p then let! e := uadd lo size in let! e := uadd e RESIZE_ZONE in Ret (p <? e) else Ret false.
(* @src src/kernel/src/gui/window_manager.rs 307-321 detect_resize_edge *)
Definition detect_resize_edge (w : Window) (mx my : Z) : outcome Z :=
  let! on_right := near_edge mx (x w) (width w) in
  let! on_bottom := near_edge my (y w) (height w) in
  if mx <? x w then Ret 0
  else
    let! t := uadd (y w) TITLEBAR_H in
    if my <? t then Ret 0
    else Ret (match on_right, on_bottom with true, true => 3 | true, false => 1 | false, true => 2 | false, false => 0 end).
Definition covers (w : Window) (mx my : Z) : outcome bool := both (within mx (x w) (width w)) (within my (y w) (height w)).

(** What part of a window a click hit. *)
Inductive hit := HClose | HMaximize | HMinimize | HResize (edge : Z) | HTitlebar (ox oy : Z) | HBody.
(* @src src/kernel/src/gui/window_manager.rs 346-390 handle_click (one window) *)
Definition hit_window (w : Window) (s : WindowState) (mx my : Z) : outcome (option hit) :=
  let! c := is_close_button_clicked w mx my in
  if c : bool then Ret (Some HClose) else
  let! c := is_maximize_button_clicked w mx my in
  if c : bool then Ret (Some HMaximize) else
  let! c := is_minimize_button_clicked w mx my in
  if c : bool then Ret (Some HMinimize) else
  let! e := (if bool_decide (s = Normal) then detect_resize_edge w mx my else Ret 0) in
  if 0 <? e then Ret (Some (HResize e)) else
  let! c := is_titlebar_clicked w mx my in
  if c : bool then
    let! ox := sub_i64 mx (swrap 64 (x w)) in
    let! oy := sub_i64 my (swrap 64 (y w)) in
    Ret (Some (HTitlebar ox oy))
  else
    let! c := covers w mx my in
    Ret (if c : bool then Some HBody else None).
(** [for i in (0..n).rev()]: the topmost window that is hit. *)
(* @src src/kernel/src/gui/window_manager.rs 339-392 handle_click (loop) *)
Fixpoint hit_test (m : WindowManager) (mx my : Z) (n : nat) : outcome (option (nat * hit)) :=
  match n with
  | O => Ret None
  | S n' =>
    let! id := idx (z_order m) n' in
    let! s := idx (window_states m) id in
    if bool_decide (s = Minimized) then hit_test m mx my n'
    else
      let! w := idx (windows m) id in
      match w with
      | None => hit_test m mx my n'
      | Some w =>
        if negb (visible w) then hit_test m mx my n'
        else
          let! h := hit_window w s mx my in
          match h with Some h => Ret (Some (id, h)) | None => hit_test m mx my n' end
      end
  end.
(* @src src/kernel/src/gui/window_manager.rs 394-428 handle_click (action) *)
Definition act (id : nat) (h : hit) (mx my : Z) (m : WindowManager) : outcome WindowManager :=
  match h with
  | HClose => remove_window id (set_last_closed_window m (Some id))
  | HMaximize => maximize_window id m
  | HMinimize => minimize_window id m
  | HResize edge =>
    let! m := bring_to_front id m in
    let! w := idx (windows m) id in
    match w with
    | Some w => Ret (set_resize m id edge (swrap 64 mx) (swrap 64 my) (width w) (height w))
    | None => Ret m
    end
  | HTitlebar ox oy =>
    let! m := bring_to_front id m in
    let! s := idx (window_states m) id in
    if bool_decide (s = Maximized) then Ret m
    else
      let! m := (match s with SnappedLeft | SnappedRight => restore_window id m | _ => Ret m end) in
      Ret (set_drag m id ox oy)
  | HBody => bring_to_front id m
  end.

Definition CLOCK_PILL_W : Z := 90 + 24.
(* @src src/kernel/src/gui/window_manager.rs 447-465 handle_taskbar_click (loop) *)
Fixpoint taskbar_items (m : WindowManager) (mx : Z) (i n : nat) : outcome (bool * WindowManager) :=
  match n with
  | O => Ret (false, m)
  | S n' =>
    let! id := idx (z_order m) i in
    let item_x := 158 + Z.of_nat i * (TASKBAR_ITEM_WIDTH + TASKBAR_ITEM_SPACING) in
    if (item_x <=? mx) && (mx <? item_x + TASKBAR_ITEM_WIDTH) then
      let! s := idx (window_states m) id in
      let! m :=
        (if bool_decide (s = Minimized) then restore_window id m
         else if bool_decide (focused_window m = Some id) then minimize_window id m else bring_to_front id m) in
      Ret (true, m)
    else taskbar_items m mx (S i) n'
  end.
(* @src src/kernel/src/gui/window_manager.rs 436-466 handle_taskbar_click *)
Definition handle_taskbar_click (mx : Z) (m : WindowManager) : outcome (bool * WindowManager) :=
  let clock_pill_x := sat_sub (screen_width m) CLOCK_PILL_W / 2 in
  if (clock_pill_x <=? mx) && (mx <? clock_pill_x + CLOCK_PILL_W) then Ret (true, set_clock_was_clicked m true)
  else taskbar_items m mx 0 (window_count m).
(* @src src/kernel/src/gui/window_manager.rs 323-434 handle_click *)
Definition handle_click (mx my : Z) (m : WindowManager) : outcome (bool * WindowManager) :=
  if my <? TASKBAR_HEIGHT then handle_taskbar_click mx m
  else
    let! r := hit_test m mx my (window_count m) in
    match r with
    | Some (id, h) => let! m := act id h mx my m in Ret (true, m)
    | None => Ret (false, m)
    end.

(* @src src/kernel/src/gui/window_manager.rs 494-502 handle_drag (resize) *)
Definition resize_to (dx dy : Z) (m : WindowManager) (w : Window) : outcome Window :=
  let edge := resize_edge m in
  let! nw := (if (edge =? 1) || (edge =? 3) then let! v := fdtable.cadd_i64 (swrap 64 (resize_start_w m)) dx in Ret (wrap 64 (Z.max v MIN_WIN_W)) else Ret (width w)) in
  let! nh := (if (edge =? 2) || (edge =? 3) then let! v := fdtable.cadd_i64 (swrap 64 (resize_start_h m)) dy in Ret (wrap 64 (Z.max v MIN_WIN_H)) else Ret (height w)) in
  Ret (place w (x w) (y w) nw nh).
(* @src src/kernel/src/gui/window_manager.rs 489-511 handle_drag *)
Definition handle_drag (mx my : Z) (m : WindowManager) : outcome WindowManager :=
  match resizing_window m with
  | Some id =>
    let! dx := sub_i64 mx (resize_start_mx m) in
    let! dy := sub_i64 my (resize_start_my m) in
    let! w := idx (windows m) id in
    match w with
    | None => Ret m
    | Some w => let! w := resize_to dx dy m w in let! ws := set_idx (windows m) id (Some w) in Ret (set_windows m ws)
    end
  | None =>
    match dragging_window m with
    | None => Ret m
    | Some id =>
      let! w := idx (windows m) id in
      match w with
      | None => Ret m
      | Some w =>
        let! vx := sub_i64 mx (drag_offset_x m) in
        let! vy := sub_i64 my (drag_offset_y m) in
        let! ws := set_idx (windows m) id (Some (place w (wrap 64 (Z.max vx 0)) (wrap 64 (Z.max vy TASKBAR_HEIGHT)) (width w) (height w))) in
        Ret (set_windows m ws)
      end
    end
  end.

Definition SNAP_EDGE : Z := 20.
(* @src src/kernel/src/gui/window_manager.rs 520-529 release_drag (edges) *)
Definition snap_edges (id : nat) (m : WindowManager) : outcome WindowManager :=
  let! w := idx (windows m) id in
  match w with
  | None => Ret m
  | Some w =>
    if x w <=? SNAP_EDGE then snap_left id m
    else
      let! r := uadd (x w) (width w) in
      let! r := uadd r SNAP_EDGE in
      if screen_width m <=? r then snap_right id m else Ret m
  end.
(* @src src/kernel/src/gui/window_manager.rs 513-535 release_drag *)
Definition release_drag (m : WindowManager) : outcome WindowManager :=
  match resizing_window m with
  | Some _ => Ret (set_resizing_window m None)
  | None =>
    match dragging_window m with
    | None => Ret m
    | Some id =>
      let! s := idx (window_states m) id in
      let! m := (if bool_decide (s = Normal) then snap_edges id m else Ret m) in
      Ret (set_dragging_window m None)
    end
  end.

(** ** The context menu *)

Definition MENU_W : Z := 210.
Definition MENU_H : Z := 26 + 18 + 5 * 24 + 18 + 5 * 24.
(* @src src/kernel/src/gui/window_manager.rs 794-806 handle_right_click (loop) *)
Fixpoint on_window (m : WindowManager) (mx my : Z) (n : nat) : outcome bool :=
  match n with
  | O => Ret false
  | S n' =>
    let! id := idx (z_order m) n' in
    let! s := idx (window_states m) id in
    if bool_decide (s = Minimized) then on_window m mx my n'
    else
      let! w := idx (windows m) id in
      match w with
      | None => on_window m mx my n'
      | Some w => let! c := (if visible w then covers w mx my else Ret false) in if c : bool then Ret true else on_window m mx my n'
      end
  end.
(** The menu's corner on one axis: moved back so that the menu fits. *)
(* @src src/kernel/src/gui/window_manager.rs 811-820 handle_right_click (corner) *)
Definition menu_corner (p size screen : Z) : outcome Z := let! e := uadd p size in Ret (if screen <? e then sat_sub screen size else p).
(* @src src/kernel/src/gui/window_manager.rs 792-824 handle_right_click *)
Definition handle_right_click (mx my : Z) (m : WindowManager) : outcome WindowManager :=
  let! hit := on_window m mx my (window_count m) in
  if hit : bool then Ret (set_context_menu_visible m false)
  else
    let! cx := menu_corner mx MENU_W (screen_width m) in
    let! cy := menu_corner my MENU_H (screen_height m) in
    Ret (set_menu m cx cy).

Definition ITEM_H : Z := 24.
Definition HEADER_H : Z := 26.
Definition SECTION_H : Z := 18.
Definition procedural : list BackgroundStyle := [Default; Sunset; Space; Aurora; Geometric].
Definition images : list BackgroundStyle := [Image; ImageDark; ImageBluePandas; ImageDarkRabbit; ImagePandasLight].
(** The style of the item [rel_y] pixels below the header, if any. *)
(* @src src/kernel/src/gui/window_manager.rs 848-884 handle_context_menu_click (items) *)
Definition menu_item (rel_y : Z) : option BackgroundStyle :=
  let sec_a_start := SECTION_H in
  let sec_a_end := SECTION_H + 5 * ITEM_H in
  let sec_b_start := sec_a_end + SECTION_H in
  let sec_b_end := sec_b_start + 5 * ITEM_H in
  if (sec_a_start <=? rel_y) && (rel_y <? sec_a_end) then procedural !! Z.to_nat ((rel_y - sec_a_start) / ITEM_H)
  else if (sec_b_start <=? rel_y) && (rel_y <? sec_b_end) then images !! Z.to_nat ((rel_y - sec_b_start) / ITEM_H)
  else None.
(* @src src/kernel/src/gui/window_manager.rs 828-886 handle_context_menu_click *)
Definition handle_context_menu_click (mx my : Z) (m : WindowManager) : outcome (bool * WindowManager) :=
  if negb (context_menu_visible m) then Ret (false, m)
  else
    let! inside := both (within mx (context_menu_x m) MENU_W) (within my (context_menu_y m) MENU_H) in
    let m := set_context_menu_visible m false in
    if negb inside then Ret (false, m)
    else
      let! top := uadd (context_menu_y m) HEADER_H in
      Ret (true, match menu_item (sat_sub my top) with Some s => set_background_style m s | None => m end).

End window_manager.
