(* ===== verification/WmSpec.v ===== *)
(** * Properties of the window manager

    Module [wm_spec] proves that no sequence of events makes the window manager
    abort and that its stacking order lists the open windows once each, that the
    operations on the order are those of a list, that a click goes to the topmost
    window it hits, and how the window's geometry survives maximizing and snapping. *)

From stdpp Require Import base list gmap strings list_numbers sorting.
From Stdlib Require Import ZArith Lia.
From S2P Require Import Prelude FdTable WindowManager.

Local Open Scope Z_scope.

Module wm_spec.
Import window_manager.

(** ** Lists *)

Lemma find_z_spec z id i n : (i + n <= length z)%nat ->
  find_z z id i n = Ret (Nat.add i <$> position (fun v => (v =? id)%nat) (take n (drop i z))).
Proof.
  revert i. induction n as [|n IH]; intros i Hl; [done|]. cbn [find_z].
  destruct (idx_lt z i ltac:(lia)) as (v & -> & Hv). cbn [mbind outcome_mbind].
  rewrite (drop_S z v i Hv). cbn [take position]. destruct (Nat.eqb_spec v id).
  - cbn. f_equal. f_equal. lia.
  - rewrite IH by lia. f_equal. destruct (position _ _); cbn; [f_equal; lia|done].
Qed.

Lemma shift_down_spec z i n : (i + n < length z)%nat ->
  shift_down z i n = Ret (take i z ++ take n (drop (S i) z) ++ drop (i + n) z).
Proof.
  revert z i. induction n as [|n IH]; intros z i Hl; cbn [shift_down].
  { by rewrite Nat.add_0_r, take_0, app_nil_l, take_drop. }
  destruct (idx_lt z (S i) ltac:(lia)) as (v & -> & Hv). cbn [mbind outcome_mbind].
  rewrite set_idx_lt by lia. cbn [mbind outcome_mbind]. rewrite IH by len_lia. f_equal.
  rewrite (take_S_r _ _ v) by (by rewrite list_lookup_insert_eq by lia). rewrite take_insert_ge by lia.
  rewrite !drop_insert_lt by lia. rewrite (drop_S z v (S i) Hv). cbn [take]. rewrite <- app_assoc. cbn. do 4 f_equal. lia.
Qed.

Lemma delete_filter (l : list nat) i id : NoDup l -> l !! i = Some id -> delete i l = filter (.≠ id) l.
Proof.
  revert i. induction l as [|a l IH]; intros i Hn Hi; [done|]. apply NoDup_cons in Hn as [Ha Hn]. rewrite filter_cons. destruct i as [|i]; cbn in *.
  - injection Hi as ->. rewrite decide_False by (intros H; by apply H). symmetry. clear IH Hn.
    induction l as [|b l IH]; [done|]. rewrite filter_cons, decide_True by set_solver. f_equal. apply IH. set_solver.
  - rewrite decide_True; [f_equal; by apply IH|]. intros ->. apply Ha. by apply list_elem_of_lookup_2 in Hi.
Qed.

Lemma filter_not_in (l : list nat) id : id ∉ l -> filter (.≠ id) l = l.
Proof. induction l as [|a l IH]; intros H; [done|]. rewrite filter_cons, decide_True by set_solver. f_equal. apply IH. set_solver. Qed.

(** ** The stacking order *)

Definition stack (m : WindowManager) : list nat := take (window_count m) (z_order m).
#[local] Arguments stack : simpl never.
Definition is_open (m : WindowManager) (id : nat) : Prop := exists w, windows m !! id = Some (Some w).

(** The order after a window is raised. *)
Definition raise (id : nat) (s : list nat) : list nat := filter (.≠ id) s ++ [id].

(** Coordinates the manager can produce from 32-bit mouse positions. *)
Definition LIM : Z := u32_max.
Definition fits (v : Z) : Prop := 0 <= v <= LIM + 208.
Definition point (v : Z) : Prop := 0 <= v <= LIM.
Definition small (w : Window) : Prop := fits (x w) /\ fits (y w) /\ fits (width w) /\ fits (height w).
Definition small_place (p : Z * Z * Z * Z) : Prop := let '(a, b, c, d) := p in fits a /\ fits b /\ fits c /\ fits d.

Record wf (m : WindowManager) : Prop := {
  wf_windows : length (windows m) = MAX_WINDOWS;
  wf_states : length (window_states m) = MAX_WINDOWS;
  wf_saved : length (saved_positions m) = MAX_WINDOWS;
  wf_z : length (z_order m) = MAX_WINDOWS;
  wf_count : (window_count m <= MAX_WINDOWS)%nat;
  wf_nodup : NoDup (stack m);
  wf_open id : id ∈ stack m <-> is_open m id;
}.

(** What a started resize remembers. *)
Definition resize_sane (m : WindowManager) : Prop :=
  point (resize_start_mx m) /\ point (resize_start_my m) /\ fits (resize_start_w m) /\ fits (resize_start_h m) /\
  (resize_edge m = 1 \/ resize_edge m = 3 -> resize_start_w m <= resize_start_mx m + 8) /\
  (resize_edge m = 2 \/ resize_edge m = 3 -> resize_start_h m <= resize_start_my m + 8).
Record sane (m : WindowManager) : Prop := {
  sane_windows id w : windows m !! id = Some (Some w) -> small w;
  sane_saved : Forall small_place (saved_positions m);
  sane_screen : point (screen_width m) /\ point (screen_height m);
  sane_drag id : dragging_window m = Some id -> (id < MAX_WINDOWS)%nat /\ point (drag_offset_x m) /\ point (drag_offset_y m);
  sane_resize id : resizing_window m = Some id -> (id < MAX_WINDOWS)%nat /\ resize_sane m;
  sane_menu : point (context_menu_x m) /\ point (context_menu_y m);
}.
Definition good (m : WindowManager) : Prop := wf m /\ sane m.

Lemma stack_lt m id : wf m -> is_open m id -> (id < MAX_WINDOWS)%nat.
Proof. intros W [w Hw]. apply lookup_lt_Some in Hw. by rewrite <- (wf_windows m W). Qed.

Lemma length_stack m : wf m -> length (stack m) = window_count m.
Proof. intros W. unfold stack. rewrite length_take, (wf_z m W). pose proof (wf_count m W). lia. Qed.

Lemma no_window_spec m id : wf m ->
  (no_window id m = Ret false /\ is_open m id) \/ (no_window id m = Ret true /\ ~ is_open m id).
Proof.
  intros W. unfold no_window. destruct (Nat.leb_spec MAX_WINDOWS id).
  - right. split; [done|]. intros O. pose proof (stack_lt m id W O). lia.
  - destruct (idx_lt (windows m) id) as (w & -> & Hw); [by rewrite (wf_windows m W)|]. cbn. destruct w as [w|]; cbn.
    + left. split; [done|]. by exists w.
    + right. split; [done|]. intros [w Hw']. congruence.
Qed.

Lemma find_stack m id : wf m ->
  find_z (z_order m) id 0 (window_count m) = Ret (position (fun v => (v =? id)%nat) (stack m)).
Proof.
  intros W. rewrite find_z_spec by (rewrite (wf_z m W); apply (wf_count m W)). rewrite drop_0. f_equal.
  change (take (window_count m) (z_order m)) with (stack m). by destruct (position _ _).
Qed.

Lemma position_stack (s : list nat) id : id ∈ s -> exists i, position (fun v => (v =? id)%nat) s = Some i /\ s !! i = Some id.
Proof.
  intros H. destruct (position _ s) as [i|] eqn:E.
  - exists i. split; [done|]. apply position_Some in E as (v & Hv & He & _). apply Nat.eqb_eq in He. by subst v.
  - apply list_elem_of_lookup in H as [i Hi]. rewrite position_None in E. specialize (E i id Hi). by rewrite Nat.eqb_refl in E.
Qed.

(** Taking the window at position [i] out of the order. *)
Lemma shift_stack m i : wf m -> (i < window_count m)%nat ->
  exists z, shift_down (z_order m) i (window_count m - 1 - i) = Ret z /\ length z = MAX_WINDOWS /\
    take (window_count m - 1) z = delete i (stack m).
Proof.
  intros W Hi. pose proof (wf_count m W). pose proof (wf_z m W) as Hz. eexists. split; [apply shift_down_spec; lia|]. split.
  - rewrite !length_app, !length_take, !length_drop. lia.
  - rewrite app_assoc, take_app_length' by (rewrite length_app, !length_take, length_drop; lia).
    unfold stack. rewrite delete_take_drop, take_take, Nat.min_l by lia. f_equal.
    rewrite skipn_firstn_comm. f_equal. lia.
Qed.

(** ** Fields that can be set freely *)

Ltac good_field := intros [[] []]; split; constructor; (assumption || done).

Lemma good_focus m f : good m -> good (set_focused_window m f).
Proof. good_field. Qed.
Lemma good_closed m f : good m -> good (set_last_closed_window m f).
Proof. good_field. Qed.
Lemma good_clock m b : good m -> good (set_clock_was_clicked m b).
Proof. good_field. Qed.
Lemma good_style m b : good m -> good (set_background_style m b).
Proof. good_field. Qed.
Lemma good_menu_hidden m b : good m -> good (set_context_menu_visible m b).
Proof. good_field. Qed.
Lemma good_menu m a b : good m -> point a -> point b -> good (set_menu m a b).
Proof. intros [[] []] ? ?. split; constructor; (assumption || done). Qed.
Lemma good_no_drag m : good m -> good (set_dragging_window m None).
Proof. good_field. Qed.
Lemma good_no_resize m : good m -> good (set_resizing_window m None).
Proof. good_field. Qed.
Lemma good_screen m a b : good m -> point a -> point b -> good (set_screen_dimensions a b m).
Proof. intros [[] []] ? ?. split; constructor; (assumption || done). Qed.
Lemma good_states m ss : good m -> length ss = MAX_WINDOWS -> good (set_window_states m ss).
Proof. intros [[] []] ?. split; constructor; (assumption || done). Qed.
Lemma good_drag m id a b : good m -> (id < MAX_WINDOWS)%nat -> point a -> point b -> good (set_drag m id a b).
Proof. intros [[] []] ? ? ?. split; constructor; try (assumption || done). cbn. by intros ? [= <-]. Qed.
Lemma good_saved m id p : good m -> small_place p -> good (set_saved_positions m (<[id := p]> (saved_positions m))).
Proof.
  intros [[] []] ?. split; constructor; try (assumption || done); cbn.
  - by rewrite length_insert.
  - by apply Forall_insert.
Qed.
Lemma good_stack m z n : good m -> length z = MAX_WINDOWS -> (n <= MAX_WINDOWS)%nat -> NoDup (take n z) ->
  (forall id, id ∈ take n z <-> is_open m id) -> good (set_window_count (set_z_order m z) n).
Proof. intros [[] []] ? ? ? ?. split; constructor; (assumption || done). Qed.

(** Another window in a slot that has one. *)
Lemma good_windows m id w : good m -> is_open m id -> small w -> good (set_windows m (<[id := Some w]> (windows m))).
Proof.
  intros [[] []] [w0 Hw0] Hs. pose proof (lookup_lt_Some _ _ _ Hw0). split; constructor; try (assumption || done); cbn.
  - by rewrite length_insert.
  - intros j. change (stack (set_windows _ _)) with (stack m). rewrite wf_open0. unfold is_open. cbn.
    destruct (decide (j = id)) as [->|]; [rewrite list_lookup_insert_eq by done|by rewrite list_lookup_insert_ne]. naive_solver.
  - intros j v. destruct (decide (j = id)) as [->|]; [rewrite list_lookup_insert_eq by done; by intros [= <-]|].
    rewrite list_lookup_insert_ne by done. apply sane_windows0.
Qed.

(** ** What each operation does to the order *)

Definition open_dec m id : {w | windows m !! id = Some (Some w)} + {~ is_open m id}.
Proof.
  destruct (windows m !! id) as [[w|]|] eqn:E; [left; by exists w|right; intros [w Hw]; congruence..].
Defined.

Lemma is_open_stack m id : good m -> is_open m id <-> id ∈ stack m.
Proof. intros [W _]. by rewrite (wf_open m W). Qed.

(** Raising the window moves it to the end of the order. *)
Lemma bring_to_front_ok m id : good m ->
  exists m', bring_to_front id m = Ret m' /\ good m' /\ windows m' = windows m /\ window_states m' = window_states m /\
    stack m' = (if decide (id ∈ stack m) then raise id (stack m) else stack m).
Proof.
  intros G. pose proof G as [W _]. unfold bring_to_front. destruct (no_window_spec m id W) as [[-> O]|[-> O]]; cbn [mbind outcome_mbind].
  2: { exists m. split_and!; try done. rewrite <- (wf_open m W) in O. by rewrite decide_False. }
  rewrite (find_stack m id W). apply (wf_open m W) in O. destruct (position_stack _ _ O) as (i & -> & Hi). cbn [mbind outcome_mbind].
  rewrite decide_True by done. pose proof (length_stack m W) as Hl. pose proof (lookup_lt_Some _ _ _ Hi). rewrite Hl in *.
  pose proof (delete_filter _ _ _ (wf_nodup m W) Hi) as Hd. destruct (Nat.eqb_spec i (window_count m - 1)) as [Hlast|Hlast].
  - exists m. split_and!; try done. unfold raise. rewrite <- Hd. rewrite delete_take_drop, (drop_ge _ (S i)) by lia.
    rewrite app_nil_r, <- (take_S_r _ _ id) by done. rewrite take_ge by lia. done.
  - destruct (shift_stack m i W ltac:(lia)) as (z & -> & Hz & Ht). cbn [mbind outcome_mbind]. pose proof (wf_count m W).
    rewrite set_idx_lt by lia. cbn [mbind outcome_mbind].
    assert (take (window_count m) (<[(window_count m - 1)%nat := id]> z) = raise id (stack m)) as Hs.
    { replace (window_count m) with (S (window_count m - 1)) at 1 by lia.
      rewrite (take_S_r _ _ id) by (apply list_lookup_insert_eq; lia). rewrite take_insert_ge by lia. unfold raise. by rewrite Ht, Hd. }
    eexists. split; [done|]. split_and!; try done. refine (good_focus _ _ (good_stack m (<[(window_count m - 1)%nat := id]> z) (window_count m) G _ _ _ _)); [by rewrite length_insert|done|rewrite Hs; unfold raise..].
    + apply NoDup_app. split_and!; [apply NoDup_filter, W| |apply NoDup_singleton].
      intros j [Hj _]%list_elem_of_filter. by rewrite list_elem_of_singleton.
    + intros j. rewrite <- (wf_open m W), elem_of_app, list_elem_of_singleton, list_elem_of_filter. destruct (decide (j = id)); naive_solver.
Qed.

(** A window given up its slot and its place in the order. *)
Lemma good_closed_slot m id i z : good m -> stack m !! i = Some id ->
  length z = MAX_WINDOWS -> take (window_count m - 1) z = delete i (stack m) ->
  good (set_window_count (set_z_order (set_windows m (<[id := None]> (windows m))) z) (window_count m - 1)).
Proof.
  intros G Hi Hz Ht. pose proof G as [W _]. pose proof (delete_filter _ _ _ (wf_nodup m W) Hi) as Hd.
  assert (id ∈ stack m) as Hin by (by apply list_elem_of_lookup_2 in Hi). apply (wf_open m W) in Hin as [w0 Hw0]. pose proof (lookup_lt_Some _ _ _ Hw0).
  assert (forall j w, (<[id := None]> (windows m)) !! j = Some (Some w) <-> j <> id /\ windows m !! j = Some (Some w)) as Hlook.
  { intros j w. destruct (decide (j = id)) as [->|]; [rewrite list_lookup_insert_eq by done|rewrite list_lookup_insert_ne by done]; naive_solver. }
  destruct G as [[] []]. split; constructor; try (assumption || done); unfold stack; cbn.
  - by rewrite length_insert.
  - lia.
  - rewrite Ht, Hd. by apply NoDup_filter.
  - intros j. rewrite Ht, Hd, list_elem_of_filter, wf_open0. unfold is_open. cbn. setoid_rewrite Hlook. naive_solver.
  - intros j w [_ Hw]%Hlook. by apply (sane_windows0 j).
Qed.

Lemma focus_top_ok m : good m -> exists f, focus_top m = Ret (set_focused_window m f).
Proof.
  intros [W _]. unfold focus_top. destruct (Nat.ltb_spec 0 (window_count m)); [|by eexists].
  destruct (idx_lt (z_order m) (window_count m - 1)) as (t & -> & _); [rewrite (wf_z m W); pose proof (wf_count m W); lia|]. by eexists.
Qed.

(** Closing takes the window out of the order and out of its slot. *)
Lemma remove_window_ok m id : good m ->
  exists m', remove_window id m = Ret m' /\ good m' /\ stack m' = filter (.≠ id) (stack m) /\
    (is_open m id -> windows m' = <[id := None]> (windows m)) /\ (~ is_open m id -> m' = m).
Proof.
  intros G. pose proof G as [W _]. unfold remove_window. destruct (no_window_spec m id W) as [[-> O]|[-> O]]; cbn [mbind outcome_mbind].
  2: { exists m. split_and!; try done. rewrite filter_not_in; [done|]. by rewrite (wf_open m W). }
  rewrite set_idx_lt by (rewrite (wf_windows m W); by apply (stack_lt m)). cbn [mbind outcome_mbind]. unfold unstack.
  change (z_order (set_windows _ _)) with (z_order m). change (window_count (set_windows _ _)) with (window_count m). rewrite (find_stack m id W).
  apply (wf_open m W) in O as Hin. destruct (position_stack _ _ Hin) as (i & -> & Hi). cbn [mbind outcome_mbind].
  pose proof (lookup_lt_Some _ _ _ Hi) as Hlt. rewrite (length_stack m W) in Hlt. destruct (shift_stack m i W Hlt) as (z & -> & Hz & Ht). cbn [mbind outcome_mbind].
  pose proof (good_closed_slot m id i z G Hi Hz Ht) as G2. set (m2 := set_window_count _ _) in G2 |- *.
  assert (stack m2 = filter (.≠ id) (stack m)) as Hs by (unfold stack at 1; cbn; rewrite Ht; exact (delete_filter _ _ _ (wf_nodup m W) Hi)).
  assert (exists f, (if bool_decide (focused_window m2 = Some id) then focus_top m2 else Ret m2) = Ret (set_focused_window m2 f)) as [f ->].
  { case_bool_decide; [by apply focus_top_ok|]. exists (focused_window m2). by destruct m2. }
  cbn [mbind outcome_mbind]. eexists. split; [done|]. split_and!.
  - case_bool_decide; [apply good_no_drag|]; by apply good_focus.
  - by case_bool_decide.
  - by case_bool_decide.
  - done.
Qed.

(** The manager after [w] took the empty slot [i]. *)
Definition added (m : WindowManager) (i : nat) (w : Window) : WindowManager :=
  set_focused_window (set_window_count (set_z_order (set_window_states (set_windows m (<[i := Some w]> (windows m))) (<[i := Normal]> (window_states m)))
    (<[window_count m := i]> (z_order m))) (window_count m + 1)) (Some i).

Lemma add_loop_spec w m i n : wf m -> (window_count m < MAX_WINDOWS)%nat -> (i + n = MAX_WINDOWS)%nat -> (forall j, (j < i)%nat -> is_open m j) ->
  (exists k, add_loop w m i n = Ret (Some k, added m k w) /\ windows m !! k = Some None /\ forall j, (j < k)%nat -> is_open m j) \/
  (add_loop w m i n = Ret (None, m) /\ forall j, (j < MAX_WINDOWS)%nat -> is_open m j).
Proof.
  intros W Hc. revert i. induction n as [|n IH]; intros i Hn Hj; cbn [add_loop].
  { right. split; [done|]. replace MAX_WINDOWS with i by lia. done. }
  destruct (idx_lt (windows m) i) as (s & -> & Hs); [rewrite (wf_windows m W); lia|]. cbn [mbind outcome_mbind]. destruct s as [v|]; cbn [is_none].
  - apply IH; [lia|]. intros j ?. destruct (decide (j = i)) as [->|]; [by exists v|]. apply Hj. lia.
  - left. exists i. split; [|done]. rewrite !set_idx_lt; cbn; rewrite ?(wf_windows m W), ?(wf_states m W), ?(wf_z m W); try lia. done.
Qed.

Lemma good_added m i w : good m -> small w -> windows m !! i = Some None -> (window_count m < MAX_WINDOWS)%nat ->
  good (added m i w) /\ stack (added m i w) = stack m ++ [i].
Proof.
  intros G Hsm Hi Hc. pose proof G as [W _]. pose proof (lookup_lt_Some _ _ _ Hi).
  assert (stack (added m i w) = stack m ++ [i]) as Hs.
  { unfold stack, added. cbn. rewrite Nat.add_1_r, (take_S_r _ _ i) by (apply list_lookup_insert_eq; by rewrite (wf_z m W)). by rewrite take_insert_ge. }
  assert (i ∉ stack m) as Hni by (rewrite (wf_open m W); intros [v Hv]; congruence).
  split; [|done]. destruct G as [[] []]. split; constructor; try (assumption || done); cbn; rewrite ?length_insert; try done; try lia.
  - rewrite Hs. apply NoDup_app. split_and!; [done| |apply NoDup_singleton]. intros j Hj. rewrite list_elem_of_singleton. by intros ->.
  - intros j. rewrite Hs, elem_of_app, list_elem_of_singleton, wf_open0. unfold is_open. cbn.
    destruct (decide (j = i)) as [->|]; [rewrite list_lookup_insert_eq by done|rewrite list_lookup_insert_ne by done]; naive_solver.
  - intros j v. destruct (decide (j = i)) as [->|]; [rewrite list_lookup_insert_eq by done; by intros [= <-]|].
    rewrite list_lookup_insert_ne by done. apply sane_windows0.
Qed.

(** A new window takes the lowest empty slot and the top of the order; there is one while fewer than sixteen are open. *)
Lemma add_window_ok m w : good m -> small w ->
  (exists i, add_window w m = Ret (Some i, added m i w) /\ good (added m i w) /\ stack (added m i w) = stack m ++ [i] /\
     windows m !! i = Some None /\ forall j, (j < i)%nat -> is_open m j) \/
  (add_window w m = Ret (None, m) /\ window_count m = MAX_WINDOWS).
Proof.
  intros G Hsm. pose proof G as [W _]. pose proof (wf_count m W). unfold add_window. destruct (Nat.leb_spec MAX_WINDOWS (window_count m)) as [|Hc].
  { right. split; [done|lia]. }
  destruct (add_loop_spec w m 0 MAX_WINDOWS W Hc) as [(i & E & Hi & Hlow)|[E Hall]]; [done|intros; lia| |].
  - left. exists i. destruct (good_added m i w G Hsm Hi Hc). done.
  - exfalso. assert (seq 0 MAX_WINDOWS ⊆+ stack m) as Hsub.
    { apply NoDup_submseteq; [apply NoDup_seq|]. intros j Hj%elem_of_seq. apply (wf_open m W), Hall. lia. }
    apply submseteq_length in Hsub. rewrite length_seq, (length_stack m W) in Hsub. lia.
Qed.

(** ** States and geometry *)

Lemma next_focus_ok m ss id n : wf m -> length ss = MAX_WINDOWS -> (n <= window_count m)%nat -> exists f, next_focus (z_order m) ss id n = Ret f.
Proof.
  intros W Hss. induction n as [|n IH]; intros Hn; cbn [next_focus]; [by eexists|].
  destruct (lookup_lt_is_Some_2 (stack m) n) as [v Hv]; [rewrite (length_stack m W); lia|].
  assert (is_open m v) as Ov by (apply (wf_open m W); by apply list_elem_of_lookup_2 in Hv).
  unfold stack in Hv. rewrite lookup_take_lt in Hv by lia. rewrite (proj2 (idx_Ret _ _ _) Hv). cbn [mbind outcome_mbind].
  destruct (v =? id)%nat; [apply IH; lia|].
  destruct (idx_lt ss v) as (s & -> & _); [rewrite Hss; by apply (stack_lt m)|]. cbn [mbind outcome_mbind].
  case_bool_decide; [apply IH; lia|by eexists].
Qed.

Lemma minimize_window_ok m id : good m ->
  exists m', minimize_window id m = Ret m' /\ good m' /\ stack m' = stack m /\ windows m' = windows m.
Proof.
  intros G. pose proof G as [W _]. unfold minimize_window. destruct (no_window_spec m id W) as [[-> O]|[-> O]]; cbn [mbind outcome_mbind]; [|by exists m].
  pose proof (stack_lt m id W O). rewrite set_idx_lt by (by rewrite (wf_states m W)). cbn [mbind outcome_mbind].
  assert (length (<[id := Minimized]> (window_states m)) = MAX_WINDOWS) as Hss by (by rewrite length_insert, (wf_states m W)).
  pose proof (good_states m _ G Hss) as G2. case_bool_decide; [|by eexists].
  destruct (next_focus_ok m _ id (window_count m) W Hss) as [f Hf]; [done|]. cbn [z_order window_states set_window_states window_count]. rewrite Hf. cbn.
  eexists. split; [done|]. split; [by apply good_focus|done].
Qed.

Lemma small_geometry w : small w -> small_place (geometry w).
Proof. done. Qed.

Lemma saved_at m id : good m -> (id < MAX_WINDOWS)%nat -> exists p, idx (saved_positions m) id = Ret p /\ small_place p.
Proof.
  intros [W SN] Hid. destruct (idx_lt (saved_positions m) id) as (p & E & Hp); [by rewrite (wf_saved m W)|].
  exists p. split; [done|]. by apply (Forall_lookup_1 _ _ _ _ (sane_saved m SN) Hp).
Qed.

(** The state after a window moved. *)
Definition moved (m : WindowManager) (id : nat) (w : Window) (s : WindowState) : WindowManager :=
  set_window_states (set_windows m (<[id := Some w]> (windows m))) (<[id := s]> (window_states m)).
Definition remembered (m : WindowManager) (id : nat) (w : Window) : WindowManager :=
  set_saved_positions m (<[id := geometry w]> (saved_positions m)).

Lemma move_window_ok m id w s : good m -> is_open m id -> small w ->
  move_window id w s m = Ret (moved m id w s) /\ good (moved m id w s).
Proof.
  intros G O Hs. pose proof G as [W _]. pose proof (stack_lt m id W O). unfold move_window.
  rewrite !set_idx_lt by (by rewrite ?(wf_windows m W), ?(wf_states m W)). cbn [mbind outcome_mbind].
  split; [done|]. apply good_states; [by apply good_windows|]. cbn. by rewrite length_insert, (wf_states m W).
Qed.

Lemma save_position_ok m id w : good m -> (id < MAX_WINDOWS)%nat -> small w ->
  save_position id w m = Ret (remembered m id w) /\ good (remembered m id w).
Proof.
  intros G Hid Hs. pose proof G as [W _]. unfold save_position. rewrite set_idx_lt by (by rewrite (wf_saved m W)). split; [done|].
  by apply good_saved.
Qed.

(** The whole screen below the taskbar, and its left and right half. *)
Definition full_screen (m : WindowManager) (w : Window) : Window := place w 0 TASKBAR_HEIGHT (screen_width m) (sat_sub (screen_height m) TASKBAR_HEIGHT).
Definition half_screen (m : WindowManager) (left : Z) (w : Window) : Window := place w left TASKBAR_HEIGHT (screen_width m / 2) (sat_sub (screen_height m) TASKBAR_HEIGHT).
Definition placed (w : Window) (p : Z * Z * Z * Z) : Window := let '(a, b, c, d) := p in place w a b c d.

Lemma small_full_screen m w : good m -> small (full_screen m w).
Proof. intros [_ SN]. destruct (sane_screen m SN). unfold small, fits, point, full_screen, sat_sub, TASKBAR_HEIGHT, LIM, u32_max in *. cbn. lia. Qed.
Lemma small_half_screen m w l : good m -> point l -> small (half_screen m l w).
Proof.
  intros [_ SN] Hl. destruct (sane_screen m SN). pose proof (Z.div_le_upper_bound (screen_width m) 2 (screen_width m)). pose proof (Z.div_pos (screen_width m) 2).
  unfold small, fits, point, half_screen, sat_sub, TASKBAR_HEIGHT, LIM, u32_max in *. cbn. lia.
Qed.
Lemma small_placed w p : small_place p -> small (placed w p).
Proof. destruct p as [[[a b] c] d]. done. Qed.

(** Taking up the saved place, from a state that has one. *)
Definition enlarged (s : WindowState) : bool := match s with Maximized | SnappedLeft | SnappedRight => true | _ => false end.

(** Maximizing: a window in its own place takes the screen and remembers its place, another returns to it. *)
Lemma maximize_window_at m id w s : good m -> windows m !! id = Some (Some w) -> window_states m !! id = Some s ->
  exists m', maximize_window id m = Ret m' /\ good m' /\ stack m' = stack m /\
    (if enlarged s then exists p, saved_positions m !! id = Some p /\ m' = moved m id (placed w p) Normal
     else m' = moved (remembered m id w) id (full_screen m w) Maximized).
Proof.
  intros G Hw Hst. pose proof G as [W SN]. assert (is_open m id) as O by (by exists w). pose proof (stack_lt m id W O) as Hid.
  unfold maximize_window. rewrite (proj2 (Nat.leb_gt _ _) Hid), (proj2 (idx_Ret _ _ _) Hw), (proj2 (idx_Ret _ _ _) Hst). cbn [mbind outcome_mbind].
  destruct (saved_at m id G Hid) as ([[[a b] c] d] & Hp & Hsp). pose proof (sane_windows m SN id w Hw) as Hsm.
  destruct (save_position_ok m id w G Hid Hsm) as [-> G1].
  destruct (move_window_ok (remembered m id w) id (full_screen m w) Maximized G1 O (small_full_screen m w G)) as [E2 G2].
  destruct (move_window_ok m id (placed w (a, b, c, d)) Normal G O (small_placed w _ Hsp)) as [E3 G3].
  destruct s; cbn [enlarged mbind outcome_mbind]; [by exists (moved (remembered m id w) id (full_screen m w) Maximized)..| | |]; rewrite Hp; cbn [mbind outcome_mbind];
    apply idx_Ret in Hp; exists (moved m id (placed w (a, b, c, d)) Normal); split_and!; try done; by exists (a, b, c, d).
Qed.

Lemma state_at m id : wf m -> (id < MAX_WINDOWS)%nat -> exists s, window_states m !! id = Some s /\ idx (window_states m) id = Ret s.
Proof. intros W Hid. destruct (idx_lt (window_states m) id) as (s & E & Hs); [by rewrite (wf_states m W)|by exists s]. Qed.
Lemma window_at m id : wf m -> (id < MAX_WINDOWS)%nat -> exists w, windows m !! id = Some w /\ idx (windows m) id = Ret w.
Proof. intros W Hid. destruct (idx_lt (windows m) id) as (s & E & Hs); [by rewrite (wf_windows m W)|by exists s]. Qed.

Lemma maximize_window_ok m id : good m -> exists m', maximize_window id m = Ret m' /\ good m' /\ stack m' = stack m.
Proof.
  intros G. pose proof G as [W _]. destruct (Nat.leb_spec MAX_WINDOWS id) as [Hid|Hid].
  - exists m. unfold maximize_window. by rewrite (proj2 (Nat.leb_le _ _) Hid).
  - destruct (state_at m id W Hid) as (s & Hs & _). destruct (window_at m id W Hid) as ([w|] & Hw & E).
    + destruct (maximize_window_at m id w s G Hw Hs) as (m' & ? & ? & ? & _). by exists m'.
    + exists m. unfold maximize_window. by rewrite (proj2 (Nat.leb_gt _ _) Hid), E.
Qed.

(** Snapping: the place is remembered and the window takes half the screen. *)
Lemma snap_at m l s id w : good m -> point l -> windows m !! id = Some (Some w) ->
  snap l s id m = Ret (moved (remembered m id w) id (half_screen m l w) s) /\ good (moved (remembered m id w) id (half_screen m l w) s).
Proof.
  intros G Hl Hw. pose proof G as [W SN]. assert (is_open m id) as O by (by exists w). pose proof (stack_lt m id W O) as Hid.
  unfold snap. rewrite (proj2 (Nat.leb_gt _ _) Hid), (proj2 (idx_Ret _ _ _) Hw). cbn [mbind outcome_mbind].
  destruct (save_position_ok m id w G Hid (sane_windows m SN id w Hw)) as [-> G1]. cbn [mbind outcome_mbind].
  exact (move_window_ok (remembered m id w) id (half_screen m l w) s G1 O (small_half_screen m w l G Hl)).
Qed.

Lemma snap_ok m l s id : good m -> point l -> exists m', snap l s id m = Ret m' /\ good m' /\ stack m' = stack m.
Proof.
  intros G Hl. pose proof G as [W _]. destruct (Nat.leb_spec MAX_WINDOWS id) as [Hid|Hid].
  - exists m. unfold snap. by rewrite (proj2 (Nat.leb_le _ _) Hid).
  - destruct (window_at m id W Hid) as ([w|] & Hw & E).
    + destruct (snap_at m l s id w G Hl Hw). by eexists.
    + exists m. unfold snap. by rewrite (proj2 (Nat.leb_gt _ _) Hid), E.
Qed.

Lemma half_point m : good m -> point (screen_width m / 2).
Proof.
  intros [_ SN]. destruct (sane_screen m SN) as [Hw _]. unfold point, LIM in *.
  pose proof (Z.div_le_upper_bound (screen_width m) 2 (screen_width m)). pose proof (Z.div_pos (screen_width m) 2). lia.
Qed.

(** Restoring raises a minimized window and puts an enlarged one back. *)
Lemma restore_window_ok m id : good m ->
  exists m', restore_window id m = Ret m' /\ good m' /\
    stack m' = (if decide (window_states m !! id = Some Minimized /\ id ∈ stack m) then raise id (stack m) else stack m).
Proof.
  intros G. pose proof G as [W _]. unfold restore_window. destruct (Nat.leb_spec MAX_WINDOWS id) as [Hid|Hid].
  - exists m. rewrite decide_False; [done|]. intros [_ O%(wf_open m W)]. pose proof (stack_lt m id W O). lia.
  - destruct (state_at m id W Hid) as (s & Hs & ->). cbn [mbind outcome_mbind].
    destruct (maximize_window_ok m id G) as (m' & E & G' & St). rewrite Hs. destruct s; [exists m; by rewrite decide_False by naive_solver| |
      exists m'; by rewrite decide_False by naive_solver..].
    rewrite set_idx_lt by (by rewrite (wf_states m W)). cbn [mbind outcome_mbind].
    destruct (bring_to_front_ok (set_window_states m (<[id := Normal]> (window_states m))) id) as (m2 & E2 & G2 & _ & _ & S2).
    { apply good_states; [done|]. by rewrite length_insert, (wf_states m W). }
    exists m2. split_and!; [done..|]. rewrite S2. change (stack (set_window_states _ _)) with (stack m).
    destruct (decide (id ∈ stack m)); [by rewrite decide_True|by rewrite decide_False by naive_solver].
Qed.

(** ** The mouse *)

Lemma uadd_ok a b : a + b <= 2 ^ 40 -> uadd a b = Ret (a + b).
Proof. intros H. apply cadd_le. unfold u64_max. lia. Qed.

Lemma within_ok p lo size : fits lo -> 0 <= size <= LIM + 208 -> within p lo size = Ret ((lo <=? p) && (p <? lo + size)).
Proof. unfold within, fits, LIM, u32_max. intros. destruct (lo <=? p); [|done]. by rewrite uadd_ok by lia. Qed.

Lemma near_edge_ok p lo size : fits lo -> fits size ->
  near_edge p lo size = Ret ((lo + sat_sub size 8 <=? p) && (p <? lo + size + 8)).
Proof.
  unfold near_edge, fits, LIM, u32_max. intros. unfold RESIZE_ZONE. rewrite !uadd_ok by (unfold sat_sub; lia). cbn [mbind outcome_mbind].
  destruct (_ <=? p); [|done]. cbn [mbind outcome_mbind]. by rewrite uadd_ok by lia.
Qed.

Lemma button_ok ox w mx my : 0 <= ox <= 100 -> small w ->
  button_clicked ox w mx my = Ret ((x w + ox <=? mx) && (mx <? x w + ox + 14) && ((y w + 10 <=? my) && (my <? y w + 10 + 14))).
Proof.
  intros Ho (Hx & Hy & _). unfold button_clicked, btn_by, within, both, fits, LIM, u32_max in *. change ((TITLEBAR_H - BTN_SIZE) / 2) with 10. unfold BTN_SIZE.
  rewrite !uadd_ok by lia. cbn [mbind outcome_mbind]. rewrite !uadd_ok by lia. cbn [mbind outcome_mbind].
  destruct (_ <=? mx); [|done]. cbn. destruct (mx <? _); [|done]. cbn. by destruct (_ <=? my).
Qed.

Lemma both_Ret a b : both (Ret a) (Ret b) = Ret (a && b).
Proof. by destruct a. Qed.

(** Whether the point is in the window. *)
Definition in_window (w : Window) (mx my : Z) : bool := (x w <=? mx) && (mx <? x w + width w) && ((y w <=? my) && (my <? y w + height w)).
Lemma covers_ok w mx my : small w -> covers w mx my = Ret (in_window w mx my).
Proof. intros (? & ? & ? & ?). unfold covers. rewrite !within_ok by (done || (unfold fits in *; lia)). by rewrite both_Ret. Qed.

(** A click on an edge remembers a size at most 8 pixels past the mouse. *)
Definition edge_sane (e : Z) (w : Window) (mx my : Z) : Prop :=
  (e = 1 \/ e = 3 -> width w <= mx + 8) /\ (e = 2 \/ e = 3 -> height w <= my + 8).
Lemma detect_resize_edge_ok w mx my : small w -> exists e, detect_resize_edge w mx my = Ret e /\ edge_sane e w mx my.
Proof.
  intros (Hx & Hy & Hw & Hh). unfold detect_resize_edge. rewrite !near_edge_ok by done. cbn [mbind outcome_mbind].
  destruct (Z.ltb_spec mx (x w)); [exists 0; split; [done|]; unfold edge_sane; lia|].
  rewrite uadd_ok by (unfold fits, LIM, u32_max, TITLEBAR_H in *; lia). cbn [mbind outcome_mbind].
  destruct (Z.ltb_spec my (y w + TITLEBAR_H)); [exists 0; split; [done|]; unfold edge_sane; lia|].
  unfold edge_sane, fits, sat_sub in *. eexists. split; [done|].
  destruct (Z.leb_spec (x w + Z.max 0 (width w - 8)) mx), (mx <? _), (Z.leb_spec (y w + Z.max 0 (height w - 8)) my), (my <? _); cbn; lia.
Qed.

Lemma sub_i64_ok a b : point a -> - 2 ^ 40 <= b <= 2 ^ 40 -> sub_i64 a b = Ret (a - b).
Proof.
  intros Ha Hb. unfold sub_i64, point, LIM, u32_max in *. rewrite swrap_id by lia. unfold fdtable.cadd_i64, fdtable.i64_min, fdtable.i64_max.
  rewrite (proj2 (Z.leb_le _ _)), (proj2 (Z.leb_le _ _)) by lia. cbn. f_equal.
Qed.
Lemma swrap_fits a : fits a -> swrap 64 a = a.
Proof. intros H. apply swrap_id; [lia|]. unfold fits, LIM, u32_max in H. lia. Qed.

(** What a hit guarantees about the point and the window. *)
Definition hit_sane (h : hit) (w : Window) (mx my : Z) : Prop :=
  match h with
  | HResize e => edge_sane e w mx my
  | HTitlebar ox oy => point ox /\ point oy
  | _ => True
  end.

Lemma hit_window_ok w s mx my : small w -> point mx -> point my -> visible w = true ->
  exists h, hit_window w s mx my = Ret h /\ (forall h', h = Some h' -> hit_sane h' w mx my) /\ (h = None -> in_window w mx my = false).
Proof.
  intros Hs Hmx Hmy Hv. pose proof Hs as (Hx & Hy & Hw & Hh). unfold hit_window, is_close_button_clicked, is_maximize_button_clicked, is_minimize_button_clicked.
  rewrite !button_ok by (done || (unfold BTN_CLOSE_OX, BTN_MIN_OX, BTN_MAX_OX; lia)). cbn [mbind outcome_mbind].
  repeat (match goal with |- context [if ?b then Ret (Some ?h) else _] => destruct b; [exists (Some h); split; [done|]; split; [by intros ? [= <-]|done]|] end).
  destruct (detect_resize_edge_ok w mx my Hs) as (e & Ee & Hes).
  assert (exists e', (if bool_decide (s = Normal) then detect_resize_edge w mx my else Ret 0) = Ret e' /\ edge_sane e' w mx my) as (e' & -> & He').
  { case_bool_decide; [by exists e|]. exists 0. split; [done|]. unfold edge_sane. lia. }
  cbn [mbind outcome_mbind]. destruct (0 <? e'); [exists (Some (HResize e')); split; [done|]; split; [by intros ? [= <-]|done]|].
  unfold is_titlebar_clicked. rewrite Hv. cbn [negb]. rewrite !within_ok by (done || (unfold fits, LIM, u32_max in *; lia)). rewrite both_Ret. cbn [mbind outcome_mbind].
  rewrite (covers_ok w mx my Hs). cbn [mbind outcome_mbind].
  match goal with |- context [if ?b then _ else _] => destruct b eqn:Hb end.
  - bool_simpl. rewrite !swrap_fits by done. rewrite !sub_i64_ok by (done || (unfold fits, LIM, u32_max in *; lia)). cbn [mbind outcome_mbind].
    eexists. split; [done|]. split; [|done]. intros ? [= <-]. unfold hit_sane, point, fits in *. lia.
  - destruct (in_window w mx my) eqn:Ei; eexists; (split; [done|]); split; try done. by intros ? [= <-].
Qed.

Definition shown (m : WindowManager) (id : nat) (w : Window) (s : WindowState) : Prop :=
  windows m !! id = Some (Some w) /\ window_states m !! id = Some s /\ visible w = true /\ s <> Minimized.
Definition misses (m : WindowManager) (mx my : Z) (id : nat) : Prop := forall w s, shown m id w s -> hit_window w s mx my = Ret None.

Lemma stack_at m i : wf m -> (i < window_count m)%nat ->
  exists id w s, stack m !! i = Some id /\ idx (z_order m) i = Ret id /\ windows m !! id = Some (Some w) /\ idx (windows m) id = Ret (Some w) /\
    window_states m !! id = Some s /\ idx (window_states m) id = Ret s.
Proof.
  intros W Hi. destruct (lookup_lt_is_Some_2 (stack m) i) as [id Hid]; [by rewrite (length_stack m W)|].
  assert (is_open m id) as [w Hw] by (apply (wf_open m W); by apply list_elem_of_lookup_2 in Hid).
  destruct (state_at m id W) as (s & Hs & Es); [apply (stack_lt m id W); by exists w|].
  exists id, w, s. split_and!; try done; [|by apply idx_Ret]. apply idx_Ret. unfold stack in Hid. by rewrite lookup_take_lt in Hid.
Qed.

(** The hit test finds the topmost window among the lowest [n] that the point hits. *)
Lemma hit_test_ok m mx my n : good m -> point mx -> point my -> (n <= window_count m)%nat ->
  (hit_test m mx my n = Ret None /\ forall j id, (j < n)%nat -> stack m !! j = Some id -> misses m mx my id) \/
  exists i id w s h, hit_test m mx my n = Ret (Some (id, h)) /\ (i < n)%nat /\ stack m !! i = Some id /\ shown m id w s /\
    hit_window w s mx my = Ret (Some h) /\ hit_sane h w mx my /\
    forall j id', (i < j < n)%nat -> stack m !! j = Some id' -> misses m mx my id'.
Proof.
  intros G Hx Hy. pose proof G as [W SN]. induction n as [|n IH]; intros Hn; cbn [hit_test]; [left; split; [done|intros; lia]|].
  destruct (stack_at m n W Hn) as (id & w & s & Hi & -> & Hw & Ew & Hs & Es). cbn [mbind outcome_mbind]. rewrite Es. cbn [mbind outcome_mbind].
  assert (misses m mx my id -> (hit_test m mx my n = Ret None /\ (forall j id, (j < S n)%nat -> stack m !! j = Some id -> misses m mx my id)) \/
    (exists i id w s h, hit_test m mx my n = Ret (Some (id, h)) /\ (i < S n)%nat /\ stack m !! i = Some id /\ shown m id w s /\
      hit_window w s mx my = Ret (Some h) /\ hit_sane h w mx my /\ forall j id', (i < j < S n)%nat -> stack m !! j = Some id' -> misses m mx my id')) as Hskip.
  { intros Hm. destruct IH as [[E Hall]|(i & id' & w' & s' & h & E & Hin & Hst & Hsh & Hh & Hsn & Hup)]; [lia| |].
    - left. split; [done|]. intros j id' Hj Hjd. destruct (decide (j = n)) as [->|]; [by replace id' with id by congruence|]. apply (Hall j); [lia|done].
    - right. exists i, id', w', s', h. split_and!; try done; [lia|]. intros j id2 Hj Hjd. destruct (decide (j = n)) as [->|]; [by replace id2 with id by congruence|]. apply (Hup j); [lia|done]. }
  case_bool_decide as Hmin; [apply Hskip; intros w' s' (_ & Hs' & _ & ?); congruence|]. rewrite Ew. cbn [mbind outcome_mbind].
  destruct (visible w) eqn:Hv; cbn [negb]; [|apply Hskip; intros w' s' (Hw' & _ & ? & _); congruence].
  destruct (hit_window_ok w s mx my (sane_windows m SN id w Hw) Hx Hy Hv) as (h & Hh & Hsn & _). rewrite Hh. cbn [mbind outcome_mbind].
  destruct h as [h|]; [|apply Hskip; intros w' s' (Hw' & Hs' & _); congruence].
  right. exists n, id, w, s, h. split_and!; try done; [lia|by apply Hsn|]. intros; lia.
Qed.

Lemma good_resize m id e mx my w : good m -> windows m !! id = Some (Some w) -> point mx -> point my -> edge_sane e w mx my ->
  good (set_resize m id e (swrap 64 mx) (swrap 64 my) (width w) (height w)).
Proof.
  intros G Hw Hx Hy [He1 He2]. pose proof G as [W SN]. pose proof (sane_windows m SN id w Hw) as (_ & _ & ? & ?).
  rewrite !swrap_fits by (unfold fits, point in *; lia). pose proof (lookup_lt_Some _ _ _ Hw) as Hlt. rewrite (wf_windows m W) in Hlt.
  destruct G as [[] []]. split; constructor; try (assumption || done). intros ? [= <-]. split; [done|]. unfold resize_sane. cbn. done.
Qed.

(** A click acts on the window it hit; only closing and raising change the order. *)
Definition acted (h : hit) (id : nat) (s : list nat) : list nat :=
  match h with HClose => filter (.≠ id) s | HMaximize | HMinimize => s | _ => raise id s end.

Lemma act_ok m id h w s mx my : good m -> shown m id w s -> hit_sane h w mx my -> point mx -> point my ->
  exists m', act id h mx my m = Ret m' /\ good m' /\ stack m' = acted h id (stack m).
Proof.
  intros G (Hw & Hs & Hv & Hm) Hh Hx Hy. pose proof G as [W _]. assert (is_open m id) as O by (by exists w).
  pose proof (stack_lt m id W O) as Hid. apply (wf_open m W) in O as Hin.
  destruct (bring_to_front_ok m id G) as (m1 & E1 & G1 & Hw1 & Hs1 & St1). rewrite decide_True in St1 by done. pose proof G1 as [W1 _].
  destruct h as [| | |e|ox oy|]; cbn [act acted].
  - destruct (remove_window_ok (set_last_closed_window m (Some id)) id) as (m' & ? & ? & ? & _); [by apply good_closed|]. by exists m'.
  - destruct (maximize_window_ok m id G) as (m' & ? & ? & ?). by exists m'.
  - destruct (minimize_window_ok m id G) as (m' & ? & ? & ? & _). by exists m'.
  - rewrite E1. cbn [mbind outcome_mbind]. rewrite Hw1, (proj2 (idx_Ret _ _ _) Hw). cbn [mbind outcome_mbind]. eexists. split; [done|].
    split; [|done]. apply good_resize; try done. by rewrite Hw1.
  - rewrite E1. cbn [mbind outcome_mbind]. rewrite Hs1, (proj2 (idx_Ret _ _ _) Hs). cbn [mbind outcome_mbind]. case_bool_decide; [by exists m1|].
    destruct Hh. destruct (restore_window_ok m1 id G1) as (m2 & E2 & G2 & St2). rewrite decide_False in St2 by (rewrite Hs1, Hs; naive_solver).
    assert (exists m3, (match s with SnappedLeft | SnappedRight => restore_window id m1 | _ => Ret m1 end) = Ret m3 /\ good m3 /\ stack m3 = stack m1) as (m3 & -> & G3 & St3).
    { destruct s; [by exists m1..| |]; by exists m2. }
    cbn [mbind outcome_mbind]. eexists. split; [done|]. split; [by apply good_drag|]. change (stack (set_drag _ _ _ _)) with (stack m3). congruence.
  - by exists m1.
Qed.

(** What the taskbar does to the order: nothing, or it raises the window of the item. *)
Lemma taskbar_items_ok m mx i n : good m -> (i + n = window_count m)%nat ->
  exists b m', taskbar_items m mx i n = Ret (b, m') /\ good m' /\
    (stack m' = stack m \/ exists id, id ∈ stack m /\ stack m' = raise id (stack m)).
Proof.
  intros G. pose proof G as [W _]. revert i. induction n as [|n IH]; intros i Hn; cbn [taskbar_items].
  { exists false, m. split_and!; auto. }
  destruct (stack_at m i W) as (id & w & s & Hi & -> & Hw & _ & Hs & Es); [lia|]. cbn [mbind outcome_mbind].
  destruct (_ && _); [|apply IH; lia]. rewrite Es. cbn [mbind outcome_mbind]. assert (id ∈ stack m) as Hin by (by apply list_elem_of_lookup_2 in Hi).
  destruct (restore_window_ok m id G) as (m1 & E1 & G1 & St1). destruct (minimize_window_ok m id G) as (m2 & E2 & G2 & St2 & _).
  destruct (bring_to_front_ok m id G) as (m3 & E3 & G3 & _ & _ & St3). rewrite decide_True in St3 by done.
  case_bool_decide as Hm; [|case_bool_decide]; rewrite ?E1, ?E2, ?E3; cbn [mbind outcome_mbind]; eexists _, _; (split; [done|]); split; try done; try tauto.
  - right. exists id. split; [done|]. rewrite St1, decide_True; [done|]. split; congruence.
  - right. by exists id.
Qed.

Lemma handle_click_ok m mx my : good m -> point mx -> point my ->
  exists b m', handle_click mx my m = Ret (b, m') /\ good m' /\
    (stack m' = stack m \/ exists id, id ∈ stack m /\ (stack m' = raise id (stack m) \/ stack m' = filter (.≠ id) (stack m))).
Proof.
  intros G Hx Hy. unfold handle_click. destruct (my <? TASKBAR_HEIGHT).
  - unfold handle_taskbar_click. destruct (_ && _).
    + exists true, (set_clock_was_clicked m true). split; [done|]. split; [by apply good_clock|by left].
    + destruct (taskbar_items_ok m mx 0 (window_count m) G) as (b & m' & E & G' & St); [done|]. exists b, m'. naive_solver.
  - destruct (hit_test_ok m mx my (window_count m) G Hx Hy) as [[-> _]|(i & id & w & s & h & -> & _ & Hi & Hsh & _ & Hh & _)]; [done| |]; cbn [mbind outcome_mbind].
    + exists false, m. auto.
    + destruct (act_ok m id h w s mx my G Hsh Hh Hx Hy) as (m' & -> & G' & St). cbn. exists true, m'. split; [done|]. split; [done|].
      assert (id ∈ stack m) by (by apply list_elem_of_lookup_2 in Hi). destruct h; cbn in St; [right; exists id; tauto|by left..|right; exists id; tauto|right; exists id; tauto|right; exists id; tauto].
Qed.

Lemma wrap_fits v : 0 <= v <= 2 ^ 40 -> wrap 64 v = v.
Proof. intros H. unfold wrap. apply Z.mod_small. lia. Qed.

Lemma cadd_i64_ok a b : - 2 ^ 41 <= a + b <= 2 ^ 41 -> fdtable.cadd_i64 a b = Ret (a + b).
Proof. intros H. unfold fdtable.cadd_i64, fdtable.i64_min, fdtable.i64_max. by rewrite (proj2 (Z.leb_le _ _)), (proj2 (Z.leb_le _ _)) by lia. Qed.

Lemma resize_to_ok m mx my w : resize_sane m -> point mx -> point my -> small w ->
  exists w', resize_to (mx - resize_start_mx m) (my - resize_start_my m) m w = Ret w' /\ small w'.
Proof.
  intros (H1 & H2 & H3 & H4 & He1 & He2) Hx Hy (S1 & S2 & S3 & S4). unfold resize_to, fits, point, LIM, u32_max in *. cbn zeta.
  rewrite !swrap_fits by (unfold fits, LIM, u32_max; lia). rewrite !cadd_i64_ok by lia. cbn [mbind outcome_mbind]. unfold MIN_WIN_W, MIN_WIN_H.
  destruct (Z.eqb_spec (resize_edge m) 1), (Z.eqb_spec (resize_edge m) 2), (Z.eqb_spec (resize_edge m) 3); try congruence; cbn [orb mbind outcome_mbind];
    eexists; (split; [done|]); rewrite ?wrap_fits by lia; unfold small, fits, LIM, u32_max; cbn; lia.
Qed.

Lemma handle_drag_ok m mx my : good m -> point mx -> point my -> exists m', handle_drag mx my m = Ret m' /\ good m' /\ stack m' = stack m.
Proof.
  intros G Hx Hy. pose proof G as [W SN]. unfold handle_drag. destruct (resizing_window m) as [id|] eqn:Er.
  - destruct (sane_resize m SN id Er) as [Hid R]. pose proof R as (H1 & H2 & _). rewrite !sub_i64_ok by (done || (unfold point, LIM, u32_max in *; lia)). cbn [mbind outcome_mbind].
    destruct (window_at m id W Hid) as ([w|] & Hw & ->); cbn [mbind outcome_mbind]; [|by exists m].
    destruct (resize_to_ok m mx my w R Hx Hy (sane_windows m SN id w Hw)) as (w' & -> & Hs'). cbn [mbind outcome_mbind].
    rewrite set_idx_lt by (by rewrite (wf_windows m W)). eexists. split; [done|]. split; [|done]. apply good_windows; [done|by exists w|done].
  - destruct (dragging_window m) as [id|] eqn:Ed; [|by exists m]. destruct (sane_drag m SN id Ed) as (Hid & Ho1 & Ho2).
    destruct (window_at m id W Hid) as ([w|] & Hw & ->); cbn [mbind outcome_mbind]; [|by exists m].
    rewrite !sub_i64_ok by (done || (unfold point, LIM, u32_max in *; lia)). cbn [mbind outcome_mbind].
    rewrite set_idx_lt by (by rewrite (wf_windows m W)). eexists. split; [done|]. split; [|done]. apply good_windows; [done|by exists w|].
    destruct (sane_windows m SN id w Hw) as (_ & _ & ? & ?). unfold point, fits, small, LIM, u32_max, TASKBAR_HEIGHT in *.
    rewrite !wrap_fits by lia. cbn. unfold fits, LIM, u32_max. lia.
Qed.

Lemma snap_edges_ok m id : good m -> (id < MAX_WINDOWS)%nat -> exists m', snap_edges id m = Ret m' /\ good m' /\ stack m' = stack m.
Proof.
  intros G Hid. pose proof G as [W SN]. unfold snap_edges. destruct (window_at m id W Hid) as ([w|] & Hw & ->); cbn [mbind outcome_mbind]; [|by exists m].
  destruct (sane_windows m SN id w Hw) as (? & _ & ? & _). unfold snap_left, snap_right, fits, LIM, u32_max in *.
  destruct (x w <=? SNAP_EDGE); [apply snap_ok; [done|unfold point, LIM, u32_max; lia]|].
  rewrite uadd_ok by lia. cbn [mbind outcome_mbind]. rewrite uadd_ok by (unfold SNAP_EDGE; lia). cbn [mbind outcome_mbind].
  destruct (_ <=? _); [apply snap_ok; [done|by apply half_point]|by exists m].
Qed.

Lemma release_drag_ok m : good m -> exists m', release_drag m = Ret m' /\ good m' /\ stack m' = stack m.
Proof.
  intros G. pose proof G as [W SN]. unfold release_drag. destruct (resizing_window m); [eexists; split; [done|]; by split; [apply good_no_resize|]|].
  destruct (dragging_window m) as [id|] eqn:Ed; [|by exists m]. destruct (sane_drag m SN id Ed) as (Hid & _).
  destruct (state_at m id W Hid) as (s & _ & ->). cbn [mbind outcome_mbind]. destruct (snap_edges_ok m id G Hid) as (m1 & E1 & G1 & S1).
  case_bool_decide; rewrite ?E1; cbn [mbind outcome_mbind]; (eexists; split; [done|]; split; [by apply good_no_drag|done]).
Qed.

Lemma on_window_ok m mx my n : good m -> (n <= window_count m)%nat -> exists b, on_window m mx my n = Ret b.
Proof.
  intros G. pose proof G as [W SN]. induction n as [|n IH]; intros Hn; cbn [on_window]; [by eexists|].
  destruct (stack_at m n W Hn) as (id & w & s & _ & -> & Hw & Ew & _ & Es). cbn [mbind outcome_mbind]. rewrite Es. cbn [mbind outcome_mbind].
  case_bool_decide; [apply IH; lia|]. rewrite Ew. cbn [mbind outcome_mbind]. rewrite (covers_ok w mx my (sane_windows m SN id w Hw)).
  destruct (visible w), (in_window w mx my); cbn [mbind outcome_mbind]; try (by eexists); apply IH; lia.
Qed.

Lemma menu_corner_ok p size screen : point p -> point screen -> 0 <= size <= 1000 -> exists c, menu_corner p size screen = Ret c /\ point c.
Proof.
  intros Hp Hs Hz. unfold menu_corner, point, LIM, u32_max in *. rewrite uadd_ok by lia. cbn. eexists. split; [done|].
  destruct (_ <? _); unfold sat_sub; lia.
Qed.

Lemma handle_right_click_ok m mx my : good m -> point mx -> point my -> exists m', handle_right_click mx my m = Ret m' /\ good m' /\ stack m' = stack m.
Proof.
  intros G Hx Hy. pose proof G as [_ SN]. destruct (sane_screen m SN). unfold handle_right_click.
  destruct (on_window_ok m mx my (window_count m) G) as [b ->]; [done|]. cbn [mbind outcome_mbind]. destruct b; [eexists; split; [done|]; by split; [apply good_menu_hidden|]|].
  destruct (menu_corner_ok mx MENU_W (screen_width m)) as (a & -> & Ha); [done|done|unfold MENU_W; lia|]. cbn [mbind outcome_mbind].
  destruct (menu_corner_ok my MENU_H (screen_height m)) as (c & -> & Hc); [done|done|unfold MENU_H; lia|]. cbn [mbind outcome_mbind].
  eexists. split; [done|]. by split; [apply good_menu|].
Qed.

Lemma handle_context_menu_click_ok m mx my : good m -> exists b m', handle_context_menu_click mx my m = Ret (b, m') /\ good m' /\ stack m' = stack m.
Proof.
  intros G. pose proof G as [_ SN]. destruct (sane_menu m SN) as [H1 H2]. unfold handle_context_menu_click.
  destruct (context_menu_visible m); cbn [negb]; [|by exists false, m]. unfold point, LIM, u32_max in *.
  rewrite !within_ok by (unfold fits, LIM, u32_max, MENU_W, MENU_H; lia). rewrite both_Ret. cbn [mbind outcome_mbind].
  destruct (_ && _); cbn [negb]; [|eexists _, _; split; [done|]; by split; [apply good_menu_hidden|]].
  rewrite uadd_ok by (cbn; unfold HEADER_H; lia). cbn [mbind outcome_mbind]. eexists _, _. split; [done|].
  destruct (menu_item _); (split; [|done]); [apply good_style|]; by apply good_menu_hidden.
Qed.

(** ** Events *)

Inductive event :=
| EAdd (w : Window) | ERemove (id : nat) | EMinimize (id : nat) | EMaximize (id : nat) | ERestore (id : nat)
| ESnapLeft (id : nat) | ESnapRight (id : nat) | EFront (id : nat) | EClick (mx my : Z) | EDrag (mx my : Z) | ERelease
| ERightClick (mx my : Z) | EMenuClick (mx my : Z) | EFocus (f : option nat) | EScreen (w h : Z) | ETakeClock | ETakeClosed.

Definition step (e : event) (m : WindowManager) : outcome WindowManager :=
  match e with
  | EAdd w => snd <$> add_window w m
  | ERemove id => remove_window id m
  | EMinimize id => minimize_window id m
  | EMaximize id => maximize_window id m
  | ERestore id => restore_window id m
  | ESnapLeft id => snap_left id m
  | ESnapRight id => snap_right id m
  | EFront id => bring_to_front id m
  | EClick mx my => snd <$> handle_click mx my m
  | EDrag mx my => handle_drag mx my m
  | ERelease => release_drag m
  | ERightClick mx my => handle_right_click mx my m
  | EMenuClick mx my => snd <$> handle_context_menu_click mx my m
  | EFocus f => Ret (set_focused f m)
  | EScreen w h => Ret (set_screen_dimensions w h m)
  | ETakeClock => Ret (snd (take_clock_click m))
  | ETakeClosed => Ret (snd (take_closed_window m))
  end.
Fixpoint run (es : list event) (m : WindowManager) : outcome WindowManager :=
  match es with
  | [] => Ret m
  | e :: es => let! m := step e m in run es m
  end.
(** Positions and sizes are 32-bit values, as the callers pass them. *)
Definition event_ok (e : event) : Prop :=
  match e with
  | EAdd w => small w
  | EClick a b | EDrag a b | ERightClick a b | EScreen a b => point a /\ point b
  | _ => True
  end.

Lemma step_ok e m : good m -> event_ok e -> exists m', step e m = Ret m' /\ good m'.
Proof.
  intros G He. destruct e; cbn [step event_ok] in *.
  - destruct (add_window_ok m w G He) as [(i & -> & ? & _)|[-> _]]; by eexists.
  - destruct (remove_window_ok m id G) as (m' & ? & ? & _); by exists m'.
  - destruct (minimize_window_ok m id G) as (m' & ? & ? & _); by exists m'.
  - destruct (maximize_window_ok m id G) as (m' & ? & ? & _); by exists m'.
  - destruct (restore_window_ok m id G) as (m' & ? & ? & _); by exists m'.
  - destruct (snap_ok m 0 SnappedLeft id G) as (m' & ? & ? & _); [unfold point, LIM, u32_max; lia|by exists m'].
  - destruct (snap_ok m (screen_width m / 2) SnappedRight id G) as (m' & ? & ? & _); [by apply half_point|by exists m'].
  - destruct (bring_to_front_ok m id G) as (m' & ? & ? & _); by exists m'.
  - destruct (handle_click_ok m mx my G) as (b & m' & -> & ? & _); [apply He..|by exists m'].
  - destruct (handle_drag_ok m mx my G) as (m' & ? & ? & _); [apply He..|by exists m'].
  - destruct (release_drag_ok m G) as (m' & ? & ? & _); by exists m'.
  - destruct (handle_right_click_ok m mx my G) as (m' & ? & ? & _); [apply He..|by exists m'].
  - destruct (handle_context_menu_click_ok m mx my G) as (b & m' & -> & ? & _); by exists m'.
  - eexists; split; [done|by apply good_focus].
  - eexists; split; [done|destruct He; by apply good_screen].
  - eexists; split; [done|by apply good_clock].
  - eexists; split; [done|by apply good_closed].
Qed.

Lemma good_new : good new.
Proof.
  split; constructor; try done; unfold point, LIM, u32_max; cbn; try lia.
  - constructor.
  - intros id. split; [by intros ?%elem_of_nil|]. intros [w Hw]. unfold new in Hw. cbn [windows] in Hw. by apply lookup_replicate in Hw as [? _].
  - intros id w Hw. by apply (lookup_replicate MAX_WINDOWS None) in Hw as [? _].
  - apply (Forall_replicate small_place MAX_WINDOWS). unfold small_place, fits, LIM, u32_max. lia.
Qed.

Lemma run_ok es m : good m -> Forall event_ok es -> exists m', run es m = Ret m' /\ good m'.
Proof.
  intros G H. revert m G. induction H as [|e es He _ IH]; intros m G; cbn; [by exists m|].
  destruct (step_ok e m G He) as (m1 & -> & G1). by apply IH.
Qed.

(** ** Properties *)

(** C19: Whatever windows are opened and closed and wherever the mouse clicks and drags, the
    window manager never aborts (no index out of range, no coordinate overflow), and its
    stacking order lists every open window exactly once. *)
Theorem desktop_never_panics es (H : Forall event_ok es) :
  exists m s, run es new = Ret m /\ z_order_slice m = Ret s /\ NoDup s /\
    forall id, id ∈ s <-> exists w, get_window id m = Ret (Some w).
Proof.
  destruct (run_ok es new good_new H) as (m & E & G). pose proof G as [W _]. exists m, (stack m). split; [done|]. split_and!.
  - unfold z_order_slice. rewrite slice_le by (split; [lia|]; rewrite (wf_z m W); apply (wf_count m W)). by rewrite Nat.sub_0_r, drop_0.
  - apply W.
  - intros id. rewrite (wf_open m W). unfold get_window, is_open. setoid_rewrite <- idx_Ret. split; intros [w Hw].
    + exists w. apply idx_Ret in Hw as Hl. apply lookup_lt_Some in Hl. rewrite (wf_windows m W) in Hl. by rewrite (proj2 (Nat.ltb_lt _ _) Hl).
    + exists w. by destruct (id <? MAX_WINDOWS)%nat.
Qed.

(** The stacking order behaves as a list of window numbers: a new window goes on top of
    it in the lowest empty slot (and is refused exactly when sixteen are open), closing a
    window takes its number out, and raising moves its number to the end. *)
Theorem stacking_order_is_a_list m w id (G : good m) (S : small w) :
  (exists r m1, add_window w m = Ret (r, m1) /\ (r = None <-> window_count m = MAX_WINDOWS) /\
     forall i, r = Some i -> stack m1 = stack m ++ [i] /\ ~ is_open m i /\ (forall j, (j < i)%nat -> is_open m j)) /\
  (exists m2, remove_window id m = Ret m2 /\ stack m2 = filter (.≠ id) (stack m)) /\
  (exists m3, bring_to_front id m = Ret m3 /\ stack m3 = (if decide (id ∈ stack m) then raise id (stack m) else stack m)).
Proof.
  split_and!.
  - destruct (add_window_ok m w G S) as [(i & E & G1 & St & Hi & Hlow)|[E Hc]].
    + exists (Some i), (added m i w). split; [done|]. split.
      * split; [done|]. intros Hc. exfalso. unfold add_window in E. by rewrite Hc in E.
      * intros ? [= <-]. split_and!; try done. intros [v Hv]. congruence.
    + exists None, m. done.
  - destruct (remove_window_ok m id G) as (m2 & ? & _ & ? & _). by exists m2.
  - destruct (bring_to_front_ok m id G) as (m3 & ? & _ & _ & _ & ?). by exists m3.
Qed.

(** A click below the taskbar goes to the topmost window it hits: either no shown window
    is hit and nothing changes, or the action is the one of a shown window above which every
    shown window is missed. *)
Theorem click_goes_to_the_topmost_window m mx my (G : good m) (X : point mx) (Y : TASKBAR_HEIGHT <= my <= LIM) :
  (handle_click mx my m = Ret (false, m) /\ forall id, id ∈ stack m -> misses m mx my id) \/
  exists i id w s h m', handle_click mx my m = Ret (true, m') /\ act id h mx my m = Ret m' /\
    stack m !! i = Some id /\ shown m id w s /\ hit_window w s mx my = Ret (Some h) /\
    (forall j id', (i < j)%nat -> stack m !! j = Some id' -> misses m mx my id') /\ stack m' = acted h id (stack m).
Proof.
  pose proof G as [W _]. assert (point my) as Hy by (unfold point, TASKBAR_HEIGHT in *; lia). unfold handle_click. rewrite (proj2 (Z.ltb_ge _ _)) by lia.
  destruct (hit_test_ok m mx my (window_count m) G X Hy) as [[-> Hall]|(i & id & w & s & h & -> & Hn & Hi & Hsh & Hh & Hsn & Hup)]; [done| |]; cbn [mbind outcome_mbind].
  - left. split; [done|]. intros id [j Hj]%list_elem_of_lookup. apply (Hall j); [|done]. rewrite <- (length_stack m W). by apply lookup_lt_Some in Hj.
  - right. destruct (act_ok m id h w s mx my G Hsh Hsn X Hy) as (m' & E & _ & St). exists i, id, w, s, h, m'. rewrite E. cbn. split_and!; try done.
    intros j id' Hj Hjd. apply (Hup j); [|done]. split; [done|]. rewrite <- (length_stack m W). by apply lookup_lt_Some in Hjd.
Qed.

Lemma placed_geometry w v : title v = title w -> bg_color v = bg_color w -> visible v = visible w -> has_close_button v = has_close_button w -> placed v (geometry w) = w.
Proof. destruct w, v. cbn. by intros -> -> -> ->. Qed.

(** Restoring right after a window remembered its place and took another. *)
Lemma restore_remembered m id w v s : good m -> windows m !! id = Some (Some w) -> enlarged s = true -> small v -> placed v (geometry w) = w ->
  exists m', restore_window id (moved (remembered m id w) id v s) = Ret m' /\ windows m' = windows m /\
    window_states m' = <[id := Normal]> (window_states m) /\ stack m' = stack m.
Proof.
  intros G Hw Hs Hsv Hp. pose proof G as [W SN]. assert (is_open m id) as O by (by exists w). pose proof (stack_lt m id W O) as Hid.
  assert (good (moved (remembered m id w) id v s)) as G1.
  { apply move_window_ok; [|done|done]. apply save_position_ok; [done..|]. by apply (sane_windows m SN id). }
  assert (windows (moved (remembered m id w) id v s) !! id = Some (Some v)) as Hv by (cbn; apply list_lookup_insert_eq; by rewrite (wf_windows m W)).
  assert (window_states (moved (remembered m id w) id v s) !! id = Some s) as Hst by (cbn; apply list_lookup_insert_eq; by rewrite (wf_states m W)).
  destruct (maximize_window_at _ id v s G1 Hv Hst) as (m' & E & _ & St & Hm). rewrite Hs in Hm. destruct Hm as (p & Hp' & Em).
  cbn in Hp'. rewrite list_lookup_insert_eq in Hp' by (by rewrite (wf_saved m W)). injection Hp' as <-. exists m'. split_and!; [| | |exact St].
  2: { rewrite Em. change (<[id := Some (placed v (geometry w))]> (<[id := Some v]> (windows m)) = windows m). by rewrite Hp, list_insert_insert_eq, list_insert_id. }
  2: { rewrite Em. change (<[id := Normal]> (<[id := s]> (window_states m)) = <[id := Normal]> (window_states m)). by rewrite list_insert_insert_eq. }
  unfold restore_window. rewrite (proj2 (Nat.leb_gt _ _) Hid), (proj2 (idx_Ret _ _ _) Hst). cbn [mbind outcome_mbind]. by destruct s.
Qed.

(** Maximizing or snapping a window that is in its own place and restoring it gives every
    window its old place, size and state back, and keeps the stacking order. *)
Theorem enlarging_is_undone m id w (G : good m) (W : windows m !! id = Some (Some w)) (N : window_states m !! id = Some Normal) :
  forall enlarge, enlarge ∈ [maximize_window; snap_left; snap_right] ->
  exists m1 m2, enlarge id m = Ret m1 /\ restore_window id m1 = Ret m2 /\
    windows m2 = windows m /\ window_states m2 = window_states m /\ stack m2 = stack m.
Proof.
  intros f Hf. pose proof (half_point m G) as Hh. assert (point 0) as H0 by (unfold point, LIM, u32_max; lia).
  assert (exists v s, f id m = Ret (moved (remembered m id w) id v s) /\ enlarged s = true /\ small v /\ placed v (geometry w) = w) as (v & s & E & Hs & Hv & Hp).
  { rewrite !elem_of_cons, elem_of_nil in Hf. destruct Hf as [->|[->|[->|[]]]].
    - destruct (maximize_window_at m id w Normal G W N) as (m1 & E & _ & _ & Hm). cbn in Hm. subst m1.
      exists (full_screen m w), Maximized. split_and!; [done|done|by apply small_full_screen|by apply placed_geometry].
    - exists (half_screen m 0 w), SnappedLeft. split_and!; [by apply snap_at|done|by apply small_half_screen|by apply placed_geometry].
    - exists (half_screen m (screen_width m / 2) w), SnappedRight. split_and!; [by apply snap_at|done|by apply small_half_screen|by apply placed_geometry]. }
  destruct (restore_remembered m id w v s G W Hs Hv Hp) as (m2 & E2 & H1 & H2 & H3). eexists _, m2. split_and!; [done..| |done].
  by rewrite H2, list_insert_id.
Qed.

(** Raising the top window changes nothing, the focus included. *)
Lemma bring_top m id : good m -> last (stack m) = Some id -> bring_to_front id m = Ret m.
Proof.
  intros G Hl. pose proof G as [W _]. rewrite last_lookup, (length_stack m W) in Hl. unfold bring_to_front.
  assert (id ∈ stack m) as Hin by (by apply list_elem_of_lookup_2 in Hl). pose proof Hin as O%(wf_open m W).
  destruct (no_window_spec m id W) as [[-> _]|[_ ?]]; [|done]. cbn [mbind outcome_mbind]. rewrite (find_stack m id W).
  destruct (position_stack _ _ Hin) as (i & -> & Hi). cbn [mbind outcome_mbind].
  rewrite (NoDup_lookup _ _ _ _ (wf_nodup m W) Hi Hl). by rewrite Nat.sub_1_r, Nat.eqb_refl.
Qed.

(** A window on top of the order that was minimized does not get the focus back: restoring
    it leaves the focus as it is, and so does every later click on its inside, since raising a
    window that is already on top ends before the focus is set. *)
Theorem restored_top_window_stays_unfocused m id w mx my (G : good m) (T : last (stack m) = Some id)
    (W : windows m !! id = Some (Some w)) (N : window_states m !! id = Some Minimized) (V : visible w = true) (F : focused_window m = None)
    (X : point mx) (Y : TASKBAR_HEIGHT <= my <= LIM) (B : hit_window w Normal mx my = Ret (Some HBody)) :
  exists m1, restore_window id m = Ret m1 /\ window_states m1 !! id = Some Normal /\ focused_window m1 = None /\
    handle_click mx my m1 = Ret (true, m1).
Proof.
  pose proof G as [WF _]. pose proof (stack_lt m id WF (ex_intro _ w W)) as Hid. set (m1 := set_window_states m (<[id := Normal]> (window_states m))).
  assert (good m1) as G1 by (apply good_states; [done|]; by rewrite length_insert, (wf_states m WF)).
  assert (window_states m1 !! id = Some Normal) as N1 by (cbn; apply list_lookup_insert_eq; by rewrite (wf_states m WF)).
  exists m1. split_and!; try done.
  - unfold restore_window. rewrite (proj2 (Nat.leb_gt _ _) Hid), (proj2 (idx_Ret _ _ _) N). cbn [mbind outcome_mbind].
    rewrite set_idx_lt by (by rewrite (wf_states m WF)). by apply bring_top.
  - unfold handle_click. rewrite (proj2 (Z.ltb_ge _ _)) by lia. pose proof (last_Some_elem_of _ _ T) as Hin.
    rewrite last_lookup, (length_stack m WF) in T. change (window_count m1) with (window_count m).
    destruct (window_count m) as [|n] eqn:Ec; [by rewrite <- (length_stack m WF) in Ec; destruct (stack m)|]. cbn [hit_test Nat.pred] in *.
    assert (z_order m !! n = Some id) as Hz by (unfold stack in T; rewrite lookup_take_lt in T by lia; done).
    change (z_order m1) with (z_order m). rewrite (proj2 (idx_Ret _ _ _) Hz). cbn [mbind outcome_mbind]. rewrite (proj2 (idx_Ret _ _ _) N1). cbn [mbind outcome_mbind].
    rewrite bool_decide_eq_false_2 by done. change (windows m1) with (windows m). rewrite (proj2 (idx_Ret _ _ _) W). cbn [mbind outcome_mbind]. rewrite V. cbn [negb].
    rewrite B. cbn [mbind outcome_mbind act]. rewrite (bring_top m1 id G1); [done|]. change (stack m1) with (stack m). rewrite last_lookup, (length_stack m WF), Ec. done.
Qed.

(** Minimizing a maximized window loses the place it had before: restored from the taskbar
    it counts as a normal window of full size, so that maximizing and restoring it again leaves
    it at full size. *)
Theorem minimizing_forgets_the_saved_place m id w (G : good m) (W : windows m !! id = Some (Some w)) (N : window_states m !! id = Some Maximized) :
  exists m2 m3, run [EMinimize id; ERestore id] m = Ret m2 /\ window_states m2 !! id = Some Normal /\ windows m2 !! id = Some (Some w) /\
    run [EMaximize id; ERestore id] m2 = Ret m3 /\ windows m3 !! id = Some (Some w).
Proof.
  pose proof G as [WF _]. pose proof (stack_lt m id WF (ex_intro _ w W)) as Hid.
  destruct (minimize_window_ok m id G) as (m1 & E1 & G1 & St1 & W1). pose proof G1 as [WF1 _].
  assert (window_states m1 = <[id := Minimized]> (window_states m)) as N1.
  { unfold minimize_window in E1. destruct (no_window_spec m id WF) as [[E _]|[_ []]]; [|by exists w]. rewrite E in E1. cbn [mbind outcome_mbind] in E1.
    rewrite set_idx_lt in E1 by (by rewrite (wf_states m WF)). cbn [mbind outcome_mbind] in E1.
    case_bool_decide; [apply bind_Ret in E1 as (f & _ & E1)|]; by injection E1 as <-. }
  set (m1' := set_window_states m1 (<[id := Normal]> (window_states m1))).
  assert (good m1') as G1' by (apply good_states; [done|]; by rewrite length_insert, (wf_states m1 WF1)).
  destruct (bring_to_front_ok m1' id G1') as (m2 & E2 & G2 & W2 & N2 & _).
  assert (restore_window id m1 = Ret m2) as R.
  { unfold restore_window. rewrite (proj2 (Nat.leb_gt _ _) Hid).
    rewrite (proj2 (idx_Ret (window_states m1) id Minimized)) by (rewrite N1; apply list_lookup_insert_eq; by rewrite (wf_states m WF)). cbn [mbind outcome_mbind].
    rewrite set_idx_lt by (by rewrite (wf_states m1 WF1)). done. }
  assert (windows m2 !! id = Some (Some w)) as Hw2 by (rewrite W2; cbn; by rewrite W1).
  assert (window_states m2 !! id = Some Normal) as Hn2 by (rewrite N2; cbn; apply list_lookup_insert_eq; by rewrite (wf_states m1 WF1)).
  destruct (maximize_window_at m2 id w Normal G2 Hw2 Hn2) as (m3 & E3 & _ & _ & Hm3). cbn in Hm3.
  destruct (restore_remembered m2 id w (full_screen m2 w) Maximized G2 Hw2) as (m4 & E4 & W4 & _); [done|by apply small_full_screen|by apply placed_geometry|].
  exists m2, m4. split_and!; try done.
  - cbn [run step]. rewrite E1. cbn [mbind outcome_mbind]. by rewrite R.
  - cbn [run step]. rewrite E3, Hm3. cbn [mbind outcome_mbind]. by rewrite E4.
  - by rewrite W4.
Qed.

(** ** Concrete desktops *)

Definition win (a b c d : Z) : Window := new_window 0xFF2D2D2D a b c d (str "App").
Definition two_windows : list event := [EScreen 1280 800; EAdd (win 60 70 300 200); EAdd (win 100 110 300 200)].
Definition desktop (es : list event) : WindowManager := match run es new with Ret m => m | Panic => new end.

Lemma small_win a b c d : fits a -> fits b -> fits c -> fits d -> small (win a b c d).
Proof. done. Qed.

Lemma two_windows_ok : Forall event_ok two_windows.
Proof. repeat constructor; cbn; unfold LIM, u32_max; lia. Qed.

Lemma good_desktop es : Forall event_ok es -> good (desktop es).
Proof. intros H. destruct (run_ok es new good_new H) as (m & E & G). unfold desktop. by rewrite E. Qed.

Lemma desktop_never_panics_witness :
  Forall event_ok two_windows /\
  exists m s, run two_windows new = Ret m /\ z_order_slice m = Ret s /\ NoDup s /\ forall id, id ∈ s <-> exists w, get_window id m = Ret (Some w).
Proof. split; [exact two_windows_ok|]. apply desktop_never_panics. exact two_windows_ok. Defined.

Lemma stacking_order_is_a_list_witness : exists m3, bring_to_front 0 (desktop two_windows) = Ret m3 /\ stack m3 = [1; 0]%nat.
Proof.
  destruct (stacking_order_is_a_list (desktop two_windows) (win 0 48 10 10) 0 (good_desktop _ two_windows_ok)) as (_ & _ & m3 & E & S);
    [by apply small_win; unfold fits, LIM, u32_max; lia|].
  exists m3. split; [exact E|]. rewrite S. vm_compute. reflexivity.
Defined.

(** The windows overlap at (150, 200); the second one is on top. *)
Lemma click_goes_to_the_topmost_window_witness : fst <$> handle_click 150 200 (desktop two_windows) = Ret true /\
  ((handle_click 150 200 (desktop two_windows) = Ret (false, desktop two_windows) /\ forall id, id ∈ stack (desktop two_windows) -> misses (desktop two_windows) 150 200 id) \/
   exists i id w s h m', handle_click 150 200 (desktop two_windows) = Ret (true, m') /\ act id h 150 200 (desktop two_windows) = Ret m' /\
    stack (desktop two_windows) !! i = Some id /\ shown (desktop two_windows) id w s /\ hit_window w s 150 200 = Ret (Some h) /\
    (forall j id', (i < j)%nat -> stack (desktop two_windows) !! j = Some id' -> misses (desktop two_windows) 150 200 id') /\
    stack m' = acted h id (stack (desktop two_windows))).
Proof.
  split; [vm_compute; reflexivity|].
  apply (click_goes_to_the_topmost_window (desktop two_windows) 150 200); [exact (good_desktop _ two_windows_ok)|unfold point, LIM, u32_max; lia|unfold TASKBAR_HEIGHT, LIM, u32_max; lia].
Defined.

Lemma enlarging_is_undone_witness : exists m1 m2, snap_left 0 (desktop two_windows) = Ret m1 /\ restore_window 0 m1 = Ret m2 /\
    windows m2 = windows (desktop two_windows) /\ window_states m2 = window_states (desktop two_windows) /\ stack m2 = stack (desktop two_windows).
Proof.
  apply (enlarging_is_undone (desktop two_windows) 0 (win 60 70 300 200) (good_desktop _ two_windows_ok)); [vm_compute; reflexivity|vm_compute; reflexivity|].
  right. left.
Defined.

Definition minimized : list event := [EScreen 1280 800; EAdd (win 60 70 300 200); EMinimize 0].
Lemma minimized_ok : Forall event_ok minimized.
Proof. repeat constructor; cbn; unfold LIM, u32_max; lia. Qed.

Lemma restored_top_window_stays_unfocused_witness :
  exists m1, restore_window 0 (desktop minimized) = Ret m1 /\ window_states m1 !! 0%nat = Some Normal /\ focused_window m1 = None /\
    handle_click 150 200 m1 = Ret (true, m1).
Proof.
  apply (restored_top_window_stays_unfocused (desktop minimized) 0 (win 60 70 300 200)); [exact (good_desktop _ minimized_ok)|vm_compute; reflexivity..| |
    |vm_compute; reflexivity]; unfold point, TASKBAR_HEIGHT, LIM, u32_max; lia.
Defined.

Definition maximized : list event := [EScreen 1280 800; EAdd (win 60 70 300 200); EMaximize 0].
Lemma maximized_ok : Forall event_ok maximized.
Proof. repeat constructor; cbn; unfold LIM, u32_max; lia. Qed.

Lemma minimizing_forgets_the_saved_place_witness :
  exists m2 m3, run [EMinimize 0; ERestore 0] (desktop maximized) = Ret m2 /\ window_states m2 !! 0%nat = Some Normal /\
    windows m2 !! 0%nat = Some (Some (win 0 48 1280 752)) /\ run [EMaximize 0; ERestore 0] m2 = Ret m3 /\ windows m3 !! 0%nat = Some (Some (win 0 48 1280 752)).
Proof.
  apply (minimizing_forgets_the_saved_place (desktop maximized) 0); [exact (good_desktop _ maximized_ok)|vm_compute; reflexivity..].
Defined.

End wm_spec.
