(* ===== verification/Graphics.v ===== *)
(** * Drawing (kernel/src/gui/graphics.rs, gui/colors.rs)

    Module [graphics] translates the screen: a back buffer of 32-bit pixels that all
    drawing goes to, and the framebuffer it is copied to. Both are memory behind a raw
    pointer, so that nothing but the code's own checks keeps a write inside the buffer. A
    drawing operation is a [paint], a function from the screen to the screen or to the
    abort that an overflow causes; loops are the combinators [for_up] and [stride]. The
    colour crate's [rgb], and the wallpapers the build decodes, are arguments. *)

From stdpp Require Import base list gmap strings list_numbers sorting.
From Stdlib Require Import ZArith Lia.
From S2P Require Import Prelude FdTable WindowManager.

Local Open Scope Z_scope.

Module graphics.
Import window_manager (BackgroundStyle, BackgroundStyle(..)).

(* @src src/kernel/src/gui/graphics.rs 45-54 Graphics *)
Record Graphics := mkGraphics {
  framebuffer : gmap Z Z;
  back_buffer : gmap Z Z;
  width : Z;
  height : Z;
  pitch : Z;
}.
Definition set_back (g : Graphics) (b : gmap Z Z) : Graphics := mkGraphics (framebuffer g) b (width g) (height g) (pitch g).
Definition set_front (g : Graphics) (f : gmap Z Z) : Graphics := mkGraphics f (back_buffer g) (width g) (height g) (pitch g).

(** ** Checked arithmetic and loops *)

Definition u64c (v : Z) : outcome Z := if (0 <=? v) && (v <=? u64_max) then Ret v else Panic.
Definition i64c (v : Z) : outcome Z := if (fdtable.i64_min <=? v) && (v <=? fdtable.i64_max) then Ret v else Panic.

(** [a / b] and [a % b], which abort when [b] is zero *)
Definition div_checked (a b : Z) : outcome Z := if b =? 0 then Panic else Ret (a / b).
Definition rem_checked (a b : Z) : outcome Z := if b =? 0 then Panic else Ret (a mod b).

Definition paint : Type := Graphics -> outcome Graphics.
Definition done_ : paint := Ret.
Definition andthen (p q : paint) : paint := fun g => let! g := p g in q g.
Definition when (b : bool) (p : paint) : paint := if b then p else done_.
(** A value computed with checks, then a drawing that uses it. *)
Definition with_ {A} (o : outcome A) (p : A -> paint) : paint := fun g => let! a := o in p a g.
Declare Scope paint_scope.
Notation "'let@' x := o 'in' p" := (with_ o (fun x => p)) (at level 10, x name, o at level 100, p at level 200) : paint_scope.
Notation "p >> q" := (andthen p q) (at level 60, right associativity) : paint_scope.
Open Scope paint_scope.
(** [for i in lo..lo + n { f(i) }] *)
Fixpoint for_up (lo : Z) (n : nat) (f : Z -> paint) : paint :=
  match n with
  | O => done_
  | S n' => andthen (f lo) (for_up (lo + 1) n' f)
  end.
(** The same with a body that can break, where it is [None]. *)
Fixpoint for_until (lo : Z) (n : nat) (f : Z -> option paint) : paint :=
  match n with
  | O => done_
  | S n' => match f lo with Some p => andthen p (for_until (lo + 1) n' f) | None => done_ end
  end.
(** [while i < hi { f(i); i += step }], with at most [n] turns. *)
Fixpoint stride (i hi step : Z) (n : nat) (f : Z -> paint) : paint :=
  if i <? hi then
    match n with
    | O => fun _ => Panic
    | S n' => andthen (f i) (stride (i + step) hi step n' f)
    end
  else done_.

(** ** Pixels *)

(* @src src/kernel/src/gui/graphics.rs 62-64 pitch_pixels *)
Definition pitch_pixels (g : Graphics) : Z := pitch g / 4.
(* @src src/kernel/src/gui/graphics.rs 68-70 pixel_offset *)
Definition pixel_offset (g : Graphics) (x y : Z) : outcome Z := let! a := u64c (y * width g) in u64c (a + x).
(** The screen that starts on a framebuffer of the boot loader: the back buffer is zeroed. *)
(* @src src/kernel/src/gui/graphics.rs 72-113 Graphics::new *)
Definition new (fb : gmap Z Z) (w h p : Z) : outcome Graphics := let! _ := u64c (w * h) in Ret (mkGraphics fb ∅ w h p).

(* @src src/kernel/src/gui/graphics.rs 169-177 put_pixel *)
Definition put_pixel (x y color : Z) : paint := fun g =>
  if (width g <=? x) || (height g <=? y) then Ret g
  else let! o := pixel_offset g x y in Ret (set_back g (wr (back_buffer g) o color)).
(* @src src/kernel/src/gui/graphics.rs 180-183 get_pixel *)
Definition get_pixel (g : Graphics) (x y : Z) : outcome Z :=
  if (width g <=? x) || (height g <=? y) then Ret 0
  else let! o := pixel_offset g x y in Ret (rd (back_buffer g) o).
(** [x as i64] *)
Definition as_i64 (x : Z) : Z := swrap 64 x.
(* @src src/kernel/src/gui/graphics.rs 430-434 put_pixel_safe *)
Definition put_pixel_safe (x y color : Z) : paint := fun g =>
  if (0 <=? x) && (0 <=? y) && (x <? as_i64 (width g)) && (y <? as_i64 (height g)) then put_pixel x y color g else Ret g.

(** [n] cells from [o] on. *)
Fixpoint fill_cells (b : gmap Z Z) (o : Z) (n : nat) (color : Z) : gmap Z Z :=
  match n with O => b | S n' => fill_cells (wr b o color) (o + 1) n' color end.
(* @src src/kernel/src/gui/graphics.rs 160-166 clear_screen *)
Definition clear_screen (color : Z) : paint := fun g =>
  let! total := u64c (width g * height g) in Ret (set_back g (fill_cells (back_buffer g) 0 (Z.to_nat total) color)).

(** [ptr::copy_nonoverlapping(src, dst, n)] *)
Fixpoint copy_cells (src dst : gmap Z Z) (s d : Z) (n : nat) : gmap Z Z :=
  match n with O => dst | S n' => copy_cells src (wr dst d (rd src s)) (s + 1) (d + 1) n' end.
(** [for y in y..y + n] *)
(* @src src/kernel/src/gui/graphics.rs 125-131 present (loop) *)
Fixpoint present_rows (y : Z) (n : nat) : paint := fun g =>
  match n with
  | O => Ret g
  | S n' =>
    let! s := u64c (y * width g) in
    let! d := u64c (y * pitch_pixels g) in
    present_rows (y + 1) n' (set_front g (copy_cells (back_buffer g) (framebuffer g) s d (Z.to_nat (width g))))
  end.
(* @src src/kernel/src/gui/graphics.rs 119-132 present *)
Definition present : paint := fun g => present_rows 0 (Z.to_nat (height g)) g.
(* @src src/kernel/src/gui/graphics.rs 146-154 present_region (loop) *)
Fixpoint region_rows (x y cols row : Z) (n : nat) : paint := fun g =>
  match n with
  | O => Ret g
  | S n' =>
    let! sy := u64c (y + row) in
    if height g <=? sy then Ret g
    else
      let! s := u64c (sy * width g) in
      let! s := u64c (s + x) in
      let! d := u64c (sy * pitch_pixels g) in
      let! d := u64c (d + x) in
      region_rows x y cols (row + 1) n' (set_front g (copy_cells (back_buffer g) (framebuffer g) s d (Z.to_nat cols)))
  end.
(* @src src/kernel/src/gui/graphics.rs 136-155 present_region *)
Definition present_region (x y w h : Z) : paint := fun g =>
  if (x <? 0) || (y <? 0) then Ret g
  else
    let cols := Z.min w (sat_sub (width g) x) in
    if cols =? 0 then Ret g else region_rows x y cols 0 (Z.to_nat h) g.

(** ** Rectangles *)

(** [for col in col..col + n]: one row of [read_rect]. *)
(* @src src/kernel/src/gui/graphics.rs 191-198 read_rect (columns) *)
Fixpoint read_cols (g : Graphics) (x sy w row col : Z) (n : nat) (dst : list Z) : outcome (list Z) :=
  match n with
  | O => Ret dst
  | S n' =>
    let! sx := u64c (x + col) in
    if width g <=? sx then Ret dst
    else
      let! i := u64c (row * w) in
      let! i := u64c (i + col) in
      let! dst :=
        (if i <? Z.of_nat (length dst) then
           let! o := pixel_offset g sx sy in set_idx dst (Z.to_nat i) (rd (back_buffer g) o)
         else Ret dst) in
      read_cols g x sy w row (col + 1) n' dst
  end.
(* @src src/kernel/src/gui/graphics.rs 188-199 read_rect (rows) *)
Fixpoint read_rows (g : Graphics) (x y w row : Z) (n : nat) (dst : list Z) : outcome (list Z) :=
  match n with
  | O => Ret dst
  | S n' =>
    let! sy := u64c (y + row) in
    if height g <=? sy then Ret dst
    else let! dst := read_cols g x sy w row 0 (Z.to_nat w) dst in read_rows g x y w (row + 1) n' dst
  end.
(* @src src/kernel/src/gui/graphics.rs 187-200 read_rect *)
Definition read_rect (g : Graphics) (x y w h : Z) (dst : list Z) : outcome (list Z) := read_rows g x y w 0 (Z.to_nat h) dst.

(* @src src/kernel/src/gui/graphics.rs 208-215 write_rect (columns) *)
Fixpoint write_cols (x dy w row : Z) (src : list Z) (col : Z) (n : nat) : paint := fun g =>
  match n with
  | O => Ret g
  | S n' =>
    let! dx := u64c (x + col) in
    if width g <=? dx then Ret g
    else
      let! i := u64c (row * w) in
      let! i := u64c (i + col) in
      let! g :=
        (if i <? Z.of_nat (length src) then
           let! o := pixel_offset g dx dy in
           let! v := idx src (Z.to_nat i) in
           Ret (set_back g (wr (back_buffer g) o v))
         else Ret g) in
      write_cols x dy w row src (col + 1) n' g
  end.
(* @src src/kernel/src/gui/graphics.rs 205-216 write_rect (rows) *)
Fixpoint write_rows (x y w : Z) (src : list Z) (row : Z) (n : nat) : paint := fun g =>
  match n with
  | O => Ret g
  | S n' =>
    let! dy := u64c (y + row) in
    if height g <=? dy then Ret g
    else let! g := write_cols x dy w row src 0 (Z.to_nat w) g in write_rows x y w src (row + 1) n' g
  end.
(* @src src/kernel/src/gui/graphics.rs 204-217 write_rect *)
Definition write_rect (x y w h : Z) (src : list Z) : paint := write_rows x y w src 0 (Z.to_nat h).

(** [for dy in dy..dy + n]: rows of [cw] cells. *)
(* @src src/kernel/src/gui/graphics.rs 233-239 fill_rect (loop) *)
Fixpoint fill_rows (x y cw total color dy : Z) (n : nat) : paint := fun g =>
  match n with
  | O => Ret g
  | S n' =>
    let! r := u64c (y + dy) in
    let! r := u64c (r * width g) in
    let! row_start := u64c (r + x) in
    let! e := u64c (row_start + cw) in
    if total <? e then Ret g
    else fill_rows x y cw total color (dy + 1) n' (set_back g (fill_cells (back_buffer g) row_start (Z.to_nat cw) color))
  end.
(* @src src/kernel/src/gui/graphics.rs 220-241 fill_rect *)
Definition fill_rect (x y w h color : Z) : paint := fun g =>
  if (w =? 0) || (h =? 0) || (width g <=? x) || (height g <=? y) then Ret g
  else
    let cw := Z.min w (width g - x) in
    let ch := Z.min h (height g - y) in
    let! total := u64c (width g * height g) in
    fill_rows x y cw total color 0 (Z.to_nat ch) g.

(** The pixel at [lo + t], and the one [t] before the end of [size] cells from [lo]. *)
Definition near_and_far (lo size limit t : Z) (put : Z -> paint) : paint :=
  let@ a := u64c (lo + t) in
  when (a <? limit) (put a) >>
  let@ e := u64c (lo + size) in
  if t <? e then
    let@ b := u64c (e - t) in
    let@ b := u64c (b - 1) in
    when (b <? limit) (put b)
  else done_.
(* @src src/kernel/src/gui/graphics.rs 244-265 draw_rect *)
Definition draw_rect (x y w h color thickness : Z) : paint := fun g =>
  (for_up 0 (Z.to_nat w) (fun i => for_up 0 (Z.to_nat thickness) (fun t =>
     near_and_far y h (height g) t (fun yy => let@ xx := u64c (x + i) in put_pixel xx yy color))) >>
   for_up 0 (Z.to_nat h) (fun i => for_up 0 (Z.to_nat thickness) (fun t =>
     near_and_far x w (width g) t (fun xx => let@ yy := u64c (y + i) in put_pixel xx yy color)))) g.

(** ** Lines and circles *)

(* @src src/kernel/src/gui/graphics.rs 277-285 draw_line (loop) *)
Fixpoint line_loop (x1 y1 dx dy sx sy color : Z) (x y err : Z) (n : nat) : paint := fun g =>
  match n with
  | O => Panic
  | S n' =>
    let! g := put_pixel_safe x y color g in
    if (x =? x1) && (y =? y1) then Ret g
    else
      let! e2 := i64c (2 * err) in
      let! (err, x) := (if - dy <? e2 then let! e := i64c (err - dy) in let! x := i64c (x + sx) in Ret (e, x) else Ret (err, x)) in
      let! (err, y) := (if e2 <? dx then let! e := i64c (err + dx) in let! y := i64c (y + sy) in Ret (e, y) else Ret (err, y)) in
      line_loop x1 y1 dx dy sx sy color x y err n' g
  end.
(* @src src/kernel/src/gui/graphics.rs 268-286 draw_line *)
Definition draw_line (x0 y0 x1 y1 color : Z) : paint := fun g =>
  let! a := i64c (x1 - x0) in
  let! dx := i64c (Z.abs a) in
  let! b := i64c (y1 - y0) in
  let! dy := i64c (Z.abs b) in
  let sx := if x0 <? x1 then 1 else -1 in
  let sy := if y0 <? y1 then 1 else -1 in
  let! err := i64c (dx - dy) in
  line_loop x1 y1 dx dy sx sy color x0 y0 err (S (Z.to_nat (dx + dy))) g.

(** [put_pixel_safe(a + b, c + d)] with the sums checked *)
Definition put_at (a b c d color : Z) : paint :=
  let@ px := i64c (a + b) in
  let@ py := i64c (c + d) in
  put_pixel_safe px py color.
(* @src src/kernel/src/gui/graphics.rs 295-302 draw_circle (eight points) *)
Definition eight_points (cx cy x y color : Z) : paint :=
  put_at cx x cy y color >> put_at cx (- x) cy y color >> put_at cx x cy (- y) color >> put_at cx (- x) cy (- y) color >>
  put_at cx y cy x color >> put_at cx (- y) cy x color >> put_at cx y cy (- x) color >> put_at cx (- y) cy (- x) color.
(* @src src/kernel/src/gui/graphics.rs 294-307 draw_circle (loop) *)
Fixpoint circle_loop (cx cy color : Z) (x y d : Z) (n : nat) : paint := fun g =>
  if y <? x then Ret g
  else
    match n with
    | O => Panic
    | S n' =>
      let! g := eight_points cx cy x y color g in
      if d <? 0 then
        let! a := i64c (2 * x) in
        let! a := i64c (a + 3) in
        let! d := i64c (d + a) in
        circle_loop cx cy color (x + 1) y d n' g
      else
        let! a := i64c (2 * (x - y)) in
        let! a := i64c (a + 5) in
        let! d := i64c (d + a) in
        circle_loop cx cy color (x + 1) (y - 1) d n' g
    end.
(* @src src/kernel/src/gui/graphics.rs 289-308 draw_circle *)
Definition draw_circle (cx cy radius color : Z) : paint := fun g =>
  let! d := i64c (1 - radius) in
  circle_loop cx cy color 0 radius d (S (Z.to_nat radius)) g.

(** The quarter of the plane of corner [corner], numbered from the top left. *)
(* @src src/kernel/src/gui/graphics.rs 363-369 fill_circle_corner (quarter) *)
Definition quarter (corner dx dy : Z) : bool :=
  if corner =? 0 then (dx <=? 0) && (dy <=? 0)
  else if corner =? 1 then (0 <=? dx) && (dy <=? 0)
  else if corner =? 2 then (dx <=? 0) && (0 <=? dy)
  else if corner =? 3 then (0 <=? dx) && (0 <=? dy)
  else false.
(** The square of [dx] plus that of [dy], checked. *)
Definition norm (dx dy : Z) : outcome Z := let! a := i64c (dx * dx) in let! b := i64c (dy * dy) in i64c (a + b).
(** [for dy in -r..=r { for dx in -r..=r { f } }] *)
Definition square (r : Z) (f : Z -> Z -> paint) : paint :=
  let@ lo := i64c (- r) in
  for_up lo (Z.to_nat (r - lo + 1)) (fun dy => for_up lo (Z.to_nat (r - lo + 1)) (fun dx => f dx dy)).
(* @src src/kernel/src/gui/graphics.rs 354-376 fill_circle_corner *)
Definition fill_circle_corner (cx cy r corner color : Z) : paint :=
  let r_i := as_i64 r in
  square r_i (fun dx dy =>
    let@ q := norm dx dy in
    let@ rr := i64c (r_i * r_i) in
    if q <=? rr then
      let@ px := i64c (as_i64 cx + dx) in
      let@ py := i64c (as_i64 cy + dy) in
      when (quarter corner dx dy) (put_pixel_safe px py color)
    else done_).
(** The quadrants of an arc are numbered from the bottom right. *)
(* @src src/kernel/src/gui/graphics.rs 405-411 draw_arc (quadrant) *)
Definition arc_quarter (quadrant dx dy : Z) : bool :=
  if quadrant =? 0 then (0 <=? dx) && (0 <=? dy)
  else if quadrant =? 1 then (dx <=? 0) && (0 <=? dy)
  else if quadrant =? 2 then (dx <=? 0) && (dy <=? 0)
  else if quadrant =? 3 then (0 <=? dx) && (dy <=? 0)
  else false.
(* @src src/kernel/src/gui/graphics.rs 397-418 draw_arc *)
Definition draw_arc (cx cy r quadrant color thickness : Z) : paint :=
  let r_i := as_i64 r in
  let@ r_inner := i64c (r_i - as_i64 thickness) in
  square r_i (fun dx dy =>
    let@ q := norm dx dy in
    let@ rr := i64c (r_i * r_i) in
    if q <=? rr then
      let@ ii := i64c (r_inner * r_inner) in
      when ((ii <? q) && arc_quarter quadrant dx dy) (put_at (as_i64 cx) dx (as_i64 cy) dy color)
    else done_).

(** [x + w - r] and [x + w - r - 1], checked *)
Definition far (x w r : Z) : outcome Z := let! a := u64c (x + w) in u64c (a - r).
Definition far1 (x w r : Z) : outcome Z := let! a := far x w r in u64c (a - 1).
(* @src src/kernel/src/gui/graphics.rs 338-352 fill_rounded_rect *)
Definition fill_rounded_rect (x y w h r color : Z) : paint :=
  if (w =? 0) || (h =? 0) then done_
  else
    let r := Z.min (Z.min r (w / 2)) (h / 2) in
    let@ xl := u64c (x + r) in
    fill_rect xl y (w - 2 * r) h color >>
    let@ yt := u64c (y + r) in
    fill_rect x yt r (h - 2 * r) color >>
    let@ xr := far x w r in
    fill_rect xr yt r (h - 2 * r) color >>
    fill_circle_corner xl yt r 0 color >>
    let@ xr1 := far1 x w r in
    fill_circle_corner xr1 yt r 1 color >>
    let@ yb1 := far1 y h r in
    fill_circle_corner xl yb1 r 2 color >>
    fill_circle_corner xr1 yb1 r 3 color.

(** [x + w - 1 - t], checked *)
Definition inset (x w t : Z) : outcome Z := let! a := u64c (x + w) in let! a := u64c (a - 1) in u64c (a - t).
(** [draw_line] between unsigned points *)
Definition line_u (x0 y0 x1 y1 color : Z) : paint := draw_line (as_i64 x0) (as_i64 y0) (as_i64 x1) (as_i64 y1) color.
(* @src src/kernel/src/gui/graphics.rs 383-388 draw_rounded_rect (lines) *)
Definition four_lines (x y w h r color t : Z) : paint :=
  let@ xl := u64c (x + r) in
  let@ yt := u64c (y + t) in
  let@ xr := far x w r in
  line_u xl yt xr yt color >>
  let@ yb := inset y h t in
  line_u xl yb xr yb color >>
  let@ xt := u64c (x + t) in
  let@ y0 := u64c (y + r) in
  let@ y1 := far y h r in
  line_u xt y0 xt y1 color >>
  let@ xb := inset x w t in
  line_u xb y0 xb y1 color.
(* @src src/kernel/src/gui/graphics.rs 379-395 draw_rounded_rect *)
Definition draw_rounded_rect (x y w h r color thickness : Z) : paint :=
  let r := Z.min (Z.min r (w / 2)) (h / 2) in
  for_up 0 (Z.to_nat thickness) (four_lines x y w h r color) >>
  let@ xr1 := far1 x w r in
  let@ yb1 := far1 y h r in
  draw_arc xr1 yb1 r 0 color thickness >>
  let@ xl := u64c (x + r) in
  draw_arc xl yb1 r 1 color thickness >>
  let@ yt := u64c (y + r) in
  draw_arc xl yt r 2 color thickness >>
  draw_arc xr1 yt r 3 color thickness.

(* @src src/kernel/src/gui/graphics.rs 421-427 draw_soft_shadow *)
Definition draw_soft_shadow (x y w h radius strength : Z) : paint :=
  for_up 1 (Z.to_nat radius) (fun i =>
    let@ a := cmul u32_max strength (wrap 32 (radius - i + 1)) in
    let@ q := div_checked a (wrap 32 radius) in
    let color := Z.shiftl (wrap 8 q) 24 in
    let@ a := u64c (x + i) in
    let@ b := u64c (y + i) in
    draw_rounded_rect a b w h 8 color 1).

(** ** The cursor *)

Definition cursor_data : list (list Z) :=
  [ str ".          "; str ".X.        "; str ".XX.       "; str ".XXX.      "; str ".XXXX.     "; str ".XXXXX.    "; str ".XXXXXX.   "; str ".XXXXXXX.  ";
    str ".XXXXXXXX. "; str ".XXXXXXXXX."; str ".XXXXX....."; str ".XX.XX.    "; str ".X. .XX.   "; str "..  .XX.   "; str "     .XX.  "; str "     .XX.  "; str "      ..   " ].
(** One line of the picture, from column [col] on. *)
(* @src src/kernel/src/gui/graphics.rs 467-475 draw_cursor (line) *)
Fixpoint cursor_line (x y color row col : Z) (l : list Z) : paint :=
  match l with
  | [] => done_
  | ch :: l =>
    (let@ px := i64c (x + col) in
     let@ py := i64c (y + row) in
     if ch =? 88 then put_pixel_safe px py color else if ch =? 46 then put_pixel_safe px py 0xFF000000 else done_) >>
    cursor_line x y color row (col + 1) l
  end.
Fixpoint cursor_lines (x y color row : Z) (ls : list (list Z)) : paint :=
  match ls with
  | [] => done_
  | l :: ls => cursor_line x y color row 0 l >> cursor_lines x y color (row + 1) ls
  end.
(* @src src/kernel/src/gui/graphics.rs 445-477 draw_cursor *)
Definition draw_cursor (x y color : Z) : paint := cursor_lines x y color 0 cursor_data.

Definition on_screen (g : Graphics) (px py : Z) : bool := (0 <=? px) && (0 <=? py) && (px <? as_i64 (width g)) && (py <? as_i64 (height g)).
(** The saved area as rows of pixels, read cell by cell. *)
(* @src src/kernel/src/gui/graphics.rs 484-491 save_cursor_area (cell) *)
Definition save_cell (g : Graphics) (x y dx dy : Z) : outcome Z :=
  let! px := i64c (x + dx) in
  let! py := i64c (y + dy) in
  if on_screen g px py then let! o := pixel_offset g px py in Ret (rd (back_buffer g) o) else Ret 0.
Fixpoint collect {A} (lo : Z) (n : nat) (f : Z -> outcome A) : outcome (list A) :=
  match n with
  | O => Ret []
  | S n' => let! a := f lo in let! l := collect (lo + 1) n' f in Ret (a :: l)
  end.
(* @src src/kernel/src/gui/graphics.rs 480-495 save_cursor_area *)
Definition save_cursor_area (g : Graphics) (x y : Z) : outcome (list (list Z)) :=
  collect 0 19 (fun dy => collect 0 11 (fun dx => save_cell g x y dx dy)).
(* @src src/kernel/src/gui/graphics.rs 501-505 restore_cursor_area (cell) *)
Definition restore_cell (x y : Z) (saved : list (list Z)) (dx dy : Z) : paint :=
  let@ px := i64c (x + dx) in
  let@ py := i64c (y + dy) in
  fun g =>
    if on_screen g px py then
      let! row := idx saved (Z.to_nat dy) in
      let! v := idx row (Z.to_nat dx) in
      put_pixel px py v g
    else Ret g.
(* @src src/kernel/src/gui/graphics.rs 498-508 restore_cursor_area *)
Definition restore_cursor_area (x y : Z) (saved : list (list Z)) : paint :=
  for_up 0 19 (fun dy => for_up 0 11 (fun dx => restore_cell x y saved dx dy)).
(* @src src/kernel/src/gui/graphics.rs 511-517 clear_cursor *)
Definition clear_cursor (x y bg_color : Z) : paint := for_up 0 19 (fun dy => for_up 0 11 (fun dx => put_at x dx y dy bg_color)).

(** ** Colours *)

(** Bits [k .. k+7] of a colour. *)
Definition channel (k c : Z) : Z := Z.land (Z.shiftr c k) 0xFF.
Definition mix (k a b ta tb : Z) : Z := (channel k a * ta + channel k b * tb) / 255.
(* @src src/kernel/src/gui/graphics.rs 524-531 lerp_color *)
Definition lerp_color (a b t : Z) : Z :=
  let inv := 255 - t in
  Z.lor (Z.lor (Z.lor 0xFF000000 (Z.shiftl (mix 16 a b inv t) 16)) (Z.shiftl (mix 8 a b inv t) 8)) (mix 0 a b inv t).

(** How far [i] of [n] is, from 0 to 255. *)
Definition ramp (i n : Z) : outcome Z := if n <=? 1 then Ret 0 else let! a := u64c (i * 255) in Ret (wrap 8 (a / (n - 1))).
(* @src src/kernel/src/gui/graphics.rs 534-540 fill_rect_gradient_v *)
Definition fill_rect_gradient_v (x y w h top bot : Z) : paint :=
  if (w =? 0) || (h =? 0) then done_
  else for_up 0 (Z.to_nat h) (fun row =>
    let@ t := ramp row h in
    let@ yy := u64c (y + row) in
    fill_rect x yy w 1 (lerp_color top bot t)).
(* @src src/kernel/src/gui/graphics.rs 543-549 fill_rect_gradient_h *)
Definition fill_rect_gradient_h (x y w h lft rgt : Z) : paint :=
  if (w =? 0) || (h =? 0) then done_
  else for_up 0 (Z.to_nat w) (fun col =>
    let@ t := ramp col w in
    let@ xx := u64c (x + col) in
    fill_rect xx y 1 h (lerp_color lft rgt t)).
(* @src src/kernel/src/gui/graphics.rs 778-787 draw_progress_bar *)
Definition draw_progress_bar (x y w h pct bg fill border : Z) : paint :=
  fill_rect x y w h bg >>
  draw_rect x y w h border 1 >>
  let@ a := u64c (sat_sub w 2 * Z.min pct 100) in
  let filled := a / 100 in
  if 0 <? filled then
    let@ x1 := u64c (x + 1) in
    let@ y1 := u64c (y + 1) in
    fill_rect_gradient_h x1 y1 filled (sat_sub h 2) fill (lerp_color fill 0xFF00D4FF 200)
  else done_.

Section Palette.
(** [rgb] of the colour crate, and the wallpapers decoded by the build: sizes and RGBA bytes. *)
Variable rgb : Z -> Z -> Z -> Z.
Variable WALLPAPER_DIMS : list (Z * Z).
Variable ALL_PIXELS : list (list Z).

(* @src src/kernel/src/gui/colors.rs 21-28 blend_colors *)
Definition blend_colors (fg bg : Z) : Z :=
  let fa := channel 24 fg in
  let ba := 255 - fa in
  rgb (wrap 8 (mix 16 fg bg fa ba)) (wrap 8 (mix 8 fg bg fa ba)) (wrap 8 (mix 0 fg bg fa ba)).
(* @src src/kernel/src/gui/graphics.rs 311-328 put_pixel_alpha *)
Definition put_pixel_alpha (x y color : Z) : paint := fun g =>
  if (width g <=? x) || (height g <=? y) then Ret g
  else
    let alpha := channel 24 color in
    if alpha =? 255 then put_pixel x y color g
    else if alpha =? 0 then Ret g
    else let! bg := get_pixel g x y in put_pixel x y (blend_colors color bg) g.
(* @src src/kernel/src/gui/graphics.rs 331-335 put_pixel_alpha_safe *)
Definition put_pixel_alpha_safe (x y color : Z) : paint := fun g => if on_screen g x y then put_pixel_alpha x y color g else Ret g.

(** ** Wallpapers *)

(** [h * a / b] *)
Definition part (h a b : Z) : outcome Z := let! p := u64c (h * a) in Ret (p / b).
(** A dot every [step] pixels in both directions. *)
(* @src src/kernel/src/gui/graphics.rs 578-588 draw_desktop_background (dots) *)
Definition dots (w h step color : Z) : paint :=
  stride 0 h step (S (Z.to_nat (h / step))) (fun gy => stride 0 w step (S (Z.to_nat (w / step))) (fun gx => put_pixel gx gy color)).
(* @src src/kernel/src/gui/graphics.rs 565-576 draw_desktop_background (glow) *)
Definition glow (w : Z) : paint :=
  for_until 0 80 (fun i =>
    let alpha := sat_sub 18 (i / 5) in
    if alpha =? 0 then None
    else Some
      (let@ a := u64c (w * (80 - i)) in
       let col := Z.lor (Z.shiftl alpha 24) 0x0030A0 in
       for_up 0 (Z.to_nat (Z.min (a / 80) (w / 2))) (fun x => put_pixel_alpha x i col))).
(* @src src/kernel/src/gui/graphics.rs 552-589 draw_desktop_background *)
Definition draw_desktop_background : paint := fun g =>
  let w := width g in
  let h := height g in
  (let@ h35 := part h 35 100 in
   fill_rect_gradient_v 0 0 w h35 0xFF111829 0xFF0D1422 >>
   fill_rect_gradient_v 0 h35 w h35 0xFF0D1422 0xFF080E18 >>
   let@ h70 := part h 70 100 in
   let@ h30 := part h 30 100 in
   fill_rect_gradient_v 0 h70 w h30 0xFF080E18 0xFF040810 >>
   glow w >>
   dots w h 40 0xFF182438) g.

(** The generator that scatters the stars. *)
(* @src src/kernel/src/gui/graphics.rs 622-622 draw_background_sunset (seed) *)
Definition lcg (seed : Z) : Z := wrap 64 (seed * 6364136223846793005 + 1442695040888963407).
(** [n] pixels at pseudo-random places below [w] and [h]. *)
(* @src src/kernel/src/gui/graphics.rs 621-627 draw_background_sunset (stars) *)
Fixpoint scatter (shift w h color seed : Z) (n : nat) : paint :=
  match n with
  | O => done_
  | S n' =>
    let s1 := lcg seed in
    let@ sx := rem_checked (Z.shiftr s1 shift) w in
    let s2 := lcg s1 in
    let@ sy := rem_checked (Z.shiftr s2 shift) h in
    put_pixel sx sy color >> scatter shift w h color s2 n'
  end.
(* @src src/kernel/src/gui/graphics.rs 608-628 draw_background_sunset *)
Definition draw_background_sunset : paint := fun g =>
  let h := height g in
  let w := width g in
  (let@ h55 := part h 55 100 in
   fill_rect_gradient_v 0 0 w h55 0xFF180A38 0xFF8B1A50 >>
   let@ h20 := part h 20 100 in
   fill_rect_gradient_v 0 h55 w h20 0xFF8B1A50 0xFFE05820 >>
   let@ h75 := part h 75 100 in
   let@ h25 := part h 25 100 in
   fill_rect_gradient_v 0 h75 w h25 0xFF501000 0xFF140400 >>
   let@ line := u64c (h55 - 1) in
   fill_rect 0 line w 3 0xFFFF8830 >>
   let@ h45 := part h 45 100 in
   scatter 18 w h45 0xFFFFCCAA 0xCAFEBABE 60) g.
(* @src src/kernel/src/gui/graphics.rs 641-656 draw_background_space (stars) *)
Fixpoint bright_stars (w h seed : Z) (n : nat) : paint :=
  match n with
  | O => done_
  | S n' =>
    let s1 := lcg seed in
    let@ sx := rem_checked (Z.shiftr s1 16) w in
    let s2 := lcg s1 in
    let@ sy := rem_checked (Z.shiftr s2 16) h in
    let s3 := lcg s2 in
    let bright := 0xA0 + Z.land (Z.shiftr s3 24) 0x5F in
    let color := Z.lor (Z.lor (Z.lor 0xFF000000 (Z.shiftl bright 16)) (Z.shiftl bright 8)) bright in
    put_pixel sx sy color >>
    (if Z.land s3 0xF =? 0 then put_at (as_i64 sx) 1 (as_i64 sy) 0 color >> put_at (as_i64 sx) 0 (as_i64 sy) 1 color >> put_at (as_i64 sx) 1 (as_i64 sy) 1 color else done_) >>
    bright_stars w h s3 n'
  end.
(* @src src/kernel/src/gui/graphics.rs 631-657 draw_background_space *)
Definition draw_background_space : paint := fun g =>
  let h := height g in
  let w := width g in
  (fill_rect_gradient_v 0 0 w h 0xFF04060E 0xFF020408 >>
   fill_rect_gradient_v 0 (h / 4) w (h / 2) 0xFF04060E 0xFF060A18 >>
   let@ h34 := part h 3 4 in
   fill_rect_gradient_v 0 h34 w (h / 4) 0xFF060A18 0xFF020408 >>
   bright_stars w h 0xDEADBEEF1234ABCD 400) g.
(** A band of [2 * half] rows from [top] on whose colour rises and falls. *)
(* @src src/kernel/src/gui/graphics.rs 667-673 draw_background_aurora (band) *)
Definition band (top w h half r g b : Z) : paint :=
  for_until 0 (Z.to_nat (2 * half)) (fun row =>
    if h <=? top + row then None
    else
      let t := if row <? half then row * 2 else (2 * half - row) * 2 in
      Some (fill_rect 0 (top + row) w 1 (Z.lor (Z.lor (Z.lor 0xFF000000 (Z.shiftl (t * r / 100) 16)) (Z.shiftl (t * g / 100) 8)) (t * b / 100)))).
(* @src src/kernel/src/gui/graphics.rs 660-693 draw_background_aurora *)
Definition draw_background_aurora : paint := fun g =>
  let h := height g in
  let w := width g in
  (fill_rect_gradient_v 0 0 w h 0xFF030E12 0xFF020810 >>
   band (h / 5) w h 50 0 45 20 >>
   let@ g2 := part h 2 5 in
   band g2 w h 40 18 10 50 >>
   scatter 16 w h 0xFF6090A0 0x1234567890ABCDEF 120) g.
(* @src src/kernel/src/gui/graphics.rs 696-727 draw_background_geometric *)
Definition draw_background_geometric : paint := fun g =>
  let h := height g in
  let w := width g in
  (fill_rect_gradient_v 0 0 w h 0xFF06080F 0xFF030408 >>
   stride 0 w 80 (S (Z.to_nat (w / 80))) (fun x => fill_rect x 0 1 h 0xFF0C1220) >>
   stride 0 h 80 (S (Z.to_nat (h / 80))) (fun y => fill_rect 0 y w 1 0xFF0C1220) >>
   let@ s0 := i64c (- as_i64 h) in
   stride s0 (as_i64 w) 160 (S (Z.to_nat ((as_i64 w - s0) / 160))) (fun s =>
     let@ e := i64c (s + as_i64 h) in
     draw_line s 0 e (as_i64 h) 0xFF0A1428) >>
   dots w h 80 0xFF141E30) g.
(** One pixel of the wallpaper, scaled to the screen. *)
(* @src src/kernel/src/gui/graphics.rs 761-771 draw_background_image (pixel) *)
Definition wallpaper_pixel (pixels : list Z) (wi hi sx sy : Z) : paint := fun g =>
  let! a := u64c (sy * hi) in
  let! py := div_checked a (height g) in
  let! b := u64c (sx * wi) in
  let! px := div_checked b (width g) in
  let! c := u64c (py * wi) in
  let! c := u64c (c + px) in
  let! i := u64c (c * 4) in
  if i + 2 <? Z.of_nat (length pixels) then
    let! r := idx pixels (Z.to_nat i) in
    let! gr := idx pixels (Z.to_nat (i + 1)) in
    let! b := idx pixels (Z.to_nat (i + 2)) in
    let! o := pixel_offset g sx sy in
    Ret (set_back g (wr (back_buffer g) o (Z.lor (Z.lor (Z.lor 0xFF000000 (Z.shiftl r 16)) (Z.shiftl gr 8)) b)))
  else Ret g.
(* @src src/kernel/src/gui/graphics.rs 732-775 draw_background_image *)
Definition draw_background_image (index : nat) : paint := fun g =>
  let '(wi, hi) := default (0, 0) (WALLPAPER_DIMS !! index) in
  if (wi =? 0) || (hi =? 0) then draw_desktop_background g
  else
    let pixels := default [] (ALL_PIXELS !! index) in
    match pixels with
    | [] => draw_desktop_background g
    | _ => for_up 0 (Z.to_nat (height g)) (fun sy => for_up 0 (Z.to_nat (width g)) (fun sx => wallpaper_pixel pixels wi hi sx sy)) g
    end.
(* @src src/kernel/src/gui/graphics.rs 592-605 draw_background *)
Definition draw_background (style : BackgroundStyle) : paint :=
  match style with
  | window_manager.Default => draw_desktop_background
  | window_manager.Sunset => draw_background_sunset
  | window_manager.Space => draw_background_space
  | window_manager.Aurora => draw_background_aurora
  | window_manager.Geometric => draw_background_geometric
  | window_manager.Image => draw_background_image 0
  | window_manager.ImageDark => draw_background_image 1
  | window_manager.ImageBluePandas => draw_background_image 2
  | window_manager.ImageDarkRabbit => draw_background_image 3
  | window_manager.ImagePandasLight => draw_background_image 4
  end.
End Palette.

End graphics.
