(* ===== verification/GraphicsSpec.v ===== *)
(** * Properties of drawing

    Module [graphics_spec] says which pixels an operation may change ([draws]) and proves
    for every drawing operation that it ends and stays inside the back buffer, for lines
    that they stay within half a pixel of the ideal line, for rectangles exactly what they
    paint, and that the cursor and saved rectangles are restored exactly. *)

From stdpp Require Import base list gmap strings list_numbers sorting.
From Stdlib Require Import ZArith Lia.
From S2P Require Import Prelude FdTable WindowManager Graphics.

Local Open Scope Z_scope.

Module graphics_spec.
Import graphics.

(** Screens whose number of pixels is far below the machine word. *)
Definition screen_ok (g : Graphics) : Prop := 0 <= width g < 2 ^ 31 /\ 0 <= height g < 2 ^ 31.
Definition on (g : Graphics) (x y : Z) : Prop := 0 <= x < width g /\ 0 <= y < height g.
Definition cell (g : Graphics) (x y : Z) : Z := y * width g + x.
(** The pixel at a point of the screen. *)
Definition pixel (g : Graphics) (x y : Z) : Z := rd (back_buffer g) (cell g x y).
Definition same_size (g g' : Graphics) : Prop := width g' = width g /\ height g' = height g /\ pitch g' = pitch g /\ framebuffer g' = framebuffer g.

(** Every word of memory the change from [g] to [g'] touched is a pixel of the screen in [R], and its new colour is in [C]. *)
Definition draws (R : Z -> Z -> Prop) (C : Z -> Prop) (g g' : Graphics) : Prop :=
  same_size g g' /\
  forall o, rd (back_buffer g') o = rd (back_buffer g) o \/
    (C (rd (back_buffer g') o) /\ exists x y, R x y /\ on g x y /\ o = cell g x y).
(** The operation ends, and so does its change. *)
Definition safe (R : Z -> Z -> Prop) (C : Z -> Prop) (p : paint) : Prop :=
  forall g, screen_ok g -> exists g', p g = Ret g' /\ draws R C g g'.
Definition anywhere (x y : Z) : Prop := True.
Definition any_colour (c : Z) : Prop := True.

(** ** Drawing operations compose *)

Lemma screen_ok_same g g' : same_size g g' -> screen_ok g -> screen_ok g'.
Proof. intros (E1 & E2 & _) H. unfold screen_ok. by rewrite E1, E2. Qed.

Lemma draws_refl R C g : draws R C g g.
Proof. split; [done|by left]. Qed.

Lemma draws_trans R C g1 g2 g3 : draws R C g1 g2 -> draws R C g2 g3 -> draws R C g1 g3.
Proof.
  intros [(W1 & H1 & P1 & F1) D1] [(W2 & H2 & P2 & F2) D2]. split; [by unfold same_size; rewrite W2, H2, P2, F2|]. intros o.
  destruct (D2 o) as [E|(HC & x & y & HR & Ho & E)].
  - rewrite E. apply D1.
  - right. split; [done|]. exists x, y. unfold on, cell in *. by rewrite W1, H1 in *.
Qed.

Lemma draws_weaken (R R' : Z -> Z -> Prop) (C C' : Z -> Prop) g g' :
  (forall x y, on g x y -> R x y -> R' x y) -> (forall c, C c -> C' c) -> draws R C g g' -> draws R' C' g g'.
Proof. intros HR HC [S D]. split; [done|]. intros o. destruct (D o) as [E|(? & x & y & ? & ? & ?)]; [by left|right]. split; [auto|]. exists x, y. auto. Qed.

Lemma safe_done R C : safe R C done_.
Proof. intros g _. exists g. split; [done|apply draws_refl]. Qed.

Lemma safe_andthen R C p q : safe R C p -> safe R C q -> safe R C (p >> q).
Proof.
  intros Hp Hq g Hg. destruct (Hp g Hg) as (g1 & E1 & D1). destruct (Hq g1) as (g2 & E2 & D2); [by apply (screen_ok_same g); [apply D1|]|].
  exists g2. split; [unfold andthen; by rewrite E1|by apply (draws_trans R C g g1)].
Qed.

Lemma safe_when R C b p : (b = true -> safe R C p) -> safe R C (when b p).
Proof. destruct b; intros H; [by apply H|apply safe_done]. Qed.

Lemma safe_with {A} R C (o : outcome A) a p : o = Ret a -> safe R C (p a) -> safe R C (with_ o p).
Proof. intros -> H. exact H. Qed.

Lemma safe_if R C (b : bool) p q : (b = true -> safe R C p) -> (b = false -> safe R C q) -> safe R C (if b then p else q).
Proof. destruct b; auto. Qed.

Lemma safe_for_up R C lo n f : (forall i, lo <= i < lo + Z.of_nat n -> safe R C (f i)) -> safe R C (for_up lo n f).
Proof.
  revert lo. induction n as [|n IH]; intros lo H; cbn [for_up]; [apply safe_done|].
  apply safe_andthen; [apply H; lia|]. apply IH. intros i Hi. apply H. lia.
Qed.

Lemma safe_for_until R C lo n f : (forall i p, lo <= i < lo + Z.of_nat n -> f i = Some p -> safe R C p) -> safe R C (for_until lo n f).
Proof.
  revert lo. induction n as [|n IH]; intros lo H; cbn [for_until]; [apply safe_done|].
  destruct (f lo) eqn:E; [|apply safe_done]. apply safe_andthen; [apply (H lo); [lia|done]|]. apply IH. intros i q Hi. apply H. lia.
Qed.

Lemma safe_stride R C i hi step n f : 0 < step -> hi - i <= step * Z.of_nat n -> (forall j, i <= j < hi -> safe R C (f j)) -> safe R C (stride i hi step n f).
Proof.
  intros Hs. revert i. induction n as [|n IH]; intros i Hn H; cbn [stride]; destruct (Z.ltb_spec i hi); try apply safe_done; [lia|].
  apply safe_andthen; [apply H; lia|]. apply IH; [lia|]. intros j Hj. apply H. lia.
Qed.

Lemma safe_weaken (R R' : Z -> Z -> Prop) (C C' : Z -> Prop) p :
  (forall x y, R x y -> R' x y) -> (forall c, C c -> C' c) -> safe R C p -> safe R' C' p.
Proof. intros HR HC H g Hg. destruct (H g Hg) as (g' & E & D). exists g'. split; [done|]. apply (draws_weaken R R' C C'); auto. Qed.

(** An operation that looks at the size of the screen. *)
Lemma safe_sized R C (p : Z -> Z -> paint) : (forall w h, 0 <= w < 2 ^ 31 -> 0 <= h < 2 ^ 31 -> safe R C (p w h)) ->
  safe R C (fun g => p (width g) (height g) g).
Proof. intros H g Hg. apply (H (width g) (height g)); apply Hg || done. Qed.

Lemma safe_at R C p g : screen_ok g -> safe R C p -> exists g', p g = Ret g' /\ draws R C g g'.
Proof. auto. Qed.

(** ** Checked arithmetic *)

Lemma u64c_ok v : 0 <= v <= u64_max -> u64c v = Ret v.
Proof. intros H. unfold u64c. by rewrite (proj2 (Z.leb_le 0 v)), (proj2 (Z.leb_le v u64_max)) by lia. Qed.
Lemma i64c_ok v : - 2 ^ 63 <= v < 2 ^ 63 -> i64c v = Ret v.
Proof. intros H. unfold i64c, fdtable.i64_min, fdtable.i64_max. by rewrite (proj2 (Z.leb_le _ v)), (proj2 (Z.leb_le v _)) by lia. Qed.
Lemma as_i64_ok v : 0 <= v < 2 ^ 62 -> as_i64 v = v.
Proof. intros H. apply swrap_id; lia. Qed.

Lemma cell_bounds g x y : screen_ok g -> on g x y -> 0 <= cell g x y < width g * height g /\ width g * height g < 2 ^ 62.
Proof.
  intros [Hw Hh] [Hx Hy]. unfold cell. split.
  - split; [nia|]. assert (y * width g <= (height g - 1) * width g) by nia. nia.
  - assert (width g * height g <= 2147483647 * 2147483647) by nia. lia.
Qed.

Lemma cell_inj g x y x' y' : on g x y -> on g x' y' -> cell g x y = cell g x' y' -> x = x' /\ y = y'.
Proof. intros [? _] [? _]. unfold cell. intros E. assert (y = y') by nia. subst. lia. Qed.

Lemma pixel_offset_ok g x y : screen_ok g -> on g x y -> pixel_offset g x y = Ret (cell g x y).
Proof.
  intros Hg Ho. destruct (cell_bounds g x y Hg Ho) as [Hc Ht]. unfold pixel_offset. unfold cell in *. destruct Ho as [Hx Hy]. destruct Hg.
  rewrite u64c_ok by (unfold u64_max; nia). cbn. apply u64c_ok. unfold u64_max. lia.
Qed.

(** ** Single pixels *)

(** The screen after one pixel was set. *)
Definition plotted (g : Graphics) (x y c : Z) : Graphics := set_back g (wr (back_buffer g) (cell g x y) c).
Lemma draws_plotted (R : Z -> Z -> Prop) (C : Z -> Prop) g x y c : on g x y -> R x y -> C c -> draws R C g (plotted g x y c).
Proof.
  intros Ho HR HC. split; [done|]. intros o. cbn. rewrite rd_wr. destruct (decide (cell g x y = o)); [right|by left]. split; [done|]. by exists x, y.
Qed.

Lemma put_pixel_on g x y c : screen_ok g -> on g x y -> put_pixel x y c g = Ret (plotted g x y c).
Proof.
  intros Hg Ho. unfold put_pixel. rewrite pixel_offset_ok by done. destruct Ho as [Hx Hy].
  rewrite (proj2 (Z.leb_gt _ _)), (proj2 (Z.leb_gt _ _)) by lia. done.
Qed.

Lemma safe_put_pixel (R : Z -> Z -> Prop) (C : Z -> Prop) x y c : 0 <= x -> 0 <= y -> R x y -> C c -> safe R C (put_pixel x y c).
Proof.
  intros Hx Hy HR HC g Hg. destruct (decide (on g x y)) as [Ho|Ho].
  - exists (plotted g x y c). split; [by apply put_pixel_on|by apply draws_plotted].
  - exists g. split; [|apply draws_refl]. unfold put_pixel, on in *. destruct (Z.leb_spec (width g) x), (Z.leb_spec (height g) y); try done. exfalso. lia.
Qed.

Lemma on_screen_spec g x y : screen_ok g -> on_screen g x y = bool_decide (on g x y).
Proof.
  intros [? ?]. unfold on_screen, on. rewrite !as_i64_ok by lia. apply Bool.eq_iff_eq_true. rewrite !andb_true_iff, bool_decide_eq_true. lia.
Qed.

Lemma put_pixel_safe_if g x y c : put_pixel_safe x y c g = if on_screen g x y then put_pixel x y c g else Ret g.
Proof. done. Qed.

Lemma safe_put_pixel_safe (R : Z -> Z -> Prop) (C : Z -> Prop) x y c : R x y -> C c -> safe R C (put_pixel_safe x y c).
Proof.
  intros HR HC g Hg. rewrite put_pixel_safe_if, on_screen_spec by done. case_bool_decide as Ho; [|exists g; split; [done|apply draws_refl]].
  destruct Ho. by apply safe_put_pixel; [lia|lia| | |].
Qed.

Lemma safe_put_at (R : Z -> Z -> Prop) (C : Z -> Prop) a b c d col :
  - 2 ^ 62 <= a + b < 2 ^ 62 -> - 2 ^ 62 <= c + d < 2 ^ 62 -> R (a + b) (c + d) -> C col -> safe R C (put_at a b c d col).
Proof.
  intros. unfold put_at. apply (safe_with _ _ _ (a + b)); [apply i64c_ok; lia|]. apply (safe_with _ _ _ (c + d)); [apply i64c_ok; lia|].
  by apply safe_put_pixel_safe.
Qed.

(** ** Rectangles *)

Lemma rd_fill_cells b o n c i : rd (fill_cells b o n c) i = if decide (o <= i < o + Z.of_nat n) then c else rd b i.
Proof.
  revert b o. induction n as [|n IH]; intros b o; cbn [fill_cells]; [by rewrite decide_False by lia|].
  rewrite IH, rd_wr. destruct (decide (o = i)) as [->|]; [rewrite decide_False by lia; by rewrite decide_True by lia|].
  destruct (decide (o + 1 <= i < o + 1 + Z.of_nat n)); [by rewrite decide_True by lia|by rewrite decide_False by lia].
Qed.

(** The screen after [n] rows of [cw] pixels from [(x, y)] on were painted. *)
Definition painted (x y cw n c : Z) (g g' : Graphics) : Prop :=
  same_size g g' /\
  (forall a b, on g a b -> pixel g' a b = if decide (x <= a < x + cw /\ y <= b < y + n) then c else pixel g a b) /\
  forall o, (forall a b, on g a b -> o <> cell g a b) -> rd (back_buffer g') o = rd (back_buffer g) o.

Lemma fill_row_painted x y cw c g : screen_ok g -> 0 <= x -> 0 <= cw -> x + cw <= width g -> 0 <= y < height g ->
  painted x y cw 1 c g (set_back g (fill_cells (back_buffer g) (cell g x y) (Z.to_nat cw) c)).
Proof.
  intros Hg Hx Hcw Hw Hy. split_and!; [done| |].
  - intros a b [Ha Hb]. unfold pixel. cbn. rewrite rd_fill_cells, Z2Nat.id by lia. unfold cell. cbn [width set_back].
    destruct (decide (x <= a < x + cw /\ y <= b < y + 1)) as [[? ?]|Hn].
    + assert (b = y) as -> by lia. by rewrite decide_True by lia.
    + rewrite decide_False; [done|]. intros Hin. apply Hn. assert (b = y) by nia. subst. lia.
  - intros o Ho. cbn. rewrite rd_fill_cells, Z2Nat.id by lia. rewrite decide_False; [done|]. intros Hin.
    apply (Ho (o - y * width g) y); [unfold on, cell in *; lia|]. unfold cell. lia.
Qed.

Lemma painted_app x y cw n c g g1 g2 : 0 <= n -> painted x y cw 1 c g g1 -> painted x (y + 1) cw n c g1 g2 -> painted x y cw (n + 1) c g g2.
Proof.
  intros Hn ((W1 & H1 & P1 & F1) & D1 & U1) ((W2 & H2 & P2 & F2) & D2 & U2). unfold on, cell in *. split_and!.
  - unfold same_size. by rewrite W2, H2, P2, F2.
  - intros a b Ho. rewrite D2 by (by rewrite W1, H1). rewrite D1 by done.
    destruct (decide (x <= a < x + cw /\ y + 1 <= b < y + 1 + n)); [by rewrite decide_True by lia|].
    destruct (decide (x <= a < x + cw /\ y <= b < y + 1)); [by rewrite decide_True by lia|by rewrite decide_False by lia].
  - intros o Ho. rewrite U2 by (rewrite W1, H1; exact Ho). by apply U1.
Qed.

Lemma fill_rows_ok x y cw c dy n g : screen_ok g -> 0 <= x -> 0 <= y -> 0 <= dy -> 0 <= cw -> x + cw <= width g -> y + dy + Z.of_nat n <= height g ->
  exists g', fill_rows x y cw (width g * height g) c dy n g = Ret g' /\ painted x (y + dy) cw (Z.of_nat n) c g g'.
Proof.
  revert dy g. induction n as [|n IH]; intros dy g Hg Hx Hy Hd Hcw Hw Hh; cbn [fill_rows].
  { exists g. split; [done|]. split_and!; [done| |done]. intros a b _. by rewrite decide_False by lia. }
  pose proof Hg as [Gw Gh]. assert ((y + dy) * width g <= (height g - 1) * width g) by nia. assert (width g * height g < 2 ^ 62) by nia.
  rewrite !u64c_ok by (unfold u64_max; lia). cbn [mbind outcome_mbind]. rewrite u64c_ok by (unfold u64_max; nia). cbn [mbind outcome_mbind].
  rewrite u64c_ok by (unfold u64_max; nia). cbn [mbind outcome_mbind]. rewrite u64c_ok by (unfold u64_max; nia). cbn [mbind outcome_mbind].
  rewrite (proj2 (Z.ltb_ge _ _)) by nia. set (g1 := set_back g _).
  pose proof (fill_row_painted x (y + dy) cw c g Hg Hx Hcw Hw ltac:(lia)) as D1. fold (cell g x (y + dy)) in g1. fold g1 in D1.
  destruct (IH (dy + 1) g1) as (g2 & E & D2); try done; [lia|cbn; lia|]. exists g2. split; [exact E|].
  replace (Z.of_nat (S n)) with (Z.of_nat n + 1) by lia. apply (painted_app _ _ _ _ _ g g1 g2); [lia|done|]. by replace (y + dy + 1) with (y + (dy + 1)) by lia.
Qed.

(** Filling paints the part of the rectangle that is on the screen and nothing else. *)
Lemma fill_rect_ok x y w h c g : screen_ok g -> 0 <= x -> 0 <= y -> 0 <= w -> 0 <= h ->
  exists g', fill_rect x y w h c g = Ret g' /\ painted x y w h c g g'.
Proof.
  intros Hg Hx Hy Hw Hh. unfold fill_rect.
  destruct ((w =? 0) || (h =? 0) || (width g <=? x) || (height g <=? y)) eqn:E.
  - exists g. split; [done|]. split_and!; [done| |done]. intros a b [? ?]. rewrite decide_False; [done|]. bool_simpl. lia.
  - bool_simpl. pose proof Hg as [Gw Gh]. assert (width g * height g < 2 ^ 62) by nia. rewrite u64c_ok by (unfold u64_max; nia). cbn [mbind outcome_mbind].
    destruct (fill_rows_ok x y (Z.min w (width g - x)) c 0 (Z.to_nat (Z.min h (height g - y))) g) as (g' & E' & S & D & U); try done; try lia.
    exists g'. split; [done|]. split_and!; [done| |done]. intros a b Ho. rewrite D by done. destruct Ho. rewrite Z2Nat.id, Z.add_0_r by lia.
    destruct (decide (x <= a < x + w /\ y <= b < y + h)); [by rewrite decide_True by lia|by rewrite decide_False by lia].
Qed.

Lemma painted_draws (R : Z -> Z -> Prop) (C : Z -> Prop) x y w h c g g' : (forall a b, x <= a < x + w -> y <= b < y + h -> R a b) -> C c -> painted x y w h c g g' -> draws R C g g'.
Proof.
  intros HR HC (S & D & U). split; [done|]. intros o. pose proof S as (W & _).
  destruct (decide (0 < width g)) as [Hw|Hw].
  2: { left. apply U. intros a b [? _]. lia. }
  destruct (decide (on g (o mod width g) (o / width g))) as [Ho|Ho].
  - assert (o = cell g (o mod width g) (o / width g)) as Eo by (unfold cell; pose proof (Z.div_mod o (width g)); lia).
    pose proof (D _ _ Ho) as E. unfold pixel in E. replace (cell g' (o mod width g) (o / width g)) with o in E by (unfold cell in *; by rewrite W). rewrite <- Eo in E.
    destruct (decide _) as [[? ?]|]; [|by left]. right. rewrite E. split; [done|]. eexists _, _. split; [|by split]. by apply HR.
  - left. apply U. intros a b Hab ->. apply Ho. destruct Hab as [Ha Hb]. unfold cell. split.
    + rewrite Z.add_comm, Z.mod_add by lia. rewrite Z.mod_small by lia. done.
    + rewrite Z.add_comm, Z.div_add by lia. rewrite Z.div_small by lia. done.
Qed.

Lemma safe_fill_rect (R : Z -> Z -> Prop) (C : Z -> Prop) x y w h c : 0 <= x -> 0 <= y -> 0 <= w -> 0 <= h ->
  (forall a b, x <= a < x + w -> y <= b < y + h -> R a b) -> C c -> safe R C (fill_rect x y w h c).
Proof.
  intros Hx Hy Hw Hh HR HC g Hg. destruct (fill_rect_ok x y w h c g) as (g' & E & D); try done. exists g'. split; [done|]. by apply (painted_draws R C x y w h c).
Qed.

(** ** Lines *)

Lemma draws_keeps R c g g' x y : draws R (eq c) g g' -> pixel g x y = c -> pixel g' x y = c.
Proof.
  intros [(W & _) D] E. unfold pixel in *. unfold cell in *. rewrite W. destruct (D (y * width g + x)) as [H|[H _]]; by rewrite <- H || rewrite H.
Qed.

Definition dir (a b : Z) : Z := if a <? b then 1 else -1.
(** The point [i] steps along and [j] across is within half a pixel of the line. *)
Definition on_line (x0 y0 x1 y1 x y : Z) : Prop :=
  let dx := Z.abs (x1 - x0) in
  let dy := Z.abs (y1 - y0) in
  exists i j, 0 <= i <= dx /\ 0 <= j <= dy /\ x = x0 + dir x0 x1 * i /\ y = y0 + dir y0 y1 * j /\ 2 * Z.abs (i * dy - j * dx) <= Z.max dx dy.

Section Line.
Context (x0 y0 x1 y1 c : Z).
Let dx := Z.abs (x1 - x0).
Let dy := Z.abs (y1 - y0).
Let sx := dir x0 x1.
Let sy := dir y0 y1.
Hypothesis Bx : - 2 ^ 40 <= x0 <= 2 ^ 40 /\ - 2 ^ 40 <= x1 <= 2 ^ 40.
Hypothesis By : - 2 ^ 40 <= y0 <= 2 ^ 40 /\ - 2 ^ 40 <= y1 <= 2 ^ 40.

Lemma dir_x i : 0 <= i <= dx -> - 2 ^ 40 <= x0 + sx * i <= 2 ^ 40 /\ (x0 + sx * i = x1 <-> i = dx).
Proof. unfold sx, dx, dir. destruct (Z.ltb_spec x0 x1); lia. Qed.
Lemma dir_y j : 0 <= j <= dy -> - 2 ^ 40 <= y0 + sy * j <= 2 ^ 40 /\ (y0 + sy * j = y1 <-> j = dy).
Proof. unfold sy, dy, dir. destruct (Z.ltb_spec y0 y1); lia. Qed.

(** What a step does: [D] is the deviation from the line, scaled. *)
Lemma line_step i j D : 0 <= i <= dx -> 0 <= j <= dy -> D = i * dy - j * dx -> ~ (i = dx /\ j = dy) -> 2 * Z.abs D <= Z.max dx dy ->
  let bx := - dy <? 2 * (dx - dy - D) in
  let by_ := 2 * (dx - dy - D) <? dx in
  let i' := if bx then i + 1 else i in
  let j' := if by_ then j + 1 else j in
  (bx || by_ = true) /\ 0 <= i' <= dx /\ 0 <= j' <= dy /\ 2 * Z.abs (i' * dy - j' * dx) <= Z.max dx dy.
Proof.
  intros Hi Hj ED Hne HD. assert (0 <= dx /\ 0 <= dy) as [? ?] by (unfold dx, dy; lia). clearbody dx dy. cbn zeta.
  assert (i = dx -> dx <= D) as Hx by (intros ->; assert (j <= dy - 1) by lia; nia).
  assert (j = dy -> D <= - dy) as Hy by (intros ->; assert (i <= dx - 1) by lia; nia).
  destruct (Z.ltb_spec (- dy) (2 * (dx - dy - D))), (Z.ltb_spec (2 * (dx - dy - D)) dx); (split; [first [done|exfalso; lia]|]);
    (split; [lia|]); (split; [lia|]); rewrite ?Z.mul_add_distr_r; lia.
Qed.

Lemma line_loop_ok n i j g : screen_ok g -> 0 <= i <= dx -> 0 <= j <= dy -> 2 * Z.abs (i * dy - j * dx) <= Z.max dx dy -> dx - i + (dy - j) < Z.of_nat n ->
  exists g', line_loop x1 y1 dx dy sx sy c (x0 + sx * i) (y0 + sy * j) (dx - dy - (i * dy - j * dx)) n g = Ret g' /\
    draws (on_line x0 y0 x1 y1) (eq c) g g' /\
    (on g (x0 + sx * i) (y0 + sy * j) -> pixel g' (x0 + sx * i) (y0 + sy * j) = c) /\ (on g x1 y1 -> pixel g' x1 y1 = c).
Proof.
  revert i j g. induction n as [|n IH]; intros i j g Hg Hi Hj HD Hn; [lia|]. cbn [line_loop].
  destruct (safe_put_pixel_safe (on_line x0 y0 x1 y1) (eq c) (x0 + sx * i) (y0 + sy * j) c) with (g := g) as (g1 & E1 & D1); [by exists i, j|done|done|].
  rewrite E1. cbn [mbind outcome_mbind]. destruct (dir_x i Hi) as [Bxi Exi]. destruct (dir_y j Hj) as [Byj Eyj].
  assert (on g (x0 + sx * i) (y0 + sy * j) -> pixel g1 (x0 + sx * i) (y0 + sy * j) = c) as P1.
  { intros Ho. rewrite put_pixel_safe_if, on_screen_spec, bool_decide_eq_true_2, put_pixel_on in E1 by done. injection E1 as <-.
    unfold pixel, plotted. cbn. apply rd_wr_eq. }
  destruct (decide (i = dx /\ j = dy)) as [[-> ->]|Hne].
  { rewrite (proj2 Exi), (proj2 Eyj) by done. rewrite !Z.eqb_refl. exists g1. rewrite (proj2 Exi), (proj2 Eyj) in P1 by done. done. }
  replace ((x0 + sx * i =? x1) && (y0 + sy * j =? y1)) with false.
  2: { symmetry. apply not_true_iff_false. rewrite andb_true_iff, !Z.eqb_eq, Exi, Eyj. done. }
  set (D := i * dy - j * dx) in *. pose proof (line_step i j D Hi Hj eq_refl Hne HD) as (Hb & Hi' & Hj' & HD').
  assert (dx <= 2 ^ 41 /\ dy <= 2 ^ 41) as [? ?] by (unfold dx, dy; lia).
  rewrite (i64c_ok (2 * (dx - dy - D))) by lia. cbn [mbind outcome_mbind].
  set (bx := - dy <? 2 * (dx - dy - D)) in *. set (by_ := 2 * (dx - dy - D) <? dx) in *.
  set (i' := if bx then i + 1 else i) in *. set (j' := if by_ then j + 1 else j) in *.
  destruct (dir_x i' Hi') as [Bxi' _]. destruct (dir_y j' Hj') as [Byj' _].
  assert ((if bx then let! e := i64c (dx - dy - D - dy) in let! x := i64c (x0 + sx * i + sx) in Ret (e, x) else Ret (dx - dy - D, x0 + sx * i)) =
    Ret (dx - dy - (D + (if bx then dy else 0)), x0 + sx * i')) as ->.
  { subst i'. clearbody bx. destruct bx; [|by rewrite Z.add_0_r]. rewrite (i64c_ok (dx - dy - D - dy)) by lia. cbn [mbind outcome_mbind].
    rewrite i64c_ok by lia. cbn [mbind outcome_mbind]. f_equal. f_equal; lia. }
  cbn [mbind outcome_mbind].
  assert ((if by_ then let! e := i64c (dx - dy - (D + (if bx then dy else 0)) + dx) in let! y := i64c (y0 + sy * j + sy) in Ret (e, y)
           else Ret (dx - dy - (D + (if bx then dy else 0)), y0 + sy * j)) =
    Ret (dx - dy - (i' * dy - j' * dx), y0 + sy * j')) as ->.
  { subst i' j' D. clearbody bx by_. destruct by_.
    - rewrite (i64c_ok (_ + dx)) by (destruct bx; lia). cbn [mbind outcome_mbind]. rewrite i64c_ok by lia. cbn [mbind outcome_mbind]. f_equal. f_equal; destruct bx; lia.
    - f_equal. f_equal; destruct bx; lia. }
  cbn [mbind outcome_mbind]. destruct (IH i' j' g1) as (g2 & E2 & D2 & _ & P2); try done.
  { apply (screen_ok_same g); [apply D1|done]. }
  { subst i' j'. clearbody bx by_. destruct bx, by_; try done; lia. }
  exists g2. split; [exact E2|]. split; [by apply (draws_trans _ _ g g1)|]. split; [intros Ho; by apply (draws_keeps _ _ _ _ _ _ D2), P1|].
  destruct D1 as [(W & H' & _) _]. unfold on in *. by rewrite W, H' in P2.
Qed.
End Line.

Lemma draw_line_ok x0 y0 x1 y1 c g : screen_ok g -> - 2 ^ 40 <= x0 <= 2 ^ 40 -> - 2 ^ 40 <= x1 <= 2 ^ 40 -> - 2 ^ 40 <= y0 <= 2 ^ 40 -> - 2 ^ 40 <= y1 <= 2 ^ 40 ->
  exists g', draw_line x0 y0 x1 y1 c g = Ret g' /\ draws (on_line x0 y0 x1 y1) (eq c) g g' /\
    (on g x0 y0 -> pixel g' x0 y0 = c) /\ (on g x1 y1 -> pixel g' x1 y1 = c).
Proof.
  intros Hg ? ? ? ?. unfold draw_line. rewrite !i64c_ok by lia. cbn [mbind outcome_mbind]. rewrite !i64c_ok by lia. cbn [mbind outcome_mbind].
  rewrite !i64c_ok by lia. cbn [mbind outcome_mbind].
  destruct (line_loop_ok x0 y0 x1 y1 c ltac:(done) ltac:(done) (S (Z.to_nat (Z.abs (x1 - x0) + Z.abs (y1 - y0)))) 0 0 g) as (g' & E & D & P0 & P1); try done; try lia.
  rewrite !Z.mul_0_r, !Z.add_0_r, ?Z.mul_0_l, ?Z.sub_0_r in *. exists g'. done.
Qed.

Lemma safe_draw_line (C : Z -> Prop) x0 y0 x1 y1 c : - 2 ^ 40 <= x0 <= 2 ^ 40 -> - 2 ^ 40 <= x1 <= 2 ^ 40 -> - 2 ^ 40 <= y0 <= 2 ^ 40 -> - 2 ^ 40 <= y1 <= 2 ^ 40 ->
  C c -> safe anywhere C (draw_line x0 y0 x1 y1 c).
Proof.
  intros ? ? ? ? HC g Hg. destruct (draw_line_ok x0 y0 x1 y1 c g) as (g' & E & D & _); try done. exists g'. split; [done|].
  apply (draws_weaken (on_line x0 y0 x1 y1) _ (eq c)); [done|by intros ? <-|done].
Qed.

(** ** The remaining shapes stay on the screen *)

Notation "'inside' p" := (safe anywhere any_colour p) (at level 10, p at level 9).

Lemma far_ok x w r : 0 <= x + w - r -> 0 <= r -> x + w <= 2 ^ 63 -> far x w r = Ret (x + w - r).
Proof. intros. unfold far. rewrite u64c_ok by (unfold u64_max; lia). cbn. apply u64c_ok. unfold u64_max. lia. Qed.
Lemma far1_ok x w r : 1 <= x + w - r -> 0 <= r -> x + w <= 2 ^ 63 -> far1 x w r = Ret (x + w - r - 1).
Proof. intros. unfold far1. rewrite far_ok by lia. cbn. apply u64c_ok. unfold u64_max. lia. Qed.
Lemma inset_ok x w t : 0 <= x + w - 1 - t -> 0 <= t -> x + w <= 2 ^ 63 -> inset x w t = Ret (x + w - 1 - t).
Proof. intros. unfold inset. rewrite !u64c_ok by (unfold u64_max; lia). cbn. rewrite u64c_ok by (unfold u64_max; lia). cbn. apply u64c_ok. unfold u64_max. lia. Qed.
Lemma norm_ok dx dy : - 2 ^ 30 <= dx <= 2 ^ 30 -> - 2 ^ 30 <= dy <= 2 ^ 30 -> norm dx dy = Ret (dx * dx + dy * dy).
Proof.
  intros. unfold norm. assert (0 <= dx * dx <= 2 ^ 60) by nia. assert (0 <= dy * dy <= 2 ^ 60) by nia.
  rewrite !i64c_ok by lia. cbn. by rewrite i64c_ok by lia.
Qed.

(** One rule per form of a drawing; side conditions are linear. *)
Ltac checked := first [apply u64c_ok; unfold u64_max; lia | apply i64c_ok; lia | apply far_ok; lia | apply far1_ok; lia | apply inset_ok; lia | apply norm_ok; lia].
Ltac paint_step :=
  lazymatch goal with
  | |- safe _ _ done_ => apply safe_done
  | |- safe _ _ (_ >> _) => apply safe_andthen
  | |- safe _ _ (when _ _) => apply safe_when; intros
  | |- safe _ _ (with_ _ _) => eapply safe_with; [checked|]
  | |- safe _ _ (put_pixel _ _ _) => apply safe_put_pixel; [lia|lia|done|done]
  | |- safe _ _ (put_pixel_safe _ _ _) => apply safe_put_pixel_safe; done
  | |- safe _ _ (put_at _ _ _ _ _) => apply safe_put_at; [lia|lia|done|done]
  | |- safe _ _ (fill_rect _ _ _ _ _) => apply safe_fill_rect; [lia|lia|lia|lia|done|done]
  | |- safe _ _ (draw_line _ _ _ _ _) => apply safe_draw_line; [lia|lia|lia|lia|done]
  end.
Ltac paint := repeat paint_step.

Lemma inside_square r f : 0 <= r <= 2 ^ 30 -> (forall dx dy, - r <= dx <= r -> - r <= dy <= r -> inside (f dx dy)) -> inside (square r f).
Proof.
  intros Hr H. unfold square. paint. apply safe_for_up. intros dy Hdy. apply safe_for_up. intros dx Hdx. apply H; lia.
Qed.

Lemma inside_corner cx cy r k c : 0 <= cx <= 2 ^ 40 -> 0 <= cy <= 2 ^ 40 -> 0 <= r <= 2 ^ 30 -> inside (fill_circle_corner cx cy r k c).
Proof.
  intros. unfold fill_circle_corner. rewrite !as_i64_ok by lia. apply inside_square; [done|]. intros dx dy ? ?. paint. eapply safe_with; [apply i64c_ok; nia|].
  apply safe_if; intros; paint.
Qed.

Lemma inside_arc cx cy r k c t : 0 <= cx <= 2 ^ 40 -> 0 <= cy <= 2 ^ 40 -> 0 <= r <= 2 ^ 30 -> 0 <= t <= 2 ^ 30 -> inside (draw_arc cx cy r k c t).
Proof.
  intros. unfold draw_arc. rewrite !as_i64_ok by lia. eapply safe_with; [checked|]. apply inside_square; [done|]. intros dx dy ? ?. paint. eapply safe_with; [apply i64c_ok; nia|].
  apply safe_if; intros; paint. eapply safe_with; [apply i64c_ok; nia|]. paint.
Qed.

(** The radius that is used: at most half of each side. *)
Lemma radius_bounds r w h : 0 <= r -> 0 <= w -> 0 <= h -> let r' := Z.min (Z.min r (w / 2)) (h / 2) in 0 <= r' /\ 2 * r' <= w /\ 2 * r' <= h.
Proof. intros. pose proof (Z.mul_div_le w 2). pose proof (Z.mul_div_le h 2). pose proof (Z.div_pos w 2). pose proof (Z.div_pos h 2). cbn zeta. lia. Qed.

Lemma inside_fill_rounded x y w h r c : 0 <= x <= 2 ^ 32 -> 0 <= y <= 2 ^ 32 -> 0 <= w <= 2 ^ 32 -> 0 <= h <= 2 ^ 32 -> 0 <= r <= 2 ^ 30 ->
  inside (fill_rounded_rect x y w h r c).
Proof.
  intros. unfold fill_rounded_rect. apply safe_if; intros E; [apply safe_done|]. bool_simpl.
  pose proof (radius_bounds r w h ltac:(lia) ltac:(lia) ltac:(lia)) as (? & ? & ?). set (r' := Z.min (Z.min r (w / 2)) (h / 2)) in *.
  assert (r' <= 2 ^ 30) by lia. clearbody r'. paint; apply inside_corner; lia.
Qed.

Lemma inside_line_u x0 y0 x1 y1 c : 0 <= x0 <= 2 ^ 40 -> 0 <= y0 <= 2 ^ 40 -> 0 <= x1 <= 2 ^ 40 -> 0 <= y1 <= 2 ^ 40 -> inside (line_u x0 y0 x1 y1 c).
Proof. intros. unfold line_u. rewrite !as_i64_ok by lia. paint. Qed.

(** Outlines need a pixel of room for every line of their thickness. *)
Lemma inside_draw_rounded x y w h r c t : 0 <= x <= 2 ^ 32 -> 0 <= y <= 2 ^ 32 -> 0 <= w <= 2 ^ 32 -> 0 <= h <= 2 ^ 32 -> 0 <= r <= 2 ^ 30 ->
  1 <= t <= 2 ^ 30 -> t <= x + w -> t <= y + h -> 1 <= x + w - Z.min (Z.min r (w / 2)) (h / 2) -> 1 <= y + h - Z.min (Z.min r (w / 2)) (h / 2) ->
  inside (draw_rounded_rect x y w h r c t).
Proof.
  intros. unfold draw_rounded_rect. pose proof (radius_bounds r w h ltac:(lia) ltac:(lia) ltac:(lia)) as (? & ? & ?).
  set (r' := Z.min (Z.min r (w / 2)) (h / 2)) in *. assert (r' <= 2 ^ 30) by lia. clearbody r'. paint; try (apply inside_arc; lia).
  apply safe_for_up. intros i Hi. unfold four_lines. paint; apply inside_line_u; lia.
Qed.

Lemma inside_shadow x y w h radius strength : 0 <= x < 2 ^ 31 -> 0 <= y < 2 ^ 31 -> 0 <= w <= 2 ^ 32 -> 0 <= h <= 2 ^ 32 -> 0 <= radius <= 2 ^ 20 -> 0 <= strength <= 255 ->
  inside (draw_soft_shadow x y w h radius strength).
Proof.
  intros. unfold draw_soft_shadow. apply safe_for_up. intros i Hi.
  assert (wrap 32 (radius - i + 1) = radius - i + 1) as -> by (unfold wrap; apply Z.mod_small; lia).
  assert (wrap 32 radius = radius) as -> by (unfold wrap; apply Z.mod_small; lia).
  eapply safe_with; [apply cmul_le; unfold u32_max; nia|]. eapply safe_with; [unfold div_checked; rewrite (proj2 (Z.eqb_neq _ _)) by lia; reflexivity|].
  paint. pose proof (radius_bounds 8 w h ltac:(lia) ltac:(lia) ltac:(lia)) as (? & ? & ?). apply inside_draw_rounded; lia.
Qed.

Lemma inside_eight cx cy x y c : - 2 ^ 40 <= cx <= 2 ^ 40 -> - 2 ^ 40 <= cy <= 2 ^ 40 -> 0 <= x <= 2 ^ 41 -> 0 <= y <= 2 ^ 41 -> inside (eight_points cx cy x y c).
Proof. intros. unfold eight_points. paint. Qed.

Lemma circle_loop_ok cx cy r c n x y d g : - 2 ^ 40 <= cx <= 2 ^ 40 -> - 2 ^ 40 <= cy <= 2 ^ 40 -> 0 <= r <= 2 ^ 40 ->
  screen_ok g -> 0 <= x <= r + 1 -> y <= r -> y - x < Z.of_nat n -> - 2 * r <= d <= 2 * r + 5 * x + 3 ->
  exists g', circle_loop cx cy c x y d n g = Ret g' /\ draws anywhere any_colour g g'.
Proof.
  intros Hcx Hcy Hr. revert x y d g. induction n as [|n IH]; intros x y d g Hg Hx Hy Hn Hd; cbn [circle_loop]; destruct (Z.ltb_spec y x);
    try (exists g; split; [done|apply draws_refl]); [lia|].
  destruct (inside_eight cx cy x y c Hcx Hcy ltac:(lia) ltac:(lia) g Hg) as (g1 & -> & D1). cbn [mbind outcome_mbind].
  assert (screen_ok g1) as Hg1 by (apply (screen_ok_same g); [apply D1|done]).
  destruct (Z.ltb_spec d 0).
  - rewrite !i64c_ok by lia. cbn [mbind outcome_mbind]. rewrite i64c_ok by lia. cbn [mbind outcome_mbind]. rewrite i64c_ok by lia. cbn [mbind outcome_mbind].
    destruct (IH (x + 1) y (d + (2 * x + 3)) g1) as (g2 & E & D2); try done; try lia. exists g2. split; [done|]. by apply (draws_trans _ _ g g1).
  - rewrite !i64c_ok by lia. cbn [mbind outcome_mbind]. rewrite i64c_ok by lia. cbn [mbind outcome_mbind]. rewrite i64c_ok by lia. cbn [mbind outcome_mbind].
    destruct (IH (x + 1) (y - 1) (d + (2 * (x - y) + 5)) g1) as (g2 & E & D2); try done; try lia. exists g2. split; [done|]. by apply (draws_trans _ _ g g1).
Qed.

Lemma inside_circle cx cy r c : - 2 ^ 40 <= cx <= 2 ^ 40 -> - 2 ^ 40 <= cy <= 2 ^ 40 -> 0 <= r <= 2 ^ 40 -> inside (draw_circle cx cy r c).
Proof. intros Hcx Hcy Hr g Hg. unfold draw_circle. rewrite i64c_ok by lia. cbn [mbind outcome_mbind]. apply (circle_loop_ok cx cy r); try done; lia. Qed.

Lemma inside_near_and_far lo size limit t put : 0 <= lo <= 2 ^ 40 -> 0 <= size <= 2 ^ 40 -> 0 <= t <= 2 ^ 40 -> (forall v, 0 <= v -> inside (put v)) -> inside (near_and_far lo size limit t put).
Proof.
  intros ? ? ? H. unfold near_and_far. paint; [apply H; lia|]. apply safe_if; intros E; [|apply safe_done]. bool_simpl. paint. apply H. lia.
Qed.

Lemma inside_draw_rect x y w h c t : 0 <= x <= 2 ^ 40 -> 0 <= y <= 2 ^ 40 -> 0 <= w <= 2 ^ 40 -> 0 <= h <= 2 ^ 40 -> 0 <= t <= 2 ^ 40 -> inside (draw_rect x y w h c t).
Proof.
  intros. unfold draw_rect.
  apply (safe_sized _ _ (fun gw gh => for_up 0 (Z.to_nat w) (fun i => for_up 0 (Z.to_nat t) (fun t => near_and_far y h gh t (fun yy => let@ xx := u64c (x + i) in put_pixel xx yy c))) >>
    for_up 0 (Z.to_nat h) (fun i => for_up 0 (Z.to_nat t) (fun t => near_and_far x w gw t (fun xx => let@ yy := u64c (y + i) in put_pixel xx yy c))))).
  intros gw gh _ _. apply safe_andthen; apply safe_for_up; intros i Hi; apply safe_for_up; intros k Hk; (apply inside_near_and_far; [lia..|]); intros v Hv; paint.
Qed.

Lemma safe_cursor_line (R : Z -> Z -> Prop) x y c row col l : - 2 ^ 40 <= x <= 2 ^ 40 -> - 2 ^ 40 <= y <= 2 ^ 40 -> 0 <= row <= 100 -> 0 <= col -> col + Z.of_nat (length l) <= 100 ->
  (forall i, col <= i < col + Z.of_nat (length l) -> R (x + i) (y + row)) -> safe R any_colour (cursor_line x y c row col l).
Proof.
  intros Hx Hy Hr. revert col. induction l as [|ch l IH]; intros col Hc Hl HR; cbn [cursor_line length] in *; [apply safe_done|]. apply safe_andthen.
  - eapply safe_with; [apply i64c_ok; lia|]. eapply safe_with; [apply i64c_ok; lia|].
    apply safe_if; intros; [apply safe_put_pixel_safe; [apply HR; lia|done]|]. apply safe_if; intros; [apply safe_put_pixel_safe; [apply HR; lia|done]|apply safe_done].
  - apply IH; [lia..|]. intros i Hi. apply HR. lia.
Qed.

Lemma safe_cursor_lines (R : Z -> Z -> Prop) x y c row ls : - 2 ^ 40 <= x <= 2 ^ 40 -> - 2 ^ 40 <= y <= 2 ^ 40 -> 0 <= row -> row + Z.of_nat (length ls) <= 100 ->
  Forall (fun l => length l = 11%nat) ls -> (forall i j, 0 <= i < 11 -> row <= j < row + Z.of_nat (length ls) -> R (x + i) (y + j)) -> safe R any_colour (cursor_lines x y c row ls).
Proof.
  intros Hx Hy. revert row. induction ls as [|l ls IH]; intros row Hr Hl HF HR; cbn [cursor_lines length] in *; [apply safe_done|]. inversion HF; subst. apply safe_andthen.
  - apply safe_cursor_line; [lia..|]. intros i Hi. apply HR; lia.
  - apply IH; [lia..|done|]. intros i j Hi Hj. apply HR; lia.
Qed.

(** The cursor covers eleven columns and seventeen rows. *)
Definition cursor_area (x y a b : Z) : Prop := x <= a < x + 11 /\ y <= b < y + 19.
Lemma safe_draw_cursor x y c : - 2 ^ 40 <= x <= 2 ^ 40 -> - 2 ^ 40 <= y <= 2 ^ 40 -> safe (cursor_area x y) any_colour (draw_cursor x y c).
Proof.
  intros. unfold draw_cursor. apply safe_cursor_lines; [lia..|cbn; lia|repeat constructor|]. intros i j Hi Hj. cbn in Hj. unfold cursor_area. lia.
Qed.

Lemma inside_clear_cursor x y c : - 2 ^ 40 <= x <= 2 ^ 40 -> - 2 ^ 40 <= y <= 2 ^ 40 -> inside (clear_cursor x y c).
Proof. intros. unfold clear_cursor. apply safe_for_up. intros i Hi. apply safe_for_up. intros j Hj. cbn in *. paint. Qed.

Lemma ramp_ok i n : 0 <= i <= 2 ^ 40 -> exists t, ramp i n = Ret t.
Proof. intros. unfold ramp. destruct (n <=? 1); [by eexists|]. rewrite u64c_ok by (unfold u64_max; lia). by eexists. Qed.

Lemma inside_gradient_v x y w h a b : 0 <= x <= 2 ^ 40 -> 0 <= y <= 2 ^ 40 -> 0 <= w <= 2 ^ 40 -> 0 <= h <= 2 ^ 40 -> inside (fill_rect_gradient_v x y w h a b).
Proof.
  intros. unfold fill_rect_gradient_v. apply safe_if; intros; [apply safe_done|]. apply safe_for_up. intros i Hi.
  destruct (ramp_ok i h) as [t Ht]; [lia|]. eapply safe_with; [exact Ht|]. paint.
Qed.
Lemma inside_gradient_h x y w h a b : 0 <= x <= 2 ^ 40 -> 0 <= y <= 2 ^ 40 -> 0 <= w <= 2 ^ 40 -> 0 <= h <= 2 ^ 40 -> inside (fill_rect_gradient_h x y w h a b).
Proof.
  intros. unfold fill_rect_gradient_h. apply safe_if; intros; [apply safe_done|]. apply safe_for_up. intros i Hi.
  destruct (ramp_ok i w) as [t Ht]; [lia|]. eapply safe_with; [exact Ht|]. paint.
Qed.

Lemma inside_progress x y w h pct a b c : 0 <= x <= 2 ^ 32 -> 0 <= y <= 2 ^ 32 -> 0 <= w <= 2 ^ 32 -> 0 <= h <= 2 ^ 32 -> 0 <= pct <= 255 -> inside (draw_progress_bar x y w h pct a b c).
Proof.
  intros. unfold draw_progress_bar. assert (0 <= sat_sub w 2 <= 2 ^ 32) by (unfold sat_sub; lia). assert (0 <= sat_sub h 2 <= 2 ^ 32) by (unfold sat_sub; lia).
  assert (0 <= sat_sub w 2 * Z.min pct 100 <= 2 ^ 32 * 100) by nia. paint; [apply inside_draw_rect; lia|].
  pose proof (Z.div_pos (sat_sub w 2 * Z.min pct 100) 100). pose proof (Z.div_le_upper_bound (sat_sub w 2 * Z.min pct 100) 100 (2 ^ 32)).
  apply safe_if; intros; [|apply safe_done]. paint. apply inside_gradient_h; lia.
Qed.

Lemma inside_clear_screen c : inside (clear_screen c).
Proof.
  intros g Hg. pose proof Hg as [Gw Gh]. unfold clear_screen. rewrite u64c_ok by (unfold u64_max; nia). eexists. split; [done|]. split; [done|]. intros o. cbn.
  rewrite rd_fill_cells, Z2Nat.id by nia. destruct (decide _) as [Ho|]; [right|by left]. split; [done|]. assert (0 < width g) by nia.
  exists (o mod width g), (o / width g). pose proof (Z.mod_pos_bound o (width g)). pose proof (Z.div_mod o (width g)). pose proof (Z.div_pos o (width g)).
  split; [done|]. split; [split; [lia|]; split; [lia|]; apply Z.div_lt_upper_bound; lia|]. unfold cell. lia.
Qed.

(** ** Wallpapers *)

Lemma part_ok h a b : 0 <= h < 2 ^ 31 -> 0 <= a <= 100 -> 0 < b -> a <= b -> part h a b = Ret (h * a / b) /\ 0 <= h * a / b <= h.
Proof.
  intros. unfold part. rewrite u64c_ok by (unfold u64_max; nia). split; [done|]. split; [apply Z.div_pos; nia|]. apply Z.div_le_upper_bound; [done|]. nia.
Qed.

Lemma stride_fuel v step : 0 < step -> 0 <= v -> v <= step * Z.of_nat (S (Z.to_nat (v / step))).
Proof. intros. pose proof (Z.div_mod v step). pose proof (Z.mod_pos_bound v step). pose proof (Z.div_pos v step). rewrite Nat2Z.inj_succ, Z2Nat.id by lia. nia. Qed.

Lemma inside_dots w h step c : 0 < step -> 0 <= w -> 0 <= h -> inside (dots w h step c).
Proof.
  intros Hs Hw Hh. unfold dots. pose proof (stride_fuel w step). pose proof (stride_fuel h step).
  apply safe_stride; [done|lia|]. intros j Hj. apply safe_stride; [done|lia|]. intros i Hi. paint.
Qed.

Section Wallpapers.
Context (rgb : Z -> Z -> Z -> Z) (dims : list (Z * Z)) (all_pixels : list (list Z)).

Lemma safe_put_pixel_alpha (R : Z -> Z -> Prop) x y c : 0 <= x -> 0 <= y -> R x y -> safe R any_colour (put_pixel_alpha rgb x y c).
Proof.
  intros Hx Hy HR g Hg. unfold put_pixel_alpha. destruct (decide (on g x y)) as [Ho|Ho].
  - pose proof Ho as [? ?]. rewrite (proj2 (Z.leb_gt _ _)), (proj2 (Z.leb_gt _ _)) by lia. cbn [orb].
    destruct (_ =? 255); [by apply safe_put_pixel|]. destruct (_ =? 0); [exists g; split; [done|apply draws_refl]|].
    unfold get_pixel. rewrite (proj2 (Z.leb_gt _ _)), (proj2 (Z.leb_gt _ _)) by lia. cbn [orb]. rewrite pixel_offset_ok by done. cbn [mbind outcome_mbind].
    by apply safe_put_pixel.
  - exists g. split; [|apply draws_refl]. unfold on in Ho. destruct (Z.leb_spec (width g) x), (Z.leb_spec (height g) y); try done. exfalso. lia.
Qed.

Lemma inside_glow w : 0 <= w < 2 ^ 31 -> inside (glow rgb w).
Proof.
  intros Hw. unfold glow. apply safe_for_until. intros i p Hi. destruct (_ =? 0); [done|]. intros [= <-]. cbn in Hi.
  eapply safe_with; [apply u64c_ok; unfold u64_max; nia|]. apply safe_for_up. intros j Hj. apply safe_put_pixel_alpha; [lia|lia|done].
Qed.

Lemma inside_desktop : inside (draw_desktop_background rgb).
Proof.
  unfold draw_desktop_background.
  refine (safe_sized _ _ (fun w h => let@ h35 := part h 35 100 in fill_rect_gradient_v 0 0 w h35 0xFF111829 0xFF0D1422 >> fill_rect_gradient_v 0 h35 w h35 0xFF0D1422 0xFF080E18 >>
   let@ h70 := part h 70 100 in let@ h30 := part h 30 100 in fill_rect_gradient_v 0 h70 w h30 0xFF080E18 0xFF040810 >> glow rgb w >> dots w h 40 0xFF182438) _).
  intros w h Hw Hh. destruct (part_ok h 35 100) as [E1 B1]; [lia..|]. destruct (part_ok h 70 100) as [E2 B2]; [lia..|]. destruct (part_ok h 30 100) as [E3 B3]; [lia..|].
  eapply safe_with; [exact E1|]. paint; try (apply inside_gradient_v; lia). eapply safe_with; [exact E2|]. eapply safe_with; [exact E3|].
  paint; [apply inside_gradient_v; lia|by apply inside_glow|apply inside_dots; lia].
Qed.

Lemma rem_ok a b : 0 <= a -> 0 < b -> rem_checked a b = Ret (a mod b) /\ 0 <= a mod b < b.
Proof. intros. unfold rem_checked. rewrite (proj2 (Z.eqb_neq _ _)) by lia. split; [done|]. apply Z.mod_pos_bound. lia. Qed.

Lemma lcg_nonneg s : 0 <= lcg s < 2 ^ 64.
Proof. unfold lcg, wrap. apply Z.mod_pos_bound. lia. Qed.
Lemma lcg_shifted s k : 0 <= k -> 0 <= Z.shiftr (lcg s) k.
Proof. intros. apply Z.shiftr_nonneg, lcg_nonneg. Qed.

Lemma inside_scatter k w h c seed n : 0 <= k -> 0 < w -> 0 < h -> inside (scatter k w h c seed n).
Proof.
  intros Hk Hw Hh. revert seed. induction n as [|n IH]; intros seed; cbn [scatter]; [apply safe_done|].
  destruct (rem_ok (Z.shiftr (lcg seed) k) w) as [E1 B1]; [by apply lcg_shifted|done|]. eapply safe_with; [exact E1|].
  destruct (rem_ok (Z.shiftr (lcg (lcg seed)) k) h) as [E2 B2]; [by apply lcg_shifted|done|]. eapply safe_with; [exact E2|].
  apply safe_andthen; [paint|apply IH].
Qed.

Lemma inside_bright_stars w h seed n : 0 < w < 2 ^ 31 -> 0 < h < 2 ^ 31 -> inside (bright_stars w h seed n).
Proof.
  intros Hw Hh. revert seed. induction n as [|n IH]; intros seed; cbn [bright_stars]; [apply safe_done|].
  destruct (rem_ok (Z.shiftr (lcg seed) 16) w) as [E1 B1]; [by apply lcg_shifted|lia|]. eapply safe_with; [exact E1|].
  destruct (rem_ok (Z.shiftr (lcg (lcg seed)) 16) h) as [E2 B2]; [by apply lcg_shifted|lia|]. eapply safe_with; [exact E2|].
  apply safe_andthen; [paint|]. apply safe_andthen; [|apply IH]. apply safe_if; intros; [|apply safe_done]. rewrite !as_i64_ok by lia. paint.
Qed.

Lemma inside_band top w h half r g b : 0 <= top -> 0 <= w -> inside (band top w h half r g b).
Proof.
  intros Ht Hw. unfold band. apply safe_for_until. intros i p Hi. destruct (_ <=? _); [done|]. intros [= <-]. apply safe_fill_rect; (lia || done).
Qed.

Lemma sunset_ok g : screen_ok g -> 1 <= width g -> 3 <= height g -> exists g', draw_background_sunset g = Ret g' /\ draws anywhere any_colour g g'.
Proof.
  intros Hg Hw Hh. pose proof Hg as [Gw Gh]. unfold draw_background_sunset. set (h := height g) in *. set (w := width g) in *.
  destruct (part_ok h 55 100) as [E1 C1]; [lia..|]. destruct (part_ok h 20 100) as [E2 C2]; [lia..|]. destruct (part_ok h 75 100) as [E3 C3]; [lia..|].
  destruct (part_ok h 25 100) as [E4 C4]; [lia..|]. destruct (part_ok h 45 100) as [E5 C5]; [lia..|].
  assert (1 <= h * 55 / 100) by (apply Z.div_le_lower_bound; lia). assert (1 <= h * 45 / 100) by (apply Z.div_le_lower_bound; lia).
  apply safe_at; [exact Hg|]. eapply safe_with; [exact E1|]. paint; try (apply inside_gradient_v; lia). eapply safe_with; [exact E2|]. paint; [apply inside_gradient_v; lia|].
  eapply safe_with; [exact E3|]. eapply safe_with; [exact E4|]. paint; [apply inside_gradient_v; lia|]. eapply safe_with; [exact E5|]. apply inside_scatter; lia.
Qed.

Lemma fraction_bounds h k : 0 <= h -> 0 < k -> 0 <= h / k <= h.
Proof. intros. split; [by apply Z.div_pos|]. apply Z.div_le_upper_bound; nia. Qed.

Lemma space_ok g : screen_ok g -> 1 <= width g -> 1 <= height g -> exists g', draw_background_space g = Ret g' /\ draws anywhere any_colour g g'.
Proof.
  intros Hg Hw Hh. pose proof Hg as [Gw Gh]. unfold draw_background_space. set (h := height g) in *. set (w := width g) in *.
  destruct (part_ok h 3 4) as [E1 C1]; [lia..|]. pose proof (fraction_bounds h 4). pose proof (fraction_bounds h 2).
  apply safe_at; [exact Hg|]. paint; try (apply inside_gradient_v; lia). eapply safe_with; [exact E1|]. paint; [apply inside_gradient_v; lia|apply inside_bright_stars; lia].
Qed.

Lemma aurora_ok g : screen_ok g -> 1 <= width g -> 1 <= height g -> exists g', draw_background_aurora g = Ret g' /\ draws anywhere any_colour g g'.
Proof.
  intros Hg Hw Hh. pose proof Hg as [Gw Gh]. unfold draw_background_aurora. set (h := height g) in *. set (w := width g) in *.
  destruct (part_ok h 2 5) as [E1 C1]; [lia..|]. pose proof (fraction_bounds h 5).
  apply safe_at; [exact Hg|]. paint; [apply inside_gradient_v; lia|apply inside_band; lia|]. eapply safe_with; [exact E1|]. paint; [apply inside_band; lia|apply inside_scatter; lia].
Qed.

Lemma geometric_ok g : screen_ok g -> exists g', draw_background_geometric g = Ret g' /\ draws anywhere any_colour g g'.
Proof.
  intros Hg. pose proof Hg as [Gw Gh]. unfold draw_background_geometric. set (h := height g) in *. set (w := width g) in *. rewrite !(as_i64_ok h), !(as_i64_ok w) by lia.
  pose proof (stride_fuel w 80). pose proof (stride_fuel h 80). pose proof (stride_fuel (w - - h) 160).
  apply safe_at; [exact Hg|]. paint; [apply inside_gradient_v; lia|apply safe_stride; [lia|lia|intros; paint]..|apply safe_stride; [lia|lia|intros; paint]|apply inside_dots; lia].
Qed.

Lemma wallpaper_pixel_ok pixels wi hi sx sy g : screen_ok g -> on g sx sy -> 0 <= wi < 2 ^ 16 -> 0 <= hi < 2 ^ 16 ->
  exists g', wallpaper_pixel pixels wi hi sx sy g = Ret g' /\ draws anywhere any_colour g g'.
Proof.
  intros Hg Ho Hwi Hhi. pose proof Hg as [Gw Gh]. pose proof Ho as [Hx Hy]. unfold wallpaper_pixel, div_checked.
  rewrite (u64c_ok (sy * hi)) by (unfold u64_max; nia). cbn [mbind outcome_mbind]. rewrite (proj2 (Z.eqb_neq (height g) 0)) by lia. cbn [mbind outcome_mbind].
  rewrite (u64c_ok (sx * wi)) by (unfold u64_max; nia). cbn [mbind outcome_mbind]. rewrite (proj2 (Z.eqb_neq (width g) 0)) by lia. cbn [mbind outcome_mbind].
  assert (0 <= sy * hi / height g <= hi) as B1 by (split; [apply Z.div_pos; nia|apply Z.div_le_upper_bound; nia]).
  assert (0 <= sx * wi / width g <= wi) as B2 by (split; [apply Z.div_pos; nia|apply Z.div_le_upper_bound; nia]).
  set (py := sy * hi / height g) in *. set (px := sx * wi / width g) in *. clearbody py px. assert (0 <= py * wi <= 2 ^ 32) by nia.
  rewrite (u64c_ok (py * wi)) by (unfold u64_max; lia). cbn [mbind outcome_mbind]. rewrite u64c_ok by (unfold u64_max; lia). cbn [mbind outcome_mbind].
  rewrite u64c_ok by (unfold u64_max; lia). cbn [mbind outcome_mbind]. destruct (Z.ltb_spec ((py * wi + px) * 4 + 2) (Z.of_nat (length pixels))); [|exists g; split; [done|apply draws_refl]].
  destruct (idx_lt pixels (Z.to_nat ((py * wi + px) * 4))) as (r & -> & _); [lia|]. cbn [mbind outcome_mbind].
  destruct (idx_lt pixels (Z.to_nat ((py * wi + px) * 4 + 1))) as (v & -> & _); [lia|]. cbn [mbind outcome_mbind].
  destruct (idx_lt pixels (Z.to_nat ((py * wi + px) * 4 + 2))) as (b & -> & _); [lia|]. cbn [mbind outcome_mbind].
  rewrite pixel_offset_ok by done. eexists. split; [done|]. by apply draws_plotted.
Qed.

(** A loop keeps an invariant that each turn keeps. *)
Lemma for_up_inv (I : Z -> Graphics -> Prop) lo n f g : (forall i g, lo <= i < lo + Z.of_nat n -> I i g -> exists g', f i g = Ret g' /\ I (i + 1) g') -> I lo g ->
  exists g', for_up lo n f g = Ret g' /\ I (lo + Z.of_nat n) g'.
Proof.
  revert lo g. induction n as [|n IH]; intros lo g H HI; cbn [for_up].
  { exists g. split; [done|]. by rewrite Z.add_0_r. }
  destruct (H lo g) as (g1 & E1 & I1); [lia|done|]. unfold andthen. rewrite E1. cbn [mbind outcome_mbind].
  destruct (IH (lo + 1) g1) as (g2 & E2 & I2); [intros i g' Hi; apply H; lia|done|]. exists g2. split; [done|]. by replace (lo + Z.of_nat (S n)) with (lo + 1 + Z.of_nat n) by lia.
Qed.

Lemma image_ok k g : screen_ok g -> Forall (fun d => 0 <= d.1 < 2 ^ 16 /\ 0 <= d.2 < 2 ^ 16) dims ->
  exists g', draw_background_image rgb dims all_pixels k g = Ret g' /\ draws anywhere any_colour g g'.
Proof.
  intros Hg Hd. unfold draw_background_image. destruct (default (0, 0) (dims !! k)) as [wi hi] eqn:Ek.
  destruct ((wi =? 0) || (hi =? 0)); [by apply inside_desktop|]. destruct (default [] (all_pixels !! k)) as [|px pxs]; [by apply inside_desktop|].
  assert (0 <= wi < 2 ^ 16 /\ 0 <= hi < 2 ^ 16) as [Hwi Hhi].
  { destruct (dims !! k) as [d|] eqn:Ed; cbn in Ek; [subst; by apply (Forall_lookup_1 _ _ _ _ Hd Ed)|injection Ek as <- <-; lia]. }
  set (P := fun (_ : Z) (g' : Graphics) => draws anywhere any_colour g g').
  destruct (for_up_inv P 0 (Z.to_nat (height g)) (fun sy => for_up 0 (Z.to_nat (width g)) (fun sx => wallpaper_pixel (px :: pxs) wi hi sx sy)) g) as (g' & E & D); [|apply draws_refl|by exists g'].
  intros sy g1 Hsy D1. apply (for_up_inv P); [|done]. intros sx g2 Hsx D2. pose proof D2 as [(W & H & _) _].
  destruct (wallpaper_pixel_ok (px :: pxs) wi hi sx sy g2) as (g3 & E3 & D3); try done.
  { by apply (screen_ok_same g); [apply D2|]. }
  { unfold on. destruct Hg. rewrite W, H. lia. }
  exists g3. split; [done|]. by apply (draws_trans _ _ g g2).
Qed.

(** Every wallpaper, on a screen at least three pixels high, is drawn on the screen. *)
Lemma draw_background_ok style g : screen_ok g -> 1 <= width g -> 3 <= height g -> Forall (fun d => 0 <= d.1 < 2 ^ 16 /\ 0 <= d.2 < 2 ^ 16) dims ->
  exists g', draw_background rgb dims all_pixels style g = Ret g' /\ draws anywhere any_colour g g'.
Proof.
  intros Hg Hw Hh Hd. destruct style; cbn [draw_background]; first [by apply inside_desktop|by apply sunset_ok|apply space_ok; (done || lia)|apply aurora_ok; (done || lia)|by apply geometric_ok|by apply image_ok].
Qed.
End Wallpapers.

(** ** Saving and restoring *)

Lemma collect_ok {A} (v : Z -> A) lo n f : (forall i, lo <= i < lo + Z.of_nat n -> f i = Ret (v i)) ->
  collect lo n f = Ret ((fun k => v (lo + Z.of_nat k)) <$> seq 0 n).
Proof.
  revert lo. induction n as [|n IH]; intros lo H; cbn [collect]; [done|]. rewrite H by lia. cbn [mbind outcome_mbind].
  rewrite IH by (intros; apply H; lia). cbn [mbind outcome_mbind seq fmap list_fmap]. f_equal. f_equal; [by rewrite Z.add_0_r|].
  rewrite <- fmap_S_seq, <- list_fmap_compose. apply list_fmap_ext. intros _ k _. cbn. f_equal. lia.
Qed.

Definition saved_at (g : Graphics) (x y dx dy : Z) : Z := if decide (on g (x + dx) (y + dy)) then pixel g (x + dx) (y + dy) else 0.
Definition saved_area (g : Graphics) (x y : Z) : list (list Z) :=
  (fun j => (fun i => saved_at g x y (Z.of_nat i) (Z.of_nat j)) <$> seq 0 11) <$> seq 0 19.

Lemma save_cursor_area_ok g x y : screen_ok g -> - 2 ^ 40 <= x <= 2 ^ 40 -> - 2 ^ 40 <= y <= 2 ^ 40 -> save_cursor_area g x y = Ret (saved_area g x y).
Proof.
  intros Hg Hx Hy. unfold save_cursor_area. apply (collect_ok (fun dy => (fun i => saved_at g x y (Z.of_nat i) dy) <$> seq 0 11)). intros dy Hdy.
  apply (collect_ok (fun dx => saved_at g x y dx dy)). intros dx Hdx. unfold save_cell, saved_at. rewrite !i64c_ok by lia. cbn [mbind outcome_mbind].
  rewrite on_screen_spec by done. case_bool_decide; [rewrite decide_True by done; by rewrite pixel_offset_ok|by rewrite decide_False].
Qed.

Lemma saved_area_at g x y dx dy : 0 <= dx < 11 -> 0 <= dy < 19 ->
  exists row, idx (saved_area g x y) (Z.to_nat dy) = Ret row /\ idx row (Z.to_nat dx) = Ret (saved_at g x y dx dy).
Proof.
  intros Hx Hy. eexists. split.
  - apply idx_Ret. unfold saved_area. rewrite list_lookup_fmap, lookup_seq_lt by lia. reflexivity.
  - apply idx_Ret. rewrite list_lookup_fmap, lookup_seq_lt by lia. cbn. by rewrite !Z2Nat.id by lia.
Qed.

(** All of memory is as in [g0], but for pixels of the cursor's area in [S]. *)
Definition healed (g0 : Graphics) (S : Z -> Z -> Prop) (g : Graphics) : Prop :=
  same_size g0 g /\ forall o, rd (back_buffer g) o = rd (back_buffer g0) o \/ exists a b, S a b /\ on g0 a b /\ o = cell g0 a b.

Lemma healed_weaken g0 (S S' : Z -> Z -> Prop) g : (forall a b, S a b -> S' a b) -> healed g0 S g -> healed g0 S' g.
Proof. intros HS [E H]. split; [done|]. intros o. destruct (H o) as [?|(a & b & ? & ?)]; [by left|right; exists a, b; auto]. Qed.

Lemma restore_cell_ok g0 g x y dx dy (S : Z -> Z -> Prop) : screen_ok g0 -> - 2 ^ 40 <= x <= 2 ^ 40 -> - 2 ^ 40 <= y <= 2 ^ 40 -> 0 <= dx < 11 -> 0 <= dy < 19 ->
  healed g0 S g -> exists g', restore_cell x y (saved_area g0 x y) dx dy g = Ret g' /\ healed g0 (fun a b => S a b /\ ~ (a = x + dx /\ b = y + dy)) g'.
Proof.
  intros Hg Hx Hy Hdx Hdy [Ss H]. pose proof Ss as (W & Hh & _). assert (screen_ok g) as Hg' by (by apply (screen_ok_same g0)).
  unfold restore_cell, with_. rewrite !i64c_ok by lia. cbn [mbind outcome_mbind]. rewrite on_screen_spec by done. destruct (saved_area_at g0 x y dx dy Hdx Hdy) as (row & -> & E2).
  cbn [mbind outcome_mbind]. rewrite E2. cbn [mbind outcome_mbind]. assert (on g (x + dx) (y + dy) <-> on g0 (x + dx) (y + dy)) as Hon by (unfold on; by rewrite W, Hh).
  case_bool_decide as Ho.
  - rewrite put_pixel_on by done. eexists. split; [done|]. split; [done|]. intros o. cbn. assert (cell g (x + dx) (y + dy) = cell g0 (x + dx) (y + dy)) as -> by (unfold cell; by rewrite W).
    rewrite rd_wr. apply Hon in Ho. destruct (decide _) as [<-|Hne].
    + left. unfold saved_at. by rewrite decide_True.
    + destruct (H o) as [?|(a & b & ? & ? & ->)]; [by left|right]. exists a, b. split; [|done]. split; [done|]. intros [-> ->]. by apply Hne.
  - exists g. split; [done|]. split; [done|]. intros o. destruct (H o) as [?|(a & b & ? & Hab & ->)]; [by left|right]. exists a, b. split; [|done]. split; [done|].
    intros [-> ->]. by apply Ho, Hon.
Qed.

(** A loop that keeps restoring leaves only the cells it has not come to. *)
Lemma restore_ok g0 g x y : screen_ok g0 -> - 2 ^ 40 <= x <= 2 ^ 40 -> - 2 ^ 40 <= y <= 2 ^ 40 -> healed g0 (cursor_area x y) g ->
  exists g', restore_cursor_area x y (saved_area g0 x y) g = Ret g' /\ healed g0 (fun _ _ => False) g'.
Proof.
  intros Hg Hx Hy H. unfold restore_cursor_area.
  destruct (for_up_inv (fun dy => healed g0 (fun a b => cursor_area x y a b /\ y + dy <= b)) 0 19 (fun dy => for_up 0 11 (fun dx => restore_cell x y (saved_area g0 x y) dx dy)) g)
    as (g' & E & H'); [| |exists g'; split; [done|]; (eapply healed_weaken; [|exact H']; unfold cursor_area; cbn; intros; lia)].
  - intros dy g1 Hdy H1. destruct (for_up_inv (fun dx => healed g0 (fun a b => cursor_area x y a b /\ (y + dy < b \/ b = y + dy /\ x + dx <= a))) 0 11
      (fun dx => restore_cell x y (saved_area g0 x y) dx dy) g1) as (g2 & E2 & H2).
    + intros dx g2 Hdx H2. destruct (restore_cell_ok g0 g2 x y dx dy _ Hg Hx Hy ltac:(lia) ltac:(lia) H2) as (g3 & E3 & H3). exists g3. split; [done|].
      (eapply healed_weaken; [|exact H3]; unfold cursor_area; cbn; intros; lia).
    + (eapply healed_weaken; [|exact H1]; unfold cursor_area; cbn; intros; lia).
    + exists g2. split; [done|]. (eapply healed_weaken; [|exact H2]; unfold cursor_area; cbn; intros; lia).
  - (eapply healed_weaken; [|exact H]; unfold cursor_area; cbn; intros; lia).
Qed.

(** ** Rectangles of pixels *)

(** Place [c] of row [r] in a buffer with rows of [w]. *)
Definition slot (w r c : Z) : nat := Z.to_nat (r * w + c).
Lemma cell_slot_inj w r c r' c' : 0 <= r -> 0 <= r' -> 0 <= c < w -> 0 <= c' < w -> slot w r c = slot w r' c' -> r = r' /\ c = c'.
Proof. intros ? ? ? ?. unfold slot. intros E. assert (r * w + c = r' * w + c') by nia. assert (r = r') by nia. subst. lia. Qed.
Lemma slot_lt w h r c : 0 <= r < h -> 0 <= c < w -> (slot w r c < Z.to_nat (w * h))%nat.
Proof. intros. unfold slot. nia. Qed.

Lemma read_cols_ok g x sy w h row n col dst : screen_ok g -> 0 <= x <= 2 ^ 40 -> 0 <= sy < height g -> 0 <= row < h -> 0 <= w <= 2 ^ 31 -> h <= 2 ^ 31 ->
  0 <= col -> col + Z.of_nat n = w -> length dst = Z.to_nat (w * h) ->
  exists dst', read_cols g x sy w row col n dst = Ret dst' /\ length dst' = length dst /\
    forall r c, 0 <= r -> 0 <= c < w -> dst' !! slot w r c = if decide (r = row /\ col <= c /\ x + c < width g) then Some (pixel g (x + c) sy) else dst !! slot w r c.
Proof.
  intros Hg Hx Hsy Hrow Hw Hh. revert col dst. induction n as [|n IH]; intros col dst Hc Hn Hl; cbn [read_cols].
  { exists dst. split_and!; [done..|]. intros r c ? ?. by rewrite decide_False by lia. }
  rewrite (u64c_ok (x + col)) by (unfold u64_max; lia). cbn [mbind outcome_mbind]. destruct (Z.leb_spec (width g) (x + col)).
  { exists dst. split_and!; [done..|]. intros r c ? ?. by rewrite decide_False by lia. }
  rewrite (u64c_ok (row * w)) by (unfold u64_max; nia). cbn [mbind outcome_mbind]. rewrite u64c_ok by (unfold u64_max; nia). cbn [mbind outcome_mbind].
  assert (slot w row col < length dst)%nat as Hlt by (rewrite Hl; apply slot_lt; lia). unfold slot in Hlt. rewrite (proj2 (Z.ltb_lt _ _)) by nia.
  rewrite pixel_offset_ok by (done || (unfold on; lia)). cbn [mbind outcome_mbind]. rewrite set_idx_lt by done. cbn [mbind outcome_mbind].
  destruct (IH (col + 1) (<[slot w row col := pixel g (x + col) sy]> dst)) as (dst' & E & L & H'); [lia|lia|by rewrite length_insert|].
  exists dst'. split; [exact E|]. split; [by rewrite L, length_insert|]. intros r c Hr Hcw. rewrite H' by done.
  destruct (decide (r = row /\ c = col)) as [[-> ->]|Hne].
  - rewrite decide_False by lia. rewrite decide_True by lia. by apply list_lookup_insert_eq.
  - rewrite list_lookup_insert_ne by (intros Eq; apply Hne; apply cell_slot_inj in Eq; lia).
    destruct (decide (r = row /\ col + 1 <= c /\ x + c < width g)); [by rewrite decide_True by lia|by rewrite decide_False by lia].
Qed.

Lemma read_rows_ok g x y w h n row dst : screen_ok g -> 0 <= x <= 2 ^ 40 -> 0 <= y <= 2 ^ 40 -> 0 <= w <= 2 ^ 31 -> 0 <= h <= 2 ^ 31 ->
  0 <= row -> row + Z.of_nat n = h -> length dst = Z.to_nat (w * h) ->
  exists dst', read_rows g x y w row n dst = Ret dst' /\ length dst' = length dst /\
    forall r c, 0 <= r < h -> 0 <= c < w -> dst' !! slot w r c = if decide (row <= r /\ on g (x + c) (y + r)) then Some (pixel g (x + c) (y + r)) else dst !! slot w r c.
Proof.
  intros Hg Hx Hy Hw Hh. revert row dst. induction n as [|n IH]; intros row dst Hrow Hn Hl; cbn [read_rows].
  { exists dst. split_and!; [done..|]. intros r c ? ?. by rewrite decide_False by lia. }
  rewrite u64c_ok by (unfold u64_max; lia). cbn [mbind outcome_mbind]. destruct (Z.leb_spec (height g) (y + row)).
  { exists dst. split_and!; [done..|]. intros r c ? ?. rewrite decide_False; [done|]. intros [? [_ ?]]. lia. }
  destruct (read_cols_ok g x (y + row) w h row (Z.to_nat w) 0 dst) as (d1 & -> & L1 & H1); try done; try lia. cbn [mbind outcome_mbind].
  destruct (IH (row + 1) d1) as (d2 & E & L2 & H2); [lia|lia|by rewrite L1|]. exists d2. split; [done|]. split; [congruence|]. intros r c Hr Hc.
  rewrite H2, H1 by lia. unfold on. destruct (decide (row + 1 <= r /\ _)) as [[? ?]|Hd]; [by rewrite decide_True by lia|].
  destruct (decide (r = row /\ 0 <= c /\ x + c < width g)) as [(-> & ? & ?)|]; [by rewrite decide_True by lia|by rewrite decide_False by lia].
Qed.

(** Writing sets the pixels of the rectangle that are on the screen, and touches nothing else. *)
Definition blitted (x y w h : Z) (src : list Z) (g g' : Graphics) : Prop :=
  same_size g g' /\
  (forall a b, on g a b -> Some (pixel g' a b) = if decide (x <= a < x + w /\ y <= b < y + h) then src !! slot w (b - y) (a - x) else Some (pixel g a b)) /\
  forall o, (forall a b, on g a b -> o <> cell g a b) -> rd (back_buffer g') o = rd (back_buffer g) o.

Lemma write_cols_ok x dy w h row src n col g : screen_ok g -> 0 <= x <= 2 ^ 40 -> 0 <= dy < height g -> 0 <= row < h -> 0 <= w <= 2 ^ 31 -> h <= 2 ^ 31 ->
  0 <= col -> col + Z.of_nat n = w -> length src = Z.to_nat (w * h) ->
  exists g', write_cols x dy w row src col n g = Ret g' /\ same_size g g' /\
    (forall a b, on g a b -> Some (pixel g' a b) = if decide (b = dy /\ x + col <= a < x + w) then src !! slot w row (a - x) else Some (pixel g a b)) /\
    forall o, (forall a b, on g a b -> o <> cell g a b) -> rd (back_buffer g') o = rd (back_buffer g) o.
Proof.
  intros Hg Hx Hdy Hrow Hw Hh. revert col g Hg Hdy. induction n as [|n IH]; intros col g Hg Hdy Hc Hn Hl; cbn [write_cols].
  { exists g. split_and!; [done..| |done]. intros a b Hab. by rewrite decide_False by lia. }
  rewrite (u64c_ok (x + col)) by (unfold u64_max; lia). cbn [mbind outcome_mbind]. destruct (Z.leb_spec (width g) (x + col)).
  { exists g. split_and!; [done..| |done]. intros a b [? ?]. by rewrite decide_False by lia. }
  rewrite (u64c_ok (row * w)) by (unfold u64_max; nia). cbn [mbind outcome_mbind]. rewrite u64c_ok by (unfold u64_max; nia). cbn [mbind outcome_mbind].
  assert (slot w row col < length src)%nat as Hlt by (rewrite Hl; apply slot_lt; lia).
  assert ((row * w + col <? Z.of_nat (length src)) = true) as -> by (apply Z.ltb_lt; unfold slot in Hlt; nia).
  assert (on g (x + col) dy) as Ho by (unfold on; lia). rewrite pixel_offset_ok by done. cbn [mbind outcome_mbind].
  destruct (idx_lt src (slot w row col) Hlt) as (v & Ev & Hv). unfold slot in Ev at 1. rewrite Ev. cbn [mbind outcome_mbind].
  destruct (IH (col + 1) (plotted g (x + col) dy v)) as (g' & E & S & D & U); try done; try lia. exists g'. split; [exact E|]. split; [exact S|]. split.
  - intros a b Hab. rewrite D by done. destruct (decide (b = dy /\ x + (col + 1) <= a < x + w)); [by rewrite decide_True by lia|].
    unfold pixel at 1. unfold plotted. cbn. rewrite rd_wr. change (cell (set_back g _) a b) with (cell g a b). destruct (decide (cell g (x + col) dy = cell g a b)) as [Ec|Ec].
    + apply cell_inj in Ec as [<- <-]; [|done..]. rewrite decide_True by lia. replace (x + col - x) with col by lia. done.
    + rewrite decide_False; [done|]. intros [-> ?]. apply Ec. f_equal. lia.
  - intros o Hoo. rewrite U by done. cbn. rewrite rd_wr. destruct (decide _) as [<-|]; [|done]. by apply Hoo in Ho.
Qed.

Lemma write_rect_ok x y w h src g : screen_ok g -> 0 <= x <= 2 ^ 40 -> 0 <= y <= 2 ^ 40 -> 0 <= w <= 2 ^ 31 -> 0 <= h <= 2 ^ 31 -> length src = Z.to_nat (w * h) ->
  exists g', write_rect x y w h src g = Ret g' /\ blitted x y w h src g g'.
Proof.
  intros Hg Hx Hy Hw Hh Hl. unfold write_rect.
  assert (forall n row g, screen_ok g -> 0 <= row -> row + Z.of_nat n = h -> exists g', write_rows x y w src row n g = Ret g' /\ same_size g g' /\
    (forall a b, on g a b -> Some (pixel g' a b) = if decide (x <= a < x + w /\ y + row <= b < y + h) then src !! slot w (b - y) (a - x) else Some (pixel g a b)) /\
    forall o, (forall a b, on g a b -> o <> cell g a b) -> rd (back_buffer g') o = rd (back_buffer g) o) as H.
  2: { destruct (H (Z.to_nat h) 0 g) as (g' & E & S & D & U); [done|lia|lia|]. rewrite Z.add_0_r in D. exists g'. done. }
  clear g Hg. induction n as [|n IH]; intros row g Hg Hrow Hn; cbn [write_rows].
  { exists g. split_and!; [done..| |done]. intros a b Hab. by rewrite decide_False by lia. }
  rewrite u64c_ok by (unfold u64_max; lia). cbn [mbind outcome_mbind]. destruct (Z.leb_spec (height g) (y + row)).
  { exists g. split_and!; [done..| |done]. intros a b [? ?]. by rewrite decide_False by lia. }
  destruct (write_cols_ok x (y + row) w h row src (Z.to_nat w) 0 g) as (g1 & -> & S1 & D1 & U1); try done; try lia. cbn [mbind outcome_mbind].
  pose proof S1 as (W1 & H1 & P1 & F1). destruct (IH (row + 1) g1) as (g2 & E & (W2 & H2 & P2 & F2) & D2 & U2); [by apply (screen_ok_same g)|lia|lia|].
  exists g2. split; [done|]. split; [unfold same_size; by rewrite W2, H2, P2, F2|]. unfold on, cell in *. rewrite W1, H1 in *. split.
  - intros a b Hab. rewrite D2 by done. rewrite Z.add_0_r in D1. destruct (decide (x <= a < x + w /\ y + (row + 1) <= b < y + h)); [by rewrite decide_True by lia|].
    rewrite D1 by done. destruct (decide (b = y + row /\ x <= a < x + w)) as [[-> ?]|]; [rewrite decide_True by lia; by replace (y + row - y) with row by lia|by rewrite decide_False by lia].
  - intros o Ho. by rewrite U2, U1.
Qed.

(** ** The framebuffer *)

Lemma rd_copy_cells src dst a d n i : rd (copy_cells src dst a d n) i = if decide (d <= i < d + Z.of_nat n) then rd src (a + (i - d)) else rd dst i.
Proof.
  revert dst a d. induction n as [|n IH]; intros dst a d; cbn [copy_cells]; [by rewrite decide_False by lia|].
  rewrite IH, rd_wr. destruct (decide (d = i)) as [->|]; [rewrite decide_False by lia; rewrite decide_True by lia; f_equal; lia|].
  destruct (decide (d + 1 <= i < d + 1 + Z.of_nat n)); [rewrite decide_True by lia; f_equal; lia|by rewrite decide_False by lia].
Qed.

(** The framebuffer shows the rows of the back buffer from [y] on, and keeps the padding. *)
Definition shows (y n : Z) (g g' : Graphics) : Prop :=
  width g' = width g /\ height g' = height g /\ pitch g' = pitch g /\ back_buffer g' = back_buffer g /\
  forall a b, 0 <= a < pitch_pixels g -> 0 <= b ->
    rd (framebuffer g') (b * pitch_pixels g + a) = if decide (a < width g /\ y <= b < y + n) then pixel g a b else rd (framebuffer g) (b * pitch_pixels g + a).

Lemma present_rows_ok n y g : screen_ok g -> width g <= pitch_pixels g < 2 ^ 32 -> 0 <= y -> y + Z.of_nat n <= height g ->
  exists g', present_rows y n g = Ret g' /\ shows y (Z.of_nat n) g g'.
Proof.
  revert y g. induction n as [|n IH]; intros y g Hg Hp Hy Hn; cbn [present_rows].
  { exists g. split; [done|]. split_and!; try done. intros a b _ _. by rewrite decide_False by lia. }
  pose proof Hg as [Gw Gh]. rewrite !u64c_ok by (unfold u64_max; nia). cbn [mbind outcome_mbind].
  set (g1 := set_front g _). destruct (IH (y + 1) g1) as (g2 & E & W & H & P & B & D); [done|done|lia|cbn; lia|].
  exists g2. split; [exact E|]. split_and!; try done. intros a b Ha Hb. change (pitch_pixels g) with (pitch_pixels g1). rewrite D by done. change (pixel g1 a b) with (pixel g a b).
  change (width g1) with (width g). change (pitch_pixels g1) with (pitch_pixels g). destruct (decide (a < width g /\ y + 1 <= b < y + 1 + Z.of_nat n)); [by rewrite decide_True by lia|].
  unfold g1. cbn [framebuffer set_front]. rewrite rd_copy_cells, Z2Nat.id by lia.
  destruct (decide (a < width g /\ b = y)) as [[? ->]|Hne].
  - rewrite !decide_True by lia. unfold pixel, cell. f_equal. lia.
  - rewrite (decide_False (P := y * pitch_pixels g <= _ < _)); [by rewrite decide_False by lia|]. intros Hin. apply Hne. assert (b = y) by nia. subst. lia.
Qed.

(** ** Properties *)

(** What can be drawn. *)
Inductive shape :=
| SScreen (c : Z) | SPixel (x y c : Z) | SAlpha (x y c : Z) | SRect (x y w h c : Z) | SFrame (x y w h c t : Z) | SLine (x0 y0 x1 y1 c : Z) | SCircle (x y r c : Z)
| SRounded (x y w h r c : Z) | SOutline (x y w h r c t : Z) | SShadow (x y w h r strength : Z) | SCursor (x y c : Z) | SClear (x y c : Z)
| SGradientV (x y w h a b : Z) | SGradientH (x y w h a b : Z) | SBar (x y w h pct a b c : Z) | SWallpaper (style : window_manager.BackgroundStyle).

Section Shapes.
Context (rgb : Z -> Z -> Z -> Z) (dims : list (Z * Z)) (pixels : list (list Z)).
Definition draw (s : shape) : paint :=
  match s with
  | SScreen c => clear_screen c
  | SPixel x y c => put_pixel x y c
  | SAlpha x y c => put_pixel_alpha_safe rgb x y c
  | SRect x y w h c => fill_rect x y w h c
  | SFrame x y w h c t => draw_rect x y w h c t
  | SLine x0 y0 x1 y1 c => draw_line x0 y0 x1 y1 c
  | SCircle x y r c => draw_circle x y r c
  | SRounded x y w h r c => fill_rounded_rect x y w h r c
  | SOutline x y w h r c t => draw_rounded_rect x y w h r c t
  | SShadow x y w h r st => draw_soft_shadow x y w h r st
  | SCursor x y c => draw_cursor x y c
  | SClear x y c => clear_cursor x y c
  | SGradientV x y w h a b => fill_rect_gradient_v x y w h a b
  | SGradientH x y w h a b => fill_rect_gradient_h x y w h a b
  | SBar x y w h pct a b c => draw_progress_bar x y w h pct a b c
  | SWallpaper style => draw_background rgb dims pixels style
  end.
Fixpoint draw_all (l : list shape) : paint :=
  match l with
  | [] => done_
  | s :: l => draw s >> draw_all l
  end.

Definition coord (v : Z) : Prop := 0 <= v < 2 ^ 31.
Definition signed (v : Z) : Prop := - 2 ^ 31 <= v < 2 ^ 31.
(** Coordinates of 31 bits, radii that fit a square, and outlines that are not empty. *)
Definition shape_ok (s : shape) : Prop :=
  match s with
  | SPixel x y _ => coord x /\ coord y
  | SAlpha x y _ | SCursor x y _ | SClear x y _ => signed x /\ signed y
  | SRect x y w h _ | SGradientV x y w h _ _ | SGradientH x y w h _ _ => coord x /\ coord y /\ coord w /\ coord h
  | SFrame x y w h _ t => coord x /\ coord y /\ coord w /\ coord h /\ coord t
  | SLine x0 y0 x1 y1 _ => signed x0 /\ signed y0 /\ signed x1 /\ signed y1
  | SCircle x y r _ => signed x /\ signed y /\ coord r
  | SRounded x y w h r _ => coord x /\ coord y /\ coord w /\ coord h /\ 0 <= r <= 2 ^ 30
  | SOutline x y w h r _ t => coord x /\ coord y /\ coord w /\ coord h /\ 0 <= r <= 2 ^ 30 /\ 1 <= t <= 2 ^ 30 /\ t <= w /\ t <= h
  | SShadow x y w h r st => coord x /\ coord y /\ coord w /\ coord h /\ 0 <= r <= 2 ^ 20 /\ 0 <= st <= 255
  | SBar x y w h pct _ _ _ => coord x /\ coord y /\ coord w /\ coord h /\ 0 <= pct <= 255
  | SScreen _ | SWallpaper _ => True
  end.

Lemma draw_shape_ok s g : screen_ok g -> 1 <= width g -> 3 <= height g -> Forall (fun d => 0 <= d.1 < 2 ^ 16 /\ 0 <= d.2 < 2 ^ 16) dims -> shape_ok s ->
  exists g', draw s g = Ret g' /\ draws anywhere any_colour g g'.
Proof.
  intros Hg Hw Hh Hd Hs. destruct s; cbn [draw shape_ok] in *; unfold coord, signed in *; destruct_and?; try (by apply draw_background_ok).
  - by apply inside_clear_screen.
  - apply safe_put_pixel; (lia || done).
  - unfold put_pixel_alpha_safe. rewrite on_screen_spec by done. case_bool_decide as Ho; [|exists g; split; [done|apply draws_refl]]. destruct Ho. apply safe_put_pixel_alpha; (lia || done).
  - apply safe_fill_rect; (lia || done).
  - apply inside_draw_rect; (lia || done).
  - apply safe_draw_line; (lia || done).
  - apply inside_circle; (lia || done).
  - apply inside_fill_rounded; (lia || done).
  - pose proof (radius_bounds r w h ltac:(lia) ltac:(lia) ltac:(lia)) as (? & ? & ?). apply inside_draw_rounded; (lia || done).
  - apply inside_shadow; (lia || done).
  - apply (safe_at anywhere any_colour); [done|]. apply (safe_weaken (cursor_area x y) _ any_colour); [done..|]. apply safe_draw_cursor; lia.
  - apply inside_clear_cursor; (lia || done).
  - apply inside_gradient_v; (lia || done).
  - apply inside_gradient_h; (lia || done).
  - apply inside_progress; (lia || done).
Qed.

End Shapes.

(** C23: A line ends, and it is straight: every pixel it changes has the line's colour and lies
    within half a pixel of the ideal line between its end points, and both end points are
    painted when they are on the screen. *)
Theorem lines_are_straight x0 y0 x1 y1 c g (S : screen_ok g) (X0 : signed x0) (Y0 : signed y0) (X1 : signed x1) (Y1 : signed y1) :
  exists g', draw_line x0 y0 x1 y1 c g = Ret g' /\ draws (on_line x0 y0 x1 y1) (eq c) g g' /\
    (on g x0 y0 -> pixel g' x0 y0 = c) /\ (on g x1 y1 -> pixel g' x1 y1 = c).
Proof. unfold signed in *. apply draw_line_ok; (done || lia). Qed.

(** Moving the mouse leaves no trace: saving the area under the cursor, drawing the cursor
    there, also partly off the screen, and restoring the area gives back every word of memory. *)
Theorem the_cursor_leaves_no_trace x y c g (S : screen_ok g) (X : signed x) (Y : signed y) :
  exists saved g1 g2, save_cursor_area g x y = Ret saved /\ draw_cursor x y c g = Ret g1 /\ restore_cursor_area x y saved g1 = Ret g2 /\
    same_size g g2 /\ forall o, rd (back_buffer g2) o = rd (back_buffer g) o.
Proof.
  unfold signed in *. destruct (safe_draw_cursor x y c ltac:(lia) ltac:(lia) g S) as (g1 & E1 & S1 & D1).
  destruct (restore_ok g g1 x y S ltac:(lia) ltac:(lia)) as (g2 & E2 & S2 & D2).
  { split; [done|]. intros o. destruct (D1 o) as [?|(_ & a & b & ?)]; [by left|right; by exists a, b]. }
  exists (saved_area g x y), g1, g2. split; [apply save_cursor_area_ok; (done || lia)|]. split_and!; try done. intros o. by destruct (D2 o) as [?|(a & b & [] & _)].
Qed.

(** A rectangle of pixels read from the screen and written back, whatever was drawn in
    between, shows again exactly what it showed, also where the rectangle leaves the screen,
    and writing it touches nothing outside the rectangle. *)
Theorem a_snapshot_is_restored x y w h dst g g1 (S : screen_ok g) (S1 : same_size g g1) (X : coord x) (Y : coord y) (W : coord w) (H : coord h)
    (L : length dst = Z.to_nat (w * h)) :
  exists saved g2, read_rect g x y w h dst = Ret saved /\ write_rect x y w h saved g1 = Ret g2 /\
    forall a b, on g a b -> pixel g2 a b = if decide (x <= a < x + w /\ y <= b < y + h) then pixel g a b else pixel g1 a b.
Proof.
  unfold coord in *. destruct (read_rows_ok g x y w h (Z.to_nat h) 0 dst S) as (saved & E & Ls & Hs); [lia..|done|].
  destruct (write_rect_ok x y w h saved g1) as (g2 & E2 & _ & D2 & _); [by apply (screen_ok_same g)|lia..|congruence|].
  exists saved, g2. split; [exact E|]. split; [exact E2|]. intros a b Hab. pose proof S1 as (W1 & H1 & _). pose proof (D2 a b) as Eq.
  assert (on g1 a b) as Hab1 by (unfold on in *; by rewrite W1, H1). specialize (Eq Hab1). destruct (decide (x <= a < x + w /\ y <= b < y + h)) as [[? ?]|]; [|by injection Eq].
  rewrite Hs in Eq by lia. replace (x + (a - x)) with a in Eq by lia. replace (y + (b - y)) with b in Eq by lia. rewrite decide_True in Eq by (split; [lia|done]). by injection Eq.
Qed.

(** Presenting copies every pixel of the back buffer to its place in the framebuffer and
    leaves the padding at the end of the rows alone. *)
Theorem present_shows_the_back_buffer g (S : screen_ok g) (P : width g <= pitch_pixels g < 2 ^ 32) :
  exists g', present g = Ret g' /\ back_buffer g' = back_buffer g /\
    forall a b, 0 <= a < pitch_pixels g -> 0 <= b < height g ->
      rd (framebuffer g') (b * pitch_pixels g + a) = if decide (a < width g) then pixel g a b else rd (framebuffer g) (b * pitch_pixels g + a).
Proof.
  destruct (present_rows_ok (Z.to_nat (height g)) 0 g S P) as (g' & E & _ & _ & _ & B & D); [lia|destruct S; lia|]. exists g'. split; [exact E|]. split; [done|].
  intros a b Ha Hb. rewrite D by lia. destruct (decide (a < width g)); [by rewrite decide_True by lia|by rewrite decide_False by lia].
Qed.

(** ** A small screen *)

Definition small_screen : Graphics := mkGraphics ∅ ∅ 20 10 96.
Definition small_ok : screen_ok small_screen.
Proof. unfold screen_ok. cbn. lia. Qed.


Lemma lines_are_straight_witness :
  exists g', draw_line 2 1 17 8 255 small_screen = Ret g' /\ draws (on_line 2 1 17 8) (eq 255) small_screen g' /\
    (on small_screen 2 1 -> pixel g' 2 1 = 255) /\ (on small_screen 17 8 -> pixel g' 17 8 = 255).
Proof. apply lines_are_straight; [exact small_ok|unfold signed; lia..]. Defined.

Lemma the_cursor_leaves_no_trace_witness :
  exists saved g1 g2, save_cursor_area small_screen 14 (-5) = Ret saved /\ draw_cursor 14 (-5) 255 small_screen = Ret g1 /\ restore_cursor_area 14 (-5) saved g1 = Ret g2 /\
    same_size small_screen g2 /\ forall o, rd (back_buffer g2) o = rd (back_buffer small_screen) o.
Proof. apply the_cursor_leaves_no_trace; [exact small_ok|unfold signed; lia..]. Defined.

Lemma a_snapshot_is_restored_witness :
  exists saved g2, read_rect small_screen 15 6 8 8 (replicate 64 0) = Ret saved /\ write_rect 15 6 8 8 saved (set_back small_screen (fill_cells ∅ 0 200 7)) = Ret g2 /\
    forall a b, on small_screen a b -> pixel g2 a b =
      if decide (15 <= a < 15 + 8 /\ 6 <= b < 6 + 8) then pixel small_screen a b else pixel (set_back small_screen (fill_cells ∅ 0 200 7)) a b.
Proof. apply a_snapshot_is_restored; [exact small_ok|done|unfold coord; lia..|reflexivity]. Defined.

Lemma present_shows_the_back_buffer_witness :
  exists g', present small_screen = Ret g' /\ back_buffer g' = back_buffer small_screen /\
    forall a b, 0 <= a < pitch_pixels small_screen -> 0 <= b < height small_screen ->
      rd (framebuffer g') (b * pitch_pixels small_screen + a) =
      if decide (a < width small_screen) then pixel small_screen a b else rd (framebuffer small_screen) (b * pitch_pixels small_screen + a).
Proof. apply present_shows_the_back_buffer; [exact small_ok|]. vm_compute. split; congruence. Defined.

End graphics_spec.
