(* ===== verification/GuiProc.v ===== *)
(** * Windows of processes (kernel/src/kernel/gui/gui_proc.rs)

    Module [gui_proc] translates the table of windows that processes own: creating and
    destroying them, drawing in them, their event queues, and the copies of their contents
    that the desktop is composed from. It works on the window manager and the screen of the
    files before. The text renderer, the UTF-8 check and the physical memory of shared
    segments are arguments; the memory of the calling process is a map from addresses to
    bytes. *)

From stdpp Require Import base list gmap strings list_numbers sorting.
From Stdlib Require Import ZArith Lia.
From S2P Require Import Prelude RingBuffer FdTable WindowManager Graphics.

Local Open Scope Z_scope.

Module gui_proc.

(* @src gui/gui_proc.rs 29-32 MAX_ENTRIES *)
Definition MAX_ENTRIES : nat := 12.
Definition EVENT_RING_SIZE : nat := 64.
Definition TITLE_BUF_LEN : nat := 64.
Definition TITLE_BAR_H : Z := 34.

(* @src gui/gui_proc.rs 36-40 GUI_EVENT_KEY *)
Definition GUI_EVENT_KEY : Z := 0.
Definition GUI_EVENT_MOUSE_MOVE : Z := 1.
Definition GUI_EVENT_MOUSE_BTN : Z := 2.
Definition GUI_EVENT_FOCUS : Z := 3.
Definition GUI_EVENT_CLOSE : Z := 4.

(* @src gui/gui_proc.rs 46-49 GuiEventRaw *)
Record GuiEventRaw := mkEvent { kind : Z; data : list Z }.
(* @src gui/gui_proc.rs 52-52 GuiEventRaw::zero *)
Definition zero : GuiEventRaw := mkEvent 0 (replicate 12 0).
(** The bytes [bs] and zeroes up to twelve. *)
Definition padded (bs : list Z) : list Z := bs ++ replicate (12 - length bs) 0.
(* @src gui/gui_proc.rs 54-58 GuiEventRaw::key *)
Definition key (ch : Z) : GuiEventRaw := mkEvent GUI_EVENT_KEY (padded [ch]).
(* @src gui/gui_proc.rs 60-65 GuiEventRaw::mouse_move *)
Definition mouse_move (x y : Z) : GuiEventRaw :=
  mkEvent GUI_EVENT_MOUSE_MOVE (padded [wrap 8 x; wrap 8 (Z.shiftr x 8); wrap 8 y; wrap 8 (Z.shiftr y 8)]).
(* @src gui/gui_proc.rs 67-74 GuiEventRaw::mouse_btn *)
Definition mouse_btn (x y button : Z) (pressed : bool) : GuiEventRaw :=
  mkEvent GUI_EVENT_MOUSE_BTN (padded [wrap 8 x; wrap 8 (Z.shiftr x 8); wrap 8 y; wrap 8 (Z.shiftr y 8); button; if pressed then 1 else 0]).
(* @src gui/gui_proc.rs 76-80 GuiEventRaw::focus *)
Definition focus (gained : bool) : GuiEventRaw := mkEvent GUI_EVENT_FOCUS (padded [if gained then 1 else 0]).
(* @src gui/gui_proc.rs 82-82 GuiEventRaw::close *)
Definition close : GuiEventRaw := mkEvent GUI_EVENT_CLOSE (padded []).

(* @src gui/gui_proc.rs 87-103 GprocEntry *)
Record GprocEntry := mkEntry {
  active : bool;
  window_id : Z;
  pid : Z;
  events : list GuiEventRaw;
  head : nat;
  tail : nat;
  backing : list Z;
  back_w : Z;
  back_h : Z;
  back_cx : Z;
  back_cy : Z;
}.
Definition set_ring (e : GprocEntry) (evs : list GuiEventRaw) (h t : nat) : GprocEntry :=
  mkEntry (active e) (window_id e) (pid e) evs h t (backing e) (back_w e) (back_h e) (back_cx e) (back_cy e).
Definition set_backing (e : GprocEntry) (b : list Z) (w h cx cy : Z) : GprocEntry :=
  mkEntry (active e) (window_id e) (pid e) (events e) (head e) (tail e) b w h cx cy.
(* @src gui/gui_proc.rs 106-121 GprocEntry::empty *)
Definition empty : GprocEntry := mkEntry false 0 0 (replicate EVENT_RING_SIZE zero) 0 0 [] 0 0 0 0.
(* @src gui/gui_proc.rs 123-128 GprocEntry::push *)
Definition push (ev : GuiEventRaw) (e : GprocEntry) : outcome GprocEntry :=
  let next := ((tail e + 1) mod EVENT_RING_SIZE)%nat in
  if (next =? head e)%nat then Ret e
  else let! evs := set_idx (events e) (tail e) ev in Ret (set_ring e evs (head e) next).
(* @src gui/gui_proc.rs 130-135 GprocEntry::pop *)
Definition pop (e : GprocEntry) : outcome (option GuiEventRaw * GprocEntry) :=
  if (head e =? tail e)%nat then Ret (None, e)
  else let! ev := idx (events e) (head e) in Ret (Some ev, set_ring e (events e) ((head e + 1) mod EVENT_RING_SIZE)%nat (tail e)).

Definition KEY_RING_SIZE : nat := 128.
(** The statics of the module; [WM_PTR] and [GFX_PTR] are null before [init]. *)
(* @src gui/gui_proc.rs 142-177 ENTRIES, TITLE_BUFS, WM_PTR, GFX_PTR, KEY_RING *)
Record gui := mkGui {
  ENTRIES_INIT : bool;
  ENTRIES : list GprocEntry;
  TITLE_BUFS : list (list Z);
  TITLE_LENS : list nat;
  WM : option window_manager.WindowManager;
  GFX : option graphics.Graphics;
  KEY_RING : list Z;
  KEY_HEAD : nat;
  KEY_TAIL : nat;
  NEEDS_PRESENT : bool;
}.
Definition set_entries (s : gui) (l : list GprocEntry) : gui := mkGui (ENTRIES_INIT s) l (TITLE_BUFS s) (TITLE_LENS s) (WM s) (GFX s) (KEY_RING s) (KEY_HEAD s) (KEY_TAIL s) (NEEDS_PRESENT s).
Definition set_titles (s : gui) (b : list (list Z)) (l : list nat) : gui := mkGui (ENTRIES_INIT s) (ENTRIES s) b l (WM s) (GFX s) (KEY_RING s) (KEY_HEAD s) (KEY_TAIL s) (NEEDS_PRESENT s).
Definition set_wm (s : gui) (m : window_manager.WindowManager) : gui := mkGui (ENTRIES_INIT s) (ENTRIES s) (TITLE_BUFS s) (TITLE_LENS s) (Some m) (GFX s) (KEY_RING s) (KEY_HEAD s) (KEY_TAIL s) (NEEDS_PRESENT s).
Definition set_gfx (s : gui) (g : graphics.Graphics) : gui := mkGui (ENTRIES_INIT s) (ENTRIES s) (TITLE_BUFS s) (TITLE_LENS s) (WM s) (Some g) (KEY_RING s) (KEY_HEAD s) (KEY_TAIL s) (NEEDS_PRESENT s).
Definition set_keys (s : gui) (r : list Z) (h t : nat) : gui := mkGui (ENTRIES_INIT s) (ENTRIES s) (TITLE_BUFS s) (TITLE_LENS s) (WM s) (GFX s) r h t (NEEDS_PRESENT s).
Definition set_present (s : gui) (b : bool) : gui := mkGui (ENTRIES_INIT s) (ENTRIES s) (TITLE_BUFS s) (TITLE_LENS s) (WM s) (GFX s) (KEY_RING s) (KEY_HEAD s) (KEY_TAIL s) b.

(** The statics at boot; the table of entries is not initialised. *)
Definition boot : gui := mkGui false [] (replicate MAX_ENTRIES (replicate TITLE_BUF_LEN 0)) (replicate MAX_ENTRIES 0%nat) None None (replicate KEY_RING_SIZE 0) 0 0 false.
(* @src gui/gui_proc.rs 147-157 ensure_entries *)
Definition ensure_entries (s : gui) : gui :=
  if ENTRIES_INIT s then s
  else mkGui true (replicate MAX_ENTRIES empty) (TITLE_BUFS s) (TITLE_LENS s) (WM s) (GFX s) (KEY_RING s) (KEY_HEAD s) (KEY_TAIL s) (NEEDS_PRESENT s).
(* @src gui/gui_proc.rs 182-192 init *)
Definition init (wm : window_manager.WindowManager) (gfx : graphics.Graphics) (s : gui) : gui := set_gfx (set_wm (ensure_entries s) wm) gfx.

(* @src gui/gui_proc.rs 195-203 gui_key_isr_callback *)
Definition gui_key_isr_callback (ch : Z) (s : gui) : outcome gui :=
  let next := ((KEY_TAIL s + 1) mod KEY_RING_SIZE)%nat in
  if negb (next =? KEY_HEAD s)%nat then let! r := set_idx (KEY_RING s) (KEY_TAIL s) ch in Ret (set_keys s r (KEY_HEAD s) next) else Ret s.
(* @src gui/gui_proc.rs 206-213 pop_pending_key *)
Definition pop_pending_key (s : gui) : outcome (option Z * gui) :=
  if (KEY_HEAD s =? KEY_TAIL s)%nat then Ret (None, s)
  else let! ch := idx (KEY_RING s) (KEY_HEAD s) in Ret (Some ch, set_keys s (KEY_RING s) ((KEY_HEAD s + 1) mod KEY_RING_SIZE)%nat (KEY_TAIL s)).

(* @src gui/gui_proc.rs 217-226 slot_by_win *)
Definition slot_by_win (w : Z) (s : gui) : option nat := position (fun e => active e && (window_id e =? w)) (ENTRIES s).
(* @src gui/gui_proc.rs 228-237 slot_by_pid_and_win *)
Definition slot_by_pid_and_win (p w : Z) (s : gui) : option nat := position (fun e => active e && (pid e =? p) && (window_id e =? w)) (ENTRIES s).
(* @src gui/gui_proc.rs 242-244 is_proc_window *)
Definition is_proc_window (w : Z) (s : gui) : bool := bool_decide (is_Some (slot_by_win w s)).
(* @src gui/gui_proc.rs 247-250 pid_by_window *)
Definition pid_by_window (w : Z) (s : gui) : outcome (option Z) :=
  match slot_by_win w s with None => Ret None | Some i => let! e := idx (ENTRIES s) i in Ret (Some (pid e)) end.

Definition uadd (a b : Z) : outcome Z := cadd u64_max a b.
(* @src gui/gui_proc.rs 650-660 content_area *)
Definition content_area (w : nat) (s : gui) : outcome (option (Z * Z * Z * Z)) :=
  match WM s with
  | None => Ret None
  | Some m =>
    let! win := window_manager.get_window w m in
    match win with
    | None => Ret None
    | Some win =>
      let! cy := uadd (window_manager.y win) TITLE_BAR_H in
      Ret (Some (window_manager.x win, cy, window_manager.width win, sat_sub (window_manager.height win) TITLE_BAR_H))
    end
  end.

Section Drawing.
(** [core::str::from_utf8], the background colour of new windows, the renderer of
    text, and the word of physical memory at an address. *)
Variable utf8 : list Z -> bool.
Variable surface : Z.
Variable draw_string : Z -> Z -> list Z -> Z -> graphics.paint.
Variable phys_word : Z -> Z.

(* @src gui/gui_proc.rs 258-265 static_title *)
Definition static_title (slot : nat) (s : gui) : outcome (list Z) :=
  let! len := idx (TITLE_LENS s) slot in
  let! buf := idx (TITLE_BUFS s) slot in
  let bytes := take len buf in
  Ret (if utf8 bytes then bytes else str "App").

(* @src gui/gui_proc.rs 285-289 create_window (title) *)
Definition store_title (slot : nat) (title : list Z) (s : gui) : outcome gui :=
  let tlen := Nat.min (length title) (TITLE_BUF_LEN - 1) in
  let! buf := idx (TITLE_BUFS s) slot in
  let! buf := copy_at buf 0 (take tlen title) in
  let! bufs := set_idx (TITLE_BUFS s) slot buf in
  let! lens := set_idx (TITLE_LENS s) slot tlen in
  Ret (set_titles s bufs lens).
(** Where a window of the given size goes: cascaded by slot and cut to the screen. *)
(* @src gui/gui_proc.rs 298-302 create_window (place) *)
Definition cascade (slot : nat) (sw sh w h : Z) : Z * Z * Z * Z :=
  let off := Z.min (Z.of_nat slot) 6 * 24 in
  let win_x := Z.min (60 + off) (sat_sub sw (w + 10)) in
  let win_y := Z.min (70 + off) (sat_sub sh (h + 80)) in
  (win_x, win_y, Z.min w (sat_sub sw (win_x + 4)), Z.min h (sat_sub sh (win_y + 4))).
(* @src gui/gui_proc.rs 270-334 create_window *)
Definition create_window (p : Z) (title : list Z) (w h : Z) (s : gui) : outcome (Z * gui) :=
  match WM s with
  | None => Ret (-1, s)
  | Some m =>
    match position (fun e => negb (active e)) (ENTRIES s) with
    | None => Ret (-12, s)
    | Some slot =>
      let! s := store_title slot title s in
      let '(sw, sh) := match GFX s with Some g => (graphics.width g, graphics.height g) | None => (1280, 800) end in
      let '(win_x, win_y, win_w, win_h) := cascade slot sw sh w h in
      let! title_str := static_title slot s in
      let! (r, m) := window_manager.add_window (window_manager.new_window surface win_x win_y win_w win_h title_str) m in
      match r with
      | None => Ret (-12, set_wm s m)
      | Some id =>
        let s := set_wm s m in
        let! area := content_area id s in
        let '(cx, cy, cw, ch) := default (win_x, win_y + TITLE_BAR_H, win_w, sat_sub win_h TITLE_BAR_H) area in
        let! cap := cmul u64_max cw ch in
        let! e := idx (ENTRIES s) slot in
        let! es := set_idx (ENTRIES s) slot (mkEntry true (wrap 32 (Z.of_nat id)) p (events e) 0 0 (replicate (Z.to_nat cap) 0) (wrap 32 cw) (wrap 32 ch) cx cy) in
        Ret (Z.of_nat id, set_entries s es)
      end
    end
  end.

(** An entry given up and its copy freed. *)
Definition released (e : GprocEntry) : GprocEntry :=
  mkEntry false (window_id e) (pid e) (events e) (head e) (tail e) [] (back_w e) (back_h e) (back_cx e) (back_cy e).
Definition remove_from_wm (w : Z) (s : gui) : outcome gui :=
  match WM s with None => Ret s | Some m => let! m := window_manager.remove_window (Z.to_nat w) m in Ret (set_wm s m) end.
(* @src gui/gui_proc.rs 337-350 destroy_window *)
Definition destroy_window (p w : Z) (s : gui) : outcome (Z * gui) :=
  match slot_by_pid_and_win p w s with
  | None => Ret (-9, s)
  | Some slot =>
    let! s := remove_from_wm w s in
    let! e := idx (ENTRIES s) slot in
    let! es := set_idx (ENTRIES s) slot (released e) in
    Ret (0, set_entries s es)
  end.

(** The content area of a window that [p] owns, and the screen, or the error code. *)
(* @src gui/gui_proc.rs 357-363 fill_rect (checks) *)
Definition own_area (p w : Z) (s : gui) : outcome (result (graphics.Graphics * (Z * Z * Z * Z)) Z) :=
  match GFX s, WM s with
  | Some g, Some _ =>
    match slot_by_pid_and_win p w s with
    | None => Ret (Err (-9))
    | Some _ => let! a := content_area (Z.to_nat w) s in Ret (match a with Some a => Ok (g, a) | None => Err (-9) end)
    end
  | _, _ => Ret (Err (-1))
  end.
(* @src gui/gui_proc.rs 353-374 fill_rect *)
Definition fill_rect (p w x y rw rh color : Z) (s : gui) : outcome (Z * gui) :=
  let! a := own_area p w s in
  match a with
  | Err c => Ret (c, s)
  | Ok (g, (cx, cy, cw, ch)) =>
    let! ax := uadd cx (Z.min x cw) in
    let! ay := uadd cy (Z.min y ch) in
    let aw := Z.min rw (sat_sub cw x) in
    let ah := Z.min rh (sat_sub ch y) in
    if (0 <? aw) && (0 <? ah) then let! g := graphics.fill_rect ax ay aw ah color g in Ret (0, set_gfx s g) else Ret (0, s)
  end.
(* @src gui/gui_proc.rs 377-398 draw_text *)
Definition draw_text (p w x y color : Z) (text : list Z) (s : gui) : outcome (Z * gui) :=
  let! a := own_area p w s in
  match a with
  | Err c => Ret (c, s)
  | Ok (g, (cx, cy, cw, ch)) =>
    let! ax := uadd cx (Z.min x cw) in
    let! ay := uadd cy (Z.min y ch) in
    if utf8 text then let! g := draw_string ax ay text color g in Ret (0, set_gfx s g) else Ret (0, s)
  end.

(** The copy of the window's content, fitted to the content area. *)
(* @src gui/gui_proc.rs 412-422 present (resize) *)
Definition refit (e : GprocEntry) (s : gui) : outcome GprocEntry :=
  let! a := content_area (Z.to_nat (window_id e)) s in
  match a with
  | None => Ret e
  | Some (cx, cy, cw, ch) =>
    if negb (wrap 32 cw =? back_w e) || negb (wrap 32 ch =? back_h e) then
      let! cap := cmul u64_max cw ch in
      Ret (set_backing e (replicate (Z.to_nat cap) 0) (wrap 32 cw) (wrap 32 ch) cx cy)
    else Ret (set_backing e (backing e) (back_w e) (back_h e) cx cy)
  end.
(** Whether the copy has the size its width and height say. *)
Definition backed (e : GprocEntry) : outcome bool :=
  let w := back_w e in
  let h := back_h e in
  if (0 <? w) && (0 <? h) then let! n := cmul u64_max w h in Ret (Z.of_nat (length (backing e)) =? n) else Ret false.
(* @src gui/gui_proc.rs 402-432 present *)
Definition present (p w : Z) (s : gui) : outcome (Z * gui) :=
  match GFX s with
  | None => Ret (0, set_present s true)
  | Some g =>
    match slot_by_pid_and_win p w s with
    | None => Ret (0, set_present s true)
    | Some slot =>
      let! e := idx (ENTRIES s) slot in
      let! e := refit e s in
      let! b := backed e in
      let! e :=
        (if b : bool then
           let! d := graphics.read_rect g (back_cx e) (back_cy e) (back_w e) (back_h e) (backing e) in
           Ret (set_backing e d (back_w e) (back_h e) (back_cx e) (back_cy e))
         else Ret e) in
      let! es := set_idx (ENTRIES s) slot e in
      Ret (0, set_present (set_entries s es) true)
    end
  end.
(* @src gui/gui_proc.rs 437-443 take_present_flag *)
Definition take_present_flag (s : gui) : bool * gui := (NEEDS_PRESENT s, set_present s false).

Definition HHDM : Z := 0xFFFF800000000000.
(** One row of a blit, from column [col] on. *)
(* @src gui/gui_proc.rs 478-481 blit_shm (columns) *)
Fixpoint blit_row (src abs_x abs_y col : Z) (n : nat) : graphics.paint :=
  match n with
  | O => graphics.done_
  | S n' => graphics.andthen
      (graphics.with_ (uadd abs_x col) (fun x => graphics.put_pixel x abs_y (phys_word (src + 4 * col)))) (blit_row src abs_x abs_y (col + 1) n')
  end.
(* @src gui/gui_proc.rs 471-482 blit_shm (rows) *)
Fixpoint blit_rows (base stride src_x src_y cx cy dst_x dst_y bw row : Z) (n : nat) : graphics.paint := fun g =>
  match n with
  | O => Ret g
  | S n' =>
    let! sy := uadd src_y row in
    let! dy := uadd dst_y row in
    let! o := cmul u64_max sy stride in
    let! o := uadd o src_x in
    let! abs_x := uadd cx dst_x in
    let! abs_y := uadd cy dy in
    let! g := blit_row (base + 4 * o) abs_x abs_y 0 (Z.to_nat bw) g in
    blit_rows base stride src_x src_y cx cy dst_x dst_y bw (row + 1) n' g
  end.
(** [seg_phys] is the base address of a shared segment, zero when there is none. The code does
    not compare the rows with the size of the segment and reads through a raw pointer; the
    model reads [phys_word] at that address, wherever it lies, and has no fault for an
    address without memory. *)
(* @src gui/gui_proc.rs 446-484 blit_shm *)
Definition blit_shm (seg_phys : Z -> Z) (p w shm_id src_x src_y src_w src_h dst_x dst_y : Z) (s : gui) : outcome (Z * gui) :=
  let! a := own_area p w s in
  match a with
  | Err c => Ret (c, s)
  | Ok (g, (cx, cy, cw, ch)) =>
    let phys := seg_phys shm_id in
    if phys =? 0 then Ret (-9, s)
    else
      let! base := uadd phys HHDM in
      let bw := Z.min src_w (sat_sub cw dst_x) in
      let bh := Z.min src_h (sat_sub ch dst_y) in
      if (bw =? 0) || (bh =? 0) then Ret (0, s)
      else let! g := blit_rows base src_w src_x src_y cx cy dst_x dst_y bw 0 (Z.to_nat bh) g in Ret (0, set_gfx s g)
  end.

(** ** Events *)

(** [k] bytes of [v], the lowest first, at [a] *)
Fixpoint poke (m : gmap Z Z) (a : Z) (bs : list Z) : gmap Z Z :=
  match bs with [] => m | b :: bs => poke (wr m a b) (a + 1) bs end.
Definition le32 (v : Z) : list Z := [wrap 8 v; wrap 8 (Z.shiftr v 8); wrap 8 (Z.shiftr v 16); wrap 8 (Z.shiftr v 24)].
Definition event_bytes (ev : GuiEventRaw) : list Z := le32 (kind ev) ++ data ev.
(* @src gui/gui_proc.rs 488-505 poll_event *)
Definition poll_event (p w ptr : Z) (mem : gmap Z Z) (s : gui) : outcome (Z * gmap Z Z * gui) :=
  match slot_by_pid_and_win p w s with
  | None => Ret (-9, mem, s)
  | Some slot =>
    let! e := idx (ENTRIES s) slot in
    let! (ev, e) := pop e in
    let! es := set_idx (ENTRIES s) slot e in
    let s := set_entries s es in
    match ev with
    | None => Ret (-6, mem, s)
    | Some ev => if (ptr <? 0x1000) || (0xFFFF800000000000 <=? ptr) then Ret (-14, mem, s) else Ret (0, poke mem ptr (event_bytes ev), s)
    end
  end.
(* @src gui/gui_proc.rs 508-521 get_size *)
Definition get_size (p w w_ptr h_ptr : Z) (mem : gmap Z Z) (s : gui) : outcome (Z * gmap Z Z) :=
  match slot_by_pid_and_win p w s with
  | None => Ret (-9, mem)
  | Some _ =>
    let! a := content_area (Z.to_nat w) s in
    match a with
    | None => Ret (-9, mem)
    | Some (_, _, cw, ch) =>
      let mem := if 0x1000 <=? w_ptr then poke mem w_ptr (le32 cw) else mem in
      let mem := if 0x1000 <=? h_ptr then poke mem h_ptr (le32 ch) else mem in
      Ret (0, mem)
    end
  end.

(** An event for the window [w]: the body that the five functions below share. *)
(* @src gui/gui_proc.rs 526-530 push_key_event (body) *)
Definition push_event (w : Z) (ev : GuiEventRaw) (s : gui) : outcome gui :=
  match slot_by_win w s with
  | None => Ret s
  | Some slot =>
    let! e := idx (ENTRIES s) slot in
    let! e := push ev e in
    let! es := set_idx (ENTRIES s) slot e in
    Ret (set_entries s es)
  end.
(* @src gui/gui_proc.rs 526-530 push_key_event *)
Definition push_key_event (w ch : Z) : gui -> outcome gui := push_event w (key ch).
(* @src gui/gui_proc.rs 533-537 push_mouse_move *)
Definition push_mouse_move (w x y : Z) : gui -> outcome gui := push_event w (mouse_move x y).
(* @src gui/gui_proc.rs 540-544 push_mouse_btn *)
Definition push_mouse_btn (w x y button : Z) (pressed : bool) : gui -> outcome gui := push_event w (mouse_btn x y button pressed).
(* @src gui/gui_proc.rs 547-551 push_focus_event *)
Definition push_focus_event (w : Z) (gained : bool) : gui -> outcome gui := push_event w (focus gained).
(* @src gui/gui_proc.rs 555-564 on_window_closed *)
Definition on_window_closed (w : Z) : gui -> outcome gui := push_event w close.

(* @src gui/gui_proc.rs 569-578 on_process_exit (loop) *)
Fixpoint exit_loop (p : Z) (s : gui) (i n : nat) : outcome gui :=
  match n with
  | O => Ret s
  | S n' =>
    let! e := idx (ENTRIES s) i in
    let! s :=
      (if active e && (pid e =? p) then
         let! s := remove_from_wm (window_id e) s in
         let! es := set_idx (ENTRIES s) i (released e) in
         Ret (set_entries s es)
       else Ret s) in
    exit_loop p s (S i) n'
  end.
(* @src gui/gui_proc.rs 567-580 on_process_exit *)
Definition on_process_exit (p : Z) (s : gui) : outcome gui := exit_loop p s 0 MAX_ENTRIES.

(** ** The desktop *)

(* @src gui/gui_proc.rs 585-590 has_active_windows *)
Definition has_active_windows (s : gui) : bool := existsb active (ENTRIES s).
(* @src gui/gui_proc.rs 600-617 composite_window *)
Definition composite_window (w : Z) (s : gui) : outcome (bool * gui) :=
  match GFX s with
  | None => Ret (false, s)
  | Some g =>
    match slot_by_win w s with
    | None => Ret (false, s)
    | Some slot =>
      let! e := idx (ENTRIES s) slot in
      let! shown := (match WM s with Some m => window_manager.is_window_visible (Z.to_nat (window_id e)) m | None => Ret true end) in
      if negb shown then Ret (false, s)
      else
        let! b := backed e in
        if negb b then Ret (false, s)
        else let! g := graphics.write_rect (back_cx e) (back_cy e) (back_w e) (back_h e) (backing e) g in Ret (true, set_gfx s g)
    end
  end.
Fixpoint composite_list (ws : list nat) (s : gui) : outcome gui :=
  match ws with
  | [] => Ret s
  | w :: ws => let! (_, s) := composite_window (wrap 32 (Z.of_nat w)) s in composite_list ws s
  end.
(** Without a window manager: every entry in turn. *)
Fixpoint composite_slots (es : list GprocEntry) (g : graphics.Graphics) : outcome graphics.Graphics :=
  match es with
  | [] => Ret g
  | e :: es =>
    let! b := (if active e then backed e else Ret false) in
    let! g := (if b : bool then graphics.write_rect (back_cx e) (back_cy e) (back_w e) (back_h e) (backing e) g else Ret g) in
    composite_slots es g
  end.
(* @src gui/gui_proc.rs 625-645 composite_all *)
Definition composite_all (s : gui) : outcome gui :=
  match GFX s with
  | None => Ret s
  | Some g =>
    match WM s with
    | Some m => let! z := window_manager.z_order_slice m in composite_list z s
    | None => let! g := composite_slots (ENTRIES s) g in Ret (set_gfx s g)
    end
  end.

End Drawing.
End gui_proc.

(** ** The program's side (userspace/oxide-rt/src/lib.rs) *)

Module gui_event.
Import gui_proc.

(** The event in the program's memory: the program fills [kind] and [data] from what the kernel wrote. *)
Definition byte_at (m : gmap Z Z) (a : Z) : Z := rd m a.
Definition read_event (m : gmap Z Z) (ptr : Z) : GuiEventRaw :=
  mkEvent (byte_at m ptr + 256 * (byte_at m (ptr + 1) + 256 * (byte_at m (ptr + 2) + 256 * byte_at m (ptr + 3))))
    ((fun i => byte_at m (ptr + 4 + Z.of_nat i)) <$> seq 0 12).
Definition at_ (d : list Z) (i : nat) : Z := default 0 (d !! i).
(** [u16::from_le_bytes] *)
Definition u16_le (lo hi : Z) : Z := lo + 256 * hi.

(* @src src/userspace/oxide-rt/src/lib.rs 1022-1024 GuiEvent::as_key *)
Definition as_key (e : GuiEventRaw) : option Z := if kind e =? 0 then Some (at_ (data e) 0) else None.
(* @src src/userspace/oxide-rt/src/lib.rs 1028-1033 GuiEvent::as_mouse_move *)
Definition as_mouse_move (e : GuiEventRaw) : option (Z * Z) :=
  if negb (kind e =? 1) then None else Some (u16_le (at_ (data e) 0) (at_ (data e) 1), u16_le (at_ (data e) 2) (at_ (data e) 3)).
(* @src src/userspace/oxide-rt/src/lib.rs 1037-1044 GuiEvent::as_mouse_btn *)
Definition as_mouse_btn (e : GuiEventRaw) : option (Z * Z * Z * bool) :=
  if negb (kind e =? 2) then None
  else Some (u16_le (at_ (data e) 0) (at_ (data e) 1), u16_le (at_ (data e) 2) (at_ (data e) 3), at_ (data e) 4, negb (at_ (data e) 5 =? 0)).
(* @src src/userspace/oxide-rt/src/lib.rs 1048-1050 GuiEvent::as_focus *)
Definition as_focus (e : GuiEventRaw) : option bool := if kind e =? 3 then Some (negb (at_ (data e) 0 =? 0)) else None.
(* @src src/userspace/oxide-rt/src/lib.rs 1054-1054 GuiEvent::is_close *)
Definition is_close (e : GuiEventRaw) : bool := kind e =? 4.

End gui_event.
