(* ===== verification/GuiSpec.v ===== *)
(** * Properties of the windows of processes

    Module [gui_spec] proves that a process draws in its own windows only, that events
    arrive in order and decode to what the kernel sent, that the desktop shows what a
    program last presented, and what goes wrong when a closed window's number is reused. *)

From stdpp Require Import base list gmap strings list_numbers sorting.
From Stdlib Require Import ZArith Lia.
From S2P Require Import Prelude RingBuffer FdTable WindowManager WmSpec Graphics GraphicsSpec GuiProc.

Local Open Scope Z_scope.

Module gui_spec.
Import gui_proc.

(** ** The queue of a window *)

Record ring_ok (e : GprocEntry) : Prop := {
  ring_size : length (events e) = EVENT_RING_SIZE;
  ring_head : (head e < EVENT_RING_SIZE)%nat;
  ring_tail : (tail e < EVENT_RING_SIZE)%nat;
}.
Definition queued (e : GprocEntry) : list GuiEventRaw := ring_list (events e) (head e) (ring_len EVENT_RING_SIZE (head e) (tail e)).

Lemma length_queued e : ring_ok e -> length (queued e) = ring_len EVENT_RING_SIZE (head e) (tail e).
Proof. intros []. unfold queued. apply length_ring_list. by rewrite ring_size0. Qed.

(** Two entries that differ in their queues only. *)
Definition same_window (e e' : GprocEntry) : Prop :=
  active e' = active e /\ window_id e' = window_id e /\ pid e' = pid e /\ backing e' = backing e /\ back_w e' = back_w e /\ back_h e' = back_h e /\
  back_cx e' = back_cx e /\ back_cy e' = back_cy e.

Lemma push_ok ev e : ring_ok e ->
  exists e', push ev e = Ret e' /\ ring_ok e' /\ same_window e e' /\
    queued e' = if decide (length (queued e) < 63)%nat then queued e ++ [ev] else queued e.
Proof.
  intros R. pose proof R as [Hs Hh Ht]. pose proof (length_queued e R) as Hl. unfold push. fold (ring_succ EVENT_RING_SIZE (tail e)).
  destruct (Nat.eqb_spec (ring_succ EVENT_RING_SIZE (tail e)) (head e)) as [Hf|Hf].
  - exists e. split_and!; try done. rewrite decide_False; [done|]. rewrite Hl. apply ring_full_iff in Hf; [|done..]. unfold EVENT_RING_SIZE in *. lia.
  - assert (ring_len EVENT_RING_SIZE (head e) (tail e) < 63)%nat as Hlt.
    { pose proof (ring_len_lt EVENT_RING_SIZE (head e) (tail e) Hh). pose proof (ring_full_iff EVENT_RING_SIZE (head e) (tail e)) as F. unfold EVENT_RING_SIZE in *.
      destruct (decide (ring_len 64 (head e) (tail e) = 63)%nat) as [E|]; [|lia]. exfalso. apply Hf. apply F; [done..|]. lia. }
    rewrite set_idx_lt by (by rewrite Hs). cbn [mbind outcome_mbind]. eexists. split; [done|]. split_and!.
    + constructor; [rewrite <- Hs; apply length_insert|exact Hh|exact (ring_succ_lt EVENT_RING_SIZE (tail e) Ht)].
    + done.
    + rewrite Hl, decide_True by done. pose proof (ring_list_push (events e) (head e) (tail e) ev) as P. rewrite Hs in P.
      apply P; [done..|]. unfold EVENT_RING_SIZE in *. lia.
Qed.

Lemma pop_ok e : ring_ok e ->
  exists e', pop e = Ret (hd_error (queued e), e') /\ ring_ok e' /\ same_window e e' /\ queued e' = tl (queued e).
Proof.
  intros R. pose proof R as [Hs Hh Ht]. unfold pop. destruct (Nat.eqb_spec (head e) (tail e)) as [E|Hne].
  - exists e. assert (queued e = []) as -> by (unfold queued; rewrite (proj2 (ring_len_empty EVENT_RING_SIZE (head e) (tail e) Hh Ht)) by done; done). done.
  - rewrite <- Hs in Hh, Ht. destruct (ring_list_pop (events e) (head e) (tail e) Hh Ht Hne) as (ev & Hev & Hq). rewrite (proj2 (idx_Ret _ _ _) Hev). cbn [mbind outcome_mbind].
    rewrite Hs in Hq, Hh, Ht. unfold queued at 1. rewrite Hq. eexists. split; [done|]. split_and!.
    + constructor; [exact Hs|exact (ring_succ_lt EVENT_RING_SIZE (head e) Hh)|exact Ht].
    + done.
    + unfold queued at 2. rewrite Hq. reflexivity.
Qed.

(** ** Who owns a window, and where it is *)

Import wm_spec (good).
Import window_manager (Window).
Import graphics_spec (screen_ok, draws).

Definition u32 (v : Z) : Prop := 0 <= v < 2 ^ 32.
(** The state of a running desktop. *)
Record desktop (s : gui) (g : graphics.Graphics) (m : window_manager.WindowManager) : Prop := {
  dt_gfx : GFX s = Some g;
  dt_wm : WM s = Some m;
  dt_screen : screen_ok g;
  dt_good : good m;
}.
(** Entry [i] belongs to process [p] and shows the window [w]. *)
Definition owns (s : gui) (i : nat) (p w : Z) : Prop :=
  exists e, ENTRIES s !! i = Some e /\ active e = true /\ pid e = p /\ window_id e = w.

Lemma slot_by_pid_and_win_owns p w s i : slot_by_pid_and_win p w s = Some i -> owns s i p w.
Proof. intros (e & He & Hf & _)%position_Some. bool_simpl. exists e. split_and!; (done || lia). Qed.

Definition area_of (v : Window) : Z * Z * Z * Z :=
  (window_manager.x v, window_manager.y v + 34, window_manager.width v, sat_sub (window_manager.height v) 34).
Definition in_content (v : Window) (a b : Z) : Prop :=
  window_manager.x v <= a < window_manager.x v + window_manager.width v /\
  window_manager.y v + 34 <= b < window_manager.y v + 34 + sat_sub (window_manager.height v) 34.

Lemma content_area_ok s g m w : desktop s g m -> content_area w s = Ret (area_of <$> mjoin (window_manager.windows m !! w)).
Proof.
  intros [_ Hm _ [W SN]]. unfold content_area. rewrite Hm. unfold window_manager.get_window.
  destruct (Nat.ltb_spec w window_manager.MAX_WINDOWS) as [Hw|Hw].
  - destruct (wm_spec.window_at m w W Hw) as (o & Ho & ->). rewrite Ho. cbn. destruct o as [v|]; [|done].
    destruct (wm_spec.sane_windows m SN w v Ho) as (_ & Hy & _). unfold wm_spec.fits, wm_spec.LIM, u32_max in Hy.
    unfold uadd. by rewrite cadd_le by (unfold TITLE_BAR_H, u64_max; lia).
  - rewrite lookup_ge_None_2; [done|]. by rewrite (wm_spec.wf_windows m W).
Qed.

Lemma own_area_ok s g m p w : desktop s g m ->
  own_area p w s = Ret (Err (-9)) \/
  exists i v, own_area p w s = Ret (Ok (g, area_of v)) /\ owns s i p w /\ window_manager.windows m !! Z.to_nat w = Some (Some v).
Proof.
  intros D. pose proof D as [Hg Hm _ _]. unfold own_area. rewrite Hg, Hm. destruct (slot_by_pid_and_win p w s) as [i|] eqn:E; [|by left].
  rewrite (content_area_ok s g m _ D). cbn [mbind outcome_mbind]. destruct (window_manager.windows m !! Z.to_nat w) as [[v|]|] eqn:Ew; cbn; [|by left..].
  right. exists i, v. split; [done|]. split; [by apply slot_by_pid_and_win_owns|done].
Qed.

Lemma area_bounds m w v : good m -> window_manager.windows m !! w = Some (Some v) ->
  let '(cx, cy, cw, ch) := area_of v in 0 <= cx <= 2 ^ 33 /\ 0 <= cy <= 2 ^ 33 /\ 0 <= cw <= 2 ^ 33 /\ 0 <= ch <= 2 ^ 33.
Proof.
  intros [_ SN] Hw. destruct (wm_spec.sane_windows m SN w v Hw) as (H1 & H2 & H3 & H4). cbn. unfold wm_spec.fits, wm_spec.LIM, u32_max, sat_sub in *. lia.
Qed.

(** ** Drawing stays in the window *)

Lemma window_fill_ok s g m p w x y rw rh c : desktop s g m -> u32 x -> u32 y -> u32 rw -> u32 rh ->
  fill_rect p w x y rw rh c s = Ret (-9, s) \/
  exists i v g' s', fill_rect p w x y rw rh c s = Ret (0, s') /\ owns s i p w /\ window_manager.windows m !! Z.to_nat w = Some (Some v) /\
    GFX s' = Some g' /\ draws (in_content v) (eq c) g g'.
Proof.
  intros D Hx Hy Hw Hh. pose proof D as [Hg Hm Hs HG]. unfold fill_rect. destruct (own_area_ok s g m p w D) as [->|(i & v & -> & Ho & Hv)]; cbn [mbind outcome_mbind]; [by left|right].
  pose proof (area_bounds m _ v HG Hv) as B. unfold area_of in *. unfold u32 in *. destruct B as (B1 & B2 & B3 & B4).
  set (cx := window_manager.x v) in *. set (cy := window_manager.y v + 34) in *. set (cw := window_manager.width v) in *. set (ch := sat_sub (window_manager.height v) 34) in *.
  unfold uadd. rewrite !cadd_le by (unfold u64_max; lia). cbn [mbind outcome_mbind]. exists i, v.
  destruct ((0 <? Z.min rw (sat_sub cw x)) && (0 <? Z.min rh (sat_sub ch y))) eqn:E.
  - bool_simpl. destruct (graphics_spec.safe_fill_rect (in_content v) (eq c) (cx + Z.min x cw) (cy + Z.min y ch) (Z.min rw (sat_sub cw x)) (Z.min rh (sat_sub ch y)) c) with (g := g) as (g' & -> & Dr);
      try done; try (unfold sat_sub; lia).
    { intros a b Ha Hb. unfold in_content. fold cx cy cw ch. unfold sat_sub in Ha, Hb, H, H0. lia. }
    exists g', (set_gfx s g'). done.
  - exists g, s. split_and!; try done. apply graphics_spec.draws_refl.
Qed.

Section Blit.
Context (phys_word : Z -> Z) (v : Window).

Lemma safe_blit_row src ax ay col n : 0 <= ax <= 2 ^ 40 -> 0 <= ay -> 0 <= col -> col + Z.of_nat n <= 2 ^ 40 -> (forall k, col <= k < col + Z.of_nat n -> in_content v (ax + k) ay) ->
  graphics_spec.safe (in_content v) graphics_spec.any_colour (blit_row phys_word src ax ay col n).
Proof.
  intros Hax Hay. revert col. induction n as [|n IH]; intros col Hc Hn HR; cbn [blit_row]; [apply graphics_spec.safe_done|]. apply graphics_spec.safe_andthen.
  - eapply graphics_spec.safe_with; [apply cadd_le; unfold u64_max; lia|]. apply graphics_spec.safe_put_pixel; [lia|done|apply HR; lia|done].
  - apply IH; [lia..|]. intros k Hk. apply HR. lia.
Qed.

Lemma safe_blit_rows base stride sx sy cx cy dx dy bw row n : 0 <= cx <= 2 ^ 33 -> 0 <= cy <= 2 ^ 33 -> u32 stride -> u32 sx -> u32 sy -> u32 dx -> u32 dy -> 0 <= bw < 2 ^ 32 ->
  0 <= row -> row + Z.of_nat n < 2 ^ 31 -> (sy + row + Z.of_nat n) * stride < 2 ^ 63 ->
  (forall a b, 0 <= a < bw -> row <= b < row + Z.of_nat n -> in_content v (cx + dx + a) (cy + dy + b)) ->
  graphics_spec.safe (in_content v) graphics_spec.any_colour (blit_rows phys_word base stride sx sy cx cy dx dy bw row n).
Proof.
  unfold u32. intros Hcx Hcy Hst Hsx Hsy Hdx Hdy Hbw. revert row. induction n as [|n IH]; intros row Hr Hn Ho HR g Hg; cbn [blit_rows]; [exists g; split; [done|apply graphics_spec.draws_refl]|].
  unfold uadd. rewrite (cadd_le _ sy), (cadd_le _ dy) by (unfold u64_max; lia). cbn [mbind outcome_mbind]. rewrite cmul_le by (unfold u64_max; nia). cbn [mbind outcome_mbind].
  assert (0 <= (sy + row) * stride <= (sy + row + Z.of_nat (S n)) * stride) by nia.
  rewrite (cadd_le _ ((sy + row) * stride)), (cadd_le _ cx), (cadd_le _ cy) by (unfold u64_max; lia). cbn [mbind outcome_mbind].
  destruct (safe_blit_row (base + 4 * ((sy + row) * stride + sx)) (cx + dx) (cy + (dy + row)) 0 (Z.to_nat bw)) with (g := g) as (g1 & -> & D1); try done; try lia.
  { intros k Hk. replace (cy + (dy + row)) with (cy + dy + row) by lia. apply HR; lia. }
  cbn [mbind outcome_mbind]. destruct (IH (row + 1)) with (g := g1) as (g2 & E & D2); [lia|lia|nia|intros a b Ha Hb; apply HR; lia|by apply (graphics_spec.screen_ok_same g); [apply D1|]|].
  exists g2. split; [done|]. by apply (graphics_spec.draws_trans _ _ g g1).
Qed.
End Blit.

Lemma blit_shm_ok phys_word seg_phys s g m p w id sx sy sw sh dx dy : desktop s g m -> u32 sx -> u32 sy -> u32 sw -> u32 sh -> u32 dx -> u32 dy ->
  0 <= seg_phys id < 2 ^ 46 -> sy + sh < 2 ^ 31 ->
  (exists code, blit_shm phys_word seg_phys p w id sx sy sw sh dx dy s = Ret (code, s) /\ code <> 0) \/
  exists i v g' s', blit_shm phys_word seg_phys p w id sx sy sw sh dx dy s = Ret (0, s') /\ owns s i p w /\ window_manager.windows m !! Z.to_nat w = Some (Some v) /\
    GFX s' = Some g' /\ draws (in_content v) graphics_spec.any_colour g g'.
Proof.
  intros D Hsx Hsy Hsw Hsh Hdx Hdy Hp Hb. pose proof D as [Hg Hm Hs HG]. unfold blit_shm.
  destruct (own_area_ok s g m p w D) as [->|(i & v & -> & Ho & Hv)]; cbn [mbind outcome_mbind]; [left; by exists (-9)|].
  pose proof (area_bounds m _ v HG Hv) as B. unfold area_of in *. destruct B as (B1 & B2 & B3 & B4).
  set (cx := window_manager.x v) in *. set (cy := window_manager.y v + 34) in *. set (cw := window_manager.width v) in *. set (ch := sat_sub (window_manager.height v) 34) in *.
  destruct (seg_phys id =? 0); [left; by exists (-9)|]. right. exists i, v. unfold uadd, HHDM. rewrite cadd_le by (unfold u64_max; lia). cbn [mbind outcome_mbind].
  destruct ((Z.min sw (sat_sub cw dx) =? 0) || (Z.min sh (sat_sub ch dy) =? 0)) eqn:E; [exists g, s; split_and!; try done; apply graphics_spec.draws_refl|]. bool_simpl.
  unfold u32, sat_sub in *. destruct (safe_blit_rows phys_word v (seg_phys id + 0xFFFF800000000000) sw sx sy cx cy dx dy (Z.min sw (Z.max 0 (cw - dx))) 0 (Z.to_nat (Z.min sh (Z.max 0 (ch - dy)))))
    with (g := g) as (g' & -> & Dr); unfold u32; try done; try lia; [nia| |exists g', (set_gfx s g'); done].
  intros a b Ha Hb'. unfold in_content. fold cx cy cw. unfold sat_sub. fold ch. unfold ch. fold cy. lia.
Qed.

(** ** The copy of a window's content *)

Definition has_size (e : GprocEntry) : Prop := length (backing e) = Z.to_nat (back_w e * back_h e).
(** The content area of the window fits the screen's range and is not empty. *)
Definition drawable (v : Window) : Prop := 0 < window_manager.width v < 2 ^ 31 /\ 34 < window_manager.height v < 2 ^ 31.

Lemma area_drawable v : drawable v -> sat_sub (window_manager.height v) 34 = window_manager.height v - 34 /\ 0 < window_manager.height v - 34 < 2 ^ 31.
Proof. intros [_ ?]. unfold sat_sub. lia. Qed.

Lemma refit_ok s g m e v : desktop s g m -> window_manager.windows m !! Z.to_nat (window_id e) = Some (Some v) -> drawable v -> has_size e ->
  exists e', refit e s = Ret e' /\ has_size e' /\ active e' = active e /\ window_id e' = window_id e /\ pid e' = pid e /\
    (back_cx e', back_cy e', back_w e', back_h e') = area_of v.
Proof.
  intros D Hv Hd He. unfold refit. rewrite (content_area_ok s g m _ D), Hv. unfold area_of. cbn. pose proof (area_drawable v Hd) as [-> Hh]. pose proof Hd as [Hw _].
  assert (forall k, 0 <= k < 2 ^ 31 -> wrap 32 k = k) as Wr by (intros k Hk; unfold wrap; apply Z.mod_small; lia). rewrite !Wr by lia.
  destruct (negb (window_manager.width v =? back_w e) || negb (window_manager.height v - 34 =? back_h e)) eqn:E.
  - rewrite cmul_le by (unfold u64_max; nia). eexists. split; [done|]. split_and!; try done. unfold has_size. cbn. by rewrite length_replicate.
  - eexists. split; [done|]. bool_simpl. split_and!; try done. cbn. congruence.
Qed.

Lemma backed_ok e w h : has_size e -> back_w e = w -> back_h e = h -> 0 < w < 2 ^ 31 -> 0 < h < 2 ^ 31 -> backed e = Ret true.
Proof.
  intros He <- <- Hw Hh. unfold backed. rewrite (proj2 (Z.ltb_lt _ _)), (proj2 (Z.ltb_lt _ _)) by lia. cbn [andb]. rewrite cmul_le by (unfold u64_max; nia). cbn. f_equal.
  unfold has_size in He. apply Z.eqb_eq. rewrite He, Z2Nat.id; nia.
Qed.

(** C21: What a program presents is what the desktop shows: after [present], whatever else was
    drawn over the screen, composing the window puts every pixel of its content area back to what
    it was when the program presented it, and changes no pixel outside that area. *)
Theorem the_desktop_shows_what_was_presented s g m i p w e v st g2 (D : desktop s g m) (I : slot_by_pid_and_win p w s = Some i) (J : slot_by_win w s = Some i)
    (E : ENTRIES s !! i = Some e) (HS : has_size e) (V : window_manager.windows m !! Z.to_nat w = Some (Some v)) (A : drawable v)
    (T : window_manager.visible v = true) (N : window_manager.window_states m !! Z.to_nat w = Some st) (M : st <> window_manager.Minimized) (S : graphics_spec.same_size g g2) :
  exists s1 s3 g3, present p w s = Ret (0, s1) /\ composite_window w (set_gfx s1 g2) = Ret (true, s3) /\ GFX s3 = Some g3 /\
    forall a b, graphics_spec.on g a b -> graphics_spec.pixel g3 a b = if decide (in_content v a b) then graphics_spec.pixel g a b else graphics_spec.pixel g2 a b.
Proof.
  pose proof D as [Hg Hm Hs HG]. pose proof (slot_by_pid_and_win_owns _ _ _ _ I) as (e0 & E0 & Ha & Hp & Hw). rewrite E in E0. injection E0 as <-.
  unfold present. rewrite Hg, I, (proj2 (idx_Ret _ _ _) E). cbn [mbind outcome_mbind].
  destruct (refit_ok s g m e v D) as (e1 & -> & Z1 & A1 & W1 & P1 & Ar); [by rewrite Hw|done|done|]. cbn [mbind outcome_mbind].
  pose proof (area_drawable v A) as [Eh Hh]. pose proof A as [Hwd _]. unfold area_of in Ar. rewrite Eh in Ar. injection Ar as C1 C2 C3 C4.
  rewrite (backed_ok e1 (window_manager.width v) (window_manager.height v - 34)) by done. cbn [mbind outcome_mbind].
  pose proof (area_bounds m _ v HG V) as B. unfold area_of in B. rewrite Eh in B. destruct B as (B1 & B2 & _).
  destruct (graphics_spec.read_rows_ok g (back_cx e1) (back_cy e1) (back_w e1) (back_h e1) (Z.to_nat (back_h e1)) 0 (backing e1)) as (d & Ed & Ld & Hd); try done; try lia.
  unfold graphics.read_rect. rewrite Ed. cbn [mbind outcome_mbind]. pose proof (lookup_lt_Some _ _ _ E) as Hlt. rewrite set_idx_lt by done. cbn [mbind outcome_mbind].
  set (e2 := set_backing e1 d _ _ _ _). destruct (graphics_spec.write_rect_ok (back_cx e1) (back_cy e1) (back_w e1) (back_h e1) d g2) as (g3 & Eg & _ & Hpx & _);
    [by apply (graphics_spec.screen_ok_same g)|lia..|by rewrite Ld|].
  eexists _, _, g3. split; [done|]. split_and!.
  - unfold composite_window. cbn [GFX set_gfx].
    assert (slot_by_win w (set_gfx (set_present (set_entries s (<[i := e2]> (ENTRIES s))) true) g2) = Some i) as ->.
    { unfold slot_by_win in *. cbn [ENTRIES set_gfx set_present set_entries] in *. apply position_Some in J as (e' & He' & Hf & Hbefore). rewrite E in He'. injection He' as <-. apply position_Some. exists e2.
      split; [by apply list_lookup_insert_eq|]. split; [cbn; rewrite A1, W1; exact Hf|]. intros j y Hj Hy. rewrite list_lookup_insert_ne in Hy by lia. by apply (Hbefore j). }
    cbn [ENTRIES set_gfx set_present set_entries]. rewrite (proj2 (idx_Ret _ _ e2)) by (by apply list_lookup_insert_eq). cbn [mbind outcome_mbind WM set_gfx set_present set_entries].
    rewrite Hm. unfold window_manager.is_window_visible. change (window_id e2) with (window_id e1). rewrite W1, Hw.
    pose proof HG as [WF _]. assert (Z.to_nat w < window_manager.MAX_WINDOWS)%nat as Hw16 by (by apply (wm_spec.stack_lt m); [|exists v]).
    rewrite (proj2 (Nat.leb_gt _ _) Hw16), (proj2 (idx_Ret _ _ _) V). cbn [mbind outcome_mbind]. rewrite T, (proj2 (idx_Ret _ _ _) N). cbn [mbind outcome_mbind].
    rewrite bool_decide_eq_false_2 by done. cbn [negb]. rewrite (backed_ok e2 (window_manager.width v) (window_manager.height v - 34)); [|unfold has_size; cbn; by rewrite Ld|done..].
    cbn [mbind outcome_mbind negb]. unfold e2. cbn [back_cx back_cy back_w back_h backing set_backing]. by rewrite Eg.
  - done.
  - intros a b Hab. pose proof S as (SW & SH & _). assert (graphics_spec.on g2 a b) as Hab2 by (unfold graphics_spec.on in *; by rewrite SW, SH).
    pose proof (Hpx a b Hab2) as Eq. unfold in_content. rewrite Eh, <- C1, <- C2, <- C3, <- C4.
    destruct (decide (back_cx e1 <= a < back_cx e1 + back_w e1 /\ back_cy e1 <= b < back_cy e1 + back_h e1)) as [Hin|]; [|by injection Eq].
    rewrite Hd in Eq by lia. replace (back_cx e1 + (a - back_cx e1)) with a in Eq by lia. replace (back_cy e1 + (b - back_cy e1)) with b in Eq by lia.
    rewrite decide_True in Eq by (split; [lia|done]). by injection Eq.
Qed.

(** C22: A process draws in its own windows only: filling a rectangle and copying a shared
    image either fail with an error and change nothing, or the caller owns the window and every
    word of memory that changes is a pixel of that window's content area. *)
Theorem drawing_stays_in_the_callers_window s g m p w phys_word seg_phys id sx sy sw sh x y rw rh c (D : desktop s g m)
    (R : u32 x /\ u32 y /\ u32 rw /\ u32 rh) (B : u32 sx /\ u32 sy /\ u32 sw /\ u32 sh) (P : 0 <= seg_phys id < 2 ^ 46) (Y : sy + sh < 2 ^ 31) :
  forall call, call ∈ [fill_rect p w x y rw rh c s; blit_shm phys_word seg_phys p w id sx sy sw sh x y s] ->
  (exists code, call = Ret (code, s) /\ code <> 0) \/
  exists i v g' s', call = Ret (0, s') /\ owns s i p w /\ window_manager.windows m !! Z.to_nat w = Some (Some v) /\
    GFX s' = Some g' /\ draws (in_content v) graphics_spec.any_colour g g'.
Proof.
  destruct R as (? & ? & ? & ?). destruct B as (? & ? & ? & ?). intros call. rewrite !elem_of_cons, elem_of_nil. intros [->|[->|[]]].
  - destruct (window_fill_ok s g m p w x y rw rh c D) as [E|(i & v & g' & s' & E & Ho & Hv & Hg & Dr)]; [done..|left; by exists (-9)|right].
    exists i, v, g', s'. split_and!; try done. by apply (graphics_spec.draws_weaken (in_content v) _ (eq c)).
  - by apply blit_shm_ok.
Qed.

(** ** Events in the program's memory *)

Lemma rd_poke m a bs i : rd (poke m a bs) i = default (rd m i) (if decide (a <= i) then bs !! Z.to_nat (i - a) else None).
Proof.
  revert m a. induction bs as [|b bs IH]; intros m a; cbn [poke]; [by destruct (decide _)|]. rewrite IH, rd_wr.
  destruct (decide (a <= i)) as [Hi|Hi]; [|by rewrite !decide_False by lia].
  destruct (decide (a = i)) as [->|Hne].
  - rewrite decide_False by lia. by rewrite Z.sub_diag.
  - rewrite decide_True by lia. replace (Z.to_nat (i - a)) with (S (Z.to_nat (i - (a + 1)))) by lia. done.
Qed.

Definition event_ok (ev : GuiEventRaw) : Prop := u32 (kind ev) /\ length (data ev) = 12%nat.

Lemma bytes_of_32 v : u32 v -> wrap 8 v + 256 * (wrap 8 (Z.shiftr v 8) + 256 * (wrap 8 (Z.shiftr v 16) + 256 * wrap 8 (Z.shiftr v 24))) = v.
Proof.
  intros Hv. unfold u32, wrap in *. rewrite !Z.shiftr_div_pow2 by lia. change (2 ^ 8) with 256. change (2 ^ 16) with (256 * 256). change (2 ^ 24) with (256 * (256 * 256)).
  rewrite <- !Z.div_div by lia. pose proof (Z.div_mod v 256). pose proof (Z.div_mod (v / 256) 256). pose proof (Z.div_mod (v / 256 / 256) 256).
  rewrite (Z.mod_small (v / 256 / 256 / 256)); [lia|]. split; [repeat apply Z.div_pos; lia|]. repeat (apply Z.div_lt_upper_bound; [lia|]). lia.
Qed.

Lemma read_event_poke mem ptr ev : event_ok ev -> gui_event.read_event (poke mem ptr (event_bytes ev)) ptr = ev.
Proof.
  intros [Hk Hl]. unfold gui_event.read_event, gui_event.byte_at. destruct ev as [k d]. cbn [kind data] in *. f_equal.
  - rewrite !rd_poke, !decide_True by lia. replace (ptr + 1 - ptr) with 1 by lia. replace (ptr + 2 - ptr) with 2 by lia. replace (ptr + 3 - ptr) with 3 by lia. rewrite Z.sub_diag.
    cbn. by apply bytes_of_32.
  - apply list_eq. intros j. rewrite list_lookup_fmap. destruct (decide (j < 12)%nat) as [Hj|Hj].
    + rewrite lookup_seq_lt by done. cbn [fmap option_fmap option_map]. rewrite rd_poke, decide_True by lia. replace (Z.to_nat (ptr + 4 + Z.of_nat (0 + j) - ptr)) with (4 + j)%nat by lia.
      unfold event_bytes. cbn [kind data]. rewrite lookup_app_r by (cbn [length le32]; lia). replace (4 + j - length (le32 k))%nat with j by (cbn [length le32]; lia).
      destruct (lookup_lt_is_Some_2 d j) as [b Hb]; [lia|]. by rewrite Hb.
    + rewrite lookup_seq_ge by lia. cbn. symmetry. apply lookup_ge_None_2. lia.
Qed.

Lemma push_event_at s i e w ev : slot_by_win w s = Some i -> ENTRIES s !! i = Some e -> ring_ok e ->
  exists e1, push_event w ev s = Ret (set_entries s (<[i := e1]> (ENTRIES s))) /\ ring_ok e1 /\ same_window e e1 /\
    queued e1 = if decide (length (queued e) < 63)%nat then queued e ++ [ev] else queued e.
Proof.
  intros Hs He R. unfold push_event. rewrite Hs, (proj2 (idx_Ret _ _ _) He). cbn [mbind outcome_mbind]. destruct (push_ok ev e R) as (e1 & -> & R1 & S1 & Q1). cbn [mbind outcome_mbind].
  rewrite set_idx_lt by (by apply lookup_lt_Some in He). by exists e1.
Qed.

(** Lookups by owner do not see the queue. *)
Lemma slot_same s i e e1 p w : ENTRIES s !! i = Some e -> same_window e e1 -> slot_by_pid_and_win p w (set_entries s (<[i := e1]> (ENTRIES s))) = slot_by_pid_and_win p w s.
Proof.
  intros He (A & Wd & P & _). unfold slot_by_pid_and_win. cbn [ENTRIES set_entries]. revert i He. induction (ENTRIES s) as [|x l IH]; intros i He; [done|]. destruct i as [|i]; cbn in *.
  - injection He as ->. by rewrite A, Wd, P.
  - destruct (active x && (pid x =? p) && (window_id x =? w)); [done|]. f_equal. by apply IH.
Qed.

(** The queue after an event is sent: a full ring (63 events wait) drops the new one. *)
Definition sent (q : list GuiEventRaw) (ev : GuiEventRaw) : list GuiEventRaw := if decide (length q < 63)%nat then q ++ [ev] else q.

(** C37: Events arrive in the order they were sent. An event for a window is queued behind the
    ones that wait when fewer than 63 do; when 63 wait the ring is full, the new event is dropped
    and the waiting ones stay as they are. Each poll of the owner takes the oldest event and puts
    into the program's memory exactly the event that was sent. *)
Theorem events_arrive_in_order s i e w p ev ptr mem (I : slot_by_win w s = Some i) (O : slot_by_pid_and_win p w s = Some i) (E : ENTRIES s !! i = Some e) (R : ring_ok e)
    (P : 0x1000 <= ptr < 0xFFFF800000000000) (F : Forall event_ok (queued e ++ [ev])) :
  exists s1 e1, push_event w ev s = Ret s1 /\ ENTRIES s1 !! i = Some e1 /\ queued e1 = sent (queued e) ev /\
    exists first rest, queued e1 = first :: rest /\
    exists mem' s2 e2, poll_event p w ptr mem s1 = Ret (0, mem', s2) /\ gui_event.read_event mem' ptr = first /\ ENTRIES s2 !! i = Some e2 /\ queued e2 = rest.
Proof.
  destruct (push_event_at s i e w ev I E R) as (e1 & E1 & R1 & S1 & Q1). fold (sent (queued e) ev) in Q1. pose proof (lookup_lt_Some _ _ _ E) as Hlt.
  eexists _, e1. split; [done|]. split; [by apply list_lookup_insert_eq|]. split; [done|].
  assert (exists first rest, queued e1 = first :: rest /\ event_ok first) as (first & rest & Hq & Hok).
  { rewrite Q1. unfold sent. destruct (queued e) as [|x q]; cbn [app] in F |- *; apply Forall_cons in F as [Hx _]; destruct (decide _) as [|n]; eauto. exfalso. apply n. cbn. lia. }
  exists first, rest. split; [done|].
  unfold poll_event. rewrite (slot_same s i e e1 p w E S1), O. cbn [ENTRIES set_entries]. rewrite (proj2 (idx_Ret _ _ e1)) by (by apply list_lookup_insert_eq). cbn [mbind outcome_mbind].
  destruct (pop_ok e1 R1) as (e2 & -> & R2 & _ & Q2). cbn [mbind outcome_mbind]. rewrite set_idx_lt by (by rewrite length_insert). cbn [mbind outcome_mbind].
  rewrite Hq. cbn [hd_error]. rewrite (proj2 (Z.ltb_ge _ _)), (proj2 (Z.leb_gt _ _)) by lia. cbn [orb]. eexists _, _, e2. split; [done|].
  split; [by apply read_event_poke|]. split; [by apply list_lookup_insert_eq; rewrite length_insert|]. by rewrite Q2, Hq.
Qed.

Lemma u16_bytes x : 0 <= x < 2 ^ 16 -> gui_event.u16_le (wrap 8 x) (wrap 8 (Z.shiftr x 8)) = x.
Proof.
  intros Hx. unfold gui_event.u16_le, wrap. rewrite Z.shiftr_div_pow2 by lia. change (2 ^ 8) with 256. pose proof (Z.div_mod x 256).
  rewrite (Z.mod_small (x / 256)); [lia|]. split; [apply Z.div_pos; lia|apply Z.div_lt_upper_bound; lia].
Qed.

(** The program's runtime decodes an event to what the kernel encoded: keys, mouse positions
    and buttons, focus changes and close requests, and no event is taken for one of another kind. *)
Theorem events_decode_to_what_was_sent ch x y b pressed gained (X : 0 <= x < 2 ^ 16) (Y : 0 <= y < 2 ^ 16) :
  gui_event.as_key (key ch) = Some ch /\ gui_event.as_mouse_move (mouse_move x y) = Some (x, y) /\
  gui_event.as_mouse_btn (mouse_btn x y b pressed) = Some (x, y, b, pressed) /\ gui_event.as_focus (focus gained) = Some gained /\ gui_event.is_close close = true /\
  forall ev, ev ∈ [key ch; mouse_move x y; mouse_btn x y b pressed; focus gained; close] -> event_ok ev /\
    (gui_event.as_key ev <> None <-> ev = key ch) /\ (gui_event.is_close ev = true <-> ev = close).
Proof.
  split_and!; [done|unfold gui_event.as_mouse_move, mouse_move; cbn; by rewrite !u16_bytes|unfold gui_event.as_mouse_btn, mouse_btn; cbn; rewrite !u16_bytes by done; by destruct pressed|
    by destruct gained|done|].
  intros ev. rewrite !elem_of_cons, elem_of_nil. intros [->|[->|[->|[->|[->|[]]]]]]; (split; [unfold event_ok, u32; cbn; done|]);
    (split; [unfold gui_event.as_key; cbn; split; intros H; first [done|discriminate H]|unfold gui_event.is_close; cbn; split; intros H; first [done|discriminate H]]).
Qed.

(** ** A window number that is used again *)

Definition screen : graphics.Graphics := graphics.mkGraphics ∅ ∅ 320 300 1280.
Definition any_text (bs : list Z) : bool := true.
Definition fresh : gui := init (wm_spec.desktop [wm_spec.EScreen 320 300]) screen boot.
(** What the main loop does for a click: the window manager first, then the closed window's owner.
    The owner is also killed; the scheduler does not report the end of a killed task, so
    [on_process_exit] is not called for it. *)
(* @src src/kernel/src/gui_loop.rs 275-281 run (click) *)
Definition click (mx my : Z) (s : gui) : outcome gui :=
  match WM s with
  | None => Ret s
  | Some m =>
    let! (_, m) := window_manager.handle_click mx my m in
    let '(closed, m) := window_manager.take_closed_window m in
    match closed with
    | Some id => if is_proc_window (Z.of_nat id) (set_wm s m) then on_window_closed (Z.of_nat id) (set_wm s m) else Ret (set_wm s m)
    | None => Ret (set_wm s m)
    end
  end.
(** Process 1 opens a window and the user closes it, which kills process 1; process 2 opens one. *)
Definition reuse : outcome (Z * Z * gui) :=
  let! (id1, s) := create_window any_text 7 1 (str "one") 60 90 fresh in
  let! s := click 75 85 s in
  let! (id2, s) := create_window any_text 7 2 (str "two") 60 90 s in
  Ret (id1, id2, s).
(** What happens then: process 2's key goes to the old entry. A later process that gets the number 1
    receives it, may draw in the window of process 2, and removes it by its exit. *)
Definition reuse_results : outcome (Z * Z * Z * Z * Z * Z * bool) :=
  let! (id1, id2, s) := reuse in
  let! s := push_key_event id2 65 s in
  let! (poll2, _, s) := poll_event 2 id2 0x2000 ∅ s in
  let! (_, _, s) := poll_event 1 id1 0x2000 ∅ s in
  let! (poll1, mem, s) := poll_event 1 id1 0x2000 ∅ s in
  let! (fill1, s) := fill_rect 1 id1 0 0 5 5 255 s in
  let! s := on_process_exit 1 s in
  let open := match WM s with Some m => match window_manager.get_window (Z.to_nat id2) m with Ret (Some _) => true | _ => false end | None => false end in
  Ret (id1, id2, poll2, poll1, default (-1) (gui_event.as_key (gui_event.read_event mem 0x2000)), fill1, open).

(** The number of a window that the user closed is given to the next window while the old
    entry is still in use: the new owner's key presses then go to the old entry (the new owner
    polls nothing), and the next process with the old owner's number receives them, may draw in
    the new window, and its exit removes the new owner's window. *)
Theorem a_closed_window_captures_its_successor : reuse_results = Ret (0, 0, -6, 0, 65, 0, false).
Proof. vm_compute. reflexivity. Qed.

(** Copying from a shared segment is not limited to the segment: a program with one segment
    and a window can show on the screen any word of physical memory above the segment's base. *)
Theorem blit_shows_memory_beyond_the_segment s g m i p w v phys_word seg_phys id k (D : desktop s g m) (O : slot_by_pid_and_win p w s = Some i)
    (V : window_manager.windows m !! Z.to_nat w = Some (Some v)) (A : drawable v) (N : graphics_spec.on g (window_manager.x v) (window_manager.y v + 34))
    (B : 0 < seg_phys id < 2 ^ 46) (K : u32 k) :
  exists s' g', blit_shm phys_word seg_phys p w id k 0 1 1 0 0 s = Ret (0, s') /\ GFX s' = Some g' /\
    graphics_spec.pixel g' (window_manager.x v) (window_manager.y v + 34) = phys_word (seg_phys id + HHDM + 4 * k).
Proof.
  pose proof D as [Hg Hm Hs HG]. pose proof (area_drawable v A) as [Eh Hh]. pose proof A as [Hwd _]. unfold blit_shm, own_area. rewrite Hg, Hm, O, (content_area_ok s g m _ D), V.
  cbn [mbind outcome_mbind fmap option_fmap option_map mjoin option_join]. unfold area_of. rewrite Eh. rewrite (proj2 (Z.eqb_neq _ _)) by lia.
  unfold uadd, HHDM, sat_sub. rewrite cadd_le by (unfold u64_max; lia). cbn [mbind outcome_mbind]. rewrite !Z.sub_0_r. rewrite !Z.min_l by lia. cbn [Z.eqb Pos.eqb orb].
  change (Z.to_nat 1) with 1%nat. cbn [blit_rows]. unfold u32 in K. destruct N as [Nx Ny]. destruct Hs. unfold uadd.
  repeat (first [rewrite cadd_le by (unfold u64_max; lia)|rewrite cmul_le by (unfold u64_max; lia)]; cbn [mbind outcome_mbind]). change (Z.to_nat 1) with 1%nat. cbn [blit_row].
  unfold graphics.andthen, graphics.with_, uadd. rewrite cadd_le by (unfold u64_max; lia). cbn [mbind outcome_mbind]. rewrite !Z.add_0_r.
  rewrite graphics_spec.put_pixel_on by (unfold graphics_spec.screen_ok, graphics_spec.on; lia). cbn [mbind outcome_mbind graphics.done_]. eexists _, _. split; [done|]. split; [done|].
  unfold graphics_spec.pixel, graphics_spec.plotted. cbn. rewrite rd_wr_eq. f_equal.
Qed.

(** ** One open window *)

Definition opened : gui := match create_window any_text 7 1 (str "one") 60 90 fresh with Ret (_, s) => s | Panic => boot end.
Definition the_window : Window := window_manager.new_window 7 60 70 60 90 (str "one").
Definition one_window : window_manager.WindowManager := wm_spec.desktop [wm_spec.EScreen 320 300; wm_spec.EAdd the_window].
Definition the_entry : GprocEntry := match ENTRIES opened !! 0%nat with Some e => e | None => empty end.

Lemma opened_desktop : desktop opened screen one_window.
Proof.
  constructor; [vm_compute; reflexivity|vm_compute; reflexivity|unfold graphics_spec.screen_ok; cbn; lia|].
  apply wm_spec.good_desktop. repeat constructor; cbn; unfold wm_spec.LIM, u32_max; lia.
Qed.
Lemma the_entry_ring : ring_ok the_entry.
Proof. constructor; [vm_compute; reflexivity|unfold EVENT_RING_SIZE; vm_compute; lia..]. Qed.
Lemma the_entry_empty : queued the_entry = [].
Proof. vm_compute. reflexivity. Qed.
Lemma the_window_drawable : drawable the_window.
Proof. unfold drawable. cbn. lia. Qed.

Lemma the_desktop_shows_what_was_presented_witness :
  exists s1 s3 g3, present 1 0 opened = Ret (0, s1) /\ composite_window 0 (set_gfx s1 (graphics.set_back screen (graphics.fill_cells ∅ 0 500 9))) = Ret (true, s3) /\ GFX s3 = Some g3 /\
    forall a b, graphics_spec.on screen a b -> graphics_spec.pixel g3 a b =
      if decide (in_content the_window a b) then graphics_spec.pixel screen a b else graphics_spec.pixel (graphics.set_back screen (graphics.fill_cells ∅ 0 500 9)) a b.
Proof.
  apply (the_desktop_shows_what_was_presented opened screen one_window 0 1 0 the_entry the_window window_manager.Normal);
    [exact opened_desktop|vm_compute; reflexivity..|exact the_window_drawable|reflexivity|vm_compute; reflexivity|discriminate|by split_and!].
Defined.

Lemma drawing_stays_in_the_callers_window_witness :
  (exists code, fill_rect 1 0 10 10 500 500 255 opened = Ret (code, opened) /\ code <> 0) \/
  exists i v g' s', fill_rect 1 0 10 10 500 500 255 opened = Ret (0, s') /\ owns opened i 1 0 /\ window_manager.windows one_window !! Z.to_nat 0 = Some (Some v) /\
    GFX s' = Some g' /\ draws (in_content v) graphics_spec.any_colour screen g'.
Proof.
  refine (drawing_stays_in_the_callers_window opened screen one_window 1 0 (fun _ => 0) (fun _ => 4096) 0 0 0 8 8 10 10 500 500 255 opened_desktop _ _ _ _ _ _); unfold u32; try lia. left.
Defined.

Lemma events_arrive_in_order_witness :
  exists s1 e1, push_event 0 (key 65) opened = Ret s1 /\ ENTRIES s1 !! 0%nat = Some e1 /\ queued e1 = sent (queued the_entry) (key 65) /\
    exists first rest, queued e1 = first :: rest /\
    exists mem' s2 e2, poll_event 1 0 0x2000 ∅ s1 = Ret (0, mem', s2) /\ gui_event.read_event mem' 0x2000 = first /\ ENTRIES s2 !! 0%nat = Some e2 /\ queued e2 = rest.
Proof.
  apply events_arrive_in_order; [vm_compute; reflexivity..|exact the_entry_ring|lia|].
  rewrite the_entry_empty. apply Forall_singleton. split; [unfold u32, GUI_EVENT_KEY, key; cbn [kind]; unfold GUI_EVENT_KEY; lia|reflexivity].
Defined.

Lemma events_decode_to_what_was_sent_witness :
  gui_event.as_key (key 65) = Some 65 /\ gui_event.as_mouse_move (mouse_move 300 7) = Some (300, 7) /\
  gui_event.as_mouse_btn (mouse_btn 300 7 1 true) = Some (300, 7, 1, true) /\ gui_event.as_focus (focus false) = Some false /\ gui_event.is_close close = true /\
  forall ev, ev ∈ [key 65; mouse_move 300 7; mouse_btn 300 7 1 true; focus false; close] -> event_ok ev /\
    (gui_event.as_key ev <> None <-> ev = key 65) /\ (gui_event.is_close ev = true <-> ev = close).
Proof. apply events_decode_to_what_was_sent; lia. Defined.

Lemma blit_shows_memory_beyond_the_segment_witness :
  exists s' g', blit_shm (fun a => a) (fun _ => 4096) 1 0 3 1000000 0 1 1 0 0 opened = Ret (0, s') /\ GFX s' = Some g' /\
    graphics_spec.pixel g' 60 104 = 4096 + HHDM + 4 * 1000000.
Proof.
  apply (blit_shows_memory_beyond_the_segment opened screen one_window 0 1 0 the_window (fun a => a) (fun _ => 4096) 3 1000000);
    [exact opened_desktop|vm_compute; reflexivity..|exact the_window_drawable|unfold graphics_spec.on; cbn; lia|lia|unfold u32; lia].
Defined.

End gui_spec.
