(* ===== verification/Menu.v ===== *)
(** * Menu bars (kernel/src/gui/menu.rs)

    Module [menu] translates menus, their layout and what the mouse does to them; drawing
    is left out. Coordinates are unsigned: an overflow is [Panic]. *)

From stdpp Require Import base list gmap strings list_numbers.
From Stdlib Require Import ZArith Lia.
From S2P Require Import Prelude WindowManager.

Local Open Scope Z_scope.

Module menu.
Import window_manager (uadd, both, within).

(* @src src/kernel/src/gui/menu.rs 21-31 MENUBAR_H *)
Definition MENUBAR_H : Z := 22.
Definition MAX_MENUS : nat := 8.
Definition MAX_ITEMS : nat := 12.
Definition ITEM_H : Z := 20.
Definition SEP_H : Z := 9.
Definition DROPDOWN_W : Z := 195.
Definition CHAR_W : Z := 9.
Definition TAB_PAD_X : Z := 12.
Definition DROPDOWN_PAD_Y : Z := 4.

(* @src src/kernel/src/gui/menu.rs 51-76 MenuAction *)
Inductive MenuAction :=
| NoAction | Consumed
| FileOpen | FileNew | FileSave | FileSaveAs | FileExit
| EditUndo | EditRedo | EditCut | EditCopy | EditPaste | EditSelectAll | EditFind
| FormatWordWrap | ViewStatusBar | HelpAbout.
#[export] Instance MenuAction_eq_dec : EqDecision MenuAction.
Proof. solve_decision. Defined.

(* @src src/kernel/src/gui/menu.rs 80-88 MenuItem *)
Record MenuItem := mkItem { label : list Z; shortcut : list Z; action : MenuAction; is_sep : bool; checked : bool; enabled : bool }.
(* @src src/kernel/src/gui/menu.rs 91-93 MenuItem::item *)
Definition item (label shortcut : list Z) (a : MenuAction) : MenuItem := mkItem label shortcut a false false true.
(* @src src/kernel/src/gui/menu.rs 94-97 MenuItem::sep *)
Definition sep : MenuItem := mkItem [] [] NoAction true false false.
(* @src src/kernel/src/gui/menu.rs 98-100 MenuItem::disabled *)
Definition disabled (label shortcut : list Z) (a : MenuAction) : MenuItem := mkItem label shortcut a false false false.
(* @src src/kernel/src/gui/menu.rs 101-103 MenuItem::checked_item *)
Definition checked_item (label shortcut : list Z) (a : MenuAction) (c : bool) : MenuItem := mkItem label shortcut a false c true.

(* @src src/kernel/src/gui/menu.rs 108-116 Menu *)
Record Menu := mkMenu { menu_label : list Z; items : list MenuItem; item_count : nat; tab_x : Z; tab_w : Z }.
Definition set_items (m : Menu) (its : list MenuItem) (n : nat) : Menu := mkMenu (menu_label m) its n (tab_x m) (tab_w m).
Definition set_tab (m : Menu) (x w : Z) : Menu := mkMenu (menu_label m) (items m) (item_count m) x w.
(* @src src/kernel/src/gui/menu.rs 119-128 Menu::new *)
Definition new_menu (label : list Z) : Menu := mkMenu label (replicate MAX_ITEMS sep) 0 0 0.
(* @src src/kernel/src/gui/menu.rs 130-135 Menu::add *)
Definition add (it : MenuItem) (m : Menu) : outcome Menu :=
  if (item_count m <? MAX_ITEMS)%nat then let! its := set_idx (items m) (item_count m) it in Ret (set_items m its (S (item_count m))) else Ret m.
(* @src src/kernel/src/gui/menu.rs 137-139 Menu::item_at *)
Definition item_at (i : nat) (m : Menu) : outcome (option MenuItem) :=
  if (i <? item_count m)%nat then let! it := idx (items m) i in Ret (Some it) else Ret None.

(** [if self.items[i].is_sep { SEP_H } else { ITEM_H }] *)
Definition row_height (it : MenuItem) : Z := if is_sep it then SEP_H else ITEM_H.
(* @src src/kernel/src/gui/menu.rs 148-150 Menu::dropdown_height (loop) *)
Fixpoint heights (m : Menu) (h : Z) (i n : nat) : outcome Z :=
  match n with
  | O => Ret h
  | S n' => let! it := idx (items m) i in let! h := uadd h (row_height it) in heights m h (S i) n'
  end.
(* @src src/kernel/src/gui/menu.rs 146-152 Menu::dropdown_height *)
Definition dropdown_height (m : Menu) : outcome Z := heights m (DROPDOWN_PAD_Y * 2) 0 (item_count m).
(* @src src/kernel/src/gui/menu.rs 157-163 Menu::item_at_rel_y (loop) *)
Fixpoint item_from (m : Menu) (y cur : Z) (i n : nat) : outcome (option nat) :=
  match n with
  | O => Ret None
  | S n' =>
    let! it := idx (items m) i in
    let h := row_height it in
    let! hit := (if negb (is_sep it) then within y cur h else Ret false) in
    if hit : bool then Ret (Some i) else let! cur := uadd cur h in item_from m y cur (S i) n'
  end.
(* @src src/kernel/src/gui/menu.rs 155-165 Menu::item_at_rel_y *)
Definition item_at_rel_y (m : Menu) (y : Z) : outcome (option nat) := item_from m y DROPDOWN_PAD_Y 0 (item_count m).

(* @src src/kernel/src/gui/menu.rs 170-176 MenuBar *)
Record MenuBar := mkBar { menus : list Menu; menu_count : nat; open_menu : option nat; hov_menu : option nat; hov_item : option nat }.
Definition set_menus (b : MenuBar) (ms : list Menu) : MenuBar := mkBar ms (menu_count b) (open_menu b) (hov_menu b) (hov_item b).
Definition set_open (b : MenuBar) (o : option nat) : MenuBar := mkBar (menus b) (menu_count b) o (hov_menu b) (hov_item b).
Definition set_hov (b : MenuBar) (hm hi : option nat) : MenuBar := mkBar (menus b) (menu_count b) (open_menu b) hm hi.
(* @src src/kernel/src/gui/menu.rs 179-188 MenuBar::new *)
Definition new : MenuBar := mkBar (replicate MAX_MENUS (new_menu [])) 0 None None None.
(* @src src/kernel/src/gui/menu.rs 191-196 MenuBar::add_menu *)
Definition add_menu (m : Menu) (b : MenuBar) : outcome MenuBar :=
  if (menu_count b <? MAX_MENUS)%nat then
    let! ms := set_idx (menus b) (menu_count b) m in Ret (mkBar ms (S (menu_count b)) (open_menu b) (hov_menu b) (hov_item b))
  else Ret b.
(* @src src/kernel/src/gui/menu.rs 199-205 MenuBar::set_checked *)
Definition set_checked (mi ii : nat) (c : bool) (b : MenuBar) : outcome MenuBar :=
  if (mi <? menu_count b)%nat then
    let! m := idx (menus b) mi in
    let! it := item_at ii m in
    match it with
    | None => Ret b
    | Some it =>
      let! its := set_idx (items m) ii (mkItem (label it) (shortcut it) (action it) (is_sep it) c (enabled it)) in
      let! ms := set_idx (menus b) mi (set_items m its (item_count m)) in
      Ret (set_menus b ms)
    end
  else Ret b.
(* @src src/kernel/src/gui/menu.rs 210-215 MenuBar::layout (loop) *)
Fixpoint layout_loop (x : Z) (i n : nat) (b : MenuBar) : outcome MenuBar :=
  match n with
  | O => Ret b
  | S n' =>
    let! m := idx (menus b) i in
    let w := Z.of_nat (length (menu_label m)) * CHAR_W + TAB_PAD_X * 2 in
    let! ms := set_idx (menus b) i (set_tab m x w) in
    let! x := uadd x w in
    layout_loop x (S i) n' (set_menus b ms)
  end.
(* @src src/kernel/src/gui/menu.rs 208-216 MenuBar::layout *)
Definition layout (bar_x : Z) (b : MenuBar) : outcome MenuBar := let! x := uadd bar_x 4 in layout_loop x 0 (menu_count b) b.

(** ** The mouse *)

(** Whether a point is on the bar. *)
Definition on_bar (mx my bar_x bar_y bar_w : Z) : outcome bool := both (within my bar_y MENUBAR_H) (within mx bar_x bar_w).
(** The first tab from [i] on below the pointer. *)
(* @src src/kernel/src/gui/menu.rs 349-351 MenuBar::handle_click (tabs) *)
Fixpoint tab_from (b : MenuBar) (mx : Z) (i n : nat) : outcome (option nat) :=
  match n with
  | O => Ret None
  | S n' =>
    let! m := idx (menus b) i in
    let! hit := within mx (tab_x m) (tab_w m) in
    if hit : bool then Ret (Some i) else tab_from b mx (S i) n'
  end.
(** The open menu and the height below the top of its dropdown, when the point lies in it. *)
(* @src src/kernel/src/gui/menu.rs 364-373 MenuBar::handle_click (dropdown) *)
Definition in_dropdown (b : MenuBar) (mx my bar_y : Z) : outcome (option (Menu * Z)) :=
  match open_menu b with
  | None => Ret None
  | Some mi =>
    let! m := idx (menus b) mi in
    let! drop_y := uadd bar_y MENUBAR_H in
    let! drop_h := dropdown_height m in
    let! hit := both (within mx (tab_x m) DROPDOWN_W) (within my drop_y drop_h) in
    Ret (if hit : bool then Some (m, my - drop_y) else None)
  end.

(* @src src/kernel/src/gui/menu.rs 302-342 MenuBar::handle_mouse_move *)
Definition handle_mouse_move (mx my bar_x bar_y bar_w : Z) (b : MenuBar) : outcome (bool * MenuBar) :=
  let! inside := on_bar mx my bar_x bar_y bar_w in
  if inside : bool then
    let! t := tab_from b mx 0 (menu_count b) in
    match t with
    | Some i =>
      let changed := negb (bool_decide (hov_menu b = Some i)) in
      let switched := bool_decide (is_Some (open_menu b)) && negb (bool_decide (open_menu b = Some i)) in
      let b := set_hov b (Some i) None in
      Ret (changed || switched, if switched then set_open b (Some i) else b)
    | None => Ret (bool_decide (is_Some (hov_menu b)), set_hov b None None)
    end
  else
    let! d := in_dropdown b mx my bar_y in
    match d with
    | Some (m, rel_y) =>
      let! new_hov := item_at_rel_y m rel_y in
      Ret (negb (bool_decide (hov_item b = new_hov)), set_hov b (hov_menu b) new_hov)
    | None => Ret (false, b)
    end.

(* @src src/kernel/src/gui/menu.rs 392-396 MenuBar::close *)
Definition close (b : MenuBar) : MenuBar := set_hov (set_open b None) None None.
(* @src src/kernel/src/gui/menu.rs 399-399 MenuBar::is_open *)
Definition is_open (b : MenuBar) : bool := bool_decide (is_Some (open_menu b)).

(* @src src/kernel/src/gui/menu.rs 346-389 MenuBar::handle_click *)
Definition handle_click (mx my bar_x bar_y bar_w : Z) (b : MenuBar) : outcome (MenuAction * MenuBar) :=
  let! inside := on_bar mx my bar_x bar_y bar_w in
  if inside : bool then
    let! t := tab_from b mx 0 (menu_count b) in
    match t with
    | Some i => Ret (NoAction, set_hov (set_open b (if bool_decide (open_menu b = Some i) then None else Some i)) (hov_menu b) None)
    | None => Ret (NoAction, set_open b None)
    end
  else
    let! d := in_dropdown b mx my bar_y in
    match d with
    | Some (m, rel_y) =>
      let! i := item_at_rel_y m rel_y in
      match i with
      | Some i =>
        let! it := idx (items m) i in
        if enabled it && negb (is_sep it) then Ret (action it, set_hov (set_open b None) (hov_menu b) None) else Ret (NoAction, b)
      | None => Ret (NoAction, b)
      end
    | None => Ret (NoAction, close b)
    end.

(* @src src/kernel/src/gui/menu.rs 402-417 MenuBar::hit_test *)
Definition hit_test (mx my bar_x bar_y bar_w : Z) (b : MenuBar) : outcome bool :=
  let! inside := on_bar mx my bar_x bar_y bar_w in
  if inside : bool then Ret true else let! d := in_dropdown b mx my bar_y in Ret (bool_decide (is_Some d)).
End menu.

(** ** Where the items are *)

Module menu_spec.
Import menu window_manager (uadd, both, within).

(** The top of the [i]-th row of a dropdown. *)
Definition top (m : Menu) (i : nat) : Z := DROPDOWN_PAD_Y + zsum row_height (take i (items m)).
Record menu_ok (m : Menu) : Prop := mkOk { m_items : length (items m) = MAX_ITEMS; m_count : (item_count m <= MAX_ITEMS)%nat }.

Lemma row_height_bounds it : 9 <= row_height it <= 20.
Proof. unfold row_height, SEP_H, ITEM_H. destruct (is_sep it); lia. Qed.
Lemma top_S m i it : items m !! i = Some it -> top m (S i) = top m i + row_height it.
Proof. intros H. unfold top. rewrite (take_S_r _ _ it) by done. rewrite zsum_app. cbn. lia. Qed.
Lemma top_bounds m i : 4 <= top m i <= 4 + 20 * Z.of_nat i.
Proof.
  unfold top, DROPDOWN_PAD_Y. assert (forall l, 0 <= zsum row_height l <= 20 * Z.of_nat (length l)) as H.
  { induction l as [|it l IH]; [done|]. rewrite zsum_cons. cbn [length]. pose proof (row_height_bounds it). lia. }
  specialize (H (take i (items m))). rewrite length_take in H. lia.
Qed.
Lemma within_interval p lo size : 0 <= lo -> 0 <= size -> lo + size <= u64_max -> within p lo size = Ret ((lo <=? p) && (p <? lo + size)).
Proof. intros ? ? ?. unfold within, uadd. destruct (lo <=? p); [|done]. by rewrite cadd_le. Qed.

(** The item that the pointer is on. *)
Definition pointed (m : Menu) (y : Z) (j : nat) : Prop := exists it, items m !! j = Some it /\ is_sep it = false /\ top m j <= y < top m j + ITEM_H.

Lemma item_from_ok m y : menu_ok m -> forall n i, (i + n = item_count m)%nat -> exists o, item_from m y (top m i) i n = Ret o /\
  match o with Some j => (i <= j < item_count m)%nat /\ pointed m y j | None => forall j, (i <= j < item_count m)%nat -> ~ pointed m y j end.
Proof.
  intros [Hi Hc]. induction n as [|n IH]; intros i Hn; cbn [item_from]; [exists None; split; [done|lia]|].
  destruct (idx_lt (items m) i) as (it & -> & Hit); [lia|]. cbn [mbind outcome_mbind]. pose proof (top_bounds m i). pose proof (row_height_bounds it). unfold MAX_ITEMS in *.
  rewrite within_interval by (unfold u64_max; lia).
  assert (forall b : bool, (if negb (is_sep it) then Ret b else Ret false) = Ret (negb (is_sep it) && b)) as -> by (intros; by destruct (is_sep it)). cbn [mbind outcome_mbind].
  destruct (negb (is_sep it) && ((top m i <=? y) && (y <? top m i + row_height it))) eqn:E.
  - bool_simpl. exists (Some i). split; [done|]. split; [lia|]. exists it. unfold row_height in *. destruct (is_sep it); [done|]. split_and!; (done || lia).
  - unfold uadd. rewrite cadd_le by (unfold u64_max; lia). cbn [mbind outcome_mbind]. rewrite <- (top_S m i it) by done.
    assert (~ pointed m y i) as Hno.
    { intros (it' & Hit' & Hs & Hy). rewrite Hit in Hit'. injection Hit' as <-. unfold row_height in E. rewrite Hs in E. cbn [negb andb] in E.
      rewrite (proj2 (Z.leb_le _ _)), (proj2 (Z.ltb_lt _ _)) in E by lia. done. }
    destruct (IH (S i)) as (o & -> & Ho); [lia|]. exists o. split; [done|]. destruct o as [j|]; [destruct Ho; split; [lia|done]|].
    intros j Hj. destruct (decide (j = i)) as [->|]; [done|]. apply Ho. lia.
Qed.

(** The item that a click chooses is the one whose row, below the rows before it, contains the
    pointer; separators and the margins choose none. *)
Theorem the_pointed_item_is_chosen m y (O : menu_ok m) : exists o, item_at_rel_y m y = Ret o /\
  match o with Some j => (j < item_count m)%nat /\ pointed m y j | None => forall j, (j < item_count m)%nat -> ~ pointed m y j end.
Proof.
  destruct (item_from_ok m y O (item_count m) 0) as (o & E & Ho); [done|]. exists o. split; [exact E|].
  destruct o as [j|]; [destruct Ho; split; [lia|done]|]. intros j Hj. apply Ho. lia.
Qed.
End menu_spec.
