(* ===== verification/Notepad.v ===== *)
(** * The text editor of the desktop (kernel/src/gui/notepad.rs)

    Module [notepad] translates the editor's buffer, its undo history, the selection and
    the clipboard, searching, loading and saving, and what keys and menu actions do to them;
    drawing is left out but for the menu's layout. The fields of [NotepadApp] are grouped as the
    comments of the struct group them. Files go through the in-memory filesystem and the FAT16
    driver of [Vfs]. An index out of range is [Panic]. *)

From stdpp Require Import base list gmap strings list_numbers.
From Stdlib Require Import ZArith Lia.
From S2P Require Import Prelude RamFs FdTable Mbr Fat FatOps DiskStore StoreFs Vfs FileCalls WindowManager Menu.

Local Open Scope Z_scope.

Module notepad.
Import (hints) menu.
Import vfs (Files, ram, set_ram, fat_of, on_fat, is_present).

(* @src src/kernel/src/gui/notepad.rs 96-97 MAX_LINES *)
Definition MAX_LINES : nat := 1024.
Definition MAX_LINE_LEN : nat := 256.
(* @src src/kernel/src/gui/notepad.rs 100-100 UNDO_CAP *)
Definition UNDO_CAP : nat := 256.
(* @src src/kernel/src/gui/notepad.rs 118-118 CLIPBOARD_MAX *)
Definition CLIPBOARD_MAX : nat := 4096.

(* @src src/kernel/src/gui/notepad.rs 103-110 UndoOp *)
Inductive UndoOp :=
| Char (row col ch : Z) (insert : bool)
| Newline (row col : Z) (insert : bool).
(* @src src/kernel/src/gui/notepad.rs 112-112 UNDO_ZERO *)
Definition UNDO_ZERO : UndoOp := Char 0 0 0 false.
(* @src src/kernel/src/gui/notepad.rs 116-116 BarMode *)
Inductive BarMode := NoBar | Find | Open.
#[export] Instance BarMode_eq_dec : EqDecision BarMode.
Proof. solve_decision. Defined.

(* @src src/kernel/src/gui/notepad.rs 156-164 NotepadApp (buffer) *)
Record Buffer := mkBuffer {
  lines : list (list Z); line_lens : list nat; num_lines : nat;
  cursor_row : nat; cursor_col : nat; scroll_top : nat;
  filename : list Z; filename_len : nat; dirty : bool;
}.
(* @src src/kernel/src/gui/notepad.rs 166-170 NotepadApp (undo and redo) *)
Record History := mkHistory { undo_buf : list UndoOp; undo_head : nat; undo_len : nat; redo_buf : list UndoOp; redo_len : nat }.
(* @src src/kernel/src/gui/notepad.rs 172-174 NotepadApp (selection) *)
Record Selection := mkSelection { sel_active : bool; sel_anchor_row : nat; sel_anchor_col : nat }.
(* @src src/kernel/src/gui/notepad.rs 176-181 NotepadApp (input bar) *)
Record Bar := mkBar { bar_mode : BarMode; bar_text : list Z; bar_len : nat; find_match_row : nat; find_match_col : nat; find_has_match : bool }.
(* @src src/kernel/src/gui/notepad.rs 153-193 NotepadApp *)
Record NotepadApp := mkApp {
  window_id : nat; buf : Buffer; hist : History; sel : Selection; bar : Bar;
  menu_bar : menu.MenuBar; word_wrap : bool; show_status_bar : bool; show_about : bool;
  last_bar_x : Z; last_bar_y : Z; last_bar_w : Z;
}.

Definition set_text (b : Buffer) ls lens n : Buffer :=
  mkBuffer ls lens n (cursor_row b) (cursor_col b) (scroll_top b) (filename b) (filename_len b) (dirty b).
Definition set_cursor (b : Buffer) r c : Buffer :=
  mkBuffer (lines b) (line_lens b) (num_lines b) r c (scroll_top b) (filename b) (filename_len b) (dirty b).
Definition set_scroll (b : Buffer) t : Buffer :=
  mkBuffer (lines b) (line_lens b) (num_lines b) (cursor_row b) (cursor_col b) t (filename b) (filename_len b) (dirty b).
Definition set_filename (b : Buffer) f n : Buffer :=
  mkBuffer (lines b) (line_lens b) (num_lines b) (cursor_row b) (cursor_col b) (scroll_top b) f n (dirty b).
Definition set_dirty (b : Buffer) d : Buffer :=
  mkBuffer (lines b) (line_lens b) (num_lines b) (cursor_row b) (cursor_col b) (scroll_top b) (filename b) (filename_len b) d.
Definition set_redo_len (h : History) n : History := mkHistory (undo_buf h) (undo_head h) (undo_len h) (redo_buf h) n.
Definition unselect (s : Selection) : Selection := mkSelection false (sel_anchor_row s) (sel_anchor_col s).
Definition set_mode (r : Bar) m : Bar := mkBar m (bar_text r) (bar_len r) (find_match_row r) (find_match_col r) (find_has_match r).
Definition set_input (r : Bar) t n : Bar := mkBar (bar_mode r) t n (find_match_row r) (find_match_col r) (find_has_match r).
Definition set_match (r : Bar) row col has : Bar := mkBar (bar_mode r) (bar_text r) (bar_len r) row col has.
Definition no_match (r : Bar) : Bar := set_match r (find_match_row r) (find_match_col r) false.
Definition set_buf (a : NotepadApp) b : NotepadApp :=
  mkApp (window_id a) b (hist a) (sel a) (bar a) (menu_bar a) (word_wrap a) (show_status_bar a) (show_about a) (last_bar_x a) (last_bar_y a) (last_bar_w a).
Definition set_hist (a : NotepadApp) h : NotepadApp :=
  mkApp (window_id a) (buf a) h (sel a) (bar a) (menu_bar a) (word_wrap a) (show_status_bar a) (show_about a) (last_bar_x a) (last_bar_y a) (last_bar_w a).
Definition set_sel (a : NotepadApp) s : NotepadApp :=
  mkApp (window_id a) (buf a) (hist a) s (bar a) (menu_bar a) (word_wrap a) (show_status_bar a) (show_about a) (last_bar_x a) (last_bar_y a) (last_bar_w a).
Definition set_bar (a : NotepadApp) r : NotepadApp :=
  mkApp (window_id a) (buf a) (hist a) (sel a) r (menu_bar a) (word_wrap a) (show_status_bar a) (show_about a) (last_bar_x a) (last_bar_y a) (last_bar_w a).
Definition set_view (a : NotepadApp) m ww sb ab : NotepadApp :=
  mkApp (window_id a) (buf a) (hist a) (sel a) (bar a) m ww sb ab (last_bar_x a) (last_bar_y a) (last_bar_w a).
Definition set_last_bar (a : NotepadApp) x y w : NotepadApp :=
  mkApp (window_id a) (buf a) (hist a) (sel a) (bar a) (menu_bar a) (word_wrap a) (show_status_bar a) (show_about a) x y w.

(** ** Construction *)

Definition menu_of (label : list Z) (its : list menu.MenuItem) : outcome menu.Menu :=
  foldl (fun m it => let! m := m in menu.add it m) (Ret (menu.new_menu label)) its.
(* @src src/kernel/src/gui/notepad.rs 238-273 build_menu *)
Definition build_menu (a : NotepadApp) : outcome NotepadApp :=
  let! file := menu_of (str "File")
    [menu.item (str "Open...") (str "^O") menu.FileOpen; menu.item (str "New") (str "^N") menu.FileNew; menu.sep;
     menu.item (str "Save") (str "^S") menu.FileSave; menu.item (str "Save As") [] menu.FileSaveAs; menu.sep;
     menu.item (str "Exit") [] menu.FileExit] in
  let! mb := menu.add_menu file (menu_bar a) in
  let! edit := menu_of (str "Edit")
    [menu.item (str "Undo") (str "^Z") menu.EditUndo; menu.item (str "Redo") (str "^Y") menu.EditRedo; menu.sep;
     menu.item (str "Cut") (str "^X") menu.EditCut; menu.item (str "Copy") (str "^C") menu.EditCopy;
     menu.item (str "Paste") (str "^V") menu.EditPaste; menu.sep;
     menu.item (str "Select All") (str "^A") menu.EditSelectAll; menu.sep; menu.item (str "Find") (str "^F") menu.EditFind] in
  let! mb := menu.add_menu edit mb in
  let! fmt := menu_of (str "Format") [menu.checked_item (str "Word Wrap") [] menu.FormatWordWrap false] in
  let! mb := menu.add_menu fmt mb in
  let! view := menu_of (str "View") [menu.checked_item (str "Status Bar") [] menu.ViewStatusBar true] in
  let! mb := menu.add_menu view mb in
  let! help := menu_of (str "Help") [menu.item (str "About Notepad") [] menu.HelpAbout] in
  let! mb := menu.add_menu help mb in
  Ret (set_view a mb (word_wrap a) (show_status_bar a) (show_about a)).
(* @src src/kernel/src/gui/notepad.rs 196-232 NotepadApp::new *)
Definition new (id : nat) : outcome NotepadApp :=
  build_menu (mkApp id
    (mkBuffer (replicate MAX_LINES (replicate MAX_LINE_LEN 0)) (replicate MAX_LINES 0%nat) 1 0 0 0 (replicate 64 0) 0 false)
    (mkHistory (replicate UNDO_CAP UNDO_ZERO) 0 0 (replicate UNDO_CAP UNDO_ZERO) 0)
    (mkSelection false 0 0) (mkBar NoBar (replicate 64 0) 0 0 0 false) menu.new false true false 0 0 0).

(** ** Loops over an array *)

(** [for i in (col..col + n).rev() { a[i + 1] = a[i] }] *)
Fixpoint shift_right {A} (a : list A) (col n : nat) : outcome (list A) :=
  match n with
  | O => Ret a
  | S n' => let! v := idx a (col + n') in let! a := set_idx a (S (col + n')) v in shift_right a col n'
  end.
(** [for i in from..from + n { a[i] = a[i + d] }] *)
Fixpoint shift_left {A} (d : nat) (a : list A) (from n : nat) : outcome (list A) :=
  match n with
  | O => Ret a
  | S n' => let! v := idx a (from + d) in let! a := set_idx a from v in shift_left d a (S from) n'
  end.
(** [for i in 0..n { dst[p + i] = src[q + i] }] *)
Fixpoint copy_cells {A} (dst : list A) (p : nat) (src : list A) (q n : nat) : outcome (list A) :=
  match n with
  | O => Ret dst
  | S n' => let! v := idx src q in let! dst := set_idx dst p v in copy_cells dst (S p) src (S q) n'
  end.
(** [for i in from..from + n { a[i] = x }] *)
Fixpoint fill {A} (x : A) (a : list A) (from n : nat) : outcome (list A) :=
  match n with
  | O => Ret a
  | S n' => let! a := set_idx a from x in fill x a (S from) n'
  end.

(** ** Editing primitives *)

(* @src src/kernel/src/gui/notepad.rs 722-730 raw_insert_char_at *)
Definition raw_insert_char_at (row col : nat) (ch : Z) (b : Buffer) : outcome Buffer :=
  if (MAX_LINES <=? row)%nat then Ret b
  else
    let! len := idx (line_lens b) row in
    if (MAX_LINE_LEN <=? len)%nat then Ret b
    else
      let! line := idx (lines b) row in
      let! line := shift_right line col (len - col) in
      let! line := set_idx line col ch in
      let! ls := set_idx (lines b) row line in
      let! lens := set_idx (line_lens b) row (S len) in
      Ret (set_text b ls lens (num_lines b)).

(* @src src/kernel/src/gui/notepad.rs 732-740 raw_delete_char_at *)
Definition raw_delete_char_at (row col : nat) (b : Buffer) : outcome Buffer :=
  if (MAX_LINES <=? row)%nat then Ret b
  else
    let! len := idx (line_lens b) row in
    if (len <=? col)%nat then Ret b
    else
      let! line := idx (lines b) row in
      let! line := shift_left 1 line col (len - 1 - col) in
      let! line := (if (0 <? len)%nat then set_idx line (len - 1) 0 else Ret line) in
      let! ls := set_idx (lines b) row line in
      let! lens := set_idx (line_lens b) row (len - 1)%nat in
      Ret (set_text b ls lens (num_lines b)).

(** The lines from [from] on, one place down: the lines and their lengths. *)
(* @src src/kernel/src/gui/notepad.rs 749-754 raw_split_line (shift) *)
Fixpoint lines_down {A} (a : list A) (from n : nat) : outcome (list A) :=
  match n with
  | O => Ret a
  | S n' =>
    let i := (from + n')%nat in
    let! a := (if (S i <? MAX_LINES)%nat then let! v := idx a i in set_idx a (S i) v else Ret a) in
    lines_down a from n'
  end.
(* @src src/kernel/src/gui/notepad.rs 743-763 raw_split_line *)
Definition raw_split_line (row col : nat) (b : Buffer) : outcome Buffer :=
  if (MAX_LINES <=? num_lines b)%nat then Ret b
  else
    let! old_len := idx (line_lens b) row in
    let col := Nat.min col old_len in
    let tail_len := (old_len - col)%nat in
    let! ls := lines_down (lines b) (S row) (num_lines b - S row) in
    let! lens := lines_down (line_lens b) (S row) (num_lines b - S row) in
    let! line := idx ls row in
    let! new_line := copy_cells (replicate MAX_LINE_LEN 0) 0 line col tail_len in
    let! line := fill 0 line col (old_len - col) in
    let! ls := set_idx ls row line in
    let! lens := set_idx lens row col in
    let! ls := set_idx ls (S row) new_line in
    let! lens := set_idx lens (S row) tail_len in
    Ret (set_text b ls lens (S (num_lines b))).

(* @src src/kernel/src/gui/notepad.rs 766-782 raw_join_lines *)
Definition raw_join_lines (row : nat) (b : Buffer) : outcome Buffer :=
  if (num_lines b <=? S row)%nat then Ret b
  else
    let! prev_len := idx (line_lens b) row in
    let! cur_len := idx (line_lens b) (S row) in
    let copy_len := Nat.min cur_len (MAX_LINE_LEN - prev_len) in
    let! line := idx (lines b) row in
    let! next := idx (lines b) (S row) in
    let! line := copy_cells line prev_len next 0 copy_len in
    let! ls := set_idx (lines b) row line in
    let! lens := set_idx (line_lens b) row (prev_len + copy_len)%nat in
    let n := (num_lines b - 1 - S row)%nat in
    let! ls := shift_left 1 ls (S row) n in
    let! lens := shift_left 1 lens (S row) n in
    Ret (set_text b ls lens (if (num_lines b - 1 =? 0)%nat then 1 else num_lines b - 1)%nat).

(** ** Cursor movement *)

(* @src src/kernel/src/gui/notepad.rs 981-987 ensure_visible *)
Definition ensure_visible (approx_rows : nat) (b : Buffer) : Buffer :=
  if (cursor_row b <? scroll_top b)%nat then set_scroll b (cursor_row b)
  else if (scroll_top b + approx_rows <=? cursor_row b)%nat && (0 <? approx_rows)%nat then set_scroll b (cursor_row b + 1 - approx_rows)
  else b.

(* @src src/kernel/src/gui/notepad.rs 948-954 move_up *)
Definition move_up (b : Buffer) : outcome Buffer :=
  if (0 <? cursor_row b)%nat then
    let r := (cursor_row b - 1)%nat in
    let! len := idx (line_lens b) r in
    Ret (ensure_visible 20 (set_cursor b r (Nat.min (cursor_col b) len)))
  else Ret b.
(* @src src/kernel/src/gui/notepad.rs 955-961 move_down *)
Definition move_down (b : Buffer) : outcome Buffer :=
  if (cursor_row b + 1 <? num_lines b)%nat then
    let r := (cursor_row b + 1)%nat in
    let! len := idx (line_lens b) r in
    Ret (ensure_visible 20 (set_cursor b r (Nat.min (cursor_col b) len)))
  else Ret b.
(* @src src/kernel/src/gui/notepad.rs 962-970 move_left *)
Definition move_left (b : Buffer) : outcome Buffer :=
  if (0 <? cursor_col b)%nat then Ret (set_cursor b (cursor_row b) (cursor_col b - 1))
  else if (0 <? cursor_row b)%nat then
    let r := (cursor_row b - 1)%nat in
    let! len := idx (line_lens b) r in
    Ret (ensure_visible 20 (set_cursor b r len))
  else Ret b.
(* @src src/kernel/src/gui/notepad.rs 971-979 move_right *)
Definition move_right (b : Buffer) : outcome Buffer :=
  let! len := idx (line_lens b) (cursor_row b) in
  if (cursor_col b <? len)%nat then Ret (set_cursor b (cursor_row b) (cursor_col b + 1))
  else if (cursor_row b + 1 <? num_lines b)%nat then Ret (ensure_visible 20 (set_cursor b (cursor_row b + 1) 0))
  else Ret b.

(** ** Undo and redo *)

(** [n as u16] *)
Definition u16 (n : nat) : Z := wrap 16 (Z.of_nat n).

(* @src src/kernel/src/gui/notepad.rs 635-640 undo_push_raw *)
Definition undo_push_raw (op : UndoOp) (h : History) : outcome History :=
  let! ub := set_idx (undo_buf h) (undo_head h) op in
  Ret (mkHistory ub ((undo_head h + 1) mod UNDO_CAP) (Nat.min (undo_len h + 1) UNDO_CAP) (redo_buf h) (redo_len h)).
(* @src src/kernel/src/gui/notepad.rs 628-633 undo_push *)
Definition undo_push (op : UndoOp) (h : History) : outcome History := undo_push_raw op (set_redo_len h 0).
(* @src src/kernel/src/gui/notepad.rs 642-647 undo_pop *)
Definition undo_pop (h : History) : outcome (option UndoOp * History) :=
  if (undo_len h =? 0)%nat then Ret (None, h)
  else
    let head := ((undo_head h + UNDO_CAP - 1) mod UNDO_CAP)%nat in
    let! op := idx (undo_buf h) head in
    Ret (Some op, mkHistory (undo_buf h) head (undo_len h - 1) (redo_buf h) (redo_len h)).
(* @src src/kernel/src/gui/notepad.rs 649-654 redo_push *)
Definition redo_push (op : UndoOp) (h : History) : outcome History :=
  if (redo_len h <? UNDO_CAP)%nat then
    let! rb := set_idx (redo_buf h) (redo_len h) op in
    Ret (mkHistory (undo_buf h) (undo_head h) (undo_len h) rb (redo_len h + 1))
  else Ret h.
(* @src src/kernel/src/gui/notepad.rs 656-660 redo_pop *)
Definition redo_pop (h : History) : outcome (option UndoOp * History) :=
  if (redo_len h =? 0)%nat then Ret (None, h)
  else
    let n := (redo_len h - 1)%nat in
    let! op := idx (redo_buf h) n in
    Ret (Some op, set_redo_len h n).

(* @src src/kernel/src/gui/notepad.rs 663-700 apply_op *)
Definition apply_op (op : UndoOp) (b : Buffer) : outcome (UndoOp * Buffer) :=
  match op with
  | Char row col ch true =>
    let! b := raw_delete_char_at (Z.to_nat row) (Z.to_nat col) b in
    Ret (Char row col ch false, set_cursor b (Z.to_nat row) (Z.to_nat col))
  | Char row col ch false =>
    let! b := raw_insert_char_at (Z.to_nat row) (Z.to_nat col) ch b in
    Ret (Char row col ch true, set_cursor b (Z.to_nat row) (Z.to_nat col + 1))
  | Newline row col true =>
    let! b := raw_join_lines (Z.to_nat row) b in
    Ret (Newline row col false, set_cursor b (Z.to_nat row) (Z.to_nat col))
  | Newline row col false =>
    let! b := raw_split_line (Z.to_nat row) (Z.to_nat col) b in
    Ret (Newline row col true, set_cursor b (Z.to_nat row + 1) 0)
  end.

(** What [undo] and [redo] do after the history gave an operation. *)
Definition replay (op : UndoOp) (push : UndoOp -> History -> outcome History) (a : NotepadApp) : outcome NotepadApp :=
  let! (rev, b) := apply_op op (buf a) in
  let! h := push rev (hist a) in
  Ret (set_buf (set_hist (set_sel a (unselect (sel a))) h) (ensure_visible 20 (set_dirty b true))).
(* @src src/kernel/src/gui/notepad.rs 702-709 undo *)
Definition undo (a : NotepadApp) : outcome NotepadApp :=
  let! (op, h) := undo_pop (hist a) in
  match op with None => Ret a | Some op => replay op redo_push (set_hist a h) end.
(* @src src/kernel/src/gui/notepad.rs 711-718 redo *)
Definition redo (a : NotepadApp) : outcome NotepadApp :=
  let! (op, h) := redo_pop (hist a) in
  match op with None => Ret a | Some op => replay op undo_push_raw (set_hist a h) end.

(** ** Editing at the cursor *)

(** The end of an edit: the history gets its operation. *)
Definition record (op : UndoOp) (b : Buffer) (a : NotepadApp) : outcome NotepadApp :=
  let! h := undo_push op (hist a) in Ret (set_buf (set_hist a h) (set_dirty b true)).

(* @src src/kernel/src/gui/notepad.rs 786-794 insert_char *)
Definition insert_char (ch : Z) (a : NotepadApp) : outcome NotepadApp :=
  let b := buf a in
  let row := cursor_row b in
  let col := cursor_col b in
  if (MAX_LINES <=? row)%nat then Ret a
  else
    let! len := idx (line_lens b) row in
    if (MAX_LINE_LEN <=? len)%nat then Ret a
    else
      let! b := raw_insert_char_at row col ch b in
      record (Char (u16 row) (u16 col) ch true) (set_cursor b (cursor_row b) (cursor_col b + 1)) a.

(* @src src/kernel/src/gui/notepad.rs 796-806 insert_newline *)
Definition insert_newline (a : NotepadApp) : outcome NotepadApp :=
  let b := buf a in
  let row := cursor_row b in
  let col := cursor_col b in
  if (MAX_LINES <=? num_lines b)%nat then Ret a
  else
    let! b := raw_split_line row col b in
    record (Newline (u16 row) (u16 col) true) (ensure_visible 20 (set_cursor b (cursor_row b + 1) 0)) a.

(* @src src/kernel/src/gui/notepad.rs 808-826 backspace *)
Definition backspace (a : NotepadApp) : outcome NotepadApp :=
  let b := buf a in
  let row := cursor_row b in
  let col := cursor_col b in
  if (0 <? col)%nat then
    let! line := idx (lines b) row in
    let! old_ch := idx line (col - 1) in
    let! b := raw_delete_char_at row (col - 1) b in
    record (Char (u16 row) (u16 (col - 1)) old_ch false) (set_cursor b (cursor_row b) (cursor_col b - 1)) a
  else if (0 <? row)%nat then
    let! prev_len := idx (line_lens b) (row - 1) in
    let! b := raw_join_lines (row - 1) b in
    record (Newline (u16 (row - 1)) (u16 prev_len) false) (ensure_visible 20 (set_cursor b (cursor_row b - 1) prev_len)) a
  else Ret a.

(** ** Selection and clipboard *)

(* @src src/kernel/src/gui/notepad.rs 830-836 start_sel *)
Definition start_sel (a : NotepadApp) : NotepadApp :=
  if sel_active (sel a) then a else set_sel a (mkSelection true (cursor_row (buf a)) (cursor_col (buf a))).
(* @src src/kernel/src/gui/notepad.rs 838-847 select_all *)
Definition select_all (a : NotepadApp) : outcome NotepadApp :=
  let a := set_sel a (mkSelection true 0 0) in
  let b := buf a in
  if (0 <? num_lines b)%nat then
    let r := (num_lines b - 1)%nat in
    let! len := idx (line_lens b) r in
    Ret (set_buf a (ensure_visible 20 (set_cursor b r len)))
  else Ret a.

(** [(r, c)] comes before [(r', c')]. *)
Definition before (r c r' c' : nat) : bool := (r <? r')%nat || ((r =? r')%nat && (c <? c')%nat).
(* @src src/kernel/src/gui/notepad.rs 850-861 sel_range *)
Definition sel_range (a : NotepadApp) : option (nat * nat * nat * nat) :=
  if negb (sel_active (sel a)) then None
  else
    let '(ar, ac) := (sel_anchor_row (sel a), sel_anchor_col (sel a)) in
    let '(cr, cc) := (cursor_row (buf a), cursor_col (buf a)) in
    if before ar ac cr cc then Some (ar, ac, cr, cc)
    else if before cr cc ar ac then Some (cr, cc, ar, ac)
    else None.

(** [CLIPBOARD] and [CLIPBOARD_LEN], which all editors share. *)
(* @src src/kernel/src/gui/notepad.rs 119-120 CLIPBOARD *)
Record Clipboard := mkClip { clip : list Z; clip_len : nat }.
(** [if pos < CLIPBOARD_MAX { CLIPBOARD[pos] = x; pos += 1 }]; [clip_len] is [pos]. *)
Definition clip_push (x : Z) (c : Clipboard) : outcome Clipboard :=
  if (clip_len c <? CLIPBOARD_MAX)%nat then let! l := set_idx (clip c) (clip_len c) x in Ret (mkClip l (S (clip_len c))) else Ret c.
(* @src src/kernel/src/gui/notepad.rs 871-873 copy_selection (columns) *)
Fixpoint copy_cols (b : Buffer) (row col n : nat) (c : Clipboard) : outcome Clipboard :=
  match n with
  | O => Ret c
  | S n' =>
    let! c := (if (clip_len c <? CLIPBOARD_MAX)%nat then let! line := idx (lines b) row in let! x := idx line col in clip_push x c else Ret c) in
    copy_cols b row (S col) n' c
  end.
(* @src src/kernel/src/gui/notepad.rs 867-875 copy_selection (rows) *)
Fixpoint copy_rows (b : Buffer) (sr sc er ec : nat) (row n : nat) (c : Clipboard) : outcome Clipboard :=
  match n with
  | O => Ret c
  | S n' =>
    if (num_lines b <=? row)%nat then Ret c
    else
      let! len := idx (line_lens b) row in
      let start := if (row =? sr)%nat then sc else 0%nat in
      let stop := if (row =? er)%nat then ec else len in
      let! c := copy_cols b row start (Nat.min stop len - start) c in
      let! c := (if (row <? er)%nat then clip_push 10 c else Ret c) in
      copy_rows b sr sc er ec (S row) n' c
  end.
(* @src src/kernel/src/gui/notepad.rs 863-878 copy_selection *)
Definition copy_selection (a : NotepadApp) (c : Clipboard) : outcome Clipboard :=
  match sel_range a with
  | None => Ret c
  | Some (sr, sc, er, ec) => copy_rows (buf a) sr sc er ec sr (S (er - sr)) (mkClip (clip c) 0)
  end.

(* @src src/kernel/src/gui/notepad.rs 891-898 delete_selection (one line) *)
Definition delete_in_line (sr sc ec : nat) (b : Buffer) : outcome Buffer :=
  let! len := idx (line_lens b) sr in
  let del := (Nat.min ec len - sc)%nat in
  let! line := idx (lines b) sr in
  let! line := shift_left del line sc (len - del - sc) in
  let! line := fill 0 line (len - del) del in
  let! ls := set_idx (lines b) sr line in
  let! lens := set_idx (line_lens b) sr (len - del)%nat in
  Ret (set_text b ls lens (num_lines b)).
(* @src src/kernel/src/gui/notepad.rs 899-915 delete_selection (several lines) *)
Definition delete_lines (sr sc er ec : nat) (b : Buffer) : outcome Buffer :=
  let! len := idx (line_lens b) er in
  let tail_start := Nat.min ec len in
  let tail_len := (len - tail_start)%nat in
  let copy := Nat.min tail_len (MAX_LINE_LEN - sc) in
  let! line := idx (lines b) sr in
  let! last := idx (lines b) er in
  let! line := copy_cells line sc last tail_start copy in
  let! ls := set_idx (lines b) sr line in
  let! lens := set_idx (line_lens b) sr (sc + copy)%nat in
  let remove := (er - sr)%nat in
  let n := (num_lines b - remove - S sr)%nat in
  let! ls := shift_left remove ls (S sr) n in
  let! lens := shift_left remove lens (S sr) n in
  Ret (set_text b ls lens (if (num_lines b - remove =? 0)%nat then 1 else num_lines b - remove)%nat).
(* @src src/kernel/src/gui/notepad.rs 880-918 delete_selection *)
Definition delete_selection (a : NotepadApp) : outcome NotepadApp :=
  match sel_range a with
  | None => Ret (set_sel a (unselect (sel a)))
  | Some (sr, sc, er, ec) =>
    let b := set_cursor (buf a) sr sc in
    let! b := (if (sr =? er)%nat then delete_in_line sr sc ec b else delete_lines sr sc er ec b) in
    Ret (set_buf (set_hist (set_sel a (unselect (sel a))) (set_redo_len (hist a) 0)) (ensure_visible 20 (set_dirty b true)))
  end.

(* @src src/kernel/src/gui/notepad.rs 924-940 paste_clipboard (loop) *)
Fixpoint paste_bytes (bs : list Z) (b : Buffer) : outcome Buffer :=
  match bs with
  | [] => Ret b
  | x :: bs' =>
    let! b := (if x =? 10 then
                 if (num_lines b <? MAX_LINES)%nat then
                   let! b := raw_split_line (cursor_row b) (cursor_col b) b in Ret (set_cursor b (cursor_row b + 1) 0)
                 else Ret b
               else if (0x20 <=? x) || (x =? 9) then
                 let! len := idx (line_lens b) (cursor_row b) in
                 if (len <? MAX_LINE_LEN)%nat then
                   let! b := raw_insert_char_at (cursor_row b) (cursor_col b) x b in Ret (set_cursor b (cursor_row b) (cursor_col b + 1))
                 else Ret b
               else Ret b) in
    paste_bytes bs' b
  end.
(* @src src/kernel/src/gui/notepad.rs 920-944 paste_clipboard *)
Definition paste_clipboard (c : Clipboard) (a : NotepadApp) : outcome NotepadApp :=
  let! a := (if sel_active (sel a) then delete_selection a else Ret a) in
  let! bs := slice (clip c) 0 (clip_len c) in
  let! b := paste_bytes bs (buf a) in
  Ret (set_buf (set_hist a (set_redo_len (hist a) 0)) (ensure_visible 20 (set_dirty b true))).

(** ** The input bar and searching *)

(* @src src/kernel/src/gui/notepad.rs 504-508 open_bar *)
Definition open_bar (a : NotepadApp) : NotepadApp := set_bar a (set_input (set_mode (bar a) Open) (replicate 64 0) 0).
(* @src src/kernel/src/gui/notepad.rs 567-572 find_bar *)
Definition find_bar (a : NotepadApp) : NotepadApp := set_bar a (no_match (set_input (set_mode (bar a) Find) (replicate 64 0) 0)).

(** The columns from [col] on, [n] of them. *)
(* @src src/kernel/src/gui/notepad.rs 607-618 find_next (columns) *)
Fixpoint find_col (b : Buffer) (q : list Z) (row col n : nat) : outcome (option nat) :=
  match n with
  | O => Ret None
  | S n' =>
    let! line := idx (lines b) row in
    let! s := slice line col (col + length q) in
    if bool_decide (s = q) then Ret (Some col) else find_col b q row (S col) n'
  end.
(** The rows from [row] on, [n] of them; the search in the first starts at column [from]. *)
(* @src src/kernel/src/gui/notepad.rs 602-620 find_next (rows) *)
Fixpoint find_row (b : Buffer) (q : list Z) (row from n : nat) : outcome (option (nat * nat)) :=
  match n with
  | O => Ret None
  | S n' =>
    let! len := idx (line_lens b) row in
    let! c := (if (length q <=? len)%nat then find_col b q row from (S (len - length q) - from) else Ret None) in
    match c with Some c => Ret (Some (row, c)) | None => find_row b q (S row) 0 n' end
  end.
(** Where the search begins: behind the current match. *)
(* @src src/kernel/src/gui/notepad.rs 585-591 find_next (start) *)
Definition find_start (b : Buffer) (r : Bar) : outcome (nat * nat) :=
  if find_has_match r then
    let nc := (find_match_col r + 1)%nat in
    let nr := find_match_row r in
    let! len := idx (line_lens b) nr in
    Ret (if (len <? nc + bar_len r)%nat then (S nr, 0%nat) else (nr, nc))
  else Ret (0%nat, 0%nat).
(* @src src/kernel/src/gui/notepad.rs 581-624 find_next *)
Definition find_next (a : NotepadApp) : outcome NotepadApp :=
  let b := buf a in
  let r := bar a in
  if (bar_len r =? 0)%nat then Ret (set_bar a (no_match r))
  else
    let! q := slice (bar_text r) 0 (bar_len r) in
    let! (start_row, start_col) := find_start b r in
    let! m := find_row b q start_row start_col (num_lines b - start_row) in
    let! m := (match m with
               | Some m => Ret (Some m)
               | None => if (start_row =? 0)%nat && (start_col =? 0)%nat then Ret None else find_row b q 0 0 (num_lines b)
               end) in
    match m with
    | Some (row, col) => Ret (set_buf (set_bar a (set_match r row col true)) (ensure_visible 20 (set_cursor b row col)))
    | None => Ret (set_bar a (no_match r))
    end.
(* @src src/kernel/src/gui/notepad.rs 574-579 find_next_from_start *)
Definition find_next_from_start (a : NotepadApp) : outcome NotepadApp := find_next (set_bar a (set_match (bar a) 0 0 false)).

(** ** Files *)

(* @src src/kernel/src/gui/notepad.rs 449-462 new_file *)
Definition new_file (a : NotepadApp) : outcome NotepadApp :=
  let b := buf a in
  let! lens := fill 0%nat (line_lens b) 0 (num_lines b) in
  let h := hist a in
  Ret (mkApp (window_id a)
    (mkBuffer (lines b) lens 1 0 0 0 (filename b) 0 false)
    (mkHistory (undo_buf h) 0 0 (redo_buf h) 0) (unselect (sel a)) (set_mode (bar a) NoBar)
    (menu_bar a) (word_wrap a) (show_status_bar a) (show_about a) (last_bar_x a) (last_bar_y a) (last_bar_w a)).

(** The size of [save]'s buffer; [save_push] is [if pos < buf.len() { buf[pos] = x; pos += 1 }], the
    bytes before [pos] being [out]. *)
Definition SAVE_MAX : Z := 1024 * (256 + 1).
Definition save_push (x : Z) (out : list Z) : list Z := if Z.of_nat (length out) <? SAVE_MAX then out ++ [x] else out.
(* @src src/kernel/src/gui/notepad.rs 477-479 save (columns) *)
Fixpoint save_cols (b : Buffer) (row col n : nat) (out : list Z) : outcome (list Z) :=
  match n with
  | O => Ret out
  | S n' =>
    let! out := (if Z.of_nat (length out) <? SAVE_MAX then let! line := idx (lines b) row in let! x := idx line col in Ret (save_push x out) else Ret out) in
    save_cols b row (S col) n' out
  end.
(* @src src/kernel/src/gui/notepad.rs 475-483 save (rows) *)
Fixpoint save_rows (b : Buffer) (row n : nat) (out : list Z) : outcome (list Z) :=
  match n with
  | O => Ret out
  | S n' =>
    let! len := idx (line_lens b) row in
    let! out := save_cols b row 0 len out in
    save_rows b (S row) n' (if (row + 1 <? num_lines b)%nat then save_push 10 out else out)
  end.

(* @src src/kernel/src/gui/notepad.rs 540-550 open_file (loop) *)
Fixpoint load_bytes (data : list Z) (row col : nat) (ls : list (list Z)) (lens : list nat) : outcome (nat * list (list Z) * list nat) :=
  match data with
  | [] => Ret (row, ls, lens)
  | x :: data' =>
    if (MAX_LINES <=? row)%nat then Ret (row, ls, lens)
    else if x =? 10 then
      let! lens := (if (S row <? MAX_LINES)%nat then set_idx lens (S row) 0%nat else Ret lens) in
      load_bytes data' (S row) 0 ls lens
    else if (col <? MAX_LINE_LEN)%nat then
      let! line := idx ls row in
      let! line := set_idx line col x in
      let! ls := set_idx ls row line in
      let! lens := set_idx lens row (S col) in
      load_bytes data' row (S col) ls lens
    else load_bytes data' row col ls lens
  end.
(** The part of [open_file] that puts the bytes of a file into the buffer. *)
(* @src src/kernel/src/gui/notepad.rs 526-558 open_file (buffer) *)
Definition load_data (data : list Z) (a : NotepadApp) : outcome NotepadApp :=
  let b := buf a in
  let! (row, ls, lens) := load_bytes data 0 0 (lines b) (replicate MAX_LINES 0%nat) in
  let flen := Nat.min (bar_len (bar a)) 63 in
  let! path := slice (bar_text (bar a)) 0 flen in
  let! name := copy_at (filename b) 0 path in
  let h := hist a in
  Ret (set_buf (set_hist (set_sel a (unselect (sel a))) (mkHistory (undo_buf h) 0 0 (redo_buf h) 0))
         (mkBuffer ls lens (Nat.max (row + 1) 1) 0 0 0 name flen false)).

(* @src src/kernel/src/gui/notepad.rs 41-43 is_disk_path *)
Definition is_disk_path (path : list Z) : bool := bool_decide (path = str "/disk") || starts_with path (str "/disk/").

Section Files.
Context {D : Type} `{BlockDevice D}.
Implicit Types v : Files D.

(** At most a turn for each byte. *)
(* @src src/kernel/src/gui/notepad.rs 53-57 save_to_disk (loop) *)
Fixpoint write_loop (fuel : nat) (fd : Z) (data : list Z) (off : nat) v : outcome (nat * Files D) :=
  match fuel with
  | O => Ret (off, v)
  | S fuel' =>
    if (off <? length data)%nat then
      let! (n, v) := on_fat (fun f => fatfs.write_fd f fd (drop off data)) v in
      if n <=? 0 then Ret (off, v) else write_loop fuel' fd data (off + Z.to_nat n) v
    else Ret (off, v)
  end.
(* @src src/kernel/src/gui/notepad.rs 47-60 save_to_disk *)
Definition save_to_disk (path data : list Z) v : outcome (bool * Files D) :=
  if negb (is_present v) then Ret (false, v)
  else
    let! (fd, v) := on_fat (fun f => fatfs.open f path (Z.lor (Z.lor fs.O_WRONLY fs.O_CREAT) fs.O_TRUNC)) v in
    if fd <? 0 then Ret (false, v)
    else
      let! (off, v) := write_loop (length data) fd data 0 v in
      let! (_, v) := on_fat (fun f => fatfs.close f fd) v in
      Ret ((off =? length data)%nat, v).
(** At most a turn for each byte of the file, and one more. *)
(* @src src/kernel/src/gui/notepad.rs 71-75 load_from_disk (loop) *)
Fixpoint read_loop (fuel : nat) (fd : Z) (data : list Z) v : outcome (list Z * Files D) :=
  match fuel with
  | O => Panic
  | S fuel' =>
    let! (n, chunk, v) := (let! (n, chunk, f) := fatfs.read_fd (fat_of v) fd (replicate 512 0) in Ret (n, chunk, vfs.put_fat v f)) in
    if n <=? 0 then Ret (data, v) else read_loop fuel' fd (data ++ take (Z.to_nat n) chunk) v
  end.
(** [O_RDONLY] is 0. *)
(* @src src/kernel/src/gui/notepad.rs 64-78 load_from_disk *)
Definition load_from_disk (path : list Z) v : outcome (option (list Z) * Files D) :=
  if negb (is_present v) then Ret (None, v)
  else
    let! (fd, v) := on_fat (fun f => fatfs.open f path 0) v in
    if fd <? 0 then Ret (None, v)
    else
      let! size := fatfs.file_size (fat_of v) fd in
      let! (data, v) := read_loop (S (Z.to_nat size)) fd [] v in
      let! (_, v) := on_fat (fun f => fatfs.close f fd) v in
      Ret (Some data, v).

(** The bytes of [inodes[idx].data] replaced, when the path leads to an inode. *)
(* @src src/kernel/src/gui/notepad.rs 492-500 save (in memory) *)
Definition save_to_ram (path data : list Z) v : outcome (Files D) :=
  match ram v with
  | None => Ret v
  | Some f =>
    let! (_, f) := ramfs.create_file path f in
    match ramfs.resolve f path with
    | None => Ret (set_ram v (Some f))
    | Some i =>
      let! n := idx (ramfs.inodes f) i in
      Ret (set_ram v (Some (ramfs.mkRamFs (<[i := ramfs.set_data n data]> (ramfs.inodes f)))))
    end
  end.
(* @src src/kernel/src/gui/notepad.rs 520-522 open_file (in memory) *)
Definition load_from_ram (path : list Z) v : outcome (option (list Z)) :=
  match ram v with
  | None => Ret None
  | Some f => match ramfs.resolve f path with None => Ret None | Some i => let! n := idx (ramfs.inodes f) i in Ret (Some (ramfs.data n)) end
  end.

(* @src src/kernel/src/gui/notepad.rs 464-502 save *)
Definition save (a : NotepadApp) v : outcome (NotepadApp * Files D) :=
  let b := buf a in
  let! b := (if (filename_len b =? 0)%nat then let! n := copy_at (filename b) 0 (str "/note.txt") in Ret (set_filename b n 9) else Ret b) in
  let a := set_buf a b in
  let! path := slice (filename b) 0 (filename_len b) in
  if negb (utf8_valid path) then Ret (a, v)
  else
    let! out := save_rows b 0 (num_lines b) [] in
    if is_disk_path path then
      let! (ok, v) := save_to_disk path out v in
      Ret (if ok : bool then set_buf a (set_dirty b false) else a, v)
    else
      let! v := save_to_ram path out v in
      Ret (set_buf a (set_dirty b false), v).

(* @src src/kernel/src/gui/notepad.rs 510-563 open_file *)
Definition open_file (a : NotepadApp) v : outcome (NotepadApp * Files D) :=
  let r := bar a in
  if (bar_len r =? 0)%nat then Ret (set_bar a (set_mode r NoBar), v)
  else
    let! path := slice (bar_text r) 0 (bar_len r) in
    if negb (utf8_valid path) then Ret (set_bar a (set_mode r NoBar), v)
    else
      let! (data, v) := (if is_disk_path path then load_from_disk path v else let! d := load_from_ram path v in Ret (d, v)) in
      let! a := (match data with Some d => load_data d a | None => Ret a end) in
      Ret (set_bar a (set_input (set_mode r NoBar) (bar_text r) 0), v).

(** ** Keys *)

(** The editor with what it shares: the clipboard and the filesystems. *)
Record World := mkWorld { app : NotepadApp; clipboard : Clipboard; files : Files D }.
Definition set_app (w : World) (a : NotepadApp) : World := mkWorld a (clipboard w) (files w).
(** An operation on the editor alone. *)
Definition on_app (w : World) (m : NotepadApp -> outcome NotepadApp) : outcome World := let! a := m (app w) in Ret (set_app w a).
Definition on_buf (w : World) (m : Buffer -> outcome Buffer) : outcome World := on_app w (fun a => let! b := m (buf a) in Ret (set_buf a b)).
Definition deselected (w : World) : World := set_app w (set_sel (app w) (unselect (sel (app w)))).
Definition selecting (w : World) : World := set_app w (start_sel (app w)).
Definition do_copy (w : World) : outcome World := let! c := copy_selection (app w) (clipboard w) in Ret (mkWorld (app w) c (files w)).
Definition do_cut (w : World) : outcome World := let! w := do_copy w in on_app w delete_selection.
Definition do_paste (w : World) : outcome World := on_app w (paste_clipboard (clipboard w)).
Definition do_save (w : World) : outcome World := let! (a, v) := save (app w) (files w) in Ret (mkWorld a (clipboard w) v).
Definition do_open (w : World) : outcome World := let! (a, v) := open_file (app w) (files w) in Ret (mkWorld a (clipboard w) v).
(** [if self.sel_active { self.delete_selection(); }] *)
Definition drop_selection (a : NotepadApp) : outcome NotepadApp := if sel_active (sel a) then delete_selection a else Ret a.

(* @src src/kernel/src/gui/notepad.rs 284-321 process_input (input bar) *)
Definition bar_key (ev : Z) (w : World) : outcome (bool * World) :=
  let a := app w in
  let r := bar a in
  let did m := (let! w := m in Ret (true, w)) in
  if ev =? 0x1B then Ret (true, set_app w (set_bar a (no_match (set_input (set_mode r NoBar) (bar_text r) 0))))
  else if (ev =? 10) || (ev =? 13) then
    match bar_mode r with Find => did (on_app w find_next) | Open => did (do_open w) | NoBar => Ret (true, w) end
  else if (ev =? 8) || (ev =? 127) then
    if (0 <? bar_len r)%nat then
      let n := (bar_len r - 1)%nat in
      let! t := set_idx (bar_text r) n 0 in
      let r := set_input r t n in
      if bool_decide (bar_mode r = Find) then
        let a := set_bar a (no_match r) in
        if (0 <? n)%nat then did (on_app (set_app w a) find_next_from_start) else Ret (true, set_app w a)
      else Ret (true, set_app w (set_bar a r))
    else Ret (true, w)
  else if (0x20 <=? ev) && (ev <? 0x7F) then
    if (bar_len r <? 63)%nat then
      let! t := set_idx (bar_text r) (bar_len r) ev in
      let r := set_input r t (bar_len r + 1) in
      if bool_decide (bar_mode r = Find) then did (on_app (set_app w (set_bar a (no_match r))) find_next_from_start)
      else Ret (true, set_app w (set_bar a r))
    else Ret (true, w)
  else Ret (false, w).

(** Four times [insert_char(b' ')]. *)
Definition insert_tab (a : NotepadApp) : outcome NotepadApp :=
  let! a := insert_char 32 a in let! a := insert_char 32 a in let! a := insert_char 32 a in insert_char 32 a.
(* @src src/kernel/src/gui/notepad.rs 347-370 process_input (characters) *)
Definition char_key (ch : Z) (w : World) : outcome (bool * World) :=
  let did m := (let! w := on_app w m in Ret (true, w)) in
  if (ch =? 10) || (ch =? 13) then did (fun a => let! a := drop_selection a in insert_newline a)
  else if (ch =? 8) || (ch =? 127) then did (fun a => if sel_active (sel a) then delete_selection a else backspace a)
  else if ch =? 9 then did (fun a => let! a := drop_selection a in insert_tab a)
  else if (32 <=? ch) && (ch <=? 126) then did (fun a => let! a := drop_selection a in insert_char ch a)
  else Ret (false, w).

(* @src src/kernel/src/gui/notepad.rs 90-93 EV_UP *)
Definition EV_UP : Z := 0x100.
Definition EV_DOWN : Z := 0x101.
Definition EV_LEFT : Z := 0x102.
Definition EV_RIGHT : Z := 0x103.
(* @src src/kernel/src/gui/terminal.rs 38-41 EVENT_SHIFT_UP *)
Definition EVENT_SHIFT_UP : Z := 0x108.
Definition EVENT_SHIFT_DOWN : Z := 0x109.
Definition EVENT_SHIFT_LEFT : Z := 0x10A.
Definition EVENT_SHIFT_RIGHT : Z := 0x10B.

(* @src src/kernel/src/gui/notepad.rs 324-372 process_input (editor) *)
Definition editor_key (ev : Z) (w : World) : outcome (bool * World) :=
  let did m := (let! w := m in Ret (true, w)) in
  if ev =? EV_UP then did (on_buf (deselected w) move_up)
  else if ev =? EV_DOWN then did (on_buf (deselected w) move_down)
  else if ev =? EV_LEFT then did (on_buf (deselected w) move_left)
  else if ev =? EV_RIGHT then did (on_buf (deselected w) move_right)
  else if ev =? EVENT_SHIFT_UP then did (on_buf (selecting w) move_up)
  else if ev =? EVENT_SHIFT_DOWN then did (on_buf (selecting w) move_down)
  else if ev =? EVENT_SHIFT_LEFT then did (on_buf (selecting w) move_left)
  else if ev =? EVENT_SHIFT_RIGHT then did (on_buf (selecting w) move_right)
  else if ev =? 0x0F then Ret (true, set_app w (open_bar (app w)))
  else if ev =? 0x0E then did (on_app w new_file)
  else if ev =? 0x13 then did (do_save w)
  else if ev =? 0x1A then did (on_app w undo)
  else if ev =? 0x19 then did (on_app w redo)
  else if ev =? 0x01 then did (on_app w select_all)
  else if ev =? 0x03 then did (do_copy w)
  else if ev =? 0x18 then did (do_cut w)
  else if ev =? 0x16 then did (do_paste w)
  else if ev =? 0x06 then Ret (true, set_app w (find_bar (app w)))
  else if ev <? 0x100 then char_key ev w
  else Ret (false, w).

(** One key event, and whether it counts as a change. *)
(* @src src/kernel/src/gui/notepad.rs 281-370 process_input (event) *)
Definition key_event (ev : Z) (w : World) : outcome (bool * World) :=
  if bool_decide (bar_mode (bar (app w)) = NoBar) then editor_key ev w else bar_key ev w.
(** [evs] are the events that [pop_key_event] gives until it gives none. *)
(* @src src/kernel/src/gui/notepad.rs 280-371 process_input (loop) *)
Fixpoint process_events (changed : bool) (evs : list Z) (w : World) : outcome (bool * World) :=
  match evs with
  | [] => Ret (changed, w)
  | ev :: evs' => let! (c, w) := key_event ev w in process_events c evs' w
  end.
(* @src src/kernel/src/gui/notepad.rs 277-373 process_input *)
Definition process_input (focused : bool) (evs : list Z) (w : World) : outcome (bool * World) :=
  if negb focused then Ret (false, w) else process_events false evs w.

(** ** The menu *)

(* @src src/kernel/src/gui/notepad.rs 408-435 apply_action *)
Definition apply_action (act : menu.MenuAction) (w : World) : outcome World :=
  let a := app w in
  match act with
  | menu.NoAction | menu.Consumed | menu.FileExit => Ret w
  | menu.FileOpen => Ret (set_app w (open_bar a))
  | menu.FileNew => on_app w new_file
  | menu.FileSave | menu.FileSaveAs => do_save w
  | menu.EditUndo => on_app w undo
  | menu.EditRedo => on_app w redo
  | menu.EditCut => do_cut w
  | menu.EditCopy => do_copy w
  | menu.EditPaste => do_paste w
  | menu.EditSelectAll => on_app w select_all
  | menu.EditFind => Ret (set_app w (find_bar a))
  | menu.FormatWordWrap =>
    let ww := negb (word_wrap a) in
    let! m := menu.set_checked 2 0 ww (menu_bar a) in
    Ret (set_app w (set_view a m ww (show_status_bar a) (show_about a)))
  | menu.ViewStatusBar =>
    let sb := negb (show_status_bar a) in
    let! m := menu.set_checked 3 0 sb (menu_bar a) in
    Ret (set_app w (set_view a m (word_wrap a) sb (show_about a)))
  | menu.HelpAbout => Ret (set_app w (set_view a (menu_bar a) (word_wrap a) (show_status_bar a) (negb (show_about a))))
  end.

(* @src src/kernel/src/gui/notepad.rs 439-445 menu_bar_coords *)
Definition menu_bar_coords (a : NotepadApp) (m : window_manager.WindowManager) : outcome (option (Z * Z * Z)) :=
  let! win := window_manager.get_window (window_id a) m in
  match win with
  | None => Ret None
  | Some win =>
    let! bx := window_manager.uadd (window_manager.x win) 1 in
    let! by_ := window_manager.uadd (window_manager.y win) 31 in
    Ret (Some (bx, by_, sat_sub (window_manager.width win) 2))
  end.
(* @src src/kernel/src/gui/notepad.rs 377-380 handle_mouse_move *)
Definition handle_mouse_move (mx my : Z) (m : window_manager.WindowManager) (a : NotepadApp) : outcome (bool * NotepadApp) :=
  let! c := menu_bar_coords a m in
  match c with
  | None => Ret (false, a)
  | Some (bx, by_, bw) =>
    let! (r, mb) := menu.handle_mouse_move mx my bx by_ bw (menu_bar a) in
    Ret (r, set_view a mb (word_wrap a) (show_status_bar a) (show_about a))
  end.
(* @src src/kernel/src/gui/notepad.rs 382-398 handle_click *)
Definition handle_click (mx my : Z) (m : window_manager.WindowManager) (w : World) : outcome (menu.MenuAction * World) :=
  let a := app w in
  let! c := menu_bar_coords a m in
  match c with
  | None => Ret (menu.NoAction, w)
  | Some (bx, by_, bw) =>
    let was_open := menu.is_open (menu_bar a) in
    let! hit := menu.hit_test mx my bx by_ bw (menu_bar a) in
    if negb (hit : bool) && negb was_open then Ret (menu.NoAction, w)
    else
      let! (act, mb) := menu.handle_click mx my bx by_ bw (menu_bar a) in
      let w := set_app w (set_view a mb (word_wrap a) (show_status_bar a) (show_about a)) in
      let! w := (if bool_decide (act = menu.FileExit) then Ret w else apply_action act w) in
      Ret (if bool_decide (act = menu.NoAction) && was_open then menu.Consumed else act, w)
  end.
End Files.

(** The part of [draw] that changes the editor: the tabs of the menu move with the window. *)
(* @src src/kernel/src/gui/notepad.rs 991-1007 draw (layout) *)
Definition relayout (m : window_manager.WindowManager) (a : NotepadApp) : outcome NotepadApp :=
  let! visible := window_manager.is_window_visible (window_id a) m in
  if negb (visible : bool) then Ret a
  else
    let! c := menu_bar_coords a m in
    match c with
    | None => Ret a
    | Some (cx, cy, cw) =>
      if negb (cx =? last_bar_x a) || negb (cy =? last_bar_y a) || negb (cw =? last_bar_w a) then
        let! mb := menu.layout cx (menu_bar a) in
        Ret (set_view (set_last_bar a cx cy cw) mb (word_wrap a) (show_status_bar a) (show_about a))
      else Ret a
    end.
End notepad.
