(* ===== verification/NotepadText.v ===== *)
(** * The editor's buffer as a list of lines

    The arrays [lines] and [line_lens] of [notepad] represent a list of lines. This file shows
    what the array loops and the editing primitives do to that list. *)

From stdpp Require Import base list gmap strings list_numbers.
From Stdlib Require Import ZArith Lia.
From S2P Require Import Prelude RamFs FdTable Mbr Fat FatOps DiskStore StoreFs Vfs FileCalls WindowManager Menu Notepad.

Module notepad_text.
Import notepad.

(** ** Loops *)

Section Loops.
Context {A : Type}.
Implicit Types a dst src : list A.

Lemma shift_left_ok d a from n : from + d + n <= length a -> shift_left d a from n = Ret (splice a from (take n (drop (from + d) a))).
Proof.
  revert a from. induction n as [|n IH]; intros a from Hn; cbn [shift_left]; [by rewrite take_0, splice_nil|].
  destruct (idx_lt a (from + d)) as (v & -> & Hv); [lia|]. cbn [mbind outcome_mbind]. rewrite set_idx_lt by lia. cbn [mbind outcome_mbind].
  rewrite IH by len_lia. f_equal. rewrite <- (Nat.add_1_r from), drop_insert_lt by lia. rewrite splice_insert_cons by lia. f_equal.
  rewrite (drop_S a v (from + d)) by done. cbn. repeat f_equal; lia.
Qed.

Lemma shift_right_ok a col n : col + n < length a -> shift_right a col n = Ret (splice a (S col) (take n (drop col a))).
Proof.
  revert a. induction n as [|n IH]; intros a Hn; cbn [shift_right]; [by rewrite take_0, splice_nil|].
  destruct (idx_lt a (col + n)) as (v & -> & Hv); [lia|]. cbn [mbind outcome_mbind]. rewrite set_idx_lt by lia. cbn [mbind outcome_mbind].
  rewrite IH by len_lia. f_equal. apply list_eq. intros i.
  assert (forall m, length (take m (drop col a)) = m `min` (length a - col)) as L by (intros; by rewrite length_take, length_drop).
  assert (length (take n (drop col (<[S (col + n) := v]> a))) = n) as L' by len_lia.
  destruct (decide (S col <= i < S col + n)); [rewrite !lookup_splice_in by len_lia; rewrite !lookup_take_lt, !lookup_drop by lia; by rewrite list_lookup_insert_ne by lia|].
  rewrite lookup_splice_out by (rewrite ?L'; len_lia). destruct (decide (i = S (col + n))) as [->|].
  - rewrite list_lookup_insert_eq by lia. rewrite lookup_splice_in by len_lia. rewrite lookup_take_lt, lookup_drop by lia. rewrite <- Hv. f_equal. lia.
  - rewrite list_lookup_insert_ne by lia. by rewrite lookup_splice_out by len_lia.
Qed.

Lemma lines_down_eq a from n : from + n < MAX_LINES -> lines_down a from n = shift_right a from n.
Proof.
  revert a. induction n as [|n IH]; intros a Hn; cbn [lines_down shift_right]; [done|].
  rewrite (proj2 (Nat.ltb_lt _ _)) by lia. destruct (idx a (from + n)); [|done]. cbn [mbind outcome_mbind].
  destruct (set_idx a (S (from + n)) a0); [|done]. cbn [mbind outcome_mbind]. apply IH. lia.
Qed.

Lemma copy_cells_ok dst p src q n : p + n <= length dst -> q + n <= length src -> copy_cells dst p src q n = Ret (splice dst p (take n (drop q src))).
Proof.
  revert dst p q. induction n as [|n IH]; intros dst p q Hp Hq; cbn [copy_cells]; [by rewrite take_0, splice_nil|].
  destruct (idx_lt src q) as (v & -> & Hv); [lia|]. cbn [mbind outcome_mbind]. rewrite set_idx_lt by lia. cbn [mbind outcome_mbind].
  rewrite IH by len_lia. f_equal. rewrite <- (Nat.add_1_r p), splice_insert_cons by lia. by rewrite (drop_S src v q).
Qed.

Lemma fill_ok x a from n : from + n <= length a -> fill x a from n = Ret (splice a from (replicate n x)).
Proof.
  revert a from. induction n as [|n IH]; intros a from Hn; cbn [fill replicate]; [by rewrite splice_nil|].
  rewrite set_idx_lt by lia. cbn [mbind outcome_mbind]. rewrite IH by len_lia. by rewrite <- (Nat.add_1_r from), splice_insert_cons by lia.
Qed.

Lemma take_splice a i src n : i <= length a -> n = i + length src -> take n (splice a i src) = take i a ++ src.
Proof. intros Hi ->. unfold splice. rewrite (assoc_L (++)). apply take_app_length'. len_lia. Qed.

Lemma take_splice_le a i src n : n <= i -> i <= length a -> take n (splice a i src) = take n a.
Proof. intros Hn Hi. unfold splice. rewrite take_app_le by len_lia. rewrite take_take. f_equal. lia. Qed.

Lemma insert_splice_cons a i x src : i < length a -> <[i := x]> (splice a (S i) src) = splice a i (x :: src).
Proof.
  intros Hi. unfold splice. destruct (lookup_lt_is_Some_2 a i Hi) as [y Hy]. rewrite (take_S_r a i y Hy), <- (assoc_L (++)).
  rewrite insert_app_r_alt by len_lia. rewrite length_take, Nat.min_l, Nat.sub_diag by lia. cbn. do 4 f_equal. lia.
Qed.

Lemma Forall_splice (P : A -> Prop) a i src : Forall P a -> Forall P src -> Forall P (splice a i src).
Proof. intros Ha Hs. unfold splice. rewrite !Forall_app. auto using Forall_take, Forall_drop. Qed.
End Loops.

Lemma zip_with_splice {A B C} (f : A -> B -> C) l k i s t : length l = length k -> length s = length t ->
  zip_with f (splice l i s) (splice k i t) = splice (zip_with f l k) i (zip_with f s t).
Proof.
  intros Hl Hs. unfold splice. rewrite !zip_with_app by len_lia. by rewrite zip_with_take, zip_with_drop, length_zip_with, <- Hs, Nat.min_id.
Qed.

(** ** The lines *)

Definition rows (b : Buffer) : list (list Z) := zip_with take (line_lens b) (lines b).
Definition text (b : Buffer) : list (list Z) := take (num_lines b) (rows b).

Record wf (b : Buffer) : Prop := mkWf {
  wf_lines : length (lines b) = MAX_LINES;
  wf_line : Forall (fun l => length l = MAX_LINE_LEN) (lines b);
  wf_lens : length (line_lens b) = MAX_LINES;
  wf_len : Forall (fun n => n <= MAX_LINE_LEN) (line_lens b);
  wf_num : 1 <= num_lines b <= MAX_LINES;
}.

(** Nothing but the text differs. *)
Definition retext (b b' : Buffer) : Prop := b' = set_text b (lines b') (line_lens b') (num_lines b').

Lemma length_rows b : wf b -> length (rows b) = MAX_LINES.
Proof. intros []. unfold rows. rewrite length_zip_with. lia. Qed.
Lemma length_text b : wf b -> length (text b) = num_lines b.
Proof. intros W. unfold text. rewrite length_take, length_rows by done. pose proof (wf_num b W). lia. Qed.

Lemma rows_at b r l : wf b -> rows b !! r = Some l -> exists line, line_lens b !! r = Some (length l) /\ lines b !! r = Some line /\
  length line = MAX_LINE_LEN /\ l = take (length l) line /\ length l <= MAX_LINE_LEN.
Proof.
  intros W Hl. apply lookup_zip_with_Some in Hl as (n & line & -> & Hn & Hline). pose proof (Forall_lookup_1 _ _ _ _ (wf_line b W) Hline) as L.
  pose proof (Forall_lookup_1 _ _ _ _ (wf_len b W) Hn) as N. cbn in *. exists line. rewrite length_take, Nat.min_l by lia. done.
Qed.

Lemma text_rows b r l : text b !! r = Some l -> rows b !! r = Some l /\ r < num_lines b.
Proof. intros [? ?]%lookup_take_Some. done. Qed.
Lemma text_lookup b r : wf b -> r < num_lines b -> exists l, text b !! r = Some l.
Proof. intros W Hr. apply lookup_lt_is_Some_2. by rewrite length_text. Qed.
Lemma text_len b r l : wf b -> text b !! r = Some l -> idx (line_lens b) r = Ret (length l) /\ length l <= MAX_LINE_LEN /\ r < MAX_LINES.
Proof.
  intros W [H Hr]%text_rows. destruct (rows_at b r l W H) as (line & Hn & _ & _ & _ & Hl). pose proof (wf_num b W). split; [by apply idx_Ret|lia].
Qed.

Lemma text_line b r l : wf b -> text b !! r = Some l -> exists line, idx (lines b) r = Ret line /\ length line = MAX_LINE_LEN /\ l = take (length l) line.
Proof. intros W [H Hr]%text_rows. destruct (rows_at b r l W H) as (line & _ & Hl & L & E & _). exists line. split_and!; [by apply idx_Ret|done..]. Qed.

(** ** Editing primitives *)

(** One row replaced. *)
Lemma put_row b r line n : wf b -> r < num_lines b -> length line = MAX_LINE_LEN -> n <= MAX_LINE_LEN ->
  let b' := set_text b (<[r := line]> (lines b)) (<[r := n]> (line_lens b)) (num_lines b) in
  wf b' /\ retext b b' /\ text b' = <[r := take n line]> (text b).
Proof.
  intros W Hr Hl Hn b'. split_and!; [|done|].
  - destruct W. split; cbn; [by rewrite length_insert|by apply Forall_insert|by rewrite length_insert|by apply Forall_insert|done].
  - unfold text, rows. cbn. by rewrite <- insert_zip_with, take_insert_lt.
Qed.

Lemma drop_text b k : k <= num_lines b -> drop k (text b) = take (num_lines b - k) (drop k (rows b)).
Proof. intros Hk. unfold text. rewrite take_drop_commute. do 2 f_equal. lia. Qed.
Lemma take_text b k : k <= num_lines b -> take k (text b) = take k (rows b).
Proof. intros Hk. unfold text. rewrite take_take. f_equal. lia. Qed.

(** All rows from [i] to the last replaced. *)
Lemma put_rows b i L N num : wf b -> i <= num_lines b -> length L = length N -> Forall (fun l => length l = MAX_LINE_LEN) L ->
  Forall (fun n => n <= MAX_LINE_LEN) N -> num = i + length L -> 1 <= num <= MAX_LINES ->
  let b' := set_text b (splice (lines b) i L) (splice (line_lens b) i N) num in
  wf b' /\ retext b b' /\ text b' = take i (text b) ++ zip_with take N L.
Proof.
  intros W Hi HL FL FN -> Hnum b'. split_and!; [|done|].
  - destruct W. split; cbn; [by rewrite length_splice by lia|by apply Forall_splice|by rewrite length_splice by lia|by apply Forall_splice|done].
  - unfold text at 1, rows. cbn. pose proof (wf_num b W). rewrite zip_with_splice by (destruct W; lia). rewrite take_text by done.
    apply take_splice; [fold (rows b); rewrite length_rows by done; lia|]. rewrite length_zip_with. lia.
Qed.

Definition ins (c : nat) (ch : Z) (l : list Z) : list Z := take c l ++ ch :: drop c l.

Lemma raw_insert_ok b r c ch l : wf b -> text b !! r = Some l -> c <= length l < MAX_LINE_LEN ->
  exists b', raw_insert_char_at r c ch b = Ret b' /\ wf b' /\ retext b b' /\ text b' = <[r := ins c ch l]> (text b).
Proof.
  intros W Hl Hc. destruct (text_len b r l W Hl) as (El & _ & Hr). destruct (text_line b r l W Hl) as (line & Eline & HL & El2).
  pose proof (text_rows b r l Hl) as [_ Hn]. unfold raw_insert_char_at. rewrite (proj2 (Nat.leb_gt _ _)) by done. rewrite El. cbn [mbind outcome_mbind].
  rewrite (proj2 (Nat.leb_gt _ _)) by lia. rewrite Eline. cbn [mbind outcome_mbind]. rewrite shift_right_ok by lia. cbn [mbind outcome_mbind].
  assert (length (take (length l - c) (drop c line)) = length l - c) as Lx by len_lia.
  rewrite (set_idx_lt (splice _ _ _)) by (rewrite length_splice by lia; lia). cbn [mbind outcome_mbind]. rewrite insert_splice_cons by lia.
  destruct W as [W1 W2 W3 W4 W5]. rewrite !set_idx_lt by lia. cbn [mbind outcome_mbind]. eexists. split; [done|].
  destruct (put_row b r (splice line c (ch :: take (length l - c) (drop c line))) (S (length l))) as (G & R & T); [done|done|rewrite length_splice; cbn; lia|lia|].
  split_and!; [done..|]. rewrite T. f_equal. rewrite take_splice; [|lia|cbn; lia]. unfold ins. rewrite El2 at 2 3. rewrite take_take, Nat.min_l by lia.
  by rewrite skipn_firstn_comm.
Qed.

Lemma raw_delete_ok b r c l : wf b -> text b !! r = Some l -> c < length l ->
  exists b', raw_delete_char_at r c b = Ret b' /\ wf b' /\ retext b b' /\ text b' = <[r := delete c l]> (text b).
Proof.
  intros W Hl Hc. destruct (text_len b r l W Hl) as (El & Hl2 & Hr). destruct (text_line b r l W Hl) as (line & Eline & HL & El2).
  pose proof (text_rows b r l Hl) as [_ Hn]. unfold raw_delete_char_at. rewrite (proj2 (Nat.leb_gt _ _)) by done. rewrite El. cbn [mbind outcome_mbind].
  rewrite (proj2 (Nat.leb_gt _ _)) by lia. rewrite Eline. cbn [mbind outcome_mbind]. rewrite shift_left_ok by lia. cbn [mbind outcome_mbind].
  assert (length (take (length l - 1 - c) (drop (c + 1) line)) = length l - 1 - c) as Lx by len_lia.
  rewrite (proj2 (Nat.ltb_lt _ _)) by lia. rewrite (set_idx_lt (splice _ _ _)) by (rewrite length_splice by lia; lia). cbn [mbind outcome_mbind].
  pose proof W as [W1 W2 W3 W4 W5]. rewrite !set_idx_lt by lia. cbn [mbind outcome_mbind]. eexists. split; [done|].
  match goal with |- context [<[r := ?x]> (lines b)] => destruct (put_row b r x (length l - 1)) as (G & R & T) end; [done|done|rewrite length_insert, length_splice; lia|lia|].
  split_and!; [done..|]. rewrite T. f_equal. rewrite take_insert_ge by lia. rewrite take_splice by lia. rewrite delete_take_drop. rewrite El2 at 2 3.
  rewrite take_take, Nat.min_l by lia. rewrite skipn_firstn_comm. f_equal. rewrite Nat.add_1_r. f_equal. lia.
Qed.

Definition cut_at (r c : nat) (l : list Z) (t : list (list Z)) : list (list Z) := take r t ++ take c l :: drop c l :: drop (S r) t.

Lemma raw_split_ok b r c l : wf b -> text b !! r = Some l -> c <= length l -> num_lines b < MAX_LINES ->
  exists b', raw_split_line r c b = Ret b' /\ wf b' /\ retext b b' /\ num_lines b' = S (num_lines b) /\ text b' = cut_at r c l (text b).
Proof.
  intros W Hl Hc Hnum. destruct (text_len b r l W Hl) as (El & Hl2 & Hr). destruct (text_line b r l W Hl) as (line & Eline & HL & El2).
  pose proof (text_rows b r l Hl) as [_ Hn]. pose proof W as [W1 W2 W3 W4 W5]. unfold raw_split_line. rewrite (proj2 (Nat.leb_gt _ _)) by done.
  rewrite El. cbn [mbind outcome_mbind]. rewrite Nat.min_l by done. rewrite !lines_down_eq, !shift_right_ok by lia. cbn [mbind outcome_mbind].
  set (n := num_lines b - S r). assert (length (take n (drop (S r) (lines b))) = n) as Ln by (unfold n; len_lia).
  assert (length (take n (drop (S r) (line_lens b))) = n) as Ln' by (unfold n; len_lia).
  assert (r < length (lines b)) as Hrl by lia. assert (S r < length (lines b)) as Hrl2 by (unfold n in *; lia).
  rewrite (proj2 (idx_Ret _ r line)) by (rewrite lookup_splice_out by (unfold n in *; lia); by apply idx_Ret). cbn [mbind outcome_mbind].
  rewrite copy_cells_ok by len_lia. cbn [mbind outcome_mbind]. rewrite fill_ok by lia. cbn [mbind outcome_mbind].
  assert (length (take (length l - c) (drop c line)) = length l - c) as Lx by len_lia.
  repeat (rewrite set_idx_lt by (rewrite ?length_insert, length_splice; unfold n in *; lia); cbn [mbind outcome_mbind]).
  rewrite !(list_insert_insert_ne _ (S r) r) by lia. rewrite !insert_splice_cons by lia.
  eexists. split; [done|].
  match goal with |- wf (set_text b (splice _ _ ?L) (splice _ _ ?N) ?m) /\ _ => destruct (put_rows b r L N m) as (G & R & T) end.
  - done.
  - lia.
  - cbn [length]. lia.
  - apply Forall_cons; split; [rewrite length_splice; len_lia|]. apply Forall_cons; split; [rewrite length_splice; len_lia|]. by apply Forall_take, Forall_drop.
  - apply Forall_cons; split; [lia|]. apply Forall_cons; split; [lia|]. by apply Forall_take, Forall_drop.
  - cbn [length]. unfold n in *. lia.
  - lia.
  - split_and!; [done..|]. rewrite T. unfold cut_at. cbn [zip_with]. rewrite drop_text by lia. rewrite <- zip_with_take, <- zip_with_drop. fold n (rows b).
    f_equal. f_equal; [|f_equal].
    + rewrite take_splice_le by lia. rewrite El2. by rewrite take_take, Nat.min_l.
    + rewrite take_splice by lia. cbn [take app]. rewrite El2 at 2. by rewrite skipn_firstn_comm.
Qed.

(** One row replaced and the [d] rows below it removed. *)
Lemma close_up b r d line m : wf b -> r + d < num_lines b -> length line = MAX_LINE_LEN -> m <= MAX_LINE_LEN ->
  exists b', (let! ls := set_idx (lines b) r line in
              let! lens := set_idx (line_lens b) r m in
              let n := (num_lines b - d - S r)%nat in
              let! ls := shift_left d ls (S r) n in
              let! lens := shift_left d lens (S r) n in
              Ret (set_text b ls lens (if (num_lines b - d =? 0)%nat then 1 else num_lines b - d)%nat)) = Ret b' /\
    wf b' /\ retext b b' /\ num_lines b' = num_lines b - d /\ text b' = take r (text b) ++ take m line :: drop (S (r + d)) (text b).
Proof.
  intros W Hd HL Hm. pose proof W as [W1 W2 W3 W4 W5]. rewrite !set_idx_lt by lia. cbn [mbind outcome_mbind].
  rewrite !shift_left_ok by len_lia. cbn [mbind outcome_mbind]. rewrite !drop_insert_lt by lia. rewrite <- (Nat.add_1_r r), !splice_insert_cons by lia.
  rewrite (proj2 (Nat.eqb_neq _ _)) by lia. eexists. split; [done|].
  match goal with |- wf (set_text b (splice _ _ ?L) (splice _ _ ?N) ?k) /\ _ => destruct (put_rows b r L N k) as (G & R & T) end.
  - done.
  - lia.
  - cbn [length]. len_lia.
  - apply Forall_cons; split; [done|]. by apply Forall_take, Forall_drop.
  - apply Forall_cons; split; [done|]. by apply Forall_take, Forall_drop.
  - cbn [length]. len_lia.
  - lia.
  - split_and!; [done..|]. rewrite T. cbn [zip_with]. rewrite drop_text by lia. rewrite <- zip_with_take, <- zip_with_drop. fold (rows b).
    do 2 f_equal. f_equal; [lia|]. f_equal. lia.
Qed.

(** The text between two positions taken out; what does not fit in a line is lost. *)
Definition merge (r c : nat) (l1 : list Z) (c2 : nat) (l2 : list Z) (e : nat) (t : list (list Z)) : list (list Z) :=
  take r t ++ take MAX_LINE_LEN (take c l1 ++ drop c2 l2) :: drop (S e) t.

(** The line that is written: the start of [l1] and what fits of the end of [l2]. *)
Lemma merged_line (l1 l2 line next : list Z) c c2 : length line = MAX_LINE_LEN -> length next = MAX_LINE_LEN -> l1 = take (length l1) line -> l2 = take (length l2) next ->
  length l1 <= MAX_LINE_LEN -> length l2 <= MAX_LINE_LEN -> c <= length l1 -> c2 <= length l2 ->
  let k := Nat.min (length l2 - c2) (MAX_LINE_LEN - c) in
  exists line', copy_cells line c next c2 k = Ret line' /\ length line' = MAX_LINE_LEN /\ take (c + k) line' = take MAX_LINE_LEN (take c l1 ++ drop c2 l2).
Proof.
  intros HL HN E1 E2 H1 H2 Hc Hc2 k. rewrite copy_cells_ok by lia. eexists. split; [done|].
  assert (length (take k (drop c2 next)) = k) as Lx by (rewrite length_take, length_drop; lia).
  split; [rewrite length_splice by lia; lia|]. rewrite take_splice by lia.
  rewrite take_app. rewrite (take_ge (take c l1)) by len_lia. rewrite length_take, (Nat.min_l c) by lia. f_equal; [rewrite E1; by rewrite take_take, Nat.min_l|].
  rewrite E2. rewrite skipn_firstn_comm, take_take. f_equal. lia.
Qed.

Lemma raw_join_ok b r l1 l2 : wf b -> text b !! r = Some l1 -> text b !! S r = Some l2 ->
  exists b', raw_join_lines r b = Ret b' /\ wf b' /\ retext b b' /\ num_lines b' = num_lines b - 1 /\ text b' = merge r (length l1) l1 0 l2 (S r) (text b).
Proof.
  intros W H1 H2. destruct (text_len b r l1 W H1) as (E1 & L1 & R1). destruct (text_line b r l1 W H1) as (line & F1 & G1 & D1).
  destruct (text_len b (S r) l2 W H2) as (E2 & L2 & R2). destruct (text_line b (S r) l2 W H2) as (next & F2 & G2 & D2).
  pose proof (text_rows b (S r) l2 H2) as [_ Hn]. unfold raw_join_lines. rewrite (proj2 (Nat.leb_gt _ _)) by done.
  rewrite E1, E2. cbn [mbind outcome_mbind]. rewrite F1, F2. cbn [mbind outcome_mbind].
  destruct (merged_line l1 l2 line next (length l1) 0) as (line' & C & L' & T'); [done..|lia|lia|]. rewrite Nat.sub_0_r in *. rewrite C. cbn [mbind outcome_mbind].
  destruct (close_up b r 1 line' (length l1 + Nat.min (length l2) (MAX_LINE_LEN - length l1))) as (b' & E & W' & R & N & T); [done|lia|done|lia|].
  exists b'. split; [exact E|]. split_and!; [done..|]. rewrite T, T'. unfold merge. by rewrite Nat.add_1_r.
Qed.

Lemma delete_in_line_ok b r c c2 l : wf b -> text b !! r = Some l -> c <= c2 <= length l ->
  exists b', delete_in_line r c c2 b = Ret b' /\ wf b' /\ retext b b' /\ text b' = merge r c l c2 l r (text b).
Proof.
  intros W Hl Hc. destruct (text_len b r l W Hl) as (E1 & L1 & R1). destruct (text_line b r l W Hl) as (line & F1 & G1 & D1).
  pose proof (text_rows b r l Hl) as [_ Hn]. pose proof W as [W1 W2 W3 W4 W5]. unfold delete_in_line. rewrite E1. cbn [mbind outcome_mbind]. rewrite F1. cbn [mbind outcome_mbind].
  rewrite Nat.min_l by lia. rewrite shift_left_ok by lia. cbn [mbind outcome_mbind].
  assert (length (take (length l - (c2 - c) - c) (drop (c + (c2 - c)) line)) = length l - c2) as Lx by len_lia.
  rewrite fill_ok by (rewrite length_splice; lia). cbn [mbind outcome_mbind]. rewrite !set_idx_lt by lia. cbn [mbind outcome_mbind]. eexists. split; [done|].
  match goal with |- context [<[r := ?x]> (lines b)] => destruct (put_row b r x (length l - (c2 - c))) as (G & R & T) end;
    [done|done|rewrite !length_splice; rewrite ?length_replicate, ?length_splice; lia|lia|].
  split_and!; [done..|]. rewrite T. rewrite take_splice_le by (rewrite ?length_splice; lia). rewrite take_splice by lia.
  unfold merge. rewrite (take_ge (_ ++ _)) by len_lia. rewrite insert_take_drop by (rewrite length_text by done; lia). do 2 f_equal.
  f_equal; [rewrite D1; by rewrite take_take, Nat.min_l by lia|]. rewrite D1 at 2. rewrite skipn_firstn_comm. f_equal; [lia|]. f_equal. lia.
Qed.

Lemma delete_lines_ok b r c e c2 l1 l2 : wf b -> text b !! r = Some l1 -> text b !! e = Some l2 -> r < e -> c <= length l1 -> c2 <= length l2 ->
  exists b', delete_lines r c e c2 b = Ret b' /\ wf b' /\ retext b b' /\ text b' = merge r c l1 c2 l2 e (text b).
Proof.
  intros W H1 H2 He Hc Hc2. destruct (text_len b r l1 W H1) as (E1 & L1 & R1). destruct (text_line b r l1 W H1) as (line & F1 & G1 & D1).
  destruct (text_len b e l2 W H2) as (E2 & L2 & R2). destruct (text_line b e l2 W H2) as (next & F2 & G2 & D2).
  pose proof (text_rows b e l2 H2) as [_ Hn]. unfold delete_lines. rewrite E2. cbn [mbind outcome_mbind]. rewrite F1, F2. cbn [mbind outcome_mbind].
  rewrite (Nat.min_l c2) by done. destruct (merged_line l1 l2 line next c c2) as (line' & C & L' & T'); [done..|]. rewrite C. cbn [mbind outcome_mbind].
  destruct (close_up b r (e - r) line' (c + Nat.min (length l2 - c2) (MAX_LINE_LEN - c))) as (b' & E & W' & R & N & T); [done|lia|done|lia|].
  exists b'. split; [exact E|]. split_and!; [done..|]. rewrite T, T'. unfold merge. do 3 f_equal. lia.
Qed.
End notepad_text.
