(* ===== verification/NotepadEdit.v ===== *)
(** * Editing a document

    Module [notepad_edit] is an abstract document (a list of lines and a cursor) with the
    operations of an editor, and shows that the operations of [notepad] on the buffer perform
    them and that the history takes them back. *)

From stdpp Require Import base list gmap strings list_numbers.
From Stdlib Require Import ZArith Lia.
From S2P Require Import Prelude RamFs FdTable Mbr Fat FatOps DiskStore StoreFs Vfs FileCalls WindowManager Menu Notepad NotepadText.

Module notepad_edit.
Import notepad notepad_text.

(** ** The abstract document *)

(** The lines and the cursor. *)
Record Doc := mkDoc { dtext : list (list Z); drow : nat; dcol : nat }.
Definition line_at (t : list (list Z)) (r : nat) : list Z := default [] (t !! r).
Definition cur_line (d : Doc) : list Z := line_at (dtext d) (drow d).
Definition at_ (d : Doc) (r c : nat) : Doc := mkDoc (dtext d) r c.

(** A character; a full line takes none. *)
Definition type (ch : Z) (d : Doc) : Doc :=
  if MAX_LINE_LEN <=? length (cur_line d) then d else mkDoc (<[drow d := ins (dcol d) ch (cur_line d)]> (dtext d)) (drow d) (S (dcol d)).
(** The line is cut at the cursor; a full document takes no line. *)
Definition enter (d : Doc) : Doc :=
  if MAX_LINES <=? length (dtext d) then d else mkDoc (cut_at (drow d) (dcol d) (cur_line d) (dtext d)) (S (drow d)) 0.
(** The character before the cursor, or the end of the line before. *)
Definition erase (d : Doc) : Doc :=
  if 0 <? dcol d then mkDoc (<[drow d := delete (dcol d - 1) (cur_line d)]> (dtext d)) (drow d) (dcol d - 1)
  else if 0 <? drow d then
    let p := line_at (dtext d) (drow d - 1) in
    mkDoc (merge (drow d - 1) (length p) p 0 (cur_line d) (drow d) (dtext d)) (drow d - 1) (length p)
  else d.
Definition up (d : Doc) : Doc := if 0 <? drow d then at_ d (drow d - 1) (dcol d `min` length (line_at (dtext d) (drow d - 1))) else d.
Definition down (d : Doc) : Doc := if drow d + 1 <? length (dtext d) then at_ d (drow d + 1) (dcol d `min` length (line_at (dtext d) (drow d + 1))) else d.
Definition left (d : Doc) : Doc :=
  if 0 <? dcol d then at_ d (drow d) (dcol d - 1)
  else if 0 <? drow d then at_ d (drow d - 1) (length (line_at (dtext d) (drow d - 1))) else d.
Definition right (d : Doc) : Doc :=
  if dcol d <? length (cur_line d) then at_ d (drow d) (dcol d + 1)
  else if drow d + 1 <? length (dtext d) then at_ d (drow d + 1) 0 else d.
(** The text between two positions taken out, the cursor where it was. *)
Definition remove (sr sc er ec : nat) (d : Doc) : Doc :=
  mkDoc (merge sr sc (line_at (dtext d) sr) ec (line_at (dtext d) er) er (dtext d)) sr sc.
Definition paste1 (x : Z) (d : Doc) : Doc := if (x =? 10)%Z then enter d else if (0x20 <=? x)%Z || (x =? 9)%Z then type x d else d.
Definition paste (bs : list Z) (d : Doc) : Doc := foldl (fun d x => paste1 x d) d bs.

Definition in_text (t : list (list Z)) (r c : nat) : Prop := exists l, t !! r = Some l /\ c <= length l.
Definition doc_ok (d : Doc) : Prop := in_text (dtext d) (drow d) (dcol d).

Definition doc (b : Buffer) : Doc := mkDoc (text b) (cursor_row b) (cursor_col b).
Definition good_buf (b : Buffer) : Prop := wf b /\ doc_ok (doc b).

Lemma line_at_eq t r l : t !! r = Some l -> line_at t r = l.
Proof. unfold line_at. by intros ->. Qed.

Lemma ensure_visible_ok n b : text (ensure_visible n b) = text b /\ doc (ensure_visible n b) = doc b /\ (wf b -> wf (ensure_visible n b)).
Proof. unfold ensure_visible. destruct (_ <? _); [|destruct (_ && _)]; (split; [done|]; split; [done|]; intros []; by split). Qed.
Lemma good_visible n b : good_buf b -> good_buf (ensure_visible n b) /\ doc (ensure_visible n b) = doc b.
Proof. intros [W O]. destruct (ensure_visible_ok n b) as (_ & D & H). unfold good_buf. rewrite D. auto. Qed.
Lemma wf_cursor b r c : wf b -> wf (set_cursor b r c).
Proof. intros []. by split. Qed.
Lemma wf_dirty b d : wf b -> wf (set_dirty b d).
Proof. intros []. by split. Qed.
Lemma good_dirty b d : good_buf b -> good_buf (set_dirty b d).
Proof. intros [W O]. split; [by apply wf_dirty|done]. Qed.
Lemma good_cursor b r c : wf b -> in_text (text b) r c -> good_buf (set_cursor b r c).
Proof. intros W O. split; [by apply wf_cursor|done]. Qed.
#[local] Hint Resolve wf_cursor wf_dirty good_dirty : core.

(** ** Movement *)

Lemma in_text_end t r l : t !! r = Some l -> in_text t r (length l).
Proof. intros H. by exists l. Qed.
Lemma in_text_min t r l c : t !! r = Some l -> in_text t r (c `min` length l).
Proof. intros H. exists l. split; [done|lia]. Qed.

Lemma move_ok b r c : wf b -> in_text (text b) r c ->
  good_buf (ensure_visible 20 (set_cursor b r c)) /\ doc (ensure_visible 20 (set_cursor b r c)) = at_ (doc b) r c /\
  text (ensure_visible 20 (set_cursor b r c)) = text b.
Proof. intros W O. destruct (good_visible 20 (set_cursor b r c)) as [G E]; [by apply good_cursor|]. split; [done|]. split; [done|]. exact (proj1 (ensure_visible_ok 20 (set_cursor b r c))). Qed.

Lemma move_up_ok b : good_buf b -> exists b', move_up b = Ret b' /\ good_buf b' /\ doc b' = up (doc b) /\ text b' = text b.
Proof.
  intros G. pose proof G as [W (l & Hl & Hc)]. cbn in Hl, Hc. unfold move_up, up. cbn [drow dcol dtext doc]. destruct (0 <? cursor_row b) eqn:E; bool_simpl; [|by exists b].
  destruct (text_lookup b (cursor_row b - 1) W) as [p Hp]; [apply text_rows in Hl; lia|]. destruct (text_len b _ p W Hp) as [-> _]. cbn [mbind outcome_mbind].
  rewrite (line_at_eq _ _ _ Hp). eexists. split; [done|]. destruct (move_ok b (cursor_row b - 1) (cursor_col b `min` length p) W) as (? & ? & ?); [by apply in_text_min|].
  done.
Qed.

Lemma move_down_ok b : good_buf b -> exists b', move_down b = Ret b' /\ good_buf b' /\ doc b' = down (doc b) /\ text b' = text b.
Proof.
  intros G. pose proof G as [W O]. unfold move_down, down. cbn [drow dcol dtext doc]. rewrite length_text by done. destruct (_ <? _) eqn:E; bool_simpl; [|by exists b].
  destruct (text_lookup b (cursor_row b + 1) W E) as [p Hp]. destruct (text_len b _ p W Hp) as [-> _]. cbn [mbind outcome_mbind].
  rewrite (line_at_eq _ _ _ Hp). eexists. split; [done|]. destruct (move_ok b (cursor_row b + 1) (cursor_col b `min` length p) W) as (? & ? & ?); [by apply in_text_min|].
  done.
Qed.

Lemma move_left_ok b : good_buf b -> exists b', move_left b = Ret b' /\ good_buf b' /\ doc b' = left (doc b) /\ text b' = text b.
Proof.
  intros G. pose proof G as [W (l & Hl & Hc)]. cbn in Hl, Hc. unfold move_left, left. cbn [drow dcol dtext doc]. destruct (0 <? cursor_col b) eqn:E0.
  { eexists. split; [done|]. split; [|done]. apply good_cursor; [done|]. exists l. split; [done|lia]. }
  destruct (0 <? cursor_row b) eqn:E; bool_simpl; [|by exists b].
  destruct (text_lookup b (cursor_row b - 1) W) as [p Hp]; [apply text_rows in Hl; lia|]. destruct (text_len b _ p W Hp) as [-> _]. cbn [mbind outcome_mbind].
  rewrite (line_at_eq _ _ _ Hp). eexists. split; [done|]. destruct (move_ok b (cursor_row b - 1) (length p) W) as (? & ? & ?); [by apply in_text_end|].
  done.
Qed.

Lemma move_right_ok b : good_buf b -> exists b', move_right b = Ret b' /\ good_buf b' /\ doc b' = right (doc b) /\ text b' = text b.
Proof.
  intros G. pose proof G as [W (l & Hl & Hc)]. cbn in Hl, Hc. unfold move_right, right, cur_line. cbn [drow dcol dtext doc]. rewrite (line_at_eq _ _ _ Hl).
  destruct (text_len b _ l W Hl) as [-> _]. cbn [mbind outcome_mbind]. rewrite length_text by done. destruct (cursor_col b <? length l) eqn:E0; bool_simpl.
  { eexists. split; [done|]. split; [|done]. apply good_cursor; [done|]. exists l. split; [done|lia]. }
  destruct (_ <? _) eqn:E; bool_simpl; [|by exists b]. destruct (text_lookup b (cursor_row b + 1) W E) as [p Hp].
  eexists. split; [done|]. destruct (move_ok b (cursor_row b + 1) 0 W) as (? & ? & ?); [exists p; split; [done|lia]|]. done.
Qed.

(** ** The history *)

(** [us] and [rs] are the operations that undo and redo will take, the next one first. *)
Definition slot (head k : nat) : nat := if k <? head then head - 1 - k else head + UNDO_CAP - 1 - k.
Record history (h : History) (us rs : list UndoOp) : Prop := mkHist {
  h_ubuf : length (undo_buf h) = UNDO_CAP;
  h_head : undo_head h < UNDO_CAP;
  h_ulen : undo_len h = length us;
  h_us : forall k op, us !! k = Some op -> undo_buf h !! slot (undo_head h) k = Some op;
  h_rbuf : length (redo_buf h) = UNDO_CAP;
  h_rlen : redo_len h = length rs;
  h_rs : forall k op, rs !! k = Some op -> redo_buf h !! (length rs - 1 - k) = Some op;
  h_cap : length us + length rs <= UNDO_CAP;
}.

Lemma head_next head : head < UNDO_CAP -> (head + 1) mod UNDO_CAP = if decide (head + 1 = UNDO_CAP) then 0 else head + 1.
Proof. intros Hh. case_decide as E; [by rewrite E, Nat.Div0.mod_same|]. apply Nat.mod_small. lia. Qed.
Lemma head_back head : head < UNDO_CAP -> (head + UNDO_CAP - 1) mod UNDO_CAP = if decide (head = 0) then UNDO_CAP - 1 else head - 1.
Proof.
  intros Hh. case_decide as E; [subst; apply Nat.mod_small; unfold UNDO_CAP; lia|].
  replace (head + UNDO_CAP - 1) with (head - 1 + 1 * UNDO_CAP) by lia. rewrite Nat.Div0.mod_add. apply Nat.mod_small. lia.
Qed.

Lemma undo_push_raw_ok op h us rs : history h us rs -> length us + length rs < UNDO_CAP \/ rs = [] ->
  exists h', undo_push_raw op h = Ret h' /\ history h' (take UNDO_CAP (op :: us)) rs.
Proof.
  intros [U1 U2 U3 U4 R1 R2 R3 C] Hroom. unfold undo_push_raw. rewrite set_idx_lt by lia. cbn [mbind outcome_mbind]. eexists. split; [done|].
  assert (0 < UNDO_CAP) as Hpos by (unfold UNDO_CAP; lia). split; cbn [undo_buf undo_head undo_len redo_buf redo_len]; try done.
  - by rewrite length_insert.
  - rewrite head_next by done. case_decide; lia.
  - rewrite length_take. cbn [length]. lia.
  - intros k o [Hk Hlt]%lookup_take_Some. rewrite head_next by done. destruct k as [|k]; cbn in Hk.
    + injection Hk as ->. replace (slot _ 0) with (undo_head h); [apply list_lookup_insert_eq; lia|]. unfold slot. case_decide; [|by rewrite (proj2 (Nat.ltb_lt _ _)); lia].
      destruct (0 <? 0) eqn:E; bool_simpl; lia.
    + pose proof (lookup_lt_Some _ _ _ Hk) as Hk'. rewrite <- (U4 k o Hk). rewrite list_lookup_insert_ne.
      * f_equal. unfold slot. destruct (k <? undo_head h) eqn:E1; destruct (S k <? _) eqn:E2; bool_simpl; case_decide; lia.
      * unfold slot. destruct (S k <? _) eqn:E2; bool_simpl; case_decide; lia.
  - rewrite length_take. cbn [length]. destruct Hroom as [Hroom| ->]; cbn [length] in *; lia.
Qed.

Lemma undo_push_ok op h us rs : history h us rs -> exists h', undo_push op h = Ret h' /\ history h' (take UNDO_CAP (op :: us)) [].
Proof. intros [U1 U2 U3 U4 R1 R2 R3 C]. apply (undo_push_raw_ok op (set_redo_len h 0) us []); [|by right]. split; try done. cbn. lia. Qed.

Lemma undo_pop_ok h op us rs : history h (op :: us) rs -> exists h', undo_pop h = Ret (Some op, h') /\ history h' us rs.
Proof.
  intros [U1 U2 U3 U4 R1 R2 R3 C]. cbn [length] in *. assert (0 < UNDO_CAP) as Hpos by (unfold UNDO_CAP; lia). unfold undo_pop. rewrite U3. cbn [Nat.eqb].
  pose proof (U4 0 op eq_refl) as H0. rewrite head_back by done.
  assert ((if decide (undo_head h = 0) then UNDO_CAP - 1 else undo_head h - 1) = slot (undo_head h) 0) as Es.
  { unfold slot. destruct (0 <? undo_head h) eqn:E; bool_simpl; case_decide; lia. }
  rewrite Es, (proj2 (idx_Ret _ _ _) H0). cbn [mbind outcome_mbind]. eexists. split; [done|]. rewrite <- Es.
  split; cbn [undo_buf undo_head undo_len redo_buf redo_len]; try done; [case_decide; lia|cbn [Nat.sub]; lia| |lia].
  intros k o Hk. pose proof (lookup_lt_Some _ _ _ Hk) as Hk'. rewrite <- (U4 (S k) o Hk). f_equal.
  unfold slot. destruct (S k <? undo_head h) eqn:E1; destruct (k <? _) eqn:E2; bool_simpl; case_decide; lia.
Qed.

Lemma undo_pop_empty h rs : history h [] rs -> undo_pop h = Ret (None, h).
Proof. intros []. unfold undo_pop. by rewrite h_ulen0. Qed.

Lemma redo_push_ok op h us rs : history h us rs -> length us + length rs < UNDO_CAP -> exists h', redo_push op h = Ret h' /\ history h' us (op :: rs).
Proof.
  intros [U1 U2 U3 U4 R1 R2 R3 C] Hroom. unfold redo_push. rewrite (proj2 (Nat.ltb_lt _ _)) by lia. rewrite set_idx_lt by lia. cbn [mbind outcome_mbind].
  eexists. split; [done|]. split; cbn [undo_buf undo_head undo_len redo_buf redo_len length]; try done; [by rewrite length_insert|lia| |lia].
  intros [|k] o Hk; cbn in Hk.
  - injection Hk as ->. rewrite R2. replace (S (length rs) - 1 - 0) with (length rs) by lia. apply list_lookup_insert_eq. lia.
  - pose proof (lookup_lt_Some _ _ _ Hk). rewrite list_lookup_insert_ne by lia. rewrite <- (R3 k o Hk). f_equal. lia.
Qed.

Lemma redo_pop_ok h op us rs : history h us (op :: rs) -> exists h', redo_pop h = Ret (Some op, h') /\ history h' us rs.
Proof.
  intros [U1 U2 U3 U4 R1 R2 R3 C]. cbn [length] in *. unfold redo_pop. rewrite R2. cbn [Nat.eqb]. pose proof (R3 0 op eq_refl) as H0.
  replace (S (length rs) - 1 - 0) with (S (length rs) - 1) in H0 by lia. rewrite (proj2 (idx_Ret _ _ _) H0). cbn [mbind outcome_mbind]. eexists. split; [done|].
  split; cbn [undo_buf undo_head undo_len redo_buf redo_len set_redo_len]; try done; [lia| |lia].
  intros k o Hk. pose proof (lookup_lt_Some _ _ _ Hk). rewrite <- (R3 (S k) o Hk). f_equal. lia.
Qed.

Lemma redo_pop_empty h us : history h us [] -> redo_pop h = Ret (None, h).
Proof. intros []. unfold redo_pop. by rewrite h_rlen0. Qed.

Lemma history_clear h us rs : history h us rs -> history (set_redo_len h 0) us [].
Proof. intros []. split; try done. cbn. lia. Qed.

(** ** Operations of the history on the text *)

Definition rev (op : UndoOp) : UndoOp :=
  match op with Char r c ch i => Char r c ch (negb i) | Newline r c i => Newline r c (negb i) end.

(** The document after an operation, when the operation fits the text. *)
Definition applied (op : UndoOp) (t : list (list Z)) : option Doc :=
  match op with
  | Char row col ch true =>
    let r := Z.to_nat row in let c := Z.to_nat col in
    l ← t !! r; if decide (l !! c = Some ch) then Some (mkDoc (<[r := delete c l]> t) r c) else None
  | Char row col ch false =>
    let r := Z.to_nat row in let c := Z.to_nat col in
    l ← t !! r; if decide (c <= length l < MAX_LINE_LEN) then Some (mkDoc (<[r := ins c ch l]> t) r (c + 1)) else None
  | Newline row col true =>
    let r := Z.to_nat row in let c := Z.to_nat col in
    l1 ← t !! r; l2 ← t !! S r;
    if decide (length l1 = c /\ length l1 + length l2 <= MAX_LINE_LEN) then Some (mkDoc (merge r (length l1) l1 0 l2 (S r) t) r c) else None
  | Newline row col false =>
    let r := Z.to_nat row in let c := Z.to_nat col in
    l ← t !! r; if decide (c <= length l /\ length t < MAX_LINES) then Some (mkDoc (cut_at r c l t) (r + 1) 0) else None
  end.

Definition text_ok (t : list (list Z)) : Prop := length t <= MAX_LINES /\ Forall (fun l => length l <= MAX_LINE_LEN) t.

Lemma text_ok_text b : wf b -> text_ok (text b).
Proof.
  intros W. split; [rewrite length_text by done; apply W|]. apply Forall_lookup. intros r l Hl. by destruct (text_len b r l W Hl) as (_ & ? & _).
Qed.

Lemma length_ins c ch l : length (ins c ch l) = S (length l).
Proof. unfold ins. rewrite length_app, length_take. cbn [length]. rewrite length_drop. lia. Qed.
Lemma ins_delete c ch l : l !! c = Some ch -> ins c ch (delete c l) = l.
Proof.
  intros H. pose proof (lookup_lt_Some _ _ _ H). unfold ins. rewrite delete_take_drop. rewrite take_app_le, take_take, Nat.min_id by len_lia.
  rewrite drop_app_ge by len_lia. rewrite length_take, Nat.min_l, Nat.sub_diag, drop_0 by lia. by apply take_drop_middle.
Qed.
Lemma lookup_ins c ch l : c <= length l -> ins c ch l !! c = Some ch.
Proof. intros H. unfold ins. rewrite lookup_app_r by len_lia. by rewrite length_take, Nat.min_l, Nat.sub_diag by lia. Qed.
Lemma delete_ins c ch l : c <= length l -> delete c (ins c ch l) = l.
Proof.
  intros H. unfold ins. rewrite delete_take_drop. rewrite take_app_le, take_take, Nat.min_id by len_lia.
  rewrite drop_app_ge by len_lia. rewrite length_take, Nat.min_l by lia. replace (S c - c) with 1 by lia. cbn [drop]. rewrite drop_0. apply take_drop.
Qed.

Lemma length_cut r c l t : r < length t -> length (cut_at r c l t) = S (length t).
Proof. intros H. unfold cut_at. rewrite length_app, length_take. cbn [length]. rewrite length_drop. lia. Qed.
Lemma lookup_cut_at r c l t : r < length t -> cut_at r c l t !! r = Some (take c l) /\ cut_at r c l t !! S r = Some (drop c l).
Proof.
  intros H. unfold cut_at. split; rewrite lookup_app_r by len_lia; rewrite length_take, Nat.min_l by lia; [by rewrite Nat.sub_diag|]. by replace (S r - r) with 1 by lia.
Qed.
Lemma lookup_merge r c l1 c2 l2 e t : r < length t -> merge r c l1 c2 l2 e t !! r = Some (take MAX_LINE_LEN (take c l1 ++ drop c2 l2)).
Proof. intros H. unfold merge. rewrite lookup_app_r by len_lia. by rewrite length_take, Nat.min_l, Nat.sub_diag by lia. Qed.
Lemma length_merge r c l1 c2 l2 e t : r <= e -> e < length t -> length (merge r c l1 c2 l2 e t) = length t - (e - r).
Proof. intros H He. unfold merge. rewrite length_app, length_take. cbn [length]. rewrite length_drop. lia. Qed.

Lemma cut_merge r l1 l2 t : t !! r = Some l1 -> t !! S r = Some l2 -> length l1 + length l2 <= MAX_LINE_LEN ->
  cut_at r (length l1) (l1 ++ l2) (merge r (length l1) l1 0 l2 (S r) t) = t.
Proof.
  intros H1 H2 Hf. pose proof (lookup_lt_Some _ _ _ H2). unfold cut_at, merge. rewrite take_app_le, take_take, Nat.min_id by len_lia.
  rewrite (drop_app_ge (take r t)) by len_lia. rewrite length_take, Nat.min_l by lia. replace (S r - r) with 1 by lia. cbn [drop]. rewrite !drop_0.
  rewrite take_app_length, drop_app_length. rewrite <- (drop_S t l2 (S r) H2), <- (drop_S t l1 r H1). apply take_drop.
Qed.
Lemma merge_cut r c l t : t !! r = Some l -> c <= length l <= MAX_LINE_LEN -> merge r c (take c l) 0 (drop c l) (S r) (cut_at r c l t) = t.
Proof.
  intros H Hc. pose proof (lookup_lt_Some _ _ _ H). unfold merge, cut_at. rewrite take_app_le, take_take, Nat.min_id by len_lia.
  rewrite (drop_app_ge (take r t)) by len_lia. rewrite length_take, Nat.min_l by lia. replace (S (S r) - r) with 2 by lia. cbn [drop]. rewrite !drop_0.
  rewrite take_take, Nat.min_id, take_drop, (take_ge l) by lia. by apply take_drop_middle.
Qed.

(** Every operation is taken back by its reverse. *)
Lemma applied_rev op t d : text_ok t -> applied op t = Some d -> exists d', applied (rev op) (dtext d) = Some d' /\ dtext d' = t.
Proof.
  intros [Tn Tl] H. destruct op as [row col ch []|row col []]; cbn [applied rev negb] in *; set (r := Z.to_nat row) in *; set (c := Z.to_nat col) in *;
    destruct (t !! r) as [l|] eqn:Hl; try done; cbn [mbind option_bind] in H; pose proof (Forall_lookup_1 _ _ _ _ Tl Hl) as Ll; pose proof (lookup_lt_Some _ _ _ Hl) as Hr; cbn in Ll.
  - case_decide as Hc; [|done]. injection H as <-. cbn [dtext]. rewrite list_lookup_insert_eq by done. cbn [mbind option_bind].
    pose proof (lookup_lt_Some _ _ _ Hc). rewrite decide_True by (rewrite length_delete by done; lia).
    eexists. split; [done|]. cbn [dtext]. rewrite list_insert_insert_eq, ins_delete by done. by apply list_insert_id.
  - case_decide as Hc; [|done]. injection H as <-. cbn [dtext]. rewrite list_lookup_insert_eq by done. cbn [mbind option_bind].
    rewrite decide_True by (apply lookup_ins; lia). eexists. split; [done|]. cbn [dtext]. rewrite list_insert_insert_eq, delete_ins by lia. by apply list_insert_id.
  - destruct (t !! S r) as [l2|] eqn:Hl2; [|done]. cbn [mbind option_bind] in H. case_decide as Hc; [|done]. destruct Hc as [Hc1 Hc2]. injection H as <-. cbn [dtext].
    pose proof (lookup_lt_Some _ _ _ Hl2). rewrite lookup_merge by done. cbn [mbind option_bind]. rewrite take_ge by len_lia.
    rewrite (take_ge l), drop_0 by lia. rewrite decide_True by (rewrite length_app, length_merge by lia; lia). eexists. split; [done|]. cbn [dtext]. rewrite <- Hc1. by apply cut_merge.
  - case_decide as Hc; [|done]. destruct Hc as [Hc1 Hc2]. injection H as <-. cbn [dtext]. destruct (lookup_cut_at r c l t Hr) as [-> ->]. cbn [mbind option_bind].
    rewrite decide_True by len_lia. eexists. split; [done|]. cbn [dtext]. rewrite length_take, Nat.min_l by done. by apply merge_cut.
Qed.

Lemma retext_cursor b b' : retext b b' -> cursor_row b' = cursor_row b /\ cursor_col b' = cursor_col b /\ filename b' = filename b /\ filename_len b' = filename_len b.
Proof. intros ->. done. Qed.

Lemma in_text_insert t r l c l' : t !! r = Some l -> c <= length l' -> in_text (<[r := l']> t) r c.
Proof. intros H Hc. exists l'. split; [apply list_lookup_insert_eq; by apply lookup_lt_Some in H|done]. Qed.

Lemma apply_op_ok op b d : wf b -> applied op (text b) = Some d -> exists b', apply_op op b = Ret (rev op, b') /\ good_buf b' /\ doc b' = d.
Proof.
  intros W H. destruct op as [row col ch []|row col []]; cbn [applied apply_op rev negb] in *; set (r := Z.to_nat row) in *; set (c := Z.to_nat col) in *;
    destruct (text b !! r) as [l|] eqn:Hl; try done; cbn [mbind option_bind] in H; pose proof (lookup_lt_Some _ _ _ Hl) as Hr.
  - case_decide as Hc; [|done]. injection H as <-. pose proof (lookup_lt_Some _ _ _ Hc). destruct (raw_delete_ok b r c l W Hl) as (b' & -> & W' & _ & T); [done|].
    cbn [mbind outcome_mbind]. eexists. split; [done|]. split; [apply good_cursor; [done|]; rewrite T; eapply in_text_insert; [done|]; rewrite length_delete by done; lia|]. unfold doc. cbn. by rewrite <- T.
  - case_decide as Hc; [|done]. injection H as <-. destruct (raw_insert_ok b r c ch l W Hl) as (b' & -> & W' & _ & T); [done|].
    cbn [mbind outcome_mbind]. eexists. split; [done|]. split; [apply good_cursor; [done|]; rewrite T; eapply in_text_insert; [done|]; rewrite length_ins; lia|]. unfold doc. cbn. by rewrite <- T.
  - destruct (text b !! S r) as [l2|] eqn:Hl2; [|done]. cbn [mbind option_bind] in H. case_decide as Hc; [|done]. destruct Hc as [Hc1 Hc2]. injection H as <-.
    destruct (raw_join_ok b r l l2 W Hl Hl2) as (b' & -> & W' & _ & _ & T). cbn [mbind outcome_mbind]. eexists. split; [done|]. split; [apply good_cursor; [done|]|unfold doc; cbn; by rewrite <- T].
    rewrite T. eexists. split; [by apply lookup_merge|]. rewrite (take_ge (_ ++ _)) by len_lia. len_lia.
  - case_decide as Hc; [|done]. destruct Hc as [Hc1 Hc2]. injection H as <-. rewrite length_text in Hc2 by done.
    destruct (raw_split_ok b r c l W Hl) as (b' & -> & W' & _ & _ & T); [done..|]. cbn [mbind outcome_mbind]. eexists. split; [done|]. split; [apply good_cursor; [done|]|unfold doc; cbn; by rewrite <- T].
    rewrite T, Nat.add_1_r. eexists. split; [by apply lookup_cut_at|lia].
Qed.

(** ** Editing *)

Lemma doc_moved b r c x : doc (set_dirty (set_cursor b r c) x) = mkDoc (text b) r c.
Proof. done. Qed.

(** Nothing but the buffer and the history differs. *)
Definition same_rest (a a' : NotepadApp) : Prop := a' = set_buf (set_hist a (hist a')) (buf a').
(** Nothing happened, or the history got an operation that takes the change back. *)
Definition logged (a a' : NotepadApp) : Prop :=
  (hist a' = hist a /\ doc (buf a') = doc (buf a)) \/
  exists op, undo_push op (hist a) = Ret (hist a') /\ applied op (text (buf a')) = Some (doc (buf a)) /\ applied (rev op) (text (buf a)) = Some (doc (buf a')).

Lemma u16_id n : n <= MAX_LINES -> Z.to_nat (u16 n) = n.
Proof. intros H. unfold u16, wrap. rewrite Z.mod_small by (unfold MAX_LINES in H; lia). apply Nat2Z.id. Qed.

Lemma record_ok op b a us rs : history (hist a) us rs -> exists a', record op b a = Ret a' /\ same_rest a a' /\ buf a' = set_dirty b true /\
  undo_push op (hist a) = Ret (hist a') /\ history (hist a') (take UNDO_CAP (op :: us)) [].
Proof. intros H. destruct (undo_push_ok op (hist a) us rs H) as (h & E & H'). unfold record. rewrite E. cbn [mbind outcome_mbind]. by eexists. Qed.

Section Edit.
Variable a : NotepadApp.
Variables us rs : list UndoOp.
Hypothesis G : good_buf (buf a).
Hypothesis H : history (hist a) us rs.

(** What an edit that leads to the document [d] gives. *)
Definition edits (r : outcome NotepadApp) (d : Doc) : Prop :=
  exists a', r = Ret a' /\ same_rest a a' /\ good_buf (buf a') /\ doc (buf a') = d /\ exists us' rs', history (hist a') us' rs'.

Lemma insert_char_ok ch : edits (insert_char ch a) (type ch (doc (buf a))) /\ forall a', insert_char ch a = Ret a' -> logged a a'.
Proof.
  pose proof G as [W (l & Hl & Hc)]. cbn in Hl, Hc. destruct (text_len _ _ l W Hl) as (El & Ll & Hr). unfold insert_char, type, cur_line. cbn [drow dcol dtext doc].
  rewrite (line_at_eq _ _ _ Hl), (proj2 (Nat.leb_gt _ _)), El by done. cbn [mbind outcome_mbind]. destruct (MAX_LINE_LEN <=? length l) eqn:E; bool_simpl.
  { split; [exists a; split_and?; try done; [by destruct a|by exists us, rs]|]. intros ? [= <-]. by left. }
  destruct (raw_insert_ok (buf a) (cursor_row (buf a)) (cursor_col (buf a)) ch l W Hl) as (b & -> & Wb & Rb & T); [lia|]. cbn [mbind outcome_mbind].
  apply retext_cursor in Rb as (Rr & Rc & _). rewrite Rr, Rc.
  destruct (record_ok (Char (u16 (cursor_row (buf a))) (u16 (cursor_col (buf a))) ch true) (set_cursor b (cursor_row (buf a)) (cursor_col (buf a) + 1)) a us rs H) as (a' & Er & S' & B' & P' & H').
  assert (doc (buf a') = mkDoc (<[cursor_row (buf a) := ins (cursor_col (buf a)) ch l]> (text (buf a))) (cursor_row (buf a)) (S (cursor_col (buf a)))) as D'.
  { by rewrite B', doc_moved, T, Nat.add_1_r. }
  split.
  - exists a'. split; [done|]. split; [done|]. split; [|split; [done|by eexists _, _]]. rewrite B'. apply good_dirty, good_cursor; [done|]. rewrite T. eapply in_text_insert; [done|]. rewrite length_ins. lia.
  - rewrite Er. intros ? [= <-]. right. eexists. split; [done|]. cbn [applied rev negb]. change (text (buf a')) with (dtext (doc (buf a'))). rewrite D'. cbn [dtext].
    assert (MAX_LINE_LEN <= MAX_LINES) by (unfold MAX_LINE_LEN, MAX_LINES; lia). rewrite !u16_id by lia. rewrite list_lookup_insert_eq by (by apply lookup_lt_Some in Hl). rewrite Hl. cbn [mbind option_bind].
    rewrite decide_True by (by apply lookup_ins). rewrite decide_True by lia. rewrite list_insert_insert_eq, delete_ins, list_insert_id by done. by rewrite Nat.add_1_r.
Qed.

Lemma insert_newline_ok : edits (insert_newline a) (enter (doc (buf a))) /\ forall a', insert_newline a = Ret a' -> logged a a'.
Proof.
  pose proof G as [W (l & Hl & Hc)]. cbn in Hl, Hc. destruct (text_len _ _ l W Hl) as (El & Ll & Hr). unfold insert_newline, enter, cur_line. cbn [drow dcol dtext doc].
  rewrite (line_at_eq _ _ _ Hl), length_text by done. destruct (MAX_LINES <=? num_lines (buf a)) eqn:E; bool_simpl.
  { split; [exists a; split_and?; try done; [by destruct a|by exists us, rs]|]. intros ? [= <-]. by left. }
  pose proof (lookup_lt_Some _ _ _ Hl) as Hlt.
  destruct (raw_split_ok (buf a) (cursor_row (buf a)) (cursor_col (buf a)) l W Hl) as (b & -> & Wb & Rb & _ & T); [lia..|]. cbn [mbind outcome_mbind].
  apply retext_cursor in Rb as (Rr & Rc & _). rewrite Rr. destruct (move_ok b (cursor_row (buf a) + 1) 0 Wb) as (Gm & Dm & Tm).
  { rewrite T, Nat.add_1_r. eexists. split; [by apply lookup_cut_at|lia]. }
  destruct (record_ok (Newline (u16 (cursor_row (buf a))) (u16 (cursor_col (buf a))) true) (ensure_visible 20 (set_cursor b (cursor_row (buf a) + 1) 0)) a us rs H) as (a' & Er & S' & B' & P' & H').
  assert (doc (buf a') = mkDoc (cut_at (cursor_row (buf a)) (cursor_col (buf a)) l (text (buf a))) (S (cursor_row (buf a))) 0) as D'.
  { rewrite B'. change (doc (set_dirty ?x _)) with (doc x). rewrite Dm. unfold at_. cbn [dtext doc set_cursor]. by rewrite T, Nat.add_1_r. }
  split.
  - exists a'. split; [done|]. split; [done|]. split; [|split; [done|by eexists _, _]]. rewrite B'. by apply good_dirty.
  - rewrite Er. intros ? [= <-]. right. eexists. split; [done|]. cbn [applied rev negb]. change (text (buf a')) with (dtext (doc (buf a'))). rewrite D'. cbn [dtext].
    assert (MAX_LINE_LEN <= MAX_LINES) by (unfold MAX_LINE_LEN, MAX_LINES; lia). rewrite !u16_id by lia. destruct (lookup_cut_at (cursor_row (buf a)) (cursor_col (buf a)) l (text (buf a)) Hlt) as [-> ->].
    rewrite Hl. cbn [mbind option_bind]. rewrite length_take, Nat.min_l by done. rewrite decide_True by len_lia. rewrite decide_True by (rewrite length_text by done; lia).
    rewrite merge_cut by done. by rewrite Nat.add_1_r.
Qed.

(** The two lines that an erased line end joins fit in one. *)
Definition fits (d : Doc) : Prop := dcol d = 0 -> length (line_at (dtext d) (drow d - 1)) + length (cur_line d) <= MAX_LINE_LEN.

Lemma backspace_ok : edits (backspace a) (erase (doc (buf a))) /\ (fits (doc (buf a)) -> forall a', backspace a = Ret a' -> logged a a').
Proof.
  pose proof G as [W (l & Hl & Hc)]. cbn in Hl, Hc. destruct (text_len _ _ l W Hl) as (El & Ll & Hr). destruct (text_line _ _ l W Hl) as (line & Eline & Lline & El2).
  pose proof (lookup_lt_Some _ _ _ Hl) as Hlt. assert (MAX_LINE_LEN <= MAX_LINES) as Hmm by (unfold MAX_LINE_LEN, MAX_LINES; lia).
  unfold backspace, erase, fits, cur_line. cbn [drow dcol dtext doc]. rewrite (line_at_eq _ _ _ Hl). destruct (0 <? cursor_col (buf a)) eqn:E; bool_simpl.
  - rewrite Eline. cbn [mbind outcome_mbind]. destruct (lookup_lt_is_Some_2 l (cursor_col (buf a) - 1)) as [ch Hch]; [lia|].
    rewrite (proj2 (idx_Ret line _ ch)) by (rewrite El2 in Hch; by apply lookup_take_Some in Hch as [? _]). cbn [mbind outcome_mbind].
    destruct (raw_delete_ok (buf a) (cursor_row (buf a)) (cursor_col (buf a) - 1) l W Hl) as (b & -> & Wb & Rb & T); [lia|]. cbn [mbind outcome_mbind].
    apply retext_cursor in Rb as (Rr & Rc & _). rewrite Rr, Rc.
    destruct (record_ok (Char (u16 (cursor_row (buf a))) (u16 (cursor_col (buf a) - 1)) ch false) (set_cursor b (cursor_row (buf a)) (cursor_col (buf a) - 1)) a us rs H) as (a' & Er & S' & B' & P' & H').
    assert (doc (buf a') = mkDoc (<[cursor_row (buf a) := delete (cursor_col (buf a) - 1) l]> (text (buf a))) (cursor_row (buf a)) (cursor_col (buf a) - 1)) as D'.
    { by rewrite B', doc_moved, T. }
    split.
    + exists a'. split; [done|]. split; [done|]. split; [|split; [done|by eexists _, _]]. rewrite B'. apply good_dirty, good_cursor; [done|]. rewrite T. eapply in_text_insert; [done|]. rewrite length_delete by done. lia.
    + rewrite Er. intros _ ? [= <-]. right. eexists. split; [done|]. cbn [applied rev negb]. change (text (buf a')) with (dtext (doc (buf a'))). rewrite D'. cbn [dtext].
      rewrite !u16_id by lia. rewrite list_lookup_insert_eq by done. rewrite Hl. cbn [mbind option_bind]. rewrite decide_True by (rewrite length_delete by done; lia).
      rewrite decide_True by done. rewrite list_insert_insert_eq, ins_delete, list_insert_id by done. split; [|done]. unfold doc. do 2 f_equal. lia.
  - destruct (0 <? cursor_row (buf a)) eqn:E2; bool_simpl.
    2: { split; [exists a; split_and?; try done; [by destruct a|by exists us, rs]|]. intros _ ? [= <-]. by left. }
    destruct (text_lookup (buf a) (cursor_row (buf a) - 1) W) as [p Hp]; [rewrite length_text in Hlt by done; lia|]. rewrite (line_at_eq _ _ _ Hp).
    destruct (text_len _ _ p W Hp) as (-> & Lp & _). cbn [mbind outcome_mbind]. pose proof (lookup_lt_Some _ _ _ Hp) as Hplt.
    assert (text (buf a) !! S (cursor_row (buf a) - 1) = Some l) as Hl' by (rewrite <- Hl; f_equal; lia).
    destruct (raw_join_ok (buf a) (cursor_row (buf a) - 1) p l W Hp Hl') as (b & -> & Wb & Rb & _ & T). cbn [mbind outcome_mbind].
    apply retext_cursor in Rb as (Rr & Rc & _). rewrite Rr. replace (S (cursor_row (buf a) - 1)) with (cursor_row (buf a)) in T by lia.
    destruct (move_ok b (cursor_row (buf a) - 1) (length p) Wb) as (Gm & Dm & Tm).
    { rewrite T. eexists. split; [by apply lookup_merge|]. rewrite length_take, length_app, length_take. lia. }
    destruct (record_ok (Newline (u16 (cursor_row (buf a) - 1)) (u16 (length p)) false) (ensure_visible 20 (set_cursor b (cursor_row (buf a) - 1) (length p))) a us rs H) as (a' & Er & S' & B' & P' & H').
    assert (doc (buf a') = mkDoc (merge (cursor_row (buf a) - 1) (length p) p 0 l (cursor_row (buf a)) (text (buf a))) (cursor_row (buf a) - 1) (length p)) as D'.
    { rewrite B'. change (doc (set_dirty ?x _)) with (doc x). rewrite Dm. unfold at_. cbn [dtext doc set_cursor]. by rewrite T. }
    split.
    + exists a'. split; [done|]. split; [done|]. split; [|split; [done|by eexists _, _]]. rewrite B'. by apply good_dirty.
    + rewrite Er. intros Hf ? [= <-]. right. eexists. split; [done|]. cbn [applied rev negb]. change (text (buf a')) with (dtext (doc (buf a'))). rewrite D'. cbn [dtext].
      rewrite !u16_id by lia. rewrite lookup_merge by done. rewrite Hp, Hl'. cbn [mbind option_bind]. rewrite (take_ge (_ ++ _)) by len_lia. rewrite (take_ge p), drop_0 by lia.
      rewrite decide_True by (rewrite length_app, length_merge by lia; rewrite length_text by done; pose proof (wf_num _ W); lia). rewrite decide_True by lia.
      replace (cursor_row (buf a)) with (S (cursor_row (buf a) - 1)) at 3 by lia. rewrite cut_merge by (done || lia). replace (S (cursor_row (buf a) - 1)) with (cursor_row (buf a)) by lia.
      split; [|done]. unfold doc. do 2 f_equal; lia.
Qed.
End Edit.

(** ** Undo and redo *)

Lemma rev_rev op : rev (rev op) = op.
Proof. by destruct op as [? ? ? []|? ? []]. Qed.

(** [a] with the document [d], nothing selected, and the history [us], [rs]. *)
Definition at_doc (a a' : NotepadApp) (d : Doc) (us rs : list UndoOp) : Prop :=
  good_buf (buf a') /\ doc (buf a') = d /\ history (hist a') us rs /\ sel a' = unselect (sel a) /\ bar a' = bar a /\
  filename (buf a') = filename (buf a) /\ filename_len (buf a') = filename_len (buf a).

Lemma apply_op_name op b r b' : apply_op op b = Ret (r, b') -> filename b' = filename b /\ filename_len b' = filename_len b.
Proof.
  intros E. destruct op as [row col ch []|row col []]; cbn in E; apply bind_Ret in E as (b1 & E1 & [= <- <-]);
    unfold raw_delete_char_at, raw_insert_char_at, raw_join_lines, raw_split_line in E1; cbn;
    repeat (match type of E1 with (if ?c then _ else _) = _ => destruct c | _ ≫= _ = _ => apply bind_Ret in E1 as (? & _ & E1) end); by injection E1 as <-.
Qed.

Lemma ensure_visible_name n b : filename (ensure_visible n b) = filename b /\ filename_len (ensure_visible n b) = filename_len b.
Proof. unfold ensure_visible. by destruct (_ <? _); [|destruct (_ && _)]. Qed.

Lemma replay_ok op push a d us rs us' rs' : wf (buf a) -> applied op (text (buf a)) = Some d -> history (hist a) us rs ->
  (forall h, history h us rs -> exists h', push (rev op) h = Ret h' /\ history h' us' rs') ->
  exists a', replay op push a = Ret a' /\ at_doc a a' d us' rs'.
Proof.
  intros W Ha Hh Hp. unfold replay. destruct (apply_op_ok op (buf a) d W Ha) as (b & E & G & D). pose proof (apply_op_name _ _ _ _ E) as [N1 N2].
  rewrite E. cbn [mbind outcome_mbind]. destruct (Hp _ Hh) as (h' & -> & Hh'). cbn [mbind outcome_mbind]. eexists. split; [done|].
  destruct (good_visible 20 (set_dirty b true)) as [Gv Dv]; [by apply good_dirty|]. destruct (ensure_visible_name 20 (set_dirty b true)) as [M1 M2].
  unfold at_doc. cbn [buf hist sel bar set_buf set_hist set_sel]. rewrite M1, M2, Dv. done.
Qed.

Lemma undo_ok a op us rs d : wf (buf a) -> history (hist a) (op :: us) rs -> applied op (text (buf a)) = Some d ->
  exists a', undo a = Ret a' /\ at_doc a a' d us (rev op :: rs).
Proof.
  intros W H Ha. unfold undo. destruct (undo_pop_ok _ _ _ _ H) as (h & -> & Hh). cbn [mbind outcome_mbind].
  apply (replay_ok op redo_push (set_hist a h) d us rs); [done..|]. intros h' Hh'. apply redo_push_ok; [done|]. pose proof (h_cap _ _ _ H). cbn in *. lia.
Qed.

Lemma redo_ok a op us rs d : wf (buf a) -> history (hist a) us (op :: rs) -> applied op (text (buf a)) = Some d ->
  exists a', redo a = Ret a' /\ at_doc a a' d (rev op :: us) rs.
Proof.
  intros W H Ha. unfold redo. destruct (redo_pop_ok _ _ _ _ H) as (h & -> & Hh). cbn [mbind outcome_mbind]. pose proof (h_cap _ _ _ H) as C. cbn in C.
  apply (replay_ok op undo_push_raw (set_hist a h) d us rs); [done..|]. intros h' Hh'. destruct (undo_push_raw_ok (rev op) h' us rs Hh') as (h2 & E & H2); [left; lia|].
  exists h2. split; [done|]. by rewrite take_ge in H2 by (cbn; lia).
Qed.

(** Operations that lead from one document to another, and back when they are reversed. *)
Fixpoint chain (ops : list UndoOp) (d d0 : Doc) : Prop :=
  match ops with
  | [] => d = d0
  | op :: ops' => exists d1, applied op (dtext d) = Some d1 /\ applied (rev op) (dtext d1) = Some d /\ chain ops' d1 d0
  end.
Definition back (ops : list UndoOp) : list UndoOp := reverse (rev <$> ops).

Lemma chain_app xs ys d d1 d2 : chain xs d d1 -> chain ys d1 d2 -> chain (xs ++ ys) d d2.
Proof. revert d. induction xs as [|x xs IH]; intros d; cbn; [by intros ->|]. intros (e & ? & ? & ?) ?. exists e. auto. Qed.
Lemma chain_back ops d d0 : chain ops d d0 -> chain (back ops) d0 d.
Proof.
  unfold back. revert d. induction ops as [|op ops IH]; intros d; cbn [chain]; [done|]. intros (d1 & H1 & H2 & H3). rewrite fmap_cons, reverse_cons.
  apply (chain_app _ _ _ d1); [by apply IH|]. exists d. by rewrite rev_rev.
Qed.
Lemma back_cons op ops : back (op :: ops) = back ops ++ [rev op].
Proof. unfold back. by rewrite fmap_cons, reverse_cons. Qed.

Lemma at_doc_trans a a1 a2 d d' us us' rs rs' : at_doc a a1 d us rs -> at_doc a1 a2 d' us' rs' -> at_doc a a2 d' us' rs'.
Proof. intros (? & ? & ? & Hs & ? & ? & ?) (? & ? & ? & Hs' & ? & ? & ?). unfold at_doc. rewrite Hs', Hs. split_and?; (done || congruence). Qed.

Fixpoint times (n : nat) (f : NotepadApp -> outcome NotepadApp) (a : NotepadApp) : outcome NotepadApp :=
  match n with O => Ret a | S n' => let! a := f a in times n' f a end.

Lemma undo_all ops d0 us a rs : good_buf (buf a) -> chain ops (doc (buf a)) d0 -> history (hist a) (ops ++ us) rs -> sel_active (sel a) = false ->
  exists a', times (length ops) undo a = Ret a' /\ at_doc a a' d0 us (back ops ++ rs).
Proof.
  revert a rs. induction ops as [|op ops IH]; intros a rs G C H Hs; cbn [length times].
  - exists a. split; [done|]. cbn in C, H. unfold at_doc. split_and?; try done; cbn; by destruct (sel a); cbn in *; subst.
  - cbn in C, H. destruct C as (d1 & C1 & C2 & C3). destruct (undo_ok a op (ops ++ us) rs d1) as (a1 & -> & A1); [apply G|done..|]. cbn [mbind outcome_mbind].
    pose proof A1 as (G1 & D1 & H1 & S1 & _). destruct (IH a1 (rev op :: rs)) as (a2 & -> & A2); [done|by rewrite D1|done|by rewrite S1|]. exists a2. split; [done|].
    rewrite back_cons, <- (assoc_L (++)). by apply (at_doc_trans _ _ _ _ _ _ _ _ _ A1).
Qed.

Lemma redo_all ops d0 us a rs : good_buf (buf a) -> chain ops (doc (buf a)) d0 -> history (hist a) us (ops ++ rs) -> sel_active (sel a) = false ->
  exists a', times (length ops) redo a = Ret a' /\ at_doc a a' d0 (back ops ++ us) rs.
Proof.
  revert a us. induction ops as [|op ops IH]; intros a us G C H Hs; cbn [length times].
  - exists a. split; [done|]. cbn in C, H. unfold at_doc. split_and?; try done; cbn; by destruct (sel a); cbn in *; subst.
  - cbn in C, H. destruct C as (d1 & C1 & C2 & C3). destruct (redo_ok a op us (ops ++ rs) d1) as (a1 & -> & A1); [apply G|done..|]. cbn [mbind outcome_mbind].
    pose proof A1 as (G1 & D1 & H1 & S1 & _). destruct (IH a1 (rev op :: us)) as (a2 & -> & A2); [done|by rewrite D1|done|by rewrite S1|]. exists a2. split; [done|].
    rewrite back_cons, <- (assoc_L (++)). by apply (at_doc_trans _ _ _ _ _ _ _ _ _ A1).
Qed.
End notepad_edit.
