(* ===== verification/NotepadSpec.v ===== *)
(** * What the text editor promises

    Module [notepad_spec] states an abstract editor (a document, a selection and a clipboard) and
    shows that the keys of [notepad] implement it, that undo and redo take edits back and repeat
    them, that saving and opening a file round-trip and that searching finds the next occurrence,
    and shows inputs that abort the kernel. *)

From stdpp Require Import base list gmap strings list_numbers.
From Stdlib Require Import ZArith Lia.
From S2P Require Import Prelude RamFs FdTable Mbr Fat FatOps DiskStore StoreFs Ext2 Ext2Ops Vfs FileCalls WindowManager Menu Notepad NotepadText NotepadEdit.

Module notepad_spec.
Import notepad notepad_text notepad_edit.

(** ** The selection *)

(** A position before the cursor or behind it. *)
Definition range (o : option (nat * nat)) (d : Doc) : option (nat * nat * nat * nat) :=
  match o with
  | None => None
  | Some (r, c) =>
    if before r c (drow d) (dcol d) then Some (r, c, drow d, dcol d)
    else if before (drow d) (dcol d) r c then Some (drow d, dcol d, r, c) else None
  end.
Definition anchor_of (s : Selection) : option (nat * nat) := if sel_active s then Some (sel_anchor_row s, sel_anchor_col s) else None.

(** Lines with line ends between them. *)
Fixpoint unlines (ls : list (list Z)) : list Z :=
  match ls with [] => [] | [l] => l | l :: ls' => l ++ 10%Z :: unlines ls' end.
(** The bytes between two positions. *)
Definition selected (sr sc er ec : nat) (t : list (list Z)) : list Z :=
  unlines (alter (drop sc) 0 (alter (take ec) (er - sr) (take (S (er - sr)) (drop sr t)))).

Record good (a : NotepadApp) : Prop := mkGood {
  g_buf : good_buf (buf a);
  g_hist : exists us rs, history (hist a) us rs;
  g_sel : forall r c, anchor_of (sel a) = Some (r, c) -> in_text (text (buf a)) r c;
}.

Lemma sel_range_eq a : sel_range a = range (anchor_of (sel a)) (doc (buf a)).
Proof. unfold sel_range, anchor_of. by destruct (sel_active (sel a)). Qed.

Lemma range_ordered o d sr sc er ec : range o d = Some (sr, sc, er, ec) -> sr < er \/ (sr = er /\ sc < ec).
Proof.
  unfold range. destruct o as [[r c]|]; [|done].
  destruct (before r c (drow d) (dcol d)) eqn:E1; [intros [= <- <- <- <-]|destruct (before (drow d) (dcol d) r c) eqn:E2; [intros [= <- <- <- <-]|done]];
    unfold before in *; bool_simpl; destruct_or!; bool_simpl; lia.
Qed.
Lemma range_in_text a sr sc er ec : good a -> sel_range a = Some (sr, sc, er, ec) -> in_text (text (buf a)) sr sc /\ in_text (text (buf a)) er ec.
Proof.
  intros [[_ O] _ A]. rewrite sel_range_eq. unfold range. destruct (anchor_of (sel a)) as [[r c]|]; [|done]. specialize (A r c eq_refl).
  destruct (before _ _ _ _); [by intros [= <- <- <- <-]|]. destruct (before _ _ _ _); [by intros [= <- <- <- <-]|done].
Qed.

Definition cleared (a : NotepadApp) : Prop := anchor_of (sel a) = None.
Definition remove_selection (o : option (nat * nat)) (d : Doc) : Doc :=
  match range o d with Some (sr, sc, er, ec) => remove sr sc er ec d | None => d end.

Lemma delete_selection_ok a : good a -> exists a', delete_selection a = Ret a' /\ good a' /\ sel a' = unselect (sel a) /\ bar a' = bar a /\
  doc (buf a') = remove_selection (anchor_of (sel a)) (doc (buf a)).
Proof.
  intros Ga. pose proof Ga as [G (us & rs & H) A]. unfold delete_selection, remove_selection. rewrite <- sel_range_eq. destruct (sel_range a) as [[[[sr sc] er] ec]|] eqn:E.
  - destruct (range_in_text _ _ _ _ _ Ga E) as [(l1 & H1 & C1) (l2 & H2 & C2)]. rewrite sel_range_eq in E. apply range_ordered in E.
    pose proof G as [W O]. pose proof (wf_cursor (buf a) sr sc W) as Wc.
    assert (exists b', (if (sr =? er)%nat then delete_in_line sr sc ec (set_cursor (buf a) sr sc) else delete_lines sr sc er ec (set_cursor (buf a) sr sc)) = Ret b' /\
      wf b' /\ retext (set_cursor (buf a) sr sc) b' /\ text b' = merge sr sc l1 ec l2 er (text (buf a))) as (b' & -> & W' & R' & T').
    { destruct (sr =? er)%nat eqn:Es; bool_simpl.
      - subst er. rewrite H1 in H2. injection H2 as <-. by apply (delete_in_line_ok (set_cursor (buf a) sr sc)); [done|done|lia].
      - by apply (delete_lines_ok (set_cursor (buf a) sr sc)); [done|done|done|lia|done|done]. }
    cbn [mbind outcome_mbind]. eexists. split; [done|]. apply retext_cursor in R' as (Rr & Rc & _). cbn in Rr, Rc.
    assert (good_buf (set_dirty b' true)) as G'.
    { split; [by apply wf_dirty|]. unfold doc_ok, doc. cbn [drow dcol dtext cursor_row cursor_col set_dirty]. change (text (set_dirty _ _)) with (text b'). rewrite Rr, Rc, T'.
      pose proof (lookup_lt_Some _ _ _ H1). eexists. split; [by apply lookup_merge|]. destruct (text_len _ _ l1 W H1) as (_ & ? & _). rewrite length_take, length_app, length_take. lia. }
    destruct (good_visible 20 (set_dirty b' true) G') as [Gv Dv]. split; [split; [done|by eexists _, _; apply (history_clear _ us rs)|done]|]. split; [done|]. split; [done|].
    cbn [buf set_buf set_hist set_sel]. rewrite Dv. unfold remove, doc at 1. cbn [dtext doc cursor_row cursor_col set_dirty]. change (text (set_dirty _ _)) with (text b').
    by rewrite Rr, Rc, T', (line_at_eq _ _ _ H1), (line_at_eq _ _ _ H2).
  - eexists. split; [done|]. split; [by split; [done|by exists us, rs|]|done].
Qed.

(** ** The clipboard *)

Definition clip_ok (c : Clipboard) : Prop := length (clip c) = CLIPBOARD_MAX /\ clip_len c <= CLIPBOARD_MAX.
Definition board (c : Clipboard) : list Z := take (clip_len c) (clip c).
(** [xs] behind what is on the clipboard, as far as it fits. *)
Definition appended (c c' : Clipboard) (xs : list Z) : Prop := clip_ok c' /\ board c' = take CLIPBOARD_MAX (board c ++ xs).

Lemma length_board c : clip_ok c -> length (board c) = clip_len c.
Proof. intros [? ?]. unfold board. rewrite length_take. lia. Qed.

Lemma appended_nil c : clip_ok c -> appended c c [].
Proof. intros Hc. split; [done|]. rewrite app_nil_r, take_ge; [done|]. rewrite length_board by done. apply Hc. Qed.
Lemma appended_app c c1 c2 xs ys : appended c c1 xs -> appended c1 c2 ys -> appended c c2 (xs ++ ys).
Proof.
  intros [_ E1] [H2 E2]. split; [done|]. rewrite E2, E1, (assoc_L (++)). generalize (board c ++ xs). intros zs.
  destruct (decide (length zs <= CLIPBOARD_MAX)); [by rewrite (take_ge zs)|]. rewrite !take_app_le by len_lia. by rewrite take_take, Nat.min_id.
Qed.

Lemma clip_push_ok x c : clip_ok c -> exists c', clip_push x c = Ret c' /\ appended c c' [x].
Proof.
  intros Hc. pose proof Hc as [L N]. unfold clip_push. destruct (_ <? _) eqn:E; bool_simpl.
  - rewrite set_idx_lt by lia. cbn [mbind outcome_mbind]. eexists. split; [done|]. split; [split; cbn; [by rewrite length_insert|lia]|].
    unfold board. cbn [clip clip_len]. rewrite (take_S_r _ _ x) by (apply list_lookup_insert_eq; lia). rewrite take_insert_ge by lia. rewrite (take_ge (_ ++ _)); [done|]. rewrite length_app, length_take. cbn. lia.
  - exists c. split; [done|]. split; [done|]. rewrite take_app_le by (rewrite length_board by done; lia). rewrite take_ge; [done|]. rewrite length_board by done. lia.
Qed.

Lemma copy_cols_ok b row l n : wf b -> text b !! row = Some l -> forall col c, col + n <= length l -> clip_ok c ->
  exists c', copy_cols b row col n c = Ret c' /\ appended c c' (take n (drop col l)).
Proof.
  intros W Hl. destruct (text_line _ _ l W Hl) as (line & Eline & Lline & El). induction n as [|n IH]; intros col c Hn Hc; cbn [copy_cols].
  { exists c. split; [done|]. rewrite take_0. by apply appended_nil. }
  destruct (lookup_lt_is_Some_2 l col) as [x Hx]; [lia|]. rewrite Eline. cbn [mbind outcome_mbind].
  rewrite (proj2 (idx_Ret line col x)) by (rewrite El in Hx; by apply lookup_take_Some in Hx as [? _]). cbn [mbind outcome_mbind].
  destruct (clip_push_ok x c Hc) as (c1 & E1 & A1).
  replace (if clip_len c <? CLIPBOARD_MAX then clip_push x c else Ret c) with (clip_push x c) by (unfold clip_push; by destruct (_ <? _)).
  rewrite E1. cbn [mbind outcome_mbind]. destruct (IH (S col) c1) as (c2 & -> & A2); [lia|apply A1|]. exists c2. split; [done|].
  rewrite (drop_S l x col) by done. cbn [take]. by apply (appended_app c c1 c2 [x]).
Qed.

Lemma alter_drop_0 (ls : list (list Z)) : alter (drop 0) 0 ls = ls.
Proof. destruct ls; [done|]. cbn. by rewrite drop_0. Qed.

(** The lines from [row] to [er], the last one up to column [ec]. *)
Definition segment (t : list (list Z)) (er ec row : nat) : list (list Z) := alter (take ec) (er - row) (take (S (er - row)) (drop row t)).
Lemma segment_last t er ec l : t !! er = Some l -> segment t er ec er = [take ec l].
Proof. intros H. unfold segment. rewrite Nat.sub_diag. by rewrite (drop_S t l er). Qed.
Lemma segment_cons t er ec row l : row < er -> t !! row = Some l -> segment t er ec row = l :: segment t er ec (S row).
Proof. intros Hr H. unfold segment. rewrite (drop_S t l row) by done. replace (er - row) with (S (er - S row)) by lia. done. Qed.
Lemma segment_nonempty t er ec row : row < length t -> segment t er ec row <> [].
Proof.
  intros H. destruct (lookup_lt_is_Some_2 t row H) as [l Hl]. unfold segment. rewrite (drop_S t l row) by done. cbn [take]. by destruct (er - row).
Qed.
Lemma unlines_cons l ls : ls <> [] -> unlines (l :: ls) = l ++ 10%Z :: unlines ls.
Proof. by destruct ls. Qed.

Lemma copy_rows_S b sr sc er ec row n c : copy_rows b sr sc er ec row (S n) c =
  if num_lines b <=? row then Ret c
  else
    let! len := idx (line_lens b) row in
    let start := if row =? sr then sc else 0 in
    let stop := if row =? er then ec else len in
    let! c := copy_cols b row start (Nat.min stop len - start) c in
    let! c := (if row <? er then clip_push 10 c else Ret c) in
    copy_rows b sr sc er ec (S row) n c.
Proof. done. Qed.

Lemma copy_rows_ok b sr sc er ec le k : wf b -> text b !! er = Some le -> ec <= length le -> forall row c, er = row + k -> sr <= row -> clip_ok c ->
  (row = sr -> exists l, text b !! row = Some l /\ sc <= length l /\ (row = er -> sc <= ec)) ->
  exists c', copy_rows b sr sc er ec row (S k) c = Ret c' /\ appended c c' (unlines (alter (drop (if row =? sr then sc else 0)) 0 (segment (text b) er ec row))).
Proof.
  intros W He Hec. pose proof (lookup_lt_Some _ _ _ He) as Hlt. rewrite length_text in Hlt by done.
  induction k as [|k IH]; intros row c -> Hsr Hc Hs; rewrite copy_rows_S, (proj2 (Nat.leb_gt _ _)) by lia.
  - rewrite Nat.add_0_r in *. destruct (text_len _ _ le W He) as (-> & Ll & _). cbn [mbind outcome_mbind]. rewrite Nat.eqb_refl, (Nat.min_l ec) by done. rewrite Nat.ltb_irrefl.
    set (start := if row =? sr then sc else 0). assert (start <= ec) as Hst.
    { unfold start. destruct (row =? sr) eqn:E; bool_simpl; [|lia]. destruct (Hs E) as (l & Hl & _ & Ho). auto. }
    destruct (copy_cols_ok b row le (ec - start) W He start c) as (c1 & -> & A1); [lia|done|]. cbn [mbind outcome_mbind]. exists c1. split; [done|].
    rewrite (segment_last _ _ _ le He). cbn. by rewrite skipn_firstn_comm.
  - destruct (text_lookup b row W) as [l Hl]; [lia|]. destruct (text_len _ _ l W Hl) as (-> & Ll & _). cbn [mbind outcome_mbind]. rewrite (proj2 (Nat.eqb_neq row (row + S k))) by lia.
    rewrite Nat.min_id, (proj2 (Nat.ltb_lt _ _)) by lia. set (start := if row =? sr then sc else 0). assert (start <= length l) as Hst.
    { unfold start. destruct (row =? sr) eqn:E; bool_simpl; [|lia]. destruct (Hs E) as (l' & Hl' & ? & _). congruence. }
    destruct (copy_cols_ok b row l (length l - start) W Hl start c) as (c1 & -> & A1); [lia|done|]. cbn [mbind outcome_mbind].
    destruct (clip_push_ok 10 c1) as (c2 & -> & A2); [apply A1|]. cbn [mbind outcome_mbind].
    destruct (IH (S row) c2) as (c3 & E3 & A3); [lia|lia|apply A2|lia|].
    exists c3. split; [exact E3|]. rewrite (segment_cons _ _ _ row l) by (done || lia). cbn [alter list_alter].
    rewrite unlines_cons by (apply segment_nonempty; rewrite length_text by done; lia). rewrite take_ge in A1 by len_lia.
    rewrite (proj2 (Nat.eqb_neq (S row) sr)) in A3 by lia. rewrite alter_drop_0 in A3.
    apply (appended_app c c1 c3); [done|]. by apply (appended_app c1 c2 c3 [10%Z]).
Qed.

Lemma copy_selection_ok a c : good a -> clip_ok c -> exists c', copy_selection a c = Ret c' /\ clip_ok c' /\
  board c' = match range (anchor_of (sel a)) (doc (buf a)) with Some (sr, sc, er, ec) => take CLIPBOARD_MAX (selected sr sc er ec (text (buf a))) | None => board c end.
Proof.
  intros Ga Hc. unfold copy_selection. rewrite sel_range_eq. destruct (range _ _) as [[[[sr sc] er] ec]|] eqn:E; [|by exists c].
  pose proof E as O%range_ordered. rewrite <- sel_range_eq in E. destruct (range_in_text _ _ _ _ _ Ga E) as [(l1 & H1 & C1) (l2 & H2 & C2)].
  destruct (copy_rows_ok (buf a) sr sc er ec l2 (er - sr)) with (row := sr) (c := mkClip (clip c) 0) as (c' & E' & K & B').
  - apply Ga.
  - done.
  - done.
  - lia.
  - lia.
  - destruct Hc. split; cbn; [done|lia].
  - intros _. exists l1. split_and!; [done..|lia].
  - exists c'. split; [done|]. split; [done|]. rewrite B', Nat.eqb_refl. done.
Qed.

(** ** Pasting and new files *)

Lemma paste_bytes_ok bs b : good_buf b -> exists b', paste_bytes bs b = Ret b' /\ good_buf b' /\ doc b' = paste bs (doc b).
Proof.
  unfold paste. revert b. induction bs as [|x bs IH]; intros b G; cbn [paste_bytes foldl]; [by exists b|].
  pose proof G as [W (l & Hl & Hc)]. cbn in Hl, Hc. destruct (text_len _ _ l W Hl) as (El & Ll & Hr). pose proof (lookup_lt_Some _ _ _ Hl) as Hlt.
  unfold paste1, type, enter, cur_line. cbn [drow dcol dtext doc]. rewrite (line_at_eq _ _ _ Hl), length_text by done. destruct (x =? 10)%Z; [|destruct (_ || _)].
  - destruct (num_lines b <? MAX_LINES) eqn:E; bool_simpl; [rewrite (proj2 (Nat.leb_gt _ _)) by done|rewrite (proj2 (Nat.leb_le _ _)) by done; by apply IH].
    destruct (raw_split_ok b (cursor_row b) (cursor_col b) l W Hl) as (b1 & -> & W1 & R1 & _ & T1); [done..|]. cbn [mbind outcome_mbind]. apply retext_cursor in R1 as (Rr & _). rewrite Rr.
    destruct (IH (set_cursor b1 (cursor_row b + 1) 0)) as (b2 & -> & G2 & D2).
    { apply good_cursor; [done|]. rewrite T1, Nat.add_1_r. eexists. split; [by apply lookup_cut_at|lia]. }
    exists b2. split; [done|]. split; [done|]. rewrite D2. f_equal. unfold doc. cbn [cursor_row cursor_col set_cursor]. change (text (set_cursor _ _ _)) with (text b1). by rewrite T1, Nat.add_1_r.
  - rewrite El. cbn [mbind outcome_mbind]. destruct (length l <? MAX_LINE_LEN) eqn:E; bool_simpl; [rewrite (proj2 (Nat.leb_gt _ _)) by done|rewrite (proj2 (Nat.leb_le _ _)) by done; by apply IH].
    destruct (raw_insert_ok b (cursor_row b) (cursor_col b) x l W Hl) as (b1 & -> & W1 & R1 & T1); [done|]. cbn [mbind outcome_mbind]. apply retext_cursor in R1 as (Rr & Rc & _). rewrite Rr, Rc.
    destruct (IH (set_cursor b1 (cursor_row b) (cursor_col b + 1))) as (b2 & -> & G2 & D2).
    { apply good_cursor; [done|]. rewrite T1. eapply in_text_insert; [done|]. rewrite length_ins. lia. }
    exists b2. split; [done|]. split; [done|]. rewrite D2. f_equal. unfold doc. cbn [cursor_row cursor_col set_cursor]. change (text (set_cursor _ _ _)) with (text b1). by rewrite T1, Nat.add_1_r.
  - by apply IH.
Qed.

Lemma paste_clipboard_ok a c : good a -> clip_ok c -> exists a', paste_clipboard c a = Ret a' /\ good a' /\ anchor_of (sel a') = None /\ bar a' = bar a /\
  doc (buf a') = paste (board c) (remove_selection (anchor_of (sel a)) (doc (buf a))).
Proof.
  intros Ga [C1 C2]. unfold paste_clipboard.
  assert (exists a1, (if sel_active (sel a) then delete_selection a else Ret a) = Ret a1 /\ good a1 /\ anchor_of (sel a1) = None /\ bar a1 = bar a /\
    doc (buf a1) = remove_selection (anchor_of (sel a)) (doc (buf a))) as (a1 & -> & G1 & S1 & B1 & D1).
  { destruct (sel_active (sel a)) eqn:E; [|exists a; unfold anchor_of; by rewrite E]. destruct (delete_selection_ok a Ga) as (a1 & -> & G1 & S1 & B1 & D1).
    exists a1. rewrite S1. done. }
  cbn [mbind outcome_mbind]. rewrite slice_le by lia. cbn [mbind outcome_mbind]. rewrite drop_0, Nat.sub_0_r. fold (board c). pose proof G1 as [Gb (us & rs & H) A].
  destruct (paste_bytes_ok (board c) (buf a1) Gb) as (b & -> & G2 & D2). cbn [mbind outcome_mbind]. eexists. split; [done|].
  destruct (good_visible 20 (set_dirty b true)) as [Gv Dv]; [by apply good_dirty|]. split; [split|].
  - done.
  - eexists _, _. by apply (history_clear _ us rs).
  - cbn [sel set_buf set_hist]. by rewrite S1.
  - split; [done|]. split; [done|]. cbn [buf set_buf set_hist]. rewrite Dv. change (doc (set_dirty b true)) with (doc b). by rewrite D2, D1.
Qed.

Lemma new_file_ok a : good a -> exists a', new_file a = Ret a' /\ good a' /\ anchor_of (sel a') = None /\ bar_mode (bar a') = NoBar /\ doc (buf a') = mkDoc [[]] 0 0.
Proof.
  intros [[W O] (us & rs & H) A]. unfold new_file. pose proof W as [W1 W2 W3 W4 W5]. rewrite fill_ok by lia. cbn [mbind outcome_mbind]. eexists. split; [done|].
  assert (text (mkBuffer (lines (buf a)) (splice (line_lens (buf a)) 0 (replicate (num_lines (buf a)) 0)) 1 0 0 0 (filename (buf a)) 0 false) = [[]]) as T.
  { unfold text, rows, splice. cbn [lines line_lens num_lines take app]. destruct (num_lines (buf a)) as [|n] eqn:E; [lia|].
    destruct (lines (buf a)) as [|l ls] eqn:El; [by cbn in W1; unfold MAX_LINES in W1|]. cbn. by rewrite take_0. }
  split; [split|].
  - split; [split|]; cbn [buf lines line_lens num_lines]; [done|done|rewrite length_splice; rewrite ?length_replicate; lia|apply Forall_splice; [done|]; apply Forall_replicate; lia|unfold MAX_LINES; lia|].
    unfold doc_ok, doc. cbn [buf dtext drow dcol cursor_row cursor_col]. rewrite T. by exists [].
  - exists [], []. destruct H. split; cbn; try done; unfold UNDO_CAP; lia.
  - done.
  - split; [done|]. split; [done|]. unfold doc. cbn [buf cursor_row cursor_col]. by rewrite T.
Qed.

(** ** The abstract editor *)

(** A document, the other end of the selection, and the clipboard. *)
Record Editor := mkEditor { ed : Doc; anchor : option (nat * nat); clips : list Z }.
Definition plain (e : Editor) (d : Doc) : Editor := mkEditor d None (clips e).
Definition extend (move : Doc -> Doc) (e : Editor) : Editor :=
  mkEditor (move (ed e)) (Some (default (drow (ed e), dcol (ed e)) (anchor e))) (clips e).
Definition rest (e : Editor) : Doc := remove_selection (anchor e) (ed e).
Definition copied (e : Editor) : list Z :=
  match range (anchor e) (ed e) with Some (sr, sc, er, ec) => take CLIPBOARD_MAX (selected sr sc er ec (dtext (ed e))) | None => clips e end.
Definition last_place (d : Doc) : Doc := at_ d (length (dtext d) - 1) (length (line_at (dtext d) (length (dtext d) - 1))).

(** What a key does to the editor. *)
Definition press (e : Editor) (ev : Z) : Editor :=
  (if ev =? EV_UP then plain e (up (ed e))
   else if ev =? EV_DOWN then plain e (down (ed e))
   else if ev =? EV_LEFT then plain e (left (ed e))
   else if ev =? EV_RIGHT then plain e (right (ed e))
   else if ev =? EVENT_SHIFT_UP then extend up e
   else if ev =? EVENT_SHIFT_DOWN then extend down e
   else if ev =? EVENT_SHIFT_LEFT then extend left e
   else if ev =? EVENT_SHIFT_RIGHT then extend right e
   else if ev =? 0x0E then plain e (mkDoc [[]] 0 0)
   else if ev =? 0x01 then mkEditor (last_place (ed e)) (Some (0%nat, 0%nat)) (clips e)
   else if ev =? 0x03 then mkEditor (ed e) (anchor e) (copied e)
   else if ev =? 0x18 then mkEditor (rest e) None (copied e)
   else if ev =? 0x16 then plain e (paste (clips e) (rest e))
   else if (ev =? 10) || (ev =? 13) then plain e (enter (rest e))
   else if (ev =? 8) || (ev =? 127) then plain e (match anchor e with Some _ => rest e | None => erase (ed e) end)
   else if ev =? 9 then plain e (type 32 (type 32 (type 32 (type 32 (rest e)))))
   else if (32 <=? ev) && (ev <=? 126) then plain e (type ev (rest e))
   else e)%Z.

(** The keys of files, of searching and of the history. *)
Definition other_keys : list Z := [0x0F; 0x13; 0x1A; 0x19; 0x06]%Z.

Section Keys.
Context {D : Type} `{BlockDevice D}.
Implicit Types w : World (D := D).

Definition view w : Editor := mkEditor (doc (buf (app w))) (anchor_of (sel (app w))) (board (clipboard w)).
Record ready w : Prop := mkReady { r_app : good (app w); r_clip : clip_ok (clipboard w); r_bar : bar_mode (bar (app w)) = NoBar }.
(** The result of a key that makes the editor [e]. *)
Definition shows (r : outcome World) (e : Editor) : Prop := exists w', r = Ret w' /\ ready w' /\ view w' = e.
Definition key_shows (r : outcome (bool * World)) (e : Editor) : Prop := exists c w', r = Ret (c, w') /\ ready w' /\ view w' = e.

Lemma shows_key r e : shows r e -> key_shows (let! w := r in Ret (true, w)) e.
Proof. intros (w' & -> & ?). by eexists _, _. Qed.

(** An operation on the editor that leaves no selection. *)
Lemma on_app_ok w m d : ready w -> (exists a', m (app w) = Ret a' /\ good a' /\ anchor_of (sel a') = None /\ bar_mode (bar a') = NoBar /\ doc (buf a') = d) ->
  shows (on_app w m) (plain (view w) d).
Proof. intros R (a' & E & G & S & B & Dd). unfold on_app. rewrite E. eexists. split; [done|]. split; [by destruct R; split|]. unfold view, plain. cbn. by rewrite Dd, S. Qed.

Lemma on_buf_ok w m d o : ready w -> sel (app w) = o -> (forall b, good_buf b -> exists b', m b = Ret b' /\ good_buf b' /\ doc b' = d (doc b) /\ text b' = text b) ->
  shows (on_buf w m) (mkEditor (d (ed (view w))) (anchor_of o) (clips (view w))).
Proof.
  intros [[Gb Gh Gs] Rc Rb] <- Hm. destruct (Hm (buf (app w)) Gb) as (b' & E & G' & D' & T'). unfold on_buf, on_app. rewrite E. cbn [mbind outcome_mbind]. eexists. split; [done|]. split.
  - split; [split|done|done]; [done|done|]. cbn [app set_app sel set_buf buf]. rewrite T'. exact Gs.
  - unfold view. cbn [app set_app sel set_buf buf ed clips clipboard]. by rewrite D'.
Qed.

Lemma deselected_ready w : ready w -> ready (deselected w).
Proof. intros [[? ? ?] ? ?]. by split; [split|..]. Qed.
Lemma selecting_ready w : ready w -> ready (selecting w) /\ anchor_of (sel (app (selecting w))) = Some (default (drow (ed (view w)), dcol (ed (view w))) (anchor (view w))).
Proof.
  intros [[? ? ?] ? ?]. unfold selecting, start_sel, view, anchor_of. cbn [anchor ed]. destruct (sel_active (sel (app w))) eqn:E.
  - destruct w as [a c f]. cbn in *. rewrite E. done.
  - split; [|done]. split; [split|done|done]; cbn [app set_app set_sel buf hist sel]; [done|done|]. intros r c [= <- <-]. by destruct g_buf0 as [_ ?].
Qed.

Lemma extend_ok w m move : ready w -> (forall b, good_buf b -> exists b', m b = Ret b' /\ good_buf b' /\ doc b' = move (doc b) /\ text b' = text b) ->
  shows (on_buf (selecting w) m) (extend move (view w)).
Proof.
  intros R Hm. destruct (selecting_ready w R) as [R' A']. destruct (on_buf_ok (selecting w) m move _ R' eq_refl Hm) as (w' & E & Rw & V). exists w'. split; [done|]. split; [done|].
  rewrite V, A'. unfold extend, view, selecting, start_sel. cbn [ed clips app clipboard set_app]. by destruct (sel_active _).
Qed.

Lemma drop_selection_ok a : good a -> exists a', drop_selection a = Ret a' /\ good a' /\ anchor_of (sel a') = None /\ bar a' = bar a /\
  doc (buf a') = remove_selection (anchor_of (sel a)) (doc (buf a)).
Proof.
  intros G. unfold drop_selection. destruct (sel_active (sel a)) eqn:E; [|exists a; unfold anchor_of; by rewrite E].
  destruct (delete_selection_ok a G) as (a1 & -> & G1 & S1 & B1 & D1). exists a1. by rewrite S1.
Qed.

(** An edit of the history's kind keeps the editor good. *)
Lemma edits_good a r d : good a -> anchor_of (sel a) = None -> edits a r d ->
  exists a', r = Ret a' /\ good a' /\ anchor_of (sel a') = None /\ bar a' = bar a /\ doc (buf a') = d.
Proof.
  intros G N (a' & -> & S & G' & D' & H'). exists a'. assert (sel a' = sel a /\ bar a' = bar a) as [Es Eb] by (rewrite S; done).
  rewrite Es, Eb. split; [done|]. split; [split; [done|done|]; by rewrite Es, N|done].
Qed.

Lemma type_ok a ch : good a -> anchor_of (sel a) = None ->
  exists a', insert_char ch a = Ret a' /\ good a' /\ anchor_of (sel a') = None /\ bar a' = bar a /\ doc (buf a') = type ch (doc (buf a)).
Proof. intros G N. pose proof G as [Gb (us & rs & Gh) _]. by apply edits_good, (insert_char_ok a us rs). Qed.
Lemma enter_ok a : good a -> anchor_of (sel a) = None ->
  exists a', insert_newline a = Ret a' /\ good a' /\ anchor_of (sel a') = None /\ bar a' = bar a /\ doc (buf a') = enter (doc (buf a)).
Proof. intros G N. pose proof G as [Gb (us & rs & Gh) _]. by apply edits_good, (insert_newline_ok a us rs). Qed.
Lemma erase_ok a : good a -> anchor_of (sel a) = None ->
  exists a', backspace a = Ret a' /\ good a' /\ anchor_of (sel a') = None /\ bar a' = bar a /\ doc (buf a') = erase (doc (buf a)).
Proof. intros G N. pose proof G as [Gb (us & rs & Gh) _]. by apply edits_good, (backspace_ok a us rs). Qed.

Lemma tab_ok a : good a -> anchor_of (sel a) = None ->
  exists a', insert_tab a = Ret a' /\ good a' /\ anchor_of (sel a') = None /\ bar a' = bar a /\ doc (buf a') = type 32 (type 32 (type 32 (type 32 (doc (buf a))))).
Proof.
  intros G N. unfold insert_tab. destruct (type_ok a 32 G N) as (a1 & -> & G1 & N1 & B1 & D1). cbn [mbind outcome_mbind].
  destruct (type_ok a1 32 G1 N1) as (a2 & -> & G2 & N2 & B2 & D2). cbn [mbind outcome_mbind]. destruct (type_ok a2 32 G2 N2) as (a3 & -> & G3 & N3 & B3 & D3). cbn [mbind outcome_mbind].
  destruct (type_ok a3 32 G3 N3) as (a4 & -> & G4 & N4 & B4 & D4). exists a4. rewrite D4, D3, D2, D1. split_and?; (done || congruence).
Qed.

(** The selection goes, then an edit. *)
Lemma after_drop w m f : ready w -> (forall a, good a -> anchor_of (sel a) = None -> exists a', m a = Ret a' /\ good a' /\ anchor_of (sel a') = None /\ bar a' = bar a /\ doc (buf a') = f (doc (buf a))) ->
  shows (on_app w (fun a => let! a := drop_selection a in m a)) (plain (view w) (f (rest (view w)))).
Proof.
  intros R Hm. apply on_app_ok; [done|]. pose proof R as [G _ B]. destruct (drop_selection_ok (app w) G) as (a1 & -> & G1 & N1 & B1 & D1). cbn [mbind outcome_mbind].
  destruct (Hm a1 G1 N1) as (a2 & -> & G2 & N2 & B2 & D2). exists a2. rewrite D2, D1, B2, B1. done.
Qed.

Lemma select_all_ok w : ready w -> shows (on_app w select_all) (mkEditor (last_place (ed (view w))) (Some (0, 0)) (clips (view w))).
Proof.
  intros [[Gb Gh Gs] Rc Rb]. pose proof Gb as [W O]. pose proof (wf_num _ W) as Wn. unfold on_app, select_all. cbn [buf set_sel]. rewrite (proj2 (Nat.ltb_lt _ _)) by lia.
  destruct (text_lookup (buf (app w)) (num_lines (buf (app w)) - 1) W) as [l Hl]; [lia|]. destruct (text_len _ _ l W Hl) as (-> & _). cbn [mbind outcome_mbind].
  destruct (move_ok (buf (app w)) (num_lines (buf (app w)) - 1) (length l) W) as (Gm & Dm & Tm); [by apply in_text_end|]. eexists. split; [done|]. split.
  - split; [split|done|done]; cbn [app set_app set_buf set_sel buf hist sel]; [done|done|]. intros r c [= <- <-]. rewrite Tm.
    destruct (text_lookup (buf (app w)) 0 W) as [l0 H0]; [lia|]. exists l0. split; [done|lia].
  - unfold view. cbn [app set_app set_buf set_sel buf sel clipboard ed clips]. rewrite Dm. unfold last_place. cbn [dtext doc]. by rewrite length_text, (line_at_eq _ _ _ Hl).
Qed.

Lemma do_copy_ok w : ready w -> shows (do_copy w) (mkEditor (ed (view w)) (anchor (view w)) (copied (view w))).
Proof.
  intros [G Rc Rb]. unfold do_copy. destruct (copy_selection_ok (app w) (clipboard w) G Rc) as (c & -> & Hc & B). cbn [mbind outcome_mbind]. eexists. split; [done|].
  split; [done|]. unfold view. cbn [app clipboard ed anchor]. by rewrite B.
Qed.

Lemma do_cut_ok w : ready w -> shows (do_cut w) (mkEditor (rest (view w)) None (copied (view w))).
Proof.
  intros R. unfold do_cut. destruct (do_copy_ok w R) as (w1 & -> & R1 & V1). cbn [mbind outcome_mbind].
  destruct (on_app_ok w1 delete_selection (rest (view w1)) R1) as (w2 & E2 & R2 & V2).
  { destruct R1 as [G1 _ B1]. destruct (delete_selection_ok (app w1) G1) as (a & -> & Ga & Sa & Ba & Da). exists a. rewrite Sa, Ba. done. }
  exists w2. split; [done|]. split; [done|]. by rewrite V2, V1.
Qed.

Lemma do_paste_ok w : ready w -> shows (do_paste w) (plain (view w) (paste (clips (view w)) (rest (view w)))).
Proof.
  intros R. apply on_app_ok; [done|]. destruct R as [G C B]. destruct (paste_clipboard_ok (app w) (clipboard w) G C) as (a & -> & Ga & Na & Ba & Da). exists a. rewrite Ba. done.
Qed.

Lemma erase_key_ok w : ready w -> shows (on_app w (fun a => if sel_active (sel a) then delete_selection a else backspace a))
  (plain (view w) (match anchor (view w) with Some _ => rest (view w) | None => erase (ed (view w)) end)).
Proof.
  intros R. apply on_app_ok; [done|]. destruct R as [G _ B]. unfold rest, view, anchor_of. cbn [anchor ed]. destruct (sel_active (sel (app w))) eqn:E.
  - destruct (delete_selection_ok (app w) G) as (a & -> & Ga & Sa & Ba & Da). exists a. rewrite Sa, Ba. unfold anchor_of in Da. by rewrite E in Da.
  - destruct (erase_ok (app w) G) as (a & -> & Ga & Na & Ba & Da); [unfold anchor_of; by rewrite E|]. exists a. rewrite Ba. done.
Qed.

Lemma char_key_ok ev w : ready w -> key_shows (char_key ev w)
  ((if (ev =? 10) || (ev =? 13) then plain (view w) (enter (rest (view w)))
    else if (ev =? 8) || (ev =? 127) then plain (view w) (match anchor (view w) with Some _ => rest (view w) | None => erase (ed (view w)) end)
    else if ev =? 9 then plain (view w) (type 32 (type 32 (type 32 (type 32 (rest (view w))))))
    else if (32 <=? ev) && (ev <=? 126) then plain (view w) (type ev (rest (view w)))
    else view w)%Z).
Proof.
  intros R. unfold char_key. destruct ((ev =? 10)%Z || (ev =? 13)%Z); [apply shows_key, (after_drop w insert_newline enter); [done|]; by intros; apply enter_ok|].
  destruct ((ev =? 8)%Z || (ev =? 127)%Z); [by apply shows_key, erase_key_ok|].
  destruct (ev =? 9)%Z; [apply shows_key, (after_drop w insert_tab (fun d => type 32 (type 32 (type 32 (type 32 d))))); [done|]; by intros; apply tab_ok|].
  destruct (_ && _); [apply shows_key, (after_drop w (insert_char ev) (type ev)); [done|]; by intros; apply type_ok|]. by exists false, w.
Qed.

Lemma move_key_ok w m d : ready w -> (forall b, good_buf b -> exists b', m b = Ret b' /\ good_buf b' /\ doc b' = d (doc b) /\ text b' = text b) ->
  key_shows (let! w := on_buf (deselected w) m in Ret (true, w)) (plain (view w) (d (ed (view w)))).
Proof. intros R Hm. apply shows_key, (on_buf_ok (deselected w) m d _ (deselected_ready w R) eq_refl Hm). Qed.

Lemma press_ok ev w : ready w -> ev ∉ other_keys -> key_shows (key_event ev w) (press (view w) ev).
Proof.
  intros R Ho. unfold key_event. rewrite bool_decide_eq_true_2 by apply R. unfold editor_key, press. unfold other_keys in Ho. rewrite !not_elem_of_cons in Ho. destruct Ho as (? & ? & ? & ? & ? & _).
  destruct (ev =? EV_UP)%Z; [by apply (move_key_ok w move_up up), move_up_ok|]. destruct (ev =? EV_DOWN)%Z; [by apply (move_key_ok w move_down down), move_down_ok|].
  destruct (ev =? EV_LEFT)%Z; [by apply (move_key_ok w move_left left), move_left_ok|]. destruct (ev =? EV_RIGHT)%Z; [by apply (move_key_ok w move_right right), move_right_ok|].
  destruct (ev =? EVENT_SHIFT_UP)%Z; [by apply shows_key, extend_ok, move_up_ok|]. destruct (ev =? EVENT_SHIFT_DOWN)%Z; [by apply shows_key, extend_ok, move_down_ok|].
  destruct (ev =? EVENT_SHIFT_LEFT)%Z; [by apply shows_key, extend_ok, move_left_ok|]. destruct (ev =? EVENT_SHIFT_RIGHT)%Z; [by apply shows_key, extend_ok, move_right_ok|].
  rewrite (proj2 (Z.eqb_neq ev 0x0F)) by done. destruct (ev =? 0x0E)%Z; [apply shows_key, on_app_ok; [done|]; destruct R as [G _ _]; by apply new_file_ok|].
  rewrite (proj2 (Z.eqb_neq ev 0x13)), (proj2 (Z.eqb_neq ev 0x1A)), (proj2 (Z.eqb_neq ev 0x19)) by done.
  destruct (ev =? 0x01)%Z; [by apply shows_key, select_all_ok|]. destruct (ev =? 0x03)%Z; [by apply shows_key, do_copy_ok|]. destruct (ev =? 0x18)%Z; [by apply shows_key, do_cut_ok|].
  destruct (ev =? 0x16)%Z; [by apply shows_key, do_paste_ok|]. rewrite (proj2 (Z.eqb_neq ev 0x06)) by done.
  destruct (ev <? 0x100)%Z eqn:E; [by apply char_key_ok|]. bool_simpl.
  rewrite !(proj2 (Z.eqb_neq _ _)) by lia. cbn [orb]. rewrite (proj2 (Z.leb_gt ev 126)), andb_false_r by lia. by exists false, w.
Qed.

Lemma presses_ok evs : forall c w, ready w -> Forall (.∉ other_keys) evs -> key_shows (process_events c evs w) (foldl press (view w) evs).
Proof.
  induction evs as [|ev evs IH]; intros c w R Ho; cbn [process_events foldl]; [by eexists _, _|]. inversion_clear Ho as [|? ? Hev Hevs].
  destruct (press_ok ev w R Hev) as (c1 & w1 & -> & R1 & V1). cbn [mbind outcome_mbind]. rewrite <- V1. by apply IH.
Qed.

(** ** Edits and undo *)

(** The history of [a'] takes [a'] back to [a] in at most [n] steps. *)
Definition undoable (n : nat) (a a' : NotepadApp) : Prop := forall us rs, history (hist a) us rs -> length us + n <= UNDO_CAP ->
  exists ops rs', length ops <= n /\ chain ops (doc (buf a')) (doc (buf a)) /\ history (hist a') (ops ++ us) rs'.

Lemma undoable_trans n m a a1 a2 : undoable n a a1 -> undoable m a1 a2 -> undoable (n + m) a a2.
Proof.
  intros H1 H2 us rs Hh Hc. destruct (H1 us rs Hh) as (ops1 & rs1 & L1 & C1 & Hh1); [lia|]. destruct (H2 (ops1 ++ us) rs1 Hh1) as (ops2 & rs2 & L2 & C2 & Hh2); [rewrite length_app; lia|].
  exists (ops2 ++ ops1), rs2. rewrite length_app, <- (assoc_L (++)). split; [lia|]. split; [by apply (chain_app _ _ _ (doc (buf a1)))|done].
Qed.
Lemma undoable_refl a : undoable 0 a a.
Proof. intros us rs Hh _. by exists [], rs. Qed.
Lemma undoable_le n m a a' : n <= m -> undoable n a a' -> undoable m a a'.
Proof. intros Hle H1 us rs Hh Hc. destruct (H1 us rs Hh) as (ops & rs' & L & C & Hh'); [lia|]. exists ops, rs'. split; [lia|done]. Qed.

Lemma logged_undoable a a' : logged a a' -> undoable 1 a a'.
Proof.
  intros [[Eh Ed]|(op & P & A1 & A2)] us rs Hh Hc; [exists [], rs; rewrite Eh; cbn; split_and!; [lia|done..]|].
  destruct (undo_push_ok op (hist a) us rs Hh) as (h & E & Hh'). rewrite P in E. injection E as <-. exists [op], []. split; [done|]. split; [by exists (doc (buf a))|].
  by rewrite take_ge in Hh' by (cbn; lia).
Qed.

Lemma type_undo a a' ch : good a -> anchor_of (sel a) = None -> insert_char ch a = Ret a' -> undoable 1 a a'.
Proof. intros G N E. pose proof G as [Gb (us & rs & Gh) _]. by apply logged_undoable, (insert_char_ok a us rs Gb Gh ch). Qed.

Lemma tab_undo a : good a -> anchor_of (sel a) = None -> exists a', insert_tab a = Ret a' /\ undoable 4 a a'.
Proof.
  intros G N. unfold insert_tab. destruct (type_ok a 32 G N) as (a1 & E1 & G1 & N1 & _). rewrite E1. cbn [mbind outcome_mbind].
  destruct (type_ok a1 32 G1 N1) as (a2 & E2 & G2 & N2 & _). rewrite E2. cbn [mbind outcome_mbind]. destruct (type_ok a2 32 G2 N2) as (a3 & E3 & G3 & N3 & _). rewrite E3. cbn [mbind outcome_mbind].
  destruct (type_ok a3 32 G3 N3) as (a4 & E4 & _). exists a4. split; [done|]. apply (undoable_trans 1 3 a a1); [by apply (type_undo a a1 32)|].
  apply (undoable_trans 1 2 a1 a2); [by apply (type_undo a1 a2 32)|]. apply (undoable_trans 1 1 a2 a3); [by apply (type_undo a2 a3 32)|by apply (type_undo a3 a4 32)].
Qed.

(** The keys that change the text one character or line end at a time. *)
Definition edit_keys : list Z := ([8; 9; 10; 13; 127] ++ seqZ 32 95)%Z.
Definition edit (d : Doc) (ev : Z) : Doc := ed (press (mkEditor d None []) ev).
(** No line end is erased between lines that do not fit in one. *)
Fixpoint all_fit (evs : list Z) (d : Doc) : Prop :=
  match evs with [] => True | ev :: evs' => (ev ∈ [8; 127]%Z -> fits d) /\ all_fit evs' (edit d ev) end.

Lemma press_plain ev e : ev ∈ edit_keys -> anchor e = None -> ed (press e ev) = edit (ed e) ev /\ anchor (press e ev) = None.
Proof.
  destruct e as [d o cs]. cbn [ed anchor]. intros Hev ->. unfold edit, press. unfold edit_keys in Hev. rewrite elem_of_app, !elem_of_cons, elem_of_nil, elem_of_seqZ in Hev.
  unfold EV_UP, EV_DOWN, EV_LEFT, EV_RIGHT, EVENT_SHIFT_UP, EVENT_SHIFT_DOWN, EVENT_SHIFT_LEFT, EVENT_SHIFT_RIGHT.
  repeat (match goal with |- context [(ev =? ?k)%Z] => rewrite (proj2 (Z.eqb_neq ev k)) by lia end).
  destruct (_ || _); [done|]. destruct (_ || _); [done|]. destruct (_ =? _)%Z; [done|]. by destruct (_ && _).
Qed.

Lemma edit_key_undo ev w : ready w -> anchor (view w) = None -> ev ∈ edit_keys -> (ev ∈ [8; 127]%Z -> fits (ed (view w))) ->
  exists c w', key_event ev w = Ret (c, w') /\ undoable 4 (app w) (app w').
Proof.
  intros R N Hev Hf. unfold key_event. rewrite bool_decide_eq_true_2 by apply R. pose proof R as [G _ _]. pose proof G as [Gb (us & rs & Gh) _]. cbn in N.
  assert (sel_active (sel (app w)) = false) as Ns by (unfold anchor_of in N; by destruct (sel_active _)).
  assert (editor_key ev w = char_key ev w) as ->.
  { unfold editor_key. unfold edit_keys in Hev. rewrite elem_of_app, !elem_of_cons, elem_of_nil, elem_of_seqZ in Hev.
    repeat (match goal with |- context [(ev =? ?k)%Z] => rewrite (proj2 (Z.eqb_neq ev k)) by (unfold EV_UP, EV_DOWN, EV_LEFT, EV_RIGHT, EVENT_SHIFT_UP, EVENT_SHIFT_DOWN, EVENT_SHIFT_LEFT, EVENT_SHIFT_RIGHT; lia) end).
    by rewrite (proj2 (Z.ltb_lt ev 0x100)) by lia. }
  unfold char_key, on_app, drop_selection. rewrite Ns. cbn [mbind outcome_mbind]. destruct ((ev =? 10)%Z || (ev =? 13)%Z).
  { destruct (insert_newline_ok (app w) us rs Gb Gh) as [(a & E & _) L]. rewrite E. cbn [mbind outcome_mbind]. eexists _, _. split; [done|]. apply (undoable_le 1); [lia|]. by apply logged_undoable, L. }
  destruct ((ev =? 8)%Z || (ev =? 127)%Z) eqn:E8.
  { destruct (backspace_ok (app w) us rs Gb Gh) as [(a & E & _) L]. rewrite E. cbn [mbind outcome_mbind]. eexists _, _. split; [done|]. apply (undoable_le 1); [lia|]. apply logged_undoable, L; [|done].
    apply Hf. bool_simpl. rewrite !elem_of_cons. destruct_or!; bool_simpl; auto. }
  destruct (ev =? 9)%Z; [destruct (tab_undo (app w) G N) as (a & -> & U); by eexists _, _|].
  destruct (_ && _); [|eexists _, _; split; [done|]; apply (undoable_le 0), undoable_refl; lia].
  destruct (type_ok (app w) ev G N) as (a & E & _). rewrite E. cbn [mbind outcome_mbind]. eexists _, _. split; [done|]. apply (undoable_le 1); [lia|]. by apply (type_undo (app w) a ev).
Qed.

Lemma not_other ev : ev ∈ edit_keys -> ev ∉ other_keys.
Proof. unfold edit_keys, other_keys. rewrite elem_of_app, !elem_of_cons, elem_of_nil, elem_of_seqZ. lia. Qed.

Lemma edits_undo evs : forall c w, ready w -> anchor (view w) = None -> Forall (.∈ edit_keys) evs -> all_fit evs (ed (view w)) ->
  exists c' w', process_events c evs w = Ret (c', w') /\ ready w' /\ anchor (view w') = None /\ undoable (4 * length evs) (app w) (app w').
Proof.
  induction evs as [|ev evs IH]; intros c w R N He Hf; cbn [process_events length]; [by eexists _, _; split_and!; [done|done|done|apply undoable_refl]|].
  inversion_clear He as [|? ? Hev Hevs]. destruct Hf as [Hf1 Hf2]. destruct (press_ok ev w R (not_other ev Hev)) as (c1 & w1 & E1 & R1 & V1).
  destruct (edit_key_undo ev w R N Hev Hf1) as (c1' & w1' & E1' & U1). rewrite E1 in E1'. injection E1' as <- <-. rewrite E1. cbn [mbind outcome_mbind].
  destruct (press_plain ev (view w) Hev N) as [P1 P2]. rewrite <- V1 in P1, P2. destruct (IH c1 w1 R1 P2 Hevs) as (c2 & w2 & -> & R2 & N2 & U2); [by rewrite P1|].
  eexists _, _. split; [done|]. split; [done|]. split; [done|]. replace (4 * S (length evs)) with (4 + 4 * length evs) by lia. by apply (undoable_trans 4 _ _ (app w1)).
Qed.

Lemma replay_bar op push a a' : replay op push a = Ret a' -> bar a' = bar a.
Proof. unfold replay. intros E. apply bind_Ret in E as ([? ?] & _ & E). apply bind_Ret in E as (? & _ & E). by injection E as <-. Qed.
Lemma undo_bar a a' : undo a = Ret a' -> bar a' = bar a.
Proof. unfold undo. intros E. apply bind_Ret in E as ([[op|] h] & _ & E); [by apply replay_bar in E|by injection E as <-]. Qed.
Lemma redo_bar a a' : redo a = Ret a' -> bar a' = bar a.
Proof. unfold redo. intros E. apply bind_Ret in E as ([[op|] h] & _ & E); [by apply replay_bar in E|by injection E as <-]. Qed.

Lemma keys_times ev f n : (forall w, bar_mode (bar (app w)) = NoBar -> key_event ev w = let! w := on_app w f in Ret (true, w)) -> (forall a a', f a = Ret a' -> bar a' = bar a) ->
  forall c w a', bar_mode (bar (app w)) = NoBar -> times n f (app w) = Ret a' -> exists c', process_events c (replicate n ev) w = Ret (c', set_app w a').
Proof.
  intros Hk Hb. induction n as [|n IH]; intros c w a' B E; cbn [times replicate process_events] in *; [injection E as <-; by destruct w; eexists|].
  apply bind_Ret in E as (a1 & E1 & E). rewrite Hk by done. unfold on_app. rewrite E1. cbn [mbind outcome_mbind].
  destruct (IH true (set_app w a1) a') as (c' & E'); [cbn; by rewrite (Hb _ _ E1)|done|]. exists c'. exact E'.
Qed.

(** C24: The editor is the abstract one: whatever keys are pressed (characters, line ends, tabs,
    backspace, arrows with and without shift, select all, copy, cut, paste, new file; not those
    of files, search and undo), it does not abort, and its lines, cursor, selection and clipboard
    are those of the abstract editor. *)
Theorem keys_edit_the_document w evs (R : ready w) (E : Forall (.∉ other_keys) evs) :
  exists c w', process_input true evs w = Ret (c, w') /\ ready w' /\ view w' = foldl press (view w) evs.
Proof. by apply presses_ok. Qed.

(** C25: Undo takes edits back: with no selection, after any sequence of characters, line ends, tabs and backspaces that
    the history can hold (and that joins no lines too long for one), pressing undo once for each
    recorded operation gives the text and the cursor back, and redo as often repeats the edits. *)
Theorem undo_takes_back_the_edits w evs (R : ready w) (N : anchor (view w) = None) (E : Forall (.∈ edit_keys) evs) (F : all_fit evs (ed (view w)))
    (U : undo_len (hist (app w)) + 4 * length evs <= UNDO_CAP) :
  exists c1 w1 c2 w2 c3 w3, process_input true evs w = Ret (c1, w1) /\
    let k := undo_len (hist (app w1)) - undo_len (hist (app w)) in
    process_input true (replicate k 0x1A%Z) w1 = Ret (c2, w2) /\ ed (view w2) = ed (view w) /\
    process_input true (replicate k 0x19%Z) w2 = Ret (c3, w3) /\ ed (view w3) = ed (view w1).
Proof.
  destruct (edits_undo evs false w R N E F) as (c1 & w1 & E1 & R1 & N1 & U1). pose proof R as [[_ (us & rs & Hh) _] _ _]. rewrite (h_ulen _ _ _ Hh) in U.
  destruct (U1 us rs Hh U) as (ops & rs1 & Lo & C1 & Hh1). pose proof R1 as [[Gb1 _ _] _ B1].
  assert (sel_active (sel (app w1)) = false) as S1 by (cbn in N1; unfold anchor_of in N1; by destruct (sel_active _)).
  destruct (undo_all ops _ us (app w1) rs1 Gb1 C1 Hh1 S1) as (a2 & T2 & G2 & D2 & Hh2 & S2 & B2 & _).
  destruct (redo_all (back ops) (doc (buf (app w1))) us a2 rs1) as (a3 & T3 & G3 & D3 & _); [done|rewrite D2; by apply chain_back|done|by rewrite S2|].
  destruct (keys_times 0x1A undo (length ops)) with (c := false) (w := w1) (a' := a2) as (c2 & E2).
  { intros w0 B0. unfold key_event. by rewrite bool_decide_eq_true_2. } { apply undo_bar. } { done. } { done. }
  destruct (keys_times 0x19 redo (length (back ops))) with (c := false) (w := set_app w1 a2) (a' := a3) as (c3 & E3).
  { intros w0 B0. unfold key_event. by rewrite bool_decide_eq_true_2. } { apply redo_bar. } { cbn. by rewrite B2. } { done. }
  exists c1, w1, c2, (set_app w1 a2), c3, (set_app (set_app w1 a2) a3). split; [done|].
  assert (undo_len (hist (app w1)) - undo_len (hist (app w)) = length ops) as -> by (rewrite (h_ulen _ _ _ Hh), (h_ulen _ _ _ Hh1), length_app; lia).
  assert (length (back ops) = length ops) as L by (unfold back; by rewrite length_reverse, length_fmap). rewrite L in E3. done.
Qed.
End Keys.

(** ** A first session *)

Definition no_files : vfs.Files RamDisk :=
  vfs.mkFiles (Some fd_spec.hello) (fatfs.new tt) (ext2.boot tt) (disk_store.mkStores (replicate 4 false) [None; None; None; None]).
Definition empty_clip : Clipboard := mkClip (replicate CLIPBOARD_MAX 0%Z) 0.
Definition blank : NotepadApp := mkApp 3
  (mkBuffer (replicate MAX_LINES (replicate MAX_LINE_LEN 0%Z)) (replicate MAX_LINES 0) 1 0 0 0 (replicate 64 0%Z) 0 false)
  (mkHistory (replicate UNDO_CAP UNDO_ZERO) 0 0 (replicate UNDO_CAP UNDO_ZERO) 0)
  (mkSelection false 0 0) (mkBar NoBar (replicate 64 0%Z) 0 0 0 false) menu.new false true false 0 0 0.
Definition app0 : NotepadApp := set_view blank (match build_menu blank with Ret a => menu_bar a | Panic => menu.new end) false true false.
Lemma new_app0 : new 3 = Ret app0.
Proof. vm_compute. reflexivity. Qed.
Definition start : World := mkWorld app0 empty_clip no_files.

Lemma history_empty ub rb : length ub = UNDO_CAP -> length rb = UNDO_CAP -> history (mkHistory ub 0 0 rb 0) [] [].
Proof. intros H1 H2. split; try done; cbn; unfold UNDO_CAP; lia. Qed.

Lemma start_ready : ready start.
Proof.
  split; [split|split|].
  - split; [split|].
    + reflexivity.
    + apply Forall_replicate. reflexivity.
    + reflexivity.
    + apply Forall_replicate. unfold MAX_LINE_LEN. lia.
    + change (1 <= 1 <= MAX_LINES). unfold MAX_LINES. lia.
    + exists []. split; [reflexivity|]. change (0 <= 0). lia.
  - exists [], []. apply history_empty; reflexivity.
  - intros r c Hrc. discriminate Hrc.
  - reflexivity.
  - change (0 <= CLIPBOARD_MAX). lia.
  - reflexivity.
Qed.

Definition session : list Z := [65; 66; 10; 67; EVENT_SHIFT_LEFT; 0x18; EV_UP; 0x16; 8; 9]%Z.
Lemma keys_edit_the_document_witness :
  exists c w', process_input true session start = Ret (c, w') /\ ready w' /\ view w' = foldl press (view start) session.
Proof. apply (keys_edit_the_document start session start_ready). apply (bool_decide_unpack _). vm_compute. exact I. Defined.

Definition edit_session : list Z := [65; 66; 10; 67; 8; 9]%Z.
Lemma undo_takes_back_the_edits_witness :
  exists c1 w1 c2 w2 c3 w3, process_input true edit_session start = Ret (c1, w1) /\
    let k := undo_len (hist (app w1)) - undo_len (hist (app start)) in
    process_input true (replicate k 0x1A%Z) w1 = Ret (c2, w2) /\ ed (view w2) = ed (view start) /\
    process_input true (replicate k 0x19%Z) w2 = Ret (c3, w3) /\ ed (view w3) = ed (view w1).
Proof.
  apply (undo_takes_back_the_edits start edit_session start_ready).
  - reflexivity.
  - apply (bool_decide_unpack _). vm_compute. exact I.
  - unfold edit_session. cbn [all_fit]. split_and!; try done; try (intros Hev; exfalso; revert Hev; apply (bool_decide_unpack _); vm_compute; exact I).
  - change (0 + 24 <= UNDO_CAP). unfold UNDO_CAP. lia.
Defined.

(** An undo after an edit that the history does not record aborts the kernel: when a full line is
    selected and deleted, undo and redo of its last character leave the cursor behind the end of
    the line's array, and the next character is stored out of range. *)
Theorem a_stale_undo_aborts_the_kernel :
  let keys := (replicate 256 65 ++ [0x01; 8; 0x1A; 0x19])%Z in
  returns (process_input true keys start) = true /\ process_input true (keys ++ [65%Z]) start = Panic.
Proof. vm_compute. split; reflexivity. Qed.
End notepad_spec.
