(* ===== verification/NotepadFiles.v ===== *)
(** * Searching, loading and saving in the text editor

    Module [notepad_files] shows what loading makes of the bytes of a file and saving of the text,
    that a saved text opens again, that a file of too many lines makes the next key abort the
    kernel, and that searching goes to the next occurrence. *)

From stdpp Require Import base list gmap strings list_numbers.
From Stdlib Require Import ZArith Lia.
From S2P Require Import Prelude RamFs FdTable Mbr Fat FatOps DiskStore StoreFs Ext2 Ext2Ops Vfs FileCalls WindowManager Menu Notepad NotepadText NotepadEdit NotepadSpec.

Module notepad_files.
Import notepad notepad_text notepad_edit notepad_spec.

(** ** Loading *)

(** The rows of the two arrays. *)
Definition rows_of (ls : list (list Z)) (lens : list nat) : list (list Z) := zip_with take lens ls.
Definition arrays (ls : list (list Z)) (lens : list nat) : Prop :=
  length ls = MAX_LINES /\ Forall (fun l => length l = MAX_LINE_LEN) ls /\ length lens = MAX_LINES /\ Forall (fun n => n <= MAX_LINE_LEN) lens.
(** The lines of a file, of which the first continues [cur]. *)
Definition continued (cur : list Z) (data : list Z) : list (list Z) :=
  match split 10 data with [] => [] | p :: ps => take MAX_LINE_LEN (cur ++ p) :: (take MAX_LINE_LEN <$> ps) end.

Lemma continued_nil data : continued [] data = take MAX_LINE_LEN <$> split 10 data.
Proof. unfold continued. by destruct (split 10 data). Qed.
Lemma continued_cons_nl cur data : length cur <= MAX_LINE_LEN -> continued cur (10%Z :: data) = cur :: continued [] data.
Proof. intros Hc. rewrite continued_nil. unfold continued. cbn [split Z.eqb Pos.eqb]. by rewrite app_nil_r, take_ge. Qed.
Lemma continued_cons cur x data : x <> 10%Z -> continued cur (x :: data) = continued (cur ++ [x]) data.
Proof.
  intros Hx. unfold continued. cbn [split]. rewrite (proj2 (Z.eqb_neq x 10)) by done. pose proof (split_nonempty 10 data). destruct (split 10 data) as [|p ps]; [done|].
  by rewrite <- (assoc_L (++)).
Qed.
Lemma continued_full cur x data : length cur = MAX_LINE_LEN -> continued (cur ++ [x]) data = continued cur data.
Proof. intros Hc. unfold continued. destruct (split 10 data) as [|p ps]; [done|]. by rewrite <- (assoc_L (++)), !take_app_le, !take_ge by len_lia. Qed.

Lemma arrays_put ls lens row line n : arrays ls lens -> row < MAX_LINES -> length line = MAX_LINE_LEN -> n <= MAX_LINE_LEN ->
  arrays (<[row := line]> ls) (<[row := n]> lens) /\ rows_of (<[row := line]> ls) (<[row := n]> lens) = <[row := take n line]> (rows_of ls lens).
Proof.
  intros (A1 & A2 & A3 & A4) Hr Hl Hn. unfold arrays, rows_of. rewrite !length_insert. rewrite insert_zip_with. split_and!; try done; by apply Forall_insert.
Qed.
Lemma length_rows_of ls lens : arrays ls lens -> length (rows_of ls lens) = MAX_LINES.
Proof. intros (A1 & _ & A3 & _). unfold rows_of. rewrite length_zip_with. lia. Qed.

(** Where loading ends and what it leaves, from row [row] with the bytes [cur] already in it. *)
Lemma load_bytes_ok data : forall row col cur ls lens, arrays ls lens -> row < MAX_LINES -> rows_of ls lens !! row = Some cur -> length cur = col ->
  exists row' ls' lens', load_bytes data row col ls lens = Ret (row', ls', lens') /\ arrays ls' lens' /\ row' = (row + length (split 10 data) - 1) `min` MAX_LINES /\
    (row' < MAX_LINES -> take (S row') (rows_of ls' lens') = take row (rows_of ls lens) ++ continued cur data) /\
    (MAX_LINES <= row' -> take row (rows_of ls' lens') = take row (rows_of ls lens)).
Proof.
  induction data as [|x data IH]; intros row col cur ls lens A Hr Hcur Hcol; cbn [load_bytes].
  { eexists _, _, _. split; [done|]. split; [done|]. cbn [split length]. split; [lia|]. split; [|lia]. intros _.
    rewrite (take_S_r _ _ cur) by done. change (continued cur []) with [take MAX_LINE_LEN (cur ++ [])]. rewrite app_nil_r, (take_ge cur); [done|].
    apply lookup_zip_with_Some in Hcur as (n & line & -> & Hn & _). destruct A as (_ & _ & _ & A4). pose proof (Forall_lookup_1 _ _ _ _ A4 Hn). cbn in *. rewrite length_take. lia. }
  pose proof A as (A1 & A2 & A3 & A4). assert (length cur <= MAX_LINE_LEN) as Hlen.
  { apply lookup_zip_with_Some in Hcur as (n & line & -> & Hn & _). pose proof (Forall_lookup_1 _ _ _ _ A4 Hn). cbn in *. rewrite length_take. lia. }
  rewrite (proj2 (Nat.leb_gt _ _)) by done. cbn [split]. destruct (x =? 10)%Z eqn:Ex; bool_simpl.
  - subst x. cbn [length]. pose proof (split_nonempty 10 data) as Hne. assert (0 < length (split 10 data)) as Hpos by (destruct (split 10 data); [done|cbn; lia]).
    rewrite continued_cons_nl by done. destruct (S row <? MAX_LINES) eqn:Es; bool_simpl.
    + destruct (lookup_lt_is_Some_2 ls (S row)) as [line Hline]; [lia|]. rewrite set_idx_lt by lia. cbn [mbind outcome_mbind].
      pose proof (arrays_put ls lens (S row) line 0 A Es (Forall_lookup_1 _ _ _ _ A2 Hline) ltac:(lia)) as [A' R']. rewrite list_insert_id in A', R' by done.
      destruct (IH (S row) 0 [] ls (<[S row := 0]> lens)) as (row' & ls' & lens' & E & A'' & Hrow & Hin & Hout);
        [done|done|rewrite R'; apply list_lookup_insert_eq; rewrite length_rows_of by done; lia|done|].
      assert (take (S row) (rows_of ls (<[S row := 0]> lens)) = take row (rows_of ls lens) ++ [cur]) as T by (rewrite R', take_insert_ge by lia; by apply take_S_r).
      exists row', ls', lens'. split; [done|]. split; [done|]. split; [lia|]. split.
      * intros Hlt. rewrite (Hin Hlt), T, <- (assoc_L (++)). done.
      * intros Hge. apply (f_equal (take row)) in T. rewrite <- (Hout Hge) in T. rewrite !take_take, (Nat.min_l row (S row)) in T by lia. rewrite T.
        rewrite take_app_le by (rewrite length_take, length_rows_of by done; lia). by rewrite take_take, Nat.min_id.
    + cbn [mbind outcome_mbind]. assert (S row = MAX_LINES) as -> by lia. assert (load_bytes data MAX_LINES 0 ls lens = Ret (MAX_LINES, ls, lens)) as ->.
      { destruct data; [done|]. cbn [load_bytes]. by rewrite Nat.leb_refl. }
      eexists _, _, _. split; [done|]. split; [done|]. split; [lia|]. split; [lia|done].
  - assert (split 10 (x :: data) = match split 10 data with p :: ps => (x :: p) :: ps | [] => [[x]] end) as Hs by (cbn [split]; by rewrite (proj2 (Z.eqb_neq x 10))).
    assert (length (match split 10 data with p :: ps => (x :: p) :: ps | [] => [[x]] end) = length (split 10 data)) as -> by (pose proof (split_nonempty 10 data); by destruct (split 10 data)).
    rewrite continued_cons by done. destruct (col <? MAX_LINE_LEN) eqn:Ec; bool_simpl.
    + apply lookup_zip_with_Some in Hcur as (n & line & Hcur & Hn & Hline). pose proof (Forall_lookup_1 _ _ _ _ A2 Hline) as Ll. cbn in Ll.
      rewrite (proj2 (idx_Ret _ _ _) Hline). cbn [mbind outcome_mbind]. rewrite (set_idx_lt line) by lia. cbn [mbind outcome_mbind]. rewrite (set_idx_lt ls) by lia. cbn [mbind outcome_mbind]. rewrite (set_idx_lt lens) by lia. cbn [mbind outcome_mbind].
      destruct (arrays_put ls lens row (<[col := x]> line) (S col) A Hr) as [A' R']; [by rewrite length_insert|lia|].
      assert (take (S col) (<[col := x]> line) = cur ++ [x]) as T.
      { rewrite (take_S_r _ _ x) by (apply list_lookup_insert_eq; lia). rewrite take_insert_ge by lia. f_equal. subst cur col. by rewrite length_take, (Nat.min_l n)
          by (pose proof (Forall_lookup_1 _ _ _ _ A4 Hn); cbn in *; lia). }
      rewrite T in R'. destruct (IH row (S col) (cur ++ [x]) _ _ A' Hr) as (row' & ls' & lens' & E & A'' & Hrow & Hin & Hout);
        [rewrite R'; apply list_lookup_insert_eq; rewrite length_rows_of by done; lia|rewrite length_app; cbn; lia|].
      rewrite R', take_insert_ge in Hin, Hout by lia. by exists row', ls', lens'.
    + destruct (IH row col cur ls lens A Hr Hcur Hcol) as (row' & ls' & lens' & E & A'' & Hrow & Hin & Hout). exists row', ls', lens'.
      rewrite continued_full by lia. done.
Qed.

(** The name of the file and the text of the input bar have room. *)
Record named (a : NotepadApp) : Prop := mkNamed {
  n_name : length (filename (buf a)) = 64;
  n_len : filename_len (buf a) <= 63;
  n_bar : length (bar_text (bar a)) = 64;
  n_blen : bar_len (bar a) <= 63;
}.

Lemma load_data_ok data a : wf (buf a) -> named a ->
  exists a', load_data data a = Ret a' /\ bar a' = bar a /\ filename_len (buf a') = bar_len (bar a) /\
    take (bar_len (bar a)) (filename (buf a')) = take (bar_len (bar a)) (bar_text (bar a)) /\ length (filename (buf a')) = 64 /\ length (line_lens (buf a')) = MAX_LINES /\
    num_lines (buf a') = length (split 10 data) `min` S MAX_LINES /\
    (length (split 10 data) <= MAX_LINES -> wf (buf a') /\ doc (buf a') = mkDoc (take MAX_LINE_LEN <$> split 10 data) 0 0) /\
    anchor_of (sel a') = None /\ forall us rs, history (hist a) us rs -> history (hist a') [] [].
Proof.
  intros W [N1 N2 N3 N4]. unfold load_data. pose proof W as [W1 W2 W3 W4 W5].
  destruct (load_bytes_ok data 0 0 [] (lines (buf a)) (replicate MAX_LINES 0)) as (row & ls & lens & E & A & Hrow & Hin & _).
  { split_and!; [done|done|apply length_replicate|apply Forall_replicate; lia]. } { unfold MAX_LINES. lia. }
  { unfold rows_of. destruct (lines (buf a)) as [|l ls] eqn:El; [cbn in W1; unfold MAX_LINES in W1; lia|done]. } { done. }
  pose proof (split_nonempty 10 data) as Hne. assert (0 < length (split 10 data)) as Hpos by (destruct (split 10 data); [done|cbn; lia]).
  rewrite E. cbn [mbind outcome_mbind]. rewrite (Nat.min_l (bar_len (bar a))) by done. rewrite slice_le by lia. cbn [mbind outcome_mbind]. rewrite drop_0, Nat.sub_0_r.
  rewrite copy_at_le by len_lia. cbn [mbind outcome_mbind]. eexists. split; [done|]. split; [done|]. split; [done|]. destruct A as (A1 & A2 & A3 & A4).
  cbn [buf set_buf filename line_lens num_lines]. split; [rewrite take_splice by len_lia; done|]. split; [by rewrite length_splice by len_lia|]. split; [done|]. split; [lia|]. split; [|split].
  - intros Hle. assert (row < MAX_LINES) as Hlt by lia. split; [split; cbn; (done || lia)|]. unfold doc. cbn [buf set_buf cursor_row cursor_col]. f_equal. unfold text, rows. cbn [num_lines line_lens lines].
    replace (Nat.max (row + 1) 1) with (S row) by lia. specialize (Hin Hlt). unfold rows_of in Hin. rewrite Hin. cbn [take app]. apply continued_nil.
  - done.
  - intros us rs Hh. destruct Hh as [U1 U2 U3 U4 R1 R2 R3 C]. by apply history_empty.
Qed.

(** ** Saving *)

Lemma save_cols_ok b row l : wf b -> text b !! row = Some l -> forall n col out, col + n <= length l -> (Z.of_nat (length out + n) <= SAVE_MAX)%Z ->
  save_cols b row col n out = Ret (out ++ take n (drop col l)).
Proof.
  intros W Hl. destruct (text_line _ _ l W Hl) as (line & Eline & Lline & El). induction n as [|n IH]; intros col out Hn Hs; cbn [save_cols]; [by rewrite take_0, app_nil_r|].
  destruct (lookup_lt_is_Some_2 l col) as [x Hx]; [lia|]. rewrite (proj2 (Z.ltb_lt _ _)) by lia. rewrite Eline. cbn [mbind outcome_mbind].
  rewrite (proj2 (idx_Ret line col x)) by (rewrite El in Hx; by apply lookup_take_Some in Hx as [? _]). cbn [mbind outcome_mbind]. unfold save_push. rewrite (proj2 (Z.ltb_lt _ _)) by lia.
  rewrite IH by (rewrite ?length_app; cbn; lia). by rewrite (drop_S l x col), <- (assoc_L (++)) by done.
Qed.

Lemma save_rows_ok b : wf b -> forall n row out, row + n = num_lines b -> (Z.of_nat (length out) + Z.of_nat n * 257 <= SAVE_MAX)%Z ->
  save_rows b row n out = Ret (out ++ unlines (drop row (text b))).
Proof.
  intros W. induction n as [|n IH]; intros row out Hn Hs; cbn [save_rows].
  { rewrite drop_ge by (rewrite length_text by done; lia). by rewrite app_nil_r. }
  destruct (text_lookup b row W) as [l Hl]; [lia|]. destruct (text_len _ _ l W Hl) as (-> & Ll & _). cbn [mbind outcome_mbind]. unfold MAX_LINE_LEN in Ll.
  rewrite (save_cols_ok b row l W Hl) by lia. cbn [mbind outcome_mbind]. rewrite drop_0, (take_ge l) by lia. rewrite (drop_S _ l row) by done.
  destruct (row + 1 <? num_lines b) eqn:E; bool_simpl.
  - unfold save_push. rewrite (proj2 (Z.ltb_lt _ _)) by (rewrite length_app; lia). rewrite IH by (rewrite ?length_app; cbn [length]; lia).
    rewrite unlines_cons; [by rewrite <- !(assoc_L (++))|]. intros Hd. apply (f_equal length) in Hd. rewrite length_drop, length_text in Hd by done. cbn in Hd. lia.
  - assert (n = 0) as -> by lia. cbn [save_rows]. rewrite drop_ge by (rewrite length_text by done; lia). done.
Qed.

Lemma saved_text b : wf b -> save_rows b 0 (num_lines b) [] = Ret (unlines (text b)).
Proof. intros W. pose proof (wf_num b W) as Hn. unfold MAX_LINES in Hn. rewrite save_rows_ok by (done || (unfold SAVE_MAX; cbn [length]; lia)). done. Qed.

Definition no_line_end (t : list (list Z)) : Prop := Forall (fun l => 10%Z ∉ l) t.
Lemma split_unlines t : no_line_end t -> t <> [] -> split 10 (unlines t) = t.
Proof.
  induction t as [|l t IH]; intros Ht Hne; [done|]. inversion_clear Ht as [|? ? Hl Ht']. destruct t as [|l2 t]; [by apply split_no_sep|].
  change (unlines (l :: l2 :: t)) with (l ++ 10%Z :: unlines (l2 :: t)). rewrite split_sep, IH by done. by rewrite split_no_sep.
Qed.

(** ** Too many lines *)

Lemma save_rows_panic b : forall n row out, length (line_lens b) < row + n -> save_rows b row n out = Panic \/ n = 0.
Proof.
  induction n as [|n IH]; intros row out Hn; [by right|]. left. cbn [save_rows]. destruct (idx (line_lens b) row) as [len|] eqn:E; [|done]. cbn [mbind outcome_mbind].
  destruct (save_cols b row 0 len out) as [out'|]; [|done]. cbn [mbind outcome_mbind]. apply idx_Ret, lookup_lt_Some in E.
  destruct (IH (S row) (if row + 1 <? num_lines b then save_push 10 out' else out')) as [->|]; [lia|done|lia].
Qed.
Lemma fill_panic {A} (x : A) n : forall a from, length a < from + n -> fill x a from n = Panic \/ n = 0.
Proof.
  induction n as [|n IH]; intros a from Hn; [by right|]. left. cbn [fill]. destruct (set_idx a from x) as [a'|] eqn:E; [|done]. cbn [mbind outcome_mbind].
  apply set_idx_Ret in E as [Hlt ->]. destruct (IH (<[from := x]> a) (S from)) as [->|]; [rewrite length_insert; lia|done|lia].
Qed.

Section World.
Context {D : Type} `{BlockDevice D}.
Implicit Types w : World (D := D).

(** The path in the input bar. *)
Definition bar_path (a : NotepadApp) : list Z := take (bar_len (bar a)) (bar_text (bar a)).

Lemma open_key w data : bar_mode (bar (app w)) = Open -> wf (buf (app w)) -> named (app w) -> 0 < bar_len (bar (app w)) ->
  utf8_valid (bar_path (app w)) = true -> is_disk_path (bar_path (app w)) = false -> load_from_ram (bar_path (app w)) (files w) = Ret (Some data) ->
  exists a', load_data data (app w) = Ret a' /\
    key_event 13 w = Ret (true, set_app w (set_bar a' (set_input (set_mode (bar (app w)) NoBar) (bar_text (bar (app w))) 0))).
Proof.
  intros B W N L U P F. destruct (load_data_ok data (app w) W N) as (a' & E & Ba & _). exists a'. split; [done|]. unfold key_event. rewrite bool_decide_eq_false_2 by (by rewrite B).
  unfold bar_key. cbn [Z.eqb Pos.eqb orb]. rewrite B. unfold do_open, open_file. rewrite (proj2 (Nat.eqb_neq _ _)) by lia. destruct N as [N1 N2 N3 N4]. rewrite slice_le by lia.
  cbn [mbind outcome_mbind]. rewrite drop_0, Nat.sub_0_r. fold (bar_path (app w)). rewrite U. cbn [negb]. rewrite P, F. cbn [mbind outcome_mbind]. rewrite E. done.
Qed.

(** C39: A file of more than 1024 lines aborts the kernel: the editor opens it, counting 1025 lines for
    its arrays of 1024, and then selecting all, saving, or a new file indexes out of range. *)
Theorem a_long_file_aborts_the_kernel w data (B : bar_mode (bar (app w)) = Open) (W : wf (buf (app w))) (N : named (app w)) (L : 0 < bar_len (bar (app w)))
    (U : utf8_valid (bar_path (app w)) = true) (P : is_disk_path (bar_path (app w)) = false) (F : load_from_ram (bar_path (app w)) (files w) = Ret (Some data))
    (M : MAX_LINES < length (split 10 data)) :
  returns (process_input true [13%Z] w) = true /\ forall ev, ev ∈ [0x01; 0x13; 0x0E]%Z -> process_input true [13%Z; ev] w = Panic.
Proof.
  destruct (open_key w data B W N L U P F) as (a' & E & K). destruct (load_data_ok data (app w) W N) as (a & E' & Ba & Fl & Fn & Fb & Ll & Nl & _).
  rewrite E in E'. injection E' as <-. rewrite Nat.min_r in Nl by lia. unfold process_input. cbn [negb process_events]. rewrite K. cbn [mbind outcome_mbind]. split; [done|].
  set (a1 := set_bar a' _). intros ev. rewrite !elem_of_cons, elem_of_nil. unfold key_event. rewrite bool_decide_eq_true_2 by done. cbn [app set_app]. intros [->|[->|[->|[]]]].
  - change (editor_key 0x01 (set_app w a1)) with (let! w := on_app (set_app w a1) select_all in Ret (true, w)). unfold on_app, select_all. cbn [app set_app buf set_sel].
    change (buf a1) with (buf a'). rewrite Nl. cbn [Nat.ltb Nat.leb]. destruct (idx (line_lens (buf a')) (S MAX_LINES - 1)) as [x|] eqn:Ei; [|done].
    apply idx_Ret, lookup_lt_Some in Ei. lia.
  - change (editor_key 0x13 (set_app w a1)) with (let! w := do_save (set_app w a1) in Ret (true, w)). unfold do_save, save. cbn [app set_app]. change (buf a1) with (buf a').
    rewrite Fl, (proj2 (Nat.eqb_neq _ _)) by lia. cbn [mbind outcome_mbind]. destruct N as [N1 N2 N3 N4]. rewrite Fl, slice_le by lia. cbn [mbind outcome_mbind].
    rewrite drop_0, Nat.sub_0_r, Fn. fold (bar_path (app w)). rewrite U. cbn [negb]. destruct (save_rows_panic (buf a') (num_lines (buf a')) 0 []) as [->|]; [lia|done|lia].
  - change (editor_key 0x0E (set_app w a1)) with (let! w := on_app (set_app w a1) new_file in Ret (true, w)). unfold on_app, new_file. cbn [app set_app]. change (buf a1) with (buf a').
    destruct (fill_panic 0 (num_lines (buf a')) (line_lens (buf a')) 0) as [->|]; [lia|done|lia].
Qed.

(** ** Saving and opening *)

Definition printable (x : Z) : Prop := (32 <= x < 127)%Z.
Lemma utf8_printable xs : Forall printable xs -> utf8_valid xs = true.
Proof. induction 1 as [|x xs Hx _ IH]; [done|]. cbn [utf8_valid]. unfold printable in Hx. by rewrite (proj2 (Z.leb_le x 0x7F)) by lia. Qed.

(** The name of the file. *)
Definition file_name (a : NotepadApp) : list Z := take (filename_len (buf a)) (filename (buf a)).
Definition saved w (f : ramfs.RamFs) : World (D := D) := mkWorld (set_buf (app w) (set_dirty (buf (app w)) false)) (clipboard w) (vfs.set_ram (files w) (Some f)).

Lemma save_key w f r f1 i n : bar_mode (bar (app w)) = NoBar -> wf (buf (app w)) -> named (app w) -> 0 < filename_len (buf (app w)) ->
  Forall printable (file_name (app w)) -> is_disk_path (file_name (app w)) = false -> vfs.ram (files w) = Some f ->
  ramfs.create_file (file_name (app w)) f = Ret (r, f1) -> ramfs.resolve f1 (file_name (app w)) = Some i -> ramfs.inodes f1 !! i = Some n ->
  key_event 0x13 w = Ret (true, saved w (ramfs.mkRamFs (<[i := ramfs.set_data n (unlines (text (buf (app w))))]> (ramfs.inodes f1)))).
Proof.
  intros B W [N1 N2 N3 N4] L U P F C I J. unfold key_event. rewrite bool_decide_eq_true_2 by done. change (editor_key 0x13 w) with (let! w := do_save w in Ret (true, w)).
  unfold do_save, save. rewrite (proj2 (Nat.eqb_neq _ _)) by lia. cbn [mbind outcome_mbind]. rewrite slice_le by lia. cbn [mbind outcome_mbind]. rewrite drop_0, Nat.sub_0_r.
  fold (file_name (app w)). rewrite utf8_printable by done. cbn [negb]. rewrite saved_text by done. cbn [mbind outcome_mbind]. rewrite P. unfold save_to_ram. rewrite F, C. cbn [mbind outcome_mbind].
  rewrite I, (proj2 (idx_Ret _ _ _) J). cbn [mbind outcome_mbind]. done.
Qed.

Lemma resolve_set_data f i n d path : ramfs.inodes f !! i = Some n -> ramfs.resolve (ramfs.mkRamFs (<[i := ramfs.set_data n d]> (ramfs.inodes f))) path = ramfs.resolve f path.
Proof.
  intros Hn. unfold ramfs.resolve. destruct (_ || _); [done|]. generalize (split ramfs.SLASH (if starts_with path [ramfs.SLASH] then drop 1 path else path)). intros cs.
  generalize 0. induction cs as [|c cs IH]; intros k; cbn [ramfs.resolve_loop]; [done|]. destruct c as [|x c]; [apply IH|]. rewrite ramfs.find_child_set_data by done.
  destruct (ramfs.find_child f k (x :: c)); [apply IH|done].
Qed.

(** Characters typed into the bar that asks for a file. *)
Lemma type_in_bar xs : forall c w, Forall printable xs -> bar_mode (bar (app w)) = Open -> length (bar_text (bar (app w))) = 64 -> bar_len (bar (app w)) + length xs <= 63 ->
  exists c', process_events c xs w = Ret (c', set_app w (set_bar (app w) (set_input (bar (app w)) (splice (bar_text (bar (app w))) (bar_len (bar (app w))) xs) (bar_len (bar (app w)) + length xs)))).
Proof.
  induction xs as [|x xs IH]; intros c w Hx B L Hl; cbn [process_events length].
  { exists c. rewrite splice_nil, Nat.add_0_r. by destruct w as [[? ? ? ? [] ? ? ? ? ? ? ?] ? ?]. }
  inversion_clear Hx as [|? ? Hx1 Hx2]. unfold printable in Hx1. cbn [length] in Hl. unfold key_event at 1. rewrite bool_decide_eq_false_2 by (by rewrite B). unfold bar_key.
  rewrite !(proj2 (Z.eqb_neq _ _)) by lia. cbn [orb]. rewrite (proj2 (Z.leb_le _ _)), (proj2 (Z.ltb_lt _ _)) by lia. cbn [andb]. rewrite (proj2 (Nat.ltb_lt _ _)) by lia.
  rewrite set_idx_lt by lia. cbn [mbind outcome_mbind bar_mode set_input]. rewrite B. rewrite (bool_decide_eq_false_2 (Open = Find)) by done. cbn [mbind outcome_mbind].
  destruct (IH true (set_app w (set_bar (app w) (set_input (bar (app w)) (<[bar_len (bar (app w)) := x]> (bar_text (bar (app w)))) (bar_len (bar (app w)) + 1))))) as (c' & E).
  { done. } { done. } { cbn. by rewrite length_insert. } { cbn. lia. }
  exists c'. rewrite E. cbn [app set_app bar set_bar bar_text bar_len set_input]. rewrite splice_insert_cons by lia. rewrite <- Nat.add_assoc. done.
Qed.

(** C38: A saved text opens again: saving a text to a file of the
    in-memory filesystem and opening that file, by typing its name, gives the same lines. *)
Theorem a_saved_text_opens_again w f r f1 i n (R : ready w) (M : named (app w)) (L : 0 < filename_len (buf (app w))) (U : Forall printable (file_name (app w)))
    (P : is_disk_path (file_name (app w)) = false) (F : vfs.ram (files w) = Some f) (C : ramfs.create_file (file_name (app w)) f = Ret (r, f1))
    (I : ramfs.resolve f1 (file_name (app w)) = Some i) (J : ramfs.inodes f1 !! i = Some n) (T : no_line_end (dtext (ed (view w)))) :
  exists c w', process_input true ([0x13; 0x0F]%Z ++ file_name (app w) ++ [13%Z]) w = Ret (c, w') /\ ready w' /\ dtext (ed (view w')) = dtext (ed (view w)).
Proof.
  pose proof R as [[[W O] (us & rs & Hh) Gs] Rc Rb]. pose proof M as [M1 M2 M3 M4]. unfold process_input. cbn [negb Datatypes.app process_events].
  rewrite (save_key w f r f1 i n) by done. cbn [mbind outcome_mbind]. set (bytes := unlines (text (buf (app w)))). set (f2 := ramfs.mkRamFs _).
  unfold key_event at 1. rewrite bool_decide_eq_true_2 by done. change (editor_key 0x0F (saved w f2)) with (Ret (true, set_app (saved w f2) (open_bar (app (saved w f2))))). cbn [mbind outcome_mbind].
  set (w1 := set_app (saved w f2) (open_bar (app (saved w f2)))). assert (length (file_name (app w)) = filename_len (buf (app w))) as Ln by (unfold file_name; rewrite length_take; lia).
  assert (forall xs ys c v, process_events (D := D) c (xs ++ ys) v = let! (c, v) := process_events c xs v in process_events c ys v) as Happ.
  { induction xs as [|x xs IH]; intros ys c v; cbn [Datatypes.app process_events mbind outcome_mbind]; [done|]. destruct (key_event x v) as [[c1 v1]|]; [|done]. cbn [mbind outcome_mbind]. apply IH. }
  rewrite Happ. destruct (type_in_bar (file_name (app w)) true w1) as (c2 & ->); [done|done|done|rewrite Ln; cbn; lia|]. cbn [mbind outcome_mbind process_events].
  set (w2 := set_app w1 _). assert (bar_path (app w2) = file_name (app w)) as Hp.
  { unfold bar_path. cbn [bar app w2 set_app set_bar set_input bar_len bar_text]. rewrite take_splice; [done|apply Nat.le_0_l|done]. }
  destruct (open_key w2 bytes) as (a' & E & ->).
  - done.
  - by apply wf_dirty.
  - split; cbn [w2 w1 app set_app set_bar open_bar set_buf buf bar set_input set_mode filename filename_len bar_text bar_len saved set_dirty]; [done|done| |rewrite Ln; lia].
    rewrite length_splice; rewrite length_replicate; [done|rewrite Ln; lia].
  - cbn [w2 w1 app set_app set_bar bar set_input bar_len open_bar]. lia.
  - rewrite Hp. by apply utf8_printable.
  - by rewrite Hp.
  - rewrite Hp. unfold load_from_ram. cbn [w2 w1 files set_app saved vfs.ram vfs.set_ram]. unfold f2. rewrite resolve_set_data by done. rewrite I. cbn [ramfs.inodes].
    rewrite (proj2 (idx_Ret _ i _) (list_lookup_insert_eq _ i _ (lookup_lt_Some _ _ _ J))). done.
  - cbn [mbind outcome_mbind]. eexists _, _. split; [done|]. destruct (load_data_ok bytes (app w2)) as (a & E' & Ba & _ & _ & _ & _ & _ & Hd & Ha & Hhist).
    { by apply wf_dirty. }
    { split; cbn [w2 w1 app set_app set_bar open_bar set_buf buf bar set_input set_mode filename filename_len bar_text bar_len saved set_dirty]; [done|done| |rewrite Ln; lia].
      rewrite length_splice; rewrite length_replicate; [done|rewrite Ln; lia]. }
    rewrite E in E'. injection E' as <-. assert (text (buf (app w)) <> []) as Hne.
    { intros Hn. pose proof (length_text _ W) as Hl. rewrite Hn in Hl. pose proof (wf_num _ W). cbn in Hl. lia. }
    cbn [view ed dtext doc] in T. assert (split 10 bytes = text (buf (app w))) as Hs by (by apply split_unlines). destruct (text_ok_text _ W) as [Tn Tl]. rewrite Hs in Hd. destruct (Hd Tn) as [Wa Da].
    assert (take MAX_LINE_LEN <$> text (buf (app w)) = text (buf (app w))) as Hid.
    { rewrite <- (list_fmap_id (text (buf (app w)))) at 2. apply Forall_fmap_ext_1. eapply Forall_impl; [exact Tl|]. intros l Hl. cbn in Hl. by apply take_ge. }
    split; [split; [split|..]|].
    + split; [done|]. cbn [app set_app buf set_bar]. rewrite Da, Hid. destruct (text_lookup _ 0 W) as [l0 H0]; [pose proof (wf_num _ W); lia|]. exists l0. split; [done|cbn; lia].
    + exists [], []. by apply (Hhist us rs).
    + cbn [app set_app sel set_bar]. by rewrite Ha.
    + done.
    + done.
    + cbn [view ed app set_app buf set_bar]. rewrite Da. cbn [dtext]. by rewrite Hid.
Qed.
End World.

(** ** Searching *)

Definition occurs (t : list (list Z)) (q : list Z) (r c : nat) : Prop := exists l, t !! r = Some l /\ c + length q <= length l /\ take (length q) (drop c l) = q.
(** [(r, c)] is not before [(r0, c0)]. *)
Definition from (r0 c0 r c : nat) : Prop := r0 < r \/ (r0 = r /\ c0 <= c).
(** The first occurrence at [(r0, c0)] or behind it. *)
Definition first_from (t : list (list Z)) (q : list Z) (r0 c0 r c : nat) : Prop :=
  occurs t q r c /\ from r0 c0 r c /\ forall r' c', occurs t q r' c' -> from r0 c0 r' c' -> from r c r' c'.
Definition none_from (t : list (list Z)) (q : list Z) (r0 c0 : nat) : Prop := forall r c, occurs t q r c -> ~ from r0 c0 r c.

Lemma find_col_ok b q row l : wf b -> text b !! row = Some l -> forall n col, col + n <= S (length l - length q) -> length q <= length l -> exists o, find_col b q row col n = Ret o /\
  match o with
  | Some c => col <= c < col + n /\ occurs (text b) q row c /\ forall c', col <= c' < c -> ~ occurs (text b) q row c'
  | None => forall c', col <= c' < col + n -> ~ occurs (text b) q row c'
  end.
Proof.
  intros W Hl. destruct (text_line _ _ l W Hl) as (line & Eline & Lline & El). destruct (text_len _ _ l W Hl) as (_ & Ll & _).
  induction n as [|n IH]; intros col Hn Hq; cbn [find_col]; [exists None; split; [done|lia]|]. rewrite Eline. cbn [mbind outcome_mbind]. rewrite slice_le by lia. cbn [mbind outcome_mbind].
  assert (take (col + length q - col) (drop col line) = take (length q) (drop col l)) as ->.
  { replace (col + length q - col) with (length q) by lia. rewrite El at 1. rewrite skipn_firstn_comm, take_take. f_equal. lia. }
  case_bool_decide as Hc.
  - exists (Some col). split; [done|]. split; [lia|]. split; [by exists l; split; [done|]; split; [lia|]|lia].
  - assert (~ occurs (text b) q row col) as Hno by (intros (l' & Hl' & _ & Ht); congruence). destruct (IH (S col)) as (o & -> & Ho); [lia|done|]. exists o. split; [done|]. destruct o as [c|].
    + destruct Ho as (H1 & H2 & H3). split; [lia|]. split; [done|]. intros c' Hc'. destruct (decide (c' = col)) as [->|]; [done|]. apply H3. lia.
    + intros c' Hc'. destruct (decide (c' = col)) as [->|]; [done|]. apply Ho. lia.
Qed.

Lemma find_row_ok b q : wf b -> forall n row col, row + n = num_lines b -> exists o, find_row b q row col n = Ret o /\
  match o with Some (r, c) => first_from (text b) q row col r c | None => none_from (text b) q row col end.
Proof.
  intros W. induction n as [|n IH]; intros row col Hn; cbn [find_row].
  { exists None. split; [done|]. intros r c (l & Hl & _) Hf. apply text_rows in Hl. unfold from in Hf. lia. }
  destruct (text_lookup b row W) as [l Hl]; [lia|]. destruct (text_len _ _ l W Hl) as (-> & _). cbn [mbind outcome_mbind].
  assert (exists o, (if length q <=? length l then find_col b q row col (S (length l - length q) - col) else Ret None) = Ret o /\
    match o with Some c => col <= c /\ occurs (text b) q row c /\ forall c', col <= c' < c -> ~ occurs (text b) q row c' | None => forall c', col <= c' -> ~ occurs (text b) q row c' end) as (o & -> & Ho).
  { destruct (length q <=? length l) eqn:E; bool_simpl; [|exists None; split; [done|]; intros c' _ (l' & Hl' & Hc' & _); rewrite Hl in Hl'; injection Hl' as <-; lia].
    destruct (decide (col <= S (length l - length q))) as [Hcol|Hcol].
    - destruct (find_col_ok b q row l W Hl (S (length l - length q) - col) col) as (o & -> & Ho); [lia|done|]. exists o. split; [done|]. destruct o as [c|]; [destruct Ho as (? & ? & ?); split; [lia|done]|].
      intros c' Hc' Hocc. apply (Ho c'); [|done]. destruct Hocc as (l' & Hl' & Hle & _). rewrite Hl in Hl'. injection Hl' as <-. lia.
    - replace (S (length l - length q) - col) with 0 by lia. exists None. split; [done|]. intros c' Hc' (l' & Hl' & Hle & _). rewrite Hl in Hl'. injection Hl' as <-. lia. }
  cbn [mbind outcome_mbind]. destruct o as [c|].
  - exists (Some (row, c)). split; [done|]. destruct Ho as (H1 & H2 & H3). split; [done|]. split; [right; lia|]. intros r' c' Hocc [Hlt|[<- Hle]]; [by left|]. right. split; [done|].
    destruct (decide (c <= c')); [done|]. destruct (H3 c'); [lia|done].
  - destruct (IH (S row) 0) as (o & -> & Ho'); [lia|]. exists o. split; [done|]. destruct o as [[r c]|].
    + destruct Ho' as (H1 & H2 & H3). split; [done|]. split; [unfold from in *; lia|]. intros r' c' Hocc Hf. apply H3; [done|]. destruct Hf as [Hlt|[<- Hle]]; [unfold from; lia|]. by destruct (Ho c').
    + intros r c Hocc [Hlt|[<- Hle]]; [|by apply (Ho c)]. apply (Ho' r c); [done|]. unfold from. lia.
Qed.

(** The words that the bar holds, and the place behind the current match. *)
Definition query (a : NotepadApp) : list Z := bar_path a.
Definition next_place (r : Bar) : nat * nat := if find_has_match r then (find_match_row r, find_match_col r + 1) else (0, 0).

Lemma find_start_ok b r q : wf b -> length q = bar_len r -> (find_has_match r = true -> find_match_row r < MAX_LINES) -> exists sr sc, find_start b r = Ret (sr, sc) /\
  forall r' c', occurs (text b) q r' c' -> from sr sc r' c' <-> from (next_place r).1 (next_place r).2 r' c'.
Proof.
  intros W Lq Hm. unfold find_start, next_place. destruct (find_has_match r); [|by exists 0, 0]. specialize (Hm eq_refl). destruct (idx_lt (line_lens b) (find_match_row r)) as (len & -> & Hlen); [destruct W; lia|].
  cbn [mbind outcome_mbind]. destruct (len <? find_match_col r + 1 + bar_len r) eqn:E; bool_simpl; [|by eexists _, _]. eexists _, _. split; [done|]. cbn [fst snd]. intros r' c' (l & Hl & Hc & _).
  split; unfold from; [lia|]. intros [?|[<- Hle]]; [lia|]. destruct (text_len _ _ l W Hl) as (Hl' & _). apply idx_Ret in Hl'. rewrite Hlen in Hl'. injection Hl' as ->. lia.
Qed.

(** Searching goes to the next occurrence: the first one behind the current match, or, when
    there is none, the first of the text; the cursor stays when the text has none. *)
Theorem search_goes_to_the_next_match a (G : good a) (L : length (bar_text (bar a)) = 64) (B : 0 < bar_len (bar a) <= 64)
    (M : find_has_match (bar a) = true -> find_match_row (bar a) < MAX_LINES) :
  exists a', find_next a = Ret a' /\ good_buf (buf a') /\ text (buf a') = text (buf a) /\
    let '(r, c) := (cursor_row (buf a'), cursor_col (buf a')) in let '(r0, c0) := next_place (bar a) in
    (find_has_match (bar a') = true /\ find_match_row (bar a') = r /\ find_match_col (bar a') = c /\
      (first_from (text (buf a)) (query a) r0 c0 r c \/ (none_from (text (buf a)) (query a) r0 c0 /\ first_from (text (buf a)) (query a) 0 0 r c))) \/
    (find_has_match (bar a') = false /\ doc (buf a') = doc (buf a) /\ forall r' c', ~ occurs (text (buf a)) (query a) r' c').
Proof.
  pose proof G as [Gb _ _]. pose proof Gb as [W O]. unfold find_next. rewrite (proj2 (Nat.eqb_neq _ _)) by lia. rewrite slice_le by lia. cbn [mbind outcome_mbind]. rewrite drop_0, Nat.sub_0_r.
  fold (bar_path a) (query a). assert (length (query a) = bar_len (bar a)) as Lq by (unfold query, bar_path; rewrite length_take; lia).
  destruct (find_start_ok (buf a) (bar a) (query a) W Lq M) as (sr & sc & -> & Hs). cbn [mbind outcome_mbind]. set (t := text (buf a)) in *. set (q := query a) in *.
  assert (exists o1, find_row (buf a) q sr sc (num_lines (buf a) - sr) = Ret o1 /\ match o1 with Some (r, c) => first_from t q sr sc r c | None => none_from t q sr sc end) as (o1 & -> & H1).
  { destruct (decide (sr <= num_lines (buf a))) as [Hle|Hgt]; [apply (find_row_ok (buf a) q W); lia|]. replace (num_lines (buf a) - sr) with 0 by lia. exists None. split; [done|].
    intros r c (l & Hl & _) Hf. apply text_rows in Hl. unfold from in Hf. lia. }
  cbn [mbind outcome_mbind]. destruct (find_row_ok (buf a) q W (num_lines (buf a)) 0 0) as (o2 & E2 & H2); [done|].
  assert (forall r c, first_from t q sr sc r c <-> first_from t q (next_place (bar a)).1 (next_place (bar a)).2 r c) as Hff by (intros; unfold first_from; set_solver).
  assert (none_from t q sr sc <-> none_from t q (next_place (bar a)).1 (next_place (bar a)).2) as Hnf by (unfold none_from; set_solver).
  assert (exists o, (match o1 with Some m => Ret (Some m) | None => if (sr =? 0) && (sc =? 0) then Ret None else find_row (buf a) q 0 0 (num_lines (buf a)) end) = Ret o /\
    match o with Some (r, c) => first_from t q (next_place (bar a)).1 (next_place (bar a)).2 r c \/ (none_from t q (next_place (bar a)).1 (next_place (bar a)).2 /\ first_from t q 0 0 r c) | None => none_from t q 0 0 end) as (o & -> & Ho).
  { destruct o1 as [[r c]|]; [exists (Some (r, c)); split; [done|]; left; by apply Hff|]. destruct ((sr =? 0) && (sc =? 0)) eqn:E0; bool_simpl; [subst; by exists None|]. exists o2. split; [done|].
    destruct o2 as [[r c]|]; [right; split; [by apply Hnf|done]|done]. }
  cbn [mbind outcome_mbind]. destruct (next_place (bar a)) as [r0 c0]. cbn [fst snd] in Ho. destruct o as [[r c]|].
  - assert (in_text t r c) as Hin by (destruct Ho as [((l & ? & ? & _) & _)|[_ ((l & ? & ? & _) & _)]]; exists l; split; (done || lia)).
    destruct (move_ok (buf a) r c W Hin) as (Gm & Dm & Tm). eexists. split; [done|]. split; [done|]. split; [done|]. cbn [buf bar set_buf set_bar set_match find_has_match find_match_row find_match_col].
    injection Dm as _ Er Ec. rewrite Er, Ec. left. done.
  - eexists. split; [done|]. split; [done|]. split; [done|]. right. split; [done|]. split; [done|]. intros r' c' Hocc. apply (Ho r' c' Hocc). unfold from. lia.
Qed.

(** ** A small text *)

Definition typed (evs : list Z) : World := match process_input true evs start with Ret (_, w) => w | Panic => start end.
Lemma typed_ready evs : Forall (.∉ other_keys) evs -> ready (typed evs).
Proof. intros H. destruct (presses_ok evs false start start_ready H) as (c & w & E & R & _). unfold typed, process_input. cbn [negb]. by rewrite E. Qed.

(** The bar asks for [path]; the in-memory file /long has 1024 line ends. *)
Definition long_bytes : list Z := replicate MAX_LINES 10%Z.
Definition long_files : vfs.Files RamDisk :=
  match save_to_ram (str "/long") long_bytes no_files with Ret v => v | Panic => no_files end.
Definition asking (path : list Z) (v : vfs.Files RamDisk) : World :=
  mkWorld (set_bar app0 (mkBar Open (splice (replicate 64 0%Z) 0 path) (length path) 0 0 false)) empty_clip v.

Lemma a_long_file_aborts_the_kernel_witness :
  returns (process_input true [13%Z] (asking (str "/long") long_files)) = true /\
  forall ev, ev ∈ [0x01; 0x13; 0x0E]%Z -> process_input true [13%Z; ev] (asking (str "/long") long_files) = Panic.
Proof.
  apply (a_long_file_aborts_the_kernel _ long_bytes).
  - reflexivity.
  - exact (proj1 (g_buf _ (r_app _ start_ready))).
  - split; [reflexivity|change (0 <= 63); lia|reflexivity|change (5 <= 63); lia].
  - change (0 < 5). lia.
  - vm_compute. reflexivity.
  - vm_compute. reflexivity.
  - vm_compute. reflexivity.
  - replace (length (split 10 long_bytes)) with (S MAX_LINES) by (vm_compute; reflexivity). lia.
Defined.

(** The text AB, C, to be saved as /t. *)
Definition rename (w : World (D := RamDisk)) (path : list Z) : World :=
  set_app w (set_buf (app w) (set_filename (buf (app w)) (splice (replicate 64 0%Z) 0 path) (length path))).
Lemma rename_ready w path : ready w -> ready (rename w path).
Proof. intros [[[W O] Gh Gs] Rc Rb]. split; [split|done|done]; [|done|done]. split; [|done]. destruct W. by split. Qed.
Definition draft : World := rename (typed [65; 66; 10; 67]%Z) (str "/t").
Definition created : ramfs.RamFs := match ramfs.create_file (str "/t") fd_spec.hello with Ret (_, f) => f | Panic => fd_spec.hello end.
Definition created_node : ramfs.INode := default (ramfs.mkINode [] 0 ramfs.Directory [] 0 0 0) (ramfs.inodes created !! 2).

Lemma a_saved_text_opens_again_witness :
  exists c w', process_input true ([0x13; 0x0F]%Z ++ file_name (app draft) ++ [13%Z]) draft = Ret (c, w') /\ ready w' /\ dtext (ed (view w')) = dtext (ed (view draft)).
Proof.
  apply (a_saved_text_opens_again draft fd_spec.hello (Ok 2) created 2 created_node).
  - apply rename_ready, typed_ready. apply (bool_decide_unpack _). vm_compute. exact I.
  - split; [vm_compute; reflexivity|replace (filename_len (buf (app draft))) with 2 by (vm_compute; reflexivity); lia|vm_compute; reflexivity|
      replace (bar_len (bar (app draft))) with 0 by (vm_compute; reflexivity); lia].
  - replace (filename_len (buf (app draft))) with 2 by (vm_compute; reflexivity). lia.
  - replace (file_name (app draft)) with [47; 116]%Z by (vm_compute; reflexivity). repeat constructor; unfold printable; lia.
  - vm_compute. reflexivity.
  - vm_compute. reflexivity.
  - vm_compute. reflexivity.
  - vm_compute. reflexivity.
  - vm_compute. reflexivity.
  - unfold no_line_end. apply (bool_decide_unpack _). vm_compute. exact I.
Defined.

(** The text ABAB with the bar searching AB, found at its start. *)
Definition searching : NotepadApp :=
  set_bar (app (typed [65; 66; 65; 66]%Z)) (mkBar Find (splice (replicate 64 0%Z) 0 [65; 66]%Z) 2 0 0 true).

Lemma good_set_bar a r : good a -> good (set_bar a r).
Proof. intros [Gb Gh Gs]. by split. Qed.

Lemma search_goes_to_the_next_match_witness :
  exists a', find_next searching = Ret a' /\ good_buf (buf a') /\ text (buf a') = text (buf searching) /\
    let '(r, c) := (cursor_row (buf a'), cursor_col (buf a')) in let '(r0, c0) := next_place (bar searching) in
    (find_has_match (bar a') = true /\ find_match_row (bar a') = r /\ find_match_col (bar a') = c /\
      (first_from (text (buf searching)) (query searching) r0 c0 r c \/
       (none_from (text (buf searching)) (query searching) r0 c0 /\ first_from (text (buf searching)) (query searching) 0 0 r c))) \/
    (find_has_match (bar a') = false /\ doc (buf a') = doc (buf searching) /\ forall r' c', ~ occurs (text (buf searching)) (query searching) r' c').
Proof.
  apply (search_goes_to_the_next_match searching).
  - apply good_set_bar, r_app, typed_ready. apply (bool_decide_unpack _). vm_compute. exact I.
  - reflexivity.
  - change (0 < 2 <= 64). lia.
  - intros _. change (0 < MAX_LINES). unfold MAX_LINES. lia.
Defined.
End notepad_files.
