(* ===== verification/Dns.v ===== *)
(** * The name resolver (kernel/src/kernel/drivers/net/dns.rs)

    Module [dns] translates the resolver: the query packet, the parser of replies, dotted
    addresses and the poll that system calls repeat. The network stack (the smoltcp crate and
    the card behind it) is the class [UdpNet]; all that is assumed of it is that a datagram is a
    list of bytes that fits the receive buffer. DnsSpec.v holds the theorems. *)

From stdpp Require Import base list gmap strings list_numbers.
From Stdlib Require Import ZArith Lia.
From S2P Require Import Prelude.

Local Open Scope Z_scope.

(** Sockets for datagrams: whether the network is up, the clock, a bound socket (unless binding
    fails), sending, one round of the interface, receiving, and removal. What is received is a
    slice of bytes of the socket's receive buffer, which holds 512. *)
Class UdpNet (N : Type) := {
  net_up : N -> bool;
  timestamp_millis : N -> Z;
  udp_bind : Z -> N -> option (Z * N);
  udp_send : Z -> list Z -> list Z * Z -> N -> bool * N;
  iface_poll : N -> N;
  udp_recv : Z -> N -> option (list Z) * N;
  socket_remove : Z -> N -> N;
  udp_recv_fits : forall h n data n', udp_recv h n = (Some data, n') -> Forall is_byte data /\ (length data <= 512)%nat;
}.

Module dns.

(** ** Packets *)

(** [buf[pos] = x] *)
Definition put_byte (x : Z) (st : nat * list Z) : outcome (nat * list Z) :=
  let '(pos, b) := st in let! b := set_idx b pos x in Ret (S pos, b).
(* @src drivers/net/dns.rs 177-183 build_query (segment) *)
Definition put_label (seg : list Z) (st : nat * list Z) : outcome (nat * list Z) :=
  match seg with
  | [] => Ret st
  | _ => let! (pos, b) := put_byte (wrap 8 (Z.of_nat (length seg))) st in let! b := copy_at b pos seg in Ret ((pos + length seg)%nat, b)
  end.
(** The positions from [i] on; [start] is where the segment begins. *)
(* @src drivers/net/dns.rs 174-186 build_query (loop) *)
Fixpoint put_labels (hostname : list Z) (start i n : nat) (st : nat * list Z) : outcome (nat * list Z) :=
  match n with
  | O => Ret st
  | S n' =>
    let! end_of_seg := (if (i =? length hostname)%nat then Ret true else let! c := idx hostname i in Ret (c =? 46)) in
    if end_of_seg : bool then
      let! seg := slice hostname start i in
      let! st := put_label seg st in
      put_labels hostname (S i) (S i) n' st
    else put_labels hostname start (S i) n' st
  end.
(* @src drivers/net/dns.rs 163-191 build_query *)
Definition build_query (hostname b : list Z) : outcome (nat * list Z) :=
  let! b := copy_at b 0 [0xAB; 0xCD; 0x01; 0x00; 0x00; 0x01; 0x00; 0x00; 0x00; 0x00; 0x00; 0x00] in
  let! st := put_labels hostname 0 0 (S (length hostname)) (12%nat, b) in
  let! st := put_byte 0 st in
  let! st := put_byte 0 st in
  let! st := put_byte 1 st in
  let! st := put_byte 0 st in
  put_byte 1 st.

(** A turn for each byte of the packet, and one more. *)
(* @src drivers/net/dns.rs 223-229 skip_name (loop) *)
Fixpoint skip_loop (fuel : nat) (data : list Z) (pos : Z) : outcome (option Z) :=
  match fuel with
  | O => Panic
  | S fuel' =>
    if Z.of_nat (length data) <=? pos then Ret None
    else
      let! len := idx data (Z.to_nat pos) in
      if len =? 0 then let! p := cadd u64_max pos 1 in Ret (Some p)
      else if Z.land len 0xC0 =? 0xC0 then let! p := cadd u64_max pos 2 in Ret (Some p)
      else let! p := cadd u64_max pos (1 + len) in skip_loop fuel' data p
  end.
(* @src drivers/net/dns.rs 222-230 skip_name *)
Definition skip_name (data : list Z) (pos : Z) : outcome (option Z) := skip_loop (S (length data)) data pos.

(** [u16::from_be_bytes([data[pos], data[pos + 1]])] *)
Definition be16 (data : list Z) (pos : Z) : outcome Z :=
  let! a := idx data (Z.to_nat pos) in let! b := idx data (Z.to_nat (pos + 1)) in Ret (a * 256 + b).
(* @src drivers/net/dns.rs 208-219 parse_response (loop) *)
Fixpoint answers (n : nat) (data : list Z) (pos : Z) : outcome (option (list Z)) :=
  match n with
  | O => Ret None
  | S n' =>
    let! p := skip_name data pos in
    match p with
    | None => Ret None
    | Some pos =>
      let! e := cadd u64_max pos 10 in
      if Z.of_nat (length data) <? e then Ret None
      else
        let! rtype := be16 data pos in
        let! rdlen := be16 data (pos + 8) in
        let pos := e in
        let! found := (if (rtype =? 1) && (rdlen =? 4) then let! e := cadd u64_max pos 4 in Ret (e <=? Z.of_nat (length data)) else Ret false) in
        if found : bool then
          let! a := idx data (Z.to_nat pos) in
          let! b := idx data (Z.to_nat (pos + 1)) in
          let! c := idx data (Z.to_nat (pos + 2)) in
          let! d := idx data (Z.to_nat (pos + 3)) in
          Ret (Some [a; b; c; d])
        else let! pos := cadd u64_max pos rdlen in answers n' data pos
    end
  end.
(* @src drivers/net/dns.rs 195-220 parse_response *)
Definition parse_response (data : list Z) : outcome (option (list Z)) :=
  if Z.of_nat (length data) <? 12 then Ret None
  else
    let! flags := be16 data 2 in
    if Z.land flags 0x8000 =? 0 then Ret None
    else if negb (Z.land flags 0x000F =? 0) then Ret None
    else
      let! ancount := be16 data 6 in
      if ancount =? 0 then Ret None
      else
        let! p := skip_name data 12 in
        match p with
        | None => Ret None
        | Some pos => let! pos := cadd u64_max pos 4 in answers (Z.to_nat ancount) data pos
        end.

(** ** Dotted addresses *)

Definition is_digit (b : Z) : bool := (48 <=? b) && (b <=? 57).
(** [done] are the octets before the current one. *)
(* @src drivers/net/dns.rs 239-250 parse_ipv4 (loop) *)
Fixpoint octets (s : list Z) (done : list Z) (cur : Z) (has_digit : bool) : option (list Z * Z * bool) :=
  match s with
  | [] => Some (done, cur, has_digit)
  | b :: s' =>
    if b =? 46 then
      if negb has_digit || (3 <=? length done)%nat then None else octets s' (done ++ [wrap 8 cur]) 0 false
    else if is_digit b then
      let cur := cur * 10 + (b - 48) in
      if 255 <? cur then None else octets s' done cur true
    else None
  end.
(* @src drivers/net/dns.rs 234-254 parse_ipv4 *)
Definition parse_ipv4 (s : list Z) : option (list Z) :=
  match octets s [] 0 false with
  | None => None
  | Some (done, cur, has_digit) => if negb has_digit || negb (length done =? 3)%nat then None else Some (done ++ [wrap 8 cur])
  end.

(** ** The resolver *)

(* @src drivers/net/dns.rs 40-40 DNS_PORT *)
Definition DNS_PORT : Z := 53.
(* @src drivers/net/dns.rs 41-41 MAX_POLLS *)
Definition MAX_POLLS : Z := 300.
(* @src drivers/net/dns.rs 43-49 GlobalDns *)
Record GlobalDns := mkDns { active : bool; handle : option Z; hostname : list Z; hostname_len : nat; polls : Z }.
(* @src drivers/net/dns.rs 52-58 GDNS *)
Definition GDNS : GlobalDns := mkDns false None (replicate 253 0) 0 0.
Definition set_active (g : GlobalDns) a : GlobalDns := mkDns a (handle g) (hostname g) (hostname_len g) (polls g).
Definition set_handle (g : GlobalDns) h : GlobalDns := mkDns (active g) h (hostname g) (hostname_len g) (polls g).
Definition set_polls (g : GlobalDns) n : GlobalDns := mkDns (active g) (handle g) (hostname g) (hostname_len g) n.
(** [i64::from(u32::from_le_bytes(ip))] *)
Definition packed (ip : list Z) : Z := le_decode ip.

Section Resolver.
Context {N : Type} `{UdpNet N}.
Implicit Types g : GlobalDns.
Implicit Types n : N.

Definition drop_socket (o : option Z) (n : N) : N := match o with Some h => socket_remove h n | None => n end.

(** The query for a new name; [None] when it could not be sent. *)
(* @src drivers/net/dns.rs 77-123 poll_once (start) *)
Definition start_query (host dns_ip : list Z) (g : GlobalDns) (n : N) : outcome (bool * GlobalDns * N) :=
  let n := drop_socket (handle g) n in
  let g := set_handle g None in
  let local_port := 49152 + Z.land (wrap 16 (timestamp_millis n)) 0x3FFF in
  match udp_bind local_port n with
  | None => Ret (false, g, n)
  | Some (h, n) =>
    let! (qlen, pkt) := build_query host (replicate 512 0) in
    let! q := slice pkt 0 qlen in
    let (sent, n) := udp_send h q (dns_ip, DNS_PORT) n in
    if negb sent then Ret (false, g, socket_remove h n)
    else Ret (true, mkDns true (Some h) (splice (hostname g) 0 host) (length host) 0, n)
  end.

(* @src drivers/net/dns.rs 60-159 poll_once *)
Definition poll_once (host dns_ip : list Z) (g : GlobalDns) (n : N) : outcome (Z * GlobalDns * N) :=
  if negb (net_up n) then Ret (-105, g, n)
  else
    let same_host := active g && (hostname_len g =? length host)%nat && bool_decide (take (length host) (hostname g) = host) in
    let! (ok, g, n) := (if same_host then Ret (true, g, n) else start_query host dns_ip g n) in
    if negb (ok : bool) then Ret (-105, g, n)
    else
      let n := iface_poll n in
      let! k := cadd u32_max (polls g) 1 in
      let g := set_polls g k in
      match handle g with
      | None => Ret (-105, set_active g false, n)
      | Some h =>
        let (data, n) := udp_recv h n in
        let! ip := (match data with Some data => parse_response data | None => Ret None end) in
        match ip with
        | Some ip => Ret (packed ip, set_handle (set_active g false) None, socket_remove h n)
        | None =>
          if MAX_POLLS <=? polls g then Ret (-105, set_active (set_handle g None) false, socket_remove h n)
          else Ret (-6, g, n)
        end
      end.

(** [dns_ip] is what [stack::get_dns] gives. *)
(* @src drivers/net/dns.rs 23-33 resolve *)
Definition resolve (host dns_ip : list Z) (g : GlobalDns) (n : N) : outcome (Z * GlobalDns * N) :=
  if (length host =? 0)%nat || (253 <? length host)%nat then Ret (-105, g, n)
  else match parse_ipv4 host with Some ip => Ret (packed ip, g, n) | None => poll_once host dns_ip g n end.
End Resolver.
End dns.
