(* ===== verification/DnsSpec.v ===== *)
(** * The name resolver's guarantees

    Module [dns_spec] shows, of the operations of Dns.v, that no datagram aborts the kernel or
    makes the resolver read outside of it; that the query carries the name, label by label, and
    that a reply gives the first address among its records; that dotted addresses are read as
    they are written; and that whatever the network does a lookup ends within 300 polls. *)

From stdpp Require Import base list gmap strings list_numbers.
From Stdlib Require Import ZArith Lia.
From S2P Require Import Prelude Dns.

Local Open Scope Z_scope.

Module dns_spec.
Import dns.
Implicit Types (data host : list Z) (pos : Z).

(** ** Datagrams from the network *)

Definition packet data : Prop := Forall is_byte data /\ Z.of_nat (length data) < 65536.

Lemma packet_idx data pos : packet data -> 0 <= pos < Z.of_nat (length data) ->
  exists x, idx data (Z.to_nat pos) = Ret x /\ data !! Z.to_nat pos = Some x /\ 0 <= x < 256.
Proof.
  intros [Hb _] Hp. destruct (idx_lt data (Z.to_nat pos) ltac:(lia)) as (x & E & L).
  exists x. split_and!; [done..| |]; apply (Forall_lookup_1 _ _ _ _ Hb L).
Qed.

Lemma packet_be16 data pos : packet data -> 0 <= pos -> pos + 2 <= Z.of_nat (length data) ->
  exists x, be16 data pos = Ret x /\ 0 <= x < 65536.
Proof.
  intros Hd Hp Hl. unfold be16.
  destruct (packet_idx data pos Hd ltac:(lia)) as (a & -> & _ & Ha). destruct (packet_idx data (pos + 1) Hd ltac:(lia)) as (b & -> & _ & Hb).
  cbn [mbind outcome_mbind]. eexists. split; [done|lia].
Qed.

(** A name either runs out of the packet or ends at most one byte behind it; the fuel is never
    what stops the walk. *)
Lemma skip_loop_safe fuel data pos : packet data -> 0 <= pos -> Z.of_nat (length data) - pos < Z.of_nat fuel -> (0 < fuel)%nat ->
  exists r, skip_loop fuel data pos = Ret r /\ forall p, r = Some p -> pos < p <= Z.of_nat (length data) + 1.
Proof.
  intros Hd. revert pos. induction fuel as [|fuel IH]; intros pos Hp Hf H0; [lia|]. cbn [skip_loop].
  assert (Z.of_nat (length data) < 65536) as Hl by apply Hd.
  destruct (Z.leb_spec (Z.of_nat (length data)) pos) as [|Hlt]; [by exists None|].
  destruct (packet_idx data pos Hd ltac:(lia)) as (len & -> & _ & Hr). cbn [mbind outcome_mbind].
  destruct (len =? 0); [rewrite cadd_le by (unfold u64_max; lia); eexists; split; [done|intros p [= <-]; lia]|].
  destruct (Z.land len 192 =? 192); [rewrite cadd_le by (unfold u64_max; lia); eexists; split; [done|intros p [= <-]; lia]|].
  rewrite cadd_le by (unfold u64_max; lia). cbn [mbind outcome_mbind].
  destruct (IH (pos + (1 + len))) as (r & -> & Hr'); [lia|lia|lia|]. exists r. split; [done|]. intros p E. specialize (Hr' p E). lia.
Qed.

Lemma skip_name_safe data pos : packet data -> 0 <= pos ->
  exists r, skip_name data pos = Ret r /\ forall p, r = Some p -> pos < p <= Z.of_nat (length data) + 1.
Proof. intros Hd Hp. apply skip_loop_safe; [done|done|lia|lia]. Qed.

(** What the parser may answer: nothing, or four bytes that lie in the packet. *)
Definition from_packet data (r : option (list Z)) : Prop :=
  match r with Some ip => exists at_ : nat, slice data at_ (at_ + 4) = Ret ip | None => True end.

Lemma slice_4 data (k : nat) a b c d :
  data !! k = Some a -> data !! (k + 1)%nat = Some b -> data !! (k + 2)%nat = Some c -> data !! (k + 3)%nat = Some d ->
  slice data k (k + 4) = Ret [a; b; c; d].
Proof.
  intros Ha Hb Hc Hd. apply lookup_lt_Some in Hd as Hl. rewrite slice_le by lia. f_equal.
  replace (k + 4 - k)%nat with 4%nat by lia.
  rewrite Nat.add_1_r in Hb. replace (k + 2)%nat with (S (S k)) in Hc by lia. replace (k + 3)%nat with (S (S (S k))) in Hd by lia.
  by rewrite (drop_S _ a k Ha), (drop_S _ b (S k) Hb), (drop_S _ c (S (S k)) Hc), (drop_S _ d (S (S (S k))) Hd).
Qed.

Lemma answers_safe n data pos : packet data -> 0 <= pos -> exists r, answers n data pos = Ret r /\ from_packet data r.
Proof.
  intros Hd. assert (Z.of_nat (length data) < 65536) as Hl by apply Hd.
  revert pos. induction n as [|n IH]; intros pos Hp; cbn [answers]; [by exists None|].
  destruct (skip_name_safe data pos Hd Hp) as ([p|] & -> & Hs); cbn [mbind outcome_mbind]; [|by exists None]. specialize (Hs p eq_refl).
  rewrite cadd_le by (unfold u64_max; lia). cbn [mbind outcome_mbind].
  destruct (Z.ltb_spec (Z.of_nat (length data)) (p + 10)) as [|Hle]; [by exists None|].
  destruct (packet_be16 data p Hd ltac:(lia) ltac:(lia)) as (rtype & -> & _).
  destruct (packet_be16 data (p + 8) Hd ltac:(lia) ltac:(lia)) as (rdlen & -> & Hr). cbn [mbind outcome_mbind].
  destruct ((rtype =? 1) && (rdlen =? 4)).
  1: rewrite (cadd_le _ (p + 10) 4) by (unfold u64_max; lia); cbn [mbind outcome_mbind];
     destruct (Z.leb_spec (p + 10 + 4) (Z.of_nat (length data))) as [Hin|].
  - destruct (packet_idx data (p + 10) Hd ltac:(lia)) as (a & -> & La & _). destruct (packet_idx data (p + 10 + 1) Hd ltac:(lia)) as (b & -> & Lb & _).
    destruct (packet_idx data (p + 10 + 2) Hd ltac:(lia)) as (c & -> & Lc & _). destruct (packet_idx data (p + 10 + 3) Hd ltac:(lia)) as (d & -> & Ld & _).
    eexists. split; [reflexivity|]. exists (Z.to_nat (p + 10)). apply slice_4; [done|rewrite <- Lb|rewrite <- Lc|rewrite <- Ld]; f_equal; lia.
  - rewrite cadd_le by (unfold u64_max; lia). apply IH. lia.
  - rewrite cadd_le by (unfold u64_max; lia). apply IH. lia.
Qed.

Lemma parse_response_safe data : packet data -> exists r, parse_response data = Ret r /\ from_packet data r.
Proof.
  intros Hd. assert (Z.of_nat (length data) < 65536) as Hl by apply Hd. unfold parse_response.
  destruct (Z.ltb_spec (Z.of_nat (length data)) 12) as [|Hge]; [by exists None|].
  destruct (packet_be16 data 2 Hd ltac:(lia) ltac:(lia)) as (flags & -> & _). cbn [mbind outcome_mbind].
  destruct (Z.land flags 32768 =? 0); [by exists None|]. destruct (negb (Z.land flags 15 =? 0)); [by exists None|].
  destruct (packet_be16 data 6 Hd ltac:(lia) ltac:(lia)) as (ancount & -> & _). cbn [mbind outcome_mbind].
  destruct (ancount =? 0); [by exists None|].
  destruct (skip_name_safe data 12 Hd ltac:(lia)) as ([p|] & -> & Hs); cbn [mbind outcome_mbind]; [|by exists None]. specialize (Hs p eq_refl).
  rewrite cadd_le by (unfold u64_max; lia). cbn [mbind outcome_mbind]. apply answers_safe; [done|lia].
Qed.

(** ** The query on the wire *)

(** The parts of a name between its dots, empty ones included. *)
Fixpoint split_dots (s : list Z) : list (list Z) :=
  match s with
  | [] => [[]]
  | c :: s' => if c =? 46 then [] :: split_dots s' else match split_dots s' with l :: ls => (c :: l) :: ls | [] => [[c]] end
  end.
(** A label is its length and its bytes; an empty part is left out. *)
Definition label (l : list Z) : list Z := match l with [] => [] | _ => Z.of_nat (length l) :: l end.
Definition labels (ls : list (list Z)) : list Z := concat (map label ls).
(** The question: the name, the root label, type A and class IN. *)
Definition question host : list Z := labels (split_dots host) ++ [0; 0; 1; 0; 1].
(** Identification 0xABCD, recursion desired, one question. *)
Definition query host : list Z := [0xAB; 0xCD; 1; 0; 0; 1; 0; 0; 0; 0; 0; 0] ++ question host.

Lemma length_label l : (length (label l) <= S (length l))%nat.
Proof. destruct l; cbn; lia. Qed.

Lemma split_dots_cons s : exists l ls, split_dots s = l :: ls.
Proof. destruct s as [|c s]; cbn [split_dots]; [eauto|]. destruct (c =? 46); [eauto|]. destruct (split_dots s); eauto. Qed.

Lemma length_labels s : (length (labels (split_dots s)) <= S (length s))%nat.
Proof.
  enough (forall l ls, split_dots s = l :: ls -> (S (length l) + length (labels ls) <= S (length s))%nat) as H.
  { destruct (split_dots_cons s) as (l & ls & E). specialize (H l ls E). rewrite E. unfold labels. cbn [map concat]. rewrite length_app. pose proof (length_label l). unfold labels in H. lia. }
  induction s as [|c s IH]; intros l ls; cbn [split_dots]; [intros [= <- <-]; cbn; lia|].
  destruct (split_dots_cons s) as (l' & ls' & E). rewrite E in IH |- *. specialize (IH l' ls' eq_refl). destruct (c =? 46); intros [= <- <-]; cbn [length].
  - unfold labels in *. cbn [map concat]. rewrite length_app. pose proof (length_label l'). lia.
  - lia.
Qed.

Lemma put_byte_splice x (pos : nat) (b : list Z) : (pos < length b)%nat -> put_byte x (pos, b) = Ret (S pos, splice b pos [x]).
Proof. intros H. unfold put_byte. rewrite set_idx_lt by done. cbn. by rewrite insert_splice. Qed.

Lemma put_label_splice seg (pos : nat) (b : list Z) : (length seg < 256)%nat -> (pos + length (label seg) <= length b)%nat ->
  put_label seg (pos, b) = Ret ((pos + length (label seg))%nat, splice b pos (label seg)).
Proof.
  intros Hs Hb. destruct seg as [|c seg]; [cbn; by rewrite splice_nil, Nat.add_0_r|]. unfold put_label, label in *. set (l := c :: seg) in *.
  cbn [length] in Hb. rewrite put_byte_splice by lia. cbn [mbind outcome_mbind].
  rewrite copy_at_le by (rewrite length_splice; cbn [length]; lia). cbn [mbind outcome_mbind length].
  unfold wrap. rewrite Z.mod_small by lia. replace (S pos) with (pos + length [Z.of_nat (length l)])%nat by (cbn [length]; lia).
  rewrite splice_app by (cbn [length]; lia). cbn [app length]. do 2 f_equal. lia.
Qed.

(** The scan has passed [pre], a prefix that ends with a dot, and the part [seg] so far. *)
Lemma put_labels_splice rest pre seg (pos : nat) (b : list Z) l ls : split_dots rest = l :: ls ->
  (length seg + length rest < 256)%nat -> (pos + length (labels ((seg ++ l) :: ls)) <= length b)%nat ->
  put_labels (pre ++ seg ++ rest) (length pre) (length pre + length seg) (S (length rest)) (pos, b)
    = Ret ((pos + length (labels ((seg ++ l) :: ls)))%nat, splice b pos (labels ((seg ++ l) :: ls))).
Proof.
  revert pre seg pos b l ls. induction rest as [|c rest IH]; intros pre seg pos b l ls Hsp Hlen Hb.
  - injection Hsp as <- <-. cbn [put_labels length]. rewrite !app_nil_r in *. unfold labels in *. cbn [map concat] in *. rewrite app_nil_r in *.
    rewrite length_app, Nat.eqb_refl. cbn [mbind outcome_mbind]. rewrite slice_le by (rewrite length_app; lia). cbn [mbind outcome_mbind].
    rewrite drop_app_length, take_ge by lia. rewrite put_label_splice by lia. done.
  - cbn [length]. remember (S (length rest)) as n eqn:En. cbn [put_labels]. subst n.
    destruct (Nat.eqb_spec (length pre + length seg) (length (pre ++ seg ++ c :: rest))) as [E|_]; [rewrite !length_app in E; cbn [length] in E; lia|].
    assert (idx (pre ++ seg ++ c :: rest) (length pre + length seg) = Ret c) as ->.
    { apply idx_Ret. rewrite lookup_app_r, lookup_app_r by lia. by replace (length pre + length seg - length pre - length seg)%nat with 0%nat by lia. }
    cbn [mbind outcome_mbind split_dots] in Hsp |- *. destruct (split_dots_cons rest) as (l' & ls' & E). rewrite E in Hsp.
    destruct (c =? 46); injection Hsp as <- <-.
    + rewrite slice_le by (rewrite !length_app; cbn [length]; lia). cbn [mbind outcome_mbind].
      rewrite drop_app_length, take_app_length' by lia. rewrite app_nil_r in *. unfold labels in Hb. cbn [map concat] in Hb. rewrite length_app in Hb.
      rewrite put_label_splice by (cbn [length] in *; lia). cbn [mbind outcome_mbind].
      pose proof (IH (pre ++ seg ++ [c]) [] (pos + length (label seg))%nat (splice b pos (label seg)) l' ls' E) as IH'. cbn [app length] in IH'.
      rewrite !length_app, Nat.add_0_r, <- !app_assoc in IH'. cbn [length app] in IH'.
      replace (S (length pre + length seg)) with (length pre + (length seg + 1))%nat by lia.
      rewrite IH'; [|cbn [length] in Hlen; lia|rewrite length_splice by lia; unfold labels; cbn [map concat]; rewrite length_app in *; lia].
      rewrite splice_app by lia. change (labels (seg :: l' :: ls')) with (label seg ++ labels (l' :: ls')). rewrite length_app. do 2 f_equal. lia.
    + rewrite <- Nat.add_succ_r. pose proof (IH pre (seg ++ [c]) pos b l' ls' E) as IH'. rewrite length_app, <- !app_assoc in IH'. cbn [app length] in IH'.
      rewrite Nat.add_1_r in IH'. cbn [length] in Hlen. apply IH'; [lia|done].
Qed.

Lemma build_query_encodes host : (length host <= 253)%nat ->
  build_query host (replicate 512 0) = Ret (length (query host), query host ++ replicate (512 - length (query host)) 0).
Proof.
  intros Hh. destruct (split_dots_cons host) as (l & ls & E). pose proof (length_labels host) as Hl. unfold build_query.
  set (hdr := [171; 205; 1; 0; 0; 1; 0; 0; 0; 0; 0; 0]). rewrite copy_at_le by (rewrite length_replicate; cbn [length hdr]; lia). cbn [mbind outcome_mbind].
  assert (length (splice (replicate 512 0) 0 hdr) = 512%nat) as Hz by (rewrite length_splice; rewrite length_replicate; cbn [length hdr]; lia).
  rewrite (put_labels_splice host [] [] 12 _ l ls E) by (cbn [length app]; rewrite <- ?E; lia). cbn [mbind outcome_mbind app]. rewrite <- E.
  set (e := labels (split_dots host)) in *.
  replace (splice (splice (replicate 512 0) 0 hdr) 12 e) with (splice (replicate 512 0) 0 (hdr ++ e)) by (symmetry; apply (splice_app _ 0 hdr); rewrite length_replicate; cbn [length hdr]; lia).
  assert (forall x p k, length p = k -> (k < 512)%nat ->
    put_byte x (k, splice (replicate 512 0) 0 p) = Ret (S k, splice (replicate 512 0) 0 (p ++ [x]))) as Hput.
  { intros x p k <- Hk. rewrite put_byte_splice by (rewrite length_splice; rewrite length_replicate; lia). do 2 f_equal. apply (splice_app _ 0 p). rewrite length_replicate. lia. }
  assert (length hdr = 12%nat) as H12 by done.
  do 5 (rewrite Hput; [cbn [mbind outcome_mbind]|rewrite ?length_app; cbn [length]; lia|lia]). unfold query, question. fold e. change [171; 205; 1; 0; 0; 1; 0; 0; 0; 0; 0; 0] with hdr.
  rewrite <- !app_assoc. cbn [app]. f_equal. f_equal; [rewrite !length_app; cbn [length]; lia|].
  unfold splice. by rewrite take_0, drop_replicate, app_nil_l, Nat.add_0_l, <- !app_assoc.
Qed.

(** ** Replies *)

Definition be2 (x : Z) : list Z := [x / 256; x mod 256].
(** A name in a packet: labels of 1 to 63 bytes, ended by the root label or by a pointer. *)
Definition name_end (t : list Z) : Prop := t = [0] \/ exists hi lo, t = [hi; lo] /\ Z.land hi 0xC0 = 0xC0.
Definition short_labels (ls : list (list Z)) : Prop := Forall (fun l => (length l <= 63)%nat) ls.
Record record := mkRecord { rname : list (list Z); rend : list Z; rtype : Z; rmiddle : list Z; rdata : list Z }.
Definition record_bytes (r : record) : list Z :=
  labels (rname r) ++ rend r ++ be2 (rtype r) ++ rmiddle r ++ be2 (Z.of_nat (length (rdata r))) ++ rdata r.
(** The class and the time to live take six bytes. *)
Definition record_ok (r : record) : Prop :=
  short_labels (rname r) /\ name_end (rend r) /\ 0 <= rtype r < 65536 /\ length (rmiddle r) = 6%nat /\ Z.of_nat (length (rdata r)) < 65536.
(** The first record that holds an IPv4 address. *)
Fixpoint first_address (rs : list record) : option (list Z) :=
  match rs with
  | [] => None
  | r :: rs' => if (rtype r =? 1) && (length (rdata r) =? 4)%nat then Some (rdata r) else first_address rs'
  end.
(** A reply repeats the question; whatever follows the records is [rest]. *)
Definition reply (id flags : Z) host (rs : list record) (rest : list Z) : list Z :=
  be2 id ++ be2 flags ++ be2 1 ++ be2 (Z.of_nat (length rs)) ++ [0; 0; 0; 0] ++ question host ++ concat (map record_bytes rs) ++ rest.

Lemma idx_at (pre l : list Z) (pos : Z) (k : nat) : pos = Z.of_nat (length pre) + Z.of_nat k -> idx (pre ++ l) (Z.to_nat pos) = idx l k.
Proof. intros ->. unfold idx. rewrite lookup_app_r by lia. replace (Z.to_nat (Z.of_nat (length pre) + Z.of_nat k) - length pre)%nat with k by lia. done. Qed.

Lemma be16_at (pre l : list Z) pos x : pos = Z.of_nat (length pre) -> 0 <= x < 65536 -> be16 (pre ++ be2 x ++ l) pos = Ret x.
Proof.
  intros E Hx. unfold be16. rewrite (idx_at pre _ pos 0), (idx_at pre _ (pos + 1) 1) by lia. cbn. f_equal. rewrite (Z.div_mod x 256) at 3 by lia. lia.
Qed.

Lemma short_label_is_no_pointer (k : nat) : (k <= 63)%nat -> (Z.land (Z.of_nat k) 0xC0 =? 0xC0) = false.
Proof. intros Hk. do 64 (destruct k as [|k]; [reflexivity|]). lia. Qed.

(** Walking over a name ends behind it. *)
Lemma skip_loop_name ls t pre rest (fuel : nat) : short_labels ls -> name_end t -> (length (labels ls) < fuel)%nat ->
  Z.of_nat (length (pre ++ labels ls ++ t ++ rest)) < 65536 ->
  skip_loop fuel (pre ++ labels ls ++ t ++ rest) (Z.of_nat (length pre)) = Ret (Some (Z.of_nat (length (pre ++ labels ls ++ t)))).
Proof.
  revert pre fuel. induction ls as [|l ls IH]; intros pre fuel Hls Ht Hf Hlen; (destruct fuel as [|fuel]; [lia|]).
  - clear Hls. cbn [skip_loop labels map concat app] in *. rewrite !length_app in *.
    destruct Ht as [->|(hi & lo & -> & Hhi)]; cbn [length app] in *;
      rewrite (proj2 (Z.leb_gt _ _)) by lia;
      rewrite (idx_at _ _ _ 0) by lia; cbn [idx lookup list_lookup mbind outcome_mbind].
    + rewrite cadd_le by (unfold u64_max; lia). cbn [mbind outcome_mbind]. do 2 f_equal. lia.
    + destruct (Z.eqb_spec hi 0) as [->|_]; [done|]. rewrite Hhi. cbn [Z.eqb]. rewrite cadd_le by (unfold u64_max; lia). cbn [mbind outcome_mbind]. do 2 f_equal. lia.
  - apply Forall_cons_1 in Hls as [Hl Hls]. change (labels (l :: ls)) with (label l ++ labels ls) in *. destruct l as [|c l].
    + cbn [label app] in *. apply IH; done.
    + set (q := c :: l) in *. change (label q) with (Z.of_nat (length q) :: q) in *. assert (1 <= length q)%nat as Hq by (subst q; cbn; lia).
      cbn [skip_loop]. cbn [app] in *. rewrite !length_app in *. cbn [length] in *. rewrite !length_app in *.
      rewrite (proj2 (Z.leb_gt _ _)) by lia.
      rewrite (idx_at _ _ _ 0) by lia. cbn [idx lookup list_lookup mbind outcome_mbind].
      destruct (Z.eqb_spec (Z.of_nat (length q)) 0) as [E|_]; [lia|]. rewrite short_label_is_no_pointer by done. rewrite cadd_le by (unfold u64_max; lia). cbn [mbind outcome_mbind].
      pose proof (IH (pre ++ Z.of_nat (length q) :: q) fuel Hls Ht ltac:(lia)) as IH'. rewrite <- !app_assoc in IH'. cbn [app] in IH'. rewrite <- ?app_assoc in IH'. rewrite <- ?app_assoc.
      rewrite !length_app in IH'. cbn [length] in IH'. rewrite !length_app in IH'.
      replace (Z.of_nat (length pre) + (1 + Z.of_nat (length q))) with (Z.of_nat (length pre + S (length q))) by lia.
      rewrite IH' by lia. do 2 f_equal. lia.
Qed.

Lemma skip_name_at pre ls t rest pos : short_labels ls -> name_end t -> pos = Z.of_nat (length pre) ->
  Z.of_nat (length (pre ++ labels ls ++ t ++ rest)) < 65536 ->
  skip_name (pre ++ labels ls ++ t ++ rest) pos = Ret (Some (Z.of_nat (length (pre ++ labels ls ++ t)))).
Proof. intros Hls Ht -> Hl. apply skip_loop_name; [done|done| |done]. rewrite !length_app. lia. Qed.

Lemma answers_records rs pre rest pos : Forall record_ok rs -> pos = Z.of_nat (length pre) ->
  Z.of_nat (length (pre ++ concat (map record_bytes rs) ++ rest)) < 65536 ->
  answers (length rs) (pre ++ concat (map record_bytes rs) ++ rest) pos = Ret (first_address rs).
Proof.
  intros Hrs. revert pre pos. induction Hrs as [|r rs (Hn & He & Ht & Hm & Hd) Hrs IH]; intros pre pos -> Hl; [done|].
  cbn [length answers map concat first_address] in *. set (more := concat (map record_bytes rs) ++ rest).
  assert (forall p, p ++ (record_bytes r ++ concat (map record_bytes rs)) ++ rest = p ++ record_bytes r ++ more) as E by (intros; subst more; by rewrite <- !app_assoc).
  rewrite E in Hl |- *. specialize (IH (pre ++ record_bytes r) _ eq_refl). rewrite <- app_assoc in IH. fold more in IH. specialize (IH Hl).
  unfold record_bytes in *. rewrite <- !app_assoc in *. set (name := pre ++ labels (rname r) ++ rend r) in *.
  rewrite skip_name_at by done. fold name. cbn [mbind outcome_mbind].
  assert (pre ++ labels (rname r) ++ rend r ++ be2 (rtype r) ++ rmiddle r ++ be2 (Z.of_nat (length (rdata r))) ++ rdata r ++ more
    = name ++ be2 (rtype r) ++ rmiddle r ++ be2 (Z.of_nat (length (rdata r))) ++ rdata r ++ more) as E2 by (subst name; by rewrite <- !app_assoc).
  rewrite E2 in *. set (data := name ++ be2 (rtype r) ++ rmiddle r ++ be2 (Z.of_nat (length (rdata r))) ++ rdata r ++ more) in *.
  assert (length data = length name + 10 + length (rdata r) + length more)%nat as Hdata by (subst data; rewrite !length_app, Hm; cbn [length be2]; lia).
  rewrite cadd_le by (unfold u64_max; lia). cbn [mbind outcome_mbind]. rewrite (proj2 (Z.ltb_ge _ _)) by lia.
  assert (be16 data (Z.of_nat (length name)) = Ret (rtype r)) as -> by (by apply be16_at). cbn [mbind outcome_mbind].
  assert (be16 data (Z.of_nat (length name) + 8) = Ret (Z.of_nat (length (rdata r)))) as ->.
  { subst data. rewrite (app_assoc (be2 _)), (app_assoc name). apply be16_at; [|lia]. rewrite !length_app, Hm. cbn [length be2]. lia. }
  cbn [mbind outcome_mbind]. replace (Z.of_nat (length (rdata r)) =? 4) with (length (rdata r) =? 4)%nat by (destruct (Nat.eqb_spec (length (rdata r)) 4), (Z.eqb_spec (Z.of_nat (length (rdata r))) 4); first [done|lia]).
  assert (Z.of_nat (length name) + 10 + Z.of_nat (length (rdata r)) = Z.of_nat (length (pre ++ labels (rname r) ++ rend r ++ be2 (rtype r) ++ rmiddle r ++ be2 (Z.of_nat (length (rdata r))) ++ rdata r))) as Hnext
    by (subst name; rewrite !length_app, Hm; cbn [length be2]; lia).
  destruct ((rtype r =? 1) && (length (rdata r) =? 4)%nat) eqn:Ea.
  - rewrite (cadd_le _ (Z.of_nat (length name) + 10) 4) by (unfold u64_max; lia). bool_simpl. cbn [mbind outcome_mbind]. rewrite (proj2 (Z.leb_le _ _)) by lia.
    assert (data = (name ++ be2 (rtype r) ++ rmiddle r ++ be2 (Z.of_nat (length (rdata r)))) ++ rdata r ++ more) as -> by (subst data; by rewrite <- !app_assoc).
    set (p := Z.of_nat (length name) + 10). rewrite (idx_at _ _ p 0), (idx_at _ _ (p + 1) 1), (idx_at _ _ (p + 2) 2), (idx_at _ _ (p + 3) 3) by (rewrite !length_app, Hm; cbn [length be2]; lia).
    destruct (rdata r) as [|a [|b [|c [|d [|]]]]]; try discriminate. done.
  - cbn [mbind outcome_mbind]. rewrite cadd_le by (unfold u64_max; lia). cbn [mbind outcome_mbind]. rewrite Hnext. apply IH.
Qed.

Lemma parse_reply id flags host rs rest : short_labels (split_dots host) -> Forall record_ok rs -> 0 <= flags < 65536 ->
  Z.of_nat (length (reply id flags host rs rest)) < 65536 ->
  parse_response (reply id flags host rs rest)
    = Ret (if negb (Z.land flags 0x8000 =? 0) && (Z.land flags 0x000F =? 0) then first_address rs else None).
Proof.
  intros Hs Hrs Hf Hl. assert (Z.of_nat (length rs) < 65536) as Hn.
  { unfold reply in Hl. rewrite !length_app in Hl. assert (length rs <= length (concat (map record_bytes rs)))%nat; [|lia].
    clear - Hrs. induction Hrs as [|r rs (_ & _ & _ & Hm & _) _ IH]; [done|]. cbn [map concat length]. unfold record_bytes at 1. rewrite !length_app. cbn [length be2]. lia. }
  set (tail := question host ++ concat (map record_bytes rs) ++ rest) in Hl.
  assert (12 + length tail = length (reply id flags host rs rest))%nat as Hlen by (subst tail; unfold reply; rewrite !length_app; cbn [length be2]; lia).
  unfold parse_response. rewrite (proj2 (Z.ltb_ge _ _)) by lia.
  assert (be16 (reply id flags host rs rest) 2 = Ret flags) as -> by (unfold reply; apply (be16_at (be2 id)); [done|lia]). cbn [mbind outcome_mbind].
  destruct (Z.land flags 32768 =? 0); [done|]. cbn [negb andb]. destruct (Z.land flags 15 =? 0); [|done]. cbn [negb].
  assert (be16 (reply id flags host rs rest) 6 = Ret (Z.of_nat (length rs))) as ->.
  { unfold reply. rewrite (app_assoc (be2 flags)), (app_assoc (be2 id)). apply be16_at; [done|lia]. }
  cbn [mbind outcome_mbind]. destruct (Z.eqb_spec (Z.of_nat (length rs)) 0) as [E|_]; [by destruct rs|].
  set (hdr := be2 id ++ be2 flags ++ be2 1 ++ be2 (Z.of_nat (length rs)) ++ [0; 0; 0; 0]).
  set (recs := concat (map record_bytes rs) ++ rest).
  assert (reply id flags host rs rest = hdr ++ labels (split_dots host) ++ [0] ++ [0; 1; 0; 1] ++ recs) as E1
    by (unfold reply, question, hdr, recs; by rewrite <- !app_assoc).
  assert (reply id flags host rs rest = (hdr ++ labels (split_dots host) ++ [0; 0; 1; 0; 1]) ++ recs) as E2
    by (rewrite E1, <- !app_assoc; reflexivity).
  assert (exists p, skip_name (reply id flags host rs rest) 12 = Ret (Some p) /\ p = Z.of_nat (length hdr + length (labels (split_dots host)) + 1)) as (p & -> & Hp).
  { eexists. split; [|done]. rewrite E1 in Hl |- *. rewrite skip_name_at; [|done|by left|done|done]. rewrite !length_app. cbn [length]. do 3 f_equal; lia. }
  cbn [mbind outcome_mbind]. rewrite E2 in Hl |- *.
  rewrite cadd_le by (rewrite !length_app in Hl; unfold u64_max; cbn [length] in Hl; lia). cbn [mbind outcome_mbind]. rewrite Nat2Z.id.
  apply answers_records; [done| |done]. rewrite !length_app. cbn [length]. lia.
Qed.

(** ** Dotted addresses *)

(** A byte in decimal, without leading zeros. *)
Definition decimal (a : Z) : list Z :=
  if a <? 10 then [48 + a] else if a <? 100 then [48 + a / 10; 48 + a mod 10] else [48 + a / 100; 48 + a / 10 mod 10; 48 + a mod 10].
Definition dotted (a b c d : Z) : list Z := decimal a ++ [46] ++ decimal b ++ [46] ++ decimal c ++ [46] ++ decimal d.

Lemma octets_digit x s dn cur h : 0 <= x < 10 -> cur * 10 + x <= 255 -> octets (48 + x :: s) dn cur h = octets s dn (cur * 10 + x) true.
Proof.
  intros Hx Hc. cbn [octets]. unfold is_digit. rewrite (proj2 (Z.eqb_neq _ _)), !(proj2 (Z.leb_le _ _)), (proj2 (Z.ltb_ge _ _)) by lia.
  cbn [andb]. f_equal. lia.
Qed.

Lemma octets_decimal a s dn : is_byte a -> octets (decimal a ++ s) dn 0 false = octets s dn a true.
Proof.
  unfold is_byte, decimal. intros Ha. pose proof (Z.mod_pos_bound a 10 ltac:(lia)). pose proof (Z.mod_pos_bound (a / 10) 10 ltac:(lia)).
  pose proof (Z.div_mod a 10 ltac:(lia)). pose proof (Z.div_mod (a / 10) 10 ltac:(lia)) as H3. rewrite Z.div_div in H3 by lia. change (10 * 10) with 100 in H3.
  assert (0 <= a / 100 < 3) by (split; [apply Z.div_pos|apply Z.div_lt_upper_bound]; lia).
  destruct (Z.ltb_spec a 10); [|destruct (Z.ltb_spec a 100)]; cbn [app]; rewrite !octets_digit by lia; f_equal; lia.
Qed.

Lemma parse_dotted a b c d : is_byte a -> is_byte b -> is_byte c -> is_byte d -> parse_ipv4 (dotted a b c d) = Some [a; b; c; d].
Proof.
  intros Ha Hb Hc Hd. unfold parse_ipv4, dotted.
  rewrite octets_decimal by done. cbn [app octets Z.eqb Pos.eqb negb orb Nat.leb length]. rewrite octets_decimal by done. cbn [app octets Z.eqb Pos.eqb negb orb Nat.leb length].
  rewrite octets_decimal by done. cbn [app octets Z.eqb Pos.eqb negb orb Nat.leb length]. rewrite <- (app_nil_r (decimal d)), octets_decimal by done.
  cbn [octets negb orb Nat.eqb length app]. unfold wrap, is_byte in *. by rewrite !Z.mod_small by lia.
Qed.

Lemma octets_bytes s dn cur h dn' cur' h' : Forall is_byte dn -> octets s dn cur h = Some (dn', cur', h') -> Forall is_byte dn'.
Proof.
  revert dn cur h. induction s as [|b s IH]; intros dn cur h Hd E; cbn [octets] in E; [by injection E as <- <- <-|].
  destruct (b =? 46); [destruct (negb h || _); [done|]|destruct (is_digit b); [destruct (255 <? _); [done|]|done]]; (eapply IH; [|exact E]); [|done].
  apply Forall_app. split; [done|]. constructor; [|done]. apply (Z.mod_pos_bound cur 256). lia.
Qed.

Lemma parse_ipv4_packed s ip : parse_ipv4 s = Some ip -> 0 <= packed ip < 2 ^ 32.
Proof.
  unfold parse_ipv4. destruct (octets s [] 0 false) as [[[dn cur] h]|] eqn:E; [|done]. destruct (negb h || negb (length dn =? 3)%nat) eqn:E2; [done|]. intros [= <-].
  bool_simpl. apply octets_bytes in E; [|done]. pose proof (le_decode_bound (dn ++ [wrap 8 cur])) as Hb. rewrite length_app, H0 in Hb. apply Hb.
  apply Forall_app. split; [done|]. constructor; [|done]. apply (Z.mod_pos_bound cur 256). lia.
Qed.

(** ** Lookups *)

Section Lookup.
Context {N : Type} `{UdpNet N}.
Implicit Types (g : GlobalDns) (n : N) (server : list Z).

Definition good g : Prop := length (hostname g) = 253%nat /\ 0 <= polls g <= MAX_POLLS /\ (active g = true -> polls g < MAX_POLLS).
(** A query for [host] is under way and was polled [k] times. *)
Definition pending host (k : Z) g : Prop := active g = true /\ hostname_len g = length host /\ take (length host) (hostname g) = host /\ polls g = k.
Definition final (r : Z) : Prop := r = -105 \/ 0 <= r < 2 ^ 32.

Lemma packed_final data ip : packet data -> from_packet data (Some ip) -> final (packed ip).
Proof.
  intros [Hb _] [k Hs]. unfold slice in Hs. destruct ((k <=? k + 4)%nat && (k + 4 <=? length data)%nat) eqn:E; [|done]. injection Hs as <-. bool_simpl. right.
  pose proof (le_decode_bound (take (k + 4 - k) (drop k data))) as Hd. rewrite length_take, length_drop in Hd.
  replace (Nat.min (k + 4 - k) (length data - k)) with 4%nat in Hd by lia. apply Hd. by apply Forall_take, Forall_drop.
Qed.

Lemma start_query_runs host server g n : (length host <= 253)%nat -> good g ->
  exists ok g' n', start_query host server g n = Ret (ok, g', n') /\ good g' /\ (ok = true -> pending host 0 g').
Proof.
  intros Hh (H1 & H2 & H3). unfold start_query. destruct (udp_bind _ _) as [[h n1]|]; [|by do 3 eexists].
  rewrite build_query_encodes by done. cbn [mbind outcome_mbind]. rewrite slice_le by (rewrite length_app; lia). cbn [mbind outcome_mbind].
  destruct (udp_send _ _ _ _) as [[|] n2]; cbn [negb]; [|by do 3 eexists].
  do 3 eexists. split; [done|]. split.
  - split; [cbn [hostname set_handle]; rewrite length_splice; lia|]. cbn. unfold MAX_POLLS. lia.
  - intros _. split; [done|]. cbn [hostname hostname_len polls]. split; [done|]. split; [|done]. unfold splice. by rewrite take_0, app_nil_l, take_app_length.
Qed.

(** One poll keeps the state well-formed, and a poll that asks to be repeated has counted. *)
Lemma poll_once_runs host server g n : (length host <= 253)%nat -> good g ->
  exists r g' n', poll_once host server g n = Ret (r, g', n') /\ good g' /\
    ((r = -6 /\ exists k, pending host k g' /\ 1 <= k < MAX_POLLS /\ forall k0, pending host k0 g -> k = k0 + 1) \/ final r).
Proof.
  intros Hh Hg. unfold poll_once. destruct (net_up n); cbn [negb]; [|do 3 eexists; split; [done|split; [done|by right; left]]].
  set (same := active g && (hostname_len g =? length host)%nat && bool_decide (take (length host) (hostname g) = host)).
  assert (exists ok g1 n1, (if same then Ret (true, g, n) else start_query host server g n) = Ret (ok, g1, n1) /\ good g1 /\
    (ok = true -> exists k, pending host k g1 /\ forall k0, pending host k0 g -> k = k0)) as (ok & g1 & n1 & -> & Hg1 & Hp).
  { destruct same eqn:E.
    - subst same. do 3 eexists. split; [done|]. split; [done|]. intros _. bool_simpl. exists (polls g). apply bool_decide_eq_true in H1. split; [done|]. by intros k0 (_ & _ & _ & <-).
    - destruct (start_query_runs host server g n Hh Hg) as (ok & g1 & n1 & E1 & Hg1 & Hok). do 3 eexists. split; [done|]. split; [done|]. intros Ht. exists 0. split; [by apply Hok|].
      intros k0 (Ha & Hl & Ht' & _). subst same. rewrite Ha, Hl, Ht', Nat.eqb_refl, bool_decide_true in E by done. done. }
  cbn [mbind outcome_mbind]. destruct ok; cbn [negb]; [|do 3 eexists; split; [done|split; [done|by right; left]]].
  destruct (Hp eq_refl) as (k & (Ha & Hl & Ht & <-) & Hk). destruct Hg1 as (G1 & G2 & G3). specialize (G3 Ha). unfold MAX_POLLS in *.
  rewrite cadd_le by (unfold u32_max; lia). cbn [mbind outcome_mbind]. set (g2 := set_polls g1 (polls g1 + 1)).
  assert (forall h a, (a = true -> polls g1 + 1 < 300) -> good (set_handle (set_active g2 a) h)) as Hfin by (intros h a Hlt; split; [done|split; [cbn; unfold MAX_POLLS; lia|exact Hlt]]).
  change (handle g2) with (handle g1). destruct (handle g1) as [h|] eqn:Eh; [|do 3 eexists; split; [done|split; [|by right; left]]].
  2:{ change (set_active g2 false) with (mkDns false (handle g1) (hostname g1) (hostname_len g1) (polls g1 + 1)). rewrite Eh. by apply (Hfin None false). }
  destruct (udp_recv h (iface_poll n1)) as [data n2] eqn:Er.
  assert (exists ip, match data with Some data => parse_response data | None => Ret None end = Ret ip /\ forall a, ip = Some a -> final (packed a)) as (ip & -> & Hip).
  { destruct data as [data|]; [|by exists None]. destruct (udp_recv_fits h _ data n2 Er) as [Hb Hle].
    assert (packet data) as Hpk by (split; [done|lia]). destruct (parse_response_safe data Hpk) as (ip & -> & Hf). exists ip. split; [done|]. intros a ->. by apply (packed_final data). }
  cbn [mbind outcome_mbind]. destruct ip as [ip|]; [do 3 eexists; split; [done|split; [by apply Hfin|right; by apply Hip]]|].
  change (polls g2) with (polls g1 + 1). destruct (Z.leb_spec 300 (polls g1 + 1)) as [Hge|Hlt].
  - do 3 eexists. split; [done|]. split; [by apply (Hfin None false)|by right; left].
  - do 3 eexists. split; [done|]. split; [split; [done|split; [cbn; unfold MAX_POLLS; lia|done]]|]. left. split; [done|]. exists (polls g1 + 1).
    split; [done|]. split; [lia|]. intros k0 Hk0. by rewrite (Hk k0 Hk0).
Qed.
Lemma resolve_runs host server g n : good g ->
  exists r g' n', resolve host server g n = Ret (r, g', n') /\ good g' /\
    ((r = -6 /\ exists k, pending host k g' /\ 1 <= k < MAX_POLLS /\ forall k0, pending host k0 g -> k = k0 + 1) \/ final r).
Proof.
  intros Hg. unfold resolve. destruct ((length host =? 0)%nat || (253 <? length host)%nat) eqn:E; [do 3 eexists; split; [done|split; [done|by right; left]]|].
  bool_simpl. destruct (parse_ipv4 host) as [ip|] eqn:Ep; [|by apply poll_once_runs].
  do 3 eexists. split; [done|]. split; [done|]. right. right. by apply (parse_ipv4_packed host).
Qed.

(** What the callers do: ask again while the answer is EAGAIN. Between the calls the network and
    the configured server may change in any way. *)
Fixpoint retry (fuel : nat) (world : nat -> N -> N) (server : nat -> list Z) host g n : outcome (option (Z * GlobalDns * N)) :=
  match fuel with
  | O => Ret None
  | S fuel' =>
    let! (r, g, n) := resolve host (server fuel') g (world fuel' n) in
    if r =? -6 then retry fuel' world server host g n else Ret (Some (r, g, n))
  end.

(** The states the resolver gets into: calls for any names, in any order, on any network. *)
Inductive reached : GlobalDns -> Prop :=
| reached_boot : reached GDNS
| reached_call g host server n r g' n' : reached g -> resolve host server g n = Ret (r, g', n') -> reached g'.

Lemma reached_good g : reached g -> good g.
Proof.
  induction 1 as [|g host server n r g' n' _ IH E]; [done|].
  destruct (resolve_runs host server g n IH) as (r1 & g1 & n1 & E1 & Hg & _). rewrite E in E1. by injection E1 as <- <- <-.
Qed.

Lemma retry_ends fuel world (server : nat -> list Z) host g n k : good g -> pending host k g -> MAX_POLLS - k <= Z.of_nat fuel ->
  exists r g' n', retry fuel world server host g n = Ret (Some (r, g', n')) /\ final r /\ good g'.
Proof.
  revert g n k. induction fuel as [|fuel IH]; intros g n k Hg Hp Hf.
  - destruct Hg as (_ & _ & Hlt), Hp as (Ha & _ & _ & Hk). specialize (Hlt Ha). lia.
  - cbn [retry]. destruct (resolve_runs host (server fuel) g (world fuel n) Hg) as (r & g' & n' & -> & Hg' & Hr). cbn [mbind outcome_mbind].
    destruct Hr as [(-> & k' & Hp' & Hk' & Hcount)|Hfin].
    + cbn [Z.eqb Pos.eqb]. apply (IH g' n' k'); [done|done|]. specialize (Hcount k Hp). lia.
    + destruct (Z.eqb_spec r (-6)) as [->|_]; [destruct Hfin; lia|]. by exists r, g', n'.
Qed.

(** The first call may start a query; the others are counted. *)
Lemma retry_300_ends fuel world (server : nat -> list Z) host g n : good g -> MAX_POLLS <= Z.of_nat (S fuel) ->
  exists r g' n', retry (S fuel) world server host g n = Ret (Some (r, g', n')) /\ final r.
Proof.
  intros Hg Hf. cbn [retry]. destruct (resolve_runs host (server fuel) g (world fuel n) Hg) as (r & g' & n' & -> & Hg' & Hr). cbn [mbind outcome_mbind].
  destruct Hr as [(-> & k & Hp & Hk & _)|Hfin].
  - cbn [Z.eqb Pos.eqb]. destruct (retry_ends fuel world server host g' n' k) as (r & g2 & n2 & E & Hr & _); [done|done|lia|]. by exists r, g2, n2.
  - destruct (Z.eqb_spec r (-6)) as [->|_]; [destruct Hfin; lia|]. by exists r, g', n'.
Qed.
End Lookup.

Lemma bytes_by_test data : forallb (fun b => (0 <=? b) && (b <? 256)) data = true -> Forall is_byte data.
Proof. intros H. apply Forall_forall. intros x Hx. apply list_elem_of_In in Hx. rewrite forallb_forall in H. specialize (H x Hx). by bool_simpl. Qed.

(** C18: Whatever the network delivers, reading it as a reply neither aborts the kernel nor looks
    outside of the datagram: every byte string of less than 64 KiB, truncated, hostile or made of
    endless names, gives an answer in bounded time, and an address that is found is four
    consecutive bytes of that datagram. *)
Theorem no_datagram_aborts_the_kernel data : Forall is_byte data -> Z.of_nat (length data) < 65536 ->
  exists r, parse_response data = Ret r /\ from_packet data r.
Proof. intros Hb Hl. by apply parse_response_safe. Qed.

Lemma no_datagram_aborts_the_kernel_witness :
  let data := [0xAB; 0xCD; 0x81; 0x80; 0; 1; 0xFF; 0xFF; 0; 0; 0; 0; 0; 0; 1; 0; 1; 0xC0; 0x0C; 0; 1; 0; 1; 0; 0; 0; 60; 0; 4; 10; 0; 2; 15] in
  Forall is_byte data /\ exists r, parse_response data = Ret r /\ from_packet data r.
Proof. split; [by apply bytes_by_test|]. apply no_datagram_aborts_the_kernel; [by apply bytes_by_test|cbn [length]; lia]. Defined.

(** C17: Asking for a name of at most 253 bytes puts exactly the standard query on the wire (the
    header, one label for every non-empty part of the name, the root label, type A and class IN,
    then zeros). When its labels have at most 63 bytes, every complete reply that repeats the
    question, with any records under plain or compressed names and whatever behind them, is read
    as the first IPv4 address among its records, unless its flags say that it is no response or an
    error. The identification is free: a reply to another query is read as well. *)
Theorem a_reply_gives_its_first_address host id flags rs rest : (length host <= 253)%nat -> short_labels (split_dots host) ->
  Forall record_ok rs -> 0 <= flags < 65536 -> Z.of_nat (length (reply id flags host rs rest)) < 65536 ->
  build_query host (replicate 512 0) = Ret (length (query host), query host ++ replicate (512 - length (query host)) 0) /\
  parse_response (reply id flags host rs rest)
    = Ret (if negb (Z.land flags 0x8000 =? 0) && (Z.land flags 0x000F =? 0) then first_address rs else None).
Proof. intros. split; [by apply build_query_encodes|by apply parse_reply]. Qed.

(** "a.io", an alias followed by an address. *)
Lemma a_reply_gives_its_first_address_witness :
  let host := [97; 46; 105; 111] in
  let rs := [mkRecord [] [0xC0; 0x0C] 5 [0; 1; 0; 0; 0; 60] [1; 98; 0]; mkRecord [[98]] [0] 1 [0; 1; 0; 0; 0; 60] [10; 0; 2; 15]] in
  parse_response (reply 0xABCD 0x8180 host rs []) = Ret (Some [10; 0; 2; 15]).
Proof.
  intros host rs. destruct (a_reply_gives_its_first_address host 0xABCD 0x8180 rs []) as [_ E]; [cbn; lia| | |lia|cbn; lia|exact E].
  - repeat constructor; cbn; lia.
  - apply Forall_cons. split; [|apply Forall_cons; split; [|done]].
    + split; [constructor|]. split; [right; by exists 0xC0, 0x0C|cbn; lia].
    + split; [repeat constructor; cbn; lia|]. split; [by left|cbn; lia].
Defined.

(** C16: Whatever the network does, a lookup ends. In every state the resolver gets into, asking
    for a name again and again while the answer is EAGAIN gives, after at most 300 calls and
    without ever aborting the kernel, an address that fits 32 bits or the error ENONET, however
    the network and the configured server change between the calls and whatever the datagrams
    hold. *)
Theorem every_lookup_ends {N : Type} `{UdpNet N} g (world : nat -> N -> N) server host (n : N) : reached (N := N) g ->
  exists r g' n', retry 300 world server host g n = Ret (Some (r, g', n')) /\ final r.
Proof. intros Hg%reached_good. by apply (retry_300_ends 299). Qed.

(** A network that takes every query and never answers. *)
Lemma every_lookup_ends_witness :
  let Silent := {| net_up := fun _ : unit => true; timestamp_millis := fun _ => 1234; udp_bind := fun p n => Some (p, n);
    udp_send := fun _ _ _ n => (true, n); iface_poll := fun n => n; udp_recv := fun _ n => (None, n); socket_remove := fun _ n => n;
    udp_recv_fits := fun _ _ _ _ E => match E with end |} in
  exists r g' n', retry (H := Silent) 300 (fun _ n => n) (fun _ => [10; 0; 2; 3]) [97; 46; 105; 111] GDNS tt = Ret (Some (r, g', n')) /\ final r.
Proof. intros Silent. apply (every_lookup_ends (N := unit)). apply reached_boot. Defined.

(** A dotted address is read as the four numbers that were written, and asking for it answers
    at once, in little-endian order, without touching the network or the query under way. *)
Theorem dotted_addresses_need_no_network {N : Type} `{UdpNet N} a b c d server g (n : N) : is_byte a -> is_byte b -> is_byte c -> is_byte d ->
  parse_ipv4 (dotted a b c d) = Some [a; b; c; d] /\ resolve (dotted a b c d) server g n = Ret (a + 256 * (b + 256 * (c + 256 * d)), g, n).
Proof.
  intros Ha Hb Hc Hd. split; [by apply parse_dotted|]. unfold resolve. rewrite parse_dotted by done.
  assert (forall x, 1 <= length (decimal x) <= 3)%nat as Hx by (intros x; unfold decimal; destruct (x <? 10); [cbn; lia|destruct (x <? 100); cbn; lia]).
  pose proof (Hx a). pose proof (Hx b). pose proof (Hx c). pose proof (Hx d).
  rewrite (proj2 (Nat.eqb_neq _ _)), (proj2 (Nat.ltb_ge _ _)) by (unfold dotted; rewrite !length_app; cbn [length]; lia). cbn [orb]. do 3 f_equal. cbn [packed le_decode]. lia.
Qed.

Lemma dotted_addresses_need_no_network_witness :
  parse_ipv4 (dotted 10 0 2 15) = Some [10; 0; 2; 15].
Proof.
  assert (forall x, 0 <= x < 256 -> is_byte x) as B by done.
  destruct (dotted_addresses_need_no_network (N := unit) (H := {| net_up := fun _ => false; timestamp_millis := fun _ => 0; udp_bind := fun _ _ => None;
    udp_send := fun _ _ _ n => (false, n); iface_poll := fun n => n; udp_recv := fun _ n => (None, n); socket_remove := fun _ n => n;
    udp_recv_fits := fun _ _ _ _ E => match E with end |}) 10 0 2 15 [] GDNS tt) as [E _]; [apply B; lia..|exact E].
Defined.
End dns_spec.
